(* ===== verification/_CoqProject ===== *)
-Q . S2P
Prelude.v
HaxList.v
Bitmap.v
MemTypes.v
Ramblock.v
Memslot.v
MemslotSpec.v
MemslotOwn.v
MemslotPhase.v
MemslotLoop.v
MemslotNotify.v
MemslotCorrect.v
SimpleHost.v
MemslotProps.v
GpaSpace.v
GpaAccess.v
GpaProt.v
EptTree.v
EptProof.v
EptRules.v
EptProps.v
Ept2.v
Ept2Proof.v
Ept2Props.v
VmMemory.v
VmMemoryProps.v
PageWalker.v
PageWalkSpec.v
PageWalkProof.v
PageWalkProps.v
IntrExc.v
IntrBitmap.v
IntrProps.v
Mmio.v
MmioProof.v
MmioProps.v
EmTypes.v
Emulate.v
EmCache.v
EmProps.v
EmSafe.v
EmRep.v
EmDemo.v
VcpuEmu.v
VcpuEmuProps.v
VcpuEmuDemo.v
Cpuid.v
CpuidProps.v
CpuidFeatures.v
CpuidDemo.v
Vmx.v
VmxProps.v
VcpuState.v
VcpuCr.v
VcpuMsr.v
VcpuExit.v
VcpuSync.v
VcpuIo.v
VcpuHost.v
VcpuHostProps.v
VcpuRun.v
VcpuRunProps.v
VcpuCrProps.v
VcpuCrExit.v
VcpuDemo.v
HostHeap.v
HaxInit.v
HaxInitProps.v
HaxModuleProps.v
HaxStartProps.v
HaxDemo.v
VcpuInit.v
VcpuFillProps.v
VcpuNewProps.v
VcpuNewDemo.v
VmLife.v
VmIoctl.v
VmGraph.v
VmCreate.v
VmLifeProps.v
