(* ===== verification/Prelude.v ===== *)
(** * Intel HAXM: verification of the hypervisor core

    HAXM is a driver that runs virtual machines with Intel VT-x.  This library models the
    part of its core (src/core) that is logic rather than access to the hardware, and
    proves it correct.

    ** The program

    User space (an emulator such as QEMU) allocates RAM blocks and maps ranges of them
    into the guest physical address space of a VM.  The driver keeps

    - the list of RAM blocks, each cut into chunks of 2 MB that are pinned in host memory
      when they are first used (ramblock.c, chunk.c);
    - the list of memory slots, sorted by guest frame, which is the guest physical address
      map (memslot.c), the protection bitmap and the access to guest memory (gpa_space.c);
    - the EPT, the page tables that the processor walks for guest physical addresses
      (ept_tree.c).  It is filled on demand by the EPT violation handler and emptied by the
      listener that the address space calls when its map changes (ept2.c); the CPUs'
      cached translations are flushed by INVEPT (ept.c), from the calls of user space
      (memory.c);
    - the guest's own page tables in guest memory, walked in software when an instruction
      of the guest is emulated (page_walker.c);
    - the pending interrupts and exceptions of each virtual CPU (intr_exc.c, cpu.c);
    - the context of the instruction emulator, which decodes and executes the instructions
      of the guest that access MMIO and can be interrupted at every memory operand
      (emulate.c).

    An access of the guest to an address without memory is an EPT violation: its exit
    handler (vcpu.c) fetches the instruction through the guest's page tables (mmio.c),
    decodes and executes it up to the access, and exits to user space with a request; the
    instruction is continued when user space has answered.  The CPUID instruction of a guest
    is answered from a table that is made of the host's features and can be changed by user
    space (cpuid.c).

    A virtual CPU runs in a loop (cpu.c, vcpu.c): the state of the host is saved, that of the
    guest is loaded into the VMCS and the processor, the guest runs until an exit, the host is
    restored, and the exit is dispatched to its handler.  The VMCS is only accessible while it
    is current on the processor, which load_vmcs and put_vmcs ensure (cpu.c, vmx.c).  All of
    this works on data that the start of the driver sets up: what the processors can do, the
    bits of the MSRs that a guest may access directly, and the common performance counters
    (hax.c).

    VMs and virtual CPUs are objects with reference counts (vm.c, vcpu.c).  On Linux each of
    them is a device (platforms/linux/components.c): user space opens it, makes its requests
    on the open file, and closes it; the last reference destroys the object.

    ** The library

    Code is translated into functions in a state monad with failure ([M] below): [None] is
    a failed [hax_assert], a dangling pointer, an access outside an array, or exhausted
    fuel, so a theorem that concludes [m s = Some _] excludes all of them; error codes of
    the program are ordinary results.  C integers are [Z] with their wrap-around written
    out.  A definition has the name of the C function it translates; a loop or a part of a
    long function is a definition of its own.

    - Prelude: integers, the monad and its total-correctness triples, shared lemmas.
    - HaxList: hax_list.h on a heap of nodes ([hax_list_add], ...), refined to sequences of
      objects keyed by address ([nl_insert_before], ...), which the other files use.
    - Bitmap: the bit operations of the Linux build.
    - MemTypes: the structures of memory.h.  The state is [hax_gpa_space]; the host
      (allocation, pinning of user pages) is the class [Host], whose services are arbitrary
      functions of an abstract host state: every pattern of failures is covered.  User
      memory is a map from addresses to bytes.
    - Ramblock: ramblock.c and chunk.c, with the invariant [ram_inv].
    - Memslot: memslot.c.  MemslotSpec gives the abstract map, MemslotOwn the ownership of
      RAM blocks by slots, MemslotPhase and MemslotLoop the loop of [memslot_set_mapping],
      MemslotNotify the listener callbacks, MemslotCorrect and MemslotProps the theorems.
      SimpleHost is a concrete host for the witnesses.
    - GpaSpace: gpa_space.c; GpaAccess: reads and writes; GpaProt: the protection bitmap.
    - EptTree: ept_tree.c on frames of 512 entries, with the physical memory services as
      the class [PhysHost]; EptProof, EptRules, EptProps: the tree as the processor walks
      it ([hw_walk]).
    - Ept2: ept2.c; Ept2Proof, Ept2Props: the invariant [vm_inv], in which the tree agrees
      with the address map ([coherent]).
    - VmMemory: ept.c and memory.c with the caches of the CPUs; VmMemoryProps: the
      invariant [machine_inv], in which the caches agree with the tree.
    - PageWalker: page_walker.c; PageWalkSpec: the reference translation of the
      architecture for 32-bit, PAE and 4-level paging; PageWalkProof, PageWalkProps: their
      equivalence.
    - IntrExc: intr_exc.c and its place in the run loop; IntrBitmap: the pending bitmap as
      a set; IntrProps: refinement of a priority queue.
    - EmTypes: the structures and opcode tables of the emulator; Emulate: its register
      cache, operand access, decoder and execution, the whole of emulate.c.  The callbacks
      of the virtual CPU are the class [EmOps] and the native arithmetic instructions the
      class [FastOps].  EmCache: the laws [EmLaws] that the callbacks obey and the register
      cache as an overlay of the registers; EmProps: loads and stores; EmSafe: an
      invariant of the whole emulator, which it and EmRep (repeated string
      instructions) use; EmDemo: a concrete virtual
      CPU.
    - Mmio: mmio.c, the access to guest virtual memory with its instruction page cache;
      MmioProof: translation is independent of accessed and dirty bits and linear in a page;
      MmioProps: reads and instruction fetch.
    - VcpuEmu: the callbacks of vcpu.c that implement [EmOps], the emulation of one
      instruction, its continuation and the exit handlers of the EPT; VcpuEmuProps: the
      callbacks satisfy [EmLaws], and the emulation of an access end to end; VcpuEmuDemo:
      its witnesses.
    - Cpuid: cpuid.c, with the processor's own CPUID instruction as the class [CpuidHw];
      CpuidProps: the lookup of a leaf and the size of the extended state; CpuidFeatures:
      the features of a new guest and their changes by user space; CpuidDemo: a processor.
    - Vmx: access to the VMCS, with the processor's VMX instructions, control registers and
      MSRs as the class [VmxHw]; VmxProps: nested sections.
    - VcpuState: the state of a virtual CPU, which contains those of the components above.
      VcpuCr, VcpuMsr, VcpuExit, VcpuSync and VcpuIo are the parts of vcpu.c: control
      registers, MSRs, the smaller exit handlers, exchange of registers with the VMCS and with
      user space, and port I/O.  VcpuCrProps, VcpuCrExit: the control registers as the guest
      sees them.
    - VcpuHost: the host's state around a VM entry, with the kernel's descriptor tables and
      segment registers as the class [KernelHw]; VcpuHostProps: it is restored.
    - VcpuRun: the run loop; VcpuRunProps: what it releases.  VcpuDemo: a processor and a
      virtual CPU for the witnesses.
    - HostHeap: what the driver has allocated.  HaxInit: the start and the end of the driver,
      hax.c with the probing of the processors; HaxInitProps, HaxModuleProps,
      HaxStartProps: its memory and the MSRs that it opens; HaxDemo: a machine.
    - VcpuInit: the registers and the VMCS of a new virtual CPU; VcpuFillProps,
      VcpuNewProps: what its VMCS holds; VcpuNewDemo: an example.
    - VmLife: VMs, virtual CPUs, their devices and shared buffers as objects on the heap: vm.c,
      and the parts of vcpu.c, memory.c, hax_mm.c and components.c that allocate and free.  The
      operations of the files above work on the part of this state that they are lent
      ([on_vm], [on_vcpu]).  The services of the kernel are the class [LinuxHost].
      VmIoctl: the open, close and ioctl functions of components.c, and the calls of user
      space ([sys_call], [reachable]), with [UserCopy] for the copies from and to user space.
    - VmGraph: what the objects own, and rules for running operations on them, in two modes:
      a run returns, or, if it returns, keeps the invariant.  VmCreate: creation with its
      failures.  VmLifeProps: the invariant [graph] of the objects, the theorems, and an
      example (VmDemo).

    ** The theorems

    - The address map: [set_mapping_maps], [set_mapping_unmaps] (refinement of the update of
      the abstract map, with the case in which a remapping is lost), [set_mapping_owns] (no
      dangling pointer, exact reference counts on every path, failed allocations included),
      [set_mapping_notifies] (after success, every frame whose backing has changed is
      announced), [memslot_find_spec].  The listeners are parameters,
      with the hypothesis that they do not touch the address space ([listeners_ok]); the EPT
      listener satisfies it.
    - Guest memory: [gpa_space_read_data_correct], [gpa_space_write_data_correct],
      [gpa_space_write_read], [gpa_space_get_pfn_correct]; protection:
      [protect_range_correct], [adjust_prot_bitmap_correct], [is_chunk_protected_correct].
    - The EPT: creation, lookup, invalidation, initialisation and release of entries and
      tables as seen by the processor's walk ([ept_tree_create_entries_correct], ...).
    - Composition: [ept_handle_access_violation_correct], [set_mapping_coherent],
      [protect_range_coherent] keep the tree in agreement with the map, and
      [handle_set_ram_correct], [hax_vm_add_ramblock_correct], [ept_set_caps_invept] extend
      this to the cached translations.
    - The page walker: [pw_perform_page_walk_correct], which includes that it fails its
      assertion exactly at absent entries of the last level; the theorems on guest virtual
      memory follow it.
    - Interrupts: [interrupts_refine_queue], [interrupts_conserved],
      [cpu_prepare_entry_correct], [exception_entry_correct].
    - The emulator: [emulate_atomic] (an instruction that has to exit changes no
      general-purpose register), [emulate_load_correct], [emulate_store_correct] (completed at
      once, or continued after an exit for MMIO), [emulate_rep_terminates].  The callbacks of the
      virtual CPU may fail to return: then the emulator does not either, and (BEXTR apart) for no
      other reason.
    - Guest virtual memory: [vcpu_read_guest_virtual_correct],
      [mmio_fetch_instruction_correct].
    - The exit handler: [exit_ept_violation_correct] (every qualification and address),
      [mmio_load_emulated], [mmio_store_emulated] (from the exit to the completed instruction,
      with all that changes), which compose the theorems on the EPT, the fetch and the
      emulator.
    - CPUID: [cpuid_execute_correct], [guest_features_offered],
      [set_guest_features_correct] (requested features are not masked with those of the
      processor: [set_cpuid_not_masked]).
    - The VMCS: [vmcs_sections_refine] (no access outside a section), and
      [vcpu_execute_releases] (the run loop leaves no section open, and interrupts and
      preemption as it found them).
    - Virtual CPUs: [exit_cr_access_write] (control registers as the architecture has them,
      and the faults that the driver checks), [host_state_restored] (the registers, MSRs,
      tables, FPU and XCR0 that the driver switches are the host's again; not the running
      counters), [new_vcpu_enterable] (the VMCS of a new virtual CPU passes the processor's
      checks on its controls and describes the state after a reset).
    - The driver: [module_memory] (nothing is leaked or freed twice, whatever allocation
      fails), [msr_pass_through] (which MSRs a guest accesses directly).
    - The life of VMs: [reachable_rest] (in every state that calls reach, the objects, lists,
      numbers, devices and reference counts agree; what an object owns is allocated, and
      owned once), [reference_counts] and [vpids_unique], which follow from it,
      [open_close_safe] (opening and closing never use freed memory and free nothing twice)
      and [close_everything] (closing all files frees all objects and exactly what they own,
      when each has been opened).  [dv_leaked] is not in the code: it records what a VM still
      holds of RAM blocks, slots, bitmaps and EPT pages when it is released.
      The requests between opening and closing are arbitrary, with arbitrary results of the
      guest, the processor and every allocation; a request itself may fail an assertion of
      the components, which the theorems on those components are about.
    - What does not hold: [set_mapping_remap_lost], [page_walk_absent_pte],
      [protected_frame_mapped], [protect_ram_stale_tlb], [rmw_flags_twice] and the statements
      [zero_length_access], [protect_range_wraps], [ept_tree_create_entry_leaks],
      [page_walk_ad_lost], [fetch_stale_page], [xsavec_not_masked], [set_cpuid_not_masked],
      [subleaf_unchanged], [cpuid_table_dangles] are executions in which the code departs from
      its intent; the other theorems have these cases in their conclusions ([remap_lost],
      absent entries, [offered]) or hypotheses that exclude them ([remaps_first], [same_kva],
      [fetch_fresh], [maps_ok]).

    ** Bounds and fuel

    Loops over lists recurse on a fuel that is the length of the list at the start, loops
    over frames on their number.  The theorems give results for these very definitions, so
    the fuel is shown to be enough; nothing is stated for a run that ends early.

    ** Not modelled

    Operations are sequential: locks and the atomicity of compare-and-exchange loops under
    contention are left out.  Bit operations, assertions ([BUG]) and allocation are those of
    the Linux build; of the code that depends on the architecture of the host, that for
    x86-64 is modelled.  The temporary mappings of EPT pages are those of the Windows build,
    which clears a descriptor when it is unmapped, as ept_tree.c expects; the Linux version does
    not (a finding).  The counts of mappings of a block ([rb_ref_count]) are unbounded integers:
    a C int suffices below 2^31 slots.  Logging and dumps are left out, and so is the handling of NMIs of
    the host during a VM exit.  VMCS writes of intr_exc.c are taken to succeed.  The state
    that [hstate] records for a CPU is kept with the virtual CPU that runs on it.  The
    calls of user space are those of Linux, for devices that are registered and files that
    are open, which the kernel sees to; the driver's own device has only the creation of VMs
    among them.  [hax_alloc_pages] and [hax_vmalloc] are one allocation each, at an address
    that is not used again; what the wrappers of Linux allocate besides, and the pages that
    are pinned for the shared buffers, are not counted.  Memory that the driver loses (a
    CPUID table per virtual CPU, the name of a device that cannot be registered) stays
    allocated without an owner.  Writes to guest virtual memory, MSRs and port I/O are
    modelled but have no theorem of their own.  ia32.c, the assembly files and the other
    platforms execute privileged instructions or call the host operating system, and appear
    only as the parameters above. *)

From stdpp Require Import base numbers list gmap.
From Stdlib Require Import ZArith Lia Sorted.
#[local] Open Scope Z_scope.

(** ** Fixed-width unsigned integers

    A C value of type [uintN_t] is a [Z] in [0, 2^N).  Every operation that can
    leave that range is followed by the wrap-around the C standard prescribes. *)

Definition u8 (x : Z) : Z := x mod 2 ^ 8.
Definition u32 (x : Z) : Z := x mod 2 ^ 32.
Definition u64 (x : Z) : Z := x mod 2 ^ 64.

(** Conversion to a signed 32-bit [int] (two's complement). *)
Definition s32 (x : Z) : Z :=
  let y := x mod 2 ^ 32 in if y <? 2 ^ 31 then y else y - 2 ^ 32.

Declare Scope haxm_scope.
Delimit Scope haxm_scope with haxm.

Notation "a +! b" := (u64 (a + b)) (at level 50, left associativity) : haxm_scope.
Notation "a -! b" := (u64 (a - b)) (at level 50, left associativity) : haxm_scope.
Notation "a <<! n" := (u64 (Z.shiftl a n)) (at level 35, no associativity) : haxm_scope.
Notation "a >>! n" := (Z.shiftr a n) (at level 35, no associativity) : haxm_scope.
Notation "a &! b" := (Z.land a b) (at level 40, left associativity) : haxm_scope.
Notation "a |! b" := (Z.lor a b) (at level 50, left associativity) : haxm_scope.
#[global] Open Scope haxm_scope.

(** ** Error codes (errno values of the Linux build; functions return their
    negation). *)
Definition ENOMEM : Z := 12.
Definition EACCES : Z := 13.
Definition EFAULT : Z := 14.
Definition EEXIST : Z := 17.
Definition EINVAL : Z := 22.

(** ** A state monad with failure

    [M S A] runs on a state [S].  [None] is not an error code of the program:
    it is a stuck execution (a failed [hax_assert], an access through a dangling
    pointer or past the end of an array, or exhausted fuel).  A theorem that
    concludes [m s = Some _] therefore also shows the absence of all of these. *)
Definition M (S A : Type) : Type := S -> option (A * S).

#[global] Instance M_ret S : MRet (M S) := fun A a s => Some (a, s).
#[global] Instance M_bind S : MBind (M S) := fun A B f m s =>
  match m s with
  | Some (a, s') => f a s'
  | None => None
  end.

Definition get {S} : M S S := fun s => Some (s, s).
Definition gets {S A} (f : S -> A) : M S A := fun s => Some (f s, s).
Definition modify {S} (f : S -> S) : M S unit := fun s => Some (tt, f s).
Definition stuck {S A} : M S A := fun _ => None.
Definition of_option {S A} (o : option A) : M S A :=
  match o with Some a => mret a | None => stuck end.

(** [hax_assert(b)]: a false condition is a host crash. *)
Definition hax_assert {S} (b : bool) : M S unit := if b then mret tt else stuck.

(** Total-correctness triples: from every state satisfying [P] the computation
    is not stuck and ends in a value and a state satisfying [Q]. *)
Definition triple {S A} (P : S -> Prop) (m : M S A) (Q : A -> S -> Prop) : Prop :=
  forall s, P s -> exists a s', m s = Some (a, s') /\ Q a s'.

Section Triples.
Context {S : Type}.
Implicit Types (P : S -> Prop).

Lemma triple_ret {A} (a : A) P (Q : A -> S -> Prop) :
  (forall s, P s -> Q a s) -> triple P (mret a) Q.
Proof. intros H s Hs. exists a, s. auto. Qed.

Lemma triple_bind {A B} (m : M S A) (k : A -> M S B) P Q R :
  triple P m Q -> (forall a, triple (Q a) (k a) R) -> triple P (m ≫= k) R.
Proof.
  intros Hm Hk s Hs. destruct (Hm s Hs) as (a & s1 & Hrun & HQ).
  destruct (Hk a s1 HQ) as (b & s2 & Hrun2 & HR).
  exists b, s2. split; [|done]. unfold mbind, M_bind. by rewrite Hrun.
Qed.

Lemma triple_conseq {A} (m : M S A) P P' (Q Q' : A -> S -> Prop) :
  triple P m Q -> (forall s, P' s -> P s) -> (forall a s, Q a s -> Q' a s) ->
  triple P' m Q'.
Proof. intros H HP HQ s Hs. destruct (H s (HP s Hs)) as (a & s' & ? & ?). eauto. Qed.

Lemma triple_modify P (f : S -> S) (Q : unit -> S -> Prop) :
  (forall s, P s -> Q tt (f s)) -> triple P (modify f) Q.
Proof. intros H s Hs. exists tt, (f s). auto. Qed.

Lemma triple_get P (Q : S -> S -> Prop) :
  (forall s, P s -> Q s s) -> triple P get Q.
Proof. intros H s Hs. exists s, s. auto. Qed.

Lemma triple_gets {A} P (f : S -> A) (Q : A -> S -> Prop) :
  (forall s, P s -> Q (f s) s) -> triple P (gets f) Q.
Proof. intros H s Hs. exists (f s), s. auto. Qed.

Lemma triple_assert P b (Q : unit -> S -> Prop) :
  (forall s, P s -> b = true /\ Q tt s) -> triple P (hax_assert b) Q.
Proof.
  intros H s Hs. destruct (H s Hs) as [-> HQ]. exists tt, s. auto.
Qed.

Lemma triple_if {A} (b : bool) (m1 m2 : M S A) P Q :
  (b = true -> triple P m1 Q) -> (b = false -> triple P m2 Q) ->
  triple P (if b then m1 else m2) Q.
Proof. destruct b; auto. Qed.

(** A pure fact carried by the precondition can be moved to the context. *)
Lemma triple_pure {A} (m : M S A) P (X : Prop) Q :
  (forall s, P s -> X) -> (X -> triple P m Q) -> triple P m Q.
Proof. intros HX H s Hs. exact (H (HX s Hs) s Hs). Qed.

Lemma triple_state {A} (m : M S A) P Q :
  (forall s0, P s0 -> triple (fun s => s = s0) m Q) -> triple P m Q.
Proof. intros H s Hs. exact (H s Hs s eq_refl). Qed.
End Triples.

(** ** Weakest preconditions: from the state [s] the computation returns, and [Q] holds of what
    it leaves *)
Definition wp {S A} (m : M S A) (s : S) (Q : A -> S -> Prop) : Prop :=
  exists a s', m s = Some (a, s') /\ Q a s'.

Section Wp.
Context {S : Type}.

Lemma wp_bind {A B} (m : M S A) (k : A -> M S B) s Q :
  wp m s (fun a s' => wp (k a) s' Q) -> wp (m ≫= k) s Q.
Proof.
  intros (a & s1 & E & b & s2 & E' & HQ). exists b, s2. split; [|done].
  unfold mbind, M_bind. by rewrite E.
Qed.
Lemma wp_mono {A} (m : M S A) s (P Q : A -> S -> Prop) :
  wp m s P -> (forall a s', P a s' -> Q a s') -> wp m s Q.
Proof. intros (a & s' & E & HP) H. exists a, s'. auto. Qed.
Lemma wp_ret {A} (a : A) s (Q : A -> S -> Prop) : Q a s -> wp (mret a) s Q.
Proof. intros. by exists a, s. Qed.
Lemma wp_get s (Q : S -> S -> Prop) : Q s s -> wp get s Q.
Proof. intros. by exists s, s. Qed.
Lemma wp_gets {A} (f : S -> A) s (Q : A -> S -> Prop) : Q (f s) s -> wp (gets f) s Q.
Proof. intros. by exists (f s), s. Qed.
Lemma wp_modify f s (Q : unit -> S -> Prop) : Q tt (f s) -> wp (modify f) s Q.
Proof. intros. by exists tt, (f s). Qed.
Lemma wp_of_option {A} (o : option A) a s (Q : A -> S -> Prop) : o = Some a -> Q a s -> wp (of_option o) s Q.
Proof. intros -> ?. by apply wp_ret. Qed.
Lemma wp_assert (b : bool) s (Q : unit -> S -> Prop) : b = true -> Q tt s -> wp (hax_assert b) s Q.
Proof. intros -> ?. by apply wp_ret. Qed.
Lemma wp_assoc {A} (a b : M S unit) (c : M S A) s Q : wp (a;; b) s (fun _ s' => wp c s' Q) -> wp (a;; b;; c) s Q.
Proof.
  intros (x & s1 & E & y & s2 & E' & HQ). exists y, s2. split; [|done]. revert E. unfold mbind, M_bind.
  destruct (a s) as [[u sa]|]; [|done]. intros ->. exact E'.
Qed.
End Wp.

(** Running a [bind] whose first computation is known. *)
Lemma bind_run {S A B} (m : M S A) (k : A -> M S B) s a s' :
  m s = Some (a, s') -> (m ≫= k) s = k a s'.
Proof. intros H. unfold mbind, M_bind. by rewrite H. Qed.

Lemma assert_run {S B} (b : bool) (k : unit -> M S B) s :
  b = true -> (hax_assert b ≫= k) s = k tt s.
Proof. by intros ->. Qed.

Lemma of_option_run {S A B} (o : option A) (a : A) (k : A -> M S B) s :
  o = Some a -> (of_option o ≫= k) s = k a s.
Proof. by intros ->. Qed.

Lemma gets_run {S A B} (f : S -> A) (k : A -> M S B) s :
  (gets f ≫= k) s = k (f s) s.
Proof. done. Qed.

Lemma modify_run {S B} (f : S -> S) (k : unit -> M S B) s :
  (modify f ≫= k) s = k tt (f s).
Proof. done. Qed.

Lemma bind_assoc {S A B C} (m : M S A) (f : A -> M S B) (g : B -> M S C) s :
  ((m ≫= f) ≫= g) s = (m ≫= (fun a => f a ≫= g)) s.
Proof. unfold mbind, M_bind. by destruct (m s) as [[a s']|]. Qed.

(** What a run shows of its result: used with [f] computed by evaluation. *)
Lemma observe_run {S A B} (o : option (A * S)) (f : A * S -> B) (b : B) :
  f <$> o = Some b -> exists a s, o = Some (a, s) /\ f (a, s) = b.
Proof. destruct o as [[a s]|]; [|done]. intros [= H]. by exists a, s. Qed.

Lemma observe_stuck {A} (o : option A) : (if o then false else true) = true -> o = None.
Proof. by destruct o. Qed.

(** ** Little-endian words *)
Fixpoint le_word (bs : list Z) : Z :=
  match bs with
  | [] => 0
  | b :: bs => b + 256 * le_word bs
  end.

Fixpoint le_bytes (n : nat) (v : Z) : list Z :=
  match n with
  | O => []
  | S n => v mod 256 :: le_bytes n (v / 256)
  end.

(** A decidable property of small numbers, by evaluation. *)
Lemma small_cases (P : Z -> bool) n x :
  forallb P (seqZ 0 n) = true -> 0 <= x < n -> P x = true.
Proof. intros H Hx. rewrite forallb_forall in H. apply H, list_elem_of_In, elem_of_seqZ. lia. Qed.

(** ** Word arithmetic *)
Lemma u64_small x : 0 <= x < 2 ^ 64 -> u64 x = x.
Proof. apply Z.mod_small. Qed.

Lemma u64_range x : 0 <= u64 x < 2 ^ 64.
Proof. apply Z.mod_pos_bound. lia. Qed.

Lemma u64_idemp_add_l a b : u64 (u64 a + b) = u64 (a + b).
Proof. apply Zplus_mod_idemp_l. Qed.

Lemma u32_small x : 0 <= x < 2 ^ 32 -> u32 x = x.
Proof. apply Z.mod_small. Qed.

Lemma u32_range x : 0 <= u32 x < 2 ^ 32.
Proof. apply Z.mod_pos_bound. lia. Qed.

Lemma s32_small x : 0 <= x < 2 ^ 31 -> s32 x = x.
Proof.
  intros H. unfold s32. rewrite Z.mod_small by lia.
  destruct (Z.ltb_spec x (2 ^ 31)); lia.
Qed.

Lemma shiftl_12 x : Z.shiftl x 12 = x * 4096.
Proof. rewrite Z.shiftl_mul_pow2 by lia. reflexivity. Qed.

Lemma shiftr_12 x : Z.shiftr x 12 = x / 4096.
Proof. rewrite Z.shiftr_div_pow2 by lia. reflexivity. Qed.

Lemma shiftl64_12 x : 0 <= x < 2 ^ 52 -> x <<! 12 = x * 4096.
Proof. intros. rewrite shiftl_12. apply u64_small. lia. Qed.

(** ** Strongly sorted lists *)
Section SSorted.
Context {A : Type} (R : A -> A -> Prop).

Lemma ssorted_app l1 l2 :
  StronglySorted R (l1 ++ l2) <->
  StronglySorted R l1 /\ StronglySorted R l2 /\ Forall (fun x => Forall (R x) l2) l1.
Proof.
  induction l1 as [|x l1 IH]; cbn.
  - split; [|naive_solver]. intros. split_and!; [constructor|done|constructor].
  - split.
    + intros H. inversion H as [|? ? Hs Hf]; subst.
      apply IH in Hs as (? & ? & ?). apply Forall_app in Hf as [? ?].
      split_and!; [by constructor|done|by constructor].
    + intros (Hx & Hs2 & Hf). inversion Hx; subst. inversion Hf; subst.
      constructor; [by apply IH|]. by apply Forall_app.
Qed.

Lemma ssorted_cons x l : StronglySorted R (x :: l) <-> StronglySorted R l /\ Forall (R x) l.
Proof. split; [by inversion 1|]. intros [? ?]. by constructor. Qed.

Lemma ssorted_insert l1 x l2 :
  StronglySorted R (l1 ++ l2) -> Forall (fun y => R y x) l1 -> Forall (R x) l2 ->
  StronglySorted R (l1 ++ x :: l2).
Proof.
  rewrite !ssorted_app. intros (? & ? & Hf) Hl Hr. split_and!; [done|by constructor|].
  rewrite Forall_forall in *. intros y Hy. constructor; auto.
Qed.

Lemma ssorted_remove l1 x l2 :
  StronglySorted R (l1 ++ x :: l2) -> StronglySorted R (l1 ++ l2).
Proof.
  rewrite !ssorted_app. intros (? & Hx & H). inversion Hx; subst.
  split_and!; [done|done|].
  eapply Forall_impl; [exact H|]. cbn. intros y Hy. by inversion Hy.
Qed.

Lemma ssorted_replace l1 x x' l2 :
  StronglySorted R (l1 ++ x :: l2) ->
  (forall y, R y x -> R y x') -> (forall y, R x y -> R x' y) ->
  StronglySorted R (l1 ++ x' :: l2).
Proof.
  intros Hs Hl Hr. apply ssorted_insert; [by eapply ssorted_remove|..];
    apply ssorted_app in Hs as (_ & Hx & Hf); apply ssorted_cons in Hx as [_ Hx].
  - eapply Forall_impl; [exact Hf|]. cbn. intros y Hy. inversion Hy; auto.
  - eapply Forall_impl; [exact Hx|]. auto.
Qed.
End SSorted.

Create HintDb haxm discriminated.
#[export] Hint Resolve u64_range u32_range : haxm.

(** Splits the boolean comparisons of the goal and of the hypotheses. *)
Ltac bool_cases :=
  repeat match goal with
  | |- context [?a <? ?b] => destruct (Z.ltb_spec a b)
  | |- context [?a <=? ?b] => destruct (Z.leb_spec a b)
  | |- context [?a =? ?b] => destruct (Z.eqb_spec a b)
  end.

(** The same, dropping the impossible cases at once. *)
Ltac bool_lia :=
  repeat (match goal with
          | |- context [?a <? ?b] => destruct (Z.ltb_spec a b)
          | |- context [?a <=? ?b] => destruct (Z.leb_spec a b)
          | |- context [?a =? ?b] => destruct (Z.eqb_spec a b)
          end; cbn [andb orb negb]; try done; try (exfalso; lia)).

(** Turns boolean hypotheses on [Z] into propositions. *)
Ltac bool_hyps :=
  repeat match goal with
  | H : (_ && _)%bool = true |- _ => apply andb_prop in H; destruct H
  | H : (_ || _)%bool = false |- _ => apply orb_false_elim in H; destruct H
  | H : negb _ = true |- _ => apply negb_true_iff in H
  | H : negb _ = false |- _ => apply negb_false_iff in H
  | H : (_ <? _) = true |- _ => apply Z.ltb_lt in H
  | H : (_ <? _) = false |- _ => apply Z.ltb_ge in H
  | H : (_ <=? _) = true |- _ => apply Z.leb_le in H
  | H : (_ <=? _) = false |- _ => apply Z.leb_gt in H
  | H : (_ =? _) = true |- _ => apply Z.eqb_eq in H
  | H : (_ =? _) = false |- _ => apply Z.eqb_neq in H
  end.
