(* ===== verification/HaxList.v ===== *)
(** * Intrusive doubly-linked lists (src/include/hax_list.h)

    The lists of RAM blocks, memory slots, listeners and EPT pages are circular
    doubly-linked lists of [hax_link_list] nodes embedded in the objects.  The
    first part models the pointer code on a heap of nodes and proves that each
    operation implements the corresponding operation on the sequence of nodes.
    The second part ([NodeList]) is that sequence-level interface: the other
    components use it with the objects themselves as elements, keyed by
    address. *)

From stdpp Require Import base numbers list gmap.
From Stdlib Require Import ZArith Lia.
From S2P Require Import Prelude.
#[local] Open Scope Z_scope.

Record hax_link_list := Link { l_prev : Z; l_next : Z }.
Notation heap := (gmap Z hax_link_list).

(** ** Field accesses through a pointer; stuck when it is dangling. *)
Definition nx (h : heap) (p : Z) : option Z := l_next <$> h !! p.
Definition pv (h : heap) (p : Z) : option Z := l_prev <$> h !! p.

Definition upd_next (p v : Z) (h : heap) : heap :=
  alter (fun n => Link (l_prev n) v) p h.
Definition upd_prev (p v : Z) (h : heap) : heap :=
  alter (fun n => Link v (l_next n)) p h.

Definition rd_next (p : Z) : M heap Z :=
  fun h => v ← nx h p; Some (v, h).
Definition rd_prev (p : Z) : M heap Z :=
  fun h => v ← pv h p; Some (v, h).
Definition set_next (p v : Z) : M heap unit :=
  fun h => match h !! p with Some _ => Some (tt, upd_next p v h) | None => None end.
Definition set_prev (p v : Z) : M heap unit :=
  fun h => match h !! p with Some _ => Some (tt, upd_prev p v h) | None => None end.

(** ** The operations of hax_list.h *)
Definition hax_init_list_head (head : Z) : M heap unit :=
  if head =? 0 then mret tt
  else set_prev head head;; set_next head head.

Definition hax_list_add (entry head : Z) : M heap unit :=
  if ((head =? 0) || (entry =? 0))%bool then mret tt
  else
    n ← rd_next head;
    set_next entry n;;
    n' ← rd_next head;
    set_prev n' entry;;
    set_prev entry head;;
    set_next head entry.

Definition hax_list_insert_before (new_node ref_node : Z) : M heap unit :=
  if ((new_node =? 0) || (ref_node =? 0))%bool then mret tt
  else
    set_next new_node ref_node;;
    p ← rd_prev ref_node;
    set_next p new_node;;
    p' ← rd_prev ref_node;
    set_prev new_node p';;
    set_prev ref_node new_node.

Definition hax_list_insert_after (new_node ref_node : Z) : M heap unit :=
  hax_list_add new_node ref_node.

Definition hax_list_del (entry : Z) : M heap unit :=
  p ← rd_prev entry;
  n ← rd_next entry;
  set_next p n;;
  n' ← rd_next entry;
  p' ← rd_prev entry;
  set_prev n' p';;
  set_prev entry entry;;
  set_next entry entry.

Definition hax_list_empty (head : Z) : M heap bool :=
  if head =? 0 then mret true
  else
    n ← rd_next head;
    if n =? head then p ← rd_prev head; mret (p =? head) else mret false.

Definition hax_list_join (lst head : Z) : M heap unit :=
  if ((lst =? 0) || (head =? 0))%bool then mret tt
  else
    e ← hax_list_empty lst;
    if e : bool then mret tt
    else
      next ← rd_next head;
      list_head ← rd_next lst;
      list_tail ← rd_prev lst;
      set_next head list_head;;
      set_prev list_head head;;
      set_prev next list_tail;;
      set_next list_tail next.

(** [hax_list_for_each]: the nodes a traversal visits. *)
Fixpoint for_each_from (fuel : nat) (entry head : Z) : M heap (list Z) :=
  match fuel with
  | O => stuck
  | S fuel =>
      if entry =? head then mret []
      else
        n ← rd_next entry;
        l ← for_each_from fuel n head;
        mret (entry :: l)
  end.

Definition hax_list_for_each (fuel : nat) (head : Z) : M heap (list Z) :=
  n ← rd_next head; for_each_from fuel n head.

(** [hax_list_for_each_safe] with a body that unlinks the current node, as in
    [memslot_list_clear] and [ramblock_free_list]: [tmp] is read before the
    body runs. *)
Fixpoint del_each_from (fuel : nat) (item tmp head : Z) : M heap unit :=
  match fuel with
  | O => stuck
  | S fuel =>
      if item =? head then mret tt
      else
        hax_list_del item;;
        tmp' ← rd_next tmp;
        del_each_from fuel tmp tmp' head
  end.

Definition hax_list_del_each (fuel : nat) (head : Z) : M heap unit :=
  item ← rd_next head;
  tmp ← rd_next item;
  del_each_from fuel item tmp head.

(** ** Representation of a sequence by a circular chain of nodes *)
Fixpoint chain (h : heap) (l : list Z) : Prop :=
  match l with
  | a :: ((b :: _) as t) => nx h a = Some b /\ pv h b = Some a /\ chain h t
  | _ => True
  end.

Definition list_rep (h : heap) (head : Z) (xs : list Z) : Prop :=
  0 ∉ (head :: xs) /\ NoDup (head :: xs) /\ chain h (head :: xs ++ [head]).

Lemma nx_upd_next p v h q :
  nx (upd_next p v h) q = if decide (p = q) then (fun _ => v) <$> nx h q else nx h q.
Proof.
  unfold nx, upd_next. rewrite lookup_alter. case_decide; [|done].
  subst. by destruct (h !! q).
Qed.

Lemma pv_upd_next p v h q : pv (upd_next p v h) q = pv h q.
Proof.
  unfold pv, upd_next. rewrite lookup_alter. case_decide; [|done].
  subst. by destruct (h !! q).
Qed.

Lemma pv_upd_prev p v h q :
  pv (upd_prev p v h) q = if decide (p = q) then (fun _ => v) <$> pv h q else pv h q.
Proof.
  unfold pv, upd_prev. rewrite lookup_alter. case_decide; [|done].
  subst. by destruct (h !! q).
Qed.

Lemma nx_upd_prev p v h q : nx (upd_prev p v h) q = nx h q.
Proof.
  unfold nx, upd_prev. rewrite lookup_alter. case_decide; [|done].
  subst. by destruct (h !! q).
Qed.

Lemma set_next_run p v h :
  is_Some (nx h p) -> set_next p v h = Some (tt, upd_next p v h).
Proof. unfold set_next, nx. intros [x Hx]. by destruct (h !! p). Qed.

Lemma set_prev_run p v h :
  is_Some (nx h p) -> set_prev p v h = Some (tt, upd_prev p v h).
Proof. unfold set_prev, nx. intros [x Hx]. by destruct (h !! p). Qed.

Lemma rd_next_run p v h : nx h p = Some v -> rd_next p h = Some (v, h).
Proof. unfold rd_next. by intros ->. Qed.

Lemma rd_prev_run p v h : pv h p = Some v -> rd_prev p h = Some (v, h).
Proof. unfold rd_prev. by intros ->. Qed.

Lemma pv_nx_some h p v : pv h p = Some v -> is_Some (nx h p).
Proof. unfold pv, nx. destruct (h !! p); naive_solver. Qed.

Lemma nx_pv_some h p v : nx h p = Some v -> is_Some (pv h p).
Proof. unfold pv, nx. destruct (h !! p); naive_solver. Qed.

Lemma nx_some_upd_next p v h q : is_Some (nx (upd_next p v h) q) <-> is_Some (nx h q).
Proof. rewrite nx_upd_next. case_decide; [|done]. apply fmap_is_Some. Qed.

Lemma nx_some_upd_prev p v h q : is_Some (nx (upd_prev p v h) q) <-> is_Some (nx h q).
Proof. by rewrite nx_upd_prev. Qed.

(** Updates keep the nodes allocated. *)
Ltac heap_some :=
  repeat (rewrite nx_some_upd_next || rewrite nx_some_upd_prev); eauto.

(** Evaluates lookups of updated heaps, deciding pointer equalities from the
    hypotheses. *)
Ltac heap_simpl :=
  repeat (rewrite ?nx_upd_next, ?pv_upd_next, ?nx_upd_prev, ?pv_upd_prev;
          repeat case_decide; simplify_eq; try done).

Lemma chain_frame h h' l :
  (forall p, p ∈ removelast l -> nx h' p = nx h p) ->
  (forall p, p ∈ tail l -> pv h' p = pv h p) ->
  chain h l -> chain h' l.
Proof.
  induction l as [|a [|b t] IH]; [done|done|].
  intros Hn Hp (H1 & H2 & H3). cbn [chain]. split_and!.
  - rewrite Hn; [done|]. cbn [removelast]. set_solver.
  - rewrite Hp; [done|]. cbn [tl]. set_solver.
  - apply IH; [| |done].
    + intros p Hin. apply Hn. cbn [removelast]. cbn [removelast] in Hin. set_solver.
    + intros p Hin. apply Hp. cbn [tl] in *. set_solver.
Qed.

Lemma chain_split h l1 a l2 :
  chain h (l1 ++ a :: l2) <-> chain h (l1 ++ [a]) /\ chain h (a :: l2).
Proof.
  induction l1 as [|b l1 IH]; [cbn; tauto|].
  destruct l1 as [|c l1]; cbn [app chain] in *; tauto.
Qed.

(** [linked h r e n h']: [h'] is [h] with [e] linked between the neighbours
    [r] and [n]; [unlinked h r e n h']: [e] taken out from between them. *)
Definition linked (h : heap) (r e n : Z) (h' : heap) : Prop :=
  (forall q, nx h' q = if decide (q = r) then Some e
                       else if decide (q = e) then Some n else nx h q) /\
  (forall q, pv h' q = if decide (q = n) then Some e
                       else if decide (q = e) then Some r else pv h q).

Definition unlinked (h : heap) (r e n : Z) (h' : heap) : Prop :=
  (forall q, nx h' q = if decide (q = e) then Some e
                       else if decide (q = r) then Some n else nx h q) /\
  (forall q, pv h' q = if decide (q = e) then Some e
                       else if decide (q = n) then Some r else pv h q).

Lemma hax_list_add_linked h r e n :
  r <> 0 -> e <> 0 -> e <> r -> e <> n ->
  nx h r = Some n -> pv h n = Some r -> is_Some (nx h e) ->
  exists h', hax_list_add e r h = Some (tt, h') /\ linked h r e n h'.
Proof.
  intros Hr0 He0 Her Hen Hn Hp [e1 He].
  destruct (pv_nx_some _ _ _ Hp) as [n1 Hn1].
  destruct (nx_pv_some _ _ _ He) as [e2 He2].
  eexists. split.
  - unfold hax_list_add.
    rewrite (proj2 (Z.eqb_neq r 0)), (proj2 (Z.eqb_neq e 0)) by done. cbn.
    rewrite (bind_run _ _ _ _ _ (rd_next_run _ _ _ Hn)).
    erewrite bind_run by (apply set_next_run; eauto).
    erewrite bind_run by (apply rd_next_run; heap_simpl).
    erewrite bind_run by (apply set_prev_run; heap_some).
    erewrite bind_run by (apply set_prev_run; heap_some).
    apply set_next_run; heap_some.
  - split; intros q; heap_simpl; rewrite ?He, ?He2, ?Hn, ?Hp; done.
Qed.

Lemma hax_list_insert_before_linked h r e n :
  n <> 0 -> e <> 0 -> e <> r -> e <> n ->
  nx h r = Some n -> pv h n = Some r -> is_Some (nx h e) ->
  exists h', hax_list_insert_before e n h = Some (tt, h') /\ linked h r e n h'.
Proof.
  intros Hr0 He0 Her Hen Hn Hp [e1 He].
  destruct (pv_nx_some _ _ _ Hp) as [n1 Hn1].
  destruct (nx_pv_some _ _ _ He) as [e2 He2].
  eexists. split.
  - unfold hax_list_insert_before.
    rewrite (proj2 (Z.eqb_neq n 0)), (proj2 (Z.eqb_neq e 0)) by done. cbn.
    erewrite bind_run by (apply set_next_run; eauto).
    erewrite bind_run by (apply rd_prev_run; heap_simpl).
    erewrite bind_run by (apply set_next_run; heap_some).
    erewrite bind_run by (apply rd_prev_run; heap_simpl).
    erewrite bind_run by (apply set_prev_run; heap_some).
    apply set_prev_run; heap_some.
  - split; intros q; heap_simpl; rewrite ?He, ?He2, ?Hn, ?Hp; done.
Qed.

Lemma hax_list_del_unlinked h r e n :
  e <> r -> e <> n ->
  nx h r = Some e -> pv h e = Some r -> nx h e = Some n -> pv h n = Some e ->
  exists h', hax_list_del e h = Some (tt, h') /\ unlinked h r e n h'.
Proof.
  intros Her Hen Hrn Hep Hen' Hnp.
  destruct (pv_nx_some _ _ _ Hnp) as [n1 Hn1].
  destruct (nx_pv_some _ _ _ Hrn) as [r1 Hr1].
  eexists. split.
  - unfold hax_list_del.
    erewrite bind_run by (apply rd_prev_run; eauto).
    erewrite bind_run by (apply rd_next_run; eauto).
    erewrite bind_run by (apply set_next_run; eauto).
    erewrite bind_run by (apply rd_next_run; heap_simpl).
    erewrite bind_run by (apply rd_prev_run; heap_simpl).
    erewrite bind_run by (apply set_prev_run; heap_some).
    erewrite bind_run by (apply set_prev_run; heap_some).
    apply set_next_run; heap_some.
  - split; intros q; heap_simpl; rewrite ?Hep, ?Hen', ?Hrn, ?Hnp; done.
Qed.

(** The place of a sequence where a node is linked: after [r], before [n]. *)
Lemma chain_linked h us r n vs e h' :
  NoDup (us ++ [r]) -> r ∉ removelast (n :: vs) ->
  n ∉ tail (us ++ [r]) -> n ∉ vs -> e ∉ us ++ r :: n :: vs ->
  linked h r e n h' ->
  chain h (us ++ r :: n :: vs) -> chain h' (us ++ r :: e :: n :: vs).
Proof.
  intros Hnd Hr Hn1 Hn2 He [Hnx Hpv] Hc.
  apply chain_split in Hc as [Hc1 (Hrn & Hnr & Hc2)].
  apply chain_split. split.
  - eapply chain_frame; [| |exact Hc1].
    + rewrite removelast_last. intros p Hp. rewrite Hnx.
      apply NoDup_app in Hnd as (_ & Hnd & _). specialize (Hnd p Hp).
      repeat case_decide; set_solver.
    + intros p Hp. rewrite Hpv.
      assert (p ∈ us ++ [r]) by (destruct us; cbn in *; set_solver).
      repeat case_decide; [set_solver|set_solver|done].
  - change (nx h' r = Some e /\ pv h' e = Some r /\
            nx h' e = Some n /\ pv h' n = Some e /\ chain h' (n :: vs)).
    split_and!; [rewrite Hnx|rewrite Hpv|rewrite Hnx|rewrite Hpv|].
    1-4: repeat case_decide; set_solver.
    eapply chain_frame; [| |exact Hc2].
    + intros p Hp. rewrite Hnx.
      assert (p ∈ n :: vs).
      { revert Hp. clear. destruct (exists_last (l := n :: vs)) as (l & z & ->); [done|].
        rewrite removelast_last. set_solver. }
      repeat case_decide; set_solver.
    + intros p Hp. rewrite Hpv. cbn [tl] in Hp. repeat case_decide; set_solver.
Qed.

Lemma chain_unlinked h us r e n vs h' :
  NoDup (us ++ [r]) -> r ∉ removelast (n :: vs) ->
  n ∉ tail (us ++ [r]) -> n ∉ vs -> e ∉ us ++ r :: n :: vs ->
  unlinked h r e n h' ->
  chain h (us ++ r :: e :: n :: vs) -> chain h' (us ++ r :: n :: vs).
Proof.
  intros Hnd Hr Hn1 Hn2 He [Hnx Hpv] Hc.
  apply chain_split in Hc as [Hc1 (Hrn & Hnr & Hen & Hne & Hc2)].
  apply chain_split. split.
  - eapply chain_frame; [| |exact Hc1].
    + rewrite removelast_last. intros p Hp. rewrite Hnx.
      apply NoDup_app in Hnd as (_ & Hnd & _). specialize (Hnd p Hp).
      repeat case_decide; set_solver.
    + intros p Hp. rewrite Hpv.
      assert (p ∈ us ++ [r]) by (destruct us; cbn in *; set_solver).
      repeat case_decide; [set_solver|set_solver|done].
  - change (nx h' r = Some n /\ pv h' n = Some r /\ chain h' (n :: vs)).
    split_and!; [rewrite Hnx|rewrite Hpv|].
    1-2: repeat case_decide; set_solver.
    eapply chain_frame; [| |exact Hc2].
    + intros p Hp. rewrite Hnx.
      assert (p ∈ n :: vs).
      { revert Hp. clear. destruct (exists_last (l := n :: vs)) as (l & z & ->); [done|].
        rewrite removelast_last. set_solver. }
      repeat case_decide; set_solver.
    + intros p Hp. rewrite Hpv. cbn [tl] in Hp. repeat case_decide; set_solver.
Qed.

(** A place in a sequence (after the node [r], before the node [n]) meets the
    side conditions above. *)
Lemma place_side (head : Z) xs ys us r n vs :
  NoDup (head :: xs ++ ys) -> head :: xs = us ++ [r] -> ys ++ [head] = n :: vs ->
  NoDup (us ++ [r]) /\ r ∉ removelast (n :: vs) /\ n ∉ tail (us ++ [r]) /\ n ∉ vs.
Proof.
  intros Hnd Hl Hr.
  assert (Hr' : r ∈ head :: xs) by (rewrite Hl; set_solver).
  change (NoDup ((head :: xs) ++ ys)) in Hnd.
  apply NoDup_app in Hnd as (Hnd1 & Hdisj & Hnd2).
  rewrite <- Hl, <- Hr, removelast_last. cbn [tl].
  split_and!; [done|exact (Hdisj r Hr')| |].
  - intros Hin. destruct ys as [|y ys]; cbn in Hr; simplify_eq.
    + by apply NoDup_cons in Hnd1 as [? _].
    + apply (Hdisj n); set_solver.
  - intros Hin. destruct ys as [|y ys]; cbn in Hr; simplify_eq; [set_solver|].
    apply NoDup_cons in Hnd2 as [? _]. apply elem_of_app in Hin as [?|Hin]; [done|].
    apply list_elem_of_singleton in Hin as ->. apply (Hdisj head); set_solver.
Qed.

Lemma nodup_middle (head : Z) xs e ys :
  NoDup (head :: xs ++ e :: ys) -> e ∉ head :: xs ++ ys /\ NoDup (head :: xs ++ ys).
Proof.
  intros Hnd. change (NoDup ((head :: xs) ++ e :: ys)) in Hnd.
  rewrite <- Permutation_middle in Hnd. by apply NoDup_cons in Hnd.
Qed.

Lemma place_exists (head : Z) (xs ys : list Z) :
  exists us r n vs, head :: xs = us ++ [r] /\ ys ++ [head] = n :: vs.
Proof.
  destruct (exists_last (l := head :: xs)) as (us & r & ->); [done|].
  destruct ys as [|y ys]; cbn; eauto 10.
Qed.

Lemma place_eq (head : Z) xs mid ys us r n vs :
  head :: xs = us ++ [r] -> ys ++ [head] = n :: vs ->
  head :: (xs ++ mid ++ ys) ++ [head] = us ++ r :: mid ++ n :: vs.
Proof.
  intros Hl Hr. rewrite <- Hr.
  change (head :: (xs ++ mid ++ ys) ++ [head]) with (((head :: xs) ++ mid ++ ys) ++ [head]).
  rewrite Hl. by rewrite <- !app_assoc.
Qed.

Lemma place_elem (head : Z) xs ys us r n vs e :
  head :: xs = us ++ [r] -> ys ++ [head] = n :: vs ->
  e ∉ head :: xs ++ ys -> e ∉ us ++ r :: n :: vs.
Proof.
  intros Hl Hr He. pose proof (place_eq head xs [] ys us r n vs Hl Hr) as Heq.
  cbn in Heq. rewrite <- Heq. set_solver.
Qed.

(** Linking and unlinking at a place, on the sequence. *)
Lemma rep_linked h head xs ys us r n vs e h' :
  list_rep h head (xs ++ ys) -> head :: xs = us ++ [r] -> ys ++ [head] = n :: vs ->
  e <> 0 -> e ∉ head :: xs ++ ys -> linked h r e n h' -> list_rep h' head (xs ++ e :: ys).
Proof.
  intros (H0 & Hnd & Hc) Hl Hr He0 He Hlink.
  destruct (place_side _ _ _ _ _ _ _ Hnd Hl Hr) as (? & ? & ? & ?).
  split_and!.
  - set_solver.
  - change (NoDup ((head :: xs) ++ e :: ys)). rewrite <- Permutation_middle.
    by constructor.
  - rewrite (place_eq head xs [e] ys _ _ _ _ Hl Hr :
      head :: (xs ++ e :: ys) ++ [head] = us ++ r :: e :: n :: vs).
    eapply (chain_linked h); eauto using place_elem.
    pose proof (place_eq head xs [] ys us r n vs Hl Hr) as Heq.
    cbn in Heq. by rewrite <- Heq.
Qed.

Lemma rep_unlinked h head xs ys us r n vs e h' :
  list_rep h head (xs ++ e :: ys) -> head :: xs = us ++ [r] -> ys ++ [head] = n :: vs ->
  unlinked h r e n h' -> list_rep h' head (xs ++ ys).
Proof.
  intros (H0 & Hnd & Hc) Hl Hr Hlink.
  destruct (nodup_middle _ _ _ _ Hnd) as [He Hnd'].
  destruct (place_side _ _ _ _ _ _ _ Hnd' Hl Hr) as (? & ? & ? & ?).
  split_and!; [set_solver|done|].
  rewrite (place_eq head xs [] ys _ _ _ _ Hl Hr : head :: (xs ++ ys) ++ [head] = us ++ r :: n :: vs).
  eapply (chain_unlinked h); eauto using place_elem.
  by rewrite (place_eq head xs [e] ys _ _ _ _ Hl Hr : head :: (xs ++ e :: ys) ++ [head] = us ++ r :: e :: n :: vs) in Hc.
Qed.

(** What the chain says at a place. *)
Lemma rep_neighbours h head xs ys us r n vs :
  list_rep h head (xs ++ ys) -> head :: xs = us ++ [r] -> ys ++ [head] = n :: vs ->
  nx h r = Some n /\ pv h n = Some r /\ r <> 0 /\ n <> 0 /\
  r ∈ head :: xs ++ ys /\ n ∈ head :: xs ++ ys.
Proof.
  intros (H0 & Hnd & Hc) Hl Hr.
  assert (r ∈ head :: xs) by (rewrite Hl; set_solver).
  assert (n ∈ ys ++ [head]) by (rewrite Hr; set_solver).
  rewrite (place_eq head xs [] ys _ _ _ _ Hl Hr : head :: (xs ++ ys) ++ [head] = us ++ r :: n :: vs) in Hc.
  apply chain_split in Hc as [_ (? & ? & _)]. set_solver.
Qed.

Section Refinement.
Context (h : heap) (head : Z).

Theorem hax_list_add_refines xs ys r e :
  list_rep h head (xs ++ ys) -> last (head :: xs) = Some r ->
  e <> 0 -> e ∉ head :: xs ++ ys -> is_Some (h !! e) ->
  exists h', hax_list_add e r h = Some (tt, h') /\ list_rep h' head (xs ++ e :: ys).
Proof.
  intros Hrep Hlast He0 He Hsome.
  destruct (place_exists head xs ys) as (us & r' & n & vs & Hl & Hr).
  rewrite Hl, last_snoc in Hlast. simplify_eq.
  destruct (rep_neighbours _ _ _ _ _ _ _ _ Hrep Hl Hr) as (Hn & Hp & ? & ? & ? & ?).
  destruct (hax_list_add_linked h r e n) as (h' & Hrun & Hlink); try done.
  1-2: set_solver.
  { unfold nx. by apply fmap_is_Some. }
  exists h'. split; [done|]. eauto using rep_linked.
Qed.

Theorem hax_list_insert_before_refines xs ys n e :
  list_rep h head (xs ++ ys) -> list.head (ys ++ [head]) = Some n ->
  e <> 0 -> e ∉ head :: xs ++ ys -> is_Some (h !! e) ->
  exists h', hax_list_insert_before e n h = Some (tt, h') /\
             list_rep h' head (xs ++ e :: ys).
Proof.
  intros Hrep Hhd He0 He Hsome.
  destruct (place_exists head xs ys) as (us & r & n' & vs & Hl & Hr).
  rewrite Hr in Hhd. cbn in Hhd. simplify_eq.
  destruct (rep_neighbours _ _ _ _ _ _ _ _ Hrep Hl Hr) as (Hn & Hp & ? & ? & ? & ?).
  destruct (hax_list_insert_before_linked h r e n) as (h' & Hrun & Hlink); try done.
  1-2: set_solver.
  { unfold nx. by apply fmap_is_Some. }
  exists h'. split; [done|]. eauto using rep_linked.
Qed.

Theorem hax_list_del_refines xs ys e :
  list_rep h head (xs ++ e :: ys) ->
  exists h', hax_list_del e h = Some (tt, h') /\ list_rep h' head (xs ++ ys).
Proof.
  intros Hrep.
  destruct (place_exists head xs ys) as (us & r & n & vs & Hl & Hr).
  destruct (nodup_middle head xs e ys) as [He _]; [apply Hrep|].
  assert (r ∈ head :: xs) by (rewrite Hl; set_solver).
  assert (n ∈ ys ++ [head]) by (rewrite Hr; set_solver).
  destruct Hrep as (Hz & Hnd & Hc).
  pose proof Hc as Hc'.
  rewrite (place_eq head xs [e] ys _ _ _ _ Hl Hr : head :: (xs ++ e :: ys) ++ [head] = us ++ r :: e :: n :: vs) in Hc'.
  apply chain_split in Hc' as [_ (? & ? & ? & ? & _)].
  destruct (hax_list_del_unlinked h r e n) as (h' & Hrun & Hlink); try done.
  1-2: set_solver.
  exists h'. split; [done|].
  exact (rep_unlinked _ _ _ _ _ _ _ _ _ _ (conj Hz (conj Hnd Hc)) Hl Hr Hlink).
Qed.

Lemma rep_first xs n vs :
  list_rep h head xs -> xs ++ [head] = n :: vs -> nx h head = Some n.
Proof.
  intros Hrep Hr.
  by destruct (rep_neighbours h head [] xs [] head n vs Hrep eq_refl Hr) as (? & _).
Qed.

Lemma rep_last xs us r :
  list_rep h head xs -> head :: xs = us ++ [r] -> pv h head = Some r.
Proof.
  intros Hrep Hl. rewrite <- (app_nil_r xs) in Hrep.
  by destruct (rep_neighbours h head xs [] us r head [] Hrep Hl eq_refl) as (_ & ? & _).
Qed.

(** [hax_list_empty] decides emptiness of the represented sequence. *)
Theorem hax_list_empty_refines xs :
  list_rep h head xs -> hax_list_empty head h = Some (bool_decide (xs = []), h).
Proof.
  intros Hrep. unfold hax_list_empty.
  rewrite (proj2 (Z.eqb_neq head 0)) by (destruct Hrep as [H0 _]; set_solver).
  destruct xs as [|x xs].
  - erewrite bind_run by (apply rd_next_run; by eapply (rep_first [])).
    rewrite Z.eqb_refl.
    erewrite bind_run by (apply rd_prev_run; by eapply (rep_last [] [])).
    by rewrite Z.eqb_refl.
  - erewrite bind_run by (apply rd_next_run; by eapply (rep_first (x :: xs))).
    rewrite (proj2 (Z.eqb_neq x head)); [done|].
    destruct Hrep as (_ & Hnd & _). apply NoDup_cons in Hnd as [? _]. set_solver.
Qed.

Lemma for_each_from_rep fuel xs ys n vs :
  list_rep h head (xs ++ ys) -> ys ++ [head] = n :: vs -> (length ys < fuel)%nat ->
  for_each_from fuel n head h = Some (ys, h).
Proof.
  revert fuel xs n vs. induction ys as [|y ys IH]; intros [|fuel] xs n vs Hrep Hr Hf;
    cbn in Hf; try lia; cbn in Hr; simplify_eq; cbn [for_each_from].
  - by rewrite Z.eqb_refl.
  - assert (n <> head).
    { destruct Hrep as (_ & Hnd & _). apply NoDup_cons in Hnd as [? _]. set_solver. }
    rewrite (proj2 (Z.eqb_neq n head)) by done.
    destruct (place_exists head (xs ++ [n]) ys) as (us & r & n2 & vs2 & Hl2 & Hr2).
    assert (Hrep2 : list_rep h head ((xs ++ [n]) ++ ys)) by by rewrite <- app_assoc.
    assert (r = n) as ->.
    { rewrite app_comm_cons in Hl2. by apply app_inj_tail in Hl2 as [_ ->]. }
    destruct (rep_neighbours _ _ _ _ _ _ _ _ Hrep2 Hl2 Hr2) as (Hn & _).
    erewrite bind_run by (by apply rd_next_run).
    erewrite bind_run by (eapply IH; [exact Hrep2|exact Hr2|lia]). done.
Qed.

(** A traversal visits the nodes of the sequence in order and terminates. *)
Theorem hax_list_for_each_refines fuel xs :
  list_rep h head xs -> (length xs < fuel)%nat ->
  hax_list_for_each fuel head h = Some (xs, h).
Proof.
  intros Hrep Hf. unfold hax_list_for_each.
  destruct (place_exists head [] xs) as (us & r & n & vs & _ & Hr).
  erewrite bind_run by (apply rd_next_run; by eapply rep_first).
  by eapply (for_each_from_rep fuel [] xs).
Qed.
End Refinement.

Lemma del_each_from_rep fuel h head xs i t vs :
  list_rep h head xs -> xs ++ [head] = i :: vs -> nx h i = Some t ->
  (length xs < fuel)%nat ->
  exists h', del_each_from fuel i t head h = Some (tt, h') /\ list_rep h' head [].
Proof.
  revert fuel h i t vs. induction xs as [|x xs IH]; intros [|fuel] h i t vs Hrep Hi Ht Hf;
    cbn in Hf; try lia; cbn in Hi; simplify_eq; cbn [del_each_from].
  - rewrite Z.eqb_refl. eauto.
  - assert (i <> head).
    { destruct Hrep as (_ & Hnd & _). apply NoDup_cons in Hnd as [? _]. set_solver. }
    rewrite (proj2 (Z.eqb_neq i head)) by done.
    destruct (hax_list_del_refines h head [] xs i Hrep) as (h1 & Hdel & Hrep1).
    rewrite (bind_run _ _ _ _ _ Hdel).
    destruct (place_exists head [i] xs) as (us & r & n & vs' & Hl & Hr).
    destruct (rep_neighbours h head [i] xs us r n vs' Hrep Hl Hr) as (Hn & _).
    assert (r = i) as -> by (by apply (app_inj_tail [head]) in Hl as [_ ->]).
    assert (t = n) as -> by congruence.
    assert (is_Some (nx h1 n)) as [t' Ht'].
    { cbn in Hrep1. destruct xs as [|y ys]; cbn in Hr; simplify_eq.
      - exists n. by eapply (rep_first h1 n []).
      - destruct Hrep1 as (_ & _ & _ & Hp & _). by eapply pv_nx_some. }
    erewrite bind_run by (by apply rd_next_run).
    eapply IH; eauto. lia.
Qed.

(** Unlinking every node with the saved-successor traversal empties the list. *)
Theorem hax_list_del_each_refines fuel h head xs :
  list_rep h head xs -> (length xs < fuel)%nat ->
  exists h', hax_list_del_each fuel head h = Some (tt, h') /\ list_rep h' head [].
Proof.
  intros Hrep Hf. unfold hax_list_del_each.
  destruct (place_exists head [] xs) as (us & r & n & vs & _ & Hr).
  erewrite bind_run by (apply rd_next_run; by eapply rep_first).
  assert (is_Some (nx h n)) as [t Ht].
  { destruct xs as [|y ys]; cbn in Hr; simplify_eq.
    - exists n. by eapply (rep_first h n []).
    - destruct Hrep as (_ & _ & _ & Hp & _). by eapply pv_nx_some. }
  erewrite bind_run by (by apply rd_next_run).
  by eapply del_each_from_rep.
Qed.

(** ** Sequences of objects keyed by their address

    [HEAD] stands for the address of the list head, which is not a node. *)
Definition HEAD : Z := 0.

Class Keyed (A : Type) := node_key : A -> Z.

Section NodeList.
Context {A : Type} `{Keyed A}.
Implicit Types (l : list A) (p : Z) (x : A).

Definition nl_keys l : list Z := node_key <$> l.

(** The object at address [p]. *)
Fixpoint nl_get p l : option A :=
  match l with
  | [] => None
  | x :: t => if node_key x =? p then Some x else nl_get p t
  end.

(** Field updates through a pointer. *)
Definition nl_upd p (f : A -> A) l : list A :=
  (fun x => if node_key x =? p then f x else x) <$> l.

(** [hax_list_insert_before]: before the head means at the tail. *)
Fixpoint nl_insert_before p x l : list A :=
  match l with
  | [] => [x]
  | y :: t => if node_key y =? p then x :: y :: t else y :: nl_insert_before p x t
  end.

Fixpoint nl_link_after p x l : list A :=
  match l with
  | [] => []
  | y :: t => if node_key y =? p then y :: x :: t else y :: nl_link_after p x t
  end.

(** [hax_list_insert_after]/[hax_list_add]: after the head means at the front. *)
Definition nl_insert_after p x l : list A :=
  if p =? HEAD then x :: l else nl_link_after p x l.

Definition nl_del p l : list A := filter (fun x => node_key x <> p) l.

(** The address stored in [entry.next] / [entry.prev] of the node at [p]. *)
Definition nl_first l : Z := match l with [] => HEAD | x :: _ => node_key x end.

Fixpoint nl_succ p l : Z :=
  match l with
  | [] => HEAD
  | x :: t => if node_key x =? p then nl_first t else nl_succ p t
  end.

Definition nl_next p l : Z := if p =? HEAD then nl_first l else nl_succ p l.

Fixpoint nl_pred_from (before p : Z) l : Z :=
  match l with
  | [] => before
  | x :: t => if node_key x =? p then before else nl_pred_from (node_key x) p t
  end.

Definition nl_prev p l : Z := nl_pred_from HEAD p l.

Lemma nl_get_app p l1 l2 : p ∉ nl_keys l1 -> nl_get p (l1 ++ l2) = nl_get p l2.
Proof.
  induction l1 as [|y l1 IH]; [done|]. cbn. intros Hp.
  destruct (Z.eqb_spec (node_key y) p); [set_solver|]. apply IH. set_solver.
Qed.

Lemma nl_get_middle l1 x l2 :
  node_key x ∉ nl_keys l1 -> nl_get (node_key x) (l1 ++ x :: l2) = Some x.
Proof. intros. rewrite nl_get_app by done. cbn. by rewrite Z.eqb_refl. Qed.

Lemma nl_get_Some p l x : nl_get p l = Some x -> x ∈ l /\ node_key x = p.
Proof.
  induction l as [|y l IH]; [done|]. cbn. destruct (Z.eqb_spec (node_key y) p).
  - intros [= ->]. set_solver.
  - intros [??]%IH. set_solver.
Qed.

Lemma nl_get_None p l : p ∉ nl_keys l -> nl_get p l = None.
Proof.
  intros Hp. destruct (nl_get p l) as [x|] eqn:Hx; [|done].
  destruct Hp. apply nl_get_Some in Hx as [Hin <-]. by apply list_elem_of_fmap_2.
Qed.

Lemma nl_get_elem l x : NoDup (nl_keys l) -> x ∈ l -> nl_get (node_key x) l = Some x.
Proof.
  intros Hnd (l1 & l2 & ->)%list_elem_of_split. apply nl_get_middle.
  unfold nl_keys in *. rewrite fmap_app in Hnd. cbn in Hnd.
  apply NoDup_app in Hnd as (_ & Hd & _). intros Hin. apply (Hd _ Hin). set_solver.
Qed.

Lemma nl_upd_none p f l : p ∉ nl_keys l -> nl_upd p f l = l.
Proof.
  induction l as [|y l IH]; [done|]. cbn. intros Hp.
  destruct (Z.eqb_spec (node_key y) p); [set_solver|]. f_equal. apply IH. set_solver.
Qed.

Lemma nl_upd_middle l1 x l2 f :
  node_key x ∉ nl_keys l1 -> node_key x ∉ nl_keys l2 ->
  nl_upd (node_key x) f (l1 ++ x :: l2) = l1 ++ f x :: l2.
Proof.
  intros. unfold nl_upd. rewrite fmap_app. cbn. rewrite Z.eqb_refl.
  f_equal; [by apply nl_upd_none|]. f_equal. by apply nl_upd_none.
Qed.

Lemma nl_del_none p l : p ∉ nl_keys l -> nl_del p l = l.
Proof.
  induction l as [|y l IH]; [done|]. intros Hp. unfold nl_keys in Hp.
  rewrite fmap_cons in Hp. apply not_elem_of_cons in Hp as [Hy Hp].
  unfold nl_del. rewrite filter_cons_True by congruence. f_equal. by apply IH.
Qed.

Lemma nl_del_middle l1 x l2 :
  node_key x ∉ nl_keys l1 -> node_key x ∉ nl_keys l2 ->
  nl_del (node_key x) (l1 ++ x :: l2) = l1 ++ l2.
Proof.
  intros. unfold nl_del. rewrite filter_app, filter_cons_False by naive_solver.
  f_equal; by apply nl_del_none.
Qed.

Lemma nl_insert_before_middle l1 x l2 y :
  node_key x ∉ nl_keys l1 ->
  nl_insert_before (node_key x) y (l1 ++ x :: l2) = l1 ++ y :: x :: l2.
Proof.
  induction l1 as [|z l1 IH]; cbn; intros Hp; [by rewrite Z.eqb_refl|].
  destruct (Z.eqb_spec (node_key z) (node_key x)); [set_solver|].
  f_equal. apply IH. set_solver.
Qed.

Lemma nl_insert_before_none p l y :
  p ∉ nl_keys l -> nl_insert_before p y l = l ++ [y].
Proof.
  induction l as [|z l IH]; cbn; intros Hp; [done|].
  destruct (Z.eqb_spec (node_key z) p); [set_solver|]. f_equal. apply IH. set_solver.
Qed.

Lemma nl_insert_after_middle l1 x l2 y :
  node_key x ∉ nl_keys l1 -> node_key x <> HEAD ->
  nl_insert_after (node_key x) y (l1 ++ x :: l2) = l1 ++ x :: y :: l2.
Proof.
  intros Hp Hne. unfold nl_insert_after.
  rewrite (proj2 (Z.eqb_neq _ _)) by done. clear Hne.
  induction l1 as [|z l1 IH]; cbn; [by rewrite Z.eqb_refl|].
  destruct (Z.eqb_spec (node_key z) (node_key x)); [set_solver|].
  f_equal. apply IH. set_solver.
Qed.

Lemma nl_next_middle l1 x l2 :
  node_key x ∉ nl_keys l1 -> node_key x <> HEAD ->
  nl_next (node_key x) (l1 ++ x :: l2) = nl_first l2.
Proof.
  intros Hp Hne. unfold nl_next. rewrite (proj2 (Z.eqb_neq _ _)) by done. clear Hne.
  induction l1 as [|z l1 IH]; cbn; [by rewrite Z.eqb_refl|].
  destruct (Z.eqb_spec (node_key z) (node_key x)); [set_solver|].
  apply IH. set_solver.
Qed.

Lemma nl_pred_from_middle b l1 y x l2 :
  node_key x ∉ nl_keys (l1 ++ [y]) ->
  nl_pred_from b (node_key x) (l1 ++ y :: x :: l2) = node_key y.
Proof.
  revert b. induction l1 as [|z l1 IH]; intros b; cbn; intros Hp.
  - destruct (Z.eqb_spec (node_key y) (node_key x)); [set_solver|].
    by rewrite Z.eqb_refl.
  - destruct (Z.eqb_spec (node_key z) (node_key x)); [set_solver|].
    apply IH. set_solver.
Qed.

Lemma nl_prev_middle l1 y x l2 :
  node_key x ∉ nl_keys (l1 ++ [y]) ->
  nl_prev (node_key x) (l1 ++ y :: x :: l2) = node_key y.
Proof. apply nl_pred_from_middle. Qed.

Lemma nl_keys_upd p f l :
  (forall x, node_key (f x) = node_key x) -> nl_keys (nl_upd p f l) = nl_keys l.
Proof.
  intros Hf. unfold nl_keys, nl_upd. rewrite <- list_fmap_compose.
  apply list_fmap_ext. intros i x _. cbn. destruct (_ =? _); [apply Hf|done].
Qed.

Lemma nl_get_upd_ne p q f l :
  q <> p -> (forall x, node_key x = p -> node_key (f x) = p) ->
  nl_get q (nl_upd p f l) = nl_get q l.
Proof.
  intros Hne Hf. induction l as [|x l IH]; [done|].
  change (nl_upd p f (x :: l)) with ((if node_key x =? p then f x else x) :: nl_upd p f l).
  cbn [nl_get]. rewrite IH. destruct (Z.eqb_spec (node_key x) p) as [Hx|Hx]; [|done].
  by rewrite (Hf _ Hx), Hx, (proj2 (Z.eqb_neq p q)) by congruence.
Qed.

(** Adding an object leaves the others in place. *)
Lemma nl_get_perm_cons p x l l' :
  NoDup (nl_keys l') -> l' ≡ₚ x :: l -> node_key x <> p -> nl_get p l' = nl_get p l.
Proof.
  intros Hnd Hp Hne.
  assert (Hnd2 : NoDup (nl_keys l)).
  { unfold nl_keys in *. rewrite Hp in Hnd. cbn in Hnd. by apply NoDup_cons in Hnd as [_ ?]. }
  destruct (nl_get p l) as [y|] eqn:Hy.
  - apply nl_get_Some in Hy as [Hin <-]. apply nl_get_elem; [done|]. rewrite Hp. set_solver.
  - destruct (nl_get p l') as [y|] eqn:Hy'; [|done].
    apply nl_get_Some in Hy' as [Hin <-]. rewrite Hp in Hin.
    apply elem_of_cons in Hin as [->|Hin]; [done|].
    by rewrite (nl_get_elem l y Hnd2 Hin) in Hy.
Qed.

(** [hax_list_add(x, ref->entry.prev)] inserts before [ref]. *)
Lemma nl_insert_after_prev l1 x l2 y :
  node_key x ∉ nl_keys l1 -> HEAD ∉ nl_keys l1 -> NoDup (nl_keys l1) ->
  nl_insert_after (nl_prev (node_key x) (l1 ++ x :: l2)) y (l1 ++ x :: l2) =
  l1 ++ y :: x :: l2.
Proof.
  intros Hx H0 Hnd. destruct (decide (l1 = [])) as [->|Hne].
  - unfold nl_prev. cbn. by rewrite Z.eqb_refl.
  - destruct (exists_last Hne) as (l0 & z & ->). rewrite <- app_assoc. cbn.
    rewrite nl_prev_middle by done.
    unfold nl_keys in *. rewrite fmap_app in *. cbn in *.
    apply NoDup_app in Hnd as (_ & Hd & _).
    rewrite nl_insert_after_middle; [by rewrite <- app_assoc| |set_solver].
    intros Hin. apply (Hd _ Hin). set_solver.
Qed.
End NodeList.

(** ** The pointer code implements the keyed sequences *)
Section NodeListRefinement.
Context {A : Type} `{Keyed A}.
Implicit Types (l : list A) (p : Z) (x : A).

(** The address a component sees for a link: [HEAD] is the head's address. *)
Definition link_addr (head p : Z) : Z := if p =? HEAD then head else p.

Lemma nl_keys_split l p :
  NoDup (nl_keys l) -> p ∈ nl_keys l ->
  exists l1 x l2, l = l1 ++ x :: l2 /\ p = node_key x /\
                  p ∉ nl_keys l1 /\ p ∉ nl_keys l2.
Proof.
  intros Hnd Hp. apply list_elem_of_fmap in Hp as (x & -> & Hx).
  apply list_elem_of_split in Hx as (l1 & l2 & ->). exists l1, x, l2.
  unfold nl_keys in Hnd. rewrite fmap_app in Hnd. cbn in Hnd.
  apply NoDup_app in Hnd as (_ & Hd & Hnd). apply NoDup_cons in Hnd as [? _].
  split_and!; try done. intros Hin. apply (Hd _ Hin). set_solver.
Qed.

Lemma nl_keys_app l1 l2 : nl_keys (l1 ++ l2) = nl_keys l1 ++ nl_keys l2.
Proof. apply fmap_app. Qed.

Lemma rep_nodup h head l : list_rep h head (nl_keys l) -> NoDup (nl_keys l).
Proof. intros (_ & Hnd & _). by apply NoDup_cons in Hnd as [_ ?]. Qed.

Theorem nl_insert_before_refines h head l p x :
  list_rep h head (nl_keys l) -> p ∈ nl_keys l ->
  node_key x <> 0 -> node_key x ∉ head :: nl_keys l -> is_Some (h !! node_key x) ->
  exists h', hax_list_insert_before (node_key x) p h = Some (tt, h') /\
             list_rep h' head (nl_keys (nl_insert_before p x l)).
Proof.
  intros Hrep Hp Hx0 Hx Hs.
  destruct (nl_keys_split l p (rep_nodup _ _ _ Hrep) Hp) as (l1 & y & l2 & -> & -> & ? & ?).
  rewrite nl_insert_before_middle by done. rewrite !nl_keys_app in *.
  by apply (hax_list_insert_before_refines h head (nl_keys l1) (nl_keys (y :: l2))).
Qed.

Theorem nl_insert_after_refines h head l p x :
  list_rep h head (nl_keys l) -> p = HEAD \/ p ∈ nl_keys l ->
  node_key x <> 0 -> node_key x ∉ head :: nl_keys l -> is_Some (h !! node_key x) ->
  exists h', hax_list_insert_after (node_key x) (link_addr head p) h = Some (tt, h') /\
             list_rep h' head (nl_keys (nl_insert_after p x l)).
Proof.
  intros Hrep [->|Hp] Hx0 Hx Hs.
  - by apply (hax_list_add_refines h head [] (nl_keys l)).
  - assert (p <> HEAD) as Hne by (destruct Hrep as [H0 _]; set_solver).
    destruct (nl_keys_split l p (rep_nodup _ _ _ Hrep) Hp)
      as (l1 & y & l2 & -> & -> & ? & ?).
    unfold link_addr. rewrite (proj2 (Z.eqb_neq _ _)) by done.
    rewrite nl_insert_after_middle by done.
    rewrite (cons_middle y l1 l2), (cons_middle y l1 (x :: l2)), !app_assoc in *.
    rewrite !nl_keys_app in *.
    apply (hax_list_add_refines h head (nl_keys l1 ++ nl_keys [y]) (nl_keys l2)); try done.
    rewrite app_comm_cons. apply last_snoc.
Qed.

Theorem nl_del_refines h head l p :
  list_rep h head (nl_keys l) -> p ∈ nl_keys l ->
  exists h', hax_list_del p h = Some (tt, h') /\ list_rep h' head (nl_keys (nl_del p l)).
Proof.
  intros Hrep Hp.
  destruct (nl_keys_split l p (rep_nodup _ _ _ Hrep) Hp) as (l1 & y & l2 & -> & -> & ? & ?).
  rewrite nl_del_middle by done. rewrite !nl_keys_app in *.
  by apply (hax_list_del_refines h head (nl_keys l1) (nl_keys l2)).
Qed.

Theorem nl_next_refines h head l p :
  list_rep h head (nl_keys l) -> p = HEAD \/ p ∈ nl_keys l ->
  rd_next (link_addr head p) h = Some (link_addr head (nl_next p l), h).
Proof.
  intros Hrep Hp. apply rd_next_run. unfold link_addr at 2.
  assert (Hfirst : forall l', 0 ∉ nl_keys l' ->
    exists vs, nl_keys l' ++ [head] = (if nl_first l' =? HEAD then head else nl_first l') :: vs).
  { intros l' H0. destruct l' as [|y l']; [by exists []|]. cbn in *.
    rewrite (proj2 (Z.eqb_neq _ _)) by (unfold HEAD; set_solver). by eexists. }
  assert (0 ∉ nl_keys l) as H0 by (destruct Hrep as [? _]; set_solver).
  destruct Hp as [->|Hp].
  - destruct (Hfirst l H0) as [vs Hvs]. by eapply rep_first.
  - destruct (nl_keys_split l p (rep_nodup _ _ _ Hrep) Hp)
      as (l1 & y & l2 & -> & -> & ? & ?).
    assert (node_key y <> HEAD) by (unfold HEAD; intros Heq; rewrite Heq in *; done).
    unfold link_addr. rewrite (proj2 (Z.eqb_neq (node_key y) HEAD)) by done.
    rewrite nl_next_middle by done.
    destruct (Hfirst l2) as [vs Hvs]; [rewrite nl_keys_app in H0; set_solver|].
    rewrite (cons_middle y l1 l2), app_assoc, nl_keys_app in Hrep.
    eapply (rep_neighbours h head (nl_keys (l1 ++ [y])) (nl_keys l2)
              (head :: nl_keys l1) (node_key y)); [done| |exact Hvs].
    by rewrite nl_keys_app.
Qed.
End NodeListRefinement.
