(* ===== verification/Bitmap.v ===== *)
(** * Bit arrays in memory (src/platforms/linux/hax_wrapper.c,
    src/include/linux/hax_linux.h)

    A bitmap is an array of bytes.  The atomic operations go through the
    enclosing 64-bit word, so they need all of its eight bytes allocated; the
    plain test reads one byte.  [None] is an access outside the array. *)

From stdpp Require Import base numbers list.
From Stdlib Require Import ZArith Lia.
From S2P Require Import Prelude.
#[local] Open Scope Z_scope.

(** The bytes of the 64-bit word holding [bit] are inside the array. *)
Definition word_in_range (bit : Z) (mem : list Z) : bool :=
  ((0 <=? bit) && (8 * (bit / 64) + 8 <=? Z.of_nat (length mem)))%bool.

Definition byte_of (bit : Z) : nat := Z.to_nat (bit / 8).

Definition hax_test_bit (bit : Z) (mem : list Z) : option bool :=
  if bit <? 0 then None
  else b ← mem !! byte_of bit; Some (negb (Z.land b (Z.shiftl 1 (bit mod 8)) =? 0)).

(** Returns the old value of the bit. *)
Definition hax_test_and_set_bit (bit : Z) (mem : list Z) : option (bool * list Z) :=
  if word_in_range bit mem then
    b ← mem !! byte_of bit;
    Some (Z.testbit b (bit mod 8), <[byte_of bit := Z.setbit b (bit mod 8)]> mem)
  else None.

(** Returns the negation of the old value of the bit. *)
Definition hax_test_and_clear_bit (bit : Z) (mem : list Z) : option (bool * list Z) :=
  if word_in_range bit mem then
    b ← mem !! byte_of bit;
    Some (negb (Z.testbit b (bit mod 8)), <[byte_of bit := Z.clearbit b (bit mod 8)]> mem)
  else None.

(** Specification view: the bits of the array. *)
Definition bm_bit (mem : list Z) (bit : Z) : bool :=
  Z.testbit (default 0 (mem !! byte_of bit)) (bit mod 8).

Lemma land_shiftl_1 b i : 0 <= i -> negb (Z.land b (Z.shiftl 1 i) =? 0) = Z.testbit b i.
Proof.
  intros Hi. rewrite Z.shiftl_1_l.
  destruct (Z.testbit b i) eqn:Hb.
  - apply negb_true_iff, Z.eqb_neq. intros H0.
    assert (Z.testbit (Z.land b (2 ^ i)) i = false) as Hf by (by rewrite H0, Z.testbit_0_l).
    rewrite Z.land_spec, Hb, Z.pow2_bits_true in Hf by done. done.
  - apply negb_false_iff, Z.eqb_eq, Z.bits_inj'. intros n Hn.
    rewrite Z.land_spec, Z.testbit_0_l. destruct (decide (n = i)) as [->|Hne].
    + by rewrite Hb.
    + rewrite Z.pow2_bits_false by done. apply andb_false_r.
Qed.

Lemma byte_of_lt bit mem :
  word_in_range bit mem = true -> (byte_of bit < length mem)%nat.
Proof.
  unfold word_in_range, byte_of. intros H. bool_hyps.
  assert (bit / 8 <= 8 * (bit / 64) + 7).
  { pose proof (Z.div_mod bit 64). pose proof (Z.mod_pos_bound bit 64).
    apply Z.lt_succ_r, Z.div_lt_upper_bound; lia. }
  assert (0 <= bit / 8) by (apply Z.div_pos; lia). lia.
Qed.

Lemma bit_addr_inj i j :
  0 <= i -> 0 <= j -> byte_of i = byte_of j -> i mod 8 = j mod 8 -> i = j.
Proof.
  unfold byte_of. intros Hi Hj Hb Hm.
  assert (0 <= i / 8) by (apply Z.div_pos; lia).
  assert (0 <= j / 8) by (apply Z.div_pos; lia).
  rewrite (Z.div_mod i 8), (Z.div_mod j 8) by lia. lia.
Qed.

Lemma hax_test_bit_spec bit mem :
  0 <= bit -> (byte_of bit < length mem)%nat ->
  hax_test_bit bit mem = Some (bm_bit mem bit).
Proof.
  intros H0 Hl. unfold hax_test_bit, bm_bit.
  rewrite (proj2 (Z.ltb_ge bit 0)) by done.
  destruct (lookup_lt_is_Some_2 _ _ Hl) as [b ->]. cbn.
  rewrite land_shiftl_1; [done|]. apply Z.mod_pos_bound; lia.
Qed.

(** Effect of an update of one bit on the whole array. *)
Lemma bm_bit_update mem i f v j :
  0 <= i -> 0 <= j -> (byte_of i < length mem)%nat ->
  (forall b, Z.testbit (f b) (i mod 8) = v) ->
  (forall b k, 0 <= k -> k <> i mod 8 -> Z.testbit (f b) k = Z.testbit b k) ->
  bm_bit (<[byte_of i := f (default 0 (mem !! byte_of i))]> mem) j =
  if decide (i = j) then v else bm_bit mem j.
Proof.
  intros Hi Hj Hl Hsame Hother. unfold bm_bit.
  destruct (decide (byte_of i = byte_of j)) as [Hb|Hb].
  - rewrite Hb at 1. rewrite list_lookup_insert_eq by lia. cbn.
    destruct (decide (i mod 8 = j mod 8)) as [Hm|Hm].
    + rewrite decide_True by by apply bit_addr_inj. by rewrite <- Hm.
    + rewrite decide_False by congruence. rewrite Hother, Hb; [done| |congruence].
      apply Z.mod_pos_bound; lia.
  - rewrite list_lookup_insert_ne by done. rewrite decide_False by congruence. done.
Qed.

Lemma hax_test_and_set_bit_spec i mem :
  word_in_range i mem = true ->
  exists mem', hax_test_and_set_bit i mem = Some (bm_bit mem i, mem') /\
    length mem' = length mem /\
    forall j, 0 <= j -> bm_bit mem' j = if decide (i = j) then true else bm_bit mem j.
Proof.
  intros Hw. pose proof (byte_of_lt _ _ Hw) as Hl.
  assert (0 <= i) by (unfold word_in_range in Hw; bool_hyps; lia).
  assert (0 <= i mod 8) by (apply Z.mod_pos_bound; lia).
  destruct (lookup_lt_is_Some_2 _ _ Hl) as [b Hb].
  eexists. split_and!.
  - unfold hax_test_and_set_bit. rewrite Hw, Hb. cbn. unfold bm_bit. by rewrite Hb.
  - apply length_insert.
  - intros j Hj.
    rewrite <- (bm_bit_update mem i (fun b => Z.setbit b (i mod 8)) true j); try done.
    + by rewrite Hb.
    + intros b'. by apply Z.setbit_eq.
    + intros b' k Hk Hne. by apply Z.setbit_neq.
Qed.

Lemma hax_test_and_clear_bit_spec i mem :
  word_in_range i mem = true ->
  exists mem', hax_test_and_clear_bit i mem = Some (negb (bm_bit mem i), mem') /\
    length mem' = length mem /\
    forall j, 0 <= j -> bm_bit mem' j = if decide (i = j) then false else bm_bit mem j.
Proof.
  intros Hw. pose proof (byte_of_lt _ _ Hw) as Hl.
  assert (0 <= i) by (unfold word_in_range in Hw; bool_hyps; lia).
  assert (0 <= i mod 8) by (apply Z.mod_pos_bound; lia).
  destruct (lookup_lt_is_Some_2 _ _ Hl) as [b Hb].
  eexists. split_and!.
  - unfold hax_test_and_clear_bit. rewrite Hw, Hb. cbn. unfold bm_bit. by rewrite Hb.
  - apply length_insert.
  - intros j Hj.
    rewrite <- (bm_bit_update mem i (fun b => Z.clearbit b (i mod 8)) false j); try done.
    + by rewrite Hb.
    + intros b'. by apply Z.clearbit_eq.
    + intros b' k Hk Hne. apply Z.clearbit_neq. congruence.
Qed.
