(* ===== verification/MemTypes.v ===== *)
(** * Guest memory data structures (src/core/include/memory.h) and the host
    interface (src/include/hax_host_mem.h, src/include/hax.h)

    The host operating system is a parameter: the class [Host] lists the host
    services the memory code calls.  Their results are arbitrary functions of an
    abstract host state, so every theorem holds for every pattern of allocation
    and pinning failures. *)

From stdpp Require Import base numbers list gmap.
From Stdlib Require Import ZArith Lia.
From S2P Require Import Prelude HaxList.
#[local] Open Scope Z_scope.

Class Host := {
  hstate : Type;
  memdesc_user : Type;
  (** [hax_vmalloc(size, flags) != NULL] *)
  host_vmalloc : Z -> hstate -> bool * hstate;
  (** [hax_pin_user_pages]: return code and descriptor *)
  hax_pin_user_pages : Z -> Z -> hstate -> Z * memdesc_user * hstate;
  hax_unpin_user_pages : memdesc_user -> hstate -> Z * hstate;
  (** [hax_get_pfn_user(memdesc, uva_offset)] *)
  hax_get_pfn_user : memdesc_user -> Z -> Z;
  (** [hax_map_user_pages(memdesc, uva_offset, size) != NULL] *)
  host_map_user_pages : memdesc_user -> Z -> Z -> hstate -> bool * hstate;
  hax_unmap_user_pages : hstate -> Z * hstate;
}.

Definition HAX_CHUNK_SHIFT : Z := 21.
Definition HAX_CHUNK_SIZE : Z := Z.shiftl 1 HAX_CHUNK_SHIFT.
Definition PG_ORDER_4K : Z := 12.
Definition PAGE_SIZE_4K : Z := Z.shiftl 1 PG_ORDER_4K.
Definition INVALID_PFN : Z := Z.shiftr (2 ^ 64 - 1) 24.

Definition HAX_MEMSLOT_READONLY : Z := Z.shiftl 1 0.
Definition HAX_MEMSLOT_STANDALONE : Z := Z.shiftl 1 6.
Definition HAX_MEMSLOT_INVALID : Z := Z.shiftl 1 7.

Definition HAX_RAM_PERM_NONE : Z := 0x0.
Definition HAX_RAM_PERM_RWX : Z := 0x7.
Definition HAX_RAM_PERM_MASK : Z := 0x7.

(** [sizeof] of the structures on x86_64 Linux. *)
Definition sizeof_hax_chunk : Z := 32.
Definition sizeof_hax_ramblock : Z := 56.
Definition sizeof_hax_memslot : Z := 56.
Definition sizeof_pointer : Z := 8.

Section Types.
Context {HH : Host}.

Record hax_chunk := Chunk {
  ck_memdesc : memdesc_user;
  ck_base_uva : Z;
  ck_size : Z;
}.

(** [rb_addr] is the address of the object, its identity in the block list. *)
Record hax_ramblock := Ramblock {
  rb_addr : Z;
  rb_base_uva : Z;
  rb_size : Z;
  rb_chunks : list (option hax_chunk);
  rb_chunks_bitmap : list Z;
  rb_ref_count : Z;
  rb_is_standalone : bool;
}.

(** [ms_block] is the address of a [hax_ramblock], or 0 for NULL. *)
Record hax_memslot := Memslot {
  ms_addr : Z;
  ms_base_gfn : Z;
  ms_npages : Z;
  ms_block : Z;
  ms_offset_within_block : Z;
  ms_flags : Z;
}.

#[global] Instance ramblock_keyed : Keyed hax_ramblock := rb_addr.
#[global] Instance memslot_keyed : Keyed hax_memslot := ms_addr.

(** [bitmap] is [None] for a NULL pointer. *)
Record hax_gpa_prot := GpaProt {
  gp_bitmap : option (list Z);
  gp_end_gfn : Z;
}.

(** A listener's callbacks act on the listener's own data (its [opaque]
    pointer), of type [E]; a NULL callback is [None]. *)
Record hax_gpa_space_listener (E : Type) := Listener {
  gl_addr : Z;
  mapping_added : option (Z -> Z -> Z -> Z -> E -> option E);
  mapping_removed : option (Z -> Z -> Z -> Z -> E -> option E);
  mapping_changed : option (Z -> Z -> Z -> Z -> Z -> Z -> E -> option E);
}.

(** The state the memory code runs on: the [hax_gpa_space] itself, the data of
    its listeners, the host, the next unused heap address, and the contents of
    the user-space memory that backs guest RAM (by UVA). *)
Record hax_gpa_space (E : Type) := GpaSpace {
  gs_ramblock_list : list hax_ramblock;
  gs_memslot_list : list hax_memslot;
  gs_listener_list : list (hax_gpa_space_listener E);
  gs_prot : hax_gpa_prot;
  gs_opaque : E;
  gs_host : hstate;
  gs_next_addr : Z;
  gs_umem : gmap Z Z;
}.
End Types.

Arguments Listener {E}.
Arguments gl_addr {E}.
Arguments mapping_added {E}.
Arguments mapping_removed {E}.
Arguments mapping_changed {E}.
Arguments GpaSpace {HH E}.
Arguments gs_ramblock_list {HH E}.
Arguments gs_memslot_list {HH E}.
Arguments gs_listener_list {HH E}.
Arguments gs_prot {HH E}.
Arguments gs_opaque {HH E}.
Arguments gs_host {HH E}.
Arguments gs_next_addr {HH E}.
Arguments gs_umem {HH E}.

Section State.
Context {HH : Host} {E : Type}.
Notation st := (hax_gpa_space E).
Implicit Types g : st.

Definition with_ramblocks (f : list hax_ramblock -> list hax_ramblock) g : st :=
  GpaSpace (f (gs_ramblock_list g)) (gs_memslot_list g) (gs_listener_list g) (gs_prot g)
    (gs_opaque g) (gs_host g) (gs_next_addr g) (gs_umem g).
Definition with_memslots (f : list hax_memslot -> list hax_memslot) g : st :=
  GpaSpace (gs_ramblock_list g) (f (gs_memslot_list g)) (gs_listener_list g) (gs_prot g)
    (gs_opaque g) (gs_host g) (gs_next_addr g) (gs_umem g).
Definition with_listeners
    (f : list (hax_gpa_space_listener E) -> list (hax_gpa_space_listener E)) g : st :=
  GpaSpace (gs_ramblock_list g) (gs_memslot_list g) (f (gs_listener_list g)) (gs_prot g)
    (gs_opaque g) (gs_host g) (gs_next_addr g) (gs_umem g).
Definition with_prot (p : hax_gpa_prot) g : st :=
  GpaSpace (gs_ramblock_list g) (gs_memslot_list g) (gs_listener_list g) p
    (gs_opaque g) (gs_host g) (gs_next_addr g) (gs_umem g).
Definition with_opaque (e : E) g : st :=
  GpaSpace (gs_ramblock_list g) (gs_memslot_list g) (gs_listener_list g) (gs_prot g)
    e (gs_host g) (gs_next_addr g) (gs_umem g).
Definition with_host (h : hstate) g : st :=
  GpaSpace (gs_ramblock_list g) (gs_memslot_list g) (gs_listener_list g) (gs_prot g)
    (gs_opaque g) h (gs_next_addr g) (gs_umem g).
Definition with_next_addr (a : Z) g : st :=
  GpaSpace (gs_ramblock_list g) (gs_memslot_list g) (gs_listener_list g) (gs_prot g)
    (gs_opaque g) (gs_host g) a (gs_umem g).
Definition with_umem (m : gmap Z Z) g : st :=
  GpaSpace (gs_ramblock_list g) (gs_memslot_list g) (gs_listener_list g) (gs_prot g)
    (gs_opaque g) (gs_host g) (gs_next_addr g) m.

(** Runs a host service on the host state. *)
Definition host_call {A} (f : hstate -> A * hstate) : M st A :=
  fun g => let '(a, h) := f (gs_host g) in Some (a, with_host h g).

(** [hax_vmalloc(size, flags)]: [size] is a [uint32_t] parameter.  The result
    is a fresh address, or [None] for NULL. *)
Definition hax_vmalloc (size : Z) : M st (option Z) :=
  ok ← host_call (host_vmalloc (u32 size));
  if ok : bool then
    a ← gets gs_next_addr;
    modify (with_next_addr (a + 1));;
    mret (Some a)
  else mret None.
End State.
