(* ===== verification/Ramblock.v ===== *)
(** * RAM blocks and chunks (src/core/ramblock.c, src/core/chunk.c)

    A RAM block is a range of user-space virtual addresses that backs guest
    memory.  It is divided into 2 MB chunks that are pinned on first use; one bit
    per chunk says whether it has been (or is being) pinned.  Blocks are reference
    counted by the memory slots that map them. *)

From stdpp Require Import base numbers list gmap.
From Stdlib Require Import ZArith Lia Sorted.
From S2P Require Import Prelude HaxList Bitmap MemTypes.
#[local] Open Scope Z_scope.

Section Ramblock.
Context {HH : Host} {E : Type}.
Notation st := (hax_gpa_space E).

(** ** chunk.c *)
(** The result is an error code or the new chunk. *)
Definition chunk_alloc (base_uva size : Z) : M st (Z + hax_chunk) :=
  if negb (base_uva &! (PAGE_SIZE_4K - 1) =? 0) then mret (inl (- EINVAL))
  else if negb (size &! (PAGE_SIZE_4K - 1) =? 0) then mret (inl (- EINVAL))
  else
    chk ← hax_vmalloc sizeof_hax_chunk;
    match chk with
    | None => mret (inl (- ENOMEM))
    | Some _ =>
        r ← host_call (hax_pin_user_pages base_uva size);
        let '(ret, memdesc) := r in
        if negb (ret =? 0) then mret (inl ret)
        else mret (inr (Chunk memdesc base_uva size))
    end.

Definition chunk_free (chunk : hax_chunk) : M st Z :=
  ret ← host_call (hax_unpin_user_pages (ck_memdesc chunk));
  if negb (ret =? 0) then mret ret else mret 0.

(** ** ramblock.c *)
Definition ramblock_count_chunks (size : Z) : Z := ((size -! 1) / HAX_CHUNK_SIZE) +! 1.

Definition ramblock_count_bitmap_size (nchunks : Z) : Z := ((nchunks +! 7) / 8) +! 8.

(** [memset(p, 0, n)] on a buffer of [allocated] bytes. *)
Definition memset_fits (n allocated : Z) : M st unit := hax_assert (n <=? allocated).

Definition ramblock_alloc (base_uva size : Z) : M st (option hax_ramblock) :=
  block ← hax_vmalloc sizeof_hax_ramblock;
  match block with
  | None => mret None
  | Some addr =>
      let nchunks := ramblock_count_chunks size in
      chunks ← hax_vmalloc (u64 (nchunks * sizeof_pointer));
      match chunks with
      | None => mret None
      | Some _ =>
          memset_fits (u64 (nchunks * sizeof_pointer)) (u32 (u64 (nchunks * sizeof_pointer)));;
          let chunks_bitmap_size := ramblock_count_bitmap_size nchunks in
          chunks_bitmap ← hax_vmalloc chunks_bitmap_size;
          match chunks_bitmap with
          | None => mret None
          | Some _ =>
              memset_fits chunks_bitmap_size (u32 chunks_bitmap_size);;
              mret (Some (Ramblock addr base_uva size
                            (replicate (Z.to_nat nchunks) None)
                            (replicate (Z.to_nat chunks_bitmap_size) 0) 0 false))
          end
      end
  end.

(** The loop over [chunks[i]] of [ramblock_free_chunks]; returns the bitmap. *)
Fixpoint free_chunks_loop (i : Z) (chunks : list (option hax_chunk)) (bitmap : list Z)
    : M st (list Z) :=
  match chunks with
  | [] => mret bitmap
  | None :: rest => free_chunks_loop (i + 1) rest bitmap
  | Some chunk :: rest =>
      r ← of_option (hax_test_and_clear_bit (s32 i) bitmap);
      _ ← chunk_free chunk;
      free_chunks_loop (i + 1) rest r.2
  end.

(** Unpins every chunk; the block keeps its (now empty) arrays.  With
    [destroy] the arrays are freed as well, the caller then frees the block. *)
Definition ramblock_free_chunks (b : hax_ramblock) : M st hax_ramblock :=
  bitmap ← free_chunks_loop 0 (rb_chunks b) (rb_chunks_bitmap b);
  mret (Ramblock (rb_addr b) (rb_base_uva b) (rb_size b)
          (const None <$> rb_chunks b) (const 0 <$> bitmap)
          (rb_ref_count b) (rb_is_standalone b)).

Definition ramblock_free (b : hax_ramblock) : M st unit :=
  _ ← ramblock_free_chunks b; mret tt.

(** Access to a block through its address: stuck when it is dangling. *)
Definition get_block (p : Z) : M st hax_ramblock :=
  l ← gets gs_ramblock_list; of_option (nl_get p l).

Definition put_block (b : hax_ramblock) : M st unit :=
  modify (with_ramblocks (nl_upd (rb_addr b) (const b))).

Definition ramblock_init_list : M st Z := modify (with_ramblocks (const []));; mret 0.

Definition ramblock_remove (p : Z) : M st unit :=
  b ← get_block p;
  modify (with_ramblocks (nl_del p));;
  ramblock_free b.

(** [hax_list_entry_for_each_safe] over the whole list. *)
Fixpoint remove_each (ps : list Z) : M st unit :=
  match ps with
  | [] => mret tt
  | p :: rest => ramblock_remove p;; remove_each rest
  end.

Definition ramblock_free_list : M st unit :=
  l ← gets gs_ramblock_list; remove_each (nl_keys l).

Definition set_ref_count (n : Z) (b : hax_ramblock) : hax_ramblock :=
  Ramblock (rb_addr b) (rb_base_uva b) (rb_size b) (rb_chunks b) (rb_chunks_bitmap b)
    n (rb_is_standalone b).

(** [++block->ref_count]; the pointer may be NULL (0). *)
Definition ramblock_ref (p : Z) : M st unit :=
  if p =? 0 then mret tt
  else b ← get_block p; put_block (set_ref_count (rb_ref_count b + 1) b).

Definition ramblock_deref (p : Z) : M st unit :=
  if p =? 0 then mret tt
  else
    b ← get_block p;
    if rb_ref_count b <=? 0 then mret tt
    else
      let b' := set_ref_count (rb_ref_count b - 1) b in
      put_block b';;
      if rb_ref_count b' =? 0 then
        if rb_is_standalone b' then ramblock_remove p
        else b'' ← ramblock_free_chunks b'; put_block b''
      else mret tt.

(** The block of the list containing [uva]: the search of [ramblock_find]. *)
Fixpoint ramblock_search (uva : Z) (l : list hax_ramblock) : option hax_ramblock :=
  match l with
  | [] => None
  | b :: rest =>
      if uva <? rb_base_uva b then None
      else if uva <? rb_base_uva b +! rb_size b then Some b
      else ramblock_search uva rest
  end.

(** Returns the address of the block, or 0 (NULL), and takes a reference. *)
Definition ramblock_find (uva : Z) : M st Z :=
  l ← gets gs_ramblock_list;
  match ramblock_search uva l with
  | Some b => ramblock_ref (rb_addr b);; mret (rb_addr b)
  | None => mret 0
  end.

(** Where the loop of [ramblock_add] leaves the new block. *)
Inductive place := InsertBefore (p : Z) | InsertAfter (p : Z) | Overlap | NoPlace.

Fixpoint ramblock_place (base_uva size : Z) (l : list hax_ramblock) : place :=
  match l with
  | [] => NoPlace
  | b2 :: rest =>
      if base_uva +! size <=? rb_base_uva b2 then InsertBefore (rb_addr b2)
      else if rb_base_uva b2 +! rb_size b2 <=? base_uva then
        match rest with
        | [] => InsertAfter (rb_addr b2)
        | _ => ramblock_place base_uva size rest
        end
      else Overlap
  end.

(** The result is the return code and [*block] (0 on failure). *)
Definition ramblock_add (base_uva size : Z) : M st (Z * Z) :=
  r ← ramblock_alloc base_uva size;
  match r with
  | None => mret (- ENOMEM, 0)
  | Some b =>
      l ← gets gs_ramblock_list;
      match l with
      | [] => modify (with_ramblocks (nl_insert_after HEAD b));; mret (0, rb_addr b)
      | _ :: _ =>
          match ramblock_place base_uva size l with
          | InsertBefore p =>
              modify (with_ramblocks (fun l => nl_insert_after (nl_prev p l) b l));;
              mret (0, rb_addr b)
          | InsertAfter p =>
              modify (with_ramblocks (nl_insert_after p b));; mret (0, rb_addr b)
          | Overlap => ramblock_free b;; mret (- EINVAL, 0)
          | NoPlace => mret (0, rb_addr b)
          end
      end
  end.

(** Without another thread the waiting loop of the already-set case never sees
    [chunks[i]] change: it ends at its iteration bound with NULL. *)
Definition ramblock_get_chunk (p uva_offset : Z) (alloc : bool) : M st (option hax_chunk) :=
  if p =? 0 then mret None
  else
    b ← get_block p;
    if rb_size b <=? uva_offset then mret None
    else
      let chunk_index := uva_offset >>! HAX_CHUNK_SHIFT in
      cur ← of_option (rb_chunks b !! Z.to_nat chunk_index);
      if negb alloc then mret cur
      else
        r ← of_option (hax_test_and_set_bit (s32 chunk_index) (rb_chunks_bitmap b));
        let '(was_set, bitmap) := r in
        if was_set : bool then mret cur
        else
          put_block (Ramblock (rb_addr b) (rb_base_uva b) (rb_size b) (rb_chunks b) bitmap
                       (rb_ref_count b) (rb_is_standalone b));;
          let uva_offset_low := chunk_index <<! HAX_CHUNK_SHIFT in
          let uva_offset_high := (chunk_index +! 1) <<! HAX_CHUNK_SHIFT in
          let chunk_base_uva := rb_base_uva b +! uva_offset_low in
          let chunk_size := if rb_size b <? uva_offset_high
                            then rb_size b mod HAX_CHUNK_SIZE else HAX_CHUNK_SIZE in
          hax_assert (bool_decide (cur = None));;
          ret ← chunk_alloc chunk_base_uva chunk_size;
          match ret with
          | inl _ =>
              r ← of_option (hax_test_and_clear_bit (s32 chunk_index) bitmap);
              put_block (Ramblock (rb_addr b) (rb_base_uva b) (rb_size b) (rb_chunks b) r.2
                           (rb_ref_count b) (rb_is_standalone b));;
              mret None
          | inr chunk =>
              put_block (Ramblock (rb_addr b) (rb_base_uva b) (rb_size b)
                           (<[Z.to_nat chunk_index := Some chunk]> (rb_chunks b)) bitmap
                           (rb_ref_count b) (rb_is_standalone b));;
              mret (Some chunk)
          end.
End Ramblock.

(** ** Well-formed blocks and block lists *)
Section Invariants.
Context {HH : Host}.

(** Chunk number [i] of a block covers its [i]-th 2 MB of UVAs (the last chunk
    may be shorter). *)
Definition chunk_ok (b : hax_ramblock) (i : nat) (c : hax_chunk) : Prop :=
  ck_base_uva c = rb_base_uva b + Z.of_nat i * HAX_CHUNK_SIZE /\
  ck_size c = Z.min HAX_CHUNK_SIZE (rb_size b - Z.of_nat i * HAX_CHUNK_SIZE).

(** [chunk_present b i]: chunk [i] is pinned. *)
Definition chunk_present (b : hax_ramblock) (i : nat) : bool :=
  match rb_chunks b !! i with Some (Some _) => true | _ => false end.

(** The largest block whose arrays are allocated without truncating a size. *)
Definition MAX_BLOCK_SIZE : Z := 2 ^ 50 - 2 ^ 21.

Record block_wf (b : hax_ramblock) : Prop := {
  bw_addr : rb_addr b <> 0;
  bw_size : 0 < rb_size b <= MAX_BLOCK_SIZE;
  bw_base : 0 <= rb_base_uva b;
  bw_top : rb_base_uva b + rb_size b < 2 ^ 64;
  bw_nchunks : Z.of_nat (length (rb_chunks b)) = ramblock_count_chunks (rb_size b);
  bw_bitmap : Z.of_nat (length (rb_chunks_bitmap b)) =
              ramblock_count_bitmap_size (ramblock_count_chunks (rb_size b));
  bw_bits : forall i, (i < length (rb_chunks b))%nat ->
            bm_bit (rb_chunks_bitmap b) (Z.of_nat i) = chunk_present b i;
  bw_chunks : forall i c, rb_chunks b !! i = Some (Some c) -> chunk_ok b i c;
  bw_refs : 0 <= rb_ref_count b;
}.

Definition uva_before (a b : hax_ramblock) : Prop :=
  rb_base_uva a + rb_size a <= rb_base_uva b.

Record blocks_wf (l : list hax_ramblock) : Prop := {
  bsw_nodup : NoDup (nl_keys l);
  bsw_wf : Forall block_wf l;
  bsw_sorted : StronglySorted uva_before l;
}.

(** The block covers the address. *)
Definition block_covers (uva : Z) (b : hax_ramblock) : Prop :=
  rb_base_uva b <= uva < rb_base_uva b + rb_size b.

Definition blocks_overlap (base_uva size : Z) (b : hax_ramblock) : Prop :=
  base_uva < rb_base_uva b + rb_size b /\ rb_base_uva b < base_uva + size.

Lemma chunk_size_val : HAX_CHUNK_SIZE = 2 ^ 21.
Proof. reflexivity. Qed.

Lemma count_chunks_small size :
  0 < size <= MAX_BLOCK_SIZE ->
  ramblock_count_chunks size = (size - 1) / 2 ^ 21 + 1 /\
  1 <= ramblock_count_chunks size < 2 ^ 29.
Proof.
  unfold MAX_BLOCK_SIZE. intros H. unfold ramblock_count_chunks.
  rewrite chunk_size_val, (u64_small (size - 1)) by lia.
  assert (0 <= (size - 1) / 2 ^ 21) by (apply Z.div_pos; lia).
  assert ((size - 1) / 2 ^ 21 < 2 ^ 29 - 1) by (apply Z.div_lt_upper_bound; lia).
  rewrite u64_small by lia. lia.
Qed.

Lemma bitmap_size_small n :
  0 <= n < 2 ^ 31 ->
  ramblock_count_bitmap_size n = (n + 7) / 8 + 8 /\
  0 <= ramblock_count_bitmap_size n < 2 ^ 32.
Proof.
  intros H. unfold ramblock_count_bitmap_size. rewrite (u64_small (n + 7)) by lia.
  assert (0 <= (n + 7) / 8) by (apply Z.div_pos; lia).
  assert ((n + 7) / 8 < 2 ^ 31) by (apply Z.div_lt_upper_bound; lia).
  rewrite u64_small by lia. lia.
Qed.

(** The eight extra bytes keep every word access inside the bitmap. *)
Lemma bitmap_word_in_range i n (mem : list Z) :
  0 <= i < n -> n < 2 ^ 31 -> Z.of_nat (length mem) = ramblock_count_bitmap_size n ->
  word_in_range i mem = true.
Proof.
  intros Hi Hn Hl. unfold word_in_range.
  rewrite Hl, (proj1 (bitmap_size_small n ltac:(lia))).
  apply andb_true_intro. split; apply Z.leb_le; [lia|].
  pose proof (Z.div_mod i 64). pose proof (Z.mod_pos_bound i 64).
  pose proof (Z.div_mod (n + 7) 8). pose proof (Z.mod_pos_bound (n + 7) 8). lia.
Qed.

Lemma ramblock_search_spec uva l b :
  Forall block_wf l -> StronglySorted uva_before l ->
  ramblock_search uva l = Some b <-> b ∈ l /\ block_covers uva b.
Proof.
  intros Hwf Hs. induction Hs as [|a l Hs IH Ha]; [cbn; set_solver|].
  apply Forall_cons in Hwf as [Hwa Hwf]. specialize (IH Hwf).
  cbn. destruct Hwa. rewrite u64_small by lia.
  assert (Hl : b ∈ l -> rb_base_uva a + rb_size a <= rb_base_uva b)
    by (rewrite Forall_forall in Ha; apply Ha).
  unfold block_covers in *.
  destruct (Z.ltb_spec uva (rb_base_uva a)).
  - split; [done|]. intros [[->|Hb]%elem_of_cons ?]; [lia|]. specialize (Hl Hb). lia.
  - destruct (Z.ltb_spec uva (rb_base_uva a + rb_size a)).
    + split; [intros [= ->]; set_solver|].
      intros [[->|Hb]%elem_of_cons ?]; [done|]. specialize (Hl Hb). lia.
    + rewrite IH. split; [set_solver|].
      intros [[->|Hb]%elem_of_cons ?]; [lia|done].
Qed.

Lemma ramblock_place_spec base_uva size l :
  Forall block_wf l -> StronglySorted uva_before l ->
  0 <= base_uva -> base_uva + size < 2 ^ 64 -> 0 < size ->
  match ramblock_place base_uva size l with
  | InsertBefore p => exists l1 b2 l2, l = l1 ++ b2 :: l2 /\ p = rb_addr b2 /\
      Forall (fun a => rb_base_uva a + rb_size a <= base_uva) l1 /\
      Forall (fun a => base_uva + size <= rb_base_uva a) (b2 :: l2)
  | InsertAfter p => exists l1 b2, l = l1 ++ [b2] /\ p = rb_addr b2 /\
      Forall (fun a => rb_base_uva a + rb_size a <= base_uva) l
  | Overlap => Exists (blocks_overlap base_uva size) l
  | NoPlace => l = []
  end.
Proof.
  intros Hwf Hs Hb Ht Hsz. induction Hs as [|a l Hs IH Ha]; [done|].
  apply Forall_cons in Hwf as [Hwa Hwf]. specialize (IH Hwf).
  cbn [ramblock_place]. destruct Hwa. rewrite !u64_small by lia.
  destruct (Z.leb_spec (base_uva + size) (rb_base_uva a)).
  { exists [], a, l. split_and!; [done|done|constructor|]. constructor; [lia|].
    eapply Forall_impl; [exact Ha|]. unfold uva_before. intros x. lia. }
  destruct (Z.leb_spec (rb_base_uva a + rb_size a) base_uva).
  - destruct l as [|c l].
    { exists [], a. split_and!; [done|done|]. constructor; [lia|constructor]. }
    destruct (ramblock_place base_uva size (c :: l)) as [p|p| |].
    + destruct IH as (l1 & b2 & l2 & -> & -> & ? & ?).
      exists (a :: l1), b2, l2. split_and!; try done. by constructor.
    + destruct IH as (l1 & b2 & Heq & -> & ?).
      exists (a :: l1), b2. split_and!; [by rewrite Heq|done|by constructor].
    + by constructor 2.
    + done.
  - constructor 1. unfold blocks_overlap. lia.
Qed.
End Invariants.

(** ** Behaviour of the operations *)
Section Operations.
Context {HH : Host} {E : Type}.
Notation st := (hax_gpa_space E).
Implicit Types g : st.

(** [g'] differs from [g] only in the host state and in heap addresses that
    were used up. *)
Definition host_step (g g' : st) : Prop :=
  exists h a, gs_next_addr g <= a /\ g' = with_next_addr a (with_host h g).

Lemma host_step_refl g : host_step g g.
Proof. exists (gs_host g), (gs_next_addr g). split; [lia|]. by destruct g. Qed.

Lemma host_step_trans g1 g2 g3 : host_step g1 g2 -> host_step g2 g3 -> host_step g1 g3.
Proof.
  intros (h & a & Ha & ->) (h' & a' & Ha' & ->). exists h', a'. split; [|done].
  cbn in *. lia.
Qed.

Lemma host_step_host h g : host_step g (with_host h g).
Proof. exists h, (gs_next_addr g). split; [lia|]. by destruct g. Qed.

Lemma host_call_run {A} (f : hstate -> A * hstate) g :
  exists r h, host_call f g = Some (r, with_host h g).
Proof. unfold host_call. destruct (f (gs_host g)) as [r h]. eauto. Qed.

Lemma host_call_step {A} (f : hstate -> A * hstate) g :
  exists r g', host_call f g = Some (r, g') /\ host_step g g'.
Proof. destruct (host_call_run f g) as (r & h & ->). eauto using host_step_host. Qed.

Lemma hax_vmalloc_run size g :
  exists r g', hax_vmalloc size g = Some (r, g') /\ host_step g g' /\
    (r = None \/ r = Some (gs_next_addr g) /\ gs_next_addr g < gs_next_addr g').
Proof.
  unfold hax_vmalloc.
  destruct (host_call_run (host_vmalloc (u32 size)) g) as ([] & h & Hrun);
    rewrite (bind_run _ _ _ _ _ Hrun).
  - eexists _, _. split; [done|]. split; [|right; split; [done|cbn; lia]].
    exists h, (gs_next_addr g + 1). split; [lia|done].
  - eexists None, _. split; [done|]. split; [apply host_step_host|by left].
Qed.

(** The host never refuses memory, nor to pin pages of user space. *)
Definition host_grants : Prop :=
  (forall size h, (host_vmalloc size h).1 = true) /\
  (forall uva size h, (hax_pin_user_pages uva size h).1.1 = 0).

Lemma vmalloc_granted size g g' :
  (forall h, (host_vmalloc (u32 size) h).1 = true) -> hax_vmalloc size g <> Some (None, g').
Proof.
  intros Hv. unfold hax_vmalloc, host_call. unfold mbind, M_bind. specialize (Hv (gs_host g)).
  destruct (host_vmalloc (u32 size) (gs_host g)) as [ok h]. cbn in Hv. by rewrite Hv.
Qed.

(** A page-aligned chunk is only refused by the host. *)
Lemma chunk_alloc_run base_uva size g :
  exists r g', chunk_alloc base_uva size g = Some (r, g') /\ host_step g g' /\
    (forall c, r = inr c -> ck_base_uva c = base_uva /\ ck_size c = size) /\
    (forall e, r = inl e -> host_grants -> base_uva mod 4096 <> 0 \/ size mod 4096 <> 0).
Proof.
  unfold chunk_alloc. change (PAGE_SIZE_4K - 1) with (Z.ones 12).
  rewrite !Z.land_ones by lia. change (2 ^ 12) with 4096.
  destruct (Z.eqb_spec (base_uva mod 4096) 0); cbn [negb];
    [|eexists _, g; split_and!; [done|apply host_step_refl|done|auto]].
  destruct (Z.eqb_spec (size mod 4096) 0); cbn [negb];
    [|eexists _, g; split_and!; [done|apply host_step_refl|done|auto]].
  destruct (hax_vmalloc_run sizeof_hax_chunk g) as (r & g1 & Hrun & Hs & Hr).
  rewrite (bind_run _ _ _ _ _ Hrun).
  destruct r as [a|]; [|eexists _, g1; split_and!; [done|done|done|]].
  2: { intros _ _ [Hv _]. by destruct (vmalloc_granted _ _ _ (Hv _) Hrun). }
  destruct (host_call_step (hax_pin_user_pages base_uva size) g1)
    as ([ret md] & g2 & Hrun2 & Hs2).
  rewrite (bind_run _ _ _ _ _ Hrun2).
  destruct (Z.eqb_spec ret 0); cbn [negb]; eexists _, g2;
    (split_and!; [done|by eapply host_step_trans|naive_solver|]); [done|].
  intros _ _ [_ Hp]. specialize (Hp base_uva size (gs_host g1)).
  unfold host_call in Hrun2. destruct (hax_pin_user_pages base_uva size (gs_host g1)) as [[r' m'] h'].
  injection Hrun2 as <- _ _. done.
Qed.

Lemma chunk_free_run c g :
  exists r g', chunk_free c g = Some (r, g') /\ host_step g g'.
Proof.
  unfold chunk_free.
  destruct (host_call_step (hax_unpin_user_pages (ck_memdesc c)) g) as (r & g1 & Hrun & Hs).
  rewrite (bind_run _ _ _ _ _ Hrun). destruct (negb _); by eexists _, g1.
Qed.

Lemma ramblock_alloc_run base_uva size g :
  0 < size <= MAX_BLOCK_SIZE ->
  exists r g', ramblock_alloc base_uva size g = Some (r, g') /\ host_step g g' /\
    (r = None \/
     r = Some (Ramblock (gs_next_addr g) base_uva size
                 (replicate (Z.to_nat (ramblock_count_chunks size)) None)
                 (replicate (Z.to_nat (ramblock_count_bitmap_size
                                         (ramblock_count_chunks size))) 0) 0 false) /\
     gs_next_addr g < gs_next_addr g').
Proof.
  intros Hsz. unfold ramblock_alloc.
  destruct (count_chunks_small size Hsz) as [_ Hn].
  destruct (bitmap_size_small (ramblock_count_chunks size)) as [_ Hb]; [lia|].
  destruct (hax_vmalloc_run sizeof_hax_ramblock g) as (r & g1 & Hrun & Hs1 & Hr).
  rewrite (bind_run _ _ _ _ _ Hrun).
  destruct Hr as [->|[-> Hlt]]; [by eexists _, g1; eauto|].
  destruct (hax_vmalloc_run (u64 (ramblock_count_chunks size * sizeof_pointer)) g1)
    as (r2 & g2 & Hrun2 & Hs2 & Hr2).
  rewrite (bind_run _ _ _ _ _ Hrun2).
  assert (Hs12 : host_step g g2) by eauto using host_step_trans.
  destruct r2 as [a2|]; [|by eexists _, g2; eauto].
  unfold memset_fits. rewrite (u64_small (_ * _)) by (unfold sizeof_pointer; lia).
  rewrite (u32_small (_ * _)) by (unfold sizeof_pointer; lia).
  rewrite assert_run by apply Z.leb_refl. cbv zeta.
  destruct (hax_vmalloc_run (ramblock_count_bitmap_size (ramblock_count_chunks size)) g2)
    as (r3 & g3 & Hrun3 & Hs3 & Hr3).
  rewrite (bind_run _ _ _ _ _ Hrun3).
  assert (Hs13 : host_step g g3) by eauto using host_step_trans.
  destruct r3 as [a3|]; [|by eexists _, g3; eauto].
  rewrite u32_small by lia. rewrite assert_run by apply Z.leb_refl.
  eexists _, g3. split_and!; [done|done|]. right. split; [done|].
  destruct Hs2 as (? & ? & ? & ->), Hs3 as (? & ? & ? & ->). cbn in *. lia.
Qed.

(** The lists other than the block list are untouched. *)
Definition ram_frame (g g' : st) : Prop :=
  gs_memslot_list g' = gs_memslot_list g /\ gs_listener_list g' = gs_listener_list g /\
  gs_prot g' = gs_prot g /\ gs_opaque g' = gs_opaque g /\ gs_umem g' = gs_umem g /\
  gs_next_addr g <= gs_next_addr g'.

Lemma ram_frame_host g g' : host_step g g' -> ram_frame g g'.
Proof. intros (h & a & Ha & ->). by split_and!. Qed.

Lemma ram_frame_trans g1 g2 g3 : ram_frame g1 g2 -> ram_frame g2 g3 -> ram_frame g1 g3.
Proof. unfold ram_frame. intuition (congruence || lia). Qed.

Lemma ram_frame_blocks l g : ram_frame g (with_ramblocks l g).
Proof. by split_and!. Qed.

(** The block list is well formed and addresses not yet handed out are above
    those in use. *)
Record ram_inv (g : st) : Prop := {
  ri_blocks : blocks_wf (gs_ramblock_list g);
  ri_fresh : Forall (fun b => rb_addr b < gs_next_addr g) (gs_ramblock_list g);
  ri_next : 0 < gs_next_addr g;
}.

Lemma host_step_blocks g g' :
  host_step g g' -> gs_ramblock_list g' = gs_ramblock_list g /\
                    gs_memslot_list g' = gs_memslot_list g /\
                    gs_next_addr g <= gs_next_addr g'.
Proof. intros (h & a & Ha & ->). done. Qed.

Lemma ram_inv_host g g' : host_step g g' -> ram_inv g -> ram_inv g'.
Proof.
  intros (h & a & Ha & ->) [Hb Hf Hn]. split; cbn; [done| |lia].
  eapply Forall_impl; [exact Hf|]. cbn. lia.
Qed.

Lemma bm_bit_zeros n i : bm_bit (replicate n 0) i = false.
Proof.
  unfold bm_bit. destruct (replicate n 0 !! byte_of i) as [b|] eqn:Hb; cbn.
  - apply lookup_replicate in Hb as [-> _]. apply Z.testbit_0_l.
  - apply Z.testbit_0_l.
Qed.

Lemma fresh_block_wf addr base_uva size :
  addr <> 0 -> 0 < size <= MAX_BLOCK_SIZE -> 0 <= base_uva -> base_uva + size < 2 ^ 64 ->
  block_wf (Ramblock addr base_uva size
              (replicate (Z.to_nat (ramblock_count_chunks size)) None)
              (replicate (Z.to_nat (ramblock_count_bitmap_size
                                      (ramblock_count_chunks size))) 0) 0 false).
Proof.
  intros Ha Hs Hb Ht. destruct (count_chunks_small size Hs) as [_ Hn].
  destruct (bitmap_size_small (ramblock_count_chunks size)) as [_ Hm]; [lia|].
  split; cbn; try done.
  - rewrite length_replicate. lia.
  - rewrite length_replicate. lia.
  - intros i Hi. rewrite bm_bit_zeros. unfold chunk_present. cbn.
    rewrite length_replicate in Hi. by rewrite lookup_replicate_2 by done.
  - intros i c Hc. apply lookup_replicate in Hc as [? _]. done.
Qed.

Lemma blocks_wf_insert l1 l2 b :
  blocks_wf (l1 ++ l2) -> block_wf b -> rb_addr b ∉ nl_keys (l1 ++ l2) ->
  Forall (fun a => uva_before a b) l1 -> Forall (uva_before b) l2 ->
  blocks_wf (l1 ++ b :: l2).
Proof.
  intros [Hnd Hwf Hs] Hb Ha H1 H2. split.
  - unfold nl_keys in *. rewrite fmap_app in *. cbn. rewrite <- Permutation_middle.
    by constructor.
  - apply Forall_app in Hwf as [? ?]. apply Forall_app. split; [done|by constructor].
  - by apply ssorted_insert.
Qed.

Lemma free_chunks_loop_none n i bm g :
  free_chunks_loop i (replicate n None) bm g = Some (bm, g).
Proof. revert i. induction n as [|n IH]; intros i; [done|]. apply IH. Qed.

Lemma ramblock_free_fresh addr base_uva size n bm rc sa g :
  ramblock_free (Ramblock addr base_uva size (replicate n None) bm rc sa) g = Some (tt, g).
Proof.
  unfold ramblock_free, ramblock_free_chunks. cbn.
  unfold mbind, M_bind. by rewrite free_chunks_loop_none.
Qed.

(** The contract of [ramblock_add] (memory.h): 0 with the new block inserted in
    the sorted list, or an error that leaves the list as it was. *)
Definition ramblock_add_post (base_uva size : Z) (g : st) (r : Z * Z) (g' : st) : Prop :=
  (r.1 = 0 /\ ~ Exists (blocks_overlap base_uva size) (gs_ramblock_list g) /\
   exists b, rb_addr b = r.2 /\ r.2 <> 0 /\ r.2 ∉ nl_keys (gs_ramblock_list g) /\
     rb_base_uva b = base_uva /\ rb_size b = size /\ rb_ref_count b = 0 /\
     rb_is_standalone b = false /\
     gs_ramblock_list g' ≡ₚ b :: gs_ramblock_list g) \/
  (r = (- EINVAL, 0) /\ Exists (blocks_overlap base_uva size) (gs_ramblock_list g) /\
   gs_ramblock_list g' = gs_ramblock_list g) \/
  (r = (- ENOMEM, 0) /\ gs_ramblock_list g' = gs_ramblock_list g).

Lemma no_overlap base_uva size l1 l2 :
  Forall (fun a => rb_base_uva a + rb_size a <= base_uva) l1 ->
  Forall (fun a => base_uva + size <= rb_base_uva a) l2 ->
  ~ Exists (blocks_overlap base_uva size) (l1 ++ l2).
Proof.
  intros H1 H2 (b & [Hb|Hb]%elem_of_app & Hlt & Hlt')%Exists_exists.
  - rewrite Forall_forall in H1. specialize (H1 b Hb). lia.
  - rewrite Forall_forall in H2. specialize (H2 b Hb). lia.
Qed.

(** Inserting a fresh block at a free place of the list. *)
Lemma ramblock_insert_post base_uva size g1 g l1 l2 n m l' :
  let b := Ramblock (gs_next_addr g) base_uva size (replicate n None) m 0 false in
  ram_inv g -> host_step g g1 -> gs_next_addr g < gs_next_addr g1 ->
  block_wf b -> gs_ramblock_list g = l1 ++ l2 -> l' = l1 ++ b :: l2 ->
  Forall (fun a => rb_base_uva a + rb_size a <= base_uva) l1 ->
  Forall (fun a => base_uva + size <= rb_base_uva a) l2 ->
  ram_inv (with_ramblocks (const l') g1) /\
  ramblock_add_post base_uva size g (0, rb_addr b) (with_ramblocks (const l') g1).
Proof.
  intros b [Hw Hf Hn] (h & a & Ha & ->) Hlt Hb Hl -> H1 H2. cbn in Hlt.
  assert (Hnew : rb_addr b ∉ nl_keys (l1 ++ l2)).
  { intros (x & Hx & Hin)%list_elem_of_fmap. rewrite <- Hl in Hin.
    rewrite Forall_forall in Hf. specialize (Hf x Hin). cbn in Hx.
    unfold node_key, ramblock_keyed in Hx. lia. }
  split.
  - split; cbn; [|apply Forall_app; rewrite Hl in Hf; apply Forall_app in Hf as [Hf1 Hf2]|lia].
    + rewrite Hl in Hw. by apply blocks_wf_insert.
    + split; [eapply Forall_impl; [exact Hf1|cbn; lia]|].
      constructor; [cbn; lia|]. eapply Forall_impl; [exact Hf2|cbn; lia].
  - left. cbn. rewrite Hl. split_and!; [done|by apply no_overlap|].
    exists b. split_and!; try done. apply Hb. by rewrite <- Permutation_middle.
Qed.

Lemma ramblock_add_correct base_uva size g :
  ram_inv g -> 0 <= base_uva -> 0 < size <= MAX_BLOCK_SIZE -> base_uva + size < 2 ^ 64 ->
  exists r g', ramblock_add base_uva size g = Some (r, g') /\ ram_inv g' /\
    ramblock_add_post base_uva size g r g' /\ ram_frame g g'.
Proof.
  intros Hinv Hb Hsz Ht. unfold ramblock_add.
  destruct (ramblock_alloc_run base_uva size g Hsz) as (r & g1 & Hrun & Hs & Hr).
  rewrite (bind_run _ _ _ _ _ Hrun).
  destruct (host_step_blocks _ _ Hs) as (Hbl & Hml & _).
  pose proof (ram_frame_host _ _ Hs) as Hfr.
  destruct Hr as [->|[-> Hlt]].
  { eexists _, g1. split_and!; [done|by eapply ram_inv_host| |done]. right. right. auto. }
  set (b := Ramblock _ _ _ _ _ _ _).
  assert (Hwf : block_wf b)
    by (apply fresh_block_wf; [pose proof (ri_next _ Hinv); lia|done..]).
  (* every successful insertion goes through the same lemma *)
  assert (Hdone : forall f l1 l2, gs_ramblock_list g = l1 ++ l2 ->
    f (l1 ++ l2) = l1 ++ b :: l2 ->
    Forall (fun a => rb_base_uva a + rb_size a <= base_uva) l1 ->
    Forall (fun a => base_uva + size <= rb_base_uva a) l2 ->
    exists r g', (modify (with_ramblocks f);; mret (0, rb_addr b)) g1 = Some (r, g') /\
      ram_inv g' /\ ramblock_add_post base_uva size g r g' /\
      ram_frame g g').
  { intros f l1 l2 Hl Hf H1 H2. eexists _, _. split; [done|].
    replace (with_ramblocks f g1) with (with_ramblocks (const (l1 ++ b :: l2)) g1)
      by (unfold with_ramblocks, const; by rewrite Hbl, Hl, Hf).
    destruct (ramblock_insert_post base_uva size g1 g l1 l2 _ _ (l1 ++ b :: l2) Hinv Hs Hlt
                Hwf Hl eq_refl H1 H2) as [? ?]. split_and!; done. }
  erewrite bind_run by reflexivity. rewrite Hbl.
  destruct (ri_blocks _ Hinv) as [Hnd Hfw Hss].
  pose proof (ramblock_place_spec base_uva size _ Hfw Hss Hb Ht ltac:(lia)) as Hpl.
  assert (H0 : HEAD ∉ nl_keys (gs_ramblock_list g)).
  { intros (x & Hx & Hin)%list_elem_of_fmap. rewrite Forall_forall in Hfw.
    by destruct (bw_addr _ (Hfw x Hin)). }
  destruct (gs_ramblock_list g) as [|b0 l0] eqn:Hl; [by apply (Hdone _ [] [])|].
  assert (Hne : gs_ramblock_list g <> []) by by rewrite Hl.
  rewrite <- Hl in *. clear Hl b0 l0.
  destruct (ramblock_place base_uva size (gs_ramblock_list g)) as [p|p| |] eqn:Hplace.
  - destruct Hpl as (l1 & b2 & l2 & Hl & -> & H1 & H2).
    rewrite Hl in Hnd, H0. unfold nl_keys in Hnd, H0. rewrite fmap_app in Hnd, H0.
    apply NoDup_app in Hnd as (Hnd & Hd & _).
    apply (Hdone _ l1 (b2 :: l2)); try done.
    cbv beta; apply (nl_insert_after_prev (H := ramblock_keyed) l1 b2 l2 b); [|set_solver|done].
    intros Hin. apply (Hd _ Hin). set_solver.
  - destruct Hpl as (l1 & b2 & Hl & -> & H1).
    apply (Hdone _ (gs_ramblock_list g) []); [by rewrite app_nil_r| |done|constructor].
    rewrite app_nil_r, Hl. rewrite Hl in Hnd, H0. unfold nl_keys in Hnd, H0.
    rewrite fmap_app in Hnd, H0. apply NoDup_app in Hnd as (_ & Hd & _).
    rewrite <- app_assoc. apply (nl_insert_after_middle (H := ramblock_keyed) l1 b2 [] b).
    + intros Hin. apply (Hd _ Hin). set_solver.
    + set_solver.
  - rewrite (bind_run (ramblock_free b) _ g1 tt g1) by apply ramblock_free_fresh.
    eexists _, g1. split_and!; [done|by eapply ram_inv_host| |done].
    right. left. done.
  - done.
Qed.

(** ** Updating one block *)
Definition same_range (b b' : hax_ramblock) : Prop :=
  rb_addr b' = rb_addr b /\ rb_base_uva b' = rb_base_uva b /\ rb_size b' = rb_size b.

Lemma blocks_split l p b :
  NoDup (nl_keys l) -> nl_get p l = Some b ->
  exists l1 l2, l = l1 ++ b :: l2 /\ p = rb_addr b /\
                p ∉ nl_keys l1 /\ p ∉ nl_keys l2.
Proof.
  intros Hnd Hg. destruct (nl_get_Some _ _ _ Hg) as [Hb Hp].
  destruct (nl_keys_split l p Hnd) as (l1 & x & l2 & -> & -> & H1 & H2).
  { apply list_elem_of_fmap. eauto. }
  rewrite nl_get_middle in Hg by done. simplify_eq. eauto 10.
Qed.

Lemma blocks_wf_update l1 b b' l2 :
  blocks_wf (l1 ++ b :: l2) -> block_wf b' -> same_range b b' -> blocks_wf (l1 ++ b' :: l2).
Proof.
  intros [Hnd Hwf Hs] Hb' (Ha & Hba & Hsz). split.
  - unfold nl_keys in *. rewrite fmap_app in *. cbn in *.
    unfold node_key, ramblock_keyed in *. by rewrite Ha.
  - apply Forall_app in Hwf as [? Hw]. apply Forall_cons in Hw as [_ ?].
    apply Forall_app. split; [done|by constructor].
  - eapply ssorted_replace; [exact Hs|..]; unfold uva_before; rewrite ?Hba, ?Hsz; done.
Qed.

(** The effect of storing the block [b'] over [b]. *)
Lemma put_block_run p b b' g :
  ram_inv g -> nl_get p (gs_ramblock_list g) = Some b -> block_wf b' -> same_range b b' ->
  exists g', put_block b' g = Some (tt, g') /\ ram_inv g' /\
    nl_get p (gs_ramblock_list g') = Some b' /\
    (forall q, q <> p -> nl_get q (gs_ramblock_list g') = nl_get q (gs_ramblock_list g)) /\
    g' = with_ramblocks (const (gs_ramblock_list g')) g /\
    nl_keys (gs_ramblock_list g') = nl_keys (gs_ramblock_list g).
Proof.
  intros [Hbw Hf Hn] Hg Hb' Hr.
  destruct (blocks_split _ _ _ (bsw_nodup _ Hbw) Hg) as (l1 & l2 & Hl & -> & H1 & H2).
  destruct Hr as (Ha & Hr).
  assert (Hupd : nl_upd (rb_addr b') (const b') (gs_ramblock_list g) = l1 ++ b' :: l2).
  { rewrite Hl, Ha. by apply (nl_upd_middle (H := ramblock_keyed) l1 b l2 (const b')). }
  eexists. split; [done|]. cbn. rewrite Hupd. split_and!.
  - rewrite Hl in Hbw, Hf. split; cbn; rewrite ?Hupd; [by eapply blocks_wf_update| |done].
    apply Forall_app in Hf as [? Hf]. apply Forall_cons in Hf as [? ?].
    apply Forall_app. split; [done|]. constructor; [by rewrite Ha|done].
  - rewrite <- Ha. rewrite <- Ha in H1.
    by apply (nl_get_middle (H := ramblock_keyed) l1 b' l2).
  - intros q Hq. rewrite <- Hupd, Ha. apply nl_get_upd_ne; [done|]. intros x _. exact Ha.
  - unfold with_ramblocks. cbn. by rewrite Hupd.
  - rewrite Hl. unfold nl_keys. rewrite !fmap_app. cbn. f_equal.
    unfold node_key, ramblock_keyed. by rewrite Ha.
Qed.

Lemma get_block_run p b g :
  nl_get p (gs_ramblock_list g) = Some b -> get_block p g = Some (b, g).
Proof. intros H. unfold get_block, gets, mbind, M_bind. cbn. by rewrite H. Qed.

(** The pinned chunks of [b] are still pinned in [b']. *)
Definition chunks_kept (b b' : hax_ramblock) : Prop :=
  forall i c, rb_chunks b !! i = Some (Some c) -> rb_chunks b' !! i = Some (Some c).

(** Only block [p] may have changed, and neither its range nor its count, nor a chunk
    that it had. *)
Definition block_step (p : Z) (g g' : st) : Prop :=
  ram_frame g g' /\
  nl_keys (gs_ramblock_list g') = nl_keys (gs_ramblock_list g) /\
  (forall q, q <> p -> nl_get q (gs_ramblock_list g') = nl_get q (gs_ramblock_list g)) /\
  (forall b, nl_get p (gs_ramblock_list g) = Some b ->
   exists b', nl_get p (gs_ramblock_list g') = Some b' /\ same_range b b' /\
              rb_ref_count b' = rb_ref_count b /\
              rb_is_standalone b' = rb_is_standalone b /\ chunks_kept b b').

Lemma block_step_host p g g' : host_step g g' -> block_step p g g'.
Proof.
  intros Hh. pose proof (ram_frame_host _ _ Hh) as Hf. destruct Hh as (h & a & Ha & ->).
  split; [exact Hf|]. split_and!; [done|done|]. intros b Hb. exists b.
  split_and!; try done. by intros i c.
Qed.

Lemma block_step_trans p g1 g2 g3 :
  block_step p g1 g2 -> block_step p g2 g3 -> block_step p g1 g3.
Proof.
  intros (Hm & Hk & Ho & Hb) (Hm' & Hk' & Ho' & Hb').
  split; [by eapply ram_frame_trans|]. split_and!; [congruence|..].
  - intros q Hq. by rewrite Ho', Ho.
  - intros b Hg. destruct (Hb b Hg) as (b1 & Hg1 & (? & ? & ?) & ? & ? & Hc1).
    destruct (Hb' b1 Hg1) as (b2 & Hg2 & (? & ? & ?) & ? & ? & Hc2).
    exists b2. unfold same_range. split_and!; try congruence. intros i c Hi. by apply Hc2, Hc1.
Qed.

Lemma put_block_step p b b' g :
  ram_inv g -> nl_get p (gs_ramblock_list g) = Some b -> block_wf b' -> same_range b b' ->
  rb_ref_count b' = rb_ref_count b -> rb_is_standalone b' = rb_is_standalone b ->
  chunks_kept b b' ->
  exists g', put_block b' g = Some (tt, g') /\ ram_inv g' /\ block_step p g g' /\
             nl_get p (gs_ramblock_list g') = Some b'.
Proof.
  intros Hinv Hg Hw Hr Hc Hs Hck.
  destruct (put_block_run p b b' g Hinv Hg Hw Hr) as (g' & ? & ? & ? & ? & Heq & ?).
  exists g'. split; [done|]. split; [done|]. split; [|done].
  split; [rewrite Heq; apply ram_frame_blocks|]. split_and!; [done|done|].
  intros b0 Hg0. rewrite Hg in Hg0. simplify_eq. exists b'. by split_and!.
Qed.

(** ** ramblock_get_chunk *)
Lemma chunk_index_lt b off :
  block_wf b -> 0 <= off < rb_size b ->
  0 <= off / 2 ^ 21 < Z.of_nat (length (rb_chunks b)) /\ off / 2 ^ 21 < 2 ^ 29 /\
  Z.to_nat (off / 2 ^ 21) = Z.to_nat (off >>! HAX_CHUNK_SHIFT) /\
  off >>! HAX_CHUNK_SHIFT = off / 2 ^ 21.
Proof.
  intros Hw Ho. destruct (count_chunks_small _ (bw_size _ Hw)) as [Hc Hc'].
  rewrite (bw_nchunks _ Hw), Hc in *. unfold HAX_CHUNK_SHIFT.
  rewrite Z.shiftr_div_pow2 by lia.
  assert (0 <= off / 2 ^ 21) by (apply Z.div_pos; lia).
  assert (off / 2 ^ 21 <= (rb_size b - 1) / 2 ^ 21) by (apply Z.div_le_mono; lia). lia.
Qed.

(** The chunk descriptor computed by [ramblock_get_chunk] is the one the
    invariant asks for. *)
Lemma chunk_range_ok b i :
  block_wf b -> 0 <= i < Z.of_nat (length (rb_chunks b)) ->
  rb_base_uva b +! (i <<! HAX_CHUNK_SHIFT) = rb_base_uva b + i * HAX_CHUNK_SIZE /\
  (if rb_size b <? (i +! 1) <<! HAX_CHUNK_SHIFT
   then rb_size b mod HAX_CHUNK_SIZE else HAX_CHUNK_SIZE) =
  Z.min HAX_CHUNK_SIZE (rb_size b - i * HAX_CHUNK_SIZE).
Proof.
  intros Hw Hi. destruct (count_chunks_small _ (bw_size _ Hw)) as [Hc Hc'].
  rewrite (bw_nchunks _ Hw), Hc in Hi. destruct (bw_size _ Hw) as [Hs0 Hs1].
  assert (2 ^ 21 * i <= rb_size b - 1).
  { transitivity (2 ^ 21 * ((rb_size b - 1) / 2 ^ 21)); [lia|]. apply Z.mul_div_le. lia. }
  unfold HAX_CHUNK_SHIFT, MAX_BLOCK_SIZE in *. rewrite chunk_size_val.
  pose proof (bw_base _ Hw). pose proof (bw_top _ Hw).
  rewrite (u64_small (i + 1)) by lia. rewrite !Z.shiftl_mul_pow2 by lia.
  rewrite (u64_small (i * _)), (u64_small ((i + 1) * _)) by lia.
  rewrite u64_small by lia. split; [done|].
  destruct (Z.ltb_spec (rb_size b) ((i + 1) * 2 ^ 21)); [|lia].
  rewrite <- (Z.mod_unique_pos (rb_size b) (2 ^ 21) i (rb_size b - i * 2 ^ 21)); lia.
Qed.

Definition set_chunks (cs : list (option hax_chunk)) (bm : list Z) (b : hax_ramblock)
    : hax_ramblock :=
  Ramblock (rb_addr b) (rb_base_uva b) (rb_size b) cs bm (rb_ref_count b)
    (rb_is_standalone b).

Lemma block_wf_chunks b cs bm :
  block_wf b -> length cs = length (rb_chunks b) ->
  length bm = length (rb_chunks_bitmap b) ->
  (forall i, (i < length cs)%nat ->
     bm_bit bm (Z.of_nat i) = match cs !! i with Some (Some _) => true | _ => false end) ->
  (forall i c, cs !! i = Some (Some c) -> chunk_ok b i c) ->
  block_wf (set_chunks cs bm b).
Proof.
  intros [] Hc Hm Hb Hk. split; cbn; try done; [by rewrite Hc|by rewrite Hm].
Qed.

(** A chunk of a well-formed block lies inside it and covers its offsets. *)
Lemma chunk_ok_covers b off c :
  block_wf b -> 0 <= off < rb_size b -> chunk_ok b (Z.to_nat (off / 2 ^ 21)) c ->
  ck_base_uva c <= rb_base_uva b + off < ck_base_uva c + ck_size c /\
  rb_base_uva b <= ck_base_uva c /\
  ck_base_uva c + ck_size c <= rb_base_uva b + rb_size b.
Proof.
  intros Hw Ho [Hb Hs]. destruct (chunk_index_lt b off Hw Ho) as (Hi & _).
  rewrite Z2Nat.id, chunk_size_val in * by lia. rewrite Hb, Hs.
  pose proof (Z.div_mod off (2 ^ 21)). pose proof (Z.mod_pos_bound off (2 ^ 21)). lia.
Qed.

(** What a successful call returns: the chunk covering the offset, inside the
    block, and now recorded in the block. *)
Definition chunk_found (p off : Z) (b : hax_ramblock) (c : hax_chunk) (g' : st) : Prop :=
  ck_base_uva c <= rb_base_uva b + off < ck_base_uva c + ck_size c /\
  rb_base_uva b <= ck_base_uva c /\
  ck_base_uva c + ck_size c <= rb_base_uva b + rb_size b /\
  ck_base_uva c = rb_base_uva b + off / 2 ^ 21 * 2 ^ 21 /\
  exists b', nl_get p (gs_ramblock_list g') = Some b' /\
             rb_chunks b' !! Z.to_nat (off / 2 ^ 21) = Some (Some c).

Lemma nl_upd_const_twice p b1 b2 (l : list hax_ramblock) :
  rb_addr b1 = p -> nl_upd p (const b2) (nl_upd p (const b1) l) = nl_upd p (const b2) l.
Proof.
  intros Hp. unfold nl_upd. rewrite <- list_fmap_compose. apply list_fmap_ext.
  intros i x _. cbn. destruct (node_key x =? p) eqn:Hx; [|by rewrite Hx].
  unfold node_key, ramblock_keyed, const. by rewrite Hp, Z.eqb_refl.
Qed.

(** A second store to the same block hides the first one. *)
Lemma put_put b1 b2 g g1 g2 :
  put_block b1 g = Some (tt, g1) -> host_step g1 g2 -> rb_addr b1 = rb_addr b2 ->
  exists g1', host_step g g1' /\ put_block b2 g2 = put_block b2 g1'.
Proof.
  intros [= <-] (h & a & Ha & ->) Hb. exists (with_next_addr a (with_host h g)).
  split; [by exists h, a|]. unfold put_block, modify, with_ramblocks, with_next_addr,
    with_host. cbn -[nl_upd]. by rewrite Hb, nl_upd_const_twice.
Qed.

(** Why a chunk cannot be had: the host refuses it, or the block is not page-aligned. *)
Definition chunk_refused (b : hax_ramblock) : Prop :=
  host_grants -> rb_base_uva b mod 4096 <> 0 \/ rb_size b mod 4096 <> 0.

Lemma chunk_aligned b i :
  (rb_base_uva b + i * HAX_CHUNK_SIZE) mod 4096 <> 0 \/
  Z.min HAX_CHUNK_SIZE (rb_size b - i * HAX_CHUNK_SIZE) mod 4096 <> 0 ->
  rb_base_uva b mod 4096 <> 0 \/ rb_size b mod 4096 <> 0.
Proof.
  change HAX_CHUNK_SIZE with (512 * 4096). rewrite Z.mul_assoc, Z_mod_plus_full.
  intros [?|H]; [by left|right]. intros Eq. apply H.
  destruct (Z.min_spec (512 * 4096) (rb_size b - i * 512 * 4096)) as [[_ ->]|[_ ->]]; [done|].
  replace (rb_size b - i * 512 * 4096) with (rb_size b + (- (i * 512)) * 4096) by lia.
  by rewrite Z_mod_plus_full.
Qed.

Lemma ramblock_get_chunk_correct p b off g :
  ram_inv g -> nl_get p (gs_ramblock_list g) = Some b -> 0 <= off < rb_size b ->
  exists r g', ramblock_get_chunk p off true g = Some (r, g') /\ ram_inv g' /\
    block_step p g g' /\ (forall c, r = Some c -> chunk_found p off b c g') /\
    (r = None -> chunk_refused b).
Proof.
  intros Hinv Hg Ho. pose proof (nl_get_Some _ _ _ Hg) as [Hin Hp].
  assert (Hw : block_wf b)
    by (pose proof (bsw_wf _ (ri_blocks _ Hinv)) as Hf; rewrite Forall_forall in Hf; auto).
  destruct (chunk_index_lt b off Hw Ho) as (Hi & Hi31 & Hnat & Hidx).
  destruct (chunk_range_ok b _ Hw Hi) as [Hcb Hcs].
  set (i := off / 2 ^ 21) in *. set (n := Z.to_nat i) in *.
  assert (Hnz : Z.of_nat n = i) by lia.
  unfold ramblock_get_chunk. rewrite Hidx. cbv zeta.
  rewrite (proj2 (Z.eqb_neq p 0)) by (rewrite <- Hp; apply Hw).
  rewrite (bind_run _ _ _ _ _ (get_block_run _ _ _ Hg)).
  rewrite (proj2 (Z.leb_gt _ _)) by lia.
  destruct (lookup_lt_is_Some_2 (rb_chunks b) n) as [cur Hcur]; [lia|].
  rewrite (of_option_run _ _ _ _ Hcur). cbn [negb]. rewrite s32_small by lia.
  assert (Hwr : word_in_range i (rb_chunks_bitmap b) = true).
  { apply (bitmap_word_in_range i (ramblock_count_chunks (rb_size b)));
      [rewrite <- (bw_nchunks _ Hw); lia| |apply Hw].
    destruct (count_chunks_small _ (bw_size _ Hw)). lia. }
  destruct (hax_test_and_set_bit_spec _ _ Hwr) as (bm & Hset & Hlen & Hbits).
  rewrite (of_option_run _ _ _ _ Hset).
  pose proof (bw_bits _ Hw n ltac:(lia)) as Hbit. rewrite Hnz in Hbit.
  unfold chunk_present in Hbit. rewrite Hcur in Hbit. rewrite Hbit.
  destruct cur as [c|].
  { eexists _, g. split_and!; [done|done|apply block_step_host, host_step_refl| |done].
    intros c' [= ->]. pose proof (bw_chunks _ Hw _ _ Hcur) as Hok.
    destruct (chunk_ok_covers b off c' Hw Ho Hok) as (? & ? & ?).
    split_and!; try done; try lia; [|eauto]. destruct Hok as [-> _]. by rewrite Hnz. }
  fold (set_chunks (rb_chunks b) bm b).
  erewrite (bind_run (put_block (set_chunks (rb_chunks b) bm b))) by reflexivity.
  rewrite assert_run by done. rewrite Hcb, Hcs.
  set (g1 := with_ramblocks _ g).
  destruct (chunk_alloc_run (rb_base_uva b + i * HAX_CHUNK_SIZE)
    (Z.min HAX_CHUNK_SIZE (rb_size b - i * HAX_CHUNK_SIZE)) g1) as (r & g2 & Hrun & Hs & Hr & Hrefused).
  rewrite (bind_run _ _ _ _ _ Hrun).
  (* both outcomes end with a second store to the block *)
  assert (Hfinal : forall b2, block_wf b2 -> rb_addr b2 = rb_addr b /\
      rb_base_uva b2 = rb_base_uva b /\ rb_size b2 = rb_size b /\
      rb_ref_count b2 = rb_ref_count b /\ rb_is_standalone b2 = rb_is_standalone b /\
      chunks_kept b b2 ->
    exists g', put_block b2 g2 = Some (tt, g') /\ ram_inv g' /\ block_step p g g' /\
               nl_get p (gs_ramblock_list g') = Some b2).
  { intros b2 Hw2 (? & ? & ? & ? & ? & ?).
    destruct (put_put (set_chunks (rb_chunks b) bm b) b2 g g1 g2) as (g1' & Hs1 & ->); try done.
    pose proof (host_step_blocks _ _ Hs1) as (Hbl & _ & _).
    destruct (put_block_step p b b2 g1') as (g' & ? & ? & Hst & ?);
      [by eapply ram_inv_host|by rewrite Hbl|done|done|done|done|done|].
    exists g'. split_and!; try done.
    eapply block_step_trans; [by apply block_step_host|exact Hst]. }
  destruct r as [e|c].
  - assert (Hwr2 : word_in_range i bm = true) by (unfold word_in_range in *; by rewrite Hlen).
    destruct (hax_test_and_clear_bit_spec _ _ Hwr2) as (bm2 & Hclr & Hlen2 & Hbits2).
    rewrite (of_option_run _ _ _ _ Hclr). cbn [snd].
    fold (set_chunks (rb_chunks b) bm2 b).
    destruct (Hfinal (set_chunks (rb_chunks b) bm2 b)) as (g' & Hput & ? & ? & ?);
      [|split_and!; try done; by intros j c|].
    { apply block_wf_chunks; try done; [lia| |apply Hw].
      intros j Hj. rewrite Hbits2, Hbits by lia.
      pose proof (bw_bits _ Hw j Hj) as Hbj. unfold chunk_present in Hbj.
      repeat case_decide; try done. replace j with n by lia. by rewrite Hcur. }
    erewrite bind_run by exact Hput. eexists None, g'. split_and!; [done..|]. intros _.
    intros Hgr. by apply (chunk_aligned b i), (Hrefused e).
  - fold (set_chunks (<[n:=Some c]> (rb_chunks b)) bm b).
    assert (Hck : chunk_ok b n c) by (unfold chunk_ok; rewrite Hnz; by apply Hr).
    destruct (Hfinal (set_chunks (<[n:=Some c]> (rb_chunks b)) bm b))
      as (g' & Hput & ? & ? & Hget); [| |].
    2: { split_and!; try done. intros j c' Hj. cbn. rewrite list_lookup_insert_ne; [done|].
         intros ->. congruence. }
    { apply block_wf_chunks; try done; [by rewrite length_insert| |].
      - intros j Hj. rewrite length_insert in Hj. rewrite Hbits by lia.
        destruct (decide (j = n)) as [->|Hne].
        + rewrite list_lookup_insert_eq by lia. by rewrite decide_True.
        + rewrite list_lookup_insert_ne by done. rewrite decide_False by lia.
          apply Hw. lia.
      - intros j c' Hc'. apply list_lookup_insert_Some in Hc' as [(-> & [= <-] & _)|[_ Hc']];
          [done|by apply Hw]. }
    erewrite bind_run by exact Hput. eexists (Some c), g'. split_and!; try done.
    intros c' [= <-]. destruct (chunk_ok_covers b off c Hw Ho Hck) as (? & ? & ?).
    split_and!; try done; try lia.
    + destruct Hck as [-> _]. by rewrite Hnz.
    + eexists. split; [exact Hget|]. cbn. apply list_lookup_insert_eq. lia.
Qed.

(** ** Freeing chunks, reference counting *)
Lemma free_chunks_loop_run i cs bm n g :
  0 <= i -> i + Z.of_nat (length cs) <= n -> n < 2 ^ 31 ->
  Z.of_nat (length bm) = ramblock_count_bitmap_size n ->
  exists bm' g', free_chunks_loop i cs bm g = Some (bm', g') /\ host_step g g' /\
                 length bm' = length bm.
Proof.
  revert i bm g. induction cs as [|[c|] cs IH]; intros i bm g Hi Hn Hn31 Hl; cbn in Hn;
    cbn [free_chunks_loop].
  - exists bm, g. split_and!; auto using host_step_refl.
  - rewrite s32_small by lia.
    assert (Hwr : word_in_range i bm = true)
      by (apply (bitmap_word_in_range i n); [lia|lia|done]).
    destruct (hax_test_and_clear_bit_spec _ _ Hwr) as (bm1 & Hclr & Hl1 & _).
    rewrite (of_option_run _ _ _ _ Hclr). cbn [snd].
    destruct (chunk_free_run c g) as (r & g1 & Hrun & Hs).
    rewrite (bind_run _ _ _ _ _ Hrun).
    destruct (IH (i + 1) bm1 g1) as (bm2 & g2 & Hr2 & Hs2 & Hl2); [lia|lia|lia|congruence|].
    exists bm2, g2. split_and!; [done|by eapply host_step_trans|congruence].
  - destruct (IH (i + 1) bm g) as (bm2 & g2 & ? & ? & ?); [lia|lia|lia|done|]. eauto.
Qed.

(** Afterwards the block has no pinned chunk and a clear bitmap. *)
Lemma ramblock_free_chunks_run b g :
  block_wf b ->
  exists b' g', ramblock_free_chunks b g = Some (b', g') /\ host_step g g' /\ block_wf b' /\
    same_range b b' /\ rb_ref_count b' = rb_ref_count b /\
    rb_is_standalone b' = rb_is_standalone b /\
    (forall i, chunk_present b' i = false).
Proof.
  intros Hw. destruct (count_chunks_small _ (bw_size _ Hw)) as [_ Hc].
  unfold ramblock_free_chunks.
  destruct (free_chunks_loop_run 0 (rb_chunks b) (rb_chunks_bitmap b)
    (ramblock_count_chunks (rb_size b)) g) as (bm & g1 & Hrun & Hs & Hl);
    [lia|rewrite (bw_nchunks _ Hw); lia|lia|apply Hw|].
  rewrite (bind_run _ _ _ _ _ Hrun).
  assert (Hnone : forall i, match (const None <$> rb_chunks b : list (option hax_chunk)) !! i with
                            | Some (Some _) => true | _ => false end = false).
  { intros i. rewrite list_lookup_fmap. by destruct (rb_chunks b !! i). }
  eexists _, g1. split_and!; try done.
  apply (block_wf_chunks b (const None <$> rb_chunks b) (const 0 <$> bm) Hw).
  - apply length_fmap.
  - by rewrite length_fmap.
  - intros i _. rewrite Hnone.
    replace (const 0 <$> bm) with (replicate (length bm) 0); [apply bm_bit_zeros|].
    clear. induction bm; cbn; congruence.
  - intros i c Hc'. specialize (Hnone i). by rewrite Hc' in Hnone.
Qed.

Definition others_same (p : Z) (g g' : st) : Prop :=
  forall q, q <> p -> nl_get q (gs_ramblock_list g') = nl_get q (gs_ramblock_list g).

Lemma set_ref_count_wf b n : block_wf b -> 0 <= n -> block_wf (set_ref_count n b).
Proof. intros [] Hn. by split. Qed.

Lemma ram_inv_block p b g :
  ram_inv g -> nl_get p (gs_ramblock_list g) = Some b -> block_wf b /\ p <> 0 /\ rb_addr b = p.
Proof.
  intros Hinv Hg. destruct (nl_get_Some _ _ _ Hg) as [Hin Hp].
  pose proof (bsw_wf _ (ri_blocks _ Hinv)) as Hf. rewrite Forall_forall in Hf.
  split_and!; [auto| |done]. rewrite <- Hp. apply (bw_addr _ (Hf b Hin)).
Qed.

Lemma ramblock_ref_run p b g :
  ram_inv g -> nl_get p (gs_ramblock_list g) = Some b ->
  exists g', ramblock_ref p g = Some (tt, g') /\ ram_inv g' /\ ram_frame g g' /\
    others_same p g g' /\
    nl_get p (gs_ramblock_list g') = Some (set_ref_count (rb_ref_count b + 1) b).
Proof.
  intros Hinv Hg. destruct (ram_inv_block _ _ _ Hinv Hg) as (Hw & Hp & Ha).
  unfold ramblock_ref. rewrite (proj2 (Z.eqb_neq p 0)) by done.
  rewrite (bind_run _ _ _ _ _ (get_block_run _ _ _ Hg)).
  destruct (put_block_run p b (set_ref_count (rb_ref_count b + 1) b) g)
    as (g' & ? & ? & ? & ? & Heq & ?); try done.
  { apply set_ref_count_wf; [done|]. pose proof (bw_refs _ Hw). lia. }
  exists g'. split_and!; try done. rewrite Heq. apply ram_frame_blocks.
Qed.

Lemma nl_get_del_eq p (l : list hax_ramblock) : nl_get p (nl_del p l) = None.
Proof.
  destruct (nl_get p (nl_del p l)) as [b|] eqn:Hg; [|done].
  apply nl_get_Some in Hg as [Hin Hp]. by apply list_elem_of_filter in Hin as [? _].
Qed.

Lemma nl_get_del_ne p q (l : list hax_ramblock) :
  q <> p -> nl_get q (nl_del p l) = nl_get q l.
Proof.
  intros Hne. induction l as [|x l IH]; [done|].
  unfold nl_del in *. rewrite filter_cons. case_decide as Hx; cbn; [by rewrite IH|].
  rewrite IH. destruct (Z.eqb_spec (node_key x) q); [|done]. congruence.
Qed.

Lemma ram_inv_del p b g :
  ram_inv g -> nl_get p (gs_ramblock_list g) = Some b ->
  ram_inv (with_ramblocks (nl_del p) g).
Proof.
  intros [[Hnd Hwf Hs] Hf Hn] Hg.
  destruct (blocks_split _ _ _ Hnd Hg) as (l1 & l2 & Hl & -> & H1 & H2).
  assert (Hdel : nl_del (rb_addr b) (gs_ramblock_list g) = l1 ++ l2)
    by (rewrite Hl; by apply (nl_del_middle (H := ramblock_keyed))).
  rewrite Hl in *. split; cbn -[nl_del]; [|rewrite Hl, Hdel|done].
  - split; cbn -[nl_del]; rewrite Hl, Hdel.
    + unfold nl_keys in *. rewrite fmap_app in *. cbn in Hnd.
      rewrite <- Permutation_middle in Hnd. by apply NoDup_cons in Hnd as [_ ?].
    + apply Forall_app in Hwf as [? Hx]. apply Forall_cons in Hx as [_ ?].
      by apply Forall_app.
    + by eapply ssorted_remove.
  - apply Forall_app in Hf as [? Hx]. apply Forall_cons in Hx as [_ ?]. by apply Forall_app.
Qed.

(** Dropping the last reference removes a stand-alone block and unpins the
    chunks of any other; otherwise only the count changes. *)
Lemma ramblock_deref_run p b g :
  ram_inv g -> nl_get p (gs_ramblock_list g) = Some b -> 0 < rb_ref_count b ->
  exists g', ramblock_deref p g = Some (tt, g') /\ ram_inv g' /\ ram_frame g g' /\
    others_same p g g' /\
    if (rb_ref_count b =? 1) && rb_is_standalone b
    then nl_get p (gs_ramblock_list g') = None
    else exists b', nl_get p (gs_ramblock_list g') = Some b' /\ same_range b b' /\
           rb_ref_count b' = rb_ref_count b - 1 /\
           rb_is_standalone b' = rb_is_standalone b /\
           (rb_ref_count b = 1 -> forall i, chunk_present b' i = false) /\
           (rb_ref_count b <> 1 -> rb_chunks b' = rb_chunks b).
Proof.
  intros Hinv Hg Hrc. destruct (ram_inv_block _ _ _ Hinv Hg) as (Hw & Hp & Ha).
  unfold ramblock_deref. rewrite (proj2 (Z.eqb_neq p 0)) by done.
  rewrite (bind_run _ _ _ _ _ (get_block_run _ _ _ Hg)).
  rewrite (proj2 (Z.leb_gt _ _)) by done. cbv zeta.
  set (b1 := set_ref_count (rb_ref_count b - 1) b).
  assert (Hw1 : block_wf b1) by (apply set_ref_count_wf; [done|lia]).
  destruct (put_block_run p b b1 g) as (g1 & Hput & Hinv1 & Hg1 & Ho1 & Heq1 & _); try done.
  assert (Hfr1 : ram_frame g g1) by (rewrite Heq1; apply ram_frame_blocks).
  rewrite (bind_run _ _ _ _ _ Hput).
  change (rb_ref_count b1) with (rb_ref_count b - 1).
  change (rb_is_standalone b1) with (rb_is_standalone b).
  destruct (Z.eqb_spec (rb_ref_count b - 1) 0) as [Hz|Hz];
    [rewrite (proj2 (Z.eqb_eq (rb_ref_count b) 1)) by lia
    |rewrite (proj2 (Z.eqb_neq (rb_ref_count b) 1)) by lia]; cbn [andb].
  2: { exists g1. split_and!; try done. exists b1. split_and!; try done. intros; lia. }
  destruct (ramblock_free_chunks_run b1 g1 Hw1) as (b2 & g2 & Hfree & Hs2 & Hw2 & Hr2 & Hc2 &
    Hsa2 & Hnone).
  destruct (rb_is_standalone b) eqn:Hsa.
  - unfold ramblock_remove. rewrite (bind_run _ _ _ _ _ (get_block_run _ _ _ Hg1)).
    erewrite bind_run by reflexivity. unfold ramblock_free.
    destruct (ramblock_free_chunks_run b1 (with_ramblocks (nl_del p) g1) Hw1)
      as (b3 & g3 & Hfree3 & Hs3 & _).
    rewrite (bind_run _ _ _ _ _ Hfree3). exists g3.
    destruct (host_step_blocks _ _ Hs3) as (Hbl & _ & _).
    split_and!; [done| | | |].
    + eapply ram_inv_host; [exact Hs3|]. by eapply ram_inv_del.
    + eapply ram_frame_trans; [exact Hfr1|].
      eapply ram_frame_trans; [apply ram_frame_blocks|by apply ram_frame_host].
    + intros q Hq. rewrite Hbl. cbn. rewrite nl_get_del_ne by done. by apply Ho1.
    + rewrite Hbl. apply nl_get_del_eq.
  - rewrite (bind_run _ _ _ _ _ Hfree).
    destruct (host_step_blocks _ _ Hs2) as (Hbl & _ & _).
    destruct (put_block_run p b1 b2 g2) as (g3 & Hput3 & Hinv3 & Hg3 & Ho3 & Heq3 & _);
      [by eapply ram_inv_host|by rewrite Hbl|done|done|].
    exists g3. split_and!; [done|done| | |].
    + eapply ram_frame_trans; [exact Hfr1|].
      eapply ram_frame_trans; [by apply ram_frame_host|].
      rewrite Heq3. apply ram_frame_blocks.
    + intros q Hq. rewrite Ho3, Hbl by done. by apply Ho1.
    + exists b2. split; [done|]. split; [done|]. split; [by rewrite Hc2|].
      split; [by rewrite Hsa2|]. split; [done|]. intros; lia.
Qed.
End Operations.
