(* ===== verification/Memslot.v ===== *)
(** * Memory slots (src/core/memslot.c)

    The guest physical address space is a list of slots, sorted by guest frame
    number, each mapping a range of frames to a range of a RAM block.  Setting a
    mapping cuts, merges, deletes and inserts slots, keeps the reference counts of
    the RAM blocks, and notifies the listeners of the frames whose mapping
    changed. *)

From stdpp Require Import base numbers list gmap.
From Stdlib Require Import ZArith Lia Sorted.
From S2P Require Import Prelude HaxList Bitmap MemTypes Ramblock.
#[local] Open Scope Z_scope.

Definition MEMSLOT_PROCESSING : Z := 0x01.
Definition MEMSLOT_TO_INSERT : Z := 0x02.

(** [state & flag] as a C condition. *)
Definition flag_set (state flag : Z) : bool := negb (state &! flag =? 0).

Inductive callback := NO_CALLBACK | MAPPING_ADDED | MAPPING_REMOVED | MAPPING_CHANGED.

Inductive route := MAPPING_DIFF_TYPE | MAPPING_SAME_TYPE | MAPPING_INVALID.

Record memslot_mapping := Mapping {
  mp_callback : callback;
  mp_start_gfn : Z;
  mp_npages : Z;
  mp_old_uva : Z;
  mp_old_flags : Z;
  mp_new_uva : Z;
  mp_new_flags : Z;
}.

Section Memslot.
Context {HH : Host} {E : Type}.
Notation st := (hax_gpa_space E).

(** The first frame after a slot, as the code computes it. *)
Notation slot_end s := (ms_base_gfn s +! ms_npages s).

(** ** Helpers *)
Definition memslot_is_valid (flags : Z) : bool :=
  negb (flags &! HAX_MEMSLOT_INVALID =? HAX_MEMSLOT_INVALID).

Definition memslot_is_same_type (dest src : hax_memslot) : bool :=
  ((ms_block dest =? ms_block src) &&
   (ms_offset_within_block dest -! ms_offset_within_block src =?
    (ms_base_gfn dest -! ms_base_gfn src) <<! PG_ORDER_4K) &&
   ((ms_flags dest &! HAX_MEMSLOT_READONLY) =? (ms_flags src &! HAX_MEMSLOT_READONLY)))%bool.

(** Access to a slot of the list through its address. *)
Definition get_slot (p : Z) : M st hax_memslot :=
  l ← gets gs_memslot_list; of_option (nl_get p l).

Definition upd_slot (p : Z) (f : hax_memslot -> hax_memslot) : M st unit :=
  modify (with_memslots (nl_upd p f)).

(** [memslot_init]: a copy of [src] at address [addr], holding a reference. *)
Definition memslot_init (addr : Z) (src : hax_memslot) : M st hax_memslot :=
  ramblock_ref (ms_block src);;
  mret (Memslot addr (ms_base_gfn src) (ms_npages src) (ms_block src)
          (ms_offset_within_block src) (ms_flags src)).

Definition memslot_dup (slot : hax_memslot) : M st (option hax_memslot) :=
  a ← hax_vmalloc sizeof_hax_memslot;
  match a with
  | None => mret None
  | Some addr => s ← memslot_init addr slot; mret (Some s)
  end.

Definition memslot_insert_before (dest : hax_memslot) (src : Z) : M st unit :=
  modify (with_memslots (nl_insert_before src dest)).

Definition memslot_insert_after (dest : hax_memslot) (src : Z) : M st unit :=
  modify (with_memslots (nl_insert_after src dest)).

Definition memslot_insert_head (dest : hax_memslot) : M st unit :=
  modify (with_memslots (nl_insert_after HEAD dest)).

Definition memslot_delete (p : Z) : M st unit :=
  s ← get_slot p;
  modify (with_memslots (nl_del p));;
  ramblock_deref (ms_block s).

(** [memslot_move(dest, src)]: the list node [dest] takes the contents of [src]
    and keeps its links. *)
Definition memslot_move (dest : Z) (src : hax_memslot) : M st unit :=
  d ← get_slot dest;
  ramblock_deref (ms_block d);;
  upd_slot dest (fun d => Memslot (ms_addr d) (ms_base_gfn src) (ms_npages src)
                            (ms_block src) (ms_offset_within_block src) (ms_flags src));;
  ramblock_ref (ms_block src).

Definition memslot_union (dest src : hax_memslot) : hax_memslot :=
  Memslot (ms_addr src)
    (Z.min (ms_base_gfn src) (ms_base_gfn dest))
    (Z.max (slot_end src) (slot_end dest) -! Z.min (ms_base_gfn src) (ms_base_gfn dest))
    (ms_block src)
    (Z.min (ms_offset_within_block src) (ms_offset_within_block dest))
    (ms_flags src).

Definition memslot_set_flags (flags : Z) (s : hax_memslot) : hax_memslot :=
  Memslot (ms_addr s) (ms_base_gfn s) (ms_npages s) (ms_block s)
    (ms_offset_within_block s) flags.

Definition memslot_overlap_front (dest src : hax_memslot) : hax_memslot :=
  Memslot (ms_addr src) (slot_end dest)
    ((slot_end src -! ms_base_gfn dest) -! ms_npages dest)
    (ms_block src)
    (ms_offset_within_block src +!
       ((slot_end dest -! ms_base_gfn src) <<! PG_ORDER_4K))
    (ms_flags src).

Definition memslot_overlap_rear (dest src : hax_memslot) : hax_memslot :=
  Memslot (ms_addr src) (ms_base_gfn src) (ms_base_gfn dest -! ms_base_gfn src)
    (ms_block src) (ms_offset_within_block src) (ms_flags src).

Definition memslot_append_rest (dest src : hax_memslot) : M st (option hax_memslot) :=
  rest ← hax_vmalloc sizeof_hax_memslot;
  match rest with
  | None => mret None
  | Some addr =>
      s ← memslot_init addr
            (Memslot 0 (slot_end dest)
               ((slot_end src -! ms_base_gfn dest) -! ms_npages dest)
               (ms_block src)
               (ms_offset_within_block src +!
                  ((slot_end dest -! ms_base_gfn src) <<! PG_ORDER_4K))
               (ms_flags src));
      mret (Some s)
  end.

Definition memslot_is_inner (dest src : hax_memslot) : M st bool :=
  l ← gets gs_memslot_list;
  if slot_end src <? slot_end dest then mret true
  else if slot_end dest =? slot_end src then
    let nxt := nl_next (ms_addr src) l in
    if nxt =? HEAD then mret false
    else
      next ← get_slot nxt;
      mret ((slot_end dest =? ms_base_gfn next) && memslot_is_same_type dest next)%bool
  else mret false.

(** ** The primary node: Figure 1 of memslot.c

    Each function returns the C return code and the new value of [*state]. *)
Definition memslot_process_start_diff_type (dest : hax_memslot) (p : Z) (state : Z)
    : M st (Z * Z) :=
  src ← get_slot p;
  if slot_end dest <=? ms_base_gfn src then
    d ← memslot_dup dest;
    match d with
    | None => mret (- ENOMEM, state)
    | Some d => memslot_insert_before d p;; mret (0, state)
    end
  else if ms_base_gfn dest <=? ms_base_gfn src then
    if slot_end dest <? slot_end src then
      d ← memslot_dup dest;
      match d with
      | None => mret (- ENOMEM, state)
      | Some d =>
          memslot_insert_before d p;;
          upd_slot p (memslot_overlap_front d);;
          mret (0, state)
      end
    else
      upd_slot p (memslot_union dest);;
      upd_slot p (memslot_set_flags (ms_flags dest));;
      mret (0, state)
  else
    let state := if slot_end src <=? slot_end dest
                 then state |! MEMSLOT_TO_INSERT else state in
    if ms_base_gfn dest <? slot_end src then
      if slot_end dest <? slot_end src then
        d ← memslot_dup dest;
        match d with
        | None => mret (- ENOMEM, state)
        | Some d =>
            memslot_insert_after d p;;
            rest ← memslot_append_rest d src;
            match rest with
            | None => mret (- ENOMEM, state)
            | Some rest =>
                memslot_insert_after rest (ms_addr d);;
                upd_slot p (memslot_overlap_rear d);;
                mret (0, state)
            end
        end
      else upd_slot p (memslot_overlap_rear dest);; mret (0, state)
    else mret (0, state).

Definition memslot_process_start_same_type (dest : hax_memslot) (p : Z) (state : Z)
    : M st (Z * Z) :=
  src ← get_slot p;
  if slot_end dest <? ms_base_gfn src then
    d ← memslot_dup dest;
    match d with
    | None => mret (- ENOMEM, state)
    | Some d => memslot_insert_before d p;; mret (0, state)
    end
  else if ((ms_base_gfn src <=? ms_base_gfn dest) && (slot_end dest <=? slot_end src))%bool
  then mret (0, state)
  else upd_slot p (memslot_union dest);; mret (0, state).

Definition memslot_process_start_invalid (dest : hax_memslot) (p : Z) (state : Z)
    : M st (Z * Z) :=
  src ← get_slot p;
  if ((slot_end dest <=? ms_base_gfn src) || (ms_base_gfn dest =? slot_end src))%bool
  then mret (0, state)
  else if ms_base_gfn dest <=? ms_base_gfn src then
    if slot_end dest <? slot_end src then
      upd_slot p (memslot_overlap_front dest);; mret (0, state)
    else memslot_delete p;; mret (0, state)
  else if slot_end dest <? slot_end src then
    rest ← memslot_append_rest dest src;
    match rest with
    | None => mret (- ENOMEM, state)
    | Some rest =>
        memslot_insert_after rest p;;
        upd_slot p (memslot_overlap_rear dest);;
        mret (0, state)
    end
  else upd_slot p (memslot_overlap_rear dest);; mret (0, state).

Definition memslot_process_start (r : route) :=
  match r with
  | MAPPING_DIFF_TYPE => memslot_process_start_diff_type
  | MAPPING_SAME_TYPE => memslot_process_start_same_type
  | MAPPING_INVALID => memslot_process_start_invalid
  end.

(** ** The last node: Figure 2 of memslot.c *)
Definition memslot_process_end_diff_type (dest : hax_memslot) (p : Z) (state : Z) : M st Z :=
  src ← get_slot p;
  if slot_end dest <? slot_end src then
    (if ms_base_gfn src <? slot_end dest
     then upd_slot p (memslot_overlap_front dest) else mret tt);;
    if flag_set state MEMSLOT_TO_INSERT then
      d ← memslot_dup dest;
      match d with
      | None => mret (- ENOMEM)
      | Some d => memslot_insert_before d p;; mret 0
      end
    else mret 0
  else if flag_set state MEMSLOT_TO_INSERT then memslot_move p dest;; mret 0
  else memslot_delete p;; mret 0.

Definition memslot_process_end_same_type (dest : hax_memslot) (p : Z) (state : Z) : M st Z :=
  src ← get_slot p;
  if ((slot_end dest =? slot_end src) && negb (flag_set state MEMSLOT_TO_INSERT))%bool
  then memslot_delete p;; mret 0
  else
    l ← gets gs_memslot_list;
    let pp := nl_prev p l in
    prev ← get_slot pp;
    upd_slot p (memslot_union (if memslot_is_same_type dest prev then prev else dest));;
    if flag_set state MEMSLOT_TO_INSERT then mret 0
    else memslot_delete pp;; mret 0.

Definition memslot_process_end_invalid (dest : hax_memslot) (p : Z) (state : Z) : M st Z :=
  src ← get_slot p;
  if slot_end dest =? ms_base_gfn src then mret 0
  else if slot_end dest <? slot_end src then
    upd_slot p (memslot_overlap_front dest);; mret 0
  else memslot_delete p;; mret 0.

Definition memslot_process_end (r : route) :=
  match r with
  | MAPPING_DIFF_TYPE => memslot_process_end_diff_type
  | MAPPING_SAME_TYPE => memslot_process_end_same_type
  | MAPPING_INVALID => memslot_process_end_invalid
  end.

(** A local list of slots (the snapshot): appended to, and cleared. *)
Definition memslot_list_enqueue (snapshot : list hax_memslot) (slot : hax_memslot)
    : M st (Z * list hax_memslot) :=
  s ← memslot_dup slot;
  match s with
  | None => mret (- ENOMEM, snapshot)
  | Some s => mret (0, snapshot ++ [s])
  end.

Fixpoint memslot_list_clear (l : list hax_memslot) : M st unit :=
  match l with
  | [] => mret tt
  | s :: rest => ramblock_deref (ms_block s);; memslot_list_clear rest
  end.

(** ** Notification of the listeners *)
(** [SAFE_CALL(listener->cb)(...)]. *)
Definition call_listener (f : option (E -> option E)) : M st unit :=
  match f with
  | None => mret tt
  | Some cb => e ← gets gs_opaque; e' ← of_option (cb e); modify (with_opaque e')
  end.

Definition notify_one (hole slot : option memslot_mapping) (l : hax_gpa_space_listener E)
    : M st unit :=
  (match hole with
   | Some h =>
       match mp_callback h with
       | MAPPING_ADDED =>
           call_listener ((fun cb => cb (mp_start_gfn h) (mp_npages h) (mp_new_uva h)
                                        (u8 (mp_new_flags h))) <$> mapping_added l)
       | _ => mret tt
       end
   | None => mret tt
   end);;
  match slot with
  | None => mret tt
  | Some s =>
      match mp_callback s with
      | MAPPING_REMOVED =>
          call_listener ((fun cb => cb (mp_start_gfn s) (mp_npages s) (mp_old_uva s)
                                       (u8 (mp_old_flags s))) <$> mapping_removed l)
      | MAPPING_CHANGED =>
          call_listener ((fun cb => cb (mp_start_gfn s) (mp_npages s) (mp_old_uva s)
                                       (u8 (mp_old_flags s)) (mp_new_uva s)
                                       (u8 (mp_new_flags s))) <$> mapping_changed l)
      | _ => mret tt
      end
  end.

Fixpoint notify_each (hole slot : option memslot_mapping)
    (ls : list (hax_gpa_space_listener E)) : M st unit :=
  match ls with
  | [] => mret tt
  | l :: rest => notify_one hole slot l;; notify_each hole slot rest
  end.

Definition mapping_notify_listeners (hole slot : option memslot_mapping) : M st unit :=
  ls ← gets gs_listener_list; notify_each hole slot ls.

Definition mapping_intersect (dest src : memslot_mapping) : memslot_mapping :=
  Mapping (mp_callback src)
    (Z.max (mp_start_gfn src) (mp_start_gfn dest))
    (Z.min (mp_start_gfn src +! mp_npages src) (mp_start_gfn dest +! mp_npages dest) -!
     Z.max (mp_start_gfn src) (mp_start_gfn dest))
    (mp_old_uva src) (mp_old_flags src) (mp_new_uva src) (mp_new_flags src).

Definition mapping_is_changed (dest src : hax_memslot) (is_valid is_terminal : bool) : bool :=
  (((is_valid && negb (memslot_is_same_type dest src)) || negb is_valid) &&
   ((is_terminal && ((ms_base_gfn src <? slot_end dest) &&
                     (ms_base_gfn dest <? slot_end src))) || negb is_terminal))%bool.

(** Returns the new [*hole] and [*slot].  [base_uva] is [src->block->base_uva]. *)
Definition mapping_calc_change (mapping : memslot_mapping) (src : hax_memslot)
    (base_uva : Z) (is_valid is_terminal is_changed : bool) (hole slot : memslot_mapping)
    : memslot_mapping * memslot_mapping :=
  let hole :=
    if (is_valid && (mp_start_gfn hole <? ms_base_gfn src))%bool then
      let h := Mapping MAPPING_ADDED (mp_start_gfn hole)
                 (ms_base_gfn src -! mp_start_gfn hole) (mp_old_uva hole)
                 (mp_old_flags hole) (mp_new_uva mapping) (mp_new_flags mapping) in
      if is_terminal then mapping_intersect mapping h else h
    else Mapping NO_CALLBACK (mp_start_gfn hole) (mp_npages hole) (mp_old_uva hole)
           (mp_old_flags hole) (mp_new_uva hole) (mp_new_flags hole) in
  let slot :=
    if is_changed then
      let s := Mapping (if is_valid then MAPPING_CHANGED else MAPPING_REMOVED)
                 (ms_base_gfn src) (ms_npages src)
                 ((base_uva +! ms_offset_within_block src) +!
                  (if ms_base_gfn src <? mp_start_gfn mapping
                   then (mp_start_gfn mapping -! ms_base_gfn src) <<! PG_ORDER_4K else 0))
                 (ms_flags src)
                 (if is_valid then
                    mp_new_uva mapping +!
                    (if mp_start_gfn mapping <? ms_base_gfn src
                     then (ms_base_gfn src -! mp_start_gfn mapping) <<! PG_ORDER_4K else 0)
                  else mp_new_uva slot)
                 (if is_valid then mp_new_flags mapping else mp_new_flags slot) in
      if is_terminal then mapping_intersect mapping s else s
    else Mapping NO_CALLBACK (mp_start_gfn slot) (mp_npages slot) (mp_old_uva slot)
           (mp_old_flags slot) (mp_new_uva slot) (mp_new_flags slot) in
  (hole, slot).

(** The loop over the snapshot; [begin] and [end_] are the addresses of its
    first and last node. *)
Fixpoint broadcast_loop (mapping : memslot_mapping) (dest : hax_memslot) (is_valid : bool)
    (begin end_ : Z) (hole slot : memslot_mapping) (snapshot : list hax_memslot)
    : M st memslot_mapping :=
  match snapshot with
  | [] => mret hole
  | src :: rest =>
      let is_terminal := ((ms_addr src =? begin) || (ms_addr src =? end_))%bool in
      let is_changed := mapping_is_changed dest src is_valid is_terminal in
      b ← get_block (ms_block src);
      let '(hole, slot) := mapping_calc_change mapping src (rb_base_uva b) is_valid
                             is_terminal is_changed hole slot in
      mapping_notify_listeners (Some hole) (Some slot);;
      let hole := Mapping (mp_callback hole) (slot_end src) (mp_npages hole) (mp_old_uva hole)
                    (mp_old_flags hole) (mp_new_uva hole) (mp_new_flags hole) in
      ramblock_deref (ms_block src);;
      broadcast_loop mapping dest is_valid begin end_ hole slot rest
  end.

(** Returns what is left in the snapshot list. *)
Definition mapping_broadcast (mapping : memslot_mapping) (dest : hax_memslot)
    (snapshot : list hax_memslot) : M st (list hax_memslot) :=
  ls ← gets gs_listener_list;
  match ls with
  | [] => mret snapshot
  | _ :: _ =>
      match snapshot with
      | [] =>
          mapping_notify_listeners
            (Some (Mapping MAPPING_ADDED (mp_start_gfn mapping) (mp_npages mapping)
                     (mp_old_uva mapping) (mp_old_flags mapping) (mp_new_uva mapping)
                     (mp_new_flags mapping))) None;;
          mret []
      | first :: rest =>
          let is_valid := memslot_is_valid (mp_new_flags mapping) in
          let blank := Mapping NO_CALLBACK 0 0 0 0 0 0 in
          let hole := Mapping NO_CALLBACK (mp_start_gfn mapping) 0 0 0 0 0 in
          hole ← broadcast_loop mapping dest is_valid (ms_addr first)
                   (ms_addr (List.last rest first)) hole blank snapshot;
          (if (is_valid && (mp_start_gfn hole <?
                            mp_start_gfn mapping +! mp_npages mapping))%bool then
             mapping_notify_listeners
               (Some (Mapping MAPPING_ADDED (mp_start_gfn hole)
                        ((mp_start_gfn mapping +! mp_npages mapping) -! mp_start_gfn hole)
                        (mp_old_uva hole) (mp_old_flags hole)
                        (mp_new_uva mapping +!
                           ((mp_start_gfn hole -! mp_start_gfn mapping) <<! PG_ORDER_4K))
                        (mp_new_flags mapping))) None
           else mret tt);;
          mret []
      end
  end.

(** ** memslot_set_mapping *)
Inductive flow := Continue | Break | Out (ret : Z).

Record loop_state := LoopState {
  ls_found : bool;
  ls_state : Z;
  ls_snapshot : list hax_memslot;
}.

(** [p->entry.next], for a node or the head. *)
Definition slot_next (p : Z) : M st Z :=
  l ← gets gs_memslot_list;
  if p =? HEAD then mret (nl_first l)
  else _ ← get_slot p; mret (nl_next p l).

(** One iteration of the loop of [memslot_set_mapping] at the node [p]. *)
Definition set_mapping_step (dest : hax_memslot) (is_valid : bool) (p : Z) (ls : loop_state)
    : M st (flow * loop_state) :=
  src ← get_slot p;
  let route := if is_valid
               then if memslot_is_same_type dest src
                    then MAPPING_SAME_TYPE else MAPPING_DIFF_TYPE
               else MAPPING_INVALID in
  if negb (ls_found ls) then
    if slot_end src <? ms_base_gfn dest then
      nxt ← slot_next p;
      if negb (nxt =? HEAD) then mret (Continue, ls)
      else if is_valid then
        d ← memslot_dup dest;
        match d with
        | None => mret (Out (- ENOMEM), ls)
        | Some d => memslot_insert_after d p;; mret (Break, ls)
        end
      else mret (Break, ls)
    else
      q ← (if ms_base_gfn dest <? slot_end src
           then memslot_list_enqueue (ls_snapshot ls) src
           else mret (0, ls_snapshot ls));
      let '(ret, snapshot) := q in
      if negb (ret =? 0) then mret (Out ret, LoopState (ls_found ls) (ls_state ls) snapshot)
      else
        let state := if slot_end src <=? slot_end dest
                     then ls_state ls |! MEMSLOT_PROCESSING else ls_state ls in
        r ← memslot_process_start route dest p state;
        let '(ret, state) := r in
        if negb (ret =? 0) then mret (Out ret, LoopState (ls_found ls) state snapshot)
        else mret (if flag_set state MEMSLOT_PROCESSING then Continue else Break,
                   LoopState true state snapshot)
  else
    if slot_end dest <? ms_base_gfn src then mret (Break, ls)
    else
      q ← (if ms_base_gfn src <? slot_end dest
           then memslot_list_enqueue (ls_snapshot ls) src
           else mret (0, ls_snapshot ls));
      let '(ret, snapshot) := q in
      if negb (ret =? 0) then mret (Out ret, LoopState true (ls_state ls) snapshot)
      else
        inner ← memslot_is_inner dest src;
        if inner : bool then
          memslot_delete p;; mret (Continue, LoopState true (ls_state ls) snapshot)
        else
          ret ← memslot_process_end route dest p (ls_state ls);
          if negb (ret =? 0) then mret (Out ret, LoopState true (ls_state ls) snapshot)
          else mret (Break, LoopState true 0 snapshot).

(** [hax_list_entry_for_each_safe(src, m, ...)]: returns how the loop ended and
    the final value of [src]. *)
Fixpoint set_mapping_loop (fuel : nat) (dest : hax_memslot) (is_valid : bool)
    (src m : Z) (ls : loop_state) : M st (flow * Z * loop_state) :=
  match fuel with
  | O => stuck
  | S fuel =>
      if src =? HEAD then mret (Break, src, ls)
      else
        r ← set_mapping_step dest is_valid src ls;
        let '(fl, ls) := r in
        match fl with
        | Continue =>
            m' ← slot_next m;
            set_mapping_loop fuel dest is_valid m m' ls
        | _ => mret (fl, src, ls)
        end
  end.

Definition set_standalone (b : hax_ramblock) : hax_ramblock :=
  Ramblock (rb_addr b) (rb_base_uva b) (rb_size b) (rb_chunks b) (rb_chunks_bitmap b)
    (rb_ref_count b) true.

(** The RAM block of a new mapping: an error code, or the block's address with a
    reference taken (0 for an unmapping). *)
Definition mapping_block (npages uva flags : Z) : M st (Z + Z) :=
  if memslot_is_valid flags then
    if flag_set flags HAX_MEMSLOT_STANDALONE then
      r ← ramblock_add uva (npages <<! PG_ORDER_4K);
      let '(ret, block) := r in
      if (negb (ret =? 0) || (block =? 0))%bool
      then mret (inl (if ret <? 0 then ret else - EINVAL))
      else
        b ← get_block block;
        put_block (set_standalone b);;
        ramblock_ref block;;
        mret (inr block)
    else
      block ← ramblock_find uva;
      if block =? 0 then mret (inl (- EINVAL)) else mret (inr block)
  else mret (inr 0).

Definition memslot_set_mapping (start_gfn npages uva flags : Z) : M st Z :=
  if npages =? 0 then mret (- EINVAL)
  else
    let is_valid := memslot_is_valid flags in
    rb ← mapping_block npages uva flags;
    match rb with
    | inl ret => mret ret
    | inr block =>
        offset ← (if block =? 0 then mret 0
                  else b ← get_block block; mret (uva -! rb_base_uva b));
        let mapping := Mapping NO_CALLBACK start_gfn npages 0 0 uva flags in
        let dest := Memslot 0 start_gfn npages block offset flags in
        l ← gets gs_memslot_list;
        r ← match l with
            | [] =>
                if is_valid then
                  d ← memslot_dup dest;
                  match d with
                  | None => mret (- ENOMEM, [])
                  | Some d =>
                      memslot_insert_head d;;
                      _ ← mapping_broadcast mapping d [];
                      mret (0, [])
                  end
                else mret (0, [])
            | first :: _ =>
                m ← slot_next (ms_addr first);
                q ← set_mapping_loop (S (S (length l))) dest is_valid (ms_addr first) m
                      (LoopState false 0 []);
                let '(fl, src, ls) := q in
                match fl with
                | Out ret => mret (ret, ls_snapshot ls)
                | _ =>
                    ins ← (if flag_set (ls_state ls) MEMSLOT_TO_INSERT then
                             d ← memslot_dup dest;
                             match d with
                             | None => mret false
                             | Some d => memslot_insert_before d src;; mret true
                             end
                           else mret true);
                    if ins : bool then
                      left ← mapping_broadcast mapping dest (ls_snapshot ls);
                      mret (0, left)
                    else mret (- ENOMEM, ls_snapshot ls)
                end
            end;
        let '(ret, snapshot) := r in
        (if block =? 0 then mret tt else ramblock_deref block);;
        memslot_list_clear snapshot;;
        mret ret
    end.

(** The slot containing a frame; NULL means the frame is MMIO. *)
Fixpoint memslot_search (gfn : Z) (l : list hax_memslot) : option hax_memslot :=
  match l with
  | [] => None
  | s :: rest =>
      if gfn <? ms_base_gfn s then None
      else if gfn <? slot_end s then Some s
      else memslot_search gfn rest
  end.

Definition memslot_find (gfn : Z) : M st (option hax_memslot) :=
  gets (fun g => memslot_search gfn (gs_memslot_list g)).

Definition memslot_init_list : M st Z := modify (with_memslots (const []));; mret 0.

(** [memslot_list_clear(&gpa_space->memslot_list)]. *)
Fixpoint delete_each (ps : list Z) : M st unit :=
  match ps with
  | [] => mret tt
  | p :: rest => memslot_delete p;; delete_each rest
  end.

Definition memslot_free_list : M st unit :=
  l ← gets gs_memslot_list; delete_each (nl_keys l).
End Memslot.
