(* ===== verification/MemslotSpec.v ===== *)
(** * Specification of the guest physical address map

    The abstract view of a slot list is the partial function from guest frames to
    their backing memory.  A slot is an interval of frames with a [line]: the RAM
    block, the block offset that frame 0 would have, and the read-only bit.  Two
    slots have the same type exactly when they have the same line. *)

From stdpp Require Import base numbers list gmap.
From Stdlib Require Import ZArith Lia Sorted.
From S2P Require Import Prelude HaxList Bitmap MemTypes Ramblock Memslot.
#[local] Open Scope Z_scope.

Section Spec.
Context {HH : Host}.
Implicit Types (s d x : hax_memslot) (l : list hax_memslot).

Definition s_end s : Z := ms_base_gfn s + ms_npages s.

Record line := Line { ln_block : Z; ln_origin : Z; ln_readonly : Z }.

Definition slot_line s : line :=
  Line (ms_block s) (ms_offset_within_block s - ms_base_gfn s * 4096)
    (ms_flags s &! HAX_MEMSLOT_READONLY).

(** The block offset backing frame [gfn]. *)
Definition line_offset (ln : line) (gfn : Z) : Z := ln_origin ln + gfn * 4096.

Definition covers s (gfn : Z) : bool :=
  ((ms_base_gfn s <=? gfn) && (gfn <? s_end s))%bool.

Fixpoint slot_lookup l (gfn : Z) : option line :=
  match l with
  | [] => None
  | s :: rest => if covers s gfn then Some (slot_line s) else slot_lookup rest gfn
  end.

(** Bounds under which no 64-bit computation on slots wraps around; the protection
    bitmap limits guest frame numbers to 31 bits before slots are touched. *)
Definition GFN_MAX : Z := 2 ^ 31 - 1.
Definition OFF_MAX : Z := 2 ^ 63.

Record range_wf s : Prop := {
  rw_base : 0 <= ms_base_gfn s;
  rw_npages : 0 < ms_npages s;
  rw_end : s_end s <= GFN_MAX;
  rw_off : 0 <= ms_offset_within_block s;
  rw_top : ms_offset_within_block s + ms_npages s * 4096 < OFF_MAX;
}.

Definition gfn_before s x : Prop := s_end s <= ms_base_gfn x.

Record slots_wf l : Prop := {
  sw_range : Forall range_wf l;
  sw_sorted : StronglySorted gfn_before l;
}.

(** ** Sorted lists of intervals *)
Lemma slot_lookup_app l1 l2 gfn :
  slot_lookup (l1 ++ l2) gfn =
  match slot_lookup l1 gfn with Some ln => Some ln | None => slot_lookup l2 gfn end.
Proof. induction l1 as [|s l1 IH]; [done|]. cbn. by destruct (covers s gfn). Qed.

Lemma slot_lookup_above l b gfn :
  Forall (fun s => s_end s <= b) l -> b <= gfn -> slot_lookup l gfn = None.
Proof.
  intros Hl Hg. induction Hl as [|s l Hs Hl IH]; [done|]. cbn. unfold covers.
  rewrite (proj2 (Z.ltb_ge _ _)) by lia. by rewrite andb_false_r.
Qed.

Lemma slot_lookup_below l b gfn :
  Forall (fun s => b <= ms_base_gfn s) l -> gfn < b -> slot_lookup l gfn = None.
Proof.
  intros Hl Hg. induction Hl as [|s l Hs Hl IH]; [done|]. cbn. unfold covers.
  by rewrite (proj2 (Z.leb_gt _ _)) by lia.
Qed.

Lemma slots_wf_app l1 l2 :
  slots_wf (l1 ++ l2) <->
  slots_wf l1 /\ slots_wf l2 /\ Forall (fun x => Forall (gfn_before x) l2) l1.
Proof.
  split.
  - intros [Hr Hs]. apply Forall_app in Hr as [? ?].
    apply ssorted_app in Hs as (? & ? & ?). by split_and!.
  - intros ([] & [] & ?). split; [by apply Forall_app|by apply ssorted_app].
Qed.

Lemma slots_wf_cons s l :
  slots_wf (s :: l) <-> range_wf s /\ slots_wf l /\ Forall (gfn_before s) l.
Proof.
  split.
  - intros [Hr Hs]. apply Forall_cons in Hr as [? ?].
    apply ssorted_cons in Hs as [? ?]. by split_and!.
  - intros (? & [] & ?). split; [by constructor|by apply ssorted_cons].
Qed.

Lemma slots_wf_nil : slots_wf [].
Proof. split; constructor. Qed.

(** All slots end at or before [b] / start at or after [b]. *)
Notation all_before b l := (Forall (fun s => s_end s <= b) l).
Notation all_after b l := (Forall (fun s => b <= ms_base_gfn s) l).

Lemma slots_wf_app_at l1 l2 b :
  slots_wf l1 -> slots_wf l2 -> all_before b l1 -> all_after b l2 -> slots_wf (l1 ++ l2).
Proof.
  intros H1 H2 Hb Ha. apply slots_wf_app. split_and!; [done|done|].
  rewrite Forall_forall in *. intros x Hx. rewrite Forall_forall. intros y Hy.
  unfold gfn_before. specialize (Hb x Hx). specialize (Ha y Hy). lia.
Qed.

Lemma slots_wf_cons_at s l :
  range_wf s -> slots_wf l -> all_after (s_end s) l -> slots_wf (s :: l).
Proof. intros. apply slots_wf_cons. by split_and!. Qed.

Lemma sorted_before l1 s l2 : slots_wf (l1 ++ s :: l2) -> all_before (ms_base_gfn s) l1.
Proof.
  intros (_ & _ & Hf)%slots_wf_app. eapply Forall_impl; [exact Hf|].
  cbn. intros x Hx. by inversion Hx.
Qed.

Lemma sorted_after s l : slots_wf (s :: l) -> all_after (s_end s) l.
Proof. by intros (_ & _ & ?)%slots_wf_cons. Qed.

Lemma all_before_weaken b b' l : all_before b l -> b <= b' -> all_before b' l.
Proof. intros Hl Hb. eapply Forall_impl; [exact Hl|]. cbn. lia. Qed.

Lemma all_after_weaken b b' l : all_after b l -> b' <= b -> all_after b' l.
Proof. intros Hl Hb. eapply Forall_impl; [exact Hl|]. cbn. lia. Qed.

(** ** The operations on intervals and lines *)
Lemma range_bounds s :
  range_wf s -> 0 <= ms_base_gfn s /\ 0 < ms_npages s /\
  ms_base_gfn s + ms_npages s <= 2 ^ 31 - 1 /\ 0 <= ms_offset_within_block s /\
  ms_offset_within_block s + ms_npages s * 4096 < 2 ^ 63.
Proof. intros []. unfold s_end, GFN_MAX, OFF_MAX in *. split_and!; lia. Qed.

Lemma slot_end_val s : range_wf s -> ms_base_gfn s +! ms_npages s = s_end s.
Proof.
  intros Hs. destruct (range_bounds s Hs) as (? & ? & ? & _). unfold s_end.
  apply u64_small. lia.
Qed.

Lemma shift_diff a b :
  0 <= a <= 2 ^ 50 -> 0 <= b <= 2 ^ 50 -> (a -! b) <<! PG_ORDER_4K = u64 ((a - b) * 4096).
Proof.
  intros Ha Hb. unfold PG_ORDER_4K. rewrite shiftl_12. unfold u64.
  apply Zmult_mod_idemp_l.
Qed.

(** [memslot_is_same_type] compares lines. *)
Lemma memslot_is_same_type_spec d s :
  range_wf d -> range_wf s ->
  memslot_is_same_type d s = true <-> slot_line d = slot_line s.
Proof.
  intros Hd Hs. destruct (range_bounds d Hd) as (? & ? & ? & ? & ?).
  destruct (range_bounds s Hs) as (? & ? & ? & ? & ?).
  unfold memslot_is_same_type. rewrite shift_diff by lia.
  rewrite !andb_true_iff, !Z.eqb_eq. unfold slot_line.
  assert (u64 (ms_offset_within_block d - ms_offset_within_block s) =
          u64 ((ms_base_gfn d - ms_base_gfn s) * 4096) <->
          ms_offset_within_block d - ms_base_gfn d * 4096 =
          ms_offset_within_block s - ms_base_gfn s * 4096) as ->.
  { unfold u64. split.
    - intros Heq. apply Z.cong_iff_ex in Heq as [k Hk]. lia.
    - intros Heq. f_equal. lia. }
  split; [intros [[-> ->] ->]; done|]. intros [= -> -> ->]. done.
Qed.

(** Contents of a slot apart from its address. *)
Definition same_contents s x : Prop :=
  ms_base_gfn s = ms_base_gfn x /\ ms_npages s = ms_npages x /\ ms_block s = ms_block x /\
  ms_offset_within_block s = ms_offset_within_block x /\ ms_flags s = ms_flags x.

Lemma same_contents_range s x : same_contents s x -> range_wf x -> range_wf s.
Proof.
  intros (Hb & Hn & _ & Ho & _) [].
  split; unfold s_end in *; rewrite ?Hb, ?Hn, ?Ho; done.
Qed.

Lemma same_contents_line s x : same_contents s x -> slot_line s = slot_line x.
Proof. intros (Hb & Hn & Hk & Ho & Hf). unfold slot_line. by rewrite Hb, Hk, Ho, Hf. Qed.

Lemma same_contents_end s x :
  same_contents s x -> s_end s = s_end x /\ ms_base_gfn s = ms_base_gfn x.
Proof. intros (Hb & Hn & _). unfold s_end. by rewrite Hb, Hn. Qed.

(** An interval [a, b) of the line of [s]. *)
Definition is_part s (a b : Z) x : Prop :=
  range_wf x /\ ms_base_gfn x = a /\ s_end x = b /\ slot_line x = slot_line s /\
  ms_block x = ms_block s.

Lemma memslot_union_spec d s :
  range_wf d -> range_wf s -> slot_line d = slot_line s ->
  s_end d <= GFN_MAX -> 
  is_part s (Z.min (ms_base_gfn s) (ms_base_gfn d)) (Z.max (s_end s) (s_end d))
    (memslot_union d s).
Proof.
  intros Hd Hs [= Hblk Horg Hro] _.
  destruct (range_bounds d Hd) as (? & ? & ? & ? & ?).
  destruct (range_bounds s Hs) as (? & ? & ? & ? & ?).
  unfold memslot_union. rewrite !slot_end_val by done. unfold s_end in *.
  rewrite u64_small by lia.
  split_and!; [|done|unfold s_end; cbn; lia|unfold slot_line; cbn; f_equal; lia|done].
  split; unfold s_end, GFN_MAX, OFF_MAX; cbn; lia.
Qed.

Lemma memslot_overlap_front_spec d s :
  range_wf d -> range_wf s -> ms_base_gfn s <= s_end d < s_end s ->
  is_part s (s_end d) (s_end s) (memslot_overlap_front d s).
Proof.
  intros Hd Hs He. destruct (range_bounds d Hd) as (? & ? & ? & ? & ?).
  destruct (range_bounds s Hs) as (? & ? & ? & ? & ?).
  unfold memslot_overlap_front. rewrite !slot_end_val by done.
  unfold s_end in *. rewrite shift_diff by lia.
  rewrite (u64_small ((ms_base_gfn d + ms_npages d - ms_base_gfn s) * 4096)) by lia.
  rewrite (u64_small (ms_offset_within_block s + _)) by lia.
  rewrite (u64_small (ms_base_gfn s + ms_npages s - ms_base_gfn d)) by lia.
  rewrite u64_small by lia.
  split_and!; [|done|unfold s_end; cbn; lia|unfold slot_line; cbn; f_equal; lia|done].
  split; unfold s_end, GFN_MAX, OFF_MAX; cbn; lia.
Qed.

Lemma memslot_overlap_rear_spec d s :
  range_wf d -> range_wf s -> ms_base_gfn s < ms_base_gfn d <= s_end s ->
  is_part s (ms_base_gfn s) (ms_base_gfn d) (memslot_overlap_rear d s).
Proof.
  intros Hd Hs He. destruct (range_bounds d Hd) as (? & ? & ? & ? & ?).
  destruct (range_bounds s Hs) as (? & ? & ? & ? & ?).
  unfold memslot_overlap_rear, s_end in *. rewrite u64_small by lia.
  split_and!; [|done|unfold s_end; cbn; lia|done|done].
  split; unfold s_end, GFN_MAX, OFF_MAX; cbn; lia.
Qed.

(** The search of [memslot_find] is the lookup. *)
Lemma memslot_search_spec l gfn :
  slots_wf l ->
  slot_lookup l gfn = slot_line <$> memslot_search gfn l /\
  forall s, memslot_search gfn l = Some s -> s ∈ l /\ covers s gfn = true.
Proof.
  induction l as [|x l IH]; [done|]. intros Hw.
  pose proof (sorted_after _ _ Hw) as Ha. apply slots_wf_cons in Hw as (Hx & Hw & _).
  destruct (IH Hw) as [IH1 IH2]. cbn. rewrite slot_end_val by done. unfold covers.
  destruct (Z.ltb_spec gfn (ms_base_gfn x)).
  - rewrite (proj2 (Z.leb_gt _ _)) by lia. cbn. split; [|done].
    eapply slot_lookup_below; [exact Ha|]. destruct Hx. unfold s_end. lia.
  - rewrite (proj2 (Z.leb_le _ _)) by lia. cbn.
    destruct (Z.ltb_spec gfn (s_end x)); cbn.
    + split; [done|]. intros s [= <-]. split; [set_solver|].
      rewrite (proj2 (Z.leb_le _ _)), (proj2 (Z.ltb_lt _ _)) by lia. done.
    + split; [done|]. intros s Hs. apply IH2 in Hs as [? ?]. set_solver.
Qed.
End Spec.

#[global] Notation all_before b l := (Forall (fun s => s_end s <= b) l).
#[global] Notation all_after b l := (Forall (fun s => b <= ms_base_gfn s) l).
