(* ===== verification/MemslotOwn.v ===== *)
(** * Ownership of RAM blocks by memory slots

    Every slot of the list holds one reference to its RAM block; while a mapping
    is being set, the mapping itself and the slots copied to the snapshot hold
    references too.  [St g0 l rs g] says that the slot list of [g] is [l], that the
    reference counts are exactly the references of [l] and of the pending holders
    [rs], and that [g] was reached from [g0] by memory operations only.  Each
    operation of memslot.c used by memslot_set_mapping has one rule on [St]; the
    rules also say that it does not get stuck. *)

From stdpp Require Import base numbers list gmap.
From Stdlib Require Import ZArith Lia Sorted.
From S2P Require Import Prelude HaxList Bitmap MemTypes Ramblock Memslot MemslotSpec.
#[local] Open Scope Z_scope.

Section Own.
Context {HH : Host} {E : Type}.
Notation st := (hax_gpa_space E).
Implicit Types (g : st) (l : list hax_memslot) (s x d : hax_memslot) (rs : list Z).

(** Memory allocation never fails. *)
Definition alloc_ok : Prop := forall size h, (host_vmalloc size h).1 = true.

(** A block that is in use has been in use, and kept its chunks. *)
Definition chunks_live (b b' : hax_ramblock) : Prop :=
  0 < rb_ref_count b' -> 0 < rb_ref_count b /\ rb_chunks b' = rb_chunks b.

Lemma chunks_live_refl b : chunks_live b b.
Proof. done. Qed.

(** What memory operations keep: everything but the slots, the host, the blocks'
    counts and the chunks of unused blocks; blocks may only disappear. *)
Record evo (g0 g : st) : Prop := {
  ev_listeners : gs_listener_list g = gs_listener_list g0;
  ev_prot : gs_prot g = gs_prot g0;
  ev_umem : gs_umem g = gs_umem g0;
  ev_opaque : gs_opaque g = gs_opaque g0;
  ev_next : gs_next_addr g0 <= gs_next_addr g;
  ev_blocks : forall p b', nl_get p (gs_ramblock_list g) = Some b' ->
    exists b, nl_get p (gs_ramblock_list g0) = Some b /\ same_range b b' /\
              rb_is_standalone b' = rb_is_standalone b /\ chunks_live b b';
}.

Lemma evo_refl g : evo g g.
Proof. split; try done. intros p b Hb. exists b. by split_and!. Qed.

Lemma evo_trans g1 g2 g3 : evo g1 g2 -> evo g2 g3 -> evo g1 g3.
Proof.
  intros H12 H23. destruct H12 as [? ? ? ? ? Hb], H23 as [? ? ? ? ? Hb'].
  split; try congruence; [lia|]. intros p b3 H3.
  destruct (Hb' _ _ H3) as (b2 & Hg2 & (? & ? & ?) & ? & Hc2).
  destruct (Hb _ _ Hg2) as (b1 & Hg1 & (? & ? & ?) & ? & Hc1).
  exists b1. unfold same_range. split_and!; try congruence.
  intros [Hx ->]%Hc2. by apply Hc1.
Qed.

(** The number of references to block [p]. *)
Definition refs (l : list hax_memslot) (rs : list Z) (p : Z) : Z :=
  Z.of_nat (count_occ Z.eq_dec ((ms_block <$> l) ++ rs) p).

(** The counts of the blocks are given by [rf]; unknown blocks have no
    references. *)
Definition refs_ok (rf : Z -> Z) g : Prop :=
  forall p, match nl_get p (gs_ramblock_list g) with
            | Some b => rb_ref_count b = rf p
            | None => rf p = 0
            end.

Record Sx (g0 : st) l (rf : Z -> Z) g : Prop := {
  st_list : gs_memslot_list g = l;
  st_ram : ram_inv g;
  st_refs : refs_ok rf g;
  st_keys : NoDup (nl_keys l);
  st_addrs : Forall (fun s => 0 < ms_addr s < gs_next_addr g) l;
  st_evo : evo g0 g;
}.

Definition St g0 l rs : st -> Prop := Sx g0 l (refs l rs).

Lemma refs_app l rs p :
  refs l rs p = Z.of_nat (count_occ Z.eq_dec (ms_block <$> l) p) +
                Z.of_nat (count_occ Z.eq_dec rs p).
Proof. unfold refs. rewrite count_occ_app. lia. Qed.

Lemma count_cons q rs p :
  Z.of_nat (count_occ Z.eq_dec (q :: rs) p) =
  (if decide (q = p) then 1 else 0) + Z.of_nat (count_occ Z.eq_dec rs p).
Proof. cbn. destruct (Z.eq_dec q p); repeat case_decide; try done; lia. Qed.

Lemma refs_cons l q rs p :
  refs l (q :: rs) p = (if decide (q = p) then 1 else 0) + refs l rs p.
Proof. rewrite !refs_app, count_cons. lia. Qed.

Lemma refs_slot l1 s l2 rs p :
  refs (l1 ++ s :: l2) rs p = (if decide (ms_block s = p) then 1 else 0) + refs (l1 ++ l2) rs p.
Proof.
  rewrite !refs_app, !fmap_app, !count_occ_app, fmap_cons, !Nat2Z.inj_add, count_cons. lia.
Qed.

Lemma refs_nonneg l rs p : 0 <= refs l rs p.
Proof. unfold refs. lia. Qed.

(** A referenced block is in the block list. *)
Lemma referenced g0 l rf g p :
  Sx g0 l rf g -> 0 < rf p ->
  p <> 0 /\ exists b, nl_get p (gs_ramblock_list g) = Some b /\ rb_ref_count b = rf p.
Proof.
  intros Hs Hp. pose proof (st_refs _ _ _ _ Hs p) as Hr.
  destruct (nl_get p (gs_ramblock_list g)) as [b|] eqn:Hg; [|lia].
  destruct (ram_inv_block _ _ _ (st_ram _ _ _ _ Hs) Hg) as (_ & ? & _). eauto.
Qed.

Lemma slot_referenced g0 l1 s l2 rs g :
  St g0 (l1 ++ s :: l2) rs g -> ms_block s <> 0 /\ 0 < refs (l1 ++ s :: l2) rs (ms_block s).
Proof.
  intros Hs. assert (0 < refs (l1 ++ s :: l2) rs (ms_block s)).
  { rewrite refs_slot, decide_True by done. pose proof (refs_nonneg (l1 ++ l2) rs (ms_block s)).
    lia. }
  split; [|done]. by eapply referenced.
Qed.

Lemma Sx_host g0 l rf g g' : host_step g g' -> Sx g0 l rf g -> Sx g0 l rf g'.
Proof.
  intros Hh [Hl Hr Hrf Hk Ha He]. pose proof (host_step_blocks _ _ Hh) as (Hb & Hm & Hn).
  split; [congruence|by eapply ram_inv_host| |done| |].
  - intros p. rewrite Hb. apply Hrf.
  - eapply Forall_impl; [exact Ha|]. cbn. lia.
  - eapply evo_trans; [exact He|]. destruct Hh as (h & a & Ha' & ->).
    split; try done. intros p b Hg. exists b. by split_and!.
Qed.

Lemma Sx_ext g0 l rf rf' g : Sx g0 l rf g -> (forall p, rf' p = rf p) -> Sx g0 l rf' g.
Proof.
  intros [? ? Hrf ? ? ?] Heq. split; try done. intros p. rewrite Heq. apply Hrf.
Qed.

(** The origin of the history can be moved. *)
Lemma Sx_rebase g0 l rf g : Sx g0 l rf g -> Sx g l rf g.
Proof. intros []. split; try done. apply evo_refl. Qed.

Lemma Sx_base g0 g l rf g' : evo g0 g -> Sx g l rf g' -> Sx g0 l rf g'.
Proof. intros He []. split; try done. by eapply evo_trans. Qed.

(** ** References *)
Lemma frame_evo p g g' b :
  ram_frame g g' -> others_same p g g' -> nl_get p (gs_ramblock_list g) = Some b ->
  (forall b', nl_get p (gs_ramblock_list g') = Some b' ->
     same_range b b' /\ rb_is_standalone b' = rb_is_standalone b /\ chunks_live b b') ->
  evo g g'.
Proof.
  intros (Hm & Hl & Hp & Ho & Hu & Hn) Hoth Hg Hb. split; try done.
  intros q b' Hq. destruct (decide (q = p)) as [->|Hne].
  - exists b. split; [done|]. by apply Hb.
  - rewrite Hoth in Hq by done. exists b'. by split_and!.
Qed.

(** A step that only changes block [p] and its number of references. *)
Lemma Sx_block_core g0 g1 l rf rf' g g' p :
  Sx g0 l rf g -> ram_inv g' -> ram_frame g g' -> others_same p g g' ->
  (forall q, q <> p -> rf' q = rf q) ->
  match nl_get p (gs_ramblock_list g') with
  | Some b' => rb_ref_count b' = rf' p
  | None => rf' p = 0
  end -> evo g1 g' -> Sx g1 l rf' g'.
Proof.
  intros [Hl Hr Hrf Hk Ha He] Hr' Hf Ho Hq Hb He'.
  pose proof Hf as (Hm & _ & _ & _ & _ & Hn).
  split; [congruence|done| |done| |done].
  - intros q. destruct (decide (q = p)) as [->|Hne]; [done|].
    rewrite Ho, Hq by done. apply Hrf.
  - eapply Forall_impl; [exact Ha|]. cbn. lia.
Qed.

Lemma Sx_block_step g0 l rf rf' g g' p b :
  Sx g0 l rf g -> ram_inv g' -> ram_frame g g' -> others_same p g g' ->
  nl_get p (gs_ramblock_list g) = Some b ->
  (forall q, q <> p -> rf' q = rf q) ->
  match nl_get p (gs_ramblock_list g') with
  | Some b' => same_range b b' /\ rb_is_standalone b' = rb_is_standalone b /\
               rb_ref_count b' = rf' p /\ chunks_live b b'
  | None => rf' p = 0
  end -> Sx g0 l rf' g'.
Proof.
  intros Hs Hr' Hf Ho Hg Hq Hb. eapply Sx_block_core; [exact Hs|done|done|done|done| |].
  - destruct (nl_get p (gs_ramblock_list g')); [by destruct Hb as (_ & _ & ? & _)|done].
  - eapply evo_trans; [apply (st_evo _ _ _ _ Hs)|]. eapply frame_evo; [done|done|done|].
    intros b' Hb'. rewrite Hb' in Hb. naive_solver.
Qed.

(** One more reference to [p]. *)
Definition plus1 (p : Z) (rf : Z -> Z) (q : Z) : Z :=
  (if decide (p = q) then 1 else 0) + rf q.

Lemma plus1_eq p rf : plus1 p rf p = 1 + rf p.
Proof. unfold plus1. by rewrite decide_True. Qed.

Lemma plus1_ne p rf q : q <> p -> plus1 p rf q = rf q.
Proof. intros. unfold plus1. by rewrite decide_False. Qed.

Lemma ref_rule_x g0 l rf g p :
  Sx g0 l rf g -> 0 < rf p ->
  exists g', ramblock_ref p g = Some (tt, g') /\ Sx g0 l (plus1 p rf) g'.
Proof.
  intros Hs Hp. destruct (referenced _ _ _ _ _ Hs Hp) as (Hp0 & b & Hg & Hc).
  destruct (ramblock_ref_run p b g (st_ram _ _ _ _ Hs) Hg)
    as (g' & Hrun & Hinv & Hf & Ho & Hg').
  exists g'. split; [done|].
  eapply Sx_block_step; [exact Hs|done|done|done|done|apply plus1_ne|].
  rewrite Hg'. cbn. rewrite plus1_eq. split_and!; try done; [lia|]. intros _. split; [lia|done].
Qed.

Lemma deref_rule_x g0 l rf g p :
  Sx g0 l (plus1 p rf) g -> 0 <= rf p ->
  exists g', ramblock_deref p g = Some (tt, g') /\ Sx g0 l rf g'.
Proof.
  intros Hs Hnn. pose proof (plus1_eq p rf) as Hcnt.
  destruct (referenced _ _ _ _ p Hs) as (Hp0 & b & Hg & Hc); [lia|].
  destruct (ramblock_deref_run p b g (st_ram _ _ _ _ Hs) Hg)
    as (g' & Hrun & Hinv & Hf & Ho & Hg'); [lia|].
  exists g'. split; [done|].
  eapply Sx_block_step; [exact Hs|done|done|done|done| |].
  { intros q Hq. by rewrite plus1_ne. }
  destruct (Z.eqb_spec (rb_ref_count b) 1) as [H1|H1]; cbn [andb] in Hg'.
  - destruct (rb_is_standalone b); [rewrite Hg'; lia|].
    destruct Hg' as (b' & -> & Hr & Hrc & Hsa & _). split_and!; try done; [lia|].
    unfold chunks_live. lia.
  - destruct Hg' as (b' & -> & Hr & Hrc & Hsa & _ & Hch). split_and!; try done; [lia|].
    intros _. split; [lia|by apply Hch].
Qed.

Lemma ref_rule g0 l rs g p :
  St g0 l rs g -> 0 < refs l rs p ->
  exists g', ramblock_ref p g = Some (tt, g') /\ St g0 l (p :: rs) g'.
Proof.
  intros Hs Hp. destruct (ref_rule_x _ _ _ _ _ Hs Hp) as (g' & ? & Hs').
  exists g'. split; [done|]. eapply Sx_ext; [exact Hs'|]. intros q. apply refs_cons.
Qed.

Lemma deref_rule g0 l rs g p :
  St g0 l (p :: rs) g ->
  exists g', ramblock_deref p g = Some (tt, g') /\ St g0 l rs g'.
Proof.
  intros Hs. apply deref_rule_x; [|apply refs_nonneg].
  eapply Sx_ext; [exact Hs|]. intros q. symmetry. apply refs_cons.
Qed.

(** ** The slot list *)
(** A slot that is not in the list and whose address is in use. *)
Definition fresh_slot s l g : Prop :=
  0 < ms_addr s < gs_next_addr g /\ ms_addr s ∉ nl_keys l.

Lemma keys_split l1 s l2 :
  NoDup (nl_keys (l1 ++ s :: l2)) ->
  ms_addr s ∉ nl_keys l1 /\ ms_addr s ∉ nl_keys l2.
Proof.
  unfold nl_keys. rewrite fmap_app. cbn. intros (_ & Hd & Hnd)%NoDup_app.
  apply NoDup_cons in Hnd as [? _]. split; [|done].
  intros Hin. apply (Hd _ Hin). set_solver.
Qed.

Lemma addr_ne g0 l1 s l2 rf g : Sx g0 (l1 ++ s :: l2) rf g -> ms_addr s <> HEAD.
Proof.
  intros Hs. pose proof (st_addrs _ _ _ _ Hs) as Ha.
  apply Forall_app in Ha as [_ Ha]. apply Forall_cons in Ha as [Ha _]. unfold HEAD. lia.
Qed.

(** Replaces the slot list. *)
Lemma Sx_list g0 l l' rf f g :
  Sx g0 l rf g -> f l = l' -> NoDup (nl_keys l') ->
  Forall (fun s => 0 < ms_addr s < gs_next_addr g) l' -> Sx g0 l' rf (with_memslots f g).
Proof.
  intros [Hl Hr Hrf Hk Ha He] Hf Hk' Ha'. split; cbn; [by rewrite Hl| | |done|done|].
  - destruct Hr. by split.
  - done.
  - eapply evo_trans; [exact He|]. split; try done. intros p b Hg. exists b. by split_and!.
Qed.

Lemma St_list g0 l l' rs rs' f g :
  St g0 l rs g -> f l = l' -> NoDup (nl_keys l') ->
  Forall (fun s => 0 < ms_addr s < gs_next_addr g) l' ->
  (forall p, refs l' rs' p = refs l rs p) -> St g0 l' rs' (with_memslots f g).
Proof.
  intros Hs Hf Hk Ha Hr. eapply Sx_ext; [by eapply Sx_list|done].
Qed.

Lemma get_slot_rule g0 l1 s l2 rf g :
  Sx g0 (l1 ++ s :: l2) rf g -> get_slot (ms_addr s) g = Some (s, g).
Proof.
  intros Hs. unfold get_slot. rewrite gets_run, (st_list _ _ _ _ Hs).
  destruct (keys_split _ _ _ (st_keys _ _ _ _ Hs)) as [H1 _].
  unfold of_option. by rewrite (nl_get_middle (H := memslot_keyed) l1 s l2 H1 :
    nl_get (ms_addr s) (l1 ++ s :: l2) = Some s).
Qed.

Lemma upd_rule_x g0 l1 s l2 rf g f :
  Sx g0 (l1 ++ s :: l2) rf g -> ms_addr (f s) = ms_addr s ->
  exists g', upd_slot (ms_addr s) f g = Some (tt, g') /\ Sx g0 (l1 ++ f s :: l2) rf g'.
Proof.
  intros Hs Hfa. eexists. split; [done|].
  destruct (keys_split _ _ _ (st_keys _ _ _ _ Hs)) as [H1 H2].
  eapply Sx_list; [exact Hs| | |].
  - by apply (nl_upd_middle (H := memslot_keyed)).
  - pose proof (st_keys _ _ _ _ Hs) as Hk. unfold nl_keys in *. rewrite fmap_app in *.
    cbn in *. unfold node_key, memslot_keyed in *. by rewrite Hfa.
  - pose proof (st_addrs _ _ _ _ Hs) as Ha. apply Forall_app in Ha as [? Ha].
    apply Forall_cons in Ha as [? ?]. apply Forall_app. split; [done|].
    constructor; [by rewrite Hfa|done].
Qed.

Lemma upd_rule g0 l1 s l2 rs g f :
  St g0 (l1 ++ s :: l2) rs g -> ms_addr (f s) = ms_addr s -> ms_block (f s) = ms_block s ->
  exists g', upd_slot (ms_addr s) f g = Some (tt, g') /\ St g0 (l1 ++ f s :: l2) rs g'.
Proof.
  intros Hs Hfa Hfb. destruct (upd_rule_x _ _ _ _ _ _ f Hs Hfa) as (g' & ? & ?).
  exists g'. split; [done|]. eapply Sx_ext; [done|]. intros p. by rewrite !refs_slot, Hfb.
Qed.

(** [memslot_move] gives up the reference of the old contents and takes one for
    the new. *)
Lemma move_rule g0 l1 x l2 rs g s :
  St g0 (l1 ++ x :: l2) rs g -> 0 < refs (l1 ++ l2) rs (ms_block s) ->
  exists g' x', memslot_move (ms_addr x) s g = Some (tt, g') /\ same_contents x' s /\
                St g0 (l1 ++ x' :: l2) rs g'.
Proof.
  intros Hs Hp. unfold memslot_move.
  rewrite (bind_run _ _ _ _ _ (get_slot_rule _ _ _ _ _ _ Hs)).
  destruct (deref_rule_x g0 (l1 ++ x :: l2) (refs (l1 ++ l2) rs) g (ms_block x))
    as (g1 & Hrun1 & Hs1); [|apply refs_nonneg|].
  { eapply Sx_ext; [exact Hs|]. intros q. symmetry. apply refs_slot. }
  rewrite (bind_run _ _ _ _ _ Hrun1).
  set (f := fun d => Memslot (ms_addr d) _ _ _ _ _).
  destruct (upd_rule_x _ _ _ _ _ _ f Hs1) as (g2 & Hrun2 & Hs2); [done|].
  rewrite (bind_run _ _ _ _ _ Hrun2).
  destruct (ref_rule_x _ _ _ _ _ Hs2 Hp) as (g3 & Hrun3 & Hs3).
  exists g3, (f x). split_and!; [done..|]. eapply Sx_ext; [exact Hs3|].
  intros q. apply refs_slot.
Qed.

Lemma insert_props l1 l2 s g :
  NoDup (nl_keys (l1 ++ l2)) -> Forall (fun s => 0 < ms_addr s < gs_next_addr g) (l1 ++ l2) ->
  fresh_slot s (l1 ++ l2) g ->
  NoDup (nl_keys (l1 ++ s :: l2)) /\
  Forall (fun s => 0 < ms_addr s < gs_next_addr g) (l1 ++ s :: l2).
Proof.
  intros Hk Ha [Hs1 Hs2]. split.
  - unfold nl_keys in *. rewrite fmap_app in *. cbn. rewrite <- Permutation_middle.
    by constructor.
  - apply Forall_app in Ha as [? ?]. apply Forall_app. split; [done|by constructor].
Qed.

(** Linking a fresh slot gives its pending reference to the list. *)
Lemma insert_rule g0 l1 l2 rs g s f :
  St g0 (l1 ++ l2) (ms_block s :: rs) g -> fresh_slot s (l1 ++ l2) g ->
  f (l1 ++ l2) = l1 ++ s :: l2 -> St g0 (l1 ++ s :: l2) rs (with_memslots f g).
Proof.
  intros Hs Hfr Hf.
  destruct (insert_props l1 l2 s g (st_keys _ _ _ _ Hs) (st_addrs _ _ _ _ Hs) Hfr) as [? ?].
  eapply St_list; [exact Hs|done|done|done|]. intros p. by rewrite refs_slot, refs_cons.
Qed.

Lemma insert_before_rule g0 l1 x l2 rs g s :
  St g0 (l1 ++ x :: l2) (ms_block s :: rs) g -> fresh_slot s (l1 ++ x :: l2) g ->
  exists g', memslot_insert_before s (ms_addr x) g = Some (tt, g') /\
             St g0 (l1 ++ s :: x :: l2) rs g'.
Proof.
  intros Hs Hfr. eexists. split; [done|]. apply insert_rule; [done|done|].
  destruct (keys_split _ _ _ (st_keys _ _ _ _ Hs)) as [H1 _].
  by apply (nl_insert_before_middle (H := memslot_keyed)).
Qed.

Lemma insert_tail_rule g0 l rs g s :
  St g0 l (ms_block s :: rs) g -> fresh_slot s l g ->
  exists g', memslot_insert_before s HEAD g = Some (tt, g') /\ St g0 (l ++ [s]) rs g'.
Proof.
  intros Hs Hfr. eexists. split; [done|].
  apply insert_rule; rewrite ?app_nil_r; [done|done|].
  apply (nl_insert_before_none (H := memslot_keyed)).
  intros (x & Hx & Hin)%list_elem_of_fmap. pose proof (st_addrs _ _ _ _ Hs) as Ha.
  rewrite Forall_forall in Ha. specialize (Ha x Hin). unfold HEAD in Hx.
  unfold node_key, memslot_keyed in Hx. lia.
Qed.

Lemma insert_after_rule g0 l1 x l2 rs g s :
  St g0 (l1 ++ x :: l2) (ms_block s :: rs) g -> fresh_slot s (l1 ++ x :: l2) g ->
  exists g', memslot_insert_after s (ms_addr x) g = Some (tt, g') /\
             St g0 (l1 ++ x :: s :: l2) rs g'.
Proof.
  intros Hs Hfr. eexists. split; [done|]. rewrite cons_middle, app_assoc in *.
  apply insert_rule; [done|done|]. rewrite <- app_assoc in Hs |- *. cbn.
  destruct (keys_split _ _ _ (st_keys _ _ _ _ Hs)) as [H1 _].
  rewrite (nl_insert_after_middle (H := memslot_keyed)); [by rewrite <- app_assoc|done|].
  by eapply addr_ne.
Qed.

Lemma delete_rule g0 l1 x l2 rs g :
  St g0 (l1 ++ x :: l2) rs g ->
  exists g', memslot_delete (ms_addr x) g = Some (tt, g') /\ St g0 (l1 ++ l2) rs g'.
Proof.
  intros Hs. unfold memslot_delete.
  rewrite (bind_run _ _ _ _ _ (get_slot_rule _ _ _ _ _ _ Hs)).
  erewrite bind_run by reflexivity.
  apply deref_rule. destruct (keys_split _ _ _ (st_keys _ _ _ _ Hs)) as [H1 H2].
  eapply St_list; [exact Hs| | | |].
  - by apply (nl_del_middle (H := memslot_keyed)).
  - pose proof (st_keys _ _ _ _ Hs) as Hk. unfold nl_keys in *. rewrite fmap_app in *.
    cbn in Hk. rewrite <- Permutation_middle in Hk. by apply NoDup_cons in Hk as [_ ?].
  - pose proof (st_addrs _ _ _ _ Hs) as Ha. apply Forall_app in Ha as [? Ha].
    apply Forall_cons in Ha as [? ?]. by apply Forall_app.
  - intros p. by rewrite refs_slot, refs_cons.
Qed.

(** ** Copies *)
(** The outcome of an operation that allocates: it may only fail when the host's
    allocator does. *)
Definition alloc_result {A} (r : option A) (fail : Prop) (ok : A -> Prop) : Prop :=
  match r with None => ~ alloc_ok /\ fail | Some a => ok a end.

Lemma vmalloc_rule g0 l rf g size :
  Sx g0 l rf g ->
  exists r g', hax_vmalloc size g = Some (r, g') /\ Sx g0 l rf g' /\
    alloc_result r True (fun a => gs_next_addr g <= a < gs_next_addr g' /\ 0 < a).
Proof.
  intros Hs. destruct (hax_vmalloc_run size g) as (r & g' & Hrun & Hh & Hr).
  exists r, g'. split_and!; [done|by eapply Sx_host|]. destruct Hr as [->|[-> Hlt]].
  - split; [|done]. intros Hok. specialize (Hok (u32 size) (gs_host g)).
    unfold hax_vmalloc, host_call, mbind, M_bind in Hrun. cbn in Hrun.
    destruct (host_vmalloc (u32 size) (gs_host g)) as [ok h]. cbn in Hok. by subst ok.
  - cbn. pose proof (ri_next _ (st_ram _ _ _ _ Hs)). lia.
Qed.

Lemma fresh_addr g0 l rf g a :
  Sx g0 l rf g -> gs_next_addr g <= a -> a ∉ nl_keys l.
Proof.
  intros Hs Ha (x & Hx & Hin)%list_elem_of_fmap. pose proof (st_addrs _ _ _ _ Hs) as Hf.
  rewrite Forall_forall in Hf. specialize (Hf x Hin).
  unfold node_key, memslot_keyed in Hx. lia.
Qed.

Lemma init_rule g0 l rs g a d :
  St g0 l rs g -> 0 < refs l rs (ms_block d) ->
  exists s g', memslot_init a d g = Some (s, g') /\ same_contents s d /\ ms_addr s = a /\
               St g0 l (ms_block s :: rs) g' /\ gs_next_addr g' = gs_next_addr g.
Proof.
  intros Hs Hp. unfold memslot_init.
  destruct (referenced _ _ _ _ _ Hs Hp) as (Hp0 & b & Hg & Hc).
  destruct (ref_rule _ _ _ _ _ Hs Hp) as (g1 & Hrun & Hs1).
  rewrite (bind_run _ _ _ _ _ Hrun). eexists _, g1. split_and!; try done.
  unfold ramblock_ref in Hrun. rewrite (proj2 (Z.eqb_neq _ _)) in Hrun by done.
  rewrite (bind_run _ _ _ _ _ (get_block_run _ _ _ Hg)) in Hrun. by inversion Hrun.
Qed.

(** A copy is a fresh slot with the same contents and its own reference. *)
Definition copied g0 l rs d g (g' : st) s : Prop :=
  same_contents s d /\ fresh_slot s l g' /\ gs_next_addr g <= ms_addr s /\
  St g0 l (ms_block s :: rs) g'.

Lemma alloc_init_rule g0 l rs g d :
  St g0 l rs g -> 0 < refs l rs (ms_block d) ->
  exists r g', (a ← hax_vmalloc sizeof_hax_memslot;
                match a with
                | None => mret None
                | Some addr => s ← memslot_init addr d; mret (Some s)
                end) g = Some (r, g') /\
    alloc_result r (St g0 l rs g') (copied g0 l rs d g g').
Proof.
  intros Hs Hp. destruct (vmalloc_rule _ _ _ _ sizeof_hax_memslot Hs) as (r & g1 & Hrun & Hs1 & Hr).
  rewrite (bind_run _ _ _ _ _ Hrun). destruct r as [a|]; cbn in Hr.
  - destruct (init_rule _ _ _ _ a d Hs1 Hp) as (s & g2 & Hrun2 & Hc & Ha & Hs2 & Hn).
    rewrite (bind_run _ _ _ _ _ Hrun2). eexists _, g2. split; [done|]. cbn.
    destruct Hr. split_and!; [done|split; [lia|]|lia|done].
    rewrite Ha. eapply fresh_addr; [exact Hs|]. lia.
  - exists None, g1. split; [done|]. split; [apply Hr|done].
Qed.

Lemma dup_rule g0 l rs g d :
  St g0 l rs g -> 0 < refs l rs (ms_block d) ->
  exists r g', memslot_dup d g = Some (r, g') /\
    alloc_result r (St g0 l rs g') (copied g0 l rs d g g').
Proof. apply alloc_init_rule. Qed.

(** The part of [src] after [dest], as [memslot_append_rest] computes it. *)
Definition rest_of (dest src : hax_memslot) : hax_memslot :=
  Memslot 0 (ms_base_gfn (memslot_overlap_front dest src))
    (ms_npages (memslot_overlap_front dest src)) (ms_block src)
    (ms_offset_within_block (memslot_overlap_front dest src)) (ms_flags src).

Lemma append_rest_rule g0 l rs g d x :
  St g0 l rs g -> 0 < refs l rs (ms_block x) ->
  exists r g', memslot_append_rest d x g = Some (r, g') /\
    alloc_result r (St g0 l rs g') (copied g0 l rs (rest_of d x) g g').
Proof. intros Hs Hp. by apply (alloc_init_rule g0 l rs g (rest_of d x)). Qed.

(** ** The snapshot *)
Notation blocks_of snap := (ms_block <$> (snap : list hax_memslot)).

(** The addresses of the copies are distinct. *)
Definition snap_ok (snap : list hax_memslot) g : Prop :=
  NoDup (nl_keys snap) /\ Forall (fun s => ms_addr s < gs_next_addr g) snap.

Lemma St_perm g0 l rs rs' g : St g0 l rs g -> rs ≡ₚ rs' -> St g0 l rs' g.
Proof.
  intros Hs Hp. eapply Sx_ext; [exact Hs|]. intros q. unfold refs. f_equal.
  symmetry. apply Permutation_count_occ. by rewrite Hp.
Qed.

Lemma enqueue_rule g0 l rs g snap d :
  St g0 l (blocks_of snap ++ rs) g -> snap_ok snap g ->
  0 < refs l (blocks_of snap ++ rs) (ms_block d) ->
  exists r g', memslot_list_enqueue snap d g = Some (r, g') /\ snap_ok r.2 g' /\
    St g0 l (blocks_of r.2 ++ rs) g' /\
    ((r.1 = - ENOMEM /\ ~ alloc_ok) \/
     (r.1 = 0 /\ exists s, same_contents s d /\ r.2 = snap ++ [s])).
Proof.
  intros Hs [Hk Ha] Hp. unfold memslot_list_enqueue.
  destruct (dup_rule _ _ _ _ _ Hs Hp) as (r & g1 & Hrun & Hr).
  rewrite (bind_run _ _ _ _ _ Hrun). pose proof (ev_next _ _ (st_evo _ _ _ _ Hs)).
  destruct r as [s|]; cbn in Hr.
  - destruct Hr as (Hc & [Hfr _] & Hn & Hs1). eexists _, g1. split; [done|]. cbn.
    split_and!; [| |right; split; [done|by exists s]].
    + split.
      * unfold nl_keys in *. rewrite fmap_app. cbn. apply NoDup_app. split_and!; [done| |].
        -- intros a Hin Hin2. apply list_elem_of_singleton in Hin2 as ->.
           apply list_elem_of_fmap in Hin as (y & Hy & Hyin). rewrite Forall_forall in Ha.
           specialize (Ha y Hyin). unfold node_key, memslot_keyed in Hy. lia.
        -- apply NoDup_singleton.
      * apply Forall_app. split; [eapply Forall_impl; [exact Ha|cbn; lia]|].
        constructor; [lia|constructor].
    + eapply St_perm; [exact Hs1|]. rewrite fmap_app, <- app_assoc. cbn.
      apply Permutation_middle.
  - destruct Hr as [Hna Hs1]. eexists _, g1. split; [done|]. cbn.
    split_and!; [|done|by left]. split; [done|].
    destruct (hax_vmalloc_run sizeof_hax_memslot g) as (r & g2 & Hv & Hh & Hr).
    unfold memslot_dup in Hrun. rewrite (bind_run _ _ _ _ _ Hv) in Hrun.
    destruct (host_step_blocks _ _ Hh) as (_ & _ & Hle).
    destruct r as [a|]; [|inversion Hrun; subst; eapply Forall_impl; [exact Ha|cbn; lia]].
    unfold mbind, M_bind in Hrun. by destruct (memslot_init a d g2) as [[? ?]|].
Qed.

Lemma list_clear_rule g0 l snap rs g :
  St g0 l (blocks_of snap ++ rs) g ->
  exists g', memslot_list_clear snap g = Some (tt, g') /\ St g0 l rs g'.
Proof.
  revert g. induction snap as [|s snap IH]; intros g Hs; [by exists g|].
  cbn. destruct (deref_rule _ _ _ _ _ Hs) as (g1 & Hrun & Hs1).
  rewrite (bind_run _ _ _ _ _ Hrun). by apply IH.
Qed.

(** ** Moving along the list *)
Lemma next_rule g0 l1 x l2 rf g :
  Sx g0 (l1 ++ x :: l2) rf g -> slot_next (ms_addr x) g = Some (nl_first l2, g).
Proof.
  intros Hs. unfold slot_next. rewrite gets_run, (st_list _ _ _ _ Hs).
  rewrite (proj2 (Z.eqb_neq _ _)) by (by eapply addr_ne).
  rewrite (bind_run _ _ _ _ _ (get_slot_rule _ _ _ _ _ _ Hs)).
  destruct (keys_split _ _ _ (st_keys _ _ _ _ Hs)) as [H1 _].
  by rewrite (nl_next_middle (H := memslot_keyed) l1 x l2 H1 (addr_ne _ _ _ _ _ _ Hs) :
    nl_next (ms_addr x) (l1 ++ x :: l2) = nl_first l2).
Qed.
End Own.

#[global] Notation blocks_of snap := (ms_block <$> (snap : list hax_memslot)).
