(* ===== verification/MemslotPhase.v ===== *)
(** * The phases of memslot_set_mapping

    The loop of [memslot_set_mapping] cuts the slot list into a prefix that has
    been processed and a suffix that has not.  This file states what the processed
    prefix looks like in each phase, and proves for each operation on the current
    slot ([memslot_process_start_*], [memslot_process_end_*], deletion of an inner
    slot) that it moves to the next phase or finishes the mapping. *)

From stdpp Require Import base numbers list gmap.
From Stdlib Require Import ZArith Lia Sorted.
From S2P Require Import Prelude HaxList Bitmap MemTypes Ramblock Memslot MemslotSpec.
From S2P Require Import MemslotOwn.
#[local] Open Scope Z_scope.

#[global] Instance line_eq_dec : EqDecision line.
Proof. solve_decision. Defined.

Section Pure.
Context {HH : Host}.
Implicit Types (s x : hax_memslot) (l O P R A B : list hax_memslot).

Lemma lookup_cut A B c gfn :
  all_before c A -> all_after c B ->
  slot_lookup (A ++ B) gfn = if gfn <? c then slot_lookup A gfn else slot_lookup B gfn.
Proof.
  intros HA HB. rewrite slot_lookup_app. destruct (Z.ltb_spec gfn c).
  - rewrite (slot_lookup_below B c gfn HB) by done. by destruct (slot_lookup A gfn).
  - by rewrite (slot_lookup_above A c gfn HA).
Qed.

(** The mapping being set: [dest], and whether it maps or unmaps. *)
Context (d : hax_memslot) (is_valid : bool).
Context (Hd : range_wf d).
Notation db := (ms_base_gfn d).
Notation de := (s_end d).

(** The first slot that ends at or after the start of the range. *)
Fixpoint first_touched l : option hax_memslot :=
  match l with
  | [] => None
  | s :: rest => if db <=? s_end s then Some s else first_touched rest
  end.

(** A new mapping lies entirely over the first slot it touches, and maps it
    elsewhere. *)
Definition covers_first l : bool :=
  match first_touched l with
  | Some x => (negb (memslot_is_same_type d x) && (db <=? ms_base_gfn x) &&
               (s_end x <=? de))%bool
  | None => false
  end.

(** The line that the range then gets: that of the first slot, grown over the range. *)
Definition grown_line x : line :=
  Line (ms_block x)
    (Z.min (ms_offset_within_block x) (ms_offset_within_block d) - db * 4096)
    (ms_flags d &! HAX_MEMSLOT_READONLY).

Definition lost_to l (ln : line) : Prop :=
  covers_first l = true /\ exists x, first_touched l = Some x /\ ln = grown_line x.

(** The backing of the frames of the range afterwards. *)
Definition target_ok O (t : option line) : Prop :=
  if is_valid then exists ln, t = Some ln /\ (ln = slot_line d \/ lost_to O ln)
  else t = None.

Definition upd (t : option line) O (gfn : Z) : option line :=
  if covers d gfn then t else slot_lookup O gfn.

Definition final_ok O l : Prop :=
  slots_wf l /\ exists t, target_ok O t /\ forall gfn, slot_lookup l gfn = upd t O gfn.

Lemma finish O A B c t :
  slots_wf A -> slots_wf B -> all_before c A -> all_after c B -> target_ok O t ->
  (forall gfn, gfn < c -> slot_lookup A gfn = upd t O gfn) ->
  (forall gfn, c <= gfn -> slot_lookup B gfn = upd t O gfn) ->
  final_ok O (A ++ B).
Proof.
  intros HA HB Hca Hcb Ht H1 H2. split; [by eapply slots_wf_app_at|]. exists t.
  split; [done|]. intros gfn. rewrite (lookup_cut A B c) by done.
  destruct (Z.ltb_spec gfn c); auto.
Qed.

Lemma target_valid O : is_valid = true -> target_ok O (Some (slot_line d)).
Proof. intros Hv. unfold target_ok. rewrite Hv. eauto. Qed.

Lemma target_invalid O : is_valid = false -> target_ok O None.
Proof. intros Hv. unfold target_ok. by rewrite Hv. Qed.

(** The slots of a well-formed list around [x]. *)
Lemma around P x R :
  slots_wf (P ++ x :: R) ->
  slots_wf P /\ range_wf x /\ slots_wf R /\ all_before (ms_base_gfn x) P /\
  all_after (s_end x) R /\ ms_base_gfn x < s_end x.
Proof.
  intros Hw. pose proof (sorted_before _ _ _ Hw). apply slots_wf_app in Hw as (? & Hw & _).
  pose proof (sorted_after _ _ Hw). apply slots_wf_cons in Hw as (Hx & ? & _).
  split_and!; try done. destruct Hx. unfold s_end. lia.
Qed.

Lemma dest_bounds : 0 <= db < de /\ de <= GFN_MAX.
Proof. destruct Hd. unfold s_end in *. lia. Qed.

(** [first_touched] finds the slot after those that end before the range. *)
Lemma first_touched_app A x R :
  Forall (fun s => s_end s < db) A -> db <= s_end x -> first_touched (A ++ x :: R) = Some x.
Proof.
  intros HA Hx. induction HA as [|s A Hs HA IH]; cbn.
  - by rewrite (proj2 (Z.leb_le _ _)).
  - by rewrite (proj2 (Z.leb_gt _ _)).
Qed.

(** ** The processed prefix *)
(** Nothing of the range is in the prefix: the mapping is still to be inserted,
    or is an unmapping. *)
Definition cleared Oa P : Prop :=
  all_before db P /\
  forall gfn, slot_lookup P gfn = if gfn <? db then slot_lookup Oa gfn else None.

(** The last slot of the prefix ends the range and covers it. *)
Definition placed O Oa P x' : Prop :=
  (exists P0, P = P0 ++ [x']) /\ s_end x' = de /\ ms_base_gfn x' <= db /\
  (slot_line x' = slot_line d \/ (ms_base_gfn x' = db /\ lost_to O (slot_line x'))) /\
  forall gfn, slot_lookup P gfn = upd (Some (slot_line x')) Oa gfn.

Definition phase O Oa P (state : Z) : Prop :=
  slots_wf P /\
  ((is_valid = false /\ state = 1 /\ cleared Oa P) \/
   (is_valid = true /\ state = 3 /\ cleared Oa P /\
    exists P0 x', P = P0 ++ [x'] /\ slot_line x' <> slot_line d) \/
   (is_valid = true /\ state = 1 /\ exists x', placed O Oa P x')).

(** Deleting a slot that lies in the range keeps the phase. *)
Lemma phase_inner O Oa P state x :
  phase O Oa P state -> db <= ms_base_gfn x -> s_end x <= de -> phase O (Oa ++ [x]) P state.
Proof.
  intros [Hw Hp] Hb He. split; [done|].
  assert (Hlk : forall gfn, covers d gfn = false ->
    slot_lookup (Oa ++ [x]) gfn = slot_lookup Oa gfn).
  { intros gfn Hc. rewrite slot_lookup_app. cbn. unfold covers in *.
    destruct (slot_lookup Oa gfn); [done|]. bool_cases; cbn in *; try done; lia. }
  assert (Hcl : cleared Oa P -> cleared (Oa ++ [x]) P).
  { intros [? Hl]. split; [done|]. intros gfn. rewrite Hl.
    destruct (Z.ltb_spec gfn db); [|done]. rewrite Hlk; [done|]. unfold covers.
    bool_cases; [lia|done|done|done]. }
  destruct Hp as [(? & ? & Hc)|[(? & ? & Hc & ?)|(? & ? & x' & ? & ? & ? & ? & Hl)]].
  - left. auto.
  - right. left. auto.
  - right. right. split_and!; [done|done|]. exists x'. split_and!; try done.
    intros gfn. rewrite Hl. unfold upd. destruct (covers d gfn) eqn:Hc; [done|].
    by rewrite Hlk.
Qed.
End Pure.

#[global] Hint Resolve slots_wf_nil : haxm.

(** Decides a lookup in a list of slots with known bounds. *)
Ltac lk_rewrite :=
  repeat match goal with
  | H : Forall (fun s => s_end s <= ?b) ?l |- context [slot_lookup ?l ?gfn] =>
      rewrite (slot_lookup_above l b gfn H) by lia
  | H : Forall (fun s => ?b <= ms_base_gfn s) ?l |- context [slot_lookup ?l ?gfn] =>
      rewrite (slot_lookup_below l b gfn H) by lia
  end.
Ltac lk_cases :=
  repeat (match goal with
          | |- context [?a <? ?b] => destruct (Z.ltb_spec a b)
          | |- context [?a <=? ?b] => destruct (Z.leb_spec a b)
          end; try (exfalso; lia)).
(** The bounds and the line of a part are rewritten where they occur. *)
Ltac parts :=
  repeat match goal with
  | H : is_part _ _ _ _ |- _ =>
      let Hb := fresh "Hb" in let He := fresh "He" in let Hl := fresh "Hl" in
      let Hk := fresh "Hk" in let Hw := fresh "Hw" in
      destruct H as (Hw & Hb & He & Hl & Hk)
  end.
Ltac lk :=
  intros; unfold upd, covers; cbn [slot_lookup app]; unfold covers;
  repeat match goal with
  | H : ms_base_gfn _ = _ |- _ => progress rewrite ?H
  | H : s_end _ = _ |- _ => progress rewrite ?H
  | H : slot_line _ = _ |- _ => progress rewrite ?H
  end;
  rewrite ?slot_lookup_app; cbn [slot_lookup]; unfold covers;
  lk_cases; cbn [andb]; lk_rewrite; try done.

Section Copies.
Context {HH : Host}.
Implicit Types (s d x : hax_memslot).

Lemma copy_part s d : same_contents s d -> range_wf d -> is_part d (ms_base_gfn d) (s_end d) s.
Proof.
  intros Hc Hd. destruct (same_contents_end _ _ Hc). split_and!; try done.
  - by eapply same_contents_range.
  - by apply same_contents_line.
  - apply Hc.
Qed.

Lemma overlap_front_copy s d x :
  same_contents s d -> memslot_overlap_front s x = memslot_overlap_front d x.
Proof. intros (Hb & Hn & _). unfold memslot_overlap_front. by rewrite Hb, Hn. Qed.

Lemma overlap_rear_copy s d x :
  same_contents s d -> memslot_overlap_rear s x = memslot_overlap_rear d x.
Proof. intros (Hb & Hn & _). unfold memslot_overlap_rear. by rewrite Hb. Qed.

Lemma rest_part s r d x :
  same_contents s d -> same_contents r (rest_of s x) -> range_wf d -> range_wf x ->
  ms_base_gfn x <= s_end d < s_end x -> is_part x (s_end d) (s_end x) r.
Proof.
  intros Hs Hr Hd Hx Hb. pose proof (memslot_overlap_front_spec d x Hd Hx Hb) as Hp.
  rewrite <- (overlap_front_copy _ _ _ Hs) in Hp.
  destruct Hp as (Hw & Hpb & Hpe & Hl & Hk).
  assert (Hc : same_contents r (memslot_overlap_front s x)).
  { destruct Hr as (? & ? & ? & ? & ?). split_and!; done. }
  destruct (same_contents_end _ _ Hc). split_and!.
  - by eapply same_contents_range.
  - congruence.
  - congruence.
  - rewrite <- Hl. by apply same_contents_line.
  - apply Hc.
Qed.
End Copies.

(** Well-formedness of a concrete arrangement of slots. *)
Ltac wf :=
  parts; cbn [app];
  repeat first
    [ done
    | apply slots_wf_cons_at; [assumption| |]
    | apply Forall_cons; split; [lia|]
    | apply Forall_nil; exact I
    | match goal with
      | |- slots_wf [] => apply slots_wf_nil
      | H : Forall (fun s => ?b <= ms_base_gfn s) ?l |-
          Forall (fun s => ?b' <= ms_base_gfn s) ?l =>
          apply (all_after_weaken b b' l H); lia
      | H : Forall (fun s => s_end s <= ?b) ?l |- Forall (fun s => s_end s <= ?b') ?l =>
          apply (all_before_weaken b b' l H); lia
      end ].

Section Start.
Context {HH : Host} {E : Type}.
Notation st := (hax_gpa_space E).
Implicit Types (g : st).

Context (g0 : st) (d : hax_memslot) (is_valid : bool) (rs : list Z).
Context (Hd : range_wf d).
Context (Hblk : is_valid = true -> ms_block d ∈ rs).
Notation db := (ms_base_gfn d).
Notation de := (s_end d).

Lemma refs_in l p : p ∈ rs -> 0 < refs l rs p.
Proof.
  intros Hp. rewrite refs_app. apply list_elem_of_In in Hp.
  apply (count_occ_In Z.eq_dec) in Hp. lia.
Qed.

(** ** The first slot that is touched *)
Context (O Oa R : list hax_memslot) (x : hax_memslot).
Context (HO : O = Oa ++ x :: R) (HwO : slots_wf O).
Context (Hskip : Forall (fun s => s_end s < db) Oa) (Hx : db <= s_end x).

Definition start_post (r : Z * Z) (g' : st) : Prop :=
  (r.1 = - ENOMEM /\ ~ alloc_ok /\ exists l, St g0 l rs g') \/
  (r.1 = 0 /\ s_end x <= de /\
   exists P, St g0 (P ++ R) rs g' /\ phase d is_valid O (Oa ++ [x]) P r.2) \/
  (r.1 = 0 /\ de < s_end x /\ r.2 = 0 /\
   exists l, St g0 l rs g' /\ final_ok d is_valid O l).

(** The value of [state] when the first slot is processed. *)
Notation state0 := (if s_end x <=? de then 1 else 0).

Lemma skip_before b : db <= b -> all_before b Oa.
Proof. intros Hb. eapply Forall_impl; [exact Hskip|]. cbn. lia. Qed.

(** A finished arrangement: [mid] replaces [x]. *)
Lemma start_final mid t c :
  slots_wf (mid ++ R) -> all_before c Oa -> all_after c (mid ++ R) ->
  c <= ms_base_gfn x -> c <= db -> target_ok d is_valid O t ->
  (forall gfn, c <= gfn -> slot_lookup (mid ++ R) gfn = upd d t (x :: R) gfn) ->
  final_ok d is_valid O (Oa ++ mid ++ R).
Proof.
  intros Hw Hb Ha Hc Hcd Ht Hl. rewrite HO in HwO.
  destruct (around _ _ _ HwO) as (? & ? & ? & ? & ? & ?).
  assert (Hca : all_after c (x :: R)) by (constructor; [lia|]; eapply all_after_weaken; [done|lia]).
  apply (finish d is_valid O Oa (mid ++ R) c t); try done.
  - intros gfn Hg. unfold upd. rewrite HO, (lookup_cut Oa (x :: R) c) by done.
    rewrite (proj2 (Z.ltb_lt _ _)) by done. unfold covers.
    by rewrite (proj2 (Z.leb_gt _ _)) by lia.
  - intros gfn Hg. rewrite Hl by done. unfold upd.
    rewrite HO, (lookup_cut Oa (x :: R) c) by done.
    by rewrite (proj2 (Z.ltb_ge gfn c)) by lia.
Qed.

Ltac around_x :=
  let H := fresh in pose proof HwO as H; rewrite HO in H;
  destruct (around _ _ _ H) as (HwOa & Hrx & HwR & HbOa & HaR & Hlt); clear H;
  pose proof (dest_bounds d Hd) as [Hdb Hde].

(** The three ways in which processing the first slot ends. *)
Lemma start_fail state l g' : ~ alloc_ok -> St g0 l rs g' -> start_post (- ENOMEM, state) g'.
Proof. left. eauto. Qed.

Lemma start_done mid t c g' :
  St g0 (Oa ++ mid ++ R) rs g' -> de < s_end x ->
  slots_wf (mid ++ R) -> all_before c Oa -> all_after c (mid ++ R) ->
  c <= ms_base_gfn x -> c <= db -> target_ok d is_valid O t ->
  (forall gfn, c <= gfn -> slot_lookup (mid ++ R) gfn = upd d t (x :: R) gfn) ->
  start_post (0, state0) g'.
Proof.
  intros Hs He Hw Hb Ha Hcx Hcd Ht Hl. right. right. cbn.
  rewrite (proj2 (Z.leb_gt _ _)) by lia. split_and!; [done|done|done|].
  eexists. split; [exact Hs|]. by apply (start_final mid t c).
Qed.

Lemma start_continue P state g' :
  St g0 (P ++ R) rs g' -> s_end x <= de -> phase d is_valid O (Oa ++ [x]) P state ->
  start_post (0, state) g'.
Proof. intros. right. left. eauto. Qed.

(** [x] is cut at the start of the range, or ends there. *)
Lemma cleared_rear x' :
  is_part x (ms_base_gfn x) db x' -> ms_base_gfn x < db -> s_end x <= de ->
  slots_wf (Oa ++ [x']) /\ cleared d (Oa ++ [x]) (Oa ++ [x']).
Proof.
  intros Hp Hlt' He. around_x. parts.
  assert (Hw2 : slots_wf (Oa ++ [x'])) by (eapply slots_wf_app_at; [done|by wf|done|by wf]).
  split; [done|]. split.
  - apply Forall_app. split; [by apply skip_before|]. by wf.
  - intros gfn. rewrite (lookup_cut Oa [x'] (ms_base_gfn x)) by (done || by wf).
    rewrite (lookup_cut Oa [x] (ms_base_gfn x)) by (done || by wf). lk.
Qed.

Lemma cleared_drop :
  db <= ms_base_gfn x -> s_end x <= de -> cleared d (Oa ++ [x]) Oa.
Proof.
  intros Hb He. around_x. split; [by apply skip_before|]. intros gfn.
  rewrite (lookup_cut Oa [x] (ms_base_gfn x)) by (done || by wf).
  pose proof (skip_before db ltac:(lia)). lk.
Qed.

(** [x] grows to the end of the range. *)
Lemma placed_intro x' :
  range_wf x' -> ms_base_gfn x' = Z.min (ms_base_gfn x) db -> s_end x' = de ->
  s_end x <= de ->
  (slot_line x' = slot_line d /\ slot_line x = slot_line d) \/
  (ms_base_gfn x' = db /\ lost_to d O (slot_line x')) ->
  slots_wf (Oa ++ [x']) /\ placed d O (Oa ++ [x]) (Oa ++ [x']) x'.
Proof.
  intros Hw Hb He Hxe Hl. around_x.
  assert (Hbo : all_before (ms_base_gfn x') Oa).
  { rewrite Hb. destruct (Z.min_spec (ms_base_gfn x) db) as [[? ->]|[? ->]];
      [done|by apply skip_before]. }
  split; [eapply slots_wf_app_at; [done|by wf|exact Hbo|by wf]|].
  split_and!; [eauto|done|lia|destruct Hl as [[? ?]|?]; auto|].
  intros gfn. unfold upd.
  rewrite (lookup_cut Oa [x'] (ms_base_gfn x')) by (done || by wf).
  rewrite (lookup_cut Oa [x] (ms_base_gfn x')) by (done || by wf).
  destruct Hl as [[Hl1 Hl2]|[Hb1 _]]; rewrite ?Hl1, ?Hb1; cbn; unfold covers;
    rewrite ?Hl2; lk_cases; cbn [andb]; lk_rewrite; congruence || done.
Qed.

(** ** Figure 1: a mapping of a different type *)
Lemma diff_before g (f : hax_memslot -> option (hax_memslot -> hax_memslot)) x' :
  is_valid = true -> St g0 O rs g -> db <= ms_base_gfn x -> de < s_end x ->
  (forall s, same_contents s d ->
     match f s with Some h => h x = x' | None => x' = x end) ->
  ms_addr x' = ms_addr x -> is_part x (Z.max (ms_base_gfn x) de) (s_end x) x' ->
  exists r g',
    (c ← memslot_dup d;
     match c with
     | None => mret (- ENOMEM, state0)
     | Some s =>
         memslot_insert_before s (ms_addr x);;
         match f s with
         | Some h => upd_slot (ms_addr x) h;; mret (0, state0)
         | None => mret (0, state0)
         end
     end) g = Some (r, g') /\ start_post r g'.
Proof.
  intros Hv Hs Hb He Hf Ha Hp. around_x. rewrite HO in Hs.
  destruct (dup_rule g0 _ rs g d Hs) as (r & g1 & Hrun1 & Hr1); [by apply refs_in, Hblk|].
  rewrite (bind_run _ _ _ _ _ Hrun1). destruct r as [s|]; cbn in Hr1.
  2: { destruct Hr1. eexists _, g1. split; [done|]. by eapply start_fail. }
  destruct Hr1 as (Hc & Hfr & _ & Hs1). pose proof (copy_part _ _ Hc Hd) as Hps.
  destruct (insert_before_rule _ _ _ _ _ _ _ Hs1 Hfr) as (g2 & Hrun2 & Hs2).
  rewrite (bind_run _ _ _ _ _ Hrun2). specialize (Hf s Hc).
  assert (Hdone : forall g3, St g0 (Oa ++ [s; x'] ++ R) rs g3 -> start_post (0, state0) g3).
  { intros g3 Hs3. apply (start_done [s; x'] (Some (slot_line d)) db g3); try done;
      [by wf|by apply skip_before|by wf|by apply target_valid|]. parts. lk. }
  destruct (f s) as [h|].
  - destruct (upd_rule g0 (Oa ++ [s]) x R rs g2 h) as (g3 & Hrun3 & Hs3);
      [by rewrite <- app_assoc|by rewrite Hf|rewrite Hf; apply Hp|].
    rewrite (bind_run _ _ _ _ _ Hrun3). eexists _, g3. split; [done|]. apply Hdone.
    rewrite Hf, <- app_assoc in Hs3. done.
  - subst x'. eexists _, g2. split; [done|]. by apply Hdone.
Qed.

(** The mapping lies inside [x]: [x] is cut in two around it. *)
Lemma diff_inside g :
  is_valid = true -> St g0 O rs g -> ms_base_gfn x < db -> de < s_end x ->
  exists r g',
    (c ← memslot_dup d;
     match c with
     | None => mret (- ENOMEM, state0)
     | Some s =>
         memslot_insert_after s (ms_addr x);;
         rest ← memslot_append_rest s x;
         match rest with
         | None => mret (- ENOMEM, state0)
         | Some rest =>
             memslot_insert_after rest (ms_addr s);;
             upd_slot (ms_addr x) (memslot_overlap_rear s);;
             mret (0, state0)
         end
     end) g = Some (r, g') /\ start_post r g'.
Proof.
  intros Hv Hs Hb He. around_x. rewrite HO in Hs.
  destruct (dup_rule g0 _ rs g d Hs) as (r & g1 & Hrun1 & Hr1); [by apply refs_in, Hblk|].
  rewrite (bind_run _ _ _ _ _ Hrun1). destruct r as [s|]; cbn in Hr1.
  2: { destruct Hr1. eexists _, g1. split; [done|]. by eapply start_fail. }
  destruct Hr1 as (Hc & Hfr & _ & Hs1). pose proof (copy_part _ _ Hc Hd) as Hps.
  destruct (insert_after_rule _ _ _ _ _ _ _ Hs1 Hfr) as (g2 & Hrun2 & Hs2).
  rewrite (bind_run _ _ _ _ _ Hrun2).
  destruct (append_rest_rule _ _ _ _ s x Hs2) as (r & g3 & Hrun3 & Hr3);
    [by eapply slot_referenced|].
  rewrite (bind_run _ _ _ _ _ Hrun3). destruct r as [rest|]; cbn in Hr3.
  2: { destruct Hr3. eexists _, g3. split; [done|]. by eapply start_fail. }
  destruct Hr3 as (Hc3 & Hfr3 & _ & Hs3).
  assert (Hpr : is_part x de (s_end x) rest) by (eapply rest_part; [done|done|done|done|lia]).
  destruct (insert_after_rule g0 (Oa ++ [x]) s R rs g3 rest) as (g4 & Hrun4 & Hs4);
    [by rewrite <- app_assoc|by rewrite <- app_assoc|].
  rewrite (bind_run _ _ _ _ _ Hrun4). rewrite <- app_assoc in Hs4.
  destruct (upd_rule g0 Oa x (s :: rest :: R) rs g4 (memslot_overlap_rear s))
    as (g5 & Hrun5 & Hs5); [done|done|done|].
  rewrite (bind_run _ _ _ _ _ Hrun5). eexists _, g5. split; [done|].
  rewrite (overlap_rear_copy _ _ _ Hc) in Hs5.
  pose proof (memslot_overlap_rear_spec d x Hd Hrx ltac:(lia)) as Hpx.
  apply (start_done [memslot_overlap_rear d x; s; rest] (Some (slot_line d)) (ms_base_gfn x));
    try done; [by wf|by wf|lia|by apply target_valid|]. parts. lk.
Qed.

Lemma covers_first_intro :
  memslot_is_same_type d x = false -> db <= ms_base_gfn x -> s_end x <= de ->
  covers_first d O = true.
Proof.
  intros Ht Hb He. unfold covers_first. rewrite HO, first_touched_app by done.
  by rewrite Ht, !(proj2 (Z.leb_le _ _)).
Qed.

(** Growing [x] over a mapping it lies in gives the range of the mapping. *)
Lemma union_range y :
  range_wf y -> db <= ms_base_gfn y -> s_end y <= de ->
  range_wf (memslot_union d y) /\ ms_base_gfn (memslot_union d y) = db /\
  s_end (memslot_union d y) = de.
Proof.
  intros Hy Hb He. destruct (range_bounds d Hd) as (? & ? & ? & ? & ?).
  destruct (range_bounds y Hy) as (? & ? & ? & ? & ?).
  unfold memslot_union. rewrite !slot_end_val by done. unfold s_end in *. cbn.
  rewrite u64_small by lia. split; [|lia].
  split; unfold s_end, GFN_MAX, OFF_MAX; cbn; lia.
Qed.

Lemma start_diff_type g :
  is_valid = true -> memslot_is_same_type d x = false -> St g0 O rs g ->
  exists r g', memslot_process_start_diff_type d (ms_addr x) state0 g = Some (r, g') /\
               start_post r g'.
Proof.
  intros Hv Hty Hs. around_x. pose proof Hs as Hs0. rewrite HO in Hs0.
  unfold memslot_process_start_diff_type.
  rewrite (bind_run _ _ _ _ _ (get_slot_rule _ _ _ _ _ _ Hs0)).
  rewrite !slot_end_val by done.
  destruct (Z.leb_spec de (ms_base_gfn x)) as [H1|H1].
  { apply (diff_before g (fun _ => None) x); try done; [lia|lia|].
    rewrite Z.max_l by lia. by split_and!. }
  destruct (Z.leb_spec db (ms_base_gfn x)) as [H2|H2].
  - destruct (Z.ltb_spec de (s_end x)) as [H3|H3].
    + apply (diff_before g (fun s => Some (memslot_overlap_front s))
               (memslot_overlap_front d x)); try done.
      * intros s Hc. by apply overlap_front_copy.
      * rewrite Z.max_r by lia. apply memslot_overlap_front_spec; try done. lia.
    + destruct (upd_rule _ _ _ _ _ _ (memslot_union d) Hs0) as (g1 & Hrun1 & Hs1); [done|done|].
      rewrite (bind_run _ _ _ _ _ Hrun1).
      destruct (upd_rule _ _ _ _ _ _ (memslot_set_flags (ms_flags d)) Hs1)
        as (g2 & Hrun2 & Hs2); [done|done|].
      erewrite bind_run by exact Hrun2. eexists _, g2. split; [done|].
      destruct (union_range x Hrx H2 H3) as (Hur & Hub & Hue).
      destruct (placed_intro (memslot_set_flags (ms_flags d) (memslot_union d x)))
        as [Hpw Hpp]; [by destruct Hur| |done|done| |].
      { change (ms_base_gfn (memslot_union d x) = Z.min (ms_base_gfn x) db). lia. }
      { right. split; [done|]. split; [by apply covers_first_intro|]. exists x.
        split; [rewrite HO; by apply first_touched_app|].
        unfold slot_line, grown_line, memslot_set_flags, memslot_union. cbn. f_equal. lia. }
      rewrite (proj2 (Z.leb_le _ _)) by lia.
      apply (start_continue (Oa ++ [memslot_set_flags (ms_flags d) (memslot_union d x)]));
        [by rewrite <- app_assoc|done|]. split; [done|]. right. right. eauto.
  - destruct (Z.leb_spec (s_end x) de) as [H3|H3]; cbv zeta.
    2: { rewrite !(proj2 (Z.ltb_lt _ _)) by lia.
         pose proof (diff_inside g Hv Hs H2 H3) as Hin.
         by rewrite (proj2 (Z.leb_gt (s_end x) de)) in Hin by lia. }
    assert (Hnl : slot_line x <> slot_line d).
    { intros Heq. symmetry in Heq. apply memslot_is_same_type_spec in Heq; [|done|done].
      congruence. }
    assert (Hgo : forall x' g', is_part x (ms_base_gfn x) db x' -> St g0 (Oa ++ x' :: R) rs g' ->
      start_post (0, 3) g').
    { intros x' g' Hp Hs'. destruct (cleared_rear x' Hp H2 H3) as [Hcw Hcc].
      apply (start_continue (Oa ++ [x'])); [by rewrite <- app_assoc|done|].
      split; [done|]. right. left. split_and!; [done|done|done|]. exists Oa, x'.
      split; [done|]. destruct Hp as (_ & _ & _ & -> & _). done. }
    destruct (Z.ltb_spec db (s_end x)) as [H4|H4].
    + rewrite (proj2 (Z.ltb_ge _ _)) by lia.
      destruct (upd_rule _ _ _ _ _ _ (memslot_overlap_rear d) Hs0) as (g1 & Hrun1 & Hs1);
        [done|done|].
      rewrite (bind_run _ _ _ _ _ Hrun1). eexists _, g1. split; [done|].
      apply (Hgo _ _ (memslot_overlap_rear_spec d x Hd Hrx ltac:(lia)) Hs1).
    + eexists _, g. split; [done|]. apply (Hgo x g); [|done].
      split_and!; try done. lia.
Qed.

(** ** Figure 1: a mapping of the same type *)
Lemma start_same_type g :
  is_valid = true -> memslot_is_same_type d x = true -> St g0 O rs g ->
  exists r g', memslot_process_start_same_type d (ms_addr x) state0 g = Some (r, g') /\
               start_post r g'.
Proof.
  intros Hv Hty Hs. around_x. pose proof Hs as Hs0. rewrite HO in Hs0.
  assert (Hln : slot_line d = slot_line x) by by apply memslot_is_same_type_spec.
  unfold memslot_process_start_same_type.
  rewrite (bind_run _ _ _ _ _ (get_slot_rule _ _ _ _ _ _ Hs0)).
  rewrite !slot_end_val by done.
  destruct (Z.ltb_spec de (ms_base_gfn x)) as [H1|H1].
  { apply (diff_before g (fun _ => None) x); try done; [lia|lia|].
    rewrite Z.max_l by lia. by split_and!. }
  (* [x'] is the union of [x] and the mapping *)
  assert (Hgo : forall x' g', is_part x (Z.min (ms_base_gfn x) db) (Z.max (s_end x) de) x' ->
    St g0 (Oa ++ x' :: R) rs g' -> start_post (0, state0) g').
  { intros x' g' Hp Hs'. destruct (Z.leb_spec (s_end x) de) as [He|He].
    - destruct Hp as (Hw & Hb & Hpe & Hl & _).
      destruct (placed_intro x') as [Hpw Hpp]; [done|done|lia|done|left; split; congruence|].
      apply (start_continue (Oa ++ [x'])); [by rewrite <- app_assoc|done|].
      split; [done|]. right. right. eauto.
    - pose proof (start_done [x'] (Some (slot_line d)) (Z.min (ms_base_gfn x) db) g') as Hsd.
      rewrite (proj2 (Z.leb_gt (s_end x) de)) in Hsd by lia. rewrite Z.max_l in Hp by lia.
      apply Hsd; try done; [by wf| |by wf|lia|lia|by apply target_valid|].
      + destruct (Z.min_spec (ms_base_gfn x) db) as [[? ->]|[? ->]];
          [done|by apply skip_before].
      + parts. lk; congruence. }
  destruct (Z.leb_spec (ms_base_gfn x) db) as [H2|H2]; cbn [andb];
    [destruct (Z.leb_spec de (s_end x)) as [H3|H3]|].
  - eexists _, g. split; [done|]. apply (Hgo x); [|done].
    rewrite Z.min_l, Z.max_l by lia. by split_and!.
  - destruct (upd_rule _ _ _ _ _ _ (memslot_union d) Hs0) as (g1 & Hrun1 & Hs1); [done|done|].
    rewrite (bind_run _ _ _ _ _ Hrun1). eexists _, g1. split; [done|].
    apply (Hgo (memslot_union d x)); [|done]. by apply memslot_union_spec.
  - destruct (upd_rule _ _ _ _ _ _ (memslot_union d) Hs0) as (g1 & Hrun1 & Hs1); [done|done|].
    rewrite (bind_run _ _ _ _ _ Hrun1). eexists _, g1. split; [done|].
    apply (Hgo (memslot_union d x)); [|done]. by apply memslot_union_spec.
Qed.

(** ** Figure 1: unmapping *)
Lemma start_clear x' g' :
  is_valid = false -> s_end x <= de -> is_part x (ms_base_gfn x) db x' ->
  ms_base_gfn x < db -> St g0 (Oa ++ x' :: R) rs g' -> start_post (0, 1) g'.
Proof.
  intros Hv He Hp Hb Hs'. destruct (cleared_rear x' Hp Hb He) as [Hcw Hcc].
  apply (start_continue (Oa ++ [x'])); [by rewrite <- app_assoc|done|].
  split; [done|]. left. split_and!; done.
Qed.

Lemma start_invalid g :
  is_valid = false -> St g0 O rs g ->
  exists r g', memslot_process_start_invalid d (ms_addr x) state0 g = Some (r, g') /\
               start_post r g'.
Proof.
  intros Hv Hs. around_x. pose proof Hs as Hs0. rewrite HO in Hs0.
  unfold memslot_process_start_invalid.
  rewrite (bind_run _ _ _ _ _ (get_slot_rule _ _ _ _ _ _ Hs0)).
  rewrite !slot_end_val by done.
  destruct (Z.leb_spec de (ms_base_gfn x)) as [H1|H1]; cbn [orb].
  { eexists _, g. split; [done|]. apply (start_done [x] None db); try done;
      [lia|by wf|by apply skip_before|by wf|lia|by apply target_invalid|]. lk. }
  destruct (Z.eqb_spec db (s_end x)) as [H2|H2]; cbn [orb].
  { eexists _, g. split; [done|]. rewrite (proj2 (Z.leb_le _ _)) by lia.
    apply (start_clear x); [done|lia| |lia|done]. by split_and!. }
  destruct (Z.leb_spec db (ms_base_gfn x)) as [H3|H3];
    destruct (Z.ltb_spec de (s_end x)) as [H4|H4].
  - destruct (upd_rule _ _ _ _ _ _ (memslot_overlap_front d) Hs0) as (g1 & Hrun1 & Hs1);
      [done|done|].
    rewrite (bind_run _ _ _ _ _ Hrun1). eexists _, g1. split; [done|].
    pose proof (memslot_overlap_front_spec d x Hd Hrx ltac:(lia)) as Hp.
    apply (start_done [memslot_overlap_front d x] None db); try done;
      [by wf|by apply skip_before|by wf|by apply target_invalid|]. parts. lk.
  - destruct (delete_rule _ _ _ _ _ _ Hs0) as (g1 & Hrun1 & Hs1).
    rewrite (bind_run _ _ _ _ _ Hrun1). eexists _, g1. split; [done|].
    rewrite (proj2 (Z.leb_le _ _)) by lia. apply (start_continue Oa); [done|done|].
    split; [done|]. left. split_and!; [done|done|]. by apply cleared_drop.
  - destruct (append_rest_rule _ _ _ _ d x Hs0) as (r & g1 & Hrun1 & Hr1);
      [by eapply slot_referenced|].
    rewrite (bind_run _ _ _ _ _ Hrun1). destruct r as [rest|]; cbn in Hr1.
    2: { destruct Hr1. eexists _, g1. split; [done|]. by eapply start_fail. }
    destruct Hr1 as (Hc & Hfr & _ & Hs1).
    assert (Hpr : is_part x de (s_end x) rest) by (eapply rest_part; try done; lia).
    destruct (insert_after_rule _ _ _ _ _ _ _ Hs1 Hfr) as (g2 & Hrun2 & Hs2).
    rewrite (bind_run _ _ _ _ _ Hrun2).
    destruct (upd_rule _ _ _ _ _ _ (memslot_overlap_rear d) Hs2) as (g3 & Hrun3 & Hs3);
      [done|done|].
    rewrite (bind_run _ _ _ _ _ Hrun3). eexists _, g3. split; [done|].
    pose proof (memslot_overlap_rear_spec d x Hd Hrx ltac:(lia)) as Hp.
    apply (start_done [memslot_overlap_rear d x; rest] None (ms_base_gfn x)); try done;
      [by wf|by wf|lia|by apply target_invalid|]. parts. lk.
  - destruct (upd_rule _ _ _ _ _ _ (memslot_overlap_rear d) Hs0) as (g1 & Hrun1 & Hs1);
      [done|done|].
    rewrite (bind_run _ _ _ _ _ Hrun1). eexists _, g1. split; [done|].
    rewrite (proj2 (Z.leb_le _ _)) by lia.
    apply (start_clear (memslot_overlap_rear d x)); try done.
    apply memslot_overlap_rear_spec; done || lia.
Qed.

Lemma process_start_rule g :
  St g0 O rs g ->
  exists r g',
    memslot_process_start
      (if is_valid
       then if memslot_is_same_type d x then MAPPING_SAME_TYPE else MAPPING_DIFF_TYPE
       else MAPPING_INVALID) d (ms_addr x) state0 g = Some (r, g') /\
    start_post r g'.
Proof.
  intros Hs. destruct (Bool.bool_dec is_valid true) as [Hv|Hv%not_true_is_false]; rewrite Hv;
    [destruct (memslot_is_same_type d x) eqn:Ht|].
  - by apply start_same_type.
  - by apply start_diff_type.
  - by apply start_invalid.
Qed.
End Start.
