(* ===== verification/MemslotLoop.v ===== *)
(** * Correctness of the loop of memslot_set_mapping

    The rules for the slots after the first one ([memslot_process_end_*]), the loop
    of [memslot_set_mapping], and the effect of the whole loop on the guest
    physical address map. *)

From stdpp Require Import base numbers list gmap.
From Stdlib Require Import ZArith Lia Sorted.
From S2P Require Import Prelude HaxList Bitmap MemTypes Ramblock Memslot MemslotSpec.
From S2P Require Import MemslotOwn MemslotPhase.
#[local] Open Scope Z_scope.

Section Finish.
Context {HH : Host}.
Context (d : hax_memslot) (is_valid : bool).
Context (Hd : range_wf d).
Notation db := (ms_base_gfn d).
Notation de := (s_end d).

(** The unprocessed suffix [R'] of the original list [O]. *)
Context (O Oa R' : list hax_memslot).
Context (HO : O = Oa ++ R') (HOa : all_before de Oa) (HR' : all_after db R').

Lemma lookup_tail gfn : de <= gfn -> slot_lookup O gfn = slot_lookup R' gfn.
Proof. intros Hg. rewrite HO, slot_lookup_app. by lk_rewrite. Qed.

Lemma finish_cleared P B t :
  slots_wf P -> cleared d Oa P -> slots_wf B -> all_after db B -> target_ok d is_valid O t ->
  (forall gfn, db <= gfn -> slot_lookup B gfn = upd d t R' gfn) ->
  final_ok d is_valid O (P ++ B).
Proof.
  intros HP [Hb Hl] HB Ha Ht HlB. pose proof (dest_bounds d Hd) as [? _].
  apply (finish d is_valid O P B db t); try done.
  - intros gfn Hg. rewrite Hl. unfold upd, covers. lk_cases. cbn.
    rewrite HO, slot_lookup_app. lk_rewrite. by destruct (slot_lookup Oa gfn).
  - intros gfn Hg. rewrite HlB by done. unfold upd. destruct (covers d gfn) eqn:Hc; [done|].
    rewrite lookup_tail; [done|]. unfold covers in Hc.
    destruct (Z.ltb_spec gfn de); [|lia]. by rewrite (proj2 (Z.leb_le _ _)) in Hc by lia.
Qed.

Lemma finish_placed P x' B :
  is_valid = true -> slots_wf P -> placed d O Oa P x' -> slots_wf B -> all_after de B ->
  (forall gfn, de <= gfn -> slot_lookup B gfn = slot_lookup R' gfn) ->
  final_ok d is_valid O (P ++ B).
Proof.
  intros Hv HP ((P0 & ->) & He & Hb & Hl & Hlk) HB Ha HlB.
  pose proof (dest_bounds d Hd) as [? _].
  apply (finish d is_valid O (P0 ++ [x']) B de (Some (slot_line x'))); try done.
  - apply Forall_app. split; [|by repeat constructor; lia].
    eapply all_before_weaken; [by eapply sorted_before|]. lia.
  - unfold target_ok. rewrite Hv. eexists. split; [done|]. by destruct Hl as [?|[_ ?]]; [left|right].
  - intros gfn Hg. rewrite Hlk. unfold upd. destruct (covers d gfn) eqn:Hc; [done|].
    rewrite HO, slot_lookup_app. destruct (slot_lookup Oa gfn); [done|].
    symmetry. eapply slot_lookup_below; [exact HR'|]. unfold covers in Hc.
    destruct (Z.leb_spec db gfn); [|lia]. by rewrite (proj2 (Z.ltb_lt _ _)) in Hc by lia.
  - intros gfn Hg. rewrite HlB, <- lookup_tail by done. unfold upd, covers. by lk_cases.
Qed.

(** The last slot of the prefix is replaced by one that reaches further. *)
Lemma finish_merge P0 x' y B :
  is_valid = true -> slots_wf (P0 ++ [x']) -> placed d O Oa (P0 ++ [x']) x' ->
  slots_wf (y :: B) -> ms_base_gfn y = ms_base_gfn x' -> de <= s_end y ->
  slot_line y = slot_line d ->
  (forall gfn, de <= gfn -> slot_lookup (y :: B) gfn = slot_lookup R' gfn) ->
  final_ok d is_valid O (P0 ++ y :: B).
Proof.
  intros Hv HP (_ & He & Hb & Hl & Hlk) HB Hyb Hye Hyl HlB.
  pose proof (dest_bounds d Hd) as [? _]. pose proof (sorted_before _ _ _ HP) as HbP.
  pose proof (sorted_after _ _ HB) as HaB.
  assert (HaB' : all_after (ms_base_gfn x') (y :: B)).
  { constructor; [lia|]. eapply all_after_weaken; [done|]. lia. }
  apply slots_wf_app in HP as (HP0 & _ & _).
  assert (HO1 : forall gfn, gfn < db -> slot_lookup O gfn = slot_lookup (P0 ++ [x']) gfn).
  { intros gfn Hg. rewrite Hlk, HO, slot_lookup_app. unfold upd, covers. lk_cases. cbn.
    lk_rewrite. by destruct (slot_lookup Oa gfn). }
  apply (finish d is_valid O P0 (y :: B) (ms_base_gfn x') (Some (slot_line d))); try done.
  - by apply target_valid.
  - intros gfn Hg. unfold upd, covers. lk_cases. cbn. rewrite HO1, slot_lookup_app by lia.
    destruct (slot_lookup P0 gfn); [done|]. cbn. unfold covers. by lk_cases.
  - intros gfn Hg. destruct (Z.lt_ge_cases gfn de) as [Hlt|Hge].
    2: { rewrite HlB, <- lookup_tail by done. unfold upd, covers. by lk_cases. }
    cbn. unfold covers at 1. rewrite Hyb, Hyl. unfold upd, covers. lk_cases; cbn; try done.
    rewrite HO1, slot_lookup_app by lia. lk_rewrite. cbn. unfold covers. lk_cases. cbn.
    destruct Hl as [->|[? _]]; [done|lia].
Qed.
End Finish.

Section End_.
Context {HH : Host} {E : Type}.
Notation st := (hax_gpa_space E).
Implicit Types (g : st).

Context (g0 : st) (d : hax_memslot) (is_valid : bool) (rs : list Z).
Context (Hd : range_wf d).
Context (Hblk : is_valid = true -> ms_block d ∈ rs).
Notation db := (ms_base_gfn d).
Notation de := (s_end d).

Context (O Oa R P : list hax_memslot) (x : hax_memslot) (state : Z).
Context (HO : O = Oa ++ x :: R) (HwO : slots_wf O).
Context (Hxb : db <= ms_base_gfn x <= de) (Hxe : de <= s_end x).
Context (Hph : phase d is_valid O Oa P state).

Definition end_post (ret : Z) (g' : st) : Prop :=
  (ret = - ENOMEM /\ ~ alloc_ok /\ exists l, St g0 l rs g') \/
  (ret = 0 /\ exists l, St g0 l rs g' /\ final_ok d is_valid O l).

Lemma end_done l g' : St g0 l rs g' -> final_ok d is_valid O l -> end_post 0 g'.
Proof. right. eauto. Qed.

Lemma end_ctx :
  range_wf x /\ slots_wf R /\ all_after (s_end x) R /\ all_before de Oa /\
  all_after db (x :: R) /\ 0 <= db < de.
Proof.
  pose proof HwO as H. rewrite HO in H. destruct (around _ _ _ H) as (_ & ? & ? & ? & ? & ?).
  split_and!; try done; try apply (dest_bounds d Hd).
  - eapply all_before_weaken; [done|]. lia.
  - constructor; [lia|]. eapply all_after_weaken; [done|]. lia.
Qed.

(** The three kinds of finished lists, for the slots [B] put after the prefix. *)
Lemma end_cleared B t g' :
  St g0 (P ++ B) rs g' -> cleared d Oa P -> slots_wf B -> all_after db B ->
  target_ok d is_valid O t ->
  (forall gfn, db <= gfn -> slot_lookup B gfn = upd d t (x :: R) gfn) -> end_post 0 g'.
Proof.
  intros Hs Hc HB Ha Ht Hl. destruct end_ctx as (? & ? & ? & H2 & H3 & ?).
  eapply end_done; [exact Hs|]. 
  apply (finish_cleared d is_valid Hd O Oa (x :: R) HO H2 H3 P B t); try done. apply Hph.
Qed.

Lemma end_placed B x' g' :
  is_valid = true -> St g0 (P ++ B) rs g' -> placed d O Oa P x' -> slots_wf B ->
  all_after de B ->
  (forall gfn, de <= gfn -> slot_lookup B gfn = slot_lookup (x :: R) gfn) -> end_post 0 g'.
Proof.
  intros Hv Hs Hc HB Ha Hl. destruct end_ctx as (? & ? & ? & H2 & H3 & ?).
  eapply end_done; [exact Hs|]. 
  apply (finish_placed d is_valid Hd O Oa (x :: R) HO H2 H3 P x' B); try done. apply Hph.
Qed.

(** ** Figure 2: unmapping *)
Lemma end_invalid g :
  is_valid = false -> St g0 (P ++ x :: R) rs g ->
  exists r g', memslot_process_end_invalid d (ms_addr x) state g = Some (r, g') /\
               end_post r g'.
Proof.
  intros Hv Hs. destruct end_ctx as (Hx & HR & HaR & HbO & Hadb & Hdb).
  assert (Hc : cleared d Oa P) by (destruct Hph as [_ [(_ & _ & ?)|[[? _]|[? _]]]]; congruence || done).
  unfold memslot_process_end_invalid.
  rewrite (bind_run _ _ _ _ _ (get_slot_rule _ _ _ _ _ _ Hs)). rewrite !slot_end_val by done.
  destruct (Z.eqb_spec de (ms_base_gfn x)) as [H1|H1].
  { eexists _, g. split; [done|]. eapply end_cleared; try done; [by wf|by apply target_invalid|].
    lk. }
  destruct (Z.ltb_spec de (s_end x)) as [H2|H2].
  - destruct (upd_rule _ _ _ _ _ _ (memslot_overlap_front d) Hs) as (g1 & Hrun1 & Hs1);
      [done|done|].
    rewrite (bind_run _ _ _ _ _ Hrun1). eexists _, g1. split; [done|].
    pose proof (memslot_overlap_front_spec d x Hd Hx ltac:(lia)) as Hp.
    eapply end_cleared; try done; [by wf|by wf|by apply target_invalid|]. parts. lk.
  - destruct (delete_rule _ _ _ _ _ _ Hs) as (g1 & Hrun1 & Hs1).
    rewrite (bind_run _ _ _ _ _ Hrun1). eexists _, g1. split; [done|].
    eapply end_cleared; try done; [by wf|by apply target_invalid|]. lk.
Qed.

(** ** Figure 2: a slot of a different type *)
(** [x] cut at the end of the range. *)
Definition cut_front : hax_memslot :=
  if ms_base_gfn x <? de then memslot_overlap_front d x else x.

Lemma cut_front_part : de < s_end x -> is_part x de (s_end x) cut_front \/
  (cut_front = x /\ ms_base_gfn x = de).
Proof.
  intros He. destruct end_ctx as (Hx & _). unfold cut_front.
  destruct (Z.ltb_spec (ms_base_gfn x) de).
  - left. apply memslot_overlap_front_spec; try done. lia.
  - right. split; [done|lia].
Qed.

Lemma cut_front_is_part : de < s_end x -> is_part x de (s_end x) cut_front.
Proof.
  intros He. destruct end_ctx as (Hx & _).
  destruct (cut_front_part He) as [?|[-> ?]]; [done|]. by split_and!.
Qed.

Lemma cut_front_rule g :
  St g0 (P ++ x :: R) rs g ->
  exists g', (if ms_base_gfn x <? de then upd_slot (ms_addr x) (memslot_overlap_front d)
              else mret tt) g = Some (tt, g') /\ St g0 (P ++ cut_front :: R) rs g'.
Proof.
  intros Hs. unfold cut_front. destruct (ms_base_gfn x <? de).
  - by apply upd_rule.
  - eauto.
Qed.

Lemma phase_cases :
  is_valid = true ->
  (state = 3 /\ cleared d Oa P /\ exists P0 x', P = P0 ++ [x'] /\ slot_line x' <> slot_line d) \/
  (state = 1 /\ exists x', placed d O Oa P x').
Proof.
  intros Hv. destruct Hph as [_ [[? _]|[(_ & ?)|(_ & ?)]]]; [congruence|by left|by right].
Qed.

Lemma end_diff_type g :
  is_valid = true -> St g0 (P ++ x :: R) rs g ->
  exists r g', memslot_process_end_diff_type d (ms_addr x) state g = Some (r, g') /\
               end_post r g'.
Proof.
  intros Hv Hs. destruct end_ctx as (Hx & HR & HaR & HbO & Hadb & Hdb).
  unfold memslot_process_end_diff_type.
  rewrite (bind_run _ _ _ _ _ (get_slot_rule _ _ _ _ _ _ Hs)). rewrite !slot_end_val by done.
  destruct (Z.ltb_spec de (s_end x)) as [H2|H2].
  - destruct (cut_front_rule g Hs) as (g1 & Hrun1 & Hs1). rewrite (bind_run _ _ _ _ _ Hrun1).
    pose proof (cut_front_is_part H2) as Hp.
    destruct (phase_cases Hv) as [(Hst & Hc & _)|(Hst & x' & Hpl)]; rewrite Hst.
    + change (flag_set 3 MEMSLOT_TO_INSERT) with true. cbn match.
      destruct (dup_rule _ _ _ _ d Hs1) as (r & g2 & Hrun2 & Hr2); [by apply refs_in, Hblk|].
      rewrite (bind_run _ _ _ _ _ Hrun2). destruct r as [s|]; cbn in Hr2.
      2: { destruct Hr2. eexists _, g2. split; [done|]. left. eauto. }
      destruct Hr2 as (Hcp & Hfr & _ & Hs2). pose proof (copy_part _ _ Hcp Hd) as Hps.
      assert (Ha : ms_addr cut_front = ms_addr x)
        by (unfold cut_front; by destruct (ms_base_gfn x <? de)).
      destruct (insert_before_rule _ _ _ _ _ _ _ Hs2 Hfr) as (g3 & Hrun3 & Hs3).
      rewrite Ha in Hrun3. rewrite (bind_run _ _ _ _ _ Hrun3). eexists _, g3. split; [done|].
      apply (end_cleared (s :: cut_front :: R) (Some (slot_line d))); try done;
        [by wf|by wf|by apply target_valid|]. parts. lk.
    + eexists _, g1. split; [done|]. apply (end_placed (cut_front :: R) x'); try done;
        [by wf|by wf|]. parts. lk.
  - destruct (phase_cases Hv) as [(Hst & Hc & _)|(Hst & x' & Hpl)]; rewrite Hst.
    + change (flag_set 3 MEMSLOT_TO_INSERT) with true. cbn match.
      destruct (move_rule _ _ _ _ _ _ d Hs) as (g1 & y & Hrun1 & Hcp & Hs1);
        [by apply refs_in, Hblk|].
      pose proof (copy_part _ _ Hcp Hd) as Hps.
      rewrite (bind_run _ _ _ _ _ Hrun1). eexists _, g1. split; [done|].
      apply (end_cleared (y :: R) (Some (slot_line d))); try done;
        [by wf|by wf|by apply target_valid|]. parts. lk.
    + change (flag_set 1 MEMSLOT_TO_INSERT) with false. cbn match.
      destruct (delete_rule _ _ _ _ _ _ Hs) as (g1 & Hrun1 & Hs1).
      rewrite (bind_run _ _ _ _ _ Hrun1). eexists _, g1. split; [done|].
      apply (end_placed R x'); try done; [by wf|]. lk.
Qed.

(** ** Figure 2: a slot of the same type *)
Lemma end_same_delete g x' :
  is_valid = true -> de = s_end x -> placed d O Oa P x' -> St g0 (P ++ x :: R) rs g ->
  exists r g', (memslot_delete (ms_addr x);; mret 0) g = Some (r, g') /\ end_post r g'.
Proof.
  intros Hv He Hpl Hs. destruct end_ctx as (Hx & HR & HaR & HbO & Hadb & Hdb).
  destruct (delete_rule _ _ _ _ _ _ Hs) as (g1 & Hrun1 & Hs1).
  rewrite (bind_run _ _ _ _ _ Hrun1). eexists _, g1. split; [done|].
  apply (end_placed R x'); try done; [by wf|]. lk.
Qed.

Lemma prev_slot_rule g P0 y rf :
  P = P0 ++ [y] -> Sx g0 (P ++ x :: R) rf g ->
  nl_prev (ms_addr x) (gs_memslot_list g) = ms_addr y /\ get_slot (ms_addr y) g = Some (y, g) /\
  Sx g0 (P0 ++ y :: x :: R) rf g.
Proof.
  intros -> Hs. rewrite <- app_assoc in Hs. cbn in Hs. split_and!; [|by eapply get_slot_rule|done].
  rewrite (st_list _ _ _ _ Hs). apply (nl_prev_middle (H := memslot_keyed)).
  pose proof (st_keys _ _ _ _ Hs) as Hk. rewrite cons_middle, app_assoc in Hk.
  by apply keys_split in Hk as [? _].
Qed.

Lemma end_same_type g :
  is_valid = true -> memslot_is_same_type d x = true -> St g0 (P ++ x :: R) rs g ->
  exists r g', memslot_process_end_same_type d (ms_addr x) state g = Some (r, g') /\
               end_post r g'.
Proof.
  intros Hv Hty Hs. destruct end_ctx as (Hx & HR & HaR & HbO & Hadb & Hdb).
  assert (Hln : slot_line d = slot_line x) by by apply memslot_is_same_type_spec.
  pose proof (proj1 Hph) as HwP.
  unfold memslot_process_end_same_type.
  rewrite (bind_run _ _ _ _ _ (get_slot_rule _ _ _ _ _ _ Hs)). rewrite !slot_end_val by done.
  destruct (phase_cases Hv) as [(Hst & Hc & P0 & y & HP & Hyl)|(Hst & y & Hpl)]; rewrite Hst.
  - change (flag_set 3 MEMSLOT_TO_INSERT) with true. rewrite andb_false_r, gets_run.
    destruct (prev_slot_rule g P0 y _ HP Hs) as (-> & Hgy & Hs'). cbv zeta.
    rewrite (bind_run _ _ _ _ _ Hgy).
    destruct (memslot_is_same_type d y) eqn:Hty2.
    { apply memslot_is_same_type_spec in Hty2; [congruence|done|].
      rewrite HP in HwP. apply around in HwP. apply HwP. }
    destruct (upd_rule _ _ _ _ _ _ (memslot_union d) Hs) as (g1 & Hrun1 & Hs1); [done|done|].
    rewrite (bind_run _ _ _ _ _ Hrun1). cbn match. eexists _, g1. split; [done|].
    pose proof (memslot_union_spec d x Hd Hx Hln (rw_end _ Hd)) as Hp.
    rewrite Z.min_r, Z.max_l in Hp by lia.
    apply (end_cleared (memslot_union d x :: R) (Some (slot_line d))); try done;
      [by wf|by wf|by apply target_valid|]. parts. lk; congruence.
  - change (flag_set 1 MEMSLOT_TO_INSERT) with false. rewrite andb_true_r.
    destruct (Z.eqb_spec de (s_end x)) as [He|He]; [by apply (end_same_delete g y)|].
    rewrite gets_run. destruct Hpl as ((P0 & HP) & Hpl).
    destruct (prev_slot_rule g P0 y _ HP Hs) as (-> & Hgy & Hs'). cbv zeta.
    rewrite (bind_run _ _ _ _ _ Hgy). set (z := if memslot_is_same_type d y then y else d).
    destruct (upd_rule _ _ _ _ _ _ (memslot_union z) Hs) as (g1 & Hrun1 & Hs1); [done|done|].
    rewrite (bind_run _ _ _ _ _ Hrun1). cbn match.
    rewrite HP, <- app_assoc in Hs1. cbn in Hs1.
    destruct (delete_rule _ _ _ _ _ _ Hs1) as (g2 & Hrun2 & Hs2).
    rewrite (bind_run _ _ _ _ _ Hrun2). eexists _, g2. split; [done|].
    apply (end_done (P0 ++ memslot_union z x :: R)); [done|].
    pose proof Hpl as (Hye & Hyb & Hyl & _). rewrite HP in HwP.
    destruct (around _ _ _ HwP) as (_ & Hyw & _).
    (* [z] is the previous slot or the mapping: both start where the previous slot does *)
    assert (Hz : range_wf z /\ ms_base_gfn z = ms_base_gfn y /\ s_end z = de /\
                 slot_line z = slot_line d).
    { subst z. destruct (memslot_is_same_type d y) eqn:Hty2.
      - apply memslot_is_same_type_spec in Hty2; [|done|done]. by split_and!.
      - destruct Hyl as [Hyl|[? _]]; [|by split_and!].
        symmetry in Hyl. apply memslot_is_same_type_spec in Hyl; [congruence|done|done]. }
    destruct Hz as (Hzw & Hzb & Hze & Hzl).
    pose proof (memslot_union_spec z x Hzw Hx ltac:(congruence) (rw_end _ Hzw)) as Hp.
    rewrite Z.min_r, Z.max_l in Hp by lia. parts.
    apply (finish_merge d is_valid Hd O Oa (x :: R) HO HbO Hadb P0 y); try done.
    + rewrite <- HP. by split; [exists P0|].
    + by wf.
    + congruence.
    + lia.
    + congruence.
    + lk.
Qed.

Lemma process_end_rule g :
  St g0 (P ++ x :: R) rs g ->
  exists r g',
    memslot_process_end
      (if is_valid
       then if memslot_is_same_type d x then MAPPING_SAME_TYPE else MAPPING_DIFF_TYPE
       else MAPPING_INVALID) d (ms_addr x) state g = Some (r, g') /\
    end_post r g'.
Proof.
  intros Hs. destruct (Bool.bool_dec is_valid true) as [Hv|Hv%not_true_is_false]; rewrite Hv;
    [destruct (memslot_is_same_type d x) eqn:Ht|].
  - by apply end_same_type.
  - by apply end_diff_type.
  - by apply end_invalid.
Qed.
End End_.

(** ** The slots copied to the snapshot *)
Section Touched.
Context {HH : Host}.
Context (d : hax_memslot).
Notation db := (ms_base_gfn d).
Notation de := (s_end d).

Fixpoint touched (l : list hax_memslot) : list hax_memslot :=
  match l with
  | [] => []
  | s :: rest =>
      if db <=? s_end s then
        (if db <? s_end s then [s] else []) ++ filter (fun y => ms_base_gfn y < de) rest
      else touched rest
  end.

Lemma touched_skip A S : Forall (fun s => s_end s < db) A -> touched (A ++ S) = touched S.
Proof.
  intros HA. induction HA as [|s A Hs HA IH]; [done|]. cbn.
  by rewrite (proj2 (Z.leb_gt _ _)).
Qed.

Lemma touched_first A x S :
  Forall (fun s => s_end s < db) A -> db <= s_end x ->
  touched (A ++ x :: S) =
  (if db <? s_end x then [x] else []) ++ filter (fun y => ms_base_gfn y < de) S.
Proof. intros HA Hx. rewrite touched_skip by done. cbn. by rewrite (proj2 (Z.leb_le _ _)). Qed.

Lemma touched_app A S :
  Exists (fun s => db <= s_end s) A ->
  touched (A ++ S) = touched A ++ filter (fun y => ms_base_gfn y < de) S.
Proof.
  intros HA. induction A as [|s A IH]; [by apply Exists_nil in HA|]. cbn.
  destruct (Z.leb_spec db (s_end s)).
  - by rewrite filter_app, app_assoc.
  - apply Exists_cons in HA as [?|HA]; [lia|]. by apply IH.
Qed.

Lemma filter_after S : all_after de S -> filter (fun y => ms_base_gfn y < de) S = [].
Proof.
  induction 1 as [|s S Hs HS IH]; [done|]. rewrite filter_cons_False by lia. done.
Qed.
End Touched.

(** ** One iteration *)
Section Step.
Context {HH : Host} {E : Type}.
Notation st := (hax_gpa_space E).
Implicit Types (g : st).

Context (g0 : st) (d : hax_memslot) (is_valid : bool) (rs : list Z).
Context (Hd : range_wf d).
Context (Hblk : is_valid = true -> ms_block d ∈ rs).
Context (O : list hax_memslot) (HwO : slots_wf O).
Notation db := (ms_base_gfn d).
Notation de := (s_end d).

(** The references held by the snapshot and by the mapping itself. *)
Notation StS l ls := (St g0 l (blocks_of (ls_snapshot ls) ++ rs)).

Definition snap_is (ls : loop_state) (g : st) (l : list hax_memslot) : Prop :=
  snap_ok (ls_snapshot ls) g /\ Forall2 same_contents (ls_snapshot ls) (touched d l).

(** The state of the loop: [Oa] is the processed part of the original list, [P]
    what it has become, [S] the rest. *)
Record loop_inv (Oa P S : list hax_memslot) (ls : loop_state) (g : st) : Prop := {
  li_orig : O = Oa ++ S;
  li_st : StS (P ++ S) ls g;
  li_snap : snap_is ls g Oa;
  li_phase :
    (ls_found ls = false /\ ls_state ls = 0 /\ P = Oa /\
     Forall (fun s => s_end s < db) Oa /\ S <> []) \/
    (ls_found ls = true /\ phase d is_valid O Oa P (ls_state ls) /\
     all_before de Oa /\ all_after db S /\ Exists (fun s => db <= s_end s) Oa);
}.

Definition loop_failed (ret : Z) (ls : loop_state) (g : st) : Prop :=
  ret = - ENOMEM /\ ~ alloc_ok /\ exists l, StS l ls g.

(** The loop is left with the mapping in place, or to be inserted before [src]. *)
Definition loop_done (src : Z) (ls : loop_state) (g : st) : Prop :=
  snap_is ls g O /\
  ((flag_set (ls_state ls) MEMSLOT_TO_INSERT = false /\
    exists l, StS l ls g /\ final_ok d is_valid O l) \/
   (flag_set (ls_state ls) MEMSLOT_TO_INSERT = true /\ is_valid = true /\
    exists P S, src = nl_first S /\ StS (P ++ S) ls g /\
      forall s, same_contents s d -> final_ok d is_valid O (P ++ s :: S))).

Lemma memslot_is_inner_rule rf P x R g :
  range_wf x -> Forall range_wf R -> Sx g0 (P ++ x :: R) rf g ->
  exists b, memslot_is_inner d x g = Some (b, g) /\
    (b = true -> s_end x <= de) /\ (b = false -> de <= s_end x).
Proof.
  intros Hx HR Hs. unfold memslot_is_inner. rewrite gets_run, !slot_end_val by done.
  destruct (Z.ltb_spec (s_end x) de) as [H1|H1]; [eexists; split; [done|]; split; lia|].
  destruct (Z.eqb_spec de (s_end x)) as [H2|H2].
  2: { eexists. split; [done|]. split; [done|lia]. }
  cbv zeta. rewrite (st_list _ _ _ _ Hs).
  destruct (keys_split _ _ _ (st_keys _ _ _ _ Hs)) as [Hk _].
  rewrite (nl_next_middle (H := memslot_keyed) P x R Hk (addr_ne _ _ _ _ _ _ Hs) :
    nl_next (ms_addr x) (P ++ x :: R) = nl_first R).
  destruct R as [|y R]; [eexists; split; [done|]; split; lia|].
  rewrite cons_middle, app_assoc in Hs. cbn [nl_first].
  change (node_key y) with (ms_addr y).
  rewrite (proj2 (Z.eqb_neq _ _)) by (by eapply addr_ne).
  rewrite (bind_run _ _ _ _ _ (get_slot_rule _ _ _ _ _ _ Hs)).
  eexists. split; [done|]. split; lia.
Qed.

Lemma enqueue_if_rule (c : bool) l ls g x t :
  StS l ls g -> snap_ok (ls_snapshot ls) g -> Forall2 same_contents (ls_snapshot ls) t ->
  0 < refs l (blocks_of (ls_snapshot ls) ++ rs) (ms_block x) ->
  exists r g', (if c then memslot_list_enqueue (ls_snapshot ls) x
                else mret (0, ls_snapshot ls)) g = Some (r, g') /\
    snap_ok r.2 g' /\ St g0 l (blocks_of r.2 ++ rs) g' /\
    ((r.1 = - ENOMEM /\ ~ alloc_ok) \/
     (r.1 = 0 /\ Forall2 same_contents r.2 (t ++ if c then [x] else []))).
Proof.
  intros Hs Hok Hf Hp. destruct c.
  - destruct (enqueue_rule _ _ _ _ _ _ Hs Hok Hp) as (r & g' & Hrun & Hok' & Hs' & Hr).
    exists r, g'. split_and!; try done. destruct Hr as [?|(? & s & Hc & ->)]; [by left|].
    right. split; [done|]. apply Forall2_app; [done|]. by constructor.
  - eexists _, g. split; [done|]. cbn. rewrite app_nil_r. by split_and!; [..|right].
Qed.

Definition step_post (x : hax_memslot) (Oa R : list hax_memslot) (r : flow * loop_state)
    (g' : st) : Prop :=
  match r.1 with
  | Continue => exists P', loop_inv (Oa ++ [x]) P' R r.2 g'
  | Break => loop_done (ms_addr x) r.2 g'
  | Out ret => loop_failed ret r.2 g'
  end.

Lemma snap_ok_mono snap g g' :
  snap_ok snap g -> gs_next_addr g <= gs_next_addr g' -> snap_ok snap g'.
Proof. intros [? Hf] Hn. split; [done|]. eapply Forall_impl; [exact Hf|]. cbn. lia. Qed.

(** *** Slots that end before the range *)
Lemma tail_final l s :
  slots_wf l -> all_before db l -> is_valid = true -> same_contents s d ->
  final_ok d is_valid l (l ++ [s]).
Proof.
  intros Hw Hb Hv Hc. pose proof (copy_part _ _ Hc Hd) as Hp. pose proof (dest_bounds d Hd).
  apply (finish d is_valid l l [s] db (Some (slot_line d))); try done;
    [by wf|by wf|by apply target_valid|..]; parts; lk.
Qed.

Lemma tail_unmap l :
  slots_wf l -> all_before db l -> is_valid = false -> final_ok d is_valid l l.
Proof.
  intros Hw Hb Hv. split; [done|]. exists None. split; [by apply target_invalid|].
  lk.
Qed.

Lemma touched_before l : Forall (fun s => s_end s < db) l -> touched d l = [].
Proof. intros Hl. pose proof (touched_skip d l [] Hl) as H1. by rewrite app_nil_r in H1. Qed.

Lemma step_last Oa x ls g :
  loop_inv Oa Oa [x] ls g -> ls_state ls = 0 -> Forall (fun s => s_end s < db) (Oa ++ [x]) ->
  exists r g',
    (if is_valid then
       c ← memslot_dup d;
       match c with
       | None => mret (Out (- ENOMEM), ls)
       | Some s => memslot_insert_after s (ms_addr x);; mret (Break, ls)
       end
     else mret (Break, ls)) g = Some (r, g') /\ step_post x Oa [] r g'.
Proof.
  intros [HO Hs [Hok Hf] _] Hst Hsk.
  assert (Hbx : all_before db (Oa ++ [x])) by (eapply Forall_impl; [exact Hsk|cbn; lia]).
  rewrite touched_before in Hf by (by apply Forall_app in Hsk as [? _]).
  assert (HfO : Forall2 same_contents (ls_snapshot ls) (touched d O))
    by (by rewrite HO, touched_before).
  destruct (Bool.bool_dec is_valid true) as [Hv|Hv%not_true_is_false]; rewrite Hv.
  - destruct (dup_rule _ _ _ _ d (Sx_rebase _ _ _ _ Hs)) as (r & g1 & Hrun1 & Hr1).
    { apply refs_in, elem_of_app. right. by apply Hblk. }
    rewrite (bind_run _ _ _ _ _ Hrun1). destruct r as [s|]; cbn in Hr1.
    2: { destruct Hr1 as [Hna Hs1]. eexists _, g1. split; [done|]. split_and!; [done|done|].
         eexists. eapply Sx_base; [apply (st_evo _ _ _ _ Hs)|exact Hs1]. }
    destruct Hr1 as (Hcp & Hfr & _ & Hs1).
    destruct (insert_after_rule _ _ _ _ _ _ _ Hs1 Hfr) as (g2 & Hrun2 & Hs2).
    rewrite (bind_run _ _ _ _ _ Hrun2). eexists _, g2. split; [done|]. split.
    + split; [|done]. eapply snap_ok_mono; [exact Hok|].
      apply (ev_next _ _ (st_evo _ _ _ _ Hs2)).
    + left. cbn. rewrite Hst. split; [done|]. exists (O ++ [s]). split.
      * eapply Sx_base; [apply (st_evo _ _ _ _ Hs)|]. rewrite HO, <- app_assoc. exact Hs2.
      * apply tail_final; try done. by rewrite HO.
  - eexists _, g. split; [done|]. split; [done|]. left. cbn. rewrite Hst. split; [done|].
    exists O. split; [by rewrite HO|]. apply tail_unmap; try done. by rewrite HO.
Qed.

Lemma step_skip Oa x R ls g :
  loop_inv Oa Oa (x :: R) ls g -> ls_found ls = false -> ls_state ls = 0 ->
  Forall (fun s => s_end s < db) Oa -> s_end x < db ->
  exists r g', set_mapping_step d is_valid (ms_addr x) ls g = Some (r, g') /\
               step_post x Oa R r g'.
Proof.
  intros Hli Hnf Hst0 Hsk Hx. pose proof Hli as [HO Hs [Hok Hf] _].
  pose proof HwO as Hw. rewrite HO in Hw.
  destruct (around _ _ _ Hw) as (HwOa & Hrx & HwR & _ & _ & _).
  unfold set_mapping_step. rewrite (bind_run _ _ _ _ _ (get_slot_rule _ _ _ _ _ _ Hs)).
  rewrite !slot_end_val by done. cbv zeta. rewrite Hnf. cbn [negb].
  rewrite (proj2 (Z.ltb_lt _ _)) by done.
  rewrite (bind_run _ _ _ _ _ (next_rule _ _ _ _ _ _ Hs)).
  assert (Hsk' : Forall (fun s => s_end s < db) (Oa ++ [x])) by (apply Forall_app; auto).
  destruct R as [|y R].
  - cbn [nl_first]. rewrite Z.eqb_refl. cbn [negb]. by apply step_last.
  - cbn [nl_first]. change (node_key y) with (ms_addr y).
    assert (Hs2 : StS ((Oa ++ [x]) ++ y :: R) ls g) by by rewrite <- app_assoc.
    rewrite (proj2 (Z.eqb_neq _ _)) by (by eapply addr_ne). cbn [negb].
    eexists _, g. split; [done|]. exists (Oa ++ [x]). split; [by rewrite <- app_assoc|done| |].
    + split; [done|]. rewrite touched_before in Hf |- *; done.
    + left. by split_and!.
Qed.

(** *** The first touched slot *)
Lemma flag_processing (b : bool) :
  flag_set (if b then 1 else 0) MEMSLOT_PROCESSING = b.
Proof. by destruct b. Qed.

Lemma phase_processing Oa P state :
  phase d is_valid O Oa P state -> flag_set state MEMSLOT_PROCESSING = true.
Proof. by intros [_ [(_ & -> & _)|[(_ & -> & _)|(_ & -> & _)]]]. Qed.

Lemma step_start Oa x R ls g :
  loop_inv Oa Oa (x :: R) ls g -> ls_found ls = false -> ls_state ls = 0 ->
  Forall (fun s => s_end s < db) Oa -> db <= s_end x ->
  exists r g', set_mapping_step d is_valid (ms_addr x) ls g = Some (r, g') /\
               step_post x Oa R r g'.
Proof.
  intros Hli Hnf Hst0 Hsk Hx. pose proof Hli as [HO Hs [Hok Hf] _].
  pose proof HwO as Hw. rewrite HO in Hw.
  destruct (around _ _ _ Hw) as (HwOa & Hrx & HwR & HbOa & HaR & Hlt).
  pose proof (dest_bounds d Hd) as [Hdb _].
  unfold set_mapping_step. rewrite (bind_run _ _ _ _ _ (get_slot_rule _ _ _ _ _ _ Hs)).
  rewrite !slot_end_val by done. cbv zeta. rewrite Hnf. cbn [negb].
  rewrite (proj2 (Z.ltb_ge _ _)) by done.
  destruct (enqueue_if_rule (db <? s_end x) _ _ _ x _ Hs Hok Hf)
    as ([ret snap] & g1 & Hrun1 & Hok1 & Hs1 & Hr1); [by eapply slot_referenced|].
  rewrite (bind_run _ _ _ _ _ Hrun1). cbn [fst snd] in *.
  destruct Hr1 as [[-> Hna]|[-> Hf1]]; cbn [negb Z.eqb].
  { eexists _, g1. split; [done|]. split_and!; try done. cbn. eauto. }
  rewrite touched_before in Hf1 by done. cbn [app] in Hf1.
  rewrite Hst0. change (0 |! MEMSLOT_PROCESSING) with 1.
  destruct (process_start_rule g1 d is_valid (blocks_of snap ++ rs) Hd
    ltac:(intros; apply elem_of_app; right; by apply Hblk) O Oa R x HO HwO Hsk Hx g1)
    as ([ret state] & g2 & Hrun2 & Hpost); [rewrite HO; by eapply Sx_rebase|].
  rewrite (bind_run _ _ _ _ _ Hrun2).
  assert (Hbase : forall l, St g1 l (blocks_of snap ++ rs) g2 ->
    St g0 l (blocks_of snap ++ rs) g2 /\ snap_ok snap g2).
  { intros l Hl. split; [by eapply Sx_base; [apply (st_evo _ _ _ _ Hs1)|]|].
    eapply snap_ok_mono; [done|]. apply (ev_next _ _ (st_evo _ _ _ _ Hl)). }
  destruct Hpost as [(Hret & Hna & l & Hs2)|[(Hret & He & P & Hs2 & Hph)|
    (Hret & He & Hst & l & Hs2 & Hfin)]]; cbn [fst snd] in *; subst ret;
    destruct (Hbase _ Hs2) as [Hs2' Hok2]; cbn [negb Z.eqb].
  - eexists _, g2. split; [done|]. split_and!; try done. cbn. eauto.
  - rewrite (phase_processing _ _ _ Hph). eexists _, g2. split; [done|]. exists P. split.
    + by rewrite <- app_assoc.
    + done.
    + split; [done|]. cbn. rewrite touched_first by done. cbn. by rewrite app_nil_r.
    + right. cbn. split_and!; [done|done| | |].
      * apply Forall_app. split; [eapply all_before_weaken; [exact HbOa|lia]|].
        by constructor.
      * eapply all_after_weaken; [exact HaR|]. lia.
      * apply Exists_app. right. by constructor.
  - subst state. eexists _, g2. split; [done|]. split.
    + split; [done|]. cbn. rewrite HO, touched_first by done.
      rewrite filter_after; [by rewrite app_nil_r|].
      eapply all_after_weaken; [exact HaR|]. lia.
    + left. split; [done|]. cbn. eauto.
Qed.

(** *** The slots after the first *)
(** The loop is left when the rest of the list starts after the range. *)
Lemma phase_exit Oa P S ls g :
  O = Oa ++ S -> StS (P ++ S) ls g -> snap_is ls g Oa ->
  phase d is_valid O Oa P (ls_state ls) -> all_before de Oa -> all_after de S ->
  Exists (fun s => db <= s_end s) Oa -> loop_done (nl_first S) ls g.
Proof.
  intros HO Hs [Hok Hf] Hph Hb Ha Hex. pose proof (dest_bounds d Hd) as [Hdb _].
  assert (HwS : slots_wf S) by (rewrite HO in HwO; by apply slots_wf_app in HwO as (_ & ? & _)).
  assert (Ha' : all_after db S) by (eapply all_after_weaken; [exact Ha|lia]).
  split.
  { split; [done|]. by rewrite HO, touched_app, filter_after, app_nil_r. }
  destruct Hph as [HwP [(Hv & -> & Hc)|[(Hv & -> & Hc & _)|(Hv & -> & x' & Hpl)]]].
  - left. split; [done|]. eexists. split; [exact Hs|].
    apply (finish_cleared d is_valid Hd O Oa S HO Hb Ha' P S None); try done.
    + by apply target_invalid.
    + lk.
  - right. split_and!; [done|done|]. exists P, S. split_and!; [done|done|].
    intros s Hcp. pose proof (copy_part _ _ Hcp Hd) as Hps.
    apply (finish_cleared d is_valid Hd O Oa S HO Hb Ha' P (s :: S) (Some (slot_line d)));
      try done; [by wf|by wf|by apply target_valid|]. parts. lk.
  - left. split; [done|]. eexists. split; [exact Hs|].
    apply (finish_placed d is_valid Hd O Oa S HO Hb Ha' P x' S); try done.
Qed.

(** *** A slot that is touched after the first *)
Lemma step_follow Oa P x R ls g :
  loop_inv Oa P (x :: R) ls g -> ls_found ls = true ->
  exists r g', set_mapping_step d is_valid (ms_addr x) ls g = Some (r, g') /\
               step_post x Oa R r g'.
Proof.
  intros Hli Hfd. pose proof Hli as [HO Hs [Hok Hf] Hp].
  destruct Hp as [(? & _)|(_ & Hph & Hbe & Hab & Hex)]; [congruence|].
  pose proof HwO as Hw. rewrite HO in Hw.
  destruct (around _ _ _ Hw) as (HwOa & Hrx & HwR & HbOa & HaR & Hlt).
  pose proof (dest_bounds d Hd) as [Hdb _]. inversion Hab as [|? ? Hxb _]; subst.
  unfold set_mapping_step. rewrite (bind_run _ _ _ _ _ (get_slot_rule _ _ _ _ _ _ Hs)).
  rewrite !slot_end_val by done. cbv zeta. rewrite Hfd. cbn [negb].
  destruct (Z.ltb_spec de (ms_base_gfn x)) as [Hgt|Hle].
  { eexists _, g. split; [done|]. apply (phase_exit Oa P (x :: R) ls g); try done.
    by wf. }
  destruct (enqueue_if_rule (ms_base_gfn x <? de) _ _ _ x _ Hs Hok Hf)
    as ([ret snap] & g1 & Hrun1 & Hok1 & Hs1 & Hr1); [by eapply slot_referenced|].
  rewrite (bind_run _ _ _ _ _ Hrun1). cbn [fst snd] in *.
  destruct Hr1 as [[-> Hna]|[-> Hf1]]; cbn [negb Z.eqb].
  { eexists _, g1. split; [done|]. split_and!; try done. cbn. eauto. }
  assert (Htx : touched d (Oa ++ [x]) = touched d Oa ++ if ms_base_gfn x <? de then [x] else []).
  { rewrite touched_app by done. f_equal. destruct (Z.ltb_spec (ms_base_gfn x) de).
    - by rewrite filter_cons_True. - by rewrite filter_cons_False by lia. }
  destruct (memslot_is_inner_rule _ P x R g1 Hrx (sw_range _ HwR) Hs1) as (inner & Hin & Hi1 & Hi2).
  rewrite (bind_run _ _ _ _ _ Hin). apply Sx_rebase in Hs1 as Hs1'.
  assert (Hbase : forall l g2, St g1 l (blocks_of snap ++ rs) g2 ->
    St g0 l (blocks_of snap ++ rs) g2 /\ snap_ok snap g2).
  { intros l g2 Hl. split; [by eapply Sx_base; [apply (st_evo _ _ _ _ Hs1)|]|].
    eapply snap_ok_mono; [done|]. apply (ev_next _ _ (st_evo _ _ _ _ Hl)). }
  destruct inner.
  - specialize (Hi1 eq_refl). destruct (delete_rule _ _ _ _ _ _ Hs1') as (g2 & Hrun2 & Hs2).
    rewrite (bind_run _ _ _ _ _ Hrun2). destruct (Hbase _ _ Hs2) as [Hs2' Hok2].
    eexists _, g2. split; [done|]. exists P. split.
    + by rewrite <- app_assoc.
    + done.
    + split; [done|]. by rewrite Htx.
    + right. cbn. split_and!; [done| | | |].
      * by apply phase_inner.
      * apply Forall_app. split; [done|]. by constructor.
      * eapply all_after_weaken; [exact HaR|]. lia.
      * apply Exists_app. by left.
  - specialize (Hi2 eq_refl).
    destruct (process_end_rule g1 d is_valid (blocks_of snap ++ rs) Hd
      ltac:(intros; apply elem_of_app; right; by apply Hblk) O Oa R P x
      (ls_state ls) HO HwO (conj Hxb Hle) Hi2 Hph g1 Hs1') as (ret & g2 & Hrun2 & Hpost).
    rewrite (bind_run _ _ _ _ _ Hrun2).
    destruct Hpost as [(-> & Hna & l & Hs2)|(-> & l & Hs2 & Hfin)];
      destruct (Hbase _ _ Hs2) as [Hs2' Hok2]; cbn [negb Z.eqb].
    + eexists _, g2. split; [done|]. split_and!; try done. cbn. eauto.
    + eexists _, g2. split; [done|]. split; [|left; split; [done|]; cbn; eauto].
      split; [done|]. cbn [ls_snapshot].
      rewrite HO, cons_middle, app_assoc, touched_app by (apply Exists_app; by left).
      rewrite filter_after, app_nil_r, Htx; [done|].
      eapply all_after_weaken; [exact HaR|]. lia.
Qed.

Lemma step_rule Oa P x R ls g :
  loop_inv Oa P (x :: R) ls g ->
  exists r g', set_mapping_step d is_valid (ms_addr x) ls g = Some (r, g') /\
               step_post x Oa R r g'.
Proof.
  intros Hli. destruct (li_phase _ _ _ _ _ Hli) as [(Hnf & Hst & -> & Hsk & _)|(Hfd & _)].
  - destruct (Z.lt_ge_cases (s_end x) db); [by apply step_skip|by apply step_start].
  - by eapply step_follow.
Qed.

(** ** The loop *)
Definition loop_post (r : flow * Z * loop_state) (g' : st) : Prop :=
  match r.1.1 with
  | Out ret => loop_failed ret r.2 g'
  | _ => loop_done r.1.2 r.2 g'
  end.

(** Two more rounds of fuel than slots are enough: the loop ends. *)
Lemma loop_rule fuel S : forall Oa P ls g m,
  (length S < fuel)%nat -> loop_inv Oa P S ls g ->
  m = match S with [] => m | _ :: S' => nl_first S' end ->
  exists r g', set_mapping_loop fuel d is_valid (nl_first S) m ls g = Some (r, g') /\
               loop_post r g'.
Proof.
  revert S. induction fuel as [|fuel IH]; intros S Oa P ls g m Hf Hli Hm; [lia|].
  cbn [set_mapping_loop]. destruct S as [|x S].
  { cbn [nl_first]. rewrite Z.eqb_refl. eexists _, g. split; [done|]. cbn.
    destruct Hli as [HO Hs Hsn [(_ & _ & _ & _ & ?)|(_ & Hph & Hb & _ & Hex)]]; [done|].
    by apply (phase_exit Oa P [] ls g). }
  cbn [nl_first]. change (node_key x) with (ms_addr x).
  rewrite (proj2 (Z.eqb_neq _ _)) by (eapply addr_ne; apply (li_st _ _ _ _ _ Hli)).
  destruct (step_rule _ _ _ _ _ _ Hli) as ([fl ls'] & g1 & Hrun & Hpost).
  rewrite (bind_run _ _ _ _ _ Hrun). cbn in Hf. destruct fl as [| |ret]; cbn in Hpost.
  - destruct Hpost as (P' & Hli').
    assert (Hnext : exists m', slot_next m g1 = Some (m', g1) /\
      m' = match S with [] => m' | _ :: S' => nl_first S' end).
    { subst m. destruct S as [|y S].
      - eexists. split; [|done]. unfold slot_next. rewrite gets_run. done.
      - eexists. split; [|done]. eapply next_rule. apply (li_st _ _ _ _ _ Hli'). }
    destruct Hnext as (m' & Hrun2 & Hm'). rewrite (bind_run _ _ _ _ _ Hrun2). subst m.
    apply (IH S (Oa ++ [x]) P'); [lia|done|done].
  - eexists _, g1. by split.
  - eexists _, g1. by split.
Qed.
End Step.
