(* ===== verification/MemslotNotify.v ===== *)
(** * Notification of the listeners of a guest address space

    [mapping_broadcast] tells the listeners which frames changed.  Its effect on the
    listeners' data is the fold of a list of notes, computed from the snapshot; the
    main lemma shows that every frame that was backed by memory and is now backed
    differently is in the range of a removal or change note. *)

From stdpp Require Import base numbers list gmap.
From Stdlib Require Import ZArith Lia Sorted.
From S2P Require Import Prelude HaxList Bitmap MemTypes Ramblock Memslot MemslotSpec.
From S2P Require Import MemslotOwn MemslotPhase MemslotLoop.
#[local] Open Scope Z_scope.

Definition note : Type := option memslot_mapping * option memslot_mapping.

Section Notify.
Context {HH : Host} {E : Type}.
Notation st := (hax_gpa_space E).
Implicit Types (g : st) (e : E) (l : hax_gpa_space_listener E) (k : list hax_memslot).

(** The callback of [l] for a hole or slot mapping, applied to the data. *)
Definition call_added (m : memslot_mapping) l e : option E :=
  match mapping_added l with
  | Some cb => cb (mp_start_gfn m) (mp_npages m) (mp_new_uva m) (u8 (mp_new_flags m)) e
  | None => Some e
  end.

Definition call_removed (m : memslot_mapping) l e : option E :=
  match mapping_removed l with
  | Some cb => cb (mp_start_gfn m) (mp_npages m) (mp_old_uva m) (u8 (mp_old_flags m)) e
  | None => Some e
  end.

Definition call_changed (m : memslot_mapping) l e : option E :=
  match mapping_changed l with
  | Some cb => cb (mp_start_gfn m) (mp_npages m) (mp_old_uva m) (u8 (mp_old_flags m))
                  (mp_new_uva m) (u8 (mp_new_flags m)) e
  | None => Some e
  end.

Definition note_hole (h : option memslot_mapping) l e : option E :=
  match h with
  | Some m => match mp_callback m with MAPPING_ADDED => call_added m l e | _ => Some e end
  | None => Some e
  end.

Definition note_slot (s : option memslot_mapping) l e : option E :=
  match s with
  | Some m => match mp_callback m with
              | MAPPING_REMOVED => call_removed m l e
              | MAPPING_CHANGED => call_changed m l e
              | _ => Some e
              end
  | None => Some e
  end.

Fixpoint note_each (n : note) (ls : list (hax_gpa_space_listener E)) e : option E :=
  match ls with
  | [] => Some e
  | l :: rest => e1 ← note_hole n.1 l e; e2 ← note_slot n.2 l e1; note_each n rest e2
  end.

Fixpoint notes_run (ns : list note) (ls : list (hax_gpa_space_listener E)) e : option E :=
  match ns with
  | [] => Some e
  | n :: rest => e' ← note_each n ls e; notes_run rest ls e'
  end.

Lemma notes_run_app ns1 ns2 ls e :
  notes_run (ns1 ++ ns2) ls e = e' ← notes_run ns1 ls e; notes_run ns2 ls e'.
Proof.
  revert e. induction ns1 as [|n ns1 IH]; intros e; [done|]. cbn.
  destruct (note_each n ls e); [cbn; apply IH|done].
Qed.

(** A range of guest frames that the system supports. *)
Definition mapping_bounded (m : memslot_mapping) : Prop :=
  0 <= mp_start_gfn m /\ 0 <= mp_npages m /\ mp_start_gfn m + mp_npages m <= GFN_MAX.

(** What a listener promises: on data that satisfies [I] its callbacks return, and [I]
    holds again; removals and changes are of supported ranges. *)
Definition listeners_ok (I : E -> Prop) (ls : list (hax_gpa_space_listener E)) : Prop :=
  Forall (fun l =>
    (forall m e, I e -> exists e', call_added m l e = Some e' /\ I e') /\
    (forall m e, mapping_bounded m -> I e -> exists e', call_removed m l e = Some e' /\ I e') /\
    (forall m e, mapping_bounded m -> I e -> exists e', call_changed m l e = Some e' /\ I e')) ls.

(** The removal or change of a note, if it has one, is of a supported range. *)
Definition note_bounded (n : note) : Prop :=
  match n.2 with
  | Some m => mp_callback m = MAPPING_REMOVED \/ mp_callback m = MAPPING_CHANGED ->
              mapping_bounded m
  | None => True
  end.

Lemma note_each_total I n ls e :
  listeners_ok I ls -> note_bounded n -> I e -> exists e', note_each n ls e = Some e' /\ I e'.
Proof.
  intros Hl Hn. revert e. induction Hl as [|l ls (Ha & Hr & Hc) Hl IH]; intros e He; [by eexists|].
  cbn. assert (exists e1, note_hole n.1 l e = Some e1 /\ I e1) as (e1 & -> & He1).
  { unfold note_hole. destruct n.1 as [m|]; [destruct (mp_callback m)|]; eauto. }
  cbn. assert (exists e2, note_slot n.2 l e1 = Some e2 /\ I e2) as (e2 & -> & He2).
  { unfold note_slot, note_bounded in *.
    destruct n.2 as [m|]; [destruct (mp_callback m)|]; eauto. }
  cbn. by apply IH.
Qed.

(** [call_listener] runs a callback on the listeners' data. *)
Lemma call_listener_run (cb : option (E -> option E)) g e' :
  match cb with Some f => f (gs_opaque g) | None => Some (gs_opaque g) end = Some e' ->
  call_listener cb g = Some (tt, with_opaque e' g).
Proof.
  unfold call_listener. destruct cb as [f|].
  - intros Hf. rewrite gets_run, (of_option_run _ _ _ _ Hf). done.
  - intros [= <-]. by destruct g.
Qed.

Lemma with_opaque_opaque e1 e2 g : with_opaque e2 (with_opaque e1 g) = with_opaque e2 g.
Proof. done. Qed.

Lemma notify_one_run h s l g e' :
  (e1 ← note_hole h l (gs_opaque g); note_slot s l e1) = Some e' ->
  notify_one h s l g = Some (tt, with_opaque e' g).
Proof.
  destruct (note_hole h l (gs_opaque g)) as [e1|] eqn:Hh; [cbn|done]. intros Hs.
  unfold notify_one. rewrite (bind_run _ _ g tt (with_opaque e1 g)).
  - unfold note_slot in Hs. destruct s as [m|]; [|by inversion Hs].
    destruct (mp_callback m); try (by inversion Hs);
      rewrite (call_listener_run _ _ e'); [done| |done|];
      unfold call_removed, call_changed in Hs; cbn;
      [destruct (mapping_removed l)|destruct (mapping_changed l)]; done.
  - unfold note_hole in Hh. destruct h as [m|]; [destruct (mp_callback m)|];
      try (inversion Hh; by destruct g).
    apply call_listener_run. unfold call_added in Hh. by destruct (mapping_added l).
Qed.

Lemma notify_each_run h s ls g e' :
  note_each (h, s) ls (gs_opaque g) = Some e' ->
  notify_each h s ls g = Some (tt, with_opaque e' g).
Proof.
  revert g. induction ls as [|l ls IH]; intros g; cbn.
  - intros [= <-]. by destruct g.
  - destruct (note_hole h l (gs_opaque g)) as [e1|] eqn:Hh; [cbn|done].
    destruct (note_slot s l e1) as [e2|] eqn:Hs; [cbn|done]. intros Hr.
    rewrite (bind_run _ _ _ _ _ (notify_one_run h s l g e2 ltac:(rewrite Hh; exact Hs))).
    by rewrite (IH (with_opaque e2 g)).
Qed.

Lemma Sx_opaque g0 k rf g e :
  Sx g0 k rf g -> Sx (with_opaque e g0) k rf (with_opaque e g).
Proof.
  intros [Hl Hr Hrf Hk Ha He]. split; try done.
  - by destruct Hr.
  - destruct He. by split.
Qed.

(** Notifying the listeners changes their data only. *)
Lemma notify_rule I g0 k rf g h s :
  Sx g0 k rf g -> listeners_ok I (gs_listener_list g0) -> I (gs_opaque g0) ->
  note_bounded (h, s) ->
  exists e', mapping_notify_listeners h s g = Some (tt, with_opaque e' g) /\
    note_each (h, s) (gs_listener_list g0) (gs_opaque g0) = Some e' /\ I e' /\
    Sx (with_opaque e' g0) k rf (with_opaque e' g).
Proof.
  intros Hs Ht Hi Hb. pose proof (st_evo _ _ _ _ Hs) as He.
  unfold mapping_notify_listeners. rewrite gets_run, (ev_listeners _ _ He).
  rewrite <- (ev_opaque _ _ He) in Hi.
  destruct (note_each_total I (h, s) _ (gs_opaque g) Ht Hb Hi) as (e' & Hn & Hi'). exists e'.
  split_and!; [by apply notify_each_run|by rewrite <- (ev_opaque _ _ He)|done|by apply Sx_opaque].
Qed.

(** ** The notes of a broadcast *)
(** The base address of a block, for the block addresses of slots. *)
Definition block_uva g (p : Z) : Z :=
  match nl_get p (gs_ramblock_list g) with Some b => rb_base_uva b | None => 0 end.

Fixpoint loop_notes (mapping : memslot_mapping) (dest : hax_memslot) (is_valid : bool)
    (begin end_ : Z) (uva : Z -> Z) (hole slot : memslot_mapping)
    (snapshot : list hax_memslot) : list note * memslot_mapping :=
  match snapshot with
  | [] => ([], hole)
  | src :: rest =>
      let is_terminal := ((ms_addr src =? begin) || (ms_addr src =? end_))%bool in
      let is_changed := mapping_is_changed dest src is_valid is_terminal in
      let hs := mapping_calc_change mapping src (uva (ms_block src)) is_valid is_terminal
                  is_changed hole slot in
      let hole' := Mapping (mp_callback hs.1) (ms_base_gfn src +! ms_npages src)
                     (mp_npages hs.1) (mp_old_uva hs.1) (mp_old_flags hs.1)
                     (mp_new_uva hs.1) (mp_new_flags hs.1) in
      let r := loop_notes mapping dest is_valid begin end_ uva hole' hs.2 rest in
      ((Some hs.1, Some hs.2) :: r.1, r.2)
  end.

(** The note for the frames after the last slot. *)
Definition tail_note (mapping hole : memslot_mapping) : list note :=
  if mp_start_gfn hole <? mp_start_gfn mapping +! mp_npages mapping then
    [(Some (Mapping MAPPING_ADDED (mp_start_gfn hole)
              ((mp_start_gfn mapping +! mp_npages mapping) -! mp_start_gfn hole)
              (mp_old_uva hole) (mp_old_flags hole)
              (mp_new_uva mapping +!
                 ((mp_start_gfn hole -! mp_start_gfn mapping) <<! PG_ORDER_4K))
              (mp_new_flags mapping)), None)]
  else [].

Definition broadcast_notes (mapping : memslot_mapping) (dest : hax_memslot)
    (uva : Z -> Z) (snapshot : list hax_memslot) : list note :=
  match snapshot with
  | [] => [(Some (Mapping MAPPING_ADDED (mp_start_gfn mapping) (mp_npages mapping)
                    (mp_old_uva mapping) (mp_old_flags mapping) (mp_new_uva mapping)
                    (mp_new_flags mapping)), None)]
  | first :: rest =>
      let is_valid := memslot_is_valid (mp_new_flags mapping) in
      let r := loop_notes mapping dest is_valid (ms_addr first)
                 (ms_addr (List.last rest first)) uva
                 (Mapping NO_CALLBACK (mp_start_gfn mapping) 0 0 0 0 0)
                 (Mapping NO_CALLBACK 0 0 0 0 0 0) snapshot in
      r.1 ++ (if is_valid then tail_note mapping r.2 else [])
  end.

Lemma block_uva_evo g0 g p b :
  evo g0 g -> nl_get p (gs_ramblock_list g) = Some b -> rb_base_uva b = block_uva g0 p.
Proof.
  intros He Hg. destruct (ev_blocks _ _ He _ _ Hg) as (b0 & Hg0 & (_ & Hb & _) & _).
  unfold block_uva. by rewrite Hg0.
Qed.

Lemma broadcast_loop_rule I mapping dest is_valid begin end_ snap : forall g0 hole slot k rs g,
  St g0 k (blocks_of snap ++ rs) g -> listeners_ok I (gs_listener_list g0) -> I (gs_opaque g0) ->
  Forall note_bounded
    (loop_notes mapping dest is_valid begin end_ (block_uva g0) hole slot snap).1 ->
  exists e' g',
    broadcast_loop mapping dest is_valid begin end_ hole slot snap g =
      Some ((loop_notes mapping dest is_valid begin end_ (block_uva g0) hole slot snap).2, g') /\
    notes_run (loop_notes mapping dest is_valid begin end_ (block_uva g0) hole slot snap).1
      (gs_listener_list g0) (gs_opaque g0) = Some e' /\ I e' /\
    St (with_opaque e' g0) k rs g'.
Proof.
  induction snap as [|src snap IH]; intros g0 hole slot k rs g Hs Ht Hi.
  { intros _. exists (gs_opaque g0), g. split_and!; [done|done|done|]. by destruct g0. }
  cbn [broadcast_loop loop_notes fst snd]. cbv zeta. intros [Hb1 Hb]%Forall_cons.
  set (tm := ((ms_addr src =? begin) || (ms_addr src =? end_))%bool).
  destruct (referenced _ _ _ _ (ms_block src) Hs) as (_ & b & Hg & _).
  { cbn. rewrite refs_cons, decide_True by done.
    pose proof (refs_nonneg k (blocks_of snap ++ rs) (ms_block src)). lia. }
  rewrite (bind_run _ _ _ _ _ (get_block_run _ _ _ Hg)).
  rewrite (block_uva_evo _ _ _ _ (st_evo _ _ _ _ Hs) Hg).
  destruct (mapping_calc_change _ _ _ _ _ _ _ _) as [h s] eqn:Hc. cbn [fst snd] in *.
  destruct (notify_rule I _ _ _ _ (Some h) (Some s) Hs Ht Hi Hb1) as (e1 & Hrun1 & Hn1 & Hi1 & Hs1).
  rewrite (bind_run _ _ _ _ _ Hrun1).
  destruct (deref_rule (with_opaque e1 g0) k _ (with_opaque e1 g) (ms_block src) Hs1) as (g2 & Hrun2 & Hs2).
  erewrite bind_run by exact Hrun2.
  destruct (IH _ (Mapping (mp_callback h) (ms_base_gfn src +! ms_npages src) (mp_npages h)
    (mp_old_uva h) (mp_old_flags h) (mp_new_uva h) (mp_new_flags h)) s k rs g2 Hs2 Ht Hi1 Hb)
    as (e2 & g3 & Hrun3 & Hn2 & Hi2 & Hs3).
  exists e2, g3. split_and!; [exact Hrun3| |exact Hi2|exact Hs3].
  cbn [notes_run]. rewrite Hn1. exact Hn2.
Qed.

(** [mapping_broadcast] runs the notes and drops the references of the snapshot,
    or there is nobody to notify. *)
Lemma mapping_broadcast_rule I mapping dest snap g0 k rs g :
  St g0 k (blocks_of snap ++ rs) g -> listeners_ok I (gs_listener_list g0) -> I (gs_opaque g0) ->
  Forall note_bounded (broadcast_notes mapping dest (block_uva g0) snap) ->
  exists left e' g', mapping_broadcast mapping dest snap g = Some (left, g') /\
    notes_run (broadcast_notes mapping dest (block_uva g0) snap)
      (gs_listener_list g0) (gs_opaque g0) = Some e' /\
    St (with_opaque e' g0) k (blocks_of left ++ rs) g'.
Proof.
  intros Hs Ht Hi Hnb. unfold mapping_broadcast. rewrite gets_run.
  rewrite (ev_listeners _ _ (st_evo _ _ _ _ Hs)).
  destruct (gs_listener_list g0) as [|l0 ls0] eqn:Hls.
  { exists snap, (gs_opaque g0), g. split_and!; [done| |by destruct g0].
    assert (Hnil : forall ns (e : E), notes_run ns [] e = Some e) by (induction ns; done).
    apply Hnil. }
  rewrite <- Hls in *. destruct snap as [|first rest].
  - destruct (notify_rule I _ _ _ _ (Some (Mapping MAPPING_ADDED (mp_start_gfn mapping)
      (mp_npages mapping) (mp_old_uva mapping) (mp_old_flags mapping) (mp_new_uva mapping)
      (mp_new_flags mapping))) None Hs Ht Hi Logic.I) as (e1 & Hrun1 & Hn1 & _ & Hs1).
    rewrite (bind_run _ _ _ _ _ Hrun1). exists [], e1, (with_opaque e1 g).
    split_and!; [done| |done]. cbn [broadcast_notes notes_run]. by rewrite Hn1.
  - unfold broadcast_notes in *. cbv zeta in *. apply Forall_app in Hnb as [Hnb _].
    set (v := memslot_is_valid (mp_new_flags mapping)).
    set (h0 := Mapping NO_CALLBACK (mp_start_gfn mapping) 0 0 0 0 0).
    destruct (broadcast_loop_rule I mapping dest v (ms_addr first) (ms_addr (List.last rest first))
      (first :: rest) g0 h0 (Mapping NO_CALLBACK 0 0 0 0 0 0) k rs g Hs Ht Hi Hnb)
      as (e1 & g1 & Hrun1 & Hn1 & Hi1 & Hs1).
    rewrite (bind_run _ _ _ _ _ Hrun1).
    set (r := loop_notes _ _ _ _ _ _ _ _ _) in *. clearbody r. unfold tail_note.
    destruct v; cbn [andb];
      [destruct (mp_start_gfn r.2 <? mp_start_gfn mapping +! mp_npages mapping)|].
    + match goal with |- context [mapping_notify_listeners ?h None] =>
        destruct (notify_rule I _ _ _ _ h None Hs1 Ht Hi1 Logic.I) as (e2 & Hrun2 & Hn2 & _ & Hs2) end.
      erewrite bind_run by exact Hrun2. exists [], e2, (with_opaque e2 g1).
      split_and!; [done| |by rewrite with_opaque_opaque in Hs2].
      rewrite notes_run_app, Hn1. cbn [notes_run mbind option_bind].
      change (gs_opaque (with_opaque e1 g0)) with e1 in Hn2.
      change (gs_listener_list (with_opaque e1 g0)) with (gs_listener_list g0) in Hn2.
      by rewrite Hn2.
    + exists [], e1, g1. split_and!; [done| |done]. by rewrite app_nil_r.
    + exists [], e1, g1. split_and!; [done| |done]. by rewrite app_nil_r.
Qed.
End Notify.

(** ** Every changed frame is noted *)
Section Cover.
Context {HH : Host}.

(** [gfn] is in the range of a removal or change note. *)
Definition note_covers (gfn : Z) (n : note) : Prop :=
  match n.2 with
  | Some m => (mp_callback m = MAPPING_REMOVED \/ mp_callback m = MAPPING_CHANGED) /\
              mp_start_gfn m <= gfn < mp_start_gfn m + mp_npages m
  | None => False
  end.

Definition noted (gfn : Z) (ns : list note) : Prop := Exists (note_covers gfn) ns.

Lemma covers_iff s gfn : covers s gfn = true <-> ms_base_gfn s <= gfn < s_end s.
Proof. unfold covers. rewrite andb_true_iff, Z.leb_le, Z.ltb_lt. done. Qed.

Lemma calc_change_covers m d s uva v tm hole slot gfn :
  range_wf d -> range_wf s -> mp_start_gfn m = ms_base_gfn d -> mp_npages m = ms_npages d ->
  covers s gfn = true -> covers d gfn = true ->
  v = false \/ slot_line s <> slot_line d ->
  note_covers gfn (None,
    Some (mapping_calc_change m s uva v tm (mapping_is_changed d s v tm) hole slot).2).
Proof.
  intros Hd Hs Hms Hmn Hcs Hcd Hv. apply covers_iff in Hcs, Hcd.
  destruct (range_bounds d Hd) as (? & ? & ? & ? & ?).
  destruct (range_bounds s Hs) as (? & ? & ? & ? & ?).
  assert (Hch : mapping_is_changed d s v tm = true).
  { unfold mapping_is_changed. rewrite !slot_end_val by done.
    rewrite !(proj2 (Z.ltb_lt _ _)) by lia.
    destruct tm; cbn; rewrite andb_true_r.
    all: destruct Hv as [->|Hne]; [done|]; destruct v; [|done]; cbn; rewrite orb_false_r;
      apply negb_true_iff, not_true_is_false; intros Ht;
      apply memslot_is_same_type_spec in Ht; congruence || done. }
  rewrite Hch. unfold mapping_calc_change. cbn [snd]. unfold note_covers. cbn [snd].
  unfold s_end in *. destruct tm.
  - unfold mapping_intersect. cbn [mp_callback mp_start_gfn mp_npages].
    rewrite Hms, Hmn, !(u64_small (_ + _)) by lia. rewrite u64_small by lia.
    split; [destruct v; auto|lia].
  - cbn. split; [destruct v; auto|lia].
Qed.

(** The slot of a note is part of a slot of the snapshot. *)
Lemma calc_change_bounded m d s uva v tm hole slot :
  range_wf d -> range_wf s -> mp_start_gfn m = ms_base_gfn d -> mp_npages m = ms_npages d ->
  forall h, note_bounded
    (h, Some (mapping_calc_change m s uva v tm (mapping_is_changed d s v tm) hole slot).2).
Proof.
  intros Hd Hs Hms Hmn h. unfold note_bounded, mapping_calc_change. cbn [snd].
  destruct (range_bounds d Hd) as (? & ? & ? & ? & ?).
  destruct (range_bounds s Hs) as (? & ? & ? & ? & ?).
  destruct (mapping_is_changed d s v tm) eqn:Hch; [intros _|intros [[=]|[=]]].
  unfold mapping_is_changed in Hch. rewrite !slot_end_val in Hch by done.
  apply andb_prop in Hch as [_ Hch]. unfold mapping_bounded, GFN_MAX, s_end in *. destruct tm.
  - cbn [andb negb] in Hch. rewrite orb_false_r in Hch. bool_hyps.
    unfold mapping_intersect. cbn [mp_start_gfn mp_npages].
    rewrite Hms, Hmn, !(u64_small (_ + _)) by lia. rewrite u64_small by lia. lia.
  - cbn. lia.
Qed.

Lemma loop_notes_bounded m d v begin end_ uva snap : forall hole slot,
  range_wf d -> mp_start_gfn m = ms_base_gfn d -> mp_npages m = ms_npages d ->
  Forall range_wf snap -> Forall note_bounded (loop_notes m d v begin end_ uva hole slot snap).1.
Proof.
  induction snap as [|x snap IH]; intros hole slot Hd Hms Hmn Hs; [constructor|].
  apply Forall_cons in Hs as [Hx Hs]. cbn. constructor; [|by apply IH].
  by apply (calc_change_bounded m d x _ _ _ hole slot).
Qed.

Lemma broadcast_notes_bounded m d uva snap :
  range_wf d -> mp_start_gfn m = ms_base_gfn d -> mp_npages m = ms_npages d ->
  Forall range_wf snap -> Forall note_bounded (broadcast_notes m d uva snap).
Proof.
  intros Hd Hms Hmn Hs. unfold broadcast_notes. destruct snap as [|f rest]; [by repeat constructor|].
  cbv zeta. apply Forall_app. split; [by apply loop_notes_bounded|].
  unfold tail_note. case_match; [|constructor]. case_match; by repeat constructor.
Qed.

Lemma loop_notes_cover m d v begin end_ uva gfn s snap : forall hole slot,
  range_wf d -> mp_start_gfn m = ms_base_gfn d -> mp_npages m = ms_npages d ->
  s ∈ snap -> range_wf s -> covers s gfn = true -> covers d gfn = true ->
  v = false \/ slot_line s <> slot_line d ->
  noted gfn (loop_notes m d v begin end_ uva hole slot snap).1.
Proof.
  induction snap as [|x snap IH]; intros hole slot Hd Hms Hmn Hin Hs Hcs Hcd Hv.
  { by apply not_elem_of_nil in Hin. }
  cbn. apply elem_of_cons in Hin as [<-|Hin].
  - constructor 1. by apply (calc_change_covers m d s _ _ _ hole slot).
  - constructor 2. by apply IH.
Qed.

Lemma lookup_elem l gfn ln :
  slot_lookup l gfn = Some ln -> exists s, s ∈ l /\ covers s gfn = true /\ slot_line s = ln.
Proof.
  induction l as [|x l IH]; [done|]. cbn. destruct (covers x gfn) eqn:Hc.
  - intros [= <-]. exists x. split_and!; [set_solver|done|done].
  - intros (s & ? & ? & ?)%IH. exists s. split_and!; [set_solver|done|done].
Qed.

Lemma lookup_none_elem l gfn s :
  slot_lookup l gfn = None -> s ∈ l -> covers s gfn = false.
Proof.
  induction l as [|x l IH]; [by intros _ ?%not_elem_of_nil|]. cbn.
  destruct (covers x gfn) eqn:Hc; [done|]. intros Hl [->|Hs]%elem_of_cons; auto.
Qed.

Lemma touched_overlapping d l s gfn :
  s ∈ l -> covers s gfn = true -> covers d gfn = true -> s ∈ touched d l.
Proof.
  intros Hin Hc Hcd. apply covers_iff in Hc, Hcd. induction l as [|x l IH]; [done|]. cbn.
  apply elem_of_cons in Hin as [<-|Hin].
  - rewrite (proj2 (Z.leb_le _ _)), (proj2 (Z.ltb_lt _ _)) by lia. set_solver.
  - destruct (ms_base_gfn d <=? s_end x); [|auto]. apply elem_of_app. right.
    apply list_elem_of_filter. split; [lia|done].
Qed.

Lemma touched_in d l s : s ∈ touched d l -> s ∈ l.
Proof.
  induction l as [|x l IH]; [done|]. cbn. destruct (ms_base_gfn d <=? s_end x).
  - intros [Hx|[_ Hx]%list_elem_of_filter]%elem_of_app; [|set_solver].
    destruct (ms_base_gfn d <? s_end x); set_solver.
  - intros Hx%IH. set_solver.
Qed.

(** A frame of the range that was backed otherwise is noted. *)
Lemma broadcast_notes_cover m d uva O snap gfn ln :
  range_wf d -> mp_start_gfn m = ms_base_gfn d -> mp_npages m = ms_npages d ->
  slots_wf O -> Forall2 same_contents snap (touched d O) ->
  slot_lookup O gfn = Some ln -> covers d gfn = true ->
  memslot_is_valid (mp_new_flags m) = false \/ ln <> slot_line d ->
  noted gfn (broadcast_notes m d uva snap).
Proof.
  intros Hd Hms Hmn HwO Hsn Hlk Hcd Hv.
  destruct (lookup_elem _ _ _ Hlk) as (y & Hy & Hcy & <-).
  pose proof (touched_overlapping d O y gfn Hy Hcy Hcd) as Ht.
  apply list_elem_of_lookup in Ht as [i Hi].
  destruct (Forall2_lookup_r _ _ _ _ _ Hsn Hi) as (s & Hsi & Hc).
  apply list_elem_of_lookup_2 in Hsi.
  assert (Hry : range_wf y) by (destruct HwO as [Hr _]; rewrite Forall_forall in Hr; auto).
  destruct (same_contents_end _ _ Hc) as [Hce Hcb].
  unfold broadcast_notes. destruct snap as [|f rest]; [by apply not_elem_of_nil in Hsi|].
  cbv zeta. apply Exists_app. left. apply (loop_notes_cover m d _ _ _ _ _ s); try done.
  - by eapply same_contents_range.
  - apply covers_iff. rewrite Hce, Hcb. by apply covers_iff.
  - by rewrite (same_contents_line _ _ Hc).
Qed.
End Cover.
