(* ===== verification/MemslotCorrect.v ===== *)
(** * memslot_set_mapping implements the guest physical address map

    The abstract state of a guest address space is the function [gfn_uva] from guest
    frames to the user virtual address that backs them and their read-only bit.
    Setting a mapping over a range of frames updates this function on the range and
    nowhere else. *)

From stdpp Require Import base numbers list gmap.
From Stdlib Require Import ZArith Lia Sorted.
From S2P Require Import Prelude HaxList Bitmap MemTypes Ramblock Memslot MemslotSpec.
From S2P Require Import MemslotOwn MemslotPhase MemslotLoop MemslotNotify.
#[local] Open Scope Z_scope.

Section Correct.
Context {HH : Host} {E : Type}.
Notation st := (hax_gpa_space E).
Implicit Types (g : st) (l : list hax_memslot).

(** Every block is referenced exactly by the slots that map it, and the lists are
    well linked. *)
Definition own_inv g : Prop := St g (gs_memslot_list g) [] g.

(** The invariant of a guest address space. *)
Record space_inv g : Prop := {
  si_own : own_inv g;
  si_slots : slots_wf (gs_memslot_list g);
}.

(** The address and the read-only bit behind a frame. *)
Definition gfn_uva g (gfn : Z) : option (Z * Z) :=
  match slot_lookup (gs_memslot_list g) gfn with
  | Some ln =>
      match nl_get (ln_block ln) (gs_ramblock_list g) with
      | Some b => Some (rb_base_uva b + line_offset ln gfn, ln_readonly ln)
      | None => None
      end
  | None => None
  end.

(** ** Finding the RAM block *)
(** [g'] has one more reference to block [p], which contains [uva]. *)
Definition block_taken g (p uva : Z) g' : Prop :=
  St g' (gs_memslot_list g) [p] g' /\ ram_frame g g' /\
  (forall q b, nl_get q (gs_ramblock_list g) = Some b ->
     exists b', nl_get q (gs_ramblock_list g') = Some b' /\ same_range b b' /\
                rb_chunks b' = rb_chunks b) /\
  exists b, nl_get p (gs_ramblock_list g') = Some b /\ block_covers uva b.

(** The state is as before, up to the host. *)
Definition space_same g g' : Prop :=
  own_inv g' /\ ram_frame g g' /\ gs_ramblock_list g' = gs_ramblock_list g.

Lemma space_same_own g g' :
  own_inv g -> ram_inv g' -> ram_frame g g' -> gs_ramblock_list g' = gs_ramblock_list g ->
  space_same g g'.
Proof.
  intros [Hl Hr Hrf Hk Ha _] Hr' Hf Hb. pose proof Hf as (Hm & _ & _ & _ & _ & Hn).
  split_and!; [|done|done]. unfold own_inv. rewrite Hm.
  split; [done|done| |done| |apply evo_refl].
  - intros p. rewrite Hb. apply Hrf.
  - eapply Forall_impl; [exact Ha|]. cbn. lia.
Qed.

Lemma ref_taken g g1 p b uva :
  own_inv g1 -> gs_memslot_list g1 = gs_memslot_list g -> ram_frame g g1 ->
  nl_get p (gs_ramblock_list g1) = Some b -> block_covers uva b ->
  (forall q b, nl_get q (gs_ramblock_list g) = Some b ->
     exists b', nl_get q (gs_ramblock_list g1) = Some b' /\ same_range b b' /\
                rb_chunks b' = rb_chunks b) ->
  exists g', ramblock_ref p g1 = Some (tt, g') /\ block_taken g p uva g'.
Proof.
  intros Hown Hl Hfr Hg Hc Hq. unfold own_inv in Hown. rewrite Hl in Hown.
  destruct (ramblock_ref_run p b g1 (st_ram _ _ _ _ Hown) Hg)
    as (g' & Hrun & Hinv & Hf & Ho & Hg').
  exists g'. split; [done|]. split_and!.
  - eapply Sx_block_core; [exact Hown|done|done|done| | |apply evo_refl].
    + intros q Hne. rewrite refs_cons, decide_False by done. done.
    + rewrite Hg'. cbn. rewrite refs_cons, decide_True by done.
      pose proof (st_refs _ _ _ _ Hown p) as Hrc. rewrite Hg in Hrc. lia.
  - by eapply ram_frame_trans.
  - intros q b0 Hb0. destruct (Hq _ _ Hb0) as (b1 & Hb1 & Hs1).
    destruct (decide (q = p)) as [->|Hne].
    + rewrite Hg in Hb1. simplify_eq. eexists. split; [exact Hg'|done].
    + rewrite Ho by done. eauto.
  - eexists. split; [exact Hg'|]. done.
Qed.

Lemma find_rule uva g :
  own_inv g ->
  exists p g', ramblock_find uva g = Some (p, g') /\
    ((p = 0 /\ g' = g /\ Forall (fun b => ~ block_covers uva b) (gs_ramblock_list g)) \/
     (p <> 0 /\ block_taken g p uva g' /\ Exists (block_covers uva) (gs_ramblock_list g))).
Proof.
  intros Hown. pose proof (st_ram _ _ _ _ Hown) as [[Hnd Hwf Hso] _ _].
  unfold ramblock_find. rewrite gets_run.
  destruct (ramblock_search uva (gs_ramblock_list g)) as [b|] eqn:Hse.
  - apply ramblock_search_spec in Hse as [Hin Hc]; [|done|done].
    assert (Hg : nl_get (rb_addr b) (gs_ramblock_list g) = Some b)
      by by apply (nl_get_elem (H := ramblock_keyed)).
    destruct (ref_taken g g (rb_addr b) b uva Hown eq_refl) as (g' & Hrun & Ht); try done.
    { intros q b0 Hb0. exists b0. by split_and!. }
    rewrite (bind_run _ _ _ _ _ Hrun). eexists _, g'. split; [done|]. right.
    split_and!; [|done|apply Exists_exists; eauto].
    rewrite Forall_forall in Hwf. apply (Hwf b Hin).
  - eexists _, g. split; [done|]. left. split_and!; [done|done|].
    apply Forall_forall. intros b Hin Hc.
    assert (Hse2 : ramblock_search uva (gs_ramblock_list g) = Some b)
      by by apply ramblock_search_spec.
    congruence.
Qed.

(** A new stand-alone block, with one reference. *)
Lemma add_standalone uva size g :
  own_inv g -> 0 <= uva -> 0 < size <= MAX_BLOCK_SIZE -> uva + size < 2 ^ 64 ->
  exists r g',
    (q ← ramblock_add uva size;
     let '(ret, block) := q in
     if (negb (ret =? 0) || (block =? 0))%bool
     then mret (inl (if ret <? 0 then ret else - EINVAL))
     else
       b ← get_block block;
       put_block (set_standalone b);;
       ramblock_ref block;;
       mret (inr block)) g = Some (r, g') /\
    match r with
    | inl ret => (ret = - EINVAL \/ ret = - ENOMEM) /\ space_same g g'
    | inr p => p <> 0 /\ block_taken g p uva g'
    end.
Proof.
  intros Hown Hu Hsz Ht. pose proof (st_ram _ _ _ _ Hown) as Hri.
  destruct (ramblock_add_correct uva size g Hri Hu Hsz Ht)
    as ([ret p] & g1 & Hrun1 & Hri1 & Hpost & Hfr1).
  rewrite (bind_run _ _ _ _ _ Hrun1).
  destruct Hpost as [(Hr & _ & b & Hb & Hp0 & Hnew & Hbu & Hbs & Hrc & Hsa & Hperm)|
    [([= -> ->] & _ & Heq)|([= -> ->] & Heq)]]; cbn [fst snd] in *.
  2,3: eexists _, g1; split; [done|]; split; [cbn; auto|]; by apply space_same_own.
  subst ret. rewrite (proj2 (Z.eqb_neq p 0)) by done. cbn [negb orb Z.eqb].
  pose proof (bsw_nodup _ (ri_blocks _ Hri1)) as Hnd1.
  assert (Hg1 : nl_get p (gs_ramblock_list g1) = Some b).
  { rewrite <- Hb. apply (nl_get_elem (H := ramblock_keyed)); [done|]. rewrite Hperm. set_solver. }
  assert (Ho1 : forall q, q <> p -> nl_get q (gs_ramblock_list g1) = nl_get q (gs_ramblock_list g)).
  { intros q Hq. apply (nl_get_perm_cons (H := ramblock_keyed) q b); [done|done|].
    change (rb_addr b <> q). congruence. }
  rewrite (bind_run _ _ _ _ _ (get_block_run _ _ _ Hg1)).
  destruct (ram_inv_block _ _ _ Hri1 Hg1) as (Hbw & _ & _).
  destruct (put_block_run p b (set_standalone b) g1 Hri1 Hg1)
    as (g2 & Hrun2 & Hri2 & Hg2 & Ho2 & Heq2 & _); [by destruct Hbw|done|].
  rewrite (bind_run _ _ _ _ _ Hrun2).
  assert (Hfr2 : ram_frame g g2).
  { eapply ram_frame_trans; [exact Hfr1|]. rewrite Heq2. apply ram_frame_blocks. }
  pose proof Hfr2 as (Hm2 & _ & _ & _ & _ & Hn2).
  assert (Hnone : nl_get p (gs_ramblock_list g) = None).
  { destruct (nl_get p (gs_ramblock_list g)) as [b0|] eqn:Hg0; [|done].
    apply nl_get_Some in Hg0 as [Hin Hk]. destruct Hnew. apply list_elem_of_fmap. eauto. }
  assert (Hown2 : own_inv g2).
  { destruct Hown as [Hl _ Hrf Hk Ha _]. unfold own_inv. rewrite Hm2.
    split; [done|done| |done| |apply evo_refl].
    - intros q. specialize (Hrf q). destruct (decide (q = p)) as [->|Hne].
      + rewrite Hg2. rewrite Hnone in Hrf. cbn. congruence.
      + by rewrite Ho2, Ho1.
    - eapply Forall_impl; [exact Ha|]. cbn. lia. }
  destruct (ref_taken g g2 p (set_standalone b) uva Hown2 Hm2 Hfr2 Hg2) as (g3 & Hrun3 & Htk).
  { unfold block_covers. cbn. lia. }
  { intros q b0 Hb0. assert (q <> p) by congruence. rewrite Ho2, Ho1 by done. exists b0.
    by split_and!. }
  rewrite (bind_run _ _ _ _ _ Hrun3). eexists _, g3. split; [done|]. done.
Qed.

(** The outcome of finding the block of a new mapping. *)
Definition mapping_block_post g (uva flags : Z) (r : Z + Z) g' : Prop :=
  match r with
  | inl ret => space_same g g' /\ memslot_is_valid flags = true /\
      ((flag_set flags HAX_MEMSLOT_STANDALONE = true /\ (ret = - EINVAL \/ ret = - ENOMEM)) \/
       (ret = - EINVAL /\ Forall (fun b => ~ block_covers uva b) (gs_ramblock_list g)))
  | inr p => if memslot_is_valid flags then p <> 0 /\ block_taken g p uva g' /\
               (flag_set flags HAX_MEMSLOT_STANDALONE = false ->
                Exists (block_covers uva) (gs_ramblock_list g))
             else p = 0 /\ g' = g
  end.

(** The arguments of a mapping are in range: no 64-bit computation wraps around. *)
Record args_ok (start_gfn npages uva flags : Z) : Prop := {
  ao_gfn : 0 <= start_gfn;
  ao_npages : 0 < npages;
  ao_end : start_gfn + npages <= GFN_MAX;
  ao_uva : 0 <= uva < 2 ^ 64;
  ao_standalone : memslot_is_valid flags = true -> flag_set flags HAX_MEMSLOT_STANDALONE = true ->
    npages * 4096 <= MAX_BLOCK_SIZE /\ uva + npages * 4096 < 2 ^ 64;
}.

Lemma mapping_block_rule start_gfn npages uva flags g :
  own_inv g -> args_ok start_gfn npages uva flags ->
  exists r g', mapping_block npages uva flags g = Some (r, g') /\
               mapping_block_post g uva flags r g'.
Proof.
  intros Hown [Hg Hn He Hu Hsa]. unfold mapping_block, mapping_block_post, GFN_MAX in *.
  destruct (memslot_is_valid flags); [|by eexists _, g].
  destruct (flag_set flags HAX_MEMSLOT_STANDALONE).
  - unfold PG_ORDER_4K. rewrite shiftl64_12 by lia. destruct (Hsa eq_refl eq_refl).
    destruct (add_standalone uva (npages * 4096) g Hown) as (r & g' & Hrun & Hr);
      [lia|lia|lia|].
    exists r, g'. split; [done|]. destruct r; destruct Hr; split_and!; auto; congruence.
  - destruct (find_rule uva g Hown) as (p & g' & Hrun & [(-> & -> & Hno)|(Hp & Ht & Hex)]);
      rewrite (bind_run _ _ _ _ _ Hrun).
    + eexists _, g. split; [done|]. split_and!; [|done|by right].
      apply space_same_own; try done. apply (st_ram _ _ _ _ Hown).
    + rewrite (proj2 (Z.eqb_neq p 0)) by done. by eexists _, g'.
Qed.

(** ** The body of memslot_set_mapping *)
Section Body.
Context (g1 : st) (d : hax_memslot) (is_valid : bool) (rs : list Z) (mapping : memslot_mapping).
Context (Hd : range_wf d) (Hblk : is_valid = true -> ms_block d ∈ rs).
Context (Hms : mp_start_gfn mapping = ms_base_gfn d) (Hmn : mp_npages mapping = ms_npages d).
Context (Hmv : memslot_is_valid (mp_new_flags mapping) = is_valid).
Context (I : E -> Prop) (Hls : listeners_ok I (gs_listener_list g1)) (HI : I (gs_opaque g1)).
Context (O : list hax_memslot) (HwO : slots_wf O).

(** The listeners have been told of every frame that changed. *)
Definition notified (e' : E) : Prop :=
  exists ns, notes_run ns (gs_listener_list g1) (gs_opaque g1) = Some e' /\
    Forall note_bounded ns /\
    forall gfn ln, slot_lookup O gfn = Some ln -> covers d gfn = true ->
      is_valid = false \/ ln <> slot_line d -> noted gfn ns.

Definition body_post (r : Z * list hax_memslot) g' : Prop :=
  (r.1 = - ENOMEM /\ ~ alloc_ok /\ exists l, St g1 l (blocks_of r.2 ++ rs) g') \/
  (r.1 = 0 /\ exists l e', St (with_opaque e' g1) l (blocks_of r.2 ++ rs) g' /\
     final_ok d is_valid O l /\ notified e').

(** Broadcasting after the list has its final form. *)
Lemma broadcast_done l snap dest g :
  (snap = [] \/ dest = d) ->
  St g1 l (blocks_of snap ++ rs) g -> final_ok d is_valid O l ->
  Forall2 same_contents snap (touched d O) ->
  exists r g', (left ← mapping_broadcast mapping dest snap; mret (0, left)) g = Some (r, g') /\
               body_post r g'.
Proof.
  intros Hdest Hs Hfin Hsn.
  assert (Hnb : Forall note_bounded (broadcast_notes mapping dest (block_uva g1) snap)).
  { destruct Hdest as [->| ->]; [by repeat constructor|]. apply broadcast_notes_bounded; try done.
    apply Forall_forall. intros s [i Hi]%list_elem_of_lookup.
    destruct (Forall2_lookup_l _ _ _ _ _ Hsn Hi) as (s' & Hs' & Hc).
    eapply same_contents_range; [exact Hc|]. apply list_elem_of_lookup_2, touched_in in Hs'.
    pose proof (sw_range _ HwO) as Hr. rewrite Forall_forall in Hr. auto. }
  destruct (mapping_broadcast_rule I mapping dest snap g1 l rs g Hs Hls HI Hnb)
    as (left & e' & g' & Hrun & Hnr & Hs').
  rewrite (bind_run _ _ _ _ _ Hrun). eexists _, g'. split; [done|]. right. split; [done|].
  exists l, e'. split_and!; [done|done|]. eexists. split; [exact Hnr|]. split; [exact Hnb|].
  intros gfn ln Hlk Hc Hv. rewrite <- Hmv in Hv.
  assert (Hcov : noted gfn (broadcast_notes mapping d (block_uva g1) snap))
    by (by eapply broadcast_notes_cover).
  destruct Hdest as [->| ->]; done.
Qed.

Lemma body_empty g :
  O = [] -> St g1 O rs g ->
  exists r g',
    (if is_valid then
       c ← memslot_dup d;
       match c with
       | None => mret (- ENOMEM, [])
       | Some c =>
           memslot_insert_head c;;
           _ ← mapping_broadcast mapping c [];
           mret (0, [])
       end
     else mret (0, [])) g = Some (r, g') /\ body_post r g'.
Proof.
  intros HO Hs. destruct (Bool.bool_dec is_valid true) as [Hv|Hv%not_true_is_false]; rewrite Hv.
  - destruct (dup_rule _ _ _ _ d Hs) as (r & g2 & Hrun1 & Hr1); [by apply refs_in, Hblk|].
    rewrite (bind_run _ _ _ _ _ Hrun1). destruct r as [c|]; cbn in Hr1.
    2: { destruct Hr1. eexists _, g2. split; [done|]. left. split_and!; [done|done|].
         cbn. eauto. }
    destruct Hr1 as (Hc & Hfr & _ & Hs1).
    assert (Hs2 : St g1 [c] rs (with_memslots (nl_insert_after HEAD c) g2)).
    { pose proof (insert_rule g1 [] O rs g2 c (nl_insert_after HEAD c) Hs1 Hfr) as Hir.
      rewrite HO in Hir. by apply Hir. }
    erewrite bind_run by reflexivity.
    destruct (broadcast_done [c] [] c (with_memslots (nl_insert_after HEAD c) g2))
      as (r & g' & Hrun & Hp); [by left|done| |by rewrite HO|].
    { pose proof (tail_final d is_valid Hd [] c slots_wf_nil) as Htf. rewrite HO. by apply Htf. }
    unfold mbind, M_bind in Hrun |- *.
    destruct (mapping_broadcast mapping c [] _) as [[left g3]|] eqn:Hb; [|done].
    injection Hrun as <- <-. eexists _, g3. split; [done|].
    unfold mapping_broadcast in Hb. rewrite gets_run in Hb.
    assert (Hleft : left = []); [|by subst left].
    unfold with_memslots in Hb. cbn [gs_listener_list] in Hb.
    destruct (gs_listener_list g2); [by inversion Hb|].
    unfold mbind, M_bind in Hb.
    match type of Hb with context [mapping_notify_listeners ?a ?b ?c] =>
      destruct (mapping_notify_listeners a b c) as [[??]|]; [|done] end.
    by inversion Hb.
  - eexists _, g. split; [done|]. right. split; [done|]. exists O, (gs_opaque g1).
    split_and!; [by destruct g1| |].
    + rewrite HO. apply tail_unmap; try done. apply slots_wf_nil.
    + exists []. split; [done|]. split; [constructor|]. by rewrite HO.
Qed.

Lemma body_insert P S ls g :
  is_valid = true -> St g1 (P ++ S) (blocks_of (ls_snapshot ls) ++ rs) g ->
  exists (r : bool) g',
    (c ← memslot_dup d;
     match c with
     | None => mret false
     | Some c => memslot_insert_before c (nl_first S);; mret true
     end) g = Some (r, g') /\
    if r then exists c, same_contents c d /\
                        St g1 (P ++ c :: S) (blocks_of (ls_snapshot ls) ++ rs) g'
    else ~ alloc_ok /\ St g1 (P ++ S) (blocks_of (ls_snapshot ls) ++ rs) g'.
Proof.
  intros Hv Hs.
  destruct (dup_rule _ _ _ _ d Hs) as (r & g2 & Hrun1 & Hr1).
  { apply refs_in, elem_of_app. right. by apply Hblk. }
  rewrite (bind_run _ _ _ _ _ Hrun1). destruct r as [c|]; cbn in Hr1; [|by eexists false, g2].
  destruct Hr1 as (Hc & Hfr & _ & Hs1). destruct S as [|y S].
  - rewrite app_nil_r in Hs1, Hfr.
    destruct (insert_tail_rule _ _ _ _ _ Hs1 Hfr) as (g3 & Hrun2 & Hs2).
    rewrite (bind_run _ _ _ _ _ Hrun2). eexists true, g3. split; [done|]. eauto.
  - destruct (insert_before_rule _ _ _ _ _ _ _ Hs1 Hfr) as (g3 & Hrun2 & Hs2).
    erewrite bind_run by exact Hrun2. eexists true, g3. split; [done|]. eauto.
Qed.

Lemma body_loop g first l0 :
  O = first :: l0 -> St g1 O rs g ->
  exists r g',
    (m ← slot_next (ms_addr first);
     q ← set_mapping_loop (S (S (length O))) d is_valid (ms_addr first) m
           (LoopState false 0 []);
     let '(fl, src, ls) := q in
     match fl with
     | Out ret => mret (ret, ls_snapshot ls)
     | _ =>
         ins ← (if flag_set (ls_state ls) MEMSLOT_TO_INSERT then
                  c ← memslot_dup d;
                  match c with
                  | None => mret false
                  | Some c => memslot_insert_before c src;; mret true
                  end
                else mret true);
         if ins : bool then
           left ← mapping_broadcast mapping d (ls_snapshot ls);
           mret (0, left)
         else mret (- ENOMEM, ls_snapshot ls)
     end) g = Some (r, g') /\ body_post r g'.
Proof.
  intros HO Hs. pose proof Hs as Hs0. rewrite HO in Hs0.
  rewrite (bind_run _ _ _ _ _ (next_rule g1 [] first l0 _ g Hs0)).
  assert (Hli : loop_inv g1 d is_valid rs O [] [] O (LoopState false 0 []) g).
  { split; [done|done| |].
    - split; [|done]. split; constructor.
    - left. rewrite HO. by split_and!. }
  destruct (loop_rule g1 d is_valid rs Hd Hblk O HwO (S (S (length O))) O [] []
    (LoopState false 0 []) g (nl_first l0)) as ([[fl src] ls] & g2 & Hrun & Hpost);
    [lia|done|by rewrite HO|].
  rewrite HO in Hrun at 2. rewrite (bind_run _ _ _ _ _ Hrun).
  assert (Hfail : forall ret, loop_failed g1 rs ret ls g2 -> body_post (ret, ls_snapshot ls) g2)
    by (intros ret (-> & Hna & l & Hl); left; cbn; eauto).
  assert (Hdone : forall l g3, snap_is d ls g2 O ->
    St g1 l (blocks_of (ls_snapshot ls) ++ rs) g3 -> final_ok d is_valid O l ->
    exists r g', (left ← mapping_broadcast mapping d (ls_snapshot ls); mret (0, left)) g3 =
      Some (r, g') /\ body_post r g').
  { intros l g3 [_ Hsn] Hl Hfin. by apply (broadcast_done l); [right|..]. }
  destruct fl as [| |ret]; cbn in Hpost; [| |eexists _, g2; split; [done|by apply Hfail]].
  all: destruct Hpost as [Hsn [(-> & l & Hl & Hfin)|(-> & Hv & P & S & -> & Hl & Hfin)]];
    [erewrite bind_run by reflexivity; by eapply Hdone|];
    destruct (body_insert P S ls g2 Hv Hl) as ([] & g3 & Hrun3 & Hr);
    rewrite (bind_run _ _ _ _ _ Hrun3);
    [destruct Hr as (c & Hc & Hs3); eapply Hdone; [done|exact Hs3|by apply Hfin]
    |destruct Hr as [Hna Hs3]; eexists _, g3; split; [done|]; left; cbn; eauto].
Qed.
End Body.

(** ** The whole operation *)
(** The slot that describes a mapping: [p] is a block that contains [uva]. *)
Definition mapping_dest g' (start_gfn npages uva flags : Z) (d : hax_memslot) : Prop :=
  ms_base_gfn d = start_gfn /\ ms_npages d = npages /\ ms_flags d = flags /\ range_wf d /\
  if memslot_is_valid flags then
    exists b, nl_get (ms_block d) (gs_ramblock_list g') = Some b /\ block_covers uva b /\
              ms_offset_within_block d = uva - rb_base_uva b
  else ms_block d = 0.

(** Result of a run that reaches the slot list, from the state [g1] in which the
    block has been found. *)
Definition set_mapping_post g g1 (start_gfn npages uva flags ret : Z) g' : Prop :=
  (ret = - ENOMEM /\ ~ alloc_ok /\ St g1 (gs_memslot_list g') [] g') \/
  (ret = 0 /\ exists d e', mapping_dest g1 start_gfn npages uva flags d /\
     St (with_opaque e' g1) (gs_memslot_list g') [] g' /\
     final_ok d (memslot_is_valid flags) (gs_memslot_list g) (gs_memslot_list g') /\
     notified g1 d (memslot_is_valid flags) (gs_memslot_list g) e').

Lemma body_end g1 d (v : bool) O (p : Z) (rs : list Z) r g :
  rs = (if v then [p] else []) -> (v = true -> p <> 0) -> (v = false -> p = 0) ->
  body_post g1 d v rs O r g ->
  exists g', ((if p =? 0 then mret tt else ramblock_deref p);;
              memslot_list_clear r.2;; mret r.1) g = Some (r.1, g') /\
    ((r.1 = - ENOMEM /\ ~ alloc_ok /\ St g1 (gs_memslot_list g') [] g') \/
     (r.1 = 0 /\ exists e', St (with_opaque e' g1) (gs_memslot_list g') [] g' /\
        final_ok d v O (gs_memslot_list g') /\ notified g1 d v O e')).
Proof.
  intros Hrs Hp1 Hp2 Hpost.
  assert (Hfin : forall g0 l, St g0 l (blocks_of r.2 ++ rs) g ->
    exists g', ((if p =? 0 then mret tt else ramblock_deref p);;
                memslot_list_clear r.2;; mret r.1) g = Some (r.1, g') /\ St g0 l [] g').
  { intros g0 l Hs.
    assert (exists g2, (if p =? 0 then mret tt else ramblock_deref p) g = Some (tt, g2) /\
      St g0 l (blocks_of r.2) g2) as (g2 & Hrun2 & Hs2).
    { subst rs. destruct v.
      - rewrite (proj2 (Z.eqb_neq p 0)) by auto. apply (deref_rule g0 l (blocks_of r.2) g p).
        eapply St_perm; [exact Hs|]. by rewrite Permutation_app_comm.
      - rewrite (proj2 (Z.eqb_eq p 0)) by auto. exists g. split; [done|].
        by rewrite app_nil_r in Hs. }
    rewrite (bind_run _ _ _ _ _ Hrun2).
    destruct (list_clear_rule g0 l r.2 [] g2) as (g3 & Hrun3 & Hs3); [by rewrite app_nil_r|].
    rewrite (bind_run _ _ _ _ _ Hrun3). by exists g3. }
  destruct Hpost as [(Hr & Hna & l & Hs)|(Hr & l & e' & Hs & Hf & Hn)];
    destruct (Hfin _ _ Hs) as (g' & Hrun & Hs'); exists g'; split; try done;
    rewrite (st_list _ _ _ _ Hs').
  - by left.
  - right. split; [done|]. by exists e'.
Qed.

Lemma set_mapping_rule I start_gfn npages uva flags g :
  space_inv g -> args_ok start_gfn npages uva flags ->
  listeners_ok I (gs_listener_list g) -> I (gs_opaque g) ->
  exists ret g', memslot_set_mapping start_gfn npages uva flags g = Some (ret, g') /\
    (mapping_block_post g uva flags (inl ret) g' \/
     exists p g1, mapping_block_post g uva flags (inr p) g1 /\
                  set_mapping_post g g1 start_gfn npages uva flags ret g').
Proof.
  intros [Hown HwO] Hargs Hls Hi. pose proof Hargs as [Hg Hn He Hu _].
  unfold memslot_set_mapping. rewrite (proj2 (Z.eqb_neq npages 0)) by lia. cbv zeta.
  destruct (mapping_block_rule _ _ _ _ g Hown Hargs) as (r & g1 & Hrun1 & Hmb).
  rewrite (bind_run _ _ _ _ _ Hrun1). destruct r as [ret|p].
  { eexists _, g1. split; [done|]. by left. }
  set (v := memslot_is_valid flags) in *. pose proof Hmb as Hmb0. cbn in Hmb. fold v in Hmb.
  assert (exists off, (if p =? 0 then mret 0
            else b ← get_block p; mret (uva -! rb_base_uva b)) g1 = Some (off, g1) /\
    mapping_dest g1 start_gfn npages uva flags (Memslot 0 start_gfn npages p off flags) /\
    (v = true -> p <> 0) /\ (v = false -> p = 0) /\
    St g1 (gs_memslot_list g) (if v then [p] else []) g1 /\
    gs_listener_list g1 = gs_listener_list g /\ gs_opaque g1 = gs_opaque g)
    as (off & Hrun2 & Hdest & Hp1 & Hp2 & Hs1 & Hl1 & Ho1).
  { unfold mapping_dest. fold v. unfold GFN_MAX in *. destruct v.
    - destruct Hmb as (Hp & (Hs & Hfr & _ & b & Hgb & Hc) & _). exists (uva - rb_base_uva b).
      rewrite (proj2 (Z.eqb_neq p 0)) by done.
      rewrite (bind_run _ _ _ _ _ (get_block_run _ _ _ Hgb)).
      destruct (ram_inv_block _ _ _ (st_ram _ _ _ _ Hs) Hgb) as (Hbw & _ & _).
      destruct Hc as [Hc1 Hc2]. pose proof (bw_base _ Hbw). pose proof (bw_size _ Hbw).
      unfold MAX_BLOCK_SIZE in *.
      rewrite u64_small by lia. split_and!; try done; [|by exists b|apply Hfr..].
      split; unfold s_end, GFN_MAX, OFF_MAX; cbn; lia.
    - destruct Hmb as [-> ->]. exists 0. split_and!; try done.
      split; unfold s_end, GFN_MAX, OFF_MAX; cbn; lia. }
  rewrite (bind_run _ _ _ _ _ Hrun2). set (d := Memslot 0 start_gfn npages p off flags) in *.
  set (mapping := Mapping NO_CALLBACK start_gfn npages 0 0 uva flags).
  erewrite bind_run by reflexivity. rewrite (st_list _ _ _ _ Hs1).
  assert (Hblk : v = true -> ms_block d ∈ (if v then [p] else [])).
  { intros ->. cbn. set_solver. }
  assert (Hdw : range_wf d) by apply Hdest. rewrite <- Hl1 in Hls. rewrite <- Ho1 in Hi.
  set (O := gs_memslot_list g) in *.
  match goal with |- exists ret g', (?m ≫= _) g1 = Some (ret, g') /\ _ =>
    assert (Hbody : exists r g2, m g1 = Some (r, g2) /\
      body_post g1 d v (if v then [p] else []) O r g2) end.
  { destruct O as [|first l0] eqn:HO.
    - by apply (body_empty g1 d v _ mapping Hdw Hblk eq_refl eq_refl eq_refl I Hls Hi).
    - by apply (body_loop g1 d v _ mapping Hdw Hblk eq_refl eq_refl eq_refl I Hls Hi
        (first :: l0) HwO g1 first l0). }
  destruct Hbody as ([ret snap] & g2 & Hrun3 & Hpost). rewrite (bind_run _ _ _ _ _ Hrun3).
  destruct (body_end g1 d v O p _ (ret, snap) g2 eq_refl Hp1 Hp2 Hpost) as (g' & Hrun4 & Hend).
  exists ret, g'. split; [exact Hrun4|]. right. exists p, g1. split; [done|].
  destruct Hend as [?|(? & e' & ? & ? & ?)]; [by left|]. right. split; [done|]. by exists d, e'.
Qed.
End Correct.
