(* ===== verification/SimpleHost.v ===== *)
(** * A concrete host

    An executable instance of the host interface, used to evaluate the models on
    concrete inputs: allocations answer from a script (then always succeed),
    pinning succeeds, and page frame numbers are those of an identity map. *)

From stdpp Require Import base numbers list gmap.
From Stdlib Require Import ZArith Lia.
From S2P Require Import Prelude HaxList MemTypes.
#[local] Open Scope Z_scope.

#[global] Instance simple_host : Host := {|
  hstate := list bool;
  memdesc_user := Z;
  host_vmalloc _ h := match h with [] => (true, []) | b :: h' => (b, h') end;
  hax_pin_user_pages uva _ h := (0, uva, h);
  hax_unpin_user_pages _ h := (0, h);
  hax_get_pfn_user uva off := ((uva + off) / 4096) mod 2 ^ 36;
  host_map_user_pages _ _ _ h := (true, h);
  hax_unmap_user_pages h := (0, h);
|}.

(** Notifications recorded by a listener that only logs. *)
Inductive event :=
  | Added (start_gfn npages uva flags : Z)
  | Removed (start_gfn npages uva flags : Z)
  | Changed (start_gfn npages old_uva old_flags new_uva new_flags : Z).

Definition log_listener : hax_gpa_space_listener (list event) :=
  Listener 1
    (Some (fun a b c d es => Some (es ++ [Added a b c d])))
    (Some (fun a b c d es => Some (es ++ [Removed a b c d])))
    (Some (fun a b c d e f es => Some (es ++ [Changed a b c d e f]))).

Definition empty_space : hax_gpa_space (list event) :=
  GpaSpace [] [] [log_listener] (GpaProt None 0) [] [] 1 ∅.
