(* ===== verification/MemslotProps.v ===== *)
(** * Properties of the guest physical address map

    The theorems on [memslot_set_mapping] and [memslot_find] that the rest of the
    system relies on, with executable instances. *)

From stdpp Require Import base numbers list gmap.
From Stdlib Require Import ZArith Lia Sorted.
From S2P Require Import Prelude HaxList Bitmap MemTypes Ramblock Memslot MemslotSpec.
From S2P Require Import MemslotOwn MemslotPhase MemslotLoop MemslotNotify MemslotCorrect.
From S2P Require Import SimpleHost.
#[local] Open Scope Z_scope.

Section Props.
Context {HH : Host} {E : Type}.
Notation st := (hax_gpa_space E).
Implicit Types (g : st) (l : list hax_memslot).

(** The range of frames of a request. *)
Definition in_range (start_gfn npages gfn : Z) : bool :=
  ((start_gfn <=? gfn) && (gfn <? start_gfn + npages))%bool.

(** What the request asks for at a frame of its range. *)
Definition requested (start_gfn uva flags gfn : Z) : option (Z * Z) :=
  if memslot_is_valid flags
  then Some (uva + (gfn - start_gfn) * 4096, flags &! HAX_MEMSLOT_READONLY) else None.

(** The first slot ending at or after [start_gfn] lies inside the range. *)
Fixpoint first_inside (start_gfn npages : Z) l : bool :=
  match l with
  | [] => false
  | s :: rest =>
      if start_gfn <=? s_end s
      then ((start_gfn <=? ms_base_gfn s) && (s_end s <=? start_gfn + npages))%bool
      else first_inside start_gfn npages rest
  end.

(** A block that backs a frame is in the list. *)
Lemma lookup_block g0 l rs g gfn ln :
  St g0 l rs g -> slot_lookup l gfn = Some ln ->
  exists b, nl_get (ln_block ln) (gs_ramblock_list g) = Some b.
Proof.
  intros Hs (s & Hin & _ & <-)%lookup_elem.
  apply list_elem_of_split in Hin as (l1 & l2 & ->).
  destruct (slot_referenced _ _ _ _ _ _ Hs) as [_ Hr].
  destruct (referenced _ _ _ _ _ Hs Hr) as (_ & b & Hb & _). by exists b.
Qed.

(** The blocks of [g] still in the list have their old addresses. *)
Lemma block_base_kept g uva flags p g1 e g' q b b' :
  mapping_block_post g uva flags (inr p) g1 -> evo (with_opaque e g1) g' ->
  nl_get q (gs_ramblock_list g) = Some b -> nl_get q (gs_ramblock_list g') = Some b' ->
  rb_base_uva b' = rb_base_uva b.
Proof.
  intros Hmb He Hb Hb'.
  destruct (ev_blocks _ _ He _ _ Hb') as (b1 & Hb1 & (_ & Hbase & _) & _). rewrite Hbase.
  unfold mapping_block_post in Hmb. destruct (memslot_is_valid flags).
  - destruct Hmb as (_ & (_ & _ & Hk & _) & _). cbn in Hb1. destruct (Hk _ _ Hb) as (b2 & Hb2 & (_ & ? & _) & _).
    congruence.
  - destruct Hmb as [_ ->]. cbn in Hb1. congruence.
Qed.

Lemma own_inv_intro g0 l g : St g0 l [] g -> own_inv g.
Proof.
  intros Hs. unfold own_inv. rewrite (st_list _ _ _ _ Hs). by eapply Sx_rebase.
Qed.

(** The address of a frame of the new mapping. *)
Lemma dest_uva g1 start_gfn npages uva flags d b gfn :
  mapping_dest g1 start_gfn npages uva flags d -> memslot_is_valid flags = true ->
  nl_get (ms_block d) (gs_ramblock_list g1) = Some b ->
  (rb_base_uva b + line_offset (slot_line d) gfn, ln_readonly (slot_line d)) =
  (uva + (gfn - start_gfn) * 4096, flags &! HAX_MEMSLOT_READONLY).
Proof.
  intros (Hb & _ & Hf & _ & Hblk) Hv Hg. rewrite Hv in Hblk.
  destruct Hblk as (b' & Hg' & _ & Ho). rewrite Hg in Hg'. simplify_eq.
  unfold line_offset, slot_line. cbn. rewrite Ho. f_equal. lia.
Qed.

Lemma covers_dest g1 start_gfn npages uva flags d gfn :
  mapping_dest g1 start_gfn npages uva flags d ->
  covers d gfn = in_range start_gfn npages gfn.
Proof. intros (Hb & Hn & _). unfold covers, in_range, s_end. by rewrite Hb, Hn. Qed.

(** The map after a successful call. *)
Definition line_uva g (t : option line) (gfn : Z) : option (Z * Z) :=
  match t with
  | Some ln =>
      match nl_get (ln_block ln) (gs_ramblock_list g) with
      | Some b => Some (rb_base_uva b + line_offset ln gfn, ln_readonly ln)
      | None => None
      end
  | None => None
  end.

Lemma gfn_uva_final g uva flags p g1 d e' g' start_gfn npages :
  space_inv g -> mapping_block_post g uva flags (inr p) g1 ->
  mapping_dest g1 start_gfn npages uva flags d ->
  St (with_opaque e' g1) (gs_memslot_list g') [] g' ->
  final_ok d (memslot_is_valid flags) (gs_memslot_list g) (gs_memslot_list g') ->
  exists t, target_ok d (memslot_is_valid flags) (gs_memslot_list g) t /\
    forall gfn, slot_lookup (gs_memslot_list g') gfn = upd d t (gs_memslot_list g) gfn /\
      gfn_uva g' gfn = if in_range start_gfn npages gfn then line_uva g' t gfn
                       else gfn_uva g gfn.
Proof.
  intros [Hown _] Hmb Hdest Hs (_ & t & Ht & Hl).
  pose proof (st_evo _ _ _ _ Hs) as He. exists t. split; [done|]. intros gfn.
  split; [done|]. unfold gfn_uva.
  rewrite Hl. unfold upd. rewrite (covers_dest _ _ _ _ _ _ gfn Hdest).
  destruct (in_range start_gfn npages gfn) eqn:Hin; [done|].
  destruct (slot_lookup (gs_memslot_list g) gfn) as [ln|] eqn:Hlk; [|done].
  destruct (lookup_block _ _ _ _ _ _ Hown Hlk) as [b Hb].
  destruct (lookup_block _ _ _ _ gfn ln Hs) as [b' Hb'].
  { rewrite Hl. unfold upd. by rewrite (covers_dest _ _ _ _ _ _ gfn Hdest), Hin. }
  rewrite Hb, Hb'. by rewrite (block_base_kept _ _ _ _ _ _ _ _ _ _ Hmb He Hb Hb').
Qed.

(** Mapping memory: on success the frames of the range are backed by consecutive
    pages from [uva], all others as before; it fails only for want of memory or of
    a block containing [uva]. *)
Definition maps_to g start_gfn npages uva flags g' : Prop :=
  space_inv g' /\
  forall gfn, gfn_uva g' gfn =
    if in_range start_gfn npages gfn then requested start_gfn uva flags gfn else gfn_uva g gfn.

(** The first slot ending at or after the start of a range. *)
Fixpoint first_slot (start_gfn : Z) l : option hax_memslot :=
  match l with
  | [] => None
  | s :: rest => if start_gfn <=? s_end s then Some s else first_slot start_gfn rest
  end.

Lemma first_slot_touched d l : first_touched d l = first_slot (ms_base_gfn d) l.
Proof. induction l as [|s l IH]; [done|]. cbn. by rewrite IH. Qed.

Lemma first_slot_elem start_gfn l x : first_slot start_gfn l = Some x -> x ∈ l.
Proof.
  induction l as [|s l IH]; [done|]. cbn. destruct (start_gfn <=? s_end s).
  - intros [= ->]. left.
  - intros Hx. right. auto.
Qed.

(** The request remaps the first slot: the range contains the whole first slot [x]
    that it touches, and [x] is not mapped as requested. *)
Definition remaps g start_gfn npages uva flags x : Prop :=
  first_slot start_gfn (gs_memslot_list g) = Some x /\
  start_gfn <= ms_base_gfn x /\ s_end x <= start_gfn + npages /\
  exists b, nl_get (ms_block x) (gs_ramblock_list g) = Some b /\
    ~ (block_covers uva b /\
       gfn_uva g (ms_base_gfn x) = requested start_gfn uva flags (ms_base_gfn x)).

Definition remaps_first g start_gfn npages uva flags : Prop :=
  exists x, remaps g start_gfn npages uva flags x.

(** The remapping is lost: the range is backed by pages of the block of [x], from some
    address that is not above the old one. *)
Definition remap_lost g start_gfn npages uva flags g' : Prop :=
  exists x b a,
    remaps g start_gfn npages uva flags x /\
    nl_get (ms_block x) (gs_ramblock_list g) = Some b /\
    rb_base_uva b <= a <= rb_base_uva b + ms_offset_within_block x /\
    space_inv g' /\
    forall gfn, gfn_uva g' gfn =
      if in_range start_gfn npages gfn
      then Some (a + (gfn - start_gfn) * 4096, flags &! HAX_MEMSLOT_READONLY)
      else gfn_uva g gfn.

Lemma remaps_first_inside g start_gfn npages uva flags :
  remaps_first g start_gfn npages uva flags ->
  first_inside start_gfn npages (gs_memslot_list g) = true.
Proof.
  intros (x & Hx & H1 & H2 & _). revert Hx.
  induction (gs_memslot_list g) as [|s l IH]; [done|]. cbn.
  destruct (start_gfn <=? s_end s); [|done]. intros [= ->].
  by rewrite !(proj2 (Z.leb_le _ _)).
Qed.

Lemma not_inside g start_gfn npages uva flags :
  first_inside start_gfn npages (gs_memslot_list g) = false ->
  ~ remaps_first g start_gfn npages uva flags.
Proof. intros Hf Hr%remaps_first_inside. congruence. Qed.

Lemma remap_lost_remaps g start_gfn npages uva flags g' :
  remap_lost g start_gfn npages uva flags g' -> remaps_first g start_gfn npages uva flags.
Proof. intros (x & b & a & Hx & _). by exists x. Qed.

Lemma lookup_base l x :
  slots_wf l -> x ∈ l -> slot_lookup l (ms_base_gfn x) = Some (slot_line x).
Proof.
  intros Hw Hx. apply list_elem_of_split in Hx as (l1 & l2 & ->).
  pose proof (sorted_before _ _ _ Hw) as Hb.
  rewrite slot_lookup_app, (slot_lookup_above _ (ms_base_gfn x)) by (done || lia).
  cbn. unfold covers. apply slots_wf_app in Hw as (_ & [Hx _]%slots_wf_cons & _).
  destruct (range_bounds x Hx) as (? & ? & _). unfold s_end.
  by rewrite (proj2 (Z.leb_le _ _)), (proj2 (Z.ltb_lt _ _)) by lia.
Qed.

(** A slot of another type is not mapped as requested. *)
Lemma other_type_other_uva g uva flags p g1 d x b start_gfn npages :
  space_inv g -> mapping_block_post g uva flags (inr p) g1 -> memslot_is_valid flags = true ->
  mapping_dest g1 start_gfn npages uva flags d -> x ∈ gs_memslot_list g ->
  memslot_is_same_type d x = false -> nl_get (ms_block x) (gs_ramblock_list g) = Some b ->
  ~ (block_covers uva b /\
     gfn_uva g (ms_base_gfn x) = requested start_gfn uva flags (ms_base_gfn x)).
Proof.
  intros [Hown Hw] Hmb Hv Hdest Hx Hty Hb [Hc Heq].
  cbn in Hmb. rewrite Hv in Hmb. destruct Hmb as (_ & (Hs1 & _ & Hk & _) & _).
  destruct (Hk _ _ Hb) as (b1 & Hb1 & (_ & Hbase & Hsz) & _).
  pose proof Hdest as (Hdb & _ & Hdf & Hdw & Hblk). rewrite Hv in Hblk.
  destruct Hblk as (bd & Hbd & Hcd & Hoff).
  pose proof (st_ram _ _ _ _ Hs1) as [[Hnd Hwf Hso] _ _].
  apply nl_get_Some in Hb1 as [Hin1 Hk1], Hbd as [Hind Hkd].
  assert (Hc1 : block_covers uva b1) by (unfold block_covers in *; congruence).
  pose proof (proj2 (ramblock_search_spec uva _ b1 Hwf Hso) (conj Hin1 Hc1)) as E1.
  pose proof (proj2 (ramblock_search_spec uva _ bd Hwf Hso) (conj Hind Hcd)) as E2.
  rewrite E1 in E2. injection E2 as <-.
  unfold gfn_uva in Heq. rewrite (lookup_base _ _ Hw Hx) in Heq. cbn in Heq.
  rewrite Hb in Heq. unfold requested in Heq. rewrite Hv in Heq. injection Heq as Ha Hro.
  unfold line_offset in Ha. cbn in Ha.
  assert (Hxw : range_wf x) by (pose proof (sw_range _ Hw) as Hr; rewrite Forall_forall in Hr; auto).
  rewrite (proj2 (memslot_is_same_type_spec d x Hdw Hxw)) in Hty; [done|].
  unfold slot_line. rewrite Hdf, Hro, Hoff. f_equal; [congruence|]. lia.
Qed.

(** A range that covers the first slot with another type remaps it. *)
Lemma covers_first_remaps g uva flags p g1 d start_gfn npages :
  space_inv g -> mapping_block_post g uva flags (inr p) g1 -> memslot_is_valid flags = true ->
  mapping_dest g1 start_gfn npages uva flags d ->
  covers_first d (gs_memslot_list g) = true ->
  exists x, first_touched d (gs_memslot_list g) = Some x /\ x ∈ gs_memslot_list g /\
    remaps g start_gfn npages uva flags x.
Proof.
  intros Hinv Hmb Hv Hdest Hcf. unfold covers_first in Hcf.
  destruct (first_touched d (gs_memslot_list g)) as [x|] eqn:Hx; [|done].
  apply andb_true_iff in Hcf as [[Hty Hlo]%andb_true_iff Hhi].
  apply negb_true_iff in Hty. apply Z.leb_le in Hlo, Hhi.
  rewrite first_slot_touched in Hx. pose proof (first_slot_elem _ _ _ Hx) as Hin.
  pose proof Hdest as (Hdb & Hdn & _). pose proof Hinv as [Hown Hw].
  destruct (lookup_block _ _ _ _ _ _ Hown (lookup_base _ _ Hw Hin)) as [b Hb]. cbn in Hb.
  unfold s_end in *. exists x. split; [done|]. split; [done|].
  split_and!; [congruence|lia|unfold s_end; lia|]. exists b. split; [done|]. by eapply other_type_other_uva.
Qed.

Lemma set_mapping_outcome g p g1 start_gfn npages uva flags ret g' :
  space_inv g -> mapping_block_post g uva flags (inr p) g1 ->
  set_mapping_post g g1 start_gfn npages uva flags ret g' -> ret = 0 -> 0 < npages ->
  maps_to g start_gfn npages uva flags g' \/
  memslot_is_valid flags = true /\ remap_lost g start_gfn npages uva flags g'.
Proof.
  intros Hinv Hmb Hpost Hret Hn.
  destruct Hpost as [(-> & _)|(_ & d & e' & Hdest & Hs & Hfin & _)]; [done|].
  assert (Hsi : space_inv g') by (split; [by eapply own_inv_intro|apply Hfin]).
  destruct (gfn_uva_final _ _ _ _ _ _ _ _ _ _ Hinv Hmb Hdest Hs Hfin) as (t & Ht & Hl).
  pose proof (st_evo _ _ _ _ Hs) as He.
  (* the block of the new line *)
  assert (Hblk : forall ln, t = Some ln ->
    exists b, nl_get (ln_block ln) (gs_ramblock_list g') = Some b).
  { intros ln ->. apply (lookup_block _ _ _ _ start_gfn ln Hs). rewrite (proj1 (Hl _)). unfold upd.
    rewrite (covers_dest _ _ _ _ _ _ start_gfn Hdest). unfold in_range.
    by rewrite (proj2 (Z.leb_le _ _)), (proj2 (Z.ltb_lt _ _)) by lia. }
  unfold target_ok in Ht. destruct (memslot_is_valid flags) eqn:Hv.
  2: { left. split; [done|]. intros gfn. rewrite (proj2 (Hl gfn)). unfold requested.
       by rewrite Hv, Ht. }
  destruct Ht as (ln & -> & Hln). destruct (Hblk ln eq_refl) as [b' Hb'].
  destruct Hln as [->|(Hcf & x & Hx & ->)].
  - left. split; [done|]. intros gfn. rewrite (proj2 (Hl gfn)).
    destruct (in_range start_gfn npages gfn); [|done]. unfold line_uva. rewrite Hb'.
    destruct (ev_blocks _ _ He _ _ Hb') as (b & Hb & (_ & -> & _) & _).
    unfold requested. rewrite Hv. f_equal. by eapply dest_uva.
  - right. split; [done|].
    destruct (covers_first_remaps _ _ _ _ _ _ _ _ Hinv Hmb Hv Hdest Hcf) as (x' & Hx' & Hin & Hr).
    rewrite Hx in Hx'. injection Hx' as <-.
    pose proof Hr as (_ & _ & _ & b & Hb & _).
    pose proof Hdest as (Hdb & Hdn & Hdf & _ & Hblkd). rewrite Hv in Hblkd.
    destruct Hblkd as (bd & Hbd & Hcd & Hoff). unfold block_covers in Hcd.
    assert (Hbase : rb_base_uva b' = rb_base_uva b) by (by eapply block_base_kept).
    pose proof (sw_range _ (si_slots _ Hinv)) as Hrw. rewrite Forall_forall in Hrw.
    destruct (range_bounds x (Hrw x Hin)) as (? & ? & ? & ? & ?).
    exists x, b, (rb_base_uva b + Z.min (ms_offset_within_block x) (ms_offset_within_block d)).
    split_and!; [done|done|lia|lia|done|].
    intros gfn. rewrite (proj2 (Hl gfn)). destruct (in_range _ npages gfn); [|done].
    unfold line_uva. rewrite Hb', Hbase. unfold grown_line, line_offset. cbn. rewrite Hdf.
    do 2 f_equal. lia.
Qed.

Lemma set_mapping_success g p g1 start_gfn npages uva flags ret g' :
  space_inv g -> mapping_block_post g uva flags (inr p) g1 ->
  set_mapping_post g g1 start_gfn npages uva flags ret g' -> ret = 0 -> 0 < npages ->
  (memslot_is_valid flags = true -> ~ remaps_first g start_gfn npages uva flags) ->
  maps_to g start_gfn npages uva flags g'.
Proof.
  intros Hinv Hmb Hpost Hret Hn Hfi.
  destruct (set_mapping_outcome _ _ _ _ _ _ _ _ _ Hinv Hmb Hpost Hret Hn) as [?|[Hv Hl]]; [done|].
  destruct (Hfi Hv). by eapply remap_lost_remaps.
Qed.

(** C1. Setting a mapping to memory refines the update of the abstract map.  On
    success the invariant of the address space is kept, every frame outside the range
    is backed by what backed it before, and every frame [gfn] of the range by the
    address [uva + (gfn - start) * 4096] with the requested read-only bit -- unless the
    range contains the whole first slot that it touches and this slot is not already
    mapped as requested: then ([remap_lost], a finding) the range may instead be backed
    by consecutive pages of the block of that old slot, with the new read-only bit.
    The only failures are EINVAL (no RAM block contains [uva], or a stand-alone
    block would overlap another) and ENOMEM; with a working allocator and without
    the stand-alone flag it succeeds exactly when some block contains [uva]. *)
Theorem set_mapping_maps I start_gfn npages uva flags g :
  space_inv g -> args_ok start_gfn npages uva flags ->
  listeners_ok I (gs_listener_list g) -> I (gs_opaque g) ->
  memslot_is_valid flags = true ->
  exists ret g', memslot_set_mapping start_gfn npages uva flags g = Some (ret, g') /\
    (ret = 0 \/ ret = - EINVAL \/ ret = - ENOMEM) /\
    (ret = 0 -> maps_to g start_gfn npages uva flags g' \/
                remap_lost g start_gfn npages uva flags g') /\
    (alloc_ok -> flag_set flags HAX_MEMSLOT_STANDALONE = false ->
     (ret = 0 <-> Exists (block_covers uva) (gs_ramblock_list g))).
Proof.
  intros Hinv Ha Hls Hi Hv.
  destruct (set_mapping_rule I _ _ _ _ g Hinv Ha Hls Hi) as (ret & g' & Hrun & Hpost).
  exists ret, g'. split; [done|]. destruct Hpost as [(_ & _ & Hret)|(p & g1 & Hmb & Hpost)].
  - split_and!; [naive_solver|..].
    + intros ->. naive_solver.
    + intros _ Hsa. destruct Hret as [[? _]|[-> Hno]]; [congruence|]. split; [done|].
      intros (b & Hb & Hc)%Exists_exists. rewrite Forall_forall in Hno. by destruct (Hno b Hb).
  - split_and!.
    + destruct Hpost as [(? & _)|(? & _)]; auto.
    + intros Hret. destruct (set_mapping_outcome _ _ _ _ _ _ _ _ _ Hinv Hmb Hpost Hret
        (ao_npages _ _ _ _ Ha)) as [?|[_ ?]]; auto.
    + intros Hok Hsa. destruct Hpost as [(_ & Hna & _)|(-> & _)]; [done|]. split; [|done].
      intros _. cbn in Hmb. rewrite Hv in Hmb. by apply Hmb.
Qed.

(** C2. Unmapping a range makes exactly the frames of the range unmapped, whatever
    slots it cuts; it always succeeds when the allocator works. *)
Theorem set_mapping_unmaps I start_gfn npages uva flags g :
  space_inv g -> args_ok start_gfn npages uva flags ->
  listeners_ok I (gs_listener_list g) -> I (gs_opaque g) ->
  memslot_is_valid flags = false ->
  exists ret g', memslot_set_mapping start_gfn npages uva flags g = Some (ret, g') /\
    (ret = 0 \/ ret = - ENOMEM) /\ (alloc_ok -> ret = 0) /\
    (ret = 0 -> space_inv g' /\
       forall gfn, gfn_uva g' gfn = if in_range start_gfn npages gfn then None
                                   else gfn_uva g gfn).
Proof.
  intros Hinv Ha Hls Hi Hv.
  destruct (set_mapping_rule I _ _ _ _ g Hinv Ha Hls Hi) as (ret & g' & Hrun & Hpost).
  exists ret, g'. split; [done|].
  destruct Hpost as [(_ & ? & _)|(p & g1 & Hmb & Hpost)]; [congruence|].
  assert (Hret : ret = 0 \/ ret = - ENOMEM /\ ~ alloc_ok)
    by (destruct Hpost as [(? & ? & _)|(? & _)]; auto).
  split_and!; [naive_solver|naive_solver|]. intros H0.
  destruct (set_mapping_success _ _ _ _ _ _ _ _ _ Hinv Hmb Hpost H0 (ao_npages _ _ _ _ Ha))
    as [Hsi Hm]; [congruence|]. split; [done|]. intros gfn. rewrite Hm. unfold requested. by rewrite Hv.
Qed.

(** C33. Whatever the arguments map and whichever allocations fail, setting a mapping
    never dereferences a dangling slot or block, ends, and leaves every RAM block
    with a reference count equal to the number of slots that map it (on every error
    path too: no leaked and no missing reference). *)
Theorem set_mapping_owns I start_gfn npages uva flags g :
  space_inv g -> args_ok start_gfn npages uva flags ->
  listeners_ok I (gs_listener_list g) -> I (gs_opaque g) ->
  exists ret g', memslot_set_mapping start_gfn npages uva flags g = Some (ret, g') /\
    own_inv g' /\
    forall p b, nl_get p (gs_ramblock_list g') = Some b ->
      rb_ref_count b = Z.of_nat (length (filter (fun s => ms_block s = p) (gs_memslot_list g'))).
Proof.
  intros Hinv Ha Hls Hi.
  destruct (set_mapping_rule I _ _ _ _ g Hinv Ha Hls Hi) as (ret & g' & Hrun & Hpost).
  exists ret, g'. split; [done|].
  assert (Hown : own_inv g').
  { destruct Hpost as [((? & _) & _)|(p & g1 & _ & [(_ & _ & Hs)|(_ & d & e & _ & Hs & _)])];
      [done|by eapply own_inv_intro..]. }
  split; [done|]. intros p b Hb. pose proof (st_refs _ _ _ _ Hown p) as Hr. rewrite Hb in Hr.
  rewrite Hr. unfold refs. rewrite app_nil_r. f_equal. clear.
  induction (gs_memslot_list g') as [|s l IH]; [done|]. rewrite fmap_cons. cbn [count_occ].
  destruct (Z.eq_dec (ms_block s) p);
    [rewrite filter_cons_True by done|rewrite filter_cons_False by done];
    cbn [length]; congruence.
Qed.

(** The frames whose old backing is not the requested one are notified. *)
Lemma set_mapping_noted g p g1 start_gfn npages uva flags ret g' :
  mapping_block_post g uva flags (inr p) g1 ->
  set_mapping_post g g1 start_gfn npages uva flags ret g' -> ret = 0 ->
  exists ns, notes_run ns (gs_listener_list g) (gs_opaque g) = Some (gs_opaque g') /\
    forall gfn a, in_range start_gfn npages gfn = true -> gfn_uva g gfn = Some a ->
      requested start_gfn uva flags gfn <> Some a -> noted gfn ns.
Proof.
  intros Hmb Hpost Hret.
  destruct Hpost as [(-> & _)|(_ & d & e' & Hdest & Hs & _ & ns & Hns & _ & Hno)]; [done|].
  pose proof (st_evo _ _ _ _ Hs) as He.
  assert (Hfr : gs_listener_list g1 = gs_listener_list g /\ gs_opaque g1 = gs_opaque g /\
    forall q b, nl_get q (gs_ramblock_list g) = Some b ->
      exists b', nl_get q (gs_ramblock_list g1) = Some b' /\ same_range b b' /\
                 rb_chunks b' = rb_chunks b).
  { cbn in Hmb. destruct (memslot_is_valid flags).
    - destruct Hmb as (_ & (_ & (_ & ? & _ & ? & _) & ? & _) & _). by split_and!.
    - destruct Hmb as [_ ->]. split_and!; [done|done|]. intros q b Hb. exists b. by split_and!. }
  destruct Hfr as (Hl1 & Ho1 & Hb1). rewrite Hl1, Ho1 in Hns.
  exists ns. split; [by rewrite (ev_opaque _ _ He)|]. intros gfn a Hin Hua Hrq.
  unfold gfn_uva in Hua. destruct (slot_lookup (gs_memslot_list g) gfn) as [ln|] eqn:Hlk; [|done].
  apply (Hno gfn ln Hlk); [by rewrite (covers_dest _ _ _ _ _ _ gfn Hdest)|].
  destruct (memslot_is_valid flags) eqn:Hv; [right|by left]. intros ->.
  destruct (nl_get (ln_block (slot_line d)) (gs_ramblock_list g)) as [b|] eqn:Hb; [|done].
  destruct (Hb1 _ _ Hb) as (b' & Hb' & (_ & Hbase & _) & _). rewrite <- Hbase in Hua.
  apply Hrq. unfold requested. rewrite Hv, <- Hua. f_equal. symmetry. by eapply dest_uva.
Qed.

(** C34. After a successful call the listeners' data is the result of running a list of
    callbacks, and every frame of mapped memory whose backing has been changed by the
    call lies in the range of a mapping_removed or mapping_changed callback.  This is
    so for every call that maps the range as requested; when a remapping is lost
    ([remap_lost]) the frames notified are still all those whose old backing is not the
    requested one. *)
Theorem set_mapping_notifies I start_gfn npages uva flags g :
  space_inv g -> args_ok start_gfn npages uva flags ->
  listeners_ok I (gs_listener_list g) -> I (gs_opaque g) ->
  exists ret g', memslot_set_mapping start_gfn npages uva flags g = Some (ret, g') /\
    (ret = 0 -> exists ns,
       notes_run ns (gs_listener_list g) (gs_opaque g) = Some (gs_opaque g') /\
       (maps_to g start_gfn npages uva flags g' ->
        forall gfn, gfn_uva g' gfn <> gfn_uva g gfn ->
          gfn_uva g gfn = None \/ noted gfn ns) /\
       (maps_to g start_gfn npages uva flags g' \/
        remap_lost g start_gfn npages uva flags g' /\
        forall gfn a, in_range start_gfn npages gfn = true -> gfn_uva g gfn = Some a ->
          requested start_gfn uva flags gfn <> Some a -> noted gfn ns)).
Proof.
  intros Hinv Ha Hls Hi.
  destruct (set_mapping_rule I _ _ _ _ g Hinv Ha Hls Hi) as (ret & g' & Hrun & Hpost).
  exists ret, g'. split; [done|]. intros Hret.
  destruct Hpost as [(_ & _ & Hr)|(p & g1 & Hmb & Hpost)]; [subst ret; naive_solver|].
  pose proof (set_mapping_outcome _ _ _ _ _ _ _ _ _ Hinv Hmb Hpost Hret
    (ao_npages _ _ _ _ Ha)) as Hout.
  destruct (set_mapping_noted _ _ _ _ _ _ _ _ _ Hmb Hpost Hret) as (ns & Hns & Hno).
  exists ns. split; [done|]. split; [|by destruct Hout as [?|[_ ?]]; [left|right]].
  intros [_ Hm] gfn Hne. rewrite Hm in Hne.
  destruct (in_range start_gfn npages gfn) eqn:Hin; [|done].
  destruct (gfn_uva g gfn) as [a|] eqn:Hu; [right|by left]. by apply (Hno gfn a).
Qed.

(** [memslot_find] returns the slot that contains a frame exactly when the frame
    is mapped; NULL (MMIO) exactly when it is not. *)
Theorem memslot_find_spec gfn g :
  space_inv g ->
  exists r, memslot_find gfn g = Some (r, g) /\
    match r with
    | Some s => s ∈ gs_memslot_list g /\ ms_base_gfn s <= gfn < s_end s /\
        exists b, nl_get (ms_block s) (gs_ramblock_list g) = Some b /\
          gfn_uva g gfn = Some (rb_base_uva b + ms_offset_within_block s +
                                (gfn - ms_base_gfn s) * 4096,
                                ms_flags s &! HAX_MEMSLOT_READONLY)
    | None => gfn_uva g gfn = None /\
        forall s, s ∈ gs_memslot_list g -> ~ (ms_base_gfn s <= gfn < s_end s)
    end.
Proof.
  intros [Hown Hw]. eexists. split; [done|].
  destruct (memslot_search_spec _ gfn Hw) as [Hlk Hin]. unfold gfn_uva.
  destruct (memslot_search gfn (gs_memslot_list g)) as [s|] eqn:Hse; cbn in Hlk.
  - destruct (Hin s eq_refl) as [Hs Hc]. split_and!; [done|by apply covers_iff..|].
    destruct (lookup_block _ _ _ _ _ _ Hown Hlk) as [b Hb]. exists b. split; [done|].
    rewrite Hlk, Hb. unfold line_offset, slot_line. cbn. do 2 f_equal. lia.
  - rewrite Hlk. split; [done|]. intros s Hs Hc%covers_iff.
    apply (lookup_none_elem _ _ _ Hlk) in Hs. congruence.
Qed.
End Props.

(** ** A concrete address space *)
(** Two RAM blocks of 4 MB and no slots. *)
Definition demo_block (addr base_uva : Z) : hax_ramblock :=
  Ramblock addr base_uva 0x400000
    (replicate (Z.to_nat (ramblock_count_chunks 0x400000)) None)
    (replicate (Z.to_nat (ramblock_count_bitmap_size (ramblock_count_chunks 0x400000))) 0)
    0 false.

Definition demo_space : hax_gpa_space (list event) :=
  GpaSpace [demo_block 1 0x10000000; demo_block 2 0x20000000] [] [log_listener]
    (GpaProt None 0) [] [] 10 ∅.

(** The log takes every note. *)
Definition any_log (e : list event) : Prop := True.

Lemma log_listener_ok : listeners_ok any_log [log_listener].
Proof.
  repeat constructor; unfold call_added, call_removed, call_changed; cbn; intros; by eexists.
Qed.

Lemma demo_block_wf addr base :
  addr <> 0 -> 0 <= base -> base + 0x400000 < 2 ^ 64 -> block_wf (demo_block addr base).
Proof. intros. apply fresh_block_wf; unfold MAX_BLOCK_SIZE; lia. Qed.

Lemma demo_ram_inv : ram_inv demo_space.
Proof.
  split; [split| |done]; cbn.
  - repeat constructor; set_solver.
  - do 2 (apply Forall_cons; split; [apply demo_block_wf; lia|]). by apply Forall_nil.
  - repeat constructor. unfold uva_before. cbn. lia.
  - do 2 (apply Forall_cons; split; [cbn; lia|]). by apply Forall_nil.
Qed.

Lemma demo_inv : space_inv demo_space.
Proof.
  split; [|apply slots_wf_nil].
  split; [done|apply demo_ram_inv| |constructor|by apply Forall_nil|apply evo_refl].
  intros p. unfold refs. cbn [demo_space gs_ramblock_list nl_get].
  destruct (_ =? p); [done|]. by destruct (_ =? p).
Qed.

Lemma demo_args : args_ok 256 16 0x10001000 0.
Proof. split; unfold GFN_MAX; try lia. done. Qed.

Lemma set_mapping_maps_witness :
  exists g', memslot_set_mapping 256 16 0x10001000 0 demo_space = Some (0, g') /\
    maps_to demo_space 256 16 0x10001000 0 g' /\ gfn_uva g' 257 = Some (0x10002000, 0).
Proof.
  destruct (set_mapping_maps any_log 256 16 0x10001000 0 demo_space demo_inv demo_args
    log_listener_ok I
    eq_refl) as (ret & g' & Hrun & _ & Hm & _).
  assert (Hret : fst <$> memslot_set_mapping 256 16 0x10001000 0 demo_space = Some 0)
    by (vm_compute; reflexivity).
  rewrite Hrun in Hret. cbn in Hret. injection Hret as ->.
  exists g'. split; [done|]. destruct (Hm eq_refl) as [Hmt|Hl].
  - split; [exact Hmt|]. destruct Hmt as [_ ->]. reflexivity.
  - apply remap_lost_remaps, remaps_first_inside in Hl. discriminate Hl.
Defined.

(** The space after mapping frames 256 to 271 to the first block. *)
Definition demo_mapped : hax_gpa_space (list event) :=
  match memslot_set_mapping 256 16 0x10001000 0 demo_space with
  | Some (_, g) => g
  | None => demo_space
  end.

Lemma demo_mapped_inv : space_inv demo_mapped /\ gs_listener_list demo_mapped = [log_listener].
Proof.
  split; [|vm_compute; reflexivity].
  destruct (set_mapping_rule any_log 256 16 0x10001000 0 demo_space demo_inv demo_args
    log_listener_ok I)
    as (ret & g' & Hrun & Hpost).
  assert (Hret : fst <$> memslot_set_mapping 256 16 0x10001000 0 demo_space = Some 0)
    by (vm_compute; reflexivity).
  rewrite Hrun in Hret. cbn in Hret. injection Hret as ->.
  unfold demo_mapped. rewrite Hrun.
  destruct Hpost as [(_ & _ & [[_ [Hf|Hf]]|[Hf _]])|(p & g1 & Hmb & Hpost)];
    [discriminate Hf..|].
  apply (set_mapping_success _ _ _ _ _ _ _ _ _ demo_inv Hmb Hpost); [done|lia|].
  intros _. by apply not_inside.
Qed.

Lemma demo_mapped_listeners : listeners_ok any_log (gs_listener_list demo_mapped).
Proof. destruct demo_mapped_inv as [_ ->]. apply log_listener_ok. Qed.

Lemma demo_unmap_args : args_ok 260 4 0 HAX_MEMSLOT_INVALID.
Proof. split; unfold GFN_MAX; try lia. done. Qed.

Lemma set_mapping_unmaps_witness :
  exists g', memslot_set_mapping 260 4 0 HAX_MEMSLOT_INVALID demo_mapped = Some (0, g') /\
    gfn_uva g' 259 = Some (0x10004000, 0) /\ gfn_uva g' 260 = None /\
    gfn_uva g' 264 = Some (0x10009000, 0).
Proof.
  destruct (set_mapping_unmaps any_log 260 4 0 HAX_MEMSLOT_INVALID demo_mapped (proj1 demo_mapped_inv)
    demo_unmap_args demo_mapped_listeners I eq_refl) as (ret & g' & Hrun & _ & _ & Hm).
  assert (Hret : fst <$> memslot_set_mapping 260 4 0 HAX_MEMSLOT_INVALID demo_mapped = Some 0)
    by (vm_compute; reflexivity).
  rewrite Hrun in Hret. cbn in Hret. injection Hret as ->.
  exists g'. split; [done|]. destruct (Hm eq_refl) as [_ Hg]. rewrite !Hg.
  split_and!; vm_compute; reflexivity.
Defined.

Lemma set_mapping_owns_witness :
  exists ret g', memslot_set_mapping 260 4 0 HAX_MEMSLOT_INVALID demo_mapped = Some (ret, g') /\
    own_inv g'.
Proof.
  destruct (set_mapping_owns any_log 260 4 0 HAX_MEMSLOT_INVALID demo_mapped (proj1 demo_mapped_inv)
    demo_unmap_args demo_mapped_listeners I) as (ret & g' & Hrun & Ho & _).
  exists ret, g'. exact (conj Hrun Ho).
Defined.

Lemma set_mapping_notifies_witness :
  exists g' ns, memslot_set_mapping 260 4 0 HAX_MEMSLOT_INVALID demo_mapped = Some (0, g') /\
    notes_run ns (gs_listener_list demo_mapped) (gs_opaque demo_mapped) = Some (gs_opaque g') /\
    noted 261 ns.
Proof.
  destruct (set_mapping_notifies any_log 260 4 0 HAX_MEMSLOT_INVALID demo_mapped
    (proj1 demo_mapped_inv) demo_unmap_args demo_mapped_listeners I) as (ret & g' & Hrun & Hn).
  assert (Hret : fst <$> memslot_set_mapping 260 4 0 HAX_MEMSLOT_INVALID demo_mapped = Some 0)
    by (vm_compute; reflexivity).
  rewrite Hrun in Hret. cbn in Hret. injection Hret as ->.
  destruct (Hn eq_refl) as (ns & Hns & Hall & Hout). exists g', ns. split_and!; [done|done|].
  destruct Hout as [Hmt|[Hl _]].
  - destruct (Hall Hmt 261) as [E|?]; [|vm_compute in E; discriminate E|done].
    destruct Hmt as [_ Hm]. rewrite Hm. vm_compute. discriminate.
  - apply remap_lost_remaps, remaps_first_inside in Hl. vm_compute in Hl. discriminate Hl.
Defined.

Lemma memslot_find_spec_witness :
  exists s, memslot_find 257 demo_mapped = Some (Some s, demo_mapped) /\
    gfn_uva demo_mapped 257 = Some (0x10002000, 0) /\ s ∈ gs_memslot_list demo_mapped.
Proof.
  destruct (memslot_find_spec 257 demo_mapped (proj1 demo_mapped_inv)) as (r & Hrun & Hr).
  destruct r as [s|].
  - exists s. split_and!; [done|vm_compute; reflexivity|apply Hr].
  - destruct Hr as [Hr _]. vm_compute in Hr. discriminate Hr.
Defined.

(** ** A remapping that is lost *)
(** The space after mapping the same frames to the second block. *)
Definition demo_remapped : option (Z * hax_gpa_space (list event)) :=
  memslot_set_mapping 256 16 0x20000000 0 demo_mapped.

(** Remapping a range that contains the whole first slot it touches is lost: the
    call succeeds and the listeners are told of the new address, but the frames stay
    backed by the old block (memslot_process_start_diff_type grows the old slot over
    the range and copies only the flags). *)
Theorem set_mapping_remap_lost :
  exists g', demo_remapped = Some (0, g') /\
    gs_opaque g' = [Added 256 16 0x10001000 0;
                    Changed 256 16 0x10001000 0 0x20000000 0] /\
    gfn_uva demo_mapped 256 = Some (0x10001000, 0) /\
    gfn_uva g' 256 = Some (0x10000000, 0) /\ requested 256 0x20000000 0 256 = Some (0x20000000, 0).
Proof.
  assert (Hall : (fun x => (fst x, gs_opaque (snd x), gfn_uva (snd x) 256)) <$>
    demo_remapped = Some (0, [Added 256 16 0x10001000 0;
      Changed 256 16 0x10001000 0 0x20000000 0], Some (0x10000000, 0)))
    by (vm_compute; reflexivity).
  destruct demo_remapped as [[ret g']|]; [|discriminate Hall].
  cbn in Hall. injection Hall as Hr Ho Hg. exists g'. rewrite Hr, Ho, Hg.
  split; [reflexivity|]. split; [reflexivity|].
  split; [vm_compute; reflexivity|]. split; reflexivity.
Qed.
