(* ===== verification/GpaSpace.v ===== *)
(** * Guest physical address spaces (src/core/gpa_space.c)

    Access to guest memory by guest physical address, the page frame numbers that
    the EPT maps, and the protection bitmap.  A kernel mapping of user pages
    ([hax_kmap_user]) is identified by the user virtual address it aliases; [None] is
    a mapping that was never made. *)

From stdpp Require Import base numbers list gmap.
From Stdlib Require Import ZArith Lia Sorted.
From S2P Require Import Prelude HaxList Bitmap MemTypes Ramblock Memslot.
#[local] Open Scope Z_scope.

Section GpaSpace.
Context {HH : Host} {E : Type}.
Notation st := (hax_gpa_space E).

Definition gpa_space_init : M st Z :=
  ret ← ramblock_init_list;
  if negb (ret =? 0) then mret ret
  else
    ret ← memslot_init_list;
    if negb (ret =? 0) then mret ret
    else modify (with_listeners (const []));; mret ret.

(** Size of the bitmap in bytes, or 0 on error ([uint] arithmetic). *)
Definition gpa_space_prot_bitmap_size (npages : Z) : Z :=
  if negb (npages >>! 31 =? 0) then 0
  else u32 (u32 (u32 npages + 7) / 8 + 8).

Definition gpa_space_free : M st unit :=
  memslot_free_list;;
  ramblock_free_list;;
  modify (with_listeners (const []));;
  modify (fun g => with_prot (GpaProt None (gp_end_gfn (gs_prot g))) g).

Definition gpa_space_add_listener (l : hax_gpa_space_listener E) : M st unit :=
  modify (with_listeners (cons l)).

(** The listener is identified by its address. *)
Definition gpa_space_remove_listener (addr : Z) : M st unit :=
  modify (with_listeners (filter (fun l => gl_addr l <> addr))).

(** The result is the return value, [*buf] (an address in the aliased user memory),
    the kernel mapping, and [*writable]. *)
Record map_result := MapResult {
  mr_ret : Z;
  mr_buf : Z;
  mr_kmap : option Z;
  mr_writable : bool;
}.

Definition gpa_space_map_range (start_gpa len : Z) (writable0 : bool) : M st map_result :=
  if len <? 0 then mret (MapResult (- EINVAL) 0 None writable0)
  else if len =? 0 then mret (MapResult 0 0 None writable0)
  else
    let gfn := start_gpa >>! PG_ORDER_4K in
    let delta := u32 (start_gpa -! (gfn <<! PG_ORDER_4K)) in
    let size := u32 (len + delta) in
    let npages := (u32 (size + PAGE_SIZE_4K - 1)) >>! PG_ORDER_4K in
    slot ← memslot_find gfn;
    match slot with
    | None => mret (MapResult (- EINVAL) 0 None writable0)
    | Some slot =>
        let writable := negb (flag_set (ms_flags slot) HAX_MEMSLOT_READONLY) in
        let slot_end := ms_base_gfn slot +! ms_npages slot in
        let size := if slot_end <? gfn +! npages
                    then u32 (Z.shiftl (u32 (slot_end -! gfn)) PG_ORDER_4K) else size in
        let offset_within_block := ((gfn -! ms_base_gfn slot) <<! PG_ORDER_4K) +!
                                   ms_offset_within_block slot in
        chunk ← ramblock_get_chunk (ms_block slot) offset_within_block true;
        match chunk with
        | None => mret (MapResult (- ENOMEM) 0 None writable)
        | Some chunk =>
            block ← get_block (ms_block slot);
            let offset_within_chunk :=
              offset_within_block -! (ck_base_uva chunk -! rb_base_uva block) in
            let size := if ck_size chunk <? offset_within_chunk +! size
                        then u32 (ck_size chunk -! offset_within_chunk) else size in
            kva ← host_call (host_map_user_pages (ck_memdesc chunk) offset_within_chunk size);
            if kva : bool then
              let uva := ck_base_uva chunk +! offset_within_chunk in
              mret (MapResult (s32 (size - delta)) (uva +! delta) (Some uva) writable)
            else mret (MapResult (- ENOMEM) 0 None writable)
        end
    end.

(** [hax_unmap_user_pages(&kmap)]: stuck when the mapping was never made. *)
Definition unmap_user_pages (kmap : option Z) : M st Z :=
  _ ← of_option kmap; host_call hax_unmap_user_pages.

(** User memory is a finite map from addresses to bytes; bytes never written are 0. *)
Definition umem_read (m : gmap Z Z) (a : Z) : Z := default 0 (m !! a).

Fixpoint umem_bytes (m : gmap Z Z) (a : Z) (n : nat) : list Z :=
  match n with
  | O => []
  | S n => umem_read m a :: umem_bytes m (a + 1) n
  end.

Fixpoint umem_store (m : gmap Z Z) (a : Z) (data : list Z) : gmap Z Z :=
  match data with
  | [] => m
  | b :: rest => umem_store (<[a := b]> m) (a + 1) rest
  end.

(** Returns the return value and the bytes copied to [data]. *)
Definition gpa_space_read_data (start_gpa len : Z) : M st (Z * list Z) :=
  r ← gpa_space_map_range start_gpa len false;
  if mr_ret r <? 0 then mret (mr_ret r, [])
  else
    let nbytes := mr_ret r in
    if ((nbytes <? len) && (nbytes =? 0))%bool then mret (0, [])
    else
      m ← gets gs_umem;
      let data := umem_bytes m (mr_buf r) (Z.to_nat nbytes) in
      _ ← unmap_user_pages (mr_kmap r);
      mret (nbytes, data).

Definition gpa_space_write_data (start_gpa len : Z) (data : list Z) : M st Z :=
  r ← gpa_space_map_range start_gpa len false;
  if mr_ret r <? 0 then mret (mr_ret r)
  else if negb (mr_writable r) then mret (- EACCES)
  else
    let nbytes := mr_ret r in
    if ((nbytes <? len) && (nbytes =? 0))%bool then mret 0
    else
      modify (fun g => with_umem (umem_store (gs_umem g) (mr_buf r)
                                    (take (Z.to_nat nbytes) data)) g);;
      _ ← unmap_user_pages (mr_kmap r);
      mret nbytes.

(** Returns the mapped page ([None] for NULL) with its mapping and writability. *)
Definition gpa_space_map_page (gfn : Z) : M st (option Z * option Z * bool) :=
  r ← gpa_space_map_range (gfn <<! PG_ORDER_4K) PAGE_SIZE_4K false;
  if mr_ret r <? PAGE_SIZE_4K then mret (None, mr_kmap r, mr_writable r)
  else mret (Some (mr_buf r), mr_kmap r, mr_writable r).

Definition gpa_space_unmap_page (kmap : option Z) : M st unit :=
  _ ← unmap_user_pages kmap; mret tt.

(** The page frame number and [*flags]. *)
Definition gpa_space_get_pfn (gfn : Z) : M st (Z * Z) :=
  slot ← memslot_find gfn;
  match slot with
  | None => mret (INVALID_PFN, HAX_MEMSLOT_INVALID)
  | Some slot =>
      let flags := u8 (ms_flags slot) in
      let offset_within_slot := (gfn -! ms_base_gfn slot) <<! PG_ORDER_4K in
      hax_assert (offset_within_slot <? ms_npages slot <<! PG_ORDER_4K);;
      hax_assert (negb (ms_block slot =? 0));;
      let offset_within_block := ms_offset_within_block slot +! offset_within_slot in
      block ← get_block (ms_block slot);
      hax_assert (offset_within_block <? rb_size block);;
      chunk ← ramblock_get_chunk (ms_block slot) offset_within_block true;
      match chunk with
      | None => mret (INVALID_PFN, flags)
      | Some chunk =>
          let offset_within_chunk :=
            offset_within_block -! (ck_base_uva chunk -! rb_base_uva block) in
          hax_assert (offset_within_chunk <? ck_size chunk);;
          let pfn := hax_get_pfn_user (ck_memdesc chunk) offset_within_chunk in
          hax_assert (negb (pfn =? INVALID_PFN));;
          mret (pfn, flags)
      end
  end.

(** ** The protection bitmap *)
(** [memcpy(bmnew, bmold, old_size)] on a zeroed buffer of [new_size] bytes. *)
Definition bitmap_grow (bmold : list Z) (new_size : Z) : list Z :=
  bmold ++ replicate (Z.to_nat new_size - length bmold) 0.

Definition gpa_space_adjust_prot_bitmap (end_gfn : Z) : M st Z :=
  pb ← gets gs_prot;
  if end_gfn <=? gp_end_gfn pb then mret 0
  else
    let new_size := gpa_space_prot_bitmap_size end_gfn in
    if new_size =? 0 then mret (- EINVAL)
    else
      bmnew ← hax_vmalloc new_size;
      match bmnew with
      | None => mret (- ENOMEM)
      | Some _ =>
          bm ← match gp_bitmap pb with
               | Some bmold =>
                   let old_size := gpa_space_prot_bitmap_size (gp_end_gfn pb) in
                   hax_assert (negb (old_size =? 0));;
                   hax_assert ((old_size <=? Z.of_nat (length bmold)) &&
                               (old_size <=? new_size))%bool;;
                   mret (bitmap_grow (take (Z.to_nat old_size) bmold) new_size)
               | None => mret (replicate (Z.to_nat new_size) 0)
               end;
          modify (with_prot (GpaProt (Some bm) end_gfn));;
          mret 0
      end.

(** [set_bits_in_byte] on the byte [index] of the bitmap. *)
Definition set_bits_in_byte (bitmap : list Z) (index start nbits : Z) (set : bool)
    : option (list Z) :=
  if ((0 <=? start) && (start <? 8) && (0 <=? nbits) && (start + nbits <=? 8))%bool then
    b ← bitmap !! Z.to_nat index;
    let mask := Z.shiftl (Z.shiftl 1 nbits - 1) start in
    Some (<[Z.to_nat index := if set then u8 (b |! mask)
                              else u8 (b &! (Z.lnot mask &! 0xff))]> bitmap)
  else None.

(** [bitmap[i] = v] for [n] bytes from [i]; [None] outside the array. *)
Fixpoint fill_bytes (bitmap : list Z) (i : Z) (n : nat) (v : Z) : option (list Z) :=
  match n with
  | O => Some bitmap
  | S n =>
      if i <? Z.of_nat (length bitmap)
      then fill_bytes (<[Z.to_nat i := v]> bitmap) (i + 1) n v else None
  end.

Definition set_bit_block (bitmap : list Z) (start nbits : Z) (set : bool) : option (list Z) :=
  let first_byte_index := start / 8 in
  let last := (start +! nbits) -! 1 in
  let last_byte_index := last / 8 in
  let first_bit_index := s32 (start mod 8) in
  let last_bit_index := s32 (last mod 8) in
  if first_byte_index =? last_byte_index then
    set_bits_in_byte bitmap first_byte_index first_bit_index (s32 nbits) set
  else
    bm ← set_bits_in_byte bitmap first_byte_index first_bit_index (8 - first_bit_index) set;
    bm ← fill_bytes bm (first_byte_index + 1)
           (Z.to_nat (last_byte_index - (first_byte_index + 1))) (if set then 0xff else 0);
    set_bits_in_byte bm last_byte_index 0 (last_bit_index + 1) set.

Definition gpa_space_is_page_protected (gfn : Z) : M st bool :=
  pbm ← gets gs_prot;
  if gp_end_gfn pbm <=? gfn then mret false
  else
    bitmap ← of_option (gp_bitmap pbm);
    of_option (hax_test_bit (s32 gfn) bitmap).

Definition HAX_CHUNK_NR_PAGES : Z := HAX_CHUNK_SIZE / PAGE_SIZE_4K.

(** The loop over the pages of the chunk: the first protected frame. *)
Fixpoint chunk_protected_loop (n : nat) (temp_gfn : Z) : M st (option Z) :=
  match n with
  | O => mret None
  | S n =>
      p ← gpa_space_is_page_protected temp_gfn;
      if p : bool then mret (Some temp_gfn) else chunk_protected_loop n (temp_gfn + 1)
  end.

(** Returns [*fault_gfn] when some page is protected. *)
Definition gpa_space_is_chunk_protected (gfn : Z) : M st (option Z) :=
  let start_gfn := gfn / HAX_CHUNK_NR_PAGES * HAX_CHUNK_NR_PAGES in
  chunk_protected_loop (Z.to_nat HAX_CHUNK_NR_PAGES) start_gfn.

Fixpoint notify_removed (first_gfn npages : Z) (ls : list (hax_gpa_space_listener E))
    : M st unit :=
  match ls with
  | [] => mret tt
  | l :: rest =>
      call_listener ((fun cb => cb first_gfn npages 0 0) <$> mapping_removed l);;
      notify_removed first_gfn npages rest
  end.

Definition gpa_space_protect_range (start_gpa len flags : Z) : M st Z :=
  let perm := flags &! HAX_RAM_PERM_MASK in
  if len =? 0 then mret (- EINVAL)
  else if (negb (perm =? HAX_RAM_PERM_NONE) && negb (perm =? HAX_RAM_PERM_RWX))%bool
  then mret (- EINVAL)
  else
    let first_gfn := start_gpa >>! PG_ORDER_4K in
    let last_gfn := ((start_gpa +! len) -! 1) >>! PG_ORDER_4K in
    prot ← gets gs_prot;
    if gp_end_gfn prot <=? last_gfn then mret (- EINVAL)
    else
      let npages := (last_gfn -! first_gfn) +! 1 in
      bitmap ← of_option (gp_bitmap prot);
      bm ← of_option (set_bit_block bitmap first_gfn npages (perm =? HAX_RAM_PERM_NONE));
      modify (with_prot (GpaProt (Some bm) (gp_end_gfn prot)));;
      if perm =? HAX_RAM_PERM_RWX then mret 0
      else
        ls ← gets gs_listener_list;
        notify_removed first_gfn npages ls;;
        mret 0.
End GpaSpace.
