(* ===== verification/GpaAccess.v ===== *)
(** * Access to guest memory

    [gpa_space_map_range] gives access to the user memory behind guest physical
    addresses; reads and writes through it agree with the guest's view of memory,
    in which the byte at a guest physical address is the byte of user memory behind
    it.  [gpa_space_get_pfn] gives the frame that the host maps for the page. *)

From stdpp Require Import base numbers list gmap.
From Stdlib Require Import ZArith Lia Sorted.
From S2P Require Import Prelude HaxList Bitmap MemTypes Ramblock Memslot MemslotSpec.
From S2P Require Import MemslotOwn MemslotPhase MemslotLoop MemslotNotify MemslotCorrect.
From S2P Require Import SimpleHost MemslotProps GpaSpace.
#[local] Open Scope Z_scope.

Section Access.
Context {HH : Host} {E : Type}.
Notation st := (hax_gpa_space E).
Implicit Types (g : st).

(** The user virtual address behind a guest physical address. *)
Definition gpa_uva g (gpa : Z) : option Z :=
  match gfn_uva g (gpa / 4096) with
  | Some (u, _) => Some (u + gpa mod 4096)
  | None => None
  end.

(** The guest's view of a byte. *)
Definition guest_byte g (gpa : Z) : option Z :=
  umem_read (gs_umem g) <$> gpa_uva g gpa.

(** Pinning chunks changes neither the map nor the references. *)
Lemma block_step_own p g g' :
  own_inv g -> ram_inv g' -> block_step p g g' -> own_inv g'.
Proof.
  intros [Hl Hr Hrf Hk Ha _] Hr' (Hf & Hkeys & Ho & Hb).
  pose proof Hf as (Hm & _ & _ & _ & _ & Hn). unfold own_inv. rewrite Hm.
  split; [done|done| |done| |apply evo_refl].
  - intros q. specialize (Hrf q). destruct (decide (q = p)) as [->|Hne]; [|by rewrite Ho].
    destruct (nl_get p (gs_ramblock_list g)) as [b|] eqn:Hg.
    + destruct (Hb b eq_refl) as (b' & -> & _ & Hc & _). congruence.
    + destruct (nl_get p (gs_ramblock_list g')) as [b'|] eqn:Hg'; [|done].
      exfalso. apply nl_get_Some in Hg' as [Hin Hkey].
      assert (Hin2 : p ∈ nl_keys (gs_ramblock_list g)).
      { rewrite <- Hkeys. apply list_elem_of_fmap. eauto. }
      apply list_elem_of_fmap in Hin2 as (b0 & Hk0 & Hin0).
      rewrite Hk0 in Hg. rewrite (nl_get_elem _ _ (bsw_nodup _ (ri_blocks _ Hr)) Hin0) in Hg.
      done.
  - eapply Forall_impl; [exact Ha|]. cbn. lia.
Qed.

Lemma block_step_gfn p g g' gfn :
  own_inv g -> block_step p g g' -> gfn_uva g' gfn = gfn_uva g gfn.
Proof.
  intros Hown (Hf & _ & Ho & Hb). pose proof Hf as (Hm & _).
  unfold gfn_uva. rewrite Hm. destruct (slot_lookup (gs_memslot_list g) gfn) as [ln|] eqn:Hl; [|done].
  destruct (lookup_block _ _ _ _ _ _ Hown Hl) as [b Hg].
  destruct (decide (ln_block ln = p)) as [Heq|Hne].
  - rewrite Heq in *. destruct (Hb b Hg) as (b' & -> & (_ & -> & _) & _). by rewrite Hg.
  - by rewrite Ho.
Qed.

Lemma space_inv_step p g g' :
  space_inv g -> ram_inv g' -> block_step p g g' -> space_inv g'.
Proof.
  intros [Ho Hs] Hr Hst. split; [by eapply block_step_own|].
  destruct Hst as ((-> & _) & _). done.
Qed.

Lemma lookup_covered l s gfn :
  slots_wf l -> s ∈ l -> covers s gfn = true -> slot_lookup l gfn = Some (slot_line s).
Proof.
  intros Hw Hin Hc. apply list_elem_of_split in Hin as (l1 & l2 & ->).
  destruct (around _ _ _ Hw) as (_ & _ & _ & Hb & _ & _). apply covers_iff in Hc as Hc'.
  rewrite slot_lookup_app, (slot_lookup_above l1 _ gfn Hb) by lia. cbn. by rewrite Hc.
Qed.

(** The chunk behind an offset of a block, wherever the offset lies. *)
Lemma get_chunk_rule p b off g :
  space_inv g -> nl_get p (gs_ramblock_list g) = Some b -> 0 <= off ->
  exists r g', ramblock_get_chunk p off true g = Some (r, g') /\ space_inv g' /\
    block_step p g g' /\ (forall c, r = Some c -> off < rb_size b /\ chunk_found p off b c g') /\
    (r = None -> rb_size b <= off \/ chunk_refused b).
Proof.
  intros Hinv Hg Ho. pose proof (st_ram _ _ _ _ (si_own _ Hinv)) as Hri.
  destruct (Z.lt_ge_cases off (rb_size b)) as [Hlt|Hge].
  - destruct (ramblock_get_chunk_correct p b off g Hri Hg) as (r & g' & Hrun & Hr & Hst & Hc & Hn);
      [lia|].
    exists r, g'. split_and!; [done|by eapply space_inv_step|done|auto|auto].
  - destruct (ram_inv_block _ _ _ Hri Hg) as (_ & Hp & _). exists None, g.
    split_and!; [|done|apply block_step_host, host_step_refl|done|by left].
    unfold ramblock_get_chunk. rewrite (proj2 (Z.eqb_neq p 0)) by done.
    rewrite (bind_run _ _ _ _ _ (get_block_run _ _ _ Hg)).
    by rewrite (proj2 (Z.leb_le _ _)).
Qed.

(** The parts of the state that accesses keep. *)
Definition same_view g g' : Prop :=
  space_inv g' /\ (forall gfn, gfn_uva g' gfn = gfn_uva g gfn) /\
  gs_memslot_list g' = gs_memslot_list g /\ gs_listener_list g' = gs_listener_list g /\
  gs_prot g' = gs_prot g /\ gs_opaque g' = gs_opaque g.

Lemma same_view_refl g : space_inv g -> same_view g g.
Proof. intros. by split_and!. Qed.

Lemma same_view_step p g g' :
  space_inv g -> space_inv g' -> block_step p g g' -> same_view g g'.
Proof.
  intros Hi Hi' Hst. pose proof Hst as ((? & ? & ? & ? & _) & _). split_and!; try done.
  intros gfn. eapply block_step_gfn; [apply Hi|done].
Qed.

Lemma same_view_trans g1 g2 g3 : same_view g1 g2 -> same_view g2 g3 -> same_view g1 g3.
Proof.
  intros (? & Hg & ? & ? & ? & ?) (? & Hg' & ? & ? & ? & ?).
  split_and!; [done|intros gfn; by rewrite Hg', Hg|congruence..].
Qed.

Lemma same_view_host g g' : space_inv g -> host_step g g' -> same_view g g'.
Proof.
  intros Hi Hh. apply (same_view_step 0); [done| |by apply block_step_host].
  eapply (space_inv_step 0); [done| |by apply block_step_host].
  eapply ram_inv_host; [done|]. apply (st_ram _ _ _ _ (si_own _ Hi)).
Qed.

Lemma s32_id x : - 2 ^ 31 <= x < 2 ^ 31 -> s32 x = x.
Proof.
  intros Hx. unfold s32. destruct (Z.lt_ge_cases x 0).
  - rewrite <- (Z.mod_unique_pos x (2 ^ 32) (-1) (x + 2 ^ 32)) by lia.
    destruct (Z.ltb_spec (x + 2 ^ 32) (2 ^ 31)); lia.
  - rewrite Z.mod_small by lia. destruct (Z.ltb_spec x (2 ^ 31)); lia.
Qed.

(** Splitting an address into its frame and its offset. *)
Lemma gpa_split start_gpa :
  0 <= start_gpa < 2 ^ 64 ->
  start_gpa >>! PG_ORDER_4K = start_gpa / 4096 /\
  u32 (start_gpa -! ((start_gpa >>! PG_ORDER_4K) <<! PG_ORDER_4K)) = start_gpa mod 4096 /\
  0 <= start_gpa mod 4096 < 4096 /\ 0 <= start_gpa / 4096 < 2 ^ 52 /\
  start_gpa = start_gpa / 4096 * 4096 + start_gpa mod 4096.
Proof.
  intros Hg. pose proof (Z.div_mod start_gpa 4096 ltac:(lia)).
  pose proof (Z.mod_pos_bound start_gpa 4096 ltac:(lia)).
  assert (0 <= start_gpa / 4096 < 2 ^ 52)
    by (split; [apply Z.div_pos; lia|apply Z.div_lt_upper_bound; lia]).
  unfold PG_ORDER_4K. rewrite shiftr_12, shiftl64_12 by done.
  rewrite u64_small by lia. rewrite u32_small by lia. lia.
Qed.

(** The number of pages that [size] bytes from a page boundary touch. *)
Lemma npages_bound size :
  0 < size < 2 ^ 32 - 4096 ->
  let n := (u32 (size + PAGE_SIZE_4K - 1)) >>! PG_ORDER_4K in
  (n - 1) * 4096 < size <= n * 4096 /\ 0 < n < 2 ^ 20.
Proof.
  intros Hs n. subst n. unfold PG_ORDER_4K. change PAGE_SIZE_4K with 4096.
  rewrite u32_small by lia. rewrite shiftr_12.
  pose proof (Z.div_mod (size + 4096 - 1) 4096 ltac:(lia)).
  pose proof (Z.mod_pos_bound (size + 4096 - 1) 4096 ltac:(lia)). lia.
Qed.

(** The outcome of mapping a range for access. *)
Definition map_range_post g (start_gpa len : Z) (r : map_result) : Prop :=
  (mr_ret r = - EINVAL /\ gfn_uva g (start_gpa / 4096) = None) \/
  mr_ret r = - ENOMEM \/
  (is_Some (mr_kmap r) /\ mr_ret r <= len /\
   (exists u ro, gfn_uva g (start_gpa / 4096) = Some (u, ro) /\ mr_writable r = (ro =? 0) /\
      forall i, 0 <= i < mr_ret r -> exists u', gfn_uva g ((start_gpa + i) / 4096) = Some (u', ro)) /\
   forall i, 0 <= i < mr_ret r -> gpa_uva g (start_gpa + i) = Some (mr_buf r + i)).

(** The bytes of a slot from a given frame on lie consecutively in its block. *)
Lemma slot_gpa g s b start_gpa i size :
  space_inv g -> s ∈ gs_memslot_list g -> nl_get (ms_block s) (gs_ramblock_list g) = Some b ->
  ms_base_gfn s <= start_gpa / 4096 ->
  start_gpa / 4096 * 4096 + size <= s_end s * 4096 ->
  0 <= i < size - start_gpa mod 4096 ->
  gpa_uva g (start_gpa + i) =
  Some (rb_base_uva b + ms_offset_within_block s - ms_base_gfn s * 4096 + start_gpa + i).
Proof.
  intros [_ Hw] Hin Hb Hlo Hhi Hi. pose proof (Z.div_mod start_gpa 4096 ltac:(lia)).
  pose proof (Z.div_mod (start_gpa + i) 4096 ltac:(lia)).
  pose proof (Z.mod_pos_bound (start_gpa + i) 4096 ltac:(lia)).
  assert (start_gpa / 4096 <= (start_gpa + i) / 4096) by (apply Z.div_le_mono; lia).
  unfold gpa_uva, gfn_uva.
  rewrite (lookup_covered _ s _ Hw Hin) by (apply covers_iff; lia).
  unfold slot_line at 1. cbn [ln_block]. rewrite Hb. unfold line_offset, slot_line. cbn.
  f_equal. lia.
Qed.

(** They have the read-only bit of the slot. *)
Lemma slot_gpa_ro g s b start_gpa i size :
  space_inv g -> s ∈ gs_memslot_list g -> nl_get (ms_block s) (gs_ramblock_list g) = Some b ->
  ms_base_gfn s <= start_gpa / 4096 ->
  start_gpa / 4096 * 4096 + size <= s_end s * 4096 ->
  0 <= i < size - start_gpa mod 4096 ->
  exists u, gfn_uva g ((start_gpa + i) / 4096) = Some (u, ln_readonly (slot_line s)).
Proof.
  intros [_ Hw] Hin Hb Hlo Hhi Hi. pose proof (Z.div_mod start_gpa 4096 ltac:(lia)).
  pose proof (Z.div_mod (start_gpa + i) 4096 ltac:(lia)).
  pose proof (Z.mod_pos_bound (start_gpa + i) 4096 ltac:(lia)).
  assert (start_gpa / 4096 <= (start_gpa + i) / 4096) by (apply Z.div_le_mono; lia).
  unfold gfn_uva. rewrite (lookup_covered _ s _ Hw Hin) by (apply covers_iff; lia).
  unfold slot_line at 1. cbn [ln_block]. rewrite Hb. by eexists.
Qed.

Lemma map_range_rule start_gpa len w g :
  space_inv g -> 0 <= start_gpa < 2 ^ 64 -> 0 < len < 2 ^ 31 ->
  exists r g', gpa_space_map_range start_gpa len w g = Some (r, g') /\ same_view g g' /\
               gs_umem g' = gs_umem g /\ map_range_post g start_gpa len r.
Proof.
  intros Hinv Hg Hlen. unfold gpa_space_map_range.
  rewrite (proj2 (Z.ltb_ge len 0)), (proj2 (Z.eqb_neq len 0)) by lia. cbv zeta.
  destruct (gpa_split _ Hg) as (Hgfn & Hdelta & Hd & Hgb & Hsplit). rewrite Hdelta, Hgfn.
  set (gfn := start_gpa / 4096) in *. set (delta := start_gpa mod 4096) in *.
  rewrite (u32_small (len + delta)) by lia.
  destruct (npages_bound (len + delta) ltac:(lia)) as [Hn Hn2].
  set (n := (u32 (len + delta + PAGE_SIZE_4K - 1)) >>! PG_ORDER_4K) in *. clearbody n.
  destruct (memslot_search_spec _ gfn (si_slots _ Hinv)) as [Hlk Hse].
  unfold memslot_find. rewrite gets_run.
  destruct (memslot_search gfn (gs_memslot_list g)) as [s|] eqn:Hs.
  2: { eexists _, g. split; [done|]. split_and!; [by apply same_view_refl|done|]. left.
       split; [done|]. unfold gfn_uva. fold gfn. by rewrite Hlk. }
  destruct (Hse s eq_refl) as [Hin Hc]. apply covers_iff in Hc. cbn in Hlk.
  assert (Hrs : range_wf s).
  { pose proof (sw_range _ (si_slots _ Hinv)) as Hr. rewrite Forall_forall in Hr. auto. }
  destruct (range_bounds s Hrs) as (? & ? & ? & ? & ?).
  destruct (lookup_block _ _ _ _ _ _ (si_own _ Hinv) Hlk) as [b Hb]. cbn in Hb.
  rewrite slot_end_val by done. rewrite (u64_small (gfn + n)) by lia.
  rewrite (u64_small (s_end s - gfn)) by (unfold s_end in *; lia).
  (* the size limited to the slot *)
  set (size := if s_end s <? gfn + n then _ else _).
  assert (Hsize : 0 < size <= len + delta /\ gfn * 4096 + size <= s_end s * 4096).
  { subst size. destruct (Z.ltb_spec (s_end s) (gfn + n)); [|lia].
    unfold PG_ORDER_4K. rewrite (u32_small (s_end s - gfn)), shiftl_12 by lia.
    rewrite u32_small by lia. lia. }
  clearbody size. unfold s_end in Hc.
  rewrite shift_diff by lia. rewrite (u64_small ((gfn - ms_base_gfn s) * 4096)) by lia.
  rewrite (u64_small ((gfn - ms_base_gfn s) * 4096 + _)) by lia.
  set (off := (gfn - ms_base_gfn s) * 4096 + ms_offset_within_block s).
  destruct (get_chunk_rule (ms_block s) b off g Hinv Hb) as (r & g1 & Hrun & Hinv1 & Hst & Hr & _);
    [lia|].
  rewrite (bind_run _ _ _ _ _ Hrun).
  assert (Hv1 : same_view g g1 /\ gs_umem g1 = gs_umem g).
  { split; [by eapply same_view_step|apply Hst]. }
  destruct r as [c|]; [|eexists _, g1; split; [done|]; split_and!; try apply Hv1; right; by left].
  destruct (Hr c eq_refl) as (Hoff & Hcf1 & Hcf2 & Hcf3 & _).
  destruct Hst as (_ & _ & _ & Hbs). destruct (Hbs b Hb) as (b1 & Hb1 & (_ & Hbase & _) & _).
  rewrite (bind_run _ _ _ _ _ (get_block_run _ _ _ Hb1)). rewrite Hbase.
  destruct (ram_inv_block _ _ _ (st_ram _ _ _ _ (si_own _ Hinv)) Hb) as (Hbw & _ & _).
  pose proof (bw_base _ Hbw). pose proof (bw_top _ Hbw). pose proof (bw_size _ Hbw) as Hbsz.
  unfold MAX_BLOCK_SIZE in Hbsz.
  rewrite (u64_small (ck_base_uva c - rb_base_uva b)) by lia.
  set (o := off - (ck_base_uva c - rb_base_uva b)).
  rewrite (u64_small o) by lia. rewrite (u64_small (o + size)) by lia.
  rewrite (u64_small (ck_size c - o)) by lia.
  (* the size limited to the chunk *)
  set (size2 := if ck_size c <? o + size then _ else _).
  assert (Hsize2 : 0 < size2 <= size /\ o + size2 <= ck_size c).
  { subst size2. destruct (Z.ltb_spec (ck_size c) (o + size)); [|lia].
    rewrite u32_small by lia. lia. }
  clearbody size2.
  destruct (host_call_step (host_map_user_pages (ck_memdesc c) o size2) g1)
    as (kva & g2 & Hrun2 & Hh). rewrite (bind_run _ _ _ _ _ Hrun2).
  assert (Hv2 : same_view g g2 /\ gs_umem g2 = gs_umem g).
  { split; [eapply same_view_trans; [apply Hv1|by apply same_view_host]|].
    destruct Hh as (h & a & _ & ->). apply Hv1. }
  destruct kva; [|eexists _, g2; split; [done|]; split_and!; try apply Hv2; right; by left].
  eexists _, g2. split; [done|]. split_and!; try apply Hv2. right. right. cbn.
  rewrite s32_id by lia. rewrite (u64_small (ck_base_uva c + o)) by lia.
  split_and!; [by eexists|lia| |].
  - exists (rb_base_uva b + line_offset (slot_line s) gfn), (ln_readonly (slot_line s)).
    split; [|split].
    + unfold gfn_uva. fold gfn. rewrite Hlk. cbn. by rewrite Hb.
    + unfold flag_set. by rewrite negb_involutive.
    + intros i Hi. apply (slot_gpa_ro g s b start_gpa i size); try done; lia.
  - intros i Hi. rewrite u64_small by lia.
    rewrite (slot_gpa g s b start_gpa i size); try done; [|lia..]. f_equal. fold gfn in Hsplit. lia.
Qed.

(** ** Reading and writing *)
Lemma umem_bytes_lookup m a n i :
  (i < n)%nat -> umem_bytes m a n !! i = Some (umem_read m (a + Z.of_nat i)).
Proof.
  revert a i. induction n as [|n IH]; intros a i Hi; [lia|]. destruct i as [|i]; cbn.
  - do 2 f_equal. lia.
  - rewrite IH by lia. do 2 f_equal. lia.
Qed.

Lemma umem_bytes_length m a n : length (umem_bytes m a n) = n.
Proof. revert a. induction n as [|n IH]; intros a; cbn; [done|]. by rewrite IH. Qed.

Lemma umem_store_other m a data x :
  x < a \/ a + Z.of_nat (length data) <= x -> umem_store m a data !! x = m !! x.
Proof.
  revert m a. induction data as [|v data IH]; intros m a Hx; [done|]. cbn in *.
  rewrite IH by lia. apply lookup_insert_ne. lia.
Qed.

Lemma umem_store_lookup m a data i :
  (i < length data)%nat -> umem_store m a data !! (a + Z.of_nat i) = data !! i.
Proof.
  revert m a i. induction data as [|v data IH]; intros m a i Hi; cbn in *; [lia|].
  destruct i as [|i].
  - rewrite umem_store_other by lia. replace (a + Z.of_nat 0) with a by lia.
    by rewrite lookup_insert_eq.
  - replace (a + Z.of_nat (S i)) with ((a + 1) + Z.of_nat i) by lia. cbn. apply IH. lia.
Qed.

Lemma same_view_umem m g : space_inv g -> same_view g (with_umem m g).
Proof.
  intros [Ho Hs]. split_and!; try done. split; [|done].
  destruct Ho as [Hl Hr Hrf Hk Ha _]. split; try done; [by destruct Hr|apply evo_refl].
Qed.

Lemma unmap_rule k g :
  is_Some k -> space_inv g ->
  exists r g', unmap_user_pages k g = Some (r, g') /\ same_view g g' /\ gs_umem g' = gs_umem g.
Proof.
  intros [u ->] Hi. unfold unmap_user_pages. cbn.
  destruct (host_call_step hax_unmap_user_pages g) as (r & g' & Hrun & Hh).
  exists r, g'. split; [exact Hrun|]. split; [by apply same_view_host|].
  destruct Hh as (h & a & _ & ->). done.
Qed.

Lemma read_data_rule start_gpa len g :
  space_inv g -> 0 <= start_gpa < 2 ^ 64 -> 0 < len < 2 ^ 31 ->
  exists ret data g', gpa_space_read_data start_gpa len g = Some (ret, data, g') /\
    same_view g g' /\ gs_umem g' = gs_umem g /\ ret <= len /\
    (0 < ret -> length data = Z.to_nat ret /\
       forall i v, data !! i = Some v -> guest_byte g (start_gpa + Z.of_nat i) = Some v).
Proof.
  intros Hinv Hg Hlen. unfold gpa_space_read_data.
  destruct (map_range_rule start_gpa len false g Hinv Hg Hlen)
    as (r & g1 & Hrun & Hv & Hum & Hpost).
  rewrite (bind_run _ _ _ _ _ Hrun).
  destruct Hpost as [(Hret & _)|[Hret|(Hk & Hle & _ & Hbytes)]].
  1,2: rewrite Hret; eexists _, _, g1; unfold EINVAL, ENOMEM; split; [done|];
    split_and!; try done; lia.
  destruct (Z.ltb_spec (mr_ret r) 0) as [Hneg|Hneg].
  { eexists _, _, g1. split; [done|]. split_and!; try done. lia. }
  cbv zeta. destruct ((mr_ret r <? len) && (mr_ret r =? 0))%bool eqn:Hz.
  { eexists _, _, g1. split; [done|]. split_and!; try done. lia. }
  rewrite gets_run, Hum.
  destruct (unmap_rule (mr_kmap r) g1 Hk (proj1 Hv)) as (u & g2 & Hrun2 & Hv2 & Hum2).
  rewrite (bind_run _ _ _ _ _ Hrun2). eexists _, _, g2. split; [done|].
  split_and!; [by eapply same_view_trans|congruence|done|]. intros Hpos.
  rewrite umem_bytes_length. split; [done|]. intros i v Hi.
  apply lookup_lt_Some in Hi as Hlt. rewrite umem_bytes_length in Hlt.
  rewrite umem_bytes_lookup in Hi by done. injection Hi as <-.
  unfold guest_byte. by rewrite Hbytes by lia.
Qed.

(** A write that succeeds stores the data where the guest sees it, in frames that are
    all mapped writable. *)
Definition write_post g start_gpa (data : list Z) ret g' : Prop :=
  (forall i, 0 <= Z.of_nat i < ret ->
     guest_byte g' (start_gpa + Z.of_nat i) = data !! i) /\
  (forall i, 0 <= i < ret -> exists u, gfn_uva g ((start_gpa + i) / 4096) = Some (u, 0)) /\
  exists buf, (forall i, 0 <= i < ret -> gpa_uva g (start_gpa + i) = Some (buf + i)) /\
    forall x, x < buf \/ buf + ret <= x -> gs_umem g' !! x = gs_umem g !! x.

Lemma same_view_gpa g g' gpa : same_view g g' -> gpa_uva g' gpa = gpa_uva g gpa.
Proof. intros (_ & Hg & _). unfold gpa_uva. by rewrite Hg. Qed.

Lemma write_data_rule start_gpa len data g :
  space_inv g -> 0 <= start_gpa < 2 ^ 64 -> 0 < len < 2 ^ 31 -> len <= Z.of_nat (length data) ->
  exists ret g', gpa_space_write_data start_gpa len data g = Some (ret, g') /\
    same_view g g' /\ ret <= len /\
    (ret <= 0 -> gs_umem g' = gs_umem g) /\ (0 < ret -> write_post g start_gpa data ret g') /\
    (forall u ro, gfn_uva g (start_gpa / 4096) = Some (u, ro) -> ro <> 0 -> ret <= 0).
Proof.
  intros Hinv Hg Hlen Hdata. unfold gpa_space_write_data.
  destruct (map_range_rule start_gpa len false g Hinv Hg Hlen)
    as (r & g1 & Hrun & Hv & Hum & Hpost).
  rewrite (bind_run _ _ _ _ _ Hrun).
  destruct Hpost as [(Hret & _)|[Hret|(Hk & Hle & (u & ro & Hgu & Hw & Hros) & Hbytes)]].
  1,2: rewrite Hret; eexists _, g1; unfold EINVAL, ENOMEM; split; [done|];
    split_and!; try done; lia.
  destruct (Z.ltb_spec (mr_ret r) 0) as [Hneg|Hneg].
  { eexists _, g1. split; [done|]. split_and!; try done; intros; lia. }
  destruct (mr_writable r) eqn:Hwr; cbn [negb].
  2: { eexists _, g1. unfold EACCES. split; [done|]. split_and!; try done; intros; lia. }
  cbv zeta. destruct ((mr_ret r <? len) && (mr_ret r =? 0))%bool eqn:Hz.
  { eexists _, g1. split; [done|]. split_and!; try done; intros; lia. }
  erewrite bind_run by reflexivity. set (n := Z.to_nat (mr_ret r)).
  set (g2 := with_umem _ g1).
  assert (Hv2 : same_view g g2) by (eapply same_view_trans; [done|apply same_view_umem, Hv]).
  destruct (unmap_rule (mr_kmap r) g2 Hk (proj1 Hv2)) as (k & g3 & Hrun2 & Hv3 & Hum3).
  rewrite (bind_run _ _ _ _ _ Hrun2). eexists _, g3. split; [done|].
  assert (Hlt : Z.of_nat (length (take n data)) = mr_ret r) by (rewrite length_take; lia).
  pose proof (same_view_trans _ _ _ Hv2 Hv3) as Hv4.
  assert (Hum4 : gs_umem g3 = umem_store (gs_umem g) (mr_buf r) (take n data))
    by (rewrite Hum3; subst g2; cbn; by rewrite Hum).
  split_and!; [done|done| | |].
  - intros Hz2. assert (n = 0%nat) as Hn0 by lia. by rewrite Hum4, Hn0.
  - symmetry in Hw. apply Z.eqb_eq in Hw as ->. intros Hpos. split; [|split; [done|]].
    + intros i Hi. unfold guest_byte. rewrite (same_view_gpa _ _ _ Hv4), Hbytes by lia.
      cbn. unfold umem_read. rewrite Hum4, umem_store_lookup by lia.
      rewrite lookup_take_lt by lia.
      destruct (lookup_lt_is_Some_2 data i) as [v ->]; [lia|done].
    + exists (mr_buf r). split; [done|]. intros x Hx. rewrite Hum4.
      apply umem_store_other. lia.
  - intros u' ro' Hgu'. rewrite Hgu in Hgu'. simplify_eq. intros Hne.
    symmetry in Hw. apply Z.eqb_eq in Hw. done.
Qed.

(** C35. Reading guest memory returns bytes of the guest's view: a positive result [ret]
    is at most [len], exactly [ret] bytes are copied, and byte [i] is the byte of user
    memory that backs guest physical address [start + i]; in particular all these
    addresses are mapped.  The read changes neither the map nor memory. *)
Theorem gpa_space_read_data_correct start_gpa len g :
  space_inv g -> 0 <= start_gpa < 2 ^ 64 -> 0 < len < 2 ^ 31 ->
  exists ret data g', gpa_space_read_data start_gpa len g = Some (ret, data, g') /\
    same_view g g' /\ gs_umem g' = gs_umem g /\ ret <= len /\
    (0 < ret -> (Some <$> data) =
                (fun i => guest_byte g (start_gpa + Z.of_nat i)) <$> seq 0 (Z.to_nat ret)).
Proof.
  intros Hinv Hg Hlen. destruct (read_data_rule start_gpa len g Hinv Hg Hlen)
    as (ret & data & g' & Hrun & Hv & Hum & Hle & Hd).
  exists ret, data, g'. split_and!; try done. intros Hpos. destruct (Hd Hpos) as [Hl Hb].
  apply list_eq. intros i. rewrite !list_lookup_fmap.
  destruct (data !! i) as [v|] eqn:Hi.
  - pose proof (lookup_lt_Some _ _ _ Hi). rewrite lookup_seq_lt by lia. cbn.
    by rewrite (Hb i v Hi).
  - apply lookup_ge_None in Hi. by rewrite lookup_seq_ge by lia.
Qed.

(** C36. Writing guest memory: a positive result [ret] is at most [len]; the guest then
    sees the first [ret] bytes of the data at the written addresses, each of these
    addresses lies in a frame that is mapped writable, and user memory is unchanged
    elsewhere; otherwise memory is unchanged.  A write that starts in a read-only
    frame changes nothing, and one that starts in a writable frame stops before the
    first byte of a read-only frame. *)
Theorem gpa_space_write_data_correct start_gpa len data g :
  space_inv g -> 0 <= start_gpa < 2 ^ 64 -> 0 < len < 2 ^ 31 -> len <= Z.of_nat (length data) ->
  exists ret g', gpa_space_write_data start_gpa len data g = Some (ret, g') /\
    same_view g g' /\ ret <= len /\
    (ret <= 0 -> gs_umem g' = gs_umem g) /\ (0 < ret -> write_post g start_gpa data ret g') /\
    (forall u ro, gfn_uva g (start_gpa / 4096) = Some (u, ro) -> ro <> 0 ->
       gs_umem g' = gs_umem g).
Proof.
  intros Hinv Hg Hlen Hd.
  destruct (write_data_rule start_gpa len data g Hinv Hg Hlen Hd)
    as (ret & g' & Hrun & Hv & Hle & Hz & Hp & Hro).
  exists ret, g'. split_and!; try done. intros u ro Hu Hne. apply Hz. by eapply Hro.
Qed.

(** Reading back: after a complete write, a read of the same range returns, as far
    as it gets, the bytes that were written. *)
Theorem gpa_space_write_read start_gpa len data g :
  space_inv g -> 0 <= start_gpa < 2 ^ 64 -> 0 < len < 2 ^ 31 -> len = Z.of_nat (length data) ->
  exists ret g1, gpa_space_write_data start_gpa len data g = Some (ret, g1) /\
    (ret = len -> exists ret2 out g2,
       gpa_space_read_data start_gpa len g1 = Some (ret2, out, g2) /\
       (0 < ret2 -> out = take (Z.to_nat ret2) data)).
Proof.
  intros Hinv Hg Hlen Hd.
  destruct (write_data_rule start_gpa len data g Hinv Hg Hlen ltac:(lia))
    as (ret & g1 & Hrun & Hv & Hle & _ & Hp & _).
  exists ret, g1. split; [done|]. intros ->. destruct (Hp ltac:(lia)) as [Hw _].
  destruct (read_data_rule start_gpa len g1 (proj1 Hv) Hg Hlen)
    as (ret2 & out & g2 & Hrun2 & _ & _ & Hle2 & Hout).
  exists ret2, out, g2. split; [done|]. intros Hpos.
  destruct (Hout Hpos) as [Hlo Hbytes]. apply list_eq. intros i.
  destruct (decide (i < Z.to_nat ret2)%nat) as [Hi|Hi].
  - destruct (lookup_lt_is_Some_2 out i) as [v Hv']; [lia|].
    rewrite Hv', lookup_take_lt by done. specialize (Hbytes i v Hv').
    rewrite Hw in Hbytes by lia. done.
  - rewrite lookup_ge_None_2, lookup_ge_None_2; [done|rewrite length_take; lia|lia].
Qed.

Lemma u8_readonly flags :
  u8 flags &! HAX_MEMSLOT_READONLY = flags &! HAX_MEMSLOT_READONLY.
Proof.
  apply Z.bits_inj'. intros n Hn. rewrite !Z.land_spec.
  destruct (decide (n = 0)) as [->|Hne].
  - unfold u8. by rewrite Z.mod_pow2_bits_low by lia.
  - assert (Hb : Z.testbit HAX_MEMSLOT_READONLY n = false)
      by (change HAX_MEMSLOT_READONLY with (2 ^ 0); apply Z.pow2_bits_false; lia).
    by rewrite Hb, !andb_false_r.
Qed.

(** The page frame number of a guest frame: an unmapped frame has no frame number
    and is reported as MMIO; a frame that lies inside its RAM block yields the frame
    number of the pinned page behind the address [gfn_uva] maps it to, and its flags,
    or INVALID_PFN when the page cannot be pinned; no assertion fails. *)
Theorem gpa_space_get_pfn_correct gfn g :
  space_inv g -> (forall md off, hax_get_pfn_user md off <> INVALID_PFN) ->
  (forall s b, s ∈ gs_memslot_list g -> covers s gfn = true ->
     nl_get (ms_block s) (gs_ramblock_list g) = Some b ->
     ms_offset_within_block s + (gfn - ms_base_gfn s) * 4096 < rb_size b) ->
  exists pfn flags g', gpa_space_get_pfn gfn g = Some (pfn, flags, g') /\ same_view g g' /\
    match gfn_uva g gfn with
    | None => pfn = INVALID_PFN /\ flags = HAX_MEMSLOT_INVALID
    | Some (u, ro) => flags &! HAX_MEMSLOT_READONLY = ro /\
        (pfn = INVALID_PFN \/
         exists b c i, b ∈ gs_ramblock_list g' /\ rb_chunks b !! i = Some (Some c) /\
           ck_base_uva c <= u < ck_base_uva c + ck_size c /\
           pfn = hax_get_pfn_user (ck_memdesc c) (u - ck_base_uva c))
    end.
Proof.
  intros Hinv Hpfn Hfit. unfold gpa_space_get_pfn.
  destruct (memslot_search_spec _ gfn (si_slots _ Hinv)) as [Hlk Hse].
  unfold memslot_find. rewrite gets_run. unfold gfn_uva. rewrite Hlk.
  destruct (memslot_search gfn (gs_memslot_list g)) as [s|] eqn:Hs.
  2: { eexists _, _, g. split; [done|]. by split; [apply same_view_refl|]. }
  destruct (Hse s eq_refl) as [Hin Hc]. cbn in Hlk |- *.
  destruct (lookup_block _ _ _ _ _ _ (si_own _ Hinv) Hlk) as [b Hb]. cbn in Hb. rewrite Hb.
  specialize (Hfit s b Hin Hc Hb). apply covers_iff in Hc.
  assert (Hrs : range_wf s).
  { pose proof (sw_range _ (si_slots _ Hinv)) as Hr. rewrite Forall_forall in Hr. auto. }
  destruct (range_bounds s Hrs) as (? & ? & ? & ? & ?). unfold s_end in Hc.
  destruct (ram_inv_block _ _ _ (st_ram _ _ _ _ (si_own _ Hinv)) Hb) as (Hbw & Hp0 & _).
  rewrite shift_diff by lia. rewrite (u64_small ((gfn - ms_base_gfn s) * 4096)) by lia.
  unfold PG_ORDER_4K. rewrite shiftl64_12 by lia.
  rewrite assert_run by (apply Z.ltb_lt; lia).
  rewrite assert_run by (apply negb_true_iff; by apply Z.eqb_neq). cbv zeta.
  set (off := ms_offset_within_block s + (gfn - ms_base_gfn s) * 4096) in *.
  rewrite (u64_small off) by lia.
  rewrite (bind_run _ _ _ _ _ (get_block_run _ _ _ Hb)).
  rewrite assert_run by (apply Z.ltb_lt; lia).
  destruct (get_chunk_rule (ms_block s) b off g Hinv Hb) as (r & g1 & Hrun & Hinv1 & Hst & Hr & _);
    [lia|].
  rewrite (bind_run _ _ _ _ _ Hrun). pose proof (same_view_step _ _ _ Hinv Hinv1 Hst) as Hv1.
  pose proof (u8_readonly (ms_flags s)) as Hflag.
  destruct r as [c|]; [|eexists _, _, g1; split; [done|]; split_and!; try done; by left].
  destruct (Hr c eq_refl) as (_ & Hcf1 & Hcf2 & Hcf3 & _ & b' & Hb' & Hch).
  pose proof (bw_base _ Hbw). pose proof (bw_top _ Hbw).
  rewrite (u64_small (ck_base_uva c - rb_base_uva b)) by lia. rewrite u64_small by lia.
  rewrite assert_run by (apply Z.ltb_lt; lia).
  rewrite assert_run by (apply negb_true_iff; apply Z.eqb_neq, Hpfn).
  eexists _, _, g1. split; [done|]. split_and!; [done|done|]. right.
  apply nl_get_Some in Hb' as [Hin' _]. exists b', c, (Z.to_nat (off / 2 ^ 21)).
  unfold line_offset, slot_line. cbn. split_and!; [done|done|lia|lia|f_equal; lia].
Qed.
End Access.

(** ** Instances *)
(** Four bytes written at the end of frame 256. *)
Lemma gpa_space_write_data_correct_witness :
  exists ret g', gpa_space_write_data 0x100ffe 4 [1; 2; 3; 4] demo_mapped = Some (ret, g') /\
    ret = 4 /\ guest_byte g' 0x100ffe = Some 1 /\ guest_byte g' 0x101001 = Some 4.
Proof.
  destruct (gpa_space_write_data_correct 0x100ffe 4 [1; 2; 3; 4] demo_mapped
    (proj1 demo_mapped_inv) ltac:(lia) ltac:(lia) ltac:(cbn; lia))
    as (ret & g' & Hrun & _ & _ & _ & Hw & _).
  assert (Hret : fst <$> gpa_space_write_data 0x100ffe 4 [1; 2; 3; 4] demo_mapped = Some 4)
    by (vm_compute; reflexivity).
  rewrite Hrun in Hret. cbn in Hret. injection Hret as ->.
  destruct (Hw ltac:(lia)) as [Hb _]. exists 4, g'. split; [exact Hrun|]. split; [reflexivity|].
  split; [exact (Hb 0%nat ltac:(lia))|exact (Hb 3%nat ltac:(lia))].
Defined.

Lemma gpa_space_read_data_correct_witness :
  exists data g', gpa_space_read_data 0x100ffe 4 demo_mapped = Some (4, data, g') /\
    Some <$> data = (fun i => guest_byte demo_mapped (0x100ffe + Z.of_nat i)) <$> seq 0 4.
Proof.
  destruct (gpa_space_read_data_correct 0x100ffe 4 demo_mapped (proj1 demo_mapped_inv)
    ltac:(lia) ltac:(lia)) as (ret & data & g' & Hrun & _ & _ & _ & Hd).
  assert (Hret : (fun r => r.1.1) <$> gpa_space_read_data 0x100ffe 4 demo_mapped = Some 4)
    by (vm_compute; reflexivity).
  rewrite Hrun in Hret. cbn in Hret. injection Hret as ->.
  exists data, g'. split; [exact Hrun|exact (Hd ltac:(lia))].
Defined.

Lemma gpa_space_write_read_witness :
  exists ret g1, gpa_space_write_data 0x100ffe 4 [1; 2; 3; 4] demo_mapped = Some (ret, g1) /\
    (ret = 4 -> exists ret2 out g2, gpa_space_read_data 0x100ffe 4 g1 = Some (ret2, out, g2) /\
       (0 < ret2 -> out = take (Z.to_nat ret2) [1; 2; 3; 4])).
Proof.
  exact (gpa_space_write_read 0x100ffe 4 [1; 2; 3; 4] demo_mapped (proj1 demo_mapped_inv)
    ltac:(lia) ltac:(lia) eq_refl).
Defined.

(** Frame 257 is behind address 0x10002000, whose frame number is 0x10002. *)
Lemma gpa_space_get_pfn_correct_witness :
  exists flags g', gpa_space_get_pfn 257 demo_mapped = Some (0x10002, flags, g') /\
    same_view demo_mapped g' /\ flags &! HAX_MEMSLOT_READONLY = 0.
Proof.
  destruct (gpa_space_get_pfn_correct 257 demo_mapped (proj1 demo_mapped_inv))
    as (pfn & flags & g' & Hrun & Hv & Hr).
  - intros md off Heq. change (((md + off) / 4096) mod 2 ^ 36 = 2 ^ 40 - 1) in Heq.
    pose proof (Z.mod_pos_bound ((md + off) / 4096) (2 ^ 36) ltac:(lia)). lia.
  - intros s b Hin _ Hb.
    assert (Hl : gs_memslot_list demo_mapped = [Memslot 10 256 16 1 0x1000 0])
      by (vm_compute; reflexivity).
    rewrite Hl in Hin. apply list_elem_of_singleton in Hin as ->.
    assert (Hsz : rb_size <$> nl_get 1 (gs_ramblock_list demo_mapped) = Some 0x400000)
      by (vm_compute; reflexivity).
    cbn [ms_block] in Hb. rewrite Hb in Hsz. cbn in Hsz. injection Hsz as ->. cbn. lia.
  - assert (Hp : (fun r => r.1.1) <$> gpa_space_get_pfn 257 demo_mapped = Some 0x10002)
      by (vm_compute; reflexivity).
    rewrite Hrun in Hp. cbn in Hp. injection Hp as ->.
    assert (Hu : gfn_uva demo_mapped 257 = Some (0x10002000, 0)) by (vm_compute; reflexivity).
    rewrite Hu in Hr. exists flags, g'. exact (conj Hrun (conj Hv (proj1 Hr))).
Defined.

(** A zero-length read of guest memory releases a kernel mapping that was never
    made: gpa_space_map_range returns 0 before it initialises the mapping, and
    gpa_space_read_data unmaps it all the same.  A zero-length write returns EACCES
    even for writable memory. *)
Theorem zero_length_access {HH : Host} {E} start_gpa data (g : hax_gpa_space E) :
  gpa_space_read_data start_gpa 0 g = None /\
  gpa_space_write_data start_gpa 0 data g = Some (- EACCES, g).
Proof. done. Qed.
