(* ===== verification/GpaProt.v ===== *)
(** * The protection bitmap of a guest address space

    One bit per guest frame says whether accesses to it are trapped.  The abstract
    state is the predicate [page_protected]; growing the bitmap keeps it, and
    [gpa_space_protect_range] updates it on exactly the frames of the range. *)

From stdpp Require Import base numbers list gmap.
From Stdlib Require Import ZArith Lia Sorted.
From S2P Require Import Prelude HaxList Bitmap MemTypes Ramblock Memslot MemslotSpec.
From S2P Require Import MemslotOwn MemslotPhase MemslotLoop MemslotNotify MemslotCorrect.
From S2P Require Import SimpleHost MemslotProps GpaSpace GpaAccess.
#[local] Open Scope Z_scope.

(** ** Setting blocks of bits *)
Section Bits.

Lemma mask_testbit start nbits k :
  0 <= start -> 0 <= nbits -> 0 <= k ->
  Z.testbit (Z.shiftl (Z.shiftl 1 nbits - 1) start) k =
  ((start <=? k) && (k <? start + nbits))%bool.
Proof.
  intros Hs Hn Hk. rewrite Z.shiftl_spec by done. rewrite Z.shiftl_1_l.
  replace (2 ^ nbits - 1) with (Z.ones nbits) by (rewrite Z.ones_equiv; lia).
  destruct (Z.leb_spec start k); cbn [andb].
  - destruct (Z.ltb_spec k (start + nbits)).
    + apply Z.ones_spec_low. lia.
    + apply Z.ones_spec_high. lia.
  - apply Z.testbit_neg_r. lia.
Qed.

Lemma u8_testbit b k : 0 <= k < 8 -> Z.testbit (u8 b) k = Z.testbit b k.
Proof. intros. apply Z.mod_pow2_bits_low. lia. Qed.

Lemma bm_bit_byte bm idx v j :
  0 <= j -> 0 <= idx < Z.of_nat (length bm) ->
  bm_bit (<[Z.to_nat idx := v]> bm) j =
  if j / 8 =? idx then Z.testbit v (j mod 8) else bm_bit bm j.
Proof.
  intros Hj Hi. unfold bm_bit, byte_of. assert (0 <= j / 8) by (apply Z.div_pos; lia).
  destruct (Z.eqb_spec (j / 8) idx) as [->|Hne].
  - rewrite list_lookup_insert_eq by lia. done.
  - by rewrite list_lookup_insert_ne by lia.
Qed.

Lemma set_bits_in_byte_spec bm idx start nbits set :
  0 <= idx < Z.of_nat (length bm) -> 0 <= start < 8 -> 0 <= nbits -> start + nbits <= 8 ->
  exists bm', set_bits_in_byte bm idx start nbits set = Some bm' /\ length bm' = length bm /\
    forall j, 0 <= j ->
      bm_bit bm' j = if ((j / 8 =? idx) && (start <=? j mod 8) && (j mod 8 <? start + nbits))%bool
                     then set else bm_bit bm j.
Proof.
  intros Hi Hs Hn Hsn. unfold set_bits_in_byte.
  rewrite !(proj2 (Z.leb_le _ _)), (proj2 (Z.ltb_lt _ _)) by lia. cbn [andb].
  destruct (lookup_lt_is_Some_2 bm (Z.to_nat idx)) as [b Hb]; [lia|]. rewrite Hb. cbn.
  eexists. split; [done|]. split; [apply length_insert|]. intros j Hj.
  rewrite bm_bit_byte by done. destruct (Z.eqb_spec (j / 8) idx) as [Hji|]; [|done].
  cbn [andb]. pose proof (Z.mod_pos_bound j 8 ltac:(lia)) as Hm.
  assert (Hold : bm_bit bm j = Z.testbit b (j mod 8))
    by (unfold bm_bit, byte_of; by rewrite Hji, Hb).
  rewrite <- (mask_testbit start nbits (j mod 8)), Hold by lia.
  destruct set; rewrite u8_testbit by done.
  - rewrite Z.lor_spec. destruct (Z.testbit (Z.shiftl _ _) _); [apply orb_true_r|apply orb_false_r].
  - rewrite !Z.land_spec, Z.lnot_spec by lia.
    change 0xff with (Z.ones 8). rewrite (Z.ones_spec_low 8), andb_true_r by lia.
    destruct (Z.testbit (Z.shiftl _ _) _); cbn; [apply andb_false_r|apply andb_true_r].
Qed.

Lemma fill_bytes_spec n : forall bm i v,
  0 <= i -> i + Z.of_nat n <= Z.of_nat (length bm) ->
  exists bm', fill_bytes bm i n v = Some bm' /\ length bm' = length bm /\
    forall j, 0 <= j ->
      bm_bit bm' j = if ((i <=? j / 8) && (j / 8 <? i + Z.of_nat n))%bool
                     then Z.testbit v (j mod 8) else bm_bit bm j.
Proof.
  induction n as [|n IH]; intros bm i v Hi Hl; cbn [fill_bytes].
  - exists bm. split_and!; [done|done|]. intros j Hj.
    destruct (Z.leb_spec i (j / 8)); [|done]. by rewrite (proj2 (Z.ltb_ge _ _)) by lia.
  - rewrite (proj2 (Z.ltb_lt _ _)) by lia.
    destruct (IH (<[Z.to_nat i := v]> bm) (i + 1) v) as (bm' & -> & Hl' & Hb');
      [lia|rewrite length_insert; lia|].
    exists bm'. split_and!; [done|by rewrite Hl', length_insert|]. intros j Hj.
    rewrite Hb', bm_bit_byte by lia. bool_lia.
Qed.

Lemma ff_testbit k : 0 <= k < 8 -> Z.testbit 0xff k = true.
Proof. intros. change 0xff with (Z.ones 8). apply Z.ones_spec_low. lia. Qed.

(** All bits of the range, and no others. *)
Lemma set_bit_block_spec bm start nbits set :
  0 <= start -> 0 < nbits -> start + nbits <= 2 ^ 32 ->
  (start + nbits - 1) / 8 < Z.of_nat (length bm) ->
  exists bm', set_bit_block bm start nbits set = Some bm' /\ length bm' = length bm /\
    forall j, 0 <= j ->
      bm_bit bm' j = if ((start <=? j) && (j <? start + nbits))%bool then set else bm_bit bm j.
Proof.
  intros Hs Hn He Hl. unfold set_bit_block.
  rewrite (u64_small (start + nbits)), (u64_small (start + nbits - 1)) by lia.
  set (last := start + nbits - 1) in *.
  pose proof (Z.mod_pos_bound start 8 ltac:(lia)). pose proof (Z.mod_pos_bound last 8 ltac:(lia)).
  pose proof (Z.div_mod start 8 ltac:(lia)). pose proof (Z.div_mod last 8 ltac:(lia)).
  rewrite (s32_small (start mod 8)), (s32_small (last mod 8)) by lia.
  assert (0 <= start / 8) by (apply Z.div_pos; lia).
  destruct (Z.eqb_spec (start / 8) (last / 8)) as [Heq|Hne].
  - rewrite s32_small by lia.
    destruct (set_bits_in_byte_spec bm (start / 8) (start mod 8) nbits set) as (bm' & -> & ? & Hb);
      [lia..|].
    exists bm'. split_and!; [done|done|]. intros j Hj. rewrite Hb by done.
    pose proof (Z.div_mod j 8 ltac:(lia)). pose proof (Z.mod_pos_bound j 8 ltac:(lia)).
    bool_lia.
  - assert (start / 8 < last / 8) by (assert (start / 8 <= last / 8) by (apply Z.div_le_mono; lia); lia).
    destruct (set_bits_in_byte_spec bm (start / 8) (start mod 8) (8 - start mod 8) set)
      as (bm1 & -> & Hl1 & Hb1); [lia..|]. cbn.
    destruct (fill_bytes_spec (Z.to_nat (last / 8 - (start / 8 + 1))) bm1 (start / 8 + 1)
      (if set then 0xff else 0)) as (bm2 & -> & Hl2 & Hb2); [lia|lia|]. cbn.
    destruct (set_bits_in_byte_spec bm2 (last / 8) 0 (last mod 8 + 1) set)
      as (bm3 & -> & Hl3 & Hb3); [lia..|].
    exists bm3. split_and!; [done|congruence|]. intros j Hj.
    pose proof (Z.div_mod j 8 ltac:(lia)). pose proof (Z.mod_pos_bound j 8 ltac:(lia)).
    rewrite Hb3, Hb2, Hb1 by done.
    assert (Hv : Z.testbit (if set then 0xff else 0) (j mod 8) = set)
      by (destruct set; [by apply ff_testbit|apply Z.testbit_0_l]).
    rewrite Hv. bool_lia.
Qed.
End Bits.

Section Prot.
Context {HH : Host} {E : Type}.
Notation st := (hax_gpa_space E).
Implicit Types (g : st) (p : hax_gpa_prot).

(** Bits past the end are clear, so growing the bitmap adds unprotected frames. *)
Record prot_inv p : Prop := {
  pi_end : 0 <= gp_end_gfn p < 2 ^ 31;
  pi_size : match gp_bitmap p with
            | Some bm => Z.of_nat (length bm) = gpa_space_prot_bitmap_size (gp_end_gfn p) /\
                         forall j, gp_end_gfn p <= j -> bm_bit bm j = false
            | None => gp_end_gfn p = 0
            end;
}.

Definition page_protected p (gfn : Z) : bool :=
  ((gfn <? gp_end_gfn p) && bm_bit (default [] (gp_bitmap p)) gfn)%bool.

Lemma prot_bitmap_size_val n :
  0 <= n < 2 ^ 31 -> gpa_space_prot_bitmap_size n = (n + 7) / 8 + 8 /\ n / 8 < (n + 7) / 8 + 8.
Proof.
  intros Hn. unfold gpa_space_prot_bitmap_size.
  rewrite Z.shiftr_div_pow2, (Z.div_small n) by lia. cbn [negb Z.eqb].
  rewrite (u32_small n), (u32_small (n + 7)) by lia.
  assert (0 <= (n + 7) / 8 < 2 ^ 31)
    by (split; [apply Z.div_pos; lia|apply Z.div_lt_upper_bound; lia]).
  rewrite u32_small by lia. split; [done|].
  assert (n / 8 <= (n + 7) / 8) by (apply Z.div_le_mono; lia). lia.
Qed.

Lemma prot_bitmap_size_big n : 2 ^ 31 <= n < 2 ^ 64 -> gpa_space_prot_bitmap_size n = 0.
Proof.
  intros Hn. unfold gpa_space_prot_bitmap_size. rewrite Z.shiftr_div_pow2 by lia.
  rewrite (proj2 (Z.eqb_neq _ _)); [done|].
  assert (0 < n / 2 ^ 31) by (apply Z.div_str_pos; lia). lia.
Qed.

Lemma is_page_protected_run gfn g :
  prot_inv (gs_prot g) -> 0 <= gfn ->
  gpa_space_is_page_protected gfn g = Some (page_protected (gs_prot g) gfn, g).
Proof.
  intros [He Hs] Hg. unfold gpa_space_is_page_protected. rewrite gets_run.
  unfold page_protected. destruct (Z.leb_spec (gp_end_gfn (gs_prot g)) gfn).
  - by rewrite (proj2 (Z.ltb_ge _ _)) by done.
  - rewrite (proj2 (Z.ltb_lt _ _)) by done.
    destruct (gp_bitmap (gs_prot g)) as [bm|]; [|lia].
    rewrite (of_option_run _ bm) by done. cbn [default andb]. unfold of_option.
    rewrite s32_small by lia. destruct Hs as [Hl _].
    destruct (prot_bitmap_size_val _ He) as [Hv _].
    rewrite hax_test_bit_spec; [done|lia|]. unfold byte_of.
    assert (gfn / 8 <= (gp_end_gfn (gs_prot g) + 7) / 8) by (apply Z.div_le_mono; lia).
    assert (0 <= gfn / 8) by (apply Z.div_pos; lia). lia.
Qed.

Lemma vmalloc_prot size g :
  exists r g', hax_vmalloc size g = Some (r, g') /\ host_step g g' /\
    (r = None -> ~ alloc_ok).
Proof.
  destruct (hax_vmalloc_run size g) as (r & g' & Hrun & Hh & _).
  exists r, g'. split_and!; [done|done|]. intros -> Hok. specialize (Hok (u32 size) (gs_host g)).
  unfold hax_vmalloc, host_call, mbind, M_bind in Hrun. cbn in Hrun.
  destruct (host_vmalloc (u32 size) (gs_host g)) as [ok h]. cbn in Hok. by subst ok.
Qed.

Lemma bm_bit_app_zeros bm n j : 0 <= j -> bm_bit (bm ++ replicate n 0) j = bm_bit bm j.
Proof.
  intros Hj. unfold bm_bit. destruct (decide (byte_of j < length bm)%nat) as [Hlt|Hge].
  - by rewrite lookup_app_l.
  - rewrite lookup_app_r, (lookup_ge_None_2 bm) by lia. cbn.
    destruct (replicate n 0 !! (byte_of j - length bm)%nat) as [v|] eqn:Hv; cbn; [|done].
    by apply lookup_replicate in Hv as [-> _].
Qed.

(** The state differs from [g] only in the bitmap and the host. *)
Definition prot_step g g' : Prop :=
  exists g1, host_step g g1 /\ g' = with_prot (gs_prot g') g1.

Lemma adjust_prot_rule end_gfn g :
  prot_inv (gs_prot g) -> 0 <= end_gfn < 2 ^ 64 ->
  exists ret g', gpa_space_adjust_prot_bitmap end_gfn g = Some (ret, g') /\
    prot_step g g' /\ prot_inv (gs_prot g') /\
    (forall gfn, 0 <= gfn -> page_protected (gs_prot g') gfn = page_protected (gs_prot g) gfn) /\
    ((ret = 0 /\ gp_end_gfn (gs_prot g') = Z.max end_gfn (gp_end_gfn (gs_prot g))) \/
     (gs_prot g' = gs_prot g /\
      (ret = - EINVAL /\ 2 ^ 31 <= end_gfn \/ ret = - ENOMEM /\ ~ alloc_ok))).
Proof.
  intros [He Hs] Hend. unfold gpa_space_adjust_prot_bitmap. rewrite gets_run.
  assert (Hself : forall g1, host_step g g1 -> prot_step g g1 /\ gs_prot g1 = gs_prot g).
  { intros g1 Hh. split; [exists g1; split; [done|by destruct g1]|].
    by destruct Hh as (h & a & _ & ->). }
  destruct (Hself g (host_step_refl g)) as [Hst0 _].
  destruct (Z.leb_spec end_gfn (gp_end_gfn (gs_prot g))).
  { eexists _, g. split; [done|]. split_and!; try done. left. split; [done|lia]. }
  cbv zeta. destruct (Z.lt_ge_cases end_gfn (2 ^ 31)) as [Hlt|Hge].
  2: { rewrite prot_bitmap_size_big by lia. eexists _, g. split; [done|].
       split_and!; try done. right. auto. }
  destruct (prot_bitmap_size_val end_gfn) as [Hv _]; [lia|].
  set (n := gpa_space_prot_bitmap_size end_gfn) in *.
  assert (0 <= (end_gfn + 7) / 8) by (apply Z.div_pos; lia).
  rewrite (proj2 (Z.eqb_neq n 0)) by lia.
  destruct (vmalloc_prot n g) as (r & g1 & Hrun & Hh & Hr). rewrite (bind_run _ _ _ _ _ Hrun).
  destruct (Hself g1 Hh) as [Hst1 Hp1].
  destruct r as [a|].
  2: { eexists _, g1. split; [done|]. rewrite Hp1. split_and!; try done. right. auto. }
  (* the new bitmap has the old bits, then zeros *)
  assert (Hbm : exists bm, (match gp_bitmap (gs_prot g) with
     | Some bmold =>
         let old_size := gpa_space_prot_bitmap_size (gp_end_gfn (gs_prot g)) in
         hax_assert (negb (old_size =? 0));;
         hax_assert ((old_size <=? Z.of_nat (length bmold)) && (old_size <=? n))%bool;;
         mret (bitmap_grow (take (Z.to_nat old_size) bmold) n)
     | None => mret (replicate (Z.to_nat n) 0)
     end) g1 = Some (bm, g1) /\ Z.of_nat (length bm) = n /\
     forall j, 0 <= j -> bm_bit bm j = bm_bit (default [] (gp_bitmap (gs_prot g))) j).
  { destruct (gp_bitmap (gs_prot g)) as [bmold|].
    - destruct Hs as [Hl _]. destruct (prot_bitmap_size_val _ He) as [Hvo _].
      assert (0 <= (gp_end_gfn (gs_prot g) + 7) / 8 <= (end_gfn + 7) / 8)
        by (split; [apply Z.div_pos; lia|apply Z.div_le_mono; lia]).
      set (m := gpa_space_prot_bitmap_size _) in *. cbv zeta.
      rewrite assert_run by (apply negb_true_iff, Z.eqb_neq; lia).
      rewrite assert_run by (apply andb_true_intro; split; apply Z.leb_le; lia).
      rewrite take_ge by lia. eexists. split; [done|]. unfold bitmap_grow.
      rewrite length_app, length_replicate. split; [lia|]. intros j Hj.
      by apply bm_bit_app_zeros.
    - eexists. split; [done|]. rewrite length_replicate. split; [lia|]. intros j Hj.
      rewrite bm_bit_zeros. unfold bm_bit. cbn. by rewrite Z.testbit_0_l. }
  destruct Hbm as (bm & Hrun2 & Hlen & Hbits). rewrite (bind_run _ _ _ _ _ Hrun2).
  eexists _, (with_prot (GpaProt (Some bm) end_gfn) g1). split; [done|].
  assert (Hhigh : forall j, gp_end_gfn (gs_prot g) <= j -> bm_bit bm j = false).
  { intros j Hj. rewrite Hbits by lia. destruct (gp_bitmap (gs_prot g)) as [b|]; [by apply Hs|].
    unfold bm_bit. cbn. apply Z.testbit_0_l. }
  split_and!.
  - by exists g1.
  - split; cbn; [lia|]. split; [lia|]. intros j Hj. apply Hhigh. lia.
  - intros gfn Hg. unfold page_protected. cbn. rewrite Hbits by done.
    destruct (Z.ltb_spec gfn (gp_end_gfn (gs_prot g))); cbn.
    + by rewrite (proj2 (Z.ltb_lt _ _)) by lia.
    + rewrite <- Hbits, Hhigh by lia. apply andb_false_r.
  - left. cbn. split; [done|lia].
Qed.

(** C39. Growing the protection bitmap keeps its invariant and the set of protected
    frames (new frames are unprotected): it succeeds for every end below 2^31 when
    memory can be allocated and for every end already covered, and fails with EINVAL,
    changing nothing, at or above 2^31. *)
Theorem adjust_prot_bitmap_correct end_gfn g :
  prot_inv (gs_prot g) -> 0 <= end_gfn < 2 ^ 64 ->
  exists ret g', gpa_space_adjust_prot_bitmap end_gfn g = Some (ret, g') /\
    prot_inv (gs_prot g') /\
    (forall gfn, 0 <= gfn -> page_protected (gs_prot g') gfn = page_protected (gs_prot g) gfn) /\
    ((ret = 0 /\ gp_end_gfn (gs_prot g') = Z.max end_gfn (gp_end_gfn (gs_prot g))) \/
     (gs_prot g' = gs_prot g /\
      (ret = - EINVAL /\ 2 ^ 31 <= end_gfn \/ ret = - ENOMEM /\ ~ alloc_ok))).
Proof.
  intros Hp He. destruct (adjust_prot_rule end_gfn g Hp He) as (ret & g' & ? & _ & ? & ? & ?).
  exists ret, g'. by split_and!.
Qed.

(** ** Protecting ranges *)
(** The removal callbacks of all listeners, in order. *)
Fixpoint removed_all (first_gfn npages : Z) (ls : list (hax_gpa_space_listener E)) (e : E)
    : option E :=
  match ls with
  | [] => Some e
  | l :: rest =>
      e' ← match mapping_removed l with Some cb => cb first_gfn npages 0 0 e | None => Some e end;
      removed_all first_gfn npages rest e'
  end.

Lemma notify_removed_run first_gfn npages ls g e' :
  removed_all first_gfn npages ls (gs_opaque g) = Some e' ->
  notify_removed first_gfn npages ls g = Some (tt, with_opaque e' g).
Proof.
  revert g. induction ls as [|l ls IH]; intros g; cbn [removed_all notify_removed].
  - intros [= <-]. by destruct g.
  - intros Hr.
    destruct (match mapping_removed l with
              | Some cb => cb first_gfn npages 0 0 (gs_opaque g)
              | None => Some (gs_opaque g)
              end) as [e1|] eqn:He; [|done].
    rewrite (bind_run _ _ g tt (with_opaque e1 g)).
    + rewrite (IH (with_opaque e1 g)) by exact Hr. done.
    + apply call_listener_run. by destruct (mapping_removed l).
Qed.

Lemma removed_all_total I first_gfn npages ls e :
  listeners_ok I ls -> 0 <= first_gfn -> 0 <= npages -> first_gfn + npages <= GFN_MAX -> I e ->
  exists e', removed_all first_gfn npages ls e = Some e' /\ I e'.
Proof.
  intros Hl H1 H2 H3. revert e.
  induction Hl as [|l ls (_ & Hr & _) Hl IH]; intros e He; [by eexists|].
  cbn. destruct (Hr (Mapping MAPPING_REMOVED first_gfn npages 0 0 0 0) e) as (e1 & Hr1 & He1);
    [by split_and!|done|].
  unfold call_removed in Hr1. cbn in Hr1. change (u8 0) with 0 in Hr1.
  destruct (mapping_removed l) as [cb|]; [rewrite Hr1; by apply IH|]. by apply IH.
Qed.

(** The request of a call: the frames, and whether they are to be protected. *)
Definition protect_valid p (start_gpa len flags : Z) : bool :=
  (((flags &! HAX_RAM_PERM_MASK =? HAX_RAM_PERM_NONE) ||
    (flags &! HAX_RAM_PERM_MASK =? HAX_RAM_PERM_RWX)) &&
   ((start_gpa + len - 1) / 4096 <? gp_end_gfn p))%bool.

Lemma prot_step_set p g : prot_step g (with_prot p g).
Proof. exists g. split; [apply host_step_refl|done]. Qed.

Lemma last_byte start_gpa len :
  0 <= start_gpa -> 0 < len -> start_gpa + len <= 2 ^ 64 ->
  (start_gpa +! len) -! 1 = start_gpa + len - 1.
Proof.
  intros. unfold u64 at 1 2. rewrite Zminus_mod_idemp_l. apply Z.mod_small. lia.
Qed.

Lemma gfn_order start_gpa len :
  0 <= start_gpa -> 0 < len -> start_gpa + len <= 2 ^ 64 ->
  0 <= start_gpa / 4096 <= (start_gpa + len - 1) / 4096 /\
  (start_gpa + len - 1) / 4096 < 2 ^ 52.
Proof.
  intros. split_and!; [apply Z.div_pos; lia|apply Z.div_le_mono; lia|].
  apply Z.div_lt_upper_bound; lia.
Qed.

Lemma npages_val first last :
  0 <= first <= last /\ last < 2 ^ 52 -> (last -! first) +! 1 = last - first + 1.
Proof. intros. rewrite (u64_small (last - first)) by lia. apply u64_small. lia. Qed.

(** Setting the bits of the frames [first] to [last]. *)
Lemma protect_bits first last set g :
  prot_inv (gs_prot g) -> 0 <= first <= last -> last < gp_end_gfn (gs_prot g) ->
  exists bm bm', gp_bitmap (gs_prot g) = Some bm /\
    set_bit_block bm first (last - first + 1) set = Some bm' /\
    prot_inv (GpaProt (Some bm') (gp_end_gfn (gs_prot g))) /\
    forall gfn, 0 <= gfn -> page_protected (GpaProt (Some bm') (gp_end_gfn (gs_prot g))) gfn =
      if ((first <=? gfn) && (gfn <=? last))%bool then set else page_protected (gs_prot g) gfn.
Proof.
  intros [He Hs] Hf Hl. destruct (gp_bitmap (gs_prot g)) as [bm|] eqn:Hbm; [|lia].
  destruct Hs as [Hlen Hhigh]. destruct (prot_bitmap_size_val _ He) as [Hv _].
  destruct (set_bit_block_spec bm first (last - first + 1) set) as (bm' & Hset & Hl' & Hb);
    [lia|lia|lia| |].
  { replace (first + (last - first + 1) - 1) with last by lia.
    assert (last / 8 <= (gp_end_gfn (gs_prot g) + 7) / 8) by (apply Z.div_le_mono; lia). lia. }
  exists bm, bm'. split_and!; [done|done| |].
  - split; cbn; [done|]. split; [by rewrite Hl'|]. intros j Hj. rewrite Hb by lia.
    rewrite Hhigh by done. bool_lia.
  - intros gfn Hg. unfold page_protected. cbn. rewrite Hb, Hbm by done. cbn. bool_lia.
Qed.

Lemma protect_range_rule I start_gpa len flags g :
  prot_inv (gs_prot g) -> listeners_ok I (gs_listener_list g) -> I (gs_opaque g) ->
  0 <= start_gpa -> 0 < len -> start_gpa + len <= 2 ^ 64 ->
  let first_gfn := start_gpa / 4096 in
  let last_gfn := (start_gpa + len - 1) / 4096 in
  let protect := flags &! HAX_RAM_PERM_MASK =? HAX_RAM_PERM_NONE in
  exists ret g', gpa_space_protect_range start_gpa len flags g = Some (ret, g') /\
    if protect_valid (gs_prot g) start_gpa len flags then
      ret = 0 /\ prot_inv (gs_prot g') /\
      (forall gfn, 0 <= gfn -> page_protected (gs_prot g') gfn =
         if ((first_gfn <=? gfn) && (gfn <=? last_gfn))%bool then protect
         else page_protected (gs_prot g) gfn) /\
      (if protect then removed_all first_gfn (last_gfn - first_gfn + 1) (gs_listener_list g)
                         (gs_opaque g) = Some (gs_opaque g')
       else gs_opaque g' = gs_opaque g) /\
      g' = with_opaque (gs_opaque g') (with_prot (gs_prot g') g)
    else ret = - EINVAL /\ g' = g.
Proof.
  intros [He Hs] Hls Hi H0 Hlen Htop first last protect.
  unfold gpa_space_protect_range, protect_valid. cbv zeta.
  rewrite (proj2 (Z.eqb_neq len 0)) by lia.
  set (perm := flags &! HAX_RAM_PERM_MASK) in *.
  destruct (perm =? HAX_RAM_PERM_NONE) eqn:Hn; destruct (perm =? HAX_RAM_PERM_RWX) eqn:Hx;
    cbn [negb andb orb]; try (eexists _, g; by split).
  1: { apply Z.eqb_eq in Hn, Hx. rewrite Hn in Hx. done. }
  1: set (set := true). 2: set (set := false).
  all: rewrite gets_run; unfold PG_ORDER_4K; rewrite !shiftr_12, last_byte by lia;
    fold first last;
    destruct (Z.leb_spec (gp_end_gfn (gs_prot g)) last) as [Hend|Hend];
    [rewrite (proj2 (Z.ltb_ge _ _)) by lia; eexists _, g; by split|];
    rewrite (proj2 (Z.ltb_lt _ _)) by lia;
    destruct (protect_bits first last set g (Build_prot_inv _ He Hs))
      as (bm & bm' & Hbm & Hset & Hinv' & Hprot);
      [subst first last; split; [apply Z.div_pos; lia|apply Z.div_le_mono; lia]|done|];
    rewrite (npages_val first last) by (subst first last; apply gfn_order; lia);
    rewrite (of_option_run _ bm) by done; rewrite (of_option_run _ bm') by done;
    erewrite bind_run by reflexivity.
  - set (g1 := with_prot _ g). rewrite gets_run.
    assert (0 <= first <= last) by (subst first last; split; [apply Z.div_pos; lia|
      apply Z.div_le_mono; lia]).
    destruct (removed_all_total I first (last - first + 1) (gs_listener_list g) (gs_opaque g) Hls)
      as (e' & Hr & _); [lia|lia|unfold GFN_MAX; lia|done|].
    pose proof (notify_removed_run first (last - first + 1) (gs_listener_list g) g1 e' Hr) as Hn1.
    rewrite (bind_run _ _ _ _ _ Hn1). eexists _, _. split; [done|]. by split_and!.
  - eexists _, _. split; [done|]. by split_and!.
Qed.

(** Changing the protection of a range of guest memory that does not wrap around:
    unsupported permissions or a range past the end of the bitmap give EINVAL and
    change nothing; otherwise exactly the frames that the range touches become
    protected (no permissions) or unprotected (all permissions), the bitmap invariant
    is kept, and protecting runs the removal callbacks of all listeners on them. *)
Theorem protect_range_correct I start_gpa len flags g :
  prot_inv (gs_prot g) -> listeners_ok I (gs_listener_list g) -> I (gs_opaque g) ->
  0 <= start_gpa -> 0 < len -> start_gpa + len <= 2 ^ 64 ->
  let first_gfn := start_gpa / 4096 in
  let last_gfn := (start_gpa + len - 1) / 4096 in
  let protect := flags &! HAX_RAM_PERM_MASK =? HAX_RAM_PERM_NONE in
  exists ret g', gpa_space_protect_range start_gpa len flags g = Some (ret, g') /\
    if protect_valid (gs_prot g) start_gpa len flags then
      ret = 0 /\ prot_inv (gs_prot g') /\
      (forall gfn, 0 <= gfn -> page_protected (gs_prot g') gfn =
         if ((first_gfn <=? gfn) && (gfn <=? last_gfn))%bool then protect
         else page_protected (gs_prot g) gfn) /\
      (if protect then removed_all first_gfn (last_gfn - first_gfn + 1) (gs_listener_list g)
                         (gs_opaque g) = Some (gs_opaque g')
       else gs_opaque g' = gs_opaque g) /\
      g' = with_opaque (gs_opaque g') (with_prot (gs_prot g') g)
    else ret = - EINVAL /\ g' = g.
Proof. apply protect_range_rule. Qed.

Lemma chunk_protected_loop_run n t g :
  prot_inv (gs_prot g) -> 0 <= t ->
  exists r, chunk_protected_loop n t g = Some (r, g) /\
    match r with
    | Some f => t <= f < t + Z.of_nat n /\ page_protected (gs_prot g) f = true /\
                forall x, t <= x < f -> page_protected (gs_prot g) x = false
    | None => forall x, t <= x < t + Z.of_nat n -> page_protected (gs_prot g) x = false
    end.
Proof.
  intros Hp. revert t. induction n as [|n IH]; intros t Ht; cbn [chunk_protected_loop].
  - eexists. split; [done|]. intros x Hx. lia.
  - rewrite (bind_run _ _ _ _ _ (is_page_protected_run t g Hp Ht)).
    destruct (page_protected (gs_prot g) t) eqn:Hpt.
    + eexists. split; [done|]. split_and!; [lia|lia|done|]. intros x Hx. lia.
    + destruct (IH (t + 1)) as (r & Hrun & Hr); [lia|]. exists r. split; [done|].
      assert (Hx : forall x, x = t \/ t + 1 <= x -> x = t -> page_protected (gs_prot g) x = false)
        by (intros x _ ->; done).
      destruct r as [f|].
      * destruct Hr as (Hf & Hpf & Hlow). split_and!; [lia|lia|done|]. intros x Hx2.
        destruct (decide (x = t)) as [->|]; [done|]. apply Hlow. lia.
      * intros x Hx2. destruct (decide (x = t)) as [->|]; [done|]. apply Hr. lia.
Qed.

(** The chunk test finds the first protected frame among the 512 frames around
    [gfn], and reports none exactly when none of them is protected. *)
Theorem is_chunk_protected_correct gfn g :
  prot_inv (gs_prot g) -> 0 <= gfn ->
  let start := gfn / 512 * 512 in
  exists r, gpa_space_is_chunk_protected gfn g = Some (r, g) /\
    match r with
    | Some f => start <= f < start + 512 /\ page_protected (gs_prot g) f = true /\
                forall x, start <= x < f -> page_protected (gs_prot g) x = false
    | None => forall x, start <= x < start + 512 -> page_protected (gs_prot g) x = false
    end.
Proof.
  intros Hp Hg start. apply (chunk_protected_loop_run 512 start g Hp).
  pose proof (Z.div_pos gfn 512 Hg ltac:(lia)). subst start. lia.
Qed.
End Prot.

(** ** Instances *)
(** A space with a bitmap for 512 frames, all unprotected. *)
Definition demo_prot : hax_gpa_space (list event) :=
  with_prot (GpaProt (Some (replicate 72 0)) 512) demo_mapped.

Lemma demo_prot_inv : prot_inv (gs_prot demo_prot).
Proof.
  split; cbn; [lia|]. split; [reflexivity|]. intros j _. apply (bm_bit_zeros 72).
Qed.

Lemma demo_prot_listeners : listeners_ok any_log (gs_listener_list demo_prot).
Proof. apply demo_mapped_listeners. Qed.

Lemma adjust_prot_bitmap_correct_witness :
  exists g', gpa_space_adjust_prot_bitmap 1024 demo_prot = Some (0, g') /\
    prot_inv (gs_prot g') /\ gp_end_gfn (gs_prot g') = 1024.
Proof.
  destruct (adjust_prot_bitmap_correct 1024 demo_prot demo_prot_inv ltac:(lia))
    as (ret & g' & Hrun & Hi & _ & Hr).
  assert (Hret : fst <$> gpa_space_adjust_prot_bitmap 1024 demo_prot = Some 0)
    by (vm_compute; reflexivity).
  rewrite Hrun in Hret. cbn in Hret. injection Hret as ->.
  exists g'. split; [exact Hrun|]. split; [exact Hi|].
  destruct Hr as [[_ ->]|[_ [[Hf _]|[Hf _]]]]; [reflexivity|discriminate Hf..].
Defined.

Lemma protect_range_correct_witness :
  exists g', gpa_space_protect_range 0x100800 0x1000 0 demo_prot = Some (0, g') /\
    page_protected (gs_prot g') 256 = true /\ page_protected (gs_prot g') 257 = true /\
    page_protected (gs_prot g') 258 = false.
Proof.
  destruct (protect_range_correct any_log 0x100800 0x1000 0 demo_prot demo_prot_inv demo_prot_listeners
    I ltac:(lia) ltac:(lia) ltac:(lia)) as (ret & g' & Hrun & Hr).
  change (protect_valid (gs_prot demo_prot) 0x100800 0x1000 0) with true in Hr.
  destruct Hr as (-> & _ & Hp & _). exists g'. split; [exact Hrun|].
  rewrite !Hp by lia. split_and!; reflexivity.
Defined.

Lemma is_chunk_protected_correct_witness :
  exists r, gpa_space_is_chunk_protected 300 demo_prot = Some (r, demo_prot) /\ r = None.
Proof.
  destruct (is_chunk_protected_correct 300 demo_prot demo_prot_inv ltac:(lia)) as (r & Hrun & Hr).
  exists r. split; [exact Hrun|]. destruct r as [f|]; [|reflexivity].
  destruct Hr as (Hf & Hp & _). change (300 / 512 * 512) with 0 in Hf.
  assert (Hno : page_protected (gs_prot demo_prot) f = false); [|congruence].
  unfold page_protected. apply andb_false_iff. right. apply (bm_bit_zeros 72).
Defined.

(** A protection request whose range wraps around the 64-bit address space is not
    rejected: the frame count underflows and an assertion on the bit count fails. *)
Theorem protect_range_wraps :
  gpa_space_protect_range 0x3000 (2 ^ 64 - 0x1fff) 0 demo_prot = None.
Proof.
  assert (Hf : fst <$> gpa_space_protect_range 0x3000 (2 ^ 64 - 0x1fff) 0 demo_prot = None)
    by (vm_compute; reflexivity).
  destruct (gpa_space_protect_range _ _ _ _); [discriminate Hf|reflexivity].
Qed.
