(* ===== verification/EptTree.v ===== *)
(** * EPT page tables (src/core/ept_tree.c, src/core/include/ept2.h)

    The EPT tree is modelled down to its memory: host page frames holding tables of
    512 entries, non-leaf entries containing the frame numbers of the next tables, the
    cache of frequently used tables, and the temporary kernel mappings of the others.
    A kernel virtual address of a table is identified with the frame it maps.

    The host's physical memory services are a parameter (class [PhysHost]). *)

From stdpp Require Import base numbers list gmap.
From Stdlib Require Import ZArith Lia.
From S2P Require Import Prelude HaxList Bitmap MemTypes.
#[local] Open Scope Z_scope.

Class PhysHost := {
  pstate : Type;
  (** [hax_vmalloc] and [hax_alloc_page_frame(HAX_PAGE_ALLOC_ZEROED)]: the number of a
      zeroed frame, or [None]. *)
  alloc_page_frame : pstate -> option Z * pstate;
  (** [hax_map_page_frame(pfn, kmap) != NULL] *)
  map_page_frame : Z -> pstate -> bool * pstate;
}.

Definition HAX_EPT_LEVEL_PML4 : Z := 3.
Definition HAX_EPT_LEVEL_PDPT : Z := 2.
Definition HAX_EPT_LEVEL_PD : Z := 1.
Definition HAX_EPT_LEVEL_PT : Z := 0.
Definition HAX_EPT_LEVEL_MAX : Z := HAX_EPT_LEVEL_PML4.
Definition HAX_EPT_TABLE_SHIFT : Z := 9.
Definition HAX_EPT_TABLE_SIZE : Z := Z.shiftl 1 HAX_EPT_TABLE_SHIFT.
Definition HAX_EPT_PERM_NONE : Z := 0x0.
Definition HAX_EPT_PERM_RWX : Z := 0x7.
Definition HAX_EPT_PERM_RX : Z := 0x5.
Definition HAX_EPT_PERM_W : Z := 0x2.
Definition HAX_EPT_ACC_W : Z := 0x2.
Definition HAX_EPT_MEMTYPE_WB : Z := 0x6.
Definition HAX_EPT_FREQ_PAGE_COUNT : Z := 10.

(** An entry is its 64-bit value; the bit fields of [hax_epte]. *)
Definition epte_perm (value : Z) : Z := value &! 7.
Definition epte_pfn (value : Z) : Z := (value >>! 12) &! Z.ones 40.
Definition make_epte (perm ept_mt pfn : Z) : Z :=
  (perm &! 7) |! Z.shiftl (ept_mt &! 7) 3 |! Z.shiftl (pfn &! Z.ones 40) 12.

Definition INVALID_EPTE : Z := make_epte 0 0 INVALID_PFN.

(** The value of [hax_eptp] with the given fields. *)
Definition make_eptp (ept_mt max_level pfn : Z) : Z :=
  (ept_mt &! 7) |! Z.shiftl (max_level &! 7) 3 |! Z.shiftl (pfn &! Z.ones 40) 12.

Section EptTree.
Context {PH : PhysHost}.

(** [et_frames]: contents of the allocated frames; [et_page_list]: their list, newest
    first; [et_freq]: the cached mappings; [et_kmaps]: the number of live temporary
    mappings. *)
Record hax_ept_tree := EptTree {
  et_frames : gmap Z (list Z);
  et_page_list : list Z;
  et_eptp : Z;
  et_freq : list (option Z);
  et_invept_pending : bool;
  et_kmaps : Z;
  et_phys : pstate;
}.
Notation st := hax_ept_tree.
Implicit Types t : st.

Definition set_frames (f : gmap Z (list Z) -> gmap Z (list Z)) t : st :=
  EptTree (f (et_frames t)) (et_page_list t) (et_eptp t) (et_freq t) (et_invept_pending t)
    (et_kmaps t) (et_phys t).
Definition set_page_list (f : list Z -> list Z) t : st :=
  EptTree (et_frames t) (f (et_page_list t)) (et_eptp t) (et_freq t) (et_invept_pending t)
    (et_kmaps t) (et_phys t).
Definition set_eptp (v : Z) t : st :=
  EptTree (et_frames t) (et_page_list t) v (et_freq t) (et_invept_pending t)
    (et_kmaps t) (et_phys t).
Definition set_freq (f : list (option Z) -> list (option Z)) t : st :=
  EptTree (et_frames t) (et_page_list t) (et_eptp t) (f (et_freq t)) (et_invept_pending t)
    (et_kmaps t) (et_phys t).
Definition set_invept_pending (b : bool) t : st :=
  EptTree (et_frames t) (et_page_list t) (et_eptp t) (et_freq t) b (et_kmaps t) (et_phys t).
Definition set_kmaps (f : Z -> Z) t : st :=
  EptTree (et_frames t) (et_page_list t) (et_eptp t) (et_freq t) (et_invept_pending t)
    (f (et_kmaps t)) (et_phys t).
Definition set_phys (p : pstate) t : st :=
  EptTree (et_frames t) (et_page_list t) (et_eptp t) (et_freq t) (et_invept_pending t)
    (et_kmaps t) p.

Definition phys_call {A} (f : pstate -> A * pstate) : M st A :=
  fun t => let '(a, p) := f (et_phys t) in Some (a, set_phys p t).

(** ** Entries in memory *)
(** A pointer to an entry: the frame of its table and its index. *)
Definition epte_ptr : Type := Z * Z.

Definition read_epte (p : epte_ptr) : M st Z :=
  fr ← gets et_frames;
  table ← of_option (fr !! p.1);
  of_option (table !! Z.to_nat p.2).

Definition write_epte (p : epte_ptr) (value : Z) : M st unit :=
  _ ← read_epte p;
  modify (set_frames (alter (fun table => <[Z.to_nat p.2 := value]> table) p.1)).

(** [hax_cmpxchg64(old, new, &epte->value)] *)
Definition cmpxchg64 (old new : Z) (p : epte_ptr) : M st bool :=
  v ← read_epte p;
  if v =? old then write_epte p new;; mret true else mret false.

(** ** Indices *)
Definition get_pml4_index (gfn : Z) : Z := u32 (gfn >>! (HAX_EPT_TABLE_SHIFT * 3)).
Definition get_pdpt_gross_index (gfn : Z) : Z := u32 (gfn >>! (HAX_EPT_TABLE_SHIFT * 2)).
Definition get_pdpt_index (gfn : Z) : Z :=
  u32 ((gfn >>! (HAX_EPT_TABLE_SHIFT * 2)) &! (HAX_EPT_TABLE_SIZE - 1)).
Definition get_pd_gross_index (gfn : Z) : Z := u32 (gfn >>! HAX_EPT_TABLE_SHIFT).
Definition get_pd_index (gfn : Z) : Z :=
  u32 ((gfn >>! HAX_EPT_TABLE_SHIFT) &! (HAX_EPT_TABLE_SIZE - 1)).
Definition get_pt_index (gfn : Z) : Z := u32 (gfn &! (HAX_EPT_TABLE_SIZE - 1)).

(** ** Pages *)
Definition zero_table : list Z := replicate 512 0.

Definition ept_tree_alloc_page : M st (option Z) :=
  r ← phys_call alloc_page_frame;
  match r with
  | None => mret None
  | Some pfn =>
      modify (set_frames (insert pfn zero_table));;
      modify (set_page_list (cons pfn));;
      mret (Some pfn)
  end.

(** The index in [freq_pages], or [None] for NULL. *)
Definition ept_tree_get_freq_page (gfn level : Z) : option nat :=
  if level =? HAX_EPT_LEVEL_PML4 then Some 0%nat
  else if level =? HAX_EPT_LEVEL_PDPT then
    if get_pml4_index gfn =? 0 then Some 1%nat else None
  else if level =? HAX_EPT_LEVEL_PD then
    if get_pdpt_gross_index gfn <? HAX_EPT_FREQ_PAGE_COUNT - 2
    then Some (Z.to_nat (2 + get_pdpt_gross_index gfn)) else None
  else None.

(** The allocation of the tree's lock is a flag. *)
Definition ept_tree_init (lock_ok : bool) : M st Z :=
  modify (set_page_list (const []));;
  modify (set_freq (const (replicate (Z.to_nat HAX_EPT_FREQ_PAGE_COUNT) None)));;
  modify (set_invept_pending false);;
  if negb lock_ok then mret (- ENOMEM)
  else
    root_page ← ept_tree_alloc_page;
    match root_page with
    | None => mret (- ENOMEM)
    | Some pfn =>
        hax_assert (negb (pfn =? INVALID_PFN));;
        modify (set_freq (<[0%nat := Some pfn]>));;
        modify (set_eptp (make_eptp HAX_EPT_MEMTYPE_WB HAX_EPT_LEVEL_MAX pfn));;
        mret 0
    end.

Definition ept_page_free (pfn : Z) : M st unit := modify (set_frames (delete pfn)).

Fixpoint free_pages (l : list Z) : M st unit :=
  match l with
  | [] => mret tt
  | pfn :: rest =>
      modify (set_page_list (filter (fun p => p <> pfn)));;
      ept_page_free pfn;; free_pages rest
  end.

Definition ept_tree_free : M st Z :=
  l ← gets et_page_list; free_pages l;; mret 0.

Definition ept_tree_get_root_table : M st (option Z) :=
  i ← of_option (ept_tree_get_freq_page 0 HAX_EPT_LEVEL_PML4);
  fr ← gets et_freq; of_option (fr !! i).

(** A descriptor of a temporary mapping, as on Windows; [None] has a NULL [kva]. *)
Definition hax_kmap_phys : Type := option Z.

(** [hax_unmap_page_frame]: returns 0, also for a descriptor with a NULL [kva].  It
    clears the descriptor, as the comments of ept_tree.c say ([prev_kmap is now filled
    with zeroes]), so the callers below go on with [None].  (On Linux it does not, a
    finding.) *)
Definition hax_unmap_page_frame (kmap : hax_kmap_phys) : M st Z :=
  match kmap with
  | None => mret 0
  | Some _ => modify (set_kmaps (fun n => n - 1));; mret 0
  end.

(** [hax_map_page_frame(pfn, kmap)]: the table, and the contents of the descriptor
    that it has overwritten, with NULL when the mapping fails. *)
Definition hax_map_page_frame (pfn : Z) : M st (option Z * hax_kmap_phys) :=
  ok ← phys_call (map_page_frame pfn);
  if ok : bool then modify (set_kmaps (fun n => n + 1));; mret (Some pfn, Some pfn)
  else mret (None, None).

(** A visitor gets the GFN, the level, a pointer to the entry and its own data. *)
Definition epte_visitor (O : Type) : Type := Z -> Z -> epte_ptr -> O -> M st O.

(** Returns the next table ([None] for NULL), the new contents of [*kmap] and the
    visitor's data.  Without another thread the waiting loop on INVALID_EPTE ends at
    its iteration bound with NULL. *)
Definition ept_tree_get_next_table {O} (gfn current_level current_table : Z)
    (kmap : hax_kmap_phys) (create : bool) (visit : option (epte_visitor O)) (opaque : O)
    : M st (option Z * hax_kmap_phys * O) :=
  let next_level := current_level - 1 in
  hax_assert ((HAX_EPT_LEVEL_PT <=? next_level) && (next_level <=? HAX_EPT_LEVEL_PDPT))%bool;;
  let index := u32 ((gfn >>! (HAX_EPT_TABLE_SHIFT * current_level)) &!
                    (HAX_EPT_TABLE_SIZE - 1)) in
  let epte : epte_ptr := (current_table, index) in
  opaque ← match visit with
           | Some f => f gfn current_level epte opaque
           | None => mret opaque
           end;
  v ← read_epte epte;
  if ((epte_perm v =? HAX_EPT_PERM_NONE) && negb create)%bool
  then mret (None, kmap, opaque)
  else
    let freq_page := ept_tree_get_freq_page gfn next_level in
    x ← cmpxchg64 0 INVALID_EPTE epte;
    if x : bool then
      page ← ept_tree_alloc_page;
      match page with
      | None => write_epte epte 0;; mret (None, kmap, opaque)
      | Some pfn =>
          hax_assert (negb (pfn =? INVALID_PFN));;
          match freq_page with
          | Some i => modify (set_freq (<[i := Some pfn]>))
          | None => mret tt
          end;;
          write_epte epte (make_epte HAX_EPT_PERM_RWX 0 pfn);;
          mret (Some pfn, kmap, opaque)
      end
    else
      v ← read_epte epte;
      if v =? INVALID_EPTE then mret (None, kmap, opaque)
      else if v =? 0 then mret (None, kmap, opaque)
      else
        match freq_page with
        | Some i =>
            fr ← gets et_freq;
            kva ← of_option (fr !! i);
            kva ← of_option kva;
            mret (Some kva, kmap, opaque)
        | None =>
            hax_assert (negb (epte_pfn v =? INVALID_PFN));;
            r ← hax_map_page_frame (epte_pfn v);
            mret (r.1, r.2, opaque)
        end.

(** ** Creating an entry *)
(** The descent from the root to the leaf table: the loop over the levels PML4 to PD
    shared by [ept_tree_create_entry] and [ept_tree_walk].  [kmap] and [prev_kmap] are
    the two descriptors, swapped after each level. *)
Fixpoint descend {O} (n : nat) (gfn level table : Z) (kmap prev_kmap : hax_kmap_phys)
    (create : bool) (visit : option (epte_visitor O)) (opaque : O)
    : M st (option Z * hax_kmap_phys * hax_kmap_phys * O) :=
  match n with
  | O => mret (Some table, kmap, prev_kmap, opaque)
  | S n =>
      r ← ept_tree_get_next_table gfn level table kmap create visit opaque;
      let '(next, kmap, opaque) := r in
      ret ← hax_unmap_page_frame prev_kmap;
      hax_assert (ret =? 0);;
      match next with
      | None => mret (None, kmap, None, opaque)
      | Some table => descend n gfn (level - 1) table None kmap create visit opaque
      end
  end.

Definition ept_tree_create_entry (gfn value : Z) : M st Z :=
  if epte_perm value =? HAX_EPT_PERM_NONE then mret (- EINVAL)
  else
    root ← ept_tree_get_root_table;
    table ← of_option root;
    r ← descend (O := unit) 3 gfn HAX_EPT_LEVEL_PML4 table None None true None tt;
    let '(table, kmap, prev_kmap, _) := r in
    match table with
    | None => mret (- ENOMEM)
    | Some table =>
        let pte : epte_ptr := (table, get_pt_index gfn) in
        x ← cmpxchg64 0 value pte;
        if x : bool then
          ret ← hax_unmap_page_frame prev_kmap;
          hax_assert (ret =? 0);;
          mret 0
        else
          v ← read_epte pte;
          if negb (v =? value) then
            _ ← hax_unmap_page_frame kmap;
            mret (- EEXIST)
          else
            ret ← hax_unmap_page_frame prev_kmap;
            hax_assert (ret =? 0);;
            mret 0
    end.

(** ** Walking *)
Definition ept_tree_walk {O} (gfn : Z) (visit_epte : epte_visitor O) (opaque : O) : M st O :=
  root ← ept_tree_get_root_table;
  table ← of_option root;
  r ← descend 3 gfn HAX_EPT_LEVEL_PML4 table None None false (Some visit_epte) opaque;
  let '(table, kmap, prev_kmap, opaque) := r in
  match table with
  | None => mret opaque
  | Some table =>
      opaque ← visit_epte gfn HAX_EPT_LEVEL_PT (table, get_pt_index gfn) opaque;
      ret ← hax_unmap_page_frame prev_kmap;
      hax_assert (ret =? 0);;
      mret opaque
  end.

Definition get_pte : epte_visitor Z := fun gfn level epte pte =>
  if HAX_EPT_LEVEL_PT <? level then mret pte else read_epte epte.

Definition ept_tree_get_entry (gfn : Z) : M st Z := ept_tree_walk gfn get_pte 0.

Definition invalidate_pte : epte_visitor bool := fun gfn level epte modified =>
  if HAX_EPT_LEVEL_PT <? level then mret modified
  else
    v ← read_epte epte;
    if epte_perm v =? HAX_EPT_PERM_NONE then mret false
    else write_epte epte 0;; mret true.

Definition ept_tree_invalidate_entry (gfn : Z) : M st Z :=
  modified ← ept_tree_walk gfn invalidate_pte false;
  mret (if modified : bool then 1 else 0).

(** The loop over the frames; [n] is their number. *)
Fixpoint invalidate_loop (n : nat) (gfn modified_count : Z) : M st Z :=
  match n with
  | O => mret modified_count
  | S n =>
      ret ← ept_tree_invalidate_entry gfn;
      hax_assert ((ret =? 0) || (ret =? 1))%bool;;
      invalidate_loop n (gfn + 1) (s32 (modified_count + ret))
  end.

Definition ept_tree_invalidate_entries (start_gfn npages : Z) : M st Z :=
  let end_gfn := start_gfn +! npages in
  modified_count ← invalidate_loop (Z.to_nat (end_gfn - start_gfn)) start_gfn 0;
  (if negb (modified_count =? 0) then modify (set_invept_pending true) else mret tt);;
  mret modified_count.

(** ** Creating the entries of a range *)
(** [pfn_at i] is the frame number of the page at byte offset [i] of the chunk. *)
Section CreateEntries.
Context (pfn_at : Z -> Z).

(** The loop over one leaf table: the number of entries created (an int), or an error. *)
Fixpoint fill_pt (n : nat) (pt index perm offset created : Z) : M st (Z + Z) :=
  match n with
  | O => mret (inr created)
  | S n =>
      let pfn := pfn_at offset in
      hax_assert (negb (pfn =? INVALID_PFN));;
      let new_pte := make_epte perm HAX_EPT_MEMTYPE_WB pfn in
      x ← cmpxchg64 0 new_pte (pt, index);
      if x : bool then fill_pt n pt (index + 1) perm (offset +! PAGE_SIZE_4K) (s32 (created + 1))
      else
        v ← read_epte (pt, index);
        if negb (v =? new_pte) then mret (inl (- EEXIST))
        else fill_pt n pt (index + 1) perm (offset +! PAGE_SIZE_4K) created
  end.

(** Where the code jumps to for the next leaf table, with the tables still held. *)
Inductive create_label :=
  | next_pdpt
  | next_pd (pdpt : Z) (pdpt_kmap : hax_kmap_phys)
  | next_pt (pdpt : Z) (pdpt_kmap : hax_kmap_phys) (pd : Z) (pd_kmap : hax_kmap_phys).

Definition unmap2 (k1 k2 : hax_kmap_phys) : M st unit :=
  _ ← hax_unmap_page_frame k1; _ ← hax_unmap_page_frame k2; mret tt.

(** The tables for [gfn] from a label on: an error code after the cleanup of the code's
    exit labels, or the three tables with their descriptors. *)
Definition get_pdpt (gfn pml4 : Z) (l : create_label)
    : M st (Z + Z * hax_kmap_phys) :=
  match l with
  | next_pdpt =>
      r ← ept_tree_get_next_table gfn HAX_EPT_LEVEL_PML4 pml4 None true None tt;
      let '(pdpt, pdpt_kmap, _) := r in
      match pdpt with
      | None => mret (inl (- ENOMEM))
      | Some pdpt => mret (inr (pdpt, pdpt_kmap))
      end
  | next_pd pdpt k => mret (inr (pdpt, k))
  | next_pt pdpt k _ _ => mret (inr (pdpt, k))
  end.

Definition get_pd (gfn pdpt : Z) (pdpt_kmap : hax_kmap_phys) (l : create_label)
    : M st (Z + Z * hax_kmap_phys) :=
  match l with
  | next_pt _ _ pd k => mret (inr (pd, k))
  | _ =>
      r ← ept_tree_get_next_table gfn HAX_EPT_LEVEL_PDPT pdpt None true None tt;
      let '(pd, pd_kmap, _) := r in
      match pd with
      | None => _ ← hax_unmap_page_frame pdpt_kmap; mret (inl (- ENOMEM))
      | Some pd => mret (inr (pd, pd_kmap))
      end
  end.

Definition get_pt (gfn pd : Z) (pd_kmap pdpt_kmap : hax_kmap_phys)
    : M st (Z + Z * hax_kmap_phys) :=
  r ← ept_tree_get_next_table gfn HAX_EPT_LEVEL_PD pd None true None tt;
  let '(pt, pt_kmap, _) := r in
  match pt with
  | None => unmap2 pd_kmap pdpt_kmap;; mret (inl (- ENOMEM))
  | Some pt => mret (inr (pt, pt_kmap))
  end.

Definition get_tables (gfn pml4 : Z) (l : create_label)
    : M st (Z + Z * hax_kmap_phys * (Z * hax_kmap_phys) * (Z * hax_kmap_phys)) :=
  r ← get_pdpt gfn pml4 l;
  match r with
  | inl e => mret (inl e)
  | inr (pdpt, pdpt_kmap) =>
      r ← get_pd gfn pdpt pdpt_kmap l;
      match r with
      | inl e => mret (inl e)
      | inr (pd, pd_kmap) =>
          r ← get_pt gfn pd pd_kmap pdpt_kmap;
          match r with
          | inl e => mret (inl e)
          | inr (pt, pt_kmap) =>
              mret (inr (pdpt, pdpt_kmap, (pd, pd_kmap), (pt, pt_kmap)))
          end
      end
  end.

Fixpoint create_loop (fuel : nat) (l : create_label) (pml4 gfn end_gfn perm offset created : Z)
    : M st Z :=
  match fuel with
  | O => stuck
  | S fuel =>
      r ← get_tables gfn pml4 l;
      match r with
      | inl e => mret e
      | inr (pdpt, pdpt_kmap, (pd, pd_kmap), (pt, pt_kmap)) =>
          let start_index := get_pt_index gfn in
          let end_index := if get_pd_gross_index gfn <? get_pd_gross_index end_gfn
                           then HAX_EPT_TABLE_SIZE - 1 else get_pt_index end_gfn in
          let n := Z.max 0 (end_index - start_index + 1) in
          r ← fill_pt (Z.to_nat n) pt start_index perm offset created;
          match r with
          | inl e =>
              _ ← hax_unmap_page_frame pt_kmap; unmap2 pd_kmap pdpt_kmap;; mret e
          | inr created =>
              let gfn := gfn +! n in
              let offset := offset +! (n * PAGE_SIZE_4K) in
              if gfn <=? end_gfn then
                hax_assert (get_pt_index gfn =? 0);;
                _ ← hax_unmap_page_frame pt_kmap;
                if get_pd_index gfn =? 0 then
                  _ ← hax_unmap_page_frame pd_kmap;
                  if get_pdpt_index gfn =? 0 then
                    _ ← hax_unmap_page_frame pdpt_kmap;
                    create_loop fuel next_pdpt pml4 gfn end_gfn perm offset created
                  else
                    create_loop fuel (next_pd pdpt pdpt_kmap) pml4 gfn end_gfn perm
                      offset created
                else
                  create_loop fuel (next_pt pdpt pdpt_kmap pd pd_kmap) pml4 gfn end_gfn
                    perm offset created
              else
                _ ← hax_unmap_page_frame pt_kmap; unmap2 pd_kmap pdpt_kmap;;
                mret created
          end
      end
  end.

(** At most one leaf table per 512 frames, and one more at each end. *)
Definition ept_tree_create_entries (start_gfn npages chunk_size offset_within_chunk flags : Z)
    : M st Z :=
  hax_assert (negb (npages =? 0));;
  hax_assert (offset_within_chunk +! (npages <<! PG_ORDER_4K) <=? chunk_size);;
  let perm := if negb (flags &! HAX_MEMSLOT_READONLY =? 0)
              then HAX_EPT_PERM_RX else HAX_EPT_PERM_RWX in
  let end_gfn := (start_gfn +! npages) -! 1 in
  root ← ept_tree_get_root_table;
  pml4 ← of_option root;
  create_loop (Z.to_nat (npages / 512) + 2) next_pdpt pml4 start_gfn end_gfn perm
    offset_within_chunk 0.
End CreateEntries.
End EptTree.
