(* ===== verification/EptProof.v ===== *)
(** * The EPT tree implements a map from guest frames to leaf entries

    The specification is what the processor sees: [hw_walk] translates a guest frame by
    walking the tables in memory from the EPT pointer.  The invariant [ept_inv] names
    the table of every subtree (a ghost map from level and prefix to frame), says that
    the entries in memory point to them, that no two tables share a frame, and that the
    cache of frequently used tables agrees with memory. *)

From stdpp Require Import base numbers list gmap.
From Stdlib Require Import ZArith Lia.
From S2P Require Import Prelude HaxList Bitmap MemTypes EptTree.
#[local] Open Scope Z_scope.

(** What the host promises about page frames. *)
Class PhysHostLaws (PH : PhysHost) := {
  (** The frame is not in use. *)
  phys_free : pstate -> Z -> Prop;
  alloc_laws p r p' : alloc_page_frame p = (r, p') ->
    (forall q, phys_free p' q -> phys_free p q) /\
    forall pfn, r = Some pfn -> phys_free p pfn /\ ~ phys_free p' pfn /\
                                0 <= pfn < 2 ^ 40 /\ pfn <> INVALID_PFN;
  map_laws p pfn r p' : map_page_frame pfn p = (r, p') ->
    forall q, phys_free p' q -> phys_free p q;
}.

(** Hosts on which every frame can be mapped (64-bit kernels map all physical memory). *)
Definition maps_ok (PH : PhysHost) : Prop := forall pfn p, (map_page_frame pfn p).1 = true.

(** Calls of the host. *)
Definition phys_step {PH : PhysHost} (p p' : pstate) : Prop :=
  (exists r, alloc_page_frame p = (r, p')) \/ (exists pfn r, map_page_frame pfn p = (r, p')).

(** Between the host states [p] and [p'] the last call was refused. *)
Definition host_refused {PH : PhysHost} (p p' : pstate) : Prop :=
  exists p1, rtc phys_step p p1 /\
    (alloc_page_frame p1 = (None, p') \/ exists pfn, map_page_frame pfn p1 = (false, p')).

Lemma phys_steps_free {PH : PhysHost} {PL : PhysHostLaws PH} p p' q :
  rtc phys_step p p' -> phys_free p' q -> phys_free p q.
Proof.
  induction 1 as [|p p1 p' [[r E]|(pfn & r & E)] _ IH]; [done|..]; intros H%IH.
  - by apply (proj1 (alloc_laws _ _ _ E)).
  - by apply (map_laws _ _ _ _ E).
Qed.

Lemma host_refused_before {PH : PhysHost} p p' p'' :
  rtc phys_step p p' -> host_refused p' p'' -> host_refused p p''.
Proof. intros H (p1 & H1 & Hr). exists p1. split; [by etrans|done]. Qed.

(** ** Bit fields *)
Section Bits.

Lemma ones_land a n : 0 <= n -> 0 <= a < 2 ^ n -> a &! Z.ones n = a.
Proof. intros Hn Ha. rewrite Z.land_ones by done. by apply Z.mod_small. Qed.

Lemma land_7 a : a &! 7 = a mod 8.
Proof. change 7 with (Z.ones 3). by rewrite Z.land_ones. Qed.

Lemma land_511 a : a &! 511 = a mod 512.
Proof. change 511 with (Z.ones 9). by rewrite Z.land_ones. Qed.

(** A field above the bits of [a] adds up. *)
Lemma lor_shiftl_add a b n : 0 <= n -> 0 <= a < 2 ^ n -> a |! Z.shiftl b n = a + b * 2 ^ n.
Proof.
  intros Hn Ha. rewrite <- (Z.shiftl_mul_pow2 b) by done.
  rewrite <- Z.lxor_lor, <- Z.add_nocarry_lxor; [done|..];
    apply Z.bits_inj'; intros k Hk; rewrite Z.land_spec, Z.bits_0, Z.shiftl_spec by done;
    (destruct (Z.lt_ge_cases k n);
      [rewrite (Z.testbit_neg_r b) by lia; apply andb_false_r
      |rewrite <- (Z.mod_small a (2 ^ n)) by done;
       rewrite Z.mod_pow2_bits_high by lia; done]).
Qed.

Lemma make_epte_val perm mt pfn :
  0 <= perm < 8 -> 0 <= mt < 8 -> 0 <= pfn < 2 ^ 40 ->
  make_epte perm mt pfn = perm + mt * 8 + pfn * 4096.
Proof.
  intros Hp Hm Hf. unfold make_epte. rewrite !land_7, !(Z.mod_small _ 8), ones_land by lia.
  rewrite (lor_shiftl_add perm) by lia. rewrite lor_shiftl_add by lia. lia.
Qed.

Lemma make_epte_pfn perm mt pfn :
  0 <= perm < 8 -> 0 <= mt < 8 -> 0 <= pfn < 2 ^ 40 ->
  epte_pfn (make_epte perm mt pfn) = pfn.
Proof.
  intros. rewrite make_epte_val by done. unfold epte_pfn. rewrite shiftr_12.
  replace ((perm + mt * 8 + pfn * 4096) / 4096) with pfn by (apply Z.div_unique with (perm + mt * 8); lia).
  apply ones_land; lia.
Qed.

Lemma make_epte_perm perm mt pfn :
  0 <= perm < 8 -> 0 <= mt < 8 -> 0 <= pfn < 2 ^ 40 ->
  epte_perm (make_epte perm mt pfn) = perm.
Proof.
  intros. rewrite make_epte_val by done. unfold epte_perm. rewrite land_7.
  symmetry. apply Z.mod_unique with (mt + pfn * 512); lia.
Qed.

(** The two kinds of entry differ in their low bits. *)
Lemma make_epte_present perm mt pfn :
  0 < perm < 8 -> 0 <= mt < 8 -> 0 <= pfn < 2 ^ 40 ->
  make_epte perm mt pfn <> 0 /\ make_epte perm mt pfn <> INVALID_EPTE.
Proof.
  intros. rewrite make_epte_val by lia. change INVALID_EPTE with ((2 ^ 40 - 1) * 4096). lia.
Qed.
End Bits.

(** ** Prefixes and indices of a guest frame *)
(** The frames below [2 ^ 36] (48-bit guest addresses) are what four levels translate. *)
Definition gfn_ok (gfn : Z) : Prop := 0 <= gfn < 2 ^ 36.

(** The table of level [l] that covers [gfn] is number [pre l gfn] of its level. *)
Definition pre (l gfn : Z) : Z := gfn >>! (9 * (l + 1)).
Definition idx (l gfn : Z) : Z := (gfn >>! (9 * l)) mod 512.

Section Prefixes.
Implicit Types (l gfn : Z).

Lemma pre_nonneg l gfn : gfn_ok gfn -> 0 <= pre l gfn.
Proof. intros. apply Z.shiftr_nonneg. unfold gfn_ok in *. lia. Qed.

Lemma pre_le l gfn : 0 <= l + 1 -> gfn_ok gfn -> pre l gfn <= gfn.
Proof.
  intros Hl Hg. unfold pre, gfn_ok in *. rewrite Z.shiftr_div_pow2 by lia.
  apply Z.div_le_upper_bound; [lia|].
  assert (0 < 2 ^ (9 * (l + 1))) by (apply Z.pow_pos_nonneg; lia). nia.
Qed.

Lemma pre_top gfn : gfn_ok gfn -> pre 3 gfn = 0.
Proof.
  intros [? ?]. unfold pre. rewrite Z.shiftr_div_pow2 by lia. apply Z.div_small.
  change (9 * (3 + 1)) with 36. lia.
Qed.

Lemma idx_range l gfn : 0 <= idx l gfn < 512.
Proof. apply Z.mod_pos_bound. lia. Qed.

Lemma pre_down l gfn : 0 <= l -> pre (l - 1) gfn = pre l gfn * 512 + idx l gfn.
Proof.
  intros Hl. unfold pre, idx. replace (9 * (l - 1 + 1)) with (9 * l) by lia.
  replace (9 * (l + 1)) with (9 * l + 9) by lia.
  rewrite <- Z.shiftr_shiftr, (Z.shiftr_div_pow2 _ 9) by lia. change (2 ^ 9) with 512.
  pose proof (Z.div_mod (gfn >>! (9 * l)) 512). lia.
Qed.

Lemma pre_leaf gfn : gfn = pre 0 gfn * 512 + idx 0 gfn.
Proof. rewrite <- pre_down by lia. unfold pre. by rewrite Z.shiftr_0_r. Qed.

Lemma pre_leaf_inj g1 g2 : pre 0 g1 = pre 0 g2 -> idx 0 g1 = idx 0 g2 -> g1 = g2.
Proof. intros. rewrite (pre_leaf g1), (pre_leaf g2). lia. Qed.

Lemma index_idx l gfn :
  u32 ((gfn >>! (HAX_EPT_TABLE_SHIFT * l)) &! (HAX_EPT_TABLE_SIZE - 1)) = idx l gfn.
Proof.
  change (HAX_EPT_TABLE_SIZE - 1) with 511. rewrite land_511.
  pose proof (idx_range l gfn). apply u32_small. unfold idx in *.
  change HAX_EPT_TABLE_SHIFT with 9. lia.
Qed.

Lemma get_pt_index_idx gfn : get_pt_index gfn = idx 0 gfn.
Proof. rewrite <- index_idx. unfold get_pt_index. by rewrite Z.shiftr_0_r. Qed.

(** The cache slot of table number [p] of level [l]. *)
Definition freq_slot (l p : Z) : option nat :=
  if l =? 3 then Some 0%nat
  else if l =? 2 then if p =? 0 then Some 1%nat else None
  else if l =? 1 then if p <? 8 then Some (Z.to_nat (2 + p)) else None
  else None.

Lemma get_freq_page_slot gfn l :
  gfn_ok gfn -> ept_tree_get_freq_page gfn l = freq_slot l (pre l gfn).
Proof.
  intros Hg. pose proof (pre_nonneg 2 gfn Hg). pose proof (pre_nonneg 1 gfn Hg).
  pose proof (pre_down 1 gfn ltac:(lia)) as Hd1. pose proof (idx_range 1 gfn).
  pose proof (pre_down 0 gfn ltac:(lia)) as Hd0. pose proof (idx_range 0 gfn).
  pose proof (pre_down 2 gfn ltac:(lia)) as Hd2. pose proof (idx_range 2 gfn).
  assert (pre (0 - 1) gfn = gfn) by (unfold pre; by rewrite Z.shiftr_0_r).
  change (1 - 1) with 0 in *. change (2 - 1) with 1 in *. unfold gfn_ok in *.
  unfold ept_tree_get_freq_page, freq_slot, get_pml4_index, get_pdpt_gross_index,
    HAX_EPT_LEVEL_PML4, HAX_EPT_LEVEL_PDPT, HAX_EPT_LEVEL_PD.
  change (gfn >>! (HAX_EPT_TABLE_SHIFT * 3)) with (pre 2 gfn).
  change (gfn >>! (HAX_EPT_TABLE_SHIFT * 2)) with (pre 1 gfn).
  change (HAX_EPT_FREQ_PAGE_COUNT - 2) with 8.
  destruct (Z.eqb_spec l 3); [done|]. destruct (Z.eqb_spec l 2); [subst l|].
  { rewrite u32_small; [done|]. lia. }
  destruct (Z.eqb_spec l 1); [subst l|done].
  destruct (Z.lt_ge_cases (pre 1 gfn) (2 ^ 32)); [by rewrite u32_small|].
  exfalso. lia.
Qed.

Lemma freq_slot_inj l1 p1 l2 p2 i :
  0 <= p1 -> 0 <= p2 -> (l1 = 3 -> p1 = 0) -> (l2 = 3 -> p2 = 0) ->
  freq_slot l1 p1 = Some i -> freq_slot l2 p2 = Some i -> (l1, p1) = (l2, p2).
Proof.
  unfold freq_slot. intros H1 H2 H3 H4.
  repeat match goal with |- context [?a =? ?b] => destruct (Z.eqb_spec a b) end;
    repeat match goal with |- context [?a <? ?b] => destruct (Z.ltb_spec a b) end;
    intros Ha Hb; try discriminate; injection Ha as Ha; injection Hb as Hb; f_equal; lia.
Qed.

Lemma freq_slot_lt l p i : 0 <= p -> freq_slot l p = Some i -> (i < 10)%nat.
Proof.
  unfold freq_slot. intros H.
  repeat match goal with |- context [?a =? ?b] => destruct (Z.eqb_spec a b) end;
    repeat match goal with |- context [?a <? ?b] => destruct (Z.ltb_spec a b) end;
    intros Ha; try discriminate; injection Ha as Ha; lia.
Qed.
End Prefixes.

(** ** What the processor sees *)
Section Inv.
Context {PH : PhysHost} {PL : PhysHostLaws PH}.
Notation st := hax_ept_tree.
Implicit Types (t : st) (T : gmap (Z * Z) Z).

(** The entry at a pointer, if the frame is a table. *)
Definition ent t (p : epte_ptr) : option Z := et_frames t !! p.1 ≫= (.!! Z.to_nat p.2).

(** The walk from the table at level [n] to the leaf entry; 0 where an entry is not
    present. *)
Fixpoint hw_walk_from t (n : nat) (table gfn : Z) : Z :=
  let e := default 0 (ent t (table, idx (Z.of_nat n) gfn)) in
  match n with
  | O => e
  | S n => if epte_perm e =? 0 then 0 else hw_walk_from t n (epte_pfn e) gfn
  end.

Definition hw_walk t (gfn : Z) : Z := hw_walk_from t 3 (epte_pfn (et_eptp t)) gfn.

(** ** The invariant *)
Definition node_val (o : option Z) : Z :=
  match o with Some q => make_epte 7 0 q | None => 0 end.

Record ept_inv T t : Prop := {
  inv_root : exists root, T !! (3, 0) = Some root /\ et_eptp t = make_eptp 6 3 root;
  inv_key l p q : T !! (l, p) = Some q -> 0 <= l <= 3 /\ 0 <= p /\ (l = 3 -> p = 0);
  inv_pfn k q : T !! k = Some q ->
    0 <= q < 2 ^ 40 /\ q <> INVALID_PFN /\ ~ phys_free (et_phys t) q;
  inv_inj k1 k2 q : T !! k1 = Some q -> T !! k2 = Some q -> k1 = k2;
  inv_mem k q i : T !! k = Some q -> 0 <= i < 512 -> is_Some (ent t (q, i));
  inv_node l p q i : 1 <= l -> T !! (l, p) = Some q -> 0 <= i < 512 ->
    ent t (q, i) = Some (node_val (T !! (l - 1, p * 512 + i)));
  inv_leaf p q i v : T !! (0, p) = Some q -> 0 <= i < 512 -> ent t (q, i) = Some v ->
    v = 0 \/ epte_perm v <> 0;
  inv_parent l p q : T !! (l, p) = Some q -> l < 3 -> is_Some (T !! (l + 1, p / 512));
  inv_freq l p q i : T !! (l, p) = Some q -> freq_slot l p = Some i ->
    et_freq t !! i = Some (Some q);
  inv_freq_len : length (et_freq t) = 10%nat;
  inv_pages q : is_Some (et_frames t !! q) <-> q ∈ et_page_list t;
  inv_used q : q ∈ et_page_list t -> exists k, T !! k = Some q;
  inv_nodup : NoDup (et_page_list t);
}.

(** The leaf entry of a frame, through the ghost map. *)
Definition leaf T t (gfn : Z) : Z :=
  match T !! (0, pre 0 gfn) with
  | Some q => default 0 (ent t (q, idx 0 gfn))
  | None => 0
  end.

Lemma node_val_present T t k q : ept_inv T t -> T !! k = Some q ->
  epte_perm (node_val (Some q)) = 7 /\ epte_pfn (node_val (Some q)) = q /\
  node_val (Some q) <> 0 /\ node_val (Some q) <> INVALID_EPTE.
Proof.
  intros HI Hk. destruct (inv_pfn _ _ HI _ _ Hk) as (? & ? & ?). unfold node_val.
  rewrite make_epte_perm, make_epte_pfn by lia. split_and!; [done|done|..];
    apply make_epte_present; lia.
Qed.

Lemma inv_child T t l p i c :
  ept_inv T t -> T !! (l - 1, p * 512 + i) = Some c -> 0 <= i < 512 -> l <= 3 ->
  is_Some (T !! (l, p)).
Proof.
  intros HI E Hi Hl. pose proof (inv_parent _ _ HI _ _ _ E) as H.
  rewrite Z.div_add_l, (Z.div_small i), Z.add_0_r in H by lia.
  replace (l - 1 + 1) with l in H by lia. apply H. lia.
Qed.

(** The tables above an existing table exist. *)
Lemma inv_above T t l gfn :
  ept_inv T t -> 0 <= l < 3 -> is_Some (T !! (l, pre l gfn)) ->
  is_Some (T !! (l + 1, pre (l + 1) gfn)).
Proof.
  intros HI Hl [q Hq]. replace l with (l + 1 - 1) in Hq by lia. rewrite pre_down in Hq by lia.
  eapply inv_child; [done|done|apply idx_range|lia].
Qed.

(** The walk down from a table of level [n] ends at the leaf of the ghost map. *)
Lemma hw_walk_from_leaf T t n q gfn :
  ept_inv T t -> Z.of_nat n <= 3 -> T !! (Z.of_nat n, pre (Z.of_nat n) gfn) = Some q ->
  hw_walk_from t n q gfn = leaf T t gfn.
Proof.
  intros HI. revert q. induction n as [|n IH]; intros q Hn Hq; cbn [hw_walk_from].
  { unfold leaf. change (Z.of_nat 0) with 0 in *. by rewrite Hq. }
  rewrite (inv_node _ _ HI (Z.of_nat (S n)) _ _ _ ltac:(lia) Hq (idx_range _ _)), <- pre_down by lia.
  replace (Z.of_nat (S n) - 1) with (Z.of_nat n) by lia. cbn [from_option id].
  destruct (T !! (Z.of_nat n, pre (Z.of_nat n) gfn)) as [q'|] eqn:E.
  - destruct (node_val_present _ _ _ _ HI E) as (-> & -> & _). cbn. apply IH; [lia|done].
  - cbn. unfold leaf. destruct (T !! (0, pre 0 gfn)) eqn:E0; [|done].
    exfalso. enough (forall k : nat, (k <= n)%nat ->
      is_Some (T !! (Z.of_nat k, pre (Z.of_nat k) gfn))) as H.
    { destruct (H n ltac:(lia)) as [? ?]. congruence. }
    induction k as [|k IHk]; intros Hk; [by eexists|].
    replace (Z.of_nat (S k)) with (Z.of_nat k + 1) by lia.
    apply (inv_above _ t); [done|lia|]. apply IHk. lia.
Qed.

Lemma eptp_pfn root : 0 <= root < 2 ^ 40 -> epte_pfn (make_eptp 6 3 root) = root.
Proof. intros. apply (make_epte_pfn 6 3); lia. Qed.

Lemma hw_walk_leaf T t gfn : ept_inv T t -> gfn_ok gfn -> hw_walk t gfn = leaf T t gfn.
Proof.
  intros HI Hg. unfold hw_walk. destruct (inv_root _ _ HI) as (root & Hr & ->).
  destruct (inv_pfn _ _ HI _ _ Hr) as (? & _). rewrite eptp_pfn by done.
  apply hw_walk_from_leaf; [done|lia|]. by rewrite pre_top.
Qed.

(** ** Memory *)
Definition put (p : epte_ptr) (v : Z) t : st :=
  set_frames (alter (fun table => <[Z.to_nat p.2 := v]> table) p.1) t.

Lemma read_epte_run {B} p v t (k : Z -> M st B) :
  ent t p = Some v -> (read_epte p ≫= k) t = k v t.
Proof.
  unfold ent. intros H. unfold read_epte, mbind, M_bind, gets, of_option.
  destruct (et_frames t !! p.1) as [tbl|]; [cbn in *|done]. by rewrite H.
Qed.

Lemma write_epte_run {B} p v v' t (k : unit -> M st B) :
  ent t p = Some v -> (write_epte p v' ≫= k) t = k tt (put p v' t).
Proof.
  intros H. unfold write_epte. unfold mbind at 1, M_bind at 1.
  by rewrite (read_epte_run _ _ _ _ H).
Qed.

Lemma cmpxchg_run {B} p v old new t (k : bool -> M st B) :
  ent t p = Some v ->
  (cmpxchg64 old new p ≫= k) t = (if v =? old then k true (put p new t) else k false t).
Proof.
  intros H. unfold cmpxchg64. unfold mbind at 1, M_bind at 1. rewrite (read_epte_run _ _ _ _ H).
  destruct (v =? old); [|done]. by rewrite (write_epte_run _ _ _ _ _ H).
Qed.

Lemma ent_put_eq p v t : is_Some (ent t p) -> ent (put p v t) p = Some v.
Proof.
  intros [w H]. unfold ent, put in *. cbn. rewrite lookup_alter_eq.
  destruct (et_frames t !! p.1) as [tbl|]; [cbn in *|done].
  apply list_lookup_insert_eq. by eapply lookup_lt_Some.
Qed.

Lemma ent_put_ne p v q i t : 0 <= i -> 0 <= p.2 -> (q, i) <> p -> ent (put p v t) (q, i) = ent t (q, i).
Proof.
  destruct p as [a b]. cbn. intros Hi Hb Hne. unfold ent, put. cbn.
  destruct (decide (q = a)) as [->|Hqa]; [|by rewrite lookup_alter_ne].
  rewrite lookup_alter_eq. destruct (et_frames t !! a) as [tbl|]; [|done]. cbn.
  apply list_lookup_insert_ne. intros E. apply Hne. f_equal. lia.
Qed.

Lemma put_frames p v t q : is_Some (et_frames (put p v t) !! q) <-> is_Some (et_frames t !! q).
Proof.
  unfold put. cbn. destruct (decide (q = p.1)) as [->|]; [|by rewrite lookup_alter_ne].
  rewrite lookup_alter_eq. by rewrite fmap_is_Some.
Qed.

(** ** Preservation of the invariant *)
(** Changes outside the memory. *)
Lemma inv_frame_rule T t t' :
  et_frames t' = et_frames t -> et_page_list t' = et_page_list t -> et_eptp t' = et_eptp t ->
  et_freq t' = et_freq t -> (forall q, phys_free (et_phys t') q -> phys_free (et_phys t) q) ->
  ept_inv T t -> ept_inv T t'.
Proof.
  intros E1 E2 E3 E4 Hp HI.
  assert (Hent : forall p, ent t' p = ent t p) by (intros; unfold ent; by rewrite E1).
  destruct HI. constructor; intros *; rewrite ?E1, ?E2, ?E3, ?E4, ?Hent; eauto.
  intros Hk. destruct (inv_pfn0 _ _ Hk) as (? & ? & ?). split; [done|split; [done|eauto]].
Qed.

Lemma leaf_frame_rule T t t' gfn : et_frames t' = et_frames t -> leaf T t' gfn = leaf T t gfn.
Proof. intros E. unfold leaf, ent. by rewrite E. Qed.

(** Two different keys are in different frames. *)
Lemma inv_other T t k1 k2 q1 q2 :
  ept_inv T t -> T !! k1 = Some q1 -> T !! k2 = Some q2 -> k1 <> k2 -> q1 <> q2.
Proof. intros HI H1 H2 Hne ->. apply Hne. by eapply inv_inj. Qed.

(** Writing a leaf entry. *)
Lemma inv_put_leaf T t p q i v :
  ept_inv T t -> T !! (0, p) = Some q -> 0 <= i < 512 -> v = 0 \/ epte_perm v <> 0 ->
  ept_inv T (put (q, i) v t).
Proof.
  intros HI Hq Hi Hv.
  assert (Hent : forall q' j, 0 <= j < 512 ->
    ent (put (q, i) v t) (q', j) = if decide ((q', j) = (q, i)) then Some v else ent t (q', j)).
  { intros q' j Hj. destruct (decide _) as [->|]; [|apply ent_put_ne; cbn; lia || done].
    apply ent_put_eq. by eapply inv_mem. }
  pose proof HI as HI'. destruct HI'. constructor; try done; intros *.
  - intros Hk Hj. rewrite Hent by done. destruct (decide _); eauto.
  - intros Hl Hk Hj. rewrite Hent by done.
    destruct (decide _) as [[= -> ->]|]; [|by apply inv_node0].
    pose proof (inv_inj0 _ _ _ Hq Hk). simplify_eq. lia.
  - intros Hk Hj. rewrite Hent by done. destruct (decide _); [by intros [= <-]|eauto].
  - by rewrite put_frames.
Qed.

Lemma leaf_put_leaf T t p q i v gfn :
  ept_inv T t -> T !! (0, p) = Some q -> 0 <= i < 512 ->
  leaf T (put (q, i) v t) gfn = if gfn =? p * 512 + i then v else leaf T t gfn.
Proof.
  intros HI Hq Hi. unfold leaf. pose proof (idx_range 0 gfn). pose proof (pre_leaf gfn).
  destruct (Z.eqb_spec gfn (p * 512 + i)) as [E|E].
  - assert (pre 0 gfn = p /\ idx 0 gfn = i) as [-> ->] by lia. rewrite Hq.
    rewrite ent_put_eq; [done|]. by eapply inv_mem.
  - destruct (T !! (0, pre 0 gfn)) as [q'|] eqn:Hq'; [|done].
    rewrite ent_put_ne; [done|lia|cbn; lia|]. injection 1 as -> Ei.
    pose proof (inv_inj _ _ HI _ _ _ Hq Hq'). simplify_eq; lia.
Qed.

(** [t'] is [t] with a new table [pfn] below entry [i] of table [q]. *)
Record adds_table (k : Z * Z) (q i pfn : Z) t t' : Prop := {
  at_new : ent t' (q, i) = Some (make_epte 7 0 pfn);
  at_zero j : 0 <= j < 512 -> ent t' (pfn, j) = Some 0;
  at_old q' j : 0 <= j < 512 -> q' <> pfn -> (q', j) <> (q, i) -> ent t' (q', j) = ent t (q', j);
  at_eptp : et_eptp t' = et_eptp t;
  at_freq : et_freq t' = match freq_slot k.1 k.2 with
                         | Some s => <[s := Some pfn]> (et_freq t)
                         | None => et_freq t
                         end;
  at_list : et_page_list t' = pfn :: et_page_list t;
  at_frames q' : is_Some (et_frames t' !! q') <-> q' = pfn \/ is_Some (et_frames t !! q');
  at_free q' : phys_free (et_phys t') q' -> phys_free (et_phys t) q';
  at_used : phys_free (et_phys t) pfn /\ ~ phys_free (et_phys t') pfn;
  at_pfn : 0 <= pfn < 2 ^ 40 /\ pfn <> INVALID_PFN;
}.

Section AddTable.
Context (T : gmap (Z * Z) Z) (t t' : st) (l p q i pfn : Z).
Context (HI : ept_inv T t) (Hl : 1 <= l <= 3) (Hq : T !! (l, p) = Some q) (Hi : 0 <= i < 512).
Context (Hnone : T !! (l - 1, p * 512 + i) = None).
Context (Hat : adds_table (l - 1, p * 512 + i) q i pfn t t').
Notation T' := (<[(l - 1, p * 512 + i) := pfn]> T).

Lemma add_fresh k : T !! k <> Some pfn.
Proof using Hat HI.
  intros Hk. destruct (at_used _ _ _ _ _ _ Hat) as [Hf _].
  by destruct (inv_pfn _ _ HI _ _ Hk) as (_ & _ & ?).
Qed.

Lemma add_lookup k q' :
  T' !! k = Some q' -> k = (l - 1, p * 512 + i) /\ q' = pfn \/ T !! k = Some q' /\ q' <> pfn.
Proof using Hat HI.
  intros [[<- <-]|[? ?]]%lookup_insert_Some; [by left|right]. split; [done|].
  intros ->. by eapply add_fresh.
Qed.

Lemma add_old_ent k q' j : T !! k = Some q' -> 0 <= j < 512 -> (k, j) <> ((l, p), i) ->
  ent t' (q', j) = ent t (q', j).
Proof using Hat HI Hq.
  intros Hk Hj Hne. apply (at_old _ _ _ _ _ _ Hat); [done|..].
  - intros ->. by eapply add_fresh.
  - intros [= -> ->]. apply Hne. f_equal. by eapply inv_inj.
Qed.

Lemma add_node l' p' q' j : 1 <= l' -> T' !! (l', p') = Some q' -> 0 <= j < 512 ->
  ent t' (q', j) = Some (node_val (T' !! (l' - 1, p' * 512 + j))).
Proof using Hat HI Hq Hi Hl Hnone.
  intros Hl' [[[= -> ->] ->]|[Hk Hne]]%add_lookup Hj.
  - rewrite (at_zero _ _ _ _ _ _ Hat) by done. rewrite lookup_insert_ne by (intros [=]; lia).
    destruct (T !! (l - 1 - 1, _)) as [c|] eqn:E; [|done]. exfalso.
    destruct (inv_child _ _ _ _ _ _ HI E Hj) as [d Hd]; [lia|]. congruence.
  - destruct (decide ((l', p', j) = (l, p, i))) as [[= -> -> ->]|Hn].
    + rewrite lookup_insert_eq. assert (q' = q) as -> by congruence.
      apply (at_new _ _ _ _ _ _ Hat).
    + rewrite (add_old_ent _ _ _ Hk Hj) by (intros [= -> -> ->]; done).
      rewrite lookup_insert_ne; [by apply (inv_node _ _ HI)|]. intros [=]. apply Hn.
      repeat f_equal; lia.
Qed.

Lemma add_freq l' p' q' s : T' !! (l', p') = Some q' -> freq_slot l' p' = Some s ->
  et_freq t' !! s = Some (Some q').
Proof using Hat HI Hq Hi Hl Hnone.
  destruct (inv_key _ _ HI _ _ _ Hq) as (_ & Hp & _).
  intros [[[= -> ->] ->]|[Hk Hne]]%add_lookup Hs; rewrite (at_freq _ _ _ _ _ _ Hat); cbn.
  - rewrite Hs. apply list_lookup_insert_eq. rewrite (inv_freq_len _ _ HI).
    eapply freq_slot_lt; [|done]. lia.
  - pose proof (inv_freq _ _ HI _ _ _ _ Hk Hs) as Hf.
    destruct (freq_slot (l - 1) (p * 512 + i)) as [s'|] eqn:Hs'; [|done].
    rewrite list_lookup_insert_ne; [done|]. intros ->.
    destruct (inv_key _ _ HI _ _ _ Hk) as (_ & Hp' & Ht).
    assert ((l', p') = (l - 1, p * 512 + i)) as [= -> ->]; [|congruence].
    eapply freq_slot_inj; eauto; lia.
Qed.

Lemma add_inv : ept_inv T' t'.
Proof using Hat HI Hq Hi Hl Hnone.
  pose proof HI as HI'. destruct HI'. constructor; intros *.
  - destruct inv_root0 as (root & Hr & He). exists root.
    rewrite lookup_insert_ne by (intros [=]; lia). split; [done|].
    by rewrite (at_eptp _ _ _ _ _ _ Hat).
  - destruct (inv_key0 _ _ _ Hq) as (? & ? & ?).
    intros [[[= -> ->] ->]|[Hk _]]%add_lookup; [split_and!; lia|eauto].
  - intros [[-> ->]|[Hk _]]%add_lookup.
    + destruct (at_pfn _ _ _ _ _ _ Hat), (at_used _ _ _ _ _ _ Hat). by split; [|split].
    + destruct (inv_pfn0 _ _ Hk) as (? & ? & Hf). split; [done|split; [done|]].
      intros Hf'. apply Hf. by eapply at_free.
  - intros [[-> ->]|[? ?]]%add_lookup [[-> Hx]|[? ?]]%add_lookup; eauto; done.
  - intros [[-> ->]|[Hk _]]%add_lookup Hj.
    + rewrite (at_zero _ _ _ _ _ _ Hat) by done. eauto.
    + destruct (decide ((k, i0) = ((l, p), i))) as [[= -> ->]|Hn].
      * assert (q0 = q) as -> by congruence. rewrite (at_new _ _ _ _ _ _ Hat). eauto.
      * rewrite (add_old_ent _ _ _ Hk Hj) by done. eauto.
  - apply add_node.
  - intros [[[= _ _] ->]|[Hk _]]%add_lookup Hj.
    + rewrite (at_zero _ _ _ _ _ _ Hat) by done. intros [= <-]. by left.
    + rewrite (add_old_ent _ _ _ Hk Hj) by (intros [=]; lia). eauto.
  - intros [[[= -> ->] ->]|[Hk _]]%add_lookup Hlt.
    + rewrite Z.div_add_l, (Z.div_small i), Z.add_0_r by lia.
      replace (l - 1 + 1) with l by lia. apply lookup_insert_is_Some'. eauto.
    + apply lookup_insert_is_Some'. eauto.
  - apply add_freq.
  - rewrite (at_freq _ _ _ _ _ _ Hat). case_match; [by rewrite length_insert|done].
  - rewrite (at_frames _ _ _ _ _ _ Hat), (at_list _ _ _ _ _ _ Hat), elem_of_cons. naive_solver.
  - rewrite (at_list _ _ _ _ _ _ Hat), elem_of_cons. intros [->|Hin].
    + eexists. apply lookup_insert_eq.
    + destruct (inv_used0 _ Hin) as [k Hk]. exists k. apply lookup_insert_Some. right.
      split; [|done]. intros <-. congruence.
  - rewrite (at_list _ _ _ _ _ _ Hat). constructor; [|done]. intros Hin.
    destruct (inv_used0 _ Hin) as [k Hk]. by eapply add_fresh.
Qed.

Lemma add_leaf gfn : leaf T' t' gfn = leaf T t gfn.
Proof using Hat HI Hq Hi Hl Hnone.
  unfold leaf. pose proof (idx_range 0 gfn).
  destruct (T' !! (0, pre 0 gfn)) as [q'|] eqn:E.
  - apply add_lookup in E as [[[= E1 E2] ->]|[Hk _]].
    + rewrite (at_zero _ _ _ _ _ _ Hat) by done.
      by replace (0, pre 0 gfn) with (l - 1, p * 512 + i) by congruence; rewrite Hnone.
    + rewrite Hk. rewrite (add_old_ent _ _ _ Hk) by (done || intros [=]; lia). done.
  - apply lookup_insert_None in E as [-> _]. done.
Qed.
End AddTable.

(** ** Host services *)
Lemma map_frame_run pfn t :
  exists (ok : bool) p',
    hax_map_page_frame pfn t =
      Some (if ok then (Some pfn, Some pfn, set_kmaps (fun n => n + 1) (set_phys p' t))
            else (None, None, set_phys p' t)) /\
    (maps_ok PH -> ok = true) /\ (ok = false -> host_refused (et_phys t) p') /\
    phys_step (et_phys t) p'.
Proof.
  unfold hax_map_page_frame, phys_call. unfold mbind, M_bind.
  destruct (map_page_frame pfn (et_phys t)) as [ok p'] eqn:E. exists ok, p'. split_and!.
  - by destruct ok.
  - intros H. specialize (H pfn (et_phys t)). by rewrite E in H.
  - intros ->. exists (et_phys t). split; [done|]. right. by exists pfn.
  - right. eauto.
Qed.

Lemma alloc_page_run t :
  exists r p',
    ept_tree_alloc_page t =
      Some (r, match r with
               | Some pfn => set_page_list (cons pfn)
                               (set_frames (insert pfn zero_table) (set_phys p' t))
               | None => set_phys p' t
               end) /\
    (r = None -> host_refused (et_phys t) p') /\
    phys_step (et_phys t) p' /\
    forall pfn, r = Some pfn -> phys_free (et_phys t) pfn /\ ~ phys_free p' pfn /\
                                0 <= pfn < 2 ^ 40 /\ pfn <> INVALID_PFN.
Proof.
  unfold ept_tree_alloc_page, phys_call. unfold mbind, M_bind.
  destruct (alloc_page_frame (et_phys t)) as [r p'] eqn:E. exists r, p'.
  destruct (alloc_laws _ _ _ E) as [? ?]. split_and!; [by destruct r| |by left; exists r|done].
  intros ->. exists (et_phys t). split; [done|]. by left.
Qed.

Definition kcount (k : hax_kmap_phys) : Z := match k with Some _ => 1 | None => 0 end.

Lemma unmap_run {B} k t (f : Z -> M st B) :
  (hax_unmap_page_frame k ≫= f) t = f 0 (set_kmaps (fun n => n - kcount k) t).
Proof.
  destruct k; [done|]. change (kcount None) with 0. unfold set_kmaps. rewrite Z.sub_0_r.
  by destruct t.
Qed.

(** ** The next table *)
(** The tree may get new tables; its leaves stay. *)
Record grows T t T' t' : Prop := {
  gr_inv : ept_inv T' t';
  gr_sub : T ⊆ T';
  gr_leaf g : leaf T' t' g = leaf T t g;
  gr_pending : et_invept_pending t' = et_invept_pending t;
  gr_phys : rtc phys_step (et_phys t) (et_phys t');
}.

Lemma grows_refl T t : ept_inv T t -> grows T t T t.
Proof. by split. Qed.

Lemma grows_trans T1 t1 T2 t2 T3 t3 : grows T1 t1 T2 t2 -> grows T2 t2 T3 t3 -> grows T1 t1 T3 t3.
Proof. intros [] []. split; [done|by etrans|congruence|congruence|by etrans]. Qed.

(** Changes of the mappings and of the host. *)
Lemma grows_kmaps T t f : ept_inv T t -> grows T t T (set_kmaps f t).
Proof. intros HI. split; [|done..]. by apply (inv_frame_rule _ t). Qed.

Lemma grows_phys T t p' :
  ept_inv T t -> phys_step (et_phys t) p' -> grows T t T (set_phys p' t).
Proof.
  intros HI Hp%rtc_once. split; [|done..]. apply (inv_frame_rule _ t); try done.
  intros q. by apply phys_steps_free.
Qed.

(** The state after the creation of a table: the entry is first claimed with
    INVALID_EPTE, then the table is allocated and cached, then the entry points to it. *)
Definition created_table (k : Z * Z) (e : epte_ptr) (pfn : Z) (p' : pstate) t : st :=
  let t1 := put e INVALID_EPTE t in
  let t2 := set_page_list (cons pfn) (set_frames (insert pfn zero_table) (set_phys p' t1)) in
  let t3 := match freq_slot k.1 k.2 with
            | Some s => set_freq (<[s := Some pfn]>) t2
            | None => t2
            end in
  put e (make_epte 7 0 pfn) t3.

Lemma zero_table_lookup j : 0 <= j < 512 -> zero_table !! Z.to_nat j = Some 0.
Proof. intros. apply lookup_replicate_2. lia. Qed.

Lemma created_adds T t k q i pfn p' kq :
  ept_inv T t -> T !! kq = Some q -> 0 <= i < 512 ->
  phys_step (et_phys t) p' ->
  phys_free (et_phys t) pfn /\ ~ phys_free p' pfn /\ 0 <= pfn < 2 ^ 40 /\ pfn <> INVALID_PFN ->
  adds_table k q i pfn t (created_table k (q, i) pfn p' t).
Proof.
  intros HI Hq Hi Hmono (Hf & Hf' & Hr & Hne).
  assert (Hqp : q <> pfn).
  { intros ->. by destruct (inv_pfn _ _ HI _ _ Hq) as (_ & _ & ?). }
  unfold created_table. set (t1 := put (q, i) INVALID_EPTE t).
  set (t2 := set_page_list _ _). set (t3 := match freq_slot _ _ with Some _ => _ | None => _ end).
  assert (Hfr : et_frames t3 = <[pfn := zero_table]> (et_frames t1)) by (unfold t3; by case_match).
  assert (Hph : et_phys t3 = p') by (unfold t3; by case_match).
  assert (Hent : forall q' j, q' <> pfn -> ent t3 (q', j) = ent t1 (q', j)).
  { intros q' j Hn. unfold ent. rewrite Hfr. cbn. by rewrite lookup_insert_ne. }
  assert (Hmem : is_Some (ent t (q, i))) by by eapply inv_mem.
  split.
  - apply ent_put_eq. rewrite Hent by done. unfold t1. rewrite ent_put_eq by done. eauto.
  - intros j Hj. rewrite ent_put_ne by (cbn; lia || congruence). unfold ent. rewrite Hfr.
    cbn [fst snd]. rewrite lookup_insert_eq. apply (zero_table_lookup j Hj).
  - intros q' j Hj Hn Hn2. rewrite ent_put_ne by (cbn; lia || done).
    rewrite Hent by done. apply ent_put_ne; cbn; lia || done.
  - unfold t3. by case_match.
  - unfold put, t3. by case_match.
  - unfold put, t3. by case_match.
  - intros q'. rewrite put_frames, Hfr, lookup_insert_is_Some.
    unfold t1. rewrite put_frames. destruct (decide (pfn = q')); naive_solver.
  - unfold put. cbn. rewrite Hph. intros q'. by apply phys_steps_free, rtc_once.
  - unfold put. cbn. by rewrite Hph.
  - done.
Qed.

(** A visitor that leaves the tree alone above the leaves of a well-formed tree; its
    effect on its own data is [vis]. *)
Definition quiet {O} (visit : option (epte_visitor O)) (gfn : Z) (vis : Z -> Z -> O -> O) : Prop :=
  forall T t l q o, ept_inv T t -> 1 <= l <= 3 -> T !! (l, pre l gfn) = Some q ->
    match visit with
    | Some f => f gfn l (q, idx l gfn) o t =
                Some (vis l (node_val (T !! (l - 1, pre (l - 1) gfn))) o, t)
    | None => vis l (node_val (T !! (l - 1, pre (l - 1) gfn))) o = o
    end.

(** Outcome of [ept_tree_get_next_table]: the table, or the reason why there is none. *)
Record next_post (create : bool) (l gfn : Z) T t (r : option Z) (k : hax_kmap_phys) T' t' : Prop := {
  np_grows : grows T t T' t';
  np_kmaps : et_kmaps t' = et_kmaps t + kcount k;
  np_walk : create = false -> T' = T /\ et_frames t' = et_frames t;
  np_table q : r = Some q -> T' !! (l - 1, pre (l - 1) gfn) = Some q;
  np_none : r = None ->
    k = None /\ if create then host_refused (et_phys t) (et_phys t')
                else maps_ok PH -> T !! (l - 1, pre (l - 1) gfn) = None;
}.

Section NextTable.
Context {O : Type} (visit : option (epte_visitor O)) (vis : Z -> Z -> O -> O) (gfn : Z).
Context (Hg : gfn_ok gfn) (Hvis : quiet visit gfn vis).

(** The part after the visitor. *)
Definition next_table_tail (l q : Z) (kmap : hax_kmap_phys) (create : bool) (opaque : O)
    : M st (option Z * hax_kmap_phys * O) :=
  v ← read_epte (q, idx l gfn);
  if ((epte_perm v =? HAX_EPT_PERM_NONE) && negb create)%bool
  then mret (None, kmap, opaque)
  else
    x ← cmpxchg64 0 INVALID_EPTE (q, idx l gfn);
    if x : bool then
      page ← ept_tree_alloc_page;
      match page with
      | None => write_epte (q, idx l gfn) 0;; mret (None, kmap, opaque)
      | Some pfn =>
          hax_assert (negb (pfn =? INVALID_PFN));;
          match freq_slot (l - 1) (pre (l - 1) gfn) with
          | Some i => modify (set_freq (<[i := Some pfn]>))
          | None => mret tt
          end;;
          write_epte (q, idx l gfn) (make_epte HAX_EPT_PERM_RWX 0 pfn);;
          mret (Some pfn, kmap, opaque)
      end
    else
      v ← read_epte (q, idx l gfn);
      if v =? INVALID_EPTE then mret (None, kmap, opaque)
      else if v =? 0 then mret (None, kmap, opaque)
      else
        match freq_slot (l - 1) (pre (l - 1) gfn) with
        | Some i =>
            fr ← gets et_freq;
            kva ← of_option (fr !! i);
            kva ← of_option kva;
            mret (Some kva, kmap, opaque)
        | None =>
            hax_assert (negb (epte_pfn v =? INVALID_PFN));;
            r ← hax_map_page_frame (epte_pfn v);
            mret (r.1, r.2, opaque)
        end.

Lemma next_table_run T t l q kmap create o :
  ept_inv T t -> 1 <= l <= 3 -> T !! (l, pre l gfn) = Some q ->
  ept_tree_get_next_table gfn l q kmap create visit o t =
  next_table_tail l q kmap create (vis l (node_val (T !! (l - 1, pre (l - 1) gfn))) o) t.
Proof using Hg Hvis.
  intros HI Hl Hq. unfold ept_tree_get_next_table. rewrite index_idx.
  rewrite assert_run; cycle 1.
  { unfold HAX_EPT_LEVEL_PT, HAX_EPT_LEVEL_PDPT. bool_lia. }
  specialize (Hvis T t l q o HI Hl Hq). rewrite (get_freq_page_slot _ _ Hg).
  destruct visit as [f|]; [by rewrite (bind_run _ _ _ _ _ Hvis)|].
  rewrite (bind_run _ _ _ o t) by done. by rewrite Hvis.
Qed.

(** The entry points to a table. *)
Lemma next_table_old T t l q q' create o :
  ept_inv T t -> 1 <= l <= 3 -> T !! (l, pre l gfn) = Some q ->
  T !! (l - 1, pre (l - 1) gfn) = Some q' ->
  exists r k t', next_table_tail l q None create o t = Some (r, k, o, t') /\
                 next_post create l gfn T t r k T t'.
Proof using Hg.
  intros HI Hl Hq Hq'. unfold next_table_tail.
  pose proof (inv_node _ _ HI l _ _ _ ltac:(lia) Hq (idx_range l gfn)) as He.
  rewrite <- pre_down, Hq' in He by lia.
  destruct (node_val_present _ _ _ _ HI Hq') as (Hp & Hf & Hz & Hi).
  rewrite (read_epte_run _ _ _ _ He), Hp. change (7 =? HAX_EPT_PERM_NONE) with false. cbn [andb].
  rewrite (cmpxchg_run _ _ _ _ _ _ He). rewrite (proj2 (Z.eqb_neq _ _) Hz).
  rewrite (read_epte_run _ _ _ _ He). rewrite (proj2 (Z.eqb_neq _ _) Hz), (proj2 (Z.eqb_neq _ _) Hi).
  destruct (freq_slot _ _) as [s|] eqn:Hs.
  - pose proof (inv_freq _ _ HI _ _ _ _ Hq' Hs) as Hfr. rewrite gets_run, Hfr.
    exists (Some q'), None, t. split; [done|].
    split; [by apply grows_refl|cbn; lia|done|by intros ? [= <-]|done].
  - rewrite Hf. destruct (inv_pfn _ _ HI _ _ Hq') as (_ & Hinv & _).
    rewrite assert_run by (apply negb_true_iff; lia).
    destruct (map_frame_run q' t) as (ok & p' & Hrun & Hok & Href & Hmono).
    pose proof (grows_phys _ _ _ HI Hmono) as Hgr.
    destruct ok; rewrite (bind_run _ _ _ _ _ Hrun).
    + do 3 eexists. split; [done|]. split; [|done..|by intros ? [= <-]|done].
      eapply grows_trans; [done|]. apply grows_kmaps, (gr_inv _ _ _ _ Hgr).
    + do 3 eexists. split; [done|]. split; [done|cbn; lia|done|done|]. intros _.
      split; [done|]. destruct create; [by apply Href|]. intros Hmok. by specialize (Hok Hmok).
Qed.

(** Without a table and without [create]. *)
Lemma next_table_absent T t l q o :
  ept_inv T t -> 1 <= l <= 3 -> T !! (l, pre l gfn) = Some q ->
  T !! (l - 1, pre (l - 1) gfn) = None ->
  exists r k t', next_table_tail l q None false o t = Some (r, k, o, t') /\
                 next_post false l gfn T t r k T t'.
Proof using Hg.
  intros HI Hl Hq Hq'. unfold next_table_tail.
  pose proof (inv_node _ _ HI l _ _ _ ltac:(lia) Hq (idx_range l gfn)) as He.
  rewrite <- pre_down, Hq' in He by lia. rewrite (read_epte_run _ _ _ _ He).
  exists None, None, t. split; [done|].
  split; [by apply grows_refl|cbn; lia|done|done|]. by intros _.
Qed.

(** Clearing an entry that was claimed restores the memory. *)
Lemma put_put_id e v w t : ent t e = Some v -> et_frames (put e v (put e w t)) = et_frames t.
Proof.
  unfold ent, put. cbn. intros H. apply map_eq. intros q.
  destruct (decide (q = e.1)) as [->|]; [|by rewrite !lookup_alter_ne].
  rewrite !lookup_alter_eq. destruct (et_frames t !! e.1) as [tbl|]; [cbn in *|done].
  by rewrite list_insert_insert_eq, list_insert_id.
Qed.

(** Caching the new table and linking it. *)
Lemma link_table_run (k : Z * Z) e pfn p' t (x : option Z * hax_kmap_phys * O) v :
  ent (set_page_list (cons pfn) (set_frames (insert pfn zero_table)
        (set_phys p' (put e INVALID_EPTE t)))) e = Some v ->
  (match freq_slot k.1 k.2 with
   | Some i => modify (set_freq (<[i := Some pfn]>))
   | None => mret tt
   end;;
   write_epte e (make_epte HAX_EPT_PERM_RWX 0 pfn);; mret x)
    (set_page_list (cons pfn) (set_frames (insert pfn zero_table)
      (set_phys p' (put e INVALID_EPTE t)))) = Some (x, created_table k e pfn p' t).
Proof.
  intros He. unfold created_table. destruct (freq_slot k.1 k.2) as [s|].
  - erewrite bind_run by reflexivity. erewrite write_epte_run; [reflexivity|exact He].
  - erewrite bind_run by reflexivity. erewrite write_epte_run; [reflexivity|exact He].
Qed.

(** Creating the table. *)
Lemma next_table_new T t l q o :
  ept_inv T t -> 1 <= l <= 3 -> T !! (l, pre l gfn) = Some q ->
  T !! (l - 1, pre (l - 1) gfn) = None ->
  exists r k T' t', next_table_tail l q None true o t = Some (r, k, o, t') /\
                    next_post true l gfn T t r k T' t'.
Proof using Hg.
  intros HI Hl Hq Hq'. unfold next_table_tail. pose proof (idx_range l gfn) as Hidx.
  pose proof (inv_node _ _ HI l _ _ _ ltac:(lia) Hq Hidx) as He.
  rewrite <- pre_down, Hq' in He by lia. cbn [node_val] in He.
  rewrite (read_epte_run _ _ _ _ He). cbn [negb]. rewrite andb_false_r.
  rewrite (cmpxchg_run _ _ _ _ _ _ He). cbn [Z.eqb].
  assert (He1 : forall w, ent (put (q, idx l gfn) w t) (q, idx l gfn) = Some w)
    by (intros; apply ent_put_eq; eauto).
  destruct (alloc_page_run (put (q, idx l gfn) INVALID_EPTE t)) as (r & p' & Hrun & Hok & Hmono & Hnew).
  rewrite (bind_run _ _ _ _ _ Hrun). destruct r as [pfn|].
  - destruct (Hnew pfn eq_refl) as (Hf & Hf' & Hpr & Hpi).
    rewrite assert_run by (apply negb_true_iff; lia).
    pose proof (created_adds T t (l - 1, pre (l - 1) gfn) q (idx l gfn) pfn p' _ HI Hq Hidx Hmono
                  (conj Hf (conj Hf' (conj Hpr Hpi)))) as Hat.
    exists (Some pfn), None, (<[(l - 1, pre (l - 1) gfn) := pfn]> T),
      (created_table (l - 1, pre (l - 1) gfn) (q, idx l gfn) pfn p' t). split.
    { apply (link_table_run (l - 1, pre (l - 1) gfn) _ _ _ _ _ INVALID_EPTE). rewrite <- (He1 INVALID_EPTE). unfold ent. cbn [fst snd].
      apply (f_equal (fun o => o ≫= _)). cbn. apply lookup_insert_ne. intros ->.
      by destruct (inv_pfn _ _ HI _ _ Hq) as (_ & _ & ?). }
    assert (Hl0 : 0 <= l) by lia. rewrite (pre_down l gfn Hl0) in Hat, Hq' |- *.
    split; [|unfold created_table, put; case_match; cbn; lia|done| |done].
    + split; [by eapply add_inv| |by eapply add_leaf|..].
      * by apply insert_subseteq.
      * unfold created_table, put. by case_match.
      * unfold created_table, put. case_match; by apply rtc_once.
    + intros ? [= <-]. rewrite (pre_down l) by lia. apply lookup_insert_eq.
  - rewrite (write_epte_run _ INVALID_EPTE) by apply (He1 INVALID_EPTE).
    do 4 eexists. split; [done|]. split; [|cbn; lia|done|done|].
    + split; [|done| |done|by apply rtc_once].
      * apply (inv_frame_rule _ t); try done; [apply (put_put_id _ _ _ _ He)|].
        intros q'. by apply phys_steps_free, rtc_once.
      * intros g. apply leaf_frame_rule. apply (put_put_id _ _ _ _ He).
    + intros _. split; [done|]. by apply Hok.
Qed.

(** The rule for [ept_tree_get_next_table]. *)
Lemma next_table_rule T t l q create o :
  ept_inv T t -> 1 <= l <= 3 -> T !! (l, pre l gfn) = Some q ->
  exists r k T' t',
    ept_tree_get_next_table gfn l q None create visit o t =
      Some (r, k, vis l (node_val (T !! (l - 1, pre (l - 1) gfn))) o, t') /\
    next_post create l gfn T t r k T' t'.
Proof using Hg Hvis.
  intros HI Hl Hq. rewrite (next_table_run T) by done.
  destruct (T !! (l - 1, pre (l - 1) gfn)) as [q'|] eqn:Hq'; [|destruct create].
  - edestruct (next_table_old T t l q q' create) as (r & k & t' & ? & ?); eauto.
    exists r, k, T, t'. eauto.
  - edestruct (next_table_new T t l q) as (r & k & T' & t' & ? & ?); eauto.
    exists r, k, T', t'. eauto.
  - edestruct (next_table_absent T t l q) as (r & k & t' & ? & ?); eauto.
    exists r, k, T, t'. eauto.
Qed.

(** ** The descent to the leaf table *)
(** The visitor's data after the non-leaf entries on the path. *)
Fixpoint vis_path T (n : nat) (o : O) : O :=
  match n with
  | 0%nat => o
  | S m =>
      let next := T !! (Z.of_nat m, pre (Z.of_nat m) gfn) in
      let o := vis (Z.of_nat n) (node_val next) o in
      match next with Some _ => vis_path T m o | None => o end
  end.

Record descend_post (create : bool) (n : nat) T t (kp : hax_kmap_phys) (o : O)
    (r : option Z) (k' kp' : hax_kmap_phys) (o' : O) T' t' : Prop := {
  dp_grows : grows T t T' t';
  dp_kmap : k' = None;
  dp_kmaps : et_kmaps t' + kcount kp = et_kmaps t + kcount kp';
  dp_walk : create = false -> T' = T /\ et_frames t' = et_frames t /\
                              (maps_ok PH -> o' = vis_path T n o);
  dp_table q : r = Some q -> T' !! (0, pre 0 gfn) = Some q;
  dp_none : r = None -> kp' = None /\
    if create then host_refused (et_phys t) (et_phys t')
    else maps_ok PH -> T !! (0, pre 0 gfn) = None;
}.

(** A missing table has no tables below it. *)
Lemma inv_below T t (n : nat) :
  ept_inv T t -> Z.of_nat n <= 3 -> T !! (Z.of_nat n, pre (Z.of_nat n) gfn) = None ->
  T !! (0, pre 0 gfn) = None.
Proof.
  intros HI. induction n as [|n IH]; intros Hn E; [done|]. apply IH; [lia|].
  destruct (T !! (Z.of_nat n, _)) eqn:E'; [|done].
  destruct (inv_above T t (Z.of_nat n) gfn) as [? ?]; [done|lia|by rewrite E'|].
  replace (Z.of_nat n + 1) with (Z.of_nat (S n)) in * by lia. congruence.
Qed.

Lemma descend_rule n : forall T t q kp create o,
  ept_inv T t -> Z.of_nat n <= 3 -> T !! (Z.of_nat n, pre (Z.of_nat n) gfn) = Some q ->
  exists r k' kp' o' T' t',
    descend n gfn (Z.of_nat n) q None kp create visit o t = Some (r, k', kp', o', t') /\
    descend_post create n T t kp o r k' kp' o' T' t'.
Proof using Hg Hvis.
  induction n as [|n IH]; intros T t q kp create o HI Hn Hq; cbn [descend].
  { exists (Some q), None, kp, o, T, t. split; [done|].
    split; [by apply grows_refl|done|lia|done|by intros ? [= <-]|done]. }
  destruct (next_table_rule T t (Z.of_nat (S n)) q create o HI ltac:(lia) Hq)
    as (r & k & T1 & t1 & Hrun & [Hgr Hk Hw Htab Hnone]).
  rewrite (bind_run _ _ _ _ _ Hrun), unmap_run, assert_run by done.
  set (t2 := set_kmaps _ t1). pose proof (grows_kmaps T1 t1 (fun n => n - kcount kp) (gr_inv _ _ _ _ Hgr)) as Hgk.
  replace (Z.of_nat (S n) - 1) with (Z.of_nat n) in * by lia.
  destruct r as [q1|].
  - destruct (IH T1 t2 q1 k create (vis (Z.of_nat (S n)) (node_val (T !! (Z.of_nat n, pre (Z.of_nat n) gfn))) o))
      as (r & k' & kp' & o' & T' & t' & Hrun' & Hpost); [apply Hgk|lia|by apply Htab|].
    exists r, k', kp', o', T', t'. split; [done|]. destruct Hpost as [Hgr' Hk' Hks Hw' Htab' Hnone'].
    split; [|done|cbn in *; lia| |done|].
    + by do 2 (eapply grows_trans; [done|]).
    + intros Hc. destruct (Hw Hc) as [-> Hf]. destruct (Hw' Hc) as (-> & Hf' & Ho).
      split; [done|split; [by rewrite Hf'|]]. intros Hm. rewrite (Ho Hm). cbn [vis_path].
      by rewrite (Htab q1 eq_refl).
    + intros Hr. destruct (Hnone' Hr) as [? Hm]. split; [done|]. destruct create.
      * eapply host_refused_before; [|done]. apply Hgr.
      * by destruct (Hw eq_refl) as [-> _].
  - destruct (Hnone eq_refl) as [-> Hm]. do 6 eexists. split; [done|].
    split; [by eapply grows_trans|done|cbn in *; lia| |done|].
    + intros Hc. destruct (Hw Hc) as [-> Hf]. split; [done|split; [done|]]. intros Hmok.
      rewrite Hc in Hm. specialize (Hm Hmok). cbn [vis_path]. by rewrite Hm.
    + intros _. split; [done|]. destruct create; [done|]. intros Hmok. specialize (Hm Hmok).
      eapply (inv_below _ t n); [done|lia|done].
Qed.
End NextTable.

(** ** The rules for the leaves *)
Lemma root_table_run {B} T t (k : option Z -> M st B) :
  ept_inv T t -> exists root, T !! (3, 0) = Some root /\
    (ept_tree_get_root_table ≫= k) t = k (Some root) t.
Proof.
  intros HI. destruct (inv_root _ _ HI) as (root & Hr & _). exists root. split; [done|].
  unfold ept_tree_get_root_table. pose proof (inv_freq _ _ HI 3 0 _ _ Hr eq_refl) as Hf.
  unfold mbind, M_bind. cbn. unfold gets. by rewrite Hf.
Qed.

Lemma quiet_none gfn : @quiet unit None gfn (fun _ _ o => o).
Proof. done. Qed.
End Inv.
