(* ===== verification/EptRules.v ===== *)
(** * Rules for the operations of the EPT tree

    Each operation of ept_tree.c on a tree that satisfies [ept_inv]: it runs without a
    failed assertion, keeps the invariant, and changes the leaves as specified.  The
    theorems of EptProps.v restate them for [hw_walk]. *)

From stdpp Require Import base numbers list gmap.
From Stdlib Require Import ZArith Lia.
From S2P Require Import Prelude HaxList Bitmap MemTypes EptTree EptProof.
#[local] Open Scope Z_scope.

Section Rules.
Context {PH : PhysHost} {PL : PhysHostLaws PH}.
Notation st := hax_ept_tree.
Implicit Types (t : st) (T : gmap (Z * Z) Z).

(** The descent of [ept_tree_create_entry] and [ept_tree_walk], from the root. *)
Lemma descend_root {O} (visit : option (epte_visitor O)) vis gfn T t create (o : O) root :
  gfn_ok gfn -> quiet visit gfn vis -> ept_inv T t -> T !! (3, 0) = Some root ->
  exists r k' kp' o' T' t',
    descend 3 gfn HAX_EPT_LEVEL_PML4 root None None create visit o t = Some (r, k', kp', o', t') /\
    descend_post vis gfn create 3 T t None o r k' kp' o' T' t'.
Proof.
  intros Hg Hq HI Hr. apply descend_rule; [done|done|done|lia|]. by rewrite pre_top.
Qed.

Lemma leaf_mem T t q gfn :
  ept_inv T t -> T !! (0, pre 0 gfn) = Some q -> ent t (q, idx 0 gfn) = Some (leaf T t gfn).
Proof.
  intros HI Hq. destruct (inv_mem _ _ HI _ _ _ Hq (idx_range 0 gfn)) as [v Hv].
  unfold leaf. by rewrite Hq, Hv.
Qed.

Lemma leaf_put T t q gfn v g :
  ept_inv T t -> T !! (0, pre 0 gfn) = Some q ->
  leaf T (put (q, idx 0 gfn) v t) g = if g =? gfn then v else leaf T t g.
Proof.
  intros HI Hq. rewrite (leaf_put_leaf _ _ _ _ _ _ _ HI Hq (idx_range 0 gfn)).
  by rewrite <- pre_leaf.
Qed.

(** ** Creating one entry *)
Lemma create_entry_rule T t gfn value :
  ept_inv T t -> gfn_ok gfn -> epte_perm value <> 0 ->
  exists r T' t',
    ept_tree_create_entry gfn value t = Some (r, t') /\ ept_inv T' t' /\
    et_invept_pending t' = et_invept_pending t /\
    (forall g, g <> gfn -> leaf T' t' g = leaf T t g) /\
    (r = 0 /\ (leaf T t gfn = 0 \/ leaf T t gfn = value) /\ leaf T' t' gfn = value /\
       et_kmaps t' = et_kmaps t \/
     r = - EEXIST /\ leaf T t gfn <> 0 /\ leaf T t gfn <> value /\
       leaf T' t' gfn = leaf T t gfn \/
     r = - ENOMEM /\ host_refused (et_phys t) (et_phys t') /\ leaf T' t' gfn = leaf T t gfn /\
       et_kmaps t' = et_kmaps t).
Proof.
  intros HI Hg Hp. unfold ept_tree_create_entry.
  rewrite (proj2 (Z.eqb_neq _ HAX_EPT_PERM_NONE) Hp).
  edestruct (root_table_run (B := Z) T t) as (root & Hr & ->); [done|].
  rewrite (of_option_run _ root) by done.
  destruct (descend_root None _ gfn T t true tt root Hg (quiet_none gfn) HI Hr)
    as (r & k' & kp' & o' & T' & t1 & Hrun & [[HI' Hsub Hleaf Hpend _] -> Hks _ Htab Hnone]).
  rewrite (bind_run _ _ _ _ _ Hrun). cbn [kcount] in Hks. destruct r as [q|].
  - specialize (Htab q eq_refl). rewrite get_pt_index_idx.
    pose proof (leaf_mem _ _ _ _ HI' Htab) as Hm.
    rewrite (cmpxchg_run _ _ _ _ _ _ Hm). destruct (Z.eqb_spec (leaf T' t1 gfn) 0) as [Hz|Hz].
    + rewrite unmap_run, assert_run by done. exists 0, T'. eexists. split; [done|].
      assert (HI2 : ept_inv T' (put (q, idx 0 gfn) value t1))
        by (eapply inv_put_leaf; [done|done|apply idx_range|by right]).
      split; [by apply (inv_frame_rule _ (put (q, idx 0 gfn) value t1))|].
      split; [done|]. split; [|left; split_and!; [done|left; congruence| |cbn; lia]].
      * intros g Hne. rewrite <- Hleaf. rewrite (leaf_frame_rule _ (put (q, idx 0 gfn) value t1)) by done.
        rewrite leaf_put by done. by rewrite (proj2 (Z.eqb_neq _ _) Hne).
      * rewrite (leaf_frame_rule _ (put (q, idx 0 gfn) value t1)) by done.
        rewrite leaf_put by done. by rewrite Z.eqb_refl.
    + rewrite (read_epte_run _ _ _ _ Hm). rewrite Hleaf in *.
      destruct (Z.eqb_spec (leaf T t gfn) value) as [Hv|Hv]; cbn [negb]; rewrite unmap_run.
      * rewrite assert_run by done. exists 0, T'. eexists. split; [done|].
        split; [by apply (inv_frame_rule _ t1)|]. split; [done|]. split; [intros; apply Hleaf|].
        left. split_and!; [done|by right|by rewrite <- Hv; apply Hleaf|cbn; lia].
      * exists (- EEXIST), T'. eexists. split; [done|].
        split; [by apply (inv_frame_rule _ t1)|]. split; [done|]. split; [intros; apply Hleaf|].
        right. left. split_and!; [done|done|done|apply Hleaf].
  - destruct (Hnone eq_refl) as [-> Hm]. exists (- ENOMEM), T', t1. split_and!; [done..|].
    right. right. split_and!; [done|done|done|cbn in *; lia].
Qed.

(** ** Walks *)
Lemma quiet_get_pte gfn : quiet (Some get_pte) gfn (fun _ _ o => o).
Proof.
  intros T t l q o _ Hl _. unfold get_pte, HAX_EPT_LEVEL_PT.
  by rewrite (proj2 (Z.ltb_lt 0 l)) by lia.
Qed.

Lemma quiet_invalidate_pte gfn : quiet (Some invalidate_pte) gfn (fun _ _ o => o).
Proof.
  intros T t l q o _ Hl _. unfold invalidate_pte, HAX_EPT_LEVEL_PT.
  by rewrite (proj2 (Z.ltb_lt 0 l)) by lia.
Qed.

Lemma vis_path_id {O} gfn T n (o : O) : vis_path (fun _ _ o => o) gfn T n o = o.
Proof. induction n as [|n IH]; cbn; [done|]. by case_match. Qed.

(** On a host that can map every frame, a walk visits the leaf entry exactly when its
    table exists. *)
Lemma walk_rule {O} (visit : epte_visitor O) vis gfn T t o :
  gfn_ok gfn -> quiet (Some visit) gfn vis -> ept_inv T t -> maps_ok PH ->
  exists kp t1,
    grows T t T t1 /\ et_frames t1 = et_frames t /\ et_kmaps t1 = et_kmaps t + kcount kp /\
    ept_tree_walk gfn visit o t =
      match T !! (0, pre 0 gfn) with
      | Some q => (o ← visit gfn HAX_EPT_LEVEL_PT (q, idx 0 gfn) (vis_path vis gfn T 3 o);
                   ret ← hax_unmap_page_frame kp; hax_assert (ret =? 0);; mret o) t1
      | None => Some (vis_path vis gfn T 3 o, set_kmaps (fun n => n - kcount kp) t1)
      end.
Proof.
  intros Hg Hq HI Hmok. unfold ept_tree_walk.
  edestruct (root_table_run (B := O) T t) as (root & Hr & ->); [done|].
  rewrite (of_option_run _ root) by done.
  destruct (descend_root (Some visit) _ gfn T t false o root Hg Hq HI Hr)
    as (r & k' & kp' & o' & T' & t1 & Hrun & [Hgr -> Hks Hw Htab Hnone]).
  rewrite (bind_run _ _ _ _ _ Hrun). destruct (Hw eq_refl) as (-> & Hf & Ho).
  rewrite (Ho Hmok). exists kp', t1. split_and!; [done|done|cbn in *; lia|].
  destruct r as [q|].
  - rewrite (Htab q eq_refl), get_pt_index_idx. done.
  - destruct (Hnone eq_refl) as [-> ->]; [|done].
    unfold set_kmaps. cbn [kcount]. rewrite Z.sub_0_r. by destruct t1.
Qed.

Lemma get_entry_rule T t gfn :
  gfn_ok gfn -> ept_inv T t -> maps_ok PH ->
  exists t', ept_tree_get_entry gfn t = Some (leaf T t gfn, t') /\ grows T t T t' /\
             et_kmaps t' = et_kmaps t.
Proof.
  intros Hg HI Hmok. unfold ept_tree_get_entry.
  destruct (walk_rule get_pte _ gfn T t 0 Hg (quiet_get_pte gfn) HI Hmok)
    as (kp & t1 & Hgr & Hf & Hk & ->). rewrite vis_path_id.
  exists (set_kmaps (fun n => n - kcount kp) t1).
  assert (grows T t T (set_kmaps (fun n => n - kcount kp) t1)).
  { eapply grows_trans; [done|]. apply grows_kmaps, Hgr. }
  split; [|split; [done|cbn; lia]].
  destruct (T !! (0, pre 0 gfn)) as [q|] eqn:Hq; [|by unfold leaf; rewrite Hq].
  pose proof (leaf_mem _ _ _ _ (gr_inv _ _ _ _ Hgr) Hq) as Hm.
  change (get_pte gfn HAX_EPT_LEVEL_PT (q, idx 0 gfn) 0) with (read_epte (q, idx 0 gfn)).
  rewrite (read_epte_run _ _ _ _ Hm), unmap_run, assert_run by done.
  by rewrite (gr_leaf _ _ _ _ Hgr).
Qed.

(** ** Invalidation *)
Lemma invalidate_pte_run gfn p m t v : ent t p = Some v ->
  invalidate_pte gfn HAX_EPT_LEVEL_PT p m t =
  Some (negb (epte_perm v =? 0), if epte_perm v =? 0 then t else put p 0 t).
Proof.
  intros Hv. unfold invalidate_pte. rewrite Z.ltb_irrefl, (read_epte_run _ _ _ _ Hv).
  change HAX_EPT_PERM_NONE with 0. case_match; [done|]. by rewrite (write_epte_run _ _ _ _ _ Hv).
Qed.

Lemma invalidate_entry_rule T t gfn :
  gfn_ok gfn -> ept_inv T t -> maps_ok PH ->
  exists t', ept_tree_invalidate_entry gfn t = Some (if leaf T t gfn =? 0 then 0 else 1, t') /\
    ept_inv T t' /\ (forall g, leaf T t' g = if g =? gfn then 0 else leaf T t g) /\
    et_kmaps t' = et_kmaps t /\ et_invept_pending t' = et_invept_pending t.
Proof.
  intros Hg HI Hmok. unfold ept_tree_invalidate_entry.
  destruct (walk_rule invalidate_pte _ gfn T t false Hg (quiet_invalidate_pte gfn) HI Hmok)
    as (kp & t1 & [HI1 _ Hl1 Hp1 _] & Hf & Hk & Hw). rewrite vis_path_id in Hw.
  rewrite <- (Hl1 gfn). destruct (T !! (0, pre 0 gfn)) as [q|] eqn:Hq.
  - pose proof (leaf_mem _ _ _ _ HI1 Hq) as Hm.
    rewrite (bind_run _ _ _ _ _ (invalidate_pte_run gfn _ _ _ _ Hm)) in Hw.
    destruct (inv_leaf _ _ HI1 _ _ _ _ Hq (idx_range 0 gfn) Hm) as [Hz|Hz].
    + rewrite Hz in *. change (epte_perm 0 =? 0) with true in Hw. cbn [negb] in Hw.
      rewrite unmap_run, assert_run in Hw by done.
      rewrite (bind_run _ _ _ _ _ Hw). eexists. split; [done|].
      split; [by apply (inv_frame_rule _ t1)|]. split; [|split; [cbn; lia|done]].
      intros g. rewrite (leaf_frame_rule _ t1) by done. rewrite Hl1.
      destruct (Z.eqb_spec g gfn) as [->|]; [|done]. by rewrite <- Hl1.
    + assert (Hnz : leaf T t1 gfn <> 0) by (intros E; by rewrite E in Hz).
      rewrite (proj2 (Z.eqb_neq _ _) Hz) in Hw. cbn [negb] in Hw.
      rewrite unmap_run, assert_run in Hw by done.
      rewrite (bind_run _ _ _ _ _ Hw). rewrite (proj2 (Z.eqb_neq _ _) Hnz).
      assert (HI2 : ept_inv T (put (q, idx 0 gfn) 0 t1))
        by (eapply inv_put_leaf; [done|done|apply idx_range|by left]).
      eexists. split; [done|].
      split; [by apply (inv_frame_rule _ (put (q, idx 0 gfn) 0 t1))|].
      split; [|split; [cbn; lia|done]].
      intros g. rewrite (leaf_frame_rule _ (put (q, idx 0 gfn) 0 t1)) by done.
      rewrite leaf_put by done. by rewrite Hl1.
  - assert (Hz : leaf T t1 gfn = 0) by (unfold leaf; by rewrite Hq). rewrite Hz.
    rewrite (bind_run _ _ _ _ _ Hw). eexists. split; [done|].
    split; [by apply (inv_frame_rule _ t1)|]. split; [|split; [cbn; lia|done]].
    intros g. rewrite (leaf_frame_rule _ t1) by done. rewrite Hl1.
    destruct (Z.eqb_spec g gfn) as [->|]; [|done]. by rewrite <- Hl1.
Qed.

(** The number of frames among the [n] from [a] on that satisfy [w]. *)
Fixpoint count (w : Z -> bool) (n : nat) (a : Z) : Z :=
  match n with
  | O => 0
  | S n => (if w a then 1 else 0) + count w n (a + 1)
  end.

Lemma count_range w n a : 0 <= count w n a <= Z.of_nat n.
Proof. revert a. induction n as [|n IH]; intros a; cbn -[Z.of_nat]; [lia|]. specialize (IH (a + 1)). case_match; lia. Qed.

Lemma count_ext w w' n a :
  (forall g, a <= g < a + Z.of_nat n -> w g = w' g) -> count w n a = count w' n a.
Proof.
  revert a. induction n as [|n IH]; intros a H; cbn; [done|].
  rewrite (H a) by lia. f_equal. apply IH. intros g Hg. apply H. lia.
Qed.

Lemma count_app w n m a : count w (n + m) a = count w n a + count w m (a + Z.of_nat n).
Proof.
  revert a. induction n as [|n IH]; intros a; cbn [count Nat.add].
  { by rewrite Z.add_0_r. }
  rewrite IH. replace (a + 1 + Z.of_nat n) with (a + Z.of_nat (S n)) by lia. lia.
Qed.

Lemma count_zero w n a : count w n a = 0 -> forall g, a <= g < a + Z.of_nat n -> w g = false.
Proof.
  revert a. induction n as [|n IH]; intros a Hc g Hg; cbn -[Z.of_nat] in *; [lia|].
  pose proof (count_range w n (a + 1)). destruct (w a) eqn:E; [lia|].
  destruct (decide (g = a)) as [->|]; [done|]. apply (IH (a + 1)); lia.
Qed.

Definition present (v : Z) : bool := negb (v =? 0).

Lemma invalidate_loop_rule n : forall T t gfn c,
  ept_inv T t -> maps_ok PH -> 0 <= gfn -> gfn + Z.of_nat n <= 2 ^ 36 ->
  0 <= c -> c + Z.of_nat n < 2 ^ 31 ->
  exists t', invalidate_loop n gfn c t =
      Some (c + count (fun g => present (leaf T t g)) n gfn, t') /\
    ept_inv T t' /\
    (forall g, leaf T t' g = if (gfn <=? g) && (g <? gfn + Z.of_nat n) then 0 else leaf T t g) /\
    et_kmaps t' = et_kmaps t /\ et_invept_pending t' = et_invept_pending t.
Proof.
  induction n as [|n IH]; intros T t gfn c HI Hmok Hg0 Hg Hc0 Hc; cbn [invalidate_loop count].
  { exists t. rewrite Z.add_0_r. split_and!; [done|done| |done|done]. intros g.
    bool_lia. }
  destruct (invalidate_entry_rule T t gfn) as (t1 & Hrun & HI1 & Hl1 & Hk1 & Hp1);
    [unfold gfn_ok; lia|done|done|].
  rewrite (bind_run _ _ _ _ _ Hrun), assert_run by by destruct (_ =? 0).
  assert (Hb : 0 <= (if leaf T t gfn =? 0 then 0 else 1) <= 1) by (case_match; lia).
  rewrite s32_small by lia.
  edestruct (IH T t1 (gfn + 1)) as (t' & -> & HI' & Hl' & Hk' & Hp');
    [done|done|lia|lia| |..|].
  3: { exists t'. split_and!; [|done| |congruence|congruence].
       - do 2 f_equal. unfold present at 2. destruct (leaf T t gfn =? 0); cbn [negb];
           rewrite (count_ext _ (fun g => present (leaf T t g))); try lia;
           intros g Hgr; rewrite Hl1; by rewrite (proj2 (Z.eqb_neq _ _)) by lia.
       - intros g. rewrite Hl', Hl1. bool_lia. }
  all: lia.
Qed.

Lemma invalidate_entries_rule T t start npages :
  ept_inv T t -> maps_ok PH -> 0 <= start -> 0 <= npages < 2 ^ 31 -> start + npages <= 2 ^ 36 ->
  let c := count (fun g => present (leaf T t g)) (Z.to_nat npages) start in
  exists t', ept_tree_invalidate_entries start npages t = Some (c, t') /\
    ept_inv T t' /\
    (forall g, leaf T t' g = if (start <=? g) && (g <? start + npages) then 0 else leaf T t g) /\
    et_kmaps t' = et_kmaps t /\
    et_invept_pending t' = (et_invept_pending t || negb (c =? 0))%bool.
Proof.
  intros HI Hmok Hs Hn Hb c. unfold ept_tree_invalidate_entries.
  rewrite u64_small by lia. replace (start + npages - start) with npages by lia.
  destruct (invalidate_loop_rule (Z.to_nat npages) T t start 0) as (t' & Hrun & HI' & Hl' & Hk & Hp);
    [done|done|lia..|].
  rewrite (bind_run _ _ _ _ _ Hrun). rewrite Z.add_0_l. fold c.
  rewrite Z2Nat.id in Hl' by lia. destruct (c =? 0); cbn [negb].
  - exists t'. rewrite orb_false_r. split_and!; done.
  - eexists. split; [done|]. rewrite orb_true_r. split_and!; [|done..].
    by apply (inv_frame_rule _ t').
Qed.

(** ** Creating the entries of a range *)
(** View [w'] is [w] with the absent entries of [[a, b)] set to [val]. *)
Definition fills (val : Z -> Z) (a b : Z) (w w' : Z -> Z) : Prop :=
  forall g, w' g = if ((a <=? g) && (g <? b) && (w g =? 0))%bool then val g else w g.

(** No entry of the range has another value. *)
Definition fillable (val : Z -> Z) (a b : Z) (w : Z -> Z) : Prop :=
  forall g, a <= g < b -> w g = 0 \/ w g = val g.

Lemma fills_nil val a w w' : (forall g, w' g = w g) -> fills val a a w w'.
Proof. intros H g. rewrite H. bool_lia. Qed.

Lemma fills_refl val a w : fills val a a w w.
Proof. by apply fills_nil. Qed.

Lemma fills_trans val a b c w1 w2 w3 :
  a <= b <= c -> fills val a b w1 w2 -> fills val b c w2 w3 -> fills val a c w1 w3.
Proof. intros Hab H1 H2 g. rewrite H2, H1. bool_lia. Qed.

Lemma fills_out val a b w w' g : fills val a b w w' -> ~ (a <= g < b) -> w' g = w g.
Proof. intros H Hg. rewrite H. bool_lia. Qed.

Lemma fillable_trans val a b c w1 w2 :
  fills val a b w1 w2 -> fillable val a b w1 -> fillable val b c w2 -> fillable val a c w1.
Proof.
  intros H H1 H2 g Hg. destruct (Z.lt_ge_cases g b); [apply H1; lia|].
  rewrite <- (fills_out _ _ _ _ _ g H) by lia. apply H2. lia.
Qed.

Section CreateEntries.
Context (pfn_at : Z -> Z) (perm : Z).
Context (Hperm : 0 < perm < 8) (Hpfn : forall o, 0 <= pfn_at o < 2 ^ 40 /\ pfn_at o <> INVALID_PFN).

(** The entry for a frame, where frame [a] is at byte offset [o] of the chunk. *)
Definition pte_at (a o g : Z) : Z := make_epte perm HAX_EPT_MEMTYPE_WB (pfn_at (o + (g - a) * 4096)).

Lemma pte_at_shift a o n g : pte_at (a + n) (o + n * 4096) g = pte_at a o g.
Proof. unfold pte_at. do 2 f_equal. lia. Qed.

Lemma pte_at_present a o g : pte_at a o g <> 0 /\ epte_perm (pte_at a o g) <> 0.
Proof using Hperm Hpfn.
  unfold pte_at. destruct (Hpfn (o + (g - a) * 4096)). unfold HAX_EPT_MEMTYPE_WB.
  rewrite make_epte_perm by lia. split; [|lia]. apply make_epte_present; lia.
Qed.

(** Outcome of filling [[a, b)] where [a] is at offset [o]: the number of entries
    created, or the first entry with another value. *)
Definition fill_post a o b created (w w' : Z -> Z) (r : Z + Z) : Prop :=
  match r with
  | inr c => fills (pte_at a o) a b w w' /\ fillable (pte_at a o) a b w /\
             c = created + count (fun g => negb (present (w g))) (Z.to_nat (b - a)) a
  | inl e => e = - EEXIST /\ exists m, a <= m < b /\ fills (pte_at a o) a m w w' /\
             fillable (pte_at a o) a m w /\ w m <> 0 /\ w m <> pte_at a o m
  end.

(** The first frame is done: the rest follows. *)
Lemma fill_post_cons a o b created created' w w1 w' r :
  a < b -> w a = 0 \/ w a = pte_at a o a ->
  (forall g, w1 g = if ((g =? a) && (w g =? 0))%bool then pte_at a o g else w g) ->
  created' = created + (if present (w a) then 0 else 1) ->
  fill_post (a + 1) (o + 4096) b created' w1 w' r -> fill_post a o b created w w' r.
Proof.
  intros Hab Ha Hw1 Hc. assert (Hf1 : fills (pte_at a o) a (a + 1) w w1).
  { intros g. rewrite Hw1. bool_lia. }
  assert (Ho1 : fillable (pte_at a o) a (a + 1) w).
  { intros g Hg. assert (g = a) as -> by lia. done. }
  assert (Hv : forall g, pte_at (a + 1) (o + 4096) g = pte_at a o g).
  { intros g. pose proof (pte_at_shift a o 1 g) as E. by rewrite Z.mul_1_l in E. }
  assert (Hfs : forall c w w', fills (pte_at (a + 1) (o + 4096)) (a + 1) c w w' ->
                          fills (pte_at a o) (a + 1) c w w').
  { intros c v v' H g. rewrite H. by rewrite Hv. }
  assert (Hos : forall c w, fillable (pte_at (a + 1) (o + 4096)) (a + 1) c w ->
                          fillable (pte_at a o) (a + 1) c w).
  { intros c v H g Hg. rewrite <- Hv. by apply H. }
  destruct r as [e|c]; cbn.
  - intros (-> & m & Hm & Hf & Ho & Hn0 & Hn). split; [done|]. exists m.
    rewrite Hv in Hn. rewrite Hw1 in Hn0, Hn. split; [lia|].
    split; [eapply (fills_trans _ _ (a + 1)); [lia|done|by apply Hfs]|].
    split; [by eapply fillable_trans; [..|apply Hos]|].
    by rewrite (proj2 (Z.eqb_neq m a)) in Hn0, Hn by lia.
  - intros (Hf & Ho & ->). split; [eapply (fills_trans _ _ (a + 1)); [lia|done|by apply Hfs]|].
    split; [by eapply fillable_trans; [..|apply Hos]|].
    replace (Z.to_nat (b - a)) with (S (Z.to_nat (b - (a + 1)))) by lia. cbn [count].
    rewrite (count_ext _ (fun g => negb (present (w g)))).
    + rewrite Hc. destruct (present (w a)); cbn; lia.
    + intros g Hg. rewrite (fills_out _ _ _ _ _ g Hf1) by lia. done.
Qed.

Lemma fill_pt_rule n : forall T t pt p i o created,
  ept_inv T t -> T !! (0, p) = Some pt -> 0 <= i -> i + Z.of_nat n <= 512 ->
  0 <= o -> o + Z.of_nat n * 4096 < 2 ^ 64 ->
  0 <= created -> created + Z.of_nat n < 2 ^ 31 ->
  let a := p * 512 + i in
  exists r t', fill_pt pfn_at n pt i perm o created t = Some (r, t') /\ ept_inv T t' /\
    fill_post a o (a + Z.of_nat n) created (leaf T t) (leaf T t') r /\
    et_kmaps t' = et_kmaps t /\ et_invept_pending t' = et_invept_pending t /\
    et_phys t' = et_phys t.
Proof using Hperm Hpfn.
  induction n as [|n IH]; intros T t pt p i o created HI Hpt Hi Hin Ho Hon Hc0 Hc a; cbn [fill_pt].
  { exists (inr created), t. split_and!; [done|done| |done|done|done]. rewrite Z.add_0_r.
    split; [apply fills_refl|]. split; [intros g Hg; lia|]. by rewrite Z.sub_diag, Z.add_0_r. }
  rewrite assert_run by (apply negb_true_iff, Z.eqb_neq, Hpfn).
  assert (Hv : make_epte perm HAX_EPT_MEMTYPE_WB (pfn_at o) = pte_at a o a).
  { unfold pte_at. by rewrite Z.sub_diag, Z.add_0_r. }
  rewrite Hv. destruct (pte_at_present a o a) as [Hnz Hnp].
  assert (Hm : ent t (pt, i) = Some (leaf T t a)).
  { destruct (inv_mem _ _ HI _ _ i Hpt ltac:(lia)) as [v Hm]. unfold leaf.
    pose proof (pre_leaf a). pose proof (idx_range 0 a).
    assert (pre 0 a = p /\ idx 0 a = i) as [-> ->] by (unfold a in *; lia). by rewrite Hpt, Hm. }
  rewrite (cmpxchg_run _ _ _ _ _ _ Hm). change PAGE_SIZE_4K with 4096.
  rewrite u64_small, s32_small by lia.
  assert (Ea : p * 512 + (i + 1) = a + 1) by (unfold a; lia).
  assert (Eb : a + 1 + Z.of_nat n = a + Z.of_nat (S n)) by lia.
  destruct (Z.eqb_spec (leaf T t a) 0) as [Hz|Hz].
  - set (t1 := put (pt, i) (pte_at a o a) t).
    assert (HI1 : ept_inv T t1) by (eapply inv_put_leaf; [done|done|lia|by right]).
    destruct (IH T t1 pt p (i + 1) (o + 4096) (created + 1))
      as (r & t' & Hrun & HI' & Hpost & Hk & Hp & Hph); [done..|lia|lia|lia|lia|lia|lia|].
    exists r, t'. split_and!; [done|done| |done|done|done]. rewrite Ea, Eb in Hpost.
    apply (fill_post_cons a o _ created (created + 1) _ (leaf T t1)); [lia|by left| |by rewrite Hz|done].
    intros g. unfold t1. rewrite (leaf_put_leaf T t p) by (done || lia). fold a.
    destruct (Z.eqb_spec g a) as [->|]; [|done]. by rewrite Hz.
  - rewrite (read_epte_run _ _ _ _ Hm). destruct (Z.eqb_spec (leaf T t a) (pte_at a o a)) as [Hs|Hs]; cbn [negb].
    + destruct (IH T t pt p (i + 1) (o + 4096) created)
        as (r & t' & Hrun & HI' & Hpost & Hk & Hp & Hph); [done..|lia|lia|lia|lia|lia|lia|].
      exists r, t'. split_and!; [done|done| |done|done|done]. rewrite Ea, Eb in Hpost.
      apply (fill_post_cons a o _ created created _ (leaf T t)); [lia|by right| | |done].
      * intros g. destruct (Z.eqb_spec g a) as [->|]; [|done].
        by rewrite (proj2 (Z.eqb_neq _ _) Hz).
      * unfold present. rewrite (proj2 (Z.eqb_neq _ _) Hz). cbn. lia.
    + exists (inl (- EEXIST)), t. split_and!; [done|done| |done|done|done]. split; [done|].
      exists a. split; [lia|]. split; [apply fills_refl|]. split; [intros g Hg; lia|done].
Qed.

(** *** The tables of the next frame *)
Definition label_ok (l : create_label) (gfn : Z) T : Prop :=
  match l with
  | next_pdpt => True
  | next_pd pdpt _ => T !! (2, pre 2 gfn) = Some pdpt
  | next_pt pdpt _ pd _ => T !! (2, pre 2 gfn) = Some pdpt /\ T !! (1, pre 1 gfn) = Some pd
  end.

(** The mappings a label holds. *)
Definition label_kmaps (l : create_label) : Z :=
  match l with
  | next_pdpt => 0
  | next_pd _ k => kcount k
  | next_pt _ k2 _ k1 => kcount k2 + kcount k1
  end.

Definition table_post (l gfn held : Z) T t (r : Z + Z * hax_kmap_phys) T' t' : Prop :=
  grows T t T' t' /\
  match r with
  | inl e => e = - ENOMEM /\ host_refused (et_phys t) (et_phys t') /\
        et_kmaps t' = et_kmaps t - held
  | inr (q, k) => T' !! (l, pre l gfn) = Some q /\ et_kmaps t' = et_kmaps t + kcount k
  end.

Lemma next_create T t l q gfn :
  gfn_ok gfn -> ept_inv T t -> 1 <= l <= 3 -> T !! (l, pre l gfn) = Some q ->
  exists r k T' t',
    ept_tree_get_next_table (O := unit) gfn l q None true None tt t = Some (r, k, tt, t') /\
    next_post true l gfn T t r k T' t'.
Proof. intros Hg HI Hl Hq. by apply (next_table_rule None (fun _ _ o => o) gfn). Qed.

Lemma unmap2_run {B} k1 k2 t (f : unit -> M st B) :
  (unmap2 k1 k2 ≫= f) t = f tt (set_kmaps (fun n => n - kcount k2) (set_kmaps (fun n => n - kcount k1) t)).
Proof. unfold unmap2. unfold mbind at 1, M_bind at 1. by rewrite unmap_run, unmap_run. Qed.

Lemma get_pdpt_rule T t gfn pml4 l :
  gfn_ok gfn -> ept_inv T t -> T !! (3, 0) = Some pml4 -> l = next_pdpt ->
  exists r T' t', get_pdpt gfn pml4 l t = Some (r, t') /\ table_post 2 gfn 0 T t r T' t'.
Proof.
  intros Hg HI Hr ->. rewrite <- (pre_top gfn Hg) in Hr.
  destruct (next_create T t 3 pml4 gfn Hg HI ltac:(lia) Hr) as (r & k & T' & t' & Hrun & [Hgr Hks _ Htab Hnone]).
  unfold get_pdpt. rewrite (bind_run _ _ _ _ _ Hrun). destruct r as [q|].
  - exists (inr (q, k)), T', t'. split; [done|]. split; [done|]. split; [by apply Htab|done].
  - destruct (Hnone eq_refl) as [-> Hn]. exists (inl (- ENOMEM)), T', t'. split; [done|].
    split; [done|]. split_and!; [done|done|cbn in *; lia].
Qed.

Lemma get_pd_rule T t gfn pdpt k2 l :
  gfn_ok gfn -> ept_inv T t -> T !! (2, pre 2 gfn) = Some pdpt ->
  match l with next_pt _ _ _ _ => False | _ => True end ->
  exists r T' t', get_pd gfn pdpt k2 l t = Some (r, t') /\ table_post 1 gfn (kcount k2) T t r T' t'.
Proof.
  intros Hg HI Hr Hl.
  destruct (next_create T t 2 pdpt gfn Hg HI ltac:(lia) Hr) as (r & k & T' & t' & Hrun & [Hgr Hks _ Htab Hnone]).
  assert (E : exists rr tt', get_pd gfn pdpt k2 l t = Some (rr, tt') /\ match r with
    | Some q => rr = inr (q, k) /\ tt' = t'
    | None => rr = inl (- ENOMEM) /\ tt' = set_kmaps (fun n => n - kcount k2) t' end).
  { destruct l; try done; unfold get_pd; rewrite (bind_run _ _ _ _ _ Hrun);
      (destruct r; [by do 2 eexists|rewrite unmap_run; by do 2 eexists]). }
  destruct E as (rr & t2 & Hrun2 & Hr2). exists rr, T', t2. split; [done|].
  destruct r as [q|]; destruct Hr2 as [-> ->].
  - split; [done|]. split; [by apply Htab|done].
  - destruct (Hnone eq_refl) as [-> Hn]. split.
    + eapply grows_trans; [done|]. apply grows_kmaps, Hgr.
    + split_and!; [done|done|cbn in *; lia].
Qed.

Lemma get_pt_rule T t gfn pd k1 k2 :
  gfn_ok gfn -> ept_inv T t -> T !! (1, pre 1 gfn) = Some pd ->
  exists r T' t', get_pt gfn pd k1 k2 t = Some (r, t') /\
    table_post 0 gfn (kcount k1 + kcount k2) T t r T' t'.
Proof.
  intros Hg HI Hr.
  destruct (next_create T t 1 pd gfn Hg HI ltac:(lia) Hr) as (r & k & T' & t' & Hrun & [Hgr Hks _ Htab Hnone]).
  unfold get_pt. rewrite (bind_run _ _ _ _ _ Hrun). destruct r as [q|].
  - exists (inr (q, k)), T', t'. split; [done|]. split; [done|]. split; [by apply Htab|done].
  - destruct (Hnone eq_refl) as [-> Hn]. rewrite unmap2_run.
    exists (inl (- ENOMEM)), T'. eexists. split; [done|]. split.
    + eapply grows_trans; [done|]. eapply grows_trans; [apply grows_kmaps, Hgr|].
      apply grows_kmaps. by apply (inv_frame_rule _ t'), Hgr.
    + split_and!; [done|done|cbn in *; lia].
Qed.

(** What a label holds at the PD level. *)
Definition held_pd (l : create_label) : Z :=
  match l with next_pt _ _ _ k1 => kcount k1 | _ => 0 end.
Definition pd_ok (l : create_label) (gfn : Z) T : Prop :=
  match l with next_pt _ _ pd _ => T !! (1, pre 1 gfn) = Some pd | _ => True end.

Lemma pdpt_step T t gfn pml4 l :
  gfn_ok gfn -> ept_inv T t -> T !! (3, 0) = Some pml4 -> label_ok l gfn T ->
  exists r T' t', get_pdpt gfn pml4 l t = Some (r, t') /\ grows T t T' t' /\
    match r with
    | inl e => e = - ENOMEM /\ host_refused (et_phys t) (et_phys t') /\
        et_kmaps t' = et_kmaps t - label_kmaps l
    | inr (pdpt, k2) => T' !! (2, pre 2 gfn) = Some pdpt /\ pd_ok l gfn T' /\
        et_kmaps t' - kcount k2 - held_pd l = et_kmaps t - label_kmaps l
    end.
Proof.
  intros Hg HI Hr Hl. destruct l as [|pdpt k|pdpt k pd k1].
  - destruct (get_pdpt_rule T t gfn pml4 next_pdpt) as (r & T' & t' & ? & ? & Hp); [done..|].
    exists r, T', t'. split_and!; [done..|]. destruct r as [e|[q k]]; cbn.
    + destruct Hp as (? & ? & ?). split_and!; [done|done|cbn; lia].
    + destruct Hp. split_and!; [done|done|cbn; lia].
  - exists (inr (pdpt, k)), T, t. split; [done|]. split; [by apply grows_refl|].
    split_and!; [done|done|cbn; lia].
  - destruct Hl. exists (inr (pdpt, k)), T, t. split; [done|]. split; [by apply grows_refl|].
    split_and!; [done|done|cbn; lia].
Qed.

Lemma pd_step T t gfn pdpt k2 l :
  gfn_ok gfn -> ept_inv T t -> T !! (2, pre 2 gfn) = Some pdpt -> pd_ok l gfn T ->
  exists r T' t', get_pd gfn pdpt k2 l t = Some (r, t') /\ grows T t T' t' /\
    match r with
    | inl e => e = - ENOMEM /\ host_refused (et_phys t) (et_phys t') /\
        et_kmaps t' = et_kmaps t - kcount k2 - held_pd l
    | inr (pd, k1) => T' !! (1, pre 1 gfn) = Some pd /\
        et_kmaps t' - kcount k1 = et_kmaps t - held_pd l
    end.
Proof.
  intros Hg HI Hr Hl. destruct l as [| |p k pd k1]; cycle 2.
  { exists (inr (pd, k1)), T, t. split; [done|]. split; [by apply grows_refl|]. done. }
  all: edestruct (get_pd_rule T t gfn pdpt k2) as (r & T' & t' & Hrun & ? & Hp);
    [done|done|done| |exists r, T', t'; split_and!; [exact Hrun|done|]]; [done|];
    destruct r as [e|[q k']]; cbn; [destruct Hp as (? & ? & ?)|destruct Hp];
    split_and!; try done; cbn; lia.
Qed.

Lemma tables_rule T t gfn pml4 l :
  gfn_ok gfn -> ept_inv T t -> T !! (3, 0) = Some pml4 -> label_ok l gfn T ->
  exists r T' t', get_tables gfn pml4 l t = Some (r, t') /\ grows T t T' t' /\
    match r with
    | inl e => e = - ENOMEM /\ host_refused (et_phys t) (et_phys t') /\
        et_kmaps t' = et_kmaps t - label_kmaps l
    | inr (pdpt, k2, (pd, k1), (pt, k0)) =>
        T' !! (2, pre 2 gfn) = Some pdpt /\ T' !! (1, pre 1 gfn) = Some pd /\
        T' !! (0, pre 0 gfn) = Some pt /\
        et_kmaps t' - kcount k2 - kcount k1 - kcount k0 = et_kmaps t - label_kmaps l
    end.
Proof.
  intros Hg HI Hr Hl. unfold get_tables.
  destruct (pdpt_step T t gfn pml4 l) as (r & T1 & t1 & Hr1 & G1 & P1); [done..|].
  rewrite (bind_run _ _ _ _ _ Hr1).
  destruct r as [e|[pdpt k2]]; [by exists (inl e), T1, t1|]. destruct P1 as (H2 & Hpd & Hk1).
  destruct (pd_step T1 t1 gfn pdpt k2 l) as (r & T2 & t2 & Hr2 & G2 & P2);
    [done|apply G1|done|done|].
  rewrite (bind_run _ _ _ _ _ Hr2).
  pose proof (grows_trans _ _ _ _ _ _ G1 G2) as G12.
  destruct r as [e|[pd k1]].
  { exists (inl e), T2, t2. destruct P2 as (? & ? & ?). split_and!; [done|done|done| |lia].
    eapply host_refused_before; [|done]. apply G1. }
  destruct P2 as [H1 Hk2].
  destruct (get_pt_rule T2 t2 gfn pd k1 k2) as (r & T3 & t3 & Hr3 & G3 & P3);
    [done|apply G12|done|].
  rewrite (bind_run _ _ _ _ _ Hr3).
  pose proof (grows_trans _ _ _ _ _ _ G12 G3) as G13.
  destruct r as [e|[pt k0]].
  { exists (inl e), T3, t3. destruct P3 as (? & ? & ?). split_and!; [done|done|done| |lia].
    eapply host_refused_before; [|done]. apply G12. }
  destruct P3 as [H0 Hk3]. eexists (inr _), T3, t3. split; [done|]. split; [done|].
  split_and!; [|eapply lookup_weaken; [done|apply G3]|done|lia].
  eapply lookup_weaken; [|apply G3]. eapply lookup_weaken; [done|apply G2].
Qed.

(** *** The loop over the leaf tables *)
Lemma leaf_steps gfn end_gfn :
  0 <= gfn <= end_gfn -> end_gfn < 2 ^ 36 ->
  let n := (if pre 0 gfn <? pre 0 end_gfn then 511 else idx 0 end_gfn) - idx 0 gfn + 1 in
  0 < n /\ idx 0 gfn + n <= 512 /\ gfn + n <= end_gfn + 1 /\
  (gfn + n <= end_gfn -> idx 0 (gfn + n) = 0 /\ pre 0 (gfn + n) = pre 0 gfn + 1).
Proof.
  intros H1 H2 n. pose proof (pre_leaf gfn). pose proof (pre_leaf end_gfn).
  pose proof (idx_range 0 gfn). pose proof (idx_range 0 end_gfn).
  pose proof (pre_leaf (gfn + n)). pose proof (idx_range 0 (gfn + n)).
  destruct (Z.ltb_spec (pre 0 gfn) (pre 0 end_gfn)); unfold n in *; lia.
Qed.

(** Which tables stay valid when the walk moves to the next leaf table. *)
Lemma next_leaf_table g g' :
  pre 0 g' = pre 0 g + 1 ->
  (idx 1 g' <> 0 -> pre 1 g' = pre 1 g /\ pre 2 g' = pre 2 g) /\
  (idx 2 g' <> 0 -> pre 2 g' = pre 2 g).
Proof.
  intros H. pose proof (pre_down 1 g ltac:(lia)). pose proof (pre_down 1 g' ltac:(lia)).
  pose proof (pre_down 2 g ltac:(lia)). pose proof (pre_down 2 g' ltac:(lia)).
  pose proof (idx_range 1 g). pose proof (idx_range 1 g').
  pose proof (idx_range 2 g). pose proof (idx_range 2 g').
  change (1 - 1) with 0 in *. change (2 - 1) with 1 in *. lia.
Qed.

(** [refused]: the host refused a request. *)
Definition create_post (refused : Prop) a o b created (w w' : Z -> Z) (r : Z) : Prop :=
  fill_post a o b created w w' (inr r) \/ fill_post a o b created w w' (inl r) \/
  r = - ENOMEM /\ refused /\
  exists m, a <= m < b /\ fills (pte_at a o) a m w w' /\ fillable (pte_at a o) a m w.

Lemma create_post_app (R R' : Prop) a o m b created c1 w w1 w2 r :
  (R' -> R) -> a <= m <= b -> fill_post a o m created w w1 (inr c1) ->
  create_post R' m (o + (m - a) * 4096) b c1 w1 w2 r -> create_post R a o b created w w2 r.
Proof.
  intros HR Hab (Hf & Ho & ->). replace m with (a + (m - a)) at 1 by lia.
  assert (Hfs : forall c w w', fills (pte_at (a + (m - a)) (o + (m - a) * 4096)) m c w w' ->
                          fills (pte_at a o) m c w w').
  { intros c v v' H g. rewrite H. by rewrite pte_at_shift. }
  assert (Hos : forall c w, fillable (pte_at (a + (m - a)) (o + (m - a) * 4096)) m c w ->
                          fillable (pte_at a o) m c w).
  { intros c v H g Hg. rewrite <- (pte_at_shift a o (m - a)). by apply H. }
  replace (a + (m - a)) with m in * by lia.
  intros [(Hf2 & Ho2 & ->)|[(-> & x & Hx & Hf2 & Ho2 & Hn & Hn2)|(-> & Hh & x & Hx & Hf2 & Ho2)]].
  - left. split; [eapply (fills_trans _ _ m); [lia|done|by apply Hfs]|].
    split; [by eapply fillable_trans; [..|apply Hos]|].
    replace (Z.to_nat (b - a)) with (Z.to_nat (m - a) + Z.to_nat (b - m))%nat by lia.
    rewrite count_app, Z2Nat.id by lia. replace (a + (m - a)) with m by lia.
    rewrite (count_ext (fun g => negb (present (w1 g))) (fun g => negb (present (w g)))); [lia|].
    intros g Hg. by rewrite (fills_out _ _ _ _ _ g Hf) by lia.
  - right. left. split; [done|]. exists x. split; [lia|].
    rewrite (fills_out _ _ _ _ _ x Hf) in Hn, Hn2 by lia.
    split; [eapply (fills_trans _ _ m); [lia|done|by apply Hfs]|].
    split; [by eapply fillable_trans; [..|apply Hos]|]. split; [done|].
    rewrite <- (pte_at_shift a o (m - a)). by replace (a + (m - a)) with m by lia.
  - right. right. split; [done|]. split; [by apply HR|]. exists x. split; [lia|].
    split; [eapply (fills_trans _ _ m); [lia|done|by apply Hfs]|].
    by eapply fillable_trans; [..|apply Hos].
Qed.

Lemma create_post_stop (R : Prop) a o m b created w w' e :
  m <= b -> fill_post a o m created w w' (inl e) -> create_post R a o b created w w' e.
Proof.
  intros Hm (-> & x & Hx & H). right. left. split; [done|]. exists x. split; [lia|done].
Qed.

Lemma fill_post_same a o c w w' : (forall g, w' g = w g) -> fill_post a o a c w w' (inr c).
Proof.
  intros H. split; [by apply fills_nil|]. split; [intros g Hg; lia|]. by rewrite Z.sub_diag, Z.add_0_r.
Qed.

Lemma fill_post_ext a o b c w0 w w' r :
  (forall g, w g = w0 g) -> fill_post a o b c w w' r -> fill_post a o b c w0 w' r.
Proof.
  intros E. assert (Hf : forall x, fills (pte_at a o) a x w w' -> fills (pte_at a o) a x w0 w').
  { intros x H g. rewrite H, E. done. }
  assert (Ho : forall x, fillable (pte_at a o) a x w -> fillable (pte_at a o) a x w0).
  { intros x H g. rewrite <- E. apply H. }
  destruct r as [e|n]; cbn.
  - intros (-> & m & ? & ? & ? & ? & ?). split; [done|]. exists m. rewrite <- E. eauto 10.
  - intros (? & ? & ->). split_and!; [eauto|eauto|]. f_equal. apply count_ext. intros g _. by rewrite E.
Qed.

(** The labels after a leaf table, with the mappings they keep. *)
Definition next_label (gfn pdpt : Z) (k2 : hax_kmap_phys) (pd : Z) (k1 : hax_kmap_phys) : create_label :=
  if idx 1 gfn =? 0 then if idx 2 gfn =? 0 then next_pdpt else next_pd pdpt k2
  else next_pt pdpt k2 pd k1.

Lemma next_label_ok T g g' pdpt k2 pd k1 :
  pre 0 g' = pre 0 g + 1 -> T !! (2, pre 2 g) = Some pdpt -> T !! (1, pre 1 g) = Some pd ->
  label_ok (next_label g' pdpt k2 pd k1) g' T.
Proof.
  intros Hp H2 H1. destruct (next_leaf_table g g' Hp) as [Ha Hb]. unfold next_label.
  destruct (Z.eqb_spec (idx 1 g') 0) as [E1|E1]; [destruct (Z.eqb_spec (idx 2 g') 0) as [E2|E2]|]; cbn.
  - done.
  - by rewrite Hb.
  - destruct (Ha E1) as [-> ->]. done.
Qed.

(** The code after a full leaf table. *)
Definition after_table (fuel : nat) (pml4 gfn end_gfn offset created pdpt : Z)
    (k2 : hax_kmap_phys) (pd : Z) (k1 k0 : hax_kmap_phys) : M st Z :=
  hax_assert (get_pt_index gfn =? 0);;
  _ ← hax_unmap_page_frame k0;
  if get_pd_index gfn =? 0 then
    _ ← hax_unmap_page_frame k1;
    if get_pdpt_index gfn =? 0 then
      _ ← hax_unmap_page_frame k2;
      create_loop pfn_at fuel next_pdpt pml4 gfn end_gfn perm offset created
    else create_loop pfn_at fuel (next_pd pdpt k2) pml4 gfn end_gfn perm offset created
  else create_loop pfn_at fuel (next_pt pdpt k2 pd k1) pml4 gfn end_gfn perm offset created.

Lemma after_table_run T t fuel pml4 gfn end_gfn offset created pdpt k2 pd k1 k0 :
  ept_inv T t -> idx 0 gfn = 0 ->
  let l := next_label gfn pdpt k2 pd k1 in
  exists t', after_table fuel pml4 gfn end_gfn offset created pdpt k2 pd k1 k0 t =
               create_loop pfn_at fuel l pml4 gfn end_gfn perm offset created t' /\
    grows T t T t' /\
    et_kmaps t' - label_kmaps l = et_kmaps t - kcount k2 - kcount k1 - kcount k0.
Proof.
  intros HI H0. unfold after_table, next_label. rewrite get_pt_index_idx, assert_run by lia.
  rewrite unmap_run. unfold get_pd_index, get_pdpt_index.
  assert (Hi1 : u32 ((gfn >>! HAX_EPT_TABLE_SHIFT) &! (HAX_EPT_TABLE_SIZE - 1)) = idx 1 gfn)
    by apply (index_idx 1).
  rewrite Hi1, (index_idx 2 gfn).
  assert (Hgk : forall f, grows T t T (set_kmaps f t)) by (intros; by apply grows_kmaps).
  destruct (idx 1 gfn =? 0); [rewrite unmap_run; destruct (idx 2 gfn =? 0); [rewrite unmap_run|]|].
  - eexists. split; [done|]. split; [apply (Hgk (fun n => n - kcount k0 - kcount k1 - kcount k2))|cbn; lia].
  - eexists. split; [done|]. split; [apply (Hgk (fun n => n - kcount k0 - kcount k1))|cbn; lia].
  - eexists. split; [done|]. split; [apply Hgk|cbn; lia].
Qed.

Lemma get_pd_gross_index_pre gfn : gfn_ok gfn -> get_pd_gross_index gfn = pre 0 gfn.
Proof.
  intros Hg. unfold get_pd_gross_index. change (gfn >>! HAX_EPT_TABLE_SHIFT) with (pre 0 gfn).
  pose proof (pre_nonneg 0 gfn Hg). pose proof (pre_leaf gfn). pose proof (idx_range 0 gfn).
  unfold gfn_ok in *. apply u32_small. lia.
Qed.

Lemma create_loop_rule pml4 end_gfn fuel : forall T t l gfn o created,
  ept_inv T t -> T !! (3, 0) = Some pml4 -> label_ok l gfn T ->
  0 <= gfn <= end_gfn -> end_gfn < 2 ^ 36 -> pre 0 end_gfn - pre 0 gfn < Z.of_nat fuel ->
  0 <= o -> o + (end_gfn - gfn + 1) * 4096 < 2 ^ 64 ->
  0 <= created -> created + (end_gfn - gfn + 1) < 2 ^ 31 ->
  exists r T' t', create_loop pfn_at fuel l pml4 gfn end_gfn perm o created t = Some (r, t') /\
    ept_inv T' t' /\ create_post (host_refused (et_phys t) (et_phys t')) gfn o (end_gfn + 1) created
      (leaf T t) (leaf T' t') r /\
    et_kmaps t' = et_kmaps t - label_kmaps l /\ et_invept_pending t' = et_invept_pending t.
Proof using Hperm Hpfn.
  induction fuel as [|fuel IH]; intros T t l gfn o created HI Hr Hl Hg He Hfuel Ho Hoe Hc0 Hcr.
  { exfalso. pose proof (pre_leaf gfn). pose proof (pre_leaf end_gfn).
    pose proof (idx_range 0 gfn). pose proof (idx_range 0 end_gfn). lia. }
  cbn [create_loop]. assert (Hgok : gfn_ok gfn) by (unfold gfn_ok; lia).
  destruct (tables_rule T t gfn pml4 l) as (r & T1 & t1 & Hr1 & [HI1 Hs1 Hl1 Hp1 Hph1] & P1); [done..|].
  rewrite (bind_run _ _ _ _ _ Hr1). destruct r as [e|[[[pdpt k2] [pd k1]] [pt k0]]].
  { destruct P1 as (-> & Hh & Hk). exists (- ENOMEM), T1, t1. split_and!; [done|done| |done|done].
    right. right. split; [done|]. split; [done|]. exists gfn. split; [lia|].
    split; [by apply fills_nil|]. intros g Hgg. lia. }
  destruct P1 as (H2 & H1 & H0 & Hk1).
  rewrite !get_pd_gross_index_pre by (unfold gfn_ok in *; lia). rewrite !get_pt_index_idx.
  change (HAX_EPT_TABLE_SIZE - 1) with 511.
  destruct (leaf_steps gfn end_gfn Hg He) as (Hn & Hn512 & Hne & Hnext).
  set (n := _ - idx 0 gfn + 1) in *. rewrite (Z.max_r 0 n) by lia.
  pose proof (idx_range 0 gfn). pose proof (pre_leaf gfn) as Hgp.
  destruct (fill_pt_rule (Z.to_nat n) T1 t1 pt (pre 0 gfn) (idx 0 gfn) o created)
    as (r & t2 & Hr2 & HI2 & P2 & Hk2 & Hp2 & Hph2); [done|done|lia..|].
  rewrite <- Hgp, Z2Nat.id in P2 by lia. apply (fill_post_ext _ _ _ _ _ _ _ _ Hl1) in P2.
  rewrite (bind_run _ _ _ _ _ Hr2). change PAGE_SIZE_4K with 4096.
  rewrite (u64_small (gfn + n)), (u64_small (o + _)) by lia.
  destruct r as [e|c]; [|destruct (Z.leb_spec (gfn + n) end_gfn) as [Hle|Hgt]].
  - rewrite unmap_run, unmap2_run. exists e, T1. eexists. split; [done|].
    split; [by apply (inv_frame_rule _ t2)|]. split; [|split; [cbn; lia|cbn; congruence]].
    eapply create_post_stop; [|done]. lia.
  - destruct (Hnext Hle) as [Hi0 Hpn].
    destruct (after_table_run T1 t2 fuel pml4 (gfn + n) end_gfn (o + n * 4096) c pdpt k2 pd k1 k0 HI2 Hi0)
      as (t3 & Hrun3 & [HI3 _ Hl3 Hp3 Hph3] & Hk3).
    unfold after_table in Hrun3. rewrite get_pt_index_idx in Hrun3. rewrite Hrun3.
    pose proof P2 as (_ & _ & Hc).
    pose proof (count_range (fun g => negb (present (leaf T t g))) (Z.to_nat (gfn + n - gfn)) gfn).
    destruct (IH T1 t3 (next_label (gfn + n) pdpt k2 pd k1) (gfn + n) (o + n * 4096) c)
      as (r & T' & t' & Hrun & HI' & Hpost & Hk' & Hp');
      [done|by eapply lookup_weaken|by eapply next_label_ok|lia..|].
    exists r, T', t'. split; [done|]. split; [done|]. split; [|split; [lia|congruence]].
    assert (Hph : rtc phys_step (et_phys t) (et_phys t3)) by (etrans; [done|]; by rewrite <- Hph2).
    eapply (create_post_app _ _ gfn o (gfn + n) _ created c _ (leaf T1 t2));
      [by apply (host_refused_before _ _ _ Hph)|lia|done|].
    replace (gfn + n - gfn) with n by lia.
    eapply (create_post_app _ _ _ _ (gfn + n) _ c c _ (leaf T1 t3));
      [exact id|lia|by apply fill_post_same|].
    by rewrite Z.sub_diag, Z.add_0_r.
  - rewrite unmap_run, unmap2_run. exists c, T1. eexists. split; [done|].
    split; [by apply (inv_frame_rule _ t2)|]. split; [|split; [cbn; lia|cbn; congruence]].
    left. replace (end_gfn + 1) with (gfn + n) by lia. done.
Qed.
End CreateEntries.

(** The permissions of the entries of a slot with these flags. *)
Definition slot_perm (flags : Z) : Z :=
  if negb (flags &! HAX_MEMSLOT_READONLY =? 0) then HAX_EPT_PERM_RX else HAX_EPT_PERM_RWX.

Lemma slot_perm_range flags : 0 < slot_perm flags < 8.
Proof. unfold slot_perm, HAX_EPT_PERM_RX, HAX_EPT_PERM_RWX. case_match; lia. Qed.

Lemma create_entries_rule pfn_at T t start npages chunk_size off flags :
  (forall o, 0 <= pfn_at o < 2 ^ 40 /\ pfn_at o <> INVALID_PFN) ->
  ept_inv T t -> 0 <= start -> 0 < npages < 2 ^ 31 -> start + npages <= 2 ^ 36 ->
  0 <= off -> off + npages * 4096 <= chunk_size -> chunk_size < 2 ^ 64 ->
  exists r T' t',
    ept_tree_create_entries pfn_at start npages chunk_size off flags t = Some (r, t') /\
    ept_inv T' t' /\
    create_post pfn_at (slot_perm flags) (host_refused (et_phys t) (et_phys t')) start off
      (start + npages) 0 (leaf T t) (leaf T' t') r /\
    et_kmaps t' = et_kmaps t /\ et_invept_pending t' = et_invept_pending t.
Proof.
  intros Hpfn HI Hs Hn Hsn Ho Hon Hc. unfold ept_tree_create_entries.
  rewrite assert_run by (apply negb_true_iff; lia).
  change PG_ORDER_4K with 12. rewrite shiftl64_12, (u64_small (off + _)) by lia.
  rewrite assert_run by lia. rewrite (u64_small (start + npages)), (u64_small (start + npages - 1)) by lia.
  edestruct (root_table_run (B := Z) T t) as (root & Hr & ->); [done|].
  rewrite (of_option_run _ root) by done.
  destruct (create_loop_rule pfn_at (slot_perm flags) (slot_perm_range flags) Hpfn root
              (start + npages - 1) (Z.to_nat (npages / 512) + 2) T t next_pdpt start off 0)
    as (r & T' & t' & Hrun & HI' & Hpost & Hk & Hp); [done|done|done|lia|lia| |lia|lia|lia|lia|].
  { pose proof (pre_leaf start). pose proof (pre_leaf (start + npages - 1)).
    pose proof (idx_range 0 start). pose proof (idx_range 0 (start + npages - 1)).
    pose proof (Z.div_mod npages 512). pose proof (Z.mod_pos_bound npages 512). lia. }
  exists r, T', t'. replace (start + npages - 1 + 1) with (start + npages) in Hpost by lia.
  cbn in Hk. rewrite Z.sub_0_r in Hk. by split_and!.
Qed.
End Rules.
