(* ===== verification/EptProps.v ===== *)
(** * Properties of the EPT tree

    The operations of ept_tree.c, stated for [hw_walk]: the translation the processor
    finds when it walks the tables from the EPT pointer. *)

From stdpp Require Import base numbers list gmap.
From Stdlib Require Import ZArith Lia.
From S2P Require Import Prelude HaxList Bitmap MemTypes EptTree EptProof EptRules.
#[local] Open Scope Z_scope.

(** ** A concrete host *)
(** Frames are handed out in order; every frame can be mapped. *)
#[export] Instance counter_host : PhysHost := {
  pstate := Z;
  alloc_page_frame p := if (0 <=? p) && (p <? 2 ^ 40 - 1) then (Some p, p + 1) else (None, p);
  map_page_frame pfn p := (true, p);
}.

#[export] Instance counter_host_laws : PhysHostLaws counter_host.
Proof.
  refine {| phys_free := fun (p : @pstate counter_host) q => (p : Z) <= q |}.
  - intros p r p'. cbn. destruct ((0 <=? p) && (p <? 2 ^ 40 - 1))%bool eqn:E; intros [= <- <-].
    + bool_hyps. split; [lia|]. intros pfn [= <-]. change INVALID_PFN with (2 ^ 40 - 1). lia.
    + split; [done|]. intros ? [=].
  - intros p pfn r p' [= <- <-]. done.
Defined.

Lemma counter_maps_ok : maps_ok counter_host.
Proof. done. Qed.

(** An object for a tree, before [ept_tree_init]. *)
Definition raw_tree : hax_ept_tree (PH := counter_host) := EptTree ∅ [] 0 [] false 0 (1 : Z).

(** ** The properties *)
Section Props.
Context {PH : PhysHost} {PL : PhysHostLaws PH}.
Notation st := hax_ept_tree.
Implicit Types (t : st).

(** A well-formed tree. *)
Definition ept_ok t : Prop := exists T, ept_inv T t.

(** The new tree has its root table and no translation. *)
Lemma init_inv t0 pfn p' :
  et_frames t0 = ∅ -> phys_free (et_phys t0) pfn -> ~ phys_free p' pfn ->
  0 <= pfn < 2 ^ 40 -> pfn <> INVALID_PFN ->
  forall fr, fr = Some pfn :: replicate 9 None ->
  let t' := EptTree {[ pfn := zero_table ]} [pfn]
              (make_eptp HAX_EPT_MEMTYPE_WB HAX_EPT_LEVEL_MAX pfn) fr false (et_kmaps t0) p' in
  ept_inv {[ (3, 0) := pfn ]} t' /\ forall g, leaf {[ (3, 0) := pfn ]} t' g = 0.
Proof.
  intros Hf0 Hf Hf' Hr Hi fr Hfr t'.
  assert (Hent : forall j, 0 <= j < 512 -> ent t' (pfn, j) = Some 0).
  { intros j Hj. unfold ent, t'. cbn [fst snd et_frames]. rewrite lookup_singleton_eq.
    apply (zero_table_lookup j Hj). }
  split; [|intros g; unfold leaf; by rewrite lookup_singleton_ne by done].
  constructor; intros *.
  - exists pfn. split; [apply lookup_singleton_eq|done].
  - intros [[= <- <-] <-]%lookup_singleton_Some. lia.
  - intros [<- <-]%lookup_singleton_Some. by split; [|split].
  - by intros [<- <-]%lookup_singleton_Some [<- _]%lookup_singleton_Some.
  - intros [<- <-]%lookup_singleton_Some Hj. rewrite Hent by done. eauto.
  - intros Hl [[= <- <-] <-]%lookup_singleton_Some Hj. rewrite Hent by done.
    by rewrite lookup_singleton_ne by done.
  - intros [[=] _]%lookup_singleton_Some.
  - intros [[= <- <-] <-]%lookup_singleton_Some. lia.
  - intros [[= <- <-] <-]%lookup_singleton_Some [= <-]. cbn. by rewrite Hfr.
  - cbn. by rewrite Hfr.
  - cbn [et_frames et_page_list t']. rewrite list_elem_of_singleton, lookup_singleton_is_Some. naive_solver.
  - cbn [et_page_list t']. rewrite list_elem_of_singleton. intros ->. eexists. apply lookup_singleton_eq.
  - apply NoDup_singleton.
Qed.

(** [ept_tree_init] on a new object either fails with -ENOMEM because the host has
    no frame, or produces a well-formed tree without any translation, no pending
    INVEPT, and an EPT pointer (write-back, four levels) that points to the root. *)
Theorem ept_tree_init_correct t0 :
  et_frames t0 = ∅ ->
  exists r t', ept_tree_init true t0 = Some (r, t') /\
    (r = - ENOMEM /\ host_refused (et_phys t0) (et_phys t') \/
     r = 0 /\ ept_ok t' /\ et_invept_pending t' = false /\
     (forall g, gfn_ok g -> hw_walk t' g = 0)).
Proof.
  intros H0. unfold ept_tree_init. rewrite 3 modify_run. cbn [negb].
  edestruct alloc_page_run as (r & p' & Hrun & Hnone & Hstep & Hpfn).
  rewrite (bind_run _ _ _ _ _ Hrun). destruct r as [pfn|].
  - destruct (Hpfn pfn eq_refl) as (Hf & Hf' & Hr & Hi).
    rewrite assert_run by (apply negb_true_iff; lia).
    destruct (init_inv t0 pfn p' H0 Hf Hf' Hr Hi _ eq_refl) as [HI Hl].
    eexists 0, (EptTree _ _ _ _ _ _ _). split; [|by right; split_and!; [|eexists|
      |intros g Hg; rewrite (hw_walk_leaf _ _ _ HI Hg)]].
    rewrite 2 modify_run. unfold mret, M_ret. f_equal. f_equal. unfold set_eptp. f_equal.
    cbn [et_frames set_freq set_page_list set_frames set_phys set_invept_pending].
    rewrite H0. apply insert_empty.
  - exists (- ENOMEM). eexists. split; [done|]. left. split; [done|]. by apply Hnone.
Qed.

(** [ept_tree_create_entry] for a present entry: success means that the processor
    now translates the frame to the value; a different translation is reported with
    -EEXIST and kept; -ENOMEM only follows a refusal of the host.  In every case the
    tree stays well-formed, no other translation changes, and outside of the -EEXIST
    path every temporary mapping is undone. *)
Theorem ept_tree_create_entry_correct t gfn value :
  ept_ok t -> gfn_ok gfn -> epte_perm value <> 0 ->
  exists r t', ept_tree_create_entry gfn value t = Some (r, t') /\ ept_ok t' /\
    et_invept_pending t' = et_invept_pending t /\
    (forall g, gfn_ok g -> g <> gfn -> hw_walk t' g = hw_walk t g) /\
    (r = 0 /\ (hw_walk t gfn = 0 \/ hw_walk t gfn = value) /\ hw_walk t' gfn = value /\
       et_kmaps t' = et_kmaps t \/
     r = - EEXIST /\ hw_walk t gfn <> 0 /\ hw_walk t gfn <> value /\
       hw_walk t' gfn = hw_walk t gfn \/
     r = - ENOMEM /\ host_refused (et_phys t) (et_phys t') /\ hw_walk t' gfn = hw_walk t gfn /\
       et_kmaps t' = et_kmaps t).
Proof.
  intros [T HI] Hg Hp.
  destruct (create_entry_rule T t gfn value HI Hg Hp) as (r & T' & t' & Hrun & HI' & Hpend & Hl & Hc).
  exists r, t'. rewrite !(hw_walk_leaf T t), !(hw_walk_leaf T' t') by done.
  split_and!; [done|by exists T'|done| |done].
  intros g Hgg Hne. rewrite (hw_walk_leaf T' t'), (hw_walk_leaf T t) by done. by apply Hl.
Qed.

(** On a host that can map every frame, [ept_tree_get_entry] returns exactly the
    entry that the processor's walk reaches (0 if there is none), changes no
    translation and leaves no temporary mapping behind. *)
Theorem ept_tree_get_entry_correct t gfn :
  maps_ok PH -> ept_ok t -> gfn_ok gfn ->
  exists t', ept_tree_get_entry gfn t = Some (hw_walk t gfn, t') /\ ept_ok t' /\
    (forall g, gfn_ok g -> hw_walk t' g = hw_walk t g) /\ et_kmaps t' = et_kmaps t.
Proof.
  intros Hm [T HI] Hg. destruct (get_entry_rule T t gfn Hg HI Hm) as (t' & Hrun & Hgr & Hk).
  exists t'. rewrite (hw_walk_leaf T t) by done. split_and!; [done|exists T; apply Hgr| |done].
  intros g Hgg. rewrite (hw_walk_leaf T t'), (hw_walk_leaf T t) by (done || apply Hgr). apply Hgr.
Qed.

(** The two range operations, for the processor's view. *)
Lemma invalidate_entries_hw t start npages :
  maps_ok PH -> ept_ok t -> 0 <= start -> 0 <= npages < 2 ^ 31 -> start + npages <= 2 ^ 36 ->
  let c := count (fun g => present (hw_walk t g)) (Z.to_nat npages) start in
  exists t', ept_tree_invalidate_entries start npages t = Some (c, t') /\ ept_ok t' /\
    (forall g, gfn_ok g -> hw_walk t' g = if (start <=? g) && (g <? start + npages) then 0
                                         else hw_walk t g) /\
    et_invept_pending t' = (et_invept_pending t || negb (c =? 0))%bool /\
    et_kmaps t' = et_kmaps t.
Proof.
  intros Hm [T HI] Hs Hn Hb c.
  destruct (invalidate_entries_rule T t start npages HI Hm Hs Hn Hb) as (t' & Hrun & HI' & Hl & Hk & Hp).
  assert (Hc : count (fun g => present (leaf T t g)) (Z.to_nat npages) start = c).
  { apply count_ext. intros g Hg. rewrite (hw_walk_leaf T t) by (done || unfold gfn_ok; lia). done. }
  rewrite Hc in Hrun, Hp. exists t'. split_and!; [done|by exists T| |done|done].
  intros g Hg. by rewrite (hw_walk_leaf T t'), (hw_walk_leaf T t) by done.
Qed.

Lemma create_entries_hw pfn_at t start npages chunk_size off flags :
  (forall o, 0 <= pfn_at o < 2 ^ 40 /\ pfn_at o <> INVALID_PFN) -> ept_ok t ->
  0 <= start -> 0 < npages < 2 ^ 31 -> start + npages <= 2 ^ 36 ->
  0 <= off -> off + npages * 4096 <= chunk_size -> chunk_size < 2 ^ 64 ->
  let pte g := make_epte (slot_perm flags) HAX_EPT_MEMTYPE_WB (pfn_at (off + (g - start) * 4096)) in
  exists r t' m,
    ept_tree_create_entries pfn_at start npages chunk_size off flags t = Some (r, t') /\
    ept_ok t' /\ et_kmaps t' = et_kmaps t /\ et_invept_pending t' = et_invept_pending t /\
    start <= m <= start + npages /\
    (forall g, gfn_ok g -> hw_walk t' g = if start <=? g then if g <? m then pte g
                                         else hw_walk t g else hw_walk t g) /\
    (forall g, start <= g < m -> hw_walk t g = 0 \/ hw_walk t g = pte g) /\
    (r = count (fun g => negb (present (hw_walk t g))) (Z.to_nat npages) start /\
       m = start + npages \/
     r = - EEXIST /\ m < start + npages /\ hw_walk t m <> 0 /\ hw_walk t m <> pte m \/
     r = - ENOMEM /\ m < start + npages /\ host_refused (et_phys t) (et_phys t')).
Proof.
  intros Hpfn [T HI] Hs Hn Hsn Ho Hon Hc pte.
  destruct (create_entries_rule pfn_at T t start npages chunk_size off flags)
    as (r & T' & t' & Hrun & HI' & Hpost & Hk & Hp); [done..|].
  assert (Hw : forall g, start <= g < start + npages -> leaf T t g = hw_walk t g).
  { intros g Hg. by rewrite (hw_walk_leaf T t) by (done || unfold gfn_ok; lia). }
  assert (Hfill : forall m, fills (pte_at pfn_at (slot_perm flags) start off) start m (leaf T t) (leaf T' t') ->
    fillable (pte_at pfn_at (slot_perm flags) start off) start m (leaf T t) -> m <= start + npages ->
    (forall g, gfn_ok g -> hw_walk t' g = if start <=? g then if g <? m then pte g
                                         else hw_walk t g else hw_walk t g) /\
    (forall g, start <= g < m -> hw_walk t g = 0 \/ hw_walk t g = pte g)).
  { intros m Hf Hfo Hm. split; [|intros g Hg; rewrite <- Hw by lia; by apply Hfo].
    intros g Hg. rewrite (hw_walk_leaf T' t'), Hf, (hw_walk_leaf T t) by done.
    destruct (Z.leb_spec start g); [|done]. destruct (Z.ltb_spec g m); [|done]. cbn [andb].
    destruct (Z.eqb_spec (leaf T t g) 0); [done|]. destruct (Hfo g); [lia|done|done]. }
  exists r, t'.
  destruct Hpost as [(Hf & Hfo & ->)|[(-> & m & Hm & Hf & Hfo & Hn0 & Hn1)|(-> & Hr & m & Hm & Hf & Hfo)]].
  - exists (start + npages). destruct (Hfill (start + npages) Hf Hfo) as [H1 H2]; [lia|].
    split_and!; try done; try lia; [by exists T'|]. left. split; [|done].
    rewrite Z.add_0_l. replace (start + npages - start) with npages by lia.
    apply count_ext. intros g Hg. by rewrite Hw by lia.
  - exists m. destruct (Hfill m Hf Hfo) as [H1 H2]; [lia|].
    split_and!; try done; try lia; [by exists T'|]. right. left. rewrite <- Hw by lia. split_and!; [done|lia|done|done].
  - exists m. destruct (Hfill m Hf Hfo) as [H1 H2]; [lia|].
    split_and!; try done; try lia; [by exists T'|]. right. right. split_and!; [done|lia|done].
Qed.

(** C38. On a host that can map every frame (a table that cannot be mapped is skipped, a
    finding), [ept_tree_invalidate_entries] removes exactly
    the translations of the range, returns how many were present, and requests an
    INVEPT if and only if (or an earlier request is pending) one was. *)
Theorem ept_tree_invalidate_entries_correct t start npages :
  maps_ok PH -> ept_ok t -> 0 <= start -> 0 <= npages < 2 ^ 31 -> start + npages <= 2 ^ 36 ->
  let c := count (fun g => present (hw_walk t g)) (Z.to_nat npages) start in
  exists t', ept_tree_invalidate_entries start npages t = Some (c, t') /\ ept_ok t' /\
    (forall g, gfn_ok g -> hw_walk t' g = if (start <=? g) && (g <? start + npages) then 0
                                         else hw_walk t g) /\
    et_invept_pending t' = (et_invept_pending t || negb (c =? 0))%bool /\
    et_kmaps t' = et_kmaps t.
Proof. apply invalidate_entries_hw. Qed.

(** C37. [ept_tree_create_entries] for a range of a pinned chunk, whose pages have frame
    numbers below [2 ^ 40]: on success (the number
    [r] of new entries) every frame of the range is translated to its page of the
    chunk, read-only for ROM, and no frame had another translation before; -EEXIST
    means that a frame had one, -ENOMEM that the last call of the host (for a page or
    for a temporary mapping) was refused, and then the frames before the failure are
    translated.  The range has fewer than [2 ^ 31] frames, so that their number is an
    int.  Frames outside the range and existing
    translations never change, the tree stays well-formed, and every temporary mapping
    is undone on every path. *)
Theorem ept_tree_create_entries_correct pfn_at t start npages chunk_size off flags :
  (forall o, 0 <= pfn_at o < 2 ^ 40 /\ pfn_at o <> INVALID_PFN) -> ept_ok t ->
  0 <= start -> 0 < npages < 2 ^ 31 -> start + npages <= 2 ^ 36 ->
  0 <= off -> off + npages * 4096 <= chunk_size -> chunk_size < 2 ^ 64 ->
  let pte g := make_epte (slot_perm flags) HAX_EPT_MEMTYPE_WB (pfn_at (off + (g - start) * 4096)) in
  exists r t' m,
    ept_tree_create_entries pfn_at start npages chunk_size off flags t = Some (r, t') /\
    ept_ok t' /\ et_kmaps t' = et_kmaps t /\ et_invept_pending t' = et_invept_pending t /\
    start <= m <= start + npages /\
    (forall g, gfn_ok g -> hw_walk t' g = if start <=? g then if g <? m then pte g
                                         else hw_walk t g else hw_walk t g) /\
    (forall g, start <= g < m -> hw_walk t g = 0 \/ hw_walk t g = pte g) /\
    (r = count (fun g => negb (present (hw_walk t g))) (Z.to_nat npages) start /\
       m = start + npages \/
     r = - EEXIST /\ m < start + npages /\ hw_walk t m <> 0 /\ hw_walk t m <> pte m \/
     r = - ENOMEM /\ m < start + npages /\ host_refused (et_phys t) (et_phys t')).
Proof. apply create_entries_hw. Qed.

(** Freeing the listed pages. *)
Lemma free_pages_run l t :
  exists t', free_pages l t = Some (tt, t') /\
    (forall q, is_Some (et_frames t' !! q) <-> is_Some (et_frames t !! q) /\ q ∉ l) /\
    (forall q, q ∈ et_page_list t' <-> q ∈ et_page_list t /\ q ∉ l).
Proof.
  revert t. induction l as [|p l IH]; intros t.
  { exists t. split; [done|]. split; intros q; set_solver. }
  cbn [free_pages]. rewrite modify_run. unfold ept_page_free. rewrite modify_run.
  edestruct IH as (t' & Hrun & Hf & Hl). exists t'. split; [exact Hrun|]. split; intros q.
  - rewrite Hf. cbn. rewrite lookup_delete_is_Some. set_solver.
  - rewrite Hl. cbn. rewrite list_elem_of_filter. set_solver.
Qed.

(** [ept_tree_free] of a well-formed tree releases every frame of the tree exactly
    through its page list: no frame stays allocated. *)
Theorem ept_tree_free_correct t :
  ept_ok t ->
  exists t', ept_tree_free t = Some (0, t') /\ et_frames t' = ∅ /\ et_page_list t' = [] /\
             NoDup (et_page_list t).
Proof.
  intros [T HI]. unfold ept_tree_free. rewrite gets_run.
  destruct (free_pages_run (et_page_list t) t) as (t' & Hrun & Hf & Hl).
  rewrite (bind_run _ _ _ _ _ Hrun). exists t'. split_and!; [done| | |apply HI].
  - apply map_eq. intros q. rewrite lookup_empty.
    destruct (et_frames t' !! q) eqn:E; [|done]. exfalso.
    destruct (proj1 (Hf q)) as [H1 H2]; [by rewrite E|]. by apply (inv_pages _ _ HI) in H1.
  - destruct (et_page_list t') as [|q l] eqn:E; [done|].
    destruct (proj1 (Hl q)); [apply list_elem_of_here|done].
Qed.
End Props.

(** ** Concrete instances *)
(** The tree after [ept_tree_init] of [raw_tree]. *)
Definition demo_tree : hax_ept_tree (PH := counter_host) :=
  EptTree {[ 1 := zero_table ]} [1] (make_eptp HAX_EPT_MEMTYPE_WB HAX_EPT_LEVEL_MAX 1)
    (Some 1 :: replicate 9 None) false 0 (2 : Z).

Lemma demo_tree_ok : ept_ok demo_tree.
Proof.
  eexists. apply (init_inv raw_tree 1 (2 : Z) eq_refl); first [done|cbn; lia].
Qed.

Lemma ept_tree_init_correct_witness :
  exists t', ept_tree_init true raw_tree = Some (0, t') /\ ept_ok t' /\ hw_walk t' 5 = 0.
Proof.
  destruct (ept_tree_init_correct raw_tree eq_refl) as (r & t' & Hrun & Hcase).
  assert (E : fst <$> ept_tree_init true raw_tree = Some 0) by (vm_compute; reflexivity).
  rewrite Hrun in E. injection E as ->. destruct Hcase as [[E _]|(_ & Hok & _ & Hw)]; [discriminate E|].
  exists t'. split; [exact Hrun|]. split; [exact Hok|]. apply Hw. unfold gfn_ok. lia.
Defined.

(** Frame 2^21 + 5 (above the cached tables) is mapped, then mapped again differently. *)
Definition demo_gfn : Z := 2 ^ 21 + 5.
Definition demo_pte : Z := make_epte HAX_EPT_PERM_RWX HAX_EPT_MEMTYPE_WB 77.

Lemma ept_tree_create_entry_correct_witness :
  exists t', ept_tree_create_entry demo_gfn demo_pte demo_tree = Some (0, t') /\
             hw_walk t' demo_gfn = demo_pte.
Proof.
  destruct (ept_tree_create_entry_correct demo_tree demo_gfn demo_pte demo_tree_ok)
    as (r & t' & Hrun & _ & _ & _ & Hcase); [unfold gfn_ok, demo_gfn; lia|vm_compute; discriminate|].
  assert (E : fst <$> ept_tree_create_entry demo_gfn demo_pte demo_tree = Some 0)
    by (vm_compute; reflexivity).
  rewrite Hrun in E. injection E as ->. exists t'. split; [exact Hrun|].
  destruct Hcase as [(_ & _ & H & _)|[(E & _)|(E & _)]]; [exact H|discriminate E|discriminate E].
Defined.

Lemma ept_tree_get_entry_correct_witness :
  exists t', ept_tree_get_entry demo_gfn demo_tree = Some (hw_walk demo_tree demo_gfn, t') /\
             ept_ok t'.
Proof.
  destruct (ept_tree_get_entry_correct demo_tree demo_gfn counter_maps_ok demo_tree_ok)
    as (t' & Hrun & Hok & _); [unfold gfn_ok, demo_gfn; lia|].
  exists t'. split; [exact Hrun|exact Hok].
Defined.

(** The tree after the creation of that entry. *)
Definition demo_mapped : hax_ept_tree (PH := counter_host) :=
  match ept_tree_create_entry demo_gfn demo_pte demo_tree with
  | Some (_, t) => t
  | None => demo_tree
  end.

Lemma demo_mapped_ok : ept_ok demo_mapped.
Proof.
  destruct demo_tree_ok as [T HI]. unfold demo_mapped.
  destruct (create_entry_rule T demo_tree demo_gfn demo_pte HI) as (r & T' & t' & -> & HI' & _).
  - unfold gfn_ok, demo_gfn. lia.
  - vm_compute. discriminate.
  - by exists T'.
Qed.

Lemma ept_tree_invalidate_entries_correct_witness :
  exists t', ept_tree_invalidate_entries (demo_gfn - 1) 3 demo_mapped = Some (1, t') /\
             ept_ok t' /\ hw_walk t' demo_gfn = 0 /\ et_invept_pending t' = true.
Proof.
  destruct (ept_tree_invalidate_entries_correct demo_mapped (demo_gfn - 1) 3 counter_maps_ok
              demo_mapped_ok) as (t' & Hrun & Hok & Hw & Hp & _);
    [unfold demo_gfn; lia|lia|unfold demo_gfn; lia|].
  assert (Hc : count (fun g => present (hw_walk demo_mapped g)) (Z.to_nat 3) (demo_gfn - 1) = 1)
    by (vm_compute; reflexivity).
  rewrite Hc in Hrun, Hp. exists t'. split; [exact Hrun|]. split; [exact Hok|]. split.
  - rewrite Hw by (unfold gfn_ok, demo_gfn; lia).
    destruct (Z.leb_spec (demo_gfn - 1) demo_gfn), (Z.ltb_spec demo_gfn (demo_gfn - 1 + 3)); [reflexivity|lia..].
  - rewrite Hp. apply orb_true_r.
Defined.

Lemma ept_tree_create_entries_correct_witness :
  exists t', ept_tree_create_entries (fun o => 100 + (o / 4096) mod 1024) demo_gfn 512 (2 ^ 21) 0 0
               demo_tree = Some (512, t') /\ ept_ok t' /\
             hw_walk t' demo_gfn = make_epte 7 HAX_EPT_MEMTYPE_WB 100.
Proof.
  destruct (ept_tree_create_entries_correct (fun o => 100 + (o / 4096) mod 1024) demo_tree demo_gfn
              512 (2 ^ 21) 0 0) as (r & t' & m & Hrun & Hok & _ & _ & Hm & Hw & _ & Hcase).
  - intros o. pose proof (Z.mod_pos_bound (o / 4096) 1024). change INVALID_PFN with (2 ^ 40 - 1). lia.
  - exact demo_tree_ok.
  - unfold demo_gfn; lia.
  - lia.
  - unfold demo_gfn; lia.
  - lia.
  - lia.
  - lia.
  - assert (E : fst <$> ept_tree_create_entries (fun o => 100 + (o / 4096) mod 1024) demo_gfn 512
                  (2 ^ 21) 0 0 demo_tree = Some 512) by (vm_compute; reflexivity).
    rewrite Hrun in E. injection E as ->. exists t'. split; [exact Hrun|]. split; [exact Hok|].
    destruct Hcase as [(_ & ->)|[(E & _)|(E & _)]]; [|discriminate E|discriminate E].
    rewrite Hw by (unfold gfn_ok, demo_gfn; lia). vm_compute. reflexivity.
Defined.

Lemma ept_tree_free_correct_witness :
  exists t', ept_tree_free demo_tree = Some (0, t') /\ et_frames t' = ∅.
Proof.
  destruct (ept_tree_free_correct demo_tree demo_tree_ok) as (t' & Hrun & Hf & _).
  exists t'. split; [exact Hrun|exact Hf].
Defined.

(** On its -EEXIST path [ept_tree_create_entry] unmaps [kmap], which is empty, instead
    of [prev_kmap]: creating two different entries for a frame whose leaf table is
    mapped temporarily leaves one temporary mapping behind. *)
Theorem ept_tree_create_entry_leaks :
  exists t1 t2,
    ept_tree_create_entry demo_gfn demo_pte demo_tree = Some (0, t1) /\ et_kmaps t1 = 0 /\
    ept_tree_create_entry demo_gfn (demo_pte + 4096) t1 = Some (- EEXIST, t2) /\ et_kmaps t2 = 1.
Proof.
  set (m := r1 ← ept_tree_create_entry demo_gfn demo_pte; n1 ← gets et_kmaps;
            r2 ← ept_tree_create_entry demo_gfn (demo_pte + 4096); n2 ← gets et_kmaps;
            mret (r1, n1, r2, n2)).
  assert (E : fst <$> m demo_tree = Some (0, 0, - EEXIST, 1)) by (vm_compute; reflexivity).
  revert E. unfold m. unfold mbind, M_bind, gets.
  destruct (ept_tree_create_entry demo_gfn demo_pte demo_tree) as [[r1 t1]|]; [|discriminate].
  destruct (ept_tree_create_entry demo_gfn (demo_pte + 4096) t1) as [[r2 t2]|] eqn:E2; [|discriminate].
  intros [= -> H1 -> H2]. exists t1, t2. split; [reflexivity|]. split; [exact H1|].
  split; [exact E2|exact H2].
Qed.
