(* ===== verification/Ept2.v ===== *)
(** * EPT violations, EPT misconfigurations and the listener of the address space
    (src/core/ept2.c)

    The EPT tree of a VM is the data of the listener that the VM registers with its
    guest address space, so the state is a [hax_gpa_space] whose listener data is a
    [hax_ept_tree]. *)

From stdpp Require Import base numbers list gmap.
From Stdlib Require Import ZArith Lia.
From S2P Require Import Prelude HaxList Bitmap MemTypes Ramblock Memslot GpaSpace EptTree.
#[local] Open Scope Z_scope.

Section Ept2.
Context {HH : Host} {PH : PhysHost}.
Notation st := (hax_gpa_space hax_ept_tree).
Implicit Types g : st.

(** Runs an operation on the tree. *)
Definition on_tree {A} (m : M hax_ept_tree A) : M st A := fun g =>
  match m (gs_opaque g) with
  | Some (a, t) => Some (a, with_opaque t g)
  | None => None
  end.

(** ** The listener *)
Definition ept_handle_mapping_removed (start_gfn npages uva flags : Z) : M hax_ept_tree unit :=
  _ ← ept_tree_invalidate_entries start_gfn npages; mret tt.

Definition ept_handle_mapping_changed (start_gfn npages old_uva old_flags new_uva new_flags : Z)
    : M hax_ept_tree unit :=
  _ ← ept_tree_invalidate_entries start_gfn npages; mret tt.

(** The listener a VM registers: [mapping_added] is NULL. *)
Definition ept_listener (addr : Z) : hax_gpa_space_listener hax_ept_tree :=
  Listener addr None
    (Some (fun s n u f t => snd <$> ept_handle_mapping_removed s n u f t))
    (Some (fun s n u f u' f' t => snd <$> ept_handle_mapping_changed s n u f u' f' t)).

(** ** EPT violations *)
(** The part of the slot that the chunk backs: start address, size and offset within the
    chunk. *)
Definition violation_range (slot : hax_memslot) (block : hax_ramblock) (chunk : hax_chunk)
    : Z * Z * Z :=
  let chunk_offset_low := ck_base_uva chunk -! rb_base_uva block in
  let start_gpa := ms_base_gfn slot <<! PG_ORDER_4K in
  let '(start_gpa, offset_within_chunk) :=
    if ms_offset_within_block slot <? chunk_offset_low
    then (start_gpa +! (chunk_offset_low -! ms_offset_within_block slot), 0)
    else (start_gpa, ms_offset_within_block slot -! chunk_offset_low) in
  let chunk_offset_high := chunk_offset_low +! ck_size chunk in
  let slot_offset_high := ms_offset_within_block slot +! (ms_npages slot <<! PG_ORDER_4K) in
  let size := ck_size chunk -! offset_within_chunk in
  let size := if slot_offset_high <? chunk_offset_high
              then size -! (chunk_offset_high -! slot_offset_high) else size in
  (start_gpa, size, offset_within_chunk).

(** Returns the code and, for -EFAULT, [*fault_gfn]. *)
Definition ept_handle_access_violation (qual gpa : Z) : M st (Z * option Z) :=
  let gfn := gpa >>! PG_ORDER_4K in
  slot ← memslot_find gfn;
  match slot with
  | None => mret (0, None)
  | Some slot =>
      let combined_perm := u32 ((qual >>! 3) &! 7) in
      if negb (combined_perm =? HAX_EPT_PERM_NONE) then
        if (negb (qual &! HAX_EPT_ACC_W =? 0) && (combined_perm &! HAX_EPT_PERM_W =? 0) &&
            (ms_flags slot =? HAX_MEMSLOT_READONLY))%bool
        then mret (0, None) else mret (- EACCES, None)
      else
        fault ← gpa_space_is_chunk_protected gfn;
        match fault with
        | Some fault_gfn => mret (- EFAULT, Some fault_gfn)
        | None =>
            let offset_within_slot := gpa -! (ms_base_gfn slot <<! PG_ORDER_4K) in
            hax_assert (offset_within_slot <? ms_npages slot <<! PG_ORDER_4K);;
            hax_assert (negb (ms_block slot =? 0));;
            let offset_within_block := ms_offset_within_block slot +! offset_within_slot in
            block ← get_block (ms_block slot);
            hax_assert (offset_within_block <? rb_size block);;
            chunk ← ramblock_get_chunk (ms_block slot) offset_within_block true;
            match chunk with
            | None => mret (- ENOMEM, None)
            | Some chunk =>
                let '(start_gpa, size, offset_within_chunk) :=
                  violation_range slot block chunk in
                ret ← on_tree (ept_tree_create_entries (hax_get_pfn_user (ck_memdesc chunk))
                         (start_gpa >>! PG_ORDER_4K) (size >>! PG_ORDER_4K) (ck_size chunk)
                         offset_within_chunk (u8 (ms_flags slot)));
                if ret <? 0 then mret (ret, None) else mret (1, None)
            end
        end
  end.

(** ** EPT misconfigurations *)
Record epte_fixer_bundle := Bundle {
  fb_slot : option hax_memslot;
  fb_misconfigured_count : Z;
  fb_error_count : Z;
}.

Definition slot_readonly (slot : option hax_memslot) : bool :=
  match slot with
  | Some s => negb (ms_flags s &! HAX_MEMSLOT_READONLY =? 0)
  | None => false
  end.

(** The value that [fix_epte] computes for a present entry. *)
Definition fixed_epte (level value : Z) (slot : option hax_memslot) : Z :=
  if ((level =? HAX_EPT_LEVEL_PT) && match slot with None => true | Some _ => false end)%bool
  then 0
  else
    let w_bit := Z.lxor HAX_EPT_PERM_RWX HAX_EPT_PERM_RX in
    let v := value |! HAX_EPT_PERM_RWX in
    let v := if level =? HAX_EPT_LEVEL_PT then
               (if slot_readonly slot then v &! (2 ^ 64 - 1 - w_bit) else v) |!
               Z.shiftl HAX_EPT_MEMTYPE_WB 3
             else v in
    let preserved_bits := HAX_EPT_PERM_RWX in
    let preserved_bits := preserved_bits |! Z.shiftl (Z.shiftl 1 (36 - 12) - 1) 12 in
    let preserved_bits := preserved_bits |! Z.shiftl 1 8 in
    let preserved_bits := if level =? HAX_EPT_LEVEL_PT
                          then preserved_bits |! Z.shiftl 0x7 3 else preserved_bits in
    v &! preserved_bits.

Definition fix_epte : epte_visitor epte_fixer_bundle := fun gfn level epte bundle =>
  old_epte ← read_epte epte;
  if epte_perm old_epte =? HAX_EPT_PERM_NONE then mret bundle
  else
    let new_epte := fixed_epte level old_epte (fb_slot bundle) in
    if negb (old_epte =? new_epte) then
      let bundle := Bundle (fb_slot bundle) (fb_misconfigured_count bundle + 1)
                      (fb_error_count bundle) in
      if negb (epte_pfn old_epte =? epte_pfn new_epte) then
        mret (Bundle (fb_slot bundle) (fb_misconfigured_count bundle)
                (fb_error_count bundle + 1))
      else _ ← cmpxchg64 old_epte new_epte epte; mret bundle
    else mret bundle.

Definition ept_handle_misconfiguration (gpa : Z) : M st Z :=
  let gfn := gpa >>! PG_ORDER_4K in
  slot ← memslot_find gfn;
  bundle ← on_tree (ept_tree_walk gfn fix_epte (Bundle slot 0 0));
  if negb (fb_error_count bundle =? 0) then mret (- fb_error_count bundle)
  else mret (fb_misconfigured_count bundle).
End Ept2.
