(* ===== verification/Ept2Proof.v ===== *)
(** * The EPT tree agrees with the guest address map

    [coherent]: every translation the processor can find in the EPT tree leads to the
    page that the guest address space maps at that frame, in a chunk that is pinned,
    with the permissions of the slot.  This file has the invariant and the rules for
    the EPT violation handler and for the listener callbacks. *)

From stdpp Require Import base numbers list gmap.
From Stdlib Require Import ZArith Lia.
From S2P Require Import Prelude HaxList Bitmap MemTypes Ramblock Memslot MemslotSpec.
From S2P Require Import MemslotOwn MemslotPhase MemslotLoop MemslotNotify MemslotCorrect.
From S2P Require Import SimpleHost MemslotProps GpaSpace GpaAccess GpaProt EptTree EptProof.
From S2P Require Import EptRules EptProps Ept2.
#[local] Open Scope Z_scope.

Section Coherence.
Context {HH : Host} {PH : PhysHost} {PL : PhysHostLaws PH}.
Notation st := (hax_gpa_space hax_ept_tree).
Implicit Types (g : st) (s : hax_memslot) (b : hax_ramblock) (c : hax_chunk).

(** ** The invariant *)
Definition line_perm (ln : line) : Z :=
  if ln_readonly ln =? 0 then HAX_EPT_PERM_RWX else HAX_EPT_PERM_RX.

(** The entry for the page of the block [b] at offset [off], in its chunk [c]. *)
Definition chunk_pte (ln : line) b c (gfn : Z) : Z :=
  make_epte (line_perm ln) HAX_EPT_MEMTYPE_WB
    (hax_get_pfn_user (ck_memdesc c) (rb_base_uva b + line_offset ln gfn - ck_base_uva c)).

(** [v] is the entry that the address map prescribes for [gfn]. *)
Definition page_entry g (gfn v : Z) : Prop :=
  exists ln b c, slot_lookup (gs_memslot_list g) gfn = Some ln /\
    nl_get (ln_block ln) (gs_ramblock_list g) = Some b /\
    rb_chunks b !! Z.to_nat (line_offset ln gfn / 2 ^ 21) = Some (Some c) /\
    v = chunk_pte ln b c gfn.

Definition coherent g : Prop :=
  forall gfn, gfn_ok gfn -> hw_walk (gs_opaque g) gfn <> 0 ->
    page_entry g gfn (hw_walk (gs_opaque g) gfn).

Record vm_inv g : Prop := {
  vi_space : space_inv g;
  vi_prot : prot_inv (gs_prot g);
  vi_ept : ept_ok (gs_opaque g);
  vi_coherent : coherent g;
}.

(** Every slot lies inside its block, page-aligned. *)
Definition slots_backed g : Prop :=
  forall s b, s ∈ gs_memslot_list g -> nl_get (ms_block s) (gs_ramblock_list g) = Some b ->
    ms_offset_within_block s mod 4096 = 0 /\
    ms_offset_within_block s + ms_npages s * 4096 <= rb_size b.

(** Pinned pages have valid frame numbers. *)
Definition pfns_valid : Prop :=
  forall md off, 0 <= hax_get_pfn_user md off < 2 ^ 40 /\ hax_get_pfn_user md off <> INVALID_PFN.

Lemma slot_perm_line s : slot_perm (u8 (ms_flags s)) = line_perm (slot_line s).
Proof.
  unfold slot_perm, line_perm, slot_line. cbn [ln_readonly]. rewrite u8_readonly.
  by destruct (_ =? 0).
Qed.

(** Pinning more chunks keeps the entries. *)
Lemma page_entry_step p g g' gfn v :
  block_step p g g' -> page_entry g gfn v -> page_entry g' gfn v.
Proof.
  intros (Hf & _ & Ho & Hb) (ln & b & c & Hl & Hg & Hc & ->). pose proof Hf as (Hm & _).
  destruct (decide (ln_block ln = p)) as [Heq|Hne].
  - rewrite Heq in Hg. destruct (Hb b Hg) as (b' & Hg' & (_ & Hbase & _) & _ & _ & Hk).
    exists ln, b', c. rewrite Hm, Heq. split_and!; [done|done|by apply Hk|].
    unfold chunk_pte. by rewrite Hbase.
  - exists ln, b, c. rewrite Hm, Ho by done. by split_and!.
Qed.

(** ** The range that a chunk backs *)
Section Range.
Context (s : hax_memslot) (b : hax_ramblock) (c : hax_chunk) (off : Z).
Context (Hs : range_wf s) (Hbw : block_wf b).
Context (Hal : ms_offset_within_block s mod 4096 = 0)
        (Hfit : ms_offset_within_block s + ms_npages s * 4096 <= rb_size b).
Context (Ho : ms_offset_within_block s <= off < ms_offset_within_block s + ms_npages s * 4096).
Context (Hc : chunk_ok b (Z.to_nat (off / 2 ^ 21)) c).

Notation o := (ms_offset_within_block s).
Notation low := (off / 2 ^ 21 * 2 ^ 21).
Notation high := (low + ck_size c).

(** The first and one past the last block offset of the range. *)
Definition range_lo : Z := Z.max o low.
Definition range_hi : Z := Z.min (o + ms_npages s * 4096) high.

Lemma chunk_bounds :
  0 <= off < rb_size b /\ ck_base_uva c = rb_base_uva b + low /\
  ck_size c = Z.min (2 ^ 21) (rb_size b - low) /\ low <= off < low + 2 ^ 21 /\ 0 <= low.
Proof using Hs Hfit Ho Hc.
  destruct (range_bounds s Hs) as (? & ? & ? & ? & ?).
  destruct Hc as [Hcb Hcs]. rewrite chunk_size_val in Hcb, Hcs.
  assert (0 <= off / 2 ^ 21) by (apply Z.div_pos; lia).
  rewrite Z2Nat.id in Hcb, Hcs by done.
  pose proof (Z.div_mod off (2 ^ 21)). pose proof (Z.mod_pos_bound off (2 ^ 21)). lia.
Qed.

Lemma range_facts :
  range_lo <= off < range_hi /\ o <= range_lo /\ low <= range_lo /\
  range_hi <= o + ms_npages s * 4096 /\ range_hi <= high /\
  (range_lo - o) mod 4096 = 0 /\ (range_hi - range_lo) mod 4096 = 0.
Proof using Hs Hal Hfit Ho Hc.
  destruct chunk_bounds as (? & ? & Hsz & ? & ?). unfold range_lo, range_hi.
  assert (Hlow : low mod 4096 = 0).
  { replace low with (off / 2 ^ 21 * 512 * 4096) by lia. apply Z.mod_mul. lia. }
  pose proof (Z.div_mod o 4096 ltac:(lia)) as Ho4. rewrite Hal in Ho4.
  pose proof (Z.div_mod low 4096 ltac:(lia)) as Hl4. rewrite Hlow in Hl4.
  set (qo := o / 4096) in *. set (ql := low / 4096) in *.
  assert (Hmul : forall x k, x = k * 4096 -> x mod 4096 = 0) by (intros x k ->; apply Z.mod_mul; lia).
  split; [lia|]. split; [lia|]. split; [lia|]. split; [lia|]. split; [lia|]. split.
  - apply (Hmul _ (Z.max qo ql - qo)). lia.
  - (* the end is the end of the slot or of a full chunk *)
    assert (Z.min (o + ms_npages s * 4096) high = 4096 * Z.min (qo + ms_npages s) (ql + 512)) as ->.
    { rewrite Hsz. lia. }
    apply (Hmul _ (Z.min (qo + ms_npages s) (ql + 512) - Z.max qo ql)). lia.
Qed.

Lemma violation_range_val :
  violation_range s b c =
  (ms_base_gfn s * 4096 + (range_lo - o), range_hi - range_lo, range_lo - low).
Proof using Hs Hbw Hal Hfit Ho Hc.
  destruct (range_bounds s Hs) as (? & ? & ? & ? & ?).
  destruct chunk_bounds as (? & Hb & Hsz & ? & ?). destruct range_facts as (? & ? & ? & ? & ? & _ & _).
  pose proof (bw_base _ Hbw). pose proof (bw_top _ Hbw). pose proof (bw_size _ Hbw).
  unfold violation_range, PG_ORDER_4K, MAX_BLOCK_SIZE, range_lo, range_hi in *.
  rewrite !shiftl64_12 by lia.
  replace (ck_base_uva c - rb_base_uva b) with low by lia. rewrite (u64_small low) by lia.
  rewrite (u64_small (low + ck_size c)), (u64_small (o + ms_npages s * 4096)) by lia.
  destruct (Z.ltb_spec o low).
  - rewrite (u64_small (low - o)), (u64_small (_ + (low - o))), (u64_small (ck_size c - 0)) by lia.
    rewrite Z.max_r by lia.
    destruct (Z.ltb_spec (o + ms_npages s * 4096) high).
    + rewrite (u64_small (high - _)), (u64_small (ck_size c - 0 - _)) by lia.
      rewrite !pair_equal_spec; lia.
    + rewrite !pair_equal_spec; lia.
  - rewrite (u64_small (o - low)), (u64_small (ck_size c - (o - low))) by lia.
    rewrite Z.max_l by lia.
    destruct (Z.ltb_spec (o + ms_npages s * 4096) high).
    + rewrite (u64_small (high - _)), (u64_small (ck_size c - (o - low) - _)) by lia.
      rewrite !pair_equal_spec; lia.
    + rewrite !pair_equal_spec; lia.
Qed.

(** The frames of the range. *)
Definition range_start : Z := ms_base_gfn s + (range_lo - o) / 4096.
Definition range_npages : Z := (range_hi - range_lo) / 4096.

Lemma range_frames :
  range_lo = o + (range_start - ms_base_gfn s) * 4096 /\
  range_hi = range_lo + range_npages * 4096 /\ 0 < range_npages /\
  ms_base_gfn s <= range_start /\ range_start + range_npages <= s_end s /\
  range_start <= ms_base_gfn s + (off - o) / 4096 < range_start + range_npages.
Proof using Hs Hal Hfit Ho Hc.
  destruct range_facts as (H1 & H2 & H3 & H4 & H5 & Ha & Hb). unfold range_start, range_npages.
  pose proof (Z.div_mod (range_lo - o) 4096 ltac:(lia)) as E1. rewrite Ha in E1.
  pose proof (Z.div_mod (range_hi - range_lo) 4096 ltac:(lia)) as E2. rewrite Hb in E2.
  pose proof (Z.div_mod (off - o) 4096 ltac:(lia)) as E3.
  pose proof (Z.mod_pos_bound (off - o) 4096 ltac:(lia)). unfold s_end. lia.
Qed.

(** A frame of the range belongs to the slot, and its page to the chunk. *)
Lemma range_frame gfn :
  range_start <= gfn < range_start + range_npages ->
  covers s gfn = true /\ line_offset (slot_line s) gfn / 2 ^ 21 = off / 2 ^ 21 /\
  range_lo - low + (gfn - range_start) * 4096 =
    rb_base_uva b + line_offset (slot_line s) gfn - ck_base_uva c.
Proof using Hs Hal Hfit Ho Hc.
  intros Hg. destruct range_frames as (E1 & E2 & ? & ? & ? & _).
  destruct range_facts as (? & ? & ? & ? & ? & _ & _). destruct chunk_bounds as (? & Hb & Hsz & ? & ?).
  assert (Hlo : line_offset (slot_line s) gfn = o + (gfn - ms_base_gfn s) * 4096)
    by (unfold line_offset, slot_line; cbn; lia).
  rewrite Hlo. split_and!; [apply covers_iff; lia| |lia].
  symmetry. apply Z.div_unique with (o + (gfn - ms_base_gfn s) * 4096 - low); lia.
Qed.
End Range.

(** ** Filling the range *)
Lemma line_perm_range ln : 0 < line_perm ln < 8.
Proof. unfold line_perm, HAX_EPT_PERM_RWX, HAX_EPT_PERM_RX. case_match; lia. Qed.

Lemma chunk_pte_present ln b c gfn : pfns_valid -> chunk_pte ln b c gfn <> 0.
Proof.
  intros Hp. unfold chunk_pte. destruct (Hp (ck_memdesc c)
    (rb_base_uva b + line_offset ln gfn - ck_base_uva c)) as [? _].
  apply make_epte_present; [apply line_perm_range|unfold HAX_EPT_MEMTYPE_WB; lia|done].
Qed.

(** The entries that are created agree with the map, so no other entry is in the way. *)
Lemma fill_rule g s b c off :
  pfns_valid -> space_inv g -> ept_ok (gs_opaque g) -> coherent g -> slots_backed g ->
  s ∈ gs_memslot_list g -> nl_get (ms_block s) (gs_ramblock_list g) = Some b ->
  ms_offset_within_block s <= off < ms_offset_within_block s + ms_npages s * 4096 ->
  rb_chunks b !! Z.to_nat (off / 2 ^ 21) = Some (Some c) ->
  exists r t',
    ept_tree_create_entries (hax_get_pfn_user (ck_memdesc c)) (range_start s off)
      (range_npages s c off) (ck_size c) (range_lo s off - off / 2 ^ 21 * 2 ^ 21)
      (u8 (ms_flags s)) (gs_opaque g) = Some (r, t') /\
    ept_ok t' /\ coherent (with_opaque t' g) /\
    (0 <= r /\ hw_walk t' (ms_base_gfn s + (off - ms_offset_within_block s) / 4096) <> 0 \/
     r = - ENOMEM /\ host_refused (et_phys (gs_opaque g)) (et_phys t')).
Proof.
  intros Hpv Hinv Hept Hco Hbk Hin Hb Ho Hck. destruct (Hbk s b Hin Hb) as [Hal Hfit].
  destruct (ram_inv_block _ _ _ (st_ram _ _ _ _ (si_own _ Hinv)) Hb) as (Hbw & _ & _).
  pose proof (bw_chunks _ Hbw _ _ Hck) as Hcok.
  assert (Hrs : range_wf s).
  { pose proof (sw_range _ (si_slots _ Hinv)) as Hr. rewrite Forall_forall in Hr. auto. }
  destruct (range_bounds s Hrs) as (? & ? & Hend & ? & ?).
  destruct (range_frames s b c off Hrs Hal Hfit Ho Hcok) as (E1 & E2 & Hn & Hst & Hen & Hmid).
  destruct (range_facts s b c off Hrs Hal Hfit Ho Hcok) as (? & ? & ? & ? & ? & _ & _).
  destruct (chunk_bounds s b c off Hrs Hfit Ho Hcok) as (? & Hcb & Hsz & ? & ?). unfold s_end in *.
  set (start := range_start s off) in *. set (np := range_npages s c off) in *.
  set (oc := range_lo s off - off / 2 ^ 21 * 2 ^ 21) in *.
  destruct (create_entries_hw (hax_get_pfn_user (ck_memdesc c)) (gs_opaque g) start np (ck_size c) oc
              (u8 (ms_flags s))) as (r & t' & m & Hrun & Hok & _ & _ & Hm & Hw & Hold & Hcase);
    [intros; apply Hpv|done|lia..|].
  exists r, t'. split; [done|]. split; [done|].
  assert (Hpte : forall gfn, start <= gfn < start + np ->
    make_epte (slot_perm (u8 (ms_flags s))) HAX_EPT_MEMTYPE_WB
      (hax_get_pfn_user (ck_memdesc c) (oc + (gfn - start) * 4096)) = chunk_pte (slot_line s) b c gfn).
  { intros gfn Hg. destruct (range_frame s b c off Hrs Hal Hfit Ho Hcok gfn Hg) as (_ & _ & Eo).
    unfold chunk_pte. rewrite slot_perm_line. do 2 f_equal. exact Eo. }
  assert (Hpe : forall gfn, start <= gfn < start + np -> page_entry g gfn (chunk_pte (slot_line s) b c gfn)).
  { intros gfn Hg. destruct (range_frame s b c off Hrs Hal Hfit Ho Hcok gfn Hg) as (Hcv & Ei & _).
    exists (slot_line s), b, c. split_and!; [|done|by rewrite Ei|done].
    by apply lookup_covered; [apply Hinv|..]. }
  assert (Hco' : coherent (with_opaque t' g)).
  { intros gfn Hg Hnz. change (page_entry g gfn (hw_walk t' gfn)).
    change (hw_walk t' gfn <> 0) in Hnz. rewrite Hw in Hnz |- * by done.
    destruct (Z.leb_spec start gfn); [|by apply Hco]. destruct (Z.ltb_spec gfn m); [|by apply Hco].
    rewrite Hpte by lia. apply Hpe. lia. }
  split; [done|]. destruct Hcase as [(-> & ->)|[(_ & Hlt & Hn0 & Hne)|(Hr & _ & Hh)]]; [|exfalso|by right].
  - left. split; [apply count_range|]. rewrite Hw by (unfold gfn_ok; lia).
    destruct (Z.leb_spec start (ms_base_gfn s + (off - ms_offset_within_block s) / 4096)); [|lia].
    destruct (Z.ltb_spec (ms_base_gfn s + (off - ms_offset_within_block s) / 4096) (start + np)); [|lia].
    rewrite Hpte by lia. by apply chunk_pte_present.
  - rewrite Hpte in Hne by lia. apply Hne.
    destruct (Hco m) as (ln & b2 & c2 & Hl2 & Hb2 & Hc2 & Ev); [unfold gfn_ok; lia|done|].
    destruct (Hpe m ltac:(lia)) as (ln3 & b3 & c3 & Hl3 & Hb3 & Hc3 & Ev3). congruence.
Qed.

(** ** The EPT violation handler *)
Lemma coherent_step p g g' :
  block_step p g g' -> coherent g -> coherent g'.
Proof.
  intros Hst Hco gfn Hg Hnz. pose proof Hst as ((_ & _ & _ & Ho & _) & _). rewrite Ho in *.
  eapply page_entry_step; [exact Hst|]. by apply Hco.
Qed.

Lemma slots_backed_step p b0 g g' :
  nl_get p (gs_ramblock_list g) = Some b0 -> block_step p g g' -> slots_backed g ->
  slots_backed g'.
Proof.
  intros Hg0 (Hf & _ & Ho & Hb) Hbk s b Hs Hg. pose proof Hf as (Hm & _). rewrite Hm in Hs.
  destruct (decide (ms_block s = p)) as [Heq|Hne]; [|rewrite Ho in Hg by done; by apply Hbk].
  destruct (Hb b0 Hg0) as (b' & Hg' & (_ & _ & Hsz) & _). rewrite Heq in Hg.
  assert (b = b') as -> by congruence. rewrite Hsz. apply Hbk; [done|congruence].
Qed.

Lemma space_inv_opaque t g : space_inv g -> space_inv (with_opaque t g).
Proof. intros [Ho Hs]. split; [|done]. by apply Sx_opaque. Qed.

(** The slot of a frame is plain ROM: read-only and not stand-alone. *)
Definition plain_rom g (gfn : Z) : bool :=
  match memslot_search gfn (gs_memslot_list g) with
  | Some s => ms_flags s =? HAX_MEMSLOT_READONLY
  | None => false
  end.

(** The host refused the chunk behind a frame. *)
Definition frame_refused g (gfn : Z) : Prop :=
  exists ln b, slot_lookup (gs_memslot_list g) gfn = Some ln /\
    nl_get (ln_block ln) (gs_ramblock_list g) = Some b /\ chunk_refused b.

(** What the handler returns for a frame and what it leaves.  Bits 5 to 3 of the
    qualification are the permissions of the entry, 0 when it is absent; bit 1 says that
    the access was a write. *)
Definition violation_post g (qual gpa : Z) (r : Z * option Z) g' : Prop :=
  let gfn := gpa / 4096 in
  let perm := (qual / 8) mod 8 in
  match gfn_uva g gfn with
  | None => r = (0, None) /\ g' = g
  | Some _ =>
      let first := gfn / 512 * 512 in
      if negb (perm =? 0) then
        r = (if (Z.testbit qual 1 && negb (Z.testbit qual 4) && plain_rom g gfn)%bool
             then 0 else - EACCES, None) /\ g' = g
      else
        (exists f, r = (- EFAULT, Some f) /\ page_protected (gs_prot g) f = true /\
           first <= f < first + 512 /\
           (forall x, first <= x < f -> page_protected (gs_prot g) x = false) /\ g' = g) \/
        (forall x, first <= x < first + 512 -> page_protected (gs_prot g) x = false) /\
        (r = (- ENOMEM, None) /\
           (frame_refused g gfn \/ host_refused (et_phys (gs_opaque g)) (et_phys (gs_opaque g'))) \/
         r = (1, None) /\ hw_walk (gs_opaque g') gfn <> 0)
  end.

(** The bits that the handler tests. *)
Lemma land_2 a : (a &! 2 =? 0) = negb (Z.testbit a 1).
Proof.
  destruct (Z.testbit a 1) eqn:Eb.
  - apply Z.eqb_neq. intros Ez. pose proof (f_equal (fun x => Z.testbit x 1) Ez) as Hb.
    cbv beta in Hb. by rewrite Z.land_spec, Eb, Z.bits_0 in Hb.
  - apply Z.eqb_eq, Z.bits_inj'. intros n Hn. rewrite Z.land_spec, Z.bits_0.
    destruct (Z.eq_dec n 1) as [->|]; [by rewrite Eb|].
    change 2 with (2 ^ 1). rewrite Z.pow2_bits_false by done. apply andb_false_r.
Qed.

Lemma perm_writable qual : 0 <= qual -> ((qual / 8) mod 8 &! 2 =? 0) = negb (Z.testbit qual 4).
Proof.
  intros Hq. rewrite land_2. change 8 with (2 ^ 3) at 1 2.
  by rewrite Z.mod_pow2_bits_low, Z.div_pow2_bits by lia.
Qed.

Lemma rom_write_test qual s g gfn :
  0 <= qual -> memslot_search gfn (gs_memslot_list g) = Some s ->
  (negb (qual &! HAX_EPT_ACC_W =? 0) && ((qual / 8) mod 8 &! HAX_EPT_PERM_W =? 0) &&
   (ms_flags s =? HAX_MEMSLOT_READONLY))%bool =
  (Z.testbit qual 1 && negb (Z.testbit qual 4) && plain_rom g gfn)%bool.
Proof.
  intros Hq Hs. unfold HAX_EPT_ACC_W, HAX_EPT_PERM_W, plain_rom.
  by rewrite perm_writable, land_2, negb_involutive, Hs.
Qed.

Lemma access_violation_rule g qual gpa :
  pfns_valid -> vm_inv g -> slots_backed g -> 0 <= gpa < 2 ^ 64 -> 0 <= qual ->
  exists r g', ept_handle_access_violation qual gpa g = Some (r, g') /\ vm_inv g' /\
    (forall gfn, gfn_uva g' gfn = gfn_uva g gfn) /\ gs_prot g' = gs_prot g /\
    gs_listener_list g' = gs_listener_list g /\ violation_post g qual gpa r g'.
Proof.
  intros Hpv Hvm Hbk Hgpa Hq. pose proof Hvm as [Hinv Hprot Hept Hco].
  unfold ept_handle_access_violation, violation_post. unfold PG_ORDER_4K.
  rewrite shiftr_12. set (gfn := gpa / 4096).
  assert (Hg0 : 0 <= gfn) by (apply Z.div_pos; lia).
  destruct (memslot_search_spec _ gfn (si_slots _ Hinv)) as [Hlk Hse].
  unfold memslot_find. rewrite gets_run.
  assert (Hgu : gfn_uva g gfn = match memslot_search gfn (gs_memslot_list g) with
    | Some s => match nl_get (ms_block s) (gs_ramblock_list g) with
                | Some b => Some (rb_base_uva b + line_offset (slot_line s) gfn, ln_readonly (slot_line s))
                | None => None end
    | None => None end).
  { unfold gfn_uva. rewrite Hlk. by destruct (memslot_search _ _). }
  rewrite Hgu. destruct (memslot_search gfn (gs_memslot_list g)) as [s|] eqn:Hs; cbn in Hlk.
  2: { exists (0, None), g. by split_and!. }
  destruct (Hse s eq_refl) as [Hin Hc].
  destruct (lookup_block _ _ _ _ _ _ (si_own _ Hinv) Hlk) as [b Hb]. cbn in Hb. rewrite Hb.
  assert (Hperm : u32 ((qual >>! 3) &! 7) = (qual / 8) mod 8).
  { rewrite land_7, Z.shiftr_div_pow2 by lia. change (2 ^ 3) with 8.
    pose proof (Z.mod_pos_bound (qual / 8) 8 ltac:(lia)). apply u32_small. lia. }
  rewrite Hperm. change HAX_EPT_PERM_NONE with 0.
  destruct (negb ((qual / 8) mod 8 =? 0)).
  { rewrite (rom_write_test _ _ g gfn Hq Hs).
    destruct (_ && _)%bool; [exists (0, None), g|exists (- EACCES, None), g];
      split_and!; try done; auto. }
  destruct (chunk_protected_loop_run 512 (gfn / 512 * 512) g Hprot) as (f & Hrunf & Hf);
    [pose proof (Z.div_pos gfn 512); lia|].
  change (gpa_space_is_chunk_protected gfn g = Some (f, g)) in Hrunf.
  rewrite (bind_run _ _ _ _ _ Hrunf). destruct f as [f|].
  { exists (- EFAULT, Some f), g. split_and!; try done. left. exists f.
    destruct Hf as (? & ? & ?). split_and!; try done; lia. }
  assert (Hrs : range_wf s).
  { pose proof (sw_range _ (si_slots _ Hinv)) as Hr. rewrite Forall_forall in Hr. auto. }
  destruct (range_bounds s Hrs) as (? & ? & ? & ? & ?). destruct (Hbk s b Hin Hb) as [Hal Hfit].
  apply covers_iff in Hc. unfold s_end in Hc.
  destruct (ram_inv_block _ _ _ (st_ram _ _ _ _ (si_own _ Hinv)) Hb) as (Hbw & Hp0 & _).
  pose proof (Z.div_mod gpa 4096 ltac:(lia)) as Hgd. fold gfn in Hgd.
  pose proof (Z.mod_pos_bound gpa 4096 ltac:(lia)).
  rewrite !shiftl64_12 by lia. rewrite (u64_small (gpa - _)) by lia.
  rewrite assert_run by (apply Z.ltb_lt; lia).
  rewrite assert_run by (apply negb_true_iff; by apply Z.eqb_neq). cbv zeta.
  set (off := ms_offset_within_block s + (gpa - ms_base_gfn s * 4096)) in *.
  rewrite (u64_small off) by lia.
  rewrite (bind_run _ _ _ _ _ (get_block_run _ _ _ Hb)).
  rewrite assert_run by (apply Z.ltb_lt; lia).
  destruct (get_chunk_rule (ms_block s) b off g Hinv Hb) as (r & g1 & Hrun & Hinv1 & Hst & Hr & Hno);
    [lia|].
  rewrite (bind_run _ _ _ _ _ Hrun). pose proof (same_view_step _ _ _ Hinv Hinv1 Hst) as Hv1.
  destruct Hv1 as (_ & Hgu1 & Hm1 & Hl1 & Hp1 & Ho1).
  pose proof (coherent_step _ _ _ Hst Hco) as Hco1.
  assert (Hvm1 : vm_inv g1) by (split; [done|by rewrite Hp1|by rewrite Ho1|done]).
  destruct r as [c|].
  2: { exists (- ENOMEM, None), g1. split_and!; try done. right. split; [done|]. left.
       split; [done|]. left. exists (slot_line s), b. split_and!; [done|done|].
       by destruct (Hno eq_refl) as [?|?]; [lia|]. }
  destruct (Hr c eq_refl) as (_ & _ & _ & _ & _ & b1 & Hb1 & Hch).
  pose proof Hst as (_ & _ & _ & Hsb). destruct (Hsb b Hb) as (b1' & Hb1' & (_ & Hbase & Hsize) & _).
  assert (b1' = b1) as -> by congruence.
  assert (Hvr : violation_range s b c = violation_range s b1 c)
    by (unfold violation_range; by rewrite Hbase).
  destruct (ram_inv_block _ _ _ (st_ram _ _ _ _ (si_own _ Hinv1)) Hb1) as (Hbw1 & _ & _).
  rewrite Hvr, (violation_range_val s b1 c off Hrs Hbw1 Hal); cycle 1; [lia..|by apply Hbw1|].
  destruct (range_frames s b1 c off Hrs Hal) as (E1 & E2 & Hn & Hst1 & Hen & _); [lia|lia|by apply Hbw1|].
  destruct (fill_rule g1 s b1 c off Hpv Hinv1) as (ret & t' & Hrun2 & Hok2 & Hco2 & Hcase);
    [by rewrite Ho1|done|by apply (slots_backed_step _ _ _ _ Hb Hst)|by rewrite Hm1|done|lia|done|].
  rewrite !shiftr_12.
  replace (ms_base_gfn s * 4096 + (range_lo s off - ms_offset_within_block s))
    with (range_start s off * 4096) by lia.
  rewrite Z.div_mul by lia. fold (range_npages s c off).
  rewrite (bind_run _ _ _ ret (with_opaque t' g1)) by (unfold on_tree; by rewrite Hrun2).
  assert (Hvm2 : vm_inv (with_opaque t' g1)).
  { split; [|by cbn; rewrite Hp1|done|done]. by apply space_inv_opaque. }
  assert (Hmid : ms_base_gfn s + (off - ms_offset_within_block s) / 4096 = gfn).
  { unfold off. replace (_ - ms_offset_within_block s) with (gpa + - ms_base_gfn s * 4096) by lia.
    rewrite Z.div_add by lia. fold gfn. lia. }
  rewrite Hmid in Hcase. destruct Hcase as [[Hr0 Hw]|[-> Hh]].
  - rewrite (proj2 (Z.ltb_ge _ _)) by lia. exists (1, None), (with_opaque t' g1).
    split_and!; try done. right. split; [done|]. by right.
  - exists (- ENOMEM, None), (with_opaque t' g1). split_and!; try done. right.
    split; [done|]. left. split; [done|]. right. cbn. by rewrite <- Ho1.
Qed.

(** ** The listener *)
(** [t'] has lost translations, at least those of the frames in [P]; if no INVEPT is
    pending then it has lost none. *)
Definition drops (P : Z -> Prop) (t t' : hax_ept_tree) : Prop :=
  ept_ok t' /\
  (forall gfn, gfn_ok gfn -> hw_walk t' gfn = hw_walk t gfn \/ hw_walk t' gfn = 0) /\
  (forall gfn, gfn_ok gfn -> P gfn -> hw_walk t' gfn = 0) /\
  (et_invept_pending t' = false -> et_invept_pending t = false /\
     forall gfn, gfn_ok gfn -> hw_walk t' gfn = hw_walk t gfn).

Lemma drops_refl t : ept_ok t -> drops (fun _ => False) t t.
Proof. intros. split; [done|]. split; [by left|]. by split. Qed.

Lemma drops_trans (P Q R : Z -> Prop) t1 t2 t3 :
  drops P t1 t2 -> drops Q t2 t3 -> (forall x, R x -> P x \/ Q x) -> drops R t1 t3.
Proof.
  intros (_ & H1 & H1' & Hp1) (Hok & H2 & H2' & Hp2) HR. split_and!; [done|..].
  - intros gfn Hg. destruct (H2 gfn Hg) as [->|]; [|by right]. by apply H1.
  - intros gfn Hg [Hp|Hq]%HR; [|by apply H2'].
    destruct (H2 gfn Hg) as [->|]; [|done]. by apply H1'.
  - intros [Hq Hs2]%Hp2. destruct (Hp1 Hq) as [? Hs1]. split; [done|].
    intros gfn Hg. rewrite Hs2 by done. by apply Hs1.
Qed.

Lemma invalidate_drops start npages t :
  maps_ok PH -> ept_ok t -> 0 <= start -> 0 <= npages -> start + npages <= GFN_MAX ->
  exists (n : Z) t', ept_tree_invalidate_entries start npages t = Some (n, t') /\
    drops (fun gfn => start <= gfn < start + npages) t t'.
Proof.
  intros Hm Hok Hs Hn Hb. unfold GFN_MAX in *.
  destruct (invalidate_entries_hw t start npages Hm Hok) as (t' & Hrun & Hok' & Hw & Hp & _); [lia..|].
  eexists _, t'. split; [exact Hrun|]. split_and!; [done|..].
  - intros gfn Hg. rewrite Hw by done. destruct (_ && _)%bool; auto.
  - intros gfn Hg Hin. rewrite Hw by done.
    destruct (Z.leb_spec start gfn), (Z.ltb_spec gfn (start + npages)); done || lia.
  - rewrite Hp. intros [Hp1 Hc]%orb_false_elim. split; [done|]. intros gfn Hg. rewrite Hw by done.
    destruct (Z.leb_spec start gfn), (Z.ltb_spec gfn (start + npages)); try done. cbn.
    apply negb_false_iff, Z.eqb_eq in Hc. pose proof (count_zero _ _ _ Hc gfn ltac:(lia)) as Hz.
    unfold present in Hz. apply negb_false_iff, Z.eqb_eq in Hz. done.
Qed.

Lemma call_removed_drops a m t :
  maps_ok PH -> ept_ok t -> mapping_bounded m ->
  exists t', call_removed m (ept_listener a) t = Some t' /\
    drops (fun gfn => mp_start_gfn m <= gfn < mp_start_gfn m + mp_npages m) t t'.
Proof.
  intros Hm Hok (H1 & H2 & H3). destruct (invalidate_drops _ _ t Hm Hok H1 H2 H3) as (c & t' & Hrun & Hd).
  exists t'. split; [|done]. unfold call_removed. cbn [mapping_removed ept_listener].
  unfold ept_handle_mapping_removed. by rewrite (bind_run _ _ _ _ _ Hrun).
Qed.

Lemma call_changed_drops a m t :
  maps_ok PH -> ept_ok t -> mapping_bounded m ->
  exists t', call_changed m (ept_listener a) t = Some t' /\
    drops (fun gfn => mp_start_gfn m <= gfn < mp_start_gfn m + mp_npages m) t t'.
Proof.
  intros Hm Hok (H1 & H2 & H3). destruct (invalidate_drops _ _ t Hm Hok H1 H2 H3) as (c & t' & Hrun & Hd).
  exists t'. split; [|done]. unfold call_changed. cbn [mapping_changed ept_listener].
  unfold ept_handle_mapping_changed. by rewrite (bind_run _ _ _ _ _ Hrun).
Qed.

(** The tree is a listener in the sense of the address space. *)
Lemma ept_listener_ok a : maps_ok PH -> listeners_ok ept_ok [ept_listener a].
Proof.
  intros Hm. apply Forall_singleton. split_and!.
  - intros m t Ht. by exists t.
  - intros m t Hb Ht. destruct (call_removed_drops a m t Hm Ht Hb) as (t' & ? & ? & _). eauto.
  - intros m t Hb Ht. destruct (call_changed_drops a m t Hm Ht Hb) as (t' & ? & ? & _). eauto.
Qed.

Lemma note_drops a n t :
  maps_ok PH -> ept_ok t -> note_bounded n ->
  exists t', note_each n [ept_listener a] t = Some t' /\ drops (fun gfn => note_covers gfn n) t t'.
Proof.
  intros Hm Hok Hb. cbn [note_each]. assert (note_hole n.1 (ept_listener a) t = Some t) as ->.
  { unfold note_hole. destruct n.1 as [h|]; [|done]. by destruct (mp_callback h). }
  cbn [mbind option_bind]. unfold note_bounded, note_covers in *. destruct n.2 as [m|].
  2: { exists t. split; [done|by apply drops_refl]. }
  unfold note_slot. destruct (mp_callback m).
  3: destruct (call_removed_drops a m t Hm Hok ltac:(auto)) as (t' & -> & Hd); exists t';
     split; [done|]; eapply drops_trans; [by apply drops_refl|exact Hd|naive_solver].
  3: destruct (call_changed_drops a m t Hm Hok ltac:(auto)) as (t' & -> & Hd); exists t';
     split; [done|]; eapply drops_trans; [by apply drops_refl|exact Hd|naive_solver].
  all: exists t; split; [done|]; eapply drops_trans; [by apply drops_refl..|naive_solver].
Qed.

Lemma notes_drop a ns t t' :
  maps_ok PH -> ept_ok t -> Forall note_bounded ns ->
  notes_run ns [ept_listener a] t = Some t' -> drops (fun gfn => noted gfn ns) t t'.
Proof.
  intros Hm Hok Hb. revert t Hok. induction Hb as [|n ns Hn Hb IH]; intros t Hok Hrun.
  - injection Hrun as <-. eapply drops_trans; [by apply drops_refl..|].
    intros x Hx. inversion Hx.
  - cbn [notes_run] in Hrun. destruct (note_drops a n t Hm Hok Hn) as (t1 & E & Hd).
    rewrite E in Hrun. cbn [mbind option_bind] in Hrun. eapply drops_trans; [exact Hd|apply IH; [apply Hd|exact Hrun]|].
    intros x Hx. by apply Exists_cons in Hx.
Qed.

(** ** Changing the map *)
(** The block of a mapped frame is in use. *)
Lemma lookup_used g0 l g gfn ln :
  St g0 l [] g -> slot_lookup l gfn = Some ln ->
  exists b, nl_get (ln_block ln) (gs_ramblock_list g) = Some b /\ 0 < rb_ref_count b.
Proof.
  intros Hs (s & Hin & _ & <-)%lookup_elem.
  apply list_elem_of_split in Hin as (l1 & l2 & ->).
  destruct (slot_referenced _ _ _ _ _ _ Hs) as [_ Hr].
  destruct (referenced _ _ _ _ _ Hs Hr) as (_ & b & Hb & Hc). exists b. split; [done|lia].
Qed.

(** Finding the block of the new mapping keeps the blocks. *)
Lemma mapping_block_keeps g uva flags p g1 q b :
  mapping_block_post g uva flags (inr p) g1 -> nl_get q (gs_ramblock_list g) = Some b ->
  exists b1, nl_get q (gs_ramblock_list g1) = Some b1 /\ same_range b b1 /\
             rb_chunks b1 = rb_chunks b.
Proof.
  cbn. destruct (memslot_is_valid flags).
  - intros (_ & (_ & _ & Hk & _) & _) Hb. by apply Hk.
  - intros [_ ->] Hb. exists b. by split_and!.
Qed.

(** A frame that keeps its line keeps its entry: its block has been in use throughout,
    so its chunks are still pinned. *)
Lemma page_entry_final g uva flags p g1 e' g' gfn v :
  mapping_block_post g uva flags (inr p) g1 ->
  St (with_opaque e' g1) (gs_memslot_list g') [] g' ->
  slot_lookup (gs_memslot_list g') gfn = slot_lookup (gs_memslot_list g) gfn ->
  page_entry g gfn v -> page_entry g' gfn v.
Proof.
  intros Hmb Hs Hlk (ln & b & c & Hl & Hb & Hc & ->). rewrite Hl in Hlk.
  destruct (mapping_block_keeps _ _ _ _ _ _ _ Hmb Hb) as (b1 & Hb1 & (_ & Hu1 & _) & Hc1).
  destruct (lookup_used _ _ _ _ _ Hs Hlk) as (b' & Hb' & Hcnt).
  destruct (ev_blocks _ _ (st_evo _ _ _ _ Hs) _ _ Hb') as (b2 & Hb2 & (_ & Hu2 & _) & _ & Hlive).
  assert (b2 = b1) as -> by (cbn in Hb2; congruence). destruct (Hlive Hcnt) as [_ Hc2].
  exists ln, b', c. split_and!; [done|done|by rewrite Hc2, Hc1|].
  unfold chunk_pte. by rewrite Hu2, Hu1.
Qed.

(** The lines after a successful call, for the frames that were not noted. *)
Lemma unnoted_line g d (v : bool) l' gfn ln :
  final_ok d v (gs_memslot_list g) l' ->
  (v = true -> covers_first d (gs_memslot_list g) = false) ->
  slot_lookup (gs_memslot_list g) gfn = Some ln ->
  (covers d gfn = true -> v = true /\ ln = slot_line d) ->
  slot_lookup l' gfn = Some ln.
Proof.
  intros (_ & t & Ht & Hl) Hcf Hlk Hn. rewrite Hl. unfold upd.
  destruct (covers d gfn); [|done]. destruct (Hn eq_refl) as [-> ->].
  unfold target_ok in Ht. destruct Ht as (ln' & -> & [->|Hc]); [done|].
  destruct Hc as [Hc _]. rewrite Hcf in Hc; done.
Qed.

Lemma set_mapping_coherent_rule a start_gfn npages uva flags g :
  maps_ok PH -> vm_inv g -> args_ok start_gfn npages uva flags ->
  gs_listener_list g = [ept_listener a] ->
  (memslot_is_valid flags = true ->
   ~ remaps_first g start_gfn npages uva flags) ->
  exists ret g', memslot_set_mapping start_gfn npages uva flags g = Some (ret, g') /\
    (ret = 0 \/ ret = - EINVAL \/ ret = - ENOMEM) /\ gs_prot g' = gs_prot g /\
    gs_listener_list g' = gs_listener_list g /\
    (ret = - EINVAL -> vm_inv g' /\ gs_opaque g' = gs_opaque g) /\
    (ret = 0 -> vm_inv g' /\ maps_to g start_gfn npages uva flags g' /\
       (forall gfn, gfn_ok gfn -> hw_walk (gs_opaque g') gfn = hw_walk (gs_opaque g) gfn \/
                                hw_walk (gs_opaque g') gfn = 0) /\
       (et_invept_pending (gs_opaque g') = false ->
          forall gfn, gfn_ok gfn -> hw_walk (gs_opaque g') gfn = hw_walk (gs_opaque g) gfn)).
Proof.
  intros Hm [Hinv Hprot Hept Hco] Ha Hls Hfi.
  pose proof (ept_listener_ok a Hm) as Hlok. rewrite <- Hls in Hlok.
  destruct (set_mapping_rule ept_ok _ _ _ _ g Hinv Ha Hlok Hept) as (ret & g' & Hrun & Hpost).
  exists ret, g'. split; [done|].
  destruct Hpost as [((Hown & Hfr & Hbl) & Hv & Hret)|(p & g1 & Hmb & Hpost)].
  { pose proof Hfr as (Hsl & Hl & Hp & Ho & _).
    split_and!; [naive_solver|done|done| |naive_solver]. intros _. split; [|done]. split.
    - split; [done|]. rewrite Hsl. apply Hinv.
    - by rewrite Hp.
    - by rewrite Ho.
    - intros gfn Hg Hnz. rewrite Ho in *. destruct (Hco gfn Hg Hnz) as (ln & b & c & ? & ? & ? & ?).
      exists ln, b, c. rewrite Hsl, Hbl. by split_and!. }
  assert (Hfr1 : gs_listener_list g1 = gs_listener_list g /\ gs_opaque g1 = gs_opaque g /\
                 gs_prot g1 = gs_prot g).
  { cbn in Hmb. destruct (memslot_is_valid flags); [|by destruct Hmb as [_ ->]].
    by destruct Hmb as (_ & (_ & (_ & ? & ? & ? & _) & _) & _). }
  destruct Hfr1 as (Hl1 & Ho1 & Hp1).
  assert (Hret : ret = 0 \/ ret = - ENOMEM) by (destruct Hpost as [(? & _)|(? & _)]; auto).
  assert (Hend : exists e', evo (with_opaque e' g1) g').
  { destruct Hpost as [(_ & _ & Hs)|(_ & d & e' & _ & Hs & _)]; [|exists e'; apply Hs].
    exists (gs_opaque g1). destruct g1. apply Hs. }
  destruct Hend as [e0 Hev]. split_and!; [naive_solver| | | |].
  - rewrite (ev_prot _ _ Hev). exact Hp1.
  - rewrite (ev_listeners _ _ Hev). exact Hl1.
  - intros ->. naive_solver.
  - intros ->. pose proof (set_mapping_success _ _ _ _ _ _ _ _ _ Hinv Hmb Hpost eq_refl
      (ao_npages _ _ _ _ Ha) Hfi) as Hmt.
    destruct Hpost as [(? & _)|(_ & d & e' & Hdest & Hs & Hfin & ns & Hns & Hnb & Hno)]; [done|].
    rewrite Hl1, Ho1, Hls in Hns. destruct (notes_drop a ns _ _ Hm Hept Hnb Hns) as (Hok & Hd & Hz & Hpn).
    assert (Hopq : gs_opaque g' = e') by apply (ev_opaque _ _ (st_evo _ _ _ _ Hs)).
    split; [|split; [done|rewrite Hopq; split; [done|naive_solver]]].
    split; [apply Hmt|by rewrite (ev_prot _ _ Hev), <- Hp1 in *|by rewrite Hopq|].
    intros gfn Hg Hnz. rewrite Hopq in *. destruct (Hd gfn Hg) as [Heq|]; [|done]. rewrite Heq in *.
    pose proof (Hco gfn Hg Hnz) as Hpe. eapply page_entry_final; [exact Hmb|exact Hs| |exact Hpe].
    destruct Hpe as (ln & b & c & Hlk & _). rewrite Hlk.
    eapply unnoted_line; [exact Hfin| |exact Hlk|].
    + intros Hv. destruct (covers_first d _) eqn:Hcf; [|done].
      destruct (covers_first_remaps _ _ _ _ _ _ _ _ Hinv Hmb Hv Hdest Hcf) as (x & _ & _ & Hr).
      destruct (Hfi Hv). by exists x.
    + intros Hcv. destruct (memslot_is_valid flags) eqn:Hv.
      * split; [done|]. destruct (decide (ln = slot_line d)) as [|Hne]; [done|].
        exfalso. apply Hnz. rewrite <- Heq. apply Hz; [done|]. apply (Hno gfn ln); auto.
      * exfalso. apply Hnz. rewrite <- Heq. apply Hz; [done|]. apply (Hno gfn ln); auto.
Qed.

(** ** Protecting guest memory *)
Lemma space_inv_prot p g : space_inv g -> space_inv (with_prot p g).
Proof.
  intros [[Hl Hr Hrf Hk Ha He] Hs]. split; [|done]. split; try done.
  - by destruct Hr.
  - apply evo_refl.
Qed.

Lemma removed_all_drops a first npages t t' :
  maps_ok PH -> ept_ok t -> 0 <= first -> 0 <= npages -> first + npages <= GFN_MAX ->
  removed_all first npages [ept_listener a] t = Some t' ->
  drops (fun gfn => first <= gfn < first + npages) t t'.
Proof.
  intros Hm Hok H1 H2 H3. destruct (invalidate_drops _ _ t Hm Hok H1 H2 H3) as (c & t1 & Hrun & Hd).
  cbn [removed_all mapping_removed ept_listener]. unfold ept_handle_mapping_removed.
  rewrite (bind_run _ _ _ _ _ Hrun). cbn. by intros [= <-].
Qed.

Lemma protect_coherent_rule a start_gpa len flags g :
  maps_ok PH -> vm_inv g -> gs_listener_list g = [ept_listener a] ->
  0 <= start_gpa -> 0 < len -> start_gpa + len <= 2 ^ 64 ->
  exists ret g', gpa_space_protect_range start_gpa len flags g = Some (ret, g') /\ vm_inv g' /\
    (forall gfn, gfn_uva g' gfn = gfn_uva g gfn) /\
    (ret = 0 -> forall gfn, start_gpa / 4096 <= gfn <= (start_gpa + len - 1) / 4096 ->
       if flags &! HAX_RAM_PERM_MASK =? HAX_RAM_PERM_NONE
       then page_protected (gs_prot g') gfn = true /\ hw_walk (gs_opaque g') gfn = 0
       else page_protected (gs_prot g') gfn = false).
Proof.
  intros Hm [Hinv Hprot Hept Hco] Hls H0 Hlen Htop.
  pose proof (ept_listener_ok a Hm) as Hlok. rewrite <- Hls in Hlok.
  destruct (protect_range_rule ept_ok start_gpa len flags g Hprot Hlok Hept H0 Hlen Htop)
    as (ret & g' & Hrun & Hr). exists ret, g'. split; [done|].
  destruct (protect_valid (gs_prot g) start_gpa len flags) eqn:Hvalid.
  2: { destruct Hr as [-> ->]. by split_and!. }
  destruct Hr as (-> & Hprot' & Hbits & Hopq & Heqg).
  assert (Hsl : gs_memslot_list g' = gs_memslot_list g) by (by rewrite Heqg).
  assert (Hbl : gs_ramblock_list g' = gs_ramblock_list g) by (by rewrite Heqg).
  set (first := start_gpa / 4096) in *. set (last := (start_gpa + len - 1) / 4096) in *.
  assert (Hfl : 0 <= first <= last) by (subst first last; split; [apply Z.div_pos; lia|
    apply Z.div_le_mono; lia]).
  assert (Hlast : last < 2 ^ 31 - 1).
  { unfold protect_valid in Hvalid. fold last in Hvalid. bool_hyps. pose proof (pi_end _ Hprot). lia. }
  set (pr := flags &! HAX_RAM_PERM_MASK =? HAX_RAM_PERM_NONE) in *.
  assert (Hd : drops (fun gfn => pr = true /\ first <= gfn <= last) (gs_opaque g) (gs_opaque g')).
  { destruct pr.
    - rewrite Hls in Hopq. eapply drops_trans; [by apply drops_refl| |].
      + eapply removed_all_drops; [done|done| | | |exact Hopq]; unfold GFN_MAX; lia.
      + intros x [_ Hx]. right. lia.
    - rewrite Hopq. eapply drops_trans; [by apply drops_refl..|]. by intros x [? _]. }
  destruct Hd as (Hok & Hw & Hz & Hpn).
  assert (Hu : forall gfn, gfn_uva g' gfn = gfn_uva g gfn).
  { intros gfn. unfold gfn_uva. by rewrite Hsl, Hbl. }
  split_and!; [|done|].
  - split; [|done|done|].
    + rewrite Heqg. by apply space_inv_opaque, space_inv_prot.
    + intros gfn Hg Hnz. destruct (Hw gfn Hg) as [Heq|]; [|done]. rewrite Heq in *.
      destruct (Hco gfn Hg Hnz) as (ln & b & c & ? & ? & ? & ?). exists ln, b, c.
      rewrite Hsl, Hbl. by split_and!.
  - intros _ gfn Hg. rewrite Hbits by lia. fold first last.
    destruct (Z.leb_spec first gfn), (Z.leb_spec gfn last); try lia. cbn [andb].
    destruct pr; [|done]. split; [done|]. apply Hz; [unfold gfn_ok; lia|done].
Qed.
End Coherence.
