(* ===== verification/Ept2Props.v ===== *)
(** * Properties of the EPT event handlers

    The invariant [vm_inv] of a virtual machine's memory: the address space and its
    protection bitmap are well formed, the EPT tree is well formed, and the tree agrees
    with the address map ([coherent]).  Every operation that changes the map, protects
    memory or fills the tree keeps it. *)

From stdpp Require Import base numbers list gmap.
From Stdlib Require Import ZArith Lia.
From S2P Require Import Prelude HaxList Bitmap MemTypes Ramblock Memslot MemslotSpec.
From S2P Require Import MemslotOwn MemslotPhase MemslotLoop MemslotNotify MemslotCorrect.
From S2P Require Import SimpleHost MemslotProps GpaSpace GpaAccess GpaProt EptTree EptProof.
From S2P Require Import EptRules EptProps Ept2 Ept2Proof.
#[local] Open Scope Z_scope.

Section Props.
Context {HH : Host} {PH : PhysHost} {PL : PhysHostLaws PH}.
Notation st := (hax_gpa_space hax_ept_tree).
Implicit Types (g : st).

(** C7. The EPT violation handler keeps the machine's invariant (in particular, every
    translation it creates agrees with the address map), never fails an assertion, and
    returns: 0, changing nothing, for a frame that is not mapped (MMIO); for a frame with
    an entry, 0 when the access is a write that the entry forbids to plain ROM and
    otherwise -EACCES, changing nothing; for a frame without entry, -EFAULT with the
    first protected frame, changing nothing, exactly when one of the 512 frames around it
    is protected; else -ENOMEM, only when the host refused the chunk of the frame
    (memory or pinning) or a page for the tree, or the block is not page-aligned; else
    1, and then the processor finds a translation for the frame.  It never finds a
    conflicting entry (-EEXIST).  Assumed: pinned pages have frame numbers below
    [2 ^ 40 - 1], and slots lie page-aligned inside their blocks. *)
Theorem ept_handle_access_violation_correct g qual gpa :
  pfns_valid -> vm_inv g -> slots_backed g -> 0 <= gpa < 2 ^ 64 -> 0 <= qual ->
  exists r g', ept_handle_access_violation qual gpa g = Some (r, g') /\ vm_inv g' /\
    (forall gfn, gfn_uva g' gfn = gfn_uva g gfn) /\ violation_post g qual gpa r g'.
Proof.
  intros H1 H2 H3 H4 H5.
  destruct (access_violation_rule g qual gpa H1 H2 H3 H4 H5) as (r & g' & ? & ? & ? & _ & _ & ?).
  by exists r, g'.
Qed.

(** C32. Setting a mapping keeps the EPT tree coherent: with the EPT listener registered,
    on a host that maps every page frame it is asked to (a table that cannot be mapped is
    skipped, a finding), after a successful call every translation left in the tree agrees
    with the new map and is backed by a chunk that is still pinned (no stale translation
    and no translation to an unpinned page), and no new translation appears.  Left out are
    requests that remap the whole first slot they touch ([remaps_first], where the new
    mapping may be lost), and the call that fails with -ENOMEM, which leaves the map
    half changed (both are findings). *)
Theorem set_mapping_coherent a start_gfn npages uva flags g :
  maps_ok PH -> vm_inv g -> args_ok start_gfn npages uva flags ->
  gs_listener_list g = [ept_listener a] ->
  (memslot_is_valid flags = true ->
   ~ remaps_first g start_gfn npages uva flags) ->
  exists ret g', memslot_set_mapping start_gfn npages uva flags g = Some (ret, g') /\
    (ret = 0 \/ ret = - EINVAL \/ ret = - ENOMEM) /\ (ret = - EINVAL -> vm_inv g') /\
    (ret = 0 -> vm_inv g' /\ maps_to g start_gfn npages uva flags g' /\
       forall gfn, gfn_ok gfn -> hw_walk (gs_opaque g') gfn = hw_walk (gs_opaque g) gfn \/
                                hw_walk (gs_opaque g') gfn = 0).
Proof.
  intros H1 H2 H3 H4 H5.
  destruct (set_mapping_coherent_rule a _ _ _ _ g H1 H2 H3 H4 H5)
    as (ret & g' & ? & ? & _ & _ & He & H0).
  exists ret, g'. split_and!; [done|done|by intros [? _]%He|].
  intros (? & ? & ? & _)%H0. by split_and!.
Qed.

(** Protecting guest memory: after a successful request without permissions every
    frame of the range is marked and has no translation left, so the next access
    faults; the invariant is kept and the map does not change. *)
Theorem protect_range_coherent a start_gpa len flags g :
  maps_ok PH -> vm_inv g -> gs_listener_list g = [ept_listener a] ->
  0 <= start_gpa -> 0 < len -> start_gpa + len <= 2 ^ 64 ->
  exists ret g', gpa_space_protect_range start_gpa len flags g = Some (ret, g') /\ vm_inv g' /\
    (forall gfn, gfn_uva g' gfn = gfn_uva g gfn) /\
    (ret = 0 -> forall gfn, start_gpa / 4096 <= gfn <= (start_gpa + len - 1) / 4096 ->
       if flags &! HAX_RAM_PERM_MASK =? HAX_RAM_PERM_NONE
       then page_protected (gs_prot g') gfn = true /\ hw_walk (gs_opaque g') gfn = 0
       else page_protected (gs_prot g') gfn = false).
Proof. apply protect_coherent_rule. Qed.
End Props.

(** ** Concrete instances *)
(** A machine with one block of 4 MB, mapped from guest frame 256 on (1024 frames), an
    empty EPT tree and a bitmap for 2048 frames. *)
Definition demo_vm0 : hax_gpa_space (hax_ept_tree (PH := counter_host)) :=
  GpaSpace [demo_block 1 0x10000000] [] [ept_listener 5] (GpaProt (Some (replicate 264 0)) 2048)
    demo_tree [] 10 ∅.

Lemma demo_vm0_inv : vm_inv demo_vm0.
Proof.
  split.
  - split; [|apply slots_wf_nil].
    split; [done| | |constructor|by apply Forall_nil|apply evo_refl].
    + split; [split| |done]; cbn.
      * repeat constructor; set_solver.
      * apply Forall_cons; split; [apply demo_block_wf; lia|by apply Forall_nil].
      * repeat constructor.
      * apply Forall_cons; split; [cbn; lia|by apply Forall_nil].
    + intros p. unfold refs. cbn [demo_vm0 gs_ramblock_list nl_get]. by destruct (_ =? p).
  - split; [cbn; lia|]. cbn [demo_vm0 gs_prot gp_bitmap gp_end_gfn].
    split; [rewrite length_replicate; vm_compute; reflexivity|]. intros j Hj. apply bm_bit_zeros.
  - exact demo_tree_ok.
  - intros gfn Hg. destruct (init_inv raw_tree 1 (2 : Z) eq_refl) with (fr := Some 1 :: @replicate (option Z) 9 None)
      as [HI Hl]; [cbn; lia..|done|done|].
    change (gs_opaque demo_vm0) with demo_tree. rewrite (hw_walk_leaf _ demo_tree gfn HI Hg).
    intros Hn. destruct Hn. apply Hl.
Qed.

Lemma demo_vm_args : args_ok 256 1024 0x10000000 0.
Proof. split; unfold GFN_MAX; try lia. done. Qed.

Lemma set_mapping_coherent_witness :
  exists g', memslot_set_mapping 256 1024 0x10000000 0 demo_vm0 = Some (0, g') /\ vm_inv g' /\
             gfn_uva g' 300 = Some (0x1002c000, 0).
Proof.
  destruct (set_mapping_coherent 5 256 1024 0x10000000 0 demo_vm0 counter_maps_ok demo_vm0_inv
    demo_vm_args eq_refl) as (ret & g' & Hrun & _ & _ & Hok); [intros _; by apply not_inside|].
  assert (E : fst <$> memslot_set_mapping 256 1024 0x10000000 0 demo_vm0 = Some 0)
    by (vm_compute; reflexivity).
  rewrite Hrun in E. injection E as ->. destruct (Hok eq_refl) as (Hvm & [_ Hm] & _).
  exists g'. split; [exact Hrun|]. split; [exact Hvm|]. rewrite Hm. vm_compute. reflexivity.
Defined.

(** The machine after that mapping. *)
Definition demo_vm : hax_gpa_space (hax_ept_tree (PH := counter_host)) :=
  match memslot_set_mapping 256 1024 0x10000000 0 demo_vm0 with
  | Some (_, g) => g
  | None => demo_vm0
  end.

Lemma demo_vm_inv : vm_inv demo_vm /\ gs_listener_list demo_vm = [ept_listener 5].
Proof.
  destruct (set_mapping_coherent_rule 5 256 1024 0x10000000 0 demo_vm0 counter_maps_ok demo_vm0_inv
    demo_vm_args eq_refl) as (ret & g' & Hrun & _ & _ & Hl & _ & Hok); [intros _; by apply not_inside|].
  assert (E : fst <$> memslot_set_mapping 256 1024 0x10000000 0 demo_vm0 = Some 0)
    by (vm_compute; reflexivity).
  rewrite Hrun in E. injection E as ->. destruct (Hok eq_refl) as (Hvm & _).
  unfold demo_vm. rewrite Hrun. split; [exact Hvm|]. rewrite Hl. reflexivity.
Qed.

Lemma demo_vm_backed : slots_backed demo_vm.
Proof.
  intros s b Hin Hb.
  assert (Hl : gs_memslot_list demo_vm = [Memslot 10 256 1024 1 0 0]) by (vm_compute; reflexivity).
  rewrite Hl in Hin. apply list_elem_of_singleton in Hin as ->. cbn [ms_block] in Hb.
  assert (Hsz : rb_size <$> nl_get 1 (gs_ramblock_list demo_vm) = Some 0x400000)
    by (vm_compute; reflexivity).
  rewrite Hb in Hsz. injection Hsz as Hsz. rewrite Hsz. split; [reflexivity|]. cbn. lia.
Qed.

Lemma simple_pfns_valid : pfns_valid.
Proof.
  intros md off. change (0 <= ((md + off) / 4096) mod 2 ^ 36 < 2 ^ 40 /\
                         ((md + off) / 4096) mod 2 ^ 36 <> 2 ^ 40 - 1).
  pose proof (Z.mod_pos_bound ((md + off) / 4096) (2 ^ 36) ltac:(lia)). lia.
Qed.

(** A read of frame 600 faults in its chunk. *)
Lemma ept_handle_access_violation_correct_witness :
  exists g', ept_handle_access_violation 1 (600 * 4096 + 8) demo_vm = Some (1, None, g') /\
             vm_inv g' /\ hw_walk (gs_opaque g') 600 <> 0.
Proof.
  destruct (ept_handle_access_violation_correct demo_vm 1 (600 * 4096 + 8) simple_pfns_valid
    (proj1 demo_vm_inv) demo_vm_backed) as (r & g' & Hrun & Hvm & _ & Hpost); [lia|lia|].
  assert (E : fst <$> ept_handle_access_violation 1 (600 * 4096 + 8) demo_vm = Some (1, None))
    by (vm_compute; reflexivity).
  rewrite Hrun in E. injection E as ->. exists g'. split; [exact Hrun|]. split; [exact Hvm|].
  assert (Hu : gfn_uva demo_vm 600 = Some (0x10158000, 0)) by (vm_compute; reflexivity).
  unfold violation_post in Hpost. change ((600 * 4096 + 8) / 4096) with 600 in Hpost.
  rewrite Hu in Hpost. cbn [Z.eqb negb] in Hpost. change (1 / 8) with 0 in Hpost.
  change (negb (0 mod 8 =? 0)) with false in Hpost. cbv iota in Hpost.
  cbv zeta in Hpost.
  destruct Hpost as [(f & E & _)|[_ [[E _]|[_ Hw]]]]; [discriminate E|discriminate E|exact Hw].
Defined.

Lemma protect_range_coherent_witness :
  exists g', gpa_space_protect_range (300 * 4096) 4096 0 demo_vm = Some (0, g') /\ vm_inv g' /\
             page_protected (gs_prot g') 300 = true /\ hw_walk (gs_opaque g') 300 = 0.
Proof.
  destruct (protect_range_coherent 5 (300 * 4096) 4096 0 demo_vm counter_maps_ok
    (proj1 demo_vm_inv) (proj2 demo_vm_inv)) as (ret & g' & Hrun & Hvm & _ & Hp); [lia|lia|lia|].
  assert (E : fst <$> gpa_space_protect_range (300 * 4096) 4096 0 demo_vm = Some 0)
    by (vm_compute; reflexivity).
  rewrite Hrun in E. injection E as ->. exists g'. split; [exact Hrun|]. split; [exact Hvm|].
  apply (Hp eq_refl 300). split; [reflexivity|]. discriminate.
Defined.

(** The violation handler tests the protection of the 512 guest frames around the
    faulting frame, but fills the entries of the whole host chunk, which the slot may
    map at frames with another alignment.  Frames 256 to 767 are backed by one chunk:
    after frame 300 has been protected, a read of frame 600 makes frame 300 accessible
    to the guest although it is still marked as protected. *)
Theorem protected_frame_mapped :
  exists g1 g2,
    gpa_space_protect_range (300 * 4096) 4096 0 demo_vm = Some (0, g1) /\
    page_protected (gs_prot g1) 300 = true /\ hw_walk (gs_opaque g1) 300 = 0 /\
    ept_handle_access_violation 1 (600 * 4096) g1 = Some (1, None, g2) /\
    page_protected (gs_prot g2) 300 = true /\ epte_perm (hw_walk (gs_opaque g2) 300) = 7.
Proof.
  set (m := r1 ← gpa_space_protect_range (300 * 4096) 4096 0;
            p1 ← gets gs_prot; t1 ← gets gs_opaque;
            r2 ← ept_handle_access_violation 1 (600 * 4096);
            p2 ← gets gs_prot; t2 ← gets gs_opaque;
            mret (r1, page_protected p1 300, hw_walk t1 300, r2, page_protected p2 300,
                  epte_perm (hw_walk t2 300))).
  assert (E : fst <$> m demo_vm = Some (0, true, 0, (1, None), true, 7)) by (vm_compute; reflexivity).
  revert E. unfold m, mbind, M_bind, gets.
  destruct (gpa_space_protect_range (300 * 4096) 4096 0 demo_vm) as [[r1 g1]|]; [|discriminate].
  destruct (ept_handle_access_violation 1 (600 * 4096) g1) as [[r2 g2]|] eqn:E2; [|discriminate].
  intros [= -> H1 H2 -> H3 H4]. exists g1, g2. split; [reflexivity|]. split; [exact H1|].
  split; [exact H2|]. split; [exact E2|]. split; [exact H3|exact H4].
Qed.
