(* ===== verification/VmMemory.v ===== *)
(** * The memory calls of a virtual machine (src/core/memory.c) and INVEPT
    (src/core/ept.c)

    The state is the guest address space with its EPT tree, the EPT capabilities of the
    host, and for every online CPU whether VMXON succeeds there and which EPT
    translations it may have cached.  INVEPT empties the caches, as the processor
    documentation says; nothing else in the program does. *)

From stdpp Require Import base numbers list gmap.
From Stdlib Require Import ZArith Lia.
From S2P Require Import Prelude HaxList Bitmap MemTypes Ramblock Memslot GpaSpace EptTree Ept2.
#[local] Open Scope Z_scope.

Definition ept_cap_WB : Z := Z.shiftl 1 14.
Definition ept_cap_sp2M : Z := Z.shiftl 1 16.
Definition ept_cap_sp1G : Z := Z.shiftl 1 17.
Definition ept_cap_sp512G : Z := Z.shiftl 1 18.
Definition ept_cap_sp256T : Z := Z.shiftl 1 19.
Definition ept_cap_invept : Z := Z.shiftl 1 20.
Definition ept_cap_invept_cw : Z := Z.shiftl 1 25.
Definition ept_cap_invept_ac : Z := Z.shiftl 1 26.
Definition EPT_UNSUPPORTED_FEATURES : Z :=
  ept_cap_sp2M |! ept_cap_sp1G |! ept_cap_sp512G |! ept_cap_sp256T.
Definition EPT_BASIC_CAPS : Z := ept_cap_WB |! ept_cap_invept_ac.
Definition EPT_INVEPT_SINGLE_CONTEXT : Z := 1.
Definition EPT_INVEPT_ALL_CONTEXT : Z := 2.

(** A CPU: the result of VMXON, and the EPT translations that it has cached. *)
Record cpu_t := Cpu {
  cpu_vmxon_ok : bool;
  cpu_tlb : gmap Z Z;
}.

Section VmMemory.
Context {HH : Host} {PH : PhysHost}.

Record vm_t := Vm {
  vm_gpa_space : hax_gpa_space hax_ept_tree;
  vm_ept_capabilities : Z;
  vm_cpus : list cpu_t;
}.
Implicit Types v : vm_t.

Definition set_space (g : hax_gpa_space hax_ept_tree) v : vm_t :=
  Vm g (vm_ept_capabilities v) (vm_cpus v).
Definition set_caps (caps : Z) v : vm_t := Vm (vm_gpa_space v) caps (vm_cpus v).
Definition set_cpus (f : list cpu_t -> list cpu_t) v : vm_t :=
  Vm (vm_gpa_space v) (vm_ept_capabilities v) (f (vm_cpus v)).

(** Runs an operation of the address space. *)
Definition on_space {A} (m : M (hax_gpa_space hax_ept_tree) A) : M vm_t A := fun v =>
  match m (vm_gpa_space v) with
  | Some (a, g) => Some (a, set_space g v)
  | None => None
  end.

(** ** ept.c *)
Definition ept_set_caps (caps : Z) : M vm_t bool :=
  if negb (caps &! EPT_BASIC_CAPS =? EPT_BASIC_CAPS) then mret false
  else
    let caps := if caps &! ept_cap_invept =? 0 then caps |! ept_cap_invept else caps in
    let caps := Z.ldiff caps EPT_UNSUPPORTED_FEATURES in
    old ← gets vm_ept_capabilities;
    hax_assert ((old =? 0) || (caps =? old))%bool;;
    modify (set_caps caps);;
    mret true.

Definition ept_has_cap (cap : Z) : M vm_t bool :=
  caps ← gets vm_ept_capabilities;
  hax_assert (negb (caps =? 0));;
  mret (negb (caps &! cap =? 0)).

(** [asm_invept] on the EPT pointer of the VM drops its cached translations; INVEPT is
    not executed on a CPU where VMXON fails. *)
Definition invept_smpfunc (c : cpu_t) : cpu_t :=
  if cpu_vmxon_ok c then Cpu true ∅ else c.

(** The type INVEPT is executed with; [None] is hax_panic. *)
Definition invept_type (type : Z) : M vm_t (option Z) :=
  if type =? EPT_INVEPT_SINGLE_CONTEXT then
    cw ← ept_has_cap ept_cap_invept_cw;
    if cw : bool then mret (Some type)
    else
      ac ← ept_has_cap ept_cap_invept_ac;
      mret (if ac : bool then Some EPT_INVEPT_ALL_CONTEXT else None)
  else if type =? EPT_INVEPT_ALL_CONTEXT then
    ac ← ept_has_cap ept_cap_invept_ac;
    mret (if ac : bool then Some type else None)
  else mret None.

Definition invept (type : Z) : M vm_t unit :=
  has ← ept_has_cap ept_cap_invept;
  if negb has then mret tt
  else
    ty ← invept_type type;
    match ty with
    | None => stuck
    | Some _ => modify (set_cpus (fmap invept_smpfunc))
    end.

(** ** memory.c *)
Definition handle_alloc_ram (start_uva size : Z) : M vm_t Z :=
  if start_uva =? 0 then mret (- EINVAL)
  else if size =? 0 then mret (- EINVAL)
  else
    r ← on_space (ramblock_add start_uva size);
    let '(ret, _) := r in
    if negb (ret =? 0) then mret ret else mret 0.

Definition hax_vm_add_ramblock (start_uva size : Z) : M vm_t Z := handle_alloc_ram start_uva size.

(** [hax_test_and_clear_bit(0, &invept_pending)] *)
Definition test_and_clear_pending : M vm_t bool :=
  p ← on_space (on_tree (gets et_invept_pending));
  on_space (on_tree (modify (set_invept_pending false)));;
  mret (negb p).

Definition handle_set_ram (start_gpa size start_uva flags : Z) : M vm_t Z :=
  let unmap := negb (flags &! HAX_MEMSLOT_INVALID =? 0) in
  if (unmap && (negb (flags =? HAX_MEMSLOT_INVALID) || negb (start_uva =? 0)))%bool
  then mret (- EINVAL)
  else if (negb unmap && (start_uva =? 0))%bool then mret (- EINVAL)
  else if size =? 0 then mret (- EINVAL)
  else
    let start_gfn := start_gpa >>! PG_ORDER_4K in
    let npages := size >>! PG_ORDER_4K in
    ret ← on_space (gpa_space_adjust_prot_bitmap (start_gfn +! npages));
    if negb (ret =? 0) then mret ret
    else
      ret ← on_space (memslot_set_mapping start_gfn npages start_uva flags);
      if negb (ret =? 0) then mret ret
      else
        was_clear ← test_and_clear_pending;
        (if negb was_clear then invept EPT_INVEPT_SINGLE_CONTEXT else mret tt);;
        mret 0.

(** [struct hax_set_ram_info] and [struct hax_set_ram_info2]; in the former the size has
    32 bits and the flags have 8. *)
Record hax_set_ram_info := SetRamInfo {
  sr_pa_start : Z;
  sr_size : Z;
  sr_flags : Z;
  sr_va : Z;
}.

Definition hax_vm_set_ram (info : hax_set_ram_info) : M vm_t Z :=
  handle_set_ram (sr_pa_start info) (u32 (sr_size info)) (sr_va info) (u8 (sr_flags info)).

Definition hax_vm_set_ram2 (info : hax_set_ram_info) : M vm_t Z :=
  handle_set_ram (sr_pa_start info) (sr_size info) (sr_va info) (sr_flags info).

Definition hax_vm_protect_ram (pa_start size flags : Z) : M vm_t Z :=
  on_space (gpa_space_protect_range pa_start size flags).
End VmMemory.
