(* ===== verification/VmMemoryProps.v ===== *)
(** * Properties of the memory calls of a virtual machine

    The machine invariant adds to [vm_inv] that the caches of the processors agree with
    the EPT tree.  [hax_vm_set_ram] keeps it because it issues the INVEPT that the
    listener requested; [hax_vm_protect_ram] does not. *)

From stdpp Require Import base numbers list gmap.
From Stdlib Require Import ZArith Lia.
From S2P Require Import Prelude HaxList Bitmap MemTypes Ramblock Memslot MemslotSpec.
From S2P Require Import MemslotOwn MemslotPhase MemslotLoop MemslotNotify MemslotCorrect.
From S2P Require Import SimpleHost MemslotProps GpaSpace GpaAccess GpaProt EptTree EptProof.
From S2P Require Import EptRules EptProps Ept2 Ept2Proof Ept2Props VmMemory.
#[local] Open Scope Z_scope.

Section Machine.
Context {HH : Host} {PH : PhysHost} {PL : PhysHostLaws PH}.
Implicit Types (v : vm_t) (g : hax_gpa_space hax_ept_tree).

(** The host supports INVEPT, as [ept_set_caps] demands. *)
Definition caps_ok (caps : Z) : Prop :=
  caps &! ept_cap_invept <> 0 /\ caps &! ept_cap_invept_ac <> 0.

(** What a CPU has cached is what the tree says. *)
Definition tlb_ok t (c : cpu_t) : Prop :=
  forall gfn e, gfn_ok gfn -> cpu_tlb c !! gfn = Some e -> hw_walk t gfn = e.

Record machine_inv (a : Z) v : Prop := {
  mi_vm : vm_inv (vm_gpa_space v);
  mi_listener : gs_listener_list (vm_gpa_space v) = [ept_listener a];
  mi_pending : et_invept_pending (gs_opaque (vm_gpa_space v)) = false;
  mi_caps : caps_ok (vm_ept_capabilities v);
  mi_vmxon : Forall (fun c => cpu_vmxon_ok c = true) (vm_cpus v);
  mi_tlb : Forall (tlb_ok (gs_opaque (vm_gpa_space v))) (vm_cpus v);
}.

(** ** INVEPT *)
Lemma has_cap_run {B} v cap (k : bool -> M vm_t B) :
  vm_ept_capabilities v <> 0 ->
  (ept_has_cap cap ≫= k) v = k (negb (vm_ept_capabilities v &! cap =? 0)) v.
Proof.
  intros Hc. unfold ept_has_cap. unfold mbind at 1, M_bind at 1. rewrite gets_run, assert_run; [done|].
  by apply negb_true_iff, Z.eqb_neq.
Qed.

Lemma caps_nonzero caps : caps_ok caps -> caps <> 0.
Proof. intros [H _] ->. by destruct H. Qed.

Lemma invept_run v type :
  caps_ok (vm_ept_capabilities v) ->
  type = EPT_INVEPT_SINGLE_CONTEXT \/ type = EPT_INVEPT_ALL_CONTEXT ->
  invept type v = Some (tt, set_cpus (fmap invept_smpfunc) v).
Proof.
  intros Hc Hty. pose proof (caps_nonzero _ Hc) as Hnz. destruct Hc as [H1 H2]. unfold invept.
  rewrite has_cap_run by done. rewrite (proj2 (Z.eqb_neq _ _) H1). cbn [negb].
  assert (exists ty, invept_type type v = Some (Some ty, v)) as [ty Hr];
    [|by rewrite (bind_run _ _ _ _ _ Hr)].
  unfold invept_type. destruct Hty as [->| ->]; cbn [Z.eqb EPT_INVEPT_SINGLE_CONTEXT
    EPT_INVEPT_ALL_CONTEXT Pos.eqb].
  - rewrite has_cap_run by done. destruct (negb (_ =? 0)); [by eexists|].
    rewrite has_cap_run by done. rewrite (proj2 (Z.eqb_neq _ _) H2). by eexists.
  - rewrite has_cap_run by done. rewrite (proj2 (Z.eqb_neq _ _) H2). by eexists.
Qed.

Lemma set_caps_ok v caps v' :
  ept_set_caps caps v = Some (true, v') ->
  caps_ok (vm_ept_capabilities v') /\ vm_ept_capabilities v' &! EPT_UNSUPPORTED_FEATURES = 0.
Proof.
  unfold ept_set_caps. destruct (Z.eqb_spec (caps &! EPT_BASIC_CAPS) EPT_BASIC_CAPS) as [Hb|];
    cbn [negb]; [|done].
  set (c := if caps &! ept_cap_invept =? 0 then _ else _).
  assert (Hac : Z.testbit caps 26 = true).
  { apply (f_equal (fun z => Z.testbit z 26)) in Hb. rewrite Z.land_spec in Hb.
    by apply andb_true_iff in Hb as [? _]. }
  assert (Hc : Z.testbit c 20 = true /\ Z.testbit c 26 = true).
  { subst c. destruct (Z.eqb_spec (caps &! ept_cap_invept) 0) as [H0|H0].
    - by rewrite !Z.lor_spec, Hac, !orb_true_r.
    - split; [|done]. destruct (Z.testbit caps 20) eqn:E; [done|]. destruct H0.
      apply Z.bits_inj'. intros n Hn. rewrite Z.land_spec, Z.bits_0.
      change ept_cap_invept with (2 ^ 20).
      destruct (Z.eq_dec n 20) as [->|]; [by rewrite E|].
      rewrite (Z.pow2_bits_false 20 n); [apply andb_false_r|lia]. }
  unfold mbind, M_bind, gets, hax_assert, modify, mret, M_ret. intros Hrun.
  destruct (_ || _)%bool; [|done]. injection Hrun as <-. cbn [vm_ept_capabilities set_caps].
  destruct Hc as [H20 H26]. split; [split|].
  - intros H. apply (f_equal (fun z => Z.testbit z 20)) in H. revert H.
    by rewrite Z.land_spec, Z.ldiff_spec, H20.
  - intros H. apply (f_equal (fun z => Z.testbit z 26)) in H. revert H.
    by rewrite Z.land_spec, Z.ldiff_spec, H26.
  - apply Z.bits_inj'. intros n Hn. rewrite Z.land_spec, Z.ldiff_spec, Z.bits_0.
    by destruct (Z.testbit c n), (Z.testbit EPT_UNSUPPORTED_FEATURES n).
Qed.

Lemma invept_clean t cs :
  Forall (fun c => cpu_vmxon_ok c = true) cs ->
  Forall (fun c => cpu_vmxon_ok c = true) (invept_smpfunc <$> cs) /\
  Forall (tlb_ok t) (invept_smpfunc <$> cs).
Proof.
  intros H. split; apply Forall_fmap; eapply Forall_impl; try exact H; cbn; intros c Hc;
    unfold invept_smpfunc; rewrite Hc; [done|]. intros gfn e _. cbn. by rewrite lookup_empty.
Qed.

(** ** Resizing the bitmap *)
Lemma prot_step_vm g g' :
  prot_step g g' -> prot_inv (gs_prot g') -> vm_inv g ->
  vm_inv g' /\ (forall gfn, gfn_uva g' gfn = gfn_uva g gfn) /\
  gs_memslot_list g' = gs_memslot_list g /\ gs_listener_list g' = gs_listener_list g /\
  gs_opaque g' = gs_opaque g.
Proof.
  intros (g1 & Hh & Heq) Hp [Hinv _ Hept Hco].
  destruct (same_view_host g g1 Hinv Hh) as (Hinv1 & Hu & Hm & Hl & _ & Ho).
  destruct (host_step_blocks _ _ Hh) as (Hb & _ & _). rewrite Heq.
  split_and!; try done. split.
  - by apply space_inv_prot.
  - by rewrite Heq in Hp.
  - cbn. by rewrite Ho.
  - intros gfn Hg Hnz. cbn in *. rewrite Ho in *.
    destruct (Hco gfn Hg Hnz) as (ln & b & c & ? & ? & ? & ?). exists ln, b, c.
    cbn. rewrite Hm, Hb. by split_and!.
Qed.

(** ** hax_vm_set_ram *)
(** The arguments: unsigned words; a stand-alone block does not wrap around. *)
Record ram_args (start_gpa size uva flags : Z) : Prop := {
  ra_gpa : 0 <= start_gpa < 2 ^ 64;
  ra_size : 0 <= size < 2 ^ 64;
  ra_uva : 0 <= uva < 2 ^ 64;
  ra_standalone : memslot_is_valid flags = true -> flag_set flags HAX_MEMSLOT_STANDALONE = true ->
    size <= MAX_BLOCK_SIZE /\ uva + size < 2 ^ 64;
}.

Lemma ram_args_ok start_gpa size uva flags :
  ram_args start_gpa size uva flags -> 0 < size / 4096 ->
  start_gpa / 4096 + size / 4096 < 2 ^ 31 ->
  args_ok (start_gpa / 4096) (size / 4096) uva flags.
Proof.
  intros [Hg Hs Hu Hsa] Hn Hb. pose proof (Z.div_mod size 4096 ltac:(lia)).
  pose proof (Z.mod_pos_bound size 4096 ltac:(lia)). pose proof (Z.div_pos start_gpa 4096).
  split; unfold GFN_MAX; try lia. intros Hv Hf. destruct (Hsa Hv Hf). lia.
Qed.

Lemma prot_step_blocks g g' : prot_step g g' -> gs_ramblock_list g' = gs_ramblock_list g.
Proof. intros (g1 & Hh & ->). by destruct (host_step_blocks _ _ Hh) as (Hb & _). Qed.

(** After the mapping: the pending INVEPT is issued. *)
Lemma finish_run a v g0 g' :
  caps_ok (vm_ept_capabilities v) -> Forall (fun c => cpu_vmxon_ok c = true) (vm_cpus v) ->
  vm_inv g' -> gs_listener_list g' = [ept_listener a] ->
  Forall (tlb_ok (gs_opaque g0)) (vm_cpus v) ->
  (et_invept_pending (gs_opaque g') = false ->
     forall gfn, gfn_ok gfn -> hw_walk (gs_opaque g') gfn = hw_walk (gs_opaque g0) gfn) ->
  exists v', (was_clear ← test_and_clear_pending;
              (if negb was_clear then invept EPT_INVEPT_SINGLE_CONTEXT else mret tt);;
              mret 0) (set_space g' v) = Some (0, v') /\
    machine_inv a v' /\ (forall gfn, gfn_uva (vm_gpa_space v') gfn = gfn_uva g' gfn) /\
    space_inv (vm_gpa_space v').
Proof.
  intros Hc Hx [Hinv Hp Hept Hco] Hl Ht Hpn.
  set (t' := set_invept_pending false (gs_opaque g')).
  assert (Hvm : vm_inv (with_opaque t' g')).
  { destruct Hept as [T HI]. split; [by apply space_inv_opaque|done| |].
    - exists T. by apply (inv_frame_rule _ (gs_opaque g')).
    - exact Hco. }
  set (v1 := set_space (with_opaque t' g') v).
  assert (Hrun : test_and_clear_pending (set_space g' v) =
                 Some (negb (et_invept_pending (gs_opaque g')), v1)) by (by destruct g').
  rewrite (bind_run _ _ _ _ _ Hrun), negb_involutive.
  destruct (et_invept_pending (gs_opaque g')).
  - rewrite (bind_run _ _ _ _ _ (invept_run v1 _ Hc (or_introl eq_refl))). eexists. split; [done|].
    split; [|by split; [|apply space_inv_opaque]].
    destruct (invept_clean t' _ Hx) as [Hx' Ht']. split; try done.
  - eexists. split; [done|]. split; [|by split; [|apply space_inv_opaque]].
    split; try done. eapply Forall_impl; [exact Ht|]. cbn. intros c Hcc gfn e Hg He.
    change (hw_walk (gs_opaque g') gfn = e). rewrite Hpn by done. by apply Hcc.
Qed.

Lemma remaps_first_same g g' start_gfn npages uva flags :
  gs_memslot_list g' = gs_memslot_list g -> gs_ramblock_list g' = gs_ramblock_list g ->
  (forall gfn, gfn_uva g' gfn = gfn_uva g gfn) ->
  remaps_first g' start_gfn npages uva flags -> remaps_first g start_gfn npages uva flags.
Proof.
  intros Hm Hb Hu (x & H1 & H2 & H3 & b & H4 & H5). exists x.
  rewrite Hm in H1. rewrite Hb in H4. split; [done|]. split; [done|]. split; [done|].
  exists b. split; [done|]. by rewrite <- Hu.
Qed.

(** C3. [hax_vm_set_ram2] (and hax_vm_set_ram, with the same handler): for every request
    outside the remap case of [set_mapping_remap_lost], either -EINVAL and the machine invariant, or 0, the
    machine invariant, and the address map updated as requested; the only other result
    is -ENOMEM, of which nothing else is said.  The host
    maps every page frame ([maps_ok]).  In particular after a successful call no CPU has a cached translation
    that differs from the EPT tree, and by [coherent] none that leads to memory that is
    unmapped, remapped or unpinned. *)
Theorem handle_set_ram_correct a v start_gpa size uva flags :
  maps_ok PH -> machine_inv a v -> ram_args start_gpa size uva flags ->
  (memslot_is_valid flags = true ->
   ~ remaps_first (vm_gpa_space v) (start_gpa / 4096) (size / 4096) uva flags) ->
  exists ret v', handle_set_ram start_gpa size uva flags v = Some (ret, v') /\
    (ret = 0 /\ machine_inv a v' /\
       maps_to (vm_gpa_space v) (start_gpa / 4096) (size / 4096) uva flags (vm_gpa_space v') \/
     ret = - EINVAL /\ machine_inv a v' \/
     ret = - ENOMEM).
Proof.
  intros Hm [Hvm Hl Hpd Hc Hx Ht] Hargs Hfi. pose proof Hargs as [Hg Hs Hu _].
  unfold handle_set_ram. set (unmap := negb (flags &! HAX_MEMSLOT_INVALID =? 0)).
  assert (Hself : machine_inv a v) by (by split).
  destruct (_ && _)%bool; [exists (- EINVAL), v; auto|].
  destruct (_ && _)%bool; [exists (- EINVAL), v; auto|].
  destruct (size =? 0); [exists (- EINVAL), v; auto|]. unfold PG_ORDER_4K. rewrite !shiftr_12.
  set (gfn := start_gpa / 4096) in *. set (n := size / 4096) in *.
  assert (0 <= gfn < 2 ^ 52) by (subst gfn; split; [apply Z.div_pos|apply Z.div_lt_upper_bound]; lia).
  assert (0 <= n < 2 ^ 52) by (subst n; split; [apply Z.div_pos|apply Z.div_lt_upper_bound]; lia).
  rewrite u64_small by lia.
  destruct (adjust_prot_rule (gfn + n) (vm_gpa_space v) (vi_prot _ Hvm)) as
    (ret & g1 & Hrun1 & Hst & Hp1 & _ & Hcase); [lia|].
  pose proof (prot_step_blocks _ _ Hst) as Hb1.
  rewrite (bind_run _ _ _ ret (set_space g1 v)) by (unfold on_space; by rewrite Hrun1).
  destruct (prot_step_vm _ _ Hst Hp1 Hvm) as (Hvm1 & Hu1 & Hm1 & Hl1 & Ho1).
  assert (Hmi1 : machine_inv a (set_space g1 v)).
  { split; cbn; try done; [congruence|congruence|]. by rewrite Ho1. }
  destruct Hcase as [[-> Hend]|[_ [[-> _]|[-> _]]]]; cbn [negb Z.eqb];
    [|exists (- EINVAL), (set_space g1 v); auto|exists (- ENOMEM), (set_space g1 v); auto].
  pose proof (pi_end _ Hp1) as Hend2.
  destruct (Z.eq_dec n 0) as [Hn0|Hn0].
  { rewrite (bind_run _ _ _ (- EINVAL) (set_space g1 v)).
    - exists (- EINVAL), (set_space g1 v). auto.
    - unfold on_space, memslot_set_mapping. rewrite Hn0. done. }
  assert (Ha : args_ok gfn n uva flags) by (apply ram_args_ok; [done|subst n; lia|lia]).
  destruct (set_mapping_coherent_rule a gfn n uva flags g1 Hm Hvm1 Ha) as
    (ret & g' & Hrun2 & Hret & _ & Hl2 & Heinv & Hok); [congruence| |].
  { intros Hv Hr. apply (Hfi Hv). by apply (remaps_first_same _ g1). }
  rewrite (bind_run _ _ _ ret (set_space g' v)) by (unfold on_space; cbn; by rewrite Hrun2).
  destruct Hret as [->|[->| ->]]; cbn [negb Z.eqb];
    [|exists (- EINVAL), (set_space g' v)|exists (- ENOMEM), (set_space g' v); auto].
  - destruct (Hok eq_refl) as (Hvm2 & [_ Hmap] & _ & Hsame).
    destruct (finish_run a v g1 g' Hc Hx Hvm2) as (v' & Hrun3 & Hmi & Hu3 & Hsi);
      [congruence|by rewrite Ho1|done|].
    exists 0, v'. split; [done|]. left. split; [done|]. split; [done|]. split; [done|].
    intros x. rewrite Hu3, Hmap. by rewrite Hu1.
  - destruct (Heinv eq_refl) as [Hvm2 Ho2]. split; [done|]. right. left. split; [done|].
    split; cbn; try done; [congruence|congruence|]. by rewrite Ho2, Ho1.
Qed.

(** ** Adding RAM blocks *)
Lemma ramblock_add_vm g start_uva size r g' :
  vm_inv g -> ram_inv g' -> ram_frame g g' -> ramblock_add_post start_uva size g r g' ->
  vm_inv g' /\ forall gfn, gfn_uva g' gfn = gfn_uva g gfn.
Proof.
  intros [[Hown Hsl] Hp Hept Hco] Hri Hfr Hpost. pose proof Hfr as (Hm & Hl & Hpr & Ho & _ & Hn).
  assert (Hget : forall q, nl_get q (gs_ramblock_list g') = nl_get q (gs_ramblock_list g) \/
     nl_get q (gs_ramblock_list g) = None /\
     exists b, nl_get q (gs_ramblock_list g') = Some b /\ rb_ref_count b = 0).
  { destruct Hpost as [(_ & _ & b & Hb & _ & Hnew & _ & _ & Hrc & _ & Hperm)|[(_ & _ & ->)|(_ & ->)]];
      [|by left|by left].
    pose proof (bsw_nodup _ (ri_blocks _ Hri)) as Hnd. rewrite <- Hb in Hnew.
    intros q. destruct (decide (rb_addr b = q)) as [<-|Hne].
    - right. split; [by apply nl_get_None|]. exists b. split; [|done].
      apply (nl_get_elem (H := ramblock_keyed)); [done|]. rewrite Hperm. set_solver.
    - left. by apply (nl_get_perm_cons (H := ramblock_keyed) q b). }
  assert (Hlk : forall gfn ln, slot_lookup (gs_memslot_list g) gfn = Some ln ->
    nl_get (ln_block ln) (gs_ramblock_list g') = nl_get (ln_block ln) (gs_ramblock_list g)).
  { intros gfn ln Hln. destruct (lookup_block _ _ _ _ _ _ Hown Hln) as [b Hb].
    destruct (Hget (ln_block ln)) as [?|[Hn0 _]]; [done|congruence]. }
  split; [split|].
  - split; [|by rewrite Hm]. destruct Hown as [_ _ Hrf Hk Ha _]. unfold own_inv. rewrite Hm.
    split; [done|done| |done| |apply evo_refl].
    + intros q. specialize (Hrf q). destruct (Hget q) as [->|[Hn0 (b & -> & Hc)]]; [done|].
      rewrite Hn0 in Hrf. congruence.
    + eapply Forall_impl; [exact Ha|]. cbn. lia.
  - by rewrite Hpr.
  - by rewrite Ho.
  - intros gfn Hg Hnz. rewrite Ho in *. destruct (Hco gfn Hg Hnz) as (ln & b & c & Hln & ? & ? & ?).
    exists ln, b, c. rewrite Hm, (Hlk _ _ Hln). by split_and!.
  - intros gfn. unfold gfn_uva. rewrite Hm.
    destruct (slot_lookup (gs_memslot_list g) gfn) as [ln|] eqn:Hln; [|done].
    by rewrite (Hlk _ _ Hln).
Qed.

(** Adding a RAM block keeps the machine invariant and the address map: an empty
    range and a range that overlaps another block give -EINVAL, otherwise the result is
    0 and there is a new block for exactly this range, or -ENOMEM. *)
Theorem hax_vm_add_ramblock_correct a v start_uva size :
  machine_inv a v -> 0 <= start_uva -> 0 <= size <= MAX_BLOCK_SIZE -> start_uva + size < 2 ^ 64 ->
  exists ret v', hax_vm_add_ramblock start_uva size v = Some (ret, v') /\ machine_inv a v' /\
    (forall gfn, gfn_uva (vm_gpa_space v') gfn = gfn_uva (vm_gpa_space v) gfn) /\
    let l := gs_ramblock_list (vm_gpa_space v) in
    let l' := gs_ramblock_list (vm_gpa_space v') in
    (ret = 0 /\ 0 < start_uva /\ 0 < size /\ ~ Exists (blocks_overlap start_uva size) l /\
       (exists b, rb_base_uva b = start_uva /\ rb_size b = size /\ l' ≡ₚ b :: l) \/
     ret = - EINVAL /\ l' = l /\
       (start_uva = 0 \/ size = 0 \/ Exists (blocks_overlap start_uva size) l) \/
     ret = - ENOMEM /\ l' = l).
Proof.
  intros Hmi Hu Hs Ht. unfold hax_vm_add_ramblock, handle_alloc_ram.
  destruct (Z.eqb_spec start_uva 0); [exists (- EINVAL), v; auto 10|].
  destruct (Z.eqb_spec size 0); [exists (- EINVAL), v; auto 10|].
  destruct Hmi as [Hvm Hl Hpd Hc Hx Htl].
  destruct (ramblock_add_correct start_uva size (vm_gpa_space v)
    (st_ram _ _ _ _ (si_own _ (vi_space _ Hvm)))) as ([ret p] & g' & Hrun & Hri & Hpost & Hfr); [lia..|].
  rewrite (bind_run _ _ _ (ret, p) (set_space g' v)) by (unfold on_space; by rewrite Hrun).
  destruct (ramblock_add_vm _ _ _ _ _ Hvm Hri Hfr Hpost) as [Hvm' Hgu].
  assert (Hmi' : machine_inv a (set_space g' v)).
  { pose proof Hfr as (_ & Hl' & _ & Ho & _). split; cbn; try done; [congruence|congruence|].
    by rewrite Ho. }
  exists ret, (set_space g' v). split.
  { by destruct (Z.eqb_spec ret 0) as [->|]. }
  split; [done|]. split; [done|]. cbn.
  destruct Hpost as [(Hr & Hno & b & _ & _ & _ & Hb & Hbs & _ & _ & Hperm)|[([= -> ->] & Hov & ->)|([= -> ->] & ->)]].
  - left. cbn in Hr. split_and!; [done|lia|lia|done|by exists b].
  - right. left. auto.
  - right. by right.
Qed.
End Machine.


(** ** Concrete instances *)
Definition demo_machine : vm_t (PH := counter_host) :=
  Vm demo_vm0 (ept_cap_WB |! ept_cap_invept |! ept_cap_invept_ac) [Cpu true ∅; Cpu true ∅].

Lemma demo_machine_inv : machine_inv 5 demo_machine.
Proof.
  split; [apply demo_vm0_inv|reflexivity|reflexivity|split; discriminate|by repeat constructor|].
  repeat constructor; intros gfn e _; cbn; by rewrite lookup_empty.
Qed.

Lemma demo_ram_args : ram_args (256 * 4096) (1024 * 4096) 0x10000000 0.
Proof. split; [lia|lia|lia|done]. Qed.

Lemma handle_set_ram_correct_witness :
  exists v', handle_set_ram (256 * 4096) (1024 * 4096) 0x10000000 0 demo_machine = Some (0, v') /\
             machine_inv 5 v' /\ gfn_uva (vm_gpa_space v') 300 = Some (0x1002c000, 0).
Proof.
  destruct (handle_set_ram_correct 5 demo_machine (256 * 4096) (1024 * 4096) 0x10000000 0
    counter_maps_ok demo_machine_inv demo_ram_args) as (ret & v' & Hrun & Hcase);
    [intros _; by apply not_inside|].
  assert (E : fst <$> handle_set_ram (256 * 4096) (1024 * 4096) 0x10000000 0 demo_machine = Some 0)
    by (vm_compute; reflexivity).
  rewrite Hrun in E. injection E as ->.
  destruct Hcase as [(_ & Hmi & [_ Hm])|[[E _]|E]]; [|discriminate E|discriminate E].
  exists v'. split; [exact Hrun|]. split; [exact Hmi|]. rewrite Hm. vm_compute. reflexivity.
Defined.

Lemma hax_vm_add_ramblock_correct_witness :
  exists v', hax_vm_add_ramblock 0x20000000 0x200000 demo_machine = Some (0, v') /\ machine_inv 5 v' /\
    exists b, b ∈ gs_ramblock_list (vm_gpa_space v') /\ rb_base_uva b = 0x20000000.
Proof.
  destruct (hax_vm_add_ramblock_correct 5 demo_machine 0x20000000 0x200000 demo_machine_inv)
    as (ret & v' & Hrun & Hmi & _ & Hcase); [lia|split; [lia|discriminate]|lia|].
  assert (E : fst <$> hax_vm_add_ramblock 0x20000000 0x200000 demo_machine = Some 0)
    by (vm_compute; reflexivity).
  rewrite Hrun in E. injection E as ->. cbv zeta in Hcase.
  destruct Hcase as [(_ & _ & _ & _ & b & Hb & _ & Hp)|[[E _]|[E _]]]; [|discriminate E|discriminate E].
  exists v'. split; [exact Hrun|]. split; [exact Hmi|]. exists b. split; [|exact Hb].
  rewrite Hp. left.
Defined.

Definition demo_boot (caps : Z) : vm_t (PH := counter_host) :=
  Vm demo_vm0 caps [Cpu true {[ 5 := 7 ]}].


(** ** hax_vm_protect_ram and the caches *)
(** The machine after the guest has read frame 600: its entry is in the tree and cached
    by the second CPU. *)
Definition demo_cached : vm_t (PH := counter_host) :=
  match ept_handle_access_violation 1 (600 * 4096) demo_vm with
  | Some (_, g) => Vm g (ept_cap_WB |! ept_cap_invept |! ept_cap_invept_ac)
                      [Cpu true ∅; Cpu true {[ 600 := hw_walk (gs_opaque g) 600 ]}]
  | None => demo_machine
  end.

(** [hax_vm_protect_ram] removes the translations of the protected range from the
    EPT tree and marks INVEPT as pending, but does not issue it: frame 600 is marked as
    protected and absent from the tree, and a CPU that had its translation cached still
    has it, with all permissions. *)
Theorem protect_ram_stale_tlb :
  exists v' e, hax_vm_protect_ram (600 * 4096) 4096 HAX_RAM_PERM_NONE demo_cached = Some (0, v') /\
    page_protected (gs_prot (vm_gpa_space v')) 600 = true /\
    hw_walk (gs_opaque (vm_gpa_space v')) 600 = 0 /\
    et_invept_pending (gs_opaque (vm_gpa_space v')) = true /\
    (vm_cpus v' !! 1%nat ≫= fun c => cpu_tlb c !! 600) = Some e /\ epte_perm e = 7.
Proof.
  set (obs := fun v : vm_t (PH := counter_host) =>
    (page_protected (gs_prot (vm_gpa_space v)) 600, hw_walk (gs_opaque (vm_gpa_space v)) 600,
     et_invept_pending (gs_opaque (vm_gpa_space v)),
     epte_perm <$> (vm_cpus v !! 1%nat ≫= fun c => cpu_tlb c !! 600))).
  assert (E : prod_map id obs <$> hax_vm_protect_ram (600 * 4096) 4096 HAX_RAM_PERM_NONE demo_cached
              = Some (0, (true, 0, true, Some 7))) by (vm_compute; reflexivity).
  revert E. generalize (hax_vm_protect_ram (600 * 4096) 4096 HAX_RAM_PERM_NONE demo_cached).
  intros [[r v']|]; [|discriminate]. cbn [fmap option_fmap option_map prod_map fst snd id].
  unfold obs. intros [= -> H1 H2 H3 H4].
  destruct (vm_cpus v' !! 1%nat ≫= _) as [e|] eqn:He; [|discriminate]. injection H4 as H4.
  exists v', e. split; [reflexivity|]. split; [exact H1|]. split; [exact H2|]. split; [exact H3|].
  split; [exact He|exact H4].
Qed.
