(* ===== verification/PageWalker.v ===== *)
(** * The guest page walker (src/core/page_walker.c)

    [pw_perform_page_walk] translates a guest virtual address by reading the guest's
    page tables (32-bit, PAE or 4-level paging), checks the access and sets accessed
    and dirty bits.  Page table entries are 64-bit words; their bit-fields are the
    accessors below.  A pointer to an entry is the address of the user memory behind
    the mapped page and the offset of the entry in that page; an access that leaves
    the page is stuck, because only that page is mapped. *)

From stdpp Require Import base numbers list gmap.
From Stdlib Require Import ZArith Lia.
From S2P Require Import Prelude HaxList Bitmap MemTypes Ramblock Memslot GpaSpace.
#[local] Open Scope Z_scope.

(** ** Constants *)
Definition PG_ORDER_2M : Z := 21.
Definition PG_ORDER_4M : Z := 22.
Definition PG_ORDER_1G : Z := 30.
Definition CR0_WP : Z := Z.shiftl 1 16.
Definition CR0_PG : Z := Z.shiftl 1 31.
Definition CR4_PSE : Z := Z.shiftl 1 4.
Definition CR4_PAE : Z := Z.shiftl 1 5.
Definition IA32_EFER_LME : Z := Z.shiftl 1 8.
Definition IA32_EFER_LMA : Z := Z.shiftl 1 10.
Definition IA32_EFER_XD : Z := Z.shiftl 1 11.

Definition TF_OK : Z := 0.
Definition TF_FAILED : Z := 0x80000000.
Definition TF_GP2HP : Z := 0x40000000.
Definition TF_PROTECT : Z := 1.
Definition TF_WRITE : Z := 2.
Definition TF_USER : Z := 4.
Definition TF_RSVD : Z := 8.

Definition PW_INVALID_GPA : Z := 2 ^ 64 - 1.
Definition PW_INVALID_INDEX : Z := 2 ^ 32 - 1.
Definition PW_NUM_OF_PDPT_ENTRIES_IN_32_BIT_MODE : Z := 4.
Definition PW_NUM_OF_TABLE_ENTRIES_IN_PAE_MODE : Z := 512.
Definition PW_PAE_ENTRY_INCREMENT : Z := 8.
Definition PW_NON_PAE_ENTRY_INCREMENT : Z := 4.
Definition PW_PDPTE_INDEX_MASK_IN_32_BIT_ADDR : Z := 0xc0000000.
Definition PW_PDPTE_INDEX_SHIFT : Z := 30.
Definition PW_PDPTE_INDEX_MASK_IN_64_BIT_ADDR : Z := 0x0000007fc0000000.
Definition PW_PML4TE_INDEX_MASK : Z := 0x0000ff8000000000.
Definition PW_PML4TE_INDEX_SHIFT : Z := 39.
Definition PW_PDE_INDEX_MASK_IN_PAE_MODE : Z := 0x3fe00000.
Definition PW_PDE_INDEX_SHIFT_IN_PAE_MODE : Z := 21.
Definition PW_PDE_INDEX_MASK_IN_NON_PAE_MODE : Z := 0xffc00000.
Definition PW_PDE_INDEX_SHIFT_IN_NON_PAE_MODE : Z := 22.
Definition PW_PTE_INDEX_MASK_IN_PAE_MODE : Z := 0x1ff000.
Definition PW_PTE_INDEX_MASK_IN_NON_PAE_MODE : Z := 0x3ff000.
Definition PW_PTE_INDEX_SHIFT : Z := 12.
Definition PW_PDPT_ALIGNMENT : Z := 32.
Definition PW_TABLE_SHIFT : Z := 12.
Definition PW_HIGH_ADDRESS_SHIFT : Z := 32.
Definition PW_2M_PAE_PDE_RESERVED_BITS_IN_ENTRY_LOW_MASK : Z := 0x1fe000.
Definition PW_4M_NON_PAE_PDE_RESERVED_BITS_IN_ENTRY_LOW_MASK : Z := 0x3fe000.
Definition PW_1G_PAE_PDPTE_RESERVED_BITS_IN_ENTRY_LOW_MASK : Z := 0x3fffe000.

Definition ALIGN_BACKWARD (address bytes : Z) : Z := Z.ldiff address (bytes - 1).

(** ** Page table entries: the bit-fields of [PW_PAGE_ENTRY] *)
Definition pe_present (e : Z) : bool := Z.testbit e 0.
Definition pe_writable (e : Z) : bool := Z.testbit e 1.
Definition pe_user (e : Z) : bool := Z.testbit e 2.
Definition pe_page_size (e : Z) : bool := Z.testbit e 7.
Definition pe_exb (e : Z) : bool := Z.testbit e 63.
Definition pe_addr_base_low (e : Z) : Z := (e >>! 12) &! Z.ones 20.
Definition pe_addr_base_high (e : Z) : Z := (e >>! 32) &! Z.ones 20.
Definition pe_avl_or_res (e : Z) : Z := (e >>! 52) &! Z.ones 11.
Definition pe_set_accessed (e : Z) : Z := e |! Z.shiftl 1 5.
Definition pe_set_dirty (e : Z) : Z := e |! Z.shiftl 1 6.

(** A pointer into a mapped page. *)
Record entry_ptr := EntryPtr {
  ep_page : Z;
  ep_off : Z;
}.

(** The paging registers of the virtual CPU ([vcpu->state]) and the reserved-bit mask. *)
Record paging_regs := PagingRegs {
  pr_cr0 : Z;
  pr_cr3 : Z;
  pr_cr4 : Z;
  pr_efer : Z;
  pw_reserved_bits_high_mask : Z;
}.

(** The mask computed from the physical address width in [execute_8000_0008]. *)
Definition reserved_high_mask (physical_address_size : Z) : Z :=
  u32 (Z.lnot (Z.shiftl 1 (physical_address_size - 32) - 1)).

(** The local variables of [pw_perform_page_walk] that do not change. *)
Record walk_ctx := WalkCtx {
  w_nxe : bool;
  w_lme : bool;
  w_wp : bool;
  w_pae : bool;
  w_pse : bool;
  w_write : bool;
  w_user : bool;
  w_fetch : bool;
  w_set_ad_bits : bool;
  w_access : Z;
  w_virt_addr : Z;
  w_rsvd : Z;
}.

Definition bit_set (x mask : Z) : bool := negb (x &! mask =? 0).

Definition walk_context (r : paging_regs) (virt_addr access : Z) (set_ad_bits is_fetch : bool)
    : walk_ctx :=
  WalkCtx (bit_set (pr_efer r) IA32_EFER_XD) (bit_set (pr_efer r) IA32_EFER_LME)
    (bit_set (pr_cr0 r) CR0_WP) (bit_set (pr_cr4 r) CR4_PAE) (bit_set (pr_cr4 r) CR4_PSE)
    (bit_set access TF_WRITE) (bit_set access TF_USER) is_fetch set_ad_bits access virt_addr
    (pw_reserved_bits_high_mask r).

(** ** Indices and addresses *)
Definition pw_retrieve_table_from_cr3 (cr3 : Z) (is_pae is_lme : bool) : Z :=
  if (negb is_pae || is_lme)%bool then ALIGN_BACKWARD cr3 PAGE_SIZE_4K
  else ALIGN_BACKWARD cr3 PW_PDPT_ALIGNMENT.

Record indices := Indices {
  pml4te_index : Z;
  pdpte_index : Z;
  pde_index : Z;
  pte_index : Z;
}.

Definition pw_retrieve_indices {S} (virtual_address : Z) (is_pae is_lme : bool) : M S indices :=
  let low := u32 virtual_address in
  if is_pae then
    let pml4 := if is_lme
      then u32 ((virtual_address &! PW_PML4TE_INDEX_MASK) >>! PW_PML4TE_INDEX_SHIFT)
      else PW_INVALID_INDEX in
    let pdpt := if is_lme
      then u32 ((virtual_address &! PW_PDPTE_INDEX_MASK_IN_64_BIT_ADDR) >>! PW_PDPTE_INDEX_SHIFT)
      else (low &! PW_PDPTE_INDEX_MASK_IN_32_BIT_ADDR) >>! PW_PDPTE_INDEX_SHIFT in
    hax_assert (is_lme || (pdpt <? PW_NUM_OF_PDPT_ENTRIES_IN_32_BIT_MODE))%bool;;
    let pde := (low &! PW_PDE_INDEX_MASK_IN_PAE_MODE) >>! PW_PDE_INDEX_SHIFT_IN_PAE_MODE in
    hax_assert (pde <? PW_NUM_OF_TABLE_ENTRIES_IN_PAE_MODE);;
    let pte := (low &! PW_PTE_INDEX_MASK_IN_PAE_MODE) >>! PW_PTE_INDEX_SHIFT in
    hax_assert (pte <? PW_NUM_OF_TABLE_ENTRIES_IN_PAE_MODE);;
    mret (Indices pml4 pdpt pde pte)
  else
    mret (Indices PW_INVALID_INDEX PW_INVALID_INDEX
      ((low &! PW_PDE_INDEX_MASK_IN_NON_PAE_MODE) >>! PW_PDE_INDEX_SHIFT_IN_NON_PAE_MODE)
      ((low &! PW_PTE_INDEX_MASK_IN_NON_PAE_MODE) >>! PW_PTE_INDEX_SHIFT)).

Definition pw_retrieve_table_entry (table : entry_ptr) (entry_index : Z) (is_pae : bool)
    : entry_ptr :=
  EntryPtr (ep_page table)
    (ep_off table + u32 (entry_index * (if is_pae then PW_PAE_ENTRY_INCREMENT
                                        else PW_NON_PAE_ENTRY_INCREMENT))).

Definition pw_is_big_page_pde (entry : Z) (c : walk_ctx) : bool :=
  if negb (pe_page_size entry) then false
  else if (w_lme c || w_pae c)%bool then true
  else w_pse c.

Definition pw_is_1gb_page_pdpte (entry : Z) : bool := pe_page_size entry.

(** ** Reserved bits *)
Definition pw_are_reserved_bits_in_pml4te_cleared (entry : Z) (c : walk_ctx) : bool :=
  if bit_set (pe_addr_base_high entry) (w_rsvd c) then false
  else if (negb (w_nxe c) && pe_exb entry)%bool then false
  else true.

Definition pw_are_reserved_bits_in_pdpte_cleared (entry : Z) (c : walk_ctx) : bool :=
  if bit_set (pe_addr_base_high entry) (w_rsvd c) then false
  else if negb (w_lme c) then
    if (negb (pe_avl_or_res entry =? 0) || pe_exb entry || pe_writable entry || pe_user entry)%bool
    then false else true
  else if (negb (w_nxe c) && pe_exb entry)%bool then false
  else if (pw_is_1gb_page_pdpte entry &&
           bit_set entry PW_1G_PAE_PDPTE_RESERVED_BITS_IN_ENTRY_LOW_MASK)%bool then false
  else true.

Definition pw_are_reserved_bits_in_pde_cleared (entry : Z) (c : walk_ctx) : bool :=
  if w_pae c then
    if bit_set (pe_addr_base_high entry) (w_rsvd c) then false
    else if (negb (w_nxe c) && pe_exb entry)%bool then false
    else if (negb (w_lme c) && negb (pe_avl_or_res entry =? 0))%bool then false
    else if (pw_is_big_page_pde entry c &&
             bit_set entry PW_2M_PAE_PDE_RESERVED_BITS_IN_ENTRY_LOW_MASK)%bool then false
    else true
  else if (pw_is_big_page_pde entry c &&
           bit_set (u32 entry) PW_4M_NON_PAE_PDE_RESERVED_BITS_IN_ENTRY_LOW_MASK)%bool then false
  else true.

Definition pw_are_reserved_bits_in_pte_cleared (pte : Z) (c : walk_ctx) : bool :=
  if negb (w_pae c) then true
  else if bit_set (pe_addr_base_high pte) (w_rsvd c) then false
  else if (negb (w_lme c) && negb (pe_avl_or_res pte =? 0))%bool then false
  else if (negb (w_nxe c) && pe_exb pte)%bool then false
  else true.

(** ** Permissions

    The entries are passed by pointer; [None] is NULL. *)
Section Permissions.
Context {S : Type}.

Definition entry_present (e : option Z) : M S Z :=
  v ← of_option e; hax_assert (pe_present v);; mret v.

Definition pw_is_write_access_permitted (pml4te pdpte : Z) (pde pte : option Z) (c : walk_ctx)
    : M S bool :=
  if (negb (w_user c) && negb (w_wp c))%bool then mret true
  else
    deny ← (if w_lme c then
              hax_assert (pe_present pml4te);;
              hax_assert (pe_present pdpte);;
              mret (negb (pe_writable pml4te) || negb (pe_writable pdpte))%bool
            else mret false);
    if deny : bool then mret false
    else if pw_is_1gb_page_pdpte pdpte then mret true
    else
      pde ← entry_present pde;
      if negb (pe_writable pde) then mret false
      else if pw_is_big_page_pde pde c then mret true
      else pte ← entry_present pte; mret (pe_writable pte).

Definition pw_is_user_access_permitted (pml4te pdpte : Z) (pde pte : option Z) (c : walk_ctx)
    : M S bool :=
  deny ← (if w_lme c then
            hax_assert (pe_present pml4te);;
            hax_assert (pe_present pdpte);;
            mret (negb (pe_user pml4te) || negb (pe_user pdpte))%bool
          else mret false);
  if deny : bool then mret false
  else if pw_is_1gb_page_pdpte pdpte then mret true
  else
    pde ← entry_present pde;
    if negb (pe_user pde) then mret false
    else if pw_is_big_page_pde pde c then mret true
    else pte ← entry_present pte; mret (pe_user pte).

Definition pw_is_fetch_access_permitted (pml4te pdpte : Z) (pde pte : option Z) (c : walk_ctx)
    : M S bool :=
  deny ← (if w_lme c then
            hax_assert (pe_present pml4te);;
            hax_assert (pe_present pdpte);;
            mret (pe_exb pml4te || pe_exb pdpte)%bool
          else mret false);
  if deny : bool then mret false
  else if pw_is_1gb_page_pdpte pdpte then mret true
  else
    pde ← entry_present pde;
    if pe_exb pde then mret false
    else if pw_is_big_page_pde pde c then mret true
    else pte ← entry_present pte; mret (negb (pe_exb pte)).

(** The three checks that precede the end of a successful walk; [false] is the fault
    [TF_FAILED | TF_PROTECT | access]. *)
Definition access_permitted (pml4te pdpte : Z) (pde pte : option Z) (c : walk_ctx) : M S bool :=
  w ← (if w_write c then pw_is_write_access_permitted pml4te pdpte pde pte c else mret true);
  if negb w then mret false
  else
    u ← (if w_user c then pw_is_user_access_permitted pml4te pdpte pde pte c else mret true);
    if negb u then mret false
    else if (w_pae c && w_nxe c && w_fetch c)%bool
    then pw_is_fetch_access_permitted pml4te pdpte pde pte c
    else mret true.

(** ** Physical addresses *)
Definition pw_retrieve_phys_addr (entry : Z) (is_pae : bool) : M S Z :=
  hax_assert (pe_present entry);;
  if is_pae then
    let addr_low := u32 (Z.shiftl (pe_addr_base_low entry) PW_TABLE_SHIFT) in
    let addr_high := pe_addr_base_high entry in
    mret ((addr_high <<! PW_HIGH_ADDRESS_SHIFT) |! addr_low)
  else mret (pe_addr_base_low entry <<! PW_TABLE_SHIFT).

Definition pw_retrieve_big_page_phys_addr (entry : Z) (is_pae is_1gb : bool) : M S Z :=
  base ← pw_retrieve_phys_addr entry is_pae;
  mret (if is_pae then
          if is_1gb then ALIGN_BACKWARD base (Z.shiftl 1 PG_ORDER_1G)
          else ALIGN_BACKWARD base (Z.shiftl 1 PG_ORDER_2M)
        else ALIGN_BACKWARD base (Z.shiftl 1 PG_ORDER_4M)).

Definition pw_get_big_page_offset (virtual_address : Z) (is_pae is_1gb : bool) : Z :=
  if is_pae then
    if is_1gb then u32 (virtual_address &! (Z.shiftl 1 PG_ORDER_1G - 1))
    else u32 (virtual_address &! (Z.shiftl 1 PG_ORDER_2M - 1))
  else u32 (virtual_address &! (Z.shiftl 1 PG_ORDER_4M - 1)).
End Permissions.

(** ** Entries in guest memory *)
Section Walk.
Context {HH : Host} {E : Type}.
Notation st := (hax_gpa_space E).
(** Whether two mappings of the same page have the same kernel address; that is up to
    the host. *)
Context (same_kva : Z -> Z -> bool).

(** A load of [n] bytes. *)
Definition load_word (p : entry_ptr) (n : Z) : M st Z :=
  hax_assert ((0 <=? ep_off p) && (ep_off p + n <=? PAGE_SIZE_4K))%bool;;
  m ← gets gs_umem;
  mret (le_word (umem_bytes m (ep_page p + ep_off p) (Z.to_nat n))).

(** [hax_cmpxchg64] *)
Definition cmpxchg64 (old_val new_val : Z) (p : entry_ptr) : M st bool :=
  cur ← load_word p 8;
  if cur =? old_val then
    modify (fun g => with_umem (umem_store (gs_umem g) (ep_page p + ep_off p) (le_bytes 8 new_val)) g);;
    mret true
  else mret false.

(** Nothing changes the word between the two loads, so the loop ends at once. *)
Definition pw_read_entry_value (p : entry_ptr) (is_pae : bool) : M st Z :=
  if is_pae then load_word p 8 else load_word p 4.

Definition pw_update_ad_bits_in_entry (native_entry : option entry_ptr) (old_value new_value : Z)
    : M st unit :=
  p ← of_option native_entry;
  hax_assert (pe_present old_value);;
  hax_assert (pe_present new_value);;
  if negb (u32 old_value =? u32 new_value) then
    _ ← cmpxchg64 (u32 old_value) (u32 new_value) p; mret tt
  else mret tt.

(** Equality of two pointers to entries. *)
Definition same_ptr (p q : option entry_ptr) : bool :=
  match p, q with
  | Some p, Some q => (same_kva (ep_page p) (ep_page q) && (ep_off p =? ep_off q))%bool
  | None, None => true
  | _, _ => false
  end.

Definition pw_update_ad_bits (guest_pml4te : option entry_ptr) (pml4te : Z)
    (guest_pdpte : option entry_ptr) (pdpte : Z) (guest_pde : option entry_ptr) (pde : option Z)
    (guest_pte : option entry_ptr) (pte : option Z) (c : walk_ctx) : M st unit :=
  (if w_lme c then
     hax_assert (bool_decide (is_Some guest_pml4te));;
     hax_assert (bool_decide (is_Some guest_pdpte));;
     pw_update_ad_bits_in_entry guest_pml4te pml4te (pe_set_accessed pml4te);;
     pw_update_ad_bits_in_entry guest_pdpte
       (if same_ptr guest_pml4te guest_pdpte then pe_set_accessed pdpte else pdpte)
       (pe_set_accessed pdpte)
   else mret tt);;
  if pw_is_1gb_page_pdpte pdpte then mret tt
  else
    hax_assert (bool_decide (is_Some guest_pde));;
    pde ← of_option pde;
    let pde_before_update :=
      if (same_ptr guest_pml4te guest_pde || same_ptr guest_pdpte guest_pde)%bool
      then pe_set_accessed pde else pde in
    let pde' := pe_set_accessed pde in
    if pw_is_big_page_pde pde' c then
      pw_update_ad_bits_in_entry guest_pde pde_before_update
        (if w_write c then pe_set_dirty pde' else pde')
    else
      pw_update_ad_bits_in_entry guest_pde pde_before_update pde';;
      hax_assert (bool_decide (is_Some guest_pte));;
      pte ← of_option pte;
      let pte_before_update :=
        if (same_ptr guest_pml4te guest_pte || same_ptr guest_pdpte guest_pte ||
            same_ptr guest_pde guest_pte)%bool
        then pe_set_accessed pte else pte in
      let pte' := pe_set_accessed pte in
      pw_update_ad_bits_in_entry guest_pte pte_before_update
        (if w_write c then pe_set_dirty pte' else pte').

(** ** The walk *)
(** The return value, [*gpa_out] and [*order] ([None]: not written). *)
Record walk_result := WalkResult {
  wr_ret : Z;
  wr_gpa : Z;
  wr_order : option Z;
}.

(** The label [out]: the tables that were mapped are unmapped. *)
Fixpoint pw_out (kmaps : list (option Z)) (r : walk_result) : M st walk_result :=
  match kmaps with
  | [] => mret r
  | k :: kmaps => gpa_space_unmap_page k;; pw_out kmaps r
  end.

(** Maps the page of the table at [table_gpa], takes the table at offset [table_off] of
    that page and reads one of its entries; [None] when the page cannot be mapped. *)
Definition read_table (table_gpa table_off index : Z) (is_pae : bool)
    : M st (option (entry_ptr * Z * option Z)) :=
  r ← gpa_space_map_page (table_gpa >>! PG_ORDER_4K);
  match r with
  | (None, _, _) => mret None
  | (Some hva, kmap, _) =>
      let table := EntryPtr hva table_off in
      let ptr := pw_retrieve_table_entry table index is_pae in
      v ← pw_read_entry_value ptr is_pae;
      mret (Some (ptr, v, kmap))
  end.

(** The 4-KB page: from the page table on. *)
Definition pw_walk_pt (c : walk_ctx) (ix : indices) (kmaps : list (option Z))
    (pml4te_ptr : option entry_ptr) (pml4te : Z) (pdpte_ptr : option entry_ptr) (pdpte : Z)
    (pde_ptr : entry_ptr) (pde : Z) : M st walk_result :=
  let order := Some PG_ORDER_4K in
  pt_gpa ← pw_retrieve_phys_addr pde (w_pae c);
  pt ← read_table pt_gpa 0 (pte_index ix) (w_pae c);
  match pt with
  | None => pw_out kmaps (WalkResult TF_FAILED PW_INVALID_GPA order)
  | Some (pte_ptr, pte, kmap) =>
      let kmaps := kmaps ++ [kmap] in
      gpa ← pw_retrieve_phys_addr pte (w_pae c);
      let gpa := gpa |! (w_virt_addr c &! (PAGE_SIZE_4K - 1)) in
      if negb (pe_present pte) then
        pw_out kmaps (WalkResult (TF_FAILED |! w_access c) gpa order)
      else if negb (pw_are_reserved_bits_in_pte_cleared pte c) then
        pw_out kmaps (WalkResult (TF_FAILED |! TF_PROTECT |! TF_RSVD |! w_access c) gpa order)
      else
        ok ← access_permitted pml4te pdpte (Some pde) (Some pte) c;
        if negb ok then
          pw_out kmaps (WalkResult (TF_FAILED |! TF_PROTECT |! w_access c) gpa order)
        else
          (if w_set_ad_bits c then
             pw_update_ad_bits pml4te_ptr pml4te pdpte_ptr pdpte (Some pde_ptr) (Some pde)
               (Some pte_ptr) (Some pte) c
           else mret tt);;
          pw_out kmaps (WalkResult TF_OK gpa order)
  end.

(** The page directory and the 2-MB or 4-MB page. *)
Definition pw_walk_pd (c : walk_ctx) (ix : indices) (first_table : Z) (kmaps : list (option Z))
    (pml4te_ptr : option entry_ptr) (pml4te : Z) (pdpte_ptr : option entry_ptr) (pdpte : Z)
    : M st walk_result :=
  pd_gpa ← (if w_pae c then pw_retrieve_phys_addr pdpte (w_pae c) else mret first_table);
  pd ← read_table pd_gpa 0 (pde_index ix) (w_pae c);
  match pd with
  | None => pw_out kmaps (WalkResult TF_FAILED PW_INVALID_GPA None)
  | Some (pde_ptr, pde, kmap) =>
      let kmaps := kmaps ++ [kmap] in
      if negb (pe_present pde) then
        pw_out kmaps (WalkResult (TF_FAILED |! w_access c) PW_INVALID_GPA None)
      else if negb (pw_are_reserved_bits_in_pde_cleared pde c) then
        pw_out kmaps (WalkResult (TF_FAILED |! TF_PROTECT |! TF_RSVD |! w_access c)
                        PW_INVALID_GPA None)
      else if pw_is_big_page_pde pde c then
        let order := Some (if w_pae c then PG_ORDER_2M else PG_ORDER_4M) in
        big_page_addr ← pw_retrieve_big_page_phys_addr pde (w_pae c) false;
        let gpa := big_page_addr +! pw_get_big_page_offset (w_virt_addr c) (w_pae c) false in
        ok ← access_permitted pml4te pdpte (Some pde) None c;
        if negb ok then
          pw_out kmaps (WalkResult (TF_FAILED |! TF_PROTECT |! w_access c) gpa order)
        else
          (if w_set_ad_bits c then
             pw_update_ad_bits pml4te_ptr pml4te pdpte_ptr pdpte (Some pde_ptr) (Some pde)
               None None c
           else mret tt);;
          pw_out kmaps (WalkResult TF_OK gpa order)
      else pw_walk_pt c ix kmaps pml4te_ptr pml4te pdpte_ptr pdpte pde_ptr pde
  end.

(** The test for a 1-GB page. *)
Definition pw_walk_1gb (c : walk_ctx) (ix : indices) (first_table : Z) (kmaps : list (option Z))
    (pml4te_ptr : option entry_ptr) (pml4te : Z) (pdpte_ptr : option entry_ptr) (pdpte : Z)
    : M st walk_result :=
  if pw_is_1gb_page_pdpte pdpte then
    let order := Some PG_ORDER_1G in
    big_page_addr ← pw_retrieve_big_page_phys_addr pdpte (w_pae c) true;
    let gpa := big_page_addr +! pw_get_big_page_offset (w_virt_addr c) (w_pae c) true in
    ok ← access_permitted pml4te pdpte None None c;
    if negb ok then
      pw_out kmaps (WalkResult (TF_FAILED |! TF_PROTECT |! w_access c) gpa order)
    else
      (if w_set_ad_bits c then
         pw_update_ad_bits pml4te_ptr pml4te pdpte_ptr pdpte None None None None c
       else mret tt);;
      pw_out kmaps (WalkResult TF_OK gpa order)
  else pw_walk_pd c ix first_table kmaps pml4te_ptr pml4te pdpte_ptr pdpte.

(** The page directory pointer table of PAE and 4-level paging. *)
Definition pw_walk_pdpt (c : walk_ctx) (ix : indices) (first_table pdpt_gpa : Z)
    (kmaps : list (option Z)) (pml4te_ptr : option entry_ptr) (pml4te : Z) : M st walk_result :=
  pdpt ← read_table pdpt_gpa (u32 (pdpt_gpa &! (PAGE_SIZE_4K - 1))) (pdpte_index ix) (w_pae c);
  match pdpt with
  | None => pw_out kmaps (WalkResult TF_FAILED PW_INVALID_GPA None)
  | Some (pdpte_ptr, pdpte, kmap) =>
      let kmaps := kmaps ++ [kmap] in
      if negb (pe_present pdpte) then
        pw_out kmaps (WalkResult (TF_FAILED |! w_access c) PW_INVALID_GPA None)
      else if negb (pw_are_reserved_bits_in_pdpte_cleared pdpte c) then
        pw_out kmaps (WalkResult (TF_FAILED |! TF_PROTECT |! TF_RSVD |! w_access c)
                        PW_INVALID_GPA None)
      else pw_walk_1gb c ix first_table kmaps pml4te_ptr pml4te (Some pdpte_ptr) pdpte
  end.

(** The page map level 4 table. *)
Definition pw_walk_pml4 (c : walk_ctx) (ix : indices) (first_table : Z) : M st walk_result :=
  pml4t ← read_table first_table 0 (pml4te_index ix) (w_pae c);
  match pml4t with
  | None => pw_out [] (WalkResult TF_FAILED PW_INVALID_GPA None)
  | Some (pml4te_ptr, pml4te, kmap) =>
      if negb (pe_present pml4te) then
        pw_out [kmap] (WalkResult (TF_FAILED |! w_access c) PW_INVALID_GPA None)
      else if negb (pw_are_reserved_bits_in_pml4te_cleared pml4te c) then
        pw_out [kmap] (WalkResult (TF_FAILED |! TF_PROTECT |! TF_RSVD |! w_access c)
                         PW_INVALID_GPA None)
      else
        pdpt_gpa ← pw_retrieve_phys_addr pml4te (w_pae c);
        pw_walk_pdpt c ix first_table pdpt_gpa [kmap] (Some pml4te_ptr) pml4te
  end.

Definition pw_perform_page_walk (r : paging_regs) (virt_addr access : Z)
    (set_ad_bits is_fetch : bool) : M st walk_result :=
  let c := walk_context r virt_addr access set_ad_bits is_fetch in
  ix ← pw_retrieve_indices virt_addr (w_pae c) (w_lme c);
  let first_table := pw_retrieve_table_from_cr3 (pr_cr3 r) (w_pae c) (w_lme c) in
  if w_pae c then
    if w_lme c then pw_walk_pml4 c ix first_table
    else pw_walk_pdpt c ix first_table first_table [] None 0
  else pw_walk_1gb c ix first_table [] None 0 None 0.
End Walk.
