(* ===== verification/PageWalkSpec.v ===== *)
(** * Paging as the processor defines it

    A reference translation of guest virtual addresses, level by level: every paging
    mode is a list of levels, each with the position and number of its index bits, the
    size of its entries, its reserved bits, whether an entry can map a large page and
    whether it carries access rights.  One recursive function walks the levels and
    accumulates the rights.  The walker of page_walker.c, which is unrolled per table and
    checks rights after the walk, is proved against it. *)

From stdpp Require Import base numbers list gmap.
From Stdlib Require Import ZArith Lia.
From S2P Require Import Prelude MemTypes PageWalker.
#[local] Open Scope Z_scope.

(** The bits [lo, hi) *)
Definition bits (lo hi : Z) : Z := Z.shiftl (Z.ones (hi - lo)) lo.

Record level := Level {
  lv_shift : Z;
  lv_width : Z;
  lv_large : bool;       (* bit 7 selects a page of 2^lv_shift bytes *)
  lv_rights : bool;      (* R/W, U/S and XD apply *)
  lv_reserved : Z;       (* bits that must be 0 *)
  lv_reserved_large : Z; (* further such bits in an entry that maps a large page *)
}.

(** Reserved address bits, and bit 63 unless execute-disable is enabled. *)
Definition reserved_high (c : walk_ctx) : Z :=
  Z.shiftl (w_rsvd c &! Z.ones 20) 32 |! (if w_nxe c then 0 else bits 63 64).

Definition reserved_legacy (c : walk_ctx) : Z := reserved_high c |! bits 52 63.

Definition paging_levels (c : walk_ctx) : list level :=
  if w_pae c then
    if w_lme c then
      [Level 39 9 false true (reserved_high c) 0;
       Level 30 9 true true (reserved_high c) (bits 13 30);
       Level 21 9 true true (reserved_high c) (bits 13 21);
       Level 12 9 false true (reserved_high c) 0]
    else
      [Level 30 2 false false (reserved_legacy c |! bits 1 3 |! bits 63 64) 0;
       Level 21 9 true true (reserved_legacy c) (bits 13 21);
       Level 12 9 false true (reserved_legacy c) 0]
  else
    [Level 22 10 (w_pse c) true 0 (bits 13 22);
     Level 12 10 false true 0 0].

Definition entry_size (c : walk_ctx) : Z := if w_pae c then 8 else 4.
Definition entry_addr (c : walk_ctx) (e : Z) : Z := e &! bits 12 (if w_pae c then 52 else 32).

Definition table_root (c : walk_ctx) (cr3 : Z) : Z :=
  if (w_pae c && negb (w_lme c))%bool then cr3 / 32 * 32 else cr3 / 4096 * 4096.

(** The rights accumulated on the way. *)
Record rights := Rights {
  rt_write : bool;
  rt_user : bool;
  rt_no_exec : bool;
}.

Definition add_rights (l : level) (e : Z) (r : rights) : rights :=
  if lv_rights l then
    Rights (rt_write r && pe_writable e) (rt_user r && pe_user e) (rt_no_exec r || pe_exb e)
  else r.

Definition allowed (c : walk_ctx) (r : rights) : bool :=
  (negb (w_write c && (w_user c || w_wp c) && negb (rt_write r)) &&
   negb (w_user c && negb (rt_user r)) &&
   negb (w_pae c && w_nxe c && w_fetch c && rt_no_exec r))%bool.

Inductive outcome :=
  | NoTable                     (* a table is not in guest memory *)
  | Absent (last : bool)        (* an entry is not present; [last]: in the last level *)
  | Reserved                    (* a reserved bit is set *)
  | Denied                      (* the rights do not allow the access *)
  | Translated (gpa order : Z).

(** [read a n]: the little-endian word of [n] bytes at guest physical address [a]. *)
Fixpoint walk (c : walk_ctx) (read : Z -> Z -> option Z) (ls : list level) (table : Z) (r : rights)
    : outcome :=
  match ls with
  | [] => NoTable
  | l :: ls =>
      let i := w_virt_addr c / 2 ^ lv_shift l mod 2 ^ lv_width l in
      match read (table + i * entry_size c) (entry_size c) with
      | None => NoTable
      | Some e =>
          let last := match ls with [] => true | _ => false end in
          let large := (lv_large l && pe_page_size e)%bool in
          if negb (pe_present e) then Absent last
          else if bit_set e (lv_reserved l |! (if large then lv_reserved_large l else 0))
          then Reserved
          else
            let r := add_rights l e r in
            if (last || large)%bool then
              if allowed c r then
                Translated (entry_addr c e / 2 ^ lv_shift l * 2 ^ lv_shift l +
                            w_virt_addr c mod 2 ^ lv_shift l) (lv_shift l)
              else Denied
            else walk c read ls (entry_addr c e) r
      end
  end.

Definition translate (c : walk_ctx) (cr3 : Z) (read : Z -> Z -> option Z) : outcome :=
  walk c read (paging_levels c) (table_root c cr3) (Rights true true false).
