(* ===== verification/PageWalkProof.v ===== *)
(** * The page walker follows the paging structures

    The lemmas behind the page walker's theorem: the bit-fields of the entries as bit
    masks, the tables in guest memory, the access checks as accumulated rights, and the
    effect of setting accessed and dirty bits. *)

From stdpp Require Import base numbers list gmap.
From Stdlib Require Import ZArith Lia Btauto.
From S2P Require Import Prelude HaxList Bitmap MemTypes Ramblock Memslot MemslotSpec.
From S2P Require Import MemslotOwn MemslotCorrect GpaSpace GpaAccess PageWalker PageWalkSpec.
#[local] Open Scope Z_scope.

(** ** Bit masks *)
Lemma bit_set_false x m : (forall i, 0 <= i -> Z.testbit x i && Z.testbit m i = false)%bool ->
  bit_set x m = false.
Proof.
  intros H. unfold bit_set. apply negb_false_iff, Z.eqb_eq, Z.bits_inj'. intros i Hi.
  by rewrite Z.land_spec, Z.bits_0, H.
Qed.

Lemma bit_set_true x m i : Z.testbit x i = true -> Z.testbit m i = true -> bit_set x m = true.
Proof.
  intros Hx Hm. unfold bit_set. apply negb_true_iff, Z.eqb_neq. intros H.
  apply (f_equal (fun z => Z.testbit z i)) in H. by rewrite Z.land_spec, Hx, Hm, Z.bits_0 in H.
Qed.

Lemma bit_set_iff x m :
  bit_set x m = true <-> exists i, 0 <= i /\ Z.testbit x i = true /\ Z.testbit m i = true.
Proof.
  split; [|intros (i & _ & ? & ?); by eapply bit_set_true].
  unfold bit_set. rewrite negb_true_iff, Z.eqb_neq. intros Hne.
  assert (exists i, 0 <= i /\ Z.testbit (Z.land x m) i = true) as (i & Hi & Hb).
  { destruct (Z.land x m) as [|p|p] eqn:Hl; [done| |].
    - exists (Z.log2 (Z.pos p)). split; [apply Z.log2_nonneg|]. by apply Z.bit_log2.
    - exists (Z.log2 (Z.pred (- Z.neg p)) + 1). pose proof (Z.log2_nonneg (Z.pred (- Z.neg p))).
      split; [lia|]. apply Z.bits_above_log2_neg; lia. }
  rewrite Z.land_spec in Hb. apply andb_true_iff in Hb as [? ?]. by exists i.
Qed.

Lemma bit_set_0 x : bit_set x 0 = false.
Proof. unfold bit_set. by rewrite Z.land_0_r. Qed.

Lemma bit_set_lor x a b : bit_set x (a |! b) = (bit_set x a || bit_set x b)%bool.
Proof.
  apply eq_bool_prop_intro. rewrite !Is_true_true, orb_true_iff, !bit_set_iff.
  setoid_rewrite Z.lor_spec. setoid_rewrite orb_true_iff. naive_solver.
Qed.

Lemma bits_spec lo hi i : 0 <= lo <= hi -> 0 <= i ->
  Z.testbit (bits lo hi) i = ((lo <=? i) && (i <? hi))%bool.
Proof.
  intros H Hi. unfold bits. rewrite Z.shiftl_spec by done.
  destruct (Z.leb_spec lo i).
  - rewrite Z.testbit_ones by lia. destruct (Z.ltb_spec i hi).
    + rewrite (proj2 (Z.ltb_lt _ _)), (proj2 (Z.leb_le _ _)) by lia. done.
    + rewrite (proj2 (Z.ltb_ge _ _)) by lia. by rewrite andb_false_r.
  - by rewrite Z.testbit_neg_r by lia.
Qed.

(** Bit [i] of a field at position [k]. *)
Lemma field_spec e k n i : 0 <= k -> 0 <= n -> 0 <= i ->
  Z.testbit ((e >>! k) &! Z.ones n) i = (Z.testbit e (i + k) && (i <? n))%bool.
Proof.
  intros Hk Hn Hi. rewrite Z.land_spec, Z.shiftr_spec, Z.testbit_ones by lia.
  by rewrite (proj2 (Z.leb_le 0 i)).
Qed.

Lemma bit_set_bits e lo hi : 0 <= lo <= hi ->
  bit_set e (bits lo hi) = negb ((e >>! lo) &! Z.ones (hi - lo) =? 0).
Proof.
  intros H. change (negb _) with (bit_set (e >>! lo) (Z.ones (hi - lo))).
  apply eq_bool_prop_intro. rewrite !Is_true_true, !bit_set_iff. split.
  - intros (i & Hi & He & Hb). rewrite bits_spec in Hb by done. bool_hyps.
    exists (i - lo). rewrite Z.shiftr_spec, Z.testbit_ones by lia.
    rewrite Z.sub_add, He. split_and!; [lia|done|]. apply andb_true_iff. split; bool_lia.
  - intros (i & Hi & He & Hb). rewrite Z.shiftr_spec in He by lia.
    rewrite Z.testbit_ones in Hb by lia. bool_hyps. exists (i + lo).
    rewrite bits_spec by lia. split_and!; [lia|done|]. apply andb_true_iff. split; bool_lia.
Qed.

Lemma bit_set_bit e i : 0 <= i -> bit_set e (bits i (i + 1)) = Z.testbit e i.
Proof.
  intros Hi. rewrite bit_set_bits by lia. replace (i + 1 - i) with 1 by lia.
  change (Z.ones 1) with (Z.ones (Z.succ 0)). rewrite Z.land_ones by lia.
  change (2 ^ Z.succ 0) with 2. rewrite <- Z.bit0_mod. rewrite Z.shiftr_spec by lia.
  replace (0 + i) with i by lia. by destruct (Z.testbit e i).
Qed.

Lemma bit_set_high e r : bit_set e (Z.shiftl (r &! Z.ones 20) 32) = bit_set (pe_addr_base_high e) r.
Proof.
  apply eq_bool_prop_intro. rewrite !Is_true_true, !bit_set_iff. unfold pe_addr_base_high. split.
  - intros (i & Hi & He & Hb). rewrite Z.shiftl_spec, Z.land_spec in Hb by lia.
    apply andb_true_iff in Hb as [Hr Hb].
    destruct (Z.lt_ge_cases i 32); [by rewrite Z.testbit_neg_r in Hr by lia|].
    rewrite Z.testbit_ones in Hb by lia. bool_hyps. exists (i - 32).
    rewrite field_spec, Z.sub_add, He by lia. split_and!; [lia| |done]. bool_lia.
  - intros (i & Hi & He & Hb). rewrite field_spec in He by lia. bool_hyps. exists (i + 32).
    rewrite Z.shiftl_spec, Z.land_spec, Z.add_simpl_r, Hb, Z.testbit_ones by lia.
    split_and!; [lia|done|]. bool_lia.
Qed.

Lemma bit_set_u32 e m : 0 <= m < 2 ^ 32 -> bit_set (u32 e) m = bit_set e m.
Proof.
  intros Hm. unfold bit_set. do 2 f_equal. unfold u32. rewrite <- Z.land_ones by lia.
  rewrite <- Z.land_assoc. f_equal. rewrite Z.land_comm, Z.land_ones by lia. by apply Z.mod_small.
Qed.

(** ** Reserved bits *)
Lemma bit_set_reserved_high e c :
  bit_set e (reserved_high c) =
  (bit_set (pe_addr_base_high e) (w_rsvd c) || (negb (w_nxe c) && pe_exb e))%bool.
Proof.
  unfold reserved_high. rewrite bit_set_lor, bit_set_high. f_equal.
  destruct (w_nxe c); [apply bit_set_0|]. by apply (bit_set_bit e 63).
Qed.

Lemma bit_set_avl e : bit_set e (bits 52 63) = negb (pe_avl_or_res e =? 0).
Proof. by rewrite bit_set_bits. Qed.

Lemma bit_set_rw_us e : bit_set e (bits 1 3) = (pe_writable e || pe_user e)%bool.
Proof.
  change (bits 1 3) with (bits 1 (1 + 1) |! bits 2 (2 + 1)).
  by rewrite bit_set_lor, !bit_set_bit by lia.
Qed.

Lemma bit_set_exb e : bit_set e (bits 63 64) = pe_exb e.
Proof. by apply (bit_set_bit e 63). Qed.

Ltac reserved_tac e c :=
  rewrite ?bit_set_lor, ?bit_set_reserved_high, ?bit_set_avl, ?bit_set_rw_us,
    ?bit_set_exb, ?bit_set_0;
  unfold reserved_legacy, pw_is_1gb_page_pdpte, pw_is_big_page_pde;
  destruct (bit_set (pe_addr_base_high e) (w_rsvd c)), (w_nxe c), (pe_exb e),
    (negb (pe_avl_or_res e =? 0)), (pe_page_size e); try done.

Lemma pml4te_reserved e c :
  bit_set e (reserved_high c |! 0) = negb (pw_are_reserved_bits_in_pml4te_cleared e c).
Proof. unfold pw_are_reserved_bits_in_pml4te_cleared. reserved_tac e c. Qed.

Lemma pdpte_reserved e c : w_lme c = true ->
  bit_set e (reserved_high c |! (if pe_page_size e then bits 13 30 else 0)) =
  negb (pw_are_reserved_bits_in_pdpte_cleared e c).
Proof.
  intros Hl. unfold pw_are_reserved_bits_in_pdpte_cleared. rewrite Hl. cbn [negb].
  change (bits 13 30) with PW_1G_PAE_PDPTE_RESERVED_BITS_IN_ENTRY_LOW_MASK.
  rewrite bit_set_lor. rewrite bit_set_reserved_high. unfold pw_is_1gb_page_pdpte.
  destruct (pe_page_size e); rewrite ?bit_set_0; reserved_tac e c;
    by destruct (bit_set e _).
Qed.

Lemma pae_pdpte_reserved e c : w_lme c = false ->
  bit_set e (reserved_legacy c |! bits 1 3 |! bits 63 64 |! 0) =
  negb (pw_are_reserved_bits_in_pdpte_cleared e c).
Proof.
  intros Hl. unfold pw_are_reserved_bits_in_pdpte_cleared, reserved_legacy. rewrite Hl. cbn [negb].
  reserved_tac e c;
    by destruct (pe_writable e), (pe_user e).
Qed.

Lemma pae_pde_reserved e c : w_pae c = true ->
  bit_set e ((if w_lme c then reserved_high c else reserved_legacy c) |!
             (if pe_page_size e then bits 13 21 else 0)) =
  negb (pw_are_reserved_bits_in_pde_cleared e c).
Proof.
  intros Hp. unfold pw_are_reserved_bits_in_pde_cleared, reserved_legacy, pw_is_big_page_pde.
  rewrite Hp, orb_true_r.
  change (bits 13 21) with PW_2M_PAE_PDE_RESERVED_BITS_IN_ENTRY_LOW_MASK.
  rewrite bit_set_lor. destruct (w_lme c), (pe_page_size e); cbn [negb andb];
    rewrite ?bit_set_0; reserved_tac e c; by destruct (bit_set e _).
Qed.

Lemma pde_reserved e c : w_pae c = false -> w_lme c = false ->
  bit_set e (0 |! (if (w_pse c && pe_page_size e)%bool then bits 13 22 else 0)) =
  negb (pw_are_reserved_bits_in_pde_cleared e c).
Proof.
  intros Hp Hl. unfold pw_are_reserved_bits_in_pde_cleared, pw_is_big_page_pde. rewrite Hp, Hl.
  change (bits 13 22) with PW_4M_NON_PAE_PDE_RESERVED_BITS_IN_ENTRY_LOW_MASK.
  rewrite Z.lor_0_l. destruct (w_pse c), (pe_page_size e); cbn [negb andb orb];
    rewrite ?bit_set_0; try done. rewrite bit_set_u32 by done. by destruct (bit_set e _).
Qed.

Lemma pte_reserved e c : w_pae c = true ->
  bit_set e ((if w_lme c then reserved_high c else reserved_legacy c) |! 0) =
  negb (pw_are_reserved_bits_in_pte_cleared e c).
Proof.
  intros Hp. unfold pw_are_reserved_bits_in_pte_cleared, reserved_legacy. rewrite Hp. cbn [negb].
  destruct (w_lme c); cbn [negb andb]; reserved_tac e c.
Qed.

(** ** Indices and addresses *)
Lemma index_spec va k n mask : 0 <= k -> 0 <= n -> mask = bits k (k + n) ->
  (va &! mask) >>! k = va / 2 ^ k mod 2 ^ n.
Proof.
  intros Hk Hn ->. rewrite Z.shiftr_land. unfold bits. replace (k + n - k) with n by lia.
  rewrite Z.shiftr_shiftl_r by lia. rewrite Z.sub_diag, Z.shiftr_0_r.
  by rewrite Z.land_ones, Z.shiftr_div_pow2 by lia.
Qed.

Lemma index_u32 va k n mask : 0 <= k -> 0 <= n -> k + n <= 32 -> mask = bits k (k + n) ->
  (u32 va &! mask) >>! k = va / 2 ^ k mod 2 ^ n.
Proof.
  intros Hk Hn Hs Hm. rewrite <- (index_spec va k n mask) by done. f_equal. subst.
  apply Z.bits_inj'. intros i Hi. rewrite !Z.land_spec, bits_spec by lia. unfold u32.
  destruct (Z.lt_ge_cases i 32).
  - by rewrite Z.mod_pow2_bits_low by lia.
  - rewrite (proj2 (Z.ltb_ge i (k + n))) by lia. by rewrite !andb_false_r.
Qed.

Definition wlevel_index (c : walk_ctx) (k n : Z) : Z := w_virt_addr c / 2 ^ k mod 2 ^ n.

Lemma index_range c k n : 0 <= n -> 0 <= wlevel_index c k n < 2 ^ n.
Proof. intros Hn. apply Z.mod_pos_bound. lia. Qed.

Lemma retrieve_indices_run {S} (s : S) c :
  exists ix, pw_retrieve_indices (w_virt_addr c) (w_pae c) (w_lme c) s = Some (ix, s) /\
    if w_pae c then
      pde_index ix = wlevel_index c 21 9 /\ pte_index ix = wlevel_index c 12 9 /\
      (if w_lme c then pml4te_index ix = wlevel_index c 39 9 /\ pdpte_index ix = wlevel_index c 30 9
       else pdpte_index ix = wlevel_index c 30 2)
    else pde_index ix = wlevel_index c 22 10 /\ pte_index ix = wlevel_index c 12 10.
Proof.
  unfold pw_retrieve_indices, PW_PML4TE_INDEX_SHIFT, PW_PDPTE_INDEX_SHIFT, PW_PTE_INDEX_SHIFT,
    PW_PDE_INDEX_SHIFT_IN_PAE_MODE, PW_PDE_INDEX_SHIFT_IN_NON_PAE_MODE.
  rewrite (index_spec _ 39 9), (index_spec _ 30 9), (index_u32 _ 30 2), (index_u32 _ 21 9),
    (index_u32 _ 12 9), (index_u32 _ 22 10), (index_u32 _ 12 10) by done.
  fold (wlevel_index c 39 9) (wlevel_index c 30 9) (wlevel_index c 30 2) (wlevel_index c 21 9)
    (wlevel_index c 12 9) (wlevel_index c 22 10) (wlevel_index c 12 10).
  pose proof (index_range c 39 9). pose proof (index_range c 30 9). pose proof (index_range c 30 2).
  pose proof (index_range c 21 9). pose proof (index_range c 12 9).
  destruct (w_pae c); [|by eexists]. eexists. split.
  { rewrite assert_run; [|destruct (w_lme c); [done|]; cbn; apply Z.ltb_lt;
      unfold PW_NUM_OF_PDPT_ENTRIES_IN_32_BIT_MODE; lia].
    rewrite assert_run by (apply Z.ltb_lt; unfold PW_NUM_OF_TABLE_ENTRIES_IN_PAE_MODE; lia).
    rewrite assert_run by (apply Z.ltb_lt; unfold PW_NUM_OF_TABLE_ENTRIES_IN_PAE_MODE; lia).
    reflexivity. }
  cbn. destruct (w_lme c); [|done]. rewrite !u32_small by lia. done.
Qed.

Lemma align_backward x k : 0 <= k -> Z.ldiff x (2 ^ k - 1) = x / 2 ^ k * 2 ^ k.
Proof.
  intros Hk. replace (2 ^ k - 1) with (Z.ones k) by (rewrite Z.ones_equiv; lia).
  rewrite Z.ldiff_ones_r by lia. by rewrite Z.shiftl_mul_pow2, Z.shiftr_div_pow2 by lia.
Qed.

Lemma table_root_eq r c :
  pw_retrieve_table_from_cr3 r (w_pae c) (w_lme c) = table_root c r.
Proof.
  unfold pw_retrieve_table_from_cr3, table_root, ALIGN_BACKWARD.
  destruct (w_pae c), (w_lme c); cbn [negb orb andb];
    first [exact (align_backward r 12 ltac:(lia)) | exact (align_backward r 5 ltac:(lia))].
Qed.

Lemma testbit_mod x n i : 0 <= n -> 0 <= i -> Z.testbit (x mod 2 ^ n) i = (Z.testbit x i && (i <? n))%bool.
Proof.
  intros Hn Hi. destruct (Z.ltb_spec i n).
  - rewrite Z.mod_pow2_bits_low by lia. by rewrite andb_true_r.
  - rewrite Z.mod_pow2_bits_high by lia. by rewrite andb_false_r.
Qed.

(** A field at position [k], shifted back to its position. *)
Lemma field_back e k n w i : 0 <= k -> 0 <= n -> k + n <= w -> 0 <= i ->
  Z.testbit (Z.shiftl ((e >>! k) &! Z.ones n) k mod 2 ^ w) i =
  (Z.testbit e i && ((k <=? i) && (i <? k + n)))%bool.
Proof.
  intros Hk Hn Hw Hi. rewrite testbit_mod, Z.shiftl_spec by lia. destruct (Z.leb_spec k i).
  - rewrite field_spec, Z.sub_add by lia. destruct (Z.testbit e i); [|done]. cbn. bool_lia.
  - rewrite Z.testbit_neg_r by lia. by rewrite andb_false_r.
Qed.

Lemma phys_addr_run {S} e c (s : S) :
  pe_present e = true ->
  pw_retrieve_phys_addr e (w_pae c) s = Some (entry_addr c e, s).
Proof.
  intros Hp. unfold pw_retrieve_phys_addr. rewrite assert_run by done. unfold entry_addr.
  destruct (w_pae c); unfold mret, M_ret; f_equal; f_equal; apply Z.bits_inj'; intros i Hi;
    rewrite Z.land_spec, bits_spec by lia;
    unfold PW_HIGH_ADDRESS_SHIFT, PW_TABLE_SHIFT, pe_addr_base_low, pe_addr_base_high, u64, u32.
  - rewrite Z.lor_spec, !field_back by lia. destruct (Z.testbit e i); [|done]. cbn. bool_lia.
  - by rewrite field_back by lia.
Qed.

Lemma entry_addr_range c e :
  0 <= entry_addr c e < 2 ^ 52 /\ entry_addr c e mod 4096 = 0.
Proof.
  assert (Hb : forall i, 0 <= i -> Z.testbit (entry_addr c e) i =
    (Z.testbit e i && ((12 <=? i) && (i <? (if w_pae c then 52 else 32%Z))))%bool).
  { intros i Hi. unfold entry_addr. rewrite Z.land_spec, bits_spec by (destruct (w_pae c); lia). done. }
  split.
  - assert (Heq : entry_addr c e = entry_addr c e mod 2 ^ 52).
    { apply Z.bits_inj'. intros i Hi. rewrite testbit_mod, Hb by lia.
      destruct (Z.testbit e i), (w_pae c); try done; cbn; bool_lia. }
    rewrite Heq. apply Z.mod_pos_bound. lia.
  - apply Z.bits_inj'. intros i Hi. change 4096 with (2 ^ 12). rewrite testbit_mod, Hb, Z.bits_0 by lia.
    destruct (Z.testbit e i); [|done]. cbn. bool_lia.
Qed.

Lemma big_page_run {S} e c is_1gb (s : S) :
  pe_present e = true ->
  exists a, pw_retrieve_big_page_phys_addr e (w_pae c) is_1gb s = Some (a, s) /\
    let k := if w_pae c then if is_1gb then 30 else 21 else 22 in
    a +! pw_get_big_page_offset (w_virt_addr c) (w_pae c) is_1gb =
    entry_addr c e / 2 ^ k * 2 ^ k + w_virt_addr c mod 2 ^ k.
Proof.
  intros Hp. unfold pw_retrieve_big_page_phys_addr. rewrite (bind_run _ _ _ _ _ (phys_addr_run e c s Hp)).
  eexists. split; [reflexivity|]. cbv zeta.
  assert (Hk : forall k, 12 <= k <= 30 ->
    ALIGN_BACKWARD (entry_addr c e) (Z.shiftl 1 k) +! u32 (w_virt_addr c &! (Z.shiftl 1 k - 1)) =
    entry_addr c e / 2 ^ k * 2 ^ k + w_virt_addr c mod 2 ^ k).
  { intros k Hk. unfold ALIGN_BACKWARD. rewrite Z.shiftl_1_l, align_backward by lia.
    replace (2 ^ k - 1) with (Z.ones k) by (rewrite Z.ones_equiv; lia).
    rewrite Z.land_ones by lia. pose proof (Z.mod_pos_bound (w_virt_addr c) (2 ^ k) ltac:(lia)).
    assert (2 ^ k <= 2 ^ 30) by (apply Z.pow_le_mono_r; lia).
    rewrite u32_small by lia. destruct (entry_addr_range c e) as [? _].
    pose proof (Z.mul_div_le (entry_addr c e) (2 ^ k) ltac:(lia)).
    assert (0 <= entry_addr c e / 2 ^ k) by (apply Z.div_pos; lia). apply u64_small. lia. }
  unfold pw_get_big_page_offset, PG_ORDER_1G, PG_ORDER_2M, PG_ORDER_4M.
  destruct (w_pae c), is_1gb; apply Hk; lia.
Qed.

(** ** Access rights *)
(** The entries that the permission checks look at are present. *)
Definition entries_present (pml4te pdpte : Z) (pde pte : option Z) (c : walk_ctx) : Prop :=
  (w_lme c = true -> pe_present pml4te = true /\ pe_present pdpte = true) /\
  (pe_page_size pdpte = false -> exists d, pde = Some d /\ pe_present d = true /\
     (pw_is_big_page_pde d c = false -> exists t, pte = Some t /\ pe_present t = true)).

(** A right that all entries of the walk have. *)
Definition all_have (f : Z -> bool) (pml4te pdpte : Z) (pde pte : option Z) (c : walk_ctx) : bool :=
  ((negb (w_lme c) || (f pml4te && f pdpte)) &&
   (pe_page_size pdpte ||
    match pde with
    | Some d => f d && (pw_is_big_page_pde d c || match pte with Some t => f t | None => true end)
    | None => true
    end))%bool.

(** Runs one of the three permission checks, whose right is [f]. *)
Ltac run_check f Hl Hd :=
  unfold all_have, pw_is_1gb_page_pdpte, entry_present, mbind, M_bind, hax_assert, of_option,
    mret, M_ret;
  repeat match goal with
  | |- context [w_lme ?c] => destruct (w_lme c);
      [destruct (Hl eq_refl) as [-> ->];
       match goal with |- context [f ?a] => destruct (f a) end;
       match goal with |- context [f ?a] => destruct (f a) end|]
  | |- context [pe_page_size ?p] => destruct (pe_page_size p); cbn [negb andb orb]; try reflexivity;
      let t := fresh "t" in let Ht := fresh "Ht" in
      destruct (Hd eq_refl) as (t & -> & -> & Ht);
      destruct (pw_is_big_page_pde t _);
      try (let u := fresh "u" in destruct (Ht eq_refl) as (u & -> & ->));
      destruct (f t); reflexivity
  end.

Section Checks.
Context {S : Type} (pml4te pdpte : Z) (pde pte : option Z) (c : walk_ctx) (s : S).
Hypothesis Hp : entries_present pml4te pdpte pde pte c.

Lemma write_permitted_run :
  pw_is_write_access_permitted pml4te pdpte pde pte c s =
  Some (negb (w_user c || w_wp c) || all_have pe_writable pml4te pdpte pde pte c, s)%bool.
Proof.
  destruct Hp as [Hl Hd]. unfold pw_is_write_access_permitted.
  destruct (w_user c), (w_wp c); cbn [negb andb orb]; try reflexivity; run_check pe_writable Hl Hd.
Qed.

Lemma user_permitted_run :
  pw_is_user_access_permitted pml4te pdpte pde pte c s =
  Some (all_have pe_user pml4te pdpte pde pte c, s)%bool.
Proof. destruct Hp as [Hl Hd]. unfold pw_is_user_access_permitted. run_check pe_user Hl Hd. Qed.

Lemma fetch_permitted_run :
  pw_is_fetch_access_permitted pml4te pdpte pde pte c s =
  Some (all_have (fun e => negb (pe_exb e)) pml4te pdpte pde pte c, s)%bool.
Proof. destruct Hp as [Hl Hd]. unfold pw_is_fetch_access_permitted. run_check pe_exb Hl Hd. Qed.

Lemma access_permitted_run :
  access_permitted pml4te pdpte pde pte c s =
  Some (allowed c (Rights (all_have pe_writable pml4te pdpte pde pte c)
                          (all_have pe_user pml4te pdpte pde pte c)
                          (negb (all_have (fun e => negb (pe_exb e)) pml4te pdpte pde pte c))), s).
Proof.
  pose proof write_permitted_run as Hw. pose proof user_permitted_run as Hu.
  pose proof fetch_permitted_run as Hf.
  unfold access_permitted, allowed, mbind, M_bind, mret, M_ret. cbn [rt_write rt_user rt_no_exec].
  destruct (w_write c), (w_user c), (w_wp c); rewrite ?Hw; cbn [negb orb andb];
    destruct (all_have pe_writable pml4te pdpte pde pte c); cbn [negb orb andb]; try reflexivity;
    rewrite ?Hu; destruct (all_have pe_user pml4te pdpte pde pte c); cbn [negb orb andb];
    try reflexivity; destruct (w_pae c && w_nxe c && w_fetch c)%bool; try reflexivity;
    rewrite Hf; by destruct (all_have _ _ _ _ _ _).
Qed.
End Checks.

(** ** Tables in guest memory *)
Section Tables.
Context {HH : Host} {E : Type}.
Notation st := (hax_gpa_space E).
Implicit Types (g : st).

(** The word at a guest physical address. *)
Definition guest_word g (gpa n : Z) : option Z :=
  match gpa_uva g gpa with
  | Some u => Some (le_word (umem_bytes (gs_umem g) u (Z.to_nat n)))
  | None => None
  end.

(** Some page of guest memory could not be mapped. *)
Definition refused g : Prop :=
  exists gfn g1 k w g2, same_view g g1 /\ gpa_space_map_page gfn g1 = Some (None, k, w, g2).

(** The state is the same up to pinned chunks and the host's state. *)
Definition quiet g g' : Prop := same_view g g' /\ gs_umem g' = gs_umem g.

Lemma quiet_refl g : space_inv g -> quiet g g.
Proof. intros. split; [by apply same_view_refl|done]. Qed.

Lemma quiet_trans g1 g2 g3 : quiet g1 g2 -> quiet g2 g3 -> quiet g1 g3.
Proof. intros [? ?] [? ?]. split; [by eapply same_view_trans|congruence]. Qed.

Lemma quiet_word g g' a n : quiet g g' -> guest_word g' a n = guest_word g a n.
Proof. intros [Hv Hm]. unfold guest_word. by rewrite (same_view_gpa _ _ _ Hv), Hm. Qed.

Lemma refused_quiet g g' : quiet g g' -> refused g' -> refused g.
Proof.
  intros [Hv _] (gfn & g1 & k & w & g2 & Hv1 & Hr). exists gfn, g1, k, w, g2.
  split; [by eapply same_view_trans|done].
Qed.

Lemma map_page_rule gfn g :
  space_inv g -> 0 <= gfn < 2 ^ 52 ->
  exists buf k w g', gpa_space_map_page gfn g = Some (buf, k, w, g') /\ quiet g g' /\
    forall b, buf = Some b -> is_Some k /\
      forall i, 0 <= i < 4096 -> gpa_uva g (gfn * 4096 + i) = Some (b + i).
Proof.
  intros Hinv Hg. unfold gpa_space_map_page, PG_ORDER_4K. rewrite shiftl64_12 by done.
  change PAGE_SIZE_4K with 4096.
  destruct (map_range_rule (gfn * 4096) 4096 false g Hinv) as (r & g' & Hrun & Hv & Hm & Hpost);
    [lia..|].
  rewrite (bind_run _ _ _ _ _ Hrun).
  destruct (Z.ltb_spec (mr_ret r) 4096) as [Hlt|Hge].
  - eexists None, _, _, g'. split; [reflexivity|]. split; [by split|done].
  - eexists (Some _), _, _, g'. split; [reflexivity|]. split; [by split|]. intros b [= <-].
    unfold map_range_post, EINVAL, ENOMEM in Hpost. destruct Hpost as [[? _]|[?|(Hk & _ & _ & Hb)]]; [lia|lia|].
    split; [done|]. intros i Hi. apply Hb. lia.
Qed.

(** Where the entry [p] lies in guest memory. *)
Definition entry_at g (p : entry_ptr) (gpa n : Z) : Prop :=
  0 <= ep_off p /\ ep_off p + n <= 4096 /\ gpa_uva g gpa = Some (ep_page p + ep_off p).

Lemma read_table_rule g table off index (c : walk_ctx) :
  space_inv g -> 0 <= table < 2 ^ 64 -> off = table mod 4096 -> 0 <= index ->
  off + (index + 1) * entry_size c <= 4096 ->
  exists r g', read_table table off index (w_pae c) g = Some (r, g') /\ quiet g g' /\
    match r with
    | None => refused g
    | Some (p, v, k) => is_Some k /\ p = EntryPtr (ep_page p) (off + index * entry_size c) /\
        entry_at g p (table + index * entry_size c) (entry_size c) /\
        guest_word g (table + index * entry_size c) (entry_size c) = Some v
    end.
Proof.
  intros Hinv Ht Hoff Hi Hfit. unfold read_table, PG_ORDER_4K. rewrite shiftr_12.
  pose proof (Z.div_mod table 4096 ltac:(lia)). pose proof (Z.mod_pos_bound table 4096 ltac:(lia)).
  assert (0 <= table / 4096 < 2 ^ 52) by (split; [apply Z.div_pos|apply Z.div_lt_upper_bound]; lia).
  destruct (map_page_rule (table / 4096) g Hinv) as (buf & k & w & g' & Hrun & Hq & Hb); [lia|].
  rewrite (bind_run _ _ _ _ _ Hrun). destruct buf as [b|].
  2: { eexists None, g'. split; [reflexivity|]. split; [done|].
       exists (table / 4096), g, k, w, g'. split; [by apply same_view_refl|done]. }
  destruct (Hb b eq_refl) as [Hk Hu]. cbv zeta. set (p := pw_retrieve_table_entry _ _ _).
  assert (Hsz : entry_size c = 8 \/ entry_size c = 4) by (unfold entry_size; destruct (w_pae c); auto).
  assert (Hbnd : 0 <= index * entry_size c /\ off + index * entry_size c + entry_size c <= 4096)
    by (destruct Hsz as [Hsz|Hsz]; rewrite Hsz in *; lia).
  assert (Hp : p = EntryPtr b (off + index * entry_size c)).
  { subst p. unfold pw_retrieve_table_entry, PW_PAE_ENTRY_INCREMENT, PW_NON_PAE_ENTRY_INCREMENT.
    cbn. f_equal. fold (entry_size c). rewrite u32_small by lia. done. }
  assert (Hn : pw_read_entry_value (E := E) p (w_pae c) = load_word p (entry_size c))
    by (unfold pw_read_entry_value, entry_size; by destruct (w_pae c)).
  rewrite Hn, Hp. unfold load_word. cbn [ep_off ep_page]. change PAGE_SIZE_4K with 4096.
  rewrite (bind_run _ _ g' (le_word (umem_bytes (gs_umem g) (b + (off + index * entry_size c))
    (Z.to_nat (entry_size c)))) g').
  2: { rewrite assert_run; [by rewrite <- (proj2 Hq)|].
       apply andb_true_iff. split; apply Z.leb_le; lia. }
  assert (Hat : gpa_uva g (table + index * entry_size c) = Some (b + (off + index * entry_size c))).
  { replace (table + index * entry_size c) with
      (table / 4096 * 4096 + (off + index * entry_size c)) by lia. apply Hu. lia. }
  eexists (Some _), g'. split; [reflexivity|]. split; [done|].
  unfold entry_at, guest_word. cbn [ep_page ep_off]. rewrite Hat. split_and!; try done; lia.
Qed.

Lemma pw_out_rule kmaps r g :
  space_inv g -> Forall (fun k : option Z => is_Some k) kmaps ->
  exists g', pw_out kmaps r g = Some (r, g') /\ quiet g g'.
Proof.
  revert g. induction kmaps as [|k kmaps IH]; intros g Hinv Hk; cbn.
  - exists g. split; [done|by apply quiet_refl].
  - inversion Hk as [|? ? H1 H2]; subst. unfold gpa_space_unmap_page.
    destruct (unmap_rule k g H1 Hinv) as (u & g1 & Hrun & Hv & Hm).
    rewrite (bind_run _ _ g tt g1) by (by rewrite (bind_run _ _ _ _ _ Hrun)).
    destruct (IH g1 (proj1 Hv) H2) as (g' & Hrun' & Hq).
    exists g'. split; [done|]. by eapply quiet_trans; [split|].
Qed.
End Tables.

(** ** Accessed and dirty bits *)
Definition bytes_ok (m : gmap Z Z) : Prop := forall x v, m !! x = Some v -> 0 <= v < 256.

(** Memory changes only by setting bits 5 (accessed) and 6 (dirty) of bytes in [P]. *)
Definition ad_change (P : Z -> Prop) (m m' : gmap Z Z) : Prop :=
  forall x, exists k, k &! 0x60 = k /\ (k = 0 \/ P x) /\ umem_read m' x = umem_read m x |! k.

Lemma ad_change_refl P m : ad_change P m m.
Proof. intros x. exists 0. rewrite Z.lor_0_r. auto. Qed.

Lemma ad_change_trans P m1 m2 m3 : ad_change P m1 m2 -> ad_change P m2 m3 -> ad_change P m1 m3.
Proof.
  intros H1 H2 x. destruct (H1 x) as (k1 & Hk1 & Hp1 & E1), (H2 x) as (k2 & Hk2 & Hp2 & E2).
  exists (k1 |! k2). rewrite Z.land_lor_distr_l, Hk1, Hk2, E2, E1, Z.lor_assoc. split_and!; try done.
  destruct Hp1 as [->|]; [|by right]. destruct Hp2 as [->|]; [by left|by right].
Qed.

Lemma ad_change_mono (P Q : Z -> Prop) m m' :
  (forall x, P x -> Q x) -> ad_change P m m' -> ad_change Q m m'.
Proof. intros H Hc x. destruct (Hc x) as (k & ? & Hp & ?). exists k. naive_solver. Qed.

Lemma umem_read_ok m x : bytes_ok m -> 0 <= umem_read m x < 256.
Proof.
  intros Hm. unfold umem_read. destruct (m !! x) as [v|] eqn:Hx; [by apply (Hm x)|cbn; lia].
Qed.

Lemma lor_low v k : 0 <= k < 256 -> (v |! k) mod 256 = v mod 256 |! k /\ (v |! k) / 256 = v / 256.
Proof.
  intros Hk. change 256 with (2 ^ 8). split.
  - apply Z.bits_inj'. intros i Hi. rewrite testbit_mod, !Z.lor_spec, testbit_mod by lia.
    destruct (Z.ltb_spec i 8); rewrite ?andb_true_r, ?andb_false_r; [done|].
    rewrite <- (Z.mod_small k (2 ^ 8)) by lia. by rewrite Z.mod_pow2_bits_high by lia.
  - rewrite <- !Z.shiftr_div_pow2 by lia. rewrite Z.shiftr_lor. rewrite (Z.shiftr_div_pow2 k) by lia.
    rewrite (Z.div_small k) by lia. apply Z.lor_0_r.
Qed.

Lemma lor_byte b k : 0 <= b < 256 -> k &! 0x60 = k -> 0 <= k < 256 /\ 0 <= b |! k < 256.
Proof.
  intros Hb Hk. assert (0 <= k < 256) as Hk2.
  { rewrite <- Hk. assert (Heq : k &! 0x60 = (k &! 0x60) mod 2 ^ 8).
    { apply Z.bits_inj'. intros i Hi. rewrite testbit_mod by lia.
      destruct (Z.ltb_spec i 8); [by rewrite andb_true_r|]. rewrite Z.land_spec.
      rewrite (Z.bits_above_log2 0x60 i); [by rewrite !andb_false_r|done|].
      change (Z.log2 0x60) with 6. lia. }
    rewrite Heq. apply Z.mod_pos_bound. lia. }
  split; [done|]. destruct (lor_low b k Hk2) as [H _]. rewrite (Z.mod_small b) in H by done.
  rewrite <- H. apply Z.mod_pos_bound. lia.
Qed.

Lemma le_bytes_word bs :
  Forall (fun b => 0 <= b < 256) bs -> le_bytes (length bs) (le_word bs) = bs.
Proof.
  induction 1 as [|b bs Hb _ IH]; [done|]. cbn.
  rewrite Z.mul_comm, Z_mod_plus_full, Z.mod_small by done.
  rewrite Z_div_plus_full, Z.div_small by lia. by rewrite Z.add_0_l, IH.
Qed.

Lemma umem_bytes_ok m a n : bytes_ok m -> Forall (fun b => 0 <= b < 256) (umem_bytes m a n).
Proof.
  intros Hm. revert a. induction n as [|n IH]; intros a; cbn; constructor; [|apply IH].
  by apply umem_read_ok.
Qed.

Lemma store_ad (P : Z -> Prop) m a k n :
  bytes_ok m -> k &! 0x60 = k -> P a ->
  let m' := umem_store m a (le_bytes (S n) (le_word (umem_bytes m a (S n)) |! k)) in
  bytes_ok m' /\ ad_change P m m'.
Proof.
  intros Hm Hk HP. pose proof (umem_bytes_ok m (a + 1) n Hm) as Hbs.
  pose proof (umem_bytes_length m (a + 1) n) as Hlen.
  pose proof (fun i => umem_bytes_lookup m (a + 1) n i) as Hlk.
  destruct (lor_byte _ k (umem_read_ok m a Hm) Hk) as [Hk2 Hb0].
  cbn [umem_bytes le_word le_bytes]. destruct (lor_low (umem_read m a +
    256 * le_word (umem_bytes m (a + 1) n)) k Hk2) as [-> ->].
  rewrite Z.mul_comm, Z_mod_plus_full, (Z.mod_small (umem_read m a)) by (by apply umem_read_ok).
  rewrite Z_div_plus_full, Z.div_small by (pose proof (umem_read_ok m a Hm); lia).
  rewrite Z.add_0_l.
  assert (Hle : le_bytes n (le_word (umem_bytes m (a + 1) n)) = umem_bytes m (a + 1) n)
    by (rewrite <- Hlen at 1; by apply le_bytes_word). rewrite Hle. clear Hle.
  set (bs := umem_bytes m (a + 1) n) in *. cbv zeta.
  assert (Hrd : forall x, umem_store m a ((umem_read m a |! k) :: bs) !! x = m !! x \/
    exists v, umem_store m a ((umem_read m a |! k) :: bs) !! x = Some v /\
      (v = umem_read m x \/ x = a /\ v = umem_read m x |! k)).
  { intros x. destruct (decide (a <= x < a + Z.of_nat (S n))) as [Hx|Hx].
    - right. pose proof (umem_store_lookup m a ((umem_read m a |! k) :: bs) (Z.to_nat (x - a))
        ltac:(cbn; lia)) as Hst.
      replace (a + Z.of_nat (Z.to_nat (x - a))) with x in Hst by lia. rewrite Hst. clear Hst.
      destruct (Z.to_nat (x - a)) as [|i] eqn:Hi; cbn.
      + exists (umem_read m a |! k). replace x with a by lia. auto.
      + exists (umem_read m (a + 1 + Z.of_nat i)). rewrite Hlk by lia. split; [done|]. left.
        f_equal. lia.
    - left. apply umem_store_other. cbn. lia. }
  split.
  - intros x v Hx. pose proof (umem_read_ok m x Hm) as Hr.
    destruct (Hrd x) as [Heq|(v' & Heq & [-> | [_ ->]])]; rewrite Heq in Hx.
    + by apply (Hm x).
    + by injection Hx as <-.
    + injection Hx as <-. by apply lor_byte.
  - intros x. destruct (Hrd x) as [Heq|(v' & Heq & [-> | [-> ->]])]; [exists 0|exists 0|exists k];
      rewrite ?Z.lor_0_r; (split; [done|]); (split; [by auto|]);
      match goal with |- umem_read ?m' ?x = _ => change (umem_read m' x) with (default 0 (m' !! x)) end;
      by rewrite Heq.
Qed.

Section Update.
Context {HH : Host} {E : Type} (same_kva : Z -> Z -> bool) (c : walk_ctx).
Notation st := (hax_gpa_space E).
Implicit Types (g : st).

(** The user address of a guest physical address at which an entry can start. *)
Definition entry_byte g (x : Z) : Prop :=
  exists gpa, gpa_uva g gpa = Some x /\ gpa mod entry_size c = 0.

Lemma entry_byte_view g g' x : same_view g g' -> entry_byte g' x <-> entry_byte g x.
Proof. intros (_ & Hu & _). unfold entry_byte, gpa_uva. by setoid_rewrite Hu. Qed.

Definition ad_step g g' : Prop :=
  same_view g g' /\ bytes_ok (gs_umem g') /\ ad_change (entry_byte g) (gs_umem g) (gs_umem g').

Lemma ad_step_refl g : space_inv g -> bytes_ok (gs_umem g) -> ad_step g g.
Proof. intros. split_and!; [by apply same_view_refl|done|apply ad_change_refl]. Qed.

Lemma ad_step_trans g1 g2 g3 : ad_step g1 g2 -> ad_step g2 g3 -> ad_step g1 g3.
Proof.
  intros (Hv & ? & ?) (? & ? & ?).
  split_and!; [by eapply same_view_trans|done|]. eapply ad_change_trans; [done|].
  eapply ad_change_mono; [|done]. intros x. by apply (entry_byte_view _ _ x Hv).
Qed.

(** A pointer through which eight bytes can be accessed. *)
Definition ptr_ok g (p : option entry_ptr) : Prop :=
  exists q, p = Some q /\ 0 <= ep_off q /\ ep_off q + 8 <= 4096 /\ entry_byte g (ep_page q + ep_off q).

Lemma ptr_ok_view g g' p : same_view g g' -> ptr_ok g p -> ptr_ok g' p.
Proof.
  intros Hv (q & -> & ? & ? & ?). exists q. split_and!; try done. by eapply entry_byte_view.
Qed.

Lemma u32_lor e k : 0 <= k < 256 -> u32 (e |! k) = u32 e |! k.
Proof.
  intros Hk. apply Z.bits_inj'. intros i Hi. unfold u32.
  rewrite testbit_mod, !Z.lor_spec, testbit_mod by lia.
  destruct (Z.ltb_spec i 32); rewrite ?andb_true_r, ?andb_false_r; [done|].
  rewrite <- (Z.mod_small k (2 ^ 8)) by lia. by rewrite Z.mod_pow2_bits_high by lia.
Qed.

Lemma update_entry_rule p old new k g :
  space_inv g -> bytes_ok (gs_umem g) -> ptr_ok g p -> pe_present old = true ->
  k &! 0x60 = k -> new = old |! k ->
  exists g', pw_update_ad_bits_in_entry p old new g = Some (tt, g') /\ ad_step g g'.
Proof.
  intros Hinv Hm (q & -> & Hlo & Hhi & Hat) Hp Hk ->.
  destruct (lor_byte 0 k ltac:(lia) Hk) as [Hk2 _].
  unfold pw_update_ad_bits_in_entry. rewrite (of_option_run _ q) by done.
  rewrite assert_run by done. rewrite assert_run by (unfold pe_present in *; by rewrite Z.lor_spec, Hp).
  destruct (_ =? _); cbn [negb]; [exists g; split; [done|by apply ad_step_refl]|].
  unfold cmpxchg64. unfold mbind at 1, M_bind at 1.
  rewrite (bind_run _ _ g (le_word (umem_bytes (gs_umem g) (ep_page q + ep_off q) 8)) g).
  2: { unfold load_word. change PAGE_SIZE_4K with 4096. rewrite assert_run; [done|].
       apply andb_true_iff. split; apply Z.leb_le; lia. }
  destruct (Z.eqb_spec (le_word (umem_bytes (gs_umem g) (ep_page q + ep_off q) 8)) (u32 old))
    as [Heq|]; [|exists g; split; [done|by apply ad_step_refl]].
  rewrite u32_lor, <- Heq by done.
  destruct (store_ad _ (gs_umem g) (ep_page q + ep_off q) k 7 Hm Hk Hat) as [Hm' Had].
  eexists. split; [reflexivity|]. split_and!; [by apply same_view_umem|exact Hm'|exact Had].
Qed.

(** Setting bits that may be set already. *)
Lemma lor_again (b : bool) e k : e |! k = (if b then e |! k else e) |! k.
Proof. destruct b; [|done]. by rewrite <- Z.lor_assoc, Z.lor_diag. Qed.

Lemma present_again (b : bool) e : pe_present e = true ->
  pe_present (if b then pe_set_accessed e else e) = true.
Proof.
  intros H. destruct b; [|done]. unfold pe_present, pe_set_accessed in *. by rewrite Z.lor_spec, H.
Qed.

Lemma leaf_bits (b w : bool) e :
  exists k, k &! 0x60 = k /\
    (if w then pe_set_dirty (pe_set_accessed e) else pe_set_accessed e) =
    (if b then pe_set_accessed e else e) |! k.
Proof.
  exists (if w then 0x60 else 0x20). split; [by destruct w|].
  unfold pe_set_dirty, pe_set_accessed. change (Z.shiftl 1 5) with 0x20. change (Z.shiftl 1 6) with 0x40.
  destruct w, b; rewrite <- ?Z.lor_assoc; reflexivity.
Qed.

Lemma table_bits_rule (b : bool) p e g :
  space_inv g -> bytes_ok (gs_umem g) -> ptr_ok g p -> pe_present e = true ->
  exists g', pw_update_ad_bits_in_entry p (if b then pe_set_accessed e else e) (pe_set_accessed e) g
             = Some (tt, g') /\ ad_step g g'.
Proof.
  intros. destruct (leaf_bits b false e) as (k & Hk & Heq).
  eapply (update_entry_rule _ _ _ k); try done. by apply present_again.
Qed.

Lemma update_ad_bits_rule p1 pml4te p2 pdpte p3 pde p4 pte g :
  space_inv g -> bytes_ok (gs_umem g) -> entries_present pml4te pdpte pde pte c ->
  (w_lme c = true -> ptr_ok g p1 /\ ptr_ok g p2) ->
  (pe_page_size pdpte = false -> ptr_ok g p3) ->
  (forall d, pe_page_size pdpte = false -> pde = Some d -> pw_is_big_page_pde d c = false -> ptr_ok g p4) ->
  exists g', pw_update_ad_bits same_kva p1 pml4te p2 pdpte p3 pde p4 pte c g = Some (tt, g') /\
    ad_step g g'.
Proof.
  intros Hinv Hm [Hl Hd] Hp12 Hp3 Hp4. unfold pw_update_ad_bits.
  assert (Htop : exists g1, (if w_lme c then
     hax_assert (bool_decide (is_Some p1));; hax_assert (bool_decide (is_Some p2));;
     pw_update_ad_bits_in_entry p1 pml4te (pe_set_accessed pml4te);;
     pw_update_ad_bits_in_entry p2 (if same_ptr same_kva p1 p2 then pe_set_accessed pdpte else pdpte)
       (pe_set_accessed pdpte) else mret tt) g = Some (tt, g1) /\ ad_step g g1).
  { destruct (w_lme c); [|exists g; split; [done|by apply ad_step_refl]].
    destruct (Hl eq_refl) as [H1 H2]. destruct (Hp12 eq_refl) as [Hp1 Hp2].
    rewrite assert_run by (destruct Hp1 as (? & -> & _); by apply bool_decide_eq_true).
    rewrite assert_run by (destruct Hp2 as (? & -> & _); by apply bool_decide_eq_true).
    destruct (table_bits_rule false p1 pml4te g) as (g1 & Hr1 & Hs1); try done.
    rewrite (bind_run _ _ _ _ _ Hr1).
    destruct (table_bits_rule (same_ptr same_kva p1 p2) p2 pdpte g1) as (g2 & Hr2 & Hs2);
      try done; try apply Hs1; try (by eapply ptr_ok_view; [apply Hs1|]).
    exists g2. split; [done|by eapply ad_step_trans]. }
  destruct Htop as (g1 & Hr & Hs). pose proof (ptr_ok_view g g1) as Hmv. specialize (fun p => Hmv p (proj1 Hs)). rewrite (bind_run _ _ _ _ _ Hr). clear Hr.
  unfold pw_is_1gb_page_pdpte. destruct (pe_page_size pdpte); [by exists g1|].
  destruct (Hd eq_refl) as (d & -> & Hpd & Ht). specialize (Hp3 eq_refl).
  rewrite assert_run by (destruct Hp3 as (? & -> & _); by apply bool_decide_eq_true).
  rewrite (of_option_run _ d) by done. cbv zeta. set (b3 := (_ || _)%bool). clearbody b3.
  assert (Hbig : pw_is_big_page_pde (pe_set_accessed d) c = pw_is_big_page_pde d c).
  { unfold pw_is_big_page_pde, pe_page_size, pe_set_accessed. rewrite Z.lor_spec.
    by rewrite orb_false_r. }
  rewrite Hbig. destruct (pw_is_big_page_pde d c) eqn:Hb.
  - destruct (leaf_bits b3 (w_write c) d) as (k & Hk & Heq).
    destruct (update_entry_rule p3 _ _ k g1 (proj1 (proj1 Hs)) (proj1 (proj2 Hs)) (Hmv _ Hp3)
      (present_again b3 d Hpd) Hk Heq) as (g2 & Hr2 & Hs2).
    exists g2. split; [done|by eapply ad_step_trans].
  - destruct (table_bits_rule b3 p3 d g1) as (g2 & Hr2 & Hs2); try done; try apply Hs; try (by apply Hmv).
    rewrite (bind_run _ _ _ _ _ Hr2). pose proof (ad_step_trans _ _ _ Hs Hs2) as Hs3.
    specialize (Hp4 d eq_refl eq_refl Hb). destruct (Ht eq_refl) as (t & -> & Hpt).
    rewrite assert_run by (destruct Hp4 as (? & -> & _); by apply bool_decide_eq_true).
    rewrite (of_option_run _ t) by done. cbv zeta. set (b4 := (_ || _)%bool). clearbody b4.
    destruct (leaf_bits b4 (w_write c) t) as (k & Hk & Heq).
    destruct (update_entry_rule p4 _ _ k g2 (proj1 (proj1 Hs2)) (proj1 (proj2 Hs2)) (ptr_ok_view _ _ _ (proj1 Hs2) (Hmv _ Hp4))
      (present_again b4 t Hpt) Hk Heq) as (g3 & Hr3 & Hs4).
    exists g3. split; [done|by eapply ad_step_trans].
Qed.
End Update.
