(* ===== verification/PageWalkProps.v ===== *)
(** * Correctness of the page walker

    Stage by stage, from the page table up, the unrolled walk of page_walker.c gives the
    result of the reference translation of PageWalkSpec. *)

From stdpp Require Import base numbers list gmap.
From Stdlib Require Import ZArith Lia.
From S2P Require Import Prelude HaxList Bitmap MemTypes Ramblock Memslot MemslotSpec.
From S2P Require Import MemslotOwn MemslotPhase MemslotLoop MemslotNotify MemslotCorrect.
From S2P Require Import SimpleHost MemslotProps GpaSpace GpaAccess PageWalker PageWalkSpec.
From S2P Require Import PageWalkProof.
#[local] Open Scope Z_scope.

(** The last two levels of every mode. *)
Definition reserved_of (c : walk_ctx) : Z := if w_lme c then reserved_high c else reserved_legacy c.
Definition pt_level (c : walk_ctx) : level :=
  if w_pae c then Level 12 9 false true (reserved_of c) 0 else Level 12 10 false true 0 0.
Definition pd_level (c : walk_ctx) : level :=
  if w_pae c then Level 21 9 true true (reserved_of c) (bits 13 21)
  else Level 22 10 (w_pse c) true 0 (bits 13 22).

Definition pdpt_level (c : walk_ctx) : level :=
  if w_lme c then Level 30 9 true true (reserved_high c) (bits 13 30)
  else Level 30 2 false false (reserved_legacy c |! bits 1 3 |! bits 63 64) 0.

Lemma paging_levels_eq c :
  paging_levels c =
  (if w_pae c then (if w_lme c then [Level 39 9 false true (reserved_high c) 0] else []) ++ [pdpt_level c]
   else []) ++ [pd_level c; pt_level c].
Proof.
  unfold paging_levels, pd_level, pt_level, pdpt_level, reserved_of.
  by destruct (w_pae c), (w_lme c).
Qed.

Lemma small_gpa c e :
  entry_addr c e |! (w_virt_addr c &! (PAGE_SIZE_4K - 1)) =
  entry_addr c e / 2 ^ 12 * 2 ^ 12 + w_virt_addr c mod 2 ^ 12.
Proof.
  destruct (entry_addr_range c e) as [_ H0]. change (PAGE_SIZE_4K - 1) with (Z.ones 12).
  rewrite Z.land_ones by lia. change 4096 with (2 ^ 12) in H0.
  pose proof (Z.div_mod (entry_addr c e) (2 ^ 12) ltac:(lia)) as Hd.
  replace (entry_addr c e) with (Z.shiftl (entry_addr c e / 2 ^ 12) 12) at 1
    by (rewrite Z.shiftl_mul_pow2 by lia; lia).
  rewrite <- Z.shiftl_mul_pow2 by lia. symmetry. apply Z.add_nocarry_lor.
  apply Z.bits_inj'. intros i Hi. rewrite Z.land_spec, testbit_mod, Z.bits_0, Z.shiftl_spec by lia.
  destruct (Z.ltb_spec i 12); [by rewrite Z.testbit_neg_r by lia|]. by rewrite !andb_false_r.
Qed.

Section Stages.
Context {HH : Host} {E : Type} (same_kva : Z -> Z -> bool).
Notation st := (hax_gpa_space E).
Implicit Types (g : st) (c : walk_ctx).

(** How the walker reports an outcome.  An absent entry of the last level is not among
    them. *)
Definition reports c (o : outcome) (r : walk_result) : Prop :=
  match o with
  | NoTable => False
  | Absent last => last = false /\ wr_ret r = TF_FAILED |! w_access c
  | Reserved => wr_ret r = TF_FAILED |! TF_PROTECT |! TF_RSVD |! w_access c
  | Denied => wr_ret r = TF_FAILED |! TF_PROTECT |! w_access c
  | Translated gpa order => wr_ret r = TF_OK /\ wr_gpa r = gpa /\ wr_order r = Some order
  end.

(** The effect of a walk on the machine. *)
Definition effect c g g' : Prop :=
  same_view g g' /\ bytes_ok (gs_umem g') /\
  if w_set_ad_bits c then ad_change (entry_byte c g) (gs_umem g) (gs_umem g') else gs_umem g' = gs_umem g.

Definition walked c g (o : outcome) (r : walk_result) g' : Prop :=
  effect c g g' /\ (wr_ret r = TF_FAILED /\ refused g \/ reports c o r).

Lemma effect_quiet c g g' : bytes_ok (gs_umem g) -> quiet g g' -> effect c g g'.
Proof.
  intros Hm [Hv Hq]. unfold effect. rewrite Hq. split_and!; [done|done|].
  destruct (w_set_ad_bits c); [apply ad_change_refl|done].
Qed.

Lemma effect_trans c g1 g2 g3 : effect c g1 g2 -> effect c g2 g3 -> effect c g1 g3.
Proof.
  intros (H1 & _ & H2) (H3 & ? & H4). split_and!; [by eapply same_view_trans|done|].
  destruct (w_set_ad_bits c); [|congruence]. eapply ad_change_trans; [done|].
  eapply ad_change_mono; [|done]. intros x. by apply (entry_byte_view c _ _ x H1).
Qed.

Lemma walk_ext c (rd rd' : Z -> Z -> option Z) ls table r :
  (forall a n, rd a n = rd' a n) -> walk c rd ls table r = walk c rd' ls table r.
Proof.
  intros H. revert table r. induction ls as [|l ls IH]; intros table r; [done|]. cbn.
  rewrite H. destruct (rd' _ _); [|done]. by rewrite IH.
Qed.

Lemma walked_step c g g1 o r g' :
  bytes_ok (gs_umem g) -> quiet g g1 -> walked c g1 o r g' -> walked c g o r g'.
Proof.
  intros Hm Hq [He Hr]. split; [by eapply effect_trans; [apply effect_quiet|]|].
  destruct Hr as [[? Hrf]|Hr]; [left; split; [done|by eapply refused_quiet]|by right].
Qed.

(** The rest of a walk, after a quiet step. *)
Lemma walked_quiet c g g1 ls table r0 r g' :
  bytes_ok (gs_umem g) -> quiet g g1 ->
  walked c g1 (walk c (guest_word g1) ls table r0) r g' ->
  walked c g (walk c (guest_word g) ls table r0) r g'.
Proof.
  intros Hm Hq Hw. erewrite walk_ext; [by eapply walked_step|].
  intros a n. symmetry. by apply quiet_word.
Qed.

(** Leaving the walk. *)
Lemma out_rule c g g1 kmaps r (Q : Prop) :
  bytes_ok (gs_umem g) -> effect c g g1 -> Forall (fun k : option Z => is_Some k) kmaps -> Q ->
  exists g', pw_out kmaps r g1 = Some (r, g') /\ effect c g g' /\ Q.
Proof.
  intros Hm He Hk HQ. pose proof He as ((Hinv & _) & Hm1 & _).
  destruct (pw_out_rule kmaps r g1 Hinv Hk) as (g' & Hrun & Hq).
  exists g'. split_and!; [done| |done]. by eapply effect_trans; [|apply effect_quiet].
Qed.

(** A right that the entries above the page directory give. *)
Definition above (f : Z -> bool) (pml4te pdpte : Z) c : bool :=
  (negb (w_lme c) || (f pml4te && f pdpte))%bool.
Definition rights_above (pml4te pdpte : Z) c : rights :=
  Rights (above pe_writable pml4te pdpte c) (above pe_user pml4te pdpte c)
    (negb (above (fun e => negb (pe_exb e)) pml4te pdpte c)).

Lemma rights_big pml4te pdpte d l c :
  lv_rights l = true -> pe_page_size pdpte = false -> pw_is_big_page_pde d c = true ->
  add_rights l d (rights_above pml4te pdpte c) =
  Rights (all_have pe_writable pml4te pdpte (Some d) None c)
         (all_have pe_user pml4te pdpte (Some d) None c)
         (negb (all_have (fun e => negb (pe_exb e)) pml4te pdpte (Some d) None c)).
Proof.
  intros Hl Hs Hb. unfold add_rights, rights_above, all_have, above. rewrite Hl, Hs, Hb. cbn.
  rewrite !andb_true_r. f_equal. by rewrite negb_andb, negb_involutive.
Qed.

Lemma rights_small pml4te pdpte d t l l' c :
  lv_rights l = true -> lv_rights l' = true -> pe_page_size pdpte = false ->
  pw_is_big_page_pde d c = false ->
  add_rights l' t (add_rights l d (rights_above pml4te pdpte c)) =
  Rights (all_have pe_writable pml4te pdpte (Some d) (Some t) c)
         (all_have pe_user pml4te pdpte (Some d) (Some t) c)
         (negb (all_have (fun e => negb (pe_exb e)) pml4te pdpte (Some d) (Some t) c)).
Proof.
  intros Hl Hl' Hs Hb. unfold add_rights, rights_above, all_have, above.
  rewrite Hl, Hl', Hs, Hb. cbn. rewrite !andb_assoc. f_equal.
  by rewrite !negb_andb, !negb_involutive.
Qed.

(** What is known of the tables above the current one. *)
Record upper c g (kmaps : list (option Z)) (p1 : option entry_ptr) (pml4te : Z)
    (p2 : option entry_ptr) (pdpte : Z) : Prop := {
  up_inv : space_inv g;
  up_bytes : bytes_ok (gs_umem g);
  up_kmaps : Forall (fun k : option Z => is_Some k) kmaps;
  up_lme : w_lme c = true ->
    w_pae c = true /\ pe_present pml4te = true /\ pe_present pdpte = true /\ ptr_ok c g p1 /\ ptr_ok c g p2;
}.

Lemma upper_step c g g' kmaps k p1 pml4te p2 pdpte :
  upper c g kmaps p1 pml4te p2 pdpte -> quiet g g' -> is_Some k ->
  upper c g' (kmaps ++ [k]) p1 pml4te p2 pdpte.
Proof.
  intros [? ? ? Hl] [Hv Hq] Hk. split; [apply Hv|by rewrite Hq| |].
  - apply Forall_app. split; [done|by repeat constructor].
  - intros (? & ? & ? & ? & ?)%Hl. split_and!; try done; by eapply ptr_ok_view.
Qed.

(** In 32-bit paging the update of the last entry of a table leaves the page. *)
Definition ad_fits c : Prop :=
  w_set_ad_bits c = true -> w_pae c = false ->
  wlevel_index c 22 10 <> 1023 /\ wlevel_index c 12 10 <> 1023.

(** The end of a walk whose access is decided. *)
Lemma finish_walk c g kmaps p1 pml4te p2 pdpte p3 pde p4 pte rt gpa order :
  upper c g kmaps p1 pml4te p2 pdpte -> entries_present pml4te pdpte pde pte c ->
  rt = Rights (all_have pe_writable pml4te pdpte pde pte c) (all_have pe_user pml4te pdpte pde pte c)
         (negb (all_have (fun e => negb (pe_exb e)) pml4te pdpte pde pte c)) ->
  (w_set_ad_bits c = true -> pe_page_size pdpte = false -> ptr_ok c g p3 /\
     forall d, pde = Some d -> pw_is_big_page_pde d c = false -> ptr_ok c g p4) ->
  exists r g', (ok ← access_permitted pml4te pdpte pde pte c;
    if negb ok then pw_out kmaps (WalkResult (TF_FAILED |! TF_PROTECT |! w_access c) gpa (Some order))
    else
      (if w_set_ad_bits c then pw_update_ad_bits same_kva p1 pml4te p2 pdpte p3 pde p4 pte c
       else mret tt);;
      pw_out kmaps (WalkResult TF_OK gpa (Some order))) g = Some (r, g') /\
    walked c g (if allowed c rt then Translated gpa order else Denied) r g'.
Proof.
  intros [Hinv Hm Hk Hl] Hp -> Hptr.
  rewrite (bind_run _ _ _ _ _ (access_permitted_run _ _ _ _ _ g Hp)).
  destruct (allowed c _); cbn [negb].
  - assert (exists g1, (if w_set_ad_bits c then
       pw_update_ad_bits same_kva p1 pml4te p2 pdpte p3 pde p4 pte c else mret tt) g = Some (tt, g1) /\
       effect c g g1) as (g1 & Hrun & He).
    { unfold effect. destruct (w_set_ad_bits c).
      - apply update_ad_bits_rule; [done|done|done| | |].
        + intros (_ & _ & _ & ?)%Hl. done.
        + intros Hs. by apply Hptr.
        + intros d Hs. by apply Hptr.
      - exists g. split; [done|]. split; [by apply same_view_refl|by split]. }
    rewrite (bind_run _ _ _ _ _ Hrun).
    destruct (out_rule c g g1 kmaps (WalkResult TF_OK gpa (Some order)) True Hm He Hk I)
      as (g' & Hrun' & He' & _). eexists _, g'. split; [done|]. split; [done|right; done].
  - destruct (out_rule c g g kmaps (WalkResult (TF_FAILED |! TF_PROTECT |! w_access c) gpa (Some order))
      True Hm (effect_quiet c g g Hm (quiet_refl g Hinv)) Hk I) as (g' & Hrun' & He' & _).
    eexists _, g'. split; [done|]. split; [done|right; done].
Qed.

(** Leaving the walk from a table that could not be mapped, or with a fault. *)
Lemma refuse_rule c g g1 kmaps o r :
  bytes_ok (gs_umem g) -> quiet g g1 -> Forall (fun k : option Z => is_Some k) kmaps ->
  (wr_ret r = TF_FAILED /\ refused g \/ reports c o r) ->
  exists r' g', pw_out kmaps r g1 = Some (r', g') /\ walked c g o r' g'.
Proof.
  intros Hm Hq Hk Hr.
  destruct (out_rule c g g1 kmaps r True Hm (effect_quiet c g g1 Hm Hq) Hk I) as (g' & Hrun & He & _).
  exists r, g'. by split; [|split].
Qed.

Lemma kmaps_snoc kmaps (k : option Z) :
  Forall (fun k : option Z => is_Some k) kmaps -> is_Some k ->
  Forall (fun k : option Z => is_Some k) (kmaps ++ [k]).
Proof. intros ? ?. apply Forall_app. split; [done|by repeat constructor]. Qed.

Lemma entry_ptr_ok g p table c index off :
  p = EntryPtr (ep_page p) (off + index * entry_size c) ->
  entry_at g p (table + index * entry_size c) (entry_size c) -> table mod entry_size c = 0 ->
  (w_pae c = false -> off = 0 /\ 0 <= index < 1023) -> ptr_ok c g (Some p).
Proof.
  intros Hp (Hlo & Hhi & Hat) Ht Hi. exists p. split; [done|]. split; [done|]. split.
  - unfold entry_size in *.
    destruct (w_pae c); [lia|]. destruct (Hi eq_refl) as [-> ?]. rewrite Hp. cbn. lia.
  - exists (table + index * entry_size c). split; [done|]. by rewrite Z_mod_plus_full.
Qed.

Lemma page_entry_mod c table : table mod 4096 = 0 -> table mod entry_size c = 0.
Proof.
  intros Ht. apply Z.mod_divide in Ht as [q ->]; [|done]. apply Z.mod_divide.
  - unfold entry_size. by destruct (w_pae c).
  - apply Z.divide_mul_r. unfold entry_size. destruct (w_pae c); [by exists 512|by exists 1024].
Qed.

(** One level of the reference walk, in the terms of the code. *)
Lemma walk_pt_step c rd table r t :
  rd (table + wlevel_index c 12 (if w_pae c then 9 else 10) * entry_size c) (entry_size c) = Some t ->
  walk c rd [pt_level c] table r =
  (if negb (pe_present t) then Absent true
   else if negb (pw_are_reserved_bits_in_pte_cleared t c) then Reserved
   else if allowed c (add_rights (pt_level c) t r)
   then Translated (entry_addr c t / 2 ^ 12 * 2 ^ 12 + w_virt_addr c mod 2 ^ 12) 12 else Denied).
Proof.
  unfold wlevel_index. intros Hw. cbn [walk].
  replace (lv_shift (pt_level c)) with 12 by (unfold pt_level; by destruct (w_pae c)).
  replace (lv_width (pt_level c)) with (if w_pae c then 9 else 10)
    by (unfold pt_level; by destruct (w_pae c)).
  rewrite Hw. destruct (pe_present t); [cbn [negb]|done].
  replace (lv_large (pt_level c)) with false by (unfold pt_level; by destruct (w_pae c)).
  cbn [andb orb]. replace (bit_set t (lv_reserved (pt_level c) |! 0)) with
    (negb (pw_are_reserved_bits_in_pte_cleared t c)); [done|].
  unfold pt_level, reserved_of. destruct (w_pae c) eqn:Hpae; cbn [lv_reserved].
  - by rewrite pte_reserved by done.
  - unfold pw_are_reserved_bits_in_pte_cleared. rewrite Hpae. by rewrite Z.lor_0_r, bit_set_0.
Qed.

Lemma walk_pd_step c rd table r e :
  (w_lme c = true -> w_pae c = true) ->
  rd (table + wlevel_index c (lv_shift (pd_level c)) (if w_pae c then 9 else 10) * entry_size c)
    (entry_size c) = Some e ->
  walk c rd (pd_level c :: [pt_level c]) table r =
  (if negb (pe_present e) then Absent false
   else if negb (pw_are_reserved_bits_in_pde_cleared e c) then Reserved
   else if pw_is_big_page_pde e c then
     if allowed c (add_rights (pd_level c) e r)
     then Translated (entry_addr c e / 2 ^ lv_shift (pd_level c) * 2 ^ lv_shift (pd_level c) +
                      w_virt_addr c mod 2 ^ lv_shift (pd_level c)) (lv_shift (pd_level c)) else Denied
   else walk c rd [pt_level c] (entry_addr c e) (add_rights (pd_level c) e r)).
Proof.
  unfold wlevel_index. intros Hlp Hw. remember [pt_level c] as tl eqn:Htl. cbn [walk].
  replace (lv_width (pd_level c)) with (if w_pae c then 9 else 10)
    by (unfold pd_level; by destruct (w_pae c)).
  rewrite Hw. replace (match tl with [] => true | _ => false end) with false by (by subst).
  destruct (pe_present e); [cbn [negb orb]|done].
  assert (Hl : (lv_large (pd_level c) && pe_page_size e)%bool = pw_is_big_page_pde e c).
  { unfold pd_level, pw_is_big_page_pde. destruct (pe_page_size e), (w_pae c), (w_lme c);
      cbn; try done; destruct (w_pse c); try done; by specialize (Hlp eq_refl). }
  rewrite Hl. replace (bit_set e (lv_reserved (pd_level c) |! _)) with
    (negb (pw_are_reserved_bits_in_pde_cleared e c)); [done|].
  rewrite <- Hl. unfold pd_level, reserved_of. destruct (w_pae c) eqn:Hpae.
  - cbn [lv_large lv_reserved lv_reserved_large andb]. by rewrite pae_pde_reserved.
  - rewrite <- pde_reserved; [done|done|]. destruct (w_lme c); [by discriminate Hlp|done].
Qed.

(** A walk stops, on a failed assertion, exactly when the entry of the last level is
    absent; otherwise it reports the outcome. *)
Definition walks c g (o : outcome) (res : option (walk_result * st)) : Prop :=
  match res with Some (r, g') => walked c g o r g' | None => o = Absent true end.

Lemma walks_intro c g o res :
  (exists r g', res = Some (r, g') /\ walked c g o r g') -> walks c g o res.
Proof. by intros (r & g' & -> & H). Qed.

Lemma walks_quiet c g g1 ls table r0 res :
  bytes_ok (gs_umem g) -> quiet g g1 ->
  walks c g1 (walk c (guest_word g1) ls table r0) res ->
  walks c g (walk c (guest_word g) ls table r0) res.
Proof.
  intros Hm Hq. destruct res as [[r g']|]; cbn; [by apply walked_quiet|]. intros <-.
  apply walk_ext. intros. symmetry. by apply quiet_word.
Qed.

Lemma phys_addr_absent {A} e c (k : Z -> M st A) g :
  pe_present e = false -> (pw_retrieve_phys_addr e (w_pae c) ≫= k) g = None.
Proof. intros Hp. unfold pw_retrieve_phys_addr, mbind, M_bind, hax_assert. by rewrite Hp. Qed.

Lemma pt_rule c ix g kmaps p1 pml4te p2 pdpte p3 pde :
  upper c g kmaps p1 pml4te p2 pdpte -> pe_page_size pdpte = false ->
  pe_present pde = true -> pw_is_big_page_pde pde c = false ->
  pte_index ix = wlevel_index c 12 (if w_pae c then 9 else 10) ->
  ad_fits c -> (w_set_ad_bits c = true -> ptr_ok c g (Some p3)) ->
  let o := walk c (guest_word g) [pt_level c] (entry_addr c pde)
             (add_rights (pd_level c) pde (rights_above pml4te pdpte c)) in
  walks c g o (pw_walk_pt same_kva c ix kmaps p1 pml4te p2 pdpte p3 pde g).
Proof.
  intros Hup Hps Hpd Hbig Hix Hfit Hp3 o. pose proof Hup as [Hinv Hm Hk Hl].
  unfold pw_walk_pt. rewrite (bind_run _ _ _ _ _ (phys_addr_run pde c g Hpd)).
  destruct (entry_addr_range c pde) as [Ha Ha0]. cbv zeta.
  pose proof (index_range c 12 9 ltac:(lia)). pose proof (index_range c 12 10 ltac:(lia)).
  assert (Hib : 0 <= pte_index ix /\ 0 + (pte_index ix + 1) * entry_size c <= 4096)
    by (rewrite Hix; unfold entry_size; destruct (w_pae c); lia).
  destruct (read_table_rule g (entry_addr c pde) 0 (pte_index ix) c Hinv) as (r & g1 & Hrun & Hq & Hr);
    [lia|done|lia|lia|].
  rewrite (bind_run _ _ _ _ _ Hrun). destruct r as [[[p4 t] k]|].
  2: { apply walks_intro, refuse_rule; try done. by left. }
  destruct Hr as (Hsk & Hp4 & Hat & Hw).
  rewrite Hix in Hw. pose proof (walk_pt_step c (guest_word g) _
    (add_rights (pd_level c) pde (rights_above pml4te pdpte c)) t Hw) as Heq. fold o in Heq.
  destruct (pe_present t) eqn:Hpt; cbn [negb] in Heq; [|by rewrite phys_addr_absent].
  rewrite (bind_run _ _ _ _ _ (phys_addr_run t c g1 Hpt)). cbn [negb].
  destruct (pw_are_reserved_bits_in_pte_cleared t c); cbn [negb] in Heq |- *.
  2: { apply walks_intro, refuse_rule; try done; [by apply kmaps_snoc|]. right. by rewrite Heq. }
  pose proof (upper_step _ _ _ _ k _ _ _ _ Hup Hq Hsk) as Hup1.
  destruct (finish_walk c g1 (kmaps ++ [k]) p1 pml4te p2 pdpte (Some p3) (Some pde) (Some p4) (Some t)
    (add_rights (pt_level c) t (add_rights (pd_level c) pde (rights_above pml4te pdpte c)))
    (entry_addr c t |! (w_virt_addr c &! (PAGE_SIZE_4K - 1))) PG_ORDER_4K Hup1)
    as (r & g' & Hrun' & Hwk); [|apply rights_small;
      try done; unfold pd_level, pt_level; by destruct (w_pae c)| |].
  - split; [by intros (_ & ? & ? & _)%Hl|]. intros _. exists pde. split_and!; try done. intros _. by exists t.
  - intros Had _. split; [by eapply ptr_ok_view; [apply Hq|apply Hp3]|]. intros d _ _.
    eapply ptr_ok_view; [apply Hq|].
    apply (entry_ptr_ok g p4 (entry_addr c pde) c (pte_index ix) 0 Hp4 Hat); [by apply page_entry_mod|]. intros Hpae. rewrite Hix, Hpae in *.
    destruct (Hfit Had Hpae). lia.
  - apply walks_intro. exists r, g'. split; [done|]. rewrite small_gpa in Hwk. rewrite Heq.
    by apply (walked_step c g g1).
Qed.

Lemma pd_rule c ix g first_table kmaps p1 pml4te p2 pdpte table :
  upper c g kmaps p1 pml4te p2 pdpte -> pe_page_size pdpte = false ->
  table = (if w_pae c then entry_addr c pdpte else first_table) ->
  (w_pae c = true -> pe_present pdpte = true) ->
  0 <= table < 2 ^ 64 -> table mod 4096 = 0 ->
  pde_index ix = wlevel_index c (lv_shift (pd_level c)) (if w_pae c then 9 else 10) ->
  pte_index ix = wlevel_index c 12 (if w_pae c then 9 else 10) ->
  ad_fits c ->
  let o := walk c (guest_word g) [pd_level c; pt_level c] table (rights_above pml4te pdpte c) in
  walks c g o (pw_walk_pd same_kva c ix first_table kmaps p1 pml4te p2 pdpte g).
Proof.
  intros Hup Hps Htab Hpp Ht Ht0 Hix Hix2 Hfit o. pose proof Hup as [Hinv Hm Hk Hl].
  unfold pw_walk_pd. rewrite (bind_run _ _ g table g).
  2: { rewrite Htab. destruct (w_pae c) eqn:Hpae; [|done]. rewrite <- Hpae at 1.
       by apply phys_addr_run, Hpp. }
  pose proof (index_range c 21 9 ltac:(lia)). pose proof (index_range c 22 10 ltac:(lia)).
  assert (Hib : 0 <= pde_index ix /\ 0 + (pde_index ix + 1) * entry_size c <= 4096 /\
                (w_pae c = false -> pde_index ix = wlevel_index c 22 10))
    by (rewrite Hix; unfold entry_size, pd_level; destruct (w_pae c); cbn [lv_shift]; lia).
  destruct (read_table_rule g table 0 (pde_index ix) c Hinv) as (r & g1 & Hrun & Hq & Hr);
    [lia|done|lia|lia|].
  rewrite (bind_run _ _ _ _ _ Hrun). destruct r as [[[p3 d] k]|].
  2: { apply walks_intro, refuse_rule; try done. by left. }
  destruct Hr as (Hsk & Hp3 & Hat & Hw). rewrite Hix in Hw.
  pose proof (walk_pd_step c (guest_word g) table (rights_above pml4te pdpte c) d) as Heq.
  rewrite Hw in Heq. specialize (Heq (fun H => proj1 (Hl H)) eq_refl). fold o in Heq.
  destruct (pe_present d) eqn:Hpd; cbn [negb] in Heq |- *.
  2: { apply walks_intro, refuse_rule; try done; [by apply kmaps_snoc|]. right. by rewrite Heq. }
  destruct (pw_are_reserved_bits_in_pde_cleared d c); cbn [negb] in Heq |- *.
  2: { apply walks_intro, refuse_rule; try done; [by apply kmaps_snoc|]. right. by rewrite Heq. }
  pose proof (upper_step _ _ _ _ k _ _ _ _ Hup Hq Hsk) as Hup1.
  assert (Hptr : w_set_ad_bits c = true -> ptr_ok c g (Some p3)).
  { intros Had. apply (entry_ptr_ok g p3 table c (pde_index ix) 0 Hp3 Hat); [by apply page_entry_mod|]. intros Hpae.
    destruct Hib as (_ & _ & Hib). rewrite Hib by done. destruct (Hfit Had Hpae). lia. }
  destruct (pw_is_big_page_pde d c) eqn:Hbig.
  - destruct (big_page_run d c false g1 Hpd) as (a & Hrun2 & Hgpa).
    rewrite (bind_run _ _ _ _ _ Hrun2). rewrite Hgpa.
    replace (if w_pae c then 21 else 22) with (lv_shift (pd_level c))
      by (unfold pd_level; by destruct (w_pae c)).
    replace (if w_pae c then PG_ORDER_2M else PG_ORDER_4M) with (lv_shift (pd_level c))
      by (unfold pd_level; by destruct (w_pae c)).
    destruct (finish_walk c g1 (kmaps ++ [k]) p1 pml4te p2 pdpte (Some p3) (Some d) None None
      (add_rights (pd_level c) d (rights_above pml4te pdpte c))
      (entry_addr c d / 2 ^ lv_shift (pd_level c) * 2 ^ lv_shift (pd_level c) +
       w_virt_addr c mod 2 ^ lv_shift (pd_level c)) (lv_shift (pd_level c)) Hup1)
      as (r & g' & Hrun' & Hwk).
    + split; [by intros (_ & ? & ? & _)%Hl|]. intros _. exists d. split_and!; try done. congruence.
    + apply rights_big; try done. unfold pd_level. by destruct (w_pae c).
    + intros Had _. split; [by eapply ptr_ok_view; [apply Hq|apply Hptr]|]. intros d' [= <-]. congruence.
    + apply walks_intro. exists r, g'. split; [done|]. rewrite Heq. by apply (walked_step c g g1).
  - rewrite Heq. apply (walks_quiet c g g1); [done|done|].
    apply pt_rule; try done. intros Had. apply (ptr_ok_view _ _ _ _ (proj1 Hq) (Hptr Had)).
Qed.

Lemma walk_pdpt_step c rd table r e :
  w_pae c = true -> (w_lme c = false -> pe_page_size e = false) ->
  rd (table + wlevel_index c 30 (if w_lme c then 9 else 2) * 8) 8 = Some e ->
  walk c rd [pdpt_level c; pd_level c; pt_level c] table r =
  (if negb (pe_present e) then Absent false
   else if negb (pw_are_reserved_bits_in_pdpte_cleared e c) then Reserved
   else if pe_page_size e then
     if allowed c (add_rights (pdpt_level c) e r)
     then Translated (entry_addr c e / 2 ^ 30 * 2 ^ 30 + w_virt_addr c mod 2 ^ 30) 30 else Denied
   else walk c rd [pd_level c; pt_level c] (entry_addr c e) (add_rights (pdpt_level c) e r)).
Proof.
  unfold wlevel_index. intros Hpae Hps Hw. remember [pd_level c; pt_level c] as tl eqn:Htl.
  cbn [walk]. replace (entry_size c) with 8 by (unfold entry_size; by rewrite Hpae).
  replace (lv_shift (pdpt_level c)) with 30 by (unfold pdpt_level; by destruct (w_lme c)).
  replace (lv_width (pdpt_level c)) with (if w_lme c then 9 else 2)
    by (unfold pdpt_level; by destruct (w_lme c)).
  rewrite Hw. replace (match tl with [] => true | _ => false end) with false by (by subst).
  destruct (pe_present e); [cbn [negb orb]|done].
  assert (Hl : (lv_large (pdpt_level c) && pe_page_size e)%bool = pe_page_size e).
  { unfold pdpt_level. destruct (w_lme c); [done|]. by rewrite Hps. }
  rewrite Hl. replace (bit_set e (lv_reserved (pdpt_level c) |! _)) with
    (negb (pw_are_reserved_bits_in_pdpte_cleared e c)); [done|].
  unfold pdpt_level. destruct (w_lme c) eqn:Hlme; cbn [lv_reserved lv_reserved_large].
  - by rewrite pdpte_reserved.
  - rewrite Hps by done. by rewrite pae_pdpte_reserved.
Qed.

(** The rights before and after the page directory pointer table. *)
Definition rights_top (pml4te : Z) c : rights :=
  if w_lme c then add_rights (Level 39 9 false true (reserved_high c) 0) pml4te (Rights true true false)
  else Rights true true false.

Lemma rights_pdpt pml4te pdpte c :
  add_rights (pdpt_level c) pdpte (rights_top pml4te c) = rights_above pml4te pdpte c.
Proof.
  unfold rights_top, rights_above, above, pdpt_level, add_rights. destruct (w_lme c); [|done].
  cbn [lv_rights rt_write rt_user rt_no_exec andb orb negb]. f_equal. by destruct (pe_exb pml4te), (pe_exb pdpte).
Qed.

Lemma rights_1gb pml4te pdpte c : pe_page_size pdpte = true ->
  rights_above pml4te pdpte c =
  Rights (all_have pe_writable pml4te pdpte None None c) (all_have pe_user pml4te pdpte None None c)
    (negb (all_have (fun e => negb (pe_exb e)) pml4te pdpte None None c)).
Proof.
  intros Hs. unfold rights_above, above, all_have. rewrite Hs. cbn [orb]. by rewrite !andb_true_r.
Qed.

(** The tables in which the walk may start. *)
Record pdpt_at c g (kmaps : list (option Z)) (p1 : option entry_ptr) (pml4te table : Z) : Prop := {
  pa_inv : space_inv g;
  pa_bytes : bytes_ok (gs_umem g);
  pa_kmaps : Forall (fun k : option Z => is_Some k) kmaps;
  pa_pae : w_pae c = true;
  pa_lme : w_lme c = true -> pe_present pml4te = true /\ ptr_ok c g p1 /\ table mod 4096 = 0;
  pa_legacy : w_lme c = false -> table mod 32 = 0 /\
    forall e, guest_word g (table + wlevel_index c 30 2 * 8) 8 = Some e -> pe_page_size e = false;
  pa_table : 0 <= table < 2 ^ 64;
}.

Lemma pdpt_fits c table :
  (w_lme c = true -> table mod 4096 = 0) -> (w_lme c = false -> table mod 32 = 0) ->
  table mod 4096 + (wlevel_index c 30 (if w_lme c then 9 else 2) + 1) * 8 <= 4096.
Proof.
  intros H1 H2. pose proof (index_range c 30 9 ltac:(lia)). pose proof (index_range c 30 2 ltac:(lia)).
  destruct (w_lme c); [rewrite (H1 eq_refl); lia|]. specialize (H2 eq_refl).
  pose proof (Z.div_mod table 32 ltac:(lia)) as Hd. rewrite H2, Z.add_0_r in Hd.
  rewrite Hd. change 4096 with (32 * 128) at 1. rewrite Z.mul_mod_distr_l by lia.
  pose proof (Z.mod_pos_bound (table / 32) 128 ltac:(lia)). lia.
Qed.

Lemma pdpt_rule c ix g first_table kmaps p1 pml4te table :
  pdpt_at c g kmaps p1 pml4te table ->
  pdpte_index ix = wlevel_index c 30 (if w_lme c then 9 else 2) ->
  pde_index ix = wlevel_index c (lv_shift (pd_level c)) (if w_pae c then 9 else 10) ->
  pte_index ix = wlevel_index c 12 (if w_pae c then 9 else 10) ->
  ad_fits c ->
  let o := walk c (guest_word g) [pdpt_level c; pd_level c; pt_level c] table (rights_top pml4te c) in
  walks c g o (pw_walk_pdpt same_kva c ix first_table table kmaps p1 pml4te g).
Proof.
  intros [Hinv Hm Hk Hpae Hlme Hleg Ht] Hix Hixd Hixt Hfit o. unfold pw_walk_pdpt.
  change (PAGE_SIZE_4K - 1) with (Z.ones 12). rewrite Z.land_ones by lia. change (2 ^ 12) with 4096.
  pose proof (Z.mod_pos_bound table 4096 ltac:(lia)). rewrite u32_small by lia.
  pose proof (index_range c 30 (if w_lme c then 9 else 2) ltac:(by destruct (w_lme c))).
  assert (Hes : entry_size c = 8) by (unfold entry_size; by rewrite Hpae).
  assert (Hfits : table mod 4096 + (pdpte_index ix + 1) * 8 <= 4096).
  { rewrite Hix. apply pdpt_fits; [by intros (_ & _ & ?)%Hlme|by intros [? _]%Hleg]. }
  destruct (read_table_rule g table (table mod 4096) (pdpte_index ix) c Hinv)
    as (r & g1 & Hrun & Hq & Hr); [lia|done|lia|by rewrite Hes|]. rewrite Hes in Hr.
  rewrite (bind_run _ _ _ _ _ Hrun). destruct r as [[[p2 e] k]|].
  2: { apply walks_intro, refuse_rule; try done. by left. }
  destruct Hr as (Hsk & Hp2 & Hat & Hw). rewrite Hix in Hw.
  assert (Hps : w_lme c = false -> pe_page_size e = false).
  { intros Hl0. apply (Hleg Hl0). by rewrite Hl0 in Hw. }
  pose proof (walk_pdpt_step c (guest_word g) table (rights_top pml4te c) e Hpae Hps Hw) as Heq.
  fold o in Heq. rewrite rights_pdpt in Heq.
  destruct (pe_present e) eqn:Hpe; cbn [negb] in Heq |- *.
  2: { apply walks_intro, refuse_rule; try done; [by apply kmaps_snoc|]. right. by rewrite Heq. }
  destruct (pw_are_reserved_bits_in_pdpte_cleared e c); cbn [negb] in Heq |- *.
  2: { apply walks_intro, refuse_rule; try done; [by apply kmaps_snoc|]. right. by rewrite Heq. }
  assert (Hup : upper c g1 (kmaps ++ [k]) p1 pml4te (Some p2) e).
  { split; [apply Hq|by rewrite (proj2 Hq)|by apply kmaps_snoc|]. intros Hl1.
    destruct (Hlme Hl1) as (? & ? & Ht0). split_and!; try done; [by eapply ptr_ok_view; [apply Hq|]|].
    eapply ptr_ok_view; [apply Hq|]. rewrite <- Hes in Hp2, Hat.
    apply (entry_ptr_ok g p2 table c (pdpte_index ix) (table mod 4096)); try done; [|congruence].
    by apply page_entry_mod. }
  unfold pw_walk_1gb, pw_is_1gb_page_pdpte. destruct (pe_page_size e) eqn:Hbig.
  - destruct (big_page_run e c true g1 Hpe) as (a & Hrun2 & Hgpa).
    rewrite (bind_run _ _ _ _ _ Hrun2). rewrite Hgpa, Hpae.
    destruct (finish_walk c g1 (kmaps ++ [k]) p1 pml4te (Some p2) e None None None None
      (rights_above pml4te e c) (entry_addr c e / 2 ^ 30 * 2 ^ 30 + w_virt_addr c mod 2 ^ 30)
      PG_ORDER_1G Hup) as (r & g' & Hrun' & Hwk).
    + split; [by intros (? & _)%Hlme|congruence].
    + by apply rights_1gb.
    + congruence.
    + apply walks_intro. exists r, g'. split; [done|]. rewrite Heq. by apply (walked_step c g g1).
  - destruct (entry_addr_range c e) as [Ha Ha0].
    rewrite Heq. apply (walks_quiet c g g1); [done|done|].
    apply pd_rule; try done; [by rewrite Hpae|lia].
Qed.

Lemma walk_pml4_step c rd table e :
  w_pae c = true -> w_lme c = true ->
  rd (table + wlevel_index c 39 9 * 8) 8 = Some e ->
  walk c rd (paging_levels c) table (Rights true true false) =
  (if negb (pe_present e) then Absent false
   else if negb (pw_are_reserved_bits_in_pml4te_cleared e c) then Reserved
   else walk c rd [pdpt_level c; pd_level c; pt_level c] (entry_addr c e) (rights_top e c)).
Proof.
  unfold wlevel_index. intros Hpae Hlme Hw. rewrite paging_levels_eq, Hpae, Hlme. cbn [app].
  unfold rights_top. rewrite Hlme. remember [pdpt_level c; pd_level c; pt_level c] as tl eqn:Htl.
  cbn [walk lv_shift lv_width lv_large lv_reserved andb]. unfold entry_size. rewrite Hpae, Hw.
  replace (match tl with [] => true | _ => false end) with false by (by subst). cbn [orb].
  by rewrite pml4te_reserved.
Qed.

Lemma pml4_rule c ix g table :
  space_inv g -> bytes_ok (gs_umem g) -> w_pae c = true -> w_lme c = true ->
  0 <= table < 2 ^ 64 -> table mod 4096 = 0 ->
  pml4te_index ix = wlevel_index c 39 9 -> pdpte_index ix = wlevel_index c 30 9 ->
  pde_index ix = wlevel_index c 21 9 -> pte_index ix = wlevel_index c 12 9 -> ad_fits c ->
  let o := walk c (guest_word g) (paging_levels c) table (Rights true true false) in
  walks c g o (pw_walk_pml4 same_kva c ix table g).
Proof.
  intros Hinv Hm Hpae Hlme Ht Ht0 Hix4 Hix3 Hix2 Hix1 Hfit o. unfold pw_walk_pml4.
  assert (Hes : entry_size c = 8) by (unfold entry_size; by rewrite Hpae).
  pose proof (index_range c 39 9 ltac:(lia)).
  destruct (read_table_rule g table 0 (pml4te_index ix) c Hinv) as (r & g1 & Hrun & Hq & Hr);
    [lia|done|lia|rewrite Hes; lia|]. rewrite Hes in Hr.
  rewrite (bind_run _ _ _ _ _ Hrun). destruct r as [[[p1 e] k]|].
  2: { apply walks_intro, refuse_rule; try done. by left. }
  destruct Hr as (Hsk & Hp1 & Hat & Hw). rewrite Hix4 in Hw.
  pose proof (walk_pml4_step c (guest_word g) table e Hpae Hlme Hw) as Heq. fold o in Heq.
  assert (Hks : Forall (fun k : option Z => is_Some k) [k]) by (by repeat constructor).
  destruct (pe_present e) eqn:Hpe; cbn [negb] in Heq |- *.
  2: { apply walks_intro, refuse_rule; try done. right. by rewrite Heq. }
  destruct (pw_are_reserved_bits_in_pml4te_cleared e c); cbn [negb] in Heq |- *.
  2: { apply walks_intro, refuse_rule; try done. right. by rewrite Heq. }
  rewrite (bind_run _ _ _ _ _ (phys_addr_run e c g1 Hpe)).
  destruct (entry_addr_range c e) as [Ha Ha0].
  rewrite Heq. apply (walks_quiet c g g1); [done|done|]. apply pdpt_rule.
  - split; try done; [apply Hq|by rewrite (proj2 Hq)| |congruence|lia]. intros _.
    split_and!; try done. eapply ptr_ok_view; [apply Hq|]. rewrite <- Hes in Hp1, Hat.
    apply (entry_ptr_ok g p1 table c (pml4te_index ix) 0); try done; [|congruence].
    by apply page_entry_mod.
  - by rewrite Hlme.
  - unfold pd_level. by rewrite Hpae.
  - by rewrite Hpae.
  - done.
Qed.

Lemma table_root_ok c cr3 : 0 <= cr3 < 2 ^ 64 ->
  0 <= table_root c cr3 < 2 ^ 64 /\ table_root c cr3 mod 32 = 0 /\
  ((w_pae c && negb (w_lme c))%bool = false -> table_root c cr3 mod 4096 = 0).
Proof.
  intros Hc. unfold table_root. pose proof (Z.mul_div_le cr3 32). pose proof (Z.mul_div_le cr3 4096).
  pose proof (Z.div_pos cr3 32). pose proof (Z.div_pos cr3 4096).
  destruct (_ && _)%bool.
  - split_and!; [lia|lia|by apply Z.mod_mul|done].
  - split_and!; [lia|lia| |intros _; by apply Z.mod_mul].
    replace (cr3 / 4096 * 4096) with (cr3 / 4096 * 128 * 32) by lia. by apply Z.mod_mul.
Qed.

(** In PAE paging, bit 7 of a page directory pointer is clear: the processor does not
    load a table in which it is set. *)
Definition pae_pdpte_loaded c (cr3 : Z) g : Prop :=
  w_pae c = true -> w_lme c = false -> forall e,
    guest_word g (table_root c cr3 + wlevel_index c 30 2 * 8) 8 = Some e -> pe_page_size e = false.

Lemma page_walk_total r va access set_ad is_fetch g :
  let c := walk_context r va access set_ad is_fetch in
  let o := translate c (pr_cr3 r) (guest_word g) in
  space_inv g -> bytes_ok (gs_umem g) -> 0 <= pr_cr3 r < 2 ^ 64 ->
  (w_lme c = true -> w_pae c = true) -> pae_pdpte_loaded c (pr_cr3 r) g -> ad_fits c ->
  walks c g o (pw_perform_page_walk same_kva r va access set_ad is_fetch g).
Proof.
  intros c o Hinv Hm Hcr Hmode Hps Hfit. unfold pw_perform_page_walk. fold c. cbv zeta.
  destruct (retrieve_indices_run g c) as (ix & Hrun & Hix). change (w_virt_addr c) with va in Hrun.
  rewrite (bind_run _ _ _ _ _ Hrun). rewrite table_root_eq.
  destruct (table_root_ok c (pr_cr3 r) Hcr) as (Ht & Ht32 & Ht0). unfold translate in *.
  destruct (w_pae c) eqn:Hpae.
  - destruct Hix as (Hix2 & Hix1 & Hix3). destruct (w_lme c) eqn:Hlme.
    + destruct Hix3. apply pml4_rule; try done. by apply Ht0.
    + subst o. rewrite paging_levels_eq, Hpae, Hlme in *. cbn [app] in *.
      pose proof (pdpt_rule c ix g (table_root c (pr_cr3 r)) [] None 0 (table_root c (pr_cr3 r))) as Hw.
      unfold rights_top in Hw. rewrite Hlme in Hw. apply Hw.
      * split; try done; [by rewrite Hlme|]. intros _. split; [done|by apply Hps].
      * done.
      * unfold pd_level. by rewrite Hpae.
      * by rewrite Hpae.
      * done.
  - destruct (w_lme c) eqn:Hlme; [by specialize (Hmode eq_refl)|].
    destruct Hix as [Hix2 Hix1]. subst o. rewrite paging_levels_eq, Hpae in *. cbn [app] in *.
    replace (Rights true true false) with (rights_above 0 0 c) in *
      by (unfold rights_above, above; by rewrite Hlme).
    unfold pw_walk_1gb. change (pw_is_1gb_page_pdpte 0) with false.
    apply (pd_rule c ix g _ [] None 0 None 0 (table_root c (pr_cr3 r))); try done.
    + split; try done. by rewrite Hlme.
    + by rewrite Hpae.
    + by rewrite Hpae.
    + by apply Ht0.
    + unfold pd_level. by rewrite Hpae.
    + by rewrite Hpae.
Qed.

Lemma page_walk_rule r va access set_ad is_fetch g :
  let c := walk_context r va access set_ad is_fetch in
  let o := translate c (pr_cr3 r) (guest_word g) in
  space_inv g -> bytes_ok (gs_umem g) -> 0 <= pr_cr3 r < 2 ^ 64 ->
  (w_lme c = true -> w_pae c = true) -> pae_pdpte_loaded c (pr_cr3 r) g -> ad_fits c ->
  o <> Absent true ->
  exists res g', pw_perform_page_walk same_kva r va access set_ad is_fetch g = Some (res, g') /\
                 walked c g o res g'.
Proof.
  intros c o Hinv Hm Hcr Hmode Hps Hfit Ho.
  pose proof (page_walk_total r va access set_ad is_fetch g Hinv Hm Hcr Hmode Hps Hfit) as H.
  destruct (pw_perform_page_walk _ _ _ _ _ _ _) as [[res g']|]; [by exists res, g'|done].
Qed.
End Stages.

Section Claims.
Context {HH : Host} {E : Type} (same_kva : Z -> Z -> bool).

End Claims.

(** ** Concrete tables *)
(** Frames 256 to 259 hold the four tables of 4-level paging: virtual page 5 is mapped
    to frame 260, page 6 is absent, and page 7 is mapped to frame 261 with execution
    disabled. *)
Definition demo_tables : gmap Z Z :=
  let put a v (m : gmap Z Z) := umem_store m a (le_bytes 8 v) in
  put 0x10001000 0x101007 (put 0x10002000 0x102007 (put 0x10003000 0x103007
    (put 0x10004028 0x104007 (put 0x10004030 0x104006 (put 0x10004038 0x8000000000105007 ∅))))).

Definition demo_paged : hax_gpa_space (list event) := with_umem demo_tables demo_mapped.

Definition demo_regs : paging_regs :=
  PagingRegs (CR0_PG |! CR0_WP) 0x100000 CR4_PAE (IA32_EFER_LME |! IA32_EFER_LMA |! IA32_EFER_XD)
    (reserved_high_mask 39).

Lemma demo_paged_inv : space_inv demo_paged.
Proof. apply (same_view_umem demo_tables demo_mapped (proj1 demo_mapped_inv)). Qed.

Lemma bytes_ok_store m a data :
  bytes_ok m -> Forall (fun b => 0 <= b < 256) data -> bytes_ok (umem_store m a data).
Proof.
  intros Hm Hd. revert m a Hm. induction Hd as [|b data Hb _ IH]; intros m a Hm; [done|].
  cbn. apply IH. intros x v. rewrite lookup_insert. case_decide; [by intros [= <-]|apply Hm].
Qed.

Lemma le_bytes_ok n v : Forall (fun b => 0 <= b < 256) (le_bytes n v).
Proof.
  revert v. induction n as [|n IH]; intros v; cbn; constructor; [|apply IH].
  by apply Z.mod_pos_bound.
Qed.

Lemma demo_tables_ok : bytes_ok demo_tables.
Proof.
  unfold demo_tables. repeat (apply bytes_ok_store; [|apply le_bytes_ok]).
  intros x v. by rewrite lookup_empty.
Qed.


(** The walk of an address whose page table entry is absent fails an assertion, for
    reads as well as writes: the physical address is taken from the entry before its
    present bit is tested, although the code after the test would report a page fault. *)
Theorem page_walk_absent_pte :
  translate (walk_context demo_regs 0x6000 0 false false) (pr_cr3 demo_regs) (guest_word demo_paged)
    = Absent true /\
  pw_perform_page_walk Z.eqb demo_regs 0x6000 0 false false demo_paged = None.
Proof. split; [vm_compute; reflexivity|]. apply observe_stuck. vm_compute. reflexivity. Qed.

(** Accessed and dirty bits are set with a 64-bit compare-and-exchange of the lower
    half of the entry.  A page table entry with a bit set in its upper half never gets
    them: a user write to page 7 (execute-disabled) is granted, and the entry is the
    same afterwards; for page 5 the bits are set. *)
Theorem page_walk_ad_lost :
  (exists r g', pw_perform_page_walk Z.eqb demo_regs 0x7000 (TF_WRITE |! TF_USER) true false demo_paged
                = Some (r, g') /\
     (wr_ret r, guest_word g' 0x103038 8) = (TF_OK, Some 0x8000000000105007)) /\
  (exists r g', pw_perform_page_walk Z.eqb demo_regs 0x5000 (TF_WRITE |! TF_USER) true false demo_paged
                = Some (r, g') /\
     (wr_ret r, guest_word g' 0x103028 8) = (TF_OK, Some 0x104067)).
Proof.
  split;
    [apply (observe_run _ (fun x => (wr_ret x.1, guest_word x.2 0x103038 8)))
    |apply (observe_run _ (fun x => (wr_ret x.1, guest_word x.2 0x103028 8)))];
    vm_compute; reflexivity.
Qed.
