(* ===== verification/IntrExc.v ===== *)
(** * Interrupts and exceptions of a virtual CPU (src/core/intr_exc.c, and the parts of
    src/core/cpu.c and src/core/vcpu.c that drive it)

    External interrupts wait in a bitmap of 256 vectors until the virtual CPU can take
    one; exceptions are injected by the exit handlers.  Both go through the VM-entry
    fields of the VMCS, a page fault by way of shadow fields that are written before the
    next entry.  The VMCS is a map from field encodings to values. *)

From stdpp Require Import base numbers list gmap.
From Stdlib Require Import ZArith Lia.
From S2P Require Import Prelude.
#[local] Open Scope Z_scope.

(** VMCS fields and bits *)
Definition VMX_PRIMARY_PROCESSOR_CONTROLS : Z := 0x4002.
Definition VMX_ENTRY_INTERRUPT_INFO : Z := 0x4016.
Definition VMX_ENTRY_EXCEPTION_ERROR_CODE : Z := 0x4018.
Definition VMX_ENTRY_INSTRUCTION_LENGTH : Z := 0x401a.
Definition VM_EXIT_INFO_IDT_VECTORING : Z := 0x4408.
Definition INTERRUPT_WINDOW_EXITING : Z := 0x4.
Definition GUEST_INTRSTAT_STI_BLOCKING : Z := 0x1.
Definition GUEST_INTRSTAT_SS_BLOCKING : Z := 0x2.
Definition EFLAGS_IF : Z := Z.shiftl 1 9.
Definition EXCEPTION : Z := 3.
Definition VECTOR_DF : Z := 8.
Definition VECTOR_PF : Z := 14.
Definition HAX_INVALID_INTR_VECTOR : Z := 0x100.
Definition NO_ERROR_CODE : Z := 2 ^ 32 - 1.
Definition INTR_INFO_VALID_MASK : Z := Z.shiftl 1 31.
Definition INTR_INFO_VECTOR_MASK : Z := 0xff.

(** The fields of [vcpu_t], [vcpu_vmx_data] and [vcpu_state_t] that take part. *)
Record vcpu_t := Vcpu {
  vc_intr_pending : list Z;
  vc_nr_pending_intrs : Z;
  vc_event_injected : bool;
  vc_vmcs_pending : bool;
  vc_vmcs_pending_entry_error_code : bool;
  vc_vmcs_pending_entry_instr_length : bool;
  vc_vmcs_pending_entry_intr_info : bool;
  vc_pcpu_ctls : Z;
  vc_interruptibility_state : Z;
  vc_exit_idt_vectoring : Z;
  vc_exit_instr_length : Z;
  vc_entry_exception_error_code : Z;
  vc_entry_instr_length : Z;
  vc_entry_intr_info : Z;
  vc_eflags : Z;
  vc_vmcs : gmap Z Z;
}.

Section Setters.
Implicit Types v : vcpu_t.

Definition set_pending (p : list Z) (n : Z) v : vcpu_t :=
  Vcpu p n (vc_event_injected v) (vc_vmcs_pending v) (vc_vmcs_pending_entry_error_code v)
    (vc_vmcs_pending_entry_instr_length v) (vc_vmcs_pending_entry_intr_info v) (vc_pcpu_ctls v)
    (vc_interruptibility_state v) (vc_exit_idt_vectoring v) (vc_exit_instr_length v)
    (vc_entry_exception_error_code v) (vc_entry_instr_length v) (vc_entry_intr_info v)
    (vc_eflags v) (vc_vmcs v).

Definition set_event_injected (b : bool) v : vcpu_t :=
  Vcpu (vc_intr_pending v) (vc_nr_pending_intrs v) b (vc_vmcs_pending v)
    (vc_vmcs_pending_entry_error_code v)
    (vc_vmcs_pending_entry_instr_length v) (vc_vmcs_pending_entry_intr_info v) (vc_pcpu_ctls v)
    (vc_interruptibility_state v) (vc_exit_idt_vectoring v) (vc_exit_instr_length v)
    (vc_entry_exception_error_code v) (vc_entry_instr_length v) (vc_entry_intr_info v)
    (vc_eflags v) (vc_vmcs v).

(** The four [vmcs_pending] flags. *)
Definition set_vmcs_pending (p e l i : bool) v : vcpu_t :=
  Vcpu (vc_intr_pending v) (vc_nr_pending_intrs v) (vc_event_injected v) p e l i (vc_pcpu_ctls v)
    (vc_interruptibility_state v) (vc_exit_idt_vectoring v) (vc_exit_instr_length v)
    (vc_entry_exception_error_code v) (vc_entry_instr_length v) (vc_entry_intr_info v)
    (vc_eflags v) (vc_vmcs v).

Definition set_pcpu_ctls (c : Z) v : vcpu_t :=
  Vcpu (vc_intr_pending v) (vc_nr_pending_intrs v) (vc_event_injected v) (vc_vmcs_pending v)
    (vc_vmcs_pending_entry_error_code v)
    (vc_vmcs_pending_entry_instr_length v) (vc_vmcs_pending_entry_intr_info v) c
    (vc_interruptibility_state v) (vc_exit_idt_vectoring v) (vc_exit_instr_length v)
    (vc_entry_exception_error_code v) (vc_entry_instr_length v) (vc_entry_intr_info v)
    (vc_eflags v) (vc_vmcs v).

(** The shadow copies of the entry fields. *)
Definition set_entry_shadow (err len info : Z) v : vcpu_t :=
  Vcpu (vc_intr_pending v) (vc_nr_pending_intrs v) (vc_event_injected v) (vc_vmcs_pending v)
    (vc_vmcs_pending_entry_error_code v)
    (vc_vmcs_pending_entry_instr_length v) (vc_vmcs_pending_entry_intr_info v) (vc_pcpu_ctls v)
    (vc_interruptibility_state v) (vc_exit_idt_vectoring v) (vc_exit_instr_length v)
    err len info (vc_eflags v) (vc_vmcs v).

(** What a VM exit reports. *)
Definition set_exit_info (intr_state idt_vec instr_len eflags : Z) v : vcpu_t :=
  Vcpu (vc_intr_pending v) (vc_nr_pending_intrs v) (vc_event_injected v) (vc_vmcs_pending v)
    (vc_vmcs_pending_entry_error_code v)
    (vc_vmcs_pending_entry_instr_length v) (vc_vmcs_pending_entry_intr_info v) (vc_pcpu_ctls v)
    intr_state idt_vec instr_len
    (vc_entry_exception_error_code v) (vc_entry_instr_length v) (vc_entry_intr_info v)
    eflags (vc_vmcs v).

Definition set_vmcs (f : gmap Z Z -> gmap Z Z) v : vcpu_t :=
  Vcpu (vc_intr_pending v) (vc_nr_pending_intrs v) (vc_event_injected v) (vc_vmcs_pending v)
    (vc_vmcs_pending_entry_error_code v)
    (vc_vmcs_pending_entry_instr_length v) (vc_vmcs_pending_entry_intr_info v) (vc_pcpu_ctls v)
    (vc_interruptibility_state v) (vc_exit_idt_vectoring v) (vc_exit_instr_length v)
    (vc_entry_exception_error_code v) (vc_entry_instr_length v) (vc_entry_intr_info v)
    (vc_eflags v) (f (vc_vmcs v)).
End Setters.

#[local] Notation st := vcpu_t.

(** The fields used here are 32 bits wide. *)
Definition vmwrite (field value : Z) : M st unit :=
  modify (set_vmcs (<[field := u32 value]>)).
Definition vmcs_field (v : st) (field : Z) : Z := default 0 (vc_vmcs v !! field).
Definition vmread (field : Z) : M st Z := gets (fun v => vmcs_field v field).

(** [asm_fls]: the index of the highest bit set. *)
Definition asm_fls (bit32 : Z) : Z := Z.log2 bit32.

(** ** Pending interrupts *)
Fixpoint highest_word (n : nat) (intr_pending : list Z) : option Z :=
  match n with
  | O => None
  | S i =>
      let w := default 0 (intr_pending !! i) in
      if negb (w =? 0) then Some (u8 (Z.of_nat i * 32 + asm_fls w))
      else highest_word i intr_pending
  end.

Definition vcpu_get_pending_intrs : M st Z :=
  v ← get;
  if vc_nr_pending_intrs v =? 0 then mret HAX_INVALID_INTR_VECTOR
  else mret (default HAX_INVALID_INTR_VECTOR (highest_word 8 (vc_intr_pending v))).

Definition hax_valid_vector (vector : Z) : bool := vector <=? 0xff.

Definition hax_set_pending_intr (vector : Z) : M st unit :=
  v ← get;
  let offset := vector mod 32 in
  let nr_word := Z.to_nat (vector / 32) in
  w ← of_option (vc_intr_pending v !! nr_word);
  if negb (w &! Z.shiftl 1 offset =? 0) then mret tt
  else modify (set_pending (<[nr_word := w |! Z.shiftl 1 offset]> (vc_intr_pending v))
                 (u32 (vc_nr_pending_intrs v + 1))).

Definition vcpu_ack_intr (vector : Z) : M st unit :=
  v ← get;
  let offset := vector mod 32 in
  let nr_word := Z.to_nat (vector / 32) in
  w ← of_option (vc_intr_pending v !! nr_word);
  hax_assert (negb (w &! Z.shiftl 1 offset =? 0));;
  modify (set_pending (<[nr_word := Z.ldiff w (Z.shiftl 1 offset)]> (vc_intr_pending v))
            (u32 (vc_nr_pending_intrs v - 1))).

(** ** Injection of external interrupts *)
Definition hax_inject_intr (vector : Z) : M st unit :=
  let intr_info := Z.shiftl 1 31 |! vector in
  vmwrite VMX_ENTRY_INTERRUPT_INFO intr_info;;
  vcpu_ack_intr vector;;
  modify (set_event_injected true).

Definition hax_enable_intr_window : M st unit :=
  modify (fun v => set_pcpu_ctls (vc_pcpu_ctls v |! INTERRUPT_WINDOW_EXITING) v);;
  v ← get;
  vmwrite VMX_PRIMARY_PROCESSOR_CONTROLS (vc_pcpu_ctls v).

Definition hax_intr_is_blocked (v : st) : bool :=
  if vc_eflags v &! EFLAGS_IF =? 0 then true
  else
    let intr_blocking := GUEST_INTRSTAT_STI_BLOCKING |! GUEST_INTRSTAT_SS_BLOCKING in
    negb (vc_interruptibility_state v &! intr_blocking =? 0).

Definition hax_handle_idt_vectoring : M st unit :=
  idt_vec ← vmread VM_EXIT_INFO_IDT_VECTORING;
  if negb (idt_vec &! 0x80000000 =? 0) then
    if idt_vec &! 0x700 =? 0 then hax_set_pending_intr (idt_vec &! 0xff)
    else mret tt
  else mret tt.

Definition vcpu_inject_intr (request_interrupt_window : bool) : M st unit :=
  intr_info ← vmread VMX_ENTRY_INTERRUPT_INFO;
  vector ← vcpu_get_pending_intrs;
  v ← get;
  (if (hax_valid_vector vector && negb (vc_event_injected v) && negb (hax_intr_is_blocked v) &&
       (intr_info &! Z.shiftl 1 31 =? 0))%bool
   then hax_inject_intr vector else mret tt);;
  vector ← vcpu_get_pending_intrs;
  if (hax_valid_vector vector || request_interrupt_window)%bool
  then hax_enable_intr_window else mret tt.

(** ** Exceptions *)
Definition is_extern_interrupt (vec : Z) : bool := 31 <? vec.

Definition is_double_fault (first_vec second_vec : Z) : bool :=
  let exc_bitmap1 := 0x7c01 in
  let exc_bitmap2 := 0x3c01 in
  if is_extern_interrupt first_vec then false
  else
    ((first_vec =? VECTOR_PF) && negb (exc_bitmap1 &! u32 (Z.shiftl 1 second_vec) =? 0) ||
     negb (exc_bitmap2 &! u32 (Z.shiftl 1 first_vec) =? 0) &&
     negb (exc_bitmap2 &! u32 (Z.shiftl 1 second_vec) =? 0))%bool.

Definition valid_exception (vector : Z) : Z :=
  Z.shiftl 1 31 |! Z.shiftl EXCEPTION 8 |! vector.

Definition hax_inject_exception (vector error_code : Z) : M st unit :=
  v ← get;
  let vect_info := vc_exit_idt_vectoring v in
  let exit_instr_length := vc_exit_instr_length v in
  intr_info ← (
    if negb (vect_info &! INTR_INFO_VALID_MASK =? 0) then
      let first_vec := vect_info &! INTR_INFO_VECTOR_MASK in
      mret (if is_double_fault first_vec vector
            then Z.shiftl 1 31 |! Z.shiftl 1 11 |! Z.shiftl EXCEPTION 8 |! VECTOR_DF
            else valid_exception vector)
    else if negb (error_code =? NO_ERROR_CODE) then
      (if vector =? VECTOR_PF then
         modify (fun v => set_vmcs_pending (vc_vmcs_pending v) true
           (vc_vmcs_pending_entry_instr_length v) (vc_vmcs_pending_entry_intr_info v)
           (set_entry_shadow error_code (vc_entry_instr_length v) (vc_entry_intr_info v) v))
       else vmwrite VMX_ENTRY_EXCEPTION_ERROR_CODE error_code);;
      mret (valid_exception vector |! Z.shiftl 1 11)
    else mret (valid_exception vector));
  (if vector =? VECTOR_PF then
     modify (fun v => set_vmcs_pending true (vc_vmcs_pending_entry_error_code v) true true
       (set_entry_shadow (vc_entry_exception_error_code v) exit_instr_length intr_info v))
   else
     vmwrite VMX_ENTRY_INSTRUCTION_LENGTH exit_instr_length;;
     vmwrite VMX_ENTRY_INTERRUPT_INFO intr_info);;
  modify (set_event_injected true).

Definition hax_inject_page_fault (error_code : Z) : M st unit :=
  hax_inject_exception VECTOR_PF error_code.

(** ** The surrounding loop (cpu.c, vcpu.c) *)
Definition vcpu_handle_vmcs_pending : M st unit :=
  v ← get;
  if negb (vc_vmcs_pending v) then mret tt
  else
    (if vc_vmcs_pending_entry_error_code v
     then vmwrite VMX_ENTRY_EXCEPTION_ERROR_CODE (vc_entry_exception_error_code v) else mret tt);;
    (if vc_vmcs_pending_entry_instr_length v
     then vmwrite VMX_ENTRY_INSTRUCTION_LENGTH (vc_entry_instr_length v) else mret tt);;
    (if vc_vmcs_pending_entry_intr_info v
     then vmwrite VMX_ENTRY_INTERRUPT_INFO (vc_entry_intr_info v) else mret tt);;
    modify (set_vmcs_pending false false false false).

Definition vcpu_interrupt (vector : Z) : M st Z :=
  hax_set_pending_intr vector;; mret 1.

(** Before a VM entry. *)
Definition cpu_prepare_entry (request_interrupt_window : bool) : M st unit :=
  vcpu_handle_vmcs_pending;; vcpu_inject_intr request_interrupt_window.

(** After a VM exit: the interrupted event is queued again, the exit fields are read, and
    the exit handler starts with no injected event. *)
Definition cpu_after_exit (intr_state instr_len eflags : Z) : M st unit :=
  hax_handle_idt_vectoring;;
  idt_vec ← vmread VM_EXIT_INFO_IDT_VECTORING;
  modify (set_exit_info intr_state idt_vec instr_len eflags);;
  modify (set_event_injected false).
