(* ===== verification/IntrBitmap.v ===== *)
(** * The bitmap of pending interrupts (src/core/intr_exc.c)

    The eight words of [intr_pending] are a set of vectors, [nr_pending_intrs] its size:
    setting and acknowledging a vector add and remove it, and the search from the top
    word finds the greatest vector. *)

From stdpp Require Import base numbers list gmap relations.
From Stdlib Require Import ZArith Lia.
From S2P Require Import Prelude IntrExc.
#[local] Open Scope Z_scope.

(** ** The bitmap as a set of vectors *)
Definition word_bit (ws : list Z) (x : Z) : bool :=
  Z.testbit (default 0 (ws !! Z.to_nat (x / 32))) (x mod 32).

Definition vectors : list Z := seqZ 0 256.

Definition count_set (p : Z -> bool) (l : list Z) : Z :=
  Z.of_nat (length (filter (fun x => p x = true) l)).

Record irq_inv (v : vcpu_t) : Prop := {
  iq_len : length (vc_intr_pending v) = 8%nat;
  iq_words : Forall (fun w => 0 <= w < 2 ^ 32) (vc_intr_pending v);
  iq_count : vc_nr_pending_intrs v = count_set (word_bit (vc_intr_pending v)) vectors;
}.

Definition pending (v : vcpu_t) : gset Z :=
  list_to_set (filter (fun x => word_bit (vc_intr_pending v) x = true) vectors).

Lemma elem_vectors x : x ∈ vectors <-> 0 <= x < 256.
Proof. unfold vectors. rewrite elem_of_seqZ. lia. Qed.

Lemma elem_pending v x :
  x ∈ pending v <-> 0 <= x < 256 /\ word_bit (vc_intr_pending v) x = true.
Proof.
  unfold pending. rewrite elem_of_list_to_set, list_elem_of_filter, elem_vectors. tauto.
Qed.

Lemma count_cons_set p a l :
  count_set p (a :: l) = (if p a then 1 else 0) + count_set p l.
Proof.
  unfold count_set. rewrite filter_cons. destruct (p a); [|by rewrite decide_False by done].
  rewrite decide_True by done. cbn [length]. lia.
Qed.

Lemma count_set_ext p q l : (forall y, y ∈ l -> p y = q y) -> count_set p l = count_set q l.
Proof.
  induction l as [|a l IH]; intros H; [done|]. rewrite !count_cons_set, H by set_solver.
  rewrite IH by set_solver. done.
Qed.

(** Two sets that differ in one element. *)
Lemma count_set_one p q x l :
  NoDup l -> x ∈ l -> p x = false -> q x = true -> (forall y, y ∈ l -> y <> x -> q y = p y) ->
  count_set q l = count_set p l + 1.
Proof.
  induction l as [|a l IH]; intros Hnd Hin Hp Hq Heq; [by apply not_elem_of_nil in Hin|].
  apply NoDup_cons in Hnd as [Ha Hnd]. rewrite !count_cons_set.
  destruct (decide (a = x)) as [->|Hne].
  - rewrite Hp, Hq. rewrite (count_set_ext q p l); [lia|]. intros y Hy.
    apply Heq; [set_solver|]. intros ->. done.
  - rewrite (Heq a) by set_solver. rewrite IH; try done; [lia|set_solver|].
    intros y Hy. apply Heq. set_solver.
Qed.

Lemma nodup_vectors : NoDup vectors.
Proof. apply NoDup_seqZ. Qed.

(** Updating the word of a vector. *)
Lemma word_bit_upd ws x y w w0 :
  length ws = 8%nat -> 0 <= x < 256 -> 0 <= y < 256 -> ws !! Z.to_nat (x / 32) = Some w0 ->
  word_bit (<[Z.to_nat (x / 32) := w]> ws) y =
  if decide (x / 32 = y / 32) then Z.testbit w (y mod 32) else word_bit ws y.
Proof.
  intros Hl Hx Hy Hw. unfold word_bit.
  pose proof (Z.div_pos x 32). pose proof (Z.div_pos y 32). case_decide as Heq.
  - rewrite <- Heq, list_lookup_insert_eq; [done|]. by eapply lookup_lt_Some.
  - rewrite list_lookup_insert_ne; [done|]. intros He. apply Heq, Z2Nat.inj; lia.
Qed.

Lemma same_vector x y : x / 32 = y / 32 -> x mod 32 = y mod 32 -> x = y.
Proof.
  intros H1 H2. pose proof (Z.div_mod x 32). pose proof (Z.div_mod y 32). lia.
Qed.

Lemma word_of v x : irq_inv v -> 0 <= x < 256 ->
  exists w, vc_intr_pending v !! Z.to_nat (x / 32) = Some w /\ 0 <= w < 2 ^ 32 /\
    word_bit (vc_intr_pending v) x = Z.testbit w (x mod 32) /\ 0 <= x mod 32 < 32.
Proof.
  intros [Hl Hf _] Hx. pose proof (Z.div_pos x 32). pose proof (Z.div_lt_upper_bound x 32 8).
  destruct (lookup_lt_is_Some_2 (vc_intr_pending v) (Z.to_nat (x / 32))) as [w Hw]; [lia|].
  exists w. split; [done|]. rewrite Forall_lookup in Hf. split; [by eapply Hf|].
  unfold word_bit. rewrite Hw. split; [done|]. apply Z.mod_pos_bound. lia.
Qed.

Lemma setbit_range w i : 0 <= w < 2 ^ 32 -> 0 <= i < 32 ->
  0 <= w |! Z.shiftl 1 i < 2 ^ 32 /\ 0 <= Z.ldiff w (Z.shiftl 1 i) < 2 ^ 32 /\
  (forall j, 0 <= j -> Z.testbit (w |! Z.shiftl 1 i) j = (Z.testbit w j || bool_decide (i = j))%bool) /\
  (forall j, 0 <= j -> Z.testbit (Z.ldiff w (Z.shiftl 1 i)) j =
     (Z.testbit w j && negb (bool_decide (i = j)))%bool).
Proof.
  intros Hw Hi. rewrite Z.shiftl_1_l.
  assert (Hb : forall j, 0 <= j -> Z.testbit (2 ^ i) j = bool_decide (i = j)).
  { intros j Hj. rewrite Z.pow2_bits_eqb by lia. destruct (Z.eqb_spec i j); by case_bool_decide. }
  assert (Hr : forall z, (forall j, 32 <= j -> Z.testbit z j = false) -> 0 <= z mod 2 ^ 32 < 2 ^ 32 ->
    0 <= z < 2 ^ 32).
  { intros z Hz Hm. replace z with (z mod 2 ^ 32); [done|]. apply Z.bits_inj'. intros j Hj.
    destruct (Z.lt_ge_cases j 32); [by rewrite Z.mod_pow2_bits_low by lia|].
    rewrite Z.mod_pow2_bits_high by lia. by rewrite Hz. }
  assert (Hhigh : forall j, 32 <= j -> Z.testbit w j = false).
  { intros j Hj. destruct (Z.eq_dec w 0) as [->|]; [apply Z.bits_0|]. apply Z.bits_above_log2; [lia|].
    assert (Z.log2 w < 32) by (apply Z.log2_lt_pow2; lia). lia. }
  split; [|split; [|split]].
  - apply Hr; [|apply Z.mod_pos_bound; lia]. intros j Hj.
    rewrite Z.lor_spec, Hhigh, Hb by lia. cbn. apply bool_decide_eq_false. lia.
  - apply Hr; [|apply Z.mod_pos_bound; lia]. intros j Hj. by rewrite Z.ldiff_spec, Hhigh by lia.
  - intros j Hj. by rewrite Z.lor_spec, Hb.
  - intros j Hj. by rewrite Z.ldiff_spec, Hb.
Qed.

(** ** The operations on the bitmap *)
Definition with_pending (P : gset Z) (v v' : vcpu_t) : Prop :=
  irq_inv v' /\ pending v' = P /\ v' = set_pending (vc_intr_pending v') (vc_nr_pending_intrs v') v.

Lemma nr_bound v : irq_inv v -> 0 <= vc_nr_pending_intrs v <= 256.
Proof.
  intros [_ _ ->]. unfold count_set. pose proof (length_filter (fun x => word_bit (vc_intr_pending v) x = true) vectors).
  assert (length vectors = 256%nat) by (unfold vectors; by rewrite length_seqZ). lia.
Qed.

(** An update of the word of [x] that changes nothing but the bit of [x]. *)
Lemma upd_word v x w w' (b : bool) : irq_inv v -> 0 <= x < 256 ->
  vc_intr_pending v !! Z.to_nat (x / 32) = Some w ->
  (forall j, 0 <= j < 32 -> Z.testbit w' j = if decide (x mod 32 = j) then b else Z.testbit w j) ->
  forall y, 0 <= y < 256 ->
    word_bit (<[Z.to_nat (x / 32) := w']> (vc_intr_pending v)) y =
    if decide (x = y) then b else word_bit (vc_intr_pending v) y.
Proof.
  intros Hinv Hx Hw Hb y Hy. rewrite (word_bit_upd _ _ _ _ w) by (try done; apply Hinv).
  pose proof (Z.mod_pos_bound y 32 ltac:(lia)) as Hym. rewrite Hb by done.
  case_decide as Hd.
  - case_decide as Hm.
    + rewrite decide_True; [done|]. by apply same_vector.
    + rewrite decide_False by (intros ->; done).
      unfold word_bit. by rewrite <- Hd, Hw.
  - by rewrite decide_False by (intros ->; done).
Qed.

Lemma pending_word v x w : irq_inv v -> 0 <= x < 256 ->
  vc_intr_pending v !! Z.to_nat (x / 32) = Some w ->
  (w &! Z.shiftl 1 (x mod 32) =? 0) = negb (bool_decide (x ∈ pending v)).
Proof.
  intros Hinv Hx Hw. destruct (word_of v x Hinv Hx) as (w' & Hw' & Hr & Hb & Hm).
  rewrite Hw in Hw'. injection Hw' as <-.
  assert (Hel : x ∈ pending v <-> Z.testbit w (x mod 32) = true).
  { rewrite elem_pending, Hb. tauto. }
  rewrite Z.shiftl_1_l. destruct (Z.eqb_spec (w &! 2 ^ (x mod 32)) 0) as [H0|H0].
  - rewrite bool_decide_eq_false_2; [done|]. rewrite Hel. intros Ht.
    assert (Hf : Z.testbit (w &! 2 ^ (x mod 32)) (x mod 32) = true).
    { by rewrite Z.land_spec, Ht, Z.pow2_bits_true by lia. }
    by rewrite H0, Z.bits_0 in Hf.
  - rewrite bool_decide_eq_true_2; [done|]. apply Hel. apply not_false_is_true. intros Hf. apply H0.
    apply Z.bits_inj'. intros j Hj. rewrite Z.land_spec, Z.bits_0.
    destruct (decide (x mod 32 = j)) as [<-|Hne]; [by rewrite Hf|].
    rewrite Z.pow2_bits_false by lia. apply andb_false_r.
Qed.

(** An update of the bit of [x], with the count adjusted. *)
Lemma upd_pending v x w w' (b : bool) n : irq_inv v -> 0 <= x < 256 ->
  vc_intr_pending v !! Z.to_nat (x / 32) = Some w -> 0 <= w' < 2 ^ 32 ->
  (forall j, 0 <= j < 32 -> Z.testbit w' j = if decide (x mod 32 = j) then b else Z.testbit w j) ->
  word_bit (vc_intr_pending v) x = negb b -> n = vc_nr_pending_intrs v + (if b then 1 else -1) ->
  let v' := set_pending (<[Z.to_nat (x / 32) := w']> (vc_intr_pending v)) n v in
  irq_inv v' /\ pending v' = if b then {[x]} ∪ pending v else pending v ∖ {[x]}.
Proof.
  intros Hinv Hx Hw Hr Hb Hold -> v'.
  pose proof (upd_word v x w w' b Hinv Hx Hw Hb) as Hup. split.
  - constructor; subst v'; cbn.
    + rewrite length_insert. apply Hinv.
    + apply Forall_insert; [apply Hinv|done].
    + rewrite (iq_count v Hinv). destruct b.
      * symmetry. apply (count_set_one _ _ x); [apply nodup_vectors|by apply elem_vectors|done| |].
        -- rewrite Hup by done. by rewrite decide_True.
        -- intros y Hy%elem_vectors Hne. rewrite Hup by done. by rewrite decide_False.
      * enough (count_set (word_bit (vc_intr_pending v)) vectors =
          count_set (word_bit (<[Z.to_nat (x / 32) := w']> (vc_intr_pending v))) vectors + 1) by lia.
        apply (count_set_one _ _ x); [apply nodup_vectors|by apply elem_vectors| |done|].
        -- rewrite Hup by done. by rewrite decide_True.
        -- intros y Hy%elem_vectors Hne. rewrite Hup by done. by rewrite decide_False.
  - apply set_eq. intros y. rewrite elem_pending. subst v'. cbn.
    destruct b; [rewrite elem_of_union|rewrite elem_of_difference];
      rewrite elem_of_singleton, elem_pending;
      (split; [intros [Hy Hbit]; rewrite Hup in Hbit by done; case_decide; naive_solver|]).
    + intros [->|[Hy Hbit]]; (split; [done|]); rewrite Hup by done; by case_decide.
    + intros [[Hy Hbit] Hne]. split; [done|]. rewrite Hup by done. by rewrite decide_False by congruence.
Qed.

Lemma set_pending_rule v x : irq_inv v -> 0 <= x < 256 ->
  exists v', hax_set_pending_intr x v = Some (tt, v') /\ with_pending ({[x]} ∪ pending v) v v'.
Proof.
  intros Hinv Hx. destruct (word_of v x Hinv Hx) as (w & Hw & Hr & Hb & Hm).
  destruct (setbit_range w (x mod 32) Hr Hm) as (Hr1 & _ & Hs1 & _).
  unfold hax_set_pending_intr. unfold get. erewrite bind_run by reflexivity.
  erewrite of_option_run by done. rewrite (pending_word v x w Hinv Hx Hw), negb_involutive.
  case_bool_decide as Hp.
  { eexists. split; [done|]. split; [done|]. split; [set_solver|by destruct v]. }
  eexists. split; [done|].
  assert (Hold : word_bit (vc_intr_pending v) x = negb true).
  { apply not_true_is_false. intros Ht. apply Hp, elem_pending. done. }
  destruct (upd_pending v x w (w |! Z.shiftl 1 (x mod 32)) true
    (u32 (vc_nr_pending_intrs v + 1)) Hinv Hx Hw Hr1) as [Hi Hpend].
  - intros j Hj. rewrite Hs1 by lia. case_decide; case_bool_decide; try done.
    + apply orb_true_r.
    + apply orb_false_r.
  - done.
  - apply u32_small. pose proof (nr_bound v Hinv). lia.
  - split; [done|]. split; [done|]. by destruct v.
Qed.

Lemma ack_rule v x : irq_inv v -> x ∈ pending v ->
  exists v', vcpu_ack_intr x v = Some (tt, v') /\ with_pending (pending v ∖ {[x]}) v v'.
Proof.
  intros Hinv Hp. pose proof Hp as [Hx Hbit]%elem_pending.
  destruct (word_of v x Hinv Hx) as (w & Hw & Hr & Hb & Hm).
  destruct (setbit_range w (x mod 32) Hr Hm) as (_ & Hr1 & _ & Hs1).
  unfold vcpu_ack_intr. unfold get. erewrite bind_run by reflexivity.
  erewrite of_option_run by done. rewrite (pending_word v x w Hinv Hx Hw), negb_involutive.
  rewrite bool_decide_eq_true_2 by done. rewrite assert_run by done.
  eexists. split; [done|].
  assert (Hpos : 1 <= vc_nr_pending_intrs v).
  { rewrite (iq_count v Hinv). unfold count_set.
    assert (Hin : x ∈ filter (fun y => word_bit (vc_intr_pending v) y = true) vectors)
      by (apply list_elem_of_filter; split; [done|by apply elem_vectors]).
    destruct (filter _ _); [by apply not_elem_of_nil in Hin|cbn; lia]. }
  destruct (upd_pending v x w (Z.ldiff w (Z.shiftl 1 (x mod 32))) false
    (u32 (vc_nr_pending_intrs v - 1)) Hinv Hx Hw Hr1) as [Hi Hpend].
  - intros j Hj. rewrite Hs1 by lia. case_decide; case_bool_decide; try done.
    + apply andb_false_r.
    + apply andb_true_r.
  - done.
  - pose proof (nr_bound v Hinv). rewrite u32_small; lia.
  - split; [done|]. split; [done|]. by destruct v.
Qed.

(** ** The highest pending vector *)
Definition is_max (x : Z) (P : gset Z) : Prop := x ∈ P /\ forall y, y ∈ P -> y <= x.

Lemma fls_spec w : 0 < w < 2 ^ 32 ->
  0 <= asm_fls w < 32 /\ Z.testbit w (asm_fls w) = true /\
  forall j, asm_fls w < j -> Z.testbit w j = false.
Proof.
  intros Hw. unfold asm_fls. pose proof (Z.log2_nonneg w).
  assert (Z.log2 w < 32) by (apply Z.log2_lt_pow2; lia).
  split; [lia|]. split; [apply Z.bit_log2; lia|]. intros j Hj. apply Z.bits_above_log2; lia.
Qed.

Lemma word_bit_at ws i j : 0 <= j < 32 ->
  word_bit ws (Z.of_nat i * 32 + j) = Z.testbit (default 0 (ws !! i)) j.
Proof.
  intros Hj. unfold word_bit.
  rewrite Z.add_comm, Z.div_add, Z.div_small, Z.add_0_l, Nat2Z.id by lia.
  by rewrite Z.mod_add, Z.mod_small by lia.
Qed.

Lemma word_bit_in ws i z : Z.of_nat i * 32 <= z -> z < Z.of_nat (S i) * 32 ->
  word_bit ws z = Z.testbit (default 0 (ws !! i)) (z - Z.of_nat i * 32).
Proof. intros. rewrite <- word_bit_at by lia. f_equal. lia. Qed.

Lemma highest_word_spec ws n : Forall (fun w => 0 <= w < 2 ^ 32) ws -> (n <= 8)%nat ->
  match highest_word n ws with
  | Some y => 0 <= y < Z.of_nat n * 32 /\ word_bit ws y = true /\
      forall z, 0 <= z < Z.of_nat n * 32 -> word_bit ws z = true -> z <= y
  | None => forall z, 0 <= z < Z.of_nat n * 32 -> word_bit ws z = false
  end.
Proof.
  intros Hf. induction n as [|i IH]; intros Hn; [cbn; lia|]. cbn [highest_word].
  set (w := default 0 (ws !! i)).
  assert (Hw : 0 <= w < 2 ^ 32).
  { subst w. destruct (ws !! i) as [w|] eqn:E; cbn; [|lia]. by eapply Forall_lookup_1 in Hf. }
  destruct (Z.eqb_spec w 0) as [H0|H0]; cbn.
  - assert (Hz : forall z, Z.of_nat i * 32 <= z -> z < Z.of_nat (S i) * 32 -> word_bit ws z = false).
    { intros z Hz1 Hz2. rewrite (word_bit_in ws i) by lia. fold w. by rewrite H0, Z.bits_0. }
    specialize (IH ltac:(lia)). destruct (highest_word i ws) as [y|].
    + destruct IH as (Hy & Hb & Hmax). split; [lia|]. split; [done|]. intros z Hzr Hzb.
      destruct (Z.lt_ge_cases z (Z.of_nat i * 32)) as [|Hge]; [apply Hmax; [lia|done]|].
      by rewrite Hz in Hzb by lia.
    + intros z Hzr. destruct (Z.lt_ge_cases z (Z.of_nat i * 32)); [apply IH|apply Hz]; lia.
  - destruct (fls_spec w) as (Hr & Hb & Hmax); [lia|].
    assert (E : u8 (Z.of_nat i * 32 + asm_fls w) = Z.of_nat i * 32 + asm_fls w)
      by (unfold u8; apply Z.mod_small; lia).
    rewrite E. split; [lia|]. split; [by rewrite word_bit_at|].
    intros z Hzr Hzb. destruct (Z.lt_ge_cases z (Z.of_nat i * 32)); [lia|].
    rewrite (word_bit_in ws i) in Hzb by lia. fold w in Hzb.
    destruct (Z.lt_ge_cases (asm_fls w) (z - Z.of_nat i * 32)) as [Hlt|]; [|lia].
    by rewrite Hmax in Hzb.
Qed.

Lemma count_set_zero p l : count_set p l = 0 -> forall y, y ∈ l -> p y = false.
Proof.
  induction l as [|a l IH]; intros H y Hy; [by apply not_elem_of_nil in Hy|].
  rewrite count_cons_set in H. assert (0 <= count_set p l) by (unfold count_set; lia).
  destruct (p a) eqn:E; [lia|]. apply elem_of_cons in Hy as [->|Hy]; [done|]. apply IH; [lia|done].
Qed.

Lemma get_pending_rule v : irq_inv v ->
  exists r, vcpu_get_pending_intrs v = Some (r, v) /\
    ((hax_valid_vector r = false /\ pending v = ∅) \/
     (hax_valid_vector r = true /\ is_max r (pending v))).
Proof.
  intros Hinv. unfold vcpu_get_pending_intrs, get. erewrite bind_run by reflexivity.
  destruct (Z.eqb_spec (vc_nr_pending_intrs v) 0) as [H0|H0].
  { eexists. split; [done|]. left. split; [done|]. apply set_eq. intros y.
    rewrite elem_pending. split; [|set_solver]. intros [Hy Hb].
    rewrite (iq_count v Hinv) in H0. by rewrite (count_set_zero _ _ H0 y) in Hb by by apply elem_vectors. }
  eexists. split; [done|].
  pose proof (highest_word_spec (vc_intr_pending v) 8 (iq_words v Hinv) ltac:(lia)) as Hs.
  change (Z.of_nat 8 * 32) with 256 in Hs.
  destruct (highest_word 8 (vc_intr_pending v)) as [y|]; cbn [default].
  - destruct Hs as (Hy & Hb & Hmax). right. split; [unfold hax_valid_vector, id; lia|].
    split; [by apply elem_pending|]. intros z [Hz Hzb]%elem_pending. by apply Hmax.
  - left. split; [done|]. apply set_eq. intros y. rewrite elem_pending. split; [|set_solver].
    intros [Hy Hb]. by rewrite Hs in Hb.
Qed.
