(* ===== verification/IntrProps.v ===== *)
(** * Correctness of interrupt and exception injection

    The pending bitmap and the VM-entry field implement a priority queue of vectors with
    at most one vector in delivery: the loop of requests, injected exceptions, VM entries
    and VM exits is simulated step by step by the abstract queue.  A VM exit that
    interrupts a delivery puts the vector back, so that no interrupt is lost and none is
    invented. *)

From stdpp Require Import base numbers list gmap.
From Stdlib Require Import ZArith Lia.
From S2P Require Import Prelude IntrExc IntrBitmap.
#[local] Open Scope Z_scope.

(** ** The VM-entry interruption information *)
Definition info_valid (info : Z) : bool := negb (info &! Z.shiftl 1 31 =? 0).
Definition info_type (info : Z) : Z := info &! 0x700.
Definition info_vector (info : Z) : Z := info &! 0xff.

(** The external interrupt that an entry (or an interrupted delivery) carries. *)
Definition ext_intr (info : Z) : option Z :=
  if (info_valid info && (info_type info =? 0))%bool then Some (info_vector info) else None.

Definition entry_info (v : vcpu_t) : Z := vmcs_field v VMX_ENTRY_INTERRUPT_INFO.

(** What may be injected now. *)
Definition can_take (v : vcpu_t) : bool :=
  (negb (vc_event_injected v) && negb (hax_intr_is_blocked v) && negb (info_valid (entry_info v)))%bool.

Lemma vmcs_write_same f x v : vmcs_field (set_vmcs (<[f := u32 x]>) v) f = u32 x.
Proof. unfold vmcs_field, set_vmcs. cbn. by rewrite lookup_insert_eq. Qed.

Lemma vmcs_write_other f g x v : f <> g ->
  vmcs_field (set_vmcs (<[f := u32 x]>) v) g = vmcs_field v g.
Proof. intros H. unfold vmcs_field, set_vmcs. cbn. by rewrite lookup_insert_ne. Qed.

(** An injected vector is read back from the field. *)
Lemma ext_intr_inject x : 0 <= x < 256 ->
  ext_intr (u32 (Z.shiftl 1 31 |! x)) = Some x.
Proof.
  intros Hx.
  pose proof (small_cases (fun y => match ext_intr (u32 (Z.shiftl 1 31 |! y)) with
    | Some z => z =? y | None => false end) 256 x ltac:(by vm_compute) Hx) as H.
  cbn beta in H. destruct (ext_intr _); [|done]. f_equal. lia.
Qed.

(** The other fields of the virtual CPU are left alone by the injection. *)
Record same_exception (v v' : vcpu_t) : Prop := {
  se_pending : vc_vmcs_pending v' = vc_vmcs_pending v;
  se_flag : vc_vmcs_pending_entry_intr_info v' = vc_vmcs_pending_entry_intr_info v;
  se_shadow : vc_entry_intr_info v' = vc_entry_intr_info v;
}.

(** What one pass of [vcpu_inject_intr] does: the greatest pending vector is taken when
    the virtual CPU can take one. *)
Definition injected (v v' : vcpu_t) : Prop :=
  if (can_take v && negb (bool_decide (pending v = ∅)))%bool then
    exists x, is_max x (pending v) /\ pending v' = pending v ∖ {[x]} /\
      ext_intr (entry_info v') = Some x /\ vc_event_injected v' = true
  else pending v' = pending v /\ entry_info v' = entry_info v /\
    vc_event_injected v' = vc_event_injected v.

Definition window_requested (v : vcpu_t) : Prop :=
  Z.testbit (vmcs_field v VMX_PRIMARY_PROCESSOR_CONTROLS) 2 = true.

Lemma inject_intr_rule v x : irq_inv v -> is_max x (pending v) ->
  exists v', hax_inject_intr x v = Some (tt, v') /\ irq_inv v' /\
    pending v' = pending v ∖ {[x]} /\ ext_intr (entry_info v') = Some x /\
    vc_event_injected v' = true /\ same_exception v v'.
Proof.
  intros Hinv [Hin _]. pose proof Hin as [Hx _]%elem_pending.
  unfold hax_inject_intr, vmwrite. rewrite modify_run.
  set (v1 := set_vmcs _ v).
  assert (Hinv1 : irq_inv v1) by (destruct Hinv; by constructor).
  destruct (ack_rule v1 x Hinv1 Hin) as (v2 & E2 & Hinv2 & Hp2 & Hf2).
  erewrite bind_run by exact E2. cbn [modify]. unfold modify.
  eexists. split; [done|]. split; [by destruct Hinv2|]. split; [done|].
  split; [|split; [done|]].
  - unfold entry_info, vmcs_field, set_event_injected. cbn. rewrite Hf2. cbn.
    rewrite lookup_insert_eq. by apply ext_intr_inject.
  - rewrite Hf2. by constructor.
Qed.

Lemma window_rule v : exists v', hax_enable_intr_window v = Some (tt, v') /\
  window_requested v' /\ (irq_inv v -> irq_inv v') /\ pending v' = pending v /\
  entry_info v' = entry_info v /\ vc_event_injected v' = vc_event_injected v /\
  same_exception v v'.
Proof.
  unfold hax_enable_intr_window. rewrite modify_run. unfold get.
  erewrite bind_run by reflexivity. unfold vmwrite, modify. eexists. split; [done|].
  split; [|split; [intros []; by constructor|split; [done|split; [|by split]]]].
  - unfold window_requested. rewrite vmcs_write_same. unfold u32, set_pcpu_ctls.
    cbn [vc_pcpu_ctls].
    rewrite Z.mod_pow2_bits_low, Z.lor_spec by lia. apply orb_true_r.
  - unfold entry_info. by rewrite vmcs_write_other.
Qed.

Lemma inject_rule v w : irq_inv v ->
  exists v', vcpu_inject_intr w v = Some (tt, v') /\ irq_inv v' /\ injected v v' /\
    (pending v' <> ∅ \/ w = true -> window_requested v') /\ same_exception v v'.
Proof.
  intros Hinv. unfold vcpu_inject_intr, vmread. rewrite gets_run.
  destruct (get_pending_rule v Hinv) as (r & Er & Hr). erewrite bind_run by exact Er.
  unfold get. erewrite bind_run by reflexivity.
  set (cond := (hax_valid_vector r && _ && _ && _)%bool).
  assert (Hcond : cond = (can_take v && negb (bool_decide (pending v = ∅)))%bool).
  { subst cond. unfold can_take, info_valid, entry_info. rewrite negb_involutive.
    destruct Hr as [[-> ->]|[-> [Hin _]]].
    - rewrite bool_decide_eq_true_2 by done. by rewrite andb_false_r.
    - rewrite bool_decide_eq_false_2 by set_solver. by rewrite !andb_true_r. }
  assert (H1 : exists v1, (if cond then hax_inject_intr r else mret tt) v = Some (tt, v1) /\
    irq_inv v1 /\ injected v v1 /\ same_exception v v1).
  { unfold injected. rewrite <- Hcond. destruct cond.
    - destruct Hr as [[Hv Hemp]|[_ Hmax]].
      + rewrite (bool_decide_eq_true_2 _ Hemp), andb_false_r in Hcond. done.
      + destruct (inject_intr_rule v r Hinv Hmax) as (v1 & E1 & Hi1 & Hp1 & He1 & Hv1 & Hs1).
        exists v1. split; [done|]. split; [done|]. split; [by exists r|done].
    - exists v. by split_and!. }
  destruct H1 as (v1 & E1 & Hi1 & Hinj & Hs1). erewrite bind_run by exact E1.
  destruct (get_pending_rule v1 Hi1) as (r1 & Er1 & Hr1). erewrite bind_run by exact Er1.
  destruct (hax_valid_vector r1 || w)%bool eqn:Hw.
  - destruct (window_rule v1) as (v2 & E2 & Hwin & Hi2 & Hp2 & He2 & Hv2 & Hs2).
    exists v2. split; [done|]. split; [auto|]. split; [|split; [done|]].
    + unfold injected in *. rewrite Hp2, He2, Hv2. done.
    + destruct Hs1, Hs2. constructor; congruence.
  - exists v1. split; [done|]. split; [done|]. split; [done|]. split; [|done].
    apply orb_false_iff in Hw as [Hw1 ->]. intros [Hne|]; [|done].
    destruct Hr1 as [[_ Hemp]|[Hv _]]; congruence.
Qed.

(** ** The abstract queue *)
Record queue := Queue { q_waiting : gset Z; q_delivering : option Z }.

Inductive qlabel := QRequest (x : Z) | QDeliver (x : Z).

Inductive queue_step : queue -> option qlabel -> queue -> Prop :=
  | qs_request W D x :
      queue_step (Queue W D) (Some (QRequest x)) (Queue ({[x]} ∪ W) D)
  | qs_start W x : is_max x W ->
      queue_step (Queue W None) None (Queue (W ∖ {[x]}) (Some x))
  | qs_delivered W x :
      queue_step (Queue W (Some x)) (Some (QDeliver x)) (Queue W None)
  | qs_again W x :
      queue_step (Queue W (Some x)) None (Queue ({[x]} ∪ W) None)
  | qs_idle q : queue_step q None q.

Definition outstanding (q : queue) (x : Z) : Prop := x ∈ q_waiting q \/ q_delivering q = Some x.

(** ** The loop of the virtual CPU

    [Host] is between a VM exit and the next entry, [Guest] after an entry. *)
Inductive phase := Host | Guest.
#[local] Notation state := (phase * vcpu_t)%type.

Inductive event :=
  | EvRequest (vector : Z)
  | EvException (vector error_code : Z)
  | EvEnter (request_interrupt_window : bool)
  | EvExit (idt_vec intr_state instr_len eflags : Z).

(** The processor's part of a VM exit: the valid bit of the entry information is cleared
    and the IDT-vectoring information says which delivery was interrupted. *)
Definition hw_exit (idt_vec : Z) (v : vcpu_t) : vcpu_t :=
  set_vmcs (fun m => <[VM_EXIT_INFO_IDT_VECTORING := u32 idt_vec]>
    (<[VMX_ENTRY_INTERRUPT_INFO := u32 (Z.clearbit (entry_info v) 31)]> m)) v.

Definition run_event (e : event) (s : state) : option state :=
  match e, s with
  | EvRequest x, (ph, v) => match vcpu_interrupt x v with Some (_, v') => Some (ph, v') | None => None end
  | EvException x err, (Host, v) =>
      match hax_inject_exception x err v with Some (_, v') => Some (Host, v') | None => None end
  | EvEnter w, (Host, v) =>
      match cpu_prepare_entry w v with Some (_, v') => Some (Guest, v') | None => None end
  | EvExit idt_vec is_ len ef, (Guest, v) =>
      match cpu_after_exit is_ len ef (hw_exit idt_vec v) with
      | Some (_, v') => Some (Host, v') | None => None end
  | _, _ => None
  end.

(** What the environment may do: external interrupts exit to the host, so that the only
    external interrupt whose delivery can be interrupted is the injected one. *)
Definition admissible (e : event) (s : state) : Prop :=
  match e, s with
  | EvRequest x, _ => 0 <= x < 256
  | EvException x err, (Host, _) => 0 <= x < 256 /\ 0 <= err < 2 ^ 32
  | EvEnter _, (Host, _) => True
  | EvExit idt_vec _ _ _, (Guest, v) =>
      0 <= idt_vec < 2 ^ 32 /\ (forall x, ext_intr idt_vec = Some x -> ext_intr (entry_info v) = Some x)
  | _, _ => False
  end.

Definition abs (s : state) : queue :=
  Queue (pending s.2) (match s.1 with Host => None | Guest => ext_intr (entry_info s.2) end).

(** What an event shows outside. *)
Definition label (e : event) (s : state) : option qlabel :=
  match e, s with
  | EvRequest x, _ => Some (QRequest x)
  | EvExit idt_vec _ _ _, (Guest, v) =>
      match ext_intr idt_vec with
      | Some _ => None
      | None => QDeliver <$> ext_intr (entry_info v)
      end
  | _, _ => None
  end.

Record irq_ok (s : state) : Prop := {
  ok_inv : irq_inv s.2;
  ok_shadow : vc_vmcs_pending_entry_intr_info s.2 = true ->
    info_type (u32 (vc_entry_intr_info s.2)) <> 0;
  ok_host : s.1 = Host ->
    ext_intr (entry_info s.2) = None /\
    (vc_event_injected s.2 = false ->
     info_valid (entry_info s.2) = false /\ vc_vmcs_pending s.2 = false);
  ok_guest : s.1 = Guest -> vc_vmcs_pending s.2 = false;
}.

Inductive trace : state -> list qlabel -> state -> Prop :=
  | trace_nil s : trace s [] s
  | trace_cons s e s' ls s'' : admissible e s -> run_event e s = Some s' -> trace s' ls s'' ->
      trace s (option_list (label e s) ++ ls) s''.

(** *** Each event is simulated *)
Lemma request_sim s x : irq_ok s -> 0 <= x < 256 ->
  exists s', run_event (EvRequest x) s = Some s' /\ irq_ok s' /\
    queue_step (abs s) (Some (QRequest x)) (abs s').
Proof.
  destruct s as [ph v]. intros [Hinv Hsh Hh Hg] Hx. cbn in *.
  destruct (set_pending_rule v x Hinv Hx) as (v' & E & Hinv' & Hp & Hf).
  unfold vcpu_interrupt. erewrite bind_run by exact E. cbn. eexists. split; [done|].
  assert (He : entry_info v' = entry_info v) by (by rewrite Hf).
  split; [constructor; cbn; rewrite ?He; [done|by rewrite Hf..]|].
  unfold abs. cbn. rewrite He, Hp. apply qs_request.
Qed.

(** The information of an injected exception is never that of an external interrupt. *)
Lemma exception_info_type x err : 0 <= x < 256 ->
  info_type (u32 (valid_exception x |! (if err : bool then Z.shiftl 1 11 else 0))) <> 0.
Proof.
  intros Hx Heq.
  pose proof (small_cases (fun y => negb
    (info_type (u32 (valid_exception y |! (if err : bool then Z.shiftl 1 11 else 0))) =? 0))
    256 x ltac:(destruct err; by vm_compute) Hx) as H.
  cbn beta in H. by rewrite Heq in H.
Qed.

Lemma ext_intr_type info : info_type info <> 0 -> ext_intr info = None.
Proof. intros H. unfold ext_intr. by rewrite (proj2 (Z.eqb_neq _ _) H), andb_false_r. Qed.

(** The information that [hax_inject_exception] builds. *)
Definition exception_info (v : vcpu_t) (vector error_code : Z) : Z :=
  if info_valid (vc_exit_idt_vectoring v) then
    if is_double_fault (info_vector (vc_exit_idt_vectoring v)) vector
    then valid_exception VECTOR_DF |! Z.shiftl 1 11 else valid_exception vector
  else if negb (error_code =? NO_ERROR_CODE) then valid_exception vector |! Z.shiftl 1 11
  else valid_exception vector.

Lemma exception_info_ok v x err : 0 <= x < 256 -> info_type (u32 (exception_info v x err)) <> 0.
Proof.
  intros Hx. unfold exception_info.
  pose proof (exception_info_type x true Hx). pose proof (exception_info_type x false Hx) as H0.
  rewrite Z.lor_0_r in H0. repeat case_match; try done.
Qed.

(** Where it is stored: in the shadow for a page fault, in the VMCS otherwise. *)
Lemma exception_run v x err :
  exists v', hax_inject_exception x err v = Some (tt, v') /\
    vc_event_injected v' = true /\ pending v' = pending v /\ (irq_inv v -> irq_inv v') /\
    (if x =? VECTOR_PF then
       vc_vmcs_pending v' = true /\ vc_vmcs_pending_entry_intr_info v' = true /\
       vc_vmcs_pending_entry_instr_length v' = true /\
       vc_vmcs v' = vc_vmcs v /\ vc_entry_intr_info v' = exception_info v x err /\
       vc_entry_instr_length v' = vc_exit_instr_length v /\
       (if negb (info_valid (vc_exit_idt_vectoring v)) && negb (err =? NO_ERROR_CODE) then
          vc_vmcs_pending_entry_error_code v' = true /\ vc_entry_exception_error_code v' = err
        else vc_vmcs_pending_entry_error_code v' = vc_vmcs_pending_entry_error_code v)
     else
       same_exception v v' /\ entry_info v' = u32 (exception_info v x err) /\
       vmcs_field v' VMX_ENTRY_INSTRUCTION_LENGTH = u32 (vc_exit_instr_length v) /\
       vmcs_field v' VMX_ENTRY_EXCEPTION_ERROR_CODE =
         if negb (info_valid (vc_exit_idt_vectoring v)) && negb (err =? NO_ERROR_CODE)
         then u32 err else vmcs_field v VMX_ENTRY_EXCEPTION_ERROR_CODE).
Proof.
  unfold hax_inject_exception, exception_info, get. erewrite bind_run by reflexivity.
  unfold info_valid, info_vector. change INTR_INFO_VALID_MASK with (Z.shiftl 1 31).
  change INTR_INFO_VECTOR_MASK with 0xff.
  assert (Hinv : forall v', vc_intr_pending v' = vc_intr_pending v ->
    vc_nr_pending_intrs v' = vc_nr_pending_intrs v -> irq_inv v -> irq_inv v').
  { intros v' H1 H2 [Hl Hf Hc]. constructor; rewrite H1; [done|done|by rewrite H2]. }
  destruct (negb (vc_exit_idt_vectoring v &! Z.shiftl 1 31 =? 0)) eqn:Ev;
    [|destruct (negb (err =? NO_ERROR_CODE)) eqn:Ee];
    destruct (x =? VECTOR_PF) eqn:Ex; (eexists; split; [reflexivity|]);
    (split; [done|]); (split; [done|]); (split; [by apply Hinv|]).
  1,3,5: by split_and!.
  all: split; [by constructor|]; unfold entry_info, vmcs_field; cbn; by simplify_map_eq.
Qed.

Lemma exception_sim v x err : irq_ok (Host, v) -> 0 <= x < 256 ->
  exists v', hax_inject_exception x err v = Some (tt, v') /\ irq_ok (Host, v') /\
    queue_step (abs (Host, v)) None (abs (Host, v')).
Proof.
  intros [Hinv Hsh Hh Hg] Hx. cbn in *.
  destruct (exception_run v x err) as (v' & E & Hev & Hp & Hi & Hcase).
  exists v'. split; [done|]. split.
  - pose proof (exception_info_ok v x err Hx) as Ht. destruct (Hh eq_refl) as [Hext _].
    destruct (x =? VECTOR_PF).
    + destruct Hcase as (Hvp & Hfl & _ & Hvm & Hinfo & _). constructor; cbn; [auto| | |done].
      * by rewrite Hinfo.
      * intros _. split; [|by rewrite Hev]. unfold entry_info, vmcs_field. by rewrite Hvm.
    + destruct Hcase as ([Hs1 Hs2 Hs3] & Hinfo & _). constructor; cbn; [auto| | |done].
      * by rewrite Hs2, Hs3.
      * intros _. split; [|by rewrite Hev]. rewrite Hinfo. by apply ext_intr_type.
  - unfold abs. cbn. rewrite Hp. apply qs_idle.
Qed.

(** The writes of the shadow fields before an entry. *)
Lemma vmcs_pending_run v :
  exists v', vcpu_handle_vmcs_pending v = Some (tt, v') /\ pending v' = pending v /\
    (irq_inv v -> irq_inv v') /\ vc_event_injected v' = vc_event_injected v /\
    hax_intr_is_blocked v' = hax_intr_is_blocked v /\
    vc_entry_intr_info v' = vc_entry_intr_info v /\
    vc_vmcs_pending v' = false /\
    (vc_vmcs_pending_entry_intr_info v' = true -> vc_vmcs_pending_entry_intr_info v = true) /\
    entry_info v' = (if vc_vmcs_pending v && vc_vmcs_pending_entry_intr_info v
                     then u32 (vc_entry_intr_info v) else entry_info v) /\
    vmcs_field v' VMX_ENTRY_INSTRUCTION_LENGTH =
      (if vc_vmcs_pending v && vc_vmcs_pending_entry_instr_length v
       then u32 (vc_entry_instr_length v) else vmcs_field v VMX_ENTRY_INSTRUCTION_LENGTH) /\
    vmcs_field v' VMX_ENTRY_EXCEPTION_ERROR_CODE =
      (if vc_vmcs_pending v && vc_vmcs_pending_entry_error_code v
       then u32 (vc_entry_exception_error_code v) else vmcs_field v VMX_ENTRY_EXCEPTION_ERROR_CODE).
Proof.
  unfold vcpu_handle_vmcs_pending, get. erewrite bind_run by reflexivity.
  destruct (vc_vmcs_pending v) eqn:Ep; cbn [negb andb].
  2: { exists v. by split_and!. }
  destruct (vc_vmcs_pending_entry_error_code v), (vc_vmcs_pending_entry_instr_length v),
    (vc_vmcs_pending_entry_intr_info v); (eexists; split; [reflexivity|]);
    (split; [done|]); (split; [intros []; by constructor|]); unfold entry_info, vmcs_field; cbn;
    by simplify_map_eq.
Qed.

(** An entry takes the greatest pending vector when nothing stands in the way. *)
Lemma entry_rule v w : irq_ok (Host, v) ->
  exists v', cpu_prepare_entry w v = Some (tt, v') /\ irq_ok (Guest, v') /\
    (if (can_take v && negb (bool_decide (pending v = ∅)))%bool then
       exists x, is_max x (pending v) /\ pending v' = pending v ∖ {[x]} /\
         ext_intr (entry_info v') = Some x
     else pending v' = pending v /\ ext_intr (entry_info v') = None /\
       entry_info v' = if vc_vmcs_pending v && vc_vmcs_pending_entry_intr_info v
         then u32 (vc_entry_intr_info v) else entry_info v) /\
    (pending v' <> ∅ \/ w = true -> window_requested v').
Proof.
  intros [Hinv Hsh Hh _]. cbn in *. destruct (Hh eq_refl) as [Hext Hev].
  destruct (vmcs_pending_run v) as (v1 & E1 & Hp1 & Hi1 & Hev1 & Hbl1 & Hsi1 & Hvp1 & Hfl1 & Hinfo1 & _).
  destruct (inject_rule v1 w (Hi1 Hinv)) as (v2 & E2 & Hi2 & Hinj & Hwin & [Hs1 Hs2 Hs3]).
  unfold cpu_prepare_entry. erewrite bind_run by exact E1. exists v2. split; [done|].
  split; [|split; [|done]].
  - constructor; cbn; [done| |done|by rewrite Hs1]. rewrite Hs2, Hs3, Hsi1. auto.
  - assert (Htake : can_take v1 = can_take v).
    { unfold can_take. rewrite Hev1, Hbl1. destruct (vc_event_injected v) eqn:Ee; [done|].
      destruct (Hev eq_refl) as [_ Hvp]. by rewrite Hinfo1, Hvp. }
    unfold injected in Hinj. rewrite Htake, Hp1 in Hinj. case_match.
    + destruct Hinj as (x & Hmax & Hp2 & He2 & _). by exists x.
    + destruct Hinj as (Hp2 & He2 & _). split; [done|]. rewrite He2, Hinfo1.
      split; [|done]. destruct (vc_vmcs_pending v); [|done].
      destruct (vc_vmcs_pending_entry_intr_info v); cbn; [|done]. by apply ext_intr_type, Hsh.
Qed.

Lemma entry_sim v w : irq_ok (Host, v) ->
  exists v', cpu_prepare_entry w v = Some (tt, v') /\ irq_ok (Guest, v') /\
    queue_step (abs (Host, v)) None (abs (Guest, v')).
Proof.
  intros Hok. destruct (entry_rule v w Hok) as (v' & E & Hok' & Hcase & _).
  exists v'. split; [done|]. split; [done|]. unfold abs. cbn. case_match.
  - destruct Hcase as (x & Hmax & -> & ->). by apply qs_start.
  - destruct Hcase as (-> & -> & _). apply qs_idle.
Qed.

(** ** VM exits *)
Lemma exit_valid_cleared info : info_valid (u32 (Z.clearbit info 31)) = false.
Proof.
  unfold info_valid, u32. apply negb_false_iff, Z.eqb_eq. apply Z.bits_inj'. intros j Hj.
  rewrite Z.land_spec, Z.bits_0, Z.shiftl_1_l. destruct (Z.eq_dec j 31) as [->|Hne].
  - rewrite Z.mod_pow2_bits_low, Z.clearbit_eq by lia. done.
  - rewrite Z.pow2_bits_false by lia. apply andb_false_r.
Qed.

Lemma vectoring_run idt_vec v : 0 <= idt_vec < 2 ^ 32 -> irq_inv v ->
  vmcs_field v VM_EXIT_INFO_IDT_VECTORING = idt_vec ->
  exists v', hax_handle_idt_vectoring v = Some (tt, v') /\
    with_pending (match ext_intr idt_vec with Some x => {[x]} ∪ pending v | None => pending v end) v v'.
Proof.
  intros Hr Hinv Hf. unfold hax_handle_idt_vectoring, vmread. rewrite gets_run, Hf.
  unfold ext_intr, info_valid, info_type, info_vector. change 0x80000000 with (Z.shiftl 1 31).
  assert (Hsame : with_pending (pending v) v v) by (split_and!; [done..|by destruct v]).
  destruct (negb (idt_vec &! Z.shiftl 1 31 =? 0)); [|by exists v].
  destruct (idt_vec &! 0x700 =? 0); cbn [andb]; [|by exists v].
  apply set_pending_rule; [done|]. change 0xff with (Z.ones 8). rewrite Z.land_ones by lia.
  apply Z.mod_pos_bound. lia.
Qed.

Lemma exit_sim v idt_vec is_ len ef : irq_ok (Guest, v) ->
  admissible (EvExit idt_vec is_ len ef) (Guest, v) ->
  exists v', cpu_after_exit is_ len ef (hw_exit idt_vec v) = Some (tt, v') /\ irq_ok (Host, v') /\
    queue_step (abs (Guest, v)) (label (EvExit idt_vec is_ len ef) (Guest, v)) (abs (Host, v')).
Proof.
  intros [Hinv Hsh _ Hg] [Hr Hadm]. cbn in *.
  set (v1 := hw_exit idt_vec v).
  assert (Hinv1 : irq_inv v1) by (destruct Hinv; by constructor).
  destruct (vectoring_run idt_vec v1 Hr Hinv1) as (v2 & E2 & Hi2 & Hp2 & Hf2).
  { unfold vmcs_field, v1, hw_exit, set_vmcs. cbn. rewrite lookup_insert_eq. by apply u32_small. }
  unfold cpu_after_exit. erewrite bind_run by exact E2. unfold vmread. rewrite gets_run, modify_run.
  eexists. split; [reflexivity|].
  assert (He : entry_info v2 = u32 (Z.clearbit (entry_info v) 31)).
  { rewrite Hf2. unfold entry_info, vmcs_field, v1, hw_exit. cbn. by simplify_map_eq. }
  assert (Hp1 : pending v1 = pending v) by done. rewrite Hp1 in Hp2. split.
  - constructor; cbn.
    + by destruct Hi2.
    + by rewrite Hf2.
    + intros _. change (entry_info _) with (entry_info v2). unfold ext_intr.
      rewrite He, exit_valid_cleared. rewrite Hf2. cbn. auto.
    + done.
  - unfold abs. cbn. change (pending _) with (pending v2) at 2. rewrite Hp2.
    destruct (ext_intr idt_vec) as [x|].
    + rewrite (Hadm x eq_refl). apply qs_again.
    + destruct (ext_intr (entry_info v)) as [x|]; cbn; [apply qs_delivered|apply qs_idle].
Qed.

(** ** The theorems *)
Lemma event_sim e s : irq_ok s -> admissible e s ->
  exists s', run_event e s = Some s' /\ irq_ok s' /\ queue_step (abs s) (label e s) (abs s').
Proof.
  intros Hok Had. destruct e as [x|x err|w|iv is_ len ef].
  - by apply request_sim.
  - destruct s as [[|] v]; [|done]. destruct Had as [Hx _].
    destruct (exception_sim v x err Hok Hx) as (v' & E & ?). exists (Host, v'). cbn. by rewrite E.
  - destruct s as [[|] v]; [|done]. destruct (entry_sim v w Hok) as (v' & E & ?).
    exists (Guest, v'). cbn. by rewrite E.
  - destruct s as [[|] v]; [done|]. destruct (exit_sim v iv is_ len ef Hok Had) as (v' & E & ?).
    exists (Host, v'). cbn [run_event]. by rewrite E.
Qed.

Lemma queue_step_conserves q l q' : queue_step q l q' ->
  (forall x, outstanding q x -> outstanding q' x \/ l = Some (QDeliver x)) /\
  (forall x, l = Some (QRequest x) -> outstanding q' x) /\
  (forall x, outstanding q' x -> outstanding q x \/ l = Some (QRequest x)) /\
  (forall x, l = Some (QDeliver x) -> outstanding q x).
Proof.
  unfold outstanding. intros Hs.
  assert (Hdec : forall (x y : Z), x = y \/ x <> y) by (intros; lia).
  destruct Hs as [W D y|W y [Hy _]|W y|W y|q]; cbn; split_and!;
    intros x; try destruct (Hdec x y) as [->|]; set_solver.
Qed.

Lemma elem_option_list {A} (o : option A) a : a ∈ option_list o <-> o = Some a.
Proof. destruct o; cbn; rewrite ?list_elem_of_singleton, ?elem_of_nil; naive_solver. Qed.

(** An initial virtual CPU. *)
Definition init_vcpu : vcpu_t :=
  Vcpu (replicate 8 0) 0 false false false false false 0 0 0 0 0 0 0 0x200 ∅.

Lemma init_ok : irq_ok (Host, init_vcpu).
Proof.
  constructor; cbn; [|done|done|done].
  constructor; cbn; [done| |by vm_compute]. repeat constructor; lia.
Qed.

(** C23. Interrupt delivery refines the abstract priority queue: from every consistent
    state every admissible event - a request by [vcpu_interrupt], an exception injected by
    an exit handler, a VM entry, a VM exit with any IDT-vectoring information the processor
    may report - runs without getting stuck, keeps the state consistent, and is matched by
    a step of the queue with the same visible label: a VM entry starts the delivery of the
    greatest waiting vector or none, an exit ends the delivery or puts the vector back. *)
Theorem interrupts_refine_queue e s : irq_ok s -> admissible e s ->
  exists s', run_event e s = Some s' /\ irq_ok s' /\ queue_step (abs s) (label e s) (abs s').
Proof. apply event_sim. Qed.

Lemma interrupts_refine_queue_witness :
  exists s', run_event (EvRequest 48) (Host, init_vcpu) = Some s' /\ irq_ok s' /\
    queue_step (abs (Host, init_vcpu)) (label (EvRequest 48) (Host, init_vcpu)) (abs s').
Proof. apply (interrupts_refine_queue (EvRequest 48) (Host, init_vcpu)); [apply init_ok|cbn; lia]. Defined.

(** C24. No interrupt is lost and none is invented: along every run of the loop, a vector
    that was waiting or in delivery at the start, or is requested on the way, is in the end
    still waiting or in delivery, or has been delivered to the guest; and a vector that is
    outstanding in the end or has been delivered was outstanding at the start or requested. *)
Theorem interrupts_conserved s ls s' x : irq_ok s -> trace s ls s' ->
  (outstanding (abs s) x \/ QRequest x ∈ ls -> outstanding (abs s') x \/ QDeliver x ∈ ls) /\
  (outstanding (abs s') x \/ QDeliver x ∈ ls -> outstanding (abs s) x \/ QRequest x ∈ ls).
Proof.
  intros Hok Ht. induction Ht as [s|s e s1 ls s' Had E Ht IH].
  { split; (intros [H|H]; [by left|by apply not_elem_of_nil in H]). }
  destruct (event_sim e s Hok Had) as (s1' & E1 & Hok1 & Hstep).
  rewrite E in E1. injection E1 as <-. destruct (IH Hok1) as [IH1 IH2].
  destruct (queue_step_conserves _ _ _ Hstep) as (Ha & Hb & Hc & Hd).
  specialize (Ha x). specialize (Hb x). specialize (Hc x). specialize (Hd x).
  rewrite !elem_of_app, !elem_option_list.
  split; [clear - Ha Hb IH1|clear - Hc Hd IH2]; tauto.
Qed.

(** A request on an idle CPU. *)
Lemma interrupts_conserved_witness :
  exists s', trace (Host, init_vcpu) [QRequest 48] s' /\ outstanding (abs s') 48.
Proof.
  destruct (event_sim (EvRequest 48) (Host, init_vcpu) init_ok ltac:(cbn; lia)) as (s' & E & _).
  assert (Ht : trace (Host, init_vcpu) [QRequest 48] s').
  { apply (trace_cons _ (EvRequest 48) s' []); [cbn; lia|done|apply trace_nil]. }
  exists s'. split; [exact Ht|].
  destruct (interrupts_conserved _ _ _ 48 init_ok Ht) as [H _].
  destruct H as [H|H]; [right; by apply list_elem_of_singleton|exact H|].
  by apply list_elem_of_singleton in H.
Defined.

(** What a VM entry injects: the greatest pending vector exactly when no event has been
    injected, interrupts are not blocked (IF, STI and MOV SS) and the entry field is free;
    otherwise the bitmap is unchanged and the entry carries the exception waiting in the
    shadow fields or in the VMCS.  Whenever a vector stays behind, or user space asked for
    it, the entry has interrupt-window exiting enabled, so that the CPU comes back. *)
Theorem cpu_prepare_entry_correct v w : irq_ok (Host, v) ->
  exists v', cpu_prepare_entry w v = Some (tt, v') /\ irq_ok (Guest, v') /\
    (if (can_take v && negb (bool_decide (pending v = ∅)))%bool then
       exists x, is_max x (pending v) /\ pending v' = pending v ∖ {[x]} /\
         ext_intr (entry_info v') = Some x
     else pending v' = pending v /\ ext_intr (entry_info v') = None /\
       entry_info v' = if vc_vmcs_pending v && vc_vmcs_pending_entry_intr_info v
         then u32 (vc_entry_intr_info v) else entry_info v) /\
    (pending v' <> ∅ \/ w = true -> window_requested v').
Proof. apply entry_rule. Qed.

Lemma cpu_prepare_entry_correct_witness :
  exists v', cpu_prepare_entry true init_vcpu = Some (tt, v') /\ window_requested v'.
Proof.
  destruct (cpu_prepare_entry_correct init_vcpu true init_ok) as (v' & E & _ & _ & Hw).
  exists v'. split; [done|]. apply Hw. by right.
Defined.

(** ** Exceptions

    The classification of the architecture manual: a second contributory exception during
    the delivery of a contributory one, or a contributory exception or a page fault during
    the delivery of a page fault, is a double fault. *)
Definition contributory (vec : Z) : bool := bool_decide (vec ∈ [0; 10; 11; 12; 13]).
Definition double_fault_class (first second : Z) : bool :=
  (contributory first && contributory second ||
   (first =? 14) && (contributory second || (second =? 14)))%bool.

Lemma double_fault_spec first second : 0 <= first < 256 -> 0 <= second < 256 ->
  is_double_fault first second = double_fault_class first second.
Proof.
  intros Hf Hs. apply eqb_prop.
  pose proof (small_cases (fun x => forallb (fun y =>
    eqb (is_double_fault x y) (double_fault_class x y)) (seqZ 0 256)) 256 first
    ltac:(vm_compute; reflexivity) Hf) as H.
  exact (small_cases _ 256 second H Hs).
Qed.

Lemma info_vector_range i : 0 <= info_vector i < 256.
Proof.
  unfold info_vector. change 0xff with (Z.ones 8). rewrite Z.land_ones by lia.
  apply Z.mod_pos_bound. lia.
Qed.

Lemma exception_info_value x (err : bool) : 0 <= x < 256 ->
  u32 (valid_exception x |! (if err then Z.shiftl 1 11 else 0)) =
  2 ^ 31 + EXCEPTION * 2 ^ 8 + x + (if err then 2 ^ 11 else 0).
Proof.
  intros Hx. apply Z.eqb_eq.
  apply (small_cases (fun x => u32 (valid_exception x |! (if err then Z.shiftl 1 11 else 0)) =?
    2 ^ 31 + EXCEPTION * 2 ^ 8 + x + (if err then 2 ^ 11 else 0)) 256); [|done].
  destruct err; by vm_compute.
Qed.

(** The entry leaves the error code and the length that were written for it. *)
Lemma inject_blocked_run v w : vc_event_injected v = true -> irq_inv v ->
  exists v', vcpu_inject_intr w v = Some (tt, v') /\ entry_info v' = entry_info v /\
    pending v' = pending v /\
    vmcs_field v' VMX_ENTRY_INSTRUCTION_LENGTH = vmcs_field v VMX_ENTRY_INSTRUCTION_LENGTH /\
    vmcs_field v' VMX_ENTRY_EXCEPTION_ERROR_CODE = vmcs_field v VMX_ENTRY_EXCEPTION_ERROR_CODE.
Proof.
  intros Hev Hinv. unfold vcpu_inject_intr, vmread. rewrite gets_run.
  destruct (get_pending_rule v Hinv) as (r & Er & _). erewrite bind_run by exact Er.
  unfold get. erewrite bind_run by reflexivity. rewrite Hev.
  cbn [negb]. rewrite andb_false_r. cbn [andb]. erewrite bind_run by reflexivity.
  erewrite bind_run by exact Er. case_match; [|by exists v].
  unfold hax_enable_intr_window. rewrite modify_run. unfold get, vmwrite, modify.
  eexists. split; [reflexivity|]. unfold entry_info.
  split; [by rewrite vmcs_write_other|]. split; [done|]. by split; rewrite vmcs_write_other.
Qed.

Lemma exception_delivered v vec err w :
  irq_ok (Host, v) -> 0 <= vec < 256 -> 0 <= err < 2 ^ 32 ->
  vc_vmcs_pending v = false -> vc_vmcs_pending_entry_error_code v = false ->
  exists v1 v2, hax_inject_exception vec err v = Some (tt, v1) /\
    cpu_prepare_entry w v1 = Some (tt, v2) /\ pending v2 = pending v /\
    entry_info v2 = u32 (exception_info v vec err) /\
    vmcs_field v2 VMX_ENTRY_INSTRUCTION_LENGTH = u32 (vc_exit_instr_length v) /\
    vmcs_field v2 VMX_ENTRY_EXCEPTION_ERROR_CODE =
      if negb (info_valid (vc_exit_idt_vectoring v)) && negb (err =? NO_ERROR_CODE)
      then err else vmcs_field v VMX_ENTRY_EXCEPTION_ERROR_CODE.
Proof.
  intros [Hinv _ _ _] Hvec Herr Hvp Hfl. cbn in *.
  destruct (exception_run v vec err) as (v1 & E1 & Hev & Hp & Hi & Hcase).
  destruct (vmcs_pending_run v1) as (v' & E' & Hp' & Hi' & Hev' & _ & _ & _ & _ & Hinfo & Hlen & Hcode).
  destruct (inject_blocked_run v' w) as (v2 & E2 & Hinfo2 & Hp2 & Hlen2 & Hcode2); [congruence|auto|].
  exists v1, v2. split; [done|]. split; [unfold cpu_prepare_entry; by erewrite bind_run by exact E'|].
  rewrite Hinfo2, Hlen2, Hcode2, Hp2, Hp', Hp, Hinfo, Hlen, Hcode.
  split; [done|]. destruct (vec =? VECTOR_PF).
  - destruct Hcase as (H1 & H2 & H3 & H4 & H5 & H6 & H7). rewrite H1, H2, H3, H5, H6.
    split; [done|]. split; [done|]. unfold vmcs_field. rewrite H4.
    destruct (negb (info_valid _) && _)%bool; [destruct H7 as [-> ->]; by apply u32_small|].
    by rewrite H7, Hfl.
  - destruct Hcase as ([H1 H2 H3] & H4 & H5 & H6). rewrite H1, Hvp, H4, H5, H6.
    split; [done|]. split; [done|]. cbn [andb].
    destruct (negb (info_valid _) && _)%bool; [by apply u32_small|done].
Qed.

(** An injected exception reaches the guest: the next VM entry carries, as a hardware
    exception, the double fault if the exit had interrupted the delivery of an event and
    the architecture's table makes the pair a double fault, and otherwise the exception
    itself, with the length of the instruction that caused it, and takes no external
    interrupt.  The error code is delivered exactly when the exit had not interrupted a
    delivery: in the other case the field keeps its old value, for a double fault too. *)
Theorem exception_entry_correct v vec err w :
  irq_ok (Host, v) -> 0 <= vec < 256 -> 0 <= err < 2 ^ 32 ->
  vc_vmcs_pending v = false -> vc_vmcs_pending_entry_error_code v = false ->
  let vectoring := vc_exit_idt_vectoring v in
  let vec' := if (info_valid vectoring && double_fault_class (info_vector vectoring) vec)%bool
              then VECTOR_DF else vec in
  exists v1 v2, hax_inject_exception vec err v = Some (tt, v1) /\
    cpu_prepare_entry w v1 = Some (tt, v2) /\ pending v2 = pending v /\
    entry_info v2 = 2 ^ 31 + EXCEPTION * 2 ^ 8 + vec' +
      (if if info_valid vectoring then double_fault_class (info_vector vectoring) vec
          else negb (err =? NO_ERROR_CODE) then 2 ^ 11 else 0) /\
    vmcs_field v2 VMX_ENTRY_INSTRUCTION_LENGTH = u32 (vc_exit_instr_length v) /\
    vmcs_field v2 VMX_ENTRY_EXCEPTION_ERROR_CODE =
      if negb (info_valid vectoring) && negb (err =? NO_ERROR_CODE)
      then err else vmcs_field v VMX_ENTRY_EXCEPTION_ERROR_CODE.
Proof.
  intros Hok Hvec Herr Hvp Hfl vectoring vec'.
  destruct (exception_delivered v vec err w Hok Hvec Herr Hvp Hfl)
    as (v1 & v2 & E1 & E2 & Hp & Hinfo & Hlen & Hcode).
  exists v1, v2. do 3 (split; [done|]). split; [|done]. rewrite Hinfo. subst vec' vectoring.
  pose proof (info_vector_range (vc_exit_idt_vectoring v)) as Hfirst.
  pose proof (exception_info_value vec true Hvec) as Hcode1.
  pose proof (exception_info_value vec false Hvec) as Hcode0. rewrite Z.lor_0_r in Hcode0.
  unfold exception_info. rewrite double_fault_spec by done.
  destruct (info_valid (vc_exit_idt_vectoring v)); cbn [andb].
  - by destruct (double_fault_class _ _).
  - by destruct (negb (err =? NO_ERROR_CODE)).
Qed.

(** A general protection fault with error code 0x18 on an idle CPU. *)
Lemma exception_entry_correct_witness :
  exists v1 v2, hax_inject_exception 13 0x18 init_vcpu = Some (tt, v1) /\
    cpu_prepare_entry false v1 = Some (tt, v2) /\ entry_info v2 = 0x80000b0d /\
    vmcs_field v2 VMX_ENTRY_EXCEPTION_ERROR_CODE = 0x18.
Proof.
  destruct (exception_entry_correct init_vcpu 13 0x18 false init_ok ltac:(lia) ltac:(lia) eq_refl eq_refl)
    as (v1 & v2 & E1 & E2 & _ & Hi & _ & Hc).
  exists v1, v2. split; [exact E1|]. split; [exact E2|]. split; [exact Hi|exact Hc].
Defined.
