(* ===== verification/Mmio.v ===== *)
(** * Access to guest virtual memory (src/core/mmio.c)

    The instruction emulator fetches instructions and accesses operands at guest virtual
    addresses.  The translation walks the guest's page tables, which may set accessed and
    dirty bits; a failed access injects a page fault into the virtual CPU.  The page of the
    last instruction stays mapped for the next one. *)

From stdpp Require Import base numbers list gmap.
From Stdlib Require Import ZArith Lia.
From S2P Require Import Prelude MemTypes Memslot GpaSpace PageWalker IntrExc.
#[local] Open Scope Z_scope.

Definition PM_FLAT : Z := 1.
Definition PM_2LVL : Z := 2.
Definition PM_PAE : Z := 3.
Definition PM_PML4 : Z := 4.

(** [kva] is the address of the mapped page, an alias of user memory. *)
Record mmio_fetch_cache := MmioFetchCache {
  mf_last_gva : Z;
  mf_last_guest_cr3 : Z;
  mf_kva : option Z;
  mf_kmap : option Z;
  mf_hit_count : Z;
}.

(** The parts of the virtual CPU and its VM that take part. *)
Record mmio_vcpu {HH : Host} (E : Type) := MmioVcpu {
  mv_space : hax_gpa_space E;
  mv_intr : vcpu_t;
  mv_regs : paging_regs;
  mv_cr2 : Z;
  mv_panicked : bool;
  mv_mmio_fetch : mmio_fetch_cache;
}.
Arguments MmioVcpu {HH E}.
Arguments mv_space {HH E}.
Arguments mv_intr {HH E}.
Arguments mv_regs {HH E}.
Arguments mv_cr2 {HH E}.
Arguments mv_panicked {HH E}.
Arguments mv_mmio_fetch {HH E}.

Section Setters.
Context {HH : Host} {E : Type}.
Implicit Types v : mmio_vcpu E.
Definition set_mv_space (g : hax_gpa_space E) v : mmio_vcpu E :=
  MmioVcpu g (mv_intr v) (mv_regs v) (mv_cr2 v) (mv_panicked v) (mv_mmio_fetch v).
Definition set_mv_intr (i : vcpu_t) v : mmio_vcpu E :=
  MmioVcpu (mv_space v) i (mv_regs v) (mv_cr2 v) (mv_panicked v) (mv_mmio_fetch v).
Definition set_mv_cr2 (x : Z) v : mmio_vcpu E :=
  MmioVcpu (mv_space v) (mv_intr v) (mv_regs v) x (mv_panicked v) (mv_mmio_fetch v).
Definition set_mv_panicked (b : bool) v : mmio_vcpu E :=
  MmioVcpu (mv_space v) (mv_intr v) (mv_regs v) (mv_cr2 v) b (mv_mmio_fetch v).
Definition set_mv_fetch (f : mmio_fetch_cache) v : mmio_vcpu E :=
  MmioVcpu (mv_space v) (mv_intr v) (mv_regs v) (mv_cr2 v) (mv_panicked v) f.
End Setters.

Section Mmio.
Context {HH : Host} {E : Type}.
#[local] Notation st := (mmio_vcpu E).
Context (same_kva : Z -> Z -> bool).

(** Calls on the address space and on the interrupt state. *)
Definition in_space {A} (m : M (hax_gpa_space E) A) : M st A :=
  fun v => match m (mv_space v) with
           | Some (a, g) => Some (a, set_mv_space g v)
           | None => None
           end.
Definition in_intr {A} (m : M vcpu_t A) : M st A :=
  fun v => match m (mv_intr v) with
           | Some (a, i) => Some (a, set_mv_intr i v)
           | None => None
           end.

Definition vcpu_set_panic : M st unit := modify (set_mv_panicked true).

Definition vcpu_get_pagemode (r : paging_regs) : Z :=
  if negb (bit_set (pr_cr0 r) CR0_PG) then PM_FLAT
  else if negb (bit_set (pr_cr4 r) CR4_PAE) then PM_2LVL
  else if negb (bit_set (pr_efer r) IA32_EFER_LMA) then PM_PAE
  else PM_PML4.

(** The return value and [*pa]. *)
Definition translate_mode (mode va access : Z) (update : bool) : M st (Z * Z) :=
  if mode =? PM_FLAT then mret (0, va)
  else
    r ← gets mv_regs;
    w ← in_space (pw_perform_page_walk same_kva r va access update false);
    mret (wr_ret w, wr_gpa w).

(** [*len] after a translation; it is valid to the end of the 4-KB page. *)
Definition limit_len (va len : Z) : Z :=
  let size := Z.shiftl 1 PG_ORDER_4K in
  let extend := size - (va &! (size - 1)) in
  if ((len =? 0) || (extend <? len))%bool then extend else len.

(** [len] is [None] for a null pointer. *)
Definition vcpu_translate (va access : Z) (len : option Z) (update : bool)
    : M st (Z * Z * option Z) :=
  regs ← gets mv_regs;
  r ← translate_mode (vcpu_get_pagemode regs) va access update;
  mret (r.1, r.2, if r.1 =? 0 then limit_len va <$> len else len).

(** A failed access: [cr2] and a page fault. *)
Definition inject_fault (va r : Z) : M st unit :=
  modify (set_mv_cr2 va);;
  in_intr (hax_inject_page_fault (r &! 0x1f)).

(** The loop of the read: the result and the bytes copied so far. *)
Fixpoint read_virtual_loop (fuel : nat) (addr size flag offset : Z) (dst : list Z)
    : M st (Z * list Z) :=
  match fuel with
  | O => stuck
  | S fuel =>
      if offset <? size then
        t ← vcpu_translate (addr +! offset) 0 (Some (size - offset)) (negb (flag =? 2));
        let '(r, gpa, len) := t in
        if negb (r =? 0) then
          if negb (flag =? 0) then mret (offset, dst)
          else inject_fault (addr +! offset) r;; mret (0, dst)
        else
          len ← of_option len;
          d ← in_space (gpa_space_read_data gpa (s32 len));
          let '(len2, data) := d in
          if len2 <=? 0 then vcpu_set_panic;; mret (0, dst)
          else read_virtual_loop fuel addr size flag (u32 (offset + len2)) (dst ++ data)
      else mret (if negb (flag =? 0) then size else 1, dst)
  end.

Definition vcpu_read_guest_virtual (addr size flag : Z) : M st (Z * list Z) :=
  hax_assert ((flag =? 0) || (flag =? 2))%bool;;
  read_virtual_loop (S (Z.to_nat size)) addr size flag 0 [].

Fixpoint write_virtual_loop (fuel : nat) (addr size flag offset : Z) (src : list Z) : M st Z :=
  match fuel with
  | O => stuck
  | S fuel =>
      if offset <? size then
        t ← vcpu_translate (addr +! offset) TF_WRITE (Some (size - offset)) (negb (flag =? 2));
        let '(r, gpa, len) := t in
        if negb (r =? 0) then
          if negb (flag =? 0) then mret offset
          else
            (if bit_set r TF_GP2HP then vcpu_set_panic else mret tt);;
            inject_fault (addr +! offset) r;;
            mret 0
        else
          len ← of_option len;
          len2 ← in_space (gpa_space_write_data gpa (s32 len) (drop (Z.to_nat offset) src));
          if len2 <=? 0 then vcpu_set_panic;; mret 0
          else write_virtual_loop fuel addr size flag (u32 (offset + len2)) src
      else mret (if negb (flag =? 0) then size else 1)
  end.

Definition vcpu_write_guest_virtual (addr dst_buflen : Z) (src : list Z) (size flag : Z) : M st Z :=
  hax_assert ((flag =? 0) || (flag =? 1))%bool;;
  hax_assert (size <=? dst_buflen);;
  write_virtual_loop (S (Z.to_nat size)) addr size flag 0 src.

(** ** Fetching instructions *)
Definition mmio_map_guest_virtual_page_fast (gva : Z) : M st (option Z) :=
  v ← get;
  let f := mv_mmio_fetch v in
  match mf_kva f with
  | None => mret None
  | Some kva =>
      if (negb (gva >>! PG_ORDER_4K =? mf_last_gva f >>! PG_ORDER_4K) ||
          negb (pr_cr3 (mv_regs v) =? mf_last_guest_cr3 f))%bool
      then
        modify (set_mv_fetch (MmioFetchCache (mf_last_gva f) (mf_last_guest_cr3 f) None (mf_kmap f)
                                (mf_hit_count f)));;
        in_space (gpa_space_unmap_page (mf_kmap f));;
        mret None
      else
        modify (set_mv_fetch (MmioFetchCache (mf_last_gva f) (mf_last_guest_cr3 f) (Some kva)
                                (mf_kmap f) (s32 (mf_hit_count f + 1))));;
        mret (Some kva)
  end.

(** The page and its mapping, which is written to the cache where there is one. *)
Definition mmio_map_guest_virtual_page_slow (gva : Z) : M st (option Z) :=
  let gva_aligned := Z.ldiff gva (Z.ones PG_ORDER_4K) in
  t ← vcpu_translate gva_aligned 0 None true;
  let '(ret, gpa, _) := t in
  if negb (ret =? 0) then mret None
  else
    p ← in_space (gpa_space_map_page (gpa >>! PG_ORDER_4K));
    let '(kva, kmap, _) := p in
    v ← get;
    let f := mv_mmio_fetch v in
    modify (set_mv_fetch (MmioFetchCache (mf_last_gva f) (mf_last_guest_cr3 f) (mf_kva f)
                            (match kmap with Some _ => kmap | None => mf_kmap f end)
                            (mf_hit_count f)));;
    mret kva.

(** [memcpy_s(buf, len, src_buf + offset, len)] *)
Definition copy_page (src_buf gva len : Z) : M st (list Z) :=
  v ← get;
  let offset := u32 (gva &! (Z.ones PG_ORDER_4K)) in
  mret (umem_bytes (gs_umem (mv_space v)) (src_buf + offset) (Z.to_nat len)).

(** The result and the contents of [buf] when it is 0. *)
Definition mmio_fetch_instruction (gva len : Z) : M st (Z * list Z) :=
  hax_assert ((0 <? len) && (len <=? 15))%bool;;
  let end_gva := (gva +! len) -! 1 in
  if negb (gva >>! PG_ORDER_4K =? end_gva >>! PG_ORDER_4K) then
    r ← vcpu_read_guest_virtual gva len 0;
    let '(ret, data) := r in
    if ret =? 0 then mret (- ENOMEM, data) else mret (0, data)
  else
    src_buf ← mmio_map_guest_virtual_page_fast gva;
    match src_buf with
    | Some src_buf => data ← copy_page src_buf gva len; mret (0, data)
    | None =>
        src_buf ← mmio_map_guest_virtual_page_slow gva;
        match src_buf with
        | None => mret (- ENOMEM, [])
        | Some src_buf =>
            v ← get;
            modify (set_mv_fetch (MmioFetchCache gva (pr_cr3 (mv_regs v)) (Some src_buf)
                                    (mf_kmap (mv_mmio_fetch v)) 0));;
            data ← copy_page src_buf gva len;
            mret (0, data)
        end
    end.
End Mmio.
