(* ===== verification/MmioProof.v ===== *)
(** * The rules of guest virtual accesses

    The reference translation of a guest virtual address is unaffected by the accessed and
    dirty bits that the walker sets, and addresses of one 4-KB page have consecutive
    translations; both come first.

    [vcpu_translate] gives the reference translation; the loops over the pages of a range
    are proved against byte-wise translation in the memory at the start. *)

From stdpp Require Import base numbers list gmap.
From Stdlib Require Import ZArith Lia.
From S2P Require Import Prelude HaxList MemTypes Memslot MemslotSpec MemslotCorrect GpaSpace.
From S2P Require Import GpaAccess PageWalker PageWalkSpec PageWalkProof PageWalkProps IntrExc.
From S2P Require Import Mmio.
#[local] Open Scope Z_scope.

(** ** Accessed and dirty bits *)
Definition ad_mask (k : Z) : Prop := k &! 0x60 = k.

Lemma ad_mask_bit k i : ad_mask k -> i <> 5 -> i <> 6 -> Z.testbit k i = false.
Proof.
  intros Hk H5 H6. rewrite <- Hk, Z.land_spec.
  destruct (Z.lt_ge_cases i 0); [by rewrite !Z.testbit_neg_r by lia|].
  replace (Z.testbit 0x60 i) with false; [apply andb_false_r|]. symmetry.
  destruct (Z.lt_ge_cases i 7); [|apply Z.bits_above_log2; [done|change (Z.log2 0x60) with 6; lia]].
  by assert (i = 0 \/ i = 1 \/ i = 2 \/ i = 3 \/ i = 4) as [-> | [-> | [-> | [-> | ->]]]] by lia.
Qed.

Lemma ad_testbit e k i : ad_mask k -> i <> 5 -> i <> 6 -> Z.testbit (e |! k) i = Z.testbit e i.
Proof. intros. rewrite Z.lor_spec, (ad_mask_bit k i) by done. apply orb_false_r. Qed.

Lemma ad_land e k m : ad_mask k -> m &! 0x60 = 0 -> (e |! k) &! m = e &! m.
Proof.
  intros Hk Hm. rewrite Z.land_lor_distr_l. replace (k &! m) with 0; [apply Z.lor_0_r|].
  rewrite <- Hk. by rewrite <- Z.land_assoc, (Z.land_comm 0x60), Hm, Z.land_0_r.
Qed.

Lemma ad_bit_set e k m : ad_mask k -> m &! 0x60 = 0 -> bit_set (e |! k) m = bit_set e m.
Proof. intros Hk Hm. unfold bit_set. by rewrite ad_land. Qed.

Lemma shiftl_ad x n : 7 <= n -> Z.shiftl x n &! 0x60 = 0.
Proof.
  intros Hn. apply Z.bits_inj'. intros i Hi. rewrite Z.land_spec, Z.bits_0, Z.shiftl_spec by lia.
  destruct (Z.lt_ge_cases i 7); [by rewrite Z.testbit_neg_r by lia|].
  rewrite (Z.bits_above_log2 0x60); [apply andb_false_r|done|]. change (Z.log2 0x60) with 6. lia.
Qed.

Lemma lor_ad x y : x &! 0x60 = 0 -> y &! 0x60 = 0 -> (x |! y) &! 0x60 = 0.
Proof. intros Hx Hy. by rewrite Z.land_lor_distr_l, Hx, Hy. Qed.

(** ** The walk does not depend on them *)
Definition level_ad (l : level) : Prop :=
  lv_reserved l &! 0x60 = 0 /\ lv_reserved_large l &! 0x60 = 0 /\ 12 <= lv_shift l.

Lemma reserved_high_ad c : reserved_high c &! 0x60 = 0.
Proof. apply lor_ad; [by apply shiftl_ad|]. destruct (w_nxe c); [done|by apply shiftl_ad]. Qed.

Lemma levels_ad c : Forall level_ad (paging_levels c).
Proof.
  pose proof (reserved_high_ad c).
  assert (reserved_legacy c &! 0x60 = 0) by (by apply lor_ad, shiftl_ad).
  unfold paging_levels. destruct (w_pae c), (w_lme c); repeat constructor; cbn [lv_reserved lv_reserved_large lv_shift];
    try done; try (by apply shiftl_ad). by apply lor_ad; [apply lor_ad|apply shiftl_ad].
Qed.

(** Two memories whose entries differ in accessed and dirty bits. *)
Definition same_entries (c : walk_ctx) (rd rd' : Z -> Z -> option Z) : Prop :=
  forall a, a mod entry_size c = 0 ->
    match rd a (entry_size c), rd' a (entry_size c) with
    | Some e, Some e' => exists k, ad_mask k /\ e' = e |! k
    | None, None => True
    | _, _ => False
    end.

Lemma entry_addr_ad c e k : ad_mask k -> entry_addr c (e |! k) = entry_addr c e.
Proof. intros Hk. apply ad_land; [done|]. by apply shiftl_ad. Qed.

Lemma add_rights_ad l e k r : ad_mask k -> add_rights l (e |! k) r = add_rights l e r.
Proof.
  intros Hk. unfold add_rights, pe_writable, pe_user, pe_exb. by rewrite !ad_testbit.
Qed.

Lemma walk_same_entries c rd rd' ls table r :
  same_entries c rd rd' -> Forall level_ad ls -> table mod entry_size c = 0 ->
  walk c rd' ls table r = walk c rd ls table r.
Proof.
  intros Hs Hl. revert table r. induction Hl as [|l ls (Hr & Hrl & _) _ IH]; intros table r Ht; [done|].
  cbn [walk]. set (i := _ mod 2 ^ lv_width l).
  specialize (Hs (table + i * entry_size c)). rewrite Z_mod_plus_full in Hs. specialize (Hs Ht).
  destruct (rd _ _) as [e|], (rd' _ _) as [e'|]; try done. destruct Hs as (k & Hk & ->).
  unfold pe_present, pe_page_size. rewrite !(ad_testbit e k) by done.
  destruct (Z.testbit e 0); [|done]. cbn [negb].
  rewrite ad_bit_set, add_rights_ad, entry_addr_ad; [|done..|].
  - rewrite IH; [done|]. apply page_entry_mod. apply entry_addr_range.
  - apply lor_ad; [done|]. by destruct (_ && _)%bool.
Qed.

(** ** One page *)
Definition shift_outcome (d : Z) (o : outcome) : outcome :=
  match o with Translated gpa order => Translated (gpa + d) order | o => o end.

Definition move_va (d : Z) (c : walk_ctx) : walk_ctx :=
  WalkCtx (w_nxe c) (w_lme c) (w_wp c) (w_pae c) (w_pse c) (w_write c) (w_user c) (w_fetch c)
    (w_set_ad_bits c) (w_access c) (w_virt_addr c + d) (w_rsvd c).

Lemma same_page_div va d s : 12 <= s -> 0 <= va -> 0 <= d -> va mod 4096 + d < 4096 ->
  (va + d) / 2 ^ s = va / 2 ^ s /\ (va + d) mod 2 ^ s = va mod 2 ^ s + d.
Proof.
  intros Hs Hva Hd Hp. replace s with (12 + (s - 12)) by lia. rewrite Z.pow_add_r by lia.
  change (2 ^ 12) with 4096. set (n := 2 ^ (s - 12)). assert (0 < n) by (apply Z.pow_pos_nonneg; lia).
  pose proof (Z.div_mod va 4096 ltac:(lia)) as Hm. pose proof (Z.mod_pos_bound va 4096 ltac:(lia)).
  assert (Hq : (va + d) / 4096 = va / 4096) by (symmetry; apply (Z.div_unique _ _ _ (va mod 4096 + d)); lia).
  assert (Hdiv : (va + d) / (4096 * n) = va / (4096 * n)) by (rewrite <- !Z.div_div by lia; by rewrite Hq).
  split; [done|]. rewrite !Z.mod_eq by lia. rewrite Hdiv. lia.
Qed.

Lemma walk_same_page c rd ls table r d :
  Forall level_ad ls -> 0 <= w_virt_addr c -> 0 <= d -> w_virt_addr c mod 4096 + d < 4096 ->
  walk (move_va d c) rd ls table r = shift_outcome d (walk c rd ls table r).
Proof.
  intros Hl Hva Hd Hp. revert table r. induction Hl as [|l ls (_ & _ & Hs) _ IH]; intros table r; [done|].
  destruct (same_page_div _ d (lv_shift l) Hs Hva Hd Hp) as [Hq Hm].
  cbn [walk]. change (w_virt_addr (move_va d c)) with (w_virt_addr c + d). rewrite Hq, Hm.
  change (entry_size (move_va d c)) with (entry_size c). destruct (rd _ _) as [e|]; [|done].
  destruct (negb _); [done|]. destruct (bit_set _ _); [done|].
  change (allowed (move_va d c)) with (allowed c). change (entry_addr (move_va d c)) with (entry_addr c).
  destruct (_ || _)%bool; [|apply IH]. destruct (allowed _ _); [|done]. cbn. f_equal. lia.
Qed.

Lemma translate_same_page c cr3 rd d :
  0 <= w_virt_addr c -> 0 <= d -> w_virt_addr c mod 4096 + d < 4096 ->
  translate (move_va d c) cr3 rd = shift_outcome d (translate c cr3 rd).
Proof. intros. by apply walk_same_page; [apply levels_ad|..]. Qed.

(** ** Memory in which accessed and dirty bits have been set *)
Section Memory.
Context {HH : Host} {E : Type}.
Notation st := (hax_gpa_space E).
Implicit Types (g : st) (c : walk_ctx).

(** Guest frames lie at page-aligned addresses of user space. *)
Definition frames_aligned g : Prop :=
  forall gfn u ro, gfn_uva g gfn = Some (u, ro) -> u mod 4096 = 0.

Lemma uva_aligned g c gpa x : frames_aligned g -> gpa_uva g gpa = Some x ->
  x mod entry_size c = gpa mod entry_size c.
Proof.
  intros Hf. unfold gpa_uva. destruct (gfn_uva g (gpa / 4096)) as [[u ro]|] eqn:Hu; [|done].
  intros [= <-]. pose proof (page_entry_mod c u (Hf _ _ _ Hu)) as Hu0.
  assert (Hz : entry_size c <> 0) by (unfold entry_size; by destruct (w_pae c)).
  rewrite Z.add_mod, Hu0, Z.add_0_l, Z.mod_mod by done.
  pose proof (Z.div_mod gpa 4096 ltac:(lia)) as Hd.
  rewrite Hd at 2. rewrite Z.add_mod by done. rewrite (page_entry_mod c (4096 * (gpa / 4096))).
  - by rewrite Z.add_0_l, Z.mod_mod.
  - rewrite Z.mul_comm. by apply Z.mod_mul.
Qed.

Lemma le_word_lor b bs k : 0 <= b < 256 -> ad_mask k ->
  le_word ((b |! k) :: bs) = le_word (b :: bs) |! k.
Proof.
  intros Hb Hk. destruct (lor_byte b k Hb Hk) as [Hk2 Hbk]. cbn [le_word].
  set (w := le_word bs). destruct (lor_low (b + 256 * w) k Hk2) as [Hm Hd].
  rewrite (Z.mul_comm 256) in Hm, Hd |- *. rewrite Z_mod_plus_full, (Z.mod_small b) in Hm by done.
  rewrite Z_div_plus_full, (Z.div_small b), Z.add_0_l in Hd by lia.
  rewrite (Z.div_mod ((b + w * 256) |! k) 256) by lia. rewrite Hm, Hd. lia.
Qed.

Lemma umem_bytes_ext m m' a n :
  (forall i, 0 <= i < Z.of_nat n -> umem_read m' (a + i) = umem_read m (a + i)) ->
  umem_bytes m' a n = umem_bytes m a n.
Proof.
  revert a. induction n as [|n IH]; intros a Hr; [done|]. cbn. f_equal.
  - specialize (Hr 0). rewrite !Z.add_0_r in Hr. apply Hr. lia.
  - apply IH. intros i Hi. replace (a + 1 + i) with (a + (1 + i)) by lia. apply Hr. lia.
Qed.

Lemma same_entries_ad c g g' :
  same_view g g' -> frames_aligned g -> bytes_ok (gs_umem g) ->
  ad_change (entry_byte c g) (gs_umem g) (gs_umem g') ->
  same_entries c (guest_word g) (guest_word g').
Proof.
  intros (_ & Hu & _) Hf Hb Had a Ha.
  assert (Hua : gpa_uva g' a = gpa_uva g a) by (unfold gpa_uva; by rewrite Hu).
  unfold guest_word. rewrite Hua. destruct (gpa_uva g a) as [u|] eqn:Hg; [|done].
  pose proof (uva_aligned g c a u Hf Hg) as Hm. rewrite Ha in Hm.
  assert (Hsz : entry_size c = 8 \/ entry_size c = 4) by (unfold entry_size; destruct (w_pae c); auto).
  destruct (Z.to_nat (entry_size c)) as [|n] eqn:Hn; [lia|]. cbn [umem_bytes].
  assert (Hext : umem_bytes (gs_umem g') (u + 1) n = umem_bytes (gs_umem g) (u + 1) n).
  { apply umem_bytes_ext. intros i Hi. destruct (Had (u + 1 + i)) as (k & _ & [-> | Hk] & ->);
      [apply Z.lor_0_r|]. destruct Hk as (gpa & Hgpa & Hmod).
    pose proof (uva_aligned g c gpa _ Hf Hgpa) as Hmm. rewrite Hmod in Hmm. exfalso.
    replace (u + 1 + i) with ((1 + i) + u) in Hmm by lia.
    rewrite Z.add_mod, Hm, Z.add_0_r, Z.mod_mod in Hmm by lia.
    rewrite Z.mod_small in Hmm by lia. lia. }
  rewrite Hext. destruct (Had u) as (k & Hk & _ & ->). exists k. split; [done|].
  apply le_word_lor; [by apply umem_read_ok|done].
Qed.

Lemma translate_ad c cr3 g g' :
  0 <= cr3 < 2 ^ 64 -> same_view g g' -> frames_aligned g -> bytes_ok (gs_umem g) ->
  ad_change (entry_byte c g) (gs_umem g) (gs_umem g') ->
  translate c cr3 (guest_word g') = translate c cr3 (guest_word g).
Proof.
  intros Hcr Hv Hf Hb Had. apply walk_same_entries; [by apply same_entries_ad|apply levels_ad|].
  destruct (table_root_ok c cr3 Hcr) as (_ & H32 & _).
  apply Z.mod_divide in H32 as [q ->]; [|done]. apply Z.mod_divide.
  - unfold entry_size. by destruct (w_pae c).
  - apply Z.divide_mul_r. unfold entry_size. destruct (w_pae c); [by exists 4|by exists 8].
Qed.
End Memory.

Section Virtual.
Context {HH : Host} {E : Type} (same_kva : Z -> Z -> bool).
Notation space := (hax_gpa_space E).
Notation st := (mmio_vcpu E).
Implicit Types (g : space) (v : st).

Definition paging v : bool := bit_set (pr_cr0 (mv_regs v)) CR0_PG.
Definition ctx v (va access : Z) (upd : bool) : walk_ctx :=
  walk_context (mv_regs v) va access upd false.

(** The translation of a virtual address. *)
Definition va_outcome v (va access : Z) (upd : bool) : outcome :=
  if paging v then translate (ctx v va access upd) (pr_cr3 (mv_regs v)) (guest_word (mv_space v))
  else Translated va 12.

Record mmio_inv v : Prop := {
  mi_space : space_inv (mv_space v);
  mi_bytes : bytes_ok (gs_umem (mv_space v));
  mi_cr3 : 0 <= pr_cr3 (mv_regs v) < 2 ^ 64;
  mi_mode : w_lme (ctx v 0 0 false) = true -> w_pae (ctx v 0 0 false) = true;
  mi_frames : frames_aligned (mv_space v);
}.

(** What the walker needs of an address. *)
Definition walkable v (va access : Z) (upd : bool) : Prop :=
  paging v = true ->
  pae_pdpte_loaded (ctx v va access upd) (pr_cr3 (mv_regs v)) (mv_space v) /\
  ad_fits (ctx v va access upd).

(** The page table entry of an address is absent: an assertion of the walker fails. *)
Definition absent_pte v (va access : Z) (upd : bool) : Prop :=
  va_outcome v va access upd = Absent true.

(** The states that differ by walks. *)
Definition moved (upd : bool) v g' : Prop := effect (ctx v 0 0 upd) (mv_space v) g'.

Lemma moved_refl upd v : mmio_inv v -> moved upd v (mv_space v).
Proof. intros [Hs Hb _ _ _]. apply effect_quiet; [done|by apply quiet_refl]. Qed.

Lemma moved_trans upd v g' g'' :
  moved upd v g' -> moved upd (set_mv_space g' v) g'' -> moved upd v g''.
Proof. apply effect_trans. Qed.

Lemma moved_quiet upd v g' : mmio_inv v -> quiet (mv_space v) g' -> moved upd v g'.
Proof. intros Hi. apply effect_quiet, Hi. Qed.

Lemma moved_inv upd v g' : mmio_inv v -> moved upd v g' -> mmio_inv (set_mv_space g' v).
Proof.
  intros [Hs Hb Hc Hm Hf] (Hv & Hb' & _). split; try done; [apply Hv|].
  intros gfn u ro. cbn. rewrite (proj1 (proj2 Hv)). apply Hf.
Qed.

Lemma moved_entries upd v g' va access : mmio_inv v -> moved upd v g' ->
  same_entries (ctx v va access upd) (guest_word (mv_space v)) (guest_word g').
Proof.
  intros [Hs Hb Hc Hm Hf] (Hv & Hb' & He). cbn [w_set_ad_bits ctx walk_context] in He.
  apply same_entries_ad; try done. destruct upd; [exact He|]. rewrite He. apply ad_change_refl.
Qed.

Lemma moved_outcome upd v g' va access : mmio_inv v -> moved upd v g' ->
  va_outcome (set_mv_space g' v) va access upd = va_outcome v va access upd.
Proof.
  intros Hi (Hv & Hb' & He). unfold va_outcome, paging. cbn [mv_regs set_mv_space].
  destruct (bit_set _ _); [|done]. destruct Hi as [Hs Hb Hc Hm Hf].
  apply translate_ad; try done. cbn [w_set_ad_bits ctx walk_context] in He.
  destruct upd; [exact He|]. cbn. rewrite He. apply ad_change_refl.
Qed.

Lemma moved_walkable upd v g' va access : mmio_inv v -> moved upd v g' ->
  walkable v va access upd -> walkable (set_mv_space g' v) va access upd.
Proof.
  intros Hi Hmv Hw Hp. destruct (Hw Hp) as (Hl & Hf).
  split; [|done]. intros Hpae Hlme e. cbn [mv_space set_mv_space mv_regs] in *.
  pose proof (moved_entries upd v g' va access Hi Hmv) as Hse.
  set (c := ctx v va access upd) in *. set (a := _ + _).
  assert (Hes : entry_size c = 8) by (unfold entry_size; change (w_pae c = true) in Hpae; by rewrite Hpae).
  specialize (Hse a). rewrite Hes in Hse.
  assert (Ha : a mod 8 = 0).
  { destruct (table_root_ok c (pr_cr3 (mv_regs v)) (mi_cr3 _ Hi)) as (_ & H32 & _).
    subst a. rewrite Z_mod_plus_full. change (table_root _ _) with (table_root c (pr_cr3 (mv_regs v))).
    apply Z.mod_divide in H32 as [q ->]; [|done]. apply Z.mod_divide; [done|].
    apply Z.divide_mul_r. by exists 4. }
  specialize (Hse Ha). specialize (Hl Hpae Hlme). fold a in Hl.
  destruct (guest_word (mv_space v) a 8) as [e0|] eqn:He0, (guest_word g' a 8) as [e1|]; try done.
  destruct Hse as (k & Hk & ->). intros [= <-]. unfold pe_page_size. rewrite ad_testbit by done.
  by apply Hl.
Qed.

(** ** Translation *)
Definition fault_code (o : outcome) (access : Z) : option Z :=
  match o with
  | Absent false => Some (TF_FAILED |! access)
  | Reserved => Some (TF_FAILED |! TF_PROTECT |! TF_RSVD |! access)
  | Denied => Some (TF_FAILED |! TF_PROTECT |! access)
  | _ => None
  end.

(** The error codes: that of the outcome, or a table that the host could not map. *)
Definition walk_fault v (va access : Z) (upd : bool) (r : Z) : Prop :=
  r <> 0 /\ (r = TF_FAILED /\ refused (mv_space v) \/ fault_code (va_outcome v va access upd) access = Some r).

Lemma lor_nonzero a b : 0 < a -> 0 <= b -> a |! b <> 0.
Proof. intros Ha Hb H. apply Z.lor_eq_0_iff in H. lia. Qed.

Lemma limit_len_val va len : 0 <= va -> 0 < len -> limit_len va len = Z.min len (4096 - va mod 4096).
Proof.
  intros Hva Hl. unfold limit_len, PG_ORDER_4K. change (Z.shiftl 1 12) with 4096.
  change (4096 - 1) with (Z.ones 12). rewrite Z.land_ones by lia. change (2 ^ 12) with 4096.
  rewrite (proj2 (Z.eqb_neq len 0)) by lia. cbn [orb].
  destruct (Z.ltb_spec (4096 - va mod 4096) len); lia.
Qed.

Lemma bind_stuck {S A B} (m : M S A) (k : A -> M S B) s : m s = None -> (m ≫= k) s = None.
Proof. intros H. unfold mbind, M_bind. by rewrite H. Qed.

Lemma translate_rule va access len upd v :
  mmio_inv v -> 0 <= access -> walkable v va access upd ->
  vcpu_translate same_kva va access len upd v = None /\ absent_pte v va access upd \/
  exists r gpa g', vcpu_translate same_kva va access len upd v =
      Some ((r, gpa, if r =? 0 then limit_len va <$> len else len), set_mv_space g' v) /\
    moved upd v g' /\
    ((r = 0 /\ exists order, va_outcome v va access upd = Translated gpa order) \/
     walk_fault v va access upd r).
Proof.
  intros Hi Ha Hw. unfold vcpu_translate. rewrite gets_run. unfold translate_mode, vcpu_get_pagemode.
  fold (paging v). unfold walk_fault, absent_pte, va_outcome. destruct (paging v) eqn:Hp; cbn [negb].
  - replace (_ =? PM_FLAT) with false by (by repeat case_match).
    destruct (Hw Hp) as (Hl & Hf).
    pose proof (page_walk_total same_kva (mv_regs v) va access upd false (mv_space v) (mi_space _ Hi)
      (mi_bytes _ Hi) (mi_cr3 _ Hi) (mi_mode _ Hi) Hl Hf) as Ht.
    destruct (pw_perform_page_walk _ _ _ _ _ _ _) as [[res g']|] eqn:Hrun; cbn in Ht.
    2: { left. split; [|exact Ht]. apply bind_stuck. rewrite gets_run. unfold in_space, mbind, M_bind. by rewrite Hrun. }
    destruct Ht as [He Hr]. right.
    rewrite (bind_run _ _ v (wr_ret res, wr_gpa res) (set_mv_space g' v)).
    2: { rewrite gets_run. unfold in_space. unfold mbind, M_bind. by rewrite Hrun. }
    exists (wr_ret res), (wr_gpa res), g'. split; [done|]. split; [exact He|]. fold (ctx v va access upd) in *.
    destruct Hr as [[Hr Hrf]|Hr]; [right; split; [by rewrite Hr|by left]|].
    unfold reports in Hr. change (w_access (ctx v va access upd)) with access in Hr.
    assert (Hnz : forall b, 0 <= b -> TF_FAILED |! b <> 0) by (intros; by apply lor_nonzero).
    destruct (translate _ _ _) as [| last| | |gpa order]; try done.
    + destruct Hr as [-> ->]. right. split; [by apply Hnz|by right].
    + rewrite Hr. right. split; [|by right]. rewrite <- !Z.lor_assoc. apply Hnz.
      by rewrite !Z.lor_nonneg.
    + rewrite Hr. right. split; [|by right]. rewrite <- !Z.lor_assoc. apply Hnz.
      by rewrite !Z.lor_nonneg.
    + destruct Hr as (-> & -> & _). left. split; [done|by eexists].
  - right. exists 0, va, (mv_space v). split; [by destruct v|]. split; [by apply moved_refl|].
    left. split; [done|by eexists].
Qed.

(** ** Bytes *)
(** The byte [b] is that at guest physical address [gpa], up to accessed and dirty bits if
    the walks may set them. *)
Definition byte_seen g (upd : bool) (gpa b : Z) : Prop :=
  exists b0, guest_byte g gpa = Some b0 /\
    if upd then exists k, ad_mask k /\ b = b0 |! k else b = b0.

Lemma moved_byte upd v g' gpa b : moved upd v g' -> guest_byte g' gpa = Some b ->
  byte_seen (mv_space v) upd gpa b.
Proof.
  intros (Hv & _ & He). unfold byte_seen, guest_byte. rewrite (same_view_gpa _ _ gpa Hv).
  destruct (gpa_uva _ _) as [u|]; [|done]. cbn. intros [= <-]. eexists. split; [done|].
  destruct upd; cbn in He; [|by rewrite He]. destruct (He u) as (k & Hk & _ & ->). by exists k.
Qed.

(** Byte [i] of the data is the byte at the translation of [addr + i]. *)
Definition data_seen v (access addr : Z) (upd : bool) (data : list Z) : Prop :=
  forall i b, data !! i = Some b -> exists gpa order,
    va_outcome v (addr + Z.of_nat i) access upd = Translated gpa order /\
    byte_seen (mv_space v) upd gpa b.

Lemma data_seen_app v access addr upd d1 d2 :
  data_seen v access addr upd d1 -> data_seen v access (addr + Z.of_nat (length d1)) upd d2 ->
  data_seen v access addr upd (d1 ++ d2).
Proof.
  intros H1 H2 i b Hi. apply lookup_app_Some in Hi as [Hi|[Hle Hi]]; [by apply H1|].
  destruct (H2 _ _ Hi) as (gpa & order & Ho & Hb). exists gpa, order. split; [|done].
  rewrite <- Ho. f_equal. lia.
Qed.

Lemma va_outcome_page v va access upd d : 0 <= va -> 0 <= d -> va mod 4096 + d < 4096 ->
  va_outcome v (va + d) access upd = shift_outcome d (va_outcome v va access upd).
Proof.
  intros Hva Hd Hp. unfold va_outcome. destruct (paging v); [|done].
  exact (translate_same_page (ctx v va access upd) _ _ d Hva Hd Hp).
Qed.

Lemma walk_range c rd ls table r gpa order :
  Forall (fun l => 0 <= lv_shift l <= 39) ls -> walk c rd ls table r = Translated gpa order ->
  0 <= gpa < 2 ^ 64.
Proof.
  intros Hl. revert table r. induction Hl as [|l ls Hs _ IH]; intros table r; [done|]. cbn [walk].
  destruct (rd _ _) as [e|]; [|done]. destruct (negb _); [done|]. destruct (bit_set _ _); [done|].
  destruct (_ || _)%bool; [|apply IH]. destruct (allowed _ _); [|done]. intros [= <- _].
  destruct (entry_addr_range c e) as [He _].
  assert (0 < 2 ^ lv_shift l <= 2 ^ 39) by (split; [|apply Z.pow_le_mono_r]; lia).
  set (p := 2 ^ lv_shift l) in *. clearbody p.
  pose proof (Z.mod_pos_bound (w_virt_addr c) p ltac:(lia)).
  pose proof (Z.mul_div_le (entry_addr c e) p ltac:(lia)). pose proof (Z.div_pos (entry_addr c e) p).
  set (q := entry_addr c e / p) in *. clearbody q. nia.
Qed.

Lemma va_outcome_range v va access upd gpa order : 0 <= va < 2 ^ 64 ->
  va_outcome v va access upd = Translated gpa order -> 0 <= gpa < 2 ^ 64.
Proof.
  intros Hva. unfold va_outcome. destruct (paging v); [|by intros [= <- _]].
  apply walk_range. unfold paging_levels. repeat case_match; repeat constructor; cbn; lia.
Qed.

Lemma refused_view g g' : same_view g g' -> refused g' -> refused g.
Proof.
  intros Hv (gfn & g1 & k & w & g2 & Hv1 & Hr). exists gfn, g1, k, w, g2.
  split; [by eapply same_view_trans|done].
Qed.

Lemma walk_fault_moved upd v g' va access r : mmio_inv v -> moved upd v g' ->
  walk_fault (set_mv_space g' v) va access upd r -> walk_fault v va access upd r.
Proof.
  intros Hi Hmv [Hr [[? Hf]|Hf]]; (split; [done|]).
  - left. split; [done|]. by eapply refused_view; [apply Hmv|].
  - right. by rewrite moved_outcome in Hf.
Qed.

(** The host refuses access to translated memory, or there is none. *)
Definition read_refused v (access va : Z) (upd : bool) : Prop :=
  exists gpa order len g1 r d g2, va_outcome v va access upd = Translated gpa order /\ 0 < len /\
    same_view (mv_space v) g1 /\ gpa_space_read_data gpa len g1 = Some ((r, d), g2) /\ r <= 0.

(** The outcome of a read. *)
Definition read_post v (addr size flag ret : Z) (data : list Z) v' : Prop :=
  let upd := negb (flag =? 2) in
  let n := Z.of_nat (length data) in
  data_seen v 0 addr upd data /\ exists g', moved upd v g' /\
  ((n = size /\ ret = (if flag =? 0 then 1 else size) /\ v' = set_mv_space g' v) \/
   (n < size /\ exists code, walk_fault v (addr + n) 0 upd code /\
      if flag =? 0 then
        ret = 0 /\ exists i, hax_inject_page_fault (code &! 0x1f) (mv_intr v) = Some (tt, i) /\
          v' = set_mv_intr i (set_mv_cr2 (addr + n) (set_mv_space g' v))
      else ret = n /\ v' = set_mv_space g' v) \/
   (n < size /\ read_refused v 0 (addr + n) upd /\ ret = 0 /\
    v' = set_mv_panicked true (set_mv_space g' v))).

Lemma inject_page_fault_run e (i : vcpu_t) : exists i', hax_inject_page_fault e i = Some (tt, i').
Proof.
  unfold hax_inject_page_fault, hax_inject_exception. change (VECTOR_PF =? VECTOR_PF) with true.
  unfold mbind, M_bind, get, modify, mret, M_ret. cbn beta iota. repeat case_match; simplify_eq; by eexists.
Qed.

Lemma bind_in_space {A B} (m : M space A) (k : A -> M st B) v a g' :
  m (mv_space v) = Some (a, g') -> (in_space m ≫= k) v = k a (set_mv_space g' v).
Proof. intros H. unfold mbind, M_bind, in_space. by rewrite H. Qed.

(** The outcome of a read, or of one that stops at an absent entry: byte [n] has it, and
    the bytes before were read. *)
Definition read_result v (addr size flag : Z) (res : option ((Z * list Z) * st)) : Prop :=
  let upd := negb (flag =? 2) in
  match res with
  | Some ((ret, data), v') => read_post v addr size flag ret data v'
  | None => exists data, Z.of_nat (length data) < size /\ data_seen v 0 addr upd data /\
              absent_pte v (addr + Z.of_nat (length data)) 0 upd
  end.

(** One iteration: from a state reached by walks, with [n] bytes read. *)
Lemma read_loop_rule fuel addr size flag v g dst :
  let upd := negb (flag =? 2) in
  mmio_inv v -> moved upd v g -> 0 <= addr -> addr + size <= 2 ^ 64 -> size < 2 ^ 31 ->
  (forall i, 0 <= i < size -> walkable v (addr + i) 0 upd) ->
  Z.of_nat (length dst) <= size -> size - Z.of_nat (length dst) < Z.of_nat fuel ->
  data_seen v 0 addr upd dst ->
  read_result v addr size flag
    (read_virtual_loop same_kva fuel addr size flag (Z.of_nat (length dst)) dst (set_mv_space g v)).
Proof.
  intros upd Hi Hg Ha Hsz Hs31 Hw. revert g dst Hg.
  induction fuel as [|fuel IH]; intros g dst Hg Hn Hf Hd; [lia|]. cbn [read_virtual_loop].
  set (n := Z.of_nat (length dst)) in *.
  destruct (Z.ltb_spec n size) as [Hlt|Hge].
  2: { split; [done|]. exists g. split; [done|]. left.
       fold n. split_and!; [lia| |done]. by destruct (flag =? 0). }
  rewrite u64_small by lia. set (v1 := set_mv_space g v).
  pose proof (moved_inv _ _ _ Hi Hg) as Hi1. fold v1 in Hi1.
  pose proof (moved_walkable _ _ _ _ _ Hi Hg (Hw n ltac:(lia))) as Hw1. fold v1 in Hw1.
  destruct (translate_rule (addr + n) 0 (Some (size - n)) upd v1 Hi1 ltac:(lia) Hw1)
    as [[Hrun Habs]|(r & gpa & g1 & Hrun & Hg1 & Hr)].
  { fold upd. rewrite bind_stuck by done. exists dst. split; [done|]. split; [done|].
    unfold absent_pte, v1 in Habs. by rewrite moved_outcome in Habs. }
  fold upd. rewrite (bind_run _ _ _ _ _ Hrun). cbv beta iota.
  pose proof (moved_trans _ _ _ _ Hg Hg1) as Hg2. change (set_mv_space g1 v1) with (set_mv_space g1 v).
  destruct Hr as [[-> [order Ho]]|Hfault].
  2: { pose proof (walk_fault_moved _ _ _ _ _ _ Hi Hg Hfault) as Hf1.
       rewrite (proj2 (Z.eqb_neq r 0)) by apply Hfault. cbn [negb].
       destruct (flag =? 0) eqn:Hfl; cbn [negb].
       - destruct (inject_page_fault_run (r &! 0x1f) (mv_intr v)) as [i Hinj].
         erewrite (bind_run _ _ _ tt (set_mv_intr i (set_mv_cr2 (addr + n) (set_mv_space g1 v)))).
         + split; [done|]. exists g1. split; [done|]. right. left. fold n. split; [done|].
           exists r. rewrite Hfl. eauto.
         + unfold inject_fault, in_intr, modify, mbind, M_bind. cbn. by rewrite Hinj.
       - split; [done|]. exists g1. split; [done|].
         right. left. fold n. split; [done|]. exists r. rewrite Hfl. eauto. }
  cbn [Z.eqb negb]. rewrite (of_option_run _ (limit_len (addr + n) (size - n))) by done.
  rewrite limit_len_val by lia. pose proof (Z.mod_pos_bound (addr + n) 4096 ltac:(lia)).
  set (len := Z.min _ _).
  assert (Hlim : 0 < len <= size - n /\ (addr + n) mod 4096 + len <= 4096) by lia. clearbody len.
  rewrite s32_id by lia.
  pose proof (va_outcome_range v1 (addr + n) _ _ _ _ ltac:(lia) Ho) as Hgpa.
  pose proof Ho as Ho0. unfold v1 in Ho0. rewrite moved_outcome in Ho0 by done.
  destruct (read_data_rule gpa len g1 (proj1 (proj1 Hg1)) Hgpa ltac:(lia))
    as (ret & data & g2 & Hrun2 & Hv2 & Hum2 & Hle & Hdata).
  rewrite (bind_in_space _ _ (set_mv_space g1 v) _ _ Hrun2). cbv beta iota.
  change (set_mv_space g2 (set_mv_space g1 v)) with (set_mv_space g2 v).
  assert (Hg3 : moved upd v g2).
  { eapply moved_trans; [exact Hg2|]. apply moved_quiet; [by apply (moved_inv upd)|done]. }
  destruct (Z.leb_spec ret 0) as [Hneg|Hpos].
  { split; [done|]. exists g2. split; [done|].
    right. right. fold n. split_and!; try done.
    exists gpa, order, len, g1, ret, data, g2. split_and!; try done; [lia|apply Hg2]. }
  destruct (Hdata Hpos) as [Hlen Hbytes].
  rewrite u32_small by lia.
  replace (n + ret) with (Z.of_nat (length (dst ++ data))) by (rewrite length_app; lia).
  apply IH; [done|rewrite length_app; lia|rewrite length_app; lia|].
  apply data_seen_app; [done|]. fold n. intros i b Hb.
  pose proof (lookup_lt_Some _ _ _ Hb).
  exists (gpa + Z.of_nat i), order. split.
  - rewrite va_outcome_page, Ho0 by lia. done.
  - eapply moved_byte; [exact Hg2|]. by apply Hbytes.
Qed.

Lemma read_rule addr size flag v :
  let upd := negb (flag =? 2) in
  mmio_inv v -> flag = 0 \/ flag = 2 -> 0 <= addr -> 0 <= size < 2 ^ 31 -> addr + size <= 2 ^ 64 ->
  (forall i, 0 <= i < size -> walkable v (addr + i) 0 upd) ->
  read_result v addr size flag (vcpu_read_guest_virtual same_kva addr size flag v).
Proof.
  intros upd Hi Hfl Ha Hs Hsum Hw. unfold vcpu_read_guest_virtual.
  rewrite assert_run by (by destruct Hfl as [-> | ->]).
  pose proof (read_loop_rule (S (Z.to_nat size)) addr size flag v (mv_space v) []) as H.
  replace (set_mv_space (mv_space v) v) with v in H by (by destruct v).
  apply H; try done; try lia; [by apply moved_refl|cbn; lia].
Qed.
End Virtual.
