(* ===== verification/MmioProps.v ===== *)
(** * Correctness of guest virtual accesses

    Reads of guest virtual memory give the bytes of the reference translation, and the
    instruction fetch gives those bytes too, from the cached page where there is one. *)

From stdpp Require Import base numbers list gmap.
From Stdlib Require Import ZArith Lia.
From S2P Require Import IntrExc IntrProps Prelude HaxList MemTypes Memslot MemslotSpec.
From S2P Require Import MemslotCorrect SimpleHost MemslotProps GpaSpace GpaAccess PageWalker PageWalkSpec.
From S2P Require Import PageWalkProof PageWalkProps Mmio MmioProof.
#[local] Open Scope Z_scope.

(** A translation keeps the offset in the page. *)
Lemma walk_offset c rd ls table r gpa order :
  Forall level_ad ls -> walk c rd ls table r = Translated gpa order ->
  gpa mod 4096 = w_virt_addr c mod 4096.
Proof.
  intros Hl. revert table r. induction Hl as [|l ls (_ & _ & Hs) _ IH]; intros table r; [done|].
  cbn [walk]. destruct (rd _ _) as [e|]; [|done]. destruct (negb _); [done|].
  destruct (bit_set _ _); [done|]. destruct (_ || _)%bool; [|apply IH].
  destruct (allowed _ _); [|done]. intros [= <- _].
  replace (lv_shift l) with (12 + (lv_shift l - 12)) by lia. rewrite Z.pow_add_r by lia.
  change (2 ^ 12) with 4096. set (n := 2 ^ (lv_shift l - 12)).
  assert (0 < n) by (apply Z.pow_pos_nonneg; lia).
  rewrite (Z.mul_comm 4096 n), Z.mul_assoc, Z.add_comm, Z_mod_plus_full, (Z.mul_comm n 4096).
  rewrite Z.rem_mul_r by lia. rewrite Z.add_comm, (Z.mul_comm 4096), Z.add_comm, Z_mod_plus_full.
  by rewrite Z.mod_mod.
Qed.

Section Fetch.
Context {HH : Host} {E : Type} (same_kva : Z -> Z -> bool).
Notation st := (mmio_vcpu E).
Implicit Types v : st.

Definition page_of (gva : Z) : Z := gva / 4096 * 4096.

(** The host maps the page of [gva] at [kva]. *)
Definition page_at v (gva kva : Z) : Prop :=
  exists gpa order, va_outcome v (page_of gva) 0 true = Translated gpa order /\
    forall i, 0 <= i < 4096 -> gpa_uva (mv_space v) (gpa + i) = Some (kva + i).

(** The cached page is that of its virtual address, for the address space of its CR3. *)
Definition fetch_fresh v : Prop :=
  let f := mv_mmio_fetch v in
  forall kva, mf_kva f = Some kva -> is_Some (mf_kmap f) /\
    (pr_cr3 (mv_regs v) = mf_last_guest_cr3 f -> page_at v (mf_last_gva f) kva).

Lemma page_at_moved v g' gva kva : mmio_inv v -> moved true v g' -> page_at v gva kva ->
  page_at (set_mv_space g' v) gva kva.
Proof.
  intros Hi Hm (gpa & order & Ho & Hp). exists gpa, order. rewrite moved_outcome by done.
  split; [done|]. intros j Hj. cbn. rewrite (same_view_gpa _ _ _ (proj1 Hm)). by apply Hp.
Qed.

Lemma va_offset v va access upd gpa order :
  va_outcome v va access upd = Translated gpa order -> gpa mod 4096 = va mod 4096.
Proof.
  unfold va_outcome. destruct (paging v); [|by intros [= <- _]].
  intros H. exact (walk_offset _ _ _ _ _ _ _ (levels_ad _) H).
Qed.

Lemma page_of_bounds gva : page_of gva <= gva < page_of gva + 4096 /\ page_of gva mod 4096 = 0 /\
  gva - page_of gva = gva mod 4096.
Proof.
  unfold page_of. pose proof (Z.div_mod gva 4096 ltac:(lia)).
  pose proof (Z.mod_pos_bound gva 4096 ltac:(lia)). rewrite Z.mod_mul by lia. lia.
Qed.

(** Bytes copied from a mapped page. *)
Lemma copy_page_rule v g' gva kva len :
  moved true v g' -> page_at v gva kva -> 0 <= gva -> 0 < len -> gva mod 4096 + len <= 4096 ->
  forall f, exists data, copy_page kva gva len (set_mv_fetch f (set_mv_space g' v)) =
      Some (data, set_mv_fetch f (set_mv_space g' v)) /\
    Z.of_nat (length data) = len /\ data_seen v 0 gva true data.
Proof.
  intros Hm (gpa & order & Ho & Hp) Hg Hl Hend f.
  eexists (umem_bytes (gs_umem g') (kva + u32 (gva &! Z.ones PG_ORDER_4K)) (Z.to_nat len)).
  split; [reflexivity|].
  pose proof (Z.mod_pos_bound gva 4096 ltac:(lia)).
  change (Z.ones PG_ORDER_4K) with (Z.ones 12). rewrite Z.land_ones by lia. change (2 ^ 12) with 4096.
  rewrite u32_small by lia. cbn [mv_space set_mv_fetch set_mv_space].
  split; [rewrite umem_bytes_length; lia|]. intros i b Hi.
  pose proof (lookup_lt_Some _ _ _ Hi) as Hlt. rewrite umem_bytes_length in Hlt.
  rewrite umem_bytes_lookup in Hi by done. injection Hi as <-.
  destruct (page_of_bounds gva) as (Hb1 & Hb2 & Hb3).
  set (d := gva mod 4096 + Z.of_nat i). exists (gpa + d), order. split.
  - replace (gva + Z.of_nat i) with (page_of gva + d) by lia.
    assert (0 <= page_of gva) by (unfold page_of; pose proof (Z.div_pos gva 4096); lia).
    rewrite va_outcome_page, Ho by lia. done.
  - eapply moved_byte; [exact Hm|]. unfold guest_byte.
    rewrite (same_view_gpa _ _ _ (proj1 Hm)), Hp by lia. cbn. do 2 f_equal. lia.
Qed.

(** Why a fetch fails: a byte has no translation, or the host does not map its page. *)
Definition fetch_refused v (gva len : Z) : Prop :=
  exists a, page_of gva <= a < gva + len /\
    ((exists code, walk_fault v a 0 true code) \/ read_refused v 0 a true \/ refused (mv_space v)).

(** What a fetch leaves. *)
Definition fetch_post v (gva len ret : Z) (data : list Z) v' : Prop :=
  mv_regs v' = mv_regs v /\ moved true v (mv_space v') /\ fetch_fresh v' /\
  if ret =? 0 then Z.of_nat (length data) = len /\ data_seen v 0 gva true data
  else ret = - ENOMEM /\ fetch_refused v gva len.

(** What a fetch leaves, or the address of an absent entry at which it stops. *)
Definition fetch_result v (gva len : Z) (res : option ((Z * list Z) * mmio_vcpu E)) : Prop :=
  match res with
  | Some ((ret, data), v') => fetch_post v gva len ret data v'
  | None => exists a, page_of gva <= a < gva + len /\ absent_pte v a 0 true
  end.

(** The page and the freshness of the cache depend on the registers and the memory. *)
Lemma page_at_state v v' gva kva : mv_regs v' = mv_regs v -> mv_space v' = mv_space v ->
  page_at v gva kva -> page_at v' gva kva.
Proof. unfold page_at, va_outcome, paging, ctx. by intros -> ->. Qed.

Lemma page_at_after v v' gva kva : mmio_inv v -> mv_regs v' = mv_regs v -> moved true v (mv_space v') ->
  page_at v gva kva -> page_at v' gva kva.
Proof. intros Hi Hr Hm Hp. apply (page_at_state (set_mv_space (mv_space v') v)); [done|done|]. by apply page_at_moved. Qed.

Lemma fetch_fresh_after v v' : mmio_inv v -> mv_regs v' = mv_regs v -> moved true v (mv_space v') ->
  mv_mmio_fetch v' = mv_mmio_fetch v -> fetch_fresh v -> fetch_fresh v'.
Proof.
  intros Hi Hr Hm Hf Hfr kva. rewrite Hf, Hr. intros Hk. destruct (Hfr kva Hk) as [Hs Hp].
  split; [done|]. intros Hcr. apply (page_at_after v); auto.
Qed.

Lemma fetch_fresh_none v : mf_kva (mv_mmio_fetch v) = None -> fetch_fresh v.
Proof. intros H kva. by rewrite H. Qed.

(** The cached page is used, or unmapped. *)
Lemma map_fast_rule gva v : mmio_inv v -> fetch_fresh v ->
  exists r g' f, mmio_map_guest_virtual_page_fast gva v = Some (r, set_mv_fetch f (set_mv_space g' v)) /\
    moved true v g' /\
    match r with
    | Some kva => page_at v gva kva /\ fetch_fresh (set_mv_fetch f (set_mv_space g' v))
    | None => mf_kva f = None
    end.
Proof.
  intros Hi Hf. unfold mmio_map_guest_virtual_page_fast. rewrite (bind_run get _ v v v) by done.
  set (f := mv_mmio_fetch v). destruct (mf_kva f) as [kva|] eqn:Hk.
  2: { exists None, (mv_space v), f. split; [by destruct v|]. split; [by apply moved_refl|done]. }
  destruct (Hf kva Hk) as [Hkm Hp]. fold f in Hkm, Hp. destruct (_ || _)%bool eqn:Hmiss.
  - set (f1 := MmioFetchCache _ _ None _ _).
    destruct (unmap_rule (mf_kmap f) (mv_space v) Hkm (mi_space _ Hi)) as (u & g1 & Hrun & Hq).
    exists None, g1, f1. split; [|split; [by apply moved_quiet|done]].
    erewrite (bind_run (modify _)) by reflexivity. unfold gpa_space_unmap_page.
    erewrite bind_in_space; [reflexivity|]. cbn. by rewrite (bind_run _ _ _ _ _ Hrun).
  - apply orb_false_iff in Hmiss as [Hg Hcr]. apply negb_false_iff, Z.eqb_eq in Hg, Hcr.
    specialize (Hp Hcr). assert (Hpg : page_at v gva kva).
    { unfold page_at in *. replace (page_of gva) with (page_of (mf_last_gva f)); [done|].
      unfold page_of, PG_ORDER_4K in *. rewrite !shiftr_12 in Hg. by rewrite Hg. }
    eexists (Some kva), (mv_space v), _. split; [by destruct v|]. split; [by apply moved_refl|].
    split; [done|]. intros kva' [= <-]. split; [done|]. intros _. by apply (page_at_state v).
Qed.

Lemma page_of_ldiff gva : Z.ldiff gva (Z.ones PG_ORDER_4K) = page_of gva.
Proof. change (Z.ones PG_ORDER_4K) with (2 ^ 12 - 1). by apply align_backward. Qed.

Lemma page_of_range gva : 0 <= gva < 2 ^ 64 -> 0 <= page_of gva < 2 ^ 64.
Proof. intros Hg. destruct (page_of_bounds gva). unfold page_of in *. pose proof (Z.div_pos gva 4096). lia. Qed.

Lemma map_slow_rule gva v : mmio_inv v -> 0 <= gva < 2 ^ 64 -> walkable v (page_of gva) 0 true ->
  mmio_map_guest_virtual_page_slow same_kva gva v = None /\ absent_pte v (page_of gva) 0 true \/
  exists r g' f, mmio_map_guest_virtual_page_slow same_kva gva v =
      Some (r, set_mv_fetch f (set_mv_space g' v)) /\ moved true v g' /\
    mf_kva f = mf_kva (mv_mmio_fetch v) /\
    match r with
    | Some kva => page_at v gva kva /\ is_Some (mf_kmap f)
    | None => (exists code, walk_fault v (page_of gva) 0 true code) \/ refused (mv_space v)
    end.
Proof.
  intros Hi Hg Hw. unfold mmio_map_guest_virtual_page_slow. rewrite page_of_ldiff.
  destruct (translate_rule same_kva (page_of gva) 0 None true v Hi ltac:(lia) Hw)
    as [[Hrun Habs]|(r & gpa & g1 & Hrun & Hm1 & Hr)]; [left; by rewrite bind_stuck|]. right.
  rewrite (bind_run _ _ _ _ _ Hrun). cbv beta iota. destruct Hr as [[-> [order Ho]]|Hfault].
  2: { rewrite (proj2 (Z.eqb_neq r 0)) by apply Hfault. cbn [negb].
       exists None, g1, (mv_mmio_fetch v). split; [by destruct v|]. split; [done|]. split; [done|]. left. eauto. }
  cbn [Z.eqb negb]. pose proof (va_outcome_range v _ _ _ _ _ (page_of_range _ Hg) Ho) as Hgr.
  pose proof (va_offset _ _ _ _ _ _ Ho) as Hoff. destruct (page_of_bounds gva) as (_ & Hpm & _).
  rewrite Hpm in Hoff. unfold PG_ORDER_4K. rewrite shiftr_12.
  destruct (map_page_rule (gpa / 4096) g1 (proj1 (proj1 Hm1))) as (buf & k & w & g2 & Hrun2 & Hq & Hb).
  { split; [apply Z.div_pos; lia|apply Z.div_lt_upper_bound; lia]. }
  rewrite (bind_in_space _ _ (set_mv_space g1 v) _ _ Hrun2). cbv beta iota.
  assert (Hm2 : moved true v g2).
  { eapply moved_trans; [exact Hm1|]. apply moved_quiet; [by apply (moved_inv true)|done]. }
  exists buf, g2. eexists. split; [reflexivity|]. split; [done|]. split; [done|].
  destruct buf as [b|].
  - destruct (Hb b eq_refl) as [Hk Hu]. split.
    + exists gpa, order. split; [done|]. intros i Hi'.
      rewrite <- (same_view_gpa _ _ _ (proj1 Hm1)), <- Hu by done. f_equal.
      pose proof (Z.div_mod gpa 4096 ltac:(lia)). lia.
    + cbn. by destruct k.
  - right. exists (gpa / 4096), g1, k, w, g2. split; [apply Hm1|done].
Qed.

(** Across a page boundary the bytes are read like data. *)
Lemma fetch_across_rule gva len v : mmio_inv v -> fetch_fresh v -> 0 <= gva -> 0 < len <= 15 ->
  gva + len <= 2 ^ 64 -> (forall a, page_of gva <= a < gva + len -> walkable v a 0 true) ->
  fetch_result v gva len ((r ← vcpu_read_guest_virtual same_kva gva len 0;
    let '(ret, data) := r in
    if ret =? 0 then mret (- ENOMEM, data) else mret (0, data)) v).
Proof.
  intros Hi Hf Hg Hl Hend Hw. pose proof (page_of_bounds gva) as [Hb _].
  pose proof (read_rule same_kva gva len 0 v Hi (or_introl eq_refl) Hg ltac:(lia) Hend) as Hres.
  specialize (Hres ltac:(intros i Hin; apply Hw; lia)).
  destruct (vcpu_read_guest_virtual _ _ _ _ _) as [[[ret data] v']|] eqn:Hrun; cbn in Hres.
  2: { rewrite bind_stuck by done. destruct Hres as (data & Hn & _ & Habs).
       exists (gva + Z.of_nat (length data)). split; [lia|done]. }
  destruct Hres as (Hseen & g' & Hm & Hcase).
  rewrite (bind_run _ _ _ _ _ Hrun). cbv beta iota. change (negb (0 =? 2)) with true in *.
  set (n := Z.of_nat (length data)) in *.
  destruct Hcase as [(Hn & -> & ->)|[(Hn & code & Hfault & -> & i & _ & ->)|(Hn & Href & -> & ->)]].
  all: split; [done|]; split; [exact Hm|]; split; [by apply (fetch_fresh_after v)|]; [].
  1: done.
  all: split; [done|]; exists (gva + n); split; [lia|]; eauto.
Qed.

(** Within a page they are copied from its mapping. *)
Lemma fetch_page_rule gva len v : mmio_inv v -> fetch_fresh v -> 0 <= gva -> 0 < len <= 15 ->
  gva mod 4096 + len <= 4096 -> gva < 2 ^ 64 -> walkable v (page_of gva) 0 true ->
  fetch_result v gva len ((src_buf ← mmio_map_guest_virtual_page_fast gva;
    match src_buf with
    | Some src_buf => data ← copy_page src_buf gva len; mret (0, data)
    | None =>
        src_buf ← mmio_map_guest_virtual_page_slow same_kva gva;
        match src_buf with
        | None => mret (- ENOMEM, [])
        | Some src_buf =>
            v ← get;
            modify (set_mv_fetch (MmioFetchCache gva (pr_cr3 (mv_regs v)) (Some src_buf)
                                    (mf_kmap (mv_mmio_fetch v)) 0));;
            data ← copy_page src_buf gva len;
            mret (0, data)
        end
    end) v).
Proof.
  intros Hi Hf Hg Hl Hend H64 Hw. pose proof (page_of_bounds gva) as [Hb _].
  destruct (map_fast_rule gva v Hi Hf) as (r & g1 & f1 & Hrun & Hm1 & Hr).
  rewrite (bind_run _ _ _ _ _ Hrun). destruct r as [kva|].
  { destruct Hr as [Hp Hf1].
    destruct (copy_page_rule v g1 gva kva len Hm1 Hp Hg ltac:(lia) Hend f1) as (data & Hc & Hlen & Hd).
    rewrite (bind_run _ _ _ _ _ Hc). by split_and!. }
  set (v1 := set_mv_fetch f1 (set_mv_space g1 v)).
  assert (Hi1 : mmio_inv v1) by (pose proof (moved_inv true v g1 Hi Hm1) as [? ? ? ? ?]; by constructor).
  pose proof (moved_walkable true v g1 _ _ Hi Hm1 Hw) as Hw1.
  destruct (map_slow_rule gva v1 Hi1 (conj Hg H64) Hw1)
    as [[Hrun2 Habs]|(r & g2 & f2 & Hrun2 & Hm2 & Hf2 & Hr2)].
  { rewrite bind_stuck by done. exists (page_of gva). split; [lia|].
    unfold absent_pte in *. change (va_outcome v1) with (va_outcome (set_mv_space g1 v)) in Habs.
    by rewrite moved_outcome in Habs. }
  rewrite (bind_run _ _ _ _ _ Hrun2). pose proof (moved_trans true v g1 g2 Hm1 Hm2) as Hm.
  destruct r as [kva|].
  - destruct Hr2 as [Hp2 Hk2].
    assert (Hp : page_at v gva kva).
    { destruct Hp2 as (gpa & order & Ho & Hu). exists gpa, order.
      change (va_outcome v1 (page_of gva) 0 true) with (va_outcome (set_mv_space g1 v) (page_of gva) 0 true) in Ho.
      rewrite moved_outcome in Ho by done. split; [done|]. intros i Hin.
      rewrite <- (same_view_gpa _ _ _ (proj1 Hm1)). by apply Hu. }
    rewrite (bind_run get _ _ _ _ eq_refl). rewrite modify_run.
    set (f3 := MmioFetchCache _ _ _ _ _).
    destruct (copy_page_rule v g2 gva kva len Hm Hp Hg ltac:(lia) Hend f3) as (data & Hc & Hlen & Hd).
    change (set_mv_fetch f3 _) with (set_mv_fetch f3 (set_mv_space g2 v)).
    rewrite (bind_run _ _ _ _ _ Hc).
    split; [done|]. split; [exact Hm|]. split; [|done].
    intros kva' [= <-]. split; [done|]. intros _. by apply (page_at_after v).
  - split; [done|]. split; [exact Hm|].
    split; [apply fetch_fresh_none; cbn; by rewrite Hf2|].
    split; [done|]. exists (page_of gva). split; [lia|]. destruct Hr2 as [[code Hc]|Hrf].
    + left. exists code. by apply (walk_fault_moved true v g1).
    + right. right. by eapply refused_view; [apply Hm1|].
Qed.

Lemma fetch_rule gva len v : mmio_inv v -> fetch_fresh v -> 0 <= gva -> 0 < len <= 15 ->
  gva + len <= 2 ^ 64 -> (forall a, page_of gva <= a < gva + len -> walkable v a 0 true) ->
  fetch_result v gva len (mmio_fetch_instruction same_kva gva len v).
Proof.
  intros Hi Hf Hg Hl Hend Hw. unfold mmio_fetch_instruction.
  rewrite assert_run by (apply andb_true_iff; lia). cbv zeta.
  assert (He : (gva +! len) -! 1 = gva + len - 1).
  { unfold u64. rewrite Zminus_mod_idemp_l, Z.mod_small; lia. }
  rewrite He. unfold PG_ORDER_4K. rewrite !shiftr_12.
  destruct (Z.eqb_spec (gva / 4096) ((gva + len - 1) / 4096)) as [Hsame|Hdiff]; cbn [negb].
  - pose proof (page_of_bounds gva) as [Hb _].
    apply fetch_page_rule; try done; [|lia|apply Hw; lia].
    pose proof (Z.div_mod gva 4096 ltac:(lia)). pose proof (Z.div_mod (gva + len - 1) 4096 ltac:(lia)).
    pose proof (Z.mod_pos_bound (gva + len - 1) 4096 ltac:(lia)). lia.
  - by apply fetch_across_rule.
Qed.
End Fetch.

Section Claims.
Context {HH : Host} {E : Type} (same_kva : Z -> Z -> bool).


End Claims.

(** ** Concrete accesses *)
Definition no_fetch : mmio_fetch_cache := MmioFetchCache 0 0 None None 0.
Definition demo_mmio : mmio_vcpu (list event) :=
  MmioVcpu demo_paged init_vcpu demo_regs 0 false no_fetch.

(** Slots and blocks at page boundaries give aligned frames. *)
Definition slot_aligned (g : hax_gpa_space (list event)) (s : hax_memslot) : bool :=
  ((ms_offset_within_block s mod 4096 =? 0) &&
   match nl_get (ms_block s) (gs_ramblock_list g) with
   | Some b => rb_base_uva b mod 4096 =? 0
   | None => true
   end)%bool.

Lemma aligned_slots g : forallb (slot_aligned g) (gs_memslot_list g) = true -> frames_aligned g.
Proof.
  intros Hall gfn u ro. unfold gfn_uva. induction (gs_memslot_list g) as [|s l IH]; [done|].
  cbn in Hall |- *. apply andb_true_iff in Hall as [Hs Hall]. destruct (covers s gfn); [|by apply IH].
  cbn [ln_block slot_line]. unfold slot_aligned in Hs. apply andb_true_iff in Hs as [Ho%Z.eqb_eq Hb].
  destruct (nl_get _ _) as [b|]; [|done]. apply Z.eqb_eq in Hb. intros [= <- _].
  unfold line_offset. cbn [ln_origin slot_line].
  replace (_ + _) with (rb_base_uva b + ms_offset_within_block s + (gfn - ms_base_gfn s) * 4096) by lia.
  by rewrite Z_mod_plus_full, Z.add_mod, Hb, Ho.
Qed.

Lemma demo_mmio_inv : mmio_inv demo_mmio.
Proof.
  constructor; [apply demo_paged_inv|apply demo_tables_ok|cbn; lia|done|].
  apply aligned_slots. vm_compute. reflexivity.
Qed.

(** Page 5 is mapped to frame 260. *)
Lemma demo_outcome d access upd : access = 0 -> upd = true -> 0 <= d < 4096 ->
  va_outcome demo_mmio (0x5000 + d) access upd = Translated (0x104000 + d) 12.
Proof.
  intros -> -> Hd. rewrite va_outcome_page; [|lia|lia|change (0x5000 mod 4096) with 0; lia].
  replace (va_outcome demo_mmio 0x5000 0 true) with (Translated 0x104000 12); [done|].
  vm_compute. reflexivity.
Qed.

Lemma demo_walkable a : 0x5000 <= a < 0x6000 -> walkable demo_mmio a 0 true.
Proof.
  intros Ha _. split; intros _ H; discriminate H.
Qed.



(** The cached page is found by its virtual page and CR3 only.  After the guest has changed
    the entry of page 5, which now maps frame 261, the next fetch still gives the bytes of
    frame 260. *)
Definition set_memory (m : gmap Z Z) (v : mmio_vcpu (list event)) : mmio_vcpu (list event) :=
  set_mv_space (with_umem m (mv_space v)) v.
Definition demo_code : mmio_vcpu (list event) :=
  set_memory (<[0x10005123 := 0x11]> (<[0x10006123 := 0x22]> demo_tables)) demo_mmio.
Definition remap_page (v : mmio_vcpu (list event)) : mmio_vcpu (list event) :=
  set_memory (umem_store (gs_umem (mv_space v)) 0x10004028 (le_bytes 8 0x105007)) v.

Theorem fetch_stale_page :
  exists data1 v1 data2 v2,
    mmio_fetch_instruction Z.eqb 0x5123 1 demo_code = Some ((0, data1), v1) /\
    mmio_fetch_instruction Z.eqb 0x5123 1 (remap_page v1) = Some ((0, data2), v2) /\
    data1 = [0x11] /\ data2 = [0x11] /\
    va_outcome (remap_page v1) 0x5123 0 true = Translated 0x105123 12 /\
    guest_byte (mv_space (remap_page v1)) 0x105123 = Some 0x22.
Proof.
  assert (H : match mmio_fetch_instruction Z.eqb 0x5123 1 demo_code with
    | Some ((r1, d1), v1) =>
        match mmio_fetch_instruction Z.eqb 0x5123 1 (remap_page v1) with
        | Some ((r2, d2), v2) => Some (r1, d1, r2, d2, va_outcome (remap_page v1) 0x5123 0 true,
            guest_byte (mv_space (remap_page v1)) 0x105123)
        | None => None
        end
    | None => None
    end = Some (0, [0x11], 0, [0x11], Translated 0x105123 12, Some 0x22)) by (vm_compute; reflexivity).
  destruct (mmio_fetch_instruction _ _ _ _) as [[[r1 d1] v1]|] eqn:E1; [|done].
  destruct (mmio_fetch_instruction _ _ _ (remap_page v1)) as [[[r2 d2] v2]|] eqn:E2; [|done].
  exists d1, v1, d2, v2. apply (inj Some) in H.
  rewrite !pair_equal_spec in H. destruct H as (((((-> & ->) & ->) & ->) & Ho) & Hb).
  exact (conj eq_refl (conj E2 (conj eq_refl (conj eq_refl (conj Ho Hb))))).
Qed.
