(* ===== verification/EmTypes.v ===== *)
(** * Data of the instruction emulator (src/core/include/emulate.h, src/core/emulate.c)

    Operands, opcodes and the emulation context, and the opcode tables.  The callbacks of
    the virtual CPU ([em_vcpu_ops_t]) are an interface, the class [EmOps]; the arithmetic
    instructions that the emulator executes natively (emulate_ops.asm) are the class
    [FastOps].  The union of a memory and a register operand is a pair of both parts, of
    which the code uses the one that [op_type] names. *)

From stdpp Require Import base numbers list.
From Stdlib Require Import ZArith Lia.
From S2P Require Import Prelude.
#[local] Open Scope Z_scope.

(** ** Enumerations and constants *)
Inductive em_status_t := EM_CONTINUE | EM_EXIT_MMIO | EM_ERROR.
Inductive em_mode_t := EM_MODE_REAL | EM_MODE_PROT16 | EM_MODE_PROT32 | EM_MODE_PROT64.
Inductive em_operand_type_t := OP_NONE | OP_REG | OP_MEM | OP_IMM | OP_ACC.

#[export] Instance em_status_eq : EqDecision em_status_t.
Proof. solve_decision. Defined.
#[export] Instance em_mode_eq : EqDecision em_mode_t.
Proof. solve_decision. Defined.
#[export] Instance em_operand_type_eq : EqDecision em_operand_type_t.
Proof. solve_decision. Defined.

Definition is_continue (rc : em_status_t) : bool := bool_decide (rc = EM_CONTINUE).

Definition REG_RAX : Z := 0.
Definition REG_RCX : Z := 1.
Definition REG_RBX : Z := 3.
Definition REG_RSP : Z := 4.
Definition REG_RBP : Z := 5.
Definition REG_RSI : Z := 6.
Definition REG_RDI : Z := 7.

Definition SEG_NONE : Z := 0.
Definition SEG_CS : Z := 1.
Definition SEG_SS : Z := 2.
Definition SEG_DS : Z := 3.
Definition SEG_ES : Z := 4.
Definition SEG_FS : Z := 5.
Definition SEG_GS : Z := 6.

Definition RFLAGS_CF : Z := Z.shiftl 1 0.
Definition RFLAGS_PF : Z := Z.shiftl 1 2.
Definition RFLAGS_AF : Z := Z.shiftl 1 4.
Definition RFLAGS_ZF : Z := Z.shiftl 1 6.
Definition RFLAGS_SF : Z := Z.shiftl 1 7.
Definition RFLAGS_DF : Z := Z.shiftl 1 10.
Definition RFLAGS_OF : Z := Z.shiftl 1 11.
Definition RFLAGS_MASK_OSZAPC : Z :=
  RFLAGS_CF |! RFLAGS_PF |! RFLAGS_AF |! RFLAGS_ZF |! RFLAGS_SF |! RFLAGS_OF.

Definition EM_OPS_NO_TRANSLATION : Z := Z.shiftl 1 0.
Definition INSTR_MAX_LEN : Z := 15.

Definition INSN_DST_NR : Z := Z.shiftl 1 0.
Definition INSN_DST_NW : Z := Z.shiftl 1 1.
Definition INSN_MODRM : Z := Z.shiftl 1 2.
Definition INSN_BYTEOP : Z := Z.shiftl 1 3.
Definition INSN_GROUP : Z := Z.shiftl 1 4.
Definition INSN_REP : Z := Z.shiftl 1 5.
Definition INSN_REPX : Z := Z.shiftl 1 6.
Definition INSN_NOFLAGS : Z := Z.shiftl 1 7.
Definition INSN_TWOMEM : Z := Z.shiftl 1 8.
Definition INSN_BITOP : Z := Z.shiftl 1 9.
Definition INSN_STACK : Z := Z.shiftl 1 10.
Definition INSN_STRING : Z := INSN_REP |! INSN_REPX.
Definition INSN_NOTIMPL : Z := Z.shiftl 1 32.
Definition INSN_FASTOP : Z := Z.shiftl 1 33.

Definition OP_READ_PENDING : Z := Z.shiftl 1 0.
Definition OP_READ_FINISHED : Z := Z.shiftl 1 1.
Definition OP_WRITE_PENDING : Z := Z.shiftl 1 2.
Definition OP_WRITE_FINISHED : Z := Z.shiftl 1 3.

Definition PREFIX_LOCK : Z := 0xF0.
Definition PREFIX_REPNE : Z := 0xF2.
Definition PREFIX_REPE : Z := 0xF3.

(** A mask of which some bit is set. *)
Definition has (x mask : Z) : bool := negb (x &! mask =? 0).

(** ** Handlers, decoders and opcodes *)
Inductive fastop_t :=
  em_not | em_neg | em_inc | em_dec | em_add | em_or | em_adc | em_sbb | em_and | em_sub |
  em_xor | em_test | em_cmp | em_bt | em_bts | em_btr | em_btc.

Inductive softop_t :=
  soft_andn | soft_bextr | soft_mov | soft_movzx | soft_movsx | soft_push | soft_pop | soft_xchg.

Inductive group_t := group1 | group3 | group5 | group8 | group11 | group1A.

(** The pointer of an opcode: null, a handler, or a table of a group. *)
Inductive handler_t := NoHandler | Fast (f : fastop_t) | Soft (s : softop_t) | Group (g : group_t).

Inductive em_operand_decoder_t :=
  op_none | op_modrm_reg | op_modrm_rm | op_modrm_rm8 | op_modrm_rm16 | op_vex_reg | op_opc_reg |
  op_moffs | op_simm | op_simm8 | op_acc | op_di | op_si.

#[export] Instance em_operand_decoder_eq : EqDecision em_operand_decoder_t.
Proof. solve_decision. Defined.

Record em_opcode_t := EmOpcode {
  oc_handler : handler_t;
  oc_decode_dst : option em_operand_decoder_t;
  oc_decode_src1 : option em_operand_decoder_t;
  oc_decode_src2 : option em_operand_decoder_t;
  oc_flags : Z;
}.

(** The initialisers of the tables. *)
Definition Zero : em_opcode_t := EmOpcode NoHandler None None None 0.
Definition N_ : em_opcode_t := EmOpcode NoHandler None None None INSN_NOTIMPL.
Definition I_ (h : handler_t) (d s1 s2 : em_operand_decoder_t) (flags : Z) : em_opcode_t :=
  EmOpcode h (Some d) (Some s1) (Some s2) flags.
Definition G_ (g : group_t) (d s1 s2 : em_operand_decoder_t) (flags : Z) : em_opcode_t :=
  EmOpcode (Group g) (Some d) (Some s1) (Some s2) (flags |! INSN_GROUP |! INSN_MODRM).
Definition F_ (f : fastop_t) (d s1 s2 : em_operand_decoder_t) (flags : Z) : em_opcode_t :=
  I_ (Fast f) d s1 s2 (flags |! INSN_FASTOP).
Definition I2_BV (h : handler_t) (d s1 s2 : em_operand_decoder_t) (flags : Z) : list em_opcode_t :=
  [I_ h d s1 s2 (flags |! INSN_BYTEOP); I_ h d s1 s2 flags].
Definition F2_BV (f : fastop_t) (d s1 s2 : em_operand_decoder_t) (flags : Z) : list em_opcode_t :=
  [F_ f d s1 s2 (flags |! INSN_BYTEOP); F_ f d s1 s2 flags].
Definition F6_ALU (f : fastop_t) (flags : Z) : list em_opcode_t :=
  F2_BV f op_modrm_rm op_modrm_reg op_none (flags |! INSN_MODRM) ++
  F2_BV f op_modrm_reg op_modrm_rm op_none (flags |! INSN_MODRM) ++
  F2_BV f op_acc op_simm op_none flags.

Definition opcode_group1 : list em_opcode_t :=
  [F_ em_add op_none op_none op_none 0; F_ em_or op_none op_none op_none 0;
   F_ em_adc op_none op_none op_none 0; F_ em_sbb op_none op_none op_none 0;
   F_ em_and op_none op_none op_none 0; F_ em_sub op_none op_none op_none 0;
   F_ em_xor op_none op_none op_none 0; F_ em_cmp op_none op_none op_none 0].

Definition opcode_group3 : list em_opcode_t :=
  [F_ em_test op_modrm_rm op_simm op_none INSN_DST_NW;
   F_ em_test op_modrm_rm op_simm op_none INSN_DST_NW;
   F_ em_not op_modrm_rm op_none op_none 0;
   F_ em_neg op_modrm_rm op_none op_none 0] ++ replicate 4 Zero.

Definition opcode_group5 : list em_opcode_t :=
  replicate 4 N_ ++ replicate 2 N_ ++
  [I_ (Soft soft_push) op_none op_modrm_rm op_none (INSN_TWOMEM |! INSN_STACK)] ++ replicate 1 N_.

Definition opcode_group8 : list em_opcode_t :=
  replicate 4 N_ ++
  [F_ em_bt op_none op_none op_none 0; F_ em_bts op_none op_none op_none 0;
   F_ em_btr op_none op_none op_none 0; F_ em_btc op_none op_none op_none 0].

Definition opcode_group11 : list em_opcode_t :=
  [I_ (Soft soft_mov) op_none op_none op_none INSN_DST_NR] ++ replicate 7 Zero.

Definition opcode_group1A : list em_opcode_t :=
  [I_ (Soft soft_pop) op_modrm_rm op_none op_none (INSN_DST_NR |! INSN_TWOMEM |! INSN_STACK)] ++
  replicate 7 Zero.

Definition opcode_group (g : group_t) : list em_opcode_t :=
  match g with
  | group1 => opcode_group1 | group3 => opcode_group3 | group5 => opcode_group5
  | group8 => opcode_group8 | group11 => opcode_group11 | group1A => opcode_group1A
  end.

Definition opcode_table : list em_opcode_t :=
  (* 0x00 - 0x3F *)
  F6_ALU em_add 0 ++ replicate 2 N_ ++
  F6_ALU em_or 0 ++ replicate 2 N_ ++
  F6_ALU em_adc 0 ++ replicate 2 N_ ++
  F6_ALU em_sbb 0 ++ replicate 2 N_ ++
  F6_ALU em_and 0 ++ replicate 2 N_ ++
  F6_ALU em_sub 0 ++ replicate 2 N_ ++
  F6_ALU em_xor 0 ++ replicate 2 N_ ++
  F6_ALU em_cmp INSN_DST_NW ++ replicate 2 N_ ++
  (* 0x40 - 0x5F *)
  replicate 8 (F_ em_inc op_modrm_reg op_none op_none 0) ++
  replicate 8 (F_ em_dec op_modrm_reg op_none op_none 0) ++
  replicate 8 (I_ (Soft soft_push) op_none op_opc_reg op_none INSN_STACK) ++
  replicate 8 (I_ (Soft soft_pop) op_opc_reg op_none op_none INSN_STACK) ++
  (* 0x60 - 0x7F *)
  replicate 16 N_ ++ replicate 16 N_ ++
  (* 0x80 - 0x8F *)
  [G_ group1 op_modrm_rm op_simm op_none INSN_BYTEOP;
   G_ group1 op_modrm_rm op_simm op_none 0;
   G_ group1 op_modrm_rm op_simm op_none INSN_BYTEOP;
   G_ group1 op_modrm_rm op_simm8 op_none 0] ++
  F2_BV em_test op_modrm_rm op_modrm_reg op_none (INSN_MODRM |! INSN_DST_NW) ++
  replicate 2 N_ ++
  I2_BV (Soft soft_mov) op_modrm_rm op_modrm_reg op_none (INSN_MODRM |! INSN_DST_NR) ++
  I2_BV (Soft soft_mov) op_modrm_reg op_modrm_rm op_none (INSN_MODRM |! INSN_DST_NR) ++
  [N_; N_; N_; G_ group1A op_none op_none op_none 0] ++
  (* 0x90 - 0x9F *)
  replicate 16 N_ ++
  (* 0xA0 - 0xAF *)
  I2_BV (Soft soft_mov) op_acc op_moffs op_none INSN_DST_NR ++
  I2_BV (Soft soft_mov) op_moffs op_acc op_none INSN_DST_NR ++
  I2_BV (Soft soft_mov) op_di op_si op_none (INSN_DST_NR |! INSN_REP |! INSN_TWOMEM) ++
  F2_BV em_cmp op_di op_si op_none (INSN_DST_NW |! INSN_REPX |! INSN_TWOMEM) ++
  replicate 2 N_ ++
  I2_BV (Soft soft_mov) op_di op_acc op_none (INSN_DST_NR |! INSN_REP) ++
  I2_BV (Soft soft_mov) op_acc op_si op_none (INSN_DST_NR |! INSN_REP) ++
  replicate 2 N_ ++
  (* 0xB0 - 0xBF *)
  replicate 16 N_ ++
  (* 0xC0 - 0xCF *)
  replicate 4 N_ ++ replicate 2 N_ ++
  [G_ group11 op_modrm_rm op_simm op_none INSN_BYTEOP; G_ group11 op_modrm_rm op_simm op_none 0] ++
  replicate 8 N_ ++
  (* 0xD0 - 0xEF *)
  replicate 16 N_ ++ replicate 16 N_ ++
  (* 0xF0 - 0xFF *)
  replicate 4 N_ ++ replicate 2 N_ ++
  [G_ group3 op_none op_none op_none INSN_BYTEOP; G_ group3 op_none op_none op_none 0] ++
  replicate 4 N_ ++ replicate 2 N_ ++ replicate 1 N_ ++
  [G_ group5 op_none op_none op_none 0].

Definition opcode_table_0F : list em_opcode_t :=
  (* 0x00 - 0x9F *)
  replicate 160 N_ ++
  (* 0xA0 - 0xAF *)
  replicate 3 N_ ++
  [F_ em_bt op_modrm_rm op_modrm_reg op_none (INSN_MODRM |! INSN_BITOP)] ++
  replicate 7 N_ ++
  [F_ em_bts op_modrm_rm op_modrm_reg op_none (INSN_MODRM |! INSN_BITOP)] ++
  replicate 4 N_ ++
  (* 0xB0 - 0xBF *)
  replicate 3 N_ ++
  [F_ em_btr op_modrm_rm op_modrm_reg op_none (INSN_MODRM |! INSN_BITOP)] ++
  replicate 2 N_ ++
  [I_ (Soft soft_movzx) op_modrm_reg op_modrm_rm8 op_none (INSN_MODRM |! INSN_DST_NR);
   I_ (Soft soft_movzx) op_modrm_reg op_modrm_rm16 op_none (INSN_MODRM |! INSN_DST_NR)] ++
  replicate 2 N_ ++
  [G_ group8 op_modrm_rm op_simm8 op_none INSN_BITOP;
   F_ em_btc op_modrm_rm op_modrm_reg op_none (INSN_MODRM |! INSN_BITOP)] ++
  replicate 2 N_ ++
  [I_ (Soft soft_movsx) op_modrm_reg op_modrm_rm8 op_none (INSN_MODRM |! INSN_DST_NR);
   I_ (Soft soft_movsx) op_modrm_reg op_modrm_rm16 op_none (INSN_MODRM |! INSN_DST_NR)] ++
  (* 0xC0 - 0xFF *)
  replicate 64 N_.

Definition opcode_table_0F38 : list em_opcode_t :=
  replicate 240 N_ ++
  replicate 2 N_ ++
  [I_ (Soft soft_andn) op_modrm_reg op_vex_reg op_modrm_rm INSN_MODRM] ++
  replicate 4 N_ ++
  [I_ (Soft soft_bextr) op_modrm_reg op_modrm_rm op_vex_reg INSN_MODRM] ++
  replicate 8 N_.

Definition opcode_table_0F3A : list em_opcode_t := replicate 256 N_.

(** ** Operands and the context *)
Record em_operand_t := EmOperand {
  op_size : Z;
  op_flags : Z;
  op_type : em_operand_type_t;
  op_ea : Z;
  op_seg : Z;
  op_index : Z;
  op_shift : Z;
  op_value : Z;
}.

(** The part of [em_context_t] that decoding fills. *)
Record decoder_t := Decoder {
  em_mode : em_mode_t;
  em_insn : list Z;
  em_operand_size : Z;
  em_address_size : Z;
  em_len : Z;
  em_rip : Z;
  em_rep : Z;
  em_lock : Z;
  em_override_segment : Z;
  em_override_operand_size : bool;
  em_override_address_size : bool;
  em_b : Z;
  em_vex : Z;
  em_rex : Z;
  em_modrm : Z;
  em_sib : Z;
}.

Record em_context_t := EmContext {
  em_finished : bool;
  em_decoder : decoder_t;
  em_opcode : em_opcode_t;
  em_dst : em_operand_t;
  em_src1 : em_operand_t;
  em_src2 : em_operand_t;
  em_rflags : Z;
  em_gpr_cache : list Z;
  em_gpr_cache_r : Z;
  em_gpr_cache_w : Z;
}.

(** Updates of single fields *)
Definition set_op_size (x : Z) (c : em_operand_t) : em_operand_t :=
  EmOperand x (op_flags c)
    (op_type c) (op_ea c) (op_seg c) (op_index c) (op_shift c) (op_value c).
Definition set_op_flags (x : Z) (c : em_operand_t) : em_operand_t :=
  EmOperand (op_size c) x
    (op_type c) (op_ea c) (op_seg c) (op_index c) (op_shift c) (op_value c).
Definition set_op_type (x : em_operand_type_t) (c : em_operand_t) : em_operand_t :=
  EmOperand
    (op_size c) (op_flags c) x (op_ea c) (op_seg c) (op_index c) (op_shift c) (op_value c).
Definition set_ea (x : Z) (c : em_operand_t) : em_operand_t :=
  EmOperand (op_size c) (op_flags
    c) (op_type c) x (op_seg c) (op_index c) (op_shift c) (op_value c).
Definition set_seg (x : Z) (c : em_operand_t) : em_operand_t :=
  EmOperand (op_size c)
    (op_flags c) (op_type c) (op_ea c) x (op_index c) (op_shift c) (op_value c).
Definition set_index (x : Z) (c : em_operand_t) : em_operand_t :=
  EmOperand (op_size c)
    (op_flags c) (op_type c) (op_ea c) (op_seg c) x (op_shift c) (op_value c).
Definition set_shift (x : Z) (c : em_operand_t) : em_operand_t :=
  EmOperand (op_size c)
    (op_flags c) (op_type c) (op_ea c) (op_seg c) (op_index c) x (op_value c).
Definition set_value (x : Z) (c : em_operand_t) : em_operand_t :=
  EmOperand (op_size c)
    (op_flags c) (op_type c) (op_ea c) (op_seg c) (op_index c) (op_shift c) x.

Definition set_mode (x : em_mode_t) (c : decoder_t) : decoder_t :=
  Decoder x (em_insn c)
    (em_operand_size c) (em_address_size c) (em_len c) (em_rip c) (em_rep c) (em_lock c)
    (em_override_segment c) (em_override_operand_size c) (em_override_address_size c) (em_b c)
    (em_vex c) (em_rex c) (em_modrm c) (em_sib c).
Definition set_insn (x : list Z) (c : decoder_t) : decoder_t :=
  Decoder (em_mode c) x
    (em_operand_size c) (em_address_size c) (em_len c) (em_rip c) (em_rep c) (em_lock c)
    (em_override_segment c) (em_override_operand_size c) (em_override_address_size c) (em_b c)
    (em_vex c) (em_rex c) (em_modrm c) (em_sib c).
Definition set_operand_size (x : Z) (c : decoder_t) : decoder_t :=
  Decoder (em_mode c)
    (em_insn c) x (em_address_size c) (em_len c) (em_rip c) (em_rep c) (em_lock c)
    (em_override_segment c) (em_override_operand_size c) (em_override_address_size c) (em_b c)
    (em_vex c) (em_rex c) (em_modrm c) (em_sib c).
Definition set_address_size (x : Z) (c : decoder_t) : decoder_t :=
  Decoder (em_mode c)
    (em_insn c) (em_operand_size c) x (em_len c) (em_rip c) (em_rep c) (em_lock c)
    (em_override_segment c) (em_override_operand_size c) (em_override_address_size c) (em_b c)
    (em_vex c) (em_rex c) (em_modrm c) (em_sib c).
Definition set_len (x : Z) (c : decoder_t) : decoder_t :=
  Decoder (em_mode c) (em_insn c)
    (em_operand_size c) (em_address_size c) x (em_rip c) (em_rep c) (em_lock c)
    (em_override_segment c) (em_override_operand_size c) (em_override_address_size c) (em_b c)
    (em_vex c) (em_rex c) (em_modrm c) (em_sib c).
Definition set_rip (x : Z) (c : decoder_t) : decoder_t :=
  Decoder (em_mode c) (em_insn c)
    (em_operand_size c) (em_address_size c) (em_len c) x (em_rep c) (em_lock c)
    (em_override_segment c) (em_override_operand_size c) (em_override_address_size c) (em_b c)
    (em_vex c) (em_rex c) (em_modrm c) (em_sib c).
Definition set_rep (x : Z) (c : decoder_t) : decoder_t :=
  Decoder (em_mode c) (em_insn c)
    (em_operand_size c) (em_address_size c) (em_len c) (em_rip c) x (em_lock c)
    (em_override_segment c) (em_override_operand_size c) (em_override_address_size c) (em_b c)
    (em_vex c) (em_rex c) (em_modrm c) (em_sib c).
Definition set_lock (x : Z) (c : decoder_t) : decoder_t :=
  Decoder (em_mode c) (em_insn c)
    (em_operand_size c) (em_address_size c) (em_len c) (em_rip c) (em_rep c) x
    (em_override_segment c) (em_override_operand_size c) (em_override_address_size c) (em_b c)
    (em_vex c) (em_rex c) (em_modrm c) (em_sib c).
Definition set_override_segment (x : Z) (c : decoder_t) : decoder_t :=
  Decoder (em_mode c)
    (em_insn c) (em_operand_size c) (em_address_size c) (em_len c) (em_rip c) (em_rep c)
    (em_lock c) x (em_override_operand_size c) (em_override_address_size c) (em_b c) (em_vex c)
    (em_rex c) (em_modrm c) (em_sib c).
Definition set_override_operand_size (x : bool) (c : decoder_t) : decoder_t :=
  Decoder
    (em_mode c) (em_insn c) (em_operand_size c) (em_address_size c) (em_len c) (em_rip c)
    (em_rep c) (em_lock c) (em_override_segment c) x (em_override_address_size c) (em_b c)
    (em_vex c) (em_rex c) (em_modrm c) (em_sib c).
Definition set_override_address_size (x : bool) (c : decoder_t) : decoder_t :=
  Decoder
    (em_mode c) (em_insn c) (em_operand_size c) (em_address_size c) (em_len c) (em_rip c)
    (em_rep c) (em_lock c) (em_override_segment c) (em_override_operand_size c) x (em_b c)
    (em_vex c) (em_rex c) (em_modrm c) (em_sib c).
Definition set_b (x : Z) (c : decoder_t) : decoder_t :=
  Decoder (em_mode c) (em_insn c)
    (em_operand_size c) (em_address_size c) (em_len c) (em_rip c) (em_rep c) (em_lock c)
    (em_override_segment c) (em_override_operand_size c) (em_override_address_size c) x (em_vex
    c) (em_rex c) (em_modrm c) (em_sib c).
Definition set_vex (x : Z) (c : decoder_t) : decoder_t :=
  Decoder (em_mode c) (em_insn c)
    (em_operand_size c) (em_address_size c) (em_len c) (em_rip c) (em_rep c) (em_lock c)
    (em_override_segment c) (em_override_operand_size c) (em_override_address_size c) (em_b c) x
    (em_rex c) (em_modrm c) (em_sib c).
Definition set_rex (x : Z) (c : decoder_t) : decoder_t :=
  Decoder (em_mode c) (em_insn c)
    (em_operand_size c) (em_address_size c) (em_len c) (em_rip c) (em_rep c) (em_lock c)
    (em_override_segment c) (em_override_operand_size c) (em_override_address_size c) (em_b c)
    (em_vex c) x (em_modrm c) (em_sib c).
Definition set_modrm (x : Z) (c : decoder_t) : decoder_t :=
  Decoder (em_mode c) (em_insn c)
    (em_operand_size c) (em_address_size c) (em_len c) (em_rip c) (em_rep c) (em_lock c)
    (em_override_segment c) (em_override_operand_size c) (em_override_address_size c) (em_b c)
    (em_vex c) (em_rex c) x (em_sib c).
Definition set_sib (x : Z) (c : decoder_t) : decoder_t :=
  Decoder (em_mode c) (em_insn c)
    (em_operand_size c) (em_address_size c) (em_len c) (em_rip c) (em_rep c) (em_lock c)
    (em_override_segment c) (em_override_operand_size c) (em_override_address_size c) (em_b c)
    (em_vex c) (em_rex c) (em_modrm c) x.

Definition set_finished (x : bool) (c : em_context_t) : em_context_t :=
  EmContext x
    (em_decoder c) (em_opcode c) (em_dst c) (em_src1 c) (em_src2 c) (em_rflags c) (em_gpr_cache
    c) (em_gpr_cache_r c) (em_gpr_cache_w c).
Definition set_decoder (x : decoder_t) (c : em_context_t) : em_context_t :=
  EmContext
    (em_finished c) x (em_opcode c) (em_dst c) (em_src1 c) (em_src2 c) (em_rflags c)
    (em_gpr_cache c) (em_gpr_cache_r c) (em_gpr_cache_w c).
Definition set_opcode (x : em_opcode_t) (c : em_context_t) : em_context_t :=
  EmContext
    (em_finished c) (em_decoder c) x (em_dst c) (em_src1 c) (em_src2 c) (em_rflags c)
    (em_gpr_cache c) (em_gpr_cache_r c) (em_gpr_cache_w c).
Definition set_dst (x : em_operand_t) (c : em_context_t) : em_context_t :=
  EmContext
    (em_finished c) (em_decoder c) (em_opcode c) x (em_src1 c) (em_src2 c) (em_rflags c)
    (em_gpr_cache c) (em_gpr_cache_r c) (em_gpr_cache_w c).
Definition set_src1 (x : em_operand_t) (c : em_context_t) : em_context_t :=
  EmContext
    (em_finished c) (em_decoder c) (em_opcode c) (em_dst c) x (em_src2 c) (em_rflags c)
    (em_gpr_cache c) (em_gpr_cache_r c) (em_gpr_cache_w c).
Definition set_src2 (x : em_operand_t) (c : em_context_t) : em_context_t :=
  EmContext
    (em_finished c) (em_decoder c) (em_opcode c) (em_dst c) (em_src1 c) x (em_rflags c)
    (em_gpr_cache c) (em_gpr_cache_r c) (em_gpr_cache_w c).
Definition set_rflags (x : Z) (c : em_context_t) : em_context_t :=
  EmContext (em_finished c)
    (em_decoder c) (em_opcode c) (em_dst c) (em_src1 c) (em_src2 c) x (em_gpr_cache c)
    (em_gpr_cache_r c) (em_gpr_cache_w c).
Definition set_gpr_cache (x : list Z) (c : em_context_t) : em_context_t :=
  EmContext
    (em_finished c) (em_decoder c) (em_opcode c) (em_dst c) (em_src1 c) (em_src2 c) (em_rflags
    c) x (em_gpr_cache_r c) (em_gpr_cache_w c).
Definition set_gpr_cache_r (x : Z) (c : em_context_t) : em_context_t :=
  EmContext (em_finished
    c) (em_decoder c) (em_opcode c) (em_dst c) (em_src1 c) (em_src2 c) (em_rflags c)
    (em_gpr_cache c) x (em_gpr_cache_w c).
Definition set_gpr_cache_w (x : Z) (c : em_context_t) : em_context_t :=
  EmContext (em_finished
    c) (em_decoder c) (em_opcode c) (em_dst c) (em_src1 c) (em_src2 c) (em_rflags c)
    (em_gpr_cache c) (em_gpr_cache_r c) x.

(** The bit-fields of the VEX, REX, ModRM and SIB bytes. *)
Definition field (x lo width : Z) : Z := Z.shiftr x lo &! Z.ones width.
Definition set_field (x lo width v : Z) : Z :=
  Z.ldiff x (Z.shiftl (Z.ones width) lo) |! Z.shiftl (v &! Z.ones width) lo.

Definition vex_m (x : Z) : Z := field x 0 5.
Definition vex_b (x : Z) : Z := field x 5 1.
Definition vex_x (x : Z) : Z := field x 6 1.
Definition vex_r (x : Z) : Z := field x 7 1.
Definition vex_v (x : Z) : Z := field x 11 4.
Definition vex_w (x : Z) : Z := field x 15 1.
Definition rex_b (x : Z) : Z := field x 0 1.
Definition rex_x (x : Z) : Z := field x 1 1.
Definition rex_r (x : Z) : Z := field x 2 1.
Definition rex_w (x : Z) : Z := field x 3 1.
Definition modrm_rm (x : Z) : Z := field x 0 3.
Definition modrm_reg (x : Z) : Z := field x 3 3.
Definition modrm_mod (x : Z) : Z := field x 6 2.
Definition modrm_opc (x : Z) : Z := field x 3 3.
Definition sib_base (x : Z) : Z := field x 0 3.
Definition sib_index (x : Z) : Z := field x 3 3.
Definition sib_scale (x : Z) : Z := field x 6 2.

(** [memcpy] between 64-bit values: the [size] bytes of [x] from byte [shift] on. *)
Definition get_bytes (x shift size : Z) : Z := field x (8 * shift) (8 * size).
Definition put_bytes (x shift size v : Z) : Z := set_field x (8 * shift) (8 * size) v.

Definition s8 (x : Z) : Z := if x <? 2 ^ 7 then x else x - 2 ^ 8.
Definition s16 (x : Z) : Z := if x <? 2 ^ 15 then x else x - 2 ^ 16.
Definition s64 (x : Z) : Z := if x <? 2 ^ 63 then x else x - 2 ^ 64.

(** ** Interfaces

    The callbacks of the virtual CPU.  A memory callback gets the old contents of the
    buffer and returns the new ones. *)
Class EmOps (V : Type) := {
  read_gpr : V -> Z -> Z;
  write_gpr : Z -> Z -> V -> V;
  read_rflags : V -> Z;
  write_rflags : Z -> V -> V;
  get_segment_base : V -> Z -> Z;
  advance_rip : Z -> V -> V;
  read_memory (ea value size flags : Z) : M V (em_status_t * Z);
  read_memory_post (value size : Z) : M V (em_status_t * Z);
  write_memory (ea value size flags : Z) : M V em_status_t;
}.

(** The native instructions: operation, operand size, destination, source and flags give
    the new destination and flags. *)
Class FastOps := {
  fastop_dispatch (f : fastop_t) (size dst src1 src2 flags : Z) : Z * Z;
}.
