(* ===== verification/Emulate.v ===== *)
(** * The instruction emulator (src/core/emulate.c)

    An instruction that accesses MMIO is decoded once and then executed by
    [em_emulate_insn], which user space may interrupt: when a memory callback answers
    [EM_EXIT_MMIO], the function returns, and it is called again after the access has been
    made.  The flags of an operand say how far its access got.  Registers are read and
    written through a cache that is flushed at the end of the instruction. *)

From stdpp Require Import base numbers list.
From Stdlib Require Import ZArith Lia.
From S2P Require Import Prelude EmTypes.
#[local] Open Scope Z_scope.

Record em_state (V : Type) := EmState {
  es_ctxt : em_context_t;
  es_vcpu : V;
}.
Arguments EmState {V}.
Arguments es_ctxt {V}.
Arguments es_vcpu {V}.

Section Emulator.
Context {V : Type} {EO : EmOps V} {FO : FastOps}.
#[local] Notation st := (em_state V).

Definition upd_ctxt (f : em_context_t -> em_context_t) : M st unit :=
  modify (fun s => EmState (f (es_ctxt s)) (es_vcpu s)).
Definition upd_decoder (f : decoder_t -> decoder_t) : M st unit :=
  upd_ctxt (fun c => set_decoder (f (em_decoder c)) c).
Definition upd_vcpu (f : V -> V) : M st unit :=
  modify (fun s => EmState (es_ctxt s) (f (es_vcpu s))).
Definition ctxt : M st em_context_t := gets es_ctxt.
Definition decoder : M st decoder_t := gets (fun s => em_decoder (es_ctxt s)).
Definition vcpu_call {A} (m : M V A) : M st A :=
  fun s => match m (es_vcpu s) with
           | Some (a, v) => Some (a, EmState (es_ctxt s) v)
           | None => None
           end.

(** ** The register cache *)
Definition gpr_load (index : Z) : M st unit :=
  s ← get;
  let c := es_ctxt s in
  if has (em_gpr_cache_r c) (Z.shiftl 1 index) then mret tt
  else
    upd_ctxt (set_gpr_cache (<[Z.to_nat index := read_gpr (es_vcpu s) index]> (em_gpr_cache c)));;
    upd_ctxt (set_gpr_cache_r (em_gpr_cache_r c |! Z.shiftl 1 index)).

Definition gpr_read_shifted (index size shift : Z) : M st Z :=
  gpr_load index;;
  c ← ctxt;
  x ← of_option (em_gpr_cache c !! Z.to_nat index);
  hax_assert (shift + size <=? 8);;
  mret (get_bytes x shift size).

Definition gpr_write_shifted (index size value shift : Z) : M st unit :=
  gpr_load index;;
  c ← ctxt;
  upd_ctxt (set_gpr_cache_w (em_gpr_cache_w c |! Z.shiftl 1 index));;
  x ← of_option (em_gpr_cache c !! Z.to_nat index);
  hax_assert (shift + size <=? 8);;
  upd_ctxt (set_gpr_cache (<[Z.to_nat index := put_bytes x shift size value]> (em_gpr_cache c))).

Definition gpr_read (index size : Z) : M st Z := gpr_read_shifted index size 0.
Definition gpr_write (index size value : Z) : M st unit := gpr_write_shifted index size value 0.

Fixpoint flush_from (i : Z) (n : nat) (c : em_context_t) (v : V) : V :=
  match n with
  | O => v
  | S n =>
      let v := if has (em_gpr_cache_w c) (Z.shiftl 1 i)
               then write_gpr i (default 0 (em_gpr_cache c !! Z.to_nat i)) v else v in
      flush_from (i + 1) n c v
  end.

Definition gpr_cache_flush : M st unit :=
  c ← ctxt;
  upd_vcpu (flush_from 0 16 c);;
  upd_ctxt (set_gpr_cache_w 0).

Definition gpr_cache_invalidate : M st unit :=
  upd_ctxt (set_gpr_cache_r 0);; upd_ctxt (set_gpr_cache_w 0).

(** ** Access to guest memory *)
Definition is_translation_required (c : em_context_t) : bool :=
  if has (oc_flags (em_opcode c)) INSN_TWOMEM then true
  else if negb (em_rep (em_decoder c) =? 0) then true
  else false.

Definition get_canonical_address (addr vaddr_bits : Z) : Z :=
  u64 (Z.shiftr (s64 (u64 (Z.shiftl addr (64 - vaddr_bits)))) (64 - vaddr_bits)).

Definition get_linear_address (op : em_operand_t) : M st (option Z) :=
  s ← get;
  let d := em_decoder (es_ctxt s) in
  let base := get_segment_base (es_vcpu s) (op_seg op) in
  let addr :=
    if em_address_size d =? 2 then Some (op_ea op mod 2 ^ 16)
    else if em_address_size d =? 4 then Some (u32 (op_ea op))
    else if em_address_size d =? 8 then Some (u64 (op_ea op))
    else None in
  mret (match addr with
        | None => None
        | Some addr =>
            match em_mode d with
            | EM_MODE_PROT64 =>
                let addr := if (op_seg op =? SEG_FS) || (op_seg op =? SEG_GS)
                            then addr +! base else addr in
                Some (get_canonical_address addr 48)
            | EM_MODE_REAL => Some ((addr +! base) &! 0xFFFFF)
            | _ => Some ((addr +! base) &! 0xFFFFFFFF)
            end
        end).

Definition translation_flags (c : em_context_t) : Z :=
  if is_translation_required c then 0 else EM_OPS_NO_TRANSLATION.

Definition segmented_read (op : em_operand_t) (size : Z) : M st (em_status_t * Z) :=
  la ← get_linear_address op;
  match la with
  | None => mret (EM_ERROR, op_value op)
  | Some la => c ← ctxt; vcpu_call (read_memory la (op_value op) size (translation_flags c))
  end.

Definition segmented_write (op : em_operand_t) (size : Z) : M st em_status_t :=
  la ← get_linear_address op;
  match la with
  | None => mret EM_ERROR
  | Some la => c ← ctxt; vcpu_call (write_memory la (op_value op) size (translation_flags c))
  end.

(** ** Operands *)
Definition add_flag (f : Z) (op : em_operand_t) : em_operand_t :=
  set_op_flags (op_flags op |! f) op.

Definition sign_extend (size x : Z) : option Z :=
  if size =? 2 then Some (s16 (x mod 2 ^ 16)) else if size =? 4 then Some (s32 (u32 x))
  else if size =? 8 then Some (s64 x) else None.

Definition operand_read_bitop : M st em_status_t :=
  c ← ctxt;
  let base := em_dst c in
  let offs := em_src1 c in
  if has (op_flags base) OP_READ_PENDING then
    r ← vcpu_call (read_memory_post (op_value base) (op_size base));
    upd_ctxt (set_dst (set_value r.2 base));;
    mret r.1
  else
    x ← gpr_read (op_index offs) (op_size offs);
    match sign_extend (op_size offs) x with
    | None => mret EM_ERROR
    | Some offset =>
        let base := set_ea (op_ea base +! Z.shiftr offset 3) base in
        upd_ctxt (set_src1 (set_value (offset &! 7) offs));;
        r ← segmented_read base (op_size base);
        let base := set_value r.2 base in
        upd_ctxt (set_dst (if is_continue r.1 then base else add_flag OP_READ_PENDING base));;
        mret r.1
    end.

Definition operand_read (op : em_operand_t) : M st (em_status_t * em_operand_t) :=
  if has (op_flags op) OP_READ_FINISHED then mret (EM_CONTINUE, op)
  else if bool_decide (op_type op = OP_NONE) then mret (EM_CONTINUE, op)
  else
    r ← match op_type op with
        | OP_IMM => mret (EM_CONTINUE, op_value op)
        | OP_REG =>
            x ← gpr_read_shifted (op_index op) (op_size op) (op_shift op);
            mret (EM_CONTINUE, x)
        | OP_MEM =>
            if has (op_flags op) OP_READ_PENDING
            then vcpu_call (read_memory_post (op_value op) (op_size op))
            else segmented_read op (op_size op)
        | _ => mret (EM_ERROR, op_value op)
        end;
    let op := set_value r.2 op in
    mret (r.1, if is_continue r.1 then add_flag OP_READ_FINISHED op
               else add_flag OP_READ_PENDING op).

Definition operand_write (op : em_operand_t) : M st (em_status_t * em_operand_t) :=
  if has (op_flags op) OP_WRITE_FINISHED then mret (EM_CONTINUE, op)
  else if bool_decide (op_type op = OP_NONE) then mret (EM_CONTINUE, op)
  else
    rc ← match op_type op with
         | OP_IMM => mret EM_CONTINUE
         | OP_REG =>
             let size := if op_size op =? 4 then 8 else op_size op in
             gpr_write_shifted (op_index op) size (op_value op) (op_shift op);;
             mret EM_CONTINUE
         | OP_MEM =>
             if has (op_flags op) OP_WRITE_PENDING then mret EM_CONTINUE
             else segmented_write op (op_size op)
         | _ => mret EM_ERROR
         end;
    mret (rc, if is_continue rc then add_flag OP_WRITE_FINISHED op
              else add_flag OP_WRITE_PENDING op).

Definition register_add (reg_index addend : Z) : M st unit :=
  x ← gpr_read reg_index 8;
  gpr_write reg_index 8 (x +! addend).

(** ** Fetching the bytes of the instruction *)
Definition insn_fetch (n : nat) : M st Z :=
  d ← decoder;
  if INSTR_MAX_LEN <=? em_len d then mret 0
  else
    let bs := take n (drop (Z.to_nat (em_len d)) (em_insn d)) in
    hax_assert (bool_decide (length bs = n));;
    upd_decoder (set_len (u32 (em_len d + Z.of_nat n)));;
    mret (le_word bs).

Definition insn_fetch_u8 : M st Z := insn_fetch 1.
Definition insn_fetch_u16 : M st Z := insn_fetch 2.
Definition insn_fetch_u32 : M st Z := insn_fetch 4.
Definition insn_fetch_u64 : M st Z := insn_fetch 8.
Definition insn_fetch_s8 : M st Z := x ← insn_fetch_u8; mret (s8 x).
Definition insn_fetch_s16 : M st Z := x ← insn_fetch_u16; mret (s16 x).
Definition insn_fetch_s32 : M st Z := x ← insn_fetch_u32; mret (s32 x).
Definition insn_fetch_s64 : M st Z := x ← insn_fetch_u64; mret (s64 x).

(** What a prefix byte sets; [None] for a byte that is not a prefix. *)
Definition prefix_effect (b : Z) : option (decoder_t -> decoder_t) :=
  if b =? PREFIX_LOCK then Some (set_lock b)
  else if (b =? PREFIX_REPNE) || (b =? PREFIX_REPE) then Some (set_rep b)
  else if b =? 0x2E then Some (set_override_segment SEG_CS)
  else if b =? 0x36 then Some (set_override_segment SEG_SS)
  else if b =? 0x3E then Some (set_override_segment SEG_DS)
  else if b =? 0x26 then Some (set_override_segment SEG_ES)
  else if b =? 0x64 then Some (set_override_segment SEG_FS)
  else if b =? 0x65 then Some (set_override_segment SEG_GS)
  else if b =? 0x66 then Some (set_override_operand_size true)
  else if b =? 0x67 then Some (set_override_address_size true)
  else None.

(** At most 15 bytes are fetched before the loop ends. *)
Fixpoint decode_prefixes_loop (fuel : nat) : M st unit :=
  match fuel with
  | O => stuck
  | S fuel =>
      b ← insn_fetch_u8;
      match prefix_effect b with
      | Some f => upd_decoder f;; decode_prefixes_loop fuel
      | None => upd_decoder (fun d => set_len (u32 (em_len d - 1)) d)
      end
  end.
Definition decode_prefixes : M st unit := decode_prefixes_loop 16.

(** ** Operand decoders *)
(** Byte registers 4 to 7 are AH, CH, DH and BH without a REX prefix. *)
Definition reg_operand (d : decoder_t) (index : Z) (op : em_operand_t) : em_operand_t :=
  let op := set_op_type OP_REG (set_op_size (em_operand_size d) op) in
  if ((op_size op =? 1) && (em_rex d =? 0))%bool
  then set_shift (Z.shiftr index 2) (set_index (index &! 3) op)
  else set_shift 0 (set_index index op).

Definition decode_op_none (op : em_operand_t) : M st (em_status_t * em_operand_t) :=
  mret (EM_CONTINUE, set_op_type OP_NONE op).

Definition decode_op_modrm_reg (op : em_operand_t) : M st (em_status_t * em_operand_t) :=
  d ← decoder;
  mret (EM_CONTINUE,
        reg_operand d (modrm_reg (em_modrm d) |! Z.shiftl (rex_r (em_rex d)) 3) op).

Definition override_segment (d : decoder_t) (op : em_operand_t) : em_operand_t :=
  if negb (em_override_segment d =? SEG_NONE) then set_seg (em_override_segment d) op else op.

(** The 16-bit addressing forms: effective address and segment. *)
Definition modrm_ea16 (mod_ rm : Z) : M st (Z * Z) :=
  if rm =? 0 then
    bx ← gpr_read REG_RBX 2; si ← gpr_read REG_RSI 2; mret (bx + si, SEG_DS)
  else if rm =? 1 then
    bx ← gpr_read REG_RBX 2; di ← gpr_read REG_RDI 2; mret (bx + di, SEG_DS)
  else if rm =? 2 then
    bp ← gpr_read REG_RBP 2; si ← gpr_read REG_RSI 2; mret (bp + si, SEG_SS)
  else if rm =? 3 then
    bp ← gpr_read REG_RBP 2; di ← gpr_read REG_RDI 2; mret (bp + di, SEG_SS)
  else if rm =? 4 then si ← gpr_read REG_RSI 2; mret (si, SEG_DS)
  else if rm =? 5 then di ← gpr_read REG_RDI 2; mret (di, SEG_DS)
  else if rm =? 6 then
    if mod_ =? 0 then x ← insn_fetch_u16; mret (x, SEG_DS)
    else bp ← gpr_read REG_RBP 2; mret (bp, SEG_SS)
  else bx ← gpr_read REG_RBX 2; mret (bx, SEG_DS).

Definition modrm_disp16 (mod_ ea : Z) : M st Z :=
  if mod_ =? 1 then x ← insn_fetch_s8; mret (ea +! x)
  else if mod_ =? 2 then x ← insn_fetch_u16; mret (ea +! x)
  else mret ea.

(** The 32-bit and 64-bit forms, with the SIB byte. *)
Definition sib_ea (d : decoder_t) (mod_ : Z) : M st Z :=
  sib ← insn_fetch_u8;
  upd_decoder (set_sib sib);;
  let reg_base := sib_base sib |! Z.shiftl (rex_b (em_rex d)) 3 in
  let reg_index := sib_index sib |! Z.shiftl (rex_x (em_rex d)) 3 in
  ea ← (if ((reg_base &! 7 =? 5) && (mod_ =? 0))%bool
        then x ← insn_fetch_s32; mret (u64 x)
        else gpr_read reg_base (em_address_size d));
  if negb (reg_index =? 4) then
    x ← gpr_read reg_index (em_address_size d);
    mret (ea +! u64 (x * Z.shiftl 1 (sib_scale sib)))
  else mret ea.

Definition modrm_ea32 (d : decoder_t) (mod_ rm : Z) : M st Z :=
  if rm =? 4 then sib_ea d mod_
  else if ((mod_ =? 0) && (rm =? 5))%bool then x ← insn_fetch_s32; mret (u64 x)
  else gpr_read rm (em_address_size d).

Definition modrm_disp32 (mod_ ea : Z) : M st Z :=
  if mod_ =? 1 then x ← insn_fetch_s8; mret (ea +! x)
  else if mod_ =? 2 then x ← insn_fetch_s32; mret (ea +! x)
  else mret ea.

Definition decode_op_modrm_rm (op : em_operand_t) : M st (em_status_t * em_operand_t) :=
  d ← decoder;
  let mod_ := modrm_mod (em_modrm d) in
  let rm := modrm_rm (em_modrm d) in
  if mod_ =? 3 then
    mret (EM_CONTINUE, reg_operand d (rm |! Z.shiftl (rex_b (em_rex d)) 3) op)
  else
    let op := set_op_type OP_MEM (set_op_size (em_operand_size d) op) in
    r ← (if em_address_size d =? 2 then
           r ← modrm_ea16 mod_ rm;
           ea ← modrm_disp16 mod_ r.1;
           mret (ea, r.2)
         else if ((em_address_size d =? 4) || (em_address_size d =? 8))%bool then
           ea ← modrm_ea32 d mod_ rm;
           ea ← modrm_disp32 mod_ ea;
           mret (ea, SEG_DS)
         else mret (0, SEG_DS));
    mret (EM_CONTINUE, override_segment d (set_seg r.2 (set_ea r.1 op))).

Definition decode_op_modrm_rm8 (op : em_operand_t) : M st (em_status_t * em_operand_t) :=
  r ← decode_op_modrm_rm op; mret (r.1, set_op_size 1 r.2).
Definition decode_op_modrm_rm16 (op : em_operand_t) : M st (em_status_t * em_operand_t) :=
  r ← decode_op_modrm_rm op; mret (r.1, set_op_size 2 r.2).

Definition decode_op_vex_reg (op : em_operand_t) : M st (em_status_t * em_operand_t) :=
  d ← decoder;
  mret (EM_CONTINUE, set_op_type OP_REG (set_op_size (em_operand_size d)
          (set_shift 0 (set_index (Z.lnot (vex_v (em_vex d)) &! 0xF) op)))).

Definition decode_op_opc_reg (op : em_operand_t) : M st (em_status_t * em_operand_t) :=
  d ← decoder;
  mret (EM_CONTINUE, reg_operand d ((em_b d &! 7) |! Z.shiftl (rex_b (em_rex d)) 3) op).

Definition decode_op_moffs (op : em_operand_t) : M st (em_status_t * em_operand_t) :=
  d ← decoder;
  let op := set_seg SEG_DS (set_ea 0 (set_op_type OP_MEM (set_op_size (em_operand_size d) op))) in
  ea ← (if em_address_size d =? 2 then x ← insn_fetch_u16; mret (Some x)
        else if em_address_size d =? 4 then x ← insn_fetch_u32; mret (Some x)
        else if em_address_size d =? 8 then x ← insn_fetch_u64; mret (Some x)
        else mret None);
  match ea with
  | None => mret (EM_ERROR, op)
  | Some ea => mret (EM_CONTINUE, override_segment d (set_ea ea op))
  end.

Definition decode_op_simm (op : em_operand_t) : M st (em_status_t * em_operand_t) :=
  d ← decoder;
  let op := set_op_type OP_IMM (set_op_size (em_operand_size d) op) in
  x ← (if op_size op =? 1 then x ← insn_fetch_s8; mret (Some x)
       else if op_size op =? 2 then x ← insn_fetch_s16; mret (Some x)
       else if (op_size op =? 4) || (op_size op =? 8) then x ← insn_fetch_s32; mret (Some x)
       else mret None);
  match x with
  | None => mret (EM_ERROR, op)
  | Some x => mret (EM_CONTINUE, set_value (u64 x) op)
  end.

Definition decode_op_simm8 (op : em_operand_t) : M st (em_status_t * em_operand_t) :=
  x ← insn_fetch_s8;
  mret (EM_CONTINUE, set_value (u64 x) (set_op_type OP_IMM (set_op_size 1 op))).

Definition decode_op_acc (op : em_operand_t) : M st (em_status_t * em_operand_t) :=
  d ← decoder;
  mret (EM_CONTINUE, set_op_type OP_REG (set_op_size (em_operand_size d)
          (set_shift 0 (set_index REG_RAX op)))).

Definition decode_op_di (op : em_operand_t) : M st (em_status_t * em_operand_t) :=
  d ← decoder;
  ea ← gpr_read REG_RDI (em_address_size d);
  mret (EM_CONTINUE, set_op_type OP_MEM (set_op_size (em_operand_size d)
          (set_seg SEG_ES (set_ea ea op)))).

Definition decode_op_si (op : em_operand_t) : M st (em_status_t * em_operand_t) :=
  d ← decoder;
  ea ← gpr_read REG_RSI (em_address_size d);
  mret (EM_CONTINUE, override_segment d (set_op_type OP_MEM (set_op_size (em_operand_size d)
          (set_seg SEG_DS (set_ea ea op))))).

Definition run_decoder (k : em_operand_decoder_t) : em_operand_t -> M st (em_status_t * em_operand_t) :=
  match k with
  | op_none => decode_op_none | op_modrm_reg => decode_op_modrm_reg
  | op_modrm_rm => decode_op_modrm_rm | op_modrm_rm8 => decode_op_modrm_rm8
  | op_modrm_rm16 => decode_op_modrm_rm16 | op_vex_reg => decode_op_vex_reg
  | op_opc_reg => decode_op_opc_reg | op_moffs => decode_op_moffs
  | op_simm => decode_op_simm | op_simm8 => decode_op_simm8 | op_acc => decode_op_acc
  | op_di => decode_op_di | op_si => decode_op_si
  end.

(** One operand: a null decoder leaves it alone. *)
Definition decode_operand (k : option em_operand_decoder_t) (op : em_operand_t)
    : M st (em_status_t * em_operand_t) :=
  match k with
  | None => mret (EM_CONTINUE, op)
  | Some k => run_decoder k (set_op_flags 0 op)
  end.

Definition decode_operands : M st em_status_t :=
  c ← ctxt;
  let opcode := em_opcode c in
  r ← decode_operand (oc_decode_dst opcode) (em_dst c);
  upd_ctxt (set_dst r.2);;
  if negb (is_continue r.1) then mret r.1
  else
    r ← decode_operand (oc_decode_src1 opcode) (em_src1 c);
    upd_ctxt (set_src1 r.2);;
    if negb (is_continue r.1) then mret r.1
    else
      r ← decode_operand (oc_decode_src2 opcode) (em_src2 c);
      upd_ctxt (set_src2 r.2);;
      mret r.1.

(** ** Soft emulation *)
Definition set_dst_value (x : Z) : M st unit :=
  upd_ctxt (fun c => set_dst (set_value x (em_dst c)) c).

Definition em_andn_soft : M st em_status_t :=
  c ← ctxt;
  let temp := u64 (Z.lnot (op_value (em_src1 c))) &! op_value (em_src2 c) in
  let '(temp, signbit) :=
    if em_operand_size (em_decoder c) =? 4 then (temp &! 0xFFFFFFFF, 31) else (temp, 63) in
  set_dst_value temp;;
  let rflags := Z.ldiff (em_rflags c) RFLAGS_MASK_OSZAPC in
  let rflags := rflags |! (if temp =? 0 then RFLAGS_ZF else 0) in
  let rflags := rflags |! (if negb (Z.shiftr temp signbit =? 0) then RFLAGS_SF else 0) in
  upd_ctxt (set_rflags rflags);;
  mret EM_CONTINUE.

(** A shift by 64 or more is undefined. *)
Definition em_bextr_soft : M st em_status_t :=
  c ← ctxt;
  let start := op_value (em_src2 c) &! 0xFF in
  let len := Z.shiftr (op_value (em_src2 c)) 8 &! 0xFF in
  let temp := op_value (em_src1 c) in
  let temp := if em_operand_size (em_decoder c) =? 4 then temp &! 0xFFFFFFFF else temp in
  hax_assert ((start <? 64) && (len <? 64))%bool;;
  let temp := Z.shiftr temp start in
  let temp := temp &! u64 (Z.lnot (u64 (Z.shiftl (2 ^ 64 - 1) len))) in
  set_dst_value temp;;
  let rflags := Z.ldiff (em_rflags c) RFLAGS_MASK_OSZAPC in
  upd_ctxt (set_rflags (rflags |! (if temp =? 0 then RFLAGS_ZF else 0)));;
  mret EM_CONTINUE.

Definition em_mov : M st em_status_t :=
  c ← ctxt;
  set_dst_value (put_bytes (op_value (em_dst c)) 0 (em_operand_size (em_decoder c))
                   (op_value (em_src1 c)));;
  mret EM_CONTINUE.

Definition em_movzx : M st em_status_t :=
  c ← ctxt;
  set_dst_value (put_bytes 0 0 (op_size (em_src1 c)) (op_value (em_src1 c)));;
  mret EM_CONTINUE.

Definition em_movsx : M st em_status_t :=
  c ← ctxt;
  let src := em_src1 c in
  let extension := if has (op_value src) (Z.shiftl 1 (8 * op_size src - 1))
                   then 2 ^ 64 - 1 else 0 in
  let x := put_bytes 0 0 (op_size (em_dst c)) extension in
  set_dst_value (put_bytes x 0 (op_size src) (op_value src));;
  mret EM_CONTINUE.

Definition em_push : M st em_status_t :=
  c ← ctxt;
  let d := em_decoder c in
  register_add REG_RSP (- em_operand_size d);;
  ea ← gpr_read REG_RSP (em_address_size d);
  c ← ctxt;
  let sp := set_value (op_value (em_src1 c)) (set_seg SEG_SS (set_ea ea
              (set_op_size (em_operand_size d) (set_op_type OP_MEM (em_dst c))))) in
  r ← operand_write sp;
  upd_ctxt (set_dst r.2);;
  mret r.1.

Definition em_pop : M st em_status_t :=
  c ← ctxt;
  let d := em_decoder c in
  ea ← gpr_read REG_RSP (em_address_size d);
  let sp := set_seg SEG_SS (set_ea ea
              (set_op_size (em_operand_size d) (set_op_type OP_MEM (em_src1 c)))) in
  register_add REG_RSP (em_operand_size d);;
  r ← operand_read sp;
  upd_ctxt (set_src1 r.2);;
  if negb (is_continue r.1) then mret r.1
  else set_dst_value (op_value r.2);; mret r.1.

Definition em_xchg : M st em_status_t :=
  c ← ctxt;
  let src1 := op_value (em_src1 c) in
  let src2 := op_value (em_src2 c) in
  upd_ctxt (fun c => set_src2 (set_value src1 (em_src2 c)) (set_src1 (set_value src2 (em_src1 c)) c));;
  c ← ctxt;
  r ← operand_write (em_src1 c);
  upd_ctxt (set_src1 r.2);;
  if negb (is_continue r.1) then mret r.1
  else
    c ← ctxt;
    r ← operand_write (em_src2 c);
    upd_ctxt (set_src2 r.2);;
    mret r.1.

Definition soft_handler (h : softop_t) : M st em_status_t :=
  match h with
  | soft_andn => em_andn_soft | soft_bextr => em_bextr_soft | soft_mov => em_mov
  | soft_movzx => em_movzx | soft_movsx => em_movsx | soft_push => em_push
  | soft_pop => em_pop | soft_xchg => em_xchg
  end.

(** ** Decoding *)
Definition default_sizes (m : em_mode_t) : Z * Z :=
  match m with
  | EM_MODE_REAL | EM_MODE_PROT16 => (2, 2)
  | EM_MODE_PROT32 => (4, 4)
  | EM_MODE_PROT64 => (4, 8)
  end.

Definition reset_decoder (insn : list Z) (d : decoder_t) : decoder_t :=
  let sizes := default_sizes (em_mode d) in
  set_len 0 (set_rep 0 (set_lock 0 (set_insn insn (set_override_address_size false
    (set_override_operand_size false (set_override_segment SEG_NONE
      (set_address_size sizes.2 (set_operand_size sizes.1 d)))))))).

Definition apply_prefixes (d : decoder_t) : decoder_t :=
  let d := if em_override_operand_size d
           then set_operand_size (Z.lxor (em_operand_size d) (Z.lor 2 4)) d else d in
  if em_override_address_size d
  then set_address_size (Z.lxor (em_address_size d)
         (if bool_decide (em_mode d = EM_MODE_PROT64) then Z.lor 4 8 else Z.lor 2 4)) d
  else d.

Definition fetch_opcode_byte : M st Z :=
  upd_decoder (set_rex 0);;
  b ← insn_fetch_u8;
  d ← decoder;
  if (bool_decide (em_mode d = EM_MODE_PROT64) && (0x40 <=? b) && (b <=? 0x4F))%bool then
    upd_decoder (set_rex b);;
    (if negb (rex_w b =? 0) then upd_decoder (set_operand_size 8) else mret tt);;
    insn_fetch_u8
  else mret b.

Definition set_opcode_from (table : list em_opcode_t) (b : Z) : M st unit :=
  o ← of_option (table !! Z.to_nat b); upd_ctxt (set_opcode o).

(** The VEX prefix: [None] is a refused instruction. *)
Definition fetch_vex (prefix : Z) : M st Z :=
  if prefix =? 0xC4 then insn_fetch_u16
  else
    x ← insn_fetch_u8;
    let vex := Z.shiftl x 8 in
    let vex := set_field vex 7 1 (vex_w vex) in
    let vex := set_field vex 15 1 1 in
    let vex := set_field vex 6 1 1 in
    let vex := set_field vex 5 1 1 in
    mret (set_field vex 0 5 1).

Definition decode_vex (prefix : Z) : M st (option Z) :=
  vex ← fetch_vex prefix;
  upd_decoder (set_vex vex);;
  d ← decoder;
  if (negb (bool_decide (em_mode d = EM_MODE_PROT64)) && ((vex_r vex =? 0) || (vex_x vex =? 0)))%bool
  then mret None
  else if (negb (em_lock d =? 0) || negb (em_rep d =? 0) || em_override_operand_size d ||
           negb (em_rex d =? 0))%bool
  then mret None
  else
    upd_decoder (fun d =>
      set_rex (set_field (set_field (set_field (em_rex d) 2 1 (Z.lnot (vex_r vex)))
                 1 1 (Z.lnot (vex_x vex))) 0 1 (Z.lnot (vex_b vex))) d);;
    (if (bool_decide (em_mode d = EM_MODE_PROT64) && negb (vex_w vex =? 0))%bool
     then upd_decoder (set_operand_size 8) else mret tt);;
    b ← insn_fetch_u8;
    if vex_m vex =? 1 then set_opcode_from opcode_table_0F b;; mret (Some b)
    else if vex_m vex =? 2 then set_opcode_from opcode_table_0F38 b;; mret (Some b)
    else if vex_m vex =? 3 then set_opcode_from opcode_table_0F3A b;; mret (Some b)
    else mret None.

Definition decode_opcode (b : Z) : M st (option Z) :=
  set_opcode_from opcode_table b;;
  if b =? 0x0F then
    b ← insn_fetch_u8;
    if b =? 0x38 then b ← insn_fetch_u8; set_opcode_from opcode_table_0F38 b;; mret (Some b)
    else if b =? 0x3A then b ← insn_fetch_u8; set_opcode_from opcode_table_0F3A b;; mret (Some b)
    else set_opcode_from opcode_table_0F b;; mret (Some b)
  else if ((b =? 0xC4) || (b =? 0xC5))%bool then decode_vex b
  else mret (Some b).

(** A group member replaces the handler and adds its flags and decoders. *)
Definition join_decoder (member whole : option em_operand_decoder_t) : option em_operand_decoder_t :=
  if bool_decide (member = Some op_none) then whole else member.

Definition join_group (whole member : em_opcode_t) : em_opcode_t :=
  EmOpcode (oc_handler member)
    (join_decoder (oc_decode_dst member) (oc_decode_dst whole))
    (join_decoder (oc_decode_src1 member) (oc_decode_src1 whole))
    (join_decoder (oc_decode_src2 member) (oc_decode_src2 whole))
    (oc_flags whole |! oc_flags member).

(** [false]: the pointer to the group is null. *)
Definition apply_group : M st bool :=
  c ← ctxt;
  let opcode := em_opcode c in
  if negb (has (oc_flags opcode) INSN_GROUP) then mret true
  else
    match oc_handler opcode with
    | NoHandler => mret false
    | Group g =>
        member ← of_option (opcode_group g !! Z.to_nat (modrm_opc (em_modrm (em_decoder c))));
        upd_ctxt (set_opcode (join_group opcode member));;
        mret true
    | _ => stuck
    end.

Definition finish_sizes (c : em_context_t) : em_context_t :=
  let flags := oc_flags (em_opcode c) in
  let d := em_decoder c in
  let d := if has flags INSN_BYTEOP then set_operand_size 1 d else d in
  let d := if (has flags INSN_STACK && (em_operand_size d =? 4) &&
               bool_decide (em_mode d = EM_MODE_PROT64))%bool
           then set_operand_size 8 d else d in
  set_decoder d c.

Definition is_implemented (o : em_opcode_t) : bool :=
  (negb (has (oc_flags o) INSN_NOTIMPL) &&
   match oc_handler o with NoHandler => false | _ => true end)%bool.

Definition em_decode_insn (insn : list Z) : M st em_status_t :=
  upd_ctxt (set_gpr_cache_r 0);;
  upd_ctxt (set_gpr_cache_w 0);;
  upd_decoder (reset_decoder insn);;
  decode_prefixes;;
  upd_decoder apply_prefixes;;
  b ← fetch_opcode_byte;
  b ← decode_opcode b;
  match b with
  | None => mret EM_ERROR
  | Some b =>
      upd_decoder (set_b b);;
      c ← ctxt;
      (if has (oc_flags (em_opcode c)) INSN_MODRM
       then x ← insn_fetch_u8; upd_decoder (set_modrm x) else mret tt);;
      ok ← apply_group;
      if negb ok then mret EM_ERROR
      else
        upd_ctxt finish_sizes;;
        c ← ctxt;
        if negb (is_implemented (em_opcode c)) then mret EM_ERROR
        else if (negb (em_rep (em_decoder c) =? 0) &&
                 negb (has (oc_flags (em_opcode c)) INSN_STRING))%bool
        then mret EM_ERROR
        else decode_operands
  end.

(** ** Execution *)
(** How one pass through [em_emulate_insn] ends: [goto done], [goto exit] with a status, or
    [goto restart]. *)
Inductive pass_t := Done | Exit (rc : em_status_t) | Restart.

(** [rc = m; if (rc != EM_CONTINUE) goto exit;] *)
Definition or_exit (m : M st em_status_t) (k : M st pass_t) : M st pass_t :=
  rc ← m; if is_continue rc then k else mret (Exit rc).

Definition read_operand (get_op : em_context_t -> em_operand_t)
    (set_op : em_operand_t -> em_context_t -> em_context_t) : M st em_status_t :=
  c ← ctxt;
  r ← operand_read (get_op c);
  upd_ctxt (set_op r.2);;
  mret r.1.

Definition write_dst : M st em_status_t :=
  c ← ctxt;
  r ← operand_write (em_dst c);
  upd_ctxt (set_dst r.2);;
  mret r.1.

Definition is_memory_bitop (c : em_context_t) : bool :=
  (has (oc_flags (em_opcode c)) INSN_BITOP && bool_decide (op_type (em_dst c) = OP_MEM) &&
   bool_decide (op_type (em_src1 c) = OP_REG))%bool.

Definition input_operands (k : M st pass_t) : M st pass_t :=
  c ← ctxt;
  if is_memory_bitop c then or_exit operand_read_bitop k
  else
    or_exit (if has (oc_flags (em_opcode c)) INSN_DST_NR then mret EM_CONTINUE
             else read_operand em_dst set_dst)
      (or_exit (read_operand em_src1 set_src1)
         (or_exit (read_operand em_src2 set_src2) k)).

Definition FASTOP_SIZE (size : Z) : Z :=
  if size =? 8 then 8 else if size =? 4 then 4 else if size =? 2 then 2 else 1.

Definition run_fastop (f : fastop_t) : M st unit :=
  c ← ctxt;
  let eflags := em_rflags c &! RFLAGS_MASK_OSZAPC in
  let r := fastop_dispatch f (FASTOP_SIZE (op_size (em_dst c))) (op_value (em_dst c))
             (op_value (em_src1 c)) (op_value (em_src2 c)) eflags in
  set_dst_value r.1;;
  upd_ctxt (set_rflags (Z.ldiff (em_rflags c) RFLAGS_MASK_OSZAPC |!
                        (r.2 &! RFLAGS_MASK_OSZAPC))).

Definition execute : M st em_status_t :=
  c ← ctxt;
  match oc_handler (em_opcode c) with
  | Fast f => run_fastop f;; mret EM_CONTINUE
  | Soft h => soft_handler h
  | _ => stuck
  end.

(** The direction of string instructions. *)
Definition string_step (c : em_context_t) : Z :=
  em_operand_size (em_decoder c) * (if has (em_rflags c) RFLAGS_DF then -1 else 1).

Definition repeat_ends (c : em_context_t) : bool :=
  let rep := em_rep (em_decoder c) in
  (has (oc_flags (em_opcode c)) INSN_REPX &&
   ((rep =? PREFIX_REPNE) && has (em_rflags c) RFLAGS_ZF ||
    (rep =? PREFIX_REPE) && negb (has (em_rflags c) RFLAGS_ZF)))%bool.

Definition next_iteration : M st pass_t :=
  c ← ctxt;
  if em_rep (em_decoder c) =? 0 then mret Done
  else
    register_add REG_RCX (-1);;
    c ← ctxt;
    if repeat_ends c then mret Done
    else or_exit decode_operands (gpr_cache_flush;; mret Restart).

Definition string_registers : M st unit :=
  c ← ctxt;
  (if bool_decide (oc_decode_dst (em_opcode c) = Some op_di)
   then register_add REG_RDI (string_step c) else mret tt);;
  (if bool_decide (oc_decode_src1 (em_opcode c) = Some op_si)
   then register_add REG_RSI (string_step c) else mret tt).

Definition output_operands : M st pass_t :=
  c ← ctxt;
  (if has (oc_flags (em_opcode c)) INSN_NOFLAGS then mret tt
   else upd_vcpu (write_rflags (em_rflags c)));;
  or_exit (if has (oc_flags (em_opcode c)) INSN_DST_NW then mret EM_CONTINUE else write_dst)
    (string_registers;; next_iteration).

(** From the label [restart] on. *)
Definition em_pass : M st pass_t :=
  c ← ctxt;
  go ← (if em_rep (em_decoder c) =? 0 then mret true
        else x ← gpr_read REG_RCX (em_address_size (em_decoder c)); mret (negb (x =? 0)));
  if negb go then mret Done
  else
    (if has (oc_flags (em_opcode c)) INSN_NOFLAGS then mret tt
     else s ← get; upd_ctxt (set_rflags (read_rflags (es_vcpu s))));;
    input_operands (or_exit execute output_operands).

Fixpoint em_passes (fuel : nat) : M st pass_t :=
  match fuel with
  | O => stuck
  | S fuel =>
      r ← em_pass;
      match r with
      | Restart => em_passes fuel
      | r => mret r
      end
  end.

(** A repeated instruction runs at most once for each value of the count register. *)
Definition repeat_fuel : M st nat :=
  c ← ctxt;
  if em_rep (em_decoder c) =? 0 then mret 1%nat
  else x ← gpr_read REG_RCX (em_address_size (em_decoder c)); mret (S (Z.to_nat x)).

Definition em_emulate_insn : M st em_status_t :=
  upd_ctxt (set_finished false);;
  fuel ← repeat_fuel;
  r ← em_passes fuel;
  rc ← match r with
       | Done =>
           upd_ctxt (set_finished true);;
           c ← ctxt;
           upd_vcpu (advance_rip (em_len (em_decoder c)));;
           gpr_cache_flush;;
           mret EM_CONTINUE
       | Exit rc => mret rc
       | Restart => stuck
       end;
  gpr_cache_invalidate;;
  mret rc.
End Emulator.
