(* ===== verification/EmCache.v ===== *)
(** * The register cache of the emulator

    The registers that the emulator works on are the cached ones, where there are, and
    those of the virtual CPU elsewhere ([reg]).  Reads and writes through the cache are
    reads and writes of [reg]; the virtual CPU sees them when the cache is flushed, and
    not at all when it is discarded. *)

From stdpp Require Import base numbers list.
From Stdlib Require Import ZArith Lia.
From S2P Require Import Prelude EmTypes Emulate.
#[local] Open Scope Z_scope.

(** What the emulator relies on: the callbacks that do not write registers leave them
    alone. *)
Class EmLaws (V : Type) {EO : EmOps V} : Prop := {
  gpr_range v i : 0 <= read_gpr v i < 2 ^ 64;
  gpr_write_same i x v : 0 <= i < 16 -> 0 <= x < 2 ^ 64 -> read_gpr (write_gpr i x v) i = x;
  gpr_write_other i j x v : 0 <= i < 16 -> 0 <= j < 16 -> i <> j ->
    read_gpr (write_gpr i x v) j = read_gpr v j;
  gpr_write_rflags x v i : read_gpr (write_rflags x v) i = read_gpr v i;
  gpr_advance_rip n v i : read_gpr (advance_rip n v) i = read_gpr v i;
  rflags_write x v : read_rflags (write_rflags x v) = x;
  rflags_write_gpr i x v : read_rflags (write_gpr i x v) = read_rflags v;
  rflags_advance_rip n v : read_rflags (advance_rip n v) = read_rflags v;
  gpr_read_memory ea x size flags v r v' i :
    read_memory ea x size flags v = Some (r, v') -> read_gpr v' i = read_gpr v i;
  gpr_read_memory_post x size v r v' i :
    read_memory_post x size v = Some (r, v') -> read_gpr v' i = read_gpr v i;
  gpr_write_memory ea x size flags v r v' i :
    write_memory ea x size flags v = Some (r, v') -> read_gpr v' i = read_gpr v i;
}.

(** ** Bits *)
Lemma has_bit x i : 0 <= i -> has x (Z.shiftl 1 i) = Z.testbit x i.
Proof.
  intros Hi. unfold has. rewrite Z.shiftl_1_l. destruct (Z.testbit x i) eqn:Hb.
  - apply negb_true_iff, Z.eqb_neq. intros H0.
    assert (Ht : Z.testbit (x &! 2 ^ i) i = true) by (by rewrite Z.land_spec, Hb, Z.pow2_bits_true).
    by rewrite H0, Z.bits_0 in Ht.
  - apply negb_false_iff, Z.eqb_eq, Z.bits_inj'. intros j Hj.
    rewrite Z.land_spec, Z.bits_0. destruct (decide (i = j)) as [<-|Hne]; [by rewrite Hb|].
    rewrite Z.pow2_bits_false by lia. apply andb_false_r.
Qed.

Lemma testbit_lor_shiftl x i j : 0 <= i -> 0 <= j ->
  Z.testbit (x |! Z.shiftl 1 i) j = (Z.testbit x j || bool_decide (i = j))%bool.
Proof.
  intros Hi Hj. rewrite Z.lor_spec, Z.shiftl_1_l. f_equal. rewrite Z.pow2_bits_eqb by lia.
  destruct (Z.eqb_spec i j); by case_bool_decide.
Qed.

Lemma field_testbit x lo w j : 0 <= lo -> 0 <= w -> 0 <= j ->
  Z.testbit (field x lo w) j = (Z.testbit x (lo + j) && bool_decide (j < w))%bool.
Proof.
  intros Hlo Hw Hj. unfold field. rewrite Z.land_spec, Z.shiftr_spec, Z.testbit_ones_nonneg by lia.
  rewrite (Z.add_comm lo). f_equal. destruct (Z.ltb_spec j w); by case_bool_decide; try lia.
Qed.

Lemma field_range x lo w : 0 <= w -> 0 <= field x lo w < 2 ^ w.
Proof. intros Hw. unfold field. rewrite Z.land_ones by lia. apply Z.mod_pos_bound. lia. Qed.

Lemma set_field_testbit x lo w v j : 0 <= lo -> 0 <= w -> 0 <= j ->
  Z.testbit (set_field x lo w v) j =
  if bool_decide (lo <= j < lo + w) then Z.testbit v (j - lo) else Z.testbit x j.
Proof.
  intros Hlo Hw Hj. unfold set_field.
  rewrite Z.lor_spec, Z.ldiff_spec, !Z.shiftl_spec by lia.
  case_bool_decide as Hin.
  - rewrite Z.testbit_ones_nonneg, Z.land_spec, Z.testbit_ones_nonneg by lia.
    rewrite (proj2 (Z.ltb_lt _ _)) by lia. cbn. by rewrite andb_false_r, andb_true_r.
  - destruct (Z.lt_ge_cases j lo) as [Hlt|Hge].
    + rewrite !(Z.testbit_neg_r _ (j - lo)) by lia. cbn. by rewrite andb_true_r, orb_false_r.
    + rewrite Z.land_spec, Z.testbit_ones_nonneg by lia.
      rewrite (proj2 (Z.ltb_ge _ _)) by lia. cbn. by rewrite andb_true_r, andb_false_r, orb_false_r.
Qed.

Lemma bits_range x n : 0 <= n -> (forall j, n <= j -> Z.testbit x j = false) -> 0 <= x < 2 ^ n.
Proof.
  intros Hn Hx. replace x with (x mod 2 ^ n); [apply Z.mod_pos_bound; lia|].
  apply Z.bits_inj'. intros j Hj. destruct (Z.lt_ge_cases j n).
  - by rewrite Z.mod_pow2_bits_low by lia.
  - rewrite Z.mod_pow2_bits_high by lia. by rewrite Hx.
Qed.

Lemma range_bits x n j : 0 <= x < 2 ^ n -> n <= j -> Z.testbit x j = false.
Proof.
  intros Hx Hj. destruct (Z.eq_dec x 0) as [->|]; [apply Z.bits_0|].
  apply Z.bits_above_log2; [lia|]. enough (Z.log2 x < n) by lia. apply Z.log2_lt_pow2; lia.
Qed.

Lemma put_bytes_range x shift size v :
  0 <= x < 2 ^ 64 -> 0 <= shift -> 0 <= size -> shift + size <= 8 ->
  0 <= put_bytes x shift size v < 2 ^ 64.
Proof.
  intros Hx Hs Hz Hle. apply bits_range; [lia|]. intros j Hj. unfold put_bytes.
  rewrite set_field_testbit by lia. rewrite bool_decide_eq_false_2 by lia.
  by apply (range_bits x 64).
Qed.

(** ** The registers *)
Section Cache.
Context {V : Type} {EO : EmOps V} {EL : EmLaws V}.
#[local] Notation st := (em_state V).
Implicit Types (s : st) (c : em_context_t) (v : V).

Definition cached c i : bool := Z.testbit (em_gpr_cache_r c) i.
Definition dirty c i : bool := Z.testbit (em_gpr_cache_w c) i.

Definition reg s (i : Z) : Z :=
  if cached (es_ctxt s) i then default 0 (em_gpr_cache (es_ctxt s) !! Z.to_nat i)
  else read_gpr (es_vcpu s) i.

Record cache_ok s : Prop := {
  ck_len : length (em_gpr_cache (es_ctxt s)) = 16%nat;
  ck_dirty i : 0 <= i < 16 -> dirty (es_ctxt s) i = true -> cached (es_ctxt s) i = true;
  ck_clean i : 0 <= i < 16 -> dirty (es_ctxt s) i = false -> reg s i = read_gpr (es_vcpu s) i;
  ck_range : Forall (fun x => 0 <= x < 2 ^ 64) (em_gpr_cache (es_ctxt s));
}.

(** The other fields of the context stay. *)
Definition only_cache c c' : Prop :=
  exists x r w, c' = set_gpr_cache x (set_gpr_cache_r r (set_gpr_cache_w w c)).

Lemma only_cache_refl c : only_cache c c.
Proof. exists (em_gpr_cache c), (em_gpr_cache_r c), (em_gpr_cache_w c). by destruct c. Qed.

Lemma only_cache_trans c1 c2 c3 : only_cache c1 c2 -> only_cache c2 c3 -> only_cache c1 c3.
Proof. intros (x & r & w & ->) (x' & r' & w' & ->). by eexists _, _, _. Qed.

Record cache_step s s' (f : Z -> Z) : Prop := {
  cs_vcpu : es_vcpu s' = es_vcpu s;
  cs_ok : cache_ok s';
  cs_only : only_cache (es_ctxt s) (es_ctxt s');
  cs_reg i : 0 <= i < 16 -> reg s' i = f i;
}.

(** Reduction of field accesses only. *)
Ltac fields := cbn [es_ctxt es_vcpu em_gpr_cache em_gpr_cache_r em_gpr_cache_w set_gpr_cache
  set_gpr_cache_r set_gpr_cache_w].

Lemma reg_range s i : cache_ok s -> 0 <= i < 16 -> 0 <= reg s i < 2 ^ 64.
Proof.
  intros [Hl _ _ Hr] Hi. unfold reg. destruct (cached _ i); [|apply gpr_range].
  destruct (lookup_lt_is_Some_2 (em_gpr_cache (es_ctxt s)) (Z.to_nat i)) as [x Hx]; [lia|].
  rewrite Hx. exact (Forall_lookup_1 _ _ _ _ Hr Hx).
Qed.

Lemma gpr_load_rule s i : cache_ok s -> 0 <= i < 16 ->
  exists s', gpr_load i s = Some (tt, s') /\ cache_step s s' (reg s) /\
    em_gpr_cache_w (es_ctxt s') = em_gpr_cache_w (es_ctxt s) /\
    em_gpr_cache (es_ctxt s') !! Z.to_nat i = Some (reg s i) /\ cached (es_ctxt s') i = true.
Proof.
  intros Hok Hi. pose proof Hok as [Hl Hd Hc Hr]. unfold gpr_load, get.
  erewrite bind_run by reflexivity. rewrite has_bit by lia.
  destruct (lookup_lt_is_Some_2 (em_gpr_cache (es_ctxt s)) (Z.to_nat i)) as [x Hx]; [lia|].
  destruct (Z.testbit (em_gpr_cache_r (es_ctxt s)) i) eqn:Hb.
  { exists s. split; [done|]. split; [by constructor; [|done|apply only_cache_refl|]|].
    split; [done|]. split; [|done]. unfold reg, cached. by rewrite Hb, Hx. }
  destruct s as [c v]. fields; cbn [es_ctxt es_vcpu] in *. eexists. split; [reflexivity|].
  assert (Hreg : forall j, 0 <= j < 16 ->
    reg (EmState (set_gpr_cache_r (em_gpr_cache_r c |! Z.shiftl 1 i)
      (set_gpr_cache (<[Z.to_nat i:=read_gpr v i]> (em_gpr_cache c)) c)) v) j = reg (EmState c v) j).
  { intros j Hj. unfold reg, cached. fields. rewrite testbit_lor_shiftl by lia.
    destruct (decide (i = j)) as [<-|Hne].
    - rewrite bool_decide_eq_true_2, orb_true_r, Hb by done.
      by rewrite list_lookup_insert_eq by (eapply lookup_lt_Some; exact Hx).
    - rewrite bool_decide_eq_false_2, orb_false_r by done.
      rewrite list_lookup_insert_ne; [done|]. intros He. apply Hne. lia. }
  split; [constructor; fields; [done| |by eexists _, _, (em_gpr_cache_w c); destruct c|done]|].
  - constructor; fields.
    + by rewrite length_insert.
    + intros j Hj Hw. unfold cached. fields. rewrite testbit_lor_shiftl by lia.
      specialize (Hd j Hj Hw). unfold cached in Hd. by rewrite Hd.
    + intros j Hj Hw. rewrite Hreg by done. by apply Hc.
    + apply Forall_insert; [done|apply gpr_range].
  - split; [done|]. split.
    + fields. rewrite list_lookup_insert_eq by (eapply lookup_lt_Some; exact Hx).
      unfold reg, cached. fields. by rewrite Hb.
    + unfold cached. fields. rewrite testbit_lor_shiftl by lia.
      rewrite bool_decide_eq_true_2 by done. apply orb_true_r.
Qed.

Lemma gpr_read_rule s i size shift :
  cache_ok s -> 0 <= i < 16 -> shift + size <= 8 ->
  exists s', gpr_read_shifted i size shift s = Some (get_bytes (reg s i) shift size, s') /\
    cache_step s s' (reg s).
Proof.
  intros Hok Hi Hle. destruct (gpr_load_rule s i Hok Hi) as (s' & Hrun & Hs & _ & Hx & _).
  exists s'. split; [|done]. unfold gpr_read_shifted. erewrite bind_run by exact Hrun.
  unfold ctxt. rewrite gets_run. erewrite of_option_run by exact Hx.
  by rewrite assert_run by (apply Z.leb_le; lia).
Qed.

Definition upd (f : Z -> Z) (i x : Z) : Z -> Z := fun j => if decide (i = j) then x else f j.

Lemma gpr_write_rule s i size value shift :
  cache_ok s -> 0 <= i < 16 -> 0 <= shift -> 0 <= size -> shift + size <= 8 ->
  exists s', gpr_write_shifted i size value shift s = Some (tt, s') /\
    cache_step s s' (upd (reg s) i (put_bytes (reg s i) shift size value)).
Proof.
  intros Hok Hi Hs0 Hz Hle. destruct (gpr_load_rule s i Hok Hi) as (s1 & Hrun & Hs & Hw1 & Hx & Hc1).
  unfold gpr_write_shifted. erewrite bind_run by exact Hrun.
  unfold ctxt. rewrite gets_run. erewrite (bind_run (upd_ctxt _)) by reflexivity.
  erewrite of_option_run by exact Hx. rewrite assert_run by (apply Z.leb_le; lia).
  eexists. split; [reflexivity|]. destruct Hs as [Hv Hok1 Honly Hreg].
  set (y := put_bytes _ _ _ _). set (s' := EmState _ _).
  assert (Hup : forall j, 0 <= j < 16 -> reg s' j = upd (reg s) i y j).
  { intros j Hj. unfold upd. case_decide as Hd.
    - subst j. unfold reg, cached, s'. fields. unfold cached in Hc1. rewrite Hc1.
      by rewrite list_lookup_insert_eq by (eapply lookup_lt_Some; exact Hx).
    - rewrite <- (Hreg j Hj). unfold reg, cached, s'. fields.
      rewrite list_lookup_insert_ne; [done|]. intros He. apply Hd. lia. }
  constructor; [done| | |done].
  - pose proof Hok1 as [Hl1 Hd1 Hcl1 Hr1]. constructor; subst s'; fields.
    + by rewrite length_insert.
    + intros j Hj. unfold dirty, cached. fields. rewrite testbit_lor_shiftl by lia.
      intros Hor. destruct (decide (i = j)) as [<-|Hne]; [exact Hc1|].
      rewrite bool_decide_eq_false_2, orb_false_r in Hor by done. by apply Hd1.
    + intros j Hj. unfold dirty. fields. rewrite testbit_lor_shiftl by lia.
      intros [Hor Hne]%orb_false_iff. apply bool_decide_eq_false in Hne.
      rewrite Hup by done. unfold upd. rewrite decide_False by done.
      rewrite <- (Hreg j Hj). by apply Hcl1.
    + apply Forall_insert; [done|]. apply put_bytes_range; [by apply reg_range|done..].
  - eapply only_cache_trans; [exact Honly|]. by eexists _, (em_gpr_cache_r _), _.
Qed.

(** ** Flushing and discarding *)
Lemma flush_from_spec n i c v : 0 <= i -> i + Z.of_nat n = 16 ->
  Forall (fun x => 0 <= x < 2 ^ 64) (em_gpr_cache c) ->
  forall j, 0 <= j < 16 -> read_gpr (flush_from i n c v) j =
    if (bool_decide (i <= j) && dirty c j)%bool
    then default 0 (em_gpr_cache c !! Z.to_nat j) else read_gpr v j.
Proof.
  intros Hi Hn Hr. revert i v Hi Hn. induction n as [|n IH]; intros i v Hi Hn j Hj.
  { rewrite bool_decide_eq_false_2 by lia. done. }
  cbn [flush_from]. rewrite IH by lia. rewrite has_bit by lia. fold (dirty c i).
  assert (Hrx : 0 <= default 0 (em_gpr_cache c !! Z.to_nat i) < 2 ^ 64).
  { destruct (em_gpr_cache c !! Z.to_nat i) as [x|] eqn:E; cbn; [|lia].
    exact (Forall_lookup_1 _ _ _ _ Hr E). }
  destruct (decide (i = j)) as [<-|Hne].
  - rewrite (bool_decide_eq_false_2 (i + 1 <= i)), (bool_decide_eq_true_2 (i <= i)) by lia. cbn.
    destruct (dirty c i); [|done]. by apply gpr_write_same.
  - replace (bool_decide (i <= j)) with (bool_decide (i + 1 <= j))
      by (apply bool_decide_ext; lia).
    destruct (bool_decide (i + 1 <= j) && dirty c j)%bool; [done|].
    destruct (dirty c i); [|done]. by apply gpr_write_other; [lia..|].
Qed.

Lemma flush_from_rflags n i c v : read_rflags (flush_from i n c v) = read_rflags v.
Proof.
  revert i v. induction n as [|n IH]; intros i v; [done|]. cbn [flush_from]. rewrite IH.
  case_match; [apply rflags_write_gpr|done].
Qed.

Lemma flush_rule s : cache_ok s ->
  exists s', gpr_cache_flush s = Some (tt, s') /\ cache_ok s' /\
    only_cache (es_ctxt s) (es_ctxt s') /\ read_rflags (es_vcpu s') = read_rflags (es_vcpu s) /\
    (forall i, 0 <= i < 16 -> read_gpr (es_vcpu s') i = reg s i /\ reg s' i = reg s i).
Proof.
  intros [Hl Hd Hc Hr]. unfold gpr_cache_flush, ctxt. rewrite gets_run.
  unfold upd_vcpu. rewrite modify_run. eexists. split; [reflexivity|].
  set (s' := EmState _ _).
  assert (Hg : forall i, 0 <= i < 16 -> read_gpr (es_vcpu s') i = reg s i).
  { intros i Hi. unfold s'. fields. rewrite flush_from_spec by (try done; lia).
    rewrite bool_decide_eq_true_2 by lia. cbn [andb]. destruct (dirty (es_ctxt s) i) eqn:Ed.
    - unfold reg. by rewrite Hd.
    - by rewrite Hc. }
  assert (Hs : forall i, 0 <= i < 16 -> reg s' i = reg s i).
  { intros i Hi. destruct (cached (es_ctxt s) i) eqn:Ec.
    - unfold reg, s'. fields. unfold cached in *. fields. by rewrite Ec.
    - rewrite <- Hg by done. unfold reg, s'. fields. unfold cached in *. fields. by rewrite Ec. }
  split; [|split; [|split; [apply flush_from_rflags|by split; [apply Hg|apply Hs]]]].
  - constructor; try done; intros i Hi; [by unfold dirty, s'; fields; rewrite Z.bits_0|].
    intros _. by rewrite Hg, Hs.
  - by eexists (em_gpr_cache _), (em_gpr_cache_r _), 0.
Qed.

Lemma invalidate_rule s : cache_ok s ->
  exists s', gpr_cache_invalidate s = Some (tt, s') /\ cache_ok s' /\
    only_cache (es_ctxt s) (es_ctxt s') /\ es_vcpu s' = es_vcpu s /\
    (forall i, reg s' i = read_gpr (es_vcpu s) i).
Proof.
  intros [Hl _ _ Hr]. unfold gpr_cache_invalidate, upd_ctxt. rewrite modify_run.
  eexists. split; [reflexivity|].
  assert (Hreg : forall i, reg (EmState (set_gpr_cache_w 0 (set_gpr_cache_r 0 (es_ctxt s))) (es_vcpu s)) i
    = read_gpr (es_vcpu s) i).
  { intros i. unfold reg, cached. cbn. by rewrite Z.bits_0. }
  split; [|split; [by eexists (em_gpr_cache _), 0, 0|done]].
  constructor; cbn; [done| |intros; apply Hreg|done].
  intros i Hi. unfold dirty. cbn. by rewrite Z.bits_0.
Qed.
End Cache.

Section Decode.
Context {V : Type} {EO : EmOps V} {EL : EmLaws V}.
#[local] Notation st := (em_state V).
Implicit Types (s : st) (c : em_context_t) (v : V).

(** The cache has no register that was written. *)
Record clean s : Prop := {
  cl_ok : cache_ok s;
  cl_w : em_gpr_cache_w (es_ctxt s) = 0;
}.

Lemma clean_reg s i : clean s -> 0 <= i < 16 -> reg s i = read_gpr (es_vcpu s) i.
Proof.
  intros [Hok Hw] Hi. apply (ck_clean _ Hok); [done|]. unfold dirty. by rewrite Hw, Z.bits_0.
Qed.

(** If [m] returns, the cache is still clean and the virtual CPU is the same. *)
Definition reads {A} (m : M st A) : Prop :=
  forall s a s', clean s -> m s = Some (a, s') -> clean s' /\ es_vcpu s' = es_vcpu s.

Lemma reads_ret {A} (a : A) : reads (mret a).
Proof. intros s b s' Hs [= _ <-]. done. Qed.

Lemma reads_stuck {A} : reads (A := A) stuck.
Proof. intros s b s' Hs. done. Qed.

Lemma reads_bind {A B} (m : M st A) (k : A -> M st B) :
  reads m -> (forall a, reads (k a)) -> reads (m ≫= k).
Proof.
  intros Hm Hk s b s' Hs. unfold mbind, M_bind. destruct (m s) as [[a s1]|] eqn:E; [|done].
  intros Hr. destruct (Hm s a s1 Hs E) as [Hs1 Hv1]. destruct (Hk a s1 b s' Hs1 Hr) as [? Hv2].
  split; [done|congruence].
Qed.

Lemma reads_gets {A} (f : st -> A) : reads (gets f).
Proof. intros s b s' Hs [= _ <-]. done. Qed.

Lemma reads_of_option {A} (o : option A) : reads (of_option o).
Proof. destruct o; [apply reads_ret|apply reads_stuck]. Qed.

Lemma reads_assert b : reads (hax_assert b).
Proof. destruct b; [apply reads_ret|apply reads_stuck]. Qed.

Lemma reads_upd (f : em_context_t -> em_context_t) :
  (forall c, em_gpr_cache (f c) = em_gpr_cache c /\ em_gpr_cache_r (f c) = em_gpr_cache_r c /\
     em_gpr_cache_w (f c) = em_gpr_cache_w c) -> reads (upd_ctxt f).
Proof.
  intros Hf s b s' [[Hl Hd Hc Hr] Hw] [= _ <-]. destruct (Hf (es_ctxt s)) as (H1 & H2 & H3).
  split; [|done]. split; [|cbn; by rewrite H3].
  constructor; cbn; unfold reg, cached, dirty in *; cbn; rewrite ?H1, ?H2, ?H3; done.
Qed.

Lemma reads_decoder (f : decoder_t -> decoder_t) : reads (upd_decoder f).
Proof. by apply reads_upd. Qed.

Lemma reads_gpr i size : 0 <= i -> reads (gpr_read i size).
Proof.
  intros Hi0 s b s' [Hok Hw] Hrun. unfold gpr_read, gpr_read_shifted in Hrun.
  destruct (decide (i < 16)) as [Hi|Hi].
  - destruct (gpr_load_rule s i Hok ltac:(lia)) as (s1 & Hload & [Hv Hok1 _ _] & Hw1 & Hx & _).
    rewrite (bind_run _ _ _ _ _ Hload) in Hrun.
    unfold ctxt in Hrun. rewrite gets_run, (of_option_run _ _ _ _ Hx) in Hrun.
    destruct (_ <=? 8); [|done]. injection Hrun as _ <-. split; [|done]. split; [done|congruence].
  - (* no such register *)
    exfalso. assert (Hno : forall l, length l = 16%nat -> l !! Z.to_nat i = @None Z)
      by (intros l Hl; apply lookup_ge_None; lia).
    pose proof (ck_len _ Hok) as Hl.
    unfold gpr_load, ctxt, of_option, get, gets, upd_ctxt, modify, mbind, M_bind, mret, M_ret in Hrun.
    case_match; simplify_eq; cbn in *; repeat case_match; simplify_eq; cbn in *;
      rewrite Hno in * by (by rewrite ?length_insert); done.
Qed.

Lemma field_nonneg x lo w : 0 <= w -> 0 <= field x lo w.
Proof. intros Hw. by apply field_range. Qed.

(** Register numbers are made of bit-fields. *)
Ltac reg_number := repeat first
  [ done | apply field_nonneg | rewrite Z.lor_nonneg; split | rewrite Z.shiftl_nonneg
  | rewrite Z.land_nonneg; right ].

Ltac reads_step := first
  [ apply reads_ret | apply reads_stuck | apply reads_gets | apply reads_of_option
  | apply reads_assert | apply reads_decoder | by apply reads_upd
  | apply reads_gpr; by reg_number
  | apply reads_bind; [|intros ?] | case_match ].
Ltac reads := repeat reads_step.

Lemma reads_fetch n : reads (insn_fetch n).
Proof. unfold insn_fetch, decoder. reads. Qed.

Lemma reads_u8 : reads insn_fetch_u8. Proof. apply reads_fetch. Qed.
Lemma reads_u16 : reads insn_fetch_u16. Proof. apply reads_fetch. Qed.
Lemma reads_u32 : reads insn_fetch_u32. Proof. apply reads_fetch. Qed.
Lemma reads_u64 : reads insn_fetch_u64. Proof. apply reads_fetch. Qed.

Ltac fetches := repeat first [apply reads_u8 | apply reads_u16 | apply reads_u32 | apply reads_u64 | reads_step].

Lemma reads_s8 : reads insn_fetch_s8. Proof. unfold insn_fetch_s8. fetches. Qed.
Lemma reads_s16 : reads insn_fetch_s16. Proof. unfold insn_fetch_s16. fetches. Qed.
Lemma reads_s32 : reads insn_fetch_s32. Proof. unfold insn_fetch_s32. fetches. Qed.

Ltac decodes := repeat first [apply reads_s8 | apply reads_s16 | apply reads_s32 | fetches].

Lemma reads_prefixes fuel : reads (decode_prefixes_loop fuel).
Proof. induction fuel; cbn [decode_prefixes_loop]; fetches. apply IHfuel. Qed.

Lemma reads_modrm_rm op : reads (decode_op_modrm_rm op).
Proof.
  unfold decode_op_modrm_rm, decoder, modrm_ea16, modrm_disp16, modrm_ea32, modrm_disp32, sib_ea. decodes.
Qed.

Lemma reads_run_decoder k op : reads (run_decoder k op).
Proof.
  destruct k; cbn [run_decoder]; try apply reads_modrm_rm;
    try (apply reads_bind; [apply reads_modrm_rm|intros; apply reads_ret]);
    unfold decode_op_none, decode_op_modrm_reg, decode_op_vex_reg, decode_op_opc_reg, decode_op_moffs,
      decode_op_simm, decode_op_simm8, decode_op_acc, decode_op_di, decode_op_si, decoder; decodes.
Qed.

Lemma reads_operand k op : reads (decode_operand k op).
Proof. destruct k; [apply reads_run_decoder|apply reads_ret]. Qed.

Lemma reads_operands : reads decode_operands.
Proof. unfold decode_operands, ctxt. repeat first [apply reads_operand | reads_step]. Qed.

Lemma reads_opcode b : reads (decode_opcode b).
Proof. unfold decode_opcode, decode_vex, fetch_vex, set_opcode_from, decoder. fetches. Qed.

Lemma reads_opcode_byte : reads fetch_opcode_byte.
Proof. unfold fetch_opcode_byte, decoder. fetches. Qed.

Lemma reads_group : reads apply_group.
Proof. unfold apply_group, ctxt. reads. Qed.

Lemma decode_insn_clean insn s rc s' :
  length (em_gpr_cache (es_ctxt s)) = 16%nat ->
  Forall (fun x => 0 <= x < 2 ^ 64) (em_gpr_cache (es_ctxt s)) ->
  em_decode_insn insn s = Some (rc, s') -> clean s' /\ es_vcpu s' = es_vcpu s.
Proof.
  intros Hl Hr. unfold em_decode_insn. erewrite (bind_run (upd_ctxt _)) by reflexivity.
  erewrite (bind_run (upd_ctxt _)) by reflexivity.
  set (s0 := EmState _ _). change (es_vcpu s) with (es_vcpu s0).
  assert (Hs0 : clean s0).
  { split; [|done]. constructor; try done; intros i Hi; unfold dirty, reg, cached; subst s0; cbn;
      by rewrite ?Z.bits_0. }
  revert Hs0. generalize s0. intros s1 Hs1.
  match goal with |- ?m s1 = _ -> _ => enough (Hm : reads m) by (intros Hrun; by eapply Hm) end.
  apply reads_bind; [apply reads_decoder|intros _].
  apply reads_bind; [apply reads_prefixes|intros _].
  apply reads_bind; [apply reads_decoder|intros _].
  apply reads_bind; [apply reads_opcode_byte|intros b].
  apply reads_bind; [apply reads_opcode|intros [b'|]; [|apply reads_ret]].
  apply reads_bind; [apply reads_decoder|intros _].
  apply reads_bind; [apply reads_gets|intros c].
  apply reads_bind; [by fetches|intros _].
  apply reads_bind; [apply reads_group|intros ok].
  destruct (negb ok); [apply reads_ret|].
  apply reads_bind; [by apply reads_upd|intros _].
  apply reads_bind; [apply reads_gets|intros c'].
  repeat case_match; try apply reads_ret. apply reads_operands.
Qed.
End Decode.
