(* ===== verification/EmProps.v ===== *)
(** * Correctness of the instruction emulator

    An instruction that is interrupted for an MMIO access changes no register until it is
    complete, and when it is resumed it has the effect of an uninterrupted one. *)

From stdpp Require Import base numbers list gmap.
From Stdlib Require Import ZArith Lia.
From S2P Require Import Prelude EmTypes Emulate EmCache.
#[local] Open Scope Z_scope.

Section Emulation.
Context {V : Type} {EO : EmOps V} {FO : FastOps} {EL : EmLaws V}.
#[local] Notation st := (em_state V).
Implicit Types (s : st) (c : em_context_t) (v : V) (op : em_operand_t).

(** Reduction of field accesses and updates. *)
Ltac fld := cbn [es_ctxt es_vcpu em_finished em_decoder em_opcode em_dst em_src1 em_src2 em_rflags
  em_gpr_cache em_gpr_cache_r em_gpr_cache_w set_finished set_decoder set_opcode set_dst set_src1
  set_src2 set_rflags set_gpr_cache set_gpr_cache_r set_gpr_cache_w op_size op_flags op_type op_ea
  op_seg op_index op_shift op_value set_op_size set_op_flags set_op_type set_ea set_seg set_index
  set_shift set_value add_flag fst snd] in *.

(** ** Rules for the steps of an instruction *)
Lemma or_exit_run (m : M st em_status_t) (k : M st pass_t) s rc s' :
  m s = Some (rc, s') -> or_exit m k s = if is_continue rc then k s' else Some (Exit rc, s').
Proof. intros H. unfold or_exit. erewrite bind_run by exact H. by destruct (is_continue rc). Qed.

Lemma or_continue (m : M st em_status_t) (k : M st pass_t) s s' :
  m s = Some (EM_CONTINUE, s') -> or_exit m k s = k s'.
Proof. intros H. by rewrite (or_exit_run _ _ _ _ _ H). Qed.

(** A valid register operand. *)
Definition reg_ok op : Prop :=
  0 <= op_index op < 16 /\ 0 <= op_shift op /\ 0 <= op_size op /\
  op_shift op + (if op_size op =? 4 then 8 else op_size op) <= 8.

Lemma reg_read_run s op : cache_ok s -> op_type op = OP_REG -> reg_ok op ->
  has (op_flags op) OP_READ_FINISHED = false ->
  exists s', operand_read op s =
      Some (EM_CONTINUE, add_flag OP_READ_FINISHED
        (set_value (get_bytes (reg s (op_index op)) (op_shift op) (op_size op)) op), s') /\
    cache_step s s' (reg s).
Proof.
  intros Hok Ht (Hi & Hs & Hz & Hle) Hf.
  destruct (gpr_read_rule s (op_index op) (op_size op) (op_shift op) Hok Hi) as (s' & Hrun & Hstep).
  { destruct (Z.eqb_spec (op_size op) 4); lia. }
  exists s'. split; [|done]. unfold operand_read. rewrite Hf, Ht, bool_decide_eq_false_2 by done.
  cbv beta iota. erewrite bind_run by (erewrite bind_run by exact Hrun; reflexivity). reflexivity.
Qed.

Lemma reg_write_run s op : cache_ok s -> op_type op = OP_REG -> reg_ok op ->
  has (op_flags op) OP_WRITE_FINISHED = false ->
  exists s', operand_write op s = Some (EM_CONTINUE, add_flag OP_WRITE_FINISHED op, s') /\
    cache_step s s' (upd (reg s) (op_index op)
      (put_bytes (reg s (op_index op)) (op_shift op) (if op_size op =? 4 then 8 else op_size op)
         (op_value op))).
Proof.
  intros Hok Ht (Hi & Hs & Hz & Hle) Hf.
  destruct (gpr_write_rule s (op_index op) (if op_size op =? 4 then 8 else op_size op) (op_value op)
    (op_shift op) Hok Hi Hs) as (s' & Hrun & Hstep); [destruct (op_size op =? 4); lia|done|].
  exists s'. split; [|done]. unfold operand_write. rewrite Hf, Ht, bool_decide_eq_false_2 by done.
  cbv beta iota. erewrite bind_run by (erewrite bind_run by exact Hrun; reflexivity). reflexivity.
Qed.

Lemma none_read_run s op : op_type op = OP_NONE -> operand_read op s = Some (EM_CONTINUE, op, s).
Proof.
  intros Ht. unfold operand_read. rewrite Ht. by destruct (has _ _).
Qed.

Lemma imm_read_run s op : op_type op = OP_IMM -> has (op_flags op) OP_READ_FINISHED = false ->
  operand_read op s = Some (EM_CONTINUE, add_flag OP_READ_FINISHED (set_value (op_value op) op), s).
Proof.
  intros Ht Hf. unfold operand_read. by rewrite Hf, Ht, bool_decide_eq_false_2 by done.
Qed.

Lemma finished_read_run s op : has (op_flags op) OP_READ_FINISHED = true ->
  operand_read op s = Some (EM_CONTINUE, op, s).
Proof. intros Hf. unfold operand_read. by rewrite Hf. Qed.

(** The linear address of an operand, as [get_linear_address] computes it. *)
Definition linear_address (d : decoder_t) v op : option Z :=
  match get_linear_address op (EmState (EmContext false d N_ op op op 0 [] 0 0) v) with
  | Some (la, _) => la
  | None => None
  end.

(** The architecture's linear address of an offset [ea] in a segment, for an address
    size in bytes: the offset is truncated to the address size; 64-bit mode only has the
    bases of FS and GS and canonical 48-bit addresses, real mode wraps at 1 MB, the
    other modes at 4 GB. *)
Definition arch_linear (mode : em_mode_t) (asize ea seg base : Z) : option Z :=
  if (asize =? 2) || (asize =? 4) || (asize =? 8) then
    let off := ea mod 2 ^ (8 * asize) in
    Some match mode with
         | EM_MODE_PROT64 =>
             let x := (off + if (seg =? SEG_FS) || (seg =? SEG_GS) then base else 0) mod 2 ^ 48 in
             if x <? 2 ^ 47 then x else x + (2 ^ 64 - 2 ^ 48)
         | EM_MODE_REAL => (off + base) mod 2 ^ 20
         | _ => (off + base) mod 2 ^ 32
         end
  else None.

Definition operand_linear (d : decoder_t) v op : option Z :=
  arch_linear (em_mode d) (em_address_size d) (op_ea op) (op_seg op)
    (get_segment_base v (op_seg op)).

Lemma mod_mod_pow x m n : 0 <= n <= m -> (x mod 2 ^ m) mod 2 ^ n = x mod 2 ^ n.
Proof.
  intros H. apply Z.bits_inj'. intros k Hk. destruct (Z.lt_ge_cases k n).
  - by rewrite !Z.mod_pow2_bits_low by lia.
  - by rewrite !Z.mod_pow2_bits_high by lia.
Qed.

Lemma canonical_48 a :
  get_canonical_address a 48 =
  let x := a mod 2 ^ 48 in if x <? 2 ^ 47 then x else x + (2 ^ 64 - 2 ^ 48).
Proof.
  unfold get_canonical_address. change (64 - 48) with 16. cbv zeta.
  rewrite Z.shiftl_mul_pow2, Z.shiftr_div_pow2 by lia.
  pose proof (Z.mod_pos_bound a (2 ^ 48) ltac:(lia)) as Hx.
  assert (E : u64 (a * 2 ^ 16) = a mod 2 ^ 48 * 2 ^ 16).
  { unfold u64. change (2 ^ 64) with (2 ^ 48 * 2 ^ 16). by rewrite Z.mul_mod_distr_r by lia. }
  rewrite E. set (x := a mod 2 ^ 48) in *. unfold s64, u64.
  destruct (Z.ltb_spec x (2 ^ 47)), (Z.ltb_spec (x * 2 ^ 16) (2 ^ 63)); try lia.
  - rewrite Z.div_mul, Z.mod_small by lia. done.
  - replace (x * 2 ^ 16 - 2 ^ 64) with ((x - 2 ^ 48) * 2 ^ 16) by lia.
    rewrite Z.div_mul by lia. symmetry. apply Z.mod_unique with (-1); lia.
Qed.

Lemma linear_address_arch d v op : linear_address d v op = operand_linear d v op.
Proof.
  unfold linear_address, operand_linear, arch_linear.
  set (base := get_segment_base v (op_seg op)). set (off := op_ea op mod 2 ^ (8 * em_address_size d)).
  assert (H : get_linear_address op (EmState (EmContext false d N_ op op op 0 [] 0 0) v) =
    Some ((if (em_address_size d =? 2) || (em_address_size d =? 4) || (em_address_size d =? 8)
           then Some (match em_mode d with
                      | EM_MODE_PROT64 => get_canonical_address
                          (if (op_seg op =? SEG_FS) || (op_seg op =? SEG_GS) then off +! base else off) 48
                      | EM_MODE_REAL => (off +! base) &! 0xFFFFF
                      | _ => (off +! base) &! 0xFFFFFFFF
                      end)
           else None), EmState (EmContext false d N_ op op op 0 [] 0 0) v)).
  { unfold get_linear_address. rewrite (bind_run get _ _ _ _ eq_refl). cbn [es_ctxt em_decoder es_vcpu].
    subst off. destruct (Z.eqb_spec (em_address_size d) 2) as [->|];
      [|destruct (Z.eqb_spec (em_address_size d) 4) as [->|];
        [|destruct (Z.eqb_spec (em_address_size d) 8) as [->|]]];
      cbn [orb]; by destruct (em_mode d). }
  rewrite H. destruct (_ || _)%bool; [|done]. f_equal. destruct (em_mode d).
  - change 0xFFFFF with (Z.ones 20). rewrite Z.land_ones by lia. by apply mod_mod_pow.
  - change 0xFFFFFFFF with (Z.ones 32). rewrite Z.land_ones by lia. by apply mod_mod_pow.
  - change 0xFFFFFFFF with (Z.ones 32). rewrite Z.land_ones by lia. by apply mod_mod_pow.
  - rewrite canonical_48. cbv zeta. destruct (_ || _)%bool; [|by rewrite Z.add_0_r].
    unfold u64. by rewrite (mod_mod_pow _ 64 48) by lia.
Qed.

Lemma linear_address_run s op :
  get_linear_address op s = Some (linear_address (em_decoder (es_ctxt s)) (es_vcpu s) op, s).
Proof. by destruct s as [[] v]. Qed.

Lemma mem_read_run s op la rc x v' : op_type op = OP_MEM ->
  has (op_flags op) OP_READ_FINISHED = false -> has (op_flags op) OP_READ_PENDING = false ->
  linear_address (em_decoder (es_ctxt s)) (es_vcpu s) op = Some la ->
  read_memory la (op_value op) (op_size op) (translation_flags (es_ctxt s)) (es_vcpu s)
    = Some ((rc, x), v') ->
  operand_read op s = Some ((rc, add_flag (if is_continue rc then OP_READ_FINISHED else OP_READ_PENDING)
    (set_value x op)), EmState (es_ctxt s) v').
Proof.
  intros Ht Hf Hp Hla Hrd. unfold operand_read. rewrite Hf, Ht, bool_decide_eq_false_2 by done.
  cbv beta iota. rewrite Hp. erewrite bind_run; [|].
  2: { unfold segmented_read. erewrite bind_run by apply linear_address_run. rewrite Hla.
       unfold ctxt. rewrite gets_run. unfold vcpu_call. by rewrite Hrd. }
  cbn. unfold mret, M_ret. do 2 f_equal. by destruct (is_continue rc).
Qed.

Lemma mem_post_run s op rc x v' : op_type op = OP_MEM ->
  has (op_flags op) OP_READ_FINISHED = false -> has (op_flags op) OP_READ_PENDING = true ->
  read_memory_post (op_value op) (op_size op) (es_vcpu s) = Some ((rc, x), v') ->
  operand_read op s = Some ((rc, add_flag (if is_continue rc then OP_READ_FINISHED else OP_READ_PENDING)
    (set_value x op)), EmState (es_ctxt s) v').
Proof.
  intros Ht Hf Hp Hrd. unfold operand_read. rewrite Hf, Ht, bool_decide_eq_false_2 by done.
  cbv beta iota. rewrite Hp. erewrite bind_run; [|unfold vcpu_call; by rewrite Hrd].
  cbn. unfold mret, M_ret. do 2 f_equal. by destruct (is_continue rc).
Qed.

Lemma mem_write_run s op la rc v' : op_type op = OP_MEM ->
  has (op_flags op) OP_WRITE_FINISHED = false -> has (op_flags op) OP_WRITE_PENDING = false ->
  linear_address (em_decoder (es_ctxt s)) (es_vcpu s) op = Some la ->
  write_memory la (op_value op) (op_size op) (translation_flags (es_ctxt s)) (es_vcpu s)
    = Some (rc, v') ->
  operand_write op s = Some ((rc, add_flag (if is_continue rc then OP_WRITE_FINISHED else OP_WRITE_PENDING)
    op), EmState (es_ctxt s) v').
Proof.
  intros Ht Hf Hp Hla Hwr. unfold operand_write. rewrite Hf, Ht, bool_decide_eq_false_2 by done.
  cbv beta iota. rewrite Hp. erewrite bind_run; [|].
  2: { unfold segmented_write. erewrite bind_run by apply linear_address_run. rewrite Hla.
       unfold ctxt. rewrite gets_run. unfold vcpu_call. by rewrite Hwr. }
  cbn. unfold mret, M_ret. do 2 f_equal. by destruct (is_continue rc).
Qed.

Lemma mem_written_run s op : op_type op = OP_MEM ->
  has (op_flags op) OP_WRITE_FINISHED = false -> has (op_flags op) OP_WRITE_PENDING = true ->
  operand_write op s = Some (EM_CONTINUE, add_flag OP_WRITE_FINISHED op, s).
Proof.
  intros Ht Hf Hp. unfold operand_write. rewrite Hf, Ht, bool_decide_eq_false_2 by done.
  cbv beta iota. by rewrite Hp.
Qed.

(** ** States by their parts

    [mk] builds a state; its registers depend only on the cache and the virtual CPU. *)
#[local] Notation kache := (list Z * Z * Z)%type.
Definition mk fin d o dst op1 op2 rf (k : kache) v : st :=
  EmState (EmContext fin d o dst op1 op2 rf k.1.1 k.1.2 k.2) v.

Definition no_operand : em_operand_t := EmOperand 0 0 OP_NONE 0 0 0 0 0.
Definition no_decoder : decoder_t :=
  Decoder EM_MODE_REAL [] 0 0 0 0 0 0 0 false false 0 0 0 0 0.
Definition kst (k : kache) v : st := mk false no_decoder N_ no_operand no_operand no_operand 0 k v.
Definition kok k v : Prop := cache_ok (kst k v).
Definition kreg k v (i : Z) : Z := reg (kst k v) i.

Lemma kok_mk fin d o dst op1 op2 rf k v : cache_ok (mk fin d o dst op1 op2 rf k v) <-> kok k v.
Proof. split; intros []; by constructor. Qed.

Lemma mk_eta s : s = mk (em_finished (es_ctxt s)) (em_decoder (es_ctxt s)) (em_opcode (es_ctxt s))
  (em_dst (es_ctxt s)) (em_src1 (es_ctxt s)) (em_src2 (es_ctxt s)) (em_rflags (es_ctxt s))
  (em_gpr_cache (es_ctxt s), em_gpr_cache_r (es_ctxt s), em_gpr_cache_w (es_ctxt s)) (es_vcpu s).
Proof. by destruct s as [[] v]. Qed.

Lemma step_mk fin d o dst op1 op2 rf k v s' f :
  cache_step (mk fin d o dst op1 op2 rf k v) s' f ->
  exists k', s' = mk fin d o dst op1 op2 rf k' v /\ kok k' v /\
    forall i, 0 <= i < 16 -> kreg k' v i = f i.
Proof.
  intros [Hv Hok (x & r & w & Hc) Hreg]. exists (x, r, w).
  assert (E : s' = mk fin d o dst op1 op2 rf (x, r, w) v) by (destruct s'; cbn in *; by subst).
  subst s'. split; [done|]. split; [exact (proj1 (kok_mk _ _ _ _ _ _ _ _ _) Hok)|exact Hreg].
Qed.

(** A change of the virtual CPU that leaves the registers alone. *)
Lemma kok_vcpu k v v' : (forall i, read_gpr v' i = read_gpr v i) -> kok k v ->
  kok k v' /\ forall i, kreg k v' i = kreg k v i.
Proof.
  intros Hg [Hl Hd Hc Hr].
  assert (Hreg : forall i, kreg k v' i = kreg k v i).
  { intros i. unfold kreg, reg. cbn. case_match; [done|apply Hg]. }
  split; [|done]. constructor; try done. intros i Hi Hdi.
  change (kreg k v' i = read_gpr v' i). rewrite Hreg, Hg. by apply Hc.
Qed.

Lemma kok_empty k v : kok k v -> kok (k.1.1, 0, 0) v /\ forall i, kreg (k.1.1, 0, 0) v i = read_gpr v i.
Proof.
  intros [Hl _ _ Hr].
  assert (Hreg : forall i, kreg (k.1.1, 0, 0) v i = read_gpr v i).
  { intros i. unfold kreg, reg, cached. cbn. by rewrite Z.bits_0. }
  split; [|done]. constructor; cbn; [done| |intros; apply Hreg|done].
  intros i Hi. unfold dirty. cbn. by rewrite Z.bits_0.
Qed.

(** ** The frame of [em_emulate_insn] *)
Lemma emulate_exit s rc fin d o dst op1 op2 rf k v :
  em_rep (em_decoder (es_ctxt s)) = 0 -> rc <> EM_CONTINUE ->
  em_pass (EmState (set_finished false (es_ctxt s)) (es_vcpu s)) =
    Some (Exit rc, mk fin d o dst op1 op2 rf k v) ->
  em_emulate_insn s = Some (rc, mk fin d o dst op1 op2 rf (k.1.1, 0, 0) v).
Proof.
  intros Hrep Hrc Hp. unfold em_emulate_insn. erewrite (bind_run (upd_ctxt _)) by reflexivity.
  erewrite (bind_run repeat_fuel) by (unfold repeat_fuel, ctxt; rewrite gets_run; cbn; by rewrite Hrep).
  erewrite (bind_run (em_passes 1)) by (cbn [em_passes]; erewrite bind_run by exact Hp; reflexivity).
  reflexivity.
Qed.

(** What a virtual CPU holds besides the general-purpose registers. *)
Definition beside_gpr {X : Type} (obs : V -> X) : Prop :=
  forall i x v, 0 <= i < 16 -> obs (write_gpr i x v) = obs v.

Lemma flush_from_obs {X : Type} (obs : V -> X) n i c v : beside_gpr obs ->
  0 <= i -> i + Z.of_nat n <= 16 -> obs (flush_from i n c v) = obs v.
Proof.
  intros Hobs. revert i v. induction n as [|n IH]; intros i v H0 Hn; [done|].
  cbn [flush_from]. rewrite IH by lia. case_match; [|done]. apply Hobs. lia.
Qed.

Lemma flush_obs {X : Type} (obs : V -> X) s s' : beside_gpr obs ->
  gpr_cache_flush s = Some (tt, s') -> obs (es_vcpu s') = obs (es_vcpu s).
Proof.
  intros Hobs. unfold gpr_cache_flush, ctxt. rewrite gets_run.
  assert (Hn : 0 + Z.of_nat 16 <= 16) by done. revert Hn. generalize 16%nat as n. intros n Hn.
  unfold upd_vcpu. rewrite modify_run. intros [= <-]. cbn [es_vcpu]. by apply flush_from_obs.
Qed.

Lemma emulate_done s fin d o dst op1 op2 rf k v :
  em_rep (em_decoder (es_ctxt s)) = 0 -> kok k v ->
  em_pass (EmState (set_finished false (es_ctxt s)) (es_vcpu s)) =
    Some (Done, mk fin d o dst op1 op2 rf k v) ->
  exists s', em_emulate_insn s = Some (EM_CONTINUE, s') /\ em_finished (es_ctxt s') = true /\
    (forall i, 0 <= i < 16 -> read_gpr (es_vcpu s') i = kreg k v i) /\
    read_rflags (es_vcpu s') = read_rflags v /\
    forall (X : Type) (obs : V -> X), beside_gpr obs ->
      obs (es_vcpu s') = obs (advance_rip (em_len d) v).
Proof.
  intros Hrep Hok Hp. unfold em_emulate_insn. erewrite (bind_run (upd_ctxt _)) by reflexivity.
  erewrite (bind_run repeat_fuel) by (unfold repeat_fuel, ctxt; rewrite gets_run; cbn; by rewrite Hrep).
  erewrite (bind_run (em_passes 1)) by (cbn [em_passes]; erewrite bind_run by exact Hp; reflexivity).
  set (v1 := advance_rip (em_len d) v).
  destruct (kok_vcpu k v v1 (gpr_advance_rip _ _) Hok) as [Hok1 Hreg1].
  destruct (flush_rule (mk true d o dst op1 op2 rf k v1)) as (s2' & Hrun & Hok2 & _ & Hfl & Hg).
  { by apply kok_mk. }
  erewrite bind_run.
  2: { erewrite (bind_run (upd_ctxt _)) by reflexivity. unfold ctxt. rewrite gets_run.
       erewrite (bind_run (upd_vcpu _)) by reflexivity. erewrite bind_run by exact Hrun. reflexivity. }
  destruct (invalidate_rule s2' Hok2) as (s3 & Hrun3 & _ & (x & r & w & Hc3) & Hv3 & _).
  erewrite bind_run by exact Hrun3. exists s3. split; [done|].
  split.
  - destruct (flush_rule (mk true d o dst op1 op2 rf k v1)) as (s2'' & Hrun' & _ & (x' & r' & w' & Hc') & _).
    { by apply kok_mk. }
    rewrite Hrun in Hrun'. injection Hrun' as <-. rewrite Hc3, Hc'. done.
  - rewrite Hv3. split_and!.
    + intros i Hi. destruct (Hg i Hi) as [-> _]. rewrite <- Hreg1. done.
    + rewrite Hfl. apply rflags_advance_rip.
    + intros X obs Hobs. by rewrite (flush_obs obs _ _ Hobs Hrun).
Qed.

(** ** Register operands *)
Lemma reg_read_mk fin d o dst op1 op2 rf k v op : kok k v -> op_type op = OP_REG -> reg_ok op ->
  has (op_flags op) OP_READ_FINISHED = false ->
  exists k', operand_read op (mk fin d o dst op1 op2 rf k v) =
      Some (EM_CONTINUE, add_flag OP_READ_FINISHED
        (set_value (get_bytes (kreg k v (op_index op)) (op_shift op) (op_size op)) op),
        mk fin d o dst op1 op2 rf k' v) /\
    kok k' v /\ forall i, 0 <= i < 16 -> kreg k' v i = kreg k v i.
Proof.
  intros Hok Ht Hr Hf.
  destruct (reg_read_run (mk fin d o dst op1 op2 rf k v) op) as (s' & Hrun & Hstep); try done.
  { by apply kok_mk. }
  apply step_mk in Hstep as (k' & -> & Hok' & Hreg). by exists k'.
Qed.

Lemma reg_write_mk fin d o dst op1 op2 rf k v op : kok k v -> op_type op = OP_REG -> reg_ok op ->
  has (op_flags op) OP_WRITE_FINISHED = false ->
  exists k', operand_write op (mk fin d o dst op1 op2 rf k v) =
      Some (EM_CONTINUE, add_flag OP_WRITE_FINISHED op, mk fin d o dst op1 op2 rf k' v) /\
    kok k' v /\ forall i, 0 <= i < 16 -> kreg k' v i =
      upd (kreg k v) (op_index op) (put_bytes (kreg k v (op_index op)) (op_shift op)
        (if op_size op =? 4 then 8 else op_size op) (op_value op)) i.
Proof.
  intros Hok Ht Hr Hf.
  destruct (reg_write_run (mk fin d o dst op1 op2 rf k v) op) as (s' & Hrun & Hstep); try done.
  { by apply kok_mk. }
  apply step_mk in Hstep as (k' & -> & Hok' & Hreg). by exists k'.
Qed.

(** ** One pass over an instruction that is not repeated *)
Definition start_flags (o : em_opcode_t) rf v : Z :=
  if has (oc_flags o) INSN_NOFLAGS then rf else read_rflags v.

Lemma pass_start fin d o dst op1 op2 rf k v : em_rep d = 0 ->
  em_pass (mk fin d o dst op1 op2 rf k v) =
  input_operands (or_exit execute output_operands) (mk fin d o dst op1 op2 (start_flags o rf v) k v).
Proof.
  intros Hrep. unfold em_pass, ctxt. rewrite gets_run.
  change (em_rep (em_decoder (es_ctxt (mk fin d o dst op1 op2 rf k v)))) with (em_rep d).
  rewrite Hrep. unfold start_flags. cbn [es_ctxt em_opcode mk Z.eqb].
  by destruct (has (oc_flags o) INSN_NOFLAGS).
Qed.

(** The destination after it has been read as an input. *)
Definition dst_input (o : em_opcode_t) dst k v : em_operand_t :=
  if has (oc_flags o) INSN_DST_NR || has (op_flags dst) OP_READ_FINISHED then dst
  else add_flag OP_READ_FINISHED
         (set_value (get_bytes (kreg k v (op_index dst)) (op_shift dst) (op_size dst)) dst).

Lemma input_dst fin d o dst op1 op2 rf k v (next : M st pass_t) :
  kok k v -> op_type dst = OP_REG -> reg_ok dst ->
  exists k', kok k' v /\ (forall i, 0 <= i < 16 -> kreg k' v i = kreg k v i) /\
    input_operands next (mk fin d o dst op1 op2 rf k v) =
    or_exit (read_operand em_src1 set_src1) (or_exit (read_operand em_src2 set_src2) next)
      (mk fin d o (dst_input o dst k v) op1 op2 rf k' v).
Proof.
  intros Hok Ht Hr. unfold input_operands, ctxt. rewrite gets_run.
  unfold is_memory_bitop. cbn [es_ctxt em_opcode em_dst em_src1 mk].
  rewrite Ht, (bool_decide_eq_false_2 (OP_REG = OP_MEM)), andb_false_r by done. cbn [andb].
  unfold dst_input. destruct (has (oc_flags o) INSN_DST_NR); cbn [orb]; [by exists k|].
  destruct (has (op_flags dst) OP_READ_FINISHED) eqn:Hf.
  - exists k. split; [done|]. split; [done|]. apply or_continue.
    unfold read_operand, ctxt. rewrite gets_run. cbn [es_ctxt em_dst mk].
    by erewrite bind_run by (by apply finished_read_run).
  - destruct (reg_read_mk fin d o dst op1 op2 rf k v dst Hok Ht Hr Hf) as (k' & Hrun & Hok' & Hreg).
    exists k'. split; [done|]. split; [done|]. apply or_continue.
    unfold read_operand, ctxt. rewrite gets_run. cbn [es_ctxt em_dst mk].
    by erewrite bind_run by exact Hrun.
Qed.

(** The rest of the instruction for a register destination. *)
Definition result_regs (o : em_opcode_t) dst (f : Z -> Z) : Z -> Z :=
  if has (oc_flags o) INSN_DST_NW then f
  else upd f (op_index dst) (put_bytes (f (op_index dst)) (op_shift dst)
         (if op_size dst =? 4 then 8 else op_size dst) (op_value dst)).

Definition not_string (o : em_opcode_t) : Prop :=
  oc_decode_dst o <> Some op_di /\ oc_decode_src1 o <> Some op_si.

Lemma string_registers_none fin d o dst op1 op2 rf k v : not_string o ->
  string_registers (mk fin d o dst op1 op2 rf k v) = Some (tt, mk fin d o dst op1 op2 rf k v).
Proof.
  intros [H1 H2]. unfold string_registers, ctxt. rewrite gets_run.
  cbn [es_ctxt em_opcode mk]. by rewrite !bool_decide_eq_false_2 by done.
Qed.

Lemma next_done fin d o dst op1 op2 rf k v : em_rep d = 0 ->
  next_iteration (mk fin d o dst op1 op2 rf k v) = Some (Done, mk fin d o dst op1 op2 rf k v).
Proof. intros Hrep. unfold next_iteration, ctxt. rewrite gets_run. cbn. by rewrite Hrep. Qed.

Definition after_flags (o : em_opcode_t) rf v : V :=
  if has (oc_flags o) INSN_NOFLAGS then v else write_rflags rf v.

Lemma output_reg fin d o dst op1 op2 rf k v : em_rep d = 0 -> not_string o -> kok k v ->
  op_type dst = OP_REG -> reg_ok dst -> has (op_flags dst) OP_WRITE_FINISHED = false ->
  exists dst' k', output_operands (mk fin d o dst op1 op2 rf k v) =
      Some (Done, mk fin d o dst' op1 op2 rf k' (after_flags o rf v)) /\
    kok k' (after_flags o rf v) /\
    forall i, 0 <= i < 16 -> kreg k' (after_flags o rf v) i = result_regs o dst (kreg k v) i.
Proof.
  intros Hrep Hstr Hok Ht Hr Hf. unfold output_operands, ctxt. rewrite gets_run.
  assert (Hg : forall i, read_gpr (after_flags o rf v) i = read_gpr v i).
  { intros i. unfold after_flags. case_match; [done|apply gpr_write_rflags]. }
  destruct (kok_vcpu k v (after_flags o rf v) Hg Hok) as [Hok1 Hreg1].
  erewrite (bind_run (if has _ INSN_NOFLAGS then _ else _) _ _ tt
    (mk fin d o dst op1 op2 rf k (after_flags o rf v)))
    by (unfold after_flags; cbn [es_ctxt em_opcode mk]; by case_match).
  cbn [es_ctxt em_opcode mk]. unfold result_regs.
  destruct (has (oc_flags o) INSN_DST_NW).
  - erewrite or_continue by reflexivity. erewrite bind_run by (by apply string_registers_none). rewrite next_done by done.
    exists dst, k. split; [done|]. split; [done|]. intros i Hi. apply Hreg1.
  - destruct (reg_write_mk fin d o dst op1 op2 rf k (after_flags o rf v) dst Hok1 Ht Hr Hf)
      as (k' & Hrun & Hok' & Hreg').
    rewrite (or_continue _ _ _ (mk fin d o (add_flag OP_WRITE_FINISHED dst) op1 op2 rf k'
      (after_flags o rf v))) by (unfold write_dst, ctxt; rewrite gets_run; cbn [es_ctxt em_dst mk];
      by erewrite bind_run by exact Hrun).
    erewrite bind_run by (by apply string_registers_none). rewrite next_done by done.
    eexists _, k'. split; [done|]. split; [done|]. intros i Hi. rewrite Hreg' by done.
    unfold upd. case_decide; [|apply Hreg1]. by rewrite Hreg1.
Qed.

(** ** What the handlers compute *)
Definition sext (n y : Z) : Z :=
  let m := y mod 2 ^ n in if m <? 2 ^ (n - 1) then m else m - 2 ^ n.

(** The new value of the destination and the new flags, from the sizes of the operation,
    the destination and the source, the values of the operands and the flags. *)
Definition insn_result (h : handler_t) (opsize dsize ssize d y z rf : Z) : option (Z * Z) :=
  match h with
  | Fast f =>
      let r := fastop_dispatch f (FASTOP_SIZE dsize) d y z (rf &! RFLAGS_MASK_OSZAPC) in
      Some (r.1, Z.ldiff rf RFLAGS_MASK_OSZAPC |! (r.2 &! RFLAGS_MASK_OSZAPC))
  | Soft soft_mov => Some (d - d mod 2 ^ (8 * opsize) + y mod 2 ^ (8 * opsize), rf)
  | Soft soft_movzx => Some (y mod 2 ^ (8 * ssize), rf)
  | Soft soft_movsx => Some (sext (8 * ssize) y mod 2 ^ (8 * dsize), rf)
  | _ => None
  end.

Lemma put_bytes_low x n y : 0 <= n -> put_bytes x 0 n y = x - x mod 2 ^ (8 * n) + y mod 2 ^ (8 * n).
Proof.
  intros Hn. pose proof (Z.pow_pos_nonneg 2 (8 * n) ltac:(lia) ltac:(lia)).
  unfold put_bytes, set_field. rewrite Z.mul_0_r, !Z.shiftl_0_r.
  rewrite Z.ldiff_ones_r, Z.land_ones, Z.shiftl_mul_pow2, Z.shiftr_div_pow2 by lia.
  pose proof (Z.add_lor_land (x / 2 ^ (8 * n) * 2 ^ (8 * n)) (y mod 2 ^ (8 * n))) as Ha.
  assert (H0 : (x / 2 ^ (8 * n) * 2 ^ (8 * n)) &! (y mod 2 ^ (8 * n)) = 0).
  2: { pose proof (Z.div_mod x (2 ^ (8 * n)) ltac:(lia)). lia. }
  - apply Z.bits_inj'. intros j Hj. rewrite Z.land_spec, Z.bits_0.
    destruct (Z.lt_ge_cases j (8 * n)).
    + rewrite Z.mul_pow2_bits_low by lia. done.
    + rewrite Z.mod_pow2_bits_high by lia. apply andb_false_r.
Qed.

Lemma movsx_value (s d y : Z) : 0 < s -> s <= d -> d <= 8 ->
  put_bytes (put_bytes 0 0 d (if has y (Z.shiftl 1 (8 * s - 1)) then 2 ^ 64 - 1 else 0)) 0 s y =
  sext (8 * s) y mod 2 ^ (8 * d).
Proof.
  intros Hs Hsd Hd. rewrite !put_bytes_low by lia. rewrite has_bit by lia.
  assert (Hp : 2 ^ (8 * d) = 2 ^ (8 * s) * 2 ^ (8 * d - 8 * s)) by (rewrite <- Z.pow_add_r by lia; f_equal; lia).
  assert (Hq : 2 ^ 64 = 2 ^ (8 * d) * 2 ^ (64 - 8 * d)) by (rewrite <- Z.pow_add_r by lia; f_equal; lia).
  assert (Hh : 2 ^ (8 * s) = 2 * 2 ^ (8 * s - 1)) by (rewrite <- Z.pow_succ_r by lia; f_equal; lia).
  pose proof (Z.pow_pos_nonneg 2 (8 * s - 1)). pose proof (Z.pow_pos_nonneg 2 (8 * d - 8 * s)).
  pose proof (Z.pow_pos_nonneg 2 (64 - 8 * d)).
  set (P := 2 ^ (8 * s)) in *. set (D := 2 ^ (8 * d)) in *.
  pose proof (Z.mod_pos_bound y P ltac:(lia)) as Hy.
  assert (Htb : Z.testbit y (8 * s - 1) = negb (y mod P <? 2 ^ (8 * s - 1))).
  { rewrite Z.testbit_eqb by lia. subst P.
    assert (Hsplit : y mod 2 ^ (8 * s) = y mod 2 ^ (8 * s - 1) + 2 ^ (8 * s - 1) * (y / 2 ^ (8 * s - 1) mod 2)).
    { rewrite Hh, Z.mul_comm, Z.rem_mul_r by lia. done. }
    pose proof (Z.mod_pos_bound y (2 ^ (8 * s - 1)) ltac:(lia)).
    pose proof (Z.mod_pos_bound (y / 2 ^ (8 * s - 1)) 2 ltac:(lia)).
    destruct (Z.eqb_spec ((y / 2 ^ (8 * s - 1)) mod 2) 1), (Z.ltb_spec (y mod 2 ^ (8 * s)) (2 ^ (8 * s - 1)));
      try done; exfalso; nia. }
  assert (HPD : P <= D) by nia.
  rewrite Htb. unfold sext. fold P. destruct (Z.ltb_spec (y mod P) (2 ^ (8 * s - 1))); cbn [negb].
  - rewrite (Z.mod_small (y mod P) D) by lia. change (0 mod D) with 0.
    change ((0 - 0 + 0) mod P) with 0. lia.
  - change (0 mod D) with 0.
    replace ((2 ^ 64 - 1) mod D) with (D - 1).
    2: { rewrite Hq. symmetry. rewrite <- (Z.mod_add _ (1 - 2 ^ (64 - 8 * d))) by lia.
         replace (D * 2 ^ (64 - 8 * d) - 1 + (1 - 2 ^ (64 - 8 * d)) * D) with (D - 1) by lia.
         rewrite Z.mod_small; lia. }
    change (0 - 0 + (D - 1)) with (D - 1).
    replace ((D - 1) mod P) with (P - 1).
    2: { rewrite Hp. symmetry. rewrite <- (Z.mod_add _ (1 - 2 ^ (8 * d - 8 * s))) by lia.
         replace (P * 2 ^ (8 * d - 8 * s) - 1 + (1 - 2 ^ (8 * d - 8 * s)) * P) with (P - 1) by lia.
         rewrite Z.mod_small; lia. }
    rewrite <- (Z.mod_add (y mod P - P) 1 D) by lia. rewrite (Z.mod_small (_ + _)); lia.
Qed.

Lemma execute_run fin d o dst op1 op2 rf k v r rf' :
  op_size op1 <= op_size dst <= 8 -> 0 < op_size op1 -> 0 <= em_operand_size d ->
  insn_result (oc_handler o) (em_operand_size d) (op_size dst) (op_size op1) (op_value dst)
    (op_value op1) (op_value op2) rf = Some (r, rf') ->
  execute (mk fin d o dst op1 op2 rf k v) =
    Some (EM_CONTINUE, mk fin d o (set_value r dst) op1 op2 rf' k v).
Proof.
  intros Hs Hp Hd Hres. unfold execute, ctxt. rewrite gets_run. cbn [es_ctxt em_opcode mk].
  destruct (oc_handler o) as [|f|h|g]; [done| |destruct h; try done|done];
    cbn [insn_result] in Hres; injection Hres as <- <-; cbn [soft_handler].
  - reflexivity.
  - unfold em_mov, ctxt. rewrite gets_run. cbn [es_ctxt em_dst em_src1 em_decoder mk].
    by rewrite put_bytes_low by done.
  - unfold em_movzx, ctxt. rewrite gets_run. cbn [es_ctxt em_dst em_src1 em_decoder mk].
    rewrite put_bytes_low by lia. change (0 mod 2 ^ (8 * op_size op1)) with 0. done.
  - unfold em_movsx, ctxt. rewrite gets_run. cbn [es_ctxt em_dst em_src1 em_decoder mk].
    by rewrite movsx_value by lia.
Qed.

(** ** Instructions with a register destination and a memory source *)
Record load_insn c : Prop := {
  li_rep : em_rep (em_decoder c) = 0;
  li_string : not_string (em_opcode c);
  li_size : 0 <= em_operand_size (em_decoder c);
  li_dst : op_type (em_dst c) = OP_REG;
  li_dst_ok : reg_ok (em_dst c);
  li_dst_flags : op_flags (em_dst c) = 0;
  li_src : op_type (em_src1 c) = OP_MEM;
  li_src_flags : op_flags (em_src1 c) = 0;
  li_sizes : 0 < op_size (em_src1 c) <= op_size (em_dst c);
  li_src2 : op_type (em_src2 c) = OP_NONE;
}.

Lemma has_0 m : has 0 m = false.
Proof. done. Qed.

(** The value of the destination that the handler sees. *)
Definition dst_value c v : Z :=
  if has (oc_flags (em_opcode c)) INSN_DST_NR then op_value (em_dst c)
  else get_bytes (read_gpr v (op_index (em_dst c))) (op_shift (em_dst c)) (op_size (em_dst c)).

Lemma load_exit c v la rc x v1 : rc <> EM_CONTINUE -> load_insn c -> cache_ok (EmState c v) ->
  (forall i, 0 <= i < 16 -> reg (EmState c v) i = read_gpr v i) ->
  linear_address (em_decoder c) v (em_src1 c) = Some la ->
  read_memory la (op_value (em_src1 c)) (op_size (em_src1 c)) (translation_flags c) v =
    Some ((rc, x), v1) ->
  exists dst rf k, em_emulate_insn (EmState c v) = Some (rc,
      mk false (em_decoder c) (em_opcode c) dst
        (add_flag OP_READ_PENDING (set_value x (em_src1 c))) (em_src2 c) rf (k, 0, 0) v1) /\
    kok (k, 0, 0) v1 /\ (forall i, read_gpr v1 i = read_gpr v i) /\
    dst = dst_input (em_opcode c) dst (k, 0, 0) v1 /\ op_value dst = dst_value c v /\
    op_size dst = op_size (em_dst c) /\ op_type dst = OP_REG /\ op_index dst = op_index (em_dst c) /\
    op_shift dst = op_shift (em_dst c) /\ has (op_flags dst) OP_WRITE_FINISHED = false.
Proof.
  intros Hrc [Hrep Hstr Hsz Hdt Hdok Hdf Hst Hsf Hss Hs2] Hok Hreg Hla Hrd.
  assert (Hnc : is_continue rc = false) by (by destruct rc).
  set (k0 := (em_gpr_cache c, em_gpr_cache_r c, em_gpr_cache_w c)).
  assert (Hok0 : kok k0 v).
  { apply (kok_mk (em_finished c) (em_decoder c) (em_opcode c) (em_dst c) (em_src1 c) (em_src2 c)
      (em_rflags c)). by destruct c. }
  assert (Hg1 : forall i, read_gpr v1 i = read_gpr v i) by (intros i; by eapply gpr_read_memory).
  set (rf0 := start_flags (em_opcode c) (em_rflags c) v).
  destruct (input_dst false (em_decoder c) (em_opcode c) (em_dst c) (em_src1 c) (em_src2 c) rf0 k0 v
    (or_exit execute output_operands) Hok0 Hdt Hdok) as (k & Hokk & Hregk & Hin).
  set (dst := dst_input (em_opcode c) (em_dst c) k0 v).
  assert (Hdst : op_value dst = dst_value c v /\ op_size dst = op_size (em_dst c) /\
    op_type dst = OP_REG /\ op_index dst = op_index (em_dst c) /\ op_shift dst = op_shift (em_dst c) /\
    has (op_flags dst) OP_WRITE_FINISHED = false /\
    (has (oc_flags (em_opcode c)) INSN_DST_NR || has (op_flags dst) OP_READ_FINISHED)%bool = true).
  { subst dst. unfold dst_input, dst_value. rewrite Hdf, has_0, orb_false_r.
    destruct (has (oc_flags (em_opcode c)) INSN_DST_NR); cbn; rewrite ?Hdf; [by split_and!|].
    split_and!; try done. f_equal. change (kreg k0 v ?i) with (reg (kst k0 v) i).
    rewrite <- (Hreg (op_index (em_dst c))); [done|]. apply Hdok. }
  destruct Hdst as (H1 & H2 & H3 & H4 & H5 & H6 & H7).
  destruct (kok_vcpu k v v1 Hg1 Hokk) as [Hokk1 _].
  exists dst, rf0, k.1.1. split_and!; try done.
  2: by apply kok_empty.
  2: { unfold dst_input. by rewrite H7. }
  apply (emulate_exit _ _ _ _ _ _ _ _ _ k); [done|done|].
  change (EmState _ _) with (mk false (em_decoder c) (em_opcode c) (em_dst c) (em_src1 c) (em_src2 c)
    (em_rflags c) k0 v) at 1.
  rewrite pass_start by done. fold rf0. rewrite Hin. fold dst.
  erewrite or_exit_run; [|unfold read_operand, ctxt; rewrite gets_run;
    erewrite bind_run by (apply (mem_read_run _ (em_src1 c) la rc x v1);
      [done|by rewrite Hsf|by rewrite Hsf|exact Hla|exact Hrd]); reflexivity].
  cbn [fst]. by rewrite Hnc.
Qed.

(** What a completed instruction with a register destination leaves: the result [r] in
    the destination (a 4-byte result is extended with zeros, a smaller one replaces its
    bytes only), the other registers of [v], the flags [rf], and for the rest the virtual
    CPU [w] after the flags have been written and RIP has been advanced. *)
Definition load_completed c v w (r rf : Z) s2 : Prop :=
  em_finished (es_ctxt s2) = true /\ read_rflags (es_vcpu s2) = rf /\
  (forall (X : Type) (obs : V -> X), beside_gpr obs ->
     obs (es_vcpu s2) = obs (advance_rip (em_len (em_decoder c)) (write_rflags rf w))) /\
  forall i, 0 <= i < 16 -> read_gpr (es_vcpu s2) i =
    result_regs (em_opcode c) (set_value r (em_dst c)) (read_gpr v) i.

(** The access is made at once. *)
Lemma load_once c v la x v1 r rf : load_insn c -> cache_ok (EmState c v) ->
  (forall i, 0 <= i < 16 -> reg (EmState c v) i = read_gpr v i) ->
  has (oc_flags (em_opcode c)) INSN_NOFLAGS = false ->
  linear_address (em_decoder c) v (em_src1 c) = Some la ->
  read_memory la (op_value (em_src1 c)) (op_size (em_src1 c)) (translation_flags c) v =
    Some ((EM_CONTINUE, x), v1) ->
  insn_result (oc_handler (em_opcode c)) (em_operand_size (em_decoder c)) (op_size (em_dst c))
    (op_size (em_src1 c)) (dst_value c v) x (op_value (em_src2 c)) (read_rflags v) = Some (r, rf) ->
  exists s2, em_emulate_insn (EmState c v) = Some (EM_CONTINUE, s2) /\ load_completed c v v1 r rf s2.
Proof.
  intros [Hrep Hstr Hsz Hdt Hdok Hdf Hst Hsf Hss Hs2] Hok Hreg Hnf Hla Hrd Hres.
  set (k0 := (em_gpr_cache c, em_gpr_cache_r c, em_gpr_cache_w c)).
  assert (Hok0 : kok k0 v).
  { apply (kok_mk (em_finished c) (em_decoder c) (em_opcode c) (em_dst c) (em_src1 c) (em_src2 c)
      (em_rflags c)). by destruct c. }
  assert (Hreg0 : forall i, 0 <= i < 16 -> kreg k0 v i = read_gpr v i).
  { intros i Hi. rewrite <- (Hreg i Hi). done. }
  assert (Hg1 : forall i, read_gpr v1 i = read_gpr v i) by (intros i; by eapply gpr_read_memory).
  destruct (input_dst false (em_decoder c) (em_opcode c) (em_dst c) (em_src1 c) (em_src2 c)
    (read_rflags v) k0 v (or_exit execute output_operands) Hok0 Hdt Hdok) as (k & Hokk & Hregk & Hin).
  set (dst := dst_input (em_opcode c) (em_dst c) k0 v) in *.
  assert (Hdst : op_value dst = dst_value c v /\ op_size dst = op_size (em_dst c) /\
    op_type dst = OP_REG /\ op_index dst = op_index (em_dst c) /\ op_shift dst = op_shift (em_dst c) /\
    has (op_flags dst) OP_WRITE_FINISHED = false).
  { subst dst. unfold dst_input, dst_value. rewrite Hdf, has_0, orb_false_r.
    destruct (has (oc_flags (em_opcode c)) INSN_DST_NR); cbn; rewrite ?Hdf; [by split_and!|].
    split_and!; try done. by rewrite Hreg0 by apply Hdok. }
  destruct Hdst as (Hdv & Hds & Ht & Hdi & Hdsh & Hwf).
  assert (Hr : reg_ok dst) by (unfold reg_ok; rewrite Hdi, Hdsh, Hds; apply Hdok).
  set (op1' := add_flag OP_READ_FINISHED (set_value x (em_src1 c))).
  destruct (kok_vcpu k v v1 Hg1 Hokk) as [Hok1 Hreg1].
  destruct (output_reg false (em_decoder c) (em_opcode c) (set_value r dst) op1' (em_src2 c) rf k v1
    Hrep Hstr Hok1 Ht Hr Hwf) as (dst' & k' & Hout & Hok' & Hreg').
  unfold after_flags in *. rewrite Hnf in *.
  destruct (emulate_done (EmState c v) false (em_decoder c) (em_opcode c) dst' op1' (em_src2 c) rf k'
    (write_rflags rf v1) Hrep Hok') as (s2 & Hrun & Hfin & Hg & Hf & Hobs).
  2: { exists s2. split; [done|]. split; [done|]. split; [by rewrite Hf; apply rflags_write|].
       split; [done|]. intros i Hi. rewrite Hg, Hreg' by done.
       assert (Hk : forall j, 0 <= j < 16 -> kreg k v1 j = read_gpr v j)
         by (intros j Hj; by rewrite Hreg1, Hregk, Hreg0).
       unfold result_regs, upd. cbn [set_value op_index op_shift op_size op_value].
       rewrite Hdi, Hdsh, Hds. destruct (has _ INSN_DST_NW); [by apply Hk|].
       case_decide; [rewrite Hk; [done|apply Hdok]|by apply Hk]. }
  change (EmState _ _) with (mk false (em_decoder c) (em_opcode c) (em_dst c) (em_src1 c) (em_src2 c)
    (em_rflags c) k0 v) at 1.
  rewrite pass_start by done. unfold start_flags. rewrite Hnf, Hin.
  rewrite (or_continue _ _ _ (mk false (em_decoder c) (em_opcode c) dst op1' (em_src2 c)
    (read_rflags v) k v1)).
  2: { unfold read_operand, ctxt. rewrite gets_run.
       erewrite bind_run by (apply (mem_read_run _ (em_src1 c) la EM_CONTINUE x v1);
         [done|by rewrite Hsf|by rewrite Hsf|exact Hla|exact Hrd]). done. }
  rewrite (or_continue _ _ _ (mk false (em_decoder c) (em_opcode c) dst op1' (em_src2 c)
    (read_rflags v) k v1)).
  2: { unfold read_operand, ctxt. rewrite gets_run.
       erewrite bind_run by (by apply none_read_run). done. }
  erewrite or_continue; [exact Hout|].
  apply execute_run; [|cbn; lia|done|cbn; by rewrite Hdv, Hds].
  destruct Hr as (_ & ? & ? & ?). rewrite Hds in *. unfold op1'. cbn.
  destruct (Z.eqb_spec (op_size (em_dst c)) 4); lia.
Qed.

(** The second call, when the access has been made. *)
Lemma load_resume c dst x y rf0 k v2 v3 r rf : load_insn c ->
  let o := em_opcode c in
  let op1 := add_flag OP_READ_PENDING (set_value x (em_src1 c)) in
  kok k v2 -> op_type dst = OP_REG -> reg_ok dst -> dst = dst_input o dst k v2 ->
  op_size dst = op_size (em_dst c) -> has (op_flags dst) OP_WRITE_FINISHED = false ->
  read_memory_post x (op_size (em_src1 c)) v2 = Some ((EM_CONTINUE, y), v3) ->
  insn_result (oc_handler o) (em_operand_size (em_decoder c)) (op_size dst) (op_size (em_src1 c))
    (op_value dst) y (op_value (em_src2 c)) (start_flags o rf0 v2) = Some (r, rf) ->
  exists s2, em_emulate_insn (mk false (em_decoder c) o dst op1 (em_src2 c) rf0 k v2) =
      Some (EM_CONTINUE, s2) /\ em_finished (es_ctxt s2) = true /\
    read_rflags (es_vcpu s2) = read_rflags (after_flags o rf v3) /\
    (forall (X : Type) (obs : V -> X), beside_gpr obs ->
       obs (es_vcpu s2) = obs (advance_rip (em_len (em_decoder c)) (after_flags o rf v3))) /\
    forall i, 0 <= i < 16 -> read_gpr (es_vcpu s2) i = result_regs o (set_value r dst) (kreg k v2) i.
Proof.
  intros [Hrep Hstr Hsz Hdt Hdok Hdf Hst Hsf Hss Hs2] o op1 Hok Ht Hr Hdin Hds Hwf Hpost Hres.
  assert (Hg3 : forall i, read_gpr v3 i = read_gpr v2 i) by (intros i; by eapply gpr_read_memory_post).
  destruct (input_dst false (em_decoder c) o dst op1 (em_src2 c) (start_flags o rf0 v2) k v2
    (or_exit execute output_operands) Hok Ht Hr) as (k1 & Hok1 & Hreg1 & Hin).
  rewrite <- Hdin in Hin.
  set (op1' := add_flag OP_READ_FINISHED (set_value y op1)).
  destruct (kok_vcpu k1 v2 v3 Hg3 Hok1) as [Hok3 Hreg3].
  destruct (output_reg false (em_decoder c) o (set_value r dst) op1' (em_src2 c) rf k1 v3 Hrep Hstr
    Hok3 Ht Hr Hwf) as (dst' & k' & Hout & Hok' & Hreg').
  destruct (emulate_done (mk false (em_decoder c) o dst op1 (em_src2 c) rf0 k v2) false (em_decoder c)
    o dst' op1' (em_src2 c) rf k' (after_flags o rf v3) Hrep Hok') as (s2 & Hrun & Hfin & Hg & Hf & Hobs).
  2: { exists s2. split_and!; try done. intros i Hi. rewrite Hg, Hreg' by done.
       unfold result_regs. cbn [set_value op_index op_shift op_size op_value].
       destruct Hr as (Hix & _). unfold upd.
       rewrite !Hreg3, !Hreg1 by done. case_match; [by rewrite Hreg3, Hreg1|].
       case_decide; [done|]. by rewrite Hreg3, Hreg1. }
  change (EmState _ _) with (mk false (em_decoder c) o dst op1 (em_src2 c) rf0 k v2).
  rewrite pass_start, Hin by done.
  rewrite (or_continue _ _ _ (mk false (em_decoder c) o dst op1' (em_src2 c) (start_flags o rf0 v2) k1 v3)).
  2: { unfold read_operand, ctxt. rewrite gets_run.
       erewrite bind_run by (apply (mem_post_run _ op1 EM_CONTINUE y v3);
         [done|unfold op1; cbn; by rewrite Hsf|unfold op1; cbn; by rewrite Hsf|exact Hpost]). done. }
  rewrite (or_continue _ _ _ (mk false (em_decoder c) o dst op1' (em_src2 c) (start_flags o rf0 v2) k1 v3)).
  2: { unfold read_operand, ctxt. rewrite gets_run.
       erewrite bind_run by (by apply none_read_run). done. }
  erewrite or_continue; [exact Hout|].
  apply execute_run; [|cbn; lia|done|exact Hres].
  destruct Hr as (_ & ? & ? & ?). rewrite Hds in *. unfold op1'. cbn.
  destruct (Z.eqb_spec (op_size (em_dst c)) 4); lia.
Qed.

(** The access is left to user space, and made before the second call. *)
Lemma load_mmio c v la x v1 : load_insn c -> cache_ok (EmState c v) ->
  (forall i, 0 <= i < 16 -> reg (EmState c v) i = read_gpr v i) ->
  has (oc_flags (em_opcode c)) INSN_NOFLAGS = false ->
  linear_address (em_decoder c) v (em_src1 c) = Some la ->
  read_memory la (op_value (em_src1 c)) (op_size (em_src1 c)) (translation_flags c) v =
    Some ((EM_EXIT_MMIO, x), v1) ->
  exists s1, em_emulate_insn (EmState c v) = Some (EM_EXIT_MMIO, s1) /\ es_vcpu s1 = v1 /\
    em_finished (es_ctxt s1) = false /\ (forall i, read_gpr v1 i = read_gpr v i) /\
    forall v2 v3 y r rf, (forall i, read_gpr v2 i = read_gpr v1 i) ->
      read_memory_post x (op_size (em_src1 c)) v2 = Some ((EM_CONTINUE, y), v3) ->
      insn_result (oc_handler (em_opcode c)) (em_operand_size (em_decoder c)) (op_size (em_dst c))
        (op_size (em_src1 c)) (dst_value c v) y (op_value (em_src2 c)) (read_rflags v2) = Some (r, rf) ->
      exists s2, em_emulate_insn (EmState (es_ctxt s1) v2) = Some (EM_CONTINUE, s2) /\
        load_completed c v v3 r rf s2.
Proof.
  intros Hl Hok Hreg Hnf Hla Hrd.
  destruct (load_exit c v la EM_EXIT_MMIO x v1 ltac:(done) Hl Hok Hreg Hla Hrd)
    as (dst & rf0 & k & Hrun & Hok1 & Hg1 & Hdin & Hdv & Hds & Hdt & Hdi & Hdsh & Hdw).
  eexists. split; [exact Hrun|]. do 3 (split; [done|]). intros v2 v3 y r rf Hg2 Hpost Hres.
  destruct (kok_vcpu _ v1 v2 Hg2 Hok1) as [Hok2 Hreg2].
  assert (Hk : forall i, kreg (k, 0, 0) v2 i = read_gpr v i).
  { intros i. rewrite Hreg2, <- Hg1. apply (kok_empty (k, 0, 0) v1 Hok1). }
  destruct (load_resume c dst x y rf0 (k, 0, 0) v2 v3 r rf Hl Hok2 Hdt) as (s2 & Hrun2 & Hfin & Hf & Hobs & Hg);
    try done.
  - unfold reg_ok. rewrite Hdi, Hdsh, Hds. apply Hl.
  - rewrite Hdin at 1. unfold dst_input. case_match; [done|]. by rewrite Hreg2.
  - unfold start_flags. by rewrite Hnf, Hds, Hdv.
  - exists s2. split; [exact Hrun2|]. unfold after_flags in Hf, Hobs. rewrite Hnf in Hf, Hobs.
    split; [done|]. split; [rewrite Hf; apply rflags_write|]. split; [exact Hobs|].
    intros i Hi. rewrite Hg by done. unfold result_regs, upd. cbn [set_value op_index op_shift op_size op_value].
      rewrite Hdi, Hdsh, Hds. destruct (has _ INSN_DST_NW); [apply Hk|].
      case_decide; by rewrite Hk.
Qed.

(** C26. An instruction with a memory source and a register destination (the loads MOV,
    MOVZX and MOVSX and the arithmetic instructions) reads its operand at the
    architecture's linear address.  When the callback reads memory at once, one call
    completes the instruction.  When it leaves the access to user space, the first call
    returns EM_EXIT_MMIO with every register unchanged, and when user space has made the
    access and the registers are as they were, the second call completes the instruction.
    When it fails, the call fails and no register has changed.  A completed instruction
    ([load_completed]) leaves the result for the value that was read in its destination
    and the flags of the operation, and changes no other register; the rest of the virtual
    CPU is that after writing the flags and advancing RIP. *)
Theorem emulate_load_correct c v la rc x v1 : load_insn c -> cache_ok (EmState c v) ->
  (forall i, 0 <= i < 16 -> reg (EmState c v) i = read_gpr v i) ->
  has (oc_flags (em_opcode c)) INSN_NOFLAGS = false ->
  operand_linear (em_decoder c) v (em_src1 c) = Some la ->
  read_memory la (op_value (em_src1 c)) (op_size (em_src1 c)) (translation_flags c) v =
    Some ((rc, x), v1) ->
  let result y f := insn_result (oc_handler (em_opcode c)) (em_operand_size (em_decoder c))
    (op_size (em_dst c)) (op_size (em_src1 c)) (dst_value c v) y (op_value (em_src2 c)) f in
  match rc with
  | EM_CONTINUE => forall r rf, result x (read_rflags v) = Some (r, rf) ->
      exists s2, em_emulate_insn (EmState c v) = Some (EM_CONTINUE, s2) /\
        load_completed c v v1 r rf s2
  | EM_EXIT_MMIO =>
      exists s1, em_emulate_insn (EmState c v) = Some (EM_EXIT_MMIO, s1) /\ es_vcpu s1 = v1 /\
        em_finished (es_ctxt s1) = false /\ (forall i, read_gpr v1 i = read_gpr v i) /\
        forall v2 v3 y r rf, (forall i, read_gpr v2 i = read_gpr v1 i) ->
          read_memory_post x (op_size (em_src1 c)) v2 = Some ((EM_CONTINUE, y), v3) ->
          result y (read_rflags v2) = Some (r, rf) ->
          exists s2, em_emulate_insn (EmState (es_ctxt s1) v2) = Some (EM_CONTINUE, s2) /\
            load_completed c v v3 r rf s2
  | EM_ERROR =>
      exists s1, em_emulate_insn (EmState c v) = Some (EM_ERROR, s1) /\ es_vcpu s1 = v1 /\
        forall i, read_gpr v1 i = read_gpr v i
  end.
Proof.
  rewrite <- linear_address_arch. intros Hl Hok Hreg Hnf Hla Hrd result. destruct rc.
  - intros r rf. by eapply load_once.
  - by eapply load_mmio.
  - destruct (load_exit c v la EM_ERROR x v1 ltac:(done) Hl Hok Hreg Hla Hrd)
      as (dst & rf0 & k & Hrun & _ & Hg1 & _). eexists. by split.
Qed.

(** ** Stores: MOV to memory *)
Record store_insn c : Prop := {
  si_rep : em_rep (em_decoder c) = 0;
  si_string : not_string (em_opcode c);
  si_handler : oc_handler (em_opcode c) = Soft soft_mov;
  si_nr : has (oc_flags (em_opcode c)) INSN_DST_NR = true;
  si_nw : has (oc_flags (em_opcode c)) INSN_DST_NW = false;
  si_flags : has (oc_flags (em_opcode c)) INSN_NOFLAGS = false;
  si_bitop : has (oc_flags (em_opcode c)) INSN_BITOP = false;
  si_size : 0 <= em_operand_size (em_decoder c);
  si_dst : op_type (em_dst c) = OP_MEM;
  si_dst_flags : op_flags (em_dst c) = 0;
  si_src : op_type (em_src1 c) = OP_IMM \/ op_type (em_src1 c) = OP_REG /\ reg_ok (em_src1 c);
  si_src_flags : op_flags (em_src1 c) = 0;
  si_src2 : op_type (em_src2 c) = OP_NONE;
}.

Definition src_value c v : Z :=
  if bool_decide (op_type (em_src1 c) = OP_REG)
  then get_bytes (read_gpr v (op_index (em_src1 c))) (op_shift (em_src1 c)) (op_size (em_src1 c))
  else op_value (em_src1 c).

(** What is written: the low bytes of the source. *)
Definition stored_value c v : Z :=
  let n := 8 * em_operand_size (em_decoder c) in
  op_value (em_dst c) - op_value (em_dst c) mod 2 ^ n + src_value c v mod 2 ^ n.

(** The source is read once, whether it is fresh or has been read before. *)
Lemma read_src fin c dst rf k v op1 : store_insn c -> kok k v ->
  (forall i, 0 <= i < 16 -> kreg k v i = read_gpr v i) ->
  op1 = em_src1 c \/ (has (op_flags op1) OP_READ_FINISHED = true /\ op_value op1 = src_value c v) ->
  exists op1' k', read_operand em_src1 set_src1
      (mk fin (em_decoder c) (em_opcode c) dst op1 (em_src2 c) rf k v) =
      Some (EM_CONTINUE, mk fin (em_decoder c) (em_opcode c) dst op1' (em_src2 c) rf k' v) /\
    has (op_flags op1') OP_READ_FINISHED = true /\ op_value op1' = src_value c v /\
    kok k' v /\ forall i, 0 <= i < 16 -> kreg k' v i = read_gpr v i.
Proof.
  intros [_ _ _ _ _ _ _ _ _ _ Hsrc Hsf _] Hok Hreg Hop. unfold read_operand, ctxt.
  rewrite gets_run. cbn [es_ctxt em_src1 mk]. destruct Hop as [->|[Hf Hv]].
  2: { exists op1, k. split; [by erewrite bind_run by (by apply finished_read_run)|done]. }
  unfold src_value. destruct Hsrc as [Ht|[Ht Hr]]; rewrite Ht.
  - rewrite bool_decide_eq_false_2 by done.
    exists (add_flag OP_READ_FINISHED (set_value (op_value (em_src1 c)) (em_src1 c))), k.
    split; [|cbn; by rewrite Hsf].
    by erewrite bind_run by (apply imm_read_run; [done|by rewrite Hsf]).
  - rewrite bool_decide_eq_true_2 by done.
    destruct (reg_read_mk fin (em_decoder c) (em_opcode c) dst (em_src1 c) (em_src2 c) rf k v (em_src1 c)
      Hok Ht Hr) as (k' & Hrun & Hok' & Hreg'); [by rewrite Hsf|].
    eexists _, k'. split; [by erewrite bind_run by exact Hrun|]. cbn. rewrite Hsf.
    split; [done|]. split; [by rewrite Hreg by apply Hr|]. split; [done|].
    intros i Hi. by rewrite Hreg', Hreg.
Qed.

(** One pass of a store up to the write of the destination. *)
Lemma store_pass c dst rf k v op1 : store_insn c -> kok k v ->
  (forall i, 0 <= i < 16 -> kreg k v i = read_gpr v i) -> op_type dst = OP_MEM ->
  op1 = em_src1 c \/ (has (op_flags op1) OP_READ_FINISHED = true /\ op_value op1 = src_value c v) ->
  let n := 8 * em_operand_size (em_decoder c) in
  let dst' := set_value (op_value dst - op_value dst mod 2 ^ n + src_value c v mod 2 ^ n) dst in
  let v' := write_rflags (read_rflags v) v in
  exists op1' k', has (op_flags op1') OP_READ_FINISHED = true /\ op_value op1' = src_value c v /\
    kok k' v' /\ (forall i, 0 <= i < 16 -> kreg k' v' i = read_gpr v' i) /\
    em_pass (mk false (em_decoder c) (em_opcode c) dst op1 (em_src2 c) rf k v) =
    or_exit write_dst (string_registers;; next_iteration)
      (mk false (em_decoder c) (em_opcode c) dst' op1' (em_src2 c) (read_rflags v) k' v').
Proof.
  intros Hs Hok Hreg Ht Hop n dst' v'. pose proof Hs as [Hrep Hstr Hh Hnr Hnw Hnf Hbit Hsz _ _ _ _ Hs2].
  rewrite pass_start by done. unfold start_flags. rewrite Hnf. unfold input_operands, ctxt.
  rewrite gets_run. unfold is_memory_bitop. cbn [es_ctxt em_opcode em_dst em_src1 mk].
  rewrite Hbit, Hnr. cbn [andb]. erewrite or_continue by reflexivity.
  destruct (read_src false c dst (read_rflags v) k v op1 Hs Hok Hreg Hop)
    as (op1' & k' & Hrun & Hf & Hv & Hok' & Hreg').
  rewrite (or_continue _ _ _ _ Hrun).
  rewrite (or_continue _ _ _ (mk false (em_decoder c) (em_opcode c) dst op1' (em_src2 c)
    (read_rflags v) k' v)).
  2: { unfold read_operand, ctxt. rewrite gets_run. by erewrite bind_run by (by apply none_read_run). }
  rewrite (or_continue _ _ _ (mk false (em_decoder c) (em_opcode c) dst' op1' (em_src2 c)
    (read_rflags v) k' v)).
  2: { unfold execute, ctxt. rewrite gets_run. cbn [es_ctxt em_opcode mk]. rewrite Hh. cbn [soft_handler].
       unfold em_mov, ctxt. rewrite gets_run. cbn [es_ctxt em_dst em_src1 em_decoder mk].
       rewrite put_bytes_low by done. rewrite Hv. done. }
  assert (Hg : forall i, read_gpr v' i = read_gpr v i) by (intros i; apply gpr_write_rflags).
  destruct (kok_vcpu k' v v' Hg Hok') as [Hok2 Hreg2].
  exists op1', k'. split; [done|]. split; [done|]. split; [done|].
  split; [intros i Hi; by rewrite Hreg2, Hg, Hreg'|].
  unfold output_operands, ctxt. rewrite gets_run. cbn [es_ctxt em_opcode mk]. by rewrite Hnf, Hnw.
Qed.

(** The first call, when the write does not complete. *)
Lemma store_exit c v la rc v1 : rc <> EM_CONTINUE -> store_insn c -> cache_ok (EmState c v) ->
  (forall i, 0 <= i < 16 -> reg (EmState c v) i = read_gpr v i) ->
  let v0 := write_rflags (read_rflags v) v in
  linear_address (em_decoder c) v0 (set_value (stored_value c v) (em_dst c)) = Some la ->
  write_memory la (stored_value c v) (op_size (em_dst c)) (translation_flags c) v0 = Some (rc, v1) ->
  exists op1 k, em_emulate_insn (EmState c v) = Some (rc, mk false (em_decoder c) (em_opcode c)
      (add_flag OP_WRITE_PENDING (set_value (stored_value c v) (em_dst c))) op1 (em_src2 c)
      (read_rflags v) (k.1.1, 0, 0) v1) /\
    kok k v0 /\ has (op_flags op1) OP_READ_FINISHED = true /\ op_value op1 = src_value c v /\
    forall i, read_gpr v1 i = read_gpr v i.
Proof.
  intros Hrc Hs Hok Hreg v0 Hla Hwr. assert (Hnc : is_continue rc = false) by (by destruct rc).
  pose proof Hs as [Hrep Hstr Hh Hnr Hnw Hnf Hbit Hsz Hdt Hdf Hsrc Hsf Hs2].
  set (k0 := (em_gpr_cache c, em_gpr_cache_r c, em_gpr_cache_w c)).
  assert (Hok0 : kok k0 v).
  { apply (kok_mk (em_finished c) (em_decoder c) (em_opcode c) (em_dst c) (em_src1 c) (em_src2 c)
      (em_rflags c)). by destruct c. }
  destruct (store_pass c (em_dst c) (em_rflags c) k0 v (em_src1 c) Hs Hok0 Hreg Hdt (or_introl eq_refl))
    as (op1 & k & Hf1 & Hv1 & Hok1 & Hreg1 & Hpass). fold (stored_value c v) v0 in Hpass.
  exists op1, k. split_and!; try done.
  2: { intros i. rewrite (gpr_write_memory _ _ _ _ _ _ _ i Hwr). apply gpr_write_rflags. }
  apply (emulate_exit (EmState c v) rc false (em_decoder c) (em_opcode c) _ op1 (em_src2 c)
    (read_rflags v) k v1); [done|done|].
  etransitivity; [exact Hpass|]. erewrite or_exit_run; [|unfold write_dst, ctxt; rewrite gets_run;
    erewrite bind_run by (apply (mem_write_run _ (set_value (stored_value c v) (em_dst c)) la rc v1);
      [done|cbn; by rewrite Hdf|cbn; by rewrite Hdf|exact Hla|exact Hwr]); reflexivity].
  cbn [fst]. by rewrite Hnc.
Qed.

(** What a completed store leaves: the registers and the flags of [v], and for the rest the
    virtual CPU [w] with the flags [rf] written and RIP advanced. *)
Definition store_completed c v w (rf : Z) s2 : Prop :=
  em_finished (es_ctxt s2) = true /\ read_rflags (es_vcpu s2) = rf /\
  (forall (X : Type) (obs : V -> X), beside_gpr obs ->
     obs (es_vcpu s2) = obs (advance_rip (em_len (em_decoder c)) w)) /\
  forall i, 0 <= i < 16 -> read_gpr (es_vcpu s2) i = read_gpr v i.

(** The access is made at once. *)
Lemma store_once c v la v1 : store_insn c -> cache_ok (EmState c v) ->
  (forall i, 0 <= i < 16 -> reg (EmState c v) i = read_gpr v i) ->
  let v0 := write_rflags (read_rflags v) v in
  linear_address (em_decoder c) v0 (set_value (stored_value c v) (em_dst c)) = Some la ->
  write_memory la (stored_value c v) (op_size (em_dst c)) (translation_flags c) v0 =
    Some (EM_CONTINUE, v1) ->
  exists s2, em_emulate_insn (EmState c v) = Some (EM_CONTINUE, s2) /\
    store_completed c v v1 (read_rflags v1) s2.
Proof.
  intros Hs Hok Hreg v0 Hla Hwr. pose proof Hs as [Hrep Hstr Hh Hnr Hnw Hnf Hbit Hsz Hdt Hdf Hsrc Hsf Hs2].
  set (k0 := (em_gpr_cache c, em_gpr_cache_r c, em_gpr_cache_w c)).
  assert (Hok0 : kok k0 v).
  { apply (kok_mk (em_finished c) (em_decoder c) (em_opcode c) (em_dst c) (em_src1 c) (em_src2 c)
      (em_rflags c)). by destruct c. }
  destruct (store_pass c (em_dst c) (em_rflags c) k0 v (em_src1 c) Hs Hok0 Hreg Hdt (or_introl eq_refl))
    as (op1 & k & Hf1 & Hv1 & Hok1 & Hreg1 & Hpass). fold (stored_value c v) v0 in Hpass, Hok1, Hreg1.
  assert (Hg1 : forall i, read_gpr v1 i = read_gpr v0 i).
  { intros i. by rewrite (gpr_write_memory _ _ _ _ _ _ _ i Hwr). }
  destruct (kok_vcpu k v0 v1 Hg1 Hok1) as [Hok2 Hreg2].
  destruct (emulate_done (EmState c v) false (em_decoder c) (em_opcode c)
    (add_flag OP_WRITE_FINISHED (set_value (stored_value c v) (em_dst c)))
    op1 (em_src2 c) (read_rflags v) k v1 Hrep Hok2) as (s2 & Hrun & Hfin & Hgs & Hfl & Hobs).
  { etransitivity; [exact Hpass|]. erewrite or_continue; [|unfold write_dst, ctxt; rewrite gets_run;
      erewrite bind_run by (apply (mem_write_run _ (set_value (stored_value c v) (em_dst c)) la EM_CONTINUE v1);
        [done|cbn; by rewrite Hdf|cbn; by rewrite Hdf|exact Hla|exact Hwr]); reflexivity].
    change (EmState _ _) with (mk false (em_decoder c) (em_opcode c)
      (add_flag OP_WRITE_FINISHED (set_value (stored_value c v) (em_dst c)))
      op1 (em_src2 c) (read_rflags v) k v1).
    erewrite bind_run by (by apply string_registers_none). by apply next_done. }
  exists s2. split; [exact Hrun|]. split; [done|]. split; [done|]. split; [exact Hobs|].
  intros i Hi. rewrite Hgs, Hreg2, Hreg1 by done. apply gpr_write_rflags.
Qed.

(** The access is left to user space. *)
Lemma store_mmio c v la v1 : store_insn c -> cache_ok (EmState c v) ->
  (forall i, 0 <= i < 16 -> reg (EmState c v) i = read_gpr v i) ->
  let v0 := write_rflags (read_rflags v) v in
  linear_address (em_decoder c) v0 (set_value (stored_value c v) (em_dst c)) = Some la ->
  write_memory la (stored_value c v) (op_size (em_dst c)) (translation_flags c) v0 =
    Some (EM_EXIT_MMIO, v1) ->
  exists s1, em_emulate_insn (EmState c v) = Some (EM_EXIT_MMIO, s1) /\ es_vcpu s1 = v1 /\
    em_finished (es_ctxt s1) = false /\ (forall i, read_gpr v1 i = read_gpr v i) /\
    forall v2, (forall i, read_gpr v2 i = read_gpr v1 i) ->
      exists s2, em_emulate_insn (EmState (es_ctxt s1) v2) = Some (EM_CONTINUE, s2) /\
        store_completed c v (write_rflags (read_rflags v2) v2) (read_rflags v2) s2.
Proof.
  intros Hs Hok Hreg v0 Hla Hwr.
  destruct (store_exit c v la EM_EXIT_MMIO v1 ltac:(done) Hs Hok Hreg Hla Hwr)
    as (op1 & k & Hrun1 & Hok1 & Hf1 & Hv1 & Hg1).
  pose proof Hs as [Hrep Hstr Hh Hnr Hnw Hnf Hbit Hsz Hdt Hdf Hsrc Hsf Hs2].
  set (dst := add_flag OP_WRITE_PENDING (set_value (stored_value c v) (em_dst c))) in *.
  eexists. split; [exact Hrun1|].
  do 3 (split; [done|]). intros v2 Hg2.
  set (k1 := (k.1.1, 0, 0)).
  assert (Hok2 : kok k1 v2 /\ forall i, kreg k1 v2 i = read_gpr v2 i).
  { apply kok_empty. apply (kok_vcpu k v0); [|done]. intros i. rewrite Hg2, Hg1. symmetry.
    apply gpr_write_rflags. }
  destruct Hok2 as [Hok2 Hreg2].
  assert (Hsv : src_value c v2 = src_value c v).
  { unfold src_value. case_bool_decide; [by rewrite Hg2, Hg1|done]. }
  destruct (store_pass c dst (read_rflags v) k1 v2 op1 Hs Hok2) as (op1' & k' & _ & _ & Hok' & Hreg' & Hpass2);
    [by auto|done|right; split; [done|by rewrite Hsv]|].
  set (v0' := write_rflags (read_rflags v2) v2) in *.
  set (dst' := set_value _ dst) in *.
  destruct (emulate_done (mk false (em_decoder c) (em_opcode c) dst op1 (em_src2 c) (read_rflags v) k1 v2)
    false (em_decoder c) (em_opcode c) (add_flag OP_WRITE_FINISHED dst')
    op1' (em_src2 c) (read_rflags v2) k' v0' Hrep Hok') as (s2 & Hrun & Hfin & Hgs & Hfl & Hobs).
  { etransitivity; [exact Hpass2|]. erewrite or_continue; [|unfold write_dst, ctxt; rewrite gets_run;
      erewrite bind_run by (apply mem_written_run; [done|cbn; by rewrite Hdf|cbn; by rewrite Hdf]); reflexivity].
    change (EmState _ _) with (mk false (em_decoder c) (em_opcode c) (add_flag OP_WRITE_FINISHED dst')
      op1' (em_src2 c) (read_rflags v2) k' v0').
    erewrite bind_run by (by apply string_registers_none). by apply next_done. }
  exists s2. split; [exact Hrun|]. split; [done|]. split; [|split; [exact Hobs|]].
  - rewrite Hfl. apply rflags_write.
  - intros i Hi. rewrite Hgs, Hreg' by done. unfold v0'. by rewrite gpr_write_rflags, Hg2, Hg1.
Qed.

(** C27. MOV of a register or an immediate operand to memory writes the low bytes of the
    source at the architecture's linear address.  When the callback writes memory at once,
    one call completes the instruction.  When it leaves the access to user space, the
    first call returns EM_EXIT_MMIO with every register unchanged, and the second call
    completes the instruction without writing again.  When the access fails, the call
    fails and no register has changed.  A completed store ([store_completed]) changes
    neither the registers nor the flags, and advances RIP. *)
Theorem emulate_store_correct c v la rc v1 : store_insn c -> cache_ok (EmState c v) ->
  (forall i, 0 <= i < 16 -> reg (EmState c v) i = read_gpr v i) ->
  let v0 := write_rflags (read_rflags v) v in
  operand_linear (em_decoder c) v0 (set_value (stored_value c v) (em_dst c)) = Some la ->
  write_memory la (stored_value c v) (op_size (em_dst c)) (translation_flags c) v0 = Some (rc, v1) ->
  match rc with
  | EM_CONTINUE =>
      exists s2, em_emulate_insn (EmState c v) = Some (EM_CONTINUE, s2) /\
        store_completed c v v1 (read_rflags v1) s2
  | EM_EXIT_MMIO =>
      exists s1, em_emulate_insn (EmState c v) = Some (EM_EXIT_MMIO, s1) /\ es_vcpu s1 = v1 /\
        em_finished (es_ctxt s1) = false /\ (forall i, read_gpr v1 i = read_gpr v i) /\
        forall v2, (forall i, read_gpr v2 i = read_gpr v1 i) ->
          exists s2, em_emulate_insn (EmState (es_ctxt s1) v2) = Some (EM_CONTINUE, s2) /\
            store_completed c v (write_rflags (read_rflags v2) v2) (read_rflags v2) s2
  | EM_ERROR =>
      exists s1, em_emulate_insn (EmState c v) = Some (EM_ERROR, s1) /\ es_vcpu s1 = v1 /\
        forall i, read_gpr v1 i = read_gpr v i
  end.
Proof.
  intros Hs Hok Hreg v0 Hla Hwr. rewrite <- linear_address_arch in Hla. destruct rc.
  - by eapply store_once.
  - by eapply store_mmio.
  - destruct (store_exit c v la EM_ERROR v1 ltac:(done) Hs Hok Hreg Hla Hwr)
      as (op1 & k & Hrun & _ & _ & _ & Hg1). eexists. by split.
Qed.
End Emulation.
