(* ===== verification/EmSafe.v ===== *)
(** * What the emulator keeps while it executes an instruction

    An instruction changes registers only through the cache.  For every relation [P]
    between the registers that the emulator sees and those of the virtual CPU which writes
    of the registers in [W] keep, no step of an instruction that writes only registers in
    [W] gets stuck or breaks [P].  EmRep and the end of this file, which
    shows that an interrupted instruction changes no register, choose [P] and [W]. *)

From stdpp Require Import base numbers list.
From Stdlib Require Import ZArith Lia.
From S2P Require Import Prelude EmTypes Emulate EmCache EmProps.
#[local] Open Scope Z_scope.

Section Safe.
Context {V : Type} {EO : EmOps V} {FO : FastOps} {EL : EmLaws V}.
#[local] Notation st := (em_state V).
Implicit Types (s : st) (c : em_context_t) (v : V) (op : em_operand_t).

(** The fields of the context that do not change. *)
Context (oc : em_opcode_t) (rep0 ads ops : Z).
Context (ads_ok : 0 <= ads <= 8) (ops_ok : 0 <= ops <= 8).

Definition opcode_ok (o : em_opcode_t) : Prop :=
  match oc_handler o with
  | Fast _ => True | Soft soft_bextr => False | Soft _ => True | _ => False
  end.
Context (handler_ok : opcode_ok oc).

(** The flags of the memory callbacks depend on the instruction only. *)
Definition access_flags (o : em_opcode_t) (rep : Z) : Z :=
  if has (oc_flags o) INSN_TWOMEM then 0
  else if negb (rep =? 0) then 0 else EM_OPS_NO_TRANSLATION.

Lemma translation_flags_eq c :
  translation_flags c = access_flags (em_opcode c) (em_rep (em_decoder c)).
Proof. unfold translation_flags, is_translation_required, access_flags. by repeat case_match. Qed.

(** A memory callback that does not return has failed. *)
Context (failed : Prop).
Context (read_total : forall ea x size v, is_Some (read_memory ea x size (access_flags oc rep0) v) \/ failed).
Context (post_total : forall x size v, is_Some (read_memory_post x size v) \/ failed).
Context (write_total : forall ea x size v, is_Some (write_memory ea x size (access_flags oc rep0) v) \/ failed).

Context (P : (Z -> Z) -> (Z -> Z) -> Prop) (W : Z -> Prop).
Context (P_ext : forall f f' h h', (forall i, 0 <= i < 16 -> f' i = f i) -> (forall i, h' i = h i) ->
  P f h -> P f' h').
Context (P_write : forall i f f' h, W i -> (forall j, 0 <= j < 16 -> j <> i -> f' j = f j) ->
  P f h -> P f' h).
Context (W_rsp : W REG_RSP) (W_rsi : W REG_RSI) (W_rdi : W REG_RDI).

Definition op_safe op : Prop := op_type op = OP_REG -> reg_ok op /\ W (op_index op).

Record ctxt_inv c : Prop := {
  xi_opcode : em_opcode c = oc;
  xi_rep : em_rep (em_decoder c) = rep0;
  xi_adsize : em_address_size (em_decoder c) = ads;
  xi_opsize : em_operand_size (em_decoder c) = ops;
  xi_dst : op_safe (em_dst c);
  xi_src1 : op_safe (em_src1 c);
  xi_src2 : op_safe (em_src2 c);
}.

Definition inv s : Prop :=
  cache_ok s /\ P (reg s) (read_gpr (es_vcpu s)) /\ ctxt_inv (es_ctxt s) /\
  em_finished (es_ctxt s) = false.

(** [m] ends in [Q], or gets stuck in a callback; it keeps [inv] and its result satisfies [R]. *)
Definition ends {A} (Q : A -> st -> Prop) (o : option (A * st)) : Prop :=
  match o with Some (a, s') => Q a s' | None => failed end.
Definition safe_to {A} (Q : A -> st -> Prop) (m : M st A) : Prop := forall s, inv s -> ends Q (m s).
Definition safe {A} (R : A -> Prop) (m : M st A) : Prop :=
  safe_to (fun a s' => R a /\ inv s') m.

Lemma safe_to_bind {A B} (R : A -> Prop) (Q : B -> st -> Prop) (m : M st A) (k : A -> M st B) :
  safe R m -> (forall a, R a -> safe_to Q (k a)) -> safe_to Q (m ≫= k).
Proof.
  intros Hm Hk s Hs. specialize (Hm s Hs). unfold mbind, M_bind. destruct (m s) as [[a s1]|]; [|done].
  destruct Hm as [Ha Hs1]. by apply Hk.
Qed.

Lemma safe_run {A} (R : A -> Prop) (m : M st A) s a s' : safe R m -> inv s -> m s = Some (a, s') -> R a /\ inv s'.
Proof. intros Hm Hs Hr. specialize (Hm s Hs). by rewrite Hr in Hm. Qed.

Lemma ends_run {A} (Q : A -> st -> Prop) o a s' : o = Some (a, s') -> Q a s' -> ends Q o.
Proof. by intros ->. Qed.

Lemma safe_bind {A B} (R : A -> Prop) (Q : B -> Prop) (m : M st A) (k : A -> M st B) :
  safe R m -> (forall a, R a -> safe Q (k a)) -> safe Q (m ≫= k).
Proof. apply safe_to_bind. Qed.

Lemma safe_ret {A} (R : A -> Prop) a : R a -> safe R (mret a).
Proof. intros Ha s Hs. by split. Qed.

Lemma safe_ctxt : safe ctxt_inv ctxt.
Proof. intros s Hs. split; [apply Hs|done]. Qed.

(** Updates of the context that leave the cache alone. *)
Lemma safe_upd (f : em_context_t -> em_context_t) :
  (forall c, em_gpr_cache (f c) = em_gpr_cache c /\ em_gpr_cache_r (f c) = em_gpr_cache_r c /\
     em_gpr_cache_w (f c) = em_gpr_cache_w c /\ em_finished (f c) = em_finished c) ->
  (forall c, ctxt_inv c -> ctxt_inv (f c)) -> safe (fun _ => True) (upd_ctxt f).
Proof.
  intros Hf Hc s ([Hl Hd Hcl Hr] & Hg & Hx & Hn). split; [done|].
  destruct (Hf (es_ctxt s)) as (H1 & H2 & H3 & H4).
  split; [|split; [|split; [by apply Hc|cbn; by rewrite H4]]].
  - constructor; cbn; unfold reg, cached, dirty in *; cbn; rewrite ?H1, ?H2, ?H3 in *; done.
  - eapply P_ext; [|done|exact Hg]. intros i _. unfold reg, cached. cbn. by rewrite H1, H2.
Qed.

Lemma safe_cache {A} (m : M st A) (R : A -> Prop) (i : Z) :
  W i -> (forall s, cache_ok s -> exists a s' f, m s = Some (a, s') /\ R a /\ cache_step s s' f /\
            forall j, 0 <= j < 16 -> j <> i -> f j = reg s j) -> safe R m.
Proof.
  intros HW H s (Hok & Hg & Hx & Hn).
  destruct (H s Hok) as (a & s' & f & Hrun & Ha & [Hv Hok' (x & r & w & Hc) Hreg] & Hf).
  eapply ends_run; [exact Hrun|]. split; [done|]. split; [done|]. rewrite Hv, Hc. split.
  - eapply P_write; [exact HW| |exact Hg]. intros j Hj Hne. rewrite Hreg by done. by apply Hf.
  - split; [by destruct Hx|done].
Qed.

Lemma safe_gpr_read i size shift : 0 <= i < 16 -> shift + size <= 8 ->
  safe (fun _ => True) (gpr_read_shifted i size shift).
Proof.
  intros Hi Hle. apply (safe_cache _ _ REG_RSP W_rsp). intros s Hok.
  destruct (gpr_read_rule s i size shift Hok Hi Hle) as (s' & Hrun & Hs). by eexists _, s', _.
Qed.

Lemma safe_gpr_write i size x shift :
  W i -> 0 <= i < 16 -> 0 <= shift -> 0 <= size -> shift + size <= 8 ->
  safe (fun _ => True) (gpr_write_shifted i size x shift).
Proof.
  intros HW Hi H1 H2 Hle. apply (safe_cache _ _ i HW). intros s Hok.
  destruct (gpr_write_rule s i size x shift Hok Hi H1 H2 Hle) as (s' & Hrun & Hs).
  eexists _, s', _. split_and!; [done|done|done|]. intros j Hj Hne. unfold upd.
  by rewrite decide_False by done.
Qed.

Lemma safe_call {A} (m : M V A) :
  (forall v, is_Some (m v) \/ failed) -> (forall v a v' i, m v = Some (a, v') -> read_gpr v' i = read_gpr v i) ->
  safe (fun _ => True) (vcpu_call m).
Proof.
  intros Ht Hg s ([Hl Hd Hcl Hr] & Hgs & Hx & Hn). unfold vcpu_call.
  destruct (m (es_vcpu s)) as [[a v']|] eqn:Hm; [|destruct (Ht (es_vcpu s)) as [[y Hy]|Hy]; [congruence|exact Hy]].
  split; [done|].
  assert (Hv : forall i, read_gpr v' i = read_gpr (es_vcpu s) i) by (intros i; by eapply Hg).
  assert (Hreg : forall i, reg (EmState (es_ctxt s) v') i = reg s i).
  { intros i. unfold reg. cbn. by rewrite Hv. }
  split; [|split; [|done]]; cbn.
  - constructor; try done. intros i Hi Hdi. rewrite Hreg. cbn. rewrite Hv. by apply Hcl.
  - eapply P_ext; [intros i _; apply Hreg|intros i; apply Hv|exact Hgs].
Qed.

Lemma safe_vcpu (f : V -> V) : (forall v i, read_gpr (f v) i = read_gpr v i) ->
  safe (fun _ => True) (upd_vcpu f).
Proof.
  intros Hf. apply (safe_call (fun v => Some (tt, f v))); [intros v; left; by eexists|].
  intros v a v' i [= _ <-]. apply Hf.
Qed.

(** ** Operands *)
Lemma safe_seg_read op size : safe (fun _ => True) (segmented_read op size).
Proof.
  unfold segmented_read. eapply (safe_bind (fun _ => True)).
  { intros s Hs. eapply ends_run; [apply linear_address_run|done]. }
  intros [la|] _; [|by apply safe_ret]. eapply safe_bind; [apply safe_ctxt|]. intros c Hc.
  rewrite translation_flags_eq, (xi_opcode _ Hc), (xi_rep _ Hc).
  apply safe_call; [intros; apply read_total|]. intros v [rc x] v' i H. by eapply gpr_read_memory.
Qed.

Lemma safe_seg_write op size : safe (fun _ => True) (segmented_write op size).
Proof.
  unfold segmented_write. eapply (safe_bind (fun _ => True)).
  { intros s Hs. eapply ends_run; [apply linear_address_run|done]. }
  intros [la|] _; [|by apply safe_ret]. eapply safe_bind; [apply safe_ctxt|]. intros c Hc.
  rewrite translation_flags_eq, (xi_opcode _ Hc), (xi_rep _ Hc).
  apply safe_call; [intros; apply write_total|]. intros v rc v' i H. by eapply gpr_write_memory.
Qed.

Lemma safe_post x size : safe (fun _ => True) (vcpu_call (read_memory_post x size)).
Proof.
  apply safe_call; [intros; apply post_total|]. intros v [rc y] v' i H. by eapply gpr_read_memory_post.
Qed.

(** What an access does to an operand. *)
Definition same_op op op' : Prop :=
  op_type op' = op_type op /\ op_index op' = op_index op /\ op_shift op' = op_shift op /\
  op_size op' = op_size op.

Lemma same_op_ok op op' : same_op op op' -> op_safe op -> op_safe op'.
Proof. intros (H1 & H2 & H3 & H4) H. unfold op_safe, reg_ok in *. by rewrite H1, H2, H3, H4. Qed.

Lemma safe_operand_read op : op_safe op -> safe (fun r => same_op op r.2) (operand_read op).
Proof.
  intros Hop. unfold operand_read. case_match; [by apply safe_ret|]. case_match; [by apply safe_ret|].
  eapply (safe_bind (fun _ => True)).
  - destruct (op_type op) eqn:Ht; try by apply safe_ret.
    + destruct (Hop Ht) as ((Hi & Hs & Hz & Hle) & HW).
      eapply safe_bind; [apply safe_gpr_read; [done|]|by intros; apply safe_ret].
      destruct (Z.eqb_spec (op_size op) 4); lia.
    + case_match; [apply safe_post|apply safe_seg_read].
  - intros [rc x] _. apply safe_ret. cbn [fst snd]. by destruct (is_continue rc).
Qed.

Lemma safe_operand_write op : op_safe op -> safe (fun r => same_op op r.2) (operand_write op).
Proof.
  intros Hop. unfold operand_write. case_match; [by apply safe_ret|]. case_match; [by apply safe_ret|].
  eapply (safe_bind (fun _ => True)).
  - destruct (op_type op) eqn:Ht; try by apply safe_ret.
    + destruct (Hop Ht) as ((Hi & Hs & Hz & Hle) & HW).
      eapply safe_bind; [apply safe_gpr_write; [done|done|done| |done]|by intros; apply safe_ret].
      destruct (Z.eqb_spec (op_size op) 4); lia.
    + case_match; [by apply safe_ret|apply safe_seg_write].
  - intros rc _. apply safe_ret. by destruct (is_continue rc).
Qed.

Lemma safe_register_add i x : W i -> 0 <= i < 16 -> safe (fun _ => True) (register_add i x).
Proof.
  intros HW Hi. eapply safe_bind; [by apply safe_gpr_read|]. intros y _. by apply safe_gpr_write.
Qed.

Lemma safe_bitop c : ctxt_inv c -> is_memory_bitop c = true ->
  forall s, inv s -> es_ctxt s = c ->
  ends (fun _ s' => inv s') (operand_read_bitop s).
Proof.
  intros Hc Hb s Hs Hsc. unfold is_memory_bitop in Hb.
  apply andb_true_iff in Hb as [Hb Ht1]. apply andb_true_iff in Hb as [_ Ht0].
  apply bool_decide_eq_true in Ht1, Ht0.
  assert (H : safe (fun _ => True) (
    if has (op_flags (em_dst c)) OP_READ_PENDING then
      r ← vcpu_call (read_memory_post (op_value (em_dst c)) (op_size (em_dst c)));
      upd_ctxt (set_dst (set_value r.2 (em_dst c)));; mret r.1
    else
      x ← gpr_read (op_index (em_src1 c)) (op_size (em_src1 c));
      match sign_extend (op_size (em_src1 c)) x with
      | None => mret EM_ERROR
      | Some offset =>
          let base := set_ea (op_ea (em_dst c) +! Z.shiftr offset 3) (em_dst c) in
          upd_ctxt (set_src1 (set_value (offset &! 7) (em_src1 c)));;
          r ← segmented_read base (op_size base);
          let base := set_value r.2 base in
          upd_ctxt (set_dst (if is_continue r.1 then base else add_flag OP_READ_PENDING base));;
          mret r.1
      end)).
  { case_match.
    - eapply safe_bind; [apply safe_post|]. intros r _.
      eapply safe_bind; [apply safe_upd; [done|]|by intros; apply safe_ret].
      intros c' [? ? ? ? ? ? ?]. constructor; try done. unfold op_safe. cbn. by rewrite Ht0.
    - destruct (xi_src1 _ Hc Ht1) as ((Hi & Hsh & Hz & Hle) & _).
      eapply safe_bind; [apply safe_gpr_read; [done|]|].
      { destruct (Z.eqb_spec (op_size (em_src1 c)) 4); lia. }
      intros x _. destruct (sign_extend _ x) as [offset|]; [|by apply safe_ret].
      eapply safe_bind; [apply safe_upd; [done|]|].
      { intros c' [? ? ? ? ? ? ?]. constructor; try done. exact (xi_src1 _ Hc). }
      intros _ _. eapply safe_bind; [apply safe_seg_read|]. intros r _.
      eapply safe_bind; [apply safe_upd; [done|]|by intros; apply safe_ret].
      intros c' [? ? ? ? ? ? ?]. constructor; try done. unfold op_safe. cbn.
      destruct (is_continue r.1); cbn; by rewrite Ht0. }
  specialize (H s Hs). unfold operand_read_bitop, ctxt. rewrite gets_run, Hsc. revert H.
  match goal with |- ends _ ?o -> _ => by destruct o as [[rc s']|]; [intros [_ Hs']|] end.
Qed.

(** ** Handlers *)
Lemma ok_set_dst op c : op_safe op -> ctxt_inv c -> ctxt_inv (set_dst op c).
Proof. intros Hop []. by constructor. Qed.
Lemma ok_set_src1 op c : op_safe op -> ctxt_inv c -> ctxt_inv (set_src1 op c).
Proof. intros Hop []. by constructor. Qed.
Lemma ok_set_src2 op c : op_safe op -> ctxt_inv c -> ctxt_inv (set_src2 op c).
Proof. intros Hop []. by constructor. Qed.
Lemma ok_set_rflags x c : ctxt_inv c -> ctxt_inv (set_rflags x c).
Proof. intros []. by constructor. Qed.

Lemma safe_set_dst op : op_safe op -> safe (fun _ => True) (upd_ctxt (set_dst op)).
Proof. intros Hop. apply safe_upd; [done|]. intros c. by apply ok_set_dst. Qed.
Lemma safe_set_src1 op : op_safe op -> safe (fun _ => True) (upd_ctxt (set_src1 op)).
Proof. intros Hop. apply safe_upd; [done|]. intros c. by apply ok_set_src1. Qed.
Lemma safe_set_src2 op : op_safe op -> safe (fun _ => True) (upd_ctxt (set_src2 op)).
Proof. intros Hop. apply safe_upd; [done|]. intros c. by apply ok_set_src2. Qed.
Lemma safe_set_rflags x : safe (fun _ => True) (upd_ctxt (set_rflags x)).
Proof. apply safe_upd; [done|]. apply ok_set_rflags. Qed.

Lemma safe_set_dst_value x : safe (fun _ => True) (set_dst_value x).
Proof. apply safe_upd; [done|]. intros c Hc. apply ok_set_dst; [apply Hc|done]. Qed.

Lemma safe_mov (m : em_context_t -> M st em_status_t) :
  (forall c, safe (fun _ => True) (m c)) -> safe (fun _ => True) (ctxt ≫= m).
Proof. intros Hm. eapply safe_bind; [apply safe_ctxt|]. intros c _. apply Hm. Qed.

Lemma safe_push : safe (fun _ => True) em_push.
Proof.
  eapply safe_bind; [apply safe_ctxt|]. intros c Hc.
  eapply safe_bind; [by apply safe_register_add|]. intros _ _.
  eapply safe_bind; [apply safe_gpr_read; [done|]|]. { rewrite (xi_adsize _ Hc). lia. }
  intros ea _. eapply safe_bind; [apply safe_ctxt|]. intros c' _.
  eapply safe_bind; [by apply safe_operand_write|]. intros [rc op] Hop. cbn [fst snd] in *.
  eapply safe_bind; [apply safe_set_dst|by intros; apply safe_ret]. by eapply same_op_ok.
Qed.

Lemma safe_pop : safe (fun _ => True) em_pop.
Proof.
  eapply safe_bind; [apply safe_ctxt|]. intros c Hc.
  eapply safe_bind; [apply safe_gpr_read; [done|]|]. { rewrite (xi_adsize _ Hc). lia. }
  intros ea _. eapply safe_bind; [by apply safe_register_add|]. intros _ _.
  eapply safe_bind; [by apply safe_operand_read|]. intros [rc op] Hop. cbn [fst snd] in *.
  eapply safe_bind; [apply safe_set_src1; by eapply same_op_ok|]. intros _ _.
  case_match; [by apply safe_ret|]. eapply safe_bind; [apply safe_set_dst_value|].
  intros; by apply safe_ret.
Qed.

Lemma safe_xchg : safe (fun _ => True) em_xchg.
Proof.
  eapply safe_bind; [apply safe_ctxt|]. intros c Hc.
  eapply safe_bind; [apply safe_upd; [done|]|].
  { intros c' Hc'. apply ok_set_src2; [apply Hc'|]. apply ok_set_src1; [apply Hc'|done]. }
  intros _ _. eapply safe_bind; [apply safe_ctxt|]. intros c1 Hc1.
  eapply safe_bind; [apply safe_operand_write, Hc1|]. intros [rc op] Hop. cbn [fst snd] in *.
  eapply safe_bind; [apply safe_set_src1; eapply same_op_ok; [exact Hop|apply Hc1]|]. intros _ _.
  case_match; [by apply safe_ret|]. eapply safe_bind; [apply safe_ctxt|]. intros c2 Hc2.
  eapply safe_bind; [apply safe_operand_write, Hc2|]. intros [rc2 op2] Hop2. cbn [fst snd] in *.
  eapply safe_bind; [apply safe_set_src2; eapply same_op_ok; [exact Hop2|apply Hc2]|].
  intros; by apply safe_ret.
Qed.

Lemma safe_execute : safe (fun _ => True) execute.
Proof.
  eapply safe_bind; [apply safe_ctxt|]. intros c Hc. rewrite (xi_opcode _ Hc). pose proof handler_ok as Hh. unfold opcode_ok in Hh.
  destruct (oc_handler oc) as [|f|h|g]; [done| | |done].
  - eapply safe_bind; [|by intros; apply safe_ret].
    eapply safe_bind; [apply safe_ctxt|]. intros c' _.
    eapply safe_bind; [apply safe_set_dst_value|]. intros; apply safe_set_rflags.
  - destruct h; try done; cbn [soft_handler]; [|apply safe_mov; intros c'..|apply safe_push|apply safe_pop|apply safe_xchg].
    2-4: eapply safe_bind; [apply safe_set_dst_value|by intros; apply safe_ret].
    eapply safe_bind; [apply safe_ctxt|]. intros c' _. case_match;
      (eapply safe_bind; [apply safe_set_dst_value|]; intros _ _;
       eapply safe_bind; [apply safe_set_rflags|by intros; apply safe_ret]).
Qed.

(** ** The pass *)
Section Pass.
(** How a pass may end: at an operand, or after it. *)
Context (Q : pass_t -> st -> Prop).
Context (Q_exit : forall rc s, rc <> EM_CONTINUE -> inv s -> Q (Exit rc) s).

Lemma exit_to rc s : is_continue rc = false -> inv s ->
  ends Q (mret (M := M st) (Exit rc) s).
Proof. intros Hrc Hs. apply Q_exit; [|done]. by destruct rc. Qed.

Lemma safe_or_exit (m : M st em_status_t) (k : M st pass_t) :
  safe (fun _ => True) m -> safe_to Q k -> safe_to Q (or_exit m k).
Proof.
  intros Hm Hk. eapply safe_to_bind; [exact Hm|]. intros rc _ s Hs.
  destruct (is_continue rc) eqn:Hrc; [by apply Hk|by apply exit_to].
Qed.

Lemma safe_read_operand get_op set_op :
  (forall c, ctxt_inv c -> op_safe (get_op c)) ->
  (forall op, op_safe op -> safe (fun _ => True) (upd_ctxt (set_op op))) ->
  safe (fun _ => True) (read_operand get_op set_op).
Proof.
  intros Hg Hs. eapply safe_bind; [apply safe_ctxt|]. intros c Hc.
  eapply safe_bind; [by apply safe_operand_read, Hg|]. intros [rc op] Hop.
  eapply safe_bind; [apply Hs; by eapply same_op_ok, Hg|by intros; apply safe_ret].
Qed.

Lemma safe_input (k : M st pass_t) : safe_to Q k -> safe_to Q (input_operands k).
Proof.
  intros Hk s Hs. unfold input_operands, ctxt. rewrite gets_run.
  destruct (is_memory_bitop (es_ctxt s)) eqn:Hb.
  - pose proof (safe_bitop _ (proj1 (proj2 (proj2 Hs))) Hb s Hs eq_refl) as Hbit.
    destruct (operand_read_bitop s) as [[rc s']|] eqn:Hrun;
      [|unfold or_exit, mbind, M_bind; by rewrite Hrun]. cbn in Hbit.
    rewrite (or_exit_run _ _ _ _ _ Hrun). destruct (is_continue rc) eqn:Hrc; [by apply Hk|].
    by apply exit_to.
  - apply safe_or_exit; [|apply safe_or_exit; [|apply safe_or_exit; [|done]]| done].
    + case_match; [by apply safe_ret|]. apply safe_read_operand; [intros c Hc; apply Hc|apply safe_set_dst].
    + apply safe_read_operand; [intros c Hc; apply Hc|apply safe_set_src1].
    + apply safe_read_operand; [intros c Hc; apply Hc|apply safe_set_src2].
Qed.

Lemma safe_output : safe_to Q next_iteration -> safe_to Q output_operands.
Proof.
  intros HQ. eapply safe_to_bind; [apply safe_ctxt|]. intros c Hc.
  eapply (safe_to_bind (fun _ => True)).
  { case_match; [by apply safe_ret|]. apply safe_vcpu. intros. apply gpr_write_rflags. }
  intros _ _. apply safe_or_exit.
  { case_match; [by apply safe_ret|]. eapply safe_bind; [apply safe_ctxt|]. intros c' Hc'.
    eapply safe_bind; [apply safe_operand_write, Hc'|]. intros [rc op] Hop.
    eapply safe_bind; [apply safe_set_dst; eapply same_op_ok; [exact Hop|apply Hc']|].
    intros; by apply safe_ret. }
  eapply (safe_to_bind (fun _ => True)); [|done].
  eapply safe_bind; [apply safe_ctxt|]. intros c' _. eapply (safe_bind (fun _ => True)).
  - case_match; [by apply safe_register_add|by apply safe_ret].
  - intros _ _. case_match; [by apply safe_register_add|by apply safe_ret].
Qed.

(** The pass from the input operands on. *)
Definition pass_body : M st pass_t :=
  c ← ctxt;
  (if has (oc_flags (em_opcode c)) INSN_NOFLAGS then mret tt
   else s ← get; upd_ctxt (set_rflags (read_rflags (es_vcpu s))));;
  input_operands (or_exit execute output_operands).

Lemma safe_body : safe_to Q next_iteration -> safe_to Q pass_body.
Proof.
  intros HQ. eapply safe_to_bind; [apply safe_ctxt|]. intros c Hc.
  eapply (safe_to_bind (fun _ => True)).
  { case_match; [by apply safe_ret|]. eapply (safe_bind (fun _ => True)).
    - intros s Hs. by split.
    - intros s _. apply safe_set_rflags. }
  intros _ _. apply safe_input, safe_or_exit; [apply safe_execute|by apply safe_output].
Qed.
End Pass.
End Safe.

Section Atomic.
Context {V : Type} {EO : EmOps V} {FO : FastOps} {EL : EmLaws V}.
#[local] Notation st := (em_state V).
Implicit Types (s : st) (c : em_context_t) (v : V) (op : em_operand_t).

Definition op_ok op : Prop := op_type op = OP_REG -> reg_ok op.

(** A decoded instruction. *)
Record ctxt_ok c : Prop := {
  xo_dst : op_ok (em_dst c);
  xo_src1 : op_ok (em_src1 c);
  xo_src2 : op_ok (em_src2 c);
  xo_opsize : 0 <= em_operand_size (em_decoder c) <= 8;
  xo_adsize : 0 <= em_address_size (em_decoder c) <= 8;
  xo_handler : opcode_ok (em_opcode c);
}.

(** The memory callbacks return, for the flags that the instruction uses. *)
Definition callbacks_return c : Prop :=
  let fl := access_flags (em_opcode c) (em_rep (em_decoder c)) in
  (forall ea x size v, is_Some (read_memory (V := V) ea x size fl v)) /\
  (forall x size v, is_Some (read_memory_post (V := V) x size v)) /\
  (forall ea x size v, is_Some (write_memory (V := V) ea x size fl v)).

Lemma callback_total c {A} (o : option A) : (callbacks_return c -> is_Some o) -> is_Some o \/ ~ callbacks_return c.
Proof. intros H. destruct o; [left; by eexists|right]. intros Hc. by destruct (H Hc). Qed.

(** The registers of the virtual CPU are those of [v0]. *)
Definition unchanged v0 (f h : Z -> Z) : Prop := forall i, h i = read_gpr v0 i.

Lemma next_iteration_single c v0 : em_rep (em_decoder c) = 0 ->
  safe_to (em_opcode c) (em_rep (em_decoder c)) (em_address_size (em_decoder c))
    (em_operand_size (em_decoder c)) (~ callbacks_return c) (unchanged v0) (fun _ => True)
    (fun p s => p = Done /\ inv (em_opcode c) (em_rep (em_decoder c)) (em_address_size (em_decoder c))
       (em_operand_size (em_decoder c)) (unchanged v0) (fun _ => True) s) next_iteration.
Proof.
  intros Hrep s Hs. pose proof (xi_rep _ _ _ _ _ _ (proj1 (proj2 (proj2 Hs)))) as Hr.
  rewrite Hrep in Hr. apply (ends_run _ _ _ Done s); [|by split].
  unfold next_iteration, ctxt. rewrite gets_run. by rewrite Hr.
Qed.

Lemma emulate_stuck s : em_rep (em_decoder (es_ctxt s)) = 0 ->
  em_pass (EmState (set_finished false (es_ctxt s)) (es_vcpu s)) = None -> em_emulate_insn s = None.
Proof.
  intros Hrep Hp. unfold em_emulate_insn. erewrite (bind_run (upd_ctxt _)) by reflexivity.
  erewrite (bind_run repeat_fuel) by (unfold repeat_fuel, ctxt; rewrite gets_run; cbn; by rewrite Hrep).
  unfold mbind, M_bind. cbn [em_passes]. unfold mbind, M_bind. by rewrite Hp.
Qed.

Lemma emulate_rule s : em_rep (em_decoder (es_ctxt s)) = 0 ->
  cache_ok s -> ctxt_ok (es_ctxt s) ->
  match em_emulate_insn s with
  | Some (rc, s') =>
      if is_continue rc then em_finished (es_ctxt s') = true
      else em_finished (es_ctxt s') = false /\
           forall i, read_gpr (es_vcpu s') i = read_gpr (es_vcpu s) i
  | None => ~ callbacks_return (es_ctxt s)
  end.
Proof.
  intros Hrep Hok Hc. set (v0 := es_vcpu s). set (c := es_ctxt s) in *.
  set (s0 := EmState (set_finished false c) v0).
  set (I := inv (em_opcode c) (em_rep (em_decoder c)) (em_address_size (em_decoder c))
              (em_operand_size (em_decoder c)) (unchanged v0) (fun _ => True)).
  assert (Hinv : I s0).
  { split; [by destruct Hok; constructor|]. split; [done|]. split; [|done].
    by destruct Hc as [H1 H2 H3 _ _ _]; split; try done; intros Ht; split; try done; [apply H1|apply H2|apply H3]. }
  set (Q := fun p s' => match p with Exit EM_CONTINUE | Restart => False | _ => I s' end).
  assert (Hbody : ends (~ callbacks_return c) Q (pass_body s0)).
  { apply (safe_body (em_opcode c) (em_rep (em_decoder c)) (em_address_size (em_decoder c))
    (em_operand_size (em_decoder c)) (xo_adsize _ Hc) (xo_handler _ Hc) (~ callbacks_return c))
    with (P := unchanged v0) (W := fun _ => True) (Q := Q); try done.
    1-3: intros; apply callback_total; by intros (Hrd & Hp & Hwr).
    - intros f f' h h' _ Hh H i. by rewrite Hh.
    - intros rc s1 Hrc Hs1. by destruct rc.
    - intros s1 Hs1. pose proof (next_iteration_single c v0 Hrep s1 Hs1) as Hn.
      destruct (next_iteration s1) as [[p s2]|]; [|done]. by destruct Hn as [-> ?]. }
  assert (Hpass : em_pass s0 = pass_body s0).
  { unfold em_pass, pass_body, ctxt. rewrite !gets_run. subst s0. cbn [es_ctxt em_decoder set_finished].
    by rewrite Hrep. }
  destruct (pass_body s0) as [[p s1]|]; [rename Hbody into HQ|by rewrite (emulate_stuck s Hrep Hpass)].
  rewrite (mk_eta s1) in Hpass. destruct p as [|rc|]; [| |done].
  - edestruct (emulate_done s) as (s' & Hr & Hfin & _); [apply Hrep| |exact Hpass|].
    { apply (kok_mk (em_finished (es_ctxt s1)) (em_decoder (es_ctxt s1)) (em_opcode (es_ctxt s1))
        (em_dst (es_ctxt s1)) (em_src1 (es_ctxt s1)) (em_src2 (es_ctxt s1)) (em_rflags (es_ctxt s1))).
      rewrite <- mk_eta. apply HQ. }
    by rewrite Hr.
  - assert (Hi : I s1 /\ rc <> EM_CONTINUE) by (by destruct rc). destruct Hi as [(_ & Hg & _ & Hf1) Hrc].
    erewrite emulate_exit; [|apply Hrep|exact Hrc|exact Hpass].
    unfold is_continue. by rewrite bool_decide_eq_false_2.
Qed.
End Atomic.

Section Claims.
Context {V : Type} {EO : EmOps V} {FO : FastOps} {EL : EmLaws V}.

(** C25. Emulation is atomic: for every decoded instruction without a repeat prefix (except
    BEXTR, whose shifts can be undefined) and whatever the memory callbacks answer,
    [em_emulate_insn] returns, unless a callback does not; it reports completion exactly with
    EM_CONTINUE; and when it returns EM_EXIT_MMIO or EM_ERROR, at whatever operand that happened,
    no general-purpose register of the virtual CPU has changed, so that the instruction can be
    continued.  RFLAGS may have changed. *)
Theorem emulate_atomic (s : em_state V) :
  em_rep (em_decoder (es_ctxt s)) = 0 -> cache_ok s -> ctxt_ok (es_ctxt s) ->
  match em_emulate_insn s with
  | Some (rc, s') =>
      if is_continue rc then em_finished (es_ctxt s') = true
      else em_finished (es_ctxt s') = false /\
           forall i, read_gpr (es_vcpu s') i = read_gpr (es_vcpu s) i
  | None => ~ callbacks_return (es_ctxt s) (V := V)
  end.
Proof. apply emulate_rule. Qed.
End Claims.
