(* ===== verification/EmRep.v ===== *)
(** * Repeated string instructions

    A string instruction with a REP prefix is repeated inside one call of
    [em_emulate_insn].  Each iteration decrements the count register and makes its effects
    visible before the next one starts, so that the repetition ends, and can be interrupted
    by an exit for MMIO and continued at the iteration that was interrupted. *)

From stdpp Require Import base numbers list.
From Stdlib Require Import ZArith Lia.
From S2P Require Import Prelude EmTypes Emulate EmCache EmProps EmSafe.
#[local] Open Scope Z_scope.

(** The count in a register, in the address size. *)
Definition count (ads n : Z) : Z := get_bytes n 0 ads.

Lemma count_mod ads n : 0 <= ads -> count ads n = n mod 2 ^ (8 * ads).
Proof. intros Ha. unfold count, get_bytes, field. by rewrite Z.shiftr_0_r, Z.land_ones by lia. Qed.

Lemma count_pred ads n : 0 <= ads <= 8 -> 0 <= n < 2 ^ 64 -> 0 < count ads n ->
  0 < n /\ u64 (n - 1) = n - 1 /\ count ads (n - 1) = count ads n - 1.
Proof.
  intros Ha Hn. rewrite !count_mod by lia. intros Hp.
  assert (0 < n) by (destruct (Z.eq_dec n 0) as [->|]; [by rewrite Z.mod_0_l in Hp by (apply Z.pow_nonzero; lia)|lia]).
  split; [done|]. split; [apply u64_small; lia|].
  assert (Hb : 0 < 2 ^ (8 * ads)) by (apply Z.pow_pos_nonneg; lia).
  pose proof (Z.div_mod n (2 ^ (8 * ads)) ltac:(lia)). pose proof (Z.mod_pos_bound n _ Hb).
  symmetry. apply (Z.mod_unique_pos _ _ (n / 2 ^ (8 * ads))); lia.
Qed.

(** The decoders of string instructions. *)
Definition string_decoder (k : option em_operand_decoder_t) : Prop :=
  k = None \/ k = Some op_none \/ k = Some op_acc \/ k = Some op_di \/ k = Some op_si.

Record string_opcode (o : em_opcode_t) : Prop := {
  so_dst : string_decoder (oc_decode_dst o);
  so_src1 : string_decoder (oc_decode_src1 o);
  so_src2 : string_decoder (oc_decode_src2 o);
  so_handler : opcode_ok o;
}.

(** No operand is the count register. *)
Definition keeps_rcx (i : Z) : Prop := i <> REG_RCX.

Section Rep.
Context {V : Type} {EO : EmOps V} {FO : FastOps} {EL : EmLaws V}.
#[local] Notation st := (em_state V).
Implicit Types (s : st) (c : em_context_t) (v : V) (op : em_operand_t).

Context (oc : em_opcode_t) (rep0 ads ops : Z).
Context (ads_ok : 0 <= ads <= 8) (ops_ok : 0 <= ops <= 8) (rep_ok : rep0 <> 0).
Context (oc_ok : string_opcode oc).
Context (failed : Prop).
Context (read_total : forall ea x size v, is_Some (read_memory ea x size (access_flags oc rep0) v) \/ failed).
Context (post_total : forall x size v, is_Some (read_memory_post x size v) \/ failed).
Context (write_total : forall ea x size v, is_Some (write_memory ea x size (access_flags oc rep0) v) \/ failed).

(** The count register holds [n] in the emulator and [m] in the virtual CPU. *)
Definition rcx_is (n m : Z) (f h : Z -> Z) : Prop := f REG_RCX = n /\ h REG_RCX = m.

Lemma rcx_ext n m f f' h h' : (forall i, 0 <= i < 16 -> f' i = f i) -> (forall i, h' i = h i) ->
  rcx_is n m f h -> rcx_is n m f' h'.
Proof. intros Hf Hh [<- <-]. split; [by apply Hf|apply Hh]. Qed.

Lemma rcx_write n m i f f' h : keeps_rcx i -> (forall j, 0 <= j < 16 -> j <> i -> f' j = f j) ->
  rcx_is n m f h -> rcx_is n m f' h.
Proof. intros Hi Hf [<- <-]. split; [|done]. apply Hf; [done|]. by intros <-. Qed.

#[local] Notation rinv n m := (inv oc rep0 ads ops (rcx_is n m) keeps_rcx).
#[local] Notation rsafe n m R := (safe oc rep0 ads ops failed (rcx_is n m) keeps_rcx R).

(** ** Decoding the operands again *)
Lemma rep_decoder n m : rsafe n m (fun d => em_address_size d = ads /\ em_operand_size d = ops) decoder.
Proof.
  intros s Hs. split; [|done].
  destruct (proj1 (proj2 (proj2 Hs))). by split.
Qed.

Lemma rep_read n m i : 0 <= i < 16 -> rsafe n m (fun _ => True) (gpr_read i ads).
Proof. intros Hi. apply safe_gpr_read; [apply rcx_write|done|done|lia]. Qed.

Lemma rep_decode n m k op : string_decoder k ->
  op_safe keeps_rcx op -> rsafe n m (fun r => r.1 = EM_CONTINUE /\ op_safe keeps_rcx r.2) (decode_operand k op).
Proof.
  intros Hk Hop. destruct Hk as [-> | [-> | [-> | [-> | ->]]]]; cbn [decode_operand run_decoder].
  - by apply safe_ret.
  - by apply safe_ret.
  - eapply safe_bind; [apply rep_decoder|]. intros d [_ Ho]. apply safe_ret. split; [done|]. intros _.
    split; [|done]. unfold reg_ok. cbn. rewrite Ho. unfold REG_RAX. destruct (Z.eqb_spec ops 4); lia.
  - eapply safe_bind; [apply rep_decoder|]. intros d [Ha _]. rewrite Ha.
    eapply safe_bind; [by apply rep_read|]. intros ea _. by apply safe_ret.
  - eapply safe_bind; [apply rep_decoder|]. intros d [Ha _]. rewrite Ha.
    eapply safe_bind; [by apply rep_read|]. intros ea _. apply safe_ret. split; [done|].
    unfold override_segment. by case_match.
Qed.

Lemma rep_decode_operands n m : rsafe n m (fun rc => rc = EM_CONTINUE) decode_operands.
Proof.
  assert (Hset : forall set_op op, set_op = set_dst \/ set_op = set_src1 \/ set_op = set_src2 ->
    op_safe keeps_rcx op -> rsafe n m (fun _ => True) (upd_ctxt (set_op op))).
  { intros set_op op H Hop. apply safe_upd; [apply rcx_ext|by destruct H as [-> | [-> | ->]]|].
    intros c []. by destruct H as [-> | [-> | ->]]; split. }
  eapply safe_bind; [apply safe_ctxt|]. intros c [Ho _ _ _ Hd H1 H2]. rewrite Ho.
  eapply safe_bind; [by apply rep_decode; [apply oc_ok|]|]. intros r [Hr Hop]. rewrite Hr. cbn [is_continue negb].
  eapply safe_bind; [by apply Hset; [auto|]|]. intros _ _. cbn.
  eapply safe_bind; [by apply rep_decode; [apply oc_ok|]|]. intros r1 [Hr1 Hop1]. rewrite Hr1.
  eapply safe_bind; [by apply Hset; [auto|]|]. intros _ _. cbn.
  eapply safe_bind; [by apply rep_decode; [apply oc_ok|]|]. intros r2 [Hr2 Hop2]. rewrite Hr2.
  eapply safe_bind; [by apply Hset; [auto|]|]. intros _ _. by apply safe_ret.
Qed.

(** ** The end of an iteration *)
Lemma put_all x y : 0 <= x < 2 ^ 64 -> 0 <= y < 2 ^ 64 -> put_bytes x 0 8 y = y.
Proof.
  intros Hx Hy. apply Z.bits_inj'. intros j Hj. unfold put_bytes. rewrite set_field_testbit by lia.
  case_bool_decide; [f_equal; lia|]. rewrite (range_bits x 64), (range_bits y 64) by lia. done.
Qed.

Lemma get_all x : 0 <= x < 2 ^ 64 -> get_bytes x 0 8 = x.
Proof. intros Hx. change (count 8 x = x). rewrite count_mod by lia. by apply Z.mod_small. Qed.

Lemma rcx_decrement n m s : rinv n m s -> exists s', register_add REG_RCX (-1) s = Some (tt, s') /\
  rinv (n +! -1) m s'.
Proof.
  intros (Hok & [Hn Hm] & Hx & Hf).
  destruct (gpr_read_rule s REG_RCX 8 0 Hok ltac:(done) ltac:(done)) as (s1 & Hr1 & [Hv1 Hok1 Ho1 Hreg1]).
  assert (Hrg : 0 <= n < 2 ^ 64) by (rewrite <- Hn; by apply reg_range).
  rewrite Hn, get_all in Hr1 by done.
  destruct (gpr_write_rule s1 REG_RCX 8 (n +! -1) 0 Hok1 ltac:(done) ltac:(done) ltac:(done) ltac:(done))
    as (s2 & Hr2 & [Hv2 Hok2 Ho2 Hreg2]).
  exists s2. split; [unfold register_add; by rewrite (bind_run _ _ _ _ _ Hr1)|].
  destruct (only_cache_trans _ _ _ Ho1 Ho2) as (x & r & w & Hc).
  split; [done|]. rewrite Hv2, Hv1, Hc. split; [|split; [by destruct Hx|done]].
  split; [|done]. rewrite Hreg2 by done. unfold upd. rewrite decide_True by done.
  rewrite Hreg1 by done. rewrite Hn. apply put_all; [done|apply u64_range].
Qed.

(** How a pass with count register [n] ends: interrupted, ended by its condition, or with
    the next iteration prepared. *)
Definition pass_post (n : Z) (p : pass_t) s : Prop :=
  match p with
  | Exit rc => rc <> EM_CONTINUE /\ rinv n n s
  | Done => rinv (n +! -1) n s /\ repeat_ends (es_ctxt s) = true
  | Restart => rinv (n +! -1) (n +! -1) s
  end.

Lemma rep_next n : safe_to oc rep0 ads ops failed (rcx_is n n) keeps_rcx (pass_post n) next_iteration.
Proof.
  intros s Hs. unfold next_iteration, ctxt. rewrite gets_run.
  rewrite (xi_rep _ _ _ _ _ _ (proj1 (proj2 (proj2 Hs)))), (proj2 (Z.eqb_neq _ _)) by done.
  destruct (rcx_decrement n n s Hs) as (s1 & Hr1 & Hs1). rewrite (bind_run _ _ _ _ _ Hr1).
  rewrite gets_run. destruct (repeat_ends (es_ctxt s1)) eqn:He; [done|].
  pose proof (rep_decode_operands _ _ s1 Hs1) as Hdec.
  destruct (decode_operands s1) as [[rc s2]|] eqn:Hr2;
    [destruct Hdec as [-> Hs2]|unfold or_exit, mbind, M_bind; by rewrite Hr2].
  rewrite (or_exit_run _ _ _ _ _ Hr2). cbn.
  destruct Hs2 as (Hok2 & [Hn2 _] & Hx2 & Hf2).
  destruct (flush_rule s2 Hok2) as (s3 & Hr3 & Hok3 & (x & r & w & Hc) & _ & Hg).
  apply (ends_run _ _ _ Restart s3); [by rewrite (bind_run _ _ _ _ _ Hr3)|].
  destruct (Hg REG_RCX ltac:(done)) as [Hg1 Hg2]. split; [done|]. rewrite Hc.
  split; [by split; rewrite ?Hg1, ?Hg2|]. split; [by destruct Hx2|done].
Qed.

(** One pass: nothing when the count is 0. *)
Lemma rep_pass n s : rinv n n s ->
  if count ads n =? 0 then exists s', em_pass s = Some (Done, s') /\ rinv n n s'
  else ends failed (pass_post n) (em_pass s).
Proof.
  intros Hs. pose proof Hs as (Hok & [Hn _] & Hx & _). destruct Hx as [Ho Hr Ha _ _ _ _].
  destruct (gpr_read_rule s REG_RCX ads 0 Hok ltac:(done) ltac:(lia)) as (s1 & Hr1 & Hst).
  rewrite Hn in Hr1. fold (count ads n) in Hr1.
  assert (Hs1 : rinv n n s1).
  { by apply (safe_run _ _ _ _ _ _ _ _ _ _ _ _ (rep_read n n REG_RCX ltac:(done)) Hs Hr1). }
  assert (Hgo : em_pass s = (if negb (negb (count ads n =? 0)) then mret Done else pass_body) s1).
  { destruct (cs_only _ _ _ Hst) as (x & r & w & Hc).
    unfold em_pass, ctxt. rewrite gets_run, Hr, Ha, (proj2 (Z.eqb_neq rep0 0)) by done.
    rewrite (bind_run _ _ s (negb (count ads n =? 0)) s1) by (unfold gpr_read; by rewrite (bind_run _ _ _ _ _ Hr1)).
    destruct (count ads n =? 0); [done|]. cbn [negb]. unfold pass_body, ctxt. rewrite gets_run.
    by rewrite Hc. }
  rewrite Hgo, negb_involutive. destruct (count ads n =? 0); [by exists s1|].
  eapply safe_body; [exact ads_ok|apply oc_ok|done|done|done|apply rcx_ext|intros ????; apply rcx_write|done|done|done| |apply rep_next|exact Hs1].
  intros rc s2 Hrc Hs2. by split.
Qed.

(** ** The loop *)
(** After [k] complete iterations. *)
Definition rep_post (n : Z) (p : pass_t) s : Prop :=
  exists k, 0 <= k <= count ads n /\
  match p with
  | Restart => False
  | Exit rc => rc <> EM_CONTINUE /\ k < count ads n /\ rinv (n - k) (n - k) s
  | Done => (exists m, rinv (n - k) m s) /\ (k = count ads n \/ repeat_ends (es_ctxt s) = true)
  end.

(** [k] iterations that are followed by another one. *)
Inductive iterations : nat -> st -> st -> Prop :=
| iterations_0 s : iterations 0 s s
| iterations_S k s s1 s2 : em_pass s = Some (Restart, s1) -> iterations k s1 s2 -> iterations (S k) s s2.

(** An iteration is stuck, before the count is used up. *)
Definition stuck_in (n : Z) s : Prop :=
  exists k sk, Z.of_nat k < count ads n /\ iterations k s sk /\ em_pass sk = None.

Lemma rep_passes fuel n s : rinv n n s -> 0 <= n < 2 ^ 64 -> count ads n < Z.of_nat fuel ->
  match em_passes fuel s with
  | Some (p, s') => rep_post n p s'
  | None => failed /\ stuck_in n s
  end.
Proof.
  revert n s. induction fuel as [|fuel IH]; intros n s Hs Hn Hf.
  { rewrite count_mod in Hf by lia.
    pose proof (Z.mod_pos_bound n (2 ^ (8 * ads)) ltac:(apply Z.pow_pos_nonneg; lia)). lia. }
  pose proof (rep_pass n s Hs) as Hp. cbn [em_passes].
  assert (Hc0 : 0 <= count ads n).
  { rewrite count_mod by lia. apply Z.mod_pos_bound, Z.pow_pos_nonneg; lia. }
  destruct (Z.eqb_spec (count ads n) 0) as [E0|Hpos].
  { destruct Hp as (s1 & Hrun & Hi). rewrite (bind_run _ _ _ _ _ Hrun). exists 0. rewrite Z.sub_0_r.
    split; [lia|]. split; [by eexists|]. left. lia. }
  destruct (em_pass s) as [[p s1]|] eqn:Hrun.
  2: { unfold mbind, M_bind. rewrite Hrun. split; [done|]. exists O, s. cbn. split; [lia|]. by split; [constructor|]. }
  rewrite (bind_run _ _ _ _ _ Hrun). cbn in Hp.
  destruct (count_pred ads n ads_ok Hn ltac:(lia)) as (Hn0 & Hu & Hcp).
  destruct p as [|rc|]; cbn [pass_post] in Hp; change (n + -1) with (n - 1) in Hp; rewrite ?Hu in Hp.
  - exists 1. split; [lia|]. destruct Hp as [Hi He]. split; [by eexists|by right].
  - exists 0. rewrite Z.sub_0_r. destruct Hp. split_and!; try done; lia.
  - pose proof (IH (n - 1) s1 Hp ltac:(lia) ltac:(lia)) as Hp2.
    destruct (em_passes fuel s1) as [[p s2]|].
    2: { destruct Hp2 as [Hf2 (k & sk & Hk & Hit & Hst)]. split; [done|]. exists (S k), sk.
         split; [lia|]. split; [by econstructor|done]. }
    destruct Hp2 as (k & Hk & Hpost). exists (k + 1). rewrite Hcp in *. split; [lia|].
    replace (n - (k + 1)) with (n - 1 - k) by lia.
    destruct p; [|destruct Hpost as (? & ? & ?); split_and!; try done; lia|done].
    destruct Hpost as [? [Hk2|?]]; (split; [done|]); [left; lia|by right].
Qed.

(** ** The whole call *)
Lemma rep_fuel n s : rinv n n s ->
  exists s', repeat_fuel s = Some (S (Z.to_nat (count ads n)), s') /\ rinv n n s'.
Proof.
  intros Hs. pose proof Hs as (Hok & [Hn _] & [_ Hr Ha _ _ _ _] & _).
  destruct (gpr_read_rule s REG_RCX ads 0 Hok ltac:(done) ltac:(lia)) as (s1 & Hr1 & _).
  rewrite Hn in Hr1. fold (count ads n) in Hr1. exists s1. split.
  - unfold repeat_fuel, ctxt. rewrite gets_run, Hr, Ha, (proj2 (Z.eqb_neq rep0 0)) by done.
    unfold gpr_read. by rewrite (bind_run _ _ _ _ _ Hr1).
  - by apply (safe_run _ _ _ _ _ _ _ _ _ _ _ _ (rep_read n n REG_RCX ltac:(done)) Hs Hr1).
Qed.

(** What is left of [em_emulate_insn] when the loop has ended. *)
Lemma rep_finish n k s : (exists m, rinv (n - k) m s) ->
  exists s', (upd_ctxt (set_finished true);;
              c ← ctxt;
              upd_vcpu (advance_rip (em_len (em_decoder c)));;
              gpr_cache_flush;; gpr_cache_invalidate;; mret EM_CONTINUE) s = Some (EM_CONTINUE, s') /\
    read_gpr (es_vcpu s') REG_RCX = n - k /\ em_finished (es_ctxt s') = true /\
    repeat_ends (es_ctxt s') = repeat_ends (es_ctxt s).
Proof.
  intros (m & Hok & [Hn _] & Hx & _). set (v1 := advance_rip (em_len (em_decoder (es_ctxt s))) (es_vcpu s)).
  set (s1 := EmState (set_finished true (es_ctxt s)) v1).
  assert (Hreg : forall i, reg s1 i = reg s i).
  { intros i. unfold reg, cached, s1, v1. cbn. by rewrite gpr_advance_rip. }
  assert (Hok1 : cache_ok s1).
  { destruct Hok as [Hl Hd Hc Hr]. constructor; try done. intros i Hi Hdi. rewrite Hreg.
    unfold s1, v1. cbn. rewrite gpr_advance_rip. by apply Hc. }
  destruct (flush_rule s1 Hok1) as (s2 & Hr2 & Hok2 & (x & r & w & Hc2) & _ & Hg).
  destruct (invalidate_rule s2 Hok2) as (s3 & Hr3 & _ & (x3 & r3 & w3 & Hc3) & Hv3 & _).
  exists s3. split.
  - erewrite (bind_run (upd_ctxt _)) by reflexivity. unfold ctxt. rewrite gets_run.
    erewrite (bind_run (upd_vcpu _)) by reflexivity. fold v1 s1.
    change (EmState _ _) with s1. rewrite (bind_run _ _ _ _ _ Hr2). by rewrite (bind_run _ _ _ _ _ Hr3).
  - rewrite Hv3, Hc3, Hc2. split; [|done]. rewrite (proj1 (Hg REG_RCX ltac:(done))), Hreg. exact Hn.
Qed.
End Rep.

Section Claims.
Context {V : Type} {EO : EmOps V} {FO : FastOps} {EL : EmLaws V}.

(** C28. A repeated string instruction ends: with a REP prefix and the count [n] in the
    count register, [em_emulate_insn] returns after [k] complete iterations, at most as
    many as the count, unless one of these iterations gets stuck, which it only does if a
    memory callback can fail to return; the loop does not run out of fuel whatever the
    callbacks do.  The count register of the virtual CPU is then [n - k].  The call
    reports completion, with EM_CONTINUE, exactly when the count is used up or the
    condition of REPE/REPNE ended the repetition; an exit for MMIO or an error happens in
    iteration [k], before the count is used up, and the next call continues there. *)
Theorem emulate_rep_terminates (s : em_state V) :
  let c := es_ctxt s in
  let ads := em_address_size (em_decoder c) in
  let n := read_gpr (es_vcpu s) REG_RCX in
  em_rep (em_decoder c) <> 0 -> string_opcode (em_opcode c) -> cache_ok s -> em_gpr_cache_w c = 0 -> ctxt_ok c ->
  Forall (fun op => op_type op = OP_REG -> op_index op <> REG_RCX) [em_dst c; em_src1 c; em_src2 c] ->
  match em_emulate_insn s with
  | Some (rc, s') => exists k,
      0 <= k <= count ads n /\ read_gpr (es_vcpu s') REG_RCX = n - k /\
      if is_continue rc
      then em_finished (es_ctxt s') = true /\ (k = count ads n \/ repeat_ends (es_ctxt s') = true)
      else em_finished (es_ctxt s') = false /\ k < count ads n
  | None => ~ callbacks_return c (V := V) /\
      exists fuel s1, (upd_ctxt (set_finished false);; repeat_fuel) s = Some (fuel, s1) /\ stuck_in ads n s1
  end.
Proof.
  intros c ads n Hrep Hso Hok Hw Hc Hops.
  set (s0 := EmState (set_finished false c) (es_vcpu s)).
  set (I := inv (em_opcode c) (em_rep (em_decoder c)) ads (em_operand_size (em_decoder c))).
  assert (Hs0 : I (rcx_is n n) keeps_rcx s0).
  { split; [by destruct Hok; constructor|]. split.
    - split; [|done]. apply (ck_clean _ Hok); [done|]. unfold dirty. fold c. by rewrite Hw, Z.bits_0.
    - split; [|done]. apply Forall_cons in Hops as [H1 [H2 [H3 _]%Forall_cons]%Forall_cons].
      destruct Hc as [Hd Hs1 Hs2 _ _ _].
      split; try done; intros Ht; [exact (conj (Hd Ht) (H1 Ht))|exact (conj (Hs1 Ht) (H2 Ht))|].
      exact (conj (Hs2 Ht) (H3 Ht)). }
  destruct (rep_fuel _ _ _ _ (xo_adsize _ Hc) Hrep (~ callbacks_return c (V := V)) n s0 Hs0) as (s1 & Hr1 & Hs1).
  assert (Hfuel : count ads n < Z.of_nat (S (Z.to_nat (count ads n)))) by lia.
  assert (Hloop : match em_passes (S (Z.to_nat (count ads n))) s1 with
    | Some (p, s') => rep_post (em_opcode c) (em_rep (em_decoder c)) ads (em_operand_size (em_decoder c)) n p s'
    | None => ~ callbacks_return c (V := V) /\ stuck_in ads n s1 end).
  { apply (rep_passes _ _ _ _ (xo_adsize _ Hc) (xo_opsize _ Hc) Hrep Hso (~ callbacks_return c (V := V)));
      [| | |done|apply gpr_range|done]; intros; apply callback_total; by intros (Hrd & Hpo & Hwr). }
  unfold em_emulate_insn. erewrite (bind_run (upd_ctxt _)) by reflexivity. change (EmState _ _) with s0.
  rewrite (bind_run _ _ _ _ _ Hr1). fold ads.
  destruct (em_passes _ s1) as [[p s2]|] eqn:Hr2.
  2: { unfold mbind at 1, M_bind at 1. rewrite Hr2. destruct Hloop as [Hcb Hst]. split; [done|].
       eexists _, s1. split; [|done]. erewrite (bind_run (upd_ctxt _)) by reflexivity. exact Hr1. }
  destruct Hloop as (k & Hk & Hp). rewrite (bind_run _ _ _ _ _ Hr2).
  destruct p as [|rc|]; [| |done].
  - destruct Hp as [Hm Hend]. destruct (rep_finish _ _ _ _ n k s2 Hm) as (s3 & Hr3 & Hg & Hfin & Hre).
    match goal with |- match ?o with _ => _ end =>
      assert (o = Some (EM_CONTINUE, s3)) as -> by (rewrite <- Hr3; reflexivity) end.
    exists k. by rewrite Hre.
  - destruct Hp as (Hrc & Hlt & Hok2 & [_ Hh] & _ & Hf2).
    destruct (invalidate_rule s2 Hok2) as (s3 & Hr3 & _ & (x & r & w & Hc3) & Hv3 & _).
    rewrite (bind_run _ _ s2 rc s2), (bind_run _ _ _ _ _ Hr3) by done.
    cbn [mret M_ret]. exists k. rewrite Hv3. split; [done|]. split; [done|].
    unfold is_continue. rewrite bool_decide_eq_false_2 by done. by rewrite Hc3.
Qed.
End Claims.
