(* ===== verification/EmDemo.v ===== *)
(** * Instances of the emulator's theorems

    A concrete virtual CPU, all of whose memory is MMIO, and the arithmetic instructions of
    the architecture.  The theorems are applied to instructions decoded from their bytes. *)

From stdpp Require Import base numbers list gmap.
From Stdlib Require Import ZArith Lia.
From S2P Require Import Prelude EmTypes Emulate EmCache EmProps EmSafe EmRep.
#[local] Open Scope Z_scope.

(** ** A virtual CPU *)
Record demo_cpu := DemoCpu {
  dc_gpr : gmap Z Z;
  dc_rflags : Z;
  dc_rip : Z;
  dc_value : Z;             (* the value of the MMIO access *)
  dc_writes : list Z;       (* the values written *)
}.

#[export] Instance demo_ops : EmOps demo_cpu := {
  read_gpr v i := u64 (default 0 (dc_gpr v !! i));
  write_gpr i x v := DemoCpu (<[i := x]> (dc_gpr v)) (dc_rflags v) (dc_rip v) (dc_value v) (dc_writes v);
  read_rflags v := dc_rflags v;
  write_rflags x v := DemoCpu (dc_gpr v) x (dc_rip v) (dc_value v) (dc_writes v);
  get_segment_base v seg := 0;
  advance_rip n v := DemoCpu (dc_gpr v) (dc_rflags v) (dc_rip v + n) (dc_value v) (dc_writes v);
  read_memory ea x size flags v := Some ((EM_EXIT_MMIO, x), v);
  read_memory_post x size v := Some ((EM_CONTINUE, put_bytes x 0 size (dc_value v)), v);
  write_memory ea x size flags v :=
    Some (EM_EXIT_MMIO, DemoCpu (dc_gpr v) (dc_rflags v) (dc_rip v) (dc_value v) (x :: dc_writes v));
}.

#[export] Instance demo_laws : EmLaws demo_cpu.
Proof.
  constructor; try done.
  - intros v i. apply u64_range.
  - intros i x v Hi Hx. cbn. rewrite lookup_insert_eq. by apply u64_small.
  - intros i j x v Hi Hj Hne. cbn. by rewrite lookup_insert_ne.
  - intros ea x size flags v [rc y] v' i [= _ _ <-]. done.
  - intros x size v [rc y] v' i [= _ _ <-]. done.
  - intros ea x size flags v rc v' i [= _ <-]. done.
Qed.

(** ** The arithmetic instructions *)
Definition flag (b : bool) (f : Z) : Z := if b then f else 0.

(** The low byte has an even number of bits set. *)
Definition parity (x : Z) : bool :=
  negb (fold_right (fun i b => xorb (Z.testbit x i) b) false (seqZ 0 8)).

(** The flags of a result: zero, sign and parity. *)
Definition szp (n r : Z) : Z :=
  flag (r =? 0) RFLAGS_ZF |! flag (Z.testbit r (n - 1)) RFLAGS_SF |! flag (parity r) RFLAGS_PF.

(** Addition and subtraction with carry on [n] bits. *)
Definition add_flags (n a b c : Z) : Z * Z :=
  let r := (a + b + c) mod 2 ^ n in
  (r, szp n r |! flag (2 ^ n <=? a + b + c) RFLAGS_CF |! flag (16 <=? a mod 16 + b mod 16 + c) RFLAGS_AF |!
      flag (negb (xorb (Z.testbit a (n - 1)) (Z.testbit b (n - 1))) &&
            xorb (Z.testbit a (n - 1)) (Z.testbit r (n - 1))) RFLAGS_OF).
Definition sub_flags (n a b c : Z) : Z * Z :=
  let r := (a - b - c) mod 2 ^ n in
  (r, szp n r |! flag (a <? b + c) RFLAGS_CF |! flag (a mod 16 <? b mod 16 + c) RFLAGS_AF |!
      flag (xorb (Z.testbit a (n - 1)) (Z.testbit b (n - 1)) &&
            xorb (Z.testbit a (n - 1)) (Z.testbit r (n - 1))) RFLAGS_OF).

Definition bit_result (n a b rf : Z) (f : Z -> Z -> Z) : Z * Z :=
  let i := b mod n in
  (f a i, Z.ldiff rf RFLAGS_CF |! flag (Z.testbit a i) RFLAGS_CF).

Definition alu (f : fastop_t) (n a b rf : Z) : Z * Z :=
  let c := if has rf RFLAGS_CF then 1 else 0 in
  let keep_cf r := (r.1, Z.ldiff r.2 RFLAGS_CF |! (rf &! RFLAGS_CF)) in
  let logic r := (r, szp n r) in
  match f with
  | em_not => (2 ^ n - 1 - a, rf)
  | em_neg => sub_flags n 0 a 0
  | em_inc => keep_cf (add_flags n a 1 0)
  | em_dec => keep_cf (sub_flags n a 1 0)
  | em_add => add_flags n a b 0
  | em_or => logic (a |! b)
  | em_adc => add_flags n a b c
  | em_sbb => sub_flags n a b c
  | em_and => logic (a &! b)
  | em_sub => sub_flags n a b 0
  | em_xor => logic (Z.lxor a b)
  | em_test => (a, (logic (a &! b)).2)
  | em_cmp => (a, (sub_flags n a b 0).2)
  | em_bt => bit_result n a b rf (fun a _ => a)
  | em_bts => bit_result n a b rf (fun a i => a |! Z.shiftl 1 i)
  | em_btr => bit_result n a b rf (fun a i => Z.ldiff a (Z.shiftl 1 i))
  | em_btc => bit_result n a b rf (fun a i => Z.lxor a (Z.shiftl 1 i))
  end.

#[export] Instance x86_fastops : FastOps := {
  fastop_dispatch f size dst src1 src2 flags :=
    let n := 8 * size in
    let r := alu f n (dst mod 2 ^ n) (src1 mod 2 ^ n) flags in
    ((if size =? 4 then r.1 else put_bytes dst 0 size r.1), r.2)
}.

(** ** Decoded instructions *)
Definition zero_ctxt : em_context_t :=
  EmContext true (set_mode EM_MODE_PROT64 no_decoder) Zero no_operand no_operand no_operand 0
    (replicate 16 0) 0 0.

(** RAX holds 1, RBX 0x1000. *)
Definition demo_vcpu : demo_cpu := DemoCpu {[ 0 := 1; 3 := 0x1000 ]} 2 0x400 0 [].

Definition decode_on (v : demo_cpu) (bytes : list Z) : option (em_status_t * em_context_t) :=
  match em_decode_insn (bytes ++ replicate (15 - length bytes) 0) (EmState zero_ctxt v) with
  | Some (rc, s) => Some (rc, es_ctxt s)
  | None => None
  end.

Definition decode_demo : list Z -> option (em_status_t * em_context_t) := decode_on demo_vcpu.

Definition decoded (bytes : list Z) : em_context_t :=
  match decode_demo bytes with Some (_, c) => c | None => zero_ctxt end.

(** [mov eax, [rbx]], [mov [rbx], eax] and [add [rbx], eax]. *)
Definition load_ctxt : em_context_t := Eval vm_compute in decoded [0x8B; 0x03].
Definition store_ctxt : em_context_t := Eval vm_compute in decoded [0x89; 0x03].
Definition add_ctxt : em_context_t := Eval vm_compute in decoded [0x01; 0x03].

Example decode_load : decode_demo [0x8B; 0x03] = Some (EM_CONTINUE, load_ctxt).
Proof. vm_compute. reflexivity. Qed.
Example decode_store : decode_demo [0x89; 0x03] = Some (EM_CONTINUE, store_ctxt).
Proof. vm_compute. reflexivity. Qed.
Example decode_add : decode_demo [0x01; 0x03] = Some (EM_CONTINUE, add_ctxt).
Proof. vm_compute. reflexivity. Qed.

(** The cache after decoding holds registers of the virtual CPU and nothing else. *)
Lemma clean_cache c (v : demo_cpu) : length (em_gpr_cache c) = 16%nat -> em_gpr_cache_w c = 0 ->
  Forall (fun x => 0 <= x < 2 ^ 64) (em_gpr_cache c) ->
  forallb (fun i => reg (EmState c v) i =? read_gpr v i) (seqZ 0 16) = true ->
  cache_ok (EmState c v) /\ forall i, 0 <= i < 16 -> reg (EmState c v) i = read_gpr v i.
Proof.
  intros Hl Hw Hr Hall.
  assert (Hreg : forall i, 0 <= i < 16 -> reg (EmState c v) i = read_gpr v i).
  { intros i Hi. apply Z.eqb_eq. exact (small_cases _ _ _ Hall Hi). }
  split; [|exact Hreg]. constructor; cbn [es_ctxt]; [done| |by auto|done].
  intros i Hi. unfold dirty. by rewrite Hw, Z.bits_0.
Qed.

Lemma load_clean : cache_ok (EmState load_ctxt demo_vcpu) /\
  forall i, 0 <= i < 16 -> reg (EmState load_ctxt demo_vcpu) i = read_gpr demo_vcpu i.
Proof. apply clean_cache; [done|done|repeat constructor; lia|by vm_compute]. Qed.

Lemma store_clean : cache_ok (EmState store_ctxt demo_vcpu) /\
  forall i, 0 <= i < 16 -> reg (EmState store_ctxt demo_vcpu) i = read_gpr demo_vcpu i.
Proof. apply clean_cache; [done|done|repeat constructor; lia|by vm_compute]. Qed.

Lemma load_is_load : load_insn load_ctxt.
Proof. by constructor. Qed.

Lemma store_is_store : store_insn store_ctxt.
Proof.
  constructor; try done. right. split; [done|]. unfold reg_ok. cbn. lia.
Qed.

(** The device answers 0x80000001: RAX holds it, extended with zeros. *)
Lemma emulate_load_correct_witness :
  exists s1, em_emulate_insn (EmState load_ctxt demo_vcpu) = Some (EM_EXIT_MMIO, s1) /\
    exists s2, em_emulate_insn (EmState (es_ctxt s1) (DemoCpu (dc_gpr demo_vcpu) 2 0x400 0x80000001 [])) =
      Some (EM_CONTINUE, s2) /\ read_gpr (es_vcpu s2) 0 = 0x80000001 /\ read_gpr (es_vcpu s2) 3 = 0x1000.
Proof.
  destruct (emulate_load_correct load_ctxt demo_vcpu 0x1000 EM_EXIT_MMIO 0 demo_vcpu load_is_load
    (proj1 load_clean) (proj2 load_clean) eq_refl eq_refl eq_refl) as (s1 & Hrun & _ & _ & _ & H).
  exists s1. split; [exact Hrun|].
  destruct (H (DemoCpu (dc_gpr demo_vcpu) 2 0x400 0x80000001 [])
    (DemoCpu (dc_gpr demo_vcpu) 2 0x400 0x80000001 []) 0x80000001 0x80000001 2) as (s2 & Hrun2 & _ & _ & _ & Hg);
    [done|vm_compute; reflexivity|vm_compute; reflexivity|].
  exists s2. split; [exact Hrun2|]. split; [rewrite (Hg 0) by lia|rewrite (Hg 3) by lia];
    vm_compute; reflexivity.
Defined.

Lemma emulate_store_correct_witness :
  exists s1, em_emulate_insn (EmState store_ctxt demo_vcpu) = Some (EM_EXIT_MMIO, s1) /\
    dc_writes (es_vcpu s1) = [1] /\
    exists s2, em_emulate_insn s1 = Some (EM_CONTINUE, s2) /\ read_gpr (es_vcpu s2) 0 = 1.
Proof.
  destruct (emulate_store_correct store_ctxt demo_vcpu 0x1000 EM_EXIT_MMIO (DemoCpu (dc_gpr demo_vcpu) 2 0x400 0 [1])
    store_is_store (proj1 store_clean) (proj2 store_clean) eq_refl) as (s1 & Hrun & Hv & _ & _ & H);
    [vm_compute; reflexivity|].
  exists s1. split; [exact Hrun|]. split; [by rewrite Hv|].
  destruct (H (es_vcpu s1)) as (s2 & Hrun2 & _ & _ & _ & Hg); [by rewrite Hv|].
  exists s2. split; [by destruct s1|]. rewrite (Hg 0) by lia. reflexivity.
Defined.

Lemma add_ctxt_ok : ctxt_ok add_ctxt.
Proof. constructor; cbn; try done; intros _; unfold reg_ok; cbn; lia. Qed.

Lemma emulate_atomic_witness :
  exists rc s', em_emulate_insn (EmState add_ctxt demo_vcpu) = Some (rc, s') /\
    if is_continue rc then em_finished (es_ctxt s') = true
    else em_finished (es_ctxt s') = false /\
         forall i, read_gpr (es_vcpu s') i = read_gpr demo_vcpu i.
Proof.
  assert (Hok : cache_ok (EmState add_ctxt demo_vcpu))
    by (apply clean_cache; [done|done|repeat constructor; lia|by vm_compute]).
  pose proof (emulate_atomic (EmState add_ctxt demo_vcpu) eq_refl Hok add_ctxt_ok) as H.
  destruct (em_emulate_insn (EmState add_ctxt demo_vcpu)) as [[rc s']|].
  - exists rc, s'. split; [reflexivity|exact H].
  - destruct H. by split_and!; eexists.
Defined.

(** ** A repeated instruction *)

(** RCX holds 3 and RDI 0x2000: [rep stosb] writes AL three times. *)
Definition rep_vcpu : demo_cpu := DemoCpu {[ 0 := 0x41; 1 := 3; 7 := 0x2000 ]} 2 0x400 0 [].
Definition rep_ctxt : em_context_t := Eval vm_compute in
  match decode_on rep_vcpu [0xF3; 0xAA] with Some (_, c) => c | None => zero_ctxt end.

Example decode_rep : decode_on rep_vcpu [0xF3; 0xAA] = Some (EM_CONTINUE, rep_ctxt).
Proof. vm_compute. reflexivity. Qed.

Lemma rep_ctxt_ok : ctxt_ok rep_ctxt.
Proof. constructor; cbn; try done; intros _; unfold reg_ok; cbn; lia. Qed.

Lemma emulate_rep_terminates_witness :
  exists rc s' k, em_emulate_insn (EmState rep_ctxt rep_vcpu) = Some (rc, s') /\
    0 <= k <= 3 /\ read_gpr (es_vcpu s') REG_RCX = 3 - k /\
    if is_continue rc
    then em_finished (es_ctxt s') = true /\ (k = 3 \/ repeat_ends (es_ctxt s') = true)
    else em_finished (es_ctxt s') = false /\ k < 3.
Proof.
  assert (Hc : count (em_address_size (em_decoder rep_ctxt)) (read_gpr rep_vcpu REG_RCX) = 3)
    by (vm_compute; reflexivity).
  assert (Hn : read_gpr rep_vcpu REG_RCX = 3) by (vm_compute; reflexivity).
  assert (Hok : cache_ok (EmState rep_ctxt rep_vcpu))
    by (apply clean_cache; [done|done|repeat constructor; lia|by vm_compute]).
  assert (Hrep : em_rep (em_decoder rep_ctxt) <> 0) by done.
  assert (Hs : string_opcode (em_opcode rep_ctxt)) by (by repeat constructor; vm_compute).
  assert (Hf : Forall (fun op => op_type op = OP_REG -> op_index op <> REG_RCX)
    [em_dst rep_ctxt; em_src1 rep_ctxt; em_src2 rep_ctxt]) by by repeat constructor.
  pose proof (emulate_rep_terminates (EmState rep_ctxt rep_vcpu) Hrep Hs Hok eq_refl rep_ctxt_ok Hf) as H.
  cbn [es_ctxt es_vcpu] in H. rewrite Hc, Hn in H.
  destruct (em_emulate_insn (EmState rep_ctxt rep_vcpu)) as [[rc s']|].
  - destruct H as (k & H). exists rc, s', k. split; [reflexivity|exact H].
  - destruct H as [H _]. destruct H. by split_and!; eexists.
Defined.

(** ** Read-modify-write *)
Definition resume (value : Z) (o : option (em_status_t * em_state demo_cpu))
    : option (em_status_t * em_state demo_cpu) :=
  match o with
  | Some (EM_EXIT_MMIO, s) =>
      let v := es_vcpu s in
      em_emulate_insn (EmState (es_ctxt s)
        (DemoCpu (dc_gpr v) (dc_rflags v) (dc_rip v) value (dc_writes v)))
  | o => None
  end.

(** [add [rbx], eax] with the memory holding 0x7FFFFFFF and RAX 1: a read exit, a write
    exit, and completion. *)
Definition add_to_mmio : option (em_status_t * em_state demo_cpu) :=
  resume 0x80000000 (resume 0x7FFFFFFF (em_emulate_insn (EmState add_ctxt demo_vcpu))).

(** A read-modify-write instruction on MMIO is executed twice: the write exit happens
    after the operation, and the resumed call applies the operation to the new value again.
    The value written is right (0x7FFFFFFF + 1), and is written once, but the flags are
    those of the second application: the overflow of the addition is lost. *)
Theorem rmw_flags_twice :
  (fun r => (r.1, dc_writes (es_vcpu r.2), has (dc_rflags (es_vcpu r.2)) RFLAGS_OF)) <$> add_to_mmio =
    Some (EM_CONTINUE, [0x80000000], false) /\
  has (alu em_add 32 0x7FFFFFFF 1 0).2 RFLAGS_OF = true.
Proof. vm_compute. done. Qed.
