(* ===== verification/VcpuEmu.v ===== *)
(** * Emulation of MMIO accesses by a virtual CPU (src/core/vcpu.c)

    The callbacks that the instruction emulator gets from the virtual CPU, the exit handler
    of EPT violations that starts it, and the continuation when user space has answered a
    fast MMIO request.  The emulator's context is part of the virtual CPU: the state is
    [em_state] over the rest of it. *)

From stdpp Require Import base numbers list gmap.
From Stdlib Require Import ZArith Lia.
From S2P Require Import Prelude MemTypes Memslot GpaSpace PageWalker IntrExc Mmio.
From S2P Require Import EmTypes Emulate EptTree Ept2.
#[local] Open Scope Z_scope.

Definition HAX_EXIT : Z := 0.
Definition HAX_RESUME : Z := 1.
Definition HAX_EXIT_FAST_MMIO : Z := 9.
Definition HAX_EXIT_PAGEFAULT : Z := 10.
Definition CR0_PE : Z := Z.shiftl 1 0.

(** The request to user space in [io_buf]. *)
Record hax_fastmmio := FastMmio {
  fm_gpa : Z;
  fm_value : Z;
  fm_size : Z;
  fm_direction : Z;
}.

(** The fields of the tunnel that are written here. *)
Record hax_tunnel := HaxTunnel {
  ht_exit_reason : Z;
  ht_exit_status : Z;
  ht_pagefault_flags : Z;
  ht_pagefault_gpa : Z;
}.

Record segment_desc_t := SegmentDesc {
  sd_selector : Z;
  sd_dummy : Z;
  sd_limit : Z;
  sd_base : Z;
  sd_ar : Z;
  sd_ipad : Z;
}.

(** Bits of the access rights. *)
Definition sd_long_mode (d : segment_desc_t) : Z := (sd_ar d >>! 13) &! 1.
Definition sd_operand_size (d : segment_desc_t) : Z := (sd_ar d >>! 14) &! 1.
Definition sd_null (d : segment_desc_t) : Z := (sd_ar d >>! 16) &! 1.

(** The rest of the virtual CPU.  [_rflags] and the fields of [vmx] that interrupts use are
    those of [mv_intr], the control registers those of [mv_regs]. *)
Record emu_vcpu {HH : Host} (E : Type) := EmuVcpu {
  ev_mmio : mmio_vcpu E;
  ev_regs : gmap Z Z;
  ev_rip : Z;
  ev_cs : segment_desc_t;
  ev_ss : segment_desc_t;
  ev_ds : segment_desc_t;
  ev_es : segment_desc_t;
  ev_fs : segment_desc_t;
  ev_gs : segment_desc_t;
  ev_rflags_dirty : bool;
  ev_rip_dirty : bool;
  ev_interruptibility_dirty : bool;
  ev_exit_reason : Z;
  ev_exit_qualification : Z;
  ev_exit_gpa : Z;
  ev_tunnel : hax_tunnel;
  ev_fastmmio : hax_fastmmio;
}.
Arguments EmuVcpu {HH E}.
Arguments ev_mmio {HH E}.
Arguments ev_regs {HH E}.
Arguments ev_rip {HH E}.
Arguments ev_cs {HH E}.
Arguments ev_ss {HH E}.
Arguments ev_ds {HH E}.
Arguments ev_es {HH E}.
Arguments ev_fs {HH E}.
Arguments ev_gs {HH E}.
Arguments ev_rflags_dirty {HH E}.
Arguments ev_rip_dirty {HH E}.
Arguments ev_interruptibility_dirty {HH E}.
Arguments ev_exit_reason {HH E}.
Arguments ev_exit_qualification {HH E}.
Arguments ev_exit_gpa {HH E}.
Arguments ev_tunnel {HH E}.
Arguments ev_fastmmio {HH E}.

Section Setters.
Context {HH : Host} {E : Type}.
Implicit Types v : emu_vcpu E.
Definition set_ev_mmio (m : mmio_vcpu E) v : emu_vcpu E :=
  EmuVcpu m (ev_regs v) (ev_rip v) (ev_cs v) (ev_ss v) (ev_ds v) (ev_es v) (ev_fs v) (ev_gs v)
    (ev_rflags_dirty v) (ev_rip_dirty v) (ev_interruptibility_dirty v) (ev_exit_reason v)
    (ev_exit_qualification v) (ev_exit_gpa v) (ev_tunnel v) (ev_fastmmio v).
Definition set_ev_regs (r : gmap Z Z) v : emu_vcpu E :=
  EmuVcpu (ev_mmio v) r (ev_rip v) (ev_cs v) (ev_ss v) (ev_ds v) (ev_es v) (ev_fs v) (ev_gs v)
    (ev_rflags_dirty v) (ev_rip_dirty v) (ev_interruptibility_dirty v) (ev_exit_reason v)
    (ev_exit_qualification v) (ev_exit_gpa v) (ev_tunnel v) (ev_fastmmio v).
Definition set_ev_rip (x : Z) (dirty : bool) v : emu_vcpu E :=
  EmuVcpu (ev_mmio v) (ev_regs v) x (ev_cs v) (ev_ss v) (ev_ds v) (ev_es v) (ev_fs v) (ev_gs v)
    (ev_rflags_dirty v) dirty (ev_interruptibility_dirty v) (ev_exit_reason v)
    (ev_exit_qualification v) (ev_exit_gpa v) (ev_tunnel v) (ev_fastmmio v).
Definition set_ev_rflags_dirty (b : bool) v : emu_vcpu E :=
  EmuVcpu (ev_mmio v) (ev_regs v) (ev_rip v) (ev_cs v) (ev_ss v) (ev_ds v) (ev_es v) (ev_fs v)
    (ev_gs v) b (ev_rip_dirty v) (ev_interruptibility_dirty v) (ev_exit_reason v)
    (ev_exit_qualification v) (ev_exit_gpa v) (ev_tunnel v) (ev_fastmmio v).
Definition set_ev_interruptibility_dirty (b : bool) v : emu_vcpu E :=
  EmuVcpu (ev_mmio v) (ev_regs v) (ev_rip v) (ev_cs v) (ev_ss v) (ev_ds v) (ev_es v) (ev_fs v)
    (ev_gs v) (ev_rflags_dirty v) (ev_rip_dirty v) b (ev_exit_reason v)
    (ev_exit_qualification v) (ev_exit_gpa v) (ev_tunnel v) (ev_fastmmio v).
Definition set_ev_tunnel (t : hax_tunnel) v : emu_vcpu E :=
  EmuVcpu (ev_mmio v) (ev_regs v) (ev_rip v) (ev_cs v) (ev_ss v) (ev_ds v) (ev_es v) (ev_fs v)
    (ev_gs v) (ev_rflags_dirty v) (ev_rip_dirty v) (ev_interruptibility_dirty v) (ev_exit_reason v)
    (ev_exit_qualification v) (ev_exit_gpa v) t (ev_fastmmio v).
Definition set_ev_fastmmio (f : hax_fastmmio) v : emu_vcpu E :=
  EmuVcpu (ev_mmio v) (ev_regs v) (ev_rip v) (ev_cs v) (ev_ss v) (ev_ds v) (ev_es v) (ev_fs v)
    (ev_gs v) (ev_rflags_dirty v) (ev_rip_dirty v) (ev_interruptibility_dirty v) (ev_exit_reason v)
    (ev_exit_qualification v) (ev_exit_gpa v) (ev_tunnel v) f.
Definition upd_ev_intr (f : vcpu_t -> vcpu_t) v : emu_vcpu E :=
  set_ev_mmio (set_mv_intr (f (mv_intr (ev_mmio v))) (ev_mmio v)) v.
Definition set_exit_status (x : Z) v : emu_vcpu E :=
  let t := ev_tunnel v in
  set_ev_tunnel (HaxTunnel (ht_exit_reason t) x (ht_pagefault_flags t) (ht_pagefault_gpa t)) v.
End Setters.

Section Callbacks.
Context {HH : Host} {E : Type}.
#[local] Notation vst := (emu_vcpu E).
Context (same_kva : Z -> Z -> bool).

Definition in_mmio {A} (m : M (mmio_vcpu E) A) : M vst A :=
  fun v => match m (ev_mmio v) with
           | Some (a, x) => Some (a, set_ev_mmio x v)
           | None => None
           end.

(** ** Registers *)
Definition vcpu_read_gpr (reg_index : Z) : M vst Z :=
  if 16 <=? reg_index then in_mmio vcpu_set_panic;; mret 0
  else v ← get; mret (u64 (default 0 (ev_regs v !! reg_index))).

Definition vcpu_write_gpr (reg_index value : Z) : M vst unit :=
  if 16 <=? reg_index then in_mmio vcpu_set_panic
  else modify (fun v => set_ev_regs (<[reg_index := value]> (ev_regs v)) v).

Definition vcpu_read_rflags (v : vst) : Z := vc_eflags (mv_intr (ev_mmio v)).

Definition set_rflags_of (x : Z) (i : vcpu_t) : vcpu_t :=
  set_exit_info (vc_interruptibility_state i) (vc_exit_idt_vectoring i) (vc_exit_instr_length i) x i.

Definition vcpu_write_rflags (value : Z) (v : vst) : vst :=
  set_ev_rflags_dirty true (upd_ev_intr (set_rflags_of value) v).

Definition vcpu_get_segment_base (v : vst) (segment : Z) : Z :=
  if segment =? SEG_CS then sd_base (ev_cs v)
  else if segment =? SEG_DS then sd_base (ev_ds v)
  else if segment =? SEG_ES then sd_base (ev_es v)
  else if segment =? SEG_FS then sd_base (ev_fs v)
  else if segment =? SEG_GS then sd_base (ev_gs v)
  else if segment =? SEG_SS then sd_base (ev_ss v)
  else sd_base (ev_ds v).

(** Interrupts are no longer blocked after the instruction. *)
Definition advance_rip_exit (v : vst) : vst :=
  let i := mv_intr (ev_mmio v) in
  let interruptibility := vc_interruptibility_state i in
  let intr_blocking := GUEST_INTRSTAT_STI_BLOCKING |! GUEST_INTRSTAT_SS_BLOCKING in
  let v := if negb (interruptibility &! intr_blocking =? 0)
           then set_ev_interruptibility_dirty true (upd_ev_intr (fun i =>
                  set_exit_info (Z.ldiff interruptibility intr_blocking) (vc_exit_idt_vectoring i)
                    (vc_exit_instr_length i) (vc_eflags i) i) v)
           else v in
  set_ev_rip (ev_rip v +! vc_exit_instr_length i) true v.

(** The length that the emulator passes is not used. *)
Definition vcpu_advance_rip (len : Z) (v : vst) : vst := advance_rip_exit v.

(** ** Memory *)
Definition is_mmio_address (gpa : Z) : M vst bool :=
  slot ← in_mmio (in_space (memslot_find (gpa >>! PG_ORDER_4K)));
  mret (match slot with None => true | Some _ => false end).

(** [pa]: the address of the EPT violation, or a translation whose result is not tested. *)
Definition access_address (ea flags : Z) : M vst Z :=
  if has flags EM_OPS_NO_TRANSLATION then v ← get; mret (ev_exit_gpa v)
  else t ← in_mmio (vcpu_translate same_kva ea 0 None false); mret t.1.2.

Definition is_mmio_access (pa flags : Z) : M vst bool :=
  if has flags EM_OPS_NO_TRANSLATION then mret true else is_mmio_address pa.

Definition vcpu_read_memory (ea value size flags : Z) : M vst (em_status_t * Z) :=
  pa ← access_address ea flags;
  mmio ← is_mmio_access pa flags;
  if mmio : bool then
    modify (set_exit_status HAX_EXIT_FAST_MMIO);;
    modify (fun v => set_ev_fastmmio (FastMmio pa (fm_value (ev_fastmmio v)) (u8 size) 0) v);;
    mret (EM_EXIT_MMIO, value)
  else
    r ← in_mmio (vcpu_read_guest_virtual same_kva ea size 0);
    let '(ret, data) := r in
    let value := put_bytes value 0 (Z.of_nat (length data)) (le_word data) in
    if ret =? 0 then mret (EM_ERROR, value) else mret (EM_CONTINUE, value).

(** An operand has at most eight bytes. *)
Definition vcpu_read_memory_post (value size : Z) : M vst (em_status_t * Z) :=
  v ← get;
  mret (EM_CONTINUE, put_bytes value 0 size (fm_value (ev_fastmmio v))).

Definition vcpu_write_memory (ea value size flags : Z) : M vst em_status_t :=
  pa ← access_address ea flags;
  mmio ← is_mmio_access pa flags;
  if mmio : bool then
    modify (set_exit_status HAX_EXIT_FAST_MMIO);;
    modify (set_ev_fastmmio (FastMmio pa value (u8 size) 1));;
    mret EM_EXIT_MMIO
  else
    ret ← in_mmio (vcpu_write_guest_virtual same_kva ea size (le_bytes 8 value) size 0);
    mret (if ret =? 0 then EM_ERROR else EM_CONTINUE).

(** The table of callbacks.  The emulator uses register numbers below 16 only. *)
#[export] Instance em_ops : EmOps vst := {
  read_gpr v i := match vcpu_read_gpr i v with Some (x, _) => x | None => 0 end;
  write_gpr i x v := match vcpu_write_gpr i x v with Some (_, v') => v' | None => v end;
  read_rflags := vcpu_read_rflags;
  write_rflags := vcpu_write_rflags;
  get_segment_base := vcpu_get_segment_base;
  advance_rip := vcpu_advance_rip;
  read_memory := vcpu_read_memory;
  read_memory_post := vcpu_read_memory_post;
  write_memory := vcpu_write_memory;
}.
End Callbacks.

Section Handlers.
Context {HH : Host} {FO : FastOps}.
Context (same_kva : Z -> Z -> bool).

Section Emulation.
Context {E : Type}.
#[local] Notation vst := (emu_vcpu E).
#[local] Notation st := (em_state vst).
#[local] Existing Instance em_ops.

Definition in_vcpu {A} (m : M vst A) : M st A := vcpu_call m.

(** The context is cleared, and [finished] is set. *)
Definition cleared_context : em_context_t :=
  let op := EmOperand 0 0 OP_NONE 0 0 0 0 0 in
  EmContext true (Decoder EM_MODE_REAL [] 0 0 0 0 0 0 0 false false 0 0 0 0 0)
    (EmOpcode NoHandler None None None 0) op op op 0 (replicate 16 0) 0 0.

Definition vcpu_init_emulator : M st unit :=
  modify (fun s => EmState cleared_context (es_vcpu s)).

Definition detect_mode (v : vst) : em_mode_t :=
  if negb (has (pr_cr0 (mv_regs (ev_mmio v))) CR0_PE) then EM_MODE_REAL
  else if sd_long_mode (ev_cs v) =? 1 then EM_MODE_PROT64
  else if sd_operand_size (ev_cs v) =? 1 then EM_MODE_PROT32
  else EM_MODE_PROT16.

(** [instr], which is cleared and then holds the bytes fetched. *)
Definition instr_buffer (data : list Z) : list Z :=
  data ++ replicate (Z.to_nat INSTR_MAX_LEN - length data) 0.

Definition em_error (rc : em_status_t) : bool :=
  match rc with EM_ERROR => true | _ => false end.

Definition vcpu_emulate_insn : M st Z :=
  s ← get;
  let cs_base := sd_base (ev_cs (es_vcpu s)) in
  let rip := ev_rip (es_vcpu s) in
  vcpu_init_emulator;;
  let mode := detect_mode (es_vcpu s) in
  upd_decoder (set_mode mode);;
  let va := if bool_decide (mode = EM_MODE_PROT64) then rip else cs_base +! rip in
  r ← in_vcpu (in_mmio (mmio_fetch_instruction same_kva va INSTR_MAX_LEN));
  let '(ret, data) := r in
  if negb (ret =? 0) then in_vcpu (in_mmio vcpu_set_panic);; mret (-1)
  else
    upd_decoder (set_rip rip);;
    rc ← em_decode_insn (EO := em_ops same_kva) (instr_buffer data);
    if em_error rc then in_vcpu (in_mmio vcpu_set_panic);; mret HAX_RESUME
    else
      rc ← em_emulate_insn (EO := em_ops same_kva);
      if em_error rc then in_vcpu (in_mmio vcpu_set_panic);; mret HAX_RESUME
      else mret HAX_EXIT.

(** [vcpu_execute] continues the emulation until it is finished: [None] when the virtual
    CPU can run, otherwise the return value. *)
Definition continue_emulation : M st (option Z) :=
  s ← get;
  if em_finished (es_ctxt s) then mret None
  else
    rc ← em_emulate_insn (EO := em_ops same_kva);
    match rc with
    | EM_ERROR => in_vcpu (in_mmio vcpu_set_panic);; mret (Some HAX_RESUME)
    | EM_EXIT_MMIO => mret (Some HAX_EXIT)
    | EM_CONTINUE => mret None
    end.
End Emulation.

(** ** EPT violations *)
Context {PH : PhysHost}.
#[local] Notation vst := (emu_vcpu hax_ept_tree).
#[local] Notation st := (em_state vst).

Definition set_exit_reason (v : vst) : vst :=
  let t := ev_tunnel v in
  set_ev_tunnel (HaxTunnel (ev_exit_reason v &! 0xffff) (ht_exit_status t) (ht_pagefault_flags t)
                   (ht_pagefault_gpa t)) v.

(** The request to user space for a protected page. *)
Definition report_pagefault (fault_gfn : Z) (v : vst) : vst :=
  let t := ev_tunnel v in
  set_ev_tunnel (HaxTunnel (ht_exit_reason t) HAX_EXIT_PAGEFAULT (ev_exit_qualification v &! 0x3f)
                   (fault_gfn <<! PG_ORDER_4K)) v.

Definition exit_ept_violation : M st Z :=
  in_vcpu (modify set_exit_reason);;
  s ← get;
  let qual := ev_exit_qualification (es_vcpu s) in
  if (negb (Z.testbit qual 7) && Z.testbit qual 8)%bool then
    in_vcpu (in_mmio vcpu_set_panic);; mret HAX_RESUME
  else
    r ← in_vcpu (in_mmio (in_space (ept_handle_access_violation qual (ev_exit_gpa (es_vcpu s)))));
    let '(ret, fault_gfn) := r in
    if ret =? - EFAULT then
      fault_gfn ← of_option fault_gfn;
      in_vcpu (modify (report_pagefault fault_gfn));;
      mret HAX_EXIT
    else if ret =? - EACCES then in_vcpu (modify advance_rip_exit);; mret HAX_EXIT
    else if ret <? 0 then in_vcpu (in_mmio vcpu_set_panic);; mret HAX_RESUME
    else if 0 <? ret then mret HAX_RESUME
    else vcpu_emulate_insn.

Definition exit_ept_misconfiguration : M st Z :=
  in_vcpu (modify set_exit_reason);;
  s ← get;
  ret ← in_vcpu (in_mmio (in_space (ept_handle_misconfiguration (ev_exit_gpa (es_vcpu s)))));
  if 0 <? ret then mret HAX_RESUME
  else in_vcpu (in_mmio vcpu_set_panic);; mret HAX_RESUME.
End Handlers.
