(* ===== verification/VcpuEmuProps.v ===== *)
(** * Emulated MMIO accesses, end to end

    The callbacks of the virtual CPU satisfy the laws that the emulator's theorems assume.
    An MMIO load or store runs from the EPT violation through the request to user space to
    its completion. *)

From stdpp Require Import base numbers list gmap.
From Stdlib Require Import ZArith Lia.
From S2P Require Import IntrExc IntrProps Prelude MemTypes Memslot GpaSpace PageWalker Mmio.
From S2P Require Import EmTypes Emulate EmCache EmProps EptTree Ept2 VcpuEmu.
From S2P Require Import HaxList Ramblock MemslotSpec MemslotCorrect MemslotProps GpaAccess GpaProt EptProof Ept2Proof.
#[local] Open Scope Z_scope.

(** ** The laws of the callbacks *)
Section Laws.
Context {HH : Host} {E : Type} (same_kva : Z -> Z -> bool).
#[local] Notation vst := (emu_vcpu E).

(** The computation [m] leaves the registers alone. *)
Definition keeps_regs {A} (m : M vst A) : Prop :=
  forall v a v', m v = Some (a, v') -> ev_regs v' = ev_regs v.

Lemma keeps_ret {A} (a : A) : keeps_regs (mret a).
Proof. by intros v a' v' [= _ <-]. Qed.

Lemma keeps_bind {A B} (m : M vst A) (k : A -> M vst B) :
  keeps_regs m -> (forall a, keeps_regs (k a)) -> keeps_regs (m ≫= k).
Proof.
  intros Hm Hk v b v'. unfold mbind, M_bind. destruct (m v) as [[a v1]|] eqn:H1; [|done].
  intros H2. by rewrite (Hk _ _ _ _ H2), (Hm _ _ _ H1).
Qed.

Lemma keeps_get : keeps_regs get.
Proof. by intros v a v' [= _ <-]. Qed.

Lemma keeps_modify (f : vst -> vst) : (forall v, ev_regs (f v) = ev_regs v) -> keeps_regs (modify f).
Proof. intros Hf v a v' [= _ <-]. apply Hf. Qed.

Lemma keeps_mmio {A} (m : M (mmio_vcpu E) A) : keeps_regs (in_mmio m).
Proof. intros v a v'. unfold in_mmio. destruct (m _) as [[a1 x]|]; [|done]. by intros [= _ <-]. Qed.
End Laws.

Create HintDb keeps.
#[export] Hint Resolve keeps_ret keeps_get keeps_mmio : keeps.
#[export] Hint Extern 1 (keeps_regs (modify _)) => by apply keeps_modify : keeps.
#[export] Hint Extern 1 (keeps_regs (_ ≫= _)) => apply keeps_bind; [|intros ?] : keeps.
#[export] Hint Extern 1 (keeps_regs (if ?b then _ else _)) => destruct b : keeps.
#[export] Hint Extern 2 (keeps_regs (let '(_, _) := ?p in _)) => destruct p : keeps.

Section Instances.
Context {HH : Host} {E : Type} (same_kva : Z -> Z -> bool).
#[local] Notation vst := (emu_vcpu E).

Lemma keeps_address ea flags : keeps_regs (access_address (E := E) same_kva ea flags).
Proof. unfold access_address. eauto 10 with keeps. Qed.

Lemma keeps_is_mmio pa flags : keeps_regs (is_mmio_access (E := E) pa flags).
Proof. unfold is_mmio_access, is_mmio_address. eauto 10 with keeps. Qed.
#[local] Hint Resolve keeps_address keeps_is_mmio : keeps.

Lemma keeps_read ea x size flags : keeps_regs (vcpu_read_memory (E := E) same_kva ea x size flags).
Proof. unfold vcpu_read_memory. eauto 10 with keeps. Qed.

Lemma keeps_write ea x size flags : keeps_regs (vcpu_write_memory (E := E) same_kva ea x size flags).
Proof. unfold vcpu_write_memory. eauto 12 with keeps. Qed.

(** Registers are read from the state of the registers only. *)
Lemma read_gpr_val (v : vst) i : i < 16 ->
  read_gpr (EmOps := em_ops same_kva) v i = u64 (default 0 (ev_regs v !! i)).
Proof. intros Hi. cbn. unfold vcpu_read_gpr. by rewrite (proj2 (Z.leb_gt 16 i)) by lia. Qed.

Lemma write_gpr_val (v : vst) i x : i < 16 ->
  write_gpr (EmOps := em_ops same_kva) i x v = set_ev_regs (<[i := x]> (ev_regs v)) v.
Proof. intros Hi. cbn. unfold vcpu_write_gpr. by rewrite (proj2 (Z.leb_gt 16 i)) by lia. Qed.

Lemma read_gpr_regs (v v' : vst) i : ev_regs v' = ev_regs v ->
  read_gpr (EmOps := em_ops same_kva) v' i = read_gpr (EmOps := em_ops same_kva) v i.
Proof.
  intros H. destruct (Z.lt_ge_cases i 16); [by rewrite !read_gpr_val, H by lia|].
  cbn. unfold vcpu_read_gpr. by rewrite (proj2 (Z.leb_le 16 i)) by lia.
Qed.

(** Advancing RIP. *)
Lemma advance_regs (v : vst) : ev_regs (advance_rip_exit v) = ev_regs v.
Proof. unfold advance_rip_exit. by destruct (negb _). Qed.

Lemma advance_rip_val (v : vst) :
  ev_rip (advance_rip_exit v) = ev_rip v +! vc_exit_instr_length (mv_intr (ev_mmio v)).
Proof. unfold advance_rip_exit. by destruct (negb _). Qed.

Lemma advance_space (v : vst) : mv_space (ev_mmio (advance_rip_exit v)) = mv_space (ev_mmio v).
Proof. unfold advance_rip_exit. by destruct (negb _). Qed.

Lemma advance_intr (v : vst) : vcpu_read_rflags (advance_rip_exit v) = vcpu_read_rflags v.
Proof. unfold advance_rip_exit. by destruct (negb _). Qed.

#[export] Instance em_laws : EmLaws vst (EO := em_ops same_kva).
Proof.
  constructor; try done.
  - intros v i. destruct (Z.lt_ge_cases i 16).
    + rewrite read_gpr_val by lia. apply u64_range.
    + cbn. unfold vcpu_read_gpr. by rewrite (proj2 (Z.leb_le 16 i)) by lia.
  - intros i x v Hi Hx. rewrite read_gpr_val, write_gpr_val by lia. cbn [ev_regs set_ev_regs].
    rewrite lookup_insert_eq. by apply u64_small.
  - intros i j x v Hi Hj Hne. rewrite !read_gpr_val, write_gpr_val by lia. cbn [ev_regs set_ev_regs].
    by rewrite lookup_insert_ne.
  - intros x v i. by apply read_gpr_regs.
  - intros n v i. apply read_gpr_regs, advance_regs.
  - intros i x v. cbn. unfold vcpu_write_gpr. by destruct (16 <=? i).
  - intros n v. apply advance_intr.
  - intros ea x size flags v r v' i Hrun. apply read_gpr_regs, (keeps_read _ _ _ _ _ _ _ Hrun).
  - intros x size v r v' i Hrun. apply read_gpr_regs. by injection Hrun as _ <-.
  - intros ea x size flags v r v' i Hrun. apply read_gpr_regs, (keeps_write _ _ _ _ _ _ _ Hrun).
Qed.
End Instances.

(** ** From the exit to the completion *)
Section EndToEnd.
Context {HH : Host} {FO : FastOps} {E : Type} (same_kva : Z -> Z -> bool).
#[local] Notation vst := (emu_vcpu E).
#[local] Notation st := (em_state vst).
#[local] Instance ops : EmOps vst := em_ops same_kva.
Implicit Types v : vst.

(** The address of the instruction and the context in which it is decoded. *)
Definition insn_address v : Z :=
  if bool_decide (detect_mode v = EM_MODE_PROT64) then ev_rip v else sd_base (ev_cs v) +! ev_rip v.
Definition start_context v : em_context_t :=
  set_decoder (set_rip (ev_rip v) (set_mode (detect_mode v) (em_decoder cleared_context))) cleared_context.

(** The instruction at RIP is fetched and decoded: the context [c], and the state [v1]. *)
Definition decoded_insn v (c : em_context_t) v1 : Prop :=
  exists data m1, mmio_fetch_instruction same_kva (insn_address v) INSTR_MAX_LEN (ev_mmio v) =
      Some ((0, data), m1) /\ v1 = set_ev_mmio m1 v /\
    em_decode_insn (instr_buffer data) (EmState (start_context v) v1) =
      Some (EM_CONTINUE, EmState c v1).

Lemma emulate_insn_run (s : st) c v1 rc s1 :
  decoded_insn (es_vcpu s) c v1 -> em_emulate_insn (EmState c v1) = Some (rc, s1) -> rc <> EM_ERROR ->
  vcpu_emulate_insn same_kva s = Some (HAX_EXIT, s1).
Proof.
  intros (data & m1 & Hf & -> & Hd) He Hrc. unfold vcpu_emulate_insn.
  rewrite (bind_run get _ s s s) by done. cbv zeta.
  erewrite (bind_run vcpu_init_emulator) by reflexivity.
  erewrite (bind_run (upd_decoder _)) by reflexivity. fold (insn_address (es_vcpu s)).
  erewrite (bind_run (in_vcpu _)).
  2: { unfold in_vcpu, vcpu_call, in_mmio. cbn [es_vcpu]. rewrite Hf. reflexivity. }
  cbn [Z.eqb negb]. erewrite (bind_run (upd_decoder _)) by reflexivity.
  erewrite (bind_run (em_decode_insn _)) by exact Hd. cbn [em_error].
  rewrite (bind_run _ _ _ _ _ He). by destruct rc.
Qed.

Lemma decoded_clean v c v1 : decoded_insn v c v1 ->
  cache_ok (EmState c v1) /\ forall i, 0 <= i < 16 -> reg (EmState c v1) i = read_gpr v1 i.
Proof.
  intros (data & m1 & _ & -> & Hd).
  destruct (decode_insn_clean (EL := em_laws same_kva) (instr_buffer data)
    (EmState (start_context v) (set_ev_mmio m1 v)) EM_CONTINUE (EmState c (set_ev_mmio m1 v))) as [Hc _];
    [done|by repeat constructor|exact Hd|].
  split; [apply Hc|]. intros i Hi. by apply clean_reg.
Qed.

(** An access without translation is a request to user space. *)
Definition request v (size direction value : Z) : vst :=
  set_ev_fastmmio (FastMmio (ev_exit_gpa v) value (u8 size) direction)
    (set_exit_status HAX_EXIT_FAST_MMIO v).

Lemma no_translation c : em_rep (em_decoder c) = 0 -> has (oc_flags (em_opcode c)) INSN_TWOMEM = false ->
  has (translation_flags c) EM_OPS_NO_TRANSLATION = true.
Proof. intros Hr Ht. unfold translation_flags, is_translation_required. by rewrite Hr, Ht. Qed.

Lemma read_request ea x size flags v : has flags EM_OPS_NO_TRANSLATION = true ->
  read_memory ea x size flags v = Some ((EM_EXIT_MMIO, x), request v size 0 (fm_value (ev_fastmmio v))).
Proof.
  intros H. cbn. unfold vcpu_read_memory, access_address, is_mmio_access. by rewrite H.
Qed.

Lemma write_request ea x size flags v : has flags EM_OPS_NO_TRANSLATION = true ->
  write_memory ea x size flags v = Some (EM_EXIT_MMIO, request v size 1 x).
Proof.
  intros H. cbn. unfold vcpu_write_memory, access_address, is_mmio_access. by rewrite H.
Qed.

Lemma result_regs_ext o dst (f g : Z -> Z) i : (forall j, f j = g j) ->
  result_regs o dst f i = result_regs o dst g i.
Proof.
  intros H. unfold result_regs, upd. destruct (has (oc_flags o) INSN_DST_NW); [done|].
  case_decide; by rewrite H.
Qed.

(** User space answers with the value. *)
Definition answer (value : Z) v : vst :=
  let f := ev_fastmmio v in set_ev_fastmmio (FastMmio (fm_gpa f) value (fm_size f) (fm_direction f)) v.

Lemma continue_run (s s2 : st) : em_finished (es_ctxt s) = false ->
  em_emulate_insn s = Some (EM_CONTINUE, s2) -> continue_emulation same_kva s = Some (None, s2).
Proof.
  intros Hf Hr. unfold continue_emulation. rewrite (bind_run get _ s s s) by done. rewrite Hf.
  by rewrite (bind_run _ _ _ _ _ Hr).
Qed.

(** The virtual CPU when the instruction is complete: RIP is behind the instruction, the
    flags are [rf], interrupts are no longer blocked by STI or by MOV to SS, and these
    fields are written back to the VMCS.  Nothing else changes. *)
Definition completed (rf : Z) v : vst :=
  let i := mv_intr (ev_mmio v) in
  let state := vc_interruptibility_state i in
  EmuVcpu
    (set_mv_intr (set_exit_info (Z.ldiff state 3) (vc_exit_idt_vectoring i) (vc_exit_instr_length i) rf i)
       (ev_mmio v))
    (ev_regs v) (ev_rip v +! vc_exit_instr_length i)
    (ev_cs v) (ev_ss v) (ev_ds v) (ev_es v) (ev_fs v) (ev_gs v)
    true true (ev_interruptibility_dirty v || negb (state &! 3 =? 0))
    (ev_exit_reason v) (ev_exit_qualification v) (ev_exit_gpa v) (ev_tunnel v) (ev_fastmmio v).

(** Two states that agree on everything but the general-purpose registers. *)
Definition same_besides_gpr v v' : Prop := set_ev_regs ∅ v = set_ev_regs ∅ v'.

Lemma besides_beside : beside_gpr (fun v => set_ev_regs ∅ v).
Proof. intros i x v Hi. cbv beta. unfold ops. by rewrite write_gpr_val by lia. Qed.

Lemma ldiff_disjoint a b : a &! b = 0 -> Z.ldiff a b = a.
Proof.
  intros H. apply Z.bits_inj'. intros n _. rewrite Z.ldiff_spec.
  pose proof (f_equal (fun x => Z.testbit x n) H) as Hn. cbv beta in Hn.
  rewrite Z.land_spec, Z.bits_0 in Hn. destruct (Z.testbit a n), (Z.testbit b n); done.
Qed.

Lemma completed_advance rf len v : advance_rip len (write_rflags rf v) = completed rf v.
Proof.
  cbn [advance_rip write_rflags ops em_ops]. unfold vcpu_advance_rip, advance_rip_exit, completed.
  change (GUEST_INTRSTAT_STI_BLOCKING |! GUEST_INTRSTAT_SS_BLOCKING) with 3.
  destruct v as [[sp [] ? ? ? ?] ? ? ? ? ? ? ? ? ? ? ? ? ? ? ? ?]. cbn.
  destruct (Z.eqb_spec (vc_interruptibility_state &! 3) 0) as [H0|]; cbn.
  - by rewrite orb_false_r, ldiff_disjoint.
  - by rewrite orb_true_r.
Qed.

(** The first step of a load and of a store, and their completion. *)
Lemma load_emulated (s : st) c v1 la :
  let v := es_vcpu s in
  let size := op_size (em_src1 c) in
  decoded_insn v c v1 -> load_insn c -> has (oc_flags (em_opcode c)) INSN_TWOMEM = false ->
  has (oc_flags (em_opcode c)) INSN_NOFLAGS = false ->
  operand_linear (em_decoder c) v1 (em_src1 c) = Some la ->
  exists s1, vcpu_emulate_insn same_kva s = Some (HAX_EXIT, s1) /\
    es_vcpu s1 = request v1 size 0 (fm_value (ev_fastmmio v)) /\ em_finished (es_ctxt s1) = false /\
    forall value r rf,
      insn_result (oc_handler (em_opcode c)) (em_operand_size (em_decoder c)) (op_size (em_dst c)) size
        (dst_value c v1) (put_bytes (op_value (em_src1 c)) 0 size value) (op_value (em_src2 c))
        (read_rflags v1) = Some (r, rf) ->
      exists s2, continue_emulation same_kva (EmState (es_ctxt s1) (answer value (es_vcpu s1))) =
          Some (None, s2) /\ em_finished (es_ctxt s2) = true /\
        same_besides_gpr (es_vcpu s2) (completed rf (answer value (es_vcpu s1))) /\
        forall i, 0 <= i < 16 -> read_gpr (es_vcpu s2) i =
          result_regs (em_opcode c) (set_value r (em_dst c)) (read_gpr v) i.
Proof.
  intros v size Hd Hl Htm Hnf Hla. destruct (decoded_clean v c v1 Hd) as [Hok Hreg].
  rewrite <- linear_address_arch in Hla.
  assert (Hv1 : exists m1, v1 = set_ev_mmio m1 v) by (destruct Hd as (? & m1 & _ & -> & _); by exists m1).
  assert (Hgv : forall i, read_gpr v1 i = read_gpr v i)
    by (intros i; destruct Hv1 as [m1 ->]; by apply read_gpr_regs).
  pose proof (read_request la (op_value (em_src1 c)) size (translation_flags c) v1
    (no_translation c (li_rep c Hl) Htm)) as Hrd.
  destruct (load_mmio (EL := em_laws same_kva) c v1 la _ _ Hl Hok Hreg Hnf Hla Hrd)
    as (s1 & Hrun & Hs1 & Hfin & _ & Hres).
  exists s1. split; [by eapply emulate_insn_run|]. split; [by rewrite Hs1; destruct Hv1 as [m1 ->]|].
  split; [done|]. intros value r rf Hir. rewrite Hs1.
  set (v2 := answer value _).
  destruct (Hres v2 v2 (put_bytes (op_value (em_src1 c)) 0 size value) r rf)
    as (s2 & Hrun2 & Hf2 & _ & Hobs & Hg);
    [intros i; by apply read_gpr_regs|reflexivity|exact Hir|].
  exists s2. split; [by apply continue_run|]. split; [done|]. split.
  - unfold same_besides_gpr. by rewrite (Hobs _ _ besides_beside), completed_advance.
  - intros i Hi. rewrite Hg by done. by apply result_regs_ext.
Qed.

Lemma store_emulated (s : st) c v1 la :
  let v := es_vcpu s in
  let value := stored_value c v1 in
  decoded_insn v c v1 -> store_insn c -> has (oc_flags (em_opcode c)) INSN_TWOMEM = false ->
  operand_linear (em_decoder c) v1 (em_dst c) = Some la ->
  exists s1, vcpu_emulate_insn same_kva s = Some (HAX_EXIT, s1) /\
    es_vcpu s1 = set_ev_rflags_dirty true (request v1 (op_size (em_dst c)) 1 value) /\
    em_finished (es_ctxt s1) = false /\
    exists s2, continue_emulation same_kva s1 = Some (None, s2) /\ em_finished (es_ctxt s2) = true /\
      same_besides_gpr (es_vcpu s2) (completed (read_rflags v1) (es_vcpu s1)) /\
      forall i, 0 <= i < 16 -> read_gpr (es_vcpu s2) i = read_gpr v i.
Proof.
  intros v value Hd Hs Htm Hla. destruct (decoded_clean v c v1 Hd) as [Hok Hreg].
  assert (Hv1 : exists m1, v1 = set_ev_mmio m1 v) by (destruct Hd as (? & m1 & _ & -> & _); by exists m1).
  set (v0 := write_rflags (read_rflags v1) v1).
  assert (Hv0 : v0 = set_ev_rflags_dirty true v1).
  { by destruct v1 as [[sp [] ? ? ? ?] ? ? ? ? ? ? ? ? ? ? ? ? ? ? ? ?]. }
  pose proof (write_request la value (op_size (em_dst c)) (translation_flags c) v0
    (no_translation c (si_rep c Hs) Htm)) as Hwr.
  assert (Hla' : linear_address (em_decoder c) v0 (set_value value (em_dst c)) = Some la)
    by (rewrite linear_address_arch; exact Hla).
  destruct (store_mmio (EL := em_laws same_kva) c v1 la _ Hs Hok Hreg Hla' Hwr)
    as (s1 & Hrun & Hs1 & Hfin & Hg1 & Hres).
  exists s1. split; [by eapply emulate_insn_run|]. split; [by rewrite Hs1, Hv0|]. split; [done|].
  destruct (Hres (es_vcpu s1)) as (s2 & Hrun2 & Hf2 & _ & Hobs & Hg); [by rewrite Hs1|].
  exists s2. split; [apply continue_run; [done|by destruct s1]|]. split; [done|]. split.
  - unfold same_besides_gpr. by rewrite (Hobs _ _ besides_beside), completed_advance, Hs1, Hv0.
  - intros i Hi. rewrite Hg by done. destruct Hv1 as [m1 ->]. by apply read_gpr_regs.
Qed.
End EndToEnd.

(** ** The handler of EPT violations *)
Section Violation.
Context {HH : Host} {FO : FastOps} {PH : PhysHost} {PL : PhysHostLaws PH} (same_kva : Z -> Z -> bool).
#[local] Notation vst := (emu_vcpu hax_ept_tree).
#[local] Notation st := (em_state vst).
#[local] Existing Instance ops.

Definition with_space (g : hax_gpa_space hax_ept_tree) (v : vst) : vst :=
  set_ev_mmio (set_mv_space g (ev_mmio v)) v.
Definition panicked (v : vst) : vst := set_ev_mmio (set_mv_panicked true (ev_mmio v)) v.

Lemma with_same_space (v : vst) : with_space (mv_space (ev_mmio v)) v = v.
Proof. by destruct v as [[] ? ? ? ? ? ? ? ? ? ? ? ? ? ? ? ?]. Qed.

(** Bits 7 and 8: the linear address is not valid, and yet was translated. *)
Definition impossible (qual : Z) : bool := negb (Z.testbit qual 7) && Z.testbit qual 8.

Lemma exit_start (s : st) ret f g' :
  let v := set_exit_reason (es_vcpu s) in
  impossible (ev_exit_qualification v) = false ->
  ept_handle_access_violation (ev_exit_qualification v) (ev_exit_gpa v) (mv_space (ev_mmio v)) =
    Some ((ret, f), g') ->
  exit_ept_violation same_kva s =
  (if ret =? - EFAULT then
     fault_gfn ← of_option f; in_vcpu (modify (report_pagefault fault_gfn));; mret HAX_EXIT
   else if ret =? - EACCES then in_vcpu (modify advance_rip_exit);; mret HAX_EXIT
   else if ret <? 0 then in_vcpu (in_mmio vcpu_set_panic);; mret HAX_RESUME
   else if 0 <? ret then mret HAX_RESUME
   else vcpu_emulate_insn same_kva) (EmState (es_ctxt s) (with_space g' v)).
Proof.
  intros v Hq Hrun. unfold exit_ept_violation. erewrite (bind_run (in_vcpu (modify _))) by reflexivity.
  fold v. rewrite (bind_run get _ _ (EmState (es_ctxt s) v) (EmState (es_ctxt s) v)) by done.
  cbn [es_vcpu]. unfold impossible in Hq. rewrite Hq.
  rewrite (bind_run _ _ _ (ret, f) (EmState (es_ctxt s) (with_space g' v))); [done|].
  unfold in_vcpu, vcpu_call, in_mmio, in_space. cbn [es_vcpu]. by rewrite Hrun.
Qed.


(** The violation at an address without memory. *)
Lemma unmapped_exit (s : st) :
  let v := set_exit_reason (es_vcpu s) in
  let g := mv_space (ev_mmio v) in
  space_inv g -> 0 <= ev_exit_gpa v -> gfn_uva g (ev_exit_gpa v / 4096) = None ->
  impossible (ev_exit_qualification v) = false ->
  exit_ept_violation same_kva s = vcpu_emulate_insn same_kva (EmState (es_ctxt s) v).
Proof.
  intros v g Hinv Hgpa Hu Hi. rewrite (exit_start s 0 None g Hi).
  - cbn [Z.eqb Z.ltb]. unfold g. by rewrite with_same_space.
  - fold v g. unfold ept_handle_access_violation, PG_ORDER_4K. rewrite shiftr_12.
    unfold memslot_find. rewrite gets_run.
    destruct (memslot_search_spec _ (ev_exit_gpa v / 4096) (si_slots _ Hinv)) as [Hlk _].
    unfold gfn_uva in Hu. rewrite Hlk in Hu.
    destruct (memslot_search _ _) as [x|] eqn:Hx; [|done]. cbn in Hu, Hlk.
    destruct (lookup_block _ _ _ _ _ _ (si_own _ Hinv) Hlk) as [b Hb]. cbn in Hb. by rewrite Hb in Hu.
Qed.

(** C10. Emulation of an MMIO load, end to end.  The EPT violation, at an address without
    memory, of an instruction with a memory source and a register destination leaves to
    user space with a fast MMIO request: the faulting guest physical address, the size and
    the direction; nothing else has changed but the exit reason that is reported and what
    fetching the instruction changes ([v1]).  When user space has put the value into the
    request and the virtual CPU runs again, the instruction completes: the destination
    register holds its result on that value and the other registers are unchanged; the
    flags are those of the operation, RIP is advanced by the length of the instruction,
    blocking by STI or MOV to SS ends, these fields are marked for the VMCS, and nothing
    else changes ([completed]). *)
Theorem mmio_load_emulated (s : st) c v1 la :
  let v := set_exit_reason (es_vcpu s) in
  let g := mv_space (ev_mmio v) in
  let size := op_size (em_src1 c) in
  space_inv g -> 0 <= ev_exit_gpa v -> gfn_uva g (ev_exit_gpa v / 4096) = None ->
  impossible (ev_exit_qualification v) = false ->
  decoded_insn same_kva v c v1 -> load_insn c -> has (oc_flags (em_opcode c)) INSN_TWOMEM = false ->
  has (oc_flags (em_opcode c)) INSN_NOFLAGS = false ->
  operand_linear (EO := em_ops same_kva) (em_decoder c) v1 (em_src1 c) = Some la ->
  exists s1, exit_ept_violation same_kva s = Some (HAX_EXIT, s1) /\
    es_vcpu s1 = request v1 size 0 (fm_value (ev_fastmmio v)) /\ em_finished (es_ctxt s1) = false /\
    forall value r rf,
      insn_result (oc_handler (em_opcode c)) (em_operand_size (em_decoder c)) (op_size (em_dst c)) size
        (dst_value (EO := em_ops same_kva) c v1) (put_bytes (op_value (em_src1 c)) 0 size value)
        (op_value (em_src2 c)) (vcpu_read_rflags v1) = Some (r, rf) ->
      exists s2, continue_emulation same_kva (EmState (es_ctxt s1) (answer value (es_vcpu s1))) =
          Some (None, s2) /\ em_finished (es_ctxt s2) = true /\
        same_besides_gpr (es_vcpu s2) (completed rf (answer value (es_vcpu s1))) /\
        forall i, 0 <= i < 16 -> read_gpr (EmOps := em_ops same_kva) (es_vcpu s2) i =
          result_regs (em_opcode c) (set_value r (em_dst c)) (read_gpr (EmOps := em_ops same_kva) v) i.
Proof.
  intros v g size Hinv Hgpa Hu Hi Hd Hl Htm Hnf Hla. rewrite (unmapped_exit s) by done. fold v.
  exact (load_emulated same_kva (EmState (es_ctxt s) v) c v1 la Hd Hl Htm Hnf Hla).
Qed.

(** C11. Emulation of an MMIO store, end to end: the EPT violation leaves to user space with
    a request that carries the faulting guest physical address and the value of the source
    operand, and when the virtual CPU runs again the instruction completes.  No register
    changes, the flags keep their value, RIP is advanced by the length of the instruction,
    blocking by STI or MOV to SS ends, these fields are marked for the VMCS, and nothing
    else changes ([completed]). *)
Theorem mmio_store_emulated (s : st) c v1 la :
  let v := set_exit_reason (es_vcpu s) in
  let g := mv_space (ev_mmio v) in
  let value := stored_value (EO := em_ops same_kva) c v1 in
  space_inv g -> 0 <= ev_exit_gpa v -> gfn_uva g (ev_exit_gpa v / 4096) = None ->
  impossible (ev_exit_qualification v) = false ->
  decoded_insn same_kva v c v1 -> store_insn c -> has (oc_flags (em_opcode c)) INSN_TWOMEM = false ->
  operand_linear (EO := em_ops same_kva) (em_decoder c) v1 (em_dst c) = Some la ->
  exists s1, exit_ept_violation same_kva s = Some (HAX_EXIT, s1) /\
    es_vcpu s1 = set_ev_rflags_dirty true (request v1 (op_size (em_dst c)) 1 value) /\
    em_finished (es_ctxt s1) = false /\
    exists s2, continue_emulation same_kva s1 = Some (None, s2) /\ em_finished (es_ctxt s2) = true /\
      same_besides_gpr (es_vcpu s2) (completed (vcpu_read_rflags v1) (es_vcpu s1)) /\
      forall i, 0 <= i < 16 -> read_gpr (EmOps := em_ops same_kva) (es_vcpu s2) i =
        read_gpr (EmOps := em_ops same_kva) v i.
Proof.
  intros v g value Hinv Hgpa Hu Hi Hd Hs Htm Hla. rewrite (unmapped_exit s) by done. fold v.
  exact (store_emulated same_kva (EmState (es_ctxt s) v) c v1 la Hd Hs Htm Hla).
Qed.
End Violation.
