(* ===== verification/VcpuEmuDemo.v ===== *)
(** * Instances of the emulation theorems

    A virtual CPU in 64-bit mode whose page 5 holds code; the device is at the guest
    physical address of the EPT violation. *)

From stdpp Require Import base numbers list gmap.
From Stdlib Require Import ZArith Lia.
From S2P Require Import IntrExc IntrProps Prelude HaxList MemTypes Memslot MemslotSpec MemslotCorrect.
From S2P Require Import SimpleHost MemslotProps GpaSpace GpaAccess GpaProt PageWalker PageWalkSpec.
From S2P Require Import PageWalkProof PageWalkProps Mmio MmioProof MmioProps.
From S2P Require Import EptTree EptProof EptRules EptProps Ept2 Ept2Proof Ept2Props.
From S2P Require Import EmTypes Emulate EmCache EmProps EmDemo VcpuEmu VcpuEmuProps.
#[local] Open Scope Z_scope.

Definition long_mode_regs : paging_regs :=
  PagingRegs (CR0_PE |! CR0_PG |! CR0_WP) 0x100000 CR4_PAE
    (IA32_EFER_LME |! IA32_EFER_LMA |! IA32_EFER_XD) (reserved_high_mask 39).

(** RIP is 0x5000 and an instruction of two bytes has made the access: RAX holds 1, and
    RBX the address of the device. *)
Definition emu_demo {E} (g : hax_gpa_space E) (qual gpa : Z) : emu_vcpu E :=
  let seg := SegmentDesc 0 0 0 0 0 0 in
  let intr := set_exit_info 0 0 2 0x202 init_vcpu in
  EmuVcpu (MmioVcpu g intr long_mode_regs 0 false no_fetch)
    {[ 0 := 1; 3 := 0xF0000000 ]} 0x5000 (SegmentDesc 0 0 0 0 0x2000 0) seg seg seg seg seg false false false
    48 qual gpa (HaxTunnel 0 0 0 0) (FastMmio 0 0 0 0).

(** Frames 256 to 259 hold the tables, which map page 5 to frame 260. *)
Definition code_tables : gmap Z Z :=
  let put a v (m : gmap Z Z) := umem_store m a (le_bytes 8 v) in
  put 0x10000000 0x101007 (put 0x10001000 0x102007 (put 0x10002000 0x103007 (put 0x10003028 0x104007 ∅))).

Definition with_code (code : list Z) : hax_gpa_space hax_ept_tree :=
  with_umem (umem_store code_tables 0x10004000 code) demo_vm.

(** The exit reason is 48, an EPT violation. *)
Definition demo_load : emu_vcpu hax_ept_tree := emu_demo (with_code [0x8B; 0x03]) 0x181 0xFEC00010.
Definition demo_store : emu_vcpu hax_ept_tree := emu_demo (with_code [0x89; 0x03]) 0x182 0xFEC00010.
Definition demo_state (v : emu_vcpu hax_ept_tree) : em_state (emu_vcpu hax_ept_tree) :=
  EmState cleared_context v.

Lemma with_code_inv code : space_inv (with_code code).
Proof. apply (same_view_umem _ demo_vm), (vi_space _ (proj1 demo_vm_inv)). Qed.

Definition decode_bytes (v : emu_vcpu hax_ept_tree) (code : list Z) : em_context_t :=
  match em_decode_insn (EO := em_ops Z.eqb) (instr_buffer (code ++ replicate 13 0))
          (EmState (start_context v) v) with
  | Some (_, s) => es_ctxt s
  | None => cleared_context
  end.
Definition mmio_load_ctxt : em_context_t := Eval vm_compute in decode_bytes demo_load [0x8B; 0x03].
Definition mmio_store_ctxt : em_context_t := Eval vm_compute in decode_bytes demo_store [0x89; 0x03].

Lemma demo_decoded (v : emu_vcpu hax_ept_tree) code c :
  (fun x => x.1) <$> mmio_fetch_instruction Z.eqb (insn_address v) INSTR_MAX_LEN (ev_mmio v) =
    Some (0, code ++ replicate 13 0) ->
  (forall m1, (fun x => (x.1, es_ctxt x.2)) <$> em_decode_insn (EO := em_ops Z.eqb)
     (instr_buffer (code ++ replicate 13 0)) (EmState (start_context v) (set_ev_mmio m1 v)) =
     Some (EM_CONTINUE, c)) ->
  exists m1, decoded_insn Z.eqb v c (set_ev_mmio m1 v).
Proof.
  intros Hf Hd. destruct (mmio_fetch_instruction _ _ _ _) as [[[ret data] m1]|] eqn:Hrun; [|done].
  cbn in Hf. injection Hf as -> ->. exists m1, (code ++ replicate 13 0), m1. split; [done|].
  split; [done|]. specialize (Hd m1).
  destruct (em_decode_insn _ _) as [[rc [c' v']]|] eqn:Hdec; [|done].
  destruct (decode_insn_clean (EL := em_laws Z.eqb) (instr_buffer (code ++ replicate 13 0))
    (EmState (start_context v) (set_ev_mmio m1 v)) rc (EmState c' v')) as [_ Hv];
    [done|by repeat constructor|exact Hdec|].
  cbn in Hd, Hv. injection Hd as -> ->. by rewrite Hv.
Qed.

Lemma load_decoded : exists m1, decoded_insn Z.eqb (set_exit_reason demo_load) mmio_load_ctxt
  (set_ev_mmio m1 (set_exit_reason demo_load)).
Proof.
  destruct (demo_decoded (set_exit_reason demo_load) [0x8B; 0x03] mmio_load_ctxt) as (m1 & H);
    [vm_compute; reflexivity|intros m1; vm_compute; reflexivity|by exists m1].
Qed.

Lemma store_decoded : exists m1, decoded_insn Z.eqb (set_exit_reason demo_store) mmio_store_ctxt
  (set_ev_mmio m1 (set_exit_reason demo_store)).
Proof.
  destruct (demo_decoded (set_exit_reason demo_store) [0x89; 0x03] mmio_store_ctxt) as (m1 & H);
    [vm_compute; reflexivity|intros m1; vm_compute; reflexivity|by exists m1].
Qed.

(** The device answers 0x80000001. *)
Lemma mmio_load_emulated_witness :
  exists s1, exit_ept_violation Z.eqb (demo_state demo_load) = Some (HAX_EXIT, s1) /\
    ht_exit_status (ev_tunnel (es_vcpu s1)) = HAX_EXIT_FAST_MMIO /\
    ev_fastmmio (es_vcpu s1) = FastMmio 0xFEC00010 0 4 0 /\
    exists s2, continue_emulation Z.eqb (EmState (es_ctxt s1) (answer 0x80000001 (es_vcpu s1))) =
        Some (None, s2) /\ read_gpr (EmOps := em_ops Z.eqb) (es_vcpu s2) 0 = 0x80000001 /\
      ev_rip_dirty (es_vcpu s2) = true.
Proof.
  destruct load_decoded as [m1 Hd].
  destruct (mmio_load_emulated Z.eqb (demo_state demo_load) mmio_load_ctxt _ 0xF0000000
    (with_code_inv [0x8B; 0x03]) ltac:(done) ltac:(vm_compute; reflexivity) eq_refl Hd)
    as (s1 & Hrun & Hs1 & _ & Hres);
    [by constructor|reflexivity|reflexivity|vm_compute; reflexivity|].
  exists s1. split; [exact Hrun|]. rewrite Hs1. split; [reflexivity|]. split; [reflexivity|].
  destruct (Hres 0x80000001 0x80000001 (vcpu_read_rflags (set_ev_mmio m1 demo_load)))
    as (s2 & Hrun2 & _ & Hb & Hg); [reflexivity|].
  rewrite Hs1 in Hrun2, Hb. exists s2. split; [exact Hrun2|].
  split; [etrans; [exact (Hg 0 ltac:(lia))|vm_compute; reflexivity]|].
  exact (f_equal ev_rip_dirty Hb).
Defined.

Lemma mmio_store_emulated_witness :
  exists s1, exit_ept_violation Z.eqb (demo_state demo_store) = Some (HAX_EXIT, s1) /\
    ev_fastmmio (es_vcpu s1) = FastMmio 0xFEC00010 1 4 1 /\
    exists s2, continue_emulation Z.eqb s1 = Some (None, s2) /\
      read_gpr (EmOps := em_ops Z.eqb) (es_vcpu s2) 0 = 1.
Proof.
  destruct store_decoded as [m1 Hd].
  destruct (mmio_store_emulated Z.eqb (demo_state demo_store) mmio_store_ctxt _ 0xF0000000
    (with_code_inv [0x89; 0x03]) ltac:(done) ltac:(vm_compute; reflexivity) eq_refl Hd)
    as (s1 & Hrun & Hs1 & _ & s2 & Hrun2 & _ & _ & Hg).
  - constructor; try done. right. split; [done|]. unfold reg_ok. cbn. lia.
  - reflexivity.
  - vm_compute. reflexivity.
  - exists s1. split; [exact Hrun|]. split; [by rewrite Hs1|]. exists s2. split; [exact Hrun2|].
    etrans; [exact (Hg 0 ltac:(lia))|vm_compute; reflexivity].
Defined.

