(* ===== verification/Cpuid.v ===== *)
(** * CPUID (src/core/cpuid.c)

    The values of the CPUID instruction that a guest sees: the features of the host, those
    that the driver supports, the table of each guest and its changes by user space.  The
    processor's own CPUID instruction is the class [CpuidHw].  Pointers that the callers
    never pass as NULL are values; the padding of an entry is left out. *)

From stdpp Require Import base numbers list.
From Stdlib Require Import ZArith Lia.
From S2P Require Import Prelude MemTypes PageWalker.
#[local] Open Scope Z_scope.
#[local] Open Scope haxm_scope.

(** ** Feature keys (src/core/include/cpuid.h) *)
Definition CPUID_REG_EAX : Z := 0.
Definition CPUID_REG_ECX : Z := 1.
Definition CPUID_REG_EDX : Z := 2.
Definition CPUID_REG_EBX : Z := 3.

Definition FEATURE_KEY (index leaf_lo leaf_hi subleaf_key subleaf_used reg bit : Z) : Z :=
  Z.shiftl (index &! 0x1F) 0 |! Z.shiftl (leaf_lo &! 0x1F) 5 |! Z.shiftl (leaf_hi &! 0x03) 10 |!
  Z.shiftl (subleaf_key &! 0x1F) 12 |! Z.shiftl (subleaf_used &! 0x01) 17 |!
  Z.shiftl (reg &! 0x03) 18 |! Z.shiftl (bit &! 0x1F) 20.
Definition FEATURE_KEY_LEAF (index leaf reg bit : Z) : Z :=
  FEATURE_KEY index leaf (leaf >>! 30) 0 0 reg bit.
Definition FEATURE_KEY_SUBLEAF (index leaf subleaf reg bit : Z) : Z :=
  FEATURE_KEY index leaf (leaf >>! 30) subleaf 1 reg bit.

(** [FEATURE(name)] of [X86_FEATURE_name]. *)
Definition FEATURE (key : Z) : Z := u32 (Z.shiftl 1 ((key >>! 20) &! 0x1F)).

Definition X86_FEATURE_SSE3 : Z := FEATURE_KEY_LEAF 0 0x01 CPUID_REG_ECX 0.
Definition X86_FEATURE_PCLMULQDQ : Z := FEATURE_KEY_LEAF 0 0x01 CPUID_REG_ECX 1.
Definition X86_FEATURE_DTES64 : Z := FEATURE_KEY_LEAF 0 0x01 CPUID_REG_ECX 2.
Definition X86_FEATURE_MONITOR : Z := FEATURE_KEY_LEAF 0 0x01 CPUID_REG_ECX 3.
Definition X86_FEATURE_DS_CPL : Z := FEATURE_KEY_LEAF 0 0x01 CPUID_REG_ECX 4.
Definition X86_FEATURE_VMX : Z := FEATURE_KEY_LEAF 0 0x01 CPUID_REG_ECX 5.
Definition X86_FEATURE_SMX : Z := FEATURE_KEY_LEAF 0 0x01 CPUID_REG_ECX 6.
Definition X86_FEATURE_EIST : Z := FEATURE_KEY_LEAF 0 0x01 CPUID_REG_ECX 7.
Definition X86_FEATURE_TM2 : Z := FEATURE_KEY_LEAF 0 0x01 CPUID_REG_ECX 8.
Definition X86_FEATURE_SSSE3 : Z := FEATURE_KEY_LEAF 0 0x01 CPUID_REG_ECX 9.
Definition X86_FEATURE_CNXT_ID : Z := FEATURE_KEY_LEAF 0 0x01 CPUID_REG_ECX 10.
Definition X86_FEATURE_SDBG : Z := FEATURE_KEY_LEAF 0 0x01 CPUID_REG_ECX 11.
Definition X86_FEATURE_FMA : Z := FEATURE_KEY_LEAF 0 0x01 CPUID_REG_ECX 12.
Definition X86_FEATURE_CMPXCHG16B : Z := FEATURE_KEY_LEAF 0 0x01 CPUID_REG_ECX 13.
Definition X86_FEATURE_XTPR_UPDATE : Z := FEATURE_KEY_LEAF 0 0x01 CPUID_REG_ECX 14.
Definition X86_FEATURE_PDCM : Z := FEATURE_KEY_LEAF 0 0x01 CPUID_REG_ECX 15.
Definition X86_FEATURE_PCID : Z := FEATURE_KEY_LEAF 0 0x01 CPUID_REG_ECX 17.
Definition X86_FEATURE_DCA : Z := FEATURE_KEY_LEAF 0 0x01 CPUID_REG_ECX 18.
Definition X86_FEATURE_SSE41 : Z := FEATURE_KEY_LEAF 0 0x01 CPUID_REG_ECX 19.
Definition X86_FEATURE_SSE42 : Z := FEATURE_KEY_LEAF 0 0x01 CPUID_REG_ECX 20.
Definition X86_FEATURE_X2APIC : Z := FEATURE_KEY_LEAF 0 0x01 CPUID_REG_ECX 21.
Definition X86_FEATURE_MOVBE : Z := FEATURE_KEY_LEAF 0 0x01 CPUID_REG_ECX 22.
Definition X86_FEATURE_POPCNT : Z := FEATURE_KEY_LEAF 0 0x01 CPUID_REG_ECX 23.
Definition X86_FEATURE_TSC_DEADLINE : Z := FEATURE_KEY_LEAF 0 0x01 CPUID_REG_ECX 24.
Definition X86_FEATURE_AESNI : Z := FEATURE_KEY_LEAF 0 0x01 CPUID_REG_ECX 25.
Definition X86_FEATURE_XSAVE : Z := FEATURE_KEY_LEAF 0 0x01 CPUID_REG_ECX 26.
Definition X86_FEATURE_OSXSAVE : Z := FEATURE_KEY_LEAF 0 0x01 CPUID_REG_ECX 27.
Definition X86_FEATURE_AVX : Z := FEATURE_KEY_LEAF 0 0x01 CPUID_REG_ECX 28.
Definition X86_FEATURE_F16C : Z := FEATURE_KEY_LEAF 0 0x01 CPUID_REG_ECX 29.
Definition X86_FEATURE_RDRAND : Z := FEATURE_KEY_LEAF 0 0x01 CPUID_REG_ECX 30.
Definition X86_FEATURE_HYPERVISOR : Z := FEATURE_KEY_LEAF 0 0x01 CPUID_REG_ECX 31.

Definition X86_FEATURE_FPU : Z := FEATURE_KEY_LEAF 1 0x01 CPUID_REG_EDX 0.
Definition X86_FEATURE_VME : Z := FEATURE_KEY_LEAF 1 0x01 CPUID_REG_EDX 1.
Definition X86_FEATURE_DE : Z := FEATURE_KEY_LEAF 1 0x01 CPUID_REG_EDX 2.
Definition X86_FEATURE_PSE : Z := FEATURE_KEY_LEAF 1 0x01 CPUID_REG_EDX 3.
Definition X86_FEATURE_TSC : Z := FEATURE_KEY_LEAF 1 0x01 CPUID_REG_EDX 4.
Definition X86_FEATURE_MSR : Z := FEATURE_KEY_LEAF 1 0x01 CPUID_REG_EDX 5.
Definition X86_FEATURE_PAE : Z := FEATURE_KEY_LEAF 1 0x01 CPUID_REG_EDX 6.
Definition X86_FEATURE_MCE : Z := FEATURE_KEY_LEAF 1 0x01 CPUID_REG_EDX 7.
Definition X86_FEATURE_CX8 : Z := FEATURE_KEY_LEAF 1 0x01 CPUID_REG_EDX 8.
Definition X86_FEATURE_APIC : Z := FEATURE_KEY_LEAF 1 0x01 CPUID_REG_EDX 9.
Definition X86_FEATURE_SEP : Z := FEATURE_KEY_LEAF 1 0x01 CPUID_REG_EDX 11.
Definition X86_FEATURE_MTRR : Z := FEATURE_KEY_LEAF 1 0x01 CPUID_REG_EDX 12.
Definition X86_FEATURE_PGE : Z := FEATURE_KEY_LEAF 1 0x01 CPUID_REG_EDX 13.
Definition X86_FEATURE_MCA : Z := FEATURE_KEY_LEAF 1 0x01 CPUID_REG_EDX 14.
Definition X86_FEATURE_CMOV : Z := FEATURE_KEY_LEAF 1 0x01 CPUID_REG_EDX 15.
Definition X86_FEATURE_PAT : Z := FEATURE_KEY_LEAF 1 0x01 CPUID_REG_EDX 16.
Definition X86_FEATURE_PSE36 : Z := FEATURE_KEY_LEAF 1 0x01 CPUID_REG_EDX 17.
Definition X86_FEATURE_PSN : Z := FEATURE_KEY_LEAF 1 0x01 CPUID_REG_EDX 18.
Definition X86_FEATURE_CLFSH : Z := FEATURE_KEY_LEAF 1 0x01 CPUID_REG_EDX 19.
Definition X86_FEATURE_DS : Z := FEATURE_KEY_LEAF 1 0x01 CPUID_REG_EDX 21.
Definition X86_FEATURE_ACPI : Z := FEATURE_KEY_LEAF 1 0x01 CPUID_REG_EDX 22.
Definition X86_FEATURE_MMX : Z := FEATURE_KEY_LEAF 1 0x01 CPUID_REG_EDX 23.
Definition X86_FEATURE_FXSR : Z := FEATURE_KEY_LEAF 1 0x01 CPUID_REG_EDX 24.
Definition X86_FEATURE_SSE : Z := FEATURE_KEY_LEAF 1 0x01 CPUID_REG_EDX 25.
Definition X86_FEATURE_SSE2 : Z := FEATURE_KEY_LEAF 1 0x01 CPUID_REG_EDX 26.
Definition X86_FEATURE_SS : Z := FEATURE_KEY_LEAF 1 0x01 CPUID_REG_EDX 27.
Definition X86_FEATURE_HTT : Z := FEATURE_KEY_LEAF 1 0x01 CPUID_REG_EDX 28.
Definition X86_FEATURE_TM : Z := FEATURE_KEY_LEAF 1 0x01 CPUID_REG_EDX 29.
Definition X86_FEATURE_PBE : Z := FEATURE_KEY_LEAF 1 0x01 CPUID_REG_EDX 31.

Definition X86_FEATURE_PREFETCHWT1 : Z := FEATURE_KEY_SUBLEAF 2 0x07 0x00 CPUID_REG_ECX 0.
Definition X86_FEATURE_AVX512_VBMI : Z := FEATURE_KEY_SUBLEAF 2 0x07 0x00 CPUID_REG_ECX 1.
Definition X86_FEATURE_UMIP : Z := FEATURE_KEY_SUBLEAF 2 0x07 0x00 CPUID_REG_ECX 2.
Definition X86_FEATURE_PKU : Z := FEATURE_KEY_SUBLEAF 2 0x07 0x00 CPUID_REG_ECX 3.
Definition X86_FEATURE_OSPKE : Z := FEATURE_KEY_SUBLEAF 2 0x07 0x00 CPUID_REG_ECX 4.
Definition X86_FEATURE_RDPID : Z := FEATURE_KEY_SUBLEAF 2 0x07 0x00 CPUID_REG_ECX 22.

Definition X86_FEATURE_FSGSBASE : Z := FEATURE_KEY_SUBLEAF 3 0x07 0x00 CPUID_REG_EBX 0.
Definition X86_FEATURE_TSC_ADJUST : Z := FEATURE_KEY_SUBLEAF 3 0x07 0x00 CPUID_REG_EBX 1.
Definition X86_FEATURE_SGX : Z := FEATURE_KEY_SUBLEAF 3 0x07 0x00 CPUID_REG_EBX 2.
Definition X86_FEATURE_BMI1 : Z := FEATURE_KEY_SUBLEAF 3 0x07 0x00 CPUID_REG_EBX 3.
Definition X86_FEATURE_HLE : Z := FEATURE_KEY_SUBLEAF 3 0x07 0x00 CPUID_REG_EBX 4.
Definition X86_FEATURE_AVX2 : Z := FEATURE_KEY_SUBLEAF 3 0x07 0x00 CPUID_REG_EBX 5.
Definition X86_FEATURE_SMEP : Z := FEATURE_KEY_SUBLEAF 3 0x07 0x00 CPUID_REG_EBX 7.
Definition X86_FEATURE_BMI2 : Z := FEATURE_KEY_SUBLEAF 3 0x07 0x00 CPUID_REG_EBX 8.
Definition X86_FEATURE_ERMS : Z := FEATURE_KEY_SUBLEAF 3 0x07 0x00 CPUID_REG_EBX 9.
Definition X86_FEATURE_INVPCID : Z := FEATURE_KEY_SUBLEAF 3 0x07 0x00 CPUID_REG_EBX 10.
Definition X86_FEATURE_RTM : Z := FEATURE_KEY_SUBLEAF 3 0x07 0x00 CPUID_REG_EBX 11.
Definition X86_FEATURE_RDT_M : Z := FEATURE_KEY_SUBLEAF 3 0x07 0x00 CPUID_REG_EBX 12.
Definition X86_FEATURE_MPX : Z := FEATURE_KEY_SUBLEAF 3 0x07 0x00 CPUID_REG_EBX 14.
Definition X86_FEATURE_RDT_A : Z := FEATURE_KEY_SUBLEAF 3 0x07 0x00 CPUID_REG_EBX 15.
Definition X86_FEATURE_AVX512F : Z := FEATURE_KEY_SUBLEAF 3 0x07 0x00 CPUID_REG_EBX 16.
Definition X86_FEATURE_AVX512DQ : Z := FEATURE_KEY_SUBLEAF 3 0x07 0x00 CPUID_REG_EBX 17.
Definition X86_FEATURE_RDSEED : Z := FEATURE_KEY_SUBLEAF 3 0x07 0x00 CPUID_REG_EBX 18.
Definition X86_FEATURE_ADX : Z := FEATURE_KEY_SUBLEAF 3 0x07 0x00 CPUID_REG_EBX 19.
Definition X86_FEATURE_SMAP : Z := FEATURE_KEY_SUBLEAF 3 0x07 0x00 CPUID_REG_EBX 20.
Definition X86_FEATURE_AVX512_IFMA : Z := FEATURE_KEY_SUBLEAF 3 0x07 0x00 CPUID_REG_EBX 21.
Definition X86_FEATURE_CLFLUSHOPT : Z := FEATURE_KEY_SUBLEAF 3 0x07 0x00 CPUID_REG_EBX 23.
Definition X86_FEATURE_CLWB : Z := FEATURE_KEY_SUBLEAF 3 0x07 0x00 CPUID_REG_EBX 24.
Definition X86_FEATURE_AVX512PF : Z := FEATURE_KEY_SUBLEAF 3 0x07 0x00 CPUID_REG_EBX 26.
Definition X86_FEATURE_AVX512ER : Z := FEATURE_KEY_SUBLEAF 3 0x07 0x00 CPUID_REG_EBX 27.
Definition X86_FEATURE_AVX512CD : Z := FEATURE_KEY_SUBLEAF 3 0x07 0x00 CPUID_REG_EBX 28.
Definition X86_FEATURE_SHA : Z := FEATURE_KEY_SUBLEAF 3 0x07 0x00 CPUID_REG_EBX 29.
Definition X86_FEATURE_AVX512BW : Z := FEATURE_KEY_SUBLEAF 3 0x07 0x00 CPUID_REG_EBX 30.
Definition X86_FEATURE_AVX512VL : Z := FEATURE_KEY_SUBLEAF 3 0x07 0x00 CPUID_REG_EBX 31.

Definition X86_FEATURE_XSAVEOPT : Z := FEATURE_KEY_SUBLEAF 4 0x0d 0x01 CPUID_REG_EAX 0.
Definition X86_FEATURE_XSAVEC : Z := FEATURE_KEY_SUBLEAF 4 0x0d 0x01 CPUID_REG_EAX 1.
Definition X86_FEATURE_XGETBV1 : Z := FEATURE_KEY_SUBLEAF 4 0x0d 0x01 CPUID_REG_EAX 2.
Definition X86_FEATURE_XSAVES : Z := FEATURE_KEY_SUBLEAF 4 0x0d 0x01 CPUID_REG_EAX 3.

Definition X86_FEATURE_LAHF : Z := FEATURE_KEY_LEAF 5 0x80000001 CPUID_REG_ECX 0.
Definition X86_FEATURE_PREFETCHW : Z := FEATURE_KEY_LEAF 5 0x80000001 CPUID_REG_ECX 8.

Definition X86_FEATURE_SYSCALL : Z := FEATURE_KEY_LEAF 6 0x80000001 CPUID_REG_EDX 11.
Definition X86_FEATURE_NX : Z := FEATURE_KEY_LEAF 6 0x80000001 CPUID_REG_EDX 20.
Definition X86_FEATURE_PDPE1GB : Z := FEATURE_KEY_LEAF 6 0x80000001 CPUID_REG_EDX 26.
Definition X86_FEATURE_RDTSCP : Z := FEATURE_KEY_LEAF 6 0x80000001 CPUID_REG_EDX 27.
Definition X86_FEATURE_EM64T : Z := FEATURE_KEY_LEAF 6 0x80000001 CPUID_REG_EDX 29.

(** ** Data *)
Record cpuid_args_t := CpuidArgs { a_eax : Z; a_ecx : Z; a_edx : Z; a_ebx : Z }.

Record hax_cpuid_entry := CpuidEntry {
  ce_function : Z;
  ce_index : Z;
  ce_flags : Z;
  ce_eax : Z;
  ce_ebx : Z;
  ce_ecx : Z;
  ce_edx : Z;
}.

(** The table of a guest, and the table that user space passes in or gets. *)
Record hax_cpuid_t := HaxCpuid { hc_features_mask : Z; hc_features : list hax_cpuid_entry }.
Record hax_cpuid := CpuidInfo { ci_total : Z; ci_pad : Z; ci_entries : list hax_cpuid_entry }.

Definition CPUID_CACHE_SIZE : Z := 7.
Definition CPUID_FEATURE_SET_SIZE : Z := 4.
Definition MAX_BASIC_CPUID : Z := 0x16.
Definition MAX_EXTENDED_CPUID : Z := 0x80000008.
Definition XSAVE_HDR_SIZE : Z := 64.
Definition FXSAVE_SIZE : Z := 512.
Definition XSAVE_HDR_OFFSET : Z := FXSAVE_SIZE.
Definition XFEATURE_MASK_LEGACY : Z := 3.
Definition XFEATURE_MASK_EXTENDED : Z := Z.lxor (Z.ones 64) (XFEATURE_MASK_LEGACY |! Z.shiftl 1 63).
Definition CR4_OSXSAVE : Z := Z.shiftl 1 18.

Record cpuid_cache_t := CpuidCache {
  cc_data : list Z;
  cc_host_supported : list hax_cpuid_entry;
  cc_hax_supported : list hax_cpuid_entry;
  cc_initialized : bool;
}.

(** The variables of the driver: [cache], and of other files [hax->supported_xcr0],
    [hax->apm_cpuid_0xa] and [pw_reserved_bits_high_mask]. *)
Record cpu_pmu_info := PmuInfo { cpuid_eax : Z; cpuid_ebx : Z; cpuid_edx : Z }.
Record cpuid_globals := CpuidGlobals {
  cg_cache : cpuid_cache_t;
  cg_supported_xcr0 : Z;
  cg_apm_cpuid_0xa : cpu_pmu_info;
  cg_reserved_bits_high_mask : Z;
}.

(** The CPUID instruction of the host: the results for EAX and ECX. *)
Class CpuidHw := { asm_cpuid : cpuid_args_t -> cpuid_args_t }.

Definition set_a_eax (x : Z) (a : cpuid_args_t) := CpuidArgs x (a_ecx a) (a_edx a) (a_ebx a).
Definition set_a_ecx (x : Z) (a : cpuid_args_t) := CpuidArgs (a_eax a) x (a_edx a) (a_ebx a).
Definition set_a_edx (x : Z) (a : cpuid_args_t) := CpuidArgs (a_eax a) (a_ecx a) x (a_ebx a).
Definition set_a_ebx (x : Z) (a : cpuid_args_t) := CpuidArgs (a_eax a) (a_ecx a) (a_edx a) x.
Definition set_regs (eax ebx ecx edx : Z) (e : hax_cpuid_entry) :=
  CpuidEntry (ce_function e) (ce_index e) (ce_flags e) eax ebx ecx edx.
Definition set_cache (c : cpuid_cache_t) (g : cpuid_globals) :=
  CpuidGlobals c (cg_supported_xcr0 g) (cg_apm_cpuid_0xa g) (cg_reserved_bits_high_mask g).
Definition set_mask (m : Z) (g : cpuid_globals) :=
  CpuidGlobals (cg_cache g) (cg_supported_xcr0 g) (cg_apm_cpuid_0xa g) m.

(** [regs[i]] *)
Definition arg_reg (a : cpuid_args_t) (i : Z) : Z :=
  if i =? CPUID_REG_EAX then a_eax a else if i =? CPUID_REG_ECX then a_ecx a
  else if i =? CPUID_REG_EDX then a_edx a else a_ebx a.

(** An entry of a feature set, with the registers that the initializer names. *)
Definition feature_set (function index eax ebx ecx edx : Z) : hax_cpuid_entry :=
  CpuidEntry function index 0 eax ebx ecx edx.

(** ** Bit fields of a key *)
Definition key_index (key : Z) : Z := key &! 0x1F.
Definition key_leaf_lo (key : Z) : Z := (key >>! 5) &! 0x1F.
Definition key_leaf_hi (key : Z) : Z := (key >>! 10) &! 0x03.
Definition key_subleaf_key (key : Z) : Z := (key >>! 12) &! 0x1F.
Definition key_subleaf_used (key : Z) : Z := (key >>! 17) &! 0x01.
Definition key_reg (key : Z) : Z := (key >>! 18) &! 0x03.
Definition key_bit (key : Z) : Z := (key >>! 20) &! 0x1F.

Definition feature_leaf (key : Z) : Z := key_leaf_lo key |! u32 (Z.shiftl (key_leaf_hi key) 30).
Definition feature_subleaf (key : Z) : Z := key_subleaf_key key.
Definition feature_reg (key : Z) : Z := key_reg key.
Definition feature_bit (key : Z) : Z := u32 (Z.shiftl 1 (key_bit key)).

(** ** Entries *)
Definition get_reg (entry : hax_cpuid_entry) (key : Z) : Z :=
  let r := feature_reg key in
  if r =? CPUID_REG_EAX then ce_eax entry
  else if r =? CPUID_REG_EBX then ce_ebx entry
  else if r =? CPUID_REG_ECX then ce_ecx entry
  else ce_edx entry.

(** A store through the pointer that [get_reg] returns. *)
Definition put_reg (entry : hax_cpuid_entry) (key x : Z) : hax_cpuid_entry :=
  let r := feature_reg key in
  if r =? CPUID_REG_EAX then set_regs x (ce_ebx entry) (ce_ecx entry) (ce_edx entry) entry
  else if r =? CPUID_REG_EBX then set_regs (ce_eax entry) x (ce_ecx entry) (ce_edx entry) entry
  else if r =? CPUID_REG_ECX then set_regs (ce_eax entry) (ce_ebx entry) x (ce_edx entry) entry
  else set_regs (ce_eax entry) (ce_ebx entry) (ce_ecx entry) x entry.

Definition is_feature_set (entry : hax_cpuid_entry) (key : Z) : bool :=
  negb (get_reg entry key &! feature_bit key =? 0).

Definition update_feature (entry : hax_cpuid_entry) (key : Z) (set : bool) : hax_cpuid_entry :=
  if set then put_reg entry key (get_reg entry key |! feature_bit key)
  else put_reg entry key (Z.ldiff (get_reg entry key) (feature_bit key)).

Section Cpuid.
Context {HW : CpuidHw}.
#[local] Notation st := cpuid_globals.

(** The position of the entry; a position outside the array is not read. *)
Fixpoint find_cpuid_entry_from (i n : nat) (features : list hax_cpuid_entry) (function index : Z)
    : M st (option nat) :=
  match n with
  | O => mret None
  | S n =>
      entry ← of_option (features !! i);
      if ((ce_function entry =? function) && (ce_index entry =? index))%bool then mret (Some i)
      else find_cpuid_entry_from (S i) n features function index
  end.

Definition find_cpuid_entry (features : list hax_cpuid_entry) (size function index : Z)
    : M st (option nat) :=
  find_cpuid_entry_from 0 (Z.to_nat size) features function index.

(** ** The host *)
Definition cpuid_query_leaf (args : cpuid_args_t) (leaf : Z) : cpuid_args_t :=
  asm_cpuid (set_a_eax leaf args).
Definition cpuid_query_subleaf (args : cpuid_args_t) (leaf subleaf : Z) : cpuid_args_t :=
  asm_cpuid (set_a_ecx subleaf (set_a_eax leaf args)).

(** [res] is not initialized. *)
Definition cpuid_host_init (res : cpuid_args_t) : M st unit :=
  let r1 := cpuid_query_leaf res 0x00000001 in
  let r2 := cpuid_query_subleaf r1 0x00000007 0x00 in
  let r3 := cpuid_query_subleaf r2 0x0000000d 0x01 in
  let r4 := cpuid_query_leaf r3 0x80000001 in
  modify (fun g =>
    let c := cg_cache g in
    set_cache (CpuidCache [a_ecx r1; a_edx r1; a_ecx r2; a_ebx r2; a_eax r3; a_ecx r4; a_edx r4]
                 (cc_host_supported c) (cc_hax_supported c) true) g).

Definition cpuid_host_has_feature_uncached (res : cpuid_args_t) (key : Z) : bool :=
  let leaf := u32 (Z.shiftl (key_leaf_hi key) 30) |! key_leaf_lo key in
  let res := if negb (key_subleaf_used key =? 0)
             then cpuid_query_subleaf res leaf (key_subleaf_key key)
             else cpuid_query_leaf res leaf in
  negb (arg_reg res (key_reg key) &! u32 (Z.shiftl 1 (key_bit key)) =? 0).

Definition cpuid_host_has_feature (res : cpuid_args_t) (key : Z) : M st bool :=
  c ← gets cg_cache;
  if (negb (cc_initialized c) || (CPUID_CACHE_SIZE <=? key_index key))%bool
  then mret (cpuid_host_has_feature_uncached res key)
  else
    value ← of_option (cc_data c !! Z.to_nat (key_index key));
    mret (negb (value &! u32 (Z.shiftl 1 (key_bit key)) =? 0)).

Definition cpu_has_feature (res : cpuid_args_t) (feature : Z) : M st bool :=
  cpuid_host_has_feature res feature.

Definition features_of (keys : list Z) : Z := fold_right (fun k x => FEATURE k |! x) 0 keys.

(** The features that the driver supports. *)
Definition hax_features_01_ecx : Z := features_of
  [X86_FEATURE_SSE3; X86_FEATURE_SSSE3; X86_FEATURE_SSE41; X86_FEATURE_SSE42;
   X86_FEATURE_CMPXCHG16B; X86_FEATURE_MOVBE; X86_FEATURE_AESNI; X86_FEATURE_PCLMULQDQ;
   X86_FEATURE_POPCNT; X86_FEATURE_XSAVE; X86_FEATURE_AVX; X86_FEATURE_F16C].
Definition hax_features_01_edx : Z := features_of
  [X86_FEATURE_PAT; X86_FEATURE_FPU; X86_FEATURE_VME; X86_FEATURE_DE; X86_FEATURE_TSC;
   X86_FEATURE_MSR; X86_FEATURE_PAE; X86_FEATURE_MCE; X86_FEATURE_CX8; X86_FEATURE_APIC;
   X86_FEATURE_SEP; X86_FEATURE_MTRR; X86_FEATURE_PGE; X86_FEATURE_MCA; X86_FEATURE_CMOV;
   X86_FEATURE_CLFSH; X86_FEATURE_MMX; X86_FEATURE_FXSR; X86_FEATURE_SSE; X86_FEATURE_SSE2;
   X86_FEATURE_SS; X86_FEATURE_PSE; X86_FEATURE_HTT].
Definition hax_features_07_ebx : Z := features_of [X86_FEATURE_ERMS; X86_FEATURE_INVPCID].
Definition hax_features_0d_eax : Z :=
  features_of [X86_FEATURE_XSAVEOPT; X86_FEATURE_XSAVEC; X86_FEATURE_XGETBV1].
Definition hax_features_ext_edx : Z :=
  features_of [X86_FEATURE_NX; X86_FEATURE_SYSCALL; X86_FEATURE_RDTSCP; X86_FEATURE_EM64T].

Definition cpuid_init_supported_features : M st unit :=
  c ← gets cg_cache;
  d0 ← of_option (cc_data c !! 0%nat); d1 ← of_option (cc_data c !! 1%nat);
  d2 ← of_option (cc_data c !! 2%nat); d3 ← of_option (cc_data c !! 3%nat);
  d4 ← of_option (cc_data c !! 4%nat); d5 ← of_option (cc_data c !! 5%nat);
  d6 ← of_option (cc_data c !! 6%nat);
  let host_supported :=
    [feature_set 0x01 0 0 0 d0 d1; feature_set 0x07 0 0 d3 d2 0; feature_set 0x0d 1 d4 0 0 0;
     feature_set 0x80000001 0 0 0 d5 d6] in
  let hax_supported :=
    [feature_set 0x01 0 0 0 hax_features_01_ecx hax_features_01_edx;
     feature_set 0x07 0 0 hax_features_07_ebx 0 0; feature_set 0x0d 1 hax_features_0d_eax 0 0 0;
     feature_set 0x80000001 0 0 0 0 hax_features_ext_edx] in
  modify (set_cache (CpuidCache (cc_data c) host_supported hax_supported (cc_initialized c))).

(** ** Extended state *)
Fixpoint xstate_loop (fuel : nat) (xstate_bv bit size : Z) (is_compacted : bool) (args : cpuid_args_t)
    : M st Z :=
  if xstate_bv =? 0 then mret size
  else
    match fuel with
    | O => stuck
    | S fuel =>
        if xstate_bv &! 1 =? 0 then xstate_loop fuel (xstate_bv >>! 1) (u32 (bit + 1)) size is_compacted args
        else
          let args := asm_cpuid (set_a_ecx bit (set_a_eax 0x0d args)) in
          let offset := if is_compacted then size else a_ebx args in
          let size := Z.max size (u32 (offset + a_eax args)) in
          xstate_loop fuel (xstate_bv >>! 1) (u32 (bit + 1)) size is_compacted args
    end.

(** [args] is not initialized. *)
Definition calc_xstate_required_size (args : cpuid_args_t) (xstate_bv : Z) (is_compacted : bool) : M st Z :=
  xstate_loop 64 (xstate_bv &! XFEATURE_MASK_EXTENDED) 0 (XSAVE_HDR_SIZE + XSAVE_HDR_OFFSET)
    is_compacted args.

(** ** The leaves *)
Definition VIRT_FAMILY : Z := 0x06.
Definition VIRT_MODEL : Z := 0x1f.
Definition VIRT_STEPPING : Z := 0x01.

(** Family and model of [cpuid_01h_eax]. *)
Definition hw_family (raw : Z) : Z :=
  let family_id := (raw >>! 8) &! 0xf in
  let ext_family_id := (raw >>! 20) &! 0xff in
  if negb (family_id =? 0xf) then family_id else family_id + Z.shiftl ext_family_id 4.
Definition hw_model (raw : Z) : Z :=
  let family_id := (raw >>! 8) &! 0xf in
  let model := (raw >>! 4) &! 0xf in
  let ext_model_id := (raw >>! 16) &! 0xf in
  if ((family_id =? 0x6) || (family_id =? 0xf))%bool then Z.shiftl ext_model_id 4 + model else model.

Definition adjust_0000_0001 (args : cpuid_args_t) : M st cpuid_args_t :=
  c ← gets cg_cache;
  hax_supported ← of_option (cc_hax_supported c !! 0%nat);
  let raw := a_eax args in
  let args :=
    if ((hw_family raw =? VIRT_FAMILY) && (VIRT_MODEL <? hw_model raw))%bool then
      set_a_eax (Z.shiftl (VIRT_FAMILY &! 0xff0) 16 |! Z.shiftl (VIRT_FAMILY &! 0xf) 8 |!
                 Z.shiftl (VIRT_MODEL &! 0xf0) 12 |! Z.shiftl (VIRT_MODEL &! 0xf) 4 |!
                 (VIRT_STEPPING &! 0xf)) args
    else args in
  let args := set_a_ebx (Z.shiftl 0x01 16 |! Z.shiftl 0x08 8 |! 0x00) args in
  let args := set_a_ecx ((a_ecx args &! ce_ecx hax_supported) |! FEATURE X86_FEATURE_HYPERVISOR) args in
  mret (set_a_edx (a_edx args &! ce_edx hax_supported) args).

Definition adjust_8000_0001 (args : cpuid_args_t) : M st cpuid_args_t :=
  c ← gets cg_cache;
  hax_supported ← of_option (cc_hax_supported c !! 3%nat);
  mret (CpuidArgs 0 (a_ecx args &! ce_ecx hax_supported) (a_edx args &! ce_edx hax_supported) 0).

Definition execute_0000_0000 (args : cpuid_args_t) : M st cpuid_args_t :=
  let args := asm_cpuid args in
  mret (set_a_eax (Z.min (a_eax args) MAX_BASIC_CPUID) args).

Definition execute_0000_0001 (args : cpuid_args_t) : M st cpuid_args_t :=
  adjust_0000_0001 (asm_cpuid args).

Definition execute_0000_0002 (args : cpuid_args_t) : M st cpuid_args_t :=
  mret (CpuidArgs 0x03020101 0 0x0c040844 0).

Definition execute_0000_0007 (args : cpuid_args_t) : M st cpuid_args_t :=
  if a_ecx args =? 0 then
    c ← gets cg_cache;
    host_supported ← of_option (cc_host_supported c !! 1%nat);
    hax_supported ← of_option (cc_hax_supported c !! 1%nat);
    mret (CpuidArgs 0 0 0 (ce_ebx host_supported &! ce_ebx hax_supported))
  else if a_ecx args =? 1 then mret (CpuidArgs 0 0 0 0)
  else mret args.

Definition execute_0000_000a (args : cpuid_args_t) : M st cpuid_args_t :=
  pmu_info ← gets cg_apm_cpuid_0xa;
  mret (CpuidArgs (cpuid_eax pmu_info) 0 (cpuid_edx pmu_info) (cpuid_ebx pmu_info)).

(** [uninit] is the uninitialized variable of [calc_xstate_required_size]. *)
Definition execute_0000_000d (uninit args : cpuid_args_t) : M st cpuid_args_t :=
  if 63 <? a_ecx args then mret args
  else
    xcr0 ← gets cg_supported_xcr0;
    if a_ecx args =? 0 then
      let args := asm_cpuid args in
      size ← calc_xstate_required_size uninit xcr0 false;
      mret (CpuidArgs (a_eax args &! u32 xcr0) size (a_edx args &! u32 (xcr0 >>! 32)) size)
    else if a_ecx args =? 1 then
      c ← gets cg_cache;
      hax_supported ← of_option (cc_hax_supported c !! 2%nat);
      let eax := ce_eax hax_supported in
      ebx ← (if negb (eax &! FEATURE X86_FEATURE_XSAVEC =? 0)
             then calc_xstate_required_size uninit xcr0 true else mret 0);
      mret (CpuidArgs eax 0 0 ebx)
    else if xcr0 &! Z.shiftl 1 (a_ecx args) =? 0 then mret (CpuidArgs 0 0 0 0)
    else mret (set_a_edx 0 (asm_cpuid args)).

(** HAXM, the words of [kSignature]. *)
Definition kVendorId : list Z := [0x4D584148; 0x4D584148; 0x4D584148].

Definition execute_4000_0000 (args : cpuid_args_t) : M st cpuid_args_t :=
  v0 ← of_option (kVendorId !! 0%nat); v1 ← of_option (kVendorId !! 1%nat);
  v2 ← of_option (kVendorId !! 2%nat);
  mret (CpuidArgs 0x40000000 v1 v2 v0).

Definition execute_8000_0000 (args : cpuid_args_t) : M st cpuid_args_t :=
  mret (CpuidArgs MAX_EXTENDED_CPUID 0 0 0).

Definition execute_8000_0001 (args : cpuid_args_t) : M st cpuid_args_t :=
  adjust_8000_0001 (asm_cpuid args).

Definition execute_8000_0002 (args : cpuid_args_t) : M st cpuid_args_t :=
  mret (CpuidArgs 0x74726956 0x20555043 0x00000000 0x206c6175).

Definition execute_8000_0003 (args : cpuid_args_t) : M st cpuid_args_t := mret (CpuidArgs 0 0 0 0).

Definition execute_8000_0006 (args : cpuid_args_t) : M st cpuid_args_t :=
  mret (CpuidArgs 0 0x04008040 0 0).

(** The shift is defined for address sizes from 32 to 62 bits. *)
Definition execute_8000_0008 (args : cpuid_args_t) : M st cpuid_args_t :=
  let args := asm_cpuid args in
  let physical_address_size := u8 (a_eax args) &! 0xff in
  hax_assert ((32 <=? physical_address_size) && (physical_address_size <? 63))%bool;;
  modify (set_mask (reserved_high_mask physical_address_size));;
  mret (CpuidArgs (a_eax args) 0 0 0).

(** ** The tables *)
Record cpuid_manager_t := CpuidManager {
  cm_leaf : Z;
  cm_subleaf : Z;
  cm_execute : option (cpuid_args_t -> M st cpuid_args_t);
}.

Definition kCpuidManager (uninit : cpuid_args_t) : list cpuid_manager_t := [
  CpuidManager 0x00000000 0 (Some execute_0000_0000);
  CpuidManager 0x00000001 0 (Some execute_0000_0001);
  CpuidManager 0x00000002 0 (Some execute_0000_0002);
  CpuidManager 0x00000007 0 (Some execute_0000_0007);
  CpuidManager 0x00000007 1 (Some execute_0000_0007);
  CpuidManager 0x0000000a 0 (Some execute_0000_000a);
  CpuidManager 0x0000000d 0 (Some (execute_0000_000d uninit));
  CpuidManager 0x0000000d 1 (Some (execute_0000_000d uninit));
  CpuidManager 0x00000015 0 None;
  CpuidManager 0x00000016 0 None;
  CpuidManager 0x40000000 0 (Some execute_4000_0000);
  CpuidManager 0x80000000 0 (Some execute_8000_0000);
  CpuidManager 0x80000001 0 (Some execute_8000_0001);
  CpuidManager 0x80000002 0 (Some execute_8000_0002);
  CpuidManager 0x80000003 0 (Some execute_8000_0003);
  CpuidManager 0x80000004 0 (Some execute_8000_0003);
  CpuidManager 0x80000006 0 (Some execute_8000_0006);
  CpuidManager 0x80000008 0 (Some execute_8000_0008)].

Definition CPUID_TOTAL_LEAVES : Z := 18.

(** ** The table of a guest *)
Fixpoint guest_init_loop (ms : list cpuid_manager_t) (args : cpuid_args_t)
    : M st (list hax_cpuid_entry) :=
  match ms with
  | [] => mret []
  | m :: ms =>
      let args := set_a_ecx (cm_subleaf m) (set_a_eax (cm_leaf m) args) in
      args ← match cm_execute m with
             | Some execute => execute args
             | None => mret (asm_cpuid args)
             end;
      rest ← guest_init_loop ms args;
      mret (CpuidEntry (cm_leaf m) (cm_subleaf m) 0 (a_eax args) (a_ebx args) (a_ecx args) (a_edx args)
              :: rest)
  end.

(** [args] is not initialized. *)
Definition cpuid_guest_init (args : cpuid_args_t) : M st hax_cpuid_t :=
  features ← guest_init_loop (kCpuidManager args) args;
  mret (HaxCpuid (Z.ones 64) features).

Definition cpuid_guest_has_feature (cpuid : option hax_cpuid_t) (key : Z) : M st bool :=
  match cpuid with
  | None => mret false
  | Some cpuid =>
      i ← find_cpuid_entry (hc_features cpuid) CPUID_TOTAL_LEAVES (feature_leaf key) (feature_subleaf key);
      match i with
      | None => mret false
      | Some i => entry ← of_option (hc_features cpuid !! i); mret (is_feature_set entry key)
      end
  end.

(** The loop of [cpuid_execute]: [supported], [index] and [entry]. *)
Fixpoint execute_loop (i n : nat) (features : list hax_cpuid_entry) (leaf subleaf supported : Z)
    (index : option nat) (entry : option hax_cpuid_entry)
    : M st (Z * option nat * option hax_cpuid_entry) :=
  match n with
  | O => mret (supported, index, entry)
  | S n =>
      e ← of_option (features !! i);
      if negb (ce_function e =? leaf) then
        if supported =? 0 then execute_loop (S i) n features leaf subleaf supported index entry
        else mret (supported, index, entry)
      else if ce_index e =? subleaf then mret (1, index, Some e)
      else if negb (supported =? 0) then
        execute_loop (S i) n features leaf subleaf (s32 (supported + 1)) index entry
      else execute_loop (S i) n features leaf subleaf (s32 (supported + 1)) (Some i) (Some e)
  end.

Definition cpuid_execute (uninit : cpuid_args_t) (cpuid : option hax_cpuid_t) (args : option cpuid_args_t)
    : M st (option cpuid_args_t) :=
  match cpuid, args with
  | Some cpuid, Some args =>
      r ← execute_loop 0 (Z.to_nat CPUID_TOTAL_LEAVES) (hc_features cpuid) (a_eax args) (a_ecx args) 0
            None None;
      let '(supported, index, entry) := r in
      if supported =? 0 then mret (Some (CpuidArgs 0 0 0 0))
      else if supported =? 1 then
        entry ← of_option entry;
        mret (Some (CpuidArgs (ce_eax entry) (ce_ecx entry) (ce_edx entry) (ce_ebx entry)))
      else
        index ← of_option index;
        m ← of_option (kCpuidManager uninit !! index);
        match cm_execute m with
        | Some execute => args ← execute args; mret (Some args)
        | None => mret (Some args)
        end
  | _, _ => mret args
  end.

(** The entry at position [i] becomes [e]. *)
Definition put_entry (i : nat) (e : hax_cpuid_entry) (cpuid : hax_cpuid_t) : hax_cpuid_t :=
  HaxCpuid (hc_features_mask cpuid) (<[i := e]> (hc_features cpuid)).

(** [cr4] and [xcr0] of the virtual CPU. *)
Definition cpuid_update (uninit : cpuid_args_t) (cpuid : hax_cpuid_t) (cr4 xcr0 : Z) : M st hax_cpuid_t :=
  i ← find_cpuid_entry (hc_features cpuid) CPUID_TOTAL_LEAVES 0x01 0;
  cpuid ← match i with
          | None => mret cpuid
          | Some i =>
              has ← cpu_has_feature uninit X86_FEATURE_XSAVE;
              if has : bool then
                entry ← of_option (hc_features cpuid !! i);
                mret (put_entry i (update_feature entry X86_FEATURE_OSXSAVE
                                     (negb (cr4 &! CR4_OSXSAVE =? 0))) cpuid)
              else mret cpuid
          end;
  i ← find_cpuid_entry (hc_features cpuid) CPUID_TOTAL_LEAVES 0x0d 0;
  cpuid ← match i with
          | None => mret cpuid
          | Some i =>
              entry ← of_option (hc_features cpuid !! i);
              size ← calc_xstate_required_size uninit xcr0 false;
              mret (put_entry i (set_regs (ce_eax entry) size (ce_ecx entry) (ce_edx entry) entry) cpuid)
          end;
  i ← find_cpuid_entry (hc_features cpuid) CPUID_TOTAL_LEAVES 0x0d 1;
  match i with
  | None => mret cpuid
  | Some i =>
      entry ← of_option (hc_features cpuid !! i);
      if is_feature_set entry X86_FEATURE_XSAVEC then
        size ← calc_xstate_required_size uninit xcr0 true;
        mret (put_entry i (set_regs (ce_eax entry) size (ce_ecx entry) (ce_edx entry) entry) cpuid)
      else mret cpuid
  end.

Definition cpuid_get_features_mask (cpuid : hax_cpuid_t) : Z := hc_features_mask cpuid.
Definition cpuid_set_features_mask (cpuid : hax_cpuid_t) (features_mask : Z) : hax_cpuid_t :=
  HaxCpuid features_mask (hc_features cpuid).

(** ** Exchange with user space *)
Definition cpuid_get_guest_features (cpuid : option hax_cpuid_t) (cpuid_info : option hax_cpuid)
    : M st (Z * option hax_cpuid) :=
  match cpuid, cpuid_info with
  | Some cpuid, Some info =>
      if ci_total info <? CPUID_TOTAL_LEAVES then
        mret (- ENOMEM, Some (CpuidInfo CPUID_TOTAL_LEAVES (ci_pad info) (ci_entries info)))
      else
        let n := Z.to_nat CPUID_TOTAL_LEAVES in
        hax_assert ((n <=? length (ci_entries info))%nat && (n <=? length (hc_features cpuid))%nat);;
        mret (0, Some (CpuidInfo CPUID_TOTAL_LEAVES 0
                         (take n (hc_features cpuid) ++ drop n (ci_entries info))))
  | _, _ => mret (- EINVAL, cpuid_info)
  end.

Definition set_leaf_0000_0000 (dest src : hax_cpuid_entry) : hax_cpuid_entry :=
  set_regs (Z.min (ce_eax src) MAX_BASIC_CPUID) (ce_ebx dest) (ce_ecx dest) (ce_edx dest) dest.

Definition set_leaf_0000_0001 (dest src : hax_cpuid_entry) : hax_cpuid_entry :=
  let kFixedFeatures := FEATURE X86_FEATURE_APIC in
  let kDisabledFeatures := FEATURE X86_FEATURE_TSC_DEADLINE in
  set_regs (ce_eax src) (ce_ebx src)
    (Z.ldiff (ce_ecx src) kDisabledFeatures |! FEATURE X86_FEATURE_HYPERVISOR)
    (ce_edx src |! kFixedFeatures) dest.

Definition set_leaf_0000_0015 (dest src : hax_cpuid_entry) : hax_cpuid_entry :=
  if ((ce_eax src =? 0) || (ce_ebx src =? 0))%bool then dest else src.

Definition set_leaf_0000_0016 (dest src : hax_cpuid_entry) : hax_cpuid_entry :=
  if ((ce_eax src =? 0) || (ce_ebx src =? 0) || (ce_ecx src =? 0))%bool then dest
  else set_regs (ce_eax src &! 0xffff) (ce_ebx src &! 0xffff) (ce_ecx src &! 0xffff) 0 dest.

Definition set_leaf_8000_0000 (dest src : hax_cpuid_entry) : hax_cpuid_entry :=
  set_regs (Z.min (ce_eax src) MAX_EXTENDED_CPUID) (ce_ebx dest) (ce_ecx dest) (ce_edx dest) dest.

Definition set_leaf_8000_0001 (dest src : hax_cpuid_entry) : hax_cpuid_entry :=
  set_regs (ce_eax src) 0 (ce_ecx src) (ce_edx src) dest.

Definition set_leaf_8000_0006 (dest src : hax_cpuid_entry) : hax_cpuid_entry :=
  set_regs 0 0 (ce_ecx src) 0 dest.

Definition set_leaf_8000_0008 (dest src : hax_cpuid_entry) : hax_cpuid_entry :=
  set_regs (ce_eax src) (ce_ebx src) 0 0 dest.

Record cpuid_controller_t := CpuidController {
  ct_leaf : Z;
  ct_subleaf : Z;
  ct_set_leaf : option (hax_cpuid_entry -> hax_cpuid_entry -> hax_cpuid_entry);
}.

Definition kCpuidController : list cpuid_controller_t := [
  CpuidController 0x00000000 0 (Some set_leaf_0000_0000);
  CpuidController 0x00000001 0 (Some set_leaf_0000_0001);
  CpuidController 0x00000002 0 None;
  CpuidController 0x00000007 0 None;
  CpuidController 0x00000007 1 None;
  CpuidController 0x0000000a 0 None;
  CpuidController 0x00000015 0 (Some set_leaf_0000_0015);
  CpuidController 0x00000016 0 (Some set_leaf_0000_0016);
  CpuidController 0x40000000 0 None;
  CpuidController 0x80000000 0 (Some set_leaf_8000_0000);
  CpuidController 0x80000001 0 (Some set_leaf_8000_0001);
  CpuidController 0x80000002 0 None;
  CpuidController 0x80000003 0 None;
  CpuidController 0x80000004 0 None;
  CpuidController 0x80000006 0 (Some set_leaf_8000_0006);
  CpuidController 0x80000008 0 (Some set_leaf_8000_0008)].

Definition set_feature (features : list hax_cpuid_entry) (info : hax_cpuid) (c : cpuid_controller_t)
    : M st (list hax_cpuid_entry) :=
  d ← find_cpuid_entry features CPUID_TOTAL_LEAVES (ct_leaf c) (ct_subleaf c);
  match d with
  | None => mret features
  | Some d =>
      s ← find_cpuid_entry (ci_entries info) (ci_total info) (ct_leaf c) (ct_subleaf c);
      match s with
      | None => mret features
      | Some s =>
          dest ← of_option (features !! d);
          src ← of_option (ci_entries info !! s);
          mret (<[d := match ct_set_leaf c with Some set_leaf => set_leaf dest src | None => src end]> features)
      end
  end.

Fixpoint set_features_loop (cs : list cpuid_controller_t) (features : list hax_cpuid_entry)
    (info : hax_cpuid) : M st (list hax_cpuid_entry) :=
  match cs with
  | [] => mret features
  | c :: cs => features ← set_feature features info c; set_features_loop cs features info
  end.

Definition cpuid_set_guest_features (cpuid : option hax_cpuid_t) (cpuid_info : option hax_cpuid)
    : M st (Z * option hax_cpuid_t) :=
  match cpuid, cpuid_info with
  | Some cpuid, Some info =>
      features ← set_features_loop kCpuidController (hc_features cpuid) info;
      mret (0, Some (HaxCpuid (hc_features_mask cpuid) features))
  | _, _ => mret (- EINVAL, cpuid)
  end.

(** The new [vm->valid_xcr0]. *)
Definition cpuid_post_set_features (cpuid : hax_cpuid_t) : M st Z :=
  i ← find_cpuid_entry (hc_features cpuid) CPUID_TOTAL_LEAVES 0x0d 0;
  match i with
  | None => mret 0
  | Some i =>
      entry ← of_option (hc_features cpuid !! i);
      xcr0 ← gets cg_supported_xcr0;
      mret ((ce_eax entry |! Z.shiftl (ce_edx entry) 32) &! xcr0)
  end.
End Cpuid.
