(* ===== verification/CpuidProps.v ===== *)
(** * Correctness of CPUID

    The lookup of a leaf against its specification, the features a guest is offered, the
    changes by user space, and the size of the extended state. *)

From stdpp Require Import base numbers list.
From Stdlib Require Import ZArith Lia Sorted.
From S2P Require Import Prelude HaxList MemTypes Memslot GpaSpace GpaAccess PageWalker Cpuid.
#[local] Open Scope Z_scope.
#[local] Open Scope haxm_scope.

(** ** Tables *)
Definition entry_key (e : hax_cpuid_entry) : Z * Z := (ce_function e, ce_index e).

(** The leaves and subleaves of the manager. *)
Definition leaf_keys : list (Z * Z) :=
  [(0, 0); (1, 0); (2, 0); (7, 0); (7, 1); (0xa, 0); (0xd, 0); (0xd, 1); (0x15, 0); (0x16, 0);
   (0x40000000, 0); (0x80000000, 0); (0x80000001, 0); (0x80000002, 0); (0x80000003, 0);
   (0x80000004, 0); (0x80000006, 0); (0x80000008, 0)].

(** A guest's table has the leaves of the manager, in its order. *)
Definition table_wf (features : list hax_cpuid_entry) : Prop := entry_key <$> features = leaf_keys.

Definition is_entry (leaf subleaf : Z) (e : hax_cpuid_entry) : bool :=
  ((ce_function e =? leaf) && (ce_index e =? subleaf))%bool.

(** The entry of a leaf and subleaf. *)
Fixpoint lookup_leaf (fs : list hax_cpuid_entry) (leaf subleaf : Z) : option hax_cpuid_entry :=
  match fs with
  | [] => None
  | e :: fs => if is_entry leaf subleaf e then Some e else lookup_leaf fs leaf subleaf
  end.

(** The entries of a leaf. *)
Definition leaf_entries (fs : list hax_cpuid_entry) (leaf : Z) : list hax_cpuid_entry :=
  filter (fun e => ce_function e = leaf) fs.

Definition cached (e : hax_cpuid_entry) : cpuid_args_t :=
  CpuidArgs (ce_eax e) (ce_ecx e) (ce_edx e) (ce_ebx e).

Lemma table_length fs : table_wf fs -> length fs = 18%nat.
Proof. intros H. apply (f_equal length) in H. by rewrite length_fmap in H. Qed.

Section Find.
Context {HW : CpuidHw}.
Implicit Types g : cpuid_globals.

(** The search finds the position of the entry. *)
Lemma find_from_spec fs i n leaf subleaf g : (length (drop i fs) = n)%nat ->
  exists r, find_cpuid_entry_from i n fs leaf subleaf g = Some (r, g) /\
    match r with
    | Some j => exists e, fs !! j = Some e /\ is_entry leaf subleaf e = true /\
        lookup_leaf (drop i fs) leaf subleaf = Some e
    | None => lookup_leaf (drop i fs) leaf subleaf = None
    end.
Proof.
  revert i. induction n as [|n IH]; intros i Hn.
  - exists None. split; [done|]. by apply nil_length_inv in Hn as ->.
  - destruct (fs !! i) as [e|] eqn:He.
    2: { apply lookup_ge_None in He. rewrite length_drop in Hn. lia. }
    cbn [find_cpuid_entry_from]. rewrite (of_option_run _ e) by done.
    rewrite (drop_S _ _ _ He). cbn [lookup_leaf].
    change ((ce_function e =? leaf) && (ce_index e =? subleaf))%bool with (is_entry leaf subleaf e).
    destruct (is_entry leaf subleaf e) eqn:Hie; [exists (Some i); split; [done|by exists e]|].
    apply IH. rewrite length_drop in *. apply lookup_lt_Some in He. lia.
Qed.

Lemma find_spec fs size leaf subleaf g : Z.to_nat size = length fs ->
  exists r, find_cpuid_entry fs size leaf subleaf g = Some (r, g) /\
    match r with
    | Some j => exists e, fs !! j = Some e /\ is_entry leaf subleaf e = true /\
        lookup_leaf fs leaf subleaf = Some e
    | None => lookup_leaf fs leaf subleaf = None
    end.
Proof. intros Hs. unfold find_cpuid_entry. rewrite Hs. exact (find_from_spec fs 0 _ leaf subleaf g eq_refl). Qed.
End Find.

(** ** The CPUID instruction *)
Definition sorted_leaves (fs : list hax_cpuid_entry) : Prop := StronglySorted Z.le (ce_function <$> fs).

Lemma leaf_entries_above fs leaf : Forall (fun x => leaf < x) (ce_function <$> fs) ->
  leaf_entries fs leaf = [].
Proof.
  intros H. unfold leaf_entries. induction fs as [|e fs IH]; [done|].
  apply Forall_cons in H as [He H]. rewrite filter_cons_False by lia. by apply IH.
Qed.

Fixpoint with_subleaf (es : list hax_cpuid_entry) (subleaf : Z) : option hax_cpuid_entry :=
  match es with
  | [] => None
  | e :: es => if ce_index e =? subleaf then Some e else with_subleaf es subleaf
  end.

Section Execute.
Context {HW : CpuidHw}.
Implicit Types g : cpuid_globals.

(** The loop after the first entry of the leaf. *)
Lemma loop_found fs i n leaf subleaf k ix en g :
  length (drop i fs) = n -> 1 <= k -> k + Z.of_nat n < 2 ^ 31 ->
  sorted_leaves (drop i fs) -> Forall (fun x => leaf <= x) (ce_function <$> drop i fs) ->
  execute_loop i n fs leaf subleaf k ix en g =
    Some (match with_subleaf (leaf_entries (drop i fs) leaf) subleaf with
          | Some e => (1, ix, Some e)
          | None => (k + Z.of_nat (length (leaf_entries (drop i fs) leaf)), ix, en)
          end, g).
Proof.
  revert i k. induction n as [|n IH]; intros i k Hn Hk Hb Hs Hle.
  - apply nil_length_inv in Hn as ->. cbn. by rewrite Z.add_0_r.
  - destruct (fs !! i) as [e|] eqn:He.
    2: { apply lookup_ge_None in He. rewrite length_drop in Hn. lia. }
    cbn [execute_loop]. rewrite (of_option_run _ e) by done. rewrite (drop_S _ _ _ He) in *.
    apply Forall_cons in Hle as [Hl Hle]. apply StronglySorted_inv in Hs as [Hs Hle2].
    destruct (Z.eqb_spec (ce_function e) leaf) as [Heq|Hne]; cbn [negb].
    + unfold leaf_entries. rewrite filter_cons_True by done. fold (leaf_entries (drop (S i) fs) leaf).
      cbn [with_subleaf length]. destruct (ce_index e =? subleaf); [done|].
      rewrite (proj2 (Z.eqb_neq k 0)) by lia. cbn [negb]. rewrite s32_id by lia.
      cbn [length] in Hn. rewrite IH by (done || lia). case_match; [done|]. do 4 f_equal. lia.
    + rewrite (proj2 (Z.eqb_neq k 0)) by lia. rewrite (leaf_entries_above (e :: _)); [by rewrite Z.add_0_r|].
      constructor; [lia|]. eapply Forall_impl; [exact Hle2|]. cbn. lia.
Qed.

(** What the loop finds. *)
Definition loop_result (fs : list hax_cpuid_entry) (es : list hax_cpuid_entry) (leaf subleaf : Z)
    (r : Z * option nat * option hax_cpuid_entry) : Prop :=
  match es with
  | [] => r = (0, None, None)
  | e :: rest =>
      match with_subleaf es subleaf with
      | Some e' => exists ix, r = (1, ix, Some e')
      | None => exists j, fs !! j = Some e /\ ce_function e = leaf /\
          r = (1 + Z.of_nat (length rest), Some j, Some e)
      end
  end.

Lemma loop_start fs i n leaf subleaf g :
  length (drop i fs) = n -> 1 + Z.of_nat n < 2 ^ 31 -> sorted_leaves (drop i fs) ->
  exists r, execute_loop i n fs leaf subleaf 0 None None g = Some (r, g) /\
    loop_result fs (leaf_entries (drop i fs) leaf) leaf subleaf r.
Proof.
  revert i. induction n as [|n IH]; intros i Hn Hb Hs.
  - apply nil_length_inv in Hn as ->. by eexists.
  - destruct (fs !! i) as [e|] eqn:He.
    2: { apply lookup_ge_None in He. rewrite length_drop in Hn. lia. }
    cbn [execute_loop]. rewrite (of_option_run _ e) by done. rewrite (drop_S _ _ _ He) in *.
    apply StronglySorted_inv in Hs as [Hs Hle]. cbn [length] in Hn.
    destruct (Z.eqb_spec (ce_function e) leaf) as [Heq|Hne]; cbn [negb].
    2: { cbn [Z.eqb]. unfold leaf_entries. rewrite filter_cons_False by done. apply IH; [lia..|done]. }
    unfold leaf_entries. rewrite filter_cons_True by done. fold (leaf_entries (drop (S i) fs) leaf).
    cbn [loop_result with_subleaf]. destruct (ce_index e =? subleaf); [eexists; split; [done|by eexists]|].
    cbn [Z.eqb negb]. change (s32 (0 + 1)) with 1.
    rewrite loop_found; [|lia|lia|lia|done|].
    2: { rewrite <- Heq. eapply Forall_impl; [exact Hle|]. done. }
    eexists. split; [reflexivity|]. case_match; [by eexists|]. by exists i.
Qed.

(** The specification: the cached entry of the leaf and subleaf; for a leaf with one entry,
    that entry; for a leaf with subleaves, the code of the leaf; zeros for other leaves. *)
Definition execute_leaf (uninit : cpuid_args_t) (args : cpuid_args_t) : M cpuid_globals cpuid_args_t :=
  if a_eax args =? 7 then execute_0000_0007 args else execute_0000_000d uninit args.

Definition cpuid_reference (uninit : cpuid_args_t) (fs : list hax_cpuid_entry) (args : cpuid_args_t)
    : M cpuid_globals cpuid_args_t :=
  match lookup_leaf fs (a_eax args) (a_ecx args), leaf_entries fs (a_eax args) with
  | Some e, _ => mret (cached e)
  | None, [] => mret (CpuidArgs 0 0 0 0)
  | None, [e] => mret (cached e)
  | None, _ => execute_leaf uninit args
  end.

Lemma lookup_with_subleaf fs leaf subleaf :
  lookup_leaf fs leaf subleaf = with_subleaf (leaf_entries fs leaf) subleaf.
Proof.
  induction fs as [|e fs IH]; [done|]. cbn [lookup_leaf]. unfold is_entry, leaf_entries.
  destruct (Z.eqb_spec (ce_function e) leaf) as [Heq|Hne].
  - rewrite filter_cons_True by done. cbn. by destruct (ce_index e =? subleaf).
  - rewrite filter_cons_False by done. cbn. apply IH.
Qed.

Lemma table_sorted fs : table_wf fs -> sorted_leaves fs.
Proof.
  intros H. unfold sorted_leaves. replace (ce_function <$> fs) with (fst <$> leaf_keys).
  - repeat constructor; cbn; lia.
  - rewrite <- H, <- list_fmap_compose. done.
Qed.

Lemma leaf_entries_count fs leaf : table_wf fs ->
  length (leaf_entries fs leaf) = length (filter (fun k => k.1 = leaf) leaf_keys).
Proof.
  intros <-. unfold leaf_entries. induction fs as [|e fs IH]; [done|]. cbn [fmap list_fmap].
  destruct (decide (ce_function e = leaf)).
  - rewrite !filter_cons_True by done. cbn. by f_equal.
  - by rewrite !filter_cons_False by done.
Qed.

(** The manager of a leaf with several entries. *)
Lemma manager_leaf uninit fs j e args :
  table_wf fs -> fs !! j = Some e -> ce_function e = a_eax args ->
  (1 < length (leaf_entries fs (a_eax args)))%nat ->
  exists m x, kCpuidManager uninit !! j = Some m /\ cm_execute m = Some x /\
    x args = execute_leaf uninit args.
Proof.
  intros Hwf Hj He. rewrite leaf_entries_count by done. unfold execute_leaf. rewrite <- He.
  assert (Hk : leaf_keys !! j = Some (entry_key e)) by (rewrite <- Hwf, list_lookup_fmap; by rewrite Hj).
  unfold entry_key in Hk. generalize (ce_function e), (ce_index e), Hk. clear. intros leaf sub Hk Hlen.
  assert (Hc : (leaf = 7 /\ (j = 3 \/ j = 4)%nat) \/ (leaf = 0xd /\ (j = 6 \/ j = 7)%nat)).
  { do 18 (destruct j as [|j]; [injection Hk as <- _; vm_compute in Hlen; (lia || (clear; lia))|]). done. }
  destruct Hc as [[-> [-> | ->]]|[-> [-> | ->]]]; eexists _, _; (split; [reflexivity|]);
    (split; [reflexivity|]); reflexivity.
Qed.

(** C29. The CPUID instruction of a guest returns what the guest's table says: the entry of
    the leaf and subleaf; the entry of the leaf if it is the only one; for a subleaf that
    is not cached of a leaf with several entries, the result of the leaf's own code; and
    zeros for a leaf that is not in the table.  The scan of the table ends early, which is
    right because the table is sorted by leaf. *)
Theorem cpuid_execute_correct uninit cpuid args g : table_wf (hc_features cpuid) ->
  cpuid_execute uninit (Some cpuid) (Some args) g =
  (r ← cpuid_reference uninit (hc_features cpuid) args; mret (Some r)) g.
Proof.
  intros Hwf. unfold cpuid_execute. set (fs := hc_features cpuid) in *.
  pose proof (table_length _ Hwf) as Hlen.
  destruct (loop_start fs 0 18 (a_eax args) (a_ecx args) g) as (r & Hrun & Hr);
    [by rewrite drop_0|lia|rewrite drop_0; by apply table_sorted|].
  change (Z.to_nat CPUID_TOTAL_LEAVES) with 18%nat. rewrite (bind_run _ _ _ _ _ Hrun).
  rewrite drop_0 in Hr. unfold cpuid_reference. rewrite lookup_with_subleaf.
  pose proof (fun j e => manager_leaf uninit fs j e args Hwf) as Hm.
  destruct (leaf_entries fs (a_eax args)) as [|e rest]; cbn [loop_result] in Hr; [by subst r|].
  destruct (with_subleaf (e :: rest) (a_ecx args)) as [e'|]; [by destruct Hr as [ix ->]|].
  destruct Hr as (j & Hj & He & ->). destruct rest as [|e2 rest]; [done|].
  rewrite (proj2 (Z.eqb_neq _ 0)), (proj2 (Z.eqb_neq _ 1)) by (cbn [length]; lia).
  destruct (Hm j e Hj He ltac:(cbn; lia)) as (m & x & Hmj & Hx & Hxa).
  rewrite (of_option_run _ j) by done. rewrite (of_option_run _ m) by done. rewrite Hx.
  unfold mbind, M_bind. by rewrite Hxa.
Qed.
End Execute.

(** ** The hardware *)

(** Documented behaviour of the instruction: 32-bit results that depend on EAX and ECX
    only, and not on ECX for the leaves 1 and 0x80000001, which have no subleaves. *)
Class CpuidLaws {HW : CpuidHw} : Prop := {
  cpuid_range a : 0 <= a_eax (asm_cpuid a) < 2 ^ 32 /\ 0 <= a_ebx (asm_cpuid a) < 2 ^ 32 /\
    0 <= a_ecx (asm_cpuid a) < 2 ^ 32 /\ 0 <= a_edx (asm_cpuid a) < 2 ^ 32;
  cpuid_inputs a b : a_eax a = a_eax b ->
    (a_ecx a = a_ecx b \/ a_eax a = 1 \/ a_eax a = 0x80000001) -> asm_cpuid a = asm_cpuid b;
}.

(** ** The size of the extended state *)
Section Xstate.
Context {HW : CpuidHw} {HL : CpuidLaws}.

(** The area of component [i]: its size, and its offset in the standard format. *)
Definition component (i : Z) : cpuid_args_t := asm_cpuid (CpuidArgs 0xd i 0 0).

Definition add_component (is_compacted : bool) (size i : Z) : Z :=
  if is_compacted then size + a_eax (component i)
  else Z.max size (a_ebx (component i) + a_eax (component i)).

(** The positions of the bits that are set, from [bit] on, in ascending order. *)
Fixpoint bits_from (n : nat) (bit bv : Z) : list Z :=
  match n with
  | O => []
  | S n => (if Z.testbit bv 0 then [bit] else []) ++ bits_from n (bit + 1) (bv >>! 1)
  end.

Lemma bits_from_elem n bit bv i :
  i ∈ bits_from n bit bv <-> bit <= i < bit + Z.of_nat n /\ Z.testbit bv (i - bit) = true.
Proof.
  revert bit bv. induction n as [|n IH]; intros bit bv; cbn [bits_from].
  - rewrite elem_of_nil. lia.
  - rewrite elem_of_app, IH.
    assert (H1 : i ∈ (if Z.testbit bv 0 then [bit] else []) <-> i = bit /\ Z.testbit bv 0 = true).
    { destruct (Z.testbit bv 0); [rewrite list_elem_of_singleton|rewrite elem_of_nil]; naive_solver. }
    rewrite H1. destruct (Z.eq_dec i bit) as [->|Hne].
    + rewrite Z.sub_diag. split; [intros [[_ H]|[? _]]; [split; [lia|done]|lia]|intros [_ H]; by left].
    + split.
      * intros [[? _]|[Hr Ht]]; [done|]. split; [lia|]. rewrite Z.shiftr_spec in Ht by lia.
        by replace (i - (bit + 1) + 1) with (i - bit) in Ht by lia.
      * intros [Hr Ht]. right. split; [lia|]. rewrite Z.shiftr_spec by lia.
        by replace (i - (bit + 1) + 1) with (i - bit) by lia.
Qed.

(** The extended components of a state-component bitmap. *)
Definition components (xstate_bv : Z) : list Z := bits_from 64 0 (xstate_bv &! XFEATURE_MASK_EXTENDED).

Lemma components_elem bv i : i ∈ components bv <-> 2 <= i < 63 /\ Z.testbit bv i = true.
Proof.
  unfold components. rewrite bits_from_elem, Z.sub_0_r, Z.land_spec, andb_true_iff.
  unfold XFEATURE_MASK_EXTENDED.
  split.
  - intros [Hr [Hb He]]. split; [|done]. destruct (decide (2 <= i < 63)); [done|].
    assert (i = 0 \/ i = 1 \/ i = 63) as [-> | [-> | ->]] by lia; by vm_compute in He.
  - intros [Hr Hb]. split; [lia|]. split; [done|].
    rewrite Z.lxor_spec, Z.lor_spec, Z.testbit_ones_nonneg, Z.shiftl_spec by lia.
    rewrite (proj2 (Z.ltb_lt i 64)) by lia. rewrite (Z.testbit_neg_r 1) by lia.
    rewrite (Z.bits_above_log2 XFEATURE_MASK_LEGACY); [done|done|]. change (Z.log2 XFEATURE_MASK_LEGACY) with 1. lia.
Qed.

(** The header and the areas of all components: behind each other in the compacted format,
    at their offsets in the standard format. *)
Definition xstate_size (is_compacted : bool) (xstate_bv : Z) : Z :=
  fold_left (add_component is_compacted) (components xstate_bv) 576.

Lemma component_ext args i : asm_cpuid (set_a_ecx i (set_a_eax 0x0d args)) = component i.
Proof. apply cpuid_inputs; [done|by left]. Qed.

Lemma add_component_grows c s l : s <= fold_left (add_component c) l s.
Proof.
  revert s. induction l as [|i l IH]; intros s; cbn; [lia|].
  etrans; [|apply IH]. unfold add_component, component.
  pose proof (cpuid_range (CpuidArgs 0xd i 0 0)). destruct c; lia.
Qed.

Definition sizes_fit (is_compacted : bool) (l : list Z) (s : Z) : Prop :=
  Forall (fun i => a_ebx (component i) + a_eax (component i) < 2 ^ 32) l /\
  fold_left (add_component is_compacted) l s < 2 ^ 32.

Lemma xstate_loop_spec n bv bit s c args g :
  0 <= bit -> bit + Z.of_nat n <= 64 -> 0 <= bv < 2 ^ Z.of_nat n -> 0 <= s ->
  sizes_fit c (bits_from n bit bv) s ->
  xstate_loop n bv bit s c args g = Some (fold_left (add_component c) (bits_from n bit bv) s, g).
Proof.
  revert bv bit s args. induction n as [|n IH]; intros bv bit s args Hb Hn Hbv Hs Hf; cbn [xstate_loop].
  - by rewrite (proj2 (Z.eqb_eq bv 0)) by lia.
  - destruct (Z.eqb_spec bv 0) as [->|Hne].
    + replace (bits_from (S n) bit 0) with (@nil Z); [done|]. symmetry. apply elem_of_nil_inv.
      intros i [_ Hi]%bits_from_elem. by rewrite Z.bits_0 in Hi.
    + change 1 with (Z.ones 1). rewrite Z.land_ones by lia. change (2 ^ 1) with 2.
      change (Z.ones 1) with 1. rewrite Zmod_odd, <- Z.bit0_odd. cbn [bits_from] in *.
      rewrite (u32_small (bit + 1)) by lia.
      assert (Hsh : 0 <= bv >>! 1 < 2 ^ Z.of_nat n).
      { rewrite Z.shiftr_div_pow2 by lia. change (2 ^ 1) with 2.
        replace (Z.of_nat (S n)) with (1 + Z.of_nat n) in Hbv by lia. rewrite Z.pow_add_r in Hbv by lia.
        split; [apply Z.div_pos; lia|apply Z.div_lt_upper_bound; lia]. }
      destruct (Z.testbit bv 0); cbn [Z.eqb app fold_left] in *; [|apply IH; (done || lia)].
      rewrite component_ext. destruct Hf as [[Hi Hf]%Forall_cons Hsum]. cbn [fold_left] in Hsum.
      assert (Hstep : Z.max s (u32 ((if c then s else a_ebx (component bit)) + a_eax (component bit))) =
        add_component c s bit).
      { pose proof (add_component_grows c (add_component c s bit) (bits_from n (bit + 1) (bv >>! 1))) as Hg.
        pose proof (cpuid_range (CpuidArgs 0xd bit 0 0)) as Hr. fold (component bit) in Hr.
        assert (Ha : add_component c s bit < 2 ^ 32) by lia. clear Hg Hsum.
        unfold add_component in *. destruct c; rewrite u32_small; lia. }
      rewrite Hstep. apply IH; try done; try lia.
Qed.

Lemma calc_xstate_rule args bv c g : 0 <= bv < 2 ^ 64 -> sizes_fit c (components bv) 576 ->
  calc_xstate_required_size args bv c g = Some (xstate_size c bv, g).
Proof.
  intros Hbv Hf. apply xstate_loop_spec; try done.
  change (Z.of_nat 64) with 64. split; [apply Z.land_nonneg; lia|].
  destruct (Z.eq_dec (bv &! XFEATURE_MASK_EXTENDED) 0) as [->|Hne]; [done|].
  apply Z.log2_lt_pow2; [pose proof (proj2 (Z.land_nonneg bv XFEATURE_MASK_EXTENDED)); lia|].
  eapply Z.le_lt_trans; [apply Z.log2_land; [lia|done]|]. change (Z.log2 XFEATURE_MASK_EXTENDED) with 62. lia.
Qed.
End Xstate.
