(* ===== verification/CpuidFeatures.v ===== *)
(** * The features of a guest

    Every feature that a guest is offered is one of the host and of the driver, and the
    changes by user space are exactly those that the controller of the leaf allows. *)

From stdpp Require Import base numbers list.
From Stdlib Require Import ZArith Lia.
From S2P Require Import Prelude HaxList MemTypes Memslot GpaSpace GpaAccess PageWalker Cpuid.
From S2P Require Import CpuidProps.
#[local] Open Scope Z_scope.
#[local] Open Scope haxm_scope.

(** ** Feature keys *)

(** The index in the cache, and the leaf, the use of a subleaf, the subleaf and the register
    that belong to it. *)
Definition key_groups : list (Z * (Z * Z * Z * Z)) :=
  [(0, (1, 0, 0, CPUID_REG_ECX)); (1, (1, 0, 0, CPUID_REG_EDX)); (2, (7, 1, 0, CPUID_REG_ECX));
   (3, (7, 1, 0, CPUID_REG_EBX)); (4, (0xd, 1, 1, CPUID_REG_EAX));
   (5, (0x80000001, 0, 0, CPUID_REG_ECX)); (6, (0x80000001, 0, 0, CPUID_REG_EDX))].

Definition key_group (k : Z) : Z * (Z * Z * Z * Z) :=
  (key_index k, (feature_leaf k, key_subleaf_used k, feature_subleaf k, feature_reg k)).

Definition feature_key (k : Z) : Prop := key_group k ∈ key_groups.
#[export] Instance feature_key_dec k : Decision (feature_key k).
Proof. unfold feature_key. apply _. Defined.

Definition x86_features : list Z :=
  [X86_FEATURE_SSE3; X86_FEATURE_PCLMULQDQ; X86_FEATURE_DTES64; X86_FEATURE_MONITOR;
   X86_FEATURE_DS_CPL; X86_FEATURE_VMX; X86_FEATURE_SMX; X86_FEATURE_EIST; X86_FEATURE_TM2;
   X86_FEATURE_SSSE3; X86_FEATURE_CNXT_ID; X86_FEATURE_SDBG; X86_FEATURE_FMA;
   X86_FEATURE_CMPXCHG16B; X86_FEATURE_XTPR_UPDATE; X86_FEATURE_PDCM; X86_FEATURE_PCID;
   X86_FEATURE_DCA; X86_FEATURE_SSE41; X86_FEATURE_SSE42; X86_FEATURE_X2APIC; X86_FEATURE_MOVBE;
   X86_FEATURE_POPCNT; X86_FEATURE_TSC_DEADLINE; X86_FEATURE_AESNI; X86_FEATURE_XSAVE;
   X86_FEATURE_OSXSAVE; X86_FEATURE_AVX; X86_FEATURE_F16C; X86_FEATURE_RDRAND;
   X86_FEATURE_HYPERVISOR; X86_FEATURE_FPU; X86_FEATURE_VME; X86_FEATURE_DE; X86_FEATURE_PSE;
   X86_FEATURE_TSC; X86_FEATURE_MSR; X86_FEATURE_PAE; X86_FEATURE_MCE; X86_FEATURE_CX8;
   X86_FEATURE_APIC; X86_FEATURE_SEP; X86_FEATURE_MTRR; X86_FEATURE_PGE; X86_FEATURE_MCA;
   X86_FEATURE_CMOV; X86_FEATURE_PAT; X86_FEATURE_PSE36; X86_FEATURE_PSN; X86_FEATURE_CLFSH;
   X86_FEATURE_DS; X86_FEATURE_ACPI; X86_FEATURE_MMX; X86_FEATURE_FXSR; X86_FEATURE_SSE;
   X86_FEATURE_SSE2; X86_FEATURE_SS; X86_FEATURE_HTT; X86_FEATURE_TM; X86_FEATURE_PBE;
   X86_FEATURE_PREFETCHWT1; X86_FEATURE_AVX512_VBMI; X86_FEATURE_UMIP; X86_FEATURE_PKU;
   X86_FEATURE_OSPKE; X86_FEATURE_RDPID; X86_FEATURE_FSGSBASE; X86_FEATURE_TSC_ADJUST;
   X86_FEATURE_SGX; X86_FEATURE_BMI1; X86_FEATURE_HLE; X86_FEATURE_AVX2; X86_FEATURE_SMEP;
   X86_FEATURE_BMI2; X86_FEATURE_ERMS; X86_FEATURE_INVPCID; X86_FEATURE_RTM; X86_FEATURE_RDT_M;
   X86_FEATURE_MPX; X86_FEATURE_RDT_A; X86_FEATURE_AVX512F; X86_FEATURE_AVX512DQ;
   X86_FEATURE_RDSEED; X86_FEATURE_ADX; X86_FEATURE_SMAP; X86_FEATURE_AVX512_IFMA;
   X86_FEATURE_CLFLUSHOPT; X86_FEATURE_CLWB; X86_FEATURE_AVX512PF; X86_FEATURE_AVX512ER;
   X86_FEATURE_AVX512CD; X86_FEATURE_SHA; X86_FEATURE_AVX512BW; X86_FEATURE_AVX512VL;
   X86_FEATURE_XSAVEOPT; X86_FEATURE_XSAVEC; X86_FEATURE_XGETBV1; X86_FEATURE_XSAVES;
   X86_FEATURE_LAHF; X86_FEATURE_PREFETCHW; X86_FEATURE_SYSCALL; X86_FEATURE_NX;
   X86_FEATURE_PDPE1GB; X86_FEATURE_RDTSCP; X86_FEATURE_EM64T].

Lemma x86_features_keys : Forall feature_key x86_features.
Proof. apply (bool_decide_unpack _). vm_compute. done. Qed.

Lemma land_range x n : 0 <= n -> 0 <= x &! Z.ones n < 2 ^ n.
Proof. intros Hn. rewrite Z.land_ones by done. apply Z.mod_pos_bound. lia. Qed.

Lemma key_bit_range k : 0 <= key_bit k < 32.
Proof. exact (land_range _ 5 ltac:(lia)). Qed.

(** Testing a feature bit. *)
Lemma bit_test x b : 0 <= b < 32 -> negb (x &! u32 (Z.shiftl 1 b) =? 0) = Z.testbit x b.
Proof.
  intros Hb. rewrite Z.shiftl_1_l, u32_small.
  - rewrite <- Z.shiftl_1_l. destruct (Z.testbit x b) eqn:Ht.
    + apply negb_true_iff, Z.eqb_neq. intros H0. apply (f_equal (fun y => Z.testbit y b)) in H0.
      by rewrite Z.land_spec, Ht, Z.shiftl_1_l, Z.pow2_bits_true, Z.bits_0 in H0 by lia.
    + apply negb_false_iff, Z.eqb_eq, Z.bits_inj'. intros j Hj.
      rewrite Z.land_spec, Z.bits_0, Z.shiftl_1_l. destruct (Z.eq_dec b j) as [<-|Hne]; [by rewrite Ht|].
      rewrite Z.pow2_bits_false by lia. apply andb_false_r.
  - split; [lia|]. apply Z.pow_lt_mono_r; lia.
Qed.

(** ** The host *)
Section Host.
Context {HW : CpuidHw} {HL : CpuidLaws}.

Definition host_leaf (leaf subleaf : Z) : cpuid_args_t := asm_cpuid (CpuidArgs leaf subleaf 0 0).

(** The processor has the feature. *)
Definition host_has (k : Z) : bool :=
  Z.testbit (arg_reg (host_leaf (feature_leaf k) (feature_subleaf k)) (feature_reg k)) (key_bit k).

Lemma query_leaf_host res leaf : leaf = 1 \/ leaf = 0x80000001 ->
  cpuid_query_leaf res leaf = host_leaf leaf 0.
Proof. intros Hl. apply cpuid_inputs; [done|by right]. Qed.

Lemma query_subleaf_host res leaf subleaf :
  cpuid_query_subleaf res leaf subleaf = host_leaf leaf subleaf.
Proof. apply cpuid_inputs; [done|by left]. Qed.

Lemma group_cases k : feature_key k -> exists n, (n < 7)%nat /\ key_groups !! n = Some (key_group k).
Proof. intros (n & Hn)%list_elem_of_lookup. exists n. split; [|done]. by apply lookup_lt_Some in Hn. Qed.

Lemma uncached_spec res k : feature_key k -> cpuid_host_has_feature_uncached res k = host_has k.
Proof.
  intros (n & _ & Hn)%group_cases. unfold cpuid_host_has_feature_uncached, host_has.
  rewrite bit_test by apply key_bit_range. rewrite Z.lor_comm.
  change (key_leaf_lo k |! _) with (feature_leaf k). change (key_reg k) with (feature_reg k).
  change (key_subleaf_key k) with (feature_subleaf k). f_equal. f_equal.
  unfold key_group in Hn.
  do 7 (destruct n as [|n]; [injection Hn as _ Hl Hu Hs _; rewrite <- Hl, <- Hu, <- Hs; cbn [Z.eqb negb];
    (apply query_subleaf_host || (apply query_leaf_host; tauto))|]). done.
Qed.

(** The cache after [cpuid_host_init]. *)
Definition host_data : list Z :=
  [a_ecx (host_leaf 1 0); a_edx (host_leaf 1 0); a_ecx (host_leaf 7 0); a_ebx (host_leaf 7 0);
   a_eax (host_leaf 0xd 1); a_ecx (host_leaf 0x80000001 0); a_edx (host_leaf 0x80000001 0)].

Definition host_cached (g : cpuid_globals) : Prop :=
  cc_data (cg_cache g) = host_data /\ cc_initialized (cg_cache g) = true.

Lemma host_init_rule res g : exists g', cpuid_host_init res g = Some (tt, g') /\ host_cached g' /\
  cg_supported_xcr0 g' = cg_supported_xcr0 g.
Proof.
  eexists. split; [reflexivity|]. split; [|done]. split; [|done]. cbn [cg_cache set_cache cc_data].
  rewrite !(query_leaf_host _ 1), !query_subleaf_host, query_leaf_host by tauto. done.
Qed.

Lemma cached_rule res k g : host_cached g -> feature_key k ->
  cpuid_host_has_feature res k g = Some (host_has k, g).
Proof.
  intros [Hd Hi] (n & Hn7 & Hn)%group_cases. unfold cpuid_host_has_feature. rewrite gets_run.
  rewrite Hi, Hd. unfold host_has. unfold key_group in Hn. cbn [negb orb].
  do 7 (destruct n as [|n]; [injection Hn as Hx Hl _ Hs Hr; rewrite <- Hx, <- Hl, <- Hs, <- Hr;
    replace (CPUID_CACHE_SIZE <=? _) with false by done;
    erewrite of_option_run by reflexivity; by rewrite bit_test by apply key_bit_range|]). lia.
Qed.
End Host.

(** ** The table of a new guest *)
Section Guest.
Context {HW : CpuidHw} {HL : CpuidLaws}.

(** The driver's features of the register of a key. *)
Definition hax_features (k : Z) : Z :=
  if key_index k =? 0 then hax_features_01_ecx
  else if key_index k =? 1 then hax_features_01_edx
  else if key_index k =? 3 then hax_features_07_ebx
  else if key_index k =? 4 then hax_features_0d_eax
  else if key_index k =? 6 then hax_features_ext_edx
  else 0.

(** The globals that the leaves read. *)
Record ready (g : cpuid_globals) : Prop := {
  rd_host : cc_host_supported (cg_cache g) =
    [feature_set 0x01 0 0 0 (a_ecx (host_leaf 1 0)) (a_edx (host_leaf 1 0));
     feature_set 0x07 0 0 (a_ebx (host_leaf 7 0)) (a_ecx (host_leaf 7 0)) 0;
     feature_set 0x0d 1 (a_eax (host_leaf 0xd 1)) 0 0 0;
     feature_set 0x80000001 0 0 0 (a_ecx (host_leaf 0x80000001 0)) (a_edx (host_leaf 0x80000001 0))];
  rd_hax : cc_hax_supported (cg_cache g) =
    [feature_set 0x01 0 0 0 hax_features_01_ecx hax_features_01_edx;
     feature_set 0x07 0 0 hax_features_07_ebx 0 0; feature_set 0x0d 1 hax_features_0d_eax 0 0 0;
     feature_set 0x80000001 0 0 0 0 hax_features_ext_edx];
  rd_xcr0 : 0 <= cg_supported_xcr0 g < 2 ^ 64;
  rd_size : forall c, sizes_fit c (components (cg_supported_xcr0 g)) 576;
  rd_cached : host_cached g;
}.

Lemma init_supported_rule g : host_cached g -> 0 <= cg_supported_xcr0 g < 2 ^ 64 ->
  (forall c, sizes_fit c (components (cg_supported_xcr0 g)) 576) ->
  exists g', cpuid_init_supported_features g = Some (tt, g') /\ ready g' /\ host_cached g'.
Proof.
  intros [Hd Hi] Hx Hf. unfold cpuid_init_supported_features. rewrite gets_run, Hd.
  do 7 (erewrite of_option_run by reflexivity). eexists. split; [reflexivity|]. split; [by constructor|]. by split.
Qed.

(** What the entries of the feature leaves hold. *)
Definition leaf_offers (m : cpuid_manager_t) (r : cpuid_args_t) : Prop :=
  (cm_leaf m = 1 -> a_ecx r = (a_ecx (host_leaf 1 0) &! hax_features_01_ecx) |! FEATURE X86_FEATURE_HYPERVISOR /\
     a_edx r = a_edx (host_leaf 1 0) &! hax_features_01_edx) /\
  (cm_leaf m = 7 -> cm_subleaf m = 0 ->
     a_ecx r = 0 /\ a_ebx r = a_ebx (host_leaf 7 0) &! hax_features_07_ebx) /\
  (cm_leaf m = 0x80000001 -> a_ecx r = 0 /\ a_edx r = a_edx (host_leaf 0x80000001 0) &! hax_features_ext_edx) /\
  (cm_leaf m = 0xd -> cm_subleaf m = 1 -> a_eax r = hax_features_0d_eax).

Definition run_manager (m : cpuid_manager_t) (args : cpuid_args_t) : M cpuid_globals cpuid_args_t :=
  match cm_execute m with Some execute => execute args | None => mret (asm_cpuid args) end.

(** The physical address width is one that the mask can represent. *)
Definition width_ok : Prop := 32 <= u8 (a_eax (host_leaf 0x80000008 0)) &! 0xff < 63.

Lemma host_query args leaf : a_eax args = leaf -> leaf = 1 \/ leaf = 0x80000001 ->
  asm_cpuid args = host_leaf leaf 0.
Proof. intros Ha Hl. apply cpuid_inputs; [done|right; by rewrite Ha]. Qed.

Lemma leaf_01_rule args g : ready g -> a_eax args = 1 -> exists r, execute_0000_0001 args g = Some (r, g) /\
  a_ecx r = (a_ecx (host_leaf 1 0) &! hax_features_01_ecx) |! FEATURE X86_FEATURE_HYPERVISOR /\
  a_edx r = a_edx (host_leaf 1 0) &! hax_features_01_edx.
Proof.
  intros [_ Hx _ _] Ha. unfold execute_0000_0001, adjust_0000_0001.
  rewrite (host_query args 1) by tauto. rewrite gets_run, Hx. erewrite of_option_run by reflexivity.
  eexists. split; [reflexivity|]. by destruct (_ && _)%bool.
Qed.

Lemma leaf_07_rule args g : ready g -> a_ecx args = 0 ->
  execute_0000_0007 args g = Some (CpuidArgs 0 0 0 (a_ebx (host_leaf 7 0) &! hax_features_07_ebx), g).
Proof.
  intros [Hh Hx _ _] Hc. unfold execute_0000_0007. rewrite Hc. cbn [Z.eqb]. rewrite gets_run, Hh, Hx.
  by do 2 (erewrite of_option_run by reflexivity).
Qed.

Lemma leaf_ext_rule args g : ready g -> a_eax args = 0x80000001 ->
  execute_8000_0001 args g =
    Some (CpuidArgs 0 0 (a_edx (host_leaf 0x80000001 0) &! hax_features_ext_edx) 0, g).
Proof.
  intros [_ Hx _ _] Ha. unfold execute_8000_0001, adjust_8000_0001.
  rewrite (host_query args 0x80000001) by tauto. rewrite gets_run, Hx. erewrite of_option_run by reflexivity.
  cbn. by rewrite Z.land_0_r.
Qed.

Lemma leaf_0d_rule uninit args g : ready g -> a_ecx args = 0 \/ a_ecx args = 1 ->
  exists r, execute_0000_000d uninit args g = Some (r, g) /\ (a_ecx args = 1 -> a_eax r = hax_features_0d_eax).
Proof.
  intros [_ Hx Hx0 Hsz] Hc. unfold execute_0000_000d.
  pose proof (fun c => calc_xstate_rule uninit _ c g Hx0 (Hsz c)) as Hcalc.
  destruct Hc as [-> | ->]; [change (63 <? 0) with false|change (63 <? 1) with false]; cbv iota;
    rewrite gets_run.
  - change (0 =? 0) with true. cbv iota. rewrite (bind_run _ _ _ _ _ (Hcalc false)). by eexists.
  - change (1 =? 0) with false. change (1 =? 1) with true. cbv iota. rewrite gets_run, Hx. erewrite of_option_run by reflexivity. cbn [ce_eax feature_set].
    rewrite (bind_run _ _ _ (xstate_size true (cg_supported_xcr0 g)) g); [by eexists|].
    rewrite <- Hcalc. reflexivity.
Qed.

Lemma leaf_width_rule args g : width_ok -> ready g -> a_eax args = 0x80000008 -> a_ecx args = 0 ->
  exists r g', execute_8000_0008 args g = Some (r, g') /\ ready g'.
Proof.
  intros Hw [? ? ? ? ?] Ha Hc. unfold execute_8000_0008.
  replace (asm_cpuid args) with (host_leaf 0x80000008 0) by (apply cpuid_inputs; [done|by left]).
  rewrite assert_run; [by eexists _, _|]. unfold width_ok in Hw. apply andb_true_iff. lia.
Qed.

Lemma manager_rule uninit m args g : width_ok -> m ∈ kCpuidManager uninit -> ready g ->
  a_eax args = cm_leaf m -> a_ecx args = cm_subleaf m ->
  exists r g', run_manager m args g = Some (r, g') /\ ready g' /\ leaf_offers m r.
Proof.
  intros Hw Hm Hr. revert Hm. unfold kCpuidManager. rewrite !elem_of_cons, elem_of_nil.
  intros [-> | [-> | [-> | [-> | [-> | [-> | [-> | [-> | [-> | [-> | [-> | [-> | [-> | [-> | [-> | [-> |
    [-> | [-> | []]]]]]]]]]]]]]]]]]];
    cbn [cm_leaf cm_subleaf]; intros Ha Hc; unfold run_manager; cbn [cm_execute].
  all: try (eexists _, g; split; [reflexivity|]; split; [done|]; by split_and!; intros).
  - destruct (leaf_01_rule args g Hr Ha) as (r & Hrun & Ho). exists r, g. by split_and!; [| |split_and!].
  - rewrite leaf_07_rule by done. eexists _, g. by split_and!; [| |split_and!].
  - unfold execute_0000_0007. rewrite Hc. eexists _, g. split; [reflexivity|]. by split_and!; [|split_and!].
  - destruct (leaf_0d_rule uninit args g Hr (or_introl Hc)) as (r & Hrun & _). exists r, g. by split_and!; [| |split_and!].
  - destruct (leaf_0d_rule uninit args g Hr (or_intror Hc)) as (r & Hrun & He). exists r, g.
    split_and!; [done|done|split_and!; try done; intros; by apply He].
  - rewrite leaf_ext_rule by done. eexists _, g. by split_and!; [| |split_and!].
  - destruct (leaf_width_rule args g Hw Hr Ha Hc) as (r & g' & Hrun & Hr'). exists r, g'. by split_and!; [| |split_and!].
Qed.

(** Entry by entry, the table of a new guest. *)
Definition made_by (m : cpuid_manager_t) (e : hax_cpuid_entry) : Prop :=
  entry_key e = (cm_leaf m, cm_subleaf m) /\ leaf_offers m (cached e).

Lemma init_loop_rule uninit ms args g : width_ok -> (forall m, m ∈ ms -> m ∈ kCpuidManager uninit) -> ready g ->
  exists fs g', guest_init_loop ms args g = Some (fs, g') /\ ready g' /\ Forall2 made_by ms fs.
Proof.
  intros Hw. revert args g. induction ms as [|m ms IH]; intros args g Hin Hr.
  - by exists [], g.
  - cbn [guest_init_loop]. set (a := set_a_ecx _ _).
    destruct (manager_rule uninit m a g Hw) as (r & g1 & Hrun & Hr1 & Ho); [apply Hin, elem_of_cons; by left|done..|].
    unfold run_manager in Hrun. rewrite (bind_run _ _ _ _ _ Hrun).
    destruct (IH r g1) as (fs & g2 & Hrun2 & Hr2 & Hf); [intros m' ?; apply Hin, elem_of_cons; by right|done|].
    rewrite (bind_run _ _ _ _ _ Hrun2). eexists _, g2. split; [reflexivity|]. split; [done|].
    constructor; [|done]. split; [done|]. by destruct r.
Qed.

Lemma guest_init_rule args g : width_ok -> ready g ->
  exists cpuid g', cpuid_guest_init args g = Some (cpuid, g') /\ ready g' /\
    table_wf (hc_features cpuid) /\ Forall2 made_by (kCpuidManager args) (hc_features cpuid).
Proof.
  intros Hw Hr. destruct (init_loop_rule args (kCpuidManager args) args g Hw) as (fs & g' & Hrun & Hr' & Hf);
    [done|done|].
  unfold cpuid_guest_init. rewrite (bind_run _ _ _ _ _ Hrun). eexists _, g'. split; [reflexivity|].
  split; [done|]. split; [|done]. unfold table_wf. cbn [hc_features].
  replace leaf_keys with ((fun m => (cm_leaf m, cm_subleaf m)) <$> kCpuidManager args) by done.
  clear -Hf. induction Hf as [|m e ms fs [Hk _] _ IH]; [done|]. cbn [fmap list_fmap]. by rewrite Hk, IH.
Qed.

(** Keys of a table are different. *)
Lemma keys_nodup fs : table_wf fs -> NoDup (entry_key <$> fs).
Proof. intros ->. apply (bool_decide_unpack _). vm_compute. done. Qed.

Lemma lookup_leaf_elem fs leaf subleaf e : NoDup (entry_key <$> fs) -> e ∈ fs ->
  entry_key e = (leaf, subleaf) -> lookup_leaf fs leaf subleaf = Some e.
Proof.
  intros Hnd He Hk. induction fs as [|e' fs IH]; [by apply elem_of_nil in He|]. cbn in Hnd |- *.
  apply NoDup_cons in Hnd as [Hni Hnd]. apply elem_of_cons in He as [<-|He].
  - injection Hk as <- <-. unfold is_entry. by rewrite !Z.eqb_refl.
  - destruct (is_entry leaf subleaf e') eqn:Hie; [|by apply IH].
    unfold is_entry in Hie. apply andb_true_iff in Hie as [H1%Z.eqb_eq H2%Z.eqb_eq]. destruct Hni.
    apply list_elem_of_fmap. exists e. split; [|done]. rewrite Hk. unfold entry_key. by rewrite H1, H2.
Qed.

Lemma has_feature_rule cpuid k g e : table_wf (hc_features cpuid) ->
  lookup_leaf (hc_features cpuid) (feature_leaf k) (feature_subleaf k) = Some e ->
  cpuid_guest_has_feature (Some cpuid) k g = Some (Z.testbit (get_reg e k) (key_bit k), g).
Proof.
  intros Hwf He. unfold cpuid_guest_has_feature.
  destruct (find_spec (hc_features cpuid) CPUID_TOTAL_LEAVES (feature_leaf k) (feature_subleaf k) g)
    as ([j|] & Hrun & Hj); [by rewrite (table_length _ Hwf)| |congruence].
  rewrite (bind_run _ _ _ _ _ Hrun). destruct Hj as (e' & Hl & _ & He'). rewrite (of_option_run _ e') by done.
  rewrite He in He'. injection He' as <-. unfold is_feature_set, feature_bit.
  by rewrite bit_test by apply key_bit_range.
Qed.

(** The features that a new guest has.  Those of subleaf 1 of leaf 0xd (index 4) are the
    driver's alone. *)
Definition offered (k : Z) : bool :=
  if key_index k =? 4 then Z.testbit (hax_features k) (key_bit k)
  else
    ((host_has k && Z.testbit (hax_features k) (key_bit k)) ||
     ((key_index k =? key_index X86_FEATURE_HYPERVISOR) && (key_bit k =? key_bit X86_FEATURE_HYPERVISOR)))%bool.

Lemma testbit_feature k b : 0 <= b < 32 -> Z.testbit (FEATURE k) b = (b =? key_bit k).
Proof.
  intros Hb. pose proof (key_bit_range k). unfold FEATURE. fold (key_bit k). rewrite Z.shiftl_1_l, u32_small.
  - rewrite Z.pow2_bits_eqb by lia. apply Z.eqb_sym.
  - split; [lia|]. apply Z.pow_lt_mono_r; lia.
Qed.

Lemma made_entry uninit fs j m : table_wf fs -> Forall2 made_by (kCpuidManager uninit) fs ->
  kCpuidManager uninit !! j = Some m ->
  exists e, lookup_leaf fs (cm_leaf m) (cm_subleaf m) = Some e /\ leaf_offers m (cached e).
Proof.
  intros Hwf Hf Hm. destruct (Forall2_lookup_l _ _ _ _ _ Hf Hm) as (e & He & Hk & Ho).
  exists e. split; [|done]. apply lookup_leaf_elem; [by apply keys_nodup| |done].
  by apply list_elem_of_lookup_2 in He.
Qed.

Lemma offered_rule uninit cpuid k g : table_wf (hc_features cpuid) ->
  Forall2 made_by (kCpuidManager uninit) (hc_features cpuid) -> feature_key k ->
  cpuid_guest_has_feature (Some cpuid) k g = Some (offered k, g).
Proof.
  intros Hwf Hf (n & Hn7 & Hn)%group_cases. unfold offered, host_has, hax_features.
  pose proof (key_bit_range k) as Hb.
  assert (Hj : forall j m, kCpuidManager uninit !! j = Some m -> feature_leaf k = cm_leaf m ->
    feature_subleaf k = cm_subleaf m -> exists e, leaf_offers m (cached e) /\
    cpuid_guest_has_feature (Some cpuid) k g = Some (Z.testbit (get_reg e k) (key_bit k), g)).
  { intros j m Hm Hl Hs. destruct (made_entry uninit _ j m Hwf Hf Hm) as (e & He & Ho).
    exists e. split; [done|]. apply has_feature_rule; [done|]. by rewrite Hl, Hs. }
  unfold get_reg in Hj. unfold key_group in Hn. change (key_index X86_FEATURE_HYPERVISOR) with 0.
  destruct n as [|[|[|[|[|[|[|n]]]]]]]; [..|lia]; injection Hn as Hx Hl _ Hs Hr;
    rewrite <- Hx, <- Hl, <- Hs, <- Hr in *; cbn [Z.eqb Pos.eqb].
  - destruct (Hj 1%nat _ eq_refl eq_refl eq_refl) as (e & (H1 & _) & ->). do 2 f_equal.
    destruct (H1 eq_refl) as [Hc _]. etrans; [apply (f_equal (fun x => Z.testbit x (key_bit k)) Hc)|].
    by rewrite Z.lor_spec, Z.land_spec, testbit_feature.
  - destruct (Hj 1%nat _ eq_refl eq_refl eq_refl) as (e & (H1 & _) & ->). do 2 f_equal.
    destruct (H1 eq_refl) as [_ Hd]. etrans; [apply (f_equal (fun x => Z.testbit x (key_bit k)) Hd)|].
    by rewrite Z.land_spec, orb_false_r.
  - destruct (Hj 3%nat _ eq_refl eq_refl eq_refl) as (e & (_ & H7 & _) & ->). do 2 f_equal.
    destruct (H7 eq_refl eq_refl) as [Hc _]. etrans; [apply (f_equal (fun x => Z.testbit x (key_bit k)) Hc)|].
    cbv [Z.eqb Pos.eqb]. by rewrite !Z.bits_0, andb_false_r.
  - destruct (Hj 3%nat _ eq_refl eq_refl eq_refl) as (e & (_ & H7 & _) & ->). do 2 f_equal.
    destruct (H7 eq_refl eq_refl) as [_ Hd]. etrans; [apply (f_equal (fun x => Z.testbit x (key_bit k)) Hd)|].
    by rewrite Z.land_spec, orb_false_r.
  - destruct (Hj 7%nat _ eq_refl eq_refl eq_refl) as (e & (_ & _ & _ & Hd) & ->). do 2 f_equal.
    exact (f_equal (fun x => Z.testbit x (key_bit k)) (Hd eq_refl eq_refl)).
  - destruct (Hj 12%nat _ eq_refl eq_refl eq_refl) as (e & (_ & _ & H8 & _) & ->). do 2 f_equal.
    destruct (H8 eq_refl) as [Hc _]. etrans; [apply (f_equal (fun x => Z.testbit x (key_bit k)) Hc)|].
    cbv [Z.eqb Pos.eqb]. by rewrite !Z.bits_0, andb_false_r.
  - destruct (Hj 12%nat _ eq_refl eq_refl eq_refl) as (e & (_ & _ & H8 & _) & ->). do 2 f_equal.
    destruct (H8 eq_refl) as [_ Hd]. etrans; [apply (f_equal (fun x => Z.testbit x (key_bit k)) Hd)|].
    by rewrite Z.land_spec, orb_false_r.
Qed.

(** C30. What a new guest is offered: from the start of the driver ([cpuid_host_init],
    [cpuid_init_supported_features]) and the creation of the guest's table, every feature
    of the leaves 1, 7 and 0x80000001 is present exactly if the processor reports it and it
    is in the driver's list, or it is the hypervisor bit; a feature of subleaf 1 of leaf 0xd
    is present exactly if it is in the driver's list, whatever the processor has (see
    [xsavec_not_masked]).  The host's features that the driver has cached are those of the
    processor.  The table has the leaves of the manager, in its order.  The processor is assumed to report a
    physical address width below 63 and sizes of the extended state that fit 32 bits. *)
Theorem guest_features_offered r0 r1 g :
  width_ok -> 0 <= cg_supported_xcr0 g < 2 ^ 64 ->
  (forall c, sizes_fit c (components (cg_supported_xcr0 g)) 576) ->
  exists g1, (cpuid_host_init r0;; cpuid_init_supported_features) g = Some (tt, g1) /\
    (forall k r, feature_key k -> cpuid_host_has_feature r k g1 = Some (host_has k, g1)) /\
    exists cpuid g2, cpuid_guest_init r1 g1 = Some (cpuid, g2) /\ table_wf (hc_features cpuid) /\
      forall k, feature_key k ->
        cpuid_guest_has_feature (Some cpuid) k g2 = Some (offered k, g2).
Proof.
  intros Hw Hx Hf. destruct (host_init_rule r0 g) as (ga & Hrun & Hc & Hxa).
  rewrite (bind_run _ _ _ _ _ Hrun). rewrite <- Hxa in Hx, Hf.
  destruct (init_supported_rule ga Hc Hx Hf) as (g1 & Hrun1 & Hr1 & Hc1).
  exists g1. split; [done|]. split; [intros k r Hk; by apply cached_rule|].
  destruct (guest_init_rule r1 g1 Hw Hr1) as (cpuid & g2 & Hrun2 & _ & Hwf & Hmade).
  exists cpuid, g2. split; [done|]. split; [done|]. intros k Hk. by eapply offered_rule.
Qed.
End Guest.

#[local] Open Scope haxm_scope.

Section Tables.
Context {HW : CpuidHw}.
Implicit Types (fs : list hax_cpuid_entry) (c : cpuid_controller_t) (g : cpuid_globals).

Lemma is_entry_key leaf subleaf e : is_entry leaf subleaf e = true <-> entry_key e = (leaf, subleaf).
Proof.
  unfold is_entry, entry_key. rewrite andb_true_iff, !Z.eqb_eq. split; [by intros [-> ->]|by intros [= -> ->]].
Qed.

(** Replacing an entry by one for the same leaf and subleaf. *)
Lemma lookup_leaf_insert fs d old new leaf subleaf :
  NoDup (entry_key <$> fs) -> fs !! d = Some old -> entry_key new = entry_key old ->
  lookup_leaf (<[d := new]> fs) leaf subleaf =
    if is_entry leaf subleaf old then Some new else lookup_leaf fs leaf subleaf.
Proof.
  revert d. induction fs as [|e fs IH]; intros d Hnd Hd Hk; [done|]. cbn in Hnd.
  apply NoDup_cons in Hnd as [Hni Hnd].
  assert (Hsame : is_entry leaf subleaf new = is_entry leaf subleaf old).
  { unfold is_entry. unfold entry_key in Hk. by injection Hk as -> ->. }
  destruct d as [|d]; cbn in Hd |- *.
  - injection Hd as ->. rewrite Hsame. by destruct (is_entry leaf subleaf old).
  - rewrite IH by done. destruct (is_entry leaf subleaf e) eqn:He; [|done].
    destruct (is_entry leaf subleaf old) eqn:Ho; [|done]. destruct Hni.
    apply is_entry_key in He, Ho. rewrite He, <- Ho. apply list_elem_of_fmap_2.
    by apply list_elem_of_lookup_2 in Hd.
Qed.

Lemma table_insert fs d old new : table_wf fs -> fs !! d = Some old -> entry_key new = entry_key old ->
  table_wf (<[d := new]> fs).
Proof.
  intros Hwf Hd Hk. unfold table_wf. rewrite list_fmap_insert, <- Hwf. apply list_insert_id.
  by rewrite list_lookup_fmap, Hd, Hk.
Qed.

(** The entry that a controller makes of the guest's and the user's. *)
Definition controlled c (dest src : hax_cpuid_entry) : hax_cpuid_entry :=
  match ct_set_leaf c with Some set_leaf => set_leaf dest src | None => src end.

Definition ctl_key c : Z * Z := (ct_leaf c, ct_subleaf c).

(** Controllers keep leaf and subleaf. *)
Definition keeps_key c : Prop :=
  forall dest src, entry_key dest = ctl_key c -> entry_key src = ctl_key c ->
    entry_key (controlled c dest src) = ctl_key c.

Lemma controllers_keep : Forall keeps_key kCpuidController.
Proof.
  assert (Hk : forall e eax ebx ecx edx, entry_key (set_regs eax ebx ecx edx e) = entry_key e) by done.
  repeat constructor; intros dest src Hd Hs; unfold controlled, set_leaf_0000_0000, set_leaf_0000_0001,
    set_leaf_0000_0015, set_leaf_0000_0016, set_leaf_8000_0000, set_leaf_8000_0001, set_leaf_8000_0006,
    set_leaf_8000_0008; cbn [ct_set_leaf]; rewrite ?Hk; try done; by destruct (_ || _)%bool.
Qed.

(** The user's array has [total] entries. *)
Definition info_ok (info : hax_cpuid) : Prop := ci_total info = Z.of_nat (length (ci_entries info)).

(** What one controller leaves of a leaf. *)
Definition after_control c (info : hax_cpuid) fs (leaf subleaf : Z) : option hax_cpuid_entry :=
  match lookup_leaf fs leaf subleaf with
  | Some d => if bool_decide (ctl_key c = (leaf, subleaf)) then
                match lookup_leaf (ci_entries info) leaf subleaf with
                | Some s => Some (controlled c d s)
                | None => Some d
                end
              else Some d
  | None => None
  end.

Lemma set_feature_rule c fs info g : keeps_key c -> table_wf fs -> info_ok info ->
  exists fs', set_feature fs info c g = Some (fs', g) /\ table_wf fs' /\
    forall leaf subleaf, lookup_leaf fs' leaf subleaf = after_control c info fs leaf subleaf.
Proof.
  intros Hkeep Hwf Hinfo. unfold set_feature, after_control.
  assert (Hsame : forall leaf subleaf, ctl_key c <> (leaf, subleaf) -> lookup_leaf fs leaf subleaf =
    match lookup_leaf fs leaf subleaf with Some d =>
      if bool_decide (ctl_key c = (leaf, subleaf)) then
        match lookup_leaf (ci_entries info) leaf subleaf with Some s => Some (controlled c d s) | None => Some d end
      else Some d | None => None end).
  { intros leaf subleaf Hne. rewrite bool_decide_eq_false_2 by done. by case_match. }
  destruct (find_spec fs CPUID_TOTAL_LEAVES (ct_leaf c) (ct_subleaf c) g) as (d & Hrun & Hd);
    [by rewrite (table_length _ Hwf)|]. rewrite (bind_run _ _ _ _ _ Hrun).
  destruct d as [d|].
  2: { exists fs. split; [done|]. split; [done|]. intros leaf subleaf.
       destruct (decide (ctl_key c = (leaf, subleaf))) as [[= <- <-]|Hne]; [|by apply Hsame]. by rewrite Hd. }
  destruct Hd as (dest & Hdl & Hde & Hdlk). apply is_entry_key in Hde.
  destruct (find_spec (ci_entries info) (ci_total info) (ct_leaf c) (ct_subleaf c) g) as (s & Hrun2 & Hs);
    [rewrite Hinfo; lia|]. rewrite (bind_run _ _ _ _ _ Hrun2). destruct s as [s|].
  2: { exists fs. split; [done|]. split; [done|]. intros leaf subleaf.
       destruct (decide (ctl_key c = (leaf, subleaf))) as [[= <- <-]|Hne]; [|by apply Hsame].
       rewrite Hdlk, Hs. by case_bool_decide. }
  destruct Hs as (src & Hsl & Hse & Hslk). apply is_entry_key in Hse.
  rewrite (of_option_run _ dest), (of_option_run _ src) by done. fold (controlled c dest src).
  assert (Hk : entry_key (controlled c dest src) = entry_key dest) by (rewrite Hde; by apply Hkeep).
  eexists. split; [reflexivity|]. split; [by eapply table_insert|]. intros leaf subleaf.
  rewrite (lookup_leaf_insert _ _ dest) by (try done; by apply keys_nodup).
  destruct (decide (ctl_key c = (leaf, subleaf))) as [[= <- <-]|Hne].
  - rewrite (proj2 (is_entry_key _ _ dest)) by done. rewrite Hdlk, Hslk, bool_decide_eq_true_2; done.
  - destruct (is_entry leaf subleaf dest) eqn:Hie; [apply is_entry_key in Hie; destruct Hne; unfold ctl_key; congruence|by apply Hsame].
Qed.

(** The controller of a leaf and subleaf. *)
Fixpoint controller_of (cs : list cpuid_controller_t) (leaf subleaf : Z) : option cpuid_controller_t :=
  match cs with
  | [] => None
  | c :: cs => if bool_decide (ctl_key c = (leaf, subleaf)) then Some c else controller_of cs leaf subleaf
  end.

(** The table after the request, leaf by leaf. *)
Definition after_request (cs : list cpuid_controller_t) (info : hax_cpuid) fs (leaf subleaf : Z)
    : option hax_cpuid_entry :=
  match lookup_leaf fs leaf subleaf, controller_of cs leaf subleaf, lookup_leaf (ci_entries info) leaf subleaf with
  | Some dest, Some c, Some src => Some (controlled c dest src)
  | o, _, _ => o
  end.

Lemma controller_of_none cs leaf subleaf : (leaf, subleaf) ∉ (ctl_key <$> cs) ->
  controller_of cs leaf subleaf = None.
Proof.
  induction cs as [|c cs IH]; [done|]. cbn. rewrite elem_of_cons. intros Hn.
  rewrite bool_decide_eq_false_2 by naive_solver. apply IH. naive_solver.
Qed.

Lemma set_loop_rule cs fs info g : Forall keeps_key cs -> NoDup (ctl_key <$> cs) -> table_wf fs -> info_ok info ->
  exists fs', set_features_loop cs fs info g = Some (fs', g) /\ table_wf fs' /\
    forall leaf subleaf, lookup_leaf fs' leaf subleaf = after_request cs info fs leaf subleaf.
Proof.
  intros Hc. revert fs. induction Hc as [|c cs Hk _ IH]; intros fs Hnd Hwf Hinfo.
  - exists fs. split; [done|]. split; [done|]. intros. unfold after_request. cbn. by case_match.
  - cbn in Hnd. apply NoDup_cons in Hnd as [Hni Hnd]. cbn [set_features_loop].
    destruct (set_feature_rule c fs info g Hk Hwf Hinfo) as (fs1 & Hrun & Hwf1 & Hl1).
    rewrite (bind_run _ _ _ _ _ Hrun). destruct (IH fs1 Hnd Hwf1 Hinfo) as (fs2 & Hrun2 & Hwf2 & Hl2).
    exists fs2. split; [done|]. split; [done|]. intros leaf subleaf. rewrite Hl2. unfold after_request.
    rewrite Hl1. unfold after_control. cbn [controller_of]. case_bool_decide as Hkey.
    + rewrite (controller_of_none cs) by (by rewrite <- Hkey).
      destruct (lookup_leaf fs _ _); [|done]. by destruct (lookup_leaf (ci_entries info) _ _).
    + by destruct (lookup_leaf fs _ _).
Qed.

Lemma controllers_nodup : NoDup (ctl_key <$> kCpuidController).
Proof. apply (bool_decide_unpack _). vm_compute. done. Qed.

Lemma get_features_rule cpuid info g : table_wf (hc_features cpuid) -> info_ok info -> 18 <= ci_total info ->
  cpuid_get_guest_features (Some cpuid) (Some info) g =
    Some ((0, Some (CpuidInfo 18 0 (hc_features cpuid ++ drop 18 (ci_entries info)))), g).
Proof.
  intros Hwf Hinfo Ht. unfold cpuid_get_guest_features, info_ok in *.
  rewrite (proj2 (Z.ltb_ge _ _)) by (unfold CPUID_TOTAL_LEAVES; lia).
  change (Z.to_nat CPUID_TOTAL_LEAVES) with 18%nat. pose proof (table_length _ Hwf) as Hl.
  rewrite assert_run by (apply andb_true_iff; split; apply Nat.leb_le; lia).
  by rewrite take_ge by lia.
Qed.

Lemma table_has fs j leaf subleaf : table_wf fs -> leaf_keys !! j = Some (leaf, subleaf) ->
  exists e, lookup_leaf fs leaf subleaf = Some e.
Proof.
  intros Hwf Hj. rewrite <- Hwf, list_lookup_fmap in Hj. destruct (fs !! j) as [e|] eqn:He; [|done].
  injection Hj as Hk1 Hk2. exists e. apply lookup_leaf_elem; [by apply keys_nodup| |].
  - by apply list_elem_of_lookup_2 in He.
  - unfold entry_key. by rewrite Hk1, Hk2.
Qed.

Lemma set_leaf_1_bits dest src : let e := set_leaf_0000_0001 dest src in
  is_feature_set e X86_FEATURE_HYPERVISOR = true /\ is_feature_set e X86_FEATURE_APIC = true /\
  is_feature_set e X86_FEATURE_TSC_DEADLINE = false.
Proof.
  intros e. assert (Hb : forall e k, is_feature_set e k = Z.testbit (get_reg e k) (key_bit k))
    by (intros; apply bit_test, key_bit_range).
  assert (Hc : ce_ecx e = Z.ldiff (ce_ecx src) 0x1000000 |! 0x80000000) by reflexivity.
  assert (Hd : ce_edx e = ce_edx src |! 0x200) by reflexivity.
  rewrite !Hb.
  change (get_reg e X86_FEATURE_HYPERVISOR) with (ce_ecx e). change (key_bit X86_FEATURE_HYPERVISOR) with 31.
  change (get_reg e X86_FEATURE_TSC_DEADLINE) with (ce_ecx e). change (key_bit X86_FEATURE_TSC_DEADLINE) with 24.
  change (get_reg e X86_FEATURE_APIC) with (ce_edx e). change (key_bit X86_FEATURE_APIC) with 9.
  rewrite Hc, Hd, !Z.lor_spec, !Z.ldiff_spec. split_and!; [apply orb_true_r..|].
  by rewrite andb_false_r.
Qed.

(** C31. A request of user space whose total is the number of its entries changes the CPUID
    table of a guest exactly as the controllers say: a leaf in the request that has a
    controller gets the value that the controller makes of the old entry and the requested
    one (the features of leaf 1 always have the hypervisor bit and the local APIC and never
    the TSC deadline timer; the other requested features take effect, also those that the
    processor lacks, see [set_cpuid_not_masked]); every other leaf is as before; the table keeps its leaves and their order, so the lookup of CPUID stays
    correct; and the table that user space reads back is the new one. *)
Theorem set_guest_features_correct cpuid info buffer g :
  table_wf (hc_features cpuid) -> info_ok info -> info_ok buffer -> 18 <= ci_total buffer ->
  exists cpuid', cpuid_set_guest_features (Some cpuid) (Some info) g = Some ((0, Some cpuid'), g) /\
    hc_features_mask cpuid' = hc_features_mask cpuid /\ table_wf (hc_features cpuid') /\
    (forall leaf subleaf, lookup_leaf (hc_features cpuid') leaf subleaf =
       after_request kCpuidController info (hc_features cpuid) leaf subleaf) /\
    (forall src, lookup_leaf (ci_entries info) 1 0 = Some src ->
       exists e, lookup_leaf (hc_features cpuid') 1 0 = Some e /\
         is_feature_set e X86_FEATURE_HYPERVISOR = true /\ is_feature_set e X86_FEATURE_APIC = true /\
         is_feature_set e X86_FEATURE_TSC_DEADLINE = false) /\
    exists out, cpuid_get_guest_features (Some cpuid') (Some buffer) g = Some ((0, Some out), g) /\
      take 18 (ci_entries out) = hc_features cpuid'.
Proof.
  intros Hwf Hinfo Hbuf Hb18.
  destruct (set_loop_rule kCpuidController _ info g controllers_keep controllers_nodup Hwf Hinfo)
    as (fs' & Hrun & Hwf' & Hl).
  exists (HaxCpuid (hc_features_mask cpuid) fs'). split; [unfold cpuid_set_guest_features; by rewrite (bind_run _ _ _ _ _ Hrun)|].
  split; [done|]. split; [done|]. split; [done|]. split.
  - intros src Hsrc. cbn [hc_features]. rewrite Hl. unfold after_request. rewrite Hsrc.
    change (controller_of kCpuidController 1 0) with (Some (CpuidController 1 0 (Some set_leaf_0000_0001))).
    assert (Hd : exists d, lookup_leaf (hc_features cpuid) 1 0 = Some d) by by apply (table_has _ 1%nat).
    destruct Hd as [d ->]. eexists. split; [reflexivity|]. apply set_leaf_1_bits.
  - eexists. split; [by apply get_features_rule|]. cbn [ci_entries hc_features].
    rewrite take_app_le by (rewrite (table_length _ Hwf'); lia). apply take_ge. by rewrite (table_length _ Hwf').
Qed.
End Tables.
