(* ===== verification/CpuidDemo.v ===== *)
(** * Instances of the CPUID theorems

    A processor with AVX, whose extended state has the component YMM. *)

From stdpp Require Import base numbers list.
From Stdlib Require Import ZArith Lia.
From S2P Require Import Prelude HaxList MemTypes Memslot GpaSpace GpaAccess PageWalker Cpuid CpuidProps.
From S2P Require Import CpuidFeatures.
#[local] Open Scope Z_scope.

#[export] Instance demo_hw : CpuidHw := {
  asm_cpuid a :=
    if a_eax a =? 1 then CpuidArgs 0x306a9 0x1fbae3ff 0xbfebfbff 0x100800
    else if a_eax a =? 0x80000001 then CpuidArgs 0 1 0x28100800 0
    else if a_eax a =? 7 then CpuidArgs 0 0 0 0x281
    else if a_eax a =? 0x80000008 then CpuidArgs 0x3024 0 0 0
    else if ((a_eax a =? 0xd) && (a_ecx a =? 2))%bool then CpuidArgs 256 0 0 576
    else CpuidArgs 0 0 0 0
}.

#[export] Instance demo_hw_laws : CpuidLaws.
Proof.
  constructor.
  - intros a. cbn. repeat case_match; cbn; lia.
  - intros a b He Hc. cbn. rewrite <- He. destruct Hc as [Hc|[->| ->]]; [by rewrite Hc|done|done].
Qed.

Definition no_args : cpuid_args_t := CpuidArgs 0 0 0 0.
Definition start_globals : cpuid_globals :=
  CpuidGlobals (CpuidCache (replicate 7 0) [] [] false) 7 (PmuInfo 0 0 0) 0.

(** The driver after its start, and the table of a new guest. *)
Definition demo_started : option (hax_cpuid_t * cpuid_globals) :=
  (cpuid_host_init no_args;; cpuid_init_supported_features;; cpuid_guest_init no_args) start_globals.
Definition demo_guest : hax_cpuid_t := match demo_started with Some (c, _) => c | None => HaxCpuid 0 [] end.
Definition demo_globals : cpuid_globals := match demo_started with Some (_, g) => g | None => start_globals end.

Lemma demo_guest_wf : table_wf (hc_features demo_guest).
Proof. vm_compute. reflexivity. Qed.

Lemma demo_sizes c : sizes_fit c (components 7) 576.
Proof.
  replace (components 7) with [2] by (vm_compute; reflexivity).
  split; [repeat constructor|]; destruct c; vm_compute; reflexivity.
Qed.

Lemma guest_features_offered_witness :
  exists g1, (cpuid_host_init no_args;; cpuid_init_supported_features) start_globals = Some (tt, g1) /\
    exists cpuid g2, cpuid_guest_init no_args g1 = Some (cpuid, g2) /\
      cpuid_guest_has_feature (Some cpuid) X86_FEATURE_AVX g2 = Some (true, g2) /\
      cpuid_guest_has_feature (Some cpuid) X86_FEATURE_VMX g2 = Some (false, g2) /\
      cpuid_guest_has_feature (Some cpuid) X86_FEATURE_INVPCID g2 = Some (false, g2).
Proof.
  destruct (guest_features_offered no_args no_args start_globals) as (g1 & Hrun & _ & cpuid & g2 & Hrun2 & _ & Hk).
  - split; [by vm_compute|by vm_compute].
  - cbn. lia.
  - exact demo_sizes.
  - exists g1. split; [exact Hrun|]. exists cpuid, g2. split; [exact Hrun2|].
    rewrite !Hk by (first [by vm_compute|apply (bool_decide_unpack _); by vm_compute]).
    vm_compute. auto.
Defined.

(** The AVX state of subleaf 2 of leaf 0xd is not cached. *)
Lemma cpuid_execute_correct_witness :
  (fun r => r.1) <$> cpuid_execute no_args (Some demo_guest) (Some (CpuidArgs 0xd 2 0 0)) demo_globals =
    Some (Some (CpuidArgs 256 0 0 576)).
Proof.
  rewrite (cpuid_execute_correct no_args demo_guest (CpuidArgs 0xd 2 0 0) demo_globals demo_guest_wf).
  vm_compute. reflexivity.
Defined.

(** User space asks for leaf 1 without any feature. *)
Definition demo_info : hax_cpuid := CpuidInfo 1 0 [CpuidEntry 1 0 0 0x106f1 0 0 0].
Definition demo_buffer : hax_cpuid := CpuidInfo 18 0 (replicate 18 (CpuidEntry 0 0 0 0 0 0 0)).

Lemma set_guest_features_correct_witness :
  exists cpuid', cpuid_set_guest_features (Some demo_guest) (Some demo_info) demo_globals =
      Some ((0, Some cpuid'), demo_globals) /\
    ce_ecx <$> lookup_leaf (hc_features cpuid') 1 0 = Some 0x80000000 /\
    ce_edx <$> lookup_leaf (hc_features cpuid') 1 0 = Some 0x200.
Proof.
  destruct (set_guest_features_correct demo_guest demo_info demo_buffer demo_globals demo_guest_wf eq_refl eq_refl)
    as (cpuid' & Hrun & _ & _ & Hl & _); [cbn; lia|].
  exists cpuid'. split; [exact Hrun|]. rewrite !Hl. vm_compute. auto.
Defined.

(** User space asks for leaf 1 with FMA (bit 12 of ECX), which this processor does not have:
    the guest gets it.  The documentation of the request says that
    enabling a feature that the physical CPU lacks is ignored. *)
Definition fma_info : hax_cpuid := CpuidInfo 1 0 [CpuidEntry 1 0 0 0x106f1 0 0x1000 0].

Theorem set_cpuid_not_masked :
  host_has X86_FEATURE_FMA = false /\
  (r ← cpuid_set_guest_features (Some demo_guest) (Some fma_info);
   cpuid_guest_has_feature r.2 X86_FEATURE_FMA) demo_globals = Some (true, demo_globals).
Proof. split; vm_compute; reflexivity. Qed.

(** The subleaf 1 of leaf 0xd is taken from the driver's list alone: a guest is offered
    XSAVEC although the processor does not have it. *)
Theorem xsavec_not_masked :
  host_has X86_FEATURE_XSAVEC = false /\
  (fun r => r.1) <$> cpuid_guest_has_feature (Some demo_guest) X86_FEATURE_XSAVEC demo_globals = Some true.
Proof. split; vm_compute; reflexivity. Qed.

(** A subleaf of leaf 7 beyond 1, or of leaf 0xd beyond 63, leaves the registers of the guest
    as they are instead of returning zeros. *)
Theorem subleaf_unchanged :
  (fun r => r.1) <$> cpuid_execute no_args (Some demo_guest) (Some (CpuidArgs 7 2 0x1234 0x5678)) demo_globals =
    Some (Some (CpuidArgs 7 2 0x1234 0x5678)) /\
  (fun r => r.1) <$> cpuid_execute no_args (Some demo_guest) (Some (CpuidArgs 0xd 64 0x1234 0x5678)) demo_globals =
    Some (Some (CpuidArgs 0xd 64 0x1234 0x5678)).
Proof. split; vm_compute; reflexivity. Qed.
