(* ===== verification/Vmx.v ===== *)
(** * Access to the VMCS of a virtual CPU (src/core/vmx.c and [load_vmcs], [put_vmcs] and the
    entry to VMX operation of src/core/cpu.c)

    The VMCS of a virtual CPU can be read and written only while the processor is in VMX
    operation and the VMCS is its current one.  [load_vmcs] and [put_vmcs] enclose such
    sections, which can be nested; [vmread] and [vmx_vmwrite] make a section of their own
    when they are called outside of one.  A field that is accessed while the VMCS is not
    current is a failure of the model: the processor would access another VMCS, or none. *)

From stdpp Require Import base numbers list gmap.
From Stdlib Require Import ZArith Lia.
From S2P Require Import Prelude.
#[local] Open Scope Z_scope.

Definition VMX_SUCCEED : Z := 0.
Definition VMX_FAIL_INVALID : Z := 1.
Definition VMX_FAIL_VALID : Z := 2.
Definition VMXON_SUCCESS : Z := 0.
Definition VMXON_FAIL : Z := 1.
Definition VMPTRLD_FAIL : Z := 2.
Definition VMXON_HAX : Z := Z.shiftl 1 0.
Definition CR4_VMXE : Z := Z.shiftl 1 13.
Definition FC_LOCKED : Z := 0x00001.
Definition FC_VMXON_OUTSMX : Z := 0x00004.
Definition IA32_FEATURE_CONTROL : Z := 0x3a.
Definition ENCODE_16 : Z := 0.
Definition ENCODE_64 : Z := 1.
Definition ENCODE_32 : Z := 2.
Definition ENCODE_NATURAL : Z := 3.
Definition ENCODE_MASK : Z := 0x3.
Definition ENCODE_SHIFT : Z := 13.

(** The processor: the outcome of its instructions is a function of its state. *)
Class VmxHw := {
  vhw : Type;
  asm_vmxon : vhw -> Z * vhw;
  asm_vmxoff : vhw -> Z * vhw;
  asm_vmptrld : vhw -> Z * vhw;
  asm_vmclear : vhw -> Z * vhw;
  get_cr4 : vhw -> Z;
  set_cr4 : Z -> vhw -> vhw;
  ia32_rdmsr : Z -> vhw -> Z * vhw;
  ia32_wrmsr : Z -> Z -> vhw -> vhw;
  ia32_rdtsc : vhw -> Z * vhw;
  hax_cpu_id : vhw -> Z;
  get_dr : Z -> vhw -> Z;
  set_dr : Z -> Z -> vhw -> vhw;
  ia32_xsetbv : Z -> Z -> vhw -> vhw;
}.

(** The data of the current CPU ([per_cpu_data]), the fields of [vcpu_t] that say where its
    VMCS is, and what the processor holds: whether it is in VMX operation, and whether the
    VMCS of this virtual CPU is its current one. *)
Record vmx_cpu {VH : VmxHw} := VmxCpu {
  vx_hw : vhw;
  vx_vmm_flag : Z;
  vx_nested : Z;
  vx_host_cr4_vmxe : Z;
  vx_vmxon_res : Z;
  vx_vmxoff_res : Z;
  vx_current_vcpu : bool;
  vx_preempt_disabled : Z;
  vx_is_vmcs_loaded : bool;
  vx_cpu_id : Z;
  vx_prev_cpu_id : Z;
  vx_vmxon : bool;
  vx_vmcs_current : bool;
}.

(** With the fields of the VMCS. *)
Record vmx_st {VH : VmxHw} := VmxSt {
  vx_cpu : vmx_cpu;
  vx_vmcs : gmap Z Z;
  vx_panicked : bool;
}.

Section Setters.
Context {VH : VmxHw}.
Implicit Types c : vmx_cpu.
Definition set_vx_hw (h : vhw) c : vmx_cpu :=
  VmxCpu _ h (vx_vmm_flag c) (vx_nested c) (vx_host_cr4_vmxe c) (vx_vmxon_res c) (vx_vmxoff_res c)
    (vx_current_vcpu c) (vx_preempt_disabled c) (vx_is_vmcs_loaded c) (vx_cpu_id c)
    (vx_prev_cpu_id c) (vx_vmxon c) (vx_vmcs_current c).
Definition set_vx_vmm_flag (x : Z) c : vmx_cpu :=
  VmxCpu _ (vx_hw c) x (vx_nested c) (vx_host_cr4_vmxe c) (vx_vmxon_res c) (vx_vmxoff_res c)
    (vx_current_vcpu c) (vx_preempt_disabled c) (vx_is_vmcs_loaded c) (vx_cpu_id c)
    (vx_prev_cpu_id c) (vx_vmxon c) (vx_vmcs_current c).
Definition set_vx_nested (x : Z) c : vmx_cpu :=
  VmxCpu _ (vx_hw c) (vx_vmm_flag c) x (vx_host_cr4_vmxe c) (vx_vmxon_res c) (vx_vmxoff_res c)
    (vx_current_vcpu c) (vx_preempt_disabled c) (vx_is_vmcs_loaded c) (vx_cpu_id c)
    (vx_prev_cpu_id c) (vx_vmxon c) (vx_vmcs_current c).
Definition set_vx_host_cr4_vmxe (x : Z) c : vmx_cpu :=
  VmxCpu _ (vx_hw c) (vx_vmm_flag c) (vx_nested c) x (vx_vmxon_res c) (vx_vmxoff_res c)
    (vx_current_vcpu c) (vx_preempt_disabled c) (vx_is_vmcs_loaded c) (vx_cpu_id c)
    (vx_prev_cpu_id c) (vx_vmxon c) (vx_vmcs_current c).
Definition set_vx_results (on off : Z) c : vmx_cpu :=
  VmxCpu _ (vx_hw c) (vx_vmm_flag c) (vx_nested c) (vx_host_cr4_vmxe c) on off
    (vx_current_vcpu c) (vx_preempt_disabled c) (vx_is_vmcs_loaded c) (vx_cpu_id c)
    (vx_prev_cpu_id c) (vx_vmxon c) (vx_vmcs_current c).
Definition set_vx_current_vcpu (b : bool) c : vmx_cpu :=
  VmxCpu _ (vx_hw c) (vx_vmm_flag c) (vx_nested c) (vx_host_cr4_vmxe c) (vx_vmxon_res c)
    (vx_vmxoff_res c) b (vx_preempt_disabled c) (vx_is_vmcs_loaded c) (vx_cpu_id c)
    (vx_prev_cpu_id c) (vx_vmxon c) (vx_vmcs_current c).
Definition set_vx_preempt (x : Z) c : vmx_cpu :=
  VmxCpu _ (vx_hw c) (vx_vmm_flag c) (vx_nested c) (vx_host_cr4_vmxe c) (vx_vmxon_res c)
    (vx_vmxoff_res c) (vx_current_vcpu c) x (vx_is_vmcs_loaded c) (vx_cpu_id c)
    (vx_prev_cpu_id c) (vx_vmxon c) (vx_vmcs_current c).
Definition set_vx_loaded (b : bool) c : vmx_cpu :=
  VmxCpu _ (vx_hw c) (vx_vmm_flag c) (vx_nested c) (vx_host_cr4_vmxe c) (vx_vmxon_res c)
    (vx_vmxoff_res c) (vx_current_vcpu c) (vx_preempt_disabled c) b (vx_cpu_id c)
    (vx_prev_cpu_id c) (vx_vmxon c) (vx_vmcs_current c).
Definition set_vx_cpu_ids (id prev : Z) c : vmx_cpu :=
  VmxCpu _ (vx_hw c) (vx_vmm_flag c) (vx_nested c) (vx_host_cr4_vmxe c) (vx_vmxon_res c)
    (vx_vmxoff_res c) (vx_current_vcpu c) (vx_preempt_disabled c) (vx_is_vmcs_loaded c) id prev
    (vx_vmxon c) (vx_vmcs_current c).
(** VMX operation and the current VMCS of the processor. *)
Definition set_vx_processor (on current : bool) c : vmx_cpu :=
  VmxCpu _ (vx_hw c) (vx_vmm_flag c) (vx_nested c) (vx_host_cr4_vmxe c) (vx_vmxon_res c)
    (vx_vmxoff_res c) (vx_current_vcpu c) (vx_preempt_disabled c) (vx_is_vmcs_loaded c)
    (vx_cpu_id c) (vx_prev_cpu_id c) on current.
End Setters.

Section Vmx.
Context {VH : VmxHw}.
#[local] Notation st := vmx_st.

Definition upd_cpu (f : vmx_cpu -> vmx_cpu) : M st unit :=
  modify (fun s => VmxSt _ (f (vx_cpu s)) (vx_vmcs s) (vx_panicked s)).
Definition vcpu_set_panic_flag : M st unit :=
  modify (fun s => VmxSt _ (vx_cpu s) (vx_vmcs s) true).

(** An instruction of the processor, with its effect when it succeeds. *)
Definition hw_insn (insn : vhw -> Z * vhw) (effect : vmx_cpu -> vmx_cpu) : M st Z :=
  s ← get;
  let '(result, h) := insn (vx_hw (vx_cpu s)) in
  upd_cpu (fun c => let c := set_vx_hw h c in if result =? VMX_SUCCEED then effect c else c);;
  mret result.

Definition hw_upd (f : vhw -> vhw) : M st unit :=
  upd_cpu (fun c => set_vx_hw (f (vx_hw c)) c).

Definition hax_disable_preemption : M st unit :=
  upd_cpu (fun c => set_vx_preempt (vx_preempt_disabled c + 1) c).
Definition hax_enable_preemption : M st unit :=
  upd_cpu (fun c => set_vx_preempt (vx_preempt_disabled c - 1) c).

(** ** VMX operation *)
Definition restore_host_cr4_vmxe : M st unit :=
  s ← get;
  if negb (vx_host_cr4_vmxe (vx_cpu s) =? 0)
  then hw_upd (fun h => set_cr4 (get_cr4 h |! CR4_VMXE) h)
  else hw_upd (fun h => set_cr4 (Z.ldiff (get_cr4 h) CR4_VMXE) h).

Definition cpu_vmxroot_leave : M st Z :=
  s ← get;
  result ← (if negb (vx_vmm_flag (vx_cpu s) &! VMXON_HAX =? 0) then
              result ← hw_insn asm_vmxoff (set_vx_processor false false);
              (if result =? VMX_SUCCEED then
                 upd_cpu (fun c => set_vx_vmm_flag (Z.ldiff (vx_vmm_flag c) VMXON_HAX) c);;
                 restore_host_cr4_vmxe
               else mret tt);;
              mret result
            else mret VMX_FAIL_VALID);
  upd_cpu (fun c => set_vx_results (vx_vmxon_res c) result c);;
  mret result.

Definition cpu_vmxroot_enter : M st Z :=
  upd_cpu (fun c => set_vx_host_cr4_vmxe (get_cr4 (vx_hw c) &! CR4_VMXE) c);;
  hw_upd (fun h => set_cr4 (get_cr4 h |! CR4_VMXE) h);;
  s ← get;
  let '(fc_msr, h) := ia32_rdmsr IA32_FEATURE_CONTROL (vx_hw (vx_cpu s)) in
  upd_cpu (set_vx_hw h);;
  (if fc_msr &! FC_LOCKED =? 0
   then hw_upd (ia32_wrmsr IA32_FEATURE_CONTROL (fc_msr |! FC_LOCKED |! FC_VMXON_OUTSMX))
   else mret tt);;
  result ← hw_insn asm_vmxon (set_vx_processor true false);
  (if result =? VMX_SUCCEED
   then upd_cpu (fun c => set_vx_vmm_flag (vx_vmm_flag c |! VMXON_HAX) c)
   else restore_host_cr4_vmxe);;
  upd_cpu (fun c => set_vx_results result (vx_vmxoff_res c) c);;
  mret result.

(** ** Sections with the VMCS loaded *)
Definition is_vmcs_loaded (s : st) : bool := vx_is_vmcs_loaded (vx_cpu s).

Definition load_vmcs : M st Z :=
  hax_disable_preemption;;
  s ← get;
  if is_vmcs_loaded s then
    upd_cpu (fun c => set_vx_nested ((vx_nested c + 1) mod 2 ^ 16) c);; mret 0
  else
    r ← cpu_vmxroot_enter;
    if negb (r =? VMX_SUCCEED) then hax_enable_preemption;; mret VMXON_FAIL
    else
      r ← hw_insn asm_vmptrld (fun c => set_vx_processor (vx_vmxon c) true c);
      if negb (r =? VMX_SUCCEED) then
        cpu_vmxroot_leave;; hax_enable_preemption;; mret VMPTRLD_FAIL
      else
        upd_cpu (fun c => set_vx_cpu_ids (hax_cpu_id (vx_hw c)) (vx_cpu_id c)
                            (set_vx_current_vcpu true (set_vx_loaded true c)));;
        mret VMXON_SUCCESS.

Definition put_vmcs : M st Z :=
  s ← get;
  vmxoff_res ← (
    if 0 <? vx_nested (vx_cpu s) then
      upd_cpu (fun c => set_vx_nested (vx_nested c - 1) c);; mret 0
    else
      hw_insn asm_vmclear (fun c => set_vx_processor (vx_vmxon c) false c);;
      upd_cpu (set_vx_current_vcpu false);;
      vmxoff_res ← cpu_vmxroot_leave;
      upd_cpu (set_vx_loaded false);;
      mret vmxoff_res);
  hax_enable_preemption;;
  mret vmxoff_res.

(** ** Fields *)

(** The encoding of a field gives its width; a natural-width field has 64 bits. *)
Definition field_encoding (component : Z) : Z := (component >>! ENCODE_SHIFT) &! ENCODE_MASK.
Definition field_value (component value : Z) : Z :=
  let e := field_encoding component in
  if e =? ENCODE_16 then value mod 2 ^ 16
  else if e =? ENCODE_32 then u32 value
  else u64 value.

(** The instructions VMWRITE and VMREAD access the current VMCS. *)
Definition asm_vmwrite (component val : Z) : M st unit :=
  s ← get;
  hax_assert (vx_vmxon (vx_cpu s) && vx_vmcs_current (vx_cpu s));;
  modify (fun s => VmxSt _ (vx_cpu s) (<[component := field_value component val]> (vx_vmcs s))
                     (vx_panicked s)).
Definition vmcs_value (vmcs : gmap Z Z) (component : Z) : Z := default 0 (vmcs !! component).
Definition asm_vmread (component : Z) : M st Z :=
  s ← get;
  hax_assert (vx_vmxon (vx_cpu s) && vx_vmcs_current (vx_cpu s));;
  mret (vmcs_value (vx_vmcs s) component).

Definition vmx_vmwrite_common (component source_val : Z) : M st unit :=
  let val := field_encoding component in
  if ((val =? ENCODE_16) || (val =? ENCODE_32))%bool
  then asm_vmwrite component (source_val &! 0x00000000FFFFFFFF)
  else if val =? ENCODE_64 then asm_vmwrite component source_val
  else if val =? ENCODE_NATURAL then asm_vmwrite component source_val
  else mret tt.

Definition vmx_vmwrite (component source_val : Z) : M st unit :=
  s ← get;
  let loaded := is_vmcs_loaded s in
  r ← (if negb loaded then load_vmcs else mret 0);
  if negb (r =? 0) then vcpu_set_panic_flag
  else
    vmx_vmwrite_common component source_val;;
    r ← (if negb loaded then put_vmcs else mret 0);
    if negb (r =? 0) then vcpu_set_panic_flag else mret tt.

Definition vmread_common (component : Z) : M st Z :=
  let val := field_encoding component in
  if ((val =? ENCODE_16) || (val =? ENCODE_32))%bool then asm_vmread component
  else if val =? ENCODE_64 then asm_vmread component
  else if val =? ENCODE_NATURAL then asm_vmread component
  else mret 0.

Definition vmread (component : Z) : M st Z :=
  s ← get;
  let loaded := is_vmcs_loaded s in
  r ← (if negb loaded then load_vmcs else mret 0);
  if negb (r =? 0) then vcpu_set_panic_flag;; mret 0
  else
    val ← vmread_common component;
    r ← (if negb loaded then put_vmcs else mret 0);
    if negb (r =? 0) then vcpu_set_panic_flag;; mret 0 else mret val.
End Vmx.
