(* ===== verification/VmxProps.v ===== *)
(** * Sections with the VMCS loaded: refinement of a counter *)

From stdpp Require Import base numbers list gmap.
From Stdlib Require Import ZArith Lia.
From S2P Require Import Prelude Vmx.
#[local] Open Scope Z_scope.

Section Sections.
Context {VH : VmxHw}.
Implicit Types (s : vmx_st) (c : vmx_cpu).

(** How many sections are open. *)
Definition depth c : Z := if vx_is_vmcs_loaded c then vx_nested c + 1 else 0.

(** In a section the VMCS is current on a processor in VMX operation, which the driver has
    entered itself; preemption is disabled once per section. *)
Record vmx_inv (c : vmx_cpu) : Prop := {
  vi_nested : 0 <= vx_nested c < 2 ^ 16;
  vi_outside : vx_is_vmcs_loaded c = false -> vx_nested c = 0;
  vi_vmxon : vx_is_vmcs_loaded c = true -> vx_vmxon c = true;
  vi_current : vx_is_vmcs_loaded c = true -> vx_vmcs_current c = true;
  vi_flag : vx_is_vmcs_loaded c = true -> vx_vmm_flag c &! VMXON_HAX <> 0;
  vi_vcpu : vx_is_vmcs_loaded c = true -> vx_current_vcpu c = true;
  vi_preempt : vx_preempt_disabled c = depth c;
}.

(** What an operation does outside a section to the data that sections use. *)
Definition same_section c c' : Prop :=
  vx_nested c' = vx_nested c /\ vx_preempt_disabled c' = vx_preempt_disabled c /\
  vx_is_vmcs_loaded c' = vx_is_vmcs_loaded c /\ vx_current_vcpu c' = vx_current_vcpu c.

#[export] Instance same_section_refl : Reflexive same_section.
Proof. now intros c. Qed.
#[export] Instance same_section_trans : Transitive same_section.
Proof. intros c1 c2 c3 (?&?&?&?) (?&?&?&?). unfold same_section. intuition congruence. Qed.

(** The processor executes its VMX instructions. *)
Definition hw_succeeds : Prop := forall h,
  (asm_vmxon h).1 = VMX_SUCCEED /\ (asm_vmxoff h).1 = VMX_SUCCEED /\
  (asm_vmptrld h).1 = VMX_SUCCEED /\ (asm_vmclear h).1 = VMX_SUCCEED.

Lemma flag_set x : (x |! VMXON_HAX) &! VMXON_HAX <> 0.
Proof.
  intros H. assert (Hb : Z.testbit ((x |! VMXON_HAX) &! VMXON_HAX) 0 = Z.testbit 0 0) by by rewrite H.
  rewrite Z.land_spec, Z.lor_spec in Hb. cbn in Hb. by rewrite orb_true_r in Hb.
Qed.

(** Runs the monad on a state in constructor form. *)
Ltac vmx_run :=
  unfold hw_upd, hw_insn, upd_cpu, hax_disable_preemption, hax_enable_preemption,
    vcpu_set_panic_flag, modify, get, gets, mret, M_ret, mbind, M_bind in *;
  cbn in *; repeat (case_match; cbn in *; simplify_eq).

Lemma hw_insn_run insn effect s :
  exists r h, hw_insn insn effect s =
    Some (r, VmxSt _ (if r =? VMX_SUCCEED then effect (set_vx_hw h (vx_cpu s)) else set_vx_hw h (vx_cpu s))
               (vx_vmcs s) (vx_panicked s)) /\
    ((forall h, (insn h).1 = VMX_SUCCEED) -> r = VMX_SUCCEED).
Proof.
  unfold hw_insn, get. unfold mbind at 1, M_bind at 1. destruct (insn _) as [r h] eqn:E.
  exists r, h. split; [done|]. intros H. specialize (H (vx_hw (vx_cpu s))). by rewrite E in H.
Qed.

Lemma restore_run s :
  exists c, restore_host_cr4_vmxe s = Some (tt, VmxSt _ c (vx_vmcs s) (vx_panicked s)) /\
    same_section (vx_cpu s) c /\ vx_vmxon c = vx_vmxon (vx_cpu s) /\
    vx_vmcs_current c = vx_vmcs_current (vx_cpu s).
Proof.
  destruct s as [[] ? ?]. unfold restore_host_cr4_vmxe. vmx_run;
    eexists; (split; [reflexivity | done]).
Qed.

Lemma leave_run s :
  exists r c, cpu_vmxroot_leave s = Some (r, VmxSt _ c (vx_vmcs s) (vx_panicked s)) /\
    same_section (vx_cpu s) c /\ (hw_succeeds -> vx_vmm_flag (vx_cpu s) &! VMXON_HAX <> 0 -> r = 0).
Proof.
  destruct s as [[] ? ?]. unfold cpu_vmxroot_leave, restore_host_cr4_vmxe. vmx_run;
    (eexists _, _; split; [reflexivity|]; split; [done|]; intros Hok Hf; try done).
  all: try (by apply Z.eqb_eq). all: try (by destruct (_ =? 0) eqn:E0; [apply Z.eqb_eq in E0|]).
  match goal with H : asm_vmxoff ?h = _ |- _ => pose proof (proj1 (proj2 (Hok h))) as Hoff; by rewrite H in Hoff end.
Qed.

Lemma enter_run s :
  exists r c, cpu_vmxroot_enter s = Some (r, VmxSt _ c (vx_vmcs s) (vx_panicked s)) /\
    same_section (vx_cpu s) c /\
    (r = VMX_SUCCEED -> vx_vmxon c = true /\ vx_vmm_flag c &! VMXON_HAX <> 0) /\
    (hw_succeeds -> r = VMX_SUCCEED).
Proof.
  destruct s as [[] ? ?]. unfold cpu_vmxroot_enter, restore_host_cr4_vmxe. vmx_run;
    (eexists _, _; split; [reflexivity|]; split; [done|]; split;
     [intros ->; first [done | split; [done | apply flag_set]]|];
     intros Hok; match goal with H : asm_vmxon ?h = _ |- _ =>
       pose proof (proj1 (Hok h)) as Hon; by rewrite H in Hon end).
Qed.

Lemma inv_same_section c c' :
  vmx_inv c -> vx_is_vmcs_loaded c = false -> same_section c c' -> vmx_inv c'.
Proof.
  intros [Hn Ho _ _ _ _ Hp] Hl (E1 & E2 & E3 & E4). unfold depth in Hp. rewrite Hl in Hp.
  split; unfold depth; rewrite ?E1, ?E2, ?E3, ?Hl; intros; solve [done | auto].
Qed.

Lemma depth_loaded c : vmx_inv c -> vx_is_vmcs_loaded c = bool_decide (0 < depth c).
Proof.
  intros Hc. pose proof (vi_nested _ Hc). unfold depth.
  destruct (vx_is_vmcs_loaded c); symmetry; [apply bool_decide_true | apply bool_decide_false]; lia.
Qed.

Lemma depth_outside c : vmx_inv c -> ~ 0 < depth c -> depth c = 0.
Proof. intros Hc. pose proof (vi_nested _ Hc). unfold depth. case_match; lia. Qed.

Lemma preempt_cancel c c' :
  vmx_inv c -> vx_is_vmcs_loaded c = false -> same_section (set_vx_preempt (vx_preempt_disabled c + 1) c) c' ->
  same_section c (set_vx_preempt (vx_preempt_disabled c' - 1) c').
Proof. intros _ _ (E1 & E2 & E3 & E4). unfold same_section in *. cbn in *. repeat split; try done. lia. Qed.

Ltac inv_split Hl :=
  split; unfold depth; cbn; rewrite ?Hl; intros; solve [done | lia | auto].

(** [load_vmcs] opens a section, or fails outside of one. *)
Lemma load_run s :
  vmx_inv (vx_cpu s) -> depth (vx_cpu s) < 2 ^ 16 ->
  exists r c, load_vmcs s = Some (r, VmxSt _ c (vx_vmcs s) (vx_panicked s)) /\ vmx_inv c /\
    (r = 0 /\ depth c = depth (vx_cpu s) + 1 \/
     r <> 0 /\ depth (vx_cpu s) = 0 /\ depth c = 0 /\ ~ hw_succeeds).
Proof.
  intros Hc Hd. unfold load_vmcs, hax_disable_preemption, upd_cpu. rewrite modify_run.
  unfold get. unfold mbind at 1, M_bind at 1. unfold is_vmcs_loaded. cbn.
  destruct (vx_is_vmcs_loaded _) eqn:Hl.
  - eexists 0, _. split; [reflexivity|]. pose proof (vi_nested _ Hc). pose proof (vi_preempt _ Hc).
    unfold depth in *. cbn. rewrite Hl in *. rewrite Z.mod_small by lia.
    split; [|left; lia]. destruct Hc. inv_split Hl.
  - set (s1 := VmxSt _ _ _ _). destruct (enter_run s1) as (r & c1 & Hr & Hs1 & Hon & Hok).
    rewrite (bind_run _ _ _ _ _ Hr). cbn in Hs1, Hr |- *.
    assert (Hd0 : depth (vx_cpu s) = 0) by (unfold depth; by rewrite Hl).
    assert (Hfail : forall c', same_section (vx_cpu s) c' -> vmx_inv c' /\ depth c' = 0).
    { intros c' Hs'. split; [by eapply inv_same_section|]. destruct Hs' as (_ & _ & E & _).
      unfold depth. by rewrite E, Hl. }
    destruct (r =? VMX_SUCCEED) eqn:Er; cbn.
    2: { eexists VMXON_FAIL, _. split; [reflexivity|]. apply Z.eqb_neq in Er.
         destruct (Hfail _ (preempt_cancel _ _ Hc Hl Hs1)). split; [done|]. right.
         split_and!; try done. intros Hhw. by apply Er, Hok. }
    apply Z.eqb_eq in Er. destruct (Hon Er) as [Hon1 Hon2]. clear Er Hon.
    match goal with |- context [hw_insn ?i ?e ≫= _] =>
      match goal with |- context [_ ?s0 = Some _] =>
        destruct (hw_insn_run i e s0) as (r2 & h & Hr2 & Hok2) end end.
    rewrite (bind_run _ _ _ _ _ Hr2). cbn. clear Hr2. destruct (r2 =? VMX_SUCCEED) eqn:Er2; cbn.
    + eexists 0, _. split; [reflexivity|]. destruct Hs1 as (E1 & E2 & E3 & E4). cbn in *.
      pose proof (vi_outside _ Hc Hl) as Hn0. pose proof (vi_preempt _ Hc) as Hp. rewrite Hn0 in E1.
      rewrite Hd0 in Hp |- *. split; [|left; unfold depth; cbn; lia]. inv_split Hl.
    + set (s2 := VmxSt _ _ _ _). destruct (leave_run s2) as (r3 & c3 & Hr3 & Hs3 & Hok3).
      rewrite (bind_run _ _ _ _ _ Hr3). eexists VMPTRLD_FAIL, _. split; [reflexivity|].
      assert (Hs : same_section (set_vx_preempt (vx_preempt_disabled (vx_cpu s) + 1) (vx_cpu s)) c3).
      { etrans; [exact Hs1|]. etrans; [|exact Hs3]. done. }
      destruct (Hfail _ (preempt_cancel _ _ Hc Hl Hs)). split; [done|]. right.
      apply Z.eqb_neq in Er2. split_and!; try done. intros Hhw. apply Er2, Hok2. intros h'. apply Hhw.
Qed.

(** [put_vmcs] closes a section. *)
Lemma put_run s :
  vmx_inv (vx_cpu s) -> 0 < depth (vx_cpu s) ->
  exists r c, put_vmcs s = Some (r, VmxSt _ c (vx_vmcs s) (vx_panicked s)) /\ vmx_inv c /\
    depth c = depth (vx_cpu s) - 1 /\ (1 < depth (vx_cpu s) \/ hw_succeeds -> r = 0).
Proof.
  intros Hc Hd. pose proof (depth_loaded _ Hc) as Hl. rewrite bool_decide_true in Hl by done.
  unfold depth in *. rewrite Hl in *. unfold put_vmcs, get. unfold mbind at 1, M_bind at 1. cbn.
  pose proof (vi_nested _ Hc) as Hn. pose proof (vi_preempt _ Hc) as Hp. unfold depth in Hp. rewrite Hl in Hp.
  destruct (0 <? vx_nested (vx_cpu s)) eqn:E.
  - apply Z.ltb_lt in E. eexists 0, _. split; [reflexivity|]. cbn. rewrite Hl.
    split; [|split; [lia|done]]. destruct Hc. inv_split Hl.
  - apply Z.ltb_ge in E.
    destruct (hw_insn_run asm_vmclear (fun c => set_vx_processor (vx_vmxon c) false c) s)
      as (r & h & Hr & _). rewrite !bind_assoc, (bind_run _ _ _ _ _ Hr). clear Hr.
    unfold upd_cpu. rewrite !bind_assoc, modify_run, bind_assoc. cbn.
    set (s2 := VmxSt _ _ _ _). destruct (leave_run s2) as (r3 & c3 & Hr3 & Hs3 & Hok3).
    rewrite (bind_run _ _ _ _ _ Hr3). eexists r3, _. split; [reflexivity|].
    assert (Hs : vx_nested c3 = vx_nested (vx_cpu s) /\
      vx_preempt_disabled c3 = vx_preempt_disabled (vx_cpu s)).
    { destruct Hs3 as (E1 & E2 & _ & _). rewrite E1, E2. unfold s2. cbn. by case_match. }
    destruct Hs as [E1 E2]. split; [|split; [cbn; lia|]].
    + inv_split Hl.
    + intros [?|Hhw]; [lia|]. apply Hok3; [done|].
      assert (vx_vmm_flag (vx_cpu s2) = vx_vmm_flag (vx_cpu s)) as -> by (cbn; by case_match).
      by apply (vi_flag _ Hc).
Qed.

Lemma encoding_cases f :
  field_encoding f = ENCODE_16 \/ field_encoding f = ENCODE_64 \/ field_encoding f = ENCODE_32 \/
  field_encoding f = ENCODE_NATURAL.
Proof.
  unfold field_encoding, ENCODE_MASK. change 3 with (Z.ones 2). rewrite Z.land_ones by lia.
  pose proof (Z.mod_pos_bound (f >>! ENCODE_SHIFT) (2 ^ 2) ltac:(lia)).
  unfold ENCODE_16, ENCODE_64, ENCODE_32, ENCODE_NATURAL. lia.
Qed.

Lemma mod_narrow x a b : 0 <= a <= b -> (x mod 2 ^ b) mod 2 ^ a = x mod 2 ^ a.
Proof.
  intros H. apply Z.bits_inj'. intros n Hn. rewrite !Z.testbit_mod_pow2 by lia.
  destruct (n <? a) eqn:E; cbn; [|done]. apply Z.ltb_lt in E. destruct (Z.ltb_spec n b); [done|lia].
Qed.

Lemma vmwrite_common_run f x s :
  vmx_inv (vx_cpu s) -> 0 < depth (vx_cpu s) ->
  vmx_vmwrite_common f x s =
    Some (tt, VmxSt _ (vx_cpu s) (<[f := field_value f x]> (vx_vmcs s)) (vx_panicked s)).
Proof.
  intros Hc Hd. pose proof (depth_loaded _ Hc) as Hl. rewrite bool_decide_true in Hl by done.
  assert (Hasm : forall y, asm_vmwrite f y s =
    Some (tt, VmxSt _ (vx_cpu s) (<[f := field_value f y]> (vx_vmcs s)) (vx_panicked s))).
  { intros y. unfold asm_vmwrite, get. unfold mbind at 1, M_bind at 1.
    by rewrite (vi_vmxon _ Hc Hl), (vi_current _ Hc Hl). }
  assert (Hx : forall y, field_value f (y &! 0x00000000FFFFFFFF) =
             (if field_encoding f =? ENCODE_16 then field_value f y
              else if field_encoding f =? ENCODE_32 then field_value f y
              else u64 (y &! 0x00000000FFFFFFFF))).
  { intros y. unfold field_value. change 0x00000000FFFFFFFF with (Z.ones 32).
    rewrite Z.land_ones by lia. unfold u32.
    destruct (_ =? ENCODE_16); [by apply mod_narrow|]. destruct (_ =? ENCODE_32); [|done].
    by apply mod_narrow. }
  unfold vmx_vmwrite_common.
  destruct (encoding_cases f) as [E|[E|[E|E]]]; rewrite E in *; cbn; rewrite Hasm, ?Hx; done.
Qed.

Lemma vmread_common_run f s :
  vmx_inv (vx_cpu s) -> 0 < depth (vx_cpu s) ->
  vmread_common f s = Some (vmcs_value (vx_vmcs s) f, s).
Proof.
  intros Hc Hd. pose proof (depth_loaded _ Hc) as Hl. rewrite bool_decide_true in Hl by done.
  assert (Hasm : asm_vmread f s = Some (vmcs_value (vx_vmcs s) f, s)).
  { unfold asm_vmread, get. unfold mbind at 1, M_bind at 1.
    by rewrite (vi_vmxon _ Hc Hl), (vi_current _ Hc Hl). }
  unfold vmread_common. destruct (encoding_cases f) as [E|[E|[E|E]]]; rewrite E in *; cbn; by rewrite Hasm.
Qed.

Lemma vmwrite_sec f x s :
  vmx_inv (vx_cpu s) -> 0 < depth (vx_cpu s) ->
  vmx_vmwrite f x s =
    Some (tt, VmxSt _ (vx_cpu s) (<[f := field_value f x]> (vx_vmcs s)) (vx_panicked s)).
Proof.
  intros Hc Hd. unfold vmx_vmwrite, get. unfold mbind at 1, M_bind at 1. unfold is_vmcs_loaded.
  rewrite (depth_loaded _ Hc), bool_decide_true by done. cbn. unfold mbind at 1, M_bind at 1. cbn.
  by rewrite (bind_run _ _ _ _ _ (vmwrite_common_run f x s Hc Hd)).
Qed.

Lemma vmread_sec f s :
  vmx_inv (vx_cpu s) -> 0 < depth (vx_cpu s) -> vmread f s = Some (vmcs_value (vx_vmcs s) f, s).
Proof.
  intros Hc Hd. unfold vmread, get. unfold mbind at 1, M_bind at 1. unfold is_vmcs_loaded.
  rewrite (depth_loaded _ Hc), bool_decide_true by done. cbn. unfold mbind at 1, M_bind at 1. cbn.
  by rewrite (bind_run _ _ _ _ _ (vmread_common_run f s Hc Hd)).
Qed.

(** ** The counter *)
Inductive vmx_op := LoadVmcs | PutVmcs | WriteField (f x : Z) | ReadField (f : Z).

Definition run_op (op : vmx_op) : M vmx_st Z :=
  match op with
  | LoadVmcs => load_vmcs
  | PutVmcs => put_vmcs
  | WriteField f x => vmx_vmwrite f x;; mret 0
  | ReadField f => vmread f
  end.

(** Open sections, fields, panic. *)
Record section_state := SectionState { ss_depth : Z; ss_fields : gmap Z Z; ss_panic : bool }.

Definition section_of s : section_state :=
  SectionState (depth (vx_cpu s)) (vx_vmcs s) (vx_panicked s).

Definition op_allowed (op : vmx_op) (a : section_state) : Prop :=
  match op with
  | LoadVmcs => ss_depth a < 2 ^ 16
  | PutVmcs => 0 < ss_depth a
  | _ => True
  end.

(** Inside a section, every access succeeds.  Outside, VMX operation can fail to start or to
    end, which is reported as the result of [load_vmcs] and [put_vmcs] and as a panic of the
    virtual CPU by the accesses. *)
Inductive section_step : vmx_op -> section_state -> Z -> section_state -> Prop :=
| step_load d m p : section_step LoadVmcs (SectionState d m p) 0 (SectionState (d + 1) m p)
| step_load_failed m p r : r <> 0 ->
    section_step LoadVmcs (SectionState 0 m p) r (SectionState 0 m p)
| step_put d m p : 1 < d -> section_step PutVmcs (SectionState d m p) 0 (SectionState (d - 1) m p)
| step_put_last m p r : section_step PutVmcs (SectionState 1 m p) r (SectionState 0 m p)
| step_write f x d m p :
    section_step (WriteField f x) (SectionState d m p) 0
      (SectionState d (<[f := field_value f x]> m) p)
| step_write_panic f x m m' p : m' = m \/ m' = <[f := field_value f x]> m ->
    section_step (WriteField f x) (SectionState 0 m p) 0 (SectionState 0 m' true)
| step_read f d m p :
    section_step (ReadField f) (SectionState d m p) (vmcs_value m f) (SectionState d m p)
| step_read_panic f m p :
    section_step (ReadField f) (SectionState 0 m p) 0 (SectionState 0 m true).

Lemma run_load s :
  vmx_inv (vx_cpu s) -> depth (vx_cpu s) < 2 ^ 16 ->
  exists r s', load_vmcs s = Some (r, s') /\ vmx_inv (vx_cpu s') /\
    section_step LoadVmcs (section_of s) r (section_of s').
Proof.
  intros Hc Hd. destruct (load_run s Hc Hd) as (r & c & Hr & Hc' & H). eexists r, _. split; [exact Hr|].
  split; [done|]. unfold section_of. cbn.
  destruct H as [(-> & ->)|(Hr0 & -> & -> & _)]; by constructor.
Qed.

Lemma run_put s :
  vmx_inv (vx_cpu s) -> 0 < depth (vx_cpu s) ->
  exists r s', put_vmcs s = Some (r, s') /\ vmx_inv (vx_cpu s') /\
    section_step PutVmcs (section_of s) r (section_of s').
Proof.
  intros Hc Hd. destruct (put_run s Hc Hd) as (r & c & Hr & Hc' & Hd' & H0).
  eexists r, _. split; [exact Hr|]. split; [done|]. unfold section_of. cbn. rewrite Hd'.
  destruct (decide (1 < depth (vx_cpu s))) as [H|H]; [rewrite H0 by auto; by constructor|].
  assert (depth (vx_cpu s) = 1) as -> by lia. constructor.
Qed.

Lemma run_write f x s :
  vmx_inv (vx_cpu s) ->
  exists s', vmx_vmwrite f x s = Some (tt, s') /\ vmx_inv (vx_cpu s') /\
    section_step (WriteField f x) (section_of s) 0 (section_of s') /\
    (0 < depth (vx_cpu s) \/ hw_succeeds -> section_of s' =
       SectionState (depth (vx_cpu s)) (<[f := field_value f x]> (vx_vmcs s)) (vx_panicked s)).
Proof.
  intros Hc. destruct (decide (0 < depth (vx_cpu s))) as [Hd|Hd].
  { rewrite (vmwrite_sec f x s Hc Hd). eexists. split; [reflexivity|]. split; [done|].
    split; [constructor|done]. }
  unfold vmx_vmwrite, get. unfold mbind at 1, M_bind at 1. unfold is_vmcs_loaded.
  rewrite (depth_loaded _ Hc), bool_decide_false by done. cbn.
  pose proof (depth_outside _ Hc Hd) as Hd0.
  destruct (load_run s Hc ltac:(lia)) as (r & c & Hr & Hc' & H). rewrite (bind_run _ _ _ _ _ Hr).
  unfold section_of. rewrite Hd0 in *. destruct H as [(-> & Hd1)|(Hr0 & _ & Hd1 & Hhw)]; cbn.
  - set (s1 := VmxSt _ c _ _). assert (Hd1' : 0 < depth (vx_cpu s1)) by (cbn; lia).
    rewrite (bind_run _ _ _ _ _ (vmwrite_common_run f x s1 Hc' Hd1')). cbn.
    set (s2 := VmxSt _ c _ _). destruct (put_run s2 Hc' Hd1') as (r2 & c2 & Hr2 & Hc2 & Hd2 & H2).
    rewrite (bind_run _ _ _ _ _ Hr2). cbn in Hd2. assert (Hd2' : depth c2 = 0) by lia.
    destruct (r2 =? 0) eqn:E2; cbn;
      (eexists; split; [reflexivity|]; split; [done|]; cbn; rewrite Hd2'; split).
    + constructor.
    + done.
    + apply step_write_panic. by right.
    + apply Z.eqb_neq in E2. intros [?|Hhw]; [lia|]. exfalso. auto.
  - apply Z.eqb_neq in Hr0. rewrite Hr0. cbn. eexists. split; [reflexivity|]. split; [done|].
    cbn. rewrite Hd1. split; [apply step_write_panic; by left|]. intros [?|?]; [lia|done].
Qed.

Lemma run_read f s :
  vmx_inv (vx_cpu s) ->
  exists r s', vmread f s = Some (r, s') /\ vmx_inv (vx_cpu s') /\
    section_step (ReadField f) (section_of s) r (section_of s') /\
    (0 < depth (vx_cpu s) \/ hw_succeeds -> r = vmcs_value (vx_vmcs s) f /\ section_of s' = section_of s).
Proof.
  intros Hc. destruct (decide (0 < depth (vx_cpu s))) as [Hd|Hd].
  { rewrite (vmread_sec f s Hc Hd). eexists _, _. split; [reflexivity|]. split; [done|].
    split; [constructor|done]. }
  unfold vmread, get. unfold mbind at 1, M_bind at 1. unfold is_vmcs_loaded.
  rewrite (depth_loaded _ Hc), bool_decide_false by done. cbn.
  pose proof (depth_outside _ Hc Hd) as Hd0.
  destruct (load_run s Hc ltac:(lia)) as (r & c & Hr & Hc' & H). rewrite (bind_run _ _ _ _ _ Hr).
  unfold section_of. rewrite Hd0 in *. destruct H as [(-> & Hd1)|(Hr0 & _ & Hd1 & Hhw)]; cbn.
  - set (s1 := VmxSt _ c _ _). assert (Hd1' : 0 < depth (vx_cpu s1)) by (cbn; lia).
    rewrite (bind_run _ _ _ _ _ (vmread_common_run f s1 Hc' Hd1')). cbn.
    destruct (put_run s1 Hc' Hd1') as (r2 & c2 & Hr2 & Hc2 & Hd2 & H2).
    rewrite (bind_run _ _ _ _ _ Hr2). cbn in Hd2. assert (Hd2' : depth c2 = 0) by lia.
    destruct (r2 =? 0) eqn:E2; cbn;
      (eexists _, _; split; [reflexivity|]; split; [done|]; cbn; rewrite Hd2'; split;
       [constructor|done || (apply Z.eqb_neq in E2; intros [?|Hhw]; [lia|exfalso; auto])]).
  - apply Z.eqb_neq in Hr0. rewrite Hr0. cbn. eexists _, _. split; [reflexivity|]. split; [done|].
    cbn. rewrite Hd1. split; [constructor|]. intros [?|?]; [lia|done].
Qed.

(** C15. Access to the VMCS refines a counter of open sections: from every state that satisfies
    the invariant, [load_vmcs], [put_vmcs] (in a section) and the accesses to fields finish -
    a field is never accessed while the VMCS is not current - and keep the invariant, by which
    preemption is disabled exactly as often as sections are open; an access leaves the
    sections as they were, and it succeeds in a section.  The outcomes of the processor's
    instructions are arbitrary. *)
Theorem vmcs_sections_refine op s :
  vmx_inv (vx_cpu s) -> op_allowed op (section_of s) ->
  exists r s', run_op op s = Some (r, s') /\ vmx_inv (vx_cpu s') /\
    section_step op (section_of s) r (section_of s').
Proof.
  intros Hc Hop. destruct op as [| |f x|f]; cbn in *.
  - by apply run_load.
  - by apply run_put.
  - destruct (run_write f x s Hc) as (s' & Hr & H & Hs & _). rewrite (bind_run _ _ _ _ _ Hr).
    by exists 0, s'.
  - destruct (run_read f s Hc) as (r & s' & Hr & H & Hs & _). by exists r, s'.
Qed.
End Sections.
