(* ===== verification/VcpuState.v ===== *)
(** * The state of a virtual CPU (struct [vcpu_t] and struct [vcpu_state_t])

    The exit handlers and the calls of user space work on one record.  It holds the state of
    the emulator and of the EPT violation handler (VcpuEmu), with the interrupt state, the
    control registers and the VMCS in it, and the rest of the registers and flags; the
    lifting functions run the operations of the other components on their part of it. *)

From stdpp Require Import base numbers list gmap.
From Stdlib Require Import ZArith Lia.
From S2P Require Import IntrExc Prelude MemTypes Memslot GpaSpace PageWalker Mmio.
From S2P Require Import EmTypes Emulate EptTree Ept2 VcpuEmu Cpuid Vmx.
#[local] Open Scope Z_scope.

Definition NR_GMSR : Z := 5.
Definition APM_MAX_GENERAL_COUNT : Z := 4.
Definition NUM_VARIABLE_MTRRS : Z := 10.
Definition GS_STALE : Z := 0.
Definition GS_VALID : Z := 1.

(** Debug registers. *)
Record dregs := DRegs { dr0 : Z; dr1 : Z; dr2 : Z; dr3 : Z; dr6 : Z; dr7 : Z }.

(** The controls kept in [vcpu_vmx_data]; the rest of it is in the interrupt state. *)
Record vmx_ctls := VmxCtls {
  vt_pcpu_ctls_base : Z;
  vt_scpu_ctls_base : Z;
  vt_exc_bitmap_base : Z;
  vt_scpu_ctls : Z;
  vt_exc_bitmap : Z;
  vt_entry_ctls : Z;
  vt_cr0_mask : Z;
  vt_cr0_shadow : Z;
  vt_cr4_mask : Z;
  vt_cr4_shadow : Z;
  vt_exit_intr_info : Z;
}.

(** An MSR of the list that is loaded for the guest. *)
Record vmx_msr := VmxMsr { vm_entry : Z; vm_value : Z }.

Record gstate := GState {
  gmsr : list vmx_msr;
  apm_pmc_msrs : list Z;
  apm_pes_msrs : list Z;
  tsc_aux : Z;
  apic_base : Z;
  gmsr_autoload : list vmx_msr;
}.

(** What is saved of the host while the guest runs. *)
Record host_regs := HState {
  hmsr : list vmx_msr;
  h_apm_pmc_msrs : list Z;
  h_apm_pes_msrs : list Z;
  h_tsc_aux : Z;
  h_dr : dregs;
  h_xcr0 : Z;
}.

(** Segments, tables and the FPU of the host; [hs_fx] is the page of FXSAVE. *)
Record system_desc_t := SystemDesc { sy_limit : Z; sy_base : Z }.
Record host_segs := HostSegs {
  hs_ldt_selector : Z;
  hs_ds : Z;
  hs_es : Z;
  hs_fs : Z;
  hs_gs : Z;
  hs_seg_valid : Z;
  hs_seg_not_present : Z;
  hs_efer : Z;
  hs_gs_base : Z;
  hs_fs_base : Z;
  hs_hcr2 : Z;
  hs_fx : list Z;
  hs_fake_gs : Z;
  hs_host_gdtr : system_desc_t;
  hs_host_idtr : system_desc_t;
  hs_cr0_ts : bool;
  hs_pat : Z;
}.

Record mtrr_var_t := MtrrVar { mv_base : Z; mv_mask : Z }.
Record mtrr_t := Mtrr {
  mtrr_cap : Z;
  mtrr_def_type : Z;
  mtrr_fixed64k : Z;
  mtrr_fixed16k : list Z;
  mtrr_fixed4k : list Z;
  mtrr_var : list mtrr_var_t;
}.

(** What has to be written to the VMCS, or read from it ([cur_state]). *)
Record dirty_flags := DirtyFlags {
  cur_state : Z;
  debug_control_dirty : bool;
  dr_dirty : bool;
  fs_base_dirty : bool;
  pcpu_ctls_dirty : bool;
  pae_pdpt_dirty : bool;
}.

(** The requests to user space in the tunnel, a union of which the exit status selects one. *)
Record hax_io := HaxIo {
  io_direction : Z;
  io_df : Z;
  io_size : Z;
  io_port : Z;
  io_count : Z;
  io_flags : Z;
  io_vaddr : Z;
}.
Record hax_debug_exit := DebugExit { de_rip : Z; de_dr6 : Z; de_dr7 : Z }.

(** What user space asks for; of [user_event_pending] only bit 0 is used. *)
Record tunnel_requests := TunnelRequests { user_event_pending : bool; request_interrupt_window : bool }.

(** Identity and execution; [valid_xcr0] and [bsp_vcpu_id] are those of the VM. *)
Record run_state := RunState {
  rs_vcpu_id : Z;
  rs_is_running : bool;
  rs_paused : bool;
  rs_valid_xcr0 : Z;
  rs_bsp_vcpu_id : Z;
}.

Record vcpu {HH : Host} {PH : PhysHost} {VH : VmxHw} := VcpuFull {
  cv_em : em_state (emu_vcpu hax_ept_tree);
  cv_cpu : vmx_cpu;
  cv_ldt : segment_desc_t;
  cv_tr : segment_desc_t;
  cv_gdt : segment_desc_t;
  cv_idt : segment_desc_t;
  cv_dr : dregs;
  cv_ctls : vmx_ctls;
  cv_gstate : gstate;
  cv_mtrr : mtrr_t;
  cv_dirty : dirty_flags;
  cv_sysenter_cs : Z;
  cv_sysenter_eip : Z;
  cv_sysenter_esp : Z;
  cv_tsc_offset : Z;
  cv_cr_pat : Z;
  cv_xcr0 : Z;
  cv_pae_pdptes : list Z;
  cv_debug_control : Z;
  cv_cpuid : option hax_cpuid_t;
  cv_cpuid_globals : cpuid_globals;
  cv_io : hax_io;
  cv_debug : hax_debug_exit;
  cv_ready : bool;
  cv_tun_apic_base : Z;
  cv_io_buf : list Z;
  cv_run : run_state;
  cv_req : tunnel_requests;
  cv_hstate : host_regs;
  cv_hseg : host_segs;
  cv_gfx : list Z;
  cv_pin_ctls : Z;
  cv_exit_ctls : Z;
  cv_vpid : Z;
  cv_irq_enabled : bool;
}.

Section Setters.
Context {HH : Host} {PH : PhysHost} {VH : VmxHw}.
Implicit Types v : vcpu.
Definition set_cv_em (x : em_state (emu_vcpu hax_ept_tree)) v : vcpu :=
  VcpuFull _ _ _ x (cv_cpu v) (cv_ldt v) (cv_tr v) (cv_gdt v) (cv_idt v) (cv_dr v) (cv_ctls v)
    (cv_gstate v) (cv_mtrr v) (cv_dirty v) (cv_sysenter_cs v) (cv_sysenter_eip v)
    (cv_sysenter_esp v) (cv_tsc_offset v) (cv_cr_pat v) (cv_xcr0 v) (cv_pae_pdptes v)
    (cv_debug_control v) (cv_cpuid v) (cv_cpuid_globals v) (cv_io v) (cv_debug v) (cv_ready v)
    (cv_tun_apic_base v) (cv_io_buf v) (cv_run v) (cv_req v) (cv_hstate v) (cv_hseg v) (cv_gfx v)
    (cv_pin_ctls v) (cv_exit_ctls v) (cv_vpid v) (cv_irq_enabled v).
Definition set_cv_cpu (x : vmx_cpu) v : vcpu :=
  VcpuFull _ _ _ (cv_em v) x (cv_ldt v) (cv_tr v) (cv_gdt v) (cv_idt v) (cv_dr v) (cv_ctls v)
    (cv_gstate v) (cv_mtrr v) (cv_dirty v) (cv_sysenter_cs v) (cv_sysenter_eip v)
    (cv_sysenter_esp v) (cv_tsc_offset v) (cv_cr_pat v) (cv_xcr0 v) (cv_pae_pdptes v)
    (cv_debug_control v) (cv_cpuid v) (cv_cpuid_globals v) (cv_io v) (cv_debug v) (cv_ready v)
    (cv_tun_apic_base v) (cv_io_buf v) (cv_run v) (cv_req v) (cv_hstate v) (cv_hseg v) (cv_gfx v)
    (cv_pin_ctls v) (cv_exit_ctls v) (cv_vpid v) (cv_irq_enabled v).
Definition set_cv_ldt (x : segment_desc_t) v : vcpu :=
  VcpuFull _ _ _ (cv_em v) (cv_cpu v) x (cv_tr v) (cv_gdt v) (cv_idt v) (cv_dr v) (cv_ctls v)
    (cv_gstate v) (cv_mtrr v) (cv_dirty v) (cv_sysenter_cs v) (cv_sysenter_eip v)
    (cv_sysenter_esp v) (cv_tsc_offset v) (cv_cr_pat v) (cv_xcr0 v) (cv_pae_pdptes v)
    (cv_debug_control v) (cv_cpuid v) (cv_cpuid_globals v) (cv_io v) (cv_debug v) (cv_ready v)
    (cv_tun_apic_base v) (cv_io_buf v) (cv_run v) (cv_req v) (cv_hstate v) (cv_hseg v) (cv_gfx v)
    (cv_pin_ctls v) (cv_exit_ctls v) (cv_vpid v) (cv_irq_enabled v).
Definition set_cv_tr (x : segment_desc_t) v : vcpu :=
  VcpuFull _ _ _ (cv_em v) (cv_cpu v) (cv_ldt v) x (cv_gdt v) (cv_idt v) (cv_dr v) (cv_ctls v)
    (cv_gstate v) (cv_mtrr v) (cv_dirty v) (cv_sysenter_cs v) (cv_sysenter_eip v)
    (cv_sysenter_esp v) (cv_tsc_offset v) (cv_cr_pat v) (cv_xcr0 v) (cv_pae_pdptes v)
    (cv_debug_control v) (cv_cpuid v) (cv_cpuid_globals v) (cv_io v) (cv_debug v) (cv_ready v)
    (cv_tun_apic_base v) (cv_io_buf v) (cv_run v) (cv_req v) (cv_hstate v) (cv_hseg v) (cv_gfx v)
    (cv_pin_ctls v) (cv_exit_ctls v) (cv_vpid v) (cv_irq_enabled v).
Definition set_cv_gdt (x : segment_desc_t) v : vcpu :=
  VcpuFull _ _ _ (cv_em v) (cv_cpu v) (cv_ldt v) (cv_tr v) x (cv_idt v) (cv_dr v) (cv_ctls v)
    (cv_gstate v) (cv_mtrr v) (cv_dirty v) (cv_sysenter_cs v) (cv_sysenter_eip v)
    (cv_sysenter_esp v) (cv_tsc_offset v) (cv_cr_pat v) (cv_xcr0 v) (cv_pae_pdptes v)
    (cv_debug_control v) (cv_cpuid v) (cv_cpuid_globals v) (cv_io v) (cv_debug v) (cv_ready v)
    (cv_tun_apic_base v) (cv_io_buf v) (cv_run v) (cv_req v) (cv_hstate v) (cv_hseg v) (cv_gfx v)
    (cv_pin_ctls v) (cv_exit_ctls v) (cv_vpid v) (cv_irq_enabled v).
Definition set_cv_idt (x : segment_desc_t) v : vcpu :=
  VcpuFull _ _ _ (cv_em v) (cv_cpu v) (cv_ldt v) (cv_tr v) (cv_gdt v) x (cv_dr v) (cv_ctls v)
    (cv_gstate v) (cv_mtrr v) (cv_dirty v) (cv_sysenter_cs v) (cv_sysenter_eip v)
    (cv_sysenter_esp v) (cv_tsc_offset v) (cv_cr_pat v) (cv_xcr0 v) (cv_pae_pdptes v)
    (cv_debug_control v) (cv_cpuid v) (cv_cpuid_globals v) (cv_io v) (cv_debug v) (cv_ready v)
    (cv_tun_apic_base v) (cv_io_buf v) (cv_run v) (cv_req v) (cv_hstate v) (cv_hseg v) (cv_gfx v)
    (cv_pin_ctls v) (cv_exit_ctls v) (cv_vpid v) (cv_irq_enabled v).
Definition set_cv_dr (x : dregs) v : vcpu :=
  VcpuFull _ _ _ (cv_em v) (cv_cpu v) (cv_ldt v) (cv_tr v) (cv_gdt v) (cv_idt v) x (cv_ctls v)
    (cv_gstate v) (cv_mtrr v) (cv_dirty v) (cv_sysenter_cs v) (cv_sysenter_eip v)
    (cv_sysenter_esp v) (cv_tsc_offset v) (cv_cr_pat v) (cv_xcr0 v) (cv_pae_pdptes v)
    (cv_debug_control v) (cv_cpuid v) (cv_cpuid_globals v) (cv_io v) (cv_debug v) (cv_ready v)
    (cv_tun_apic_base v) (cv_io_buf v) (cv_run v) (cv_req v) (cv_hstate v) (cv_hseg v) (cv_gfx v)
    (cv_pin_ctls v) (cv_exit_ctls v) (cv_vpid v) (cv_irq_enabled v).
Definition set_cv_ctls (x : vmx_ctls) v : vcpu :=
  VcpuFull _ _ _ (cv_em v) (cv_cpu v) (cv_ldt v) (cv_tr v) (cv_gdt v) (cv_idt v) (cv_dr v) x
    (cv_gstate v) (cv_mtrr v) (cv_dirty v) (cv_sysenter_cs v) (cv_sysenter_eip v)
    (cv_sysenter_esp v) (cv_tsc_offset v) (cv_cr_pat v) (cv_xcr0 v) (cv_pae_pdptes v)
    (cv_debug_control v) (cv_cpuid v) (cv_cpuid_globals v) (cv_io v) (cv_debug v) (cv_ready v)
    (cv_tun_apic_base v) (cv_io_buf v) (cv_run v) (cv_req v) (cv_hstate v) (cv_hseg v) (cv_gfx v)
    (cv_pin_ctls v) (cv_exit_ctls v) (cv_vpid v) (cv_irq_enabled v).
Definition set_cv_gstate (x : gstate) v : vcpu :=
  VcpuFull _ _ _ (cv_em v) (cv_cpu v) (cv_ldt v) (cv_tr v) (cv_gdt v) (cv_idt v) (cv_dr v)
    (cv_ctls v) x (cv_mtrr v) (cv_dirty v) (cv_sysenter_cs v) (cv_sysenter_eip v)
    (cv_sysenter_esp v) (cv_tsc_offset v) (cv_cr_pat v) (cv_xcr0 v) (cv_pae_pdptes v)
    (cv_debug_control v) (cv_cpuid v) (cv_cpuid_globals v) (cv_io v) (cv_debug v) (cv_ready v)
    (cv_tun_apic_base v) (cv_io_buf v) (cv_run v) (cv_req v) (cv_hstate v) (cv_hseg v) (cv_gfx v)
    (cv_pin_ctls v) (cv_exit_ctls v) (cv_vpid v) (cv_irq_enabled v).
Definition set_cv_mtrr (x : mtrr_t) v : vcpu :=
  VcpuFull _ _ _ (cv_em v) (cv_cpu v) (cv_ldt v) (cv_tr v) (cv_gdt v) (cv_idt v) (cv_dr v)
    (cv_ctls v) (cv_gstate v) x (cv_dirty v) (cv_sysenter_cs v) (cv_sysenter_eip v)
    (cv_sysenter_esp v) (cv_tsc_offset v) (cv_cr_pat v) (cv_xcr0 v) (cv_pae_pdptes v)
    (cv_debug_control v) (cv_cpuid v) (cv_cpuid_globals v) (cv_io v) (cv_debug v) (cv_ready v)
    (cv_tun_apic_base v) (cv_io_buf v) (cv_run v) (cv_req v) (cv_hstate v) (cv_hseg v) (cv_gfx v)
    (cv_pin_ctls v) (cv_exit_ctls v) (cv_vpid v) (cv_irq_enabled v).
Definition set_cv_dirty (x : dirty_flags) v : vcpu :=
  VcpuFull _ _ _ (cv_em v) (cv_cpu v) (cv_ldt v) (cv_tr v) (cv_gdt v) (cv_idt v) (cv_dr v)
    (cv_ctls v) (cv_gstate v) (cv_mtrr v) x (cv_sysenter_cs v) (cv_sysenter_eip v)
    (cv_sysenter_esp v) (cv_tsc_offset v) (cv_cr_pat v) (cv_xcr0 v) (cv_pae_pdptes v)
    (cv_debug_control v) (cv_cpuid v) (cv_cpuid_globals v) (cv_io v) (cv_debug v) (cv_ready v)
    (cv_tun_apic_base v) (cv_io_buf v) (cv_run v) (cv_req v) (cv_hstate v) (cv_hseg v) (cv_gfx v)
    (cv_pin_ctls v) (cv_exit_ctls v) (cv_vpid v) (cv_irq_enabled v).
Definition set_cv_sysenter_cs (x : Z) v : vcpu :=
  VcpuFull _ _ _ (cv_em v) (cv_cpu v) (cv_ldt v) (cv_tr v) (cv_gdt v) (cv_idt v) (cv_dr v)
    (cv_ctls v) (cv_gstate v) (cv_mtrr v) (cv_dirty v) x (cv_sysenter_eip v) (cv_sysenter_esp v)
    (cv_tsc_offset v) (cv_cr_pat v) (cv_xcr0 v) (cv_pae_pdptes v) (cv_debug_control v)
    (cv_cpuid v) (cv_cpuid_globals v) (cv_io v) (cv_debug v) (cv_ready v) (cv_tun_apic_base v)
    (cv_io_buf v) (cv_run v) (cv_req v) (cv_hstate v) (cv_hseg v) (cv_gfx v) (cv_pin_ctls v)
    (cv_exit_ctls v) (cv_vpid v) (cv_irq_enabled v).
Definition set_cv_sysenter_eip (x : Z) v : vcpu :=
  VcpuFull _ _ _ (cv_em v) (cv_cpu v) (cv_ldt v) (cv_tr v) (cv_gdt v) (cv_idt v) (cv_dr v)
    (cv_ctls v) (cv_gstate v) (cv_mtrr v) (cv_dirty v) (cv_sysenter_cs v) x (cv_sysenter_esp v)
    (cv_tsc_offset v) (cv_cr_pat v) (cv_xcr0 v) (cv_pae_pdptes v) (cv_debug_control v)
    (cv_cpuid v) (cv_cpuid_globals v) (cv_io v) (cv_debug v) (cv_ready v) (cv_tun_apic_base v)
    (cv_io_buf v) (cv_run v) (cv_req v) (cv_hstate v) (cv_hseg v) (cv_gfx v) (cv_pin_ctls v)
    (cv_exit_ctls v) (cv_vpid v) (cv_irq_enabled v).
Definition set_cv_sysenter_esp (x : Z) v : vcpu :=
  VcpuFull _ _ _ (cv_em v) (cv_cpu v) (cv_ldt v) (cv_tr v) (cv_gdt v) (cv_idt v) (cv_dr v)
    (cv_ctls v) (cv_gstate v) (cv_mtrr v) (cv_dirty v) (cv_sysenter_cs v) (cv_sysenter_eip v) x
    (cv_tsc_offset v) (cv_cr_pat v) (cv_xcr0 v) (cv_pae_pdptes v) (cv_debug_control v)
    (cv_cpuid v) (cv_cpuid_globals v) (cv_io v) (cv_debug v) (cv_ready v) (cv_tun_apic_base v)
    (cv_io_buf v) (cv_run v) (cv_req v) (cv_hstate v) (cv_hseg v) (cv_gfx v) (cv_pin_ctls v)
    (cv_exit_ctls v) (cv_vpid v) (cv_irq_enabled v).
Definition set_cv_tsc_offset (x : Z) v : vcpu :=
  VcpuFull _ _ _ (cv_em v) (cv_cpu v) (cv_ldt v) (cv_tr v) (cv_gdt v) (cv_idt v) (cv_dr v)
    (cv_ctls v) (cv_gstate v) (cv_mtrr v) (cv_dirty v) (cv_sysenter_cs v) (cv_sysenter_eip v)
    (cv_sysenter_esp v) x (cv_cr_pat v) (cv_xcr0 v) (cv_pae_pdptes v) (cv_debug_control v)
    (cv_cpuid v) (cv_cpuid_globals v) (cv_io v) (cv_debug v) (cv_ready v) (cv_tun_apic_base v)
    (cv_io_buf v) (cv_run v) (cv_req v) (cv_hstate v) (cv_hseg v) (cv_gfx v) (cv_pin_ctls v)
    (cv_exit_ctls v) (cv_vpid v) (cv_irq_enabled v).
Definition set_cv_cr_pat (x : Z) v : vcpu :=
  VcpuFull _ _ _ (cv_em v) (cv_cpu v) (cv_ldt v) (cv_tr v) (cv_gdt v) (cv_idt v) (cv_dr v)
    (cv_ctls v) (cv_gstate v) (cv_mtrr v) (cv_dirty v) (cv_sysenter_cs v) (cv_sysenter_eip v)
    (cv_sysenter_esp v) (cv_tsc_offset v) x (cv_xcr0 v) (cv_pae_pdptes v) (cv_debug_control v)
    (cv_cpuid v) (cv_cpuid_globals v) (cv_io v) (cv_debug v) (cv_ready v) (cv_tun_apic_base v)
    (cv_io_buf v) (cv_run v) (cv_req v) (cv_hstate v) (cv_hseg v) (cv_gfx v) (cv_pin_ctls v)
    (cv_exit_ctls v) (cv_vpid v) (cv_irq_enabled v).
Definition set_cv_xcr0 (x : Z) v : vcpu :=
  VcpuFull _ _ _ (cv_em v) (cv_cpu v) (cv_ldt v) (cv_tr v) (cv_gdt v) (cv_idt v) (cv_dr v)
    (cv_ctls v) (cv_gstate v) (cv_mtrr v) (cv_dirty v) (cv_sysenter_cs v) (cv_sysenter_eip v)
    (cv_sysenter_esp v) (cv_tsc_offset v) (cv_cr_pat v) x (cv_pae_pdptes v) (cv_debug_control v)
    (cv_cpuid v) (cv_cpuid_globals v) (cv_io v) (cv_debug v) (cv_ready v) (cv_tun_apic_base v)
    (cv_io_buf v) (cv_run v) (cv_req v) (cv_hstate v) (cv_hseg v) (cv_gfx v) (cv_pin_ctls v)
    (cv_exit_ctls v) (cv_vpid v) (cv_irq_enabled v).
Definition set_cv_pae_pdptes (x : list Z) v : vcpu :=
  VcpuFull _ _ _ (cv_em v) (cv_cpu v) (cv_ldt v) (cv_tr v) (cv_gdt v) (cv_idt v) (cv_dr v)
    (cv_ctls v) (cv_gstate v) (cv_mtrr v) (cv_dirty v) (cv_sysenter_cs v) (cv_sysenter_eip v)
    (cv_sysenter_esp v) (cv_tsc_offset v) (cv_cr_pat v) (cv_xcr0 v) x (cv_debug_control v)
    (cv_cpuid v) (cv_cpuid_globals v) (cv_io v) (cv_debug v) (cv_ready v) (cv_tun_apic_base v)
    (cv_io_buf v) (cv_run v) (cv_req v) (cv_hstate v) (cv_hseg v) (cv_gfx v) (cv_pin_ctls v)
    (cv_exit_ctls v) (cv_vpid v) (cv_irq_enabled v).
Definition set_cv_debug_control (x : Z) v : vcpu :=
  VcpuFull _ _ _ (cv_em v) (cv_cpu v) (cv_ldt v) (cv_tr v) (cv_gdt v) (cv_idt v) (cv_dr v)
    (cv_ctls v) (cv_gstate v) (cv_mtrr v) (cv_dirty v) (cv_sysenter_cs v) (cv_sysenter_eip v)
    (cv_sysenter_esp v) (cv_tsc_offset v) (cv_cr_pat v) (cv_xcr0 v) (cv_pae_pdptes v) x
    (cv_cpuid v) (cv_cpuid_globals v) (cv_io v) (cv_debug v) (cv_ready v) (cv_tun_apic_base v)
    (cv_io_buf v) (cv_run v) (cv_req v) (cv_hstate v) (cv_hseg v) (cv_gfx v) (cv_pin_ctls v)
    (cv_exit_ctls v) (cv_vpid v) (cv_irq_enabled v).
Definition set_cv_cpuid (x : option hax_cpuid_t) v : vcpu :=
  VcpuFull _ _ _ (cv_em v) (cv_cpu v) (cv_ldt v) (cv_tr v) (cv_gdt v) (cv_idt v) (cv_dr v)
    (cv_ctls v) (cv_gstate v) (cv_mtrr v) (cv_dirty v) (cv_sysenter_cs v) (cv_sysenter_eip v)
    (cv_sysenter_esp v) (cv_tsc_offset v) (cv_cr_pat v) (cv_xcr0 v) (cv_pae_pdptes v)
    (cv_debug_control v) x (cv_cpuid_globals v) (cv_io v) (cv_debug v) (cv_ready v)
    (cv_tun_apic_base v) (cv_io_buf v) (cv_run v) (cv_req v) (cv_hstate v) (cv_hseg v) (cv_gfx v)
    (cv_pin_ctls v) (cv_exit_ctls v) (cv_vpid v) (cv_irq_enabled v).
Definition set_cv_cpuid_globals (x : cpuid_globals) v : vcpu :=
  VcpuFull _ _ _ (cv_em v) (cv_cpu v) (cv_ldt v) (cv_tr v) (cv_gdt v) (cv_idt v) (cv_dr v)
    (cv_ctls v) (cv_gstate v) (cv_mtrr v) (cv_dirty v) (cv_sysenter_cs v) (cv_sysenter_eip v)
    (cv_sysenter_esp v) (cv_tsc_offset v) (cv_cr_pat v) (cv_xcr0 v) (cv_pae_pdptes v)
    (cv_debug_control v) (cv_cpuid v) x (cv_io v) (cv_debug v) (cv_ready v) (cv_tun_apic_base v)
    (cv_io_buf v) (cv_run v) (cv_req v) (cv_hstate v) (cv_hseg v) (cv_gfx v) (cv_pin_ctls v)
    (cv_exit_ctls v) (cv_vpid v) (cv_irq_enabled v).
Definition set_cv_io (x : hax_io) v : vcpu :=
  VcpuFull _ _ _ (cv_em v) (cv_cpu v) (cv_ldt v) (cv_tr v) (cv_gdt v) (cv_idt v) (cv_dr v)
    (cv_ctls v) (cv_gstate v) (cv_mtrr v) (cv_dirty v) (cv_sysenter_cs v) (cv_sysenter_eip v)
    (cv_sysenter_esp v) (cv_tsc_offset v) (cv_cr_pat v) (cv_xcr0 v) (cv_pae_pdptes v)
    (cv_debug_control v) (cv_cpuid v) (cv_cpuid_globals v) x (cv_debug v) (cv_ready v)
    (cv_tun_apic_base v) (cv_io_buf v) (cv_run v) (cv_req v) (cv_hstate v) (cv_hseg v) (cv_gfx v)
    (cv_pin_ctls v) (cv_exit_ctls v) (cv_vpid v) (cv_irq_enabled v).
Definition set_cv_debug (x : hax_debug_exit) v : vcpu :=
  VcpuFull _ _ _ (cv_em v) (cv_cpu v) (cv_ldt v) (cv_tr v) (cv_gdt v) (cv_idt v) (cv_dr v)
    (cv_ctls v) (cv_gstate v) (cv_mtrr v) (cv_dirty v) (cv_sysenter_cs v) (cv_sysenter_eip v)
    (cv_sysenter_esp v) (cv_tsc_offset v) (cv_cr_pat v) (cv_xcr0 v) (cv_pae_pdptes v)
    (cv_debug_control v) (cv_cpuid v) (cv_cpuid_globals v) (cv_io v) x (cv_ready v)
    (cv_tun_apic_base v) (cv_io_buf v) (cv_run v) (cv_req v) (cv_hstate v) (cv_hseg v) (cv_gfx v)
    (cv_pin_ctls v) (cv_exit_ctls v) (cv_vpid v) (cv_irq_enabled v).
Definition set_cv_ready (x : bool) v : vcpu :=
  VcpuFull _ _ _ (cv_em v) (cv_cpu v) (cv_ldt v) (cv_tr v) (cv_gdt v) (cv_idt v) (cv_dr v)
    (cv_ctls v) (cv_gstate v) (cv_mtrr v) (cv_dirty v) (cv_sysenter_cs v) (cv_sysenter_eip v)
    (cv_sysenter_esp v) (cv_tsc_offset v) (cv_cr_pat v) (cv_xcr0 v) (cv_pae_pdptes v)
    (cv_debug_control v) (cv_cpuid v) (cv_cpuid_globals v) (cv_io v) (cv_debug v) x
    (cv_tun_apic_base v) (cv_io_buf v) (cv_run v) (cv_req v) (cv_hstate v) (cv_hseg v) (cv_gfx v)
    (cv_pin_ctls v) (cv_exit_ctls v) (cv_vpid v) (cv_irq_enabled v).
Definition set_cv_tun_apic_base (x : Z) v : vcpu :=
  VcpuFull _ _ _ (cv_em v) (cv_cpu v) (cv_ldt v) (cv_tr v) (cv_gdt v) (cv_idt v) (cv_dr v)
    (cv_ctls v) (cv_gstate v) (cv_mtrr v) (cv_dirty v) (cv_sysenter_cs v) (cv_sysenter_eip v)
    (cv_sysenter_esp v) (cv_tsc_offset v) (cv_cr_pat v) (cv_xcr0 v) (cv_pae_pdptes v)
    (cv_debug_control v) (cv_cpuid v) (cv_cpuid_globals v) (cv_io v) (cv_debug v) (cv_ready v) x
    (cv_io_buf v) (cv_run v) (cv_req v) (cv_hstate v) (cv_hseg v) (cv_gfx v) (cv_pin_ctls v)
    (cv_exit_ctls v) (cv_vpid v) (cv_irq_enabled v).
Definition set_cv_io_buf (x : list Z) v : vcpu :=
  VcpuFull _ _ _ (cv_em v) (cv_cpu v) (cv_ldt v) (cv_tr v) (cv_gdt v) (cv_idt v) (cv_dr v)
    (cv_ctls v) (cv_gstate v) (cv_mtrr v) (cv_dirty v) (cv_sysenter_cs v) (cv_sysenter_eip v)
    (cv_sysenter_esp v) (cv_tsc_offset v) (cv_cr_pat v) (cv_xcr0 v) (cv_pae_pdptes v)
    (cv_debug_control v) (cv_cpuid v) (cv_cpuid_globals v) (cv_io v) (cv_debug v) (cv_ready v)
    (cv_tun_apic_base v) x (cv_run v) (cv_req v) (cv_hstate v) (cv_hseg v) (cv_gfx v)
    (cv_pin_ctls v) (cv_exit_ctls v) (cv_vpid v) (cv_irq_enabled v).
Definition set_cv_run (x : run_state) v : vcpu :=
  VcpuFull _ _ _ (cv_em v) (cv_cpu v) (cv_ldt v) (cv_tr v) (cv_gdt v) (cv_idt v) (cv_dr v)
    (cv_ctls v) (cv_gstate v) (cv_mtrr v) (cv_dirty v) (cv_sysenter_cs v) (cv_sysenter_eip v)
    (cv_sysenter_esp v) (cv_tsc_offset v) (cv_cr_pat v) (cv_xcr0 v) (cv_pae_pdptes v)
    (cv_debug_control v) (cv_cpuid v) (cv_cpuid_globals v) (cv_io v) (cv_debug v) (cv_ready v)
    (cv_tun_apic_base v) (cv_io_buf v) x (cv_req v) (cv_hstate v) (cv_hseg v) (cv_gfx v)
    (cv_pin_ctls v) (cv_exit_ctls v) (cv_vpid v) (cv_irq_enabled v).
Definition set_cv_req (x : tunnel_requests) v : vcpu :=
  VcpuFull _ _ _ (cv_em v) (cv_cpu v) (cv_ldt v) (cv_tr v) (cv_gdt v) (cv_idt v) (cv_dr v)
    (cv_ctls v) (cv_gstate v) (cv_mtrr v) (cv_dirty v) (cv_sysenter_cs v) (cv_sysenter_eip v)
    (cv_sysenter_esp v) (cv_tsc_offset v) (cv_cr_pat v) (cv_xcr0 v) (cv_pae_pdptes v)
    (cv_debug_control v) (cv_cpuid v) (cv_cpuid_globals v) (cv_io v) (cv_debug v) (cv_ready v)
    (cv_tun_apic_base v) (cv_io_buf v) (cv_run v) x (cv_hstate v) (cv_hseg v) (cv_gfx v)
    (cv_pin_ctls v) (cv_exit_ctls v) (cv_vpid v) (cv_irq_enabled v).
Definition set_cv_hstate (x : host_regs) v : vcpu :=
  VcpuFull _ _ _ (cv_em v) (cv_cpu v) (cv_ldt v) (cv_tr v) (cv_gdt v) (cv_idt v) (cv_dr v)
    (cv_ctls v) (cv_gstate v) (cv_mtrr v) (cv_dirty v) (cv_sysenter_cs v) (cv_sysenter_eip v)
    (cv_sysenter_esp v) (cv_tsc_offset v) (cv_cr_pat v) (cv_xcr0 v) (cv_pae_pdptes v)
    (cv_debug_control v) (cv_cpuid v) (cv_cpuid_globals v) (cv_io v) (cv_debug v) (cv_ready v)
    (cv_tun_apic_base v) (cv_io_buf v) (cv_run v) (cv_req v) x (cv_hseg v) (cv_gfx v)
    (cv_pin_ctls v) (cv_exit_ctls v) (cv_vpid v) (cv_irq_enabled v).
Definition set_cv_hseg (x : host_segs) v : vcpu :=
  VcpuFull _ _ _ (cv_em v) (cv_cpu v) (cv_ldt v) (cv_tr v) (cv_gdt v) (cv_idt v) (cv_dr v)
    (cv_ctls v) (cv_gstate v) (cv_mtrr v) (cv_dirty v) (cv_sysenter_cs v) (cv_sysenter_eip v)
    (cv_sysenter_esp v) (cv_tsc_offset v) (cv_cr_pat v) (cv_xcr0 v) (cv_pae_pdptes v)
    (cv_debug_control v) (cv_cpuid v) (cv_cpuid_globals v) (cv_io v) (cv_debug v) (cv_ready v)
    (cv_tun_apic_base v) (cv_io_buf v) (cv_run v) (cv_req v) (cv_hstate v) x (cv_gfx v)
    (cv_pin_ctls v) (cv_exit_ctls v) (cv_vpid v) (cv_irq_enabled v).
Definition set_cv_gfx (x : list Z) v : vcpu :=
  VcpuFull _ _ _ (cv_em v) (cv_cpu v) (cv_ldt v) (cv_tr v) (cv_gdt v) (cv_idt v) (cv_dr v)
    (cv_ctls v) (cv_gstate v) (cv_mtrr v) (cv_dirty v) (cv_sysenter_cs v) (cv_sysenter_eip v)
    (cv_sysenter_esp v) (cv_tsc_offset v) (cv_cr_pat v) (cv_xcr0 v) (cv_pae_pdptes v)
    (cv_debug_control v) (cv_cpuid v) (cv_cpuid_globals v) (cv_io v) (cv_debug v) (cv_ready v)
    (cv_tun_apic_base v) (cv_io_buf v) (cv_run v) (cv_req v) (cv_hstate v) (cv_hseg v) x
    (cv_pin_ctls v) (cv_exit_ctls v) (cv_vpid v) (cv_irq_enabled v).
Definition set_cv_pin_ctls (x : Z) v : vcpu :=
  VcpuFull _ _ _ (cv_em v) (cv_cpu v) (cv_ldt v) (cv_tr v) (cv_gdt v) (cv_idt v) (cv_dr v)
    (cv_ctls v) (cv_gstate v) (cv_mtrr v) (cv_dirty v) (cv_sysenter_cs v) (cv_sysenter_eip v)
    (cv_sysenter_esp v) (cv_tsc_offset v) (cv_cr_pat v) (cv_xcr0 v) (cv_pae_pdptes v)
    (cv_debug_control v) (cv_cpuid v) (cv_cpuid_globals v) (cv_io v) (cv_debug v) (cv_ready v)
    (cv_tun_apic_base v) (cv_io_buf v) (cv_run v) (cv_req v) (cv_hstate v) (cv_hseg v) (cv_gfx v)
    x (cv_exit_ctls v) (cv_vpid v) (cv_irq_enabled v).
Definition set_cv_exit_ctls (x : Z) v : vcpu :=
  VcpuFull _ _ _ (cv_em v) (cv_cpu v) (cv_ldt v) (cv_tr v) (cv_gdt v) (cv_idt v) (cv_dr v)
    (cv_ctls v) (cv_gstate v) (cv_mtrr v) (cv_dirty v) (cv_sysenter_cs v) (cv_sysenter_eip v)
    (cv_sysenter_esp v) (cv_tsc_offset v) (cv_cr_pat v) (cv_xcr0 v) (cv_pae_pdptes v)
    (cv_debug_control v) (cv_cpuid v) (cv_cpuid_globals v) (cv_io v) (cv_debug v) (cv_ready v)
    (cv_tun_apic_base v) (cv_io_buf v) (cv_run v) (cv_req v) (cv_hstate v) (cv_hseg v) (cv_gfx v)
    (cv_pin_ctls v) x (cv_vpid v) (cv_irq_enabled v).
Definition set_cv_vpid (x : Z) v : vcpu :=
  VcpuFull _ _ _ (cv_em v) (cv_cpu v) (cv_ldt v) (cv_tr v) (cv_gdt v) (cv_idt v) (cv_dr v)
    (cv_ctls v) (cv_gstate v) (cv_mtrr v) (cv_dirty v) (cv_sysenter_cs v) (cv_sysenter_eip v)
    (cv_sysenter_esp v) (cv_tsc_offset v) (cv_cr_pat v) (cv_xcr0 v) (cv_pae_pdptes v)
    (cv_debug_control v) (cv_cpuid v) (cv_cpuid_globals v) (cv_io v) (cv_debug v) (cv_ready v)
    (cv_tun_apic_base v) (cv_io_buf v) (cv_run v) (cv_req v) (cv_hstate v) (cv_hseg v) (cv_gfx v)
    (cv_pin_ctls v) (cv_exit_ctls v) x (cv_irq_enabled v).
Definition set_cv_irq_enabled (x : bool) v : vcpu :=
  VcpuFull _ _ _ (cv_em v) (cv_cpu v) (cv_ldt v) (cv_tr v) (cv_gdt v) (cv_idt v) (cv_dr v)
    (cv_ctls v) (cv_gstate v) (cv_mtrr v) (cv_dirty v) (cv_sysenter_cs v) (cv_sysenter_eip v)
    (cv_sysenter_esp v) (cv_tsc_offset v) (cv_cr_pat v) (cv_xcr0 v) (cv_pae_pdptes v)
    (cv_debug_control v) (cv_cpuid v) (cv_cpuid_globals v) (cv_io v) (cv_debug v) (cv_ready v)
    (cv_tun_apic_base v) (cv_io_buf v) (cv_run v) (cv_req v) (cv_hstate v) (cv_hseg v) (cv_gfx v)
    (cv_pin_ctls v) (cv_exit_ctls v) (cv_vpid v) x.
End Setters.

Section State.
Context {HH : Host} {PH : PhysHost} {VH : VmxHw}.
Implicit Types v : vcpu.

(** ** The parts *)
Definition emu v : emu_vcpu hax_ept_tree := es_vcpu (cv_em v).
Definition set_emu (e : emu_vcpu hax_ept_tree) v : vcpu := set_cv_em (EmState (es_ctxt (cv_em v)) e) v.
Definition mmio v : mmio_vcpu hax_ept_tree := ev_mmio (emu v).
Definition set_mmio (m : mmio_vcpu hax_ept_tree) v : vcpu := set_emu (set_ev_mmio m (emu v)) v.
Definition intr v : vcpu_t := mv_intr (mmio v).
Definition set_intr (i : vcpu_t) v : vcpu := set_mmio (set_mv_intr i (mmio v)) v.
Definition vmcs v : gmap Z Z := vc_vmcs (intr v).
Definition panicked v : bool := mv_panicked (mmio v).

Definition in_em {A} (m : M (em_state (emu_vcpu hax_ept_tree)) A) : M vcpu A :=
  fun v => match m (cv_em v) with Some (a, e) => Some (a, set_cv_em e v) | None => None end.
Definition in_mmio_of {A} (m : M (mmio_vcpu hax_ept_tree) A) : M vcpu A :=
  fun v => match m (mmio v) with Some (a, x) => Some (a, set_mmio x v) | None => None end.
Definition in_intr_of {A} (m : M vcpu_t A) : M vcpu A :=
  fun v => match m (intr v) with Some (a, i) => Some (a, set_intr i v) | None => None end.
Definition in_cpuid {A} (m : M cpuid_globals A) : M vcpu A :=
  fun v => match m (cv_cpuid_globals v) with
           | Some (a, g) => Some (a, set_cv_cpuid_globals g v)
           | None => None
           end.

(** The VMCS is accessed with the processor's state and the panic flag. *)
Definition vmx_of v : vmx_st := VmxSt _ (cv_cpu v) (vmcs v) (panicked v).
Definition set_vmx (s : vmx_st) v : vcpu :=
  set_cv_cpu (vx_cpu s)
    (set_mmio (set_mv_panicked (vx_panicked s) (set_mv_intr (set_vmcs (fun _ => vx_vmcs s) (intr v)) (mmio v))) v).
Definition in_vmx {A} (m : M vmx_st A) : M vcpu A :=
  fun v => match m (vmx_of v) with Some (a, s) => Some (a, set_vmx s v) | None => None end.

Definition vmwr (component value : Z) : M vcpu unit := in_vmx (vmx_vmwrite component value).
Definition vmrd (component : Z) : M vcpu Z := in_vmx (vmread component).
Definition set_panic : M vcpu unit := in_mmio_of vcpu_set_panic.
Definition inject (vector error_code : Z) : M vcpu unit :=
  in_intr_of (hax_inject_exception vector error_code).

(** ** Registers *)
Definition cr0 v : Z := pr_cr0 (mv_regs (mmio v)).
Definition cr2 v : Z := mv_cr2 (mmio v).
Definition cr3 v : Z := pr_cr3 (mv_regs (mmio v)).
Definition cr4 v : Z := pr_cr4 (mv_regs (mmio v)).
Definition efer v : Z := pr_efer (mv_regs (mmio v)).
Definition set_paging (r : paging_regs) v : vcpu :=
  let m := mmio v in
  set_mmio (MmioVcpu (mv_space m) (mv_intr m) r (mv_cr2 m) (mv_panicked m) (mv_mmio_fetch m)) v.
Definition set_cr0 (x : Z) v : vcpu :=
  let r := mv_regs (mmio v) in
  set_paging (PagingRegs x (pr_cr3 r) (pr_cr4 r) (pr_efer r) (pw_reserved_bits_high_mask r)) v.
Definition set_cr2 (x : Z) v : vcpu := set_mmio (set_mv_cr2 x (mmio v)) v.
Definition set_cr3 (x : Z) v : vcpu :=
  let r := mv_regs (mmio v) in
  set_paging (PagingRegs (pr_cr0 r) x (pr_cr4 r) (pr_efer r) (pw_reserved_bits_high_mask r)) v.
Definition set_cr4_of (x : Z) v : vcpu :=
  let r := mv_regs (mmio v) in
  set_paging (PagingRegs (pr_cr0 r) (pr_cr3 r) x (pr_efer r) (pw_reserved_bits_high_mask r)) v.
(** [_efer] has 32 bits. *)
Definition set_efer (x : Z) v : vcpu :=
  let r := mv_regs (mmio v) in
  set_paging (PagingRegs (pr_cr0 r) (pr_cr3 r) (pr_cr4 r) (u32 x) (pw_reserved_bits_high_mask r)) v.

Definition RAX : Z := 0.
Definition RCX : Z := 1.
Definition RDX : Z := 2.
Definition RBX : Z := 3.
Definition RSP : Z := 4.
Definition RSI : Z := 6.
Definition RDI : Z := 7.
Definition gpr v (i : Z) : Z := default 0 (ev_regs (emu v) !! i).
Definition set_gpr (i x : Z) v : vcpu := set_emu (set_ev_regs (<[i := u64 x]> (ev_regs (emu v))) (emu v)) v.
(** The low [n] bits of a register ([_al], [_ax], [_eax]). *)
Definition gpr_low v (i n : Z) : Z := gpr v i mod 2 ^ n.
Definition set_gpr_low (i n x : Z) v : vcpu := set_gpr i (gpr v i - gpr_low v i n + x mod 2 ^ n) v.

Definition rip v : Z := ev_rip (emu v).
Definition rflags v : Z := vc_eflags (intr v).
Definition advance_rip v : vcpu := set_emu (advance_rip_exit (emu v)) v.

(** ** The tunnel *)
Definition basic_reason v : Z := ev_exit_reason (emu v) &! 0xffff.
Definition qualification v : Z := ev_exit_qualification (emu v).
Definition set_tunnel_reason v : vcpu := set_emu (set_exit_reason (emu v)) v.
Definition set_tunnel_status (x : Z) v : vcpu := set_emu (set_exit_status x (emu v)) v.

(** [vm_get_eptp]. *)
Definition eptp v : Z := et_eptp (gs_opaque (mv_space (mmio v))).

(** ** Flags *)
Definition set_dr_dirty (b : bool) v : vcpu :=
  let d := cv_dirty v in
  set_cv_dirty (DirtyFlags (cur_state d) (debug_control_dirty d) b (fs_base_dirty d)
                  (pcpu_ctls_dirty d) (pae_pdpt_dirty d)) v.
Definition set_cur_state (x : Z) v : vcpu :=
  let d := cv_dirty v in
  set_cv_dirty (DirtyFlags x (debug_control_dirty d) (dr_dirty d) (fs_base_dirty d)
                  (pcpu_ctls_dirty d) (pae_pdpt_dirty d)) v.
Definition set_debug_control_dirty (b : bool) v : vcpu :=
  let d := cv_dirty v in
  set_cv_dirty (DirtyFlags (cur_state d) b (dr_dirty d) (fs_base_dirty d) (pcpu_ctls_dirty d)
                  (pae_pdpt_dirty d)) v.
Definition set_fs_base_dirty (b : bool) v : vcpu :=
  let d := cv_dirty v in
  set_cv_dirty (DirtyFlags (cur_state d) (debug_control_dirty d) (dr_dirty d) b
                  (pcpu_ctls_dirty d) (pae_pdpt_dirty d)) v.
Definition set_pcpu_ctls_dirty (b : bool) v : vcpu :=
  let d := cv_dirty v in
  set_cv_dirty (DirtyFlags (cur_state d) (debug_control_dirty d) (dr_dirty d) (fs_base_dirty d) b
                  (pae_pdpt_dirty d)) v.
Definition set_pae_pdpt_dirty (b : bool) v : vcpu :=
  let d := cv_dirty v in
  set_cv_dirty (DirtyFlags (cur_state d) (debug_control_dirty d) (dr_dirty d) (fs_base_dirty d)
                  (pcpu_ctls_dirty d) b) v.
End State.
