(* ===== verification/VcpuCr.v ===== *)
(** * Control registers of a virtual CPU (src/core/vcpu.c)

    The values the guest sees in CR0 and CR4 are kept in the state of the virtual CPU; the
    VMCS gets values that the processor accepts, with masks and read shadows that make the
    difference invisible.  Writes of the guest to masked bits exit to [exit_cr_access]. *)

From stdpp Require Import base numbers list gmap.
From Stdlib Require Import ZArith Lia.
From S2P Require Import IntrExc Prelude MemTypes Memslot GpaSpace PageWalker Mmio.
From S2P Require Import EmTypes Emulate EptTree Ept2 VcpuEmu Cpuid Vmx VmxProps VcpuState.
#[local] Open Scope Z_scope.

Definition EIO : Z := 5.
Definition CR0_TS : Z := Z.shiftl 1 3.
Definition CR0_ET : Z := Z.shiftl 1 4.
Definition CR0_NW : Z := Z.shiftl 1 29.
Definition CR0_CD : Z := Z.shiftl 1 30.
Definition CR4_DE : Z := Z.shiftl 1 3.
Definition CR4_PSE : Z := Z.shiftl 1 4.
Definition CR4_MCE : Z := Z.shiftl 1 6.
Definition CR4_PGE : Z := Z.shiftl 1 7.
Definition CR4_SMXE : Z := Z.shiftl 1 14.
Definition VECTOR_GP : Z := 13.
Definition VECTOR_UD : Z := 6.
Definition VECTOR_DB : Z := 1.
Definition ENTRY_CONTROL_LONG_MODE_GUEST : Z := 0x00000200.
Definition ENTRY_CONTROL_LOAD_PAT : Z := 0x00004000.
Definition ENTRY_CONTROL_LOAD_EFER : Z := 0x00008000.
Definition ENABLE_EPT : Z := 0x00000002.
Definition INVALID_EPTP : Z := Z.ones 64.
Definition HAX_EXIT_REALMODE : Z := 3.

Definition VMX_SECONDARY_PROCESSOR_CONTROLS : Z := 0x401e.
Definition VMX_EXCEPTION_BITMAP : Z := 0x4004.
Definition VMX_ENTRY_CONTROLS : Z := 0x4012.
Definition VMX_CR0_MASK : Z := 0x6000.
Definition VMX_CR4_MASK : Z := 0x6002.
Definition VMX_CR0_READ_SHADOW : Z := 0x6004.
Definition VMX_CR4_READ_SHADOW : Z := 0x6006.
Definition VMX_EPTP : Z := 0x201a.
Definition GUEST_CR0 : Z := 0x6800.
Definition GUEST_CR3 : Z := 0x6802.
Definition GUEST_CR4 : Z := 0x6804.
Definition GUEST_EFER : Z := 0x2806.
Definition GUEST_PDPTE0 : Z := 0x280a.
Definition GUEST_PDPTE1 : Z := 0x280c.
Definition GUEST_PDPTE2 : Z := 0x280e.
Definition GUEST_PDPTE3 : Z := 0x2810.

(** The parts of the global [hax] and of [vmx_info] that are used, fixed while virtual CPUs
    run. *)
Record hax_globals := HaxGlobals {
  hg_ug_enable_flag : bool;
  hg_apm_version : Z;
  hg_apm_general_mask : Z;
  hg_apm_general_count : Z;
  hg_cr0_fixed_0 : Z;
  hg_cr0_fixed_1 : Z;
  hg_cr4_fixed_0 : Z;
  hg_cr4_fixed_1 : Z;
}.

Definition not64 (x : Z) : Z := Z.lxor (Z.ones 64) x.

Section Cr.
Context {HH : Host} {PH : PhysHost} {VH : VmxHw} {CH : CpuidHw}.
Context (G : hax_globals) (uninit : cpuid_args_t).
#[local] Notation st := vcpu.

Definition vcpu_read_cr (v : st) (n : Z) : Z :=
  if n =? 0 then cr0 v
  else if n =? 2 then cr2 v
  else if n =? 3 then cr3 v
  else if n =? 4 then cr4 v
  else 0.

Definition vcpu_write_cr (n val : Z) (v : st) : st :=
  if n =? 0 then set_cr0 val v
  else if n =? 2 then set_cr2 val v
  else if n =? 3 then set_cr3 val v
  else if n =? 4 then set_cr4_of val v
  else v.

(** ** Writing the registers to the VMCS *)
Definition set_entry_ctls (x : Z) (v : st) : st :=
  let c := cv_ctls v in
  set_cv_ctls (VmxCtls (vt_pcpu_ctls_base c) (vt_scpu_ctls_base c) (vt_exc_bitmap_base c)
    (vt_scpu_ctls c) (vt_exc_bitmap c) x (vt_cr0_mask c) (vt_cr0_shadow c) (vt_cr4_mask c)
    (vt_cr4_shadow c) (vt_exit_intr_info c)) v.
Definition set_scpu_ctls (x : Z) (v : st) : st :=
  let c := cv_ctls v in
  set_cv_ctls (VmxCtls (vt_pcpu_ctls_base c) (vt_scpu_ctls_base c) (vt_exc_bitmap_base c)
    x (vt_exc_bitmap c) (vt_entry_ctls c) (vt_cr0_mask c) (vt_cr0_shadow c) (vt_cr4_mask c)
    (vt_cr4_shadow c) (vt_exit_intr_info c)) v.
Definition set_exc_bitmap (x : Z) (v : st) : st :=
  let c := cv_ctls v in
  set_cv_ctls (VmxCtls (vt_pcpu_ctls_base c) (vt_scpu_ctls_base c) (vt_exc_bitmap_base c)
    (vt_scpu_ctls c) x (vt_entry_ctls c) (vt_cr0_mask c) (vt_cr0_shadow c) (vt_cr4_mask c)
    (vt_cr4_shadow c) (vt_exit_intr_info c)) v.

Definition vmwrite_efer : M st unit :=
  v ← get;
  let entry_ctls := vt_entry_ctls (cv_ctls v) in
  entry_ctls ← (
    if (has (cr0 v) CR0_PG && has (efer v) IA32_EFER_LME)%bool then
      modify (fun v => set_efer (efer v |! IA32_EFER_LMA) v);;
      mret (entry_ctls |! ENTRY_CONTROL_LONG_MODE_GUEST)
    else
      modify (fun v => set_efer (Z.ldiff (efer v) IA32_EFER_LMA) v);;
      mret (Z.ldiff entry_ctls ENTRY_CONTROL_LONG_MODE_GUEST));
  v ← get;
  (if has (vt_entry_ctls (cv_ctls v)) ENTRY_CONTROL_LOAD_EFER
   then vmwr GUEST_EFER (efer v) else mret tt);;
  if negb (entry_ctls =? vt_entry_ctls (cv_ctls v)) then
    modify (set_entry_ctls entry_ctls);; vmwr VMX_ENTRY_CONTROLS entry_ctls
  else mret tt.

(** The values of the CR0 and CR4 fields. *)
Definition vmcs_cr0 (v : st) : Z :=
  (cr0 v &! hg_cr0_fixed_1 G) |! (hg_cr0_fixed_0 G &! u32 (Z.lnot (CR0_PE |! CR0_PG))).
Definition vmcs_cr0_mask (v : st) : Z :=
  if hg_ug_enable_flag G
  then vt_cr0_mask (cv_ctls v) |! CR0_CD |! CR0_NW |!
       not64 (Z.lxor (hg_cr0_fixed_0 G) (hg_cr0_fixed_1 G) |! CR0_PE)
  else vt_cr0_mask (cv_ctls v) |! CR0_CD |! CR0_NW |! CR0_PE |! CR0_PG |!
       not64 (Z.lxor (hg_cr0_fixed_0 G) (hg_cr0_fixed_1 G)).
Definition vmcs_cr0_shadow (v : st) : Z :=
  (cr0 v &! not64 (vt_cr0_mask (cv_ctls v))) |!
  (vt_cr0_shadow (cv_ctls v) &! vt_cr0_mask (cv_ctls v)).
Definition vmcs_cr4 (v : st) : Z :=
  ((cr4 v |! CR4_MCE) &! hg_cr4_fixed_1 G) |! hg_cr4_fixed_0 G.
Definition vmcs_cr4_mask (v : st) : Z :=
  vt_cr4_mask (cv_ctls v) |! not64 (Z.lxor (hg_cr4_fixed_0 G) (hg_cr4_fixed_1 G)) |!
  CR4_VMXE |! CR4_SMXE |! CR4_MCE |! CR4_PAE.
Definition vmcs_cr4_shadow (v : st) : Z :=
  (cr4 v &! not64 (vt_cr4_mask (cv_ctls v))) |!
  (vt_cr4_shadow (cv_ctls v) &! vt_cr4_mask (cv_ctls v)).

(** Up to the CR4 fields. *)
Definition vmwrite_cr_fields : M st unit :=
  v ← get;
  hax_assert (negb (eptp v =? INVALID_EPTP));;
  vmwr GUEST_CR3 (cr3 v);;
  (if pae_pdpt_dirty (cv_dirty v) then
     pdpte0 ← of_option (cv_pae_pdptes v !! 0%nat); vmwr GUEST_PDPTE0 pdpte0;;
     pdpte1 ← of_option (cv_pae_pdptes v !! 1%nat); vmwr GUEST_PDPTE1 pdpte1;;
     pdpte2 ← of_option (cv_pae_pdptes v !! 2%nat); vmwr GUEST_PDPTE2 pdpte2;;
     pdpte3 ← of_option (cv_pae_pdptes v !! 3%nat); vmwr GUEST_PDPTE3 pdpte3;;
     modify (set_pae_pdpt_dirty false)
   else mret tt);;
  vmwr VMX_EPTP (eptp v);;
  vmwr GUEST_CR0 (vmcs_cr0 v);;
  vmwr VMX_CR0_MASK (vmcs_cr0_mask v);;
  vmwr VMX_CR0_READ_SHADOW (vmcs_cr0_shadow v);;
  vmwr GUEST_CR4 (vmcs_cr4 v);;
  vmwr VMX_CR4_MASK (vmcs_cr4_mask v);;
  vmwr VMX_CR4_READ_SHADOW (vmcs_cr4_shadow v).

(** From there on; [entry_ctls] is read before EFER is cleared. *)
Definition vmwrite_cr_controls : M st unit :=
  v ← get;
  let entry_ctls := vt_entry_ctls (cv_ctls v) in
  let pcpu_ctls := vt_pcpu_ctls_base (cv_ctls v) in
  let scpu_ctls := vt_scpu_ctls_base (cv_ctls v) |! ENABLE_EPT in
  let exc_bitmap := vt_exc_bitmap_base (cv_ctls v) in
  (if (negb (has (cr4 v) CR4_PAE) && has (cr0 v) CR0_PG)%bool
   then modify (set_efer 0) else mret tt);;
  let entry_ctls :=
    if (has (cr4 v) CR4_PAE && has (cr0 v) CR0_PG && has (cr0 v) CR0_PE)%bool
    then entry_ctls |! ENTRY_CONTROL_LOAD_EFER
    else Z.ldiff entry_ctls ENTRY_CONTROL_LOAD_EFER in
  let entry_ctls := entry_ctls |! ENTRY_CONTROL_LOAD_PAT in
  (if negb (pcpu_ctls =? vc_pcpu_ctls (intr v)) then
     modify (fun v => set_pcpu_ctls_dirty true (set_intr (set_pcpu_ctls pcpu_ctls (intr v)) v))
   else mret tt);;
  (if negb (scpu_ctls =? vt_scpu_ctls (cv_ctls v)) then
     modify (set_scpu_ctls scpu_ctls);; vmwr VMX_SECONDARY_PROCESSOR_CONTROLS scpu_ctls
   else mret tt);;
  (if negb (exc_bitmap =? vt_exc_bitmap (cv_ctls v)) then
     modify (set_exc_bitmap exc_bitmap);; vmwr VMX_EXCEPTION_BITMAP exc_bitmap
   else mret tt);;
  (if negb (entry_ctls =? vt_entry_ctls (cv_ctls v)) then
     modify (set_entry_ctls entry_ctls);; vmwr VMX_ENTRY_CONTROLS entry_ctls
   else mret tt);;
  vmwrite_efer.

Definition vmwrite_cr : M st unit := vmwrite_cr_fields;; vmwrite_cr_controls.

(** ** PAE page-directory pointers *)

(** [n] little-endian words of 8 bytes. *)
Fixpoint words64 (n : nat) (bs : list Z) : list Z :=
  match n with
  | O => []
  | S n => le_word (take 8 bs) :: words64 n (drop 8 bs)
  end.
Definition pdpt_size : Z := 32.

Definition vcpu_prepare_pae_pdpt : M st Z :=
  v ← get;
  let gpa := cr3 v &! 0xffffffe0 in
  r ← in_mmio_of (in_space (gpa_space_read_data gpa pdpt_size));
  let '(ret, data) := r in
  let old := concat (map (le_bytes 8) (cv_pae_pdptes v)) in
  modify (set_cv_pae_pdptes (words64 4 (data ++ drop (length data) old)));;
  if negb (ret =? pdpt_size) then mret (if ret <? 0 then ret else - EIO)
  else modify (set_pae_pdpt_dirty true);; mret 0.

(** ** The exit handler *)
Definition qual_creg (q : Z) : Z := q &! 0xf.
Definition qual_type (q : Z) : Z := (q >>! 4) &! 0x3.
Definition qual_gpr (q : Z) : Z := (q >>! 8) &! 0xf.
Definition qual_lmsw_source (q : Z) : Z := (q >>! 16) &! 0xffff.

(** The registers are written with the VMCS loaded; [false] when it cannot be loaded. *)
Definition load_write_cr_put : M st bool :=
  vmcs_err ← in_vmx load_vmcs;
  if negb (vmcs_err =? 0) then set_panic;; mret false
  else
    vmwrite_cr;;
    vmcs_err ← in_vmx put_vmcs;
    (if negb (vmcs_err =? 0) then set_panic else mret tt);;
    mret true.

(** The outcome of the checks on a write by the guest. *)
Inductive cr_check :=
| CrFault
| CrRealmode
| CrIgnore
| CrWrite (is_ept_pae is_cpuid_changing : bool).

Definition check_cr0_write (v : st) (old_val val : Z) : cr_check :=
  if (has val CR0_PG && negb (has val CR0_PE))%bool then CrFault
  else if (negb (has (cr0 v) CR0_PG) && has val CR0_PG && has (efer v) IA32_EFER_LME &&
           negb (has (cr4 v) CR4_PAE))%bool then CrFault
  else if (negb (hg_ug_enable_flag G) && has old_val CR0_PE && negb (has val CR0_PE))%bool
  then CrRealmode
  else
    let cr0_pae_triggers := CR0_CD |! CR0_NW |! CR0_PG in
    CrWrite (has val CR0_PG && has (cr4 v) CR4_PAE && negb (has (efer v) IA32_EFER_LME) &&
             has (Z.lxor val old_val) cr0_pae_triggers) false.

Definition check_cr4_write (v : st) (old_val val : Z) : cr_check :=
  if (has (efer v) IA32_EFER_LMA && negb (has val CR4_PAE))%bool then CrFault
  else
    let cr4_pae_triggers := CR4_PAE |! CR4_PGE |! CR4_PSE in
    CrWrite (has val CR4_PAE && has (cr0 v) CR0_PG && negb (has (efer v) IA32_EFER_LME) &&
             has (Z.lxor val old_val) cr4_pae_triggers)
            (has (Z.lxor val old_val) CR4_OSXSAVE).

Definition check_cr_write (v : st) (cr val : Z) : cr_check :=
  if cr =? 8 then CrIgnore
  else
    let old_val := vcpu_read_cr v cr in
    if cr =? 0 then check_cr0_write v old_val val
    else if cr =? 4 then check_cr4_write v old_val val
    else CrIgnore.

(** [cpuid_update] on the table of the guest. *)
Definition update_guest_cpuid : M st unit :=
  v ← get;
  cpuid ← of_option (cv_cpuid v);
  cpuid ← in_cpuid (cpuid_update uninit cpuid (cr4 v) (cv_xcr0 v));
  modify (set_cv_cpuid (Some cpuid)).

(** [true]: go on after the [switch]. *)
Definition mov_to_cr (cr val : Z) : M st (option Z) :=
  v ← get;
  match check_cr_write v cr val with
  | CrIgnore => mret None
  | CrFault => inject VECTOR_GP 0;; mret (Some HAX_RESUME)
  | CrRealmode => modify (set_tunnel_status HAX_EXIT_REALMODE);; mret (Some HAX_EXIT)
  | CrWrite is_ept_pae is_cpuid_changing =>
      modify (vcpu_write_cr cr val);;
      ret ← (if is_ept_pae : bool then vcpu_prepare_pae_pdpt else mret 0);
      if negb (ret =? 0) then set_panic;; mret (Some HAX_RESUME)
      else
        (if is_cpuid_changing : bool then update_guest_cpuid else mret tt);;
        ok ← load_write_cr_put;
        mret (if ok : bool then None else Some HAX_RESUME)
  end.

Definition exit_cr_access : M st Z :=
  modify set_tunnel_reason;;
  v ← get;
  let qual := qualification v in
  let cr := qual_creg qual in
  ret ← (
    if qual_type qual =? 0 then mov_to_cr cr (gpr v (qual_gpr qual))
    else if qual_type qual =? 1 then
      modify (set_gpr (qual_gpr qual) (vcpu_read_cr v cr));; mret None
    else if qual_type qual =? 2 then
      modify (fun v => set_cr0 (Z.ldiff (cr0 v) CR0_TS) v);;
      ok ← load_write_cr_put;
      mret (if ok : bool then None else Some HAX_RESUME)
    else
      modify (fun v => set_cr0 (Z.ldiff (cr0 v) 0xf |! (qual_lmsw_source qual &! 0xf)) v);;
      ok ← load_write_cr_put;
      mret (if ok : bool then None else Some HAX_RESUME));
  match ret with
  | Some r => mret r
  | None => modify advance_rip;; mret HAX_RESUME
  end.
End Cr.

(** ** Running operations: access to the VMCS *)

(** The value of a field after another one has been written. *)
Lemma value_insert m f g x : vmcs_value (<[f := x]> m) g = if f =? g then x else vmcs_value m g.
Proof.
  unfold vmcs_value. destruct (Z.eqb_spec f g) as [->|Hn].
  - by rewrite lookup_insert_eq.
  - by rewrite lookup_insert_ne.
Qed.

(** Fields are compared by evaluation. *)
Ltac fields := rewrite !value_insert; cbn -[vmcs_value field_value].

Section Access.
Context {HH : Host} {PH : PhysHost} {VH : VmxHw}.
Implicit Types v : vcpu.

Definition upd_vmcs (f : gmap Z Z -> gmap Z Z) v : vcpu :=
  set_vmx (VmxSt _ (cv_cpu v) (f (vmcs v)) (panicked v)) v.
Definition wr (f x : Z) v : vcpu := upd_vmcs (<[f := field_value f x]>) v.

Definition in_section v : Prop := vmx_inv (cv_cpu v) /\ 0 < depth (cv_cpu v).

Lemma vmwr_sec f x v : in_section v -> vmwr f x v = Some (tt, wr f x v).
Proof. intros [Hc Hd]. unfold vmwr, in_vmx. by rewrite vmwrite_sec. Qed.

Lemma vmrd_sec f v : in_section v -> vmrd f v = Some (vmcs_value (vmcs v) f, upd_vmcs id v).
Proof. intros [Hc Hd]. unfold vmrd, in_vmx. by rewrite vmread_sec. Qed.
End Access.
