(* ===== verification/VcpuMsr.v ===== *)
(** * Model-specific registers of a virtual CPU (src/core/vcpu.c)

    [handle_msr_read] and [handle_msr_write] serve the guest's RDMSR and WRMSR and the calls
    of user space.  Registers are kept in the state of the virtual CPU and, where the guest
    uses them directly, written to the VMCS.  A result other than 0 makes the exit handler
    inject a general protection fault. *)

From stdpp Require Import base numbers list gmap.
From Stdlib Require Import ZArith Lia.
From S2P Require Import IntrExc Prelude MemTypes Memslot GpaSpace PageWalker Mmio.
From S2P Require Import EmTypes Emulate EptTree Ept2 VcpuEmu Cpuid Vmx VcpuState VcpuCr.
#[local] Open Scope Z_scope.

Definition IA32_P5_MC_ADDR : Z := 0x0.
Definition IA32_P5_MC_TYPE : Z := 0x1.
Definition IA32_TSC : Z := 0x10.
Definition IA32_PLATFORM_ID : Z := 0x17.
Definition IA32_APIC_BASE : Z := 0x1b.
Definition IA32_EBC_HARD_POWERON : Z := 0x2a.
Definition IA32_EBC_SOFT_POWERON : Z := 0x2b.
Definition IA32_EBC_FREQUENCY_ID : Z := 0x2c.
Definition IA32_THERM_DIODE_OFFSET : Z := 0x3f.
Definition IA32_BIOS_UPDT_TRIG : Z := 0x79.
Definition IA32_BIOS_SIGN_ID : Z := 0x8b.
Definition IA32_PMC0 : Z := 0xc1.
Definition IA32_PMC1 : Z := 0xc2.
Definition IA32_PMC2 : Z := 0xc3.
Definition IA32_PMC3 : Z := 0xc4.
Definition IA32_FSB_FREQ : Z := 0xcd.
Definition IA32_TEMP_TARGET : Z := 0xee.
Definition IA32_MTRRCAP : Z := 0xfe.
Definition IA32_BBL_CR_CTL3 : Z := 0x11e.
Definition IA32_SYSENTER_CS : Z := 0x174.
Definition IA32_SYSENTER_ESP : Z := 0x175.
Definition IA32_SYSENTER_EIP : Z := 0x176.
Definition IA32_MCG_CAP : Z := 0x179.
Definition IA32_MCG_STATUS : Z := 0x17a.
Definition IA32_MCG_CTL : Z := 0x17b.
Definition IA32_PERFEVTSEL0 : Z := 0x186.
Definition IA32_PERFEVTSEL1 : Z := 0x187.
Definition IA32_PERFEVTSEL2 : Z := 0x188.
Definition IA32_PERFEVTSEL3 : Z := 0x189.
Definition IA32_MISC_ENABLE : Z := 0x1a0.
Definition IA32_DEBUGCTL : Z := 0x1d9.
Definition IA32_MTRR_PHYSBASE0 : Z := 0x200.
Definition IA32_MTRR_PHYSMASK9 : Z := 0x213.
Definition MTRRFIX64K_00000 : Z := 0x250.
Definition MTRRFIX16K_80000 : Z := 0x258.
Definition MTRRFIX16K_A0000 : Z := 0x259.
Definition MTRRFIX4K_C0000 : Z := 0x268.
Definition MTRRFIX4K_F8000 : Z := 0x26f.
Definition IA32_CR_PAT : Z := 0x277.
Definition IA32_MC0_CTL2 : Z := 0x280.
Definition IA32_MC8_CTL2 : Z := 0x288.
Definition IA32_MTRR_DEF_TYPE : Z := 0x2ff.
Definition IA32_PERF_CAPABILITIES : Z := 0x345.
Definition IA32_MC0_CTL : Z := 0x400.
Definition IA32_MC0_STATUS : Z := 0x401.
Definition IA32_MC0_ADDR : Z := 0x402.
Definition IA32_MC0_MISC : Z := 0x403.
Definition IA32_CPUID_FEATURE_MASK : Z := 0x478.
Definition IA32_EFER : Z := 0xc0000080.
Definition IA32_STAR : Z := 0xc0000081.
Definition IA32_LSTAR : Z := 0xc0000082.
Definition IA32_CSTAR : Z := 0xc0000083.
Definition IA32_SF_MASK : Z := 0xc0000084.
Definition IA32_FS_BASE : Z := 0xc0000100.
Definition IA32_GS_BASE : Z := 0xc0000101.
Definition IA32_KERNEL_GS_BASE : Z := 0xc0000102.
Definition IA32_TSC_AUX : Z := 0xc0000103.
Definition IA32_EFER_SCE : Z := Z.shiftl 1 0.
Definition USE_TSC_OFFSETTING : Z := 0x00000008.
Definition VMX_TSC_OFFSET : Z := 0x2010.
Definition GUEST_FS_BASE : Z := 0x680e.
Definition GUEST_GS_BASE : Z := 0x6810.
Definition GUEST_SYSENTER_CS : Z := 0x482a.
Definition GUEST_SYSENTER_ESP : Z := 0x6824.
Definition GUEST_SYSENTER_EIP : Z := 0x6826.
Definition GUEST_PAT : Z := 0x2804.
Definition APIC_BASE_BSP : Z := Z.shiftl 1 8.
Definition APIC_BASE_ENABLE : Z := Z.shiftl 1 11.
Definition APIC_BASE_DEFAULT_ADDR : Z := 0xfee00000.
Definition APIC_BASE_ADDR_MASK : Z := Z.shiftl (Z.shiftl 1 24 - 1) 12.
Definition APIC_BASE_MASK : Z := APIC_BASE_BSP |! APIC_BASE_ENABLE |! APIC_BASE_ADDR_MASK.

Definition gmsr_list : list Z := [IA32_STAR; IA32_LSTAR; IA32_CSTAR; IA32_SF_MASK; IA32_KERNEL_GS_BASE].

(** The cases of the [switch]. *)
Definition one_of (msr : Z) (l : list Z) : bool := existsb (Z.eqb msr) l.

Section Msr.
Context {HH : Host} {PH : PhysHost} {VH : VmxHw} {CH : CpuidHw}.
Context (G : hax_globals) (uninit : cpuid_args_t).
#[local] Notation st := vcpu.

(** ** Setters *)
Definition set_gstate_gmsr (l : list vmx_msr) (v : st) : st :=
  let g := cv_gstate v in
  set_cv_gstate (GState l (apm_pmc_msrs g) (apm_pes_msrs g) (tsc_aux g) (apic_base g) (gmsr_autoload g)) v.
Definition set_gstate_pmc (l : list Z) (v : st) : st :=
  let g := cv_gstate v in
  set_cv_gstate (GState (gmsr g) l (apm_pes_msrs g) (tsc_aux g) (apic_base g) (gmsr_autoload g)) v.
Definition set_gstate_pes (l : list Z) (v : st) : st :=
  let g := cv_gstate v in
  set_cv_gstate (GState (gmsr g) (apm_pmc_msrs g) l (tsc_aux g) (apic_base g) (gmsr_autoload g)) v.
Definition set_gstate_tsc_aux (x : Z) (v : st) : st :=
  let g := cv_gstate v in
  set_cv_gstate (GState (gmsr g) (apm_pmc_msrs g) (apm_pes_msrs g) x (apic_base g) (gmsr_autoload g)) v.
Definition set_gstate_apic_base (x : Z) (v : st) : st :=
  let g := cv_gstate v in
  set_cv_gstate (GState (gmsr g) (apm_pmc_msrs g) (apm_pes_msrs g) (tsc_aux g) x (gmsr_autoload g)) v.
Definition upd_mtrr (f : mtrr_t -> mtrr_t) (v : st) : st := set_cv_mtrr (f (cv_mtrr v)) v.
Definition set_fs_base (x : Z) (v : st) : st :=
  let e := emu v in
  let d := ev_fs e in
  set_emu (EmuVcpu (ev_mmio e) (ev_regs e) (ev_rip e) (ev_cs e) (ev_ss e) (ev_ds e) (ev_es e)
    (SegmentDesc (sd_selector d) (sd_dummy d) (sd_limit d) x (sd_ar d) (sd_ipad d)) (ev_gs e)
    (ev_rflags_dirty e) (ev_rip_dirty e) (ev_interruptibility_dirty e) (ev_exit_reason e)
    (ev_exit_qualification e) (ev_exit_gpa e) (ev_tunnel e) (ev_fastmmio e)) v.

(** The time stamp counter of the processor. *)
Definition rdtsc : M st Z :=
  v ← get;
  let '(t, h) := ia32_rdtsc (vx_hw (cv_cpu v)) in
  modify (fun v => set_cv_cpu (set_vx_hw h (cv_cpu v)) v);; mret t.
Definition rdmsr (msr : Z) : M st Z :=
  v ← get;
  let '(x, h) := ia32_rdmsr msr (vx_hw (cv_cpu v)) in
  modify (fun v => set_cv_cpu (set_vx_hw h (cv_cpu v)) v);; mret x.

(** ** Memory type range registers and other ranges: the value is [None] when the result is 1 *)
Definition misc_msr_read (msr : Z) : M st (option Z) :=
  v ← get;
  if ((IA32_MTRR_PHYSBASE0 <=? msr) && (msr <=? IA32_MTRR_PHYSMASK9))%bool then
    let i := (msr >>! 1) &! 0x7f in
    hax_assert (i <? NUM_VARIABLE_MTRRS);;
    var ← of_option (mtrr_var (cv_mtrr v) !! Z.to_nat i);
    mret (Some (if has msr 1 then mv_mask var else mv_base var))
  else if ((MTRRFIX16K_80000 <=? msr) && (msr <=? MTRRFIX16K_A0000))%bool then
    x ← of_option (mtrr_fixed16k (cv_mtrr v) !! Z.to_nat (msr &! 0x1)); mret (Some x)
  else if ((MTRRFIX4K_C0000 <=? msr) && (msr <=? MTRRFIX4K_F8000))%bool then
    x ← of_option (mtrr_fixed4k (cv_mtrr v) !! Z.to_nat (msr &! 0x7)); mret (Some x)
  else if ((IA32_MC0_CTL2 <=? msr) && (msr <=? IA32_MC8_CTL2) ||
           (0x300 <=? msr) && (msr <=? 0x3ff))%bool then mret (Some 0)
  else mret None.

Definition misc_msr_write (msr val : Z) : M st Z :=
  v ← get;
  if ((IA32_MTRR_PHYSBASE0 <=? msr) && (msr <=? IA32_MTRR_PHYSMASK9))%bool then
    let i := (msr >>! 1) &! 0x7f in
    hax_assert (i <? NUM_VARIABLE_MTRRS);;
    var ← of_option (mtrr_var (cv_mtrr v) !! Z.to_nat i);
    let var := if has msr 1 then MtrrVar (mv_base var) val else MtrrVar val (mv_mask var) in
    modify (upd_mtrr (fun m => Mtrr (mtrr_cap m) (mtrr_def_type m) (mtrr_fixed64k m)
      (mtrr_fixed16k m) (mtrr_fixed4k m) (<[Z.to_nat i := var]> (mtrr_var m))));;
    mret 0
  else if ((MTRRFIX16K_80000 <=? msr) && (msr <=? MTRRFIX16K_A0000))%bool then
    modify (upd_mtrr (fun m => Mtrr (mtrr_cap m) (mtrr_def_type m) (mtrr_fixed64k m)
      (<[Z.to_nat (msr &! 0x1) := val]> (mtrr_fixed16k m)) (mtrr_fixed4k m) (mtrr_var m)));;
    mret 0
  else if ((MTRRFIX4K_C0000 <=? msr) && (msr <=? MTRRFIX4K_F8000))%bool then
    modify (upd_mtrr (fun m => Mtrr (mtrr_cap m) (mtrr_def_type m) (mtrr_fixed64k m)
      (mtrr_fixed16k m) (<[Z.to_nat (msr &! 0x7) := val]> (mtrr_fixed4k m)) (mtrr_var m)));;
    mret 0
  else if ((IA32_MC0_CTL2 <=? msr) && (msr <=? IA32_MC8_CTL2) ||
           (0x300 <=? msr) && (msr <=? 0x3ff))%bool then mret 0
  else mret 1.

(** ** Reading *)

(** The loop over the loaded MSRs: the value of the first with this index. *)
Fixpoint gmsr_find (msr : Z) (l : list vmx_msr) : Z :=
  match l with
  | [] => 0
  | m :: l => if vm_entry m =? msr then vm_value m else gmsr_find msr l
  end.

(** MSRs that read as constants. *)
Definition msr_const (msr : Z) : option Z :=
  if msr =? IA32_FEATURE_CONTROL then Some 0x5
  else if msr =? IA32_PLATFORM_ID then Some 0x18000000000000
  else if msr =? IA32_MCG_CAP then Some 1
  else if msr =? IA32_MCG_STATUS then Some 0
  else if msr =? IA32_MCG_CTL then Some 0x3
  else if one_of msr [IA32_MC0_CTL; IA32_P5_MC_TYPE; IA32_MC0_STATUS] then Some 0
  else if one_of msr [IA32_P5_MC_ADDR; IA32_MC0_ADDR] then Some 0
  else if msr =? IA32_MC0_MISC then Some 0
  else if msr =? IA32_THERM_DIODE_OFFSET then Some 0
  else if msr =? IA32_FSB_FREQ then Some 4
  else if msr =? IA32_TEMP_TARGET then Some 0x86791b00
  else if msr =? IA32_BBL_CR_CTL3 then Some 0xbe702111
  else if msr =? IA32_DEBUGCTL then Some 0
  else if msr =? IA32_EBC_FREQUENCY_ID then Some 0
  else if msr =? IA32_EBC_HARD_POWERON then Some 0
  else if msr =? IA32_EBC_SOFT_POWERON then Some 0
  else if msr =? IA32_BIOS_SIGN_ID then Some 0x67311111
  else if msr =? IA32_MISC_ENABLE then Some (Z.shiftl 1 11 |! Z.shiftl 1 12)
  else if msr =? IA32_PERF_CAPABILITIES then Some 0
  else None.

(** [Some val] is the result 0 with the value, [None] the result 1. *)
Definition handle_msr_read (msr : Z) : M st (option Z) :=
  v ← get;
  match msr_const msr with
  | Some x => mret (Some x)
  | None =>
    if msr =? IA32_TSC then t ← rdtsc; mret (Some (cv_tsc_offset v +! t))
    else if msr =? IA32_APIC_BASE then mret (Some (apic_base (cv_gstate v)))
    else if msr =? IA32_EFER then mret (Some (efer v))
    else if one_of msr gmsr_list then mret (Some (gmsr_find msr (gmsr (cv_gstate v))))
    else if msr =? IA32_TSC_AUX then
      rdtscp ← in_cpuid (cpu_has_feature uninit X86_FEATURE_RDTSCP);
      mret (if rdtscp : bool then Some (tsc_aux (cv_gstate v) &! 0xFFFFFFFF) else None)
    else if msr =? IA32_FS_BASE then
      if fs_base_dirty (cv_dirty v) then mret (Some (sd_base (ev_fs (emu v))))
      else x ← vmrd GUEST_FS_BASE; mret (Some x)
    else if msr =? IA32_GS_BASE then x ← vmrd GUEST_GS_BASE; mret (Some x)
    else if msr =? IA32_SYSENTER_CS then mret (Some (cv_sysenter_cs v))
    else if msr =? IA32_SYSENTER_ESP then mret (Some (cv_sysenter_esp v))
    else if msr =? IA32_SYSENTER_EIP then mret (Some (cv_sysenter_eip v))
    else if msr =? IA32_MTRRCAP then mret (Some (mtrr_cap (cv_mtrr v)))
    else if msr =? MTRRFIX64K_00000 then mret (Some (mtrr_fixed64k (cv_mtrr v)))
    else if msr =? IA32_CR_PAT then mret (Some (cv_cr_pat v))
    else if msr =? IA32_MTRR_DEF_TYPE then mret (Some (mtrr_def_type (cv_mtrr v)))
    else if msr =? IA32_CPUID_FEATURE_MASK then
      cpuid ← of_option (cv_cpuid v); mret (Some (cpuid_get_features_mask cpuid))
    else if one_of msr [IA32_PMC0; IA32_PMC1; IA32_PMC2; IA32_PMC3] then
      if negb (hg_apm_version G =? 0) then
        x ← of_option (apm_pmc_msrs (cv_gstate v) !! Z.to_nat (msr - IA32_PMC0));
        mret (Some (x &! hg_apm_general_mask G))
      else mret (Some 0)
    else if one_of msr [IA32_PERFEVTSEL0; IA32_PERFEVTSEL1; IA32_PERFEVTSEL2; IA32_PERFEVTSEL3] then
      if negb (hg_apm_version G =? 0) then
        x ← of_option (apm_pes_msrs (cv_gstate v) !! Z.to_nat (msr - IA32_PERFEVTSEL0));
        mret (Some x)
      else mret (Some 0)
    else misc_msr_read msr
  end.

(** ** Writing *)
Definition is_pat_valid (val : Z) : bool :=
  if negb (val &! 0xF8F8F8F8F8F8F8F8 =? 0) then false
  else val |! ((val &! 0x0202020202020202) <<! 1) =? val.

Definition vcpu_is_bsp (v : st) : bool := rs_bsp_vcpu_id (cv_run v) =? rs_vcpu_id (cv_run v).

Definition vcpu_set_apic_base (val : Z) : M st Z :=
  v ← get;
  if negb (Z.ldiff val APIC_BASE_MASK =? 0) then mret (- EINVAL)
  else if negb (val &! APIC_BASE_ADDR_MASK =? APIC_BASE_DEFAULT_ADDR) then mret (- EINVAL)
  else if (has val APIC_BASE_BSP && negb (vcpu_is_bsp v))%bool then mret (- EINVAL)
  else modify (set_gstate_apic_base val);; mret 0.

Definition efer_writable : Z := IA32_EFER_SCE |! IA32_EFER_LME |! IA32_EFER_LMA |! IA32_EFER_XD.

Definition write_efer (val : Z) (by_host : bool) : M st Z :=
  v ← get;
  if negb (Z.ldiff val efer_writable =? 0) then mret 1
  else if (negb by_host && has (cr0 v) CR0_PG &&
           negb (Z.lxor (val &! IA32_EFER_LME) (efer v &! IA32_EFER_LME) =? 0))%bool then mret 1
  else
    modify (set_efer val);;
    host_efer ← rdmsr IA32_EFER;
    v ← get;
    (if (negb (has host_efer IA32_EFER_LMA) && has (efer v) IA32_EFER_LME)%bool
     then set_panic else vmwrite_efer);;
    mret 0.

(** The loop over [gmsr_list]. *)
Fixpoint gmsr_store (msr val : Z) (index : list Z) (l : list vmx_msr) : option (list vmx_msr) :=
  match index with
  | [] => Some l
  | i :: index =>
      match l with
      | [] => None
      | m :: l => if i =? msr then Some (VmxMsr msr val :: l)
                  else (fun l => m :: l) <$> gmsr_store msr val index l
      end
  end.

(** MSRs whose writes are ignored. *)
Definition msr_write_ignored : list Z :=
  [IA32_BIOS_SIGN_ID; IA32_MCG_STATUS; IA32_MC0_CTL; IA32_MC0_STATUS; IA32_MC0_ADDR; IA32_MC0_MISC;
   IA32_DEBUGCTL; IA32_MISC_ENABLE; IA32_BIOS_UPDT_TRIG; IA32_EBC_FREQUENCY_ID;
   IA32_EBC_HARD_POWERON; IA32_EBC_SOFT_POWERON].

Definition handle_msr_write (msr val : Z) (by_host : bool) : M st Z :=
  v ← get;
  if msr =? IA32_TSC then
    t ← rdtsc;
    modify (set_cv_tsc_offset (val -! t));;
    (if has (vc_pcpu_ctls (intr v)) USE_TSC_OFFSETTING
     then vmwr VMX_TSC_OFFSET (val -! t) else mret tt);;
    mret 0
  else if one_of msr msr_write_ignored then mret 0
  else if msr =? IA32_CPUID_FEATURE_MASK then
    cpuid ← of_option (cv_cpuid v);
    modify (set_cv_cpuid (Some (cpuid_set_features_mask cpuid val)));; mret 0
  else if msr =? IA32_EFER then write_efer val by_host
  else if one_of msr gmsr_list then
    l ← of_option (gmsr_store msr val gmsr_list (gmsr (cv_gstate v)));
    modify (set_gstate_gmsr l);; mret 0
  else if msr =? IA32_TSC_AUX then
    rdtscp ← in_cpuid (cpu_has_feature uninit X86_FEATURE_RDTSCP);
    if (negb rdtscp || negb (val >>! 32 =? 0))%bool then mret 1
    else modify (set_gstate_tsc_aux val);; mret 0
  else if msr =? IA32_FS_BASE then
    modify (fun v => set_fs_base_dirty true (set_fs_base val v));; mret 0
  else if msr =? IA32_GS_BASE then vmwr GUEST_GS_BASE val;; mret 0
  else if msr =? IA32_SYSENTER_CS then
    modify (set_cv_sysenter_cs (val &! 0xffff));;
    vmwr GUEST_SYSENTER_CS (val &! 0xffff);; mret 0
  else if msr =? IA32_SYSENTER_EIP then
    modify (set_cv_sysenter_eip val);; vmwr GUEST_SYSENTER_EIP val;; mret 0
  else if msr =? IA32_SYSENTER_ESP then
    modify (set_cv_sysenter_esp val);; vmwr GUEST_SYSENTER_ESP val;; mret 0
  else if msr =? IA32_MTRRCAP then
    modify (upd_mtrr (fun m => Mtrr val (mtrr_def_type m) (mtrr_fixed64k m) (mtrr_fixed16k m)
      (mtrr_fixed4k m) (mtrr_var m)));; mret 0
  else if msr =? MTRRFIX64K_00000 then
    modify (upd_mtrr (fun m => Mtrr (mtrr_cap m) (mtrr_def_type m) val (mtrr_fixed16k m)
      (mtrr_fixed4k m) (mtrr_var m)));; mret 0
  else if msr =? IA32_CR_PAT then
    if negb (is_pat_valid val) then mret 1
    else modify (set_cv_cr_pat val);; vmwr GUEST_PAT val;; mret 0
  else if msr =? IA32_MTRR_DEF_TYPE then
    modify (upd_mtrr (fun m => Mtrr (mtrr_cap m) val (mtrr_fixed64k m) (mtrr_fixed16k m)
      (mtrr_fixed4k m) (mtrr_var m)));; mret 0
  else if msr =? IA32_APIC_BASE then vcpu_set_apic_base val
  else if one_of msr [IA32_PMC0; IA32_PMC1; IA32_PMC2; IA32_PMC3] then
    (if negb (hg_apm_version G =? 0)
     then modify (fun v => set_gstate_pmc (<[Z.to_nat (msr - IA32_PMC0) := val &! 0xffffffff]>
                             (apm_pmc_msrs (cv_gstate v))) v)
     else mret tt);; mret 0
  else if one_of msr [IA32_PERFEVTSEL0; IA32_PERFEVTSEL1; IA32_PERFEVTSEL2; IA32_PERFEVTSEL3] then
    (if negb (hg_apm_version G =? 0)
     then modify (fun v => set_gstate_pes (<[Z.to_nat (msr - IA32_PERFEVTSEL0) := val &! 0xffffffff]>
                             (apm_pes_msrs (cv_gstate v))) v)
     else mret tt);; mret 0
  else misc_msr_write msr val.

(** ** The exit handlers and the calls of user space *)
Definition exit_msr_read : M st Z :=
  v ← get;
  let msr := gpr_low v RCX 32 in
  modify set_tunnel_reason;;
  r ← handle_msr_read msr;
  match r with
  | Some val =>
      modify (fun v => set_gpr RDX ((val >>! 32) &! 0xffffffff) (set_gpr RAX (val &! 0xffffffff) v));;
      modify advance_rip;; mret HAX_RESUME
  | None => inject VECTOR_GP 0;; mret HAX_RESUME
  end.

Definition exit_msr_write : M st Z :=
  v ← get;
  let msr := gpr_low v RCX 32 in
  let val := (gpr_low v RDX 32 <<! 32) |! gpr_low v RAX 32 in
  modify set_tunnel_reason;;
  r ← handle_msr_write msr val false;
  if negb (r =? 0) then inject VECTOR_GP 0;; mret HAX_RESUME
  else modify advance_rip;; mret HAX_RESUME.

(** The index is truncated to 32 bits. *)
Definition vcpu_get_msr (entry : Z) : M st (option Z) := handle_msr_read (u32 entry).
Definition vcpu_set_msr (entry val : Z) : M st Z := handle_msr_write (u32 entry) val true.
End Msr.
