(* ===== verification/VcpuExit.v ===== *)
(** * Exit handlers and calls of user space (src/core/vcpu.c)

    The handlers of the exits that need neither memory nor the VMCS beyond single fields:
    exceptions, interrupts, CPUID, HLT, debug registers, XSETBV and unsupported
    instructions; and the calls by which user space changes XCR0, the debug registers and
    CPUID. *)

From stdpp Require Import base numbers list gmap.
From Stdlib Require Import ZArith Lia.
From S2P Require Import IntrExc Prelude MemTypes Memslot GpaSpace PageWalker Mmio.
From S2P Require Import EmTypes Emulate EptTree Ept2 VcpuEmu Cpuid Vmx VcpuState VcpuCr.
#[local] Open Scope Z_scope.

Definition VECTOR_NMI : Z := 2.
Definition VECTOR_BP : Z := 3.
Definition VECTOR_MC : Z := 18.
Definition HAX_EXIT_INTERRUPT : Z := 4.
Definition HAX_EXIT_HLT : Z := 6.
Definition HAX_EXIT_PAUSED : Z := 8.
Definition HAX_EXIT_DEBUG : Z := 11.
Definition VMX_EXIT_PENDING_INTERRUPT : Z := 7.
Definition NMI_WINDOW_EXITING : Z := 0x00400000.
Definition GUEST_DR7 : Z := 0x681a.
Definition GUEST_SS_AR : Z := 0x4818.
Definition DR6_BD : Z := Z.shiftl 1 13.
Definition DR7_GD : Z := Z.shiftl 1 13.
Definition DR6_SETBITS : Z := 0xFFFF0FF0.
Definition DR7_SETBITS : Z := Z.shiftl 1 10.
Definition HAX_DEBUG_ENABLE : Z := Z.shiftl 1 0.
Definition HAX_DEBUG_STEP : Z := Z.shiftl 1 1.
Definition HAX_DEBUG_USE_SW_BP : Z := Z.shiftl 1 2.
Definition HAX_DEBUG_USE_HW_BP : Z := Z.shiftl 1 3.
Definition HAX_MAX_CPUID_ENTRIES : Z := 0x40.
Definition XCR_XFEATURE_ENABLED_MASK : Z := 0.
Definition XFEATURE_MASK_FP : Z := Z.shiftl 1 0.
Definition XFEATURE_MASK_SSE : Z := Z.shiftl 1 1.
Definition XFEATURE_MASK_YMM : Z := Z.shiftl 1 2.
Definition XFEATURE_MASK_BNDREGS : Z := Z.shiftl 1 3.
Definition XFEATURE_MASK_BNDCSR : Z := Z.shiftl 1 4.
Definition XFEATURE_MASK_AVX512 : Z := Z.shiftl 1 5 |! Z.shiftl 1 6 |! Z.shiftl 1 7.

Definition fix_dr6 (val : Z) : Z := (val &! 0xffffffff) |! DR6_SETBITS.
Definition fix_dr7 (val : Z) : Z := (val &! 0xffffffff) |! DR7_SETBITS.
Definition AR_DPL (ar : Z) : Z := (ar >>! 5) &! 0x3.

Section Exit.
Context {HH : Host} {PH : PhysHost} {VH : VmxHw} {CH : CpuidHw}.
Context (G : hax_globals) (uninit : cpuid_args_t).
#[local] Notation st := vcpu.

(** ** Exceptions and interrupts *)
Definition debug_exit (dr6 dr7 : Z) (v : st) : st :=
  set_cv_debug (DebugExit (rip v) dr6 dr7) (set_tunnel_status HAX_EXIT_DEBUG v).

(** The handling of an NMI by the host and the log of a machine check are left out. *)
Definition exit_exc_nmi : M st Z :=
  modify set_tunnel_reason;;
  v ← get;
  let vector := vt_exit_intr_info (cv_ctls v) &! 0xff in
  if vector =? VECTOR_NMI then mret HAX_RESUME
  else if vector =? VECTOR_DB then
    dr7 ← vmrd GUEST_DR7;
    modify (debug_exit (qualification v) dr7);; mret HAX_EXIT
  else if vector =? VECTOR_BP then modify (debug_exit 0 0);; mret HAX_EXIT
  else if vector =? VECTOR_PF then
    set_panic;; modify (set_cr2 (qualification v));; mret HAX_RESUME
  else if ((vector =? VECTOR_MC) || (vector =? VECTOR_DF))%bool then set_panic;; mret HAX_RESUME
  else mret HAX_RESUME.

Definition exit_interrupt : M st Z :=
  modify (set_tunnel_status HAX_EXIT_INTERRUPT);; mret HAX_EXIT.

Definition exit_triple_fault : M st Z := set_panic;; mret HAX_RESUME.

Definition exit_interrupt_window : M st Z :=
  modify (fun v =>
    let bit := if basic_reason v =? VMX_EXIT_PENDING_INTERRUPT then INTERRUPT_WINDOW_EXITING
               else NMI_WINDOW_EXITING in
    set_pcpu_ctls_dirty true
      (set_intr (set_pcpu_ctls (Z.ldiff (vc_pcpu_ctls (intr v)) bit) (intr v)) v));;
  modify set_tunnel_reason;;
  mret HAX_RESUME.

Definition exit_hlt : M st Z :=
  modify set_tunnel_reason;;
  modify (set_tunnel_status HAX_EXIT_HLT);;
  vector ← in_intr_of vcpu_get_pending_intrs;
  modify advance_rip;;
  if hax_valid_vector vector then mret HAX_RESUME
  else modify (set_cv_ready true);; mret HAX_EXIT.

Definition exit_invlpg : M st Z :=
  modify advance_rip;; modify set_tunnel_reason;; mret HAX_RESUME.
Definition exit_rdtsc : M st Z := mret HAX_RESUME.
Definition exit_unsupported_instruction : M st Z :=
  inject VECTOR_UD NO_ERROR_CODE;; mret HAX_RESUME.
Definition exit_invalid_guest_state : M st Z := set_panic;; mret HAX_RESUME.
Definition null_handler : M st Z :=
  modify set_tunnel_reason;; set_panic;; mret HAX_RESUME.

(** ** CPUID; [ebx] and [edx] of the arguments are not initialised *)
Definition exit_cpuid : M st Z :=
  v ← get;
  let args := CpuidArgs (gpr_low v RAX 32) (gpr_low v RCX 32) (a_edx uninit) (a_ebx uninit) in
  r ← in_cpuid (cpuid_execute uninit (cv_cpuid v) (Some args));
  args ← of_option r;
  modify (fun v => set_gpr_low RDX 32 (a_edx args) (set_gpr_low RCX 32 (a_ecx args)
           (set_gpr_low RBX 32 (a_ebx args) (set_gpr_low RAX 32 (a_eax args) v))));;
  modify set_tunnel_reason;;
  modify advance_rip;;
  mret HAX_RESUME.

(** ** Debug registers *)
Definition read_dr (d : dregs) (dreg : Z) : Z :=
  if dreg =? 0 then dr0 d else if dreg =? 1 then dr1 d else if dreg =? 2 then dr2 d
  else if dreg =? 3 then dr3 d else if ((dreg =? 4) || (dreg =? 6))%bool then dr6 d else dr7 d.
Definition write_dr (dreg x : Z) (d : dregs) : dregs :=
  if dreg =? 0 then DRegs x (dr1 d) (dr2 d) (dr3 d) (dr6 d) (dr7 d)
  else if dreg =? 1 then DRegs (dr0 d) x (dr2 d) (dr3 d) (dr6 d) (dr7 d)
  else if dreg =? 2 then DRegs (dr0 d) (dr1 d) x (dr3 d) (dr6 d) (dr7 d)
  else if dreg =? 3 then DRegs (dr0 d) (dr1 d) (dr2 d) x (dr6 d) (dr7 d)
  else if ((dreg =? 4) || (dreg =? 6))%bool then DRegs (dr0 d) (dr1 d) (dr2 d) (dr3 d) x (dr7 d)
  else DRegs (dr0 d) (dr1 d) (dr2 d) (dr3 d) (dr6 d) x.

Definition qual_dreg (q : Z) : Z := q &! 0x7.
Definition qual_dr_direction (q : Z) : bool := has q 0x10.

Definition exit_dr_access : M st Z :=
  v ← get;
  let dreg := qual_dreg (qualification v) in
  let gpr_reg := qual_gpr (qualification v) in
  let hbreak_enabled := has (cv_debug_control v) HAX_DEBUG_USE_HW_BP in
  modify set_tunnel_reason;;
  if has (dr7 (cv_dr v)) DR7_GD then
    let d := cv_dr v in
    let new7 := Z.ldiff (dr7 d) DR7_GD in
    modify (set_cv_dr (DRegs (dr0 d) (dr1 d) (dr2 d) (dr3 d) (dr6 d |! DR6_BD) new7));;
    vmwr GUEST_DR7 new7;;
    inject VECTOR_DB NO_ERROR_CODE;;
    mret HAX_RESUME
  else if (((dreg =? 4) || (dreg =? 5)) && has (cr4 v) CR4_DE)%bool then
    inject VECTOR_UD NO_ERROR_CODE;; mret HAX_RESUME
  else
    (if qual_dr_direction (qualification v) then
       if hbreak_enabled then
         modify (set_gpr gpr_reg (if dreg =? 6 then DR6_SETBITS
                                  else if dreg =? 7 then DR7_SETBITS else 0))
       else modify (set_gpr gpr_reg (read_dr (cv_dr v) dreg))
     else
       if hbreak_enabled then mret tt
       else modify (fun v => set_dr_dirty true (set_cv_dr (write_dr dreg (gpr v gpr_reg) (cv_dr v)) v)));;
    modify advance_rip;;
    mret HAX_RESUME.

(** ** Extended control registers *)
Definition set_valid_xcr0 (x : Z) (v : st) : st :=
  let r := cv_run v in
  set_cv_run (RunState (rs_vcpu_id r) (rs_is_running r) (rs_paused r) x (rs_bsp_vcpu_id r)) v.

Definition xcr0_legal (valid_xcr0 xcr0 : Z) : bool :=
  (has xcr0 XFEATURE_MASK_FP &&
   negb (has xcr0 XFEATURE_MASK_YMM && negb (has xcr0 XFEATURE_MASK_SSE)) &&
   negb (has xcr0 (not64 (valid_xcr0 |! XFEATURE_MASK_FP))) &&
   Bool.eqb (has xcr0 XFEATURE_MASK_BNDREGS) (has xcr0 XFEATURE_MASK_BNDCSR) &&
   negb (has xcr0 XFEATURE_MASK_AVX512))%bool.

Definition vcpu_set_xcr (index value : Z) : M st Z :=
  v ← get;
  let old_xcr0 := cv_xcr0 v in
  if negb (index =? XCR_XFEATURE_ENABLED_MASK) then mret (- EINVAL)
  else if negb (xcr0_legal (rs_valid_xcr0 (cv_run v)) value) then mret (- EINVAL)
  else
    modify (set_cv_xcr0 value);;
    (if has (Z.lxor value old_xcr0) XFEATURE_MASK_EXTENDED
     then update_guest_cpuid uninit else mret tt);;
    mret 0.

(** [None] is [-EINVAL]. *)
Definition vcpu_get_xcr (index : Z) : M st (option Z) :=
  v ← get;
  mret (if negb (index =? XCR_XFEATURE_ENABLED_MASK) then None else Some (cv_xcr0 v)).

Definition vcpu_get_cpl : M st Z := ar ← vmrd GUEST_SS_AR; mret (AR_DPL ar).

(** [~0UL] has 64 bits, so RAX is not cut to its low half. *)
Definition exit_xsetbv : M st Z :=
  modify set_tunnel_reason;;
  cpl ← vcpu_get_cpl;
  if 0 <? cpl then inject VECTOR_GP 0;; mret HAX_RESUME
  else
    v ← get;
    let value := gpr v RAX |! (gpr v RDX <<! 32) in
    r ← vcpu_set_xcr (gpr_low v RCX 32) value;
    if negb (r =? 0) then inject VECTOR_GP 0;; mret HAX_RESUME
    else modify advance_rip;; mret HAX_RESUME.

(** ** Calls of user space *)
Definition vcpu_set_cpuid (cpuid_info : hax_cpuid) : M st Z :=
  v ← get;
  if ((ci_total cpuid_info =? 0) || (HAX_MAX_CPUID_ENTRIES <? ci_total cpuid_info))%bool
  then mret (- EINVAL)
  else if rs_is_running (cv_run v) then mret (- EFAULT)
  else
    r ← in_cpuid (cpuid_set_guest_features (cv_cpuid v) (Some cpuid_info));
    let '(ret, cpuid) := r in
    modify (set_cv_cpuid cpuid);;
    cpuid ← of_option cpuid;
    valid_xcr0 ← in_cpuid (cpuid_post_set_features cpuid);
    modify (set_valid_xcr0 valid_xcr0);;
    mret ret.

Definition vcpu_get_cpuid (cpuid_info : hax_cpuid) : M st (Z * option hax_cpuid) :=
  v ← get; in_cpuid (cpuid_get_guest_features (cv_cpuid v) (Some cpuid_info)).

Definition exception_bitmap (debug_control : Z) : Z :=
  Z.shiftl 1 VECTOR_MC |!
  (if has debug_control (HAX_DEBUG_USE_HW_BP |! HAX_DEBUG_STEP) then Z.shiftl 1 VECTOR_DB else 0) |!
  (if has debug_control HAX_DEBUG_USE_SW_BP then Z.shiftl 1 VECTOR_BP else 0).

Definition vcpu_update_exception_bitmap : M st unit :=
  v ← get; vmwr VMX_EXCEPTION_BITMAP (exception_bitmap (cv_debug_control v)).

(** [dr] is the array of the debugger's registers. *)
Definition vcpu_debug (control : Z) (dr : list Z) : M st unit :=
  let debug_control := if has control HAX_DEBUG_ENABLE then control else 0 in
  modify (set_cv_debug_control debug_control);;
  (if has debug_control HAX_DEBUG_USE_HW_BP then
     d0 ← of_option (dr !! 0%nat); d1 ← of_option (dr !! 1%nat);
     d2 ← of_option (dr !! 2%nat); d3 ← of_option (dr !! 3%nat);
     d7 ← of_option (dr !! 7%nat);
     modify (set_cv_dr (DRegs d0 d1 d2 d3 DR6_SETBITS (fix_dr7 d7)))
   else modify (set_cv_dr (DRegs 0 0 0 0 DR6_SETBITS DR7_SETBITS)));;
  modify (fun v => set_dr_dirty true (set_debug_control_dirty true v));;
  vcpu_update_exception_bitmap.

(** The interrupt that makes a running virtual CPU exit is left out. *)
Definition set_paused (b : bool) (v : st) : st :=
  let r := cv_run v in
  set_cv_run (RunState (rs_vcpu_id r) (rs_is_running r) b (rs_valid_xcr0 r) (rs_bsp_vcpu_id r)) v.
Definition vcpu_pause : M st Z := modify (set_paused true);; mret 0.
Definition vcpu_unpause : M st Z := modify (set_paused false);; mret 0.

Definition vcpu_init_fx : M st unit :=
  v ← get;
  is_xsave_enabled ← in_cpuid (cpuid_guest_has_feature (cv_cpuid v) X86_FEATURE_XSAVE);
  modify (set_cv_xcr0 (if is_xsave_enabled : bool then cg_supported_xcr0 (cv_cpuid_globals v) else XFEATURE_MASK_FP));;
  modify (fun v => set_cr0 (cr0 v |! CR0_ET) v).
End Exit.
