(* ===== verification/VcpuSync.v ===== *)
(** * Registers of a virtual CPU, the VMCS and user space (src/core/vcpu.c)

    After a VM exit the registers that the processor keeps in the VMCS are stale in the state
    of the virtual CPU; [vcpu_vmread_all] fetches them.  User space gets and sets all
    registers with [vcpu_get_regs] and [vcpu_set_regs]. *)

From stdpp Require Import base numbers list gmap.
From Stdlib Require Import ZArith Lia.
From S2P Require Import IntrExc Prelude MemTypes Memslot GpaSpace PageWalker Mmio.
From S2P Require Import EmTypes Emulate EptTree Ept2 VcpuEmu Cpuid Vmx VcpuState VcpuCr VcpuMsr VcpuExit.
#[local] Open Scope Z_scope.

Definition GUEST_ES_SELECTOR : Z := 0x800.
Definition GUEST_CS_SELECTOR : Z := 0x802.
Definition GUEST_SS_SELECTOR : Z := 0x804.
Definition GUEST_DS_SELECTOR : Z := 0x806.
Definition GUEST_FS_SELECTOR : Z := 0x808.
Definition GUEST_GS_SELECTOR : Z := 0x80a.
Definition GUEST_LDTR_SELECTOR : Z := 0x80c.
Definition GUEST_TR_SELECTOR : Z := 0x80e.
Definition GUEST_ES_AR : Z := 0x4814.
Definition GUEST_CS_AR : Z := 0x4816.
Definition GUEST_DS_AR : Z := 0x481a.
Definition GUEST_FS_AR : Z := 0x481c.
Definition GUEST_GS_AR : Z := 0x481e.
Definition GUEST_LDTR_AR : Z := 0x4820.
Definition GUEST_TR_AR : Z := 0x4822.
Definition GUEST_ES_BASE : Z := 0x6806.
Definition GUEST_CS_BASE : Z := 0x6808.
Definition GUEST_SS_BASE : Z := 0x680a.
Definition GUEST_DS_BASE : Z := 0x680c.
Definition GUEST_LDTR_BASE : Z := 0x6812.
Definition GUEST_TR_BASE : Z := 0x6814.
Definition GUEST_ES_LIMIT : Z := 0x4800.
Definition GUEST_CS_LIMIT : Z := 0x4802.
Definition GUEST_SS_LIMIT : Z := 0x4804.
Definition GUEST_DS_LIMIT : Z := 0x4806.
Definition GUEST_FS_LIMIT : Z := 0x4808.
Definition GUEST_GS_LIMIT : Z := 0x480a.
Definition GUEST_LDTR_LIMIT : Z := 0x480c.
Definition GUEST_TR_LIMIT : Z := 0x480e.
Definition GUEST_GDTR_BASE : Z := 0x6816.
Definition GUEST_IDTR_BASE : Z := 0x6818.
Definition GUEST_GDTR_LIMIT : Z := 0x4810.
Definition GUEST_IDTR_LIMIT : Z := 0x4812.
Definition GUEST_RIP : Z := 0x681e.
Definition GUEST_RFLAGS : Z := 0x6820.
Definition GUEST_RSP : Z := 0x681c.
Definition GUEST_INTERRUPTIBILITY : Z := 0x4824.

Inductive seg_t := SegES | SegCS | SegSS | SegDS | SegFS | SegGS | SegLDTR | SegTR.

Definition seg_selector (s : seg_t) : Z :=
  match s with
  | SegES => GUEST_ES_SELECTOR
  | SegCS => GUEST_CS_SELECTOR
  | SegSS => GUEST_SS_SELECTOR
  | SegDS => GUEST_DS_SELECTOR
  | SegFS => GUEST_FS_SELECTOR
  | SegGS => GUEST_GS_SELECTOR
  | SegLDTR => GUEST_LDTR_SELECTOR
  | SegTR => GUEST_TR_SELECTOR
  end.
Definition seg_base (s : seg_t) : Z :=
  match s with
  | SegES => GUEST_ES_BASE
  | SegCS => GUEST_CS_BASE
  | SegSS => GUEST_SS_BASE
  | SegDS => GUEST_DS_BASE
  | SegFS => GUEST_FS_BASE
  | SegGS => GUEST_GS_BASE
  | SegLDTR => GUEST_LDTR_BASE
  | SegTR => GUEST_TR_BASE
  end.
Definition seg_limit (s : seg_t) : Z :=
  match s with
  | SegES => GUEST_ES_LIMIT
  | SegCS => GUEST_CS_LIMIT
  | SegSS => GUEST_SS_LIMIT
  | SegDS => GUEST_DS_LIMIT
  | SegFS => GUEST_FS_LIMIT
  | SegGS => GUEST_GS_LIMIT
  | SegLDTR => GUEST_LDTR_LIMIT
  | SegTR => GUEST_TR_LIMIT
  end.
Definition seg_ar (s : seg_t) : Z :=
  match s with
  | SegES => GUEST_ES_AR
  | SegCS => GUEST_CS_AR
  | SegSS => GUEST_SS_AR
  | SegDS => GUEST_DS_AR
  | SegFS => GUEST_FS_AR
  | SegGS => GUEST_GS_AR
  | SegLDTR => GUEST_LDTR_AR
  | SegTR => GUEST_TR_AR
  end.

(** The registers as user space exchanges them. *)
Record vcpu_state_t := VcpuStateT {
  us_regs : list Z;
  us_rip : Z;
  us_rflags : Z;
  us_cs : segment_desc_t;
  us_ss : segment_desc_t;
  us_ds : segment_desc_t;
  us_es : segment_desc_t;
  us_fs : segment_desc_t;
  us_gs : segment_desc_t;
  us_ldt : segment_desc_t;
  us_tr : segment_desc_t;
  us_gdt : segment_desc_t;
  us_idt : segment_desc_t;
  us_cr0 : Z;
  us_cr2 : Z;
  us_cr3 : Z;
  us_cr4 : Z;
  us_dr : dregs;
}.

Section Sync.
Context {HH : Host} {PH : PhysHost} {VH : VmxHw} {CH : CpuidHw}.
Context (G : hax_globals) (uninit : cpuid_args_t).
#[local] Notation st := vcpu.

(** ** Setters *)
Definition get_seg (s : seg_t) (v : st) : segment_desc_t :=
  match s with
  | SegES => ev_es (emu v) | SegCS => ev_cs (emu v) | SegSS => ev_ss (emu v)
  | SegDS => ev_ds (emu v) | SegFS => ev_fs (emu v) | SegGS => ev_gs (emu v)
  | SegLDTR => cv_ldt v | SegTR => cv_tr v
  end.
Definition set_seg (s : seg_t) (d : segment_desc_t) (v : st) : st :=
  let e := emu v in
  let put cs ss ds es fs gs :=
    set_emu (EmuVcpu (ev_mmio e) (ev_regs e) (ev_rip e) cs ss ds es fs gs (ev_rflags_dirty e)
      (ev_rip_dirty e) (ev_interruptibility_dirty e) (ev_exit_reason e) (ev_exit_qualification e)
      (ev_exit_gpa e) (ev_tunnel e) (ev_fastmmio e)) v in
  match s with
  | SegES => put (ev_cs e) (ev_ss e) (ev_ds e) d (ev_fs e) (ev_gs e)
  | SegCS => put d (ev_ss e) (ev_ds e) (ev_es e) (ev_fs e) (ev_gs e)
  | SegSS => put (ev_cs e) d (ev_ds e) (ev_es e) (ev_fs e) (ev_gs e)
  | SegDS => put (ev_cs e) (ev_ss e) d (ev_es e) (ev_fs e) (ev_gs e)
  | SegFS => put (ev_cs e) (ev_ss e) (ev_ds e) (ev_es e) d (ev_gs e)
  | SegGS => put (ev_cs e) (ev_ss e) (ev_ds e) (ev_es e) (ev_fs e) d
  | SegLDTR => set_cv_ldt d v
  | SegTR => set_cv_tr d v
  end.
Definition set_rip_of (x : Z) (dirty : bool) (v : st) : st := set_emu (set_ev_rip x dirty (emu v)) v.
Definition set_rflags (x : Z) (dirty : bool) (v : st) : st :=
  set_emu (set_ev_rflags_dirty dirty (upd_ev_intr (set_rflags_of x) (emu v))) v.
Definition set_interruptibility (x : Z) (v : st) : st :=
  let i := intr v in
  set_intr (set_exit_info x (vc_exit_idt_vectoring i) (vc_exit_instr_length i) (vc_eflags i) i) v.

(** ** Segments and the VMCS *)
Definition VMREAD_SEG (s : seg_t) : M st unit :=
  selector ← vmrd (seg_selector s);
  base ← vmrd (seg_base s);
  limit ← vmrd (seg_limit s);
  ar ← vmrd (seg_ar s);
  modify (fun v =>
    let d := get_seg s v in
    let d := SegmentDesc (selector mod 2 ^ 16) (sd_dummy d) (u32 limit) base (u32 ar) (sd_ipad d) in
    set_seg s (if sd_null d =? 1
               then SegmentDesc (sd_selector d) (sd_dummy d) (sd_limit d) (sd_base d) 0 (sd_ipad d)
               else d) v).

Definition VMWRITE_SEG (s : seg_t) (d : segment_desc_t) : M st unit :=
  vmwr (seg_selector s) (sd_selector d);;
  vmwr (seg_base s) (sd_base d);;
  vmwr (seg_limit s) (sd_limit d);;
  vmwr (seg_ar s) (if sd_ar d =? 0 then 0x10000 else sd_ar d).

Definition read_desc (base_field limit_field : Z) (d : segment_desc_t) : M st segment_desc_t :=
  base ← vmrd base_field;
  limit ← vmrd limit_field;
  mret (SegmentDesc (sd_selector d) (sd_dummy d) (u32 limit) base (sd_ar d) (sd_ipad d)).

Definition VMWRITE_DESC (base_field limit_field : Z) (d : segment_desc_t) : M st unit :=
  vmwr base_field (sd_base d);; vmwr limit_field (sd_limit d).

(** The registers that are kept in the VMCS. *)
Definition vmread_regs : M st unit :=
  v ← get;
  (if negb (ev_rip_dirty (emu v)) then
     x ← vmrd GUEST_RIP; modify (fun v => set_rip_of x (ev_rip_dirty (emu v)) v) else mret tt);;
  (if negb (ev_rflags_dirty (emu v)) then
     x ← vmrd GUEST_RFLAGS; modify (fun v => set_rflags x (ev_rflags_dirty (emu v)) v) else mret tt);;
  x ← vmrd GUEST_RSP; modify (set_gpr RSP x);;
  VMREAD_SEG SegCS;; VMREAD_SEG SegDS;; VMREAD_SEG SegES;;
  (if negb (fs_base_dirty (cv_dirty v)) then VMREAD_SEG SegFS else mret tt);;
  VMREAD_SEG SegGS;; VMREAD_SEG SegSS;; VMREAD_SEG SegLDTR;; VMREAD_SEG SegTR;;
  d ← read_desc GUEST_GDTR_BASE GUEST_GDTR_LIMIT (cv_gdt v); modify (set_cv_gdt d);;
  d ← read_desc GUEST_IDTR_BASE GUEST_IDTR_LIMIT (cv_idt v); modify (set_cv_idt d);;
  x ← vmrd GUEST_INTERRUPTIBILITY; modify (set_interruptibility (u32 x)).

Definition vcpu_vmread_all : M st unit :=
  v ← get;
  if negb (cur_state (cv_dirty v) =? GS_STALE) then mret tt
  else
    vmcs_err ← in_vmx load_vmcs;
    if negb (vmcs_err =? 0) then set_panic
    else
      vmread_regs;;
      vmcs_err ← in_vmx put_vmcs;
      (if negb (vmcs_err =? 0) then set_panic else mret tt);;
      modify (set_cur_state GS_VALID).

Definition vcpu_vmwrite_all : M st unit :=
  v ← get;
  vmwr GUEST_RIP (rip v);; modify (fun v => set_rip_of (rip v) false v);;
  vmwr GUEST_RFLAGS (rflags v);; modify (fun v => set_rflags (rflags v) false v);;
  vmwr GUEST_RSP (gpr v RSP);;
  VMWRITE_SEG SegCS (get_seg SegCS v);; VMWRITE_SEG SegDS (get_seg SegDS v);;
  VMWRITE_SEG SegES (get_seg SegES v);; VMWRITE_SEG SegFS (get_seg SegFS v);;
  modify (set_fs_base_dirty false);;
  VMWRITE_SEG SegGS (get_seg SegGS v);; VMWRITE_SEG SegSS (get_seg SegSS v);;
  VMWRITE_SEG SegLDTR (get_seg SegLDTR v);; VMWRITE_SEG SegTR (get_seg SegTR v);;
  VMWRITE_DESC GUEST_GDTR_BASE GUEST_GDTR_LIMIT (cv_gdt v);;
  VMWRITE_DESC GUEST_IDTR_BASE GUEST_IDTR_LIMIT (cv_idt v);;
  vmwr GUEST_INTERRUPTIBILITY (vc_interruptibility_state (intr v));;
  vmwrite_cr G.

(** ** Exchange with user space *)

(** [new] after the copy, and whether a field has changed. *)
Definition copy_desc (old new : segment_desc_t) : bool * segment_desc_t :=
  (negb ((sd_selector new =? sd_selector old) && (sd_dummy new =? sd_dummy old) &&
         (sd_base new =? sd_base old) && (sd_limit new =? sd_limit old) &&
         (sd_ar new =? sd_ar old) && (sd_ipad new =? sd_ipad old)),
   if sd_ar old =? 0
   then SegmentDesc (sd_selector old) (sd_dummy old) (sd_limit old) (sd_base old) 0x10000 (sd_ipad old)
   else old).

Definition copied (d : segment_desc_t) : segment_desc_t := (copy_desc d d).2.

(** What user space gets; its buffer is overwritten. *)
Definition user_state (v : st) : vcpu_state_t :=
  VcpuStateT (map (fun i => gpr v (Z.of_nat i)) (seq 0 16)) (rip v) (rflags v)
    (copied (get_seg SegCS v)) (copied (get_seg SegSS v)) (copied (get_seg SegDS v))
    (copied (get_seg SegES v)) (copied (get_seg SegFS v)) (copied (get_seg SegGS v))
    (copied (cv_ldt v)) (copied (cv_tr v)) (copied (cv_gdt v)) (copied (cv_idt v))
    (cr0 v) (cr2 v) (cr3 v) (cr4 v) (cv_dr v).

Definition vcpu_get_regs : M st (Z * vcpu_state_t) :=
  vcpu_vmread_all;;
  v ← get;
  mret (0, user_state v).

Fixpoint set_gprs (i : Z) (l : list Z) (v : st) : st :=
  match l with
  | [] => v
  | x :: l => set_gprs (i + 1) l (set_gpr i x v)
  end.

Definition update_crs (u : vcpu_state_t) : M st unit :=
  v ← get;
  let cr_dirty := negb ((cr0 v =? us_cr0 u) && (cr2 v =? us_cr2 u) && (cr3 v =? us_cr3 u) &&
                        (cr4 v =? us_cr4 u))%bool in
  modify (fun v => set_cr4_of (us_cr4 u) (set_cr3 (us_cr3 u) (set_cr2 (us_cr2 u)
                     (set_cr0 (us_cr0 u) v))));;
  if cr_dirty then vmwrite_cr G else mret tt.

Definition dregs_eqb (a b : dregs) : bool :=
  ((dr0 a =? dr0 b) && (dr1 a =? dr1 b) && (dr2 a =? dr2 b) && (dr3 a =? dr3 b) &&
   (dr6 a =? dr6 b) && (dr7 a =? dr7 b))%bool.
Definition fixed_dr (d : dregs) : dregs :=
  DRegs (dr0 d) (dr1 d) (dr2 d) (dr3 d) (fix_dr6 (dr6 d)) (fix_dr7 (dr7 d)).

Definition update_drs (u : vcpu_state_t) (v : st) : st :=
  if has (cv_debug_control v) HAX_DEBUG_ENABLE then v
  else
    let d := fixed_dr (us_dr u) in
    set_dr_dirty (negb (dregs_eqb (cv_dr v) d)) (set_cv_dr d v).

Definition UPDATE_SEGMENT_STATE (s : seg_t) (d : segment_desc_t) : M st unit :=
  v ← get;
  let '(flags, new) := copy_desc d (get_seg s v) in
  modify (set_seg s new);;
  if flags : bool then VMWRITE_SEG s new else mret tt.

Definition update_table (get_d : st -> segment_desc_t) (set_d : segment_desc_t -> st -> st)
    (base_field limit_field : Z) (d : segment_desc_t) : M st unit :=
  v ← get;
  let '(flags, new) := copy_desc d (get_d v) in
  modify (set_d new);;
  if flags : bool then VMWRITE_DESC base_field limit_field new else mret tt.

Definition vcpu_set_regs (u : vcpu_state_t) : M st Z :=
  v ← get;
  rsp ← of_option (us_regs u !! 4%nat);
  let rsp_dirty := negb (gpr v RSP =? rsp) in
  modify (set_gprs 0 (take 16 (us_regs u)));;
  vmcs_err ← in_vmx load_vmcs;
  if negb (vmcs_err =? 0) then set_panic;; mret (- EFAULT)
  else
    (if negb (rip v =? us_rip u) then modify (set_rip_of (us_rip u) true) else mret tt);;
    (if negb (rflags v =? us_rflags u) then modify (set_rflags (us_rflags u) true) else mret tt);;
    (if rsp_dirty then vmwr GUEST_RSP rsp else mret tt);;
    update_crs u;;
    modify (update_drs u);;
    UPDATE_SEGMENT_STATE SegCS (us_cs u);; UPDATE_SEGMENT_STATE SegDS (us_ds u);;
    UPDATE_SEGMENT_STATE SegES (us_es u);; UPDATE_SEGMENT_STATE SegFS (us_fs u);;
    UPDATE_SEGMENT_STATE SegGS (us_gs u);; UPDATE_SEGMENT_STATE SegSS (us_ss u);;
    UPDATE_SEGMENT_STATE SegLDTR (us_ldt u);; UPDATE_SEGMENT_STATE SegTR (us_tr u);;
    update_table cv_gdt set_cv_gdt GUEST_GDTR_BASE GUEST_GDTR_LIMIT (us_gdt u);;
    update_table cv_idt set_cv_idt GUEST_IDTR_BASE GUEST_IDTR_LIMIT (us_idt u);;
    vmcs_err ← in_vmx put_vmcs;
    (if negb (vmcs_err =? 0) then set_panic else mret tt);;
    mret 0.
End Sync.
