(* ===== verification/VcpuIo.v ===== *)
(** * Port I/O (src/core/vcpu.c)

    IN, OUT, INS and OUTS of the guest exit to user space with a request in the tunnel and the
    data in [io_buf]; the answer of an input is taken over by [handle_io_post] when the virtual
    CPU runs again.  A string instruction transfers at most 64 bytes at a time. *)

From stdpp Require Import base numbers list gmap.
From Stdlib Require Import ZArith Lia.
From S2P Require Import IntrExc Prelude MemTypes Memslot GpaSpace PageWalker Mmio.
From S2P Require Import EmTypes Emulate EptTree Ept2 VcpuEmu Cpuid Vmx VcpuState VcpuCr.
#[local] Open Scope Z_scope.

Definition IOS_MAX_BUFFER : Z := 64.
Definition HAX_IO_OUT : Z := 0.
Definition HAX_IO_IN : Z := 1.
Definition HAX_EXIT_IO : Z := 1.
Definition EFLAGS_DF : Z := Z.shiftl 1 10.
Definition VM_EXIT_INFO_GUEST_LINEAR_ADDRESS : Z := 0x640a.

(** The qualification of an I/O exit. *)
Definition qual_io_size (q : Z) : Z := q &! 0x7.
Definition qual_io_direction (q : Z) : Z := (q >>! 3) &! 1.
Definition qual_io_string (q : Z) : bool := has q 0x10.
Definition qual_io_rep (q : Z) : bool := has q 0x20.
Definition qual_io_encoding (q : Z) : bool := has q 0x40.
Definition qual_io_port (q : Z) : Z := (q >>! 16) &! 0xffff.

(** The first bytes of the buffer are overwritten. *)
Definition put_buf (data buf : list Z) : list Z := data ++ drop (length data) buf.

Section Io.
Context {HH : Host} {PH : PhysHost} {VH : VmxHw}.
Context (same_kva : Z -> Z -> bool).
#[local] Notation st := vcpu.

Definition upd_io (f : hax_io -> hax_io) (v : st) : st := set_cv_io (f (cv_io v)) v.
Definition io_start (direction size port : Z) (i : hax_io) : hax_io :=
  HaxIo direction 0 size port 0 (io_flags i) (io_vaddr i).
Definition io_string (n df vaddr : Z) (i : hax_io) : hax_io :=
  HaxIo (io_direction i) df (io_size i) (io_port i) (n mod 2 ^ 16) 1 vaddr.
Definition io_simple (i : hax_io) : hax_io :=
  HaxIo (io_direction i) (io_df i) (io_size i) (io_port i) 1 0 (io_vaddr i).
Definition set_io_buf (data : list Z) (v : st) : st := set_cv_io_buf (put_buf data (cv_io_buf v)) v.

(** The number of elements of one transfer. *)
Definition string_chunk (count elem_size : Z) : Z :=
  if IOS_MAX_BUFFER <? u64 (count * elem_size) then IOS_MAX_BUFFER / elem_size else u32 count.

Definition handle_string_io (qual : Z) : M st Z :=
  v ← get;
  let count := if qual_io_rep qual then gpr v RCX else 1 in
  let elem_size := io_size (cv_io v) in
  let n := string_chunk count elem_size in
  let copy_size := u32 (n * elem_size) in
  gla ← vmrd VM_EXIT_INFO_GUEST_LINEAR_ADDRESS;
  v ← get;
  let df := has (rflags v) EFLAGS_DF in
  let start_gva := if df then gla -! u32 (u32 (n - 1) * elem_size) else gla in
  modify (upd_io (io_string n (if df then 1 else 0) start_gva));;
  ok ← (if qual_io_direction qual =? HAX_IO_OUT then
          hax_assert (copy_size <=? IOS_MAX_BUFFER);;
          r ← in_mmio_of (vcpu_read_guest_virtual same_kva start_gva copy_size 0);
          let '(ret, data) := r in
          modify (set_io_buf data);;
          mret (negb (ret =? 0))
        else mret true);
  if negb ok then set_panic;; mret HAX_RESUME
  else
    modify (fun v => set_gpr RCX (gpr v RCX - n) v);;
    (if n =? count then modify advance_rip else mret tt);;
    v ← get;
    let reg := if qual_io_direction qual =? HAX_IO_OUT then RSI else RDI in
    modify (set_gpr reg (if has (rflags v) EFLAGS_DF then gpr v reg - copy_size
                         else gpr v reg + copy_size));;
    modify (set_tunnel_status HAX_EXIT_IO);;
    mret HAX_EXIT.

(** The low [8 * size] bits of RAX; other sizes do not occur and are ignored. *)
Definition io_operand (size : Z) : bool := ((size =? 1) || (size =? 2) || (size =? 4))%bool.

Definition handle_io (qual : Z) : M st Z :=
  modify (upd_io io_simple);;
  (if qual_io_direction qual =? HAX_IO_OUT then
     let size := qual_io_size qual + 1 in
     if io_operand size then
       modify (fun v => set_io_buf (le_bytes (Z.to_nat size) (gpr_low v RAX (8 * size))) v)
     else mret tt
   else mret tt);;
  modify advance_rip;;
  modify (set_tunnel_status HAX_EXIT_IO);;
  mret HAX_EXIT.

Definition exit_io_access : M st Z :=
  v ← get;
  let qual := qualification v in
  modify set_tunnel_reason;;
  modify (upd_io (io_start (qual_io_direction qual) (qual_io_size qual + 1)
    (if qual_io_encoding qual then qual_io_port qual else gpr_low v RDX 16)));;
  if qual_io_string qual then handle_string_io qual else handle_io qual.

(** The answer of user space. *)
Definition handle_io_post : M st unit :=
  v ← get;
  let io := cv_io v in
  if io_direction io =? HAX_IO_OUT then mret tt
  else if io_flags io =? 1 then
    let size := s32 (io_count io * io_size io) in
    ret ← in_mmio_of (vcpu_write_guest_virtual same_kva (io_vaddr io) IOS_MAX_BUFFER (cv_io_buf v) size 0);
    if ret =? 0 then set_panic else mret tt
  else if io_operand (io_size io) then
    modify (set_gpr_low RAX (8 * io_size io) (le_word (take (Z.to_nat (io_size io)) (cv_io_buf v))))
  else mret tt.
End Io.
