(* ===== verification/VcpuHost.v ===== *)
(** * The host while a guest runs (src/core/vcpu.c, src/core/include/segments.h)

    Before a VM entry [vcpu_save_host_state] records the registers of the host, in the VMCS
    where the processor restores them at the exit and in [hstate] otherwise, and the guest's
    are loaded; [vcpu_load_host_state] puts the host's back.  The processor's registers and
    the kernel's descriptor tables are reached through the classes [VmxHw] and [KernelHw].
    The code for x86-64 is modelled; [hstate], which belongs to the current CPU, is kept with
    the virtual CPU that runs on it. *)

From stdpp Require Import base numbers list gmap.
From Stdlib Require Import ZArith Lia.
From S2P Require Import IntrExc Prelude MemTypes Memslot GpaSpace PageWalker Mmio.
From S2P Require Import EmTypes Emulate EptTree Ept2 VcpuEmu Cpuid Vmx VcpuState VcpuCr VcpuMsr.
From S2P Require Import VcpuExit VcpuSync.
#[local] Open Scope Z_scope.

Definition NR_GMSR_AUTOLOAD : Z := 14.
Definition VMX_ENTRY_MSR_LOAD_COUNT : Z := 0x4014.
Definition HBREAK_ENABLED_MASK : Z := 0xff.
Definition hmsr_list : list Z :=
  [IA32_EFER; IA32_STAR; IA32_LSTAR; IA32_CSTAR; IA32_SF_MASK; IA32_KERNEL_GS_BASE].
(** The sixth element is not initialised explicitly, so it is 0. *)
Definition emt64_msr : list Z :=
  [IA32_STAR; IA32_LSTAR; IA32_CSTAR; IA32_SF_MASK; IA32_KERNEL_GS_BASE; 0].
Definition is_emt64_msr (entry : Z) : bool := existsb (Z.eqb entry) emt64_msr.

Definition HOST_RIP : Z := 0x6c16.
Definition HOST_CR0 : Z := 0x6c00.
Definition HOST_CR3 : Z := 0x6c02.
Definition HOST_CR4 : Z := 0x6c04.
Definition HOST_CS_SELECTOR : Z := 0xc02.
Definition HOST_DS_SELECTOR : Z := 0xc06.
Definition HOST_ES_SELECTOR : Z := 0xc00.
Definition HOST_FS_SELECTOR : Z := 0xc08.
Definition HOST_GS_SELECTOR : Z := 0xc0a.
Definition HOST_SS_SELECTOR : Z := 0xc04.
Definition HOST_TR_SELECTOR : Z := 0xc0c.
Definition HOST_FS_BASE : Z := 0x6c06.
Definition HOST_GS_BASE : Z := 0x6c08.
Definition HOST_TR_BASE : Z := 0x6c0a.
Definition HOST_GDTR_BASE : Z := 0x6c0c.
Definition HOST_IDTR_BASE : Z := 0x6c0e.
Definition HOST_SYSENTER_CS : Z := 0x4c00.
Definition HOST_SYSENTER_ESP : Z := 0x6c10.
Definition HOST_SYSENTER_EIP : Z := 0x6c12.
Definition HOST_PAT : Z := 0x2c00.
Definition HOST_EFER : Z := 0x2c02.
Definition HOST_SEG_VALID_GS : Z := 0x1.
Definition HOST_SEG_VALID_FS : Z := 0x2.
Definition HOST_SEG_VALID_DS : Z := 0x4.
Definition HOST_SEG_VALID_ES : Z := 0x8.
Definition HOST_SEG_NOT_PRESENT_GS : Z := 0x1.
Definition EXIT_CONTROL_LOAD_EFER : Z := 0x00200000.

Inductive kseg := KCs | KSs | KDs | KEs | KFs | KGs.

(** Registers of the host, and its memory by words of 64 bits. *)
Class KernelHw {VH : VmxHw} := {
  get_cr0 : vhw -> Z;
  hw_set_cr0 : Z -> vhw -> vhw;
  get_cr2 : vhw -> Z;
  hw_set_cr2 : Z -> vhw -> vhw;
  get_cr3 : vhw -> Z;
  get_kernel_seg : kseg -> vhw -> Z;
  set_kernel_seg : kseg -> Z -> vhw -> vhw;
  get_kernel_tr_selector : vhw -> Z;
  get_kernel_ldt : vhw -> Z;
  set_kernel_ldt : Z -> vhw -> vhw;
  get_kernel_gdt : vhw -> system_desc_t;
  set_kernel_gdt : system_desc_t -> vhw -> vhw;
  get_kernel_idt : vhw -> system_desc_t;
  set_kernel_idt : system_desc_t -> vhw -> vhw;
  kernel_read64 : Z -> vhw -> Z;
  kernel_write64 : Z -> Z -> vhw -> vhw;
  hax_fxsave : vhw -> list Z;
  hax_fxrstor : list Z -> vhw -> vhw;
  hax_clts : vhw -> vhw;
  vmx_get_rip : vhw -> Z;
}.

(** ** Descriptors *)
Definition desc_base0 (raw : Z) : Z := (raw >>! 16) &! 0xffffff.
Definition desc_base1 (raw : Z) : Z := (raw >>! 56) &! 0xff.
Definition desc_present (raw : Z) : Z := (raw >>! 47) &! 0x1.

Section Host.
Context {HH : Host} {PH : PhysHost} {VH : VmxHw} {CH : CpuidHw} {KH : KernelHw}.
Context (G : hax_globals) (uninit : cpuid_args_t).
#[local] Notation st := vcpu.

Definition get_kernel_gdtr_base_4vmcs (h : vhw) : Z := sy_base (get_kernel_gdt h).
Definition get_kernel_gdtr_base (h : vhw) : Z := sy_base (get_kernel_gdt h).
Definition get_kernel_idtr_base (h : vhw) : Z := sy_base (get_kernel_idt h).

(** The descriptor of a selector; a system descriptor has two words. *)
Definition desc_addr (table selector : Z) : Z := table +! 8 * (selector >>! 3).
Definition system_base (h : vhw) (addr : Z) : Z :=
  let raw := kernel_read64 addr h in
  let desc_base := (desc_base0 raw + Z.shiftl (desc_base1 raw) 24) &! 0xffffffff in
  u64 (Z.shiftl (kernel_read64 (addr +! 8) h) 32 + (desc_base &! 0xffffffff)).
Definition get_kernel_ldtr_base (h : vhw) : Z :=
  system_base h (desc_addr (get_kernel_gdtr_base h) (get_kernel_ldt h)).
Definition get_tr_desc_base (h : vhw) (selector : Z) : Z :=
  system_base h (desc_addr (get_kernel_gdtr_base h) selector).
Definition get_kernel_tr_base (h : vhw) : Z := get_tr_desc_base h (get_kernel_tr_selector h).

Definition hw_of (v : st) : vhw := vx_hw (cv_cpu v).
Definition set_hw (h : vhw) (v : st) : st := set_cv_cpu (set_vx_hw h (cv_cpu v)) v.
Definition wrmsr (msr x : Z) : M st unit := modify (fun v => set_hw (ia32_wrmsr msr x (hw_of v)) v).
Definition has_feature (key : Z) : M st bool := in_cpuid (cpu_has_feature uninit key).

(** ** MSRs *)


Fixpoint save_msr_list (em64t : bool) (index : list Z) (l : list vmx_msr) : M st (list vmx_msr) :=
  match index, l with
  | i :: index, m :: l =>
      x ← (if (em64t || negb (is_emt64_msr i))%bool then rdmsr i else mret (vm_value m));
      l ← save_msr_list em64t index l;
      mret (VmxMsr i x :: l)
  | _, _ => mret l
  end.

(** The counters are read in pairs: event counter and event selector. *)
Fixpoint save_counters (i n : nat) (pmc pes : list Z) : M st (list Z * list Z) :=
  match n with
  | O => mret (pmc, pes)
  | S n =>
      x ← rdmsr (IA32_PMC0 + Z.of_nat i);
      y ← rdmsr (IA32_PERFEVTSEL0 + Z.of_nat i);
      save_counters (S i) n (<[i := x]> pmc) (<[i := y]> pes)
  end.

Definition save_guest_msr : M st unit :=
  em64t ← has_feature X86_FEATURE_EM64T;
  v ← get;
  l ← save_msr_list em64t gmsr_list (gmsr (cv_gstate v));
  modify (set_gstate_gmsr l);;
  rdtscp ← has_feature X86_FEATURE_RDTSCP;
  (if rdtscp : bool then x ← rdmsr IA32_TSC_AUX; modify (set_gstate_tsc_aux x) else mret tt);;
  if hg_apm_version G =? 0 then mret tt
  else
    v ← get;
    r ← save_counters 0 (Z.to_nat (hg_apm_general_count G)) (apm_pmc_msrs (cv_gstate v))
          (apm_pes_msrs (cv_gstate v));
    modify (fun v => set_gstate_pes r.2 (set_gstate_pmc r.1 v)).

(** The list that the processor loads at VM entry: first the entries before [apm_version] is
    tested, then those of the counters. *)
Definition autoload_base (em64t rdtscp : bool) (g : gstate) : list vmx_msr :=
  filter (fun m => em64t || negb (is_emt64_msr (vm_entry m)) = true) (gmsr g) ++
  (if rdtscp then [VmxMsr IA32_TSC_AUX (tsc_aux g)] else []).
Definition autoload_counters (n : nat) (g : gstate) : list vmx_msr :=
  map (fun i => VmxMsr (IA32_PMC0 + Z.of_nat i) (default 0 (apm_pmc_msrs g !! i))) (seq 0 n) ++
  map (fun i => VmxMsr (IA32_PERFEVTSEL0 + Z.of_nat i) (default 0 (apm_pes_msrs g !! i))) (seq 0 n).
(** The array has 14 elements. *)
Definition set_autoload (l : list vmx_msr) : M st unit :=
  hax_assert (Z.of_nat (length l) <=? NR_GMSR_AUTOLOAD);;
  modify (fun v =>
    let g := cv_gstate v in
    set_cv_gstate (GState (gmsr g) (apm_pmc_msrs g) (apm_pes_msrs g) (tsc_aux g) (apic_base g)
      (l ++ drop (length l) (gmsr_autoload g))) v).

Definition load_guest_msr : M st unit :=
  em64t ← has_feature X86_FEATURE_EM64T;
  rdtscp ← has_feature X86_FEATURE_RDTSCP;
  v ← get;
  let base := autoload_base em64t rdtscp (cv_gstate v) in
  set_autoload base;;
  if hg_apm_version G =? 0 then mret tt
  else
    let l := base ++ autoload_counters (Z.to_nat (hg_apm_general_count G)) (cv_gstate v) in
    set_autoload l;;
    vmwr VMX_ENTRY_MSR_LOAD_COUNT (Z.of_nat (length l)).

(** The host's MSRs. *)
Definition save_host_msr : M st unit :=
  em64t ← has_feature X86_FEATURE_EM64T;
  v ← get;
  let hs := cv_hstate v in
  l ← save_msr_list em64t hmsr_list (hmsr hs);
  rdtscp ← has_feature X86_FEATURE_RDTSCP;
  aux ← (if rdtscp : bool then rdmsr IA32_TSC_AUX else mret (h_tsc_aux hs));
  r ← (if hg_apm_version G =? 0 then mret (h_apm_pmc_msrs hs, h_apm_pes_msrs hs)
       else save_counters 0 (Z.to_nat (hg_apm_general_count G)) (h_apm_pmc_msrs hs)
              (h_apm_pes_msrs hs));
  modify (set_cv_hstate (HState l r.1 r.2 aux (h_dr hs) (h_xcr0 hs))).

Fixpoint load_msr_list (em64t : bool) (l : list vmx_msr) : M st unit :=
  match l with
  | [] => mret tt
  | m :: l =>
      (if (em64t || negb (is_emt64_msr (vm_entry m)))%bool then wrmsr (vm_entry m) (vm_value m)
       else mret tt);;
      load_msr_list em64t l
  end.
Fixpoint load_counters (i n : nat) (pmc pes : list Z) : M st unit :=
  match n with
  | O => mret tt
  | S n =>
      x ← of_option (pmc !! i); wrmsr (IA32_PMC0 + Z.of_nat i) x;;
      y ← of_option (pes !! i); wrmsr (IA32_PERFEVTSEL0 + Z.of_nat i) y;;
      load_counters (S i) n pmc pes
  end.

Definition load_host_msr : M st unit :=
  em64t ← has_feature X86_FEATURE_EM64T;
  v ← get;
  let hs := cv_hstate v in
  load_msr_list em64t (hmsr hs);;
  rdtscp ← has_feature X86_FEATURE_RDTSCP;
  (if rdtscp : bool then wrmsr IA32_TSC_AUX (h_tsc_aux hs) else mret tt);;
  if hg_apm_version G =? 0 then mret tt
  else load_counters 0 (Z.to_nat (hg_apm_general_count G)) (h_apm_pmc_msrs hs) (h_apm_pes_msrs hs).

(** ** Debug registers *)
Definition is_host_debug_enabled (v : st) : bool := has (dr7 (h_dr (cv_hstate v))) HBREAK_ENABLED_MASK.
Definition is_thread_migrated (v : st) : bool :=
  negb (vx_cpu_id (cv_cpu v) =? vx_prev_cpu_id (cv_cpu v)).
Definition is_guest_dr_dirty (v : st) : bool := (dr_dirty (cv_dirty v) || is_thread_migrated v)%bool.

Definition save_guest_dr (v : st) : st :=
  let d := cv_dr v in
  set_cv_dr (DRegs (dr0 d) (dr1 d) (dr2 d) (dr3 d) (get_dr 6 (hw_of v)) (dr7 d)) v.

Definition wrdr (n x : Z) : M st unit := modify (fun v => set_hw (set_dr n x (hw_of v)) v).

Definition load_guest_dr : M st unit :=
  v ← get;
  if negb (is_guest_dr_dirty v || is_host_debug_enabled v)%bool then mret tt
  else
    let d := cv_dr v in
    wrdr 7 0;; wrdr 0 (dr0 d);; wrdr 1 (dr1 d);; wrdr 2 (dr2 d);; wrdr 3 (dr3 d);; wrdr 6 (dr6 d);;
    vmwr GUEST_DR7 (dr7 d);;
    modify (set_dr_dirty false).

Definition set_h_dr (d : dregs) (v : st) : st :=
  let h := cv_hstate v in
  set_cv_hstate (HState (hmsr h) (h_apm_pmc_msrs h) (h_apm_pes_msrs h) (h_tsc_aux h) d (h_xcr0 h)) v.
Definition save_host_dr : M st unit :=
  modify (fun v => let d := h_dr (cv_hstate v) in
    set_h_dr (DRegs (dr0 d) (dr1 d) (dr2 d) (dr3 d) (dr6 d) (get_dr 7 (hw_of v))) v);;
  v ← get;
  if negb (is_host_debug_enabled v) then mret tt
  else
    let h := hw_of v in
    modify (set_h_dr (DRegs (get_dr 0 h) (get_dr 1 h) (get_dr 2 h) (get_dr 3 h) (get_dr 6 h)
                        (dr7 (h_dr (cv_hstate v))))).
Definition load_host_dr : M st unit :=
  v ← get;
  if negb (is_host_debug_enabled v) then mret tt
  else
    let d := h_dr (cv_hstate v) in
    wrdr 0 (dr0 d);; wrdr 1 (dr1 d);; wrdr 2 (dr2 d);; wrdr 3 (dr3 d);; wrdr 6 (dr6 d);;
    wrdr 7 (dr7 d).

(** ** XCR0 *)
Definition load_host_xsave_state : M st unit :=
  v ← get;
  let x := h_xcr0 (cv_hstate v) in
  if (has (cr4 v) CR4_OSXSAVE && negb (cv_xcr0 v =? x))%bool
  then modify (fun v => set_hw (ia32_xsetbv XCR_XFEATURE_ENABLED_MASK x (hw_of v)) v) else mret tt.
Definition load_guest_xsave_state : M st unit :=
  v ← get;
  if (has (cr4 v) CR4_OSXSAVE && negb (cv_xcr0 v =? h_xcr0 (cv_hstate v)))%bool
  then modify (fun v => set_hw (ia32_xsetbv XCR_XFEATURE_ENABLED_MASK (cv_xcr0 v) (hw_of v)) v)
  else mret tt.

(** ** Segments *)
Definition upd_hseg (f : host_segs -> host_segs) (v : st) : st := set_cv_hseg (f (cv_hseg v)) v.
Definition set_hs_tables (gdt idt : system_desc_t) (s : host_segs) : host_segs :=
  HostSegs (hs_ldt_selector s) (hs_ds s) (hs_es s) (hs_fs s) (hs_gs s) (hs_seg_valid s)
    (hs_seg_not_present s) (hs_efer s) (hs_gs_base s) (hs_fs_base s) (hs_hcr2 s) (hs_fx s)
    (hs_fake_gs s) gdt idt (hs_cr0_ts s) (hs_pat s).
Definition set_hs_efer (x : Z) (s : host_segs) : host_segs :=
  HostSegs (hs_ldt_selector s) (hs_ds s) (hs_es s) (hs_fs s) (hs_gs s) (hs_seg_valid s)
    (hs_seg_not_present s) x (hs_gs_base s) (hs_fs_base s) (hs_hcr2 s) (hs_fx s)
    (hs_fake_gs s) (hs_host_gdtr s) (hs_host_idtr s) (hs_cr0_ts s) (hs_pat s).
Definition set_hs_pat (x : Z) (s : host_segs) : host_segs :=
  HostSegs (hs_ldt_selector s) (hs_ds s) (hs_es s) (hs_fs s) (hs_gs s) (hs_seg_valid s)
    (hs_seg_not_present s) (hs_efer s) (hs_gs_base s) (hs_fs_base s) (hs_hcr2 s) (hs_fx s)
    (hs_fake_gs s) (hs_host_gdtr s) (hs_host_idtr s) (hs_cr0_ts s) x.
Definition set_hs_ds (x : Z) (s : host_segs) : host_segs :=
  HostSegs (hs_ldt_selector s) x (hs_es s) (hs_fs s) (hs_gs s) (hs_seg_valid s |! HOST_SEG_VALID_DS)
    (hs_seg_not_present s) (hs_efer s) (hs_gs_base s) (hs_fs_base s) (hs_hcr2 s) (hs_fx s)
    (hs_fake_gs s) (hs_host_gdtr s) (hs_host_idtr s) (hs_cr0_ts s) (hs_pat s).
Definition set_hs_es (x : Z) (s : host_segs) : host_segs :=
  HostSegs (hs_ldt_selector s) (hs_ds s) x (hs_fs s) (hs_gs s) (hs_seg_valid s |! HOST_SEG_VALID_ES)
    (hs_seg_not_present s) (hs_efer s) (hs_gs_base s) (hs_fs_base s) (hs_hcr2 s) (hs_fx s)
    (hs_fake_gs s) (hs_host_gdtr s) (hs_host_idtr s) (hs_cr0_ts s) (hs_pat s).
Definition set_hs_fs (x base : Z) (s : host_segs) : host_segs :=
  HostSegs (hs_ldt_selector s) (hs_ds s) (hs_es s) x (hs_gs s) (hs_seg_valid s |! HOST_SEG_VALID_FS)
    (hs_seg_not_present s) (hs_efer s) (hs_gs_base s) base (hs_hcr2 s) (hs_fx s)
    (hs_fake_gs s) (hs_host_gdtr s) (hs_host_idtr s) (hs_cr0_ts s) (hs_pat s).
Definition set_hs_gs (x base : Z) (s : host_segs) : host_segs :=
  HostSegs (hs_ldt_selector s) (hs_ds s) (hs_es s) (hs_fs s) x (hs_seg_valid s |! HOST_SEG_VALID_GS)
    (hs_seg_not_present s) (hs_efer s) base (hs_fs_base s) (hs_hcr2 s) (hs_fx s)
    (hs_fake_gs s) (hs_host_gdtr s) (hs_host_idtr s) (hs_cr0_ts s) (hs_pat s).
Definition set_hs_flags (valid not_present : Z) (s : host_segs) : host_segs :=
  HostSegs (hs_ldt_selector s) (hs_ds s) (hs_es s) (hs_fs s) (hs_gs s) valid
    not_present (hs_efer s) (hs_gs_base s) (hs_fs_base s) (hs_hcr2 s) (hs_fx s)
    (hs_fake_gs s) (hs_host_gdtr s) (hs_host_idtr s) (hs_cr0_ts s) (hs_pat s).
Definition set_hs_fake_gs (x : Z) (s : host_segs) : host_segs :=
  HostSegs (hs_ldt_selector s) (hs_ds s) (hs_es s) (hs_fs s) (hs_gs s) (hs_seg_valid s)
    (hs_seg_not_present s) (hs_efer s) (hs_gs_base s) (hs_fs_base s) (hs_hcr2 s) (hs_fx s)
    x (hs_host_gdtr s) (hs_host_idtr s) (hs_cr0_ts s) (hs_pat s).
Definition set_hs_ldt (x : Z) (s : host_segs) : host_segs :=
  HostSegs x (hs_ds s) (hs_es s) (hs_fs s) (hs_gs s) (hs_seg_valid s)
    (hs_seg_not_present s) (hs_efer s) (hs_gs_base s) (hs_fs_base s) (hs_hcr2 s) (hs_fx s)
    (hs_fake_gs s) (hs_host_gdtr s) (hs_host_idtr s) (hs_cr0_ts s) (hs_pat s).
Definition set_hs_hcr2 (x : Z) (s : host_segs) : host_segs :=
  HostSegs (hs_ldt_selector s) (hs_ds s) (hs_es s) (hs_fs s) (hs_gs s) (hs_seg_valid s)
    (hs_seg_not_present s) (hs_efer s) (hs_gs_base s) (hs_fs_base s) x (hs_fx s)
    (hs_fake_gs s) (hs_host_gdtr s) (hs_host_idtr s) (hs_cr0_ts s) (hs_pat s).
Definition set_hs_fpu (fx : list Z) (ts : bool) (s : host_segs) : host_segs :=
  HostSegs (hs_ldt_selector s) (hs_ds s) (hs_es s) (hs_fs s) (hs_gs s) (hs_seg_valid s)
    (hs_seg_not_present s) (hs_efer s) (hs_gs_base s) (hs_fs_base s) (hs_hcr2 s) fx
    (hs_fake_gs s) (hs_host_gdtr s) (hs_host_idtr s) ts (hs_pat s).

Definition upd_hw (f : vhw -> vhw) : M st unit := modify (fun v => set_hw (f (hw_of v)) v).
Definition kernel_seg (s : kseg) : M st Z := v ← get; mret (get_kernel_seg s (hw_of v)).

Definition get_seg_present (seg : Z) : M st Z :=
  v ← get;
  let h := hw_of v in
  let raw := kernel_read64 (desc_addr (get_kernel_ldtr_base h) seg) h in
  (if negb (desc_present raw =? 0) then modify (upd_hseg (set_hs_fake_gs raw)) else mret tt);;
  mret (desc_present raw).

(** The descriptor is written for the load of GS and cleared afterwards. *)
Definition fake_seg_gs_entry : M st unit :=
  v ← get;
  let s := cv_hseg v in
  let addr := desc_addr (get_kernel_ldtr_base (hw_of v)) (hs_gs s) in
  (if desc_present (kernel_read64 addr (hw_of v)) =? 0
   then upd_hw (kernel_write64 addr (hs_fake_gs s)) else mret tt);;
  upd_hw (set_kernel_seg KGs (hs_gs s));;
  wrmsr IA32_GS_BASE (hs_gs_base s);;
  upd_hw (kernel_write64 addr 0).

(** ** The FPU *)
Definition vcpu_enter_fpu_state : M st unit :=
  v ← get;
  let ts := has (get_cr0 (hw_of v)) CR0_TS in
  upd_hw hax_clts;;
  modify (fun v => upd_hseg (set_hs_fpu (hax_fxsave (hw_of v)) ts) v);;
  modify (fun v => set_hw (hax_fxrstor (cv_gfx v) (hw_of v)) v).

Definition vcpu_exit_fpu_state : M st unit :=
  upd_hw hax_clts;;
  modify (fun v => set_cv_gfx (hax_fxsave (hw_of v)) v);;
  modify (fun v => set_hw (hax_fxrstor (hs_fx (cv_hseg v)) (hw_of v)) v);;
  v ← get;
  if hs_cr0_ts (cv_hseg v) then upd_hw (fun h => hw_set_cr0 (get_cr0 h |! CR0_TS) h) else mret tt.

(** ** Saving and restoring the host *)
Definition write_hw (field : Z) (f : vhw -> Z) : M st unit := v ← get; vmwr field (f (hw_of v)).
Definition write_msr (field msr : Z) : M st unit := x ← rdmsr msr; vmwr field x.

Definition save_host_segments (gs fs : Z) : M st unit :=
  write_hw HOST_CS_SELECTOR (get_kernel_seg KCs);;
  write_hw HOST_SS_SELECTOR (fun h => get_kernel_seg KSs h &! 0xfff8);;
  write_hw HOST_DS_SELECTOR (fun h => get_kernel_seg KDs h &! 0xfff8);;
  ds ← kernel_seg KDs;
  (if negb (ds &! 0x7 =? 0) then modify (upd_hseg (set_hs_ds ds)) else mret tt);;
  write_hw HOST_ES_SELECTOR (fun h => get_kernel_seg KEs h &! 0xfff8);;
  es ← kernel_seg KEs;
  (if negb (es &! 0x7 =? 0) then modify (upd_hseg (set_hs_es es)) else mret tt);;
  (if negb (gs &! 0x7 =? 0) then
     (if negb (gs &! 0x4 =? 0) then
        present ← get_seg_present gs;
        if present =? 0
        then modify (upd_hseg (fun s => set_hs_flags (hs_seg_valid s)
                                 (hs_seg_not_present s |! HOST_SEG_NOT_PRESENT_GS) s))
        else mret tt
      else mret tt);;
     base ← rdmsr IA32_GS_BASE;
     modify (upd_hseg (set_hs_gs gs base));;
     vmwr HOST_GS_SELECTOR 0
   else
     vmwr HOST_GS_SELECTOR gs;; write_msr HOST_GS_BASE IA32_GS_BASE);;
  (if negb (fs &! 0x7 =? 0) then
     base ← rdmsr IA32_FS_BASE;
     modify (upd_hseg (set_hs_fs fs base));;
     vmwr HOST_FS_SELECTOR 0
   else
     vmwr HOST_FS_SELECTOR fs;; write_msr HOST_FS_BASE IA32_FS_BASE).

Definition vcpu_save_host_state : M st unit :=
  gs ← kernel_seg KGs;
  fs ← kernel_seg KFs;
  modify (fun v => upd_hseg (set_hs_tables (get_kernel_gdt (hw_of v)) (get_kernel_idt (hw_of v))) v);;
  write_hw HOST_CR3 get_cr3;;
  write_hw HOST_CR4 get_cr4;;
  x ← rdmsr IA32_EFER;
  modify (upd_hseg (set_hs_efer x));;
  v ← get;
  (if has (cv_exit_ctls v) EXIT_CONTROL_LOAD_EFER then vmwr HOST_EFER x else mret tt);;
  x ← rdmsr IA32_CR_PAT;
  modify (upd_hseg (set_hs_pat x));;
  vmwr HOST_PAT x;;
  save_host_segments gs fs;;
  write_hw HOST_TR_SELECTOR get_kernel_tr_selector;;
  write_hw HOST_TR_BASE get_kernel_tr_base;;
  write_hw HOST_GDTR_BASE get_kernel_gdtr_base_4vmcs;;
  write_hw HOST_IDTR_BASE get_kernel_idtr_base;;
  write_msr HOST_SYSENTER_CS IA32_SYSENTER_CS;;
  write_msr HOST_SYSENTER_EIP IA32_SYSENTER_EIP;;
  write_msr HOST_SYSENTER_ESP IA32_SYSENTER_ESP;;
  modify (fun v => upd_hseg (set_hs_ldt (get_kernel_ldt (hw_of v))) v);;
  save_host_msr;;
  modify (fun v => upd_hseg (set_hs_hcr2 (get_cr2 (hw_of v))) v);;
  save_host_dr;;
  vcpu_enter_fpu_state;;
  write_hw HOST_CR0 get_cr0.

Definition load_host_segments : M st unit :=
  v ← get;
  let s := cv_hseg v in
  (if has (hs_seg_valid s) HOST_SEG_VALID_ES then upd_hw (set_kernel_seg KEs (hs_es s)) else mret tt);;
  (if has (hs_seg_valid s) HOST_SEG_VALID_DS then upd_hw (set_kernel_seg KDs (hs_ds s)) else mret tt);;
  (if has (hs_seg_valid s) HOST_SEG_VALID_GS then
     if has (hs_seg_not_present s) HOST_SEG_NOT_PRESENT_GS then fake_seg_gs_entry
     else upd_hw (set_kernel_seg KGs (hs_gs s));; wrmsr IA32_GS_BASE (hs_gs_base s)
   else mret tt);;
  (if has (hs_seg_valid s) HOST_SEG_VALID_FS then
     upd_hw (set_kernel_seg KFs (hs_fs s));; wrmsr IA32_FS_BASE (hs_fs_base s)
   else mret tt);;
  modify (upd_hseg (set_hs_flags 0 0)).

Definition vcpu_load_host_state : M st unit :=
  v ← get;
  upd_hw (set_kernel_gdt (hs_host_gdtr (cv_hseg v)));;
  upd_hw (set_kernel_idt (hs_host_idtr (cv_hseg v)));;
  modify (fun v => set_cr2 (get_cr2 (hw_of v)) v);;
  upd_hw (set_kernel_ldt (hs_ldt_selector (cv_hseg v)));;
  load_host_segments;;
  load_host_msr;;
  upd_hw (hw_set_cr2 (hs_hcr2 (cv_hseg v)));;
  load_host_dr;;
  load_host_xsave_state;;
  vcpu_exit_fpu_state.
End Host.
