(* ===== verification/VcpuHostProps.v ===== *)
(** * The registers of the host are restored *)

From stdpp Require Import base numbers list gmap.
From Stdlib Require Import ZArith Lia.
From S2P Require Import IntrExc Prelude MemTypes Memslot GpaSpace PageWalker Mmio.
From S2P Require Import EmTypes Emulate EptTree Ept2 VcpuEmu Cpuid Vmx VmxProps VcpuState VcpuCr VcpuMsr.
From S2P Require Import VcpuExit VcpuSync VcpuHost.
#[local] Open Scope Z_scope.

(** The registers that the driver restores itself: of GDTR and IDTR the limit and the base
    address, of the image that FXSAVE makes of the FPU and the SSE registers each element, of CR0
    the flag TS. *)
Inductive hreg :=
  HMsr (m : Z) | HDr (n : Z) | HCr2 | HLdt | HSeg (s : kseg) |
  HGdt (base : bool) | HIdt (base : bool) | HXcr0 | HFx (i : nat) | HTs.

#[export] Instance kseg_eq_dec : EqDecision kseg.
Proof. solve_decision. Defined.
#[export] Instance hreg_eq_dec : EqDecision hreg.
Proof. solve_decision. Defined.

(** Counters change by themselves. *)
Definition static (r : hreg) : bool :=
  match r with
  | HMsr m => negb (one_of m [IA32_TSC; IA32_PMC0; IA32_PMC1; IA32_PMC2; IA32_PMC3])
  | _ => true
  end.

Definition table_field (base : bool) (d : system_desc_t) : Z := if base then sy_base d else sy_limit d.

(** What the processor's manual says of these registers: a write changes the register, and no
    other one, except that loading FS or GS also changes its base address. *)
Class HostLaws {VH : VmxHw} {KH : KernelHw} := {
  hreg_of : hreg -> vhw -> Z;
  law_rdmsr m h : static (HMsr m) = true -> (ia32_rdmsr m h).1 = hreg_of (HMsr m) h;
  law_rdmsr_other r m h : static r = true -> hreg_of r (ia32_rdmsr m h).2 = hreg_of r h;
  law_get_dr n h : get_dr n h = hreg_of (HDr n) h;
  law_get_cr2 h : get_cr2 h = hreg_of HCr2 h;
  law_get_ldt h : get_kernel_ldt h = hreg_of HLdt h;
  law_get_seg s h : get_kernel_seg s h = hreg_of (HSeg s) h;
  law_wrmsr r m x h : static r = true ->
    hreg_of r (ia32_wrmsr m x h) = if decide (r = HMsr m) then x else hreg_of r h;
  law_set_dr r n x h : static r = true ->
    hreg_of r (set_dr n x h) = if decide (r = HDr n) then x else hreg_of r h;
  law_set_cr2 r x h : static r = true ->
    hreg_of r (hw_set_cr2 x h) = if decide (r = HCr2) then x else hreg_of r h;
  law_set_ldt r x h : static r = true ->
    hreg_of r (set_kernel_ldt x h) = if decide (r = HLdt) then x else hreg_of r h;
  law_set_seg s x h : hreg_of (HSeg s) (set_kernel_seg s x h) = x;
  law_set_seg_other r s x h : static r = true -> r <> HSeg s -> (s = KFs -> r <> HMsr IA32_FS_BASE) ->
    (s = KGs -> r <> HMsr IA32_GS_BASE) -> hreg_of r (set_kernel_seg s x h) = hreg_of r h;
  law_get_cr0 h : Z.b2z (has (get_cr0 h) CR0_TS) = hreg_of HTs h;
  law_set_cr0 r x h : static r = true ->
    hreg_of r (hw_set_cr0 x h) = if decide (r = HTs) then Z.b2z (has x CR0_TS) else hreg_of r h;
  law_clts r h : static r = true -> hreg_of r (hax_clts h) = if decide (r = HTs) then 0 else hreg_of r h;
  law_get_gdt b h : table_field b (get_kernel_gdt h) = hreg_of (HGdt b) h;
  law_set_gdt r x h : static r = true ->
    hreg_of r (set_kernel_gdt x h) = match r with HGdt b => table_field b x | _ => hreg_of r h end;
  law_get_idt b h : table_field b (get_kernel_idt h) = hreg_of (HIdt b) h;
  law_set_idt r x h : static r = true ->
    hreg_of r (set_kernel_idt x h) = match r with HIdt b => table_field b x | _ => hreg_of r h end;
  law_write64 r a x h : static r = true -> hreg_of r (kernel_write64 a x h) = hreg_of r h;
  law_fxsave i h : nth i (hax_fxsave h) 0 = hreg_of (HFx i) h;
  law_fxrstor r x h : static r = true ->
    hreg_of r (hax_fxrstor x h) = match r with HFx i => nth i x 0 | _ => hreg_of r h end;
  law_xsetbv r i x h : static r = true ->
    hreg_of r (ia32_xsetbv i x h) =
      if decide (r = HXcr0 /\ i = XCR_XFEATURE_ENABLED_MASK) then x else hreg_of r h;
}.

Section Restore.
Context {HH : Host} {PH : PhysHost} {VH : VmxHw} {CH : CpuidHw} {KH : KernelHw} {HL : HostLaws}.
Context (G : hax_globals) (uninit : cpuid_args_t).
Implicit Types v w : vcpu.

Definition reg v (r : hreg) : Z := hreg_of r (hw_of v).

(** What the guest may still change of the extended state: CR4 and XCR0 of the guest. *)
Context (xs : Z * Z).

(** ** What is known of the machine between two steps: the registers that do not change by
    themselves, and what the driver has recorded *)
Record snap (sec : bool) (rho : hreg -> Z) (h : host_regs) (s : host_segs) (g : cpuid_globals) v : Prop := {
  sn_sec : sec = true -> in_section v;
  sn_regs : forall r, static r = true -> reg v r = rho r;
  sn_hstate : cv_hstate v = h;
  sn_hseg : cv_hseg v = s;
  sn_cpuid : cv_cpuid_globals v = g;
  sn_xs : (cr4 v, cv_xcr0 v) = xs;
}.
Definition upd_reg (r : hreg) (x : Z) (rho : hreg -> Z) : hreg -> Z :=
  fun r' => if decide (r' = r) then x else rho r'.

Section Steps.
Context (sec : bool) (rho : hreg -> Z) (h : host_regs) (s : host_segs) (g : cpuid_globals).
Implicit Types Q : unit -> vcpu -> Prop.

Lemma snap_hw rho0 v f rho' : snap sec rho0 h s g v ->
  (forall r, static r = true -> hreg_of r (f (hw_of v)) = rho' r) ->
  snap sec rho' h s g (set_hw (f (hw_of v)) v).
Proof. intros [S1 S2 S3 S4 S5 S6] H. split; try done. intros Hs. destruct (S1 Hs) as [[] Hd]. by split. Qed.

Lemma wp_hw f v rho' Q : snap sec rho h s g v ->
  (forall r, static r = true -> hreg_of r (f (hw_of v)) = rho' r) ->
  (forall v', snap sec rho' h s g v' -> Q tt v') -> wp (upd_hw f) v Q.
Proof. intros S H HQ. apply wp_modify, HQ. by apply (snap_hw rho v f). Qed.

Lemma wp_hseg (f : vcpu -> host_segs -> host_segs) v Q : snap sec rho h s g v ->
  (forall v', snap sec rho h (f v s) g v' -> Q tt v') -> wp (modify (fun v => upd_hseg (f v) v)) v Q.
Proof. intros [S1 S2 S3 S4 S5 S6] HQ. apply wp_modify, HQ. split; try done. unfold upd_hseg; cbn. by rewrite S4. Qed.

Lemma wp_hstate (f : vcpu -> host_regs) v Q : snap sec rho h s g v ->
  (forall v', snap sec rho (f v) s g v' -> Q tt v') -> wp (modify (fun v => set_cv_hstate (f v) v)) v Q.
Proof. intros [S1 S2 S3 S4 S5 S6] HQ. apply wp_modify, HQ. by split. Qed.

Lemma wp_rdmsr m v (Q : Z -> vcpu -> Prop) : snap sec rho h s g v ->
  (forall x v', snap sec rho h s g v' -> (static (HMsr m) = true -> x = rho (HMsr m)) -> Q x v') ->
  wp (rdmsr m) v Q.
Proof.
  intros [S1 S2 S3 S4 S5 S6] HQ. unfold rdmsr. apply wp_bind, wp_get.
  pose proof (law_rdmsr m (vx_hw (cv_cpu v))) as Hm.
  pose proof (fun r => law_rdmsr_other r m (vx_hw (cv_cpu v))) as Hr.
  destruct (ia32_rdmsr m _) as [x hw]. cbn in Hm, Hr. apply wp_bind, wp_modify, wp_ret, HQ.
  - split; try done.
    + intros Hs. destruct (S1 Hs) as [[] Hd]. by split.
    + intros r Hst. unfold reg, hw_of. cbn. rewrite Hr by done. by apply S2.
  - intros Hst. rewrite Hm by done. by apply S2.
Qed.

Lemma wp_wrmsr m x v Q : snap sec rho h s g v ->
  (forall v', snap sec (upd_reg (HMsr m) x rho) h s g v' -> Q tt v') -> wp (wrmsr m x) v Q.
Proof.
  intros S HQ. apply (wp_hw (ia32_wrmsr m x) v (upd_reg (HMsr m) x rho)); [done| |done].
  intros r Hr. rewrite law_wrmsr by done. unfold upd_reg. case_decide; [done|]. by apply S.
Qed.

Lemma wp_wrdr n x v Q : snap sec rho h s g v ->
  (forall v', snap sec (upd_reg (HDr n) x rho) h s g v' -> Q tt v') -> wp (wrdr n x) v Q.
Proof.
  intros S HQ. apply (wp_hw (set_dr n x) v (upd_reg (HDr n) x rho)); [done| |done].
  intros r Hr. rewrite law_set_dr by done. unfold upd_reg. case_decide; [done|]. by apply S.
Qed.

Lemma wp_feature k b v (Q : bool -> vcpu -> Prop) : snap sec rho h s g v ->
  fst <$> cpu_has_feature uninit k g = Some b ->
  (forall v', snap sec rho h s g v' -> Q b v') -> wp (has_feature uninit k) v Q.
Proof.
  intros [S1 S2 S3 S4 S5 S6] Hb HQ. unfold has_feature, in_cpuid. rewrite <- S5 in Hb.
  destruct (cpu_has_feature uninit k (cv_cpuid_globals v)) as [[b' g']|] eqn:E; [|done]. injection Hb as ->.
  assert (g' = cv_cpuid_globals v) as ->.
  { revert E. unfold cpu_has_feature, cpuid_host_has_feature. rewrite gets_run.
    destruct (_ || _)%bool; [by intros [= _ <-]|].
    destruct (cc_data _ !! _) as [y|]; [|done]. by intros [= _ <-]. }
  eexists _, _. rewrite E. split; [done|]. apply HQ. by split.
Qed.

(** A segment register whose base address is then written. *)
Lemma wp_base_seg k m x b v Q : snap sec rho h s g v ->
  (k = KFs /\ m = IA32_FS_BASE) \/ (k = KGs /\ m = IA32_GS_BASE) ->
  (forall v', snap sec (upd_reg (HMsr m) b (upd_reg (HSeg k) x rho)) h s g v' -> Q tt v') ->
  wp (upd_hw (set_kernel_seg k x);; wrmsr m b) v Q.
Proof.
  intros S Hk HQ. apply wp_bind, wp_modify. cbn beta.
  pose proof (snap_hw rho v (set_kernel_seg k x) (fun r => hreg_of r (set_kernel_seg k x (hw_of v))) S
    (fun r _ => eq_refl)) as S1.
  apply wp_modify, HQ. apply (snap_hw _ _ (ia32_wrmsr m b) (upd_reg (HMsr m) b (upd_reg (HSeg k) x rho))) in S1; [exact S1|].
  intros r Hr. rewrite law_wrmsr by done. unfold upd_reg. case_decide; [done|].
  change (hw_of (set_hw (set_kernel_seg k x (hw_of v)) v)) with (set_kernel_seg k x (hw_of v)).
  case_decide; [subst r; apply law_set_seg|]. rewrite law_set_seg_other; [by apply S|done..| |];
    destruct Hk as [[-> ->]|[-> ->]]; done.
Qed.

Lemma wp_seg k x v Q : snap sec rho h s g v -> k <> KFs -> k <> KGs ->
  (forall v', snap sec (upd_reg (HSeg k) x rho) h s g v' -> Q tt v') -> wp (upd_hw (set_kernel_seg k x)) v Q.
Proof.
  intros S Hf Hg HQ. apply (wp_hw _ v (upd_reg (HSeg k) x rho)); [done| |done].
  intros r Hr. unfold upd_reg. case_decide; [subst r; apply law_set_seg|].
  rewrite law_set_seg_other by done. by apply S.
Qed.
End Steps.

Lemma wp_vmwr rho h s g f x v (Q : unit -> vcpu -> Prop) : snap true rho h s g v ->
  (forall v', snap true rho h s g v' -> Q tt v') -> wp (vmwr f x) v Q.
Proof.
  intros [S1 S2 S3 S4 S5 S6] HQ. exists tt, (wr f x v). rewrite vmwr_sec by auto. split; [done|].
  apply HQ. by split.
Qed.
Lemma wp_write_hw rho h s g f e v (Q : unit -> vcpu -> Prop) : snap true rho h s g v ->
  (forall v', snap true rho h s g v' -> Q tt v') -> wp (write_hw f e) v Q.
Proof. intros S HQ. apply wp_bind, wp_get. by eapply wp_vmwr. Qed.
Lemma wp_write_msr rho h s g f m v (Q : unit -> vcpu -> Prop) : snap true rho h s g v ->
  (forall v', snap true rho h s g v' -> Q tt v') -> wp (write_msr f m) v Q.
Proof. intros S HQ. apply wp_bind. eapply wp_rdmsr; [done|]. intros x v1 S1 _. by eapply wp_vmwr. Qed.

Lemma wp_kernel_seg sec rho h s g k v (Q : Z -> vcpu -> Prop) : snap sec rho h s g v ->
  Q (rho (HSeg k)) v -> wp (kernel_seg k) v Q.
Proof.
  intros S HQ. apply wp_bind, wp_get, wp_ret. rewrite law_get_seg.
  rewrite (sn_regs _ _ _ _ _ _ S (HSeg k) eq_refl : hreg_of _ _ = _). exact HQ.
Qed.

(** ** Saving *)

(** [allowed]: the MSR exists on this processor. *)
Definition allowed (em64t : bool) (m : Z) : bool := (em64t || negb (is_emt64_msr m))%bool.

Lemma save_list_wp rho h s g b index l v Q :
  snap true rho h s g v -> Forall (fun i => static (HMsr i) = true) index -> length l = length index ->
  (forall l' v', snap true rho h s g v' -> map vm_entry l' = index ->
     Forall (fun m => allowed b (vm_entry m) = true -> vm_value m = rho (HMsr (vm_entry m))) l' -> Q l' v') ->
  wp (save_msr_list b index l) v Q.
Proof.
  revert l v Q. induction index as [|i index IH]; intros [|m l] v Q S Hst Hlen HQ; try done; cbn [save_msr_list].
  { apply wp_ret, HQ; [done|done|constructor]. }
  apply Forall_cons in Hst as [Hi Hst]. injection Hlen as Hlen.
  assert (Hx : wp (if allowed b i then rdmsr i else mret (vm_value m)) v
    (fun x v' => snap true rho h s g v' /\ (allowed b i = true -> x = rho (HMsr i)))).
  { destruct (allowed b i); [|by apply wp_ret]. eapply wp_rdmsr; [done|]. auto. }
  apply wp_bind. eapply wp_mono; [exact Hx|]. intros x v1 [S1 Hx1]. apply wp_bind, (IH l v1); [done..|].
  intros l' v2 S2 Hm Hf. apply wp_ret, HQ; [done|cbn; by rewrite Hm|by constructor].
Qed.

Lemma static_counter j : (j < 4)%nat -> static (HMsr (IA32_PERFEVTSEL0 + Z.of_nat j)) = true.
Proof. intros Hj. do 4 (destruct j as [|j]; [done|]). lia. Qed.

Lemma save_counters_wp rho h s g i n pmc pes v Q :
  snap true rho h s g v -> (i + n <= 4)%nat -> (i + n <= length pes)%nat ->
  (forall r v', snap true rho h s g v' -> length r.1 = length pmc -> length r.2 = length pes ->
     (forall j, (j < i)%nat -> r.2 !! j = pes !! j) ->
     (forall j, (i <= j < i + n)%nat -> r.2 !! j = Some (rho (HMsr (IA32_PERFEVTSEL0 + Z.of_nat j)))) ->
     Q r v') ->
  wp (save_counters i n pmc pes) v Q.
Proof.
  revert i pmc pes v. induction n as [|n IH]; intros i pmc pes v S Hi Hl HQ; cbn [save_counters].
  { apply wp_ret, HQ; try done. lia. }
  apply wp_bind. eapply wp_rdmsr; [done|]. intros x v1 S1 _.
  apply wp_bind. eapply wp_rdmsr; [done|]. intros y v2 S2 Hy.
  apply IH; [done|lia|rewrite length_insert; lia|]. rewrite !length_insert. intros r v3 S3 L1 L2 Hlt Hge.
  apply HQ; [done..| |].
  - intros j Hj. rewrite Hlt by lia. by rewrite list_lookup_insert_ne by lia.
  - intros j Hj. destruct (decide (j = i)) as [->|]; [|apply Hge; lia].
    rewrite Hlt by lia. rewrite list_lookup_insert_eq by lia. f_equal. apply Hy, static_counter. lia.
Qed.

(** What is recorded of the host's MSRs. *)
Definition feature (k : Z) (g : cpuid_globals) : option bool := fst <$> cpu_has_feature uninit k g.

(** The arrays have their sizes. *)
Record hstate_wf (h : host_regs) : Prop := {
  hw_hmsr : length (hmsr h) = length hmsr_list;
  hw_pmc : length (h_apm_pmc_msrs h) = 4%nat;
  hw_pes : length (h_apm_pes_msrs h) = 4%nat;
}.

Record msrs_saved (em64t aux : bool) (rho : hreg -> Z) (h : host_regs) : Prop := {
  ms_wf : hstate_wf h;
  ms_entries : map vm_entry (hmsr h) = hmsr_list;
  ms_values : Forall (fun m => allowed em64t (vm_entry m) = true -> vm_value m = rho (HMsr (vm_entry m))) (hmsr h);
  ms_aux : aux = true -> h_tsc_aux h = rho (HMsr IA32_TSC_AUX);
  ms_pes : hg_apm_version G <> 0 -> forall j, Z.of_nat j < hg_apm_general_count G ->
    h_apm_pes_msrs h !! j = Some (rho (HMsr (IA32_PERFEVTSEL0 + Z.of_nat j)));
}.

Lemma save_host_msr_wp rho h s g em aux v Q :
  snap true rho h s g v -> hstate_wf h -> hg_apm_general_count G <= 4 ->
  feature X86_FEATURE_EM64T g = Some em -> feature X86_FEATURE_RDTSCP g = Some aux ->
  (forall h' v', snap true rho h' s g v' -> msrs_saved em aux rho h' -> h_xcr0 h' = h_xcr0 h -> Q tt v') ->
  wp (save_host_msr G uninit) v Q.
Proof.
  intros S [W1 W2 W3] Hn Hem Haux HQ. unfold save_host_msr.
  apply wp_bind. eapply wp_feature; [done..|]. intros v1 S1. apply wp_bind, wp_get. cbv zeta.
  rewrite (sn_hstate _ _ _ _ _ _ S1). apply wp_bind. eapply save_list_wp; [done|by repeat constructor|done|].
  intros l v2 S2 Hl Hf. apply wp_bind. eapply wp_feature; [done..|]. intros v3 S3.
  assert (Hx : wp (if aux then rdmsr IA32_TSC_AUX else mret (h_tsc_aux h)) v3
    (fun x v' => snap true rho h s g v' /\ (aux = true -> x = rho (HMsr IA32_TSC_AUX)))).
  { destruct aux; [|by apply wp_ret]. eapply wp_rdmsr; [done|]. auto. }
  apply wp_bind. eapply wp_mono; [exact Hx|]. intros x v4 [S4 Hx4]. apply wp_bind.
  assert (Hr : forall r v5, snap true rho h s g v5 -> length r.1 = 4%nat -> length r.2 = 4%nat ->
    (hg_apm_version G <> 0 -> forall j, Z.of_nat j < hg_apm_general_count G ->
       r.2 !! j = Some (rho (HMsr (IA32_PERFEVTSEL0 + Z.of_nat j)))) ->
    wp (modify (set_cv_hstate (HState l r.1 r.2 x (h_dr h) (h_xcr0 h)))) v5 Q).
  { intros r v5 S5 L1 L2 Hp. eapply (wp_hstate _ _ _ _ _ (fun _ => _)); [done|]. intros v6 S6.
    apply (HQ _ _ S6); [|done]. split; try done. split; try done. cbn [hmsr]. by rewrite <- (length_map vm_entry), Hl. }
  destruct (Z.eqb_spec (hg_apm_version G) 0); [by apply wp_ret, Hr|].
  eapply save_counters_wp; [done|lia|lia|]. intros r v5 S5 L1 L2 _ Hp. apply Hr; [done|lia|lia|].
  intros _ j Hj. apply Hp. lia.
Qed.

(** Selectors that the processor does not restore at a VM exit. *)
Definition odd_selector (x : Z) : bool := negb (x &! 0x7 =? 0).

Record segs_saved (rho : hreg -> Z) (s : host_segs) : Prop := {
  ss_valid_ds : has (hs_seg_valid s) HOST_SEG_VALID_DS = odd_selector (rho (HSeg KDs));
  ss_valid_es : has (hs_seg_valid s) HOST_SEG_VALID_ES = odd_selector (rho (HSeg KEs));
  ss_valid_fs : has (hs_seg_valid s) HOST_SEG_VALID_FS = odd_selector (rho (HSeg KFs));
  ss_valid_gs : has (hs_seg_valid s) HOST_SEG_VALID_GS = odd_selector (rho (HSeg KGs));
  ss_ds : odd_selector (rho (HSeg KDs)) = true -> hs_ds s = rho (HSeg KDs);
  ss_es : odd_selector (rho (HSeg KEs)) = true -> hs_es s = rho (HSeg KEs);
  ss_fs : odd_selector (rho (HSeg KFs)) = true ->
    hs_fs s = rho (HSeg KFs) /\ hs_fs_base s = rho (HMsr IA32_FS_BASE);
  ss_gs : odd_selector (rho (HSeg KGs)) = true ->
    hs_gs s = rho (HSeg KGs) /\ hs_gs_base s = rho (HMsr IA32_GS_BASE);
}.

Definition tables_of (s : host_segs) : system_desc_t * system_desc_t := (hs_host_gdtr s, hs_host_idtr s).

Ltac wp_step := apply wp_bind;
  lazymatch goal with
  | |- wp (write_hw _ _) _ _ => eapply wp_write_hw; [eassumption|intros ? ?]
  | |- wp (write_msr _ _) _ _ => eapply wp_write_msr; [eassumption|intros ? ?]
  | |- wp (vmwr _ _) _ _ => eapply wp_vmwr; [eassumption|intros ? ?]
  | |- wp (kernel_seg _) _ _ => eapply wp_kernel_seg; [eassumption|]
  end.

(** A conditional record of a segment. *)
Lemma wp_record (b : bool) rho h s g f v (Q : unit -> vcpu -> Prop) : snap true rho h s g v ->
  (forall v', snap true rho h (if b then f s else s) g v' -> Q tt v') ->
  wp (if b then modify (upd_hseg f) else mret tt) v Q.
Proof.
  intros S HQ. destruct b; [|by apply wp_ret, HQ]. by eapply (wp_hseg _ _ _ _ _ (fun _ => f)).
Qed.

(** The descriptor of GS, when it is in the local descriptor table. *)
Lemma wp_gs_present rho h s g gs v (Q : unit -> vcpu -> Prop) : snap true rho h s g v ->
  (forall v' np fake, snap true rho h (set_hs_flags (hs_seg_valid s) np (set_hs_fake_gs fake s)) g v' -> Q tt v') ->
  wp (if negb (gs &! 0x4 =? 0) then
        present ← get_seg_present gs;
        if present =? 0
        then modify (upd_hseg (fun s => set_hs_flags (hs_seg_valid s)
                                 (hs_seg_not_present s |! HOST_SEG_NOT_PRESENT_GS) s))
        else mret tt
      else mret tt) v Q.
Proof.
  intros S HQ. assert (E : s = set_hs_flags (hs_seg_valid s) (hs_seg_not_present s) (set_hs_fake_gs (hs_fake_gs s) s))
    by by destruct s. destruct (negb _); [|by (apply wp_ret; eapply HQ; rewrite <- E)].
  apply wp_bind. unfold get_seg_present. apply wp_bind, wp_get. cbv zeta. apply wp_bind.
  set (raw := kernel_read64 _ _). eapply wp_record; [exact S|]. intros v1 S1. apply wp_ret.
  destruct (desc_present _ =? 0); cbn [negb] in S1.
  - eapply (wp_hseg _ _ _ _ _ (fun _ => _)); [exact S1|]. cbv beta. intros v2 S2.
    apply (HQ v2 (hs_seg_not_present s |! HOST_SEG_NOT_PRESENT_GS) (hs_fake_gs s)). by destruct s.
  - apply wp_ret. apply (HQ v1 (hs_seg_not_present s) raw). by destruct s.
Qed.

(** The base address of FS or GS is saved with the selector, or written to the VMCS. *)
Lemma wp_save_base (b : bool) rho h s g m sel field sf bf f v (Q : unit -> vcpu -> Prop) : snap true rho h s g v ->
  static (HMsr m) = true ->
  (forall v', snap true rho h (if b then f (rho (HMsr m)) s else s) g v' -> Q tt v') ->
  wp (if b then base ← rdmsr m; modify (upd_hseg (f base));; vmwr field 0
      else vmwr sf sel;; write_msr bf m) v Q.
Proof.
  intros S Hst HQ. destruct b.
  - apply wp_bind. eapply wp_rdmsr; [done|]. intros x v1 S1 Hx. rewrite (Hx Hst). apply wp_bind.
    eapply (wp_hseg _ _ _ _ _ (fun _ => _)); [done|]. intros v2 S2. by eapply wp_vmwr.
  - apply wp_bind. eapply wp_vmwr; [done|]. intros v1 S1. by eapply wp_write_msr.
Qed.

Lemma save_host_segments_wp rho h s g v Q : snap true rho h s g v -> hs_seg_valid s = 0 ->
  (forall s' v', snap true rho h s' g v' -> segs_saved rho s' -> tables_of s' = tables_of s -> Q tt v') ->
  wp (save_host_segments (rho (HSeg KGs)) (rho (HSeg KFs))) v Q.
Proof.
  intros S Hv HQ. unfold save_host_segments. fold (odd_selector (rho (HSeg KGs))). fold (odd_selector (rho (HSeg KFs))).
  do 4 wp_step. apply wp_bind. eapply wp_record; [done|]. intros v1 S1.
  do 2 wp_step. apply wp_bind. eapply wp_record; [done|]. intros v2 S2.
  fold (odd_selector (rho (HSeg KDs))) in S1, S2. fold (odd_selector (rho (HSeg KEs))) in S2.
  match type of S2 with snap _ _ _ ?x _ _ => set (s2 := x) in S2 end.
  apply wp_bind.
  match goal with |- wp ?m v2 _ => assert (Hgs : wp m v2 (fun _ v' => exists np fake,
    snap true rho h (if odd_selector (rho (HSeg KGs)) then
      set_hs_gs (rho (HSeg KGs)) (rho (HMsr IA32_GS_BASE)) (set_hs_flags (hs_seg_valid s2) np (set_hs_fake_gs fake s2))
      else s2) g v')) end.
  { destruct (odd_selector (rho (HSeg KGs))) eqn:E.
    - apply wp_bind. eapply wp_gs_present; [done|]. intros v3 np fake S3.
      eapply (wp_save_base true _ _ _ _ IA32_GS_BASE 0 _ 0 0); [done..|]. eauto.
    - eapply (wp_save_base false _ _ _ _ IA32_GS_BASE _ 0 _ _ (fun _ s => s)); [done..|]. intros. by exists 0, 0. }
  eapply wp_mono; [exact Hgs|]. intros _ v3 (np & fake & S3).
  eapply (wp_save_base (odd_selector (rho (HSeg KFs)))); [done..|]. intros v4 S4. apply (HQ _ _ S4);
    [|subst s2; by repeat case_match]. subst s2. destruct (odd_selector (rho (HSeg KFs))) eqn:?, (odd_selector (rho (HSeg KGs))) eqn:?,
    (odd_selector (rho (HSeg KDs))) eqn:?, (odd_selector (rho (HSeg KEs))) eqn:?;
    (split; cbn; rewrite ?Hv; congruence || (intros; by split) || done).
Qed.

Record drs_saved (rho : hreg -> Z) (h : host_regs) : Prop := {
  ds_dr7 : dr7 (h_dr h) = rho (HDr 7);
  ds_others : has (rho (HDr 7)) HBREAK_ENABLED_MASK = true ->
    dr0 (h_dr h) = rho (HDr 0) /\ dr1 (h_dr h) = rho (HDr 1) /\ dr2 (h_dr h) = rho (HDr 2) /\
    dr3 (h_dr h) = rho (HDr 3) /\ dr6 (h_dr h) = rho (HDr 6);
}.

Lemma msrs_saved_dr em aux rho h d x : msrs_saved em aux rho h ->
  msrs_saved em aux rho (HState (hmsr h) (h_apm_pmc_msrs h) (h_apm_pes_msrs h) (h_tsc_aux h) d x).
Proof. intros [[] ? ? ? ?]. by repeat split. Qed.

Lemma save_host_dr_wp rho h s g em aux v Q : snap true rho h s g v -> msrs_saved em aux rho h ->
  (forall h' v', snap true rho h' s g v' -> msrs_saved em aux rho h' -> drs_saved rho h' ->
     h_xcr0 h' = h_xcr0 h -> Q tt v') ->
  wp save_host_dr v Q.
Proof.
  intros S Hm HQ. unfold save_host_dr.
  assert (Hd : forall w n, snap true rho (cv_hstate w) s g w -> get_dr n (hw_of w) = rho (HDr n)).
  { intros w n Sw. rewrite law_get_dr. by apply Sw. }
  apply wp_bind. unfold set_h_dr. eapply (wp_hstate _ _ _ _ _ (fun v => _)); [exact S|]. intros v1 S1.
  apply wp_bind, wp_get. unfold is_host_debug_enabled. rewrite (sn_hstate _ _ _ _ _ _ S1).
  rewrite Hd in S1 |- * by (destruct S; by split). rewrite (sn_hstate _ _ _ _ _ _ S) in S1 |- *. cbn [h_dr dr7].
  destruct (has (rho (HDr 7)) HBREAK_ENABLED_MASK) eqn:E; cbn [negb].
  - eapply (wp_hstate _ _ _ _ _ (fun v => _)); [exact S1|]. intros v2 S2.
    rewrite !Hd in S2 by (destruct S1; by split). rewrite (sn_hstate _ _ _ _ _ _ S1) in S2.
    apply (HQ _ _ S2); [by do 2 apply msrs_saved_dr| |done]. by split.
  - apply wp_ret, (HQ _ _ S1); [by apply msrs_saved_dr| |done]. split; [done|]. intros H. congruence.
Qed.

Lemma segs_saved_fields rho s l c fx ts : segs_saved rho s ->
  segs_saved rho (set_hs_fpu fx ts (set_hs_hcr2 c (set_hs_ldt l s))).
Proof. intros []. by split. Qed.

Lemma wp_skip_hw sec rho h s g f v (Q : unit -> vcpu -> Prop) : snap sec rho h s g v ->
  (forall r x, static r = true -> hreg_of r (f x) = hreg_of r x) ->
  (forall v', snap sec rho h s g v' -> Q tt v') -> wp (upd_hw f) v Q.
Proof. intros S Hf HQ. eapply wp_hw; [exact S| |exact HQ]. intros r Hr. rewrite Hf by done. by apply S. Qed.

(** What [vcpu_save_host_state] has recorded. *)
Record host_saved (em aux : bool) (rho : hreg -> Z) (h : host_regs) (s : host_segs) : Prop := {
  hsv_msrs : msrs_saved em aux rho h;
  hsv_drs : drs_saved rho h;
  hsv_segs : segs_saved rho s;
  hsv_cr2 : hs_hcr2 s = rho HCr2;
  hsv_ldt : hs_ldt_selector s = rho HLdt;
  hsv_gdt b : table_field b (hs_host_gdtr s) = rho (HGdt b);
  hsv_idt b : table_field b (hs_host_idtr s) = rho (HIdt b);
  hsv_fx i : nth i (hs_fx s) 0 = rho (HFx i);
  hsv_ts : Z.b2z (hs_cr0_ts s) = rho HTs;
}.

Lemma vcpu_save_host_state_wp rho h s g em aux v Q :
  snap true rho h s g v -> hstate_wf h -> hs_seg_valid s = 0 -> hg_apm_general_count G <= 4 ->
  feature X86_FEATURE_EM64T g = Some em -> feature X86_FEATURE_RDTSCP g = Some aux ->
  (forall rho' h' s' v', snap true rho' h' s' g v' -> host_saved em aux rho h' s' -> h_xcr0 h' = h_xcr0 h ->
     Q tt v') ->
  wp (vcpu_save_host_state G uninit) v Q.
Proof.
  intros S Hh Hs Hn Hem Haux HQ. unfold vcpu_save_host_state. do 2 wp_step.
  apply wp_bind. eapply wp_hseg; [exact S|]. intros v1 S1. do 2 wp_step.
  apply wp_bind. eapply wp_rdmsr; [eassumption|]. intros x v2 S2 _.
  apply wp_bind. eapply (wp_hseg _ _ _ _ _ (fun _ => _)); [exact S2|]. intros v3 S3. apply wp_bind, wp_get.
  apply wp_bind. eapply (wp_mono _ _ (fun _ => _)); [by (destruct (has _ EXIT_CONTROL_LOAD_EFER);
    [eapply wp_vmwr; [exact S3|exact (fun _ H => H)]|apply wp_ret; exact S3])|]. cbv beta. intros _ v4 S4.
  apply wp_bind. eapply wp_rdmsr; [eassumption|]. intros y v5 S5 _.
  apply wp_bind. eapply (wp_hseg _ _ _ _ _ (fun _ => _)); [exact S5|]. intros v6 S6. wp_step.
  apply wp_bind. eapply save_host_segments_wp; [eassumption|exact Hs|]. intros s1 v7 S7 Hs1 Ht.
  do 7 wp_step. apply wp_bind. eapply wp_hseg; [eassumption|]. intros v8 S8.
  apply wp_bind. eapply save_host_msr_wp; [done..|]. intros h1 v9 S9 Hm X1.
  apply wp_bind. eapply wp_hseg; [eassumption|]. intros v10 S10.
  apply wp_bind. eapply save_host_dr_wp; [done..|]. intros h2 v11 S11 Hm2 Hd X2.
  apply wp_bind. unfold vcpu_enter_fpu_state. apply wp_bind, wp_get. cbv zeta. apply wp_bind.
  eapply (wp_hw _ _ _ _ _ _ _ (upd_reg HTs 0 rho)); [exact S11| |].
  { intros r Hr. rewrite law_clts by done. unfold upd_reg. case_decide; [done|by apply S11]. }
  intros v12 S12. apply wp_bind. eapply wp_hseg; [eassumption|]. intros v13 S13.
  eapply (wp_hw _ _ _ _ _ _ _ (fun r => hreg_of r (hax_fxrstor (cv_gfx v13) (hw_of v13)))); [exact S13|done|].
  intros v14 S14. eapply wp_write_hw; [exact S14|]. intros v15 S15. apply (HQ _ _ _ _ S15); [|congruence].
  injection Ht as Hg Hi.
  split; [done|done|by apply segs_saved_fields| | | | | |].
  - cbn. rewrite law_get_cr2. by apply S9.
  - cbn. rewrite law_get_ldt. match goal with H : snap _ _ _ _ _ ?w |- hreg_of _ (hw_of ?w) = _ => by apply H end.
  - intros b. cbn. rewrite Hg. cbn. rewrite law_get_gdt. by apply S.
  - intros b. cbn. rewrite Hi. cbn. rewrite law_get_idt. by apply S.
  - intros i. cbn. rewrite law_fxsave. change (reg v12 (HFx i) = rho (HFx i)). by rewrite (sn_regs _ _ _ _ _ _ S12).
  - cbn. rewrite law_get_cr0. by apply S11.
Qed.

(** ** Restoring: every write is of the saved value, so that what has been restored stays so *)
Section Load.
Context (em aux : bool) (rho : hreg -> Z) (h : host_regs) (g : cpuid_globals).
Context (Hem : feature X86_FEATURE_EM64T g = Some em) (Haux : feature X86_FEATURE_RDTSCP g = Some aux).
Implicit Types (A : hreg -> Prop) (Q : unit -> vcpu -> Prop).

Record back A (s : host_segs) v : Prop := {
  bk_regs : forall r, static r = true -> A r -> reg v r = rho r;
  bk_hstate : cv_hstate v = h;
  bk_hseg : cv_hseg v = s;
  bk_cpuid : cv_cpuid_globals v = g;
  bk_xs : (cr4 v, cv_xcr0 v) = xs;
}.
Definition also (r : hreg) A : hreg -> Prop := fun r' => r' = r \/ A r'.

Lemma back_snap A s v : back A s v -> snap false (reg v) h s g v.
Proof. intros []. by split. Qed.

Lemma back_same A s v v' : back A s v -> snap false (reg v) h s g v' -> back A s v'.
Proof. intros [B1 B2 B3 B4 B5] [_ S2 S3 S4 S5 S6]. split; try done. intros r Hr Ha. rewrite S2 by done. auto. Qed.

Lemma back_upd A s v r x v' : back A s v -> snap false (upd_reg r x (reg v)) h s g v' ->
  (static r = true -> x = rho r) -> back (also r A) s v'.
Proof.
  intros [B1 B2 B3 B4 B5] [_ S2 S3 S4 S5 S6] Hx. split; try done. intros r' Hr Ha. rewrite S2 by done.
  unfold upd_reg. case_decide as Heq; [subst r'; auto|]. destruct Ha as [->|Ha]; [done|auto].
Qed.

Lemma back_weak A A' s v : back A s v -> (forall r, A' r -> A r) -> back A' s v.
Proof. intros [] H. split; auto. Qed.

Lemma back_wrmsr A s m x v Q : back A s v -> (static (HMsr m) = true -> x = rho (HMsr m)) ->
  (forall v', back (also (HMsr m) A) s v' -> Q tt v') -> wp (wrmsr m x) v Q.
Proof. intros B Hx HQ. eapply wp_wrmsr; [by eapply back_snap|]. intros v' S. by eapply HQ, back_upd. Qed.
Lemma back_wrdr A s n x v Q : back A s v -> x = rho (HDr n) ->
  (forall v', back (also (HDr n) A) s v' -> Q tt v') -> wp (wrdr n x) v Q.
Proof. intros B Hx HQ. eapply wp_wrdr; [by eapply back_snap|]. intros v' S. by eapply HQ, back_upd. Qed.
Lemma back_seg A s k x v Q : back A s v -> k <> KFs -> k <> KGs -> x = rho (HSeg k) ->
  (forall v', back (also (HSeg k) A) s v' -> Q tt v') -> wp (upd_hw (set_kernel_seg k x)) v Q.
Proof. intros B Hf Hg Hx HQ. eapply wp_seg; [by eapply back_snap|done..|]. intros v' S. by eapply HQ, back_upd. Qed.
Lemma back_skip A s f v Q : back A s v -> (forall r x, static r = true -> hreg_of r (f x) = hreg_of r x) ->
  (forall v', back A s v' -> Q tt v') -> wp (upd_hw f) v Q.
Proof. intros B Hf HQ. eapply wp_skip_hw; [by eapply back_snap|done|]. intros v' S. by eapply HQ, back_same. Qed.
Lemma back_base_seg A s k m x b v Q : back A s v ->
  (k = KFs /\ m = IA32_FS_BASE) \/ (k = KGs /\ m = IA32_GS_BASE) -> x = rho (HSeg k) -> b = rho (HMsr m) ->
  (forall v', back (also (HMsr m) (also (HSeg k) A)) s v' -> Q tt v') ->
  wp (upd_hw (set_kernel_seg k x);; wrmsr m b) v Q.
Proof.
  intros B Hk Hx Hb HQ. eapply wp_base_seg; [by eapply back_snap|done|]. intros v' [_ S2 S3 S4 S5 S6].
  apply HQ. split; try done. intros r Hr Ha. rewrite S2 by done. unfold upd_reg.
  case_decide; [by subst|]. case_decide; [by subst|]. destruct Ha as [?|[?|Ha]]; [done..|]. by apply B.
Qed.

Lemma load_list_wp A s l v Q : back A s v ->
  Forall (fun m => allowed em (vm_entry m) = true -> vm_value m = rho (HMsr (vm_entry m))) l ->
  (forall v', back (fun r => A r \/ exists m, m ∈ l /\ allowed em (vm_entry m) = true /\ r = HMsr (vm_entry m)) s v' -> Q tt v') ->
  wp (load_msr_list em l) v Q.
Proof.
  revert A v. induction l as [|m l IH]; intros A v B Hf HQ; cbn [load_msr_list].
  { apply wp_ret, HQ. eapply back_weak; [done|]. intros r [?|(m & Hm & _)]; [done|by apply elem_of_nil in Hm]. }
  apply Forall_cons in Hf as [Hx Hf]. fold (allowed em (vm_entry m)). apply wp_bind.
  destruct (allowed em (vm_entry m)) eqn:E.
  - eapply back_wrmsr; [done|auto|]. intros v1 B1. eapply IH; [done..|]. intros v2 B2. apply HQ.
    eapply back_weak; [done|]. intros r [Ha|(m' & Hm & Ha & ->)]; [by left; right|].
    apply elem_of_cons in Hm as [->|Hm]; [by left; left|]. right. eauto.
  - apply wp_ret. eapply IH; [done..|]. intros v2 B2. apply HQ. eapply back_weak; [done|].
    intros r [Ha|(m' & Hm & Ha & ->)]; [by left|]. apply elem_of_cons in Hm as [->|Hm]; [congruence|]. right. eauto.
Qed.

Lemma load_counters_wp A s i n v Q : back A s v -> hstate_wf h -> (i + n <= 4)%nat ->
  (forall j, (i <= j < i + n)%nat -> h_apm_pes_msrs h !! j = Some (rho (HMsr (IA32_PERFEVTSEL0 + Z.of_nat j)))) ->
  (forall v', back (fun r => A r \/ exists j, (i <= j < i + n)%nat /\ r = HMsr (IA32_PERFEVTSEL0 + Z.of_nat j)) s v' -> Q tt v') ->
  wp (load_counters i n (h_apm_pmc_msrs h) (h_apm_pes_msrs h)) v Q.
Proof.
  intros B [_ W _]. revert A i v B. induction n as [|n IH]; intros A i v B Hi Hj HQ; cbn [load_counters].
  { apply wp_ret, HQ. eapply back_weak; [done|]. intros r [?|(j & Hl & _)]; [done|lia]. }
  destruct (lookup_lt_is_Some_2 (h_apm_pmc_msrs h) i) as [x Hx]; [lia|].
  apply wp_bind. rewrite Hx. apply wp_ret. apply wp_bind. eapply back_wrmsr; [done| |].
  { intros Hst. exfalso. revert Hst. assert (i < 4)%nat by lia. do 4 (destruct i as [|i]; [done|]). lia. }
  intros v1 B1. apply wp_bind. rewrite (Hj i) by lia. apply wp_ret. apply wp_bind.
  eapply back_wrmsr; [done..|]. intros v2 B2. eapply IH; [done|lia|intros j Hl; apply Hj; lia|].
  intros v3 B3. apply HQ. eapply back_weak; [done|]. intros r [Ha|(j & Hl & ->)]; [by left; right; right|].
  destruct (decide (j = i)) as [->|]; [by left; left|]. right. exists j. split; [lia|done].
Qed.

Lemma back_if A s (b : bool) (R : hreg -> Prop) m v Q : back A s v ->
  (b = true -> wp m v (fun _ v' => back (fun r => R r \/ A r) s v')) ->
  (forall v', back (fun r => (b = true /\ R r) \/ A r) s v' -> Q tt v') ->
  wp (if b then m else mret tt) v Q.
Proof.
  intros B Hm HQ. destruct b.
  - eapply wp_mono; [by apply Hm|]. intros [] v' B'. apply HQ. eapply back_weak; [done|]. intros r [[_ ?]|?]; auto.
  - apply wp_ret, HQ. eapply back_weak; [done|]. intros r [[? _]|?]; done.
Qed.

(** The segment registers that are restored, with their base addresses. *)
Definition seg_restored (r : hreg) : Prop :=
  match r with
  | HSeg k => k ∈ [KDs; KEs; KFs; KGs] /\ odd_selector (rho (HSeg k)) = true
  | HMsr m => (m = IA32_FS_BASE /\ odd_selector (rho (HSeg KFs)) = true) \/
              (m = IA32_GS_BASE /\ odd_selector (rho (HSeg KGs)) = true)
  | _ => False
  end.

Lemma fake_seg_gs_entry_wp A s v Q : back A s v -> hs_gs s = rho (HSeg KGs) -> hs_gs_base s = rho (HMsr IA32_GS_BASE) ->
  (forall v', back (also (HMsr IA32_GS_BASE) (also (HSeg KGs) A)) s v' -> Q tt v') -> wp fake_seg_gs_entry v Q.
Proof.
  intros B Hgs Hb HQ. unfold fake_seg_gs_entry. apply wp_bind, wp_get. cbv zeta. rewrite (bk_hseg _ _ _ B).
  apply wp_bind. eapply (wp_mono _ _ (fun _ v' => back A s v')).
  { destruct (desc_present _ =? 0); [|by apply wp_ret]. eapply back_skip; [done| |done]. intros; by apply law_write64. }
  intros _ v1 B1. apply wp_assoc. eapply back_base_seg; [done|by right|done..|]. intros v2 B2.
  eapply back_skip; [done| |done]. intros; by apply law_write64.
Qed.

Lemma load_host_segments_wp A s v Q : back A s v -> segs_saved rho s ->
  (forall v', back (fun r => seg_restored r \/ A r) (set_hs_flags 0 0 s) v' -> Q tt v') ->
  wp load_host_segments v Q.
Proof.
  intros B [V1 V2 V3 V4 D E F Gs] HQ. unfold load_host_segments. apply wp_bind, wp_get. cbv zeta.
  rewrite (bk_hseg _ _ _ B), V1, V2, V3, V4.
  apply wp_bind. eapply (back_if _ _ _ (eq (HSeg KEs))); [done| |].
  { intros H. eapply back_seg; [done..|by apply E|]. intros v' B'. eapply back_weak; [done|]. intros r [<-|?]; [by left|by right]. }
  intros v1 B1. apply wp_bind. eapply (back_if _ _ _ (eq (HSeg KDs))); [done| |].
  { intros H. eapply back_seg; [done..|by apply D|]. intros v' B'. eapply back_weak; [done|]. intros r [<-|?]; [by left|by right]. }
  intros v2 B2. apply wp_bind.
  eapply (back_if _ _ _ (fun r => r = HMsr IA32_GS_BASE \/ r = HSeg KGs)); [done| |].
  { intros H. destruct (Gs H) as [Hg Hb]. destruct (has _ HOST_SEG_NOT_PRESENT_GS).
    - eapply fake_seg_gs_entry_wp; [done..|]. intros v' B'. eapply back_weak; [done|]. unfold also. tauto.
    - eapply back_base_seg; [done|by right|done..|]. intros v' B'. eapply back_weak; [done|]. unfold also. tauto. }
  intros v3 B3. apply wp_bind.
  eapply (back_if _ _ _ (fun r => r = HMsr IA32_FS_BASE \/ r = HSeg KFs)); [done| |].
  { intros H. destruct (F H) as [Hf Hb]. eapply back_base_seg; [done|by left|done..|].
    intros v' B'. eapply back_weak; [done|]. unfold also. tauto. }
  intros v4 [B4 B5 B6 B7 B8]. apply wp_modify, HQ. split; [|done|unfold upd_hseg; cbn; by rewrite B6|done|done].
  intros r Hr [Ha|Ha]; apply B4; try done; [|by do 4 right].
  destruct r as [m| | | |k| | | | |]; try done; cbn in Ha.
  - destruct Ha as [[-> ?]|[-> ?]]; [left; auto|right; left; auto].
  - destruct Ha as [Hk ?]. repeat (apply elem_of_cons in Hk as [->|Hk]); [..|by apply elem_of_nil in Hk]; tauto.
Qed.

(** The MSRs and the debug registers that are restored. *)
Definition msr_restored (r : hreg) : Prop :=
  match r with
  | HMsr m => (m ∈ hmsr_list /\ allowed em m = true) \/ (m = IA32_TSC_AUX /\ aux = true) \/
      (hg_apm_version G <> 0 /\ exists j, Z.of_nat j < hg_apm_general_count G /\ m = IA32_PERFEVTSEL0 + Z.of_nat j)
  | _ => False
  end.
Definition dr_restored (r : hreg) : Prop :=
  match r with
  | HDr n => n ∈ [0; 1; 2; 3; 6; 7] /\ has (rho (HDr 7)) HBREAK_ENABLED_MASK = true
  | _ => False
  end.

Lemma load_host_msr_wp A s v Q : back A s v -> msrs_saved em aux rho h -> hg_apm_general_count G <= 4 ->
  (forall v', back (fun r => msr_restored r \/ A r) s v' -> Q tt v') -> wp (load_host_msr G uninit) v Q.
Proof.
  intros B [W He Hv Hx Hp] Hn HQ. unfold load_host_msr. apply wp_bind.
  eapply wp_feature; [by eapply back_snap|exact Hem|]. intros v1 S1. apply (back_same _ _ _ _ B) in S1 as B1.
  apply wp_bind, wp_get. cbv zeta. rewrite (bk_hstate _ _ _ B1).
  apply wp_bind. eapply load_list_wp; [done..|]. intros v2 B2.
  apply wp_bind. eapply wp_feature; [by eapply back_snap|exact Haux|]. intros v3 S3. apply (back_same _ _ _ _ B2) in S3 as B3.
  apply wp_bind. eapply (back_if _ _ _ (eq (HMsr IA32_TSC_AUX))); [done| |].
  { intros Ha. eapply back_wrmsr; [done|auto|]. intros v' B'. eapply back_weak; [done|]. intros r [<-|?]; [by left|by right]. }
  intros v4 B4.
  assert (Hlist : forall m, m ∈ hmsr_list -> allowed em m = true ->
    exists x, x ∈ hmsr h /\ allowed em (vm_entry x) = true /\ HMsr m = HMsr (vm_entry x)).
  { intros m Hm Ha. rewrite <- He in Hm. apply list_elem_of_fmap in Hm as (x & -> & Hin). eauto. }
  destruct (Z.eqb_spec (hg_apm_version G) 0) as [Hz|Hz].
  - apply wp_ret, HQ. eapply back_weak; [done|]. intros r [Hr|?]; [|by right; left].
    destruct r as [m| | | | | | | | |]; try done. destruct Hr as [[Hm Ha]|[[-> Ha]|[? _]]]; [|by left|done].
    right. right. by apply Hlist.
  - eapply load_counters_wp; [done|done|lia|intros; apply Hp; [done|lia]|]. intros v5 B5. apply HQ.
    eapply back_weak; [done|]. intros r [Hr|?]; [|by left; right; left].
    destruct r as [m| | | | | | | | |]; try done. destruct Hr as [[Hm Ha]|[[-> Ha]|[_ (j & Hj & ->)]]].
    + left. right. right. by apply Hlist.
    + by left; left.
    + right. exists j. split; [lia|done].
Qed.

Lemma load_host_dr_wp A s v Q : back A s v -> drs_saved rho h ->
  (forall v', back (fun r => dr_restored r \/ A r) s v' -> Q tt v') -> wp load_host_dr v Q.
Proof.
  intros B [H7 Hd] HQ. unfold load_host_dr, is_host_debug_enabled. apply wp_bind, wp_get. cbv zeta.
  rewrite (bk_hstate _ _ _ B), H7. destruct (has _ HBREAK_ENABLED_MASK) eqn:E; cbn [negb].
  - destruct (Hd eq_refl) as (D0 & D1 & D2 & D3 & D6).
    do 5 (apply wp_bind; eapply back_wrdr; [eassumption|done|clear B; intros ? B]).
    eapply back_wrdr; [done..|]. intros w B'. apply HQ. eapply back_weak; [done|]. intros r [Hr|Hr]; [|by do 6 right].
    destruct r as [|n| | | | | | | |]; try done. destruct Hr as [Hn _]. unfold also.
    repeat (apply elem_of_cons in Hn as [->|Hn]; [tauto|]). by apply elem_of_nil in Hn.
  - apply wp_ret, HQ. eapply back_weak; [done|]. intros r [Hr|?]; [|done]. destruct r; try done.
    destruct Hr as [_ ?]. congruence.
Qed.
(** A step that may change registers which are not restored yet. *)
Lemma back_hw A A' s f v Q : back A s v ->
  (forall r, static r = true -> A' r -> hreg_of r (f (hw_of v)) = rho r) ->
  (forall v', back A' s v' -> Q tt v') -> wp (upd_hw f) v Q.
Proof.
  intros B Hf HQ. eapply (wp_hw _ _ _ _ _ _ _ (fun r => hreg_of r (f (hw_of v)))); [by eapply back_snap|done|].
  intros v' [_ S2 S3 S4 S5 S6]. apply HQ. split; try done. intros r Hr Ha. rewrite S2 by done. auto.
Qed.

(** XCR0 is that of the guest only if the guest may use it. *)
Definition xcr0_loaded (x : Z) : Prop := x = if has xs.1 CR4_OSXSAVE then xs.2 else h_xcr0 h.
(** It needs no write. *)
Definition xcr0_back : Prop := has xs.1 CR4_OSXSAVE = true -> xs.2 = h_xcr0 h.

Lemma load_host_xsave_state_wp A s v Q : back A s v -> rho HXcr0 = h_xcr0 h -> (xcr0_back -> A HXcr0) ->
  (forall v', back (also HXcr0 A) s v' -> Q tt v') -> wp load_host_xsave_state v Q.
Proof.
  intros B Hx HA HQ. unfold load_host_xsave_state. apply wp_bind, wp_get. cbv zeta.
  pose proof (bk_xs _ _ _ B) as Hxs. rewrite (bk_hstate _ _ _ B).
  assert (cr4 v = xs.1) as -> by by rewrite <- Hxs. assert (cv_xcr0 v = xs.2) as -> by by rewrite <- Hxs.
  destruct (has xs.1 CR4_OSXSAVE && negb (xs.2 =? h_xcr0 h))%bool eqn:E.
  - eapply back_hw; [done| |done]. intros r Hr Ha. rewrite law_xsetbv by done.
    case_decide as Hd; [destruct Hd as [-> _]; by rewrite Hx|].
    destruct Ha as [->|Ha]; [by destruct Hd|by apply B].
  - apply wp_ret, HQ. eapply back_weak; [done|]. intros r [->|?]; [|done]. apply HA. intros H.
    rewrite H in E. cbn in E. by apply negb_false_iff, Z.eqb_eq in E.
Qed.

Lemma ts_set x : has (x |! CR0_TS) CR0_TS = true.
Proof.
  unfold has. apply negb_true_iff, Z.eqb_neq. intros H. apply (f_equal (fun y => Z.testbit y 3)) in H.
  rewrite Z.land_spec, Z.lor_spec, Z.bits_0 in H. change (Z.testbit CR0_TS 3) with true in H. by rewrite orb_true_r in H.
Qed.

(** The image of the FPU, then TS, which is clear meanwhile. *)
Lemma vcpu_exit_fpu_state_wp A s v Q : back A s v ->
  (forall i, nth i (hs_fx s) 0 = rho (HFx i)) -> Z.b2z (hs_cr0_ts s) = rho HTs -> ~ A HTs ->
  (forall v', back (fun r => r = HTs \/ (exists i, r = HFx i) \/ A r) s v' -> Q tt v') ->
  wp vcpu_exit_fpu_state v Q.
Proof.
  intros B Hfx Hts Ha HQ. unfold vcpu_exit_fpu_state.
  set (A1 := fun r => (hs_cr0_ts s = false /\ r = HTs) \/ A r).
  apply wp_bind. eapply (back_hw _ A1); [done| |].
  { intros r Hr H. rewrite law_clts by done. case_decide as Hd; [subst r|].
    - destruct H as [[E _]|H]; [by rewrite <- Hts, E|done].
    - destruct H as [[_ ?]|H]; [done|by apply B]. }
  intros v1 B1. apply wp_bind, wp_modify.
  assert (B2 : back A1 s (set_cv_gfx (hax_fxsave (hw_of v1)) v1)) by (destruct B1; by split).
  apply wp_bind. eapply (back_hw A1 (fun r => (exists i, r = HFx i) \/ A1 r)); [exact B2| |].
  { intros r Hr H. rewrite law_fxrstor by done. rewrite (bk_hseg _ _ _ B2).
    destruct H as [[i ->]|H]; [done|]. destruct r; try (by apply B2). apply Hfx. }
  intros v3 B3. apply wp_bind, wp_get. rewrite (bk_hseg _ _ _ B3). destruct (hs_cr0_ts s) eqn:E.
  - eapply back_hw; [exact B3| |exact HQ]. intros r Hr H. rewrite law_set_cr0 by done.
    case_decide as Hd; [subst r; by rewrite ts_set, <- Hts|]. apply B3; [done|].
    destruct H as [?|[?|?]]; [done|by left|by right; right].
  - apply wp_ret, HQ. eapply back_weak; [exact B3|]. intros r [->|[?|?]]; [by right; left|by left|by right; right].
Qed.

(** The descriptor tables are loaded first. *)
Definition tables_restored (r : hreg) : Prop := (exists b, r = HGdt b) \/ (exists b, r = HIdt b).
Lemma load_tables_wp s v (k : M vcpu unit) Q : back (fun _ => False) s v ->
  (forall b, table_field b (hs_host_gdtr s) = rho (HGdt b)) -> (forall b, table_field b (hs_host_idtr s) = rho (HIdt b)) ->
  rho HXcr0 = h_xcr0 h -> xcr0_loaded (reg v HXcr0) ->
  (forall v', back (fun r => tables_restored r \/ (r = HXcr0 /\ xcr0_back)) s v' -> wp k v' Q) ->
  wp (upd_hw (set_kernel_gdt (hs_host_gdtr s));; upd_hw (set_kernel_idt (hs_host_idtr s));; k) v Q.
Proof.
  intros [_ B2 B3 B4 B5] Hg Hi Hx Hl HQ.
  set (A0 := fun r => r = HXcr0 /\ xcr0_back).
  assert (B : back A0 s v).
  { split; try done. intros r _ [-> H]. rewrite Hl, Hx. unfold xcr0_back in H.
    destruct (has xs.1 CR4_OSXSAVE); [by apply H|done]. }
  apply wp_bind. eapply (back_hw _ (fun r => (exists b, r = HGdt b) \/ A0 r)); [exact B| |].
  { intros r Hr H. rewrite law_set_gdt by done. destruct H as [[b ->]|[-> H]]; [done|by apply B]. }
  intros v1 B1. apply wp_bind. eapply back_hw; [exact B1| |exact HQ].
  intros r Hr H. rewrite law_set_idt by done. destruct H as [[[b ->]|[b ->]]|[-> H]]; [|done|]; apply B1; try done;
    [left; by exists b|by right].
Qed.
End Load.

(** The registers that [vcpu_load_host_state] restores. *)
Definition restored (em aux : bool) (rho : hreg -> Z) (r : hreg) : Prop :=
  seg_restored rho r \/ msr_restored em aux r \/ dr_restored rho r \/ r = HCr2 \/ r = HLdt \/
  tables_restored r \/ r = HXcr0 \/ r = HTs \/ exists i, r = HFx i.

Lemma vcpu_load_host_state_wp em aux rho h s g v Q :
  back rho h g (fun _ => False) s v -> host_saved em aux rho h s -> hg_apm_general_count G <= 4 ->
  feature X86_FEATURE_EM64T g = Some em -> feature X86_FEATURE_RDTSCP g = Some aux ->
  rho HXcr0 = h_xcr0 h -> xcr0_loaded h (reg v HXcr0) ->
  (forall v', back rho h g (restored em aux rho) (set_hs_flags 0 0 s) v' -> Q tt v') ->
  wp (vcpu_load_host_state G uninit) v Q.
Proof.
  intros B [M D Sg C2 L Tg Ti Fx Ts] Hn Hem Haux Hx Hxl HQ. unfold vcpu_load_host_state. apply wp_bind, wp_get.
  rewrite (bk_hseg _ _ _ _ _ _ B), C2, L. eapply load_tables_wp; [done..|]. clear v B Hxl. intros v2 B2.
  apply wp_bind, wp_modify.
  match type of B2 with back _ _ _ ?A _ _ => assert (B3 : back rho h g A s (set_cr2 (get_cr2 (hw_of v2)) v2))
    by (destruct B2; by split) end.
  apply wp_bind. eapply wp_hw; [by eapply back_snap|intros r Hr; exact (law_set_ldt r _ _ Hr)|]. intros v4 S4.
  apply (back_upd _ _ _ _ _ _ HLdt (rho HLdt) _ B3) in S4 as B4; [|done].
  apply wp_bind. eapply load_host_segments_wp; [done..|]. intros v5 B5.
  apply wp_bind. eapply load_host_msr_wp; [done..|]. intros v6 B6.
  apply wp_bind. eapply wp_hw; [by eapply back_snap|intros r Hr; exact (law_set_cr2 r _ _ Hr)|]. intros v7 S7.
  apply (back_upd _ _ _ _ _ _ HCr2 (rho HCr2) _ B6) in S7 as B7; [|done].
  apply wp_bind. eapply load_host_dr_wp; [done..|]. intros v8 B8.
  apply wp_bind. eapply load_host_xsave_state_wp; [exact B8|done|unfold also; tauto|]. intros v9 B9.
  eapply vcpu_exit_fpu_state_wp; [exact B9|done..| |].
  { unfold also, tables_restored, dr_restored, msr_restored, seg_restored. naive_solver. }
  intros v10 B10. apply HQ. eapply back_weak; [exact B10|]. unfold restored, also. intros r. tauto.
Qed.
End Restore.

Section Claims.
Context {HH : Host} {PH : PhysHost} {VH : VmxHw} {CH : CpuidHw} {KH : KernelHw} {HL : HostLaws}.
Context (G : hax_globals) (uninit : cpuid_args_t).
Implicit Types v w : vcpu.

(** The premise on XCR0 below is what loading the guest's establishes. *)
Lemma load_guest_xsave_state_loads v : reg v HXcr0 = h_xcr0 (cv_hstate v) ->
  wp load_guest_xsave_state v (fun _ v' =>
    reg v' HXcr0 = if has (cr4 v') CR4_OSXSAVE then cv_xcr0 v' else h_xcr0 (cv_hstate v')).
Proof.
  intros Hx. unfold load_guest_xsave_state. apply wp_bind, wp_get.
  destruct (has (cr4 v) CR4_OSXSAVE) eqn:E; cbn [andb]; [|by apply wp_ret; rewrite E].
  destruct (Z.eqb_spec (cv_xcr0 v) (h_xcr0 (cv_hstate v))) as [Eq|Ne]; cbn [negb].
  - apply wp_ret. by rewrite E, Hx.
  - apply wp_modify.
    match goal with |- _ = if has (cr4 ?w) _ then _ else _ => change (cr4 w) with (cr4 v) end. rewrite E.
    change (hreg_of HXcr0 (ia32_xsetbv XCR_XFEATURE_ENABLED_MASK (cv_xcr0 v) (hw_of v)) = cv_xcr0 v).
    by rewrite law_xsetbv, decide_True.
Qed.

(** C14. The registers of the host survive the guest.  [vcpu_save_host_state] returns; whatever
    runs afterwards, if it keeps the driver's record, [vcpu_load_host_state] returns and gives
    back their values to the system-call MSRs that the processor has, TSC_AUX, the event
    selectors of the counters, CR2, GDTR, IDTR and the local descriptor table, the FPU and SSE
    registers and CR0.TS, and the segment registers that the processor does not restore itself,
    with the base addresses of FS and GS.  XCR0 gets its value back if it held the value that
    [load_guest_xsave_state] loads, and the debug registers do if a breakpoint of the host was
    enabled.  The flags of the record are clear again.  The counters themselves, which go on
    counting, are not in the statement. *)
Theorem host_state_restored v em aux :
  in_section v -> hstate_wf (cv_hstate v) -> hs_seg_valid (cv_hseg v) = 0 -> hg_apm_general_count G <= 4 ->
  feature uninit X86_FEATURE_EM64T (cv_cpuid_globals v) = Some em ->
  feature uninit X86_FEATURE_RDTSCP (cv_cpuid_globals v) = Some aux ->
  reg v HXcr0 = h_xcr0 (cv_hstate v) ->
  exists v1, vcpu_save_host_state G uninit v = Some (tt, v1) /\
  forall v2, cv_hstate v2 = cv_hstate v1 -> cv_hseg v2 = cv_hseg v1 -> cv_cpuid_globals v2 = cv_cpuid_globals v1 ->
  reg v2 HXcr0 = (if has (cr4 v2) CR4_OSXSAVE then cv_xcr0 v2 else h_xcr0 (cv_hstate v)) ->
  exists v3, vcpu_load_host_state G uninit v2 = Some (tt, v3) /\
    (forall r, static r = true -> restored G em aux (reg v) r -> reg v3 r = reg v r) /\
    hs_seg_valid (cv_hseg v3) = 0 /\ hs_seg_not_present (cv_hseg v3) = 0.
Proof.
  intros Hs Hw Hv Hn Hem Haux Hx.
  assert (S : snap (cr4 v, cv_xcr0 v) true (reg v) (cv_hstate v) (cv_hseg v) (cv_cpuid_globals v) v) by by split.
  assert (Hsave : wp (vcpu_save_host_state G uninit) v (fun _ v' => exists rho' h s,
    snap (cr4 v, cv_xcr0 v) true rho' h s (cv_cpuid_globals v) v' /\ host_saved G em aux (reg v) h s /\
    h_xcr0 h = h_xcr0 (cv_hstate v))).
  { eapply vcpu_save_host_state_wp; [done..|]. eauto 10. }
  destruct Hsave as ([] & v1 & E & rho' & h & s & [_ S2 S3 S4 S5 S6] & H & Hxh). exists v1. split; [done|].
  intros v2 E1 E2 E3 E4.
  assert (Hload : wp (vcpu_load_host_state G uninit) v2 (fun _ v' =>
    back (cr4 v2, cv_xcr0 v2) (reg v) h (cv_cpuid_globals v) (restored G em aux (reg v)) (set_hs_flags 0 0 s) v')).
  { eapply vcpu_load_host_state_wp; [|done..| | |done].
    - split; [done|congruence..].
    - congruence.
    - unfold xcr0_loaded. cbn [fst snd]. by rewrite E4, Hxh. }
  destruct Hload as ([] & v3 & E5 & [B1 B2 B3 B4 B5]). exists v3. by rewrite B3.
Qed.
End Claims.
