(* ===== verification/VcpuRun.v ===== *)
(** * Running a virtual CPU (src/core/vcpu.c, src/core/cpu.c)

    Before a VM entry the state of the guest is loaded into the VMCS and the processor, after
    the exit what the guest has changed is read back, and the exit is dispatched to its
    handler; the loop ends when user space has to act.  The guest itself is a parameter:
    [asm_vmxrun] is whatever the processor does between entry and exit. *)

From stdpp Require Import base numbers list gmap.
From Stdlib Require Import ZArith Lia.
From S2P Require Import IntrExc Prelude MemTypes Memslot GpaSpace PageWalker Mmio.
From S2P Require Import EmTypes Emulate EptTree Ept2 VcpuEmu Cpuid Vmx VcpuState VcpuCr VcpuMsr.
From S2P Require Import VcpuExit VcpuSync VcpuIo VcpuHost.
#[local] Open Scope Z_scope.

Definition EFLAGS_TF : Z := Z.shiftl 1 8.
Definition CR3_LOAD_EXITING : Z := 0x00008000.
Definition VM_EXIT_INFO_REASON : Z := 0x4402.
Definition VM_EXIT_INFO_INTERRUPT_INFO : Z := 0x4404.
Definition VM_EXIT_INFO_INSTRUCTION_LENGTH : Z := 0x440c.
Definition VM_EXIT_INFO_QUALIFICATION : Z := 0x6400.
Definition VM_EXIT_INFO_GUEST_PHYSICAL_ADDRESS : Z := 0x2400.
Definition HAX_EXIT_UNKNOWN : Z := 5.
Definition HAX_EXIT_STATECHANGE : Z := 7.
(** Basic exit reasons. *)
Definition VMX_EXIT_INT_EXCEPTION_NMI : Z := 0.
Definition VMX_EXIT_EXT_INTERRUPT : Z := 1.
Definition VMX_EXIT_TRIPLE_FAULT : Z := 2.
Definition VMX_EXIT_PENDING_NMI : Z := 8.
Definition VMX_EXIT_CPUID : Z := 10.
Definition VMX_EXIT_GETSEC : Z := 11.
Definition VMX_EXIT_HLT : Z := 12.
Definition VMX_EXIT_INVD : Z := 13.
Definition VMX_EXIT_INVLPG : Z := 14.
Definition VMX_EXIT_RDTSC : Z := 16.
Definition VMX_EXIT_VMCALL : Z := 18.
Definition VMX_EXIT_VMXON : Z := 27.
Definition VMX_EXIT_CR_ACCESS : Z := 28.
Definition VMX_EXIT_DR_ACCESS : Z := 29.
Definition VMX_EXIT_IO : Z := 30.
Definition VMX_EXIT_MSR_READ : Z := 31.
Definition VMX_EXIT_MSR_WRITE : Z := 32.
Definition VMX_EXIT_FAILED_VMENTER_GS : Z := 33.
Definition VMX_EXIT_EPT_VIOLATION : Z := 48.
Definition VMX_EXIT_EPT_MISCONFIG : Z := 49.
Definition VMX_EXIT_XSETBV : Z := 55.

Section Run.
Context {HH : Host} {PH : PhysHost} {VH : VmxHw} {CH : CpuidHw} {FO : FastOps} {KH : KernelHw}.
Context (G : hax_globals) (uninit : cpuid_args_t) (same_kva : Z -> Z -> bool).
#[local] Notation st := vcpu.

(** ** Fields of the VMCS that are out of date *)
Definition set_rflags_dirty (b : bool) (v : st) : st := set_emu (set_ev_rflags_dirty b (emu v)) v.
Definition set_intr_state_dirty (b : bool) (v : st) : st :=
  set_emu (set_ev_interruptibility_dirty b (emu v)) v.

Definition load_dirty_vmcs_fields : M st unit :=
  v ← get;
  (if debug_control_dirty (cv_dirty v) then
     modify (fun v => set_debug_control_dirty false
       (set_rflags (if has (cv_debug_control v) HAX_DEBUG_STEP then rflags v |! EFLAGS_TF
                    else Z.ldiff (rflags v) EFLAGS_TF) true v))
   else mret tt);;
  v ← get;
  (if ev_rflags_dirty (emu v)
   then vmwr GUEST_RFLAGS (rflags v);; modify (set_rflags_dirty false) else mret tt);;
  v ← get;
  (if (negb (has (rflags v) EFLAGS_IF) &&
       has (vc_interruptibility_state (intr v)) GUEST_INTRSTAT_STI_BLOCKING)%bool
   then modify (fun v => set_intr_state_dirty true (set_interruptibility
          (Z.ldiff (vc_interruptibility_state (intr v)) GUEST_INTRSTAT_STI_BLOCKING) v))
   else mret tt);;
  v ← get;
  (if ev_interruptibility_dirty (emu v)
   then vmwr GUEST_INTERRUPTIBILITY (vc_interruptibility_state (intr v));;
        modify (set_intr_state_dirty false) else mret tt);;
  v ← get;
  (if ev_rip_dirty (emu v)
   then vmwr GUEST_RIP (rip v);; modify (fun v => set_rip_of (rip v) false v) else mret tt);;
  v ← get;
  (if pcpu_ctls_dirty (cv_dirty v)
   then vmwr VMX_PRIMARY_PROCESSOR_CONTROLS (vc_pcpu_ctls (intr v));;
        modify (set_pcpu_ctls_dirty false) else mret tt);;
  v ← get;
  if fs_base_dirty (cv_dirty v)
  then vmwr GUEST_FS_BASE (sd_base (ev_fs (emu v)));; modify (set_fs_base_dirty false)
  else mret tt.

Definition vcpu_load_guest_state : M st unit :=
  load_guest_msr G uninit;; load_guest_dr;; load_dirty_vmcs_fields;; load_guest_xsave_state.
Definition vcpu_save_guest_state : M st unit := save_guest_msr G uninit;; modify save_guest_dr.

(** ** Control registers after an exit *)
Definition vmread_cr : M st unit :=
  c0 ← vmrd GUEST_CR0;
  cr0_mask ← vmrd VMX_CR0_MASK;
  modify (fun v => set_cr0 (Z.ldiff c0 cr0_mask |! (cr0 v &! cr0_mask)) v);;
  v ← get;
  (if negb (has (vc_pcpu_ctls (intr v)) CR3_LOAD_EXITING)
   then x ← vmrd GUEST_CR3; modify (set_cr3 x) else mret tt);;
  c4 ← vmrd GUEST_CR4;
  cr4_mask ← vmrd VMX_CR4_MASK;
  modify (fun v => set_cr4_of (Z.ldiff c4 cr4_mask |! (cr4 v &! cr4_mask)) v).

(** ** Dispatch *)
Definition set_reason (x : Z) (v : st) : st :=
  let e := emu v in
  set_emu (EmuVcpu (ev_mmio e) (ev_regs e) (ev_rip e) (ev_cs e) (ev_ss e) (ev_ds e) (ev_es e)
    (ev_fs e) (ev_gs e) (ev_rflags_dirty e) (ev_rip_dirty e) (ev_interruptibility_dirty e) x
    (ev_exit_qualification e) (ev_exit_gpa e) (ev_tunnel e) (ev_fastmmio e)) v.

(** The table of handlers. *)
Definition handler_funcs (reason : Z) : option (M st Z) :=
  if reason =? VMX_EXIT_INT_EXCEPTION_NMI then Some exit_exc_nmi
  else if reason =? VMX_EXIT_EXT_INTERRUPT then Some exit_interrupt
  else if reason =? VMX_EXIT_TRIPLE_FAULT then Some exit_triple_fault
  else if reason =? VMX_EXIT_PENDING_INTERRUPT then Some exit_interrupt_window
  else if reason =? VMX_EXIT_PENDING_NMI then Some exit_interrupt_window
  else if reason =? VMX_EXIT_CPUID then Some (exit_cpuid uninit)
  else if reason =? VMX_EXIT_HLT then Some exit_hlt
  else if reason =? VMX_EXIT_INVLPG then Some exit_invlpg
  else if reason =? VMX_EXIT_RDTSC then Some exit_rdtsc
  else if reason =? VMX_EXIT_CR_ACCESS then Some (exit_cr_access G uninit)
  else if reason =? VMX_EXIT_DR_ACCESS then Some exit_dr_access
  else if reason =? VMX_EXIT_IO then Some (exit_io_access same_kva)
  else if reason =? VMX_EXIT_MSR_READ then Some (exit_msr_read G uninit)
  else if reason =? VMX_EXIT_MSR_WRITE then Some (exit_msr_write G uninit)
  else if reason =? VMX_EXIT_FAILED_VMENTER_GS then Some exit_invalid_guest_state
  else if reason =? VMX_EXIT_EPT_VIOLATION then Some (in_em (exit_ept_violation same_kva))
  else if reason =? VMX_EXIT_EPT_MISCONFIG then Some (in_em exit_ept_misconfiguration)
  else if reason =? VMX_EXIT_XSETBV then Some (exit_xsetbv uninit)
  else if ((reason =? VMX_EXIT_GETSEC) || (reason =? VMX_EXIT_INVD) ||
           (VMX_EXIT_VMCALL <=? reason) && (reason <=? VMX_EXIT_VMXON))%bool
  then Some exit_unsupported_instruction
  else None.

Definition vcpu_vmexit_handler (exit_reason : Z) : M st Z :=
  modify (set_reason exit_reason);;
  modify (fun v => set_intr (set_event_injected false (intr v)) v);;
  match handler_funcs (exit_reason &! 0xffff) with
  | Some handler => handler
  | None => null_handler
  end.

Definition vcpu_is_panic : M st bool :=
  v ← get;
  if panicked v then modify (set_tunnel_status HAX_EXIT_STATECHANGE);; mret true else mret false.

(** The bit is cleared. *)
Definition vcpu_event_pending : M st bool :=
  v ← get;
  modify (fun v => set_cv_req (TunnelRequests false (request_interrupt_window (cv_req v))) v);;
  mret (user_event_pending (cv_req v)).

Definition cpu_vmexit_handler (exit_reason : Z) : M st Z :=
  ret ← vcpu_vmexit_handler exit_reason;
  panic ← vcpu_is_panic;
  if panic : bool then mret HAX_EXIT
  else
    v ← get;
    ret ← (if ((ret =? HAX_RESUME) && negb (vc_event_injected (intr v)) &&
               (vc_nr_pending_intrs (intr v) =? 0) && request_interrupt_window (cv_req v))%bool
           then modify (set_tunnel_status HAX_EXIT_INTERRUPT);; mret HAX_EXIT
           else mret ret);
    if ret =? HAX_RESUME then
      pending ← vcpu_event_pending;
      if pending : bool then modify (set_tunnel_status HAX_EXIT_INTERRUPT);; mret 0 else mret ret
    else mret ret.

(** ** The loop *)
Context (asm_vmxrun : M st Z).

Definition set_is_running (b : bool) (v : st) : st :=
  let r := cv_run v in
  set_cv_run (RunState (rs_vcpu_id r) b (rs_paused r) (rs_valid_xcr0 r) (rs_bsp_vcpu_id r)) v.

Definition hax_disable_irq : M st unit := modify (set_cv_irq_enabled false).
Definition hax_enable_irq : M st unit := modify (set_cv_irq_enabled true).

Definition cpu_vmx_run : M st Z :=
  vcpu_save_host_state G uninit;;
  hax_disable_irq;;
  write_hw HOST_RIP vmx_get_rip;;
  modify (set_is_running true);;
  modify (fun v => set_hw (hw_set_cr2 (cr2 v) (hw_of v)) v);;
  vcpu_load_guest_state;;
  result ← asm_vmxrun;
  modify (set_is_running false);;
  vcpu_save_guest_state;;
  vcpu_load_host_state G uninit;;
  (if negb (result =? VMX_SUCCEED) then
     modify (fun v => let t := ev_tunnel (emu v) in
       set_emu (set_ev_tunnel (HaxTunnel 0 HAX_EXIT_UNKNOWN (ht_pagefault_flags t)
                                 (ht_pagefault_gpa t)) (emu v)) v)
   else mret tt);;
  mret result.

(** The access rights that are corrected before every entry. *)
Definition fix_access_rights : M st unit :=
  temp ← vmrd GUEST_CS_AR;
  (if u32 temp &! 0xf =? 0xa then vmwr GUEST_CS_AR (u32 temp + 1) else mret tt);;
  temp ← vmrd GUEST_TR_AR;
  vmwr GUEST_TR_AR (Z.ldiff (u32 temp) 0xf |! 0xb).

Definition set_exit_fields (qual info idt len gpa ist : Z) (v : st) : st :=
  let e := emu v in
  let i := intr v in
  let c := cv_ctls v in
  set_cv_ctls (VmxCtls (vt_pcpu_ctls_base c) (vt_scpu_ctls_base c) (vt_exc_bitmap_base c)
    (vt_scpu_ctls c) (vt_exc_bitmap c) (vt_entry_ctls c) (vt_cr0_mask c) (vt_cr0_shadow c)
    (vt_cr4_mask c) (vt_cr4_shadow c) info)
  (set_intr (set_exit_info ist idt len (vc_eflags i) i)
  (set_emu (EmuVcpu (ev_mmio e) (ev_regs e) (ev_rip e) (ev_cs e) (ev_ss e) (ev_ds e) (ev_es e)
    (ev_fs e) (ev_gs e) (ev_rflags_dirty e) (ev_rip_dirty e) (ev_interruptibility_dirty e)
    (ev_exit_reason e) qual gpa (ev_tunnel e) (ev_fastmmio e)) v)).

(** What is read after an exit. *)
Definition read_exit_state : M st Z :=
  exit_reason ← vmrd VM_EXIT_INFO_REASON;
  x ← vmrd GUEST_RIP; modify (fun v => set_rip_of x (ev_rip_dirty (emu v)) v);;
  in_intr_of hax_handle_idt_vectoring;;
  qual ← vmrd VM_EXIT_INFO_QUALIFICATION;
  info ← vmrd VM_EXIT_INFO_INTERRUPT_INFO;
  idt ← vmrd VM_EXIT_INFO_IDT_VECTORING;
  len ← vmrd VM_EXIT_INFO_INSTRUCTION_LENGTH;
  gpa ← vmrd VM_EXIT_INFO_GUEST_PHYSICAL_ADDRESS;
  ist ← vmrd GUEST_INTERRUPTIBILITY;
  modify (set_exit_fields qual (u32 info) (u32 idt) (u32 len) gpa (u32 ist));;
  x ← vmrd GUEST_RFLAGS; modify (fun v => set_rflags x (ev_rflags_dirty (emu v)) v);;
  x ← vmrd GUEST_RSP; modify (set_gpr RSP x);;
  VMREAD_SEG SegCS;; VMREAD_SEG SegDS;; VMREAD_SEG SegES;;
  vmread_cr;;
  modify (fun v => set_cv_ready (negb ((0 <? vc_nr_pending_intrs (intr v)) ||
                                       hax_intr_is_blocked (intr v))) v);;
  modify (set_cur_state GS_STALE);;
  mret (u32 exit_reason).

(** One turn: [Some ret] ends the loop. *)
Definition execute_once : M st (option Z) :=
  v ← get;
  if rs_paused (cv_run v) then modify (set_tunnel_status HAX_EXIT_PAUSED);; mret (Some 0)
  else
    panic ← vcpu_is_panic;
    if panic : bool then mret (Some 0)
    else
      vmcs_err ← in_vmx load_vmcs;
      if negb (vmcs_err =? 0) then set_panic;; mret (Some 0)
      else
        in_intr_of vcpu_handle_vmcs_pending;;
        in_intr_of (vcpu_inject_intr (request_interrupt_window (cv_req v)));;
        fix_access_rights;;
        res ← cpu_vmx_run;
        if negb (res =? 0) then
          vmcs_err ← in_vmx put_vmcs;
          (if negb (vmcs_err =? 0) then set_panic else mret tt);;
          mret (Some (- EINVAL))
        else
          exit_reason ← read_exit_state;
          vmcs_err ← in_vmx put_vmcs;
          (if negb (vmcs_err =? 0) then set_panic else mret tt);;
          hax_enable_irq;;
          ret ← cpu_vmexit_handler exit_reason;
          mret (if ret <=? 0 then Some ret else None).

Fixpoint cpu_vmx_execute (fuel : nat) : M st Z :=
  match fuel with
  | O => stuck
  | S fuel =>
      r ← execute_once;
      match r with
      | Some ret => mret ret
      | None => cpu_vmx_execute fuel
      end
  end.

Definition vcpu_execute (fuel : nat) : M st Z :=
  v ← get;
  err ← (
    if (negb (hg_ug_enable_flag G) && negb (has (cr0 v) CR0_PE))%bool then
      modify (fun v => let t := ev_tunnel (emu v) in
        set_emu (set_ev_tunnel (HaxTunnel 0 HAX_EXIT_REALMODE (ht_pagefault_flags t)
                                  (ht_pagefault_gpa t)) (emu v)) v);;
      mret 0
    else
      (if ht_exit_status (ev_tunnel (emu v)) =? HAX_EXIT_IO
       then handle_io_post same_kva else mret tt);;
      r ← in_em (continue_emulation same_kva);
      match r with
      | Some err => mret err
      | None =>
          v ← get;
          if ht_exit_reason (ev_tunnel (emu v)) =? HAX_EXIT_PAUSED then
            modify (set_tunnel_status HAX_EXIT_PAUSED);; mret 0
          else
            err ← cpu_vmx_execute fuel;
            vcpu_is_panic;;
            mret err
      end);
  (if negb (err =? 0) then
     modify (set_cur_state GS_STALE);; vcpu_vmread_all;; vcpu_is_panic;; mret tt
   else mret tt);;
  modify (fun v => set_cv_tun_apic_base (apic_base (cv_gstate v)) v);;
  mret err.
End Run.
