(* ===== verification/VcpuRunProps.v ===== *)
(** * Sections and interrupts while a virtual CPU runs

    A triple in the style of Hoare logic, for the part of the state that belongs to the
    current CPU: how many sections with the VMCS loaded are open, and whether interrupts are
    enabled.  Every operation of the run loop keeps both; they are combined by the rules
    below, which the tactic [stays] applies. *)

From stdpp Require Import base numbers list gmap.
From Stdlib Require Import ZArith Lia.
From S2P Require Import IntrExc Prelude MemTypes Memslot GpaSpace PageWalker Mmio.
From S2P Require Import EmTypes Emulate EptTree Ept2 VcpuEmu Cpuid Vmx VmxProps VcpuState VcpuCr VcpuMsr.
From S2P Require Import VcpuExit VcpuSync VcpuIo VcpuHost VcpuRun.
#[local] Open Scope Z_scope.

Section Keeps.
Context {HH : Host} {PH : PhysHost} {VH : VmxHw} {CH : CpuidHw} {FO : FastOps} {KH : KernelHw}.
Implicit Types v w : vcpu.

(** [d] sections are open. *)
Definition at_state (d : Z) (irq : bool) v : Prop :=
  vmx_inv (cv_cpu v) /\ depth (cv_cpu v) = d /\ cv_irq_enabled v = irq.

Definition stays {A} (d : Z) (m : M vcpu A) : Prop :=
  forall q v r v', at_state d q v -> m v = Some (r, v') -> at_state d q v'.

(** ** Rules *)
Lemma stays_ret {A} d (a : A) : stays d (mret a).
Proof. intros q v r v' H [= _ <-]. done. Qed.

Lemma stays_bind {A B} d (m : M vcpu A) (k : A -> M vcpu B) :
  stays d m -> (forall a, stays d (k a)) -> stays d (m ≫= k).
Proof.
  intros Hm Hk q v r v' Hv. unfold mbind, M_bind. destruct (m v) as [[a v1]|] eqn:E; [|done].
  intros H. eapply Hk; [|exact H]. by eapply Hm.
Qed.

Lemma stays_get d : stays d get.
Proof. intros q v r v' H [= _ <-]. done. Qed.

Lemma stays_stuck {A} d : stays d (stuck : M vcpu A).
Proof. done. Qed.

Lemma stays_of_option {A} d (o : option A) : stays d (of_option o).
Proof. destruct o; [apply stays_ret|done]. Qed.

Lemma stays_assert d b : stays d (hax_assert b).
Proof. destruct b; [apply stays_ret|done]. Qed.

Lemma at_state_same d q v w :
  cv_cpu w = cv_cpu v -> cv_irq_enabled w = cv_irq_enabled v -> at_state d q v -> at_state d q w.
Proof. unfold at_state. by intros -> ->. Qed.

Lemma stays_modify d (f : vcpu -> vcpu) :
  (forall v, cv_cpu (f v) = cv_cpu v /\ cv_irq_enabled (f v) = cv_irq_enabled v) -> stays d (modify f).
Proof. intros Hf q v r v' H [= _ <-]. destruct (Hf v). by eapply at_state_same. Qed.

(** Registers of the processor change. *)
Lemma vmx_inv_hw h c : vmx_inv c -> vmx_inv (set_vx_hw h c).
Proof. by intros []. Qed.

Lemma stays_modify_hw d (f : vcpu -> vcpu) :
  (forall v, (exists h, cv_cpu (f v) = set_vx_hw h (cv_cpu v)) /\ cv_irq_enabled (f v) = cv_irq_enabled v) ->
  stays d (modify f).
Proof.
  intros Hf q v r v' (H1 & H2 & H3) [= _ <-]. destruct (Hf v) as ((h & E) & Ei).
  split_and!; [rewrite E; by apply vmx_inv_hw|by rewrite E|by rewrite Ei].
Qed.

Lemma stays_in_em {A} d (m : M (em_state (emu_vcpu hax_ept_tree)) A) : stays d (in_em m).
Proof. intros q v r v' H. unfold in_em. case_match; [|done]. case_match. intros [= _ <-]. done. Qed.
Lemma stays_in_mmio {A} d (m : M (mmio_vcpu hax_ept_tree) A) : stays d (in_mmio_of m).
Proof. intros q v r v' H. unfold in_mmio_of. case_match; [|done]. case_match. intros [= _ <-]. done. Qed.
Lemma stays_in_intr {A} d (m : M vcpu_t A) : stays d (in_intr_of m).
Proof. intros q v r v' H. unfold in_intr_of. case_match; [|done]. case_match. intros [= _ <-]. done. Qed.
Lemma stays_in_cpuid {A} d (m : M cpuid_globals A) : stays d (in_cpuid m).
Proof. intros q v r v' H. unfold in_cpuid. case_match; [|done]. case_match. intros [= _ <-]. done. Qed.

(** Access to fields. *)
Lemma stays_vmwr d f x : stays d (vmwr f x).
Proof.
  intros q v r v' (H1 & H2 & H3). unfold vmwr, in_vmx.
  destruct (run_write f x (vmx_of v) H1) as (s & -> & Hi & Hs & _). intros [= _ <-].
  split_and!; [done| |done]. cbn. inversion Hs; cbn in *; congruence.
Qed.
Lemma stays_vmrd d f : stays d (vmrd f).
Proof.
  intros q v r v' (H1 & H2 & H3). unfold vmrd, in_vmx.
  destruct (run_read f (vmx_of v) H1) as (x & s & -> & Hi & Hs & _). intros [= _ <-].
  split_and!; [done| |done]. cbn. inversion Hs; cbn in *; congruence.
Qed.

(** ** A section: the body runs with one more section open, unless the VMCS cannot be loaded *)
Lemma stays_section {A} d (fail : M vcpu A) (body : M vcpu A) :
  0 <= d < 2 ^ 16 -> stays d fail ->
  (forall q v r v', at_state (d + 1) q v -> body v = Some (r, v') -> at_state d q v') ->
  stays d (vmcs_err ← in_vmx load_vmcs; if negb (vmcs_err =? 0) then fail else body).
Proof.
  intros Hd Hf Hb q v r v' (H1 & H2 & H3). unfold mbind, M_bind, in_vmx at 1.
  destruct (load_run (vmx_of v) H1 ltac:(rewrite (H2 : depth (vx_cpu (vmx_of v)) = d); lia)) as (x & c & -> & Hi & Hcase). rewrite ?(H2 : depth (vx_cpu (vmx_of v)) = d) in Hcase.
  destruct Hcase as [(-> & Hd')|(Hx & Hd0 & Hd' & _)].
  - cbn [Z.eqb negb]. apply Hb. split_and!; [done|change (depth c = d + 1); lia|done].
  - apply Z.eqb_neq in Hx. rewrite Hx. cbn [negb]. apply Hf. split_and!; [done|change (depth c = d); lia|done].
Qed.

Lemma closes_put {A} d (k : Z -> M vcpu A) : 0 <= d -> (forall x, stays d (k x)) ->
  forall q v r v', at_state (d + 1) q v -> (in_vmx put_vmcs ≫= k) v = Some (r, v') -> at_state d q v'.
Proof.
  intros Hd Hk q v r v' (H1 & H2 & H3). unfold mbind, M_bind, in_vmx at 1.
  destruct (put_run (vmx_of v) H1 ltac:(rewrite (H2 : depth (vx_cpu (vmx_of v)) = d + 1); lia)) as (x & c & -> & Hi & Hd' & _). rewrite ?(H2 : depth (vx_cpu (vmx_of v)) = d + 1) in Hd'.
  apply Hk. split_and!; [done|change (depth c = d); lia|done].
Qed.

Lemma closes_bind {A B} d (m : M vcpu A) (k : A -> M vcpu B) : stays (d + 1) m ->
  (forall a q v r v', at_state (d + 1) q v -> k a v = Some (r, v') -> at_state d q v') ->
  forall q v r v', at_state (d + 1) q v -> (m ≫= k) v = Some (r, v') -> at_state d q v'.
Proof.
  intros Hm Hk q v r v' Hv. unfold mbind, M_bind. destruct (m v) as [[a v1]|] eqn:E; [|done].
  intros H. eapply Hk; [|exact H]. by eapply Hm.
Qed.
End Keeps.

#[export] Hint Resolve stays_ret stays_get stays_stuck stays_of_option stays_assert stays_in_em
  stays_in_mmio stays_in_intr stays_in_cpuid stays_vmwr stays_vmrd : stays.

(** One rule at a time, by the form of the operation. *)
Ltac stays_step :=
  match goal with
  | |- stays _ (match ?x with _ => _ end) => destruct x
  | |- stays _ (in_vmx load_vmcs ≫= _) => apply stays_section; [lia|..]
  | |- stays _ (_ ≫= _) => apply stays_bind; [|intros ?]
  | |- stays _ (modify _) =>
      first [apply stays_modify; intros ?; split; repeat case_match; reflexivity
            |apply stays_modify_hw; intros ?; split; [eexists|]; repeat case_match; reflexivity]
  | |- forall q v r v', _ -> (in_vmx put_vmcs ≫= _) v = _ -> _ => apply closes_put; [lia|intros ?]
  | |- forall q v r v', _ -> (_ ≫= _) v = _ -> _ => apply closes_bind; [|intros ?]
  | |- stays _ _ => solve [auto with stays]
  end.
Ltac stays_all := repeat (stays_step; cbv zeta beta).
#[export] Hint Extern 2 (_ <= _ /\ _ < _) => lia : stays.

Section Handlers.
Context {HH : Host} {PH : PhysHost} {VH : VmxHw} {CH : CpuidHw} {FO : FastOps} {KH : KernelHw}.
Context (G : hax_globals) (uninit : cpuid_args_t) (same_kva : Z -> Z -> bool).

(** ** Handlers *)
Lemma stays_set_panic d : stays d set_panic.
Proof. unfold set_panic. stays_all. Qed.
Lemma stays_inject d x e : stays d (inject x e).
Proof. unfold inject. stays_all. Qed.
#[local] Hint Resolve stays_set_panic stays_inject : stays.

Lemma stays_vmwrite_efer d : stays d vmwrite_efer.
Proof. unfold vmwrite_efer. stays_all. Qed.
#[local] Hint Resolve stays_vmwrite_efer : stays.
Lemma stays_vmwrite_cr d : stays d (vmwrite_cr G).
Proof. unfold vmwrite_cr, vmwrite_cr_fields, vmwrite_cr_controls. stays_all. Qed.
#[local] Hint Resolve stays_vmwrite_cr : stays.
Lemma stays_load_write_cr_put d : 0 <= d < 2 ^ 16 -> stays d (load_write_cr_put G).
Proof. intros Hd. unfold load_write_cr_put. stays_all. Qed.
#[local] Hint Resolve stays_load_write_cr_put : stays.
Lemma stays_pae d : stays d vcpu_prepare_pae_pdpt.
Proof. unfold vcpu_prepare_pae_pdpt. stays_all. Qed.
Lemma stays_update_cpuid d : stays d (update_guest_cpuid uninit).
Proof. unfold update_guest_cpuid. stays_all. Qed.
#[local] Hint Resolve stays_pae stays_update_cpuid : stays.
Lemma stays_mov_to_cr d cr val : 0 <= d < 2 ^ 16 -> stays d (mov_to_cr G uninit cr val).
Proof. intros Hd. unfold mov_to_cr, vcpu_write_cr. stays_all. Qed.
#[local] Hint Resolve stays_mov_to_cr : stays.
Lemma stays_exit_cr d : 0 <= d < 2 ^ 16 -> stays d (exit_cr_access G uninit).
Proof. intros Hd. unfold exit_cr_access. stays_all. Qed.

Lemma stays_rdtsc d : stays d rdtsc.
Proof. unfold rdtsc. stays_all. Qed.
Lemma stays_rdmsr d msr : stays d (rdmsr msr).
Proof. unfold rdmsr. stays_all. Qed.
#[local] Hint Resolve stays_rdtsc stays_rdmsr : stays.
Lemma stays_msr_read d msr : stays d (handle_msr_read G uninit msr).
Proof. unfold handle_msr_read, misc_msr_read. stays_all. Qed.
Lemma stays_write_efer d val h : stays d (write_efer val h).
Proof. unfold write_efer. stays_all. Qed.
#[local] Hint Resolve stays_write_efer stays_msr_read : stays.
Lemma stays_msr_write d msr val h : stays d (handle_msr_write G uninit msr val h).
Proof. unfold handle_msr_write, misc_msr_write, vcpu_set_apic_base. stays_all. Qed.
#[local] Hint Resolve stays_msr_write : stays.
Lemma stays_exit_msr_read d : stays d (exit_msr_read G uninit).
Proof. unfold exit_msr_read. stays_all. Qed.
Lemma stays_exit_msr_write d : stays d (exit_msr_write G uninit).
Proof. unfold exit_msr_write. stays_all. Qed.
#[local] Hint Resolve stays_exit_cr stays_exit_msr_read stays_exit_msr_write : stays.

Lemma stays_exc_nmi d : stays d exit_exc_nmi.
Proof. unfold exit_exc_nmi. stays_all. Qed.
Lemma stays_interrupt_window d : stays d exit_interrupt_window.
Proof. unfold exit_interrupt_window. stays_all. Qed.
Lemma stays_hlt d : stays d exit_hlt.
Proof. unfold exit_hlt. stays_all. Qed.
Lemma stays_cpuid d : stays d (exit_cpuid uninit).
Proof. unfold exit_cpuid. stays_all. Qed.
Lemma stays_dr d : stays d exit_dr_access.
Proof. unfold exit_dr_access. stays_all. Qed.
Lemma stays_xsetbv d : stays d (exit_xsetbv uninit).
Proof. unfold exit_xsetbv, vcpu_get_cpl, vcpu_set_xcr. stays_all. Qed.
Lemma stays_io d : stays d (exit_io_access same_kva).
Proof. unfold exit_io_access, handle_string_io, handle_io. stays_all. Qed.
#[local] Hint Resolve stays_exc_nmi stays_interrupt_window stays_hlt stays_cpuid stays_dr stays_xsetbv
  stays_io : stays.

Lemma stays_vmexit_handler d reason : 0 <= d < 2 ^ 16 ->
  stays d (vcpu_vmexit_handler G uninit same_kva reason).
Proof.
  intros Hd. unfold vcpu_vmexit_handler. do 2 (stays_step; [stays_step|]).
  destruct (handler_funcs _ _ _ _) as [m|] eqn:Hf; [|unfold null_handler; stays_all].
  revert Hf. unfold handler_funcs, exit_interrupt, exit_triple_fault, exit_invlpg, exit_rdtsc,
    exit_unsupported_instruction, exit_invalid_guest_state.
  repeat (case_match; [intros [= <-]; stays_all|]). done.
Qed.
#[local] Hint Resolve stays_vmexit_handler : stays.

Lemma stays_is_panic d : stays d vcpu_is_panic.
Proof. unfold vcpu_is_panic. stays_all. Qed.
#[local] Hint Resolve stays_is_panic : stays.
Lemma stays_cpu_vmexit_handler d reason : 0 <= d < 2 ^ 16 ->
  stays d (cpu_vmexit_handler G uninit same_kva reason).
Proof. intros Hd. unfold cpu_vmexit_handler, vcpu_event_pending. stays_all. Qed.
#[local] Hint Resolve stays_cpu_vmexit_handler : stays.

(** ** Loading and saving *)
Lemma stays_wrmsr d m x : stays d (wrmsr m x).
Proof. unfold wrmsr. stays_all. Qed.
Lemma stays_wrdr d n x : stays d (wrdr n x).
Proof. unfold wrdr. stays_all. Qed.
Lemma stays_upd_hw d f : stays d (upd_hw f).
Proof. unfold upd_hw. stays_all. Qed.
Lemma stays_feature d k : stays d (has_feature uninit k).
Proof. unfold has_feature. stays_all. Qed.
#[local] Hint Resolve stays_wrmsr stays_wrdr stays_upd_hw stays_feature : stays.
Lemma stays_save_msr_list d b index l : stays d (save_msr_list b index l).
Proof. revert l. induction index; intros [|m l]; cbn; stays_all. Qed.
Lemma stays_save_counters d i n pmc pes : stays d (save_counters i n pmc pes).
Proof. revert i pmc pes. induction n; intros i pmc pes; cbn; stays_all. Qed.
Lemma stays_load_msr_list d b l : stays d (load_msr_list b l).
Proof. induction l; cbn; stays_all. Qed.
Lemma stays_load_counters d i n pmc pes : stays d (load_counters i n pmc pes).
Proof. revert i. induction n; intros i; cbn; stays_all. Qed.
#[local] Hint Resolve stays_save_msr_list stays_save_counters stays_load_msr_list stays_load_counters : stays.
Lemma stays_save_guest_msr d : stays d (save_guest_msr G uninit).
Proof. unfold save_guest_msr. stays_all. Qed.
Lemma stays_load_guest_msr d : stays d (load_guest_msr G uninit).
Proof. unfold load_guest_msr, set_autoload. stays_all. Qed.
Lemma stays_save_host_msr d : stays d (save_host_msr G uninit).
Proof. unfold save_host_msr. stays_all. Qed.
Lemma stays_load_host_msr d : stays d (load_host_msr G uninit).
Proof. unfold load_host_msr. stays_all. Qed.
Lemma stays_load_guest_dr d : stays d load_guest_dr.
Proof. unfold load_guest_dr. stays_all. Qed.
Lemma stays_save_host_dr d : stays d save_host_dr.
Proof. unfold save_host_dr. stays_all. Qed.
Lemma stays_load_host_dr d : stays d load_host_dr.
Proof. unfold load_host_dr. stays_all. Qed.
Lemma stays_dirty d : stays d load_dirty_vmcs_fields.
Proof. unfold load_dirty_vmcs_fields. stays_all. Qed.
#[local] Hint Resolve stays_save_guest_msr stays_load_guest_msr stays_save_host_msr stays_load_host_msr
  stays_load_guest_dr stays_save_host_dr stays_load_host_dr stays_dirty : stays.
Lemma stays_load_guest_state d : stays d (vcpu_load_guest_state G uninit).
Proof. unfold vcpu_load_guest_state, load_guest_xsave_state. stays_all. Qed.
Lemma stays_save_guest_state d : stays d (vcpu_save_guest_state G uninit).
Proof. unfold vcpu_save_guest_state. stays_all. Qed.
Lemma stays_write_hw d f x : stays d (write_hw f x).
Proof. unfold write_hw. stays_all. Qed.
Lemma stays_write_msr d f x : stays d (write_msr f x).
Proof. unfold write_msr. stays_all. Qed.
Lemma stays_kernel_seg d x : stays d (kernel_seg x).
Proof. unfold kernel_seg. stays_all. Qed.
Lemma stays_seg_present d x : stays d (get_seg_present x).
Proof. unfold get_seg_present. stays_all. Qed.
#[local] Hint Resolve stays_load_guest_state stays_save_guest_state stays_write_hw stays_write_msr
  stays_kernel_seg stays_seg_present : stays.
Lemma stays_save_host d : stays d (vcpu_save_host_state G uninit).
Proof. unfold vcpu_save_host_state, save_host_segments, vcpu_enter_fpu_state. stays_all. Qed.
Lemma stays_load_host d : stays d (vcpu_load_host_state G uninit).
Proof.
  unfold vcpu_load_host_state, load_host_segments, fake_seg_gs_entry, load_host_xsave_state,
    vcpu_exit_fpu_state. stays_all.
Qed.
#[local] Hint Resolve stays_save_host stays_load_host : stays.
Lemma stays_vmread_seg d s : stays d (VMREAD_SEG s).
Proof. unfold VMREAD_SEG, set_seg. stays_all. Qed.
Lemma stays_vmread_cr d : stays d vmread_cr.
Proof. unfold vmread_cr. stays_all. Qed.
Lemma stays_access_rights d : stays d fix_access_rights.
Proof. unfold fix_access_rights. stays_all. Qed.
#[local] Hint Resolve stays_vmread_seg stays_vmread_cr stays_access_rights : stays.
Lemma stays_read_exit d : stays d read_exit_state.
Proof. unfold read_exit_state. stays_all. Qed.
Lemma stays_vmread_all d : 0 <= d < 2 ^ 16 -> stays d vcpu_vmread_all.
Proof. intros Hd. unfold vcpu_vmread_all, vmread_regs, read_desc. stays_all. Qed.
Lemma stays_io_post d : stays d (handle_io_post same_kva).
Proof. unfold handle_io_post. stays_all. Qed.
#[local] Hint Resolve stays_read_exit stays_vmread_all stays_io_post : stays.

(** ** The loop *)

(** The guest: it runs in VMX non-root operation, so that the processor is in the same section
    when it exits, with interrupts as they were. *)
Definition guest_exits (asm_vmxrun : M vcpu Z) : Prop :=
  forall v r v', asm_vmxrun v = Some (r, v') ->
    (exists h, cv_cpu v' = set_vx_hw h (cv_cpu v)) /\ cv_irq_enabled v' = cv_irq_enabled v.

Section Loop.
Context (asm_vmxrun : M vcpu Z) (Hguest : guest_exits asm_vmxrun).

Lemma bind_inv {A B} (m : M vcpu A) (k : A -> M vcpu B) v r v' :
  (m ≫= k) v = Some (r, v') -> exists a v1, m v = Some (a, v1) /\ k a v1 = Some (r, v').
Proof. unfold mbind, M_bind. destruct (m v) as [[a v1]|]; [|done]. by exists a, v1. Qed.

(** What runs after interrupts have been switched off. *)
Lemma vmx_run_irq d q v r v' :
  at_state d q v -> cpu_vmx_run G uninit asm_vmxrun v = Some (r, v') -> at_state d false v'.
Proof.
  intros Hv H. unfold cpu_vmx_run in H. apply bind_inv in H as ([] & v1 & H1 & H).
  pose proof (stays_save_host d q v _ _ Hv H1) as Hv1.
  assert (Hv2 : at_state d false (set_cv_irq_enabled false v1)) by (by destruct Hv1 as (? & ? & _)).
  revert Hv2 H. unfold hax_disable_irq. rewrite modify_run. generalize (set_cv_irq_enabled false v1).
  intros w Hw. clear H1 Hv Hv1.
  assert (Hg : stays d asm_vmxrun).
  { intros q0 x r0 x' (W1 & W2 & W3) Hx. destruct (Hguest _ _ _ Hx) as ((h & E) & Ei).
    split_and!; [rewrite E; by apply vmx_inv_hw|by rewrite E|by rewrite Ei]. }
  revert Hw. match goal with |- _ -> ?m w = _ -> _ => assert (Hk : stays d m); [|by apply Hk] end.
  stays_all.
Qed.

(** [Some ret] ends the loop. *)
Lemma execute_once_irq v r v' :
  at_state 0 true v -> execute_once G uninit same_kva asm_vmxrun v = Some (r, v') ->
  at_state 0 true v' \/ r = Some (- EINVAL) /\ at_state 0 false v'.
Proof.
  intros Hv H. unfold execute_once in H. apply bind_inv in H as (v0 & v0' & [= <- <-] & H).
  destruct (rs_paused (cv_run v)).
  { left. revert H. match goal with |- ?m v = _ -> _ => assert (stays 0 m) by stays_all; by eauto end. }
  apply bind_inv in H as (panic & v1 & H1 & H).
  pose proof (stays_is_panic 0 true v _ _ Hv H1) as Hv1.
  destruct panic; [left; by injection H as _ <-|].
  apply bind_inv in H as (err & v2 & H2 & H). revert H2. unfold in_vmx at 1.
  destruct Hv1 as (C1 & C2 & C3).
  destruct (load_run (vmx_of v1) C1 ltac:(rewrite (C2 : depth (vx_cpu (vmx_of v1)) = 0); lia))
    as (x & c & -> & Hi & Hcase). intros [= -> <-]. rewrite ?(C2 : depth (vx_cpu (vmx_of v1)) = 0) in Hcase.
  destruct Hcase as [(-> & Hd)|(Hx & _ & Hd & _)].
  2: { apply Z.eqb_neq in Hx. rewrite Hx in H. cbn [negb] in H. left. revert H.
       match goal with |- ?m ?w = _ -> _ => assert (stays 0 m) by stays_all; assert (at_state 0 true w) by done end.
       by eauto. }
  cbn [negb Z.eqb] in H. set (w := set_vmx _ v1) in H.
  assert (Hw : at_state 1 true w) by (split_and!; [done|exact Hd|done]). revert Hw H. generalize w.
  clear v1 c H1 C1 C2 C3 Hi Hd w. intros v0 Hv0 H.
  apply bind_inv in H as ([] & v1 & H1 & H). apply (stays_in_intr 1 _ _ _ _ _ Hv0) in H1.
  apply bind_inv in H as ([] & v2 & H2 & H). apply (stays_in_intr 1 _ _ _ _ _ H1) in H2.
  apply bind_inv in H as ([] & v3 & H3 & H). apply (stays_access_rights 1 _ _ _ _ H2) in H3.
  apply bind_inv in H as (res & v4 & H4 & H). apply (vmx_run_irq 1 _ _ _ _ H3) in H4.
  destruct (res =? 0); cbn [negb] in H.
  - left. apply bind_inv in H as (reason & v5 & H5 & H). apply (stays_read_exit 1 _ _ _ _ H4) in H5.
    revert H. match goal with |- (in_vmx put_vmcs ≫= ?k) v5 = _ -> _ =>
      intros H; apply bind_inv in H as (x & v6 & H6 & H) end.
    assert (Hv6 : at_state 0 false v6).
    { eapply (closes_put 0 mret); [lia|auto with stays|exact H5|].
      unfold mbind, M_bind. rewrite H6. done. }
    apply bind_inv in H as ([] & v7 & H7 & H).
    assert (Hv7 : at_state 0 false v7) by (revert H7; match goal with |- ?m v6 = _ -> _ =>
      assert (stays 0 m) by stays_all; by eauto end).
    apply bind_inv in H as ([] & v8 & [= <-] & H).
    assert (Hv8 : at_state 0 true (set_cv_irq_enabled true v7)) by (by destruct Hv7 as (? & ? & _)).
    apply bind_inv in H as (ret & v9 & H9 & H). apply (stays_cpu_vmexit_handler 0 _ ltac:(lia) _ _ _ _ Hv8) in H9.
    by injection H as _ <-.
  - right. apply bind_inv in H as (x & v5 & H5 & H).
    assert (Hv5 : at_state 0 false v5).
    { eapply (closes_put 0 mret); [lia|auto with stays|exact H4|]. unfold mbind, M_bind. by rewrite H5. }
    apply bind_inv in H as ([] & v6 & H6 & H). injection H as <- <-. split; [done|].
    revert H6. match goal with |- ?m v5 = _ -> _ => assert (stays 0 m) by stays_all; by eauto end.
Qed.

Lemma execute_irq fuel v r v' :
  at_state 0 true v -> cpu_vmx_execute G uninit same_kva asm_vmxrun fuel v = Some (r, v') ->
  at_state 0 true v' \/ r = - EINVAL /\ at_state 0 false v'.
Proof.
  revert v. induction fuel as [|fuel IH]; intros v Hv H; [done|]. cbn [cpu_vmx_execute] in H.
  apply bind_inv in H as (o & v1 & H1 & H). destruct (execute_once_irq v o v1 Hv H1) as [Hv1|(-> & Hv1)].
  - destruct o; [injection H as <- <-; auto|eauto].
  - injection H as <- <-. auto.
Qed.

(** C12. Running a virtual CPU gives the CPU back: whatever the guest does, however the VMX
    instructions of the processor end and whichever exits are handled, if [vcpu_execute]
    returns (a guest may run for ever, and an assertion may fail) then no section with the VMCS loaded is open and preemption is enabled as it was
    before.  Interrupts are enabled, unless the result is the error [-EINVAL] that a failed
    VM entry is reported with. *)
Theorem vcpu_execute_releases fuel v r v' :
  vmx_inv (cv_cpu v) -> vx_is_vmcs_loaded (cv_cpu v) = false ->
  cv_irq_enabled v = true ->
  vcpu_execute G uninit same_kva asm_vmxrun fuel v = Some (r, v') ->
  vmx_inv (cv_cpu v') /\ vx_is_vmcs_loaded (cv_cpu v') = false /\
  vx_preempt_disabled (cv_cpu v') = vx_preempt_disabled (cv_cpu v) /\
  (cv_irq_enabled v' = true \/ r = - EINVAL).
Proof.
  intros Hi Hl Hq H.
  assert (Hv : at_state 0 true v) by (split_and!; [done|unfold depth; by rewrite Hl|done]).
  assert (Hend : at_state 0 true v' \/ r = - EINVAL /\ at_state 0 false v').
  2: { assert (Hd : exists q, at_state 0 q v' /\ (q = true \/ r = - EINVAL)) by naive_solver.
       destruct Hd as (q & (I1 & I2 & I3) & Hq'). split; [done|].
       pose proof (vi_preempt _ I1) as P1. pose proof (vi_preempt _ Hi) as P0.
       destruct Hv as (_ & D0 & _). split; [|split; [lia|naive_solver]].
       unfold depth in I2. destruct (vx_is_vmcs_loaded (cv_cpu v')); [|done].
       pose proof (vi_nested _ I1). lia. }
  unfold vcpu_execute in H. apply bind_inv in H as (v0 & v0' & [= <- <-] & H).
  apply bind_inv in H as (err & v1 & H1 & H).
  assert (Hv1 : at_state 0 true v1 \/ err = - EINVAL /\ at_state 0 false v1).
  { destruct (_ && _)%bool.
    { left. revert H1. match goal with |- ?m v = _ -> _ => assert (Hk : stays 0 m) by stays_all; by apply Hk end. }
    apply bind_inv in H1 as ([] & w1 & W1 & H1).
    assert (A1 : at_state 0 true w1) by (revert W1;
      match goal with |- ?m v = _ -> _ => assert (Hk : stays 0 m) by stays_all; by apply Hk end).
    apply bind_inv in H1 as (o & w2 & W2 & H1). apply (stays_in_em 0 _ _ _ _ _ A1) in W2.
    destruct o; [left; by injection H1 as _ <-|].
    apply bind_inv in H1 as (w3 & w3' & [= <- <-] & H1).
    destruct (ht_exit_reason (ev_tunnel (emu w2)) =? HAX_EXIT_PAUSED).
    { left. revert H1. match goal with |- ?m w2 = _ -> _ => assert (Hk : stays 0 m) by stays_all; by apply Hk end. }
    apply bind_inv in H1 as (e & w4 & W4 & H1). apply bind_inv in H1 as (b & w5 & W5 & H1).
    injection H1 as <- <-.
    destruct (execute_irq fuel w2 e w4 W2 W4) as [A4|(-> & A4)];
      apply (stays_is_panic 0 _ _ _ _ A4) in W5; auto. }
  assert (Hk : forall q, at_state 0 q v1 -> at_state 0 q v' /\ r = err).
  { intros q Hq1. apply bind_inv in H as ([] & w1 & W1 & H). apply bind_inv in H as ([] & w2 & [= <-] & H).
    injection H as <- <-. split; [|done].
    assert (A1 : at_state 0 q w1) by (revert W1;
      match goal with |- ?m v1 = _ -> _ => assert (Hk : stays 0 m); [stays_all|by apply Hk] end).
    done. }
  destruct Hv1 as [Hv1|(-> & Hv1)]; destruct (Hk _ Hv1) as [? ->]; auto.
Qed.
End Loop.
End Handlers.
