(* ===== verification/VcpuCrProps.v ===== *)
(** * Control registers: what the guest sees, and what the processor accepts *)

From stdpp Require Import base numbers list gmap.
From Stdlib Require Import ZArith Lia.
From S2P Require Import IntrExc Prelude MemTypes Memslot GpaSpace PageWalker Mmio.
From S2P Require Import EmTypes Emulate EmCache EptTree Ept2 VcpuEmu Cpuid Vmx VmxProps VcpuState VcpuCr.
#[local] Open Scope Z_scope.

Section CrProps.
Context {HH : Host} {PH : PhysHost} {VH : VmxHw} {CH : CpuidHw}.
Context (G : hax_globals) (uninit : cpuid_args_t).
Implicit Types v : vcpu.

(** ** The effect of [vmwrite_efer] *)
Definition lma v : bool := (has (cr0 v) CR0_PG && has (efer v) IA32_EFER_LME)%bool.
Definition new_efer v : Z :=
  if lma v then efer v |! IA32_EFER_LMA else Z.ldiff (efer v) IA32_EFER_LMA.
Definition new_entry v : Z :=
  let e := vt_entry_ctls (cv_ctls v) in
  if lma v then e |! ENTRY_CONTROL_LONG_MODE_GUEST else Z.ldiff e ENTRY_CONTROL_LONG_MODE_GUEST.
Definition efer_fields v : vcpu :=
  let v := set_efer (new_efer v) v in
  if has (vt_entry_ctls (cv_ctls v)) ENTRY_CONTROL_LOAD_EFER then wr GUEST_EFER (efer v) v else v.
Definition efer_written v : vcpu :=
  let e := new_entry v in
  if negb (e =? vt_entry_ctls (cv_ctls v))
  then wr VMX_ENTRY_CONTROLS e (set_entry_ctls e (efer_fields v)) else efer_fields v.

Lemma vmwrite_efer_sec v : in_section v -> vmwrite_efer v = Some (tt, efer_written v).
Proof.
  intros Hs. unfold vmwrite_efer, efer_written, efer_fields, new_entry, new_efer.
  unfold get. unfold mbind at 1, M_bind at 1. change (has (cr0 v) _ && _)%bool with (lma v).
  destruct (lma v); unfold modify, mret, M_ret, mbind, M_bind; cbn -[set_efer vmwr wr has].
  all: destruct (has _ ENTRY_CONTROL_LOAD_EFER); rewrite ?vmwr_sec by exact Hs;
    cbn -[set_efer vmwr wr has]; destruct (negb _); rewrite ?vmwr_sec by exact Hs; reflexivity.
Qed.

(** ** The effect of [vmwrite_cr] *)
Definition pdpte v (i : nat) : Z := default 0 (cv_pae_pdptes v !! i).
Definition pdpt_written v : vcpu :=
  if pae_pdpt_dirty (cv_dirty v) then
    set_pae_pdpt_dirty false (wr GUEST_PDPTE3 (pdpte v 3) (wr GUEST_PDPTE2 (pdpte v 2)
      (wr GUEST_PDPTE1 (pdpte v 1) (wr GUEST_PDPTE0 (pdpte v 0) v))))
  else v.
Definition cr_fields v : vcpu :=
  wr VMX_CR4_READ_SHADOW (vmcs_cr4_shadow v) (wr VMX_CR4_MASK (vmcs_cr4_mask G v)
  (wr GUEST_CR4 (vmcs_cr4 G v) (wr VMX_CR0_READ_SHADOW (vmcs_cr0_shadow v)
  (wr VMX_CR0_MASK (vmcs_cr0_mask G v) (wr GUEST_CR0 (vmcs_cr0 G v)
  (wr VMX_EPTP (eptp v) (pdpt_written (wr GUEST_CR3 (cr3 v) v)))))))).

(** What [vmwrite_cr] needs. *)
Record cr_ready v : Prop := {
  cr_eptp : eptp v <> INVALID_EPTP;
  cr_pdptes : length (cv_pae_pdptes v) = 4%nat;
}.

(** One write in a section that is open at the start. *)
Ltac sec_step Hs :=
  match goal with
  | |- context [(vmwr ?f ?x ≫= _) ?w] => rewrite (bind_run _ _ _ _ _ (vmwr_sec f x w Hs))
  end.

Lemma vmwrite_cr_fields_sec v :
  in_section v -> cr_ready v -> vmwrite_cr_fields G v = Some (tt, cr_fields v).
Proof.
  intros Hs [Hep Hlen]. unfold vmwrite_cr_fields, cr_fields, pdpt_written, pdpte.
  unfold get at 1. unfold mbind at 1, M_bind at 1.
  rewrite assert_run by (by apply negb_true_iff, Z.eqb_neq). sec_step Hs.
  destruct (cv_pae_pdptes v) as [|p0 [|p1 [|p2 [|p3 [|]]]]] eqn:Ep; try discriminate Hlen.
  change (cv_dirty (wr GUEST_CR3 (cr3 v) v)) with (cv_dirty v).
  change (cv_pae_pdptes (wr GUEST_CR3 (cr3 v) v)) with (cv_pae_pdptes v). rewrite Ep.
  destruct (pae_pdpt_dirty (cv_dirty v)).
  - rewrite bind_assoc. cbn [lookup list_lookup]. rewrite of_option_run with (a := p0) by done.
    rewrite bind_assoc. sec_step Hs. rewrite bind_assoc, of_option_run with (a := p1) by done.
    rewrite bind_assoc. sec_step Hs. rewrite bind_assoc, of_option_run with (a := p2) by done.
    rewrite bind_assoc. sec_step Hs. rewrite bind_assoc, of_option_run with (a := p3) by done.
    rewrite bind_assoc. sec_step Hs. rewrite modify_run.
    do 6 sec_step Hs. by rewrite vmwr_sec by exact Hs.
  - unfold mbind at 1, M_bind at 1. cbn [mret M_ret].
    do 6 sec_step Hs. by rewrite vmwr_sec by exact Hs.
Qed.

Definition controls_entry v : Z :=
  (if (has (cr4 v) CR4_PAE && has (cr0 v) CR0_PG && has (cr0 v) CR0_PE)%bool
   then vt_entry_ctls (cv_ctls v) |! ENTRY_CONTROL_LOAD_EFER
   else Z.ldiff (vt_entry_ctls (cv_ctls v)) ENTRY_CONTROL_LOAD_EFER) |! ENTRY_CONTROL_LOAD_PAT.
Definition efer_cleared v : vcpu :=
  if (negb (has (cr4 v) CR4_PAE) && has (cr0 v) CR0_PG)%bool then set_efer 0 v else v.
Definition pcpu_reset v : vcpu :=
  let base := vt_pcpu_ctls_base (cv_ctls v) in
  if negb (base =? vc_pcpu_ctls (intr v))
  then set_pcpu_ctls_dirty true (set_intr (set_pcpu_ctls base (intr v)) v) else v.
Definition scpu_written v : vcpu :=
  let x := vt_scpu_ctls_base (cv_ctls v) |! ENABLE_EPT in
  if negb (x =? vt_scpu_ctls (cv_ctls v))
  then wr VMX_SECONDARY_PROCESSOR_CONTROLS x (set_scpu_ctls x v) else v.
Definition exc_written v : vcpu :=
  let x := vt_exc_bitmap_base (cv_ctls v) in
  if negb (x =? vt_exc_bitmap (cv_ctls v)) then wr VMX_EXCEPTION_BITMAP x (set_exc_bitmap x v) else v.
Definition entry_written (x : Z) v : vcpu :=
  if negb (x =? vt_entry_ctls (cv_ctls v)) then wr VMX_ENTRY_CONTROLS x (set_entry_ctls x v) else v.
(** The state that [vmwrite_efer] starts from. *)
Definition before_efer v : vcpu :=
  entry_written (controls_entry v) (exc_written (scpu_written (pcpu_reset (efer_cleared v)))).
Definition cr_controls v : vcpu := efer_written (before_efer v).

Lemma in_section_ext v w : cv_cpu w = cv_cpu v -> in_section v -> in_section w.
Proof. unfold in_section. by intros ->. Qed.

Lemma cr_parts_cpu v :
  cv_cpu (efer_cleared v) = cv_cpu v /\ cv_cpu (pcpu_reset v) = cv_cpu v /\
  cv_cpu (scpu_written v) = cv_cpu v /\ cv_cpu (exc_written v) = cv_cpu v /\
  (forall x, cv_cpu (entry_written x v) = cv_cpu v).
Proof.
  unfold efer_cleared, pcpu_reset, scpu_written, exc_written, entry_written.
  split_and!; try intros x; by case_match.
Qed.

(** The steps of [vmwrite_cr_controls]: a condition on the first state, evaluated on a later
    one that agrees on it. *)
Lemma step_if {B} (b b' : bool) (m : M vcpu unit) (k : unit -> M vcpu B) w w' :
  b = b' -> (b' = true -> m w = Some (tt, w')) ->
  ((if b then m else mret tt) ≫= k) w = k tt (if b' then w' else w).
Proof. intros -> H. destruct b'; [|done]. by rewrite (bind_run _ _ _ _ _ (H eq_refl)). Qed.

Ltac state_is w := match goal with |- ?m ?s = _ => change s with w end.

Lemma vmwrite_cr_controls_sec v :
  in_section v -> vmwrite_cr_controls v = Some (tt, cr_controls v).
Proof.
  intros Hs. unfold vmwrite_cr_controls. unfold get at 1. unfold mbind at 1, M_bind at 1.
  destruct (cr_parts_cpu v) as (E1 & _).
  set (v1 := efer_cleared v). destruct (cr_parts_cpu v1) as (_ & E2 & _).
  set (v2 := pcpu_reset v1). destruct (cr_parts_cpu v2) as (_ & _ & E3 & _).
  set (v3 := scpu_written v2). destruct (cr_parts_cpu v3) as (_ & _ & _ & E4 & _).
  set (v4 := exc_written v3). destruct (cr_parts_cpu v4) as (_ & _ & _ & _ & E5).
  assert (Hs2 : in_section v2) by (eapply in_section_ext; [|exact Hs]; unfold v2; rewrite E2; exact E1).
  assert (Hs3 : in_section v3) by (eapply in_section_ext; [|exact Hs2]; done).
  assert (Hs4 : in_section v4) by (eapply in_section_ext; [|exact Hs3]; done).
  assert (C1 : cv_ctls v1 = cv_ctls v /\ intr v1 = intr v) by (unfold v1, efer_cleared; by case_match).
  assert (C2 : cv_ctls v2 = cv_ctls v1) by (unfold v2, pcpu_reset; by case_match).
  destruct C1 as [C1 I1].
  assert (C3 : vt_exc_bitmap_base (cv_ctls v3) = vt_exc_bitmap_base (cv_ctls v) /\
               vt_exc_bitmap (cv_ctls v3) = vt_exc_bitmap (cv_ctls v) /\
               vt_entry_ctls (cv_ctls v3) = vt_entry_ctls (cv_ctls v)).
  { unfold v3, scpu_written. case_match; cbn; by rewrite C2, C1. }
  destruct C3 as (C3a & C3b & C3c).
  assert (C4 : vt_entry_ctls (cv_ctls v4) = vt_entry_ctls (cv_ctls v)).
  { unfold v4, exc_written. by case_match. }
  erewrite step_if; [|reflexivity|reflexivity].
  state_is v1.
  replace (vt_pcpu_ctls_base (cv_ctls v)) with (vt_pcpu_ctls_base (cv_ctls v1)) by (by rewrite C1).
  replace (vc_pcpu_ctls (intr v)) with (vc_pcpu_ctls (intr v1)) by (by rewrite I1).
  erewrite step_if; [|reflexivity|reflexivity]. state_is v2.
  replace (vt_scpu_ctls_base (cv_ctls v)) with (vt_scpu_ctls_base (cv_ctls v2)) by (by rewrite C2, C1).
  replace (vt_scpu_ctls (cv_ctls v)) with (vt_scpu_ctls (cv_ctls v2)) by (by rewrite C2, C1).
  erewrite step_if; [|reflexivity|intros _; rewrite modify_run; apply vmwr_sec; exact Hs2].
  state_is v3.
  rewrite <- C3a, <- C3b.
  erewrite step_if; [|reflexivity|intros _; rewrite modify_run; apply vmwr_sec; exact Hs3].
  state_is v4. fold (controls_entry v). rewrite <- C4.
  erewrite step_if; [|reflexivity|intros _; rewrite modify_run; apply vmwr_sec; exact Hs4].
  state_is (entry_written (controls_entry v) v4).
  rewrite vmwrite_efer_sec; [done|]. eapply in_section_ext; [apply E5|exact Hs4].
Qed.

Definition cr_written v : vcpu := cr_controls (cr_fields v).

Lemma cr_fields_cpu v : cv_cpu (cr_fields v) = cv_cpu v.
Proof. unfold cr_fields, pdpt_written. cbn. by case_match. Qed.

Lemma vmwrite_cr_sec v :
  in_section v -> cr_ready v -> vmwrite_cr G v = Some (tt, cr_written v).
Proof.
  intros Hs Hr. unfold vmwrite_cr. rewrite (bind_run _ _ _ _ _ (vmwrite_cr_fields_sec v Hs Hr)).
  apply vmwrite_cr_controls_sec. eapply in_section_ext; [apply cr_fields_cpu|done].
Qed.

(** ** What the writes leave as it was *)
Definition ctl_fields : list Z :=
  [VMX_SECONDARY_PROCESSOR_CONTROLS; VMX_EXCEPTION_BITMAP; VMX_ENTRY_CONTROLS; GUEST_EFER].

Lemma wr_value f x v g :
  vmcs_value (vmcs (wr f x v)) g = if f =? g then field_value f x else vmcs_value (vmcs v) g.
Proof. apply value_insert. Qed.

Lemma wr_value_ne f x v g (l : list Z) :
  g ∉ l -> f ∈ l -> vmcs_value (vmcs (wr f x v)) g = vmcs_value (vmcs v) g.
Proof. intros Hg Hf. rewrite wr_value. destruct (Z.eqb_spec f g) as [->|]; [done|done]. Qed.

Lemma cr_controls_value v g :
  g ∉ ctl_fields -> vmcs_value (vmcs (cr_controls v)) g = vmcs_value (vmcs v) g.
Proof.
  intros Hg. unfold cr_controls, before_efer. set (e := controls_entry v). clearbody e.
  assert (H1 : forall w, vmcs (efer_cleared w) = vmcs w) by (intros w; unfold efer_cleared; by case_match).
  assert (H2 : forall w, vmcs (pcpu_reset w) = vmcs w) by (intros w; unfold pcpu_reset; by case_match).
  assert (H3 : forall w, vmcs_value (vmcs (scpu_written w)) g = vmcs_value (vmcs w) g).
  { intros w. unfold scpu_written. case_match; [|done]. by erewrite wr_value_ne by (try done; set_solver). }
  assert (H4 : forall w, vmcs_value (vmcs (exc_written w)) g = vmcs_value (vmcs w) g).
  { intros w. unfold exc_written. case_match; [|done]. by erewrite wr_value_ne by (try done; set_solver). }
  assert (H5 : forall w, vmcs_value (vmcs (entry_written e w)) g = vmcs_value (vmcs w) g).
  { intros w. unfold entry_written. case_match; [|done]. by erewrite wr_value_ne by (try done; set_solver). }
  assert (H6 : forall w, vmcs_value (vmcs (efer_written w)) g = vmcs_value (vmcs w) g).
  { intros w. assert (Hf : vmcs_value (vmcs (efer_fields w)) g = vmcs_value (vmcs w) g).
    { unfold efer_fields. case_match; [|done]. by erewrite wr_value_ne by (try done; set_solver). }
    unfold efer_written. case_match; [|exact Hf]. erewrite wr_value_ne by (try done; set_solver). exact Hf. }
  by rewrite H6, H5, H4, H3, H2, H1.
Qed.

(** All but EFER, the controls, the VMCS and the flags: what writing the control registers
    leaves unchanged. *)
Definition rest v : vcpu :=
  set_cv_dirty (DirtyFlags 0 false false false false false)
    (set_cv_ctls (VmxCtls 0 0 0 0 0 0 0 0 0 0 0)
      (set_efer 0 (set_intr (set_pcpu_ctls 0 (set_vmcs (fun _ => ∅) (intr v))) v))).

Lemma rest_wr f x v : rest (wr f x v) = rest v.
Proof. reflexivity. Qed.
Lemma rest_set_efer x v : rest (set_efer x v) = rest v.
Proof. reflexivity. Qed.
Lemma rest_set_entry_ctls x v : rest (set_entry_ctls x v) = rest v.
Proof. reflexivity. Qed.
Lemma rest_set_scpu_ctls x v : rest (set_scpu_ctls x v) = rest v.
Proof. reflexivity. Qed.
Lemma rest_set_exc_bitmap x v : rest (set_exc_bitmap x v) = rest v.
Proof. reflexivity. Qed.
Lemma rest_set_pae b v : rest (set_pae_pdpt_dirty b v) = rest v.
Proof. reflexivity. Qed.
Lemma rest_pcpu b x v : rest (set_pcpu_ctls_dirty b (set_intr (set_pcpu_ctls x (intr v)) v)) = rest v.
Proof. reflexivity. Qed.
#[local] Hint Rewrite rest_wr rest_set_efer rest_set_entry_ctls rest_set_scpu_ctls
  rest_set_exc_bitmap rest_set_pae rest_pcpu : rest.

Lemma rest_cr_written v : rest (cr_written v) = rest v.
Proof.
  assert (Hf : rest (cr_fields v) = rest v).
  { unfold cr_fields, pdpt_written. case_match; by autorewrite with rest. }
  unfold cr_written. rewrite <- Hf. generalize (cr_fields v). clear. intros v.
  unfold cr_controls, before_efer. generalize (controls_entry v). intros e.
  assert (H1 : forall w, rest (efer_cleared w) = rest w) by (intros w; unfold efer_cleared; by case_match).
  assert (H2 : forall w, rest (pcpu_reset w) = rest w) by (intros w; unfold pcpu_reset; by case_match).
  assert (H3 : forall w, rest (scpu_written w) = rest w)
    by (intros w; unfold scpu_written; case_match; by autorewrite with rest).
  assert (H4 : forall w, rest (exc_written w) = rest w)
    by (intros w; unfold exc_written; case_match; by autorewrite with rest).
  assert (H5 : forall w, rest (entry_written e w) = rest w)
    by (intros w; unfold entry_written; case_match; by autorewrite with rest).
  assert (H6 : forall w, rest (efer_written w) = rest w)
    by (intros w; unfold efer_written, efer_fields; repeat case_match; by autorewrite with rest).
  by rewrite H6, H5, H4, H3, H2, H1.
Qed.

Lemma rest_eq v w : rest w = rest v ->
  cv_cpu w = cv_cpu v /\ cr0 w = cr0 v /\ cr2 w = cr2 v /\ cr3 w = cr3 v /\ cr4 w = cr4 v /\
  ev_regs (emu w) = ev_regs (emu v) /\ rip w = rip v /\ rflags w = rflags v /\ panicked w = panicked v.
Proof.
  intros H. split_and!;
    [exact (f_equal cv_cpu H) | exact (f_equal cr0 H) | exact (f_equal cr2 H) | exact (f_equal cr3 H)
    | exact (f_equal cr4 H) | exact (f_equal (fun x => ev_regs (emu x)) H) | exact (f_equal rip H)
    | exact (f_equal rflags H) | exact (f_equal panicked H)].
Qed.

Lemma rest_eq_length v w : rest w = rest v ->
  vc_exit_instr_length (intr w) = vc_exit_instr_length (intr v).
Proof. intros H. exact (f_equal (fun x => vc_exit_instr_length (intr x)) H). Qed.
Lemma rest_eq_cpuid v w : rest w = rest v -> cv_cpuid w = cv_cpuid v.
Proof. intros H. exact (f_equal cv_cpuid H). Qed.

(** ** EFER and long mode *)
Definition load_efer v : bool :=
  (has (cr4 v) CR4_PAE && has (cr0 v) CR0_PG && has (cr0 v) CR0_PE)%bool.

(** EFER.LMA is on when paging and long mode are enabled, and VM entry is told so; the
    controls are in the VMCS, and EFER too when it is loaded from there. *)
Record long_mode_ok v : Prop := {
  lo_lma : has (efer v) IA32_EFER_LMA = lma v;
  lo_entry : has (vt_entry_ctls (cv_ctls v)) ENTRY_CONTROL_LONG_MODE_GUEST = lma v;
  lo_field : vmcs_value (vmcs v) VMX_ENTRY_CONTROLS = vt_entry_ctls (cv_ctls v);
  lo_efer : has (vt_entry_ctls (cv_ctls v)) ENTRY_CONTROL_LOAD_EFER = true ->
            vmcs_value (vmcs v) GUEST_EFER = efer v;
}.

(** The registers are in range, and the entry controls agree with the VMCS. *)
Record ctls_wf v : Prop := {
  cw_efer : 0 <= efer v < 2 ^ 32;
  cw_entry : 0 <= vt_entry_ctls (cv_ctls v) < 2 ^ 32;
  cw_field : vmcs_value (vmcs v) VMX_ENTRY_CONTROLS = vt_entry_ctls (cv_ctls v);
}.

Lemma has_lor_other x i j : 0 <= i -> 0 <= j -> i <> j ->
  has (x |! Z.shiftl 1 i) (Z.shiftl 1 j) = has x (Z.shiftl 1 j).
Proof.
  intros Hi Hj Hn. rewrite !has_bit, Z.lor_spec by done. rewrite Z.shiftl_spec by done.
  destruct (decide (j < i)); [rewrite (Z.testbit_neg_r 1) by lia; by rewrite orb_false_r|].
  rewrite (Z.bits_above_log2 1 (j - i)) by (cbn; lia). by rewrite orb_false_r.
Qed.
Lemma has_lor_same x i : 0 <= i -> has (x |! Z.shiftl 1 i) (Z.shiftl 1 i) = true.
Proof.
  intros Hi. rewrite has_bit, Z.lor_spec, Z.shiftl_spec by done.
  by rewrite Z.sub_diag, orb_true_r.
Qed.
Lemma has_ldiff_same x i : 0 <= i -> has (Z.ldiff x (Z.shiftl 1 i)) (Z.shiftl 1 i) = false.
Proof.
  intros Hi. rewrite has_bit, Z.ldiff_spec, Z.shiftl_spec by done.
  by rewrite Z.sub_diag, andb_false_r.
Qed.
Lemma has_ldiff_other x i j : 0 <= i -> 0 <= j -> i <> j ->
  has (Z.ldiff x (Z.shiftl 1 i)) (Z.shiftl 1 j) = has x (Z.shiftl 1 j).
Proof.
  intros Hi Hj Hn. rewrite !has_bit, Z.ldiff_spec by done. rewrite Z.shiftl_spec by done.
  destruct (decide (j < i)); [rewrite (Z.testbit_neg_r 1) by lia; by rewrite andb_true_r|].
  rewrite (Z.bits_above_log2 1 (j - i)) by (cbn; lia). by rewrite andb_true_r.
Qed.

Lemma lor_range32 x i : 0 <= x < 2 ^ 32 -> 0 <= i < 32 -> 0 <= x |! Z.shiftl 1 i < 2 ^ 32.
Proof.
  intros Hx Hi. apply bits_range; [lia|]. intros j Hj. rewrite Z.lor_spec, (range_bits x 32) by lia.
  rewrite Z.shiftl_spec by lia. apply Z.bits_above_log2; cbn; lia.
Qed.
Lemma ldiff_range32 x y : 0 <= x < 2 ^ 32 -> 0 <= Z.ldiff x y < 2 ^ 32.
Proof.
  intros Hx. apply bits_range; [lia|]. intros j Hj. by rewrite Z.ldiff_spec, (range_bits x 32) by lia.
Qed.

Lemma new_efer_range v : 0 <= efer v < 2 ^ 32 -> 0 <= new_efer v < 2 ^ 32.
Proof.
  intros H. unfold new_efer, IA32_EFER_LMA. case_match; [by apply lor_range32|by apply ldiff_range32].
Qed.
Lemma new_entry_range v :
  0 <= vt_entry_ctls (cv_ctls v) < 2 ^ 32 -> 0 <= new_entry v < 2 ^ 32.
Proof.
  intros H. unfold new_entry. change ENTRY_CONTROL_LONG_MODE_GUEST with (Z.shiftl 1 9).
  case_match; [by apply lor_range32|by apply ldiff_range32].
Qed.

Lemma efer_written_obs v : ctls_wf v ->
  efer (efer_written v) = new_efer v /\ vt_entry_ctls (cv_ctls (efer_written v)) = new_entry v /\
  cr0 (efer_written v) = cr0 v /\ cr4 (efer_written v) = cr4 v.
Proof.
  intros [He _ _]. pose proof (new_efer_range v He) as Hn.
  assert (Hf : efer (efer_fields v) = new_efer v /\ cv_ctls (efer_fields v) = cv_ctls v /\
               cr0 (efer_fields v) = cr0 v /\ cr4 (efer_fields v) = cr4 v).
  { unfold efer_fields. case_match; split_and!; try done; cbn; by apply u32_small. }
  destruct Hf as (F1 & F2 & F3 & F4). unfold efer_written. case_match eqn:E; [by split_and!|].
  apply negb_false_iff, Z.eqb_eq in E. split_and!; try done. by rewrite F2.
Qed.

(** [vmwrite_efer] makes EFER.LMA, the entry controls and the VMCS agree. *)
Lemma efer_written_ok v : ctls_wf v -> long_mode_ok (efer_written v).
Proof.
  intros Hw. destruct (efer_written_obs v Hw) as (E1 & E2 & E3 & E4).
  pose proof (new_efer_range v (cw_efer _ Hw)) as Hr. pose proof (new_entry_range v (cw_entry _ Hw)) as Hr2.
  assert (Hlma : lma (efer_written v) = lma v).
  { unfold lma. rewrite E1, E3. f_equal. unfold new_efer, IA32_EFER_LMA, IA32_EFER_LME.
    case_match; [by apply has_lor_other|by apply has_ldiff_other]. }
  split.
  - rewrite Hlma, E1. unfold new_efer, IA32_EFER_LMA.
    destruct (lma v); [by apply has_lor_same|by apply has_ldiff_same].
  - rewrite Hlma, E2. unfold new_entry. change ENTRY_CONTROL_LONG_MODE_GUEST with (Z.shiftl 1 9).
    destruct (lma v); [by apply has_lor_same|by apply has_ldiff_same].
  - rewrite E2. unfold efer_written. case_match eqn:E.
    + rewrite wr_value. cbn -[new_entry]. by apply u32_small.
    + apply negb_false_iff, Z.eqb_eq in E. rewrite E, <- (cw_field _ Hw). unfold efer_fields.
      case_match; [by rewrite wr_value|done].
  - rewrite E1, E2. intros Hl.
    assert (Hl' : has (vt_entry_ctls (cv_ctls v)) ENTRY_CONTROL_LOAD_EFER = true).
    { rewrite <- Hl. unfold new_entry. change ENTRY_CONTROL_LONG_MODE_GUEST with (Z.shiftl 1 9).
      change ENTRY_CONTROL_LOAD_EFER with (Z.shiftl 1 15).
      case_match; symmetry; [by apply has_lor_other|by apply has_ldiff_other]. }
    assert (Hf : vmcs_value (vmcs (efer_fields v)) GUEST_EFER = new_efer v).
    { unfold efer_fields. change (cv_ctls (set_efer (new_efer v) v)) with (cv_ctls v). rewrite Hl'.
      rewrite wr_value. cbn -[u64 new_efer u32]. rewrite u32_small by done. apply u64_small. lia. }
    unfold efer_written. case_match; [by rewrite wr_value|done].
Qed.

(** EFER as [vmwrite_cr] leaves it: it is cleared with paging on and PAE off. *)
Definition cr_efer v : Z :=
  let e := if (negb (has (cr4 v) CR4_PAE) && has (cr0 v) CR0_PG)%bool then 0 else efer v in
  if (has (cr0 v) CR0_PG && has e IA32_EFER_LME)%bool then e |! IA32_EFER_LMA
  else Z.ldiff e IA32_EFER_LMA.

Lemma controls_entry_range v :
  0 <= vt_entry_ctls (cv_ctls v) < 2 ^ 32 -> 0 <= controls_entry v < 2 ^ 32.
Proof.
  intros H. unfold controls_entry. change ENTRY_CONTROL_LOAD_EFER with (Z.shiftl 1 15).
  change ENTRY_CONTROL_LOAD_PAT with (Z.shiftl 1 14). apply lor_range32; [|done].
  case_match; [by apply lor_range32|by apply ldiff_range32].
Qed.

Lemma controls_entry_load v :
  has (controls_entry v) ENTRY_CONTROL_LOAD_EFER = load_efer v.
Proof.
  unfold controls_entry, load_efer. change ENTRY_CONTROL_LOAD_EFER with (Z.shiftl 1 15).
  change ENTRY_CONTROL_LOAD_PAT with (Z.shiftl 1 14). rewrite has_lor_other by done.
  destruct (_ && _)%bool; [by apply has_lor_same|by apply has_ldiff_same].
Qed.

Lemma before_efer_obs v : ctls_wf v ->
  ctls_wf (before_efer v) /\ vt_entry_ctls (cv_ctls (before_efer v)) = controls_entry v /\
  efer (before_efer v) = efer (efer_cleared v) /\ cr0 (before_efer v) = cr0 v /\
  cr4 (before_efer v) = cr4 v.
Proof.
  intros Hw. unfold before_efer. set (w := exc_written _).
  assert (Hx : efer w = efer (efer_cleared v) /\ cr0 w = cr0 v /\ cr4 w = cr4 v /\
    vt_entry_ctls (cv_ctls w) = vt_entry_ctls (cv_ctls v) /\
    vmcs_value (vmcs w) VMX_ENTRY_CONTROLS = vmcs_value (vmcs v) VMX_ENTRY_CONTROLS).
  { unfold w. clear w. set (w1 := efer_cleared v).
    assert (H1 : cr0 w1 = cr0 v /\ cr4 w1 = cr4 v /\ cv_ctls w1 = cv_ctls v /\ vmcs w1 = vmcs v)
      by (unfold w1, efer_cleared; by case_match).
    clearbody w1. destruct H1 as (<- & <- & <- & <-). set (w2 := pcpu_reset w1).
    assert (H2 : efer w2 = efer w1 /\ cr0 w2 = cr0 w1 /\ cr4 w2 = cr4 w1 /\ cv_ctls w2 = cv_ctls w1 /\
                 vmcs w2 = vmcs w1) by (unfold w2, pcpu_reset; by case_match).
    clearbody w2. destruct H2 as (<- & <- & <- & <- & <-). set (w3 := scpu_written w2).
    assert (H3 : efer w3 = efer w2 /\ cr0 w3 = cr0 w2 /\ cr4 w3 = cr4 w2 /\
      vt_entry_ctls (cv_ctls w3) = vt_entry_ctls (cv_ctls w2) /\
      vmcs_value (vmcs w3) VMX_ENTRY_CONTROLS = vmcs_value (vmcs w2) VMX_ENTRY_CONTROLS).
    { unfold w3, scpu_written. case_match; [|done]. split_and!; try done. by rewrite wr_value. }
    clearbody w3. destruct H3 as (<- & <- & <- & <- & <-). unfold exc_written.
    case_match; [|done]. split_and!; try done. by rewrite wr_value. }
  clearbody w. destruct Hx as (X1 & X2 & X3 & X4 & X5).
  assert (Hwe : 0 <= efer w < 2 ^ 32).
  { rewrite X1. unfold efer_cleared. case_match; [done|apply (cw_efer _ Hw)]. }
  pose proof (controls_entry_range v (cw_entry _ Hw)) as Hr. unfold entry_written.
  case_match eqn:E.
  - split_and!; try done. split; [done|done|]. rewrite wr_value. cbn -[u32 controls_entry].
    by apply u32_small.
  - apply negb_false_iff, Z.eqb_eq in E. split_and!; try done. split; [done|by rewrite <- E|].
    by rewrite X5, X4, (cw_field _ Hw).
Qed.

Lemma vmcs_set_pae b v : vmcs (set_pae_pdpt_dirty b v) = vmcs v.
Proof. reflexivity. Qed.

Lemma ctls_wf_fields v : ctls_wf v -> ctls_wf (cr_fields v).
Proof.
  intros [H1 H2 H3]. unfold cr_fields. set (w := pdpt_written (wr GUEST_CR3 (cr3 v) v)).
  assert (Hp : efer w = efer v /\ cv_ctls w = cv_ctls v /\
               vmcs_value (vmcs w) VMX_ENTRY_CONTROLS = vmcs_value (vmcs v) VMX_ENTRY_CONTROLS).
  { unfold w, pdpt_written. case_match; split_and!; try done; rewrite ?vmcs_set_pae; by rewrite !wr_value. }
  clearbody w. destruct Hp as (P1 & P2 & P3).
  split; cbn -[vmcs_value wr]; [by rewrite <- P1 in H1|by rewrite <- P2 in H2|].
  rewrite !wr_value. cbn -[vmcs_value]. rewrite P3, H3. by rewrite <- P2.
Qed.
Lemma cr_fields_regs v :
  efer (cr_fields v) = efer v /\ cr0 (cr_fields v) = cr0 v /\ cr4 (cr_fields v) = cr4 v.
Proof. unfold cr_fields, pdpt_written. by case_match. Qed.

Lemma cr_written_mode v : ctls_wf v ->
  long_mode_ok (cr_written v) /\ ctls_wf (cr_written v) /\
  has (vt_entry_ctls (cv_ctls (cr_written v))) ENTRY_CONTROL_LOAD_EFER = load_efer v /\
  efer (cr_written v) = cr_efer v.
Proof.
  intros Hw. pose proof (ctls_wf_fields v Hw) as Hw1. destruct (cr_fields_regs v) as (R1 & R2 & R3).
  destruct (before_efer_obs _ Hw1) as (Hw2 & B1 & B2 & B3 & B4).
  unfold cr_written, cr_controls.
  destruct (efer_written_obs _ Hw2) as (E1 & E2 & _ & _).
  pose proof (efer_written_ok _ Hw2) as Hok. split_and!; [done|..].
  - split; [rewrite E1; apply new_efer_range, Hw2|rewrite E2; apply new_entry_range, Hw2|apply Hok].
  - rewrite E2. unfold new_entry. change ENTRY_CONTROL_LONG_MODE_GUEST with (Z.shiftl 1 9).
    change ENTRY_CONTROL_LOAD_EFER with (Z.shiftl 1 15).
    assert (Hx : has (vt_entry_ctls (cv_ctls (before_efer (cr_fields v)))) (Z.shiftl 1 15) = load_efer v).
    { rewrite B1. etrans; [apply controls_entry_load|]. unfold load_efer. by rewrite R2, R3. }
    case_match; [by rewrite has_lor_other|by rewrite has_ldiff_other].
  - rewrite E1. unfold new_efer, lma, cr_efer. rewrite B2, B3, R2.
    assert (He : efer (efer_cleared (cr_fields v)) =
      if (negb (has (cr4 v) CR4_PAE) && has (cr0 v) CR0_PG)%bool then 0 else efer v).
    { unfold efer_cleared. rewrite R2, R3. case_match; [done|exact R1]. }
    by rewrite He.
Qed.

(** ** What the guest sees *)

(** MOV from CR0 and CR4: the bits of the mask come from the shadow. *)
Definition guest_cr (field mask shadow : Z) (m : gmap Z Z) : Z :=
  Z.ldiff (vmcs_value m field) (vmcs_value m mask) |! (vmcs_value m shadow &! vmcs_value m mask).
Definition guest_cr0 : gmap Z Z -> Z := guest_cr GUEST_CR0 VMX_CR0_MASK VMX_CR0_READ_SHADOW.
Definition guest_cr4 : gmap Z Z -> Z := guest_cr GUEST_CR4 VMX_CR4_MASK VMX_CR4_READ_SHADOW.

(** A bit that must be 1 can be 1; CR0.PE can be 1; these registers have 32 bits in use. *)
Record globals_ok : Prop := {
  go_cr0 : Z.ldiff (hg_cr0_fixed_0 G) (hg_cr0_fixed_1 G) = 0;
  go_cr4 : Z.ldiff (hg_cr4_fixed_0 G) (hg_cr4_fixed_1 G) = 0;
  go_pe : Z.testbit (hg_cr0_fixed_1 G) 0 = true;
  go_cr0_range : 0 <= hg_cr0_fixed_0 G < 2 ^ 32;
  go_cr4_range : 0 <= hg_cr4_fixed_0 G < 2 ^ 64;
}.

(** The masks set up by [vcpu_init] are empty; the registers have 64 bits. *)
Record crs_wf v : Prop := {
  cf_cr0 : 0 <= cr0 v < 2 ^ 64;
  cf_cr4 : 0 <= cr4 v < 2 ^ 64;
  cf_mask0 : vt_cr0_mask (cv_ctls v) = 0;
  cf_mask4 : vt_cr4_mask (cv_ctls v) = 0;
}.

(** The values satisfy the checks at VM entry. *)
Record cr_valid (m : gmap Z Z) : Prop := {
  cv_cr0_ones : forall n, Z.testbit (hg_cr0_fixed_0 G) n = true -> n <> 0 -> n <> 31 ->
                Z.testbit (vmcs_value m GUEST_CR0) n = true;
  cv_cr0_zeros : forall n, 0 <= n -> Z.testbit (vmcs_value m GUEST_CR0) n = true ->
                 Z.testbit (hg_cr0_fixed_1 G) n = true;
  cv_cr4_ones : forall n, Z.testbit (hg_cr4_fixed_0 G) n = true ->
                Z.testbit (vmcs_value m GUEST_CR4) n = true;
  cv_cr4_zeros : forall n, 0 <= n -> Z.testbit (vmcs_value m GUEST_CR4) n = true ->
                 Z.testbit (hg_cr4_fixed_1 G) n = true;
}.

Lemma u64_testbit x n : 0 <= n -> Z.testbit (u64 x) n = ((n <? 64) && Z.testbit x n)%bool.
Proof. intros Hn. unfold u64. by rewrite Z.testbit_mod_pow2 by lia. Qed.

Lemma ldiff_0_bit a b n : Z.ldiff a b = 0 -> Z.testbit a n = true -> Z.testbit b n = true.
Proof.
  intros H Ha. destruct (decide (0 <= n)); [|by rewrite Z.testbit_neg_r in Ha by lia].
  assert (Hb : Z.testbit (Z.ldiff a b) n = false) by (rewrite H; apply Z.bits_0).
  rewrite Z.ldiff_spec, Ha in Hb. cbn in Hb. by apply negb_false_iff in Hb.
Qed.

Lemma not64_testbit x n : 0 <= n -> Z.testbit (not64 x) n = xorb (n <? 64) (Z.testbit x n).
Proof. intros Hn. unfold not64. rewrite Z.lxor_spec. f_equal. by rewrite Z.testbit_ones_nonneg by lia. Qed.

Ltac not_ctl :=
  unfold ctl_fields; repeat (apply not_elem_of_cons; split; [vm_compute; discriminate|]);
  apply not_elem_of_nil.

Lemma cr_written_values v :
  vmcs_value (vmcs (cr_written v)) GUEST_CR0 = u64 (vmcs_cr0 G v) /\
  vmcs_value (vmcs (cr_written v)) VMX_CR0_MASK = u64 (vmcs_cr0_mask G v) /\
  vmcs_value (vmcs (cr_written v)) VMX_CR0_READ_SHADOW = u64 (vmcs_cr0_shadow v) /\
  vmcs_value (vmcs (cr_written v)) GUEST_CR4 = u64 (vmcs_cr4 G v) /\
  vmcs_value (vmcs (cr_written v)) VMX_CR4_MASK = u64 (vmcs_cr4_mask G v) /\
  vmcs_value (vmcs (cr_written v)) VMX_CR4_READ_SHADOW = u64 (vmcs_cr4_shadow v) /\
  vmcs_value (vmcs (cr_written v)) VMX_EPTP = u64 (eptp v).
Proof.
  unfold cr_written. rewrite !cr_controls_value by not_ctl.
  unfold cr_fields. rewrite !wr_value. done.
Qed.

(** A register of which the bits of [mask] are hidden. *)
Lemma guest_view_bits c m sh x :
  0 <= x < 2 ^ 64 ->
  (forall n, 0 <= n < 64 -> Z.testbit m n = true -> Z.testbit sh n = Z.testbit x n) ->
  (forall n, 0 <= n < 64 -> Z.testbit m n = false -> Z.testbit c n = Z.testbit x n) ->
  Z.ldiff (u64 c) (u64 m) |! (u64 sh &! u64 m) = x.
Proof.
  intros Hx H1 H2. apply Z.bits_inj'. intros n Hn.
  rewrite Z.lor_spec, Z.ldiff_spec, Z.land_spec, !u64_testbit by done.
  destruct (Z.ltb_spec n 64); cbn; [|by rewrite (range_bits x 64)].
  destruct (Z.testbit m n) eqn:Em; cbn.
  - by rewrite andb_false_r, andb_true_r, H1 by (try done; lia).
  - by rewrite andb_true_r, andb_false_r, orb_false_r, H2 by (try done; lia).
Qed.

Lemma shadow_bits x mask sh n : mask = 0 -> 0 <= n < 64 ->
  Z.testbit ((x &! not64 mask) |! (sh &! mask)) n = Z.testbit x n.
Proof.
  intros -> Hn. rewrite Z.lor_spec, !Z.land_spec, not64_testbit, Z.bits_0 by lia.
  destruct (Z.ltb_spec n 64); [|lia]. cbn. by rewrite andb_true_r, andb_false_r, orb_false_r.
Qed.

Ltac bits := repeat first
  [rewrite Z.lor_spec | rewrite Z.land_spec | rewrite Z.lxor_spec | rewrite not64_testbit by lia].

Lemma guest_view_cr0 v : globals_ok -> crs_wf v -> guest_cr0 (vmcs (cr_written v)) = cr0 v.
Proof.
  intros Hg Hv. unfold guest_cr0, guest_cr. destruct (cr_written_values v) as (-> & -> & -> & _).
  pose proof (cf_mask0 _ Hv) as Hm. apply guest_view_bits; [apply Hv|..]; intros n Hn.
  - intros _. unfold vmcs_cr0_shadow. by apply shadow_bits.
  - unfold vmcs_cr0_mask, vmcs_cr0. rewrite Hm. intros H.
    pose proof (ldiff_0_bit _ _ n (go_cr0 Hg)) as Hle. pose proof (go_pe Hg) as Hpe.
    assert (Hn0 : n = 0 \/ Z.testbit CR0_PE n = false).
    { destruct (decide (n = 0)); [by left|right]. change CR0_PE with 1; apply Z.bits_above_log2; cbn; lia. }
    revert H. destruct (hg_ug_enable_flag G); bits; rewrite Z.bits_0;
      destruct (Z.ltb_spec n 64) as [Hl|Hl]; try lia; cbn; intros H; repeat apply orb_false_iff in H as [H ?].
    + destruct (Z.testbit (hg_cr0_fixed_0 G) n) eqn:E0, (Z.testbit (hg_cr0_fixed_1 G) n) eqn:E1;
        destruct Hn0 as [->|Hn0]; try (rewrite Hn0 in *); cbn in *; try congruence;
        rewrite ?andb_true_r, ?andb_false_r, ?orb_false_r; try done; try congruence.
      all: try (specialize (Hle eq_refl); congruence).
    + destruct (Z.testbit (hg_cr0_fixed_0 G) n) eqn:E0, (Z.testbit (hg_cr0_fixed_1 G) n) eqn:E1; cbn in *;
        try congruence; rewrite ?andb_true_r, ?orb_false_r; try done.
      specialize (Hle eq_refl). congruence.
Qed.

Lemma guest_view_cr4 v : globals_ok -> crs_wf v -> guest_cr4 (vmcs (cr_written v)) = cr4 v.
Proof.
  intros Hg Hv. unfold guest_cr4, guest_cr. destruct (cr_written_values v) as (_ & _ & _ & -> & -> & -> & _).
  pose proof (cf_mask4 _ Hv) as Hm. apply guest_view_bits; [apply Hv|..]; intros n Hn.
  - intros _. unfold vmcs_cr4_shadow. by apply shadow_bits.
  - unfold vmcs_cr4_mask, vmcs_cr4. rewrite Hm. bits. rewrite Z.bits_0.
    pose proof (ldiff_0_bit _ _ n (go_cr4 Hg)) as Hle.
    destruct (Z.ltb_spec n 64) as [Hl|Hl]; try lia. cbn. intros H. repeat apply orb_false_iff in H as [H ?].
    match goal with H' : Z.testbit CR4_MCE n = false |- _ => rewrite H' end.
    destruct (Z.testbit (hg_cr4_fixed_0 G) n) eqn:E0, (Z.testbit (hg_cr4_fixed_1 G) n) eqn:E1; cbn in *;
      try congruence; rewrite ?orb_false_r, ?andb_true_r; try done.
    specialize (Hle eq_refl). congruence.
Qed.

Lemma cr0_mask_bit n : 0 <= n < 32 -> n <> 0 -> n <> 31 ->
  Z.testbit (u32 (Z.lnot (CR0_PE |! CR0_PG))) n = true.
Proof.
  intros Hn H0 H31. change (u32 (Z.lnot (CR0_PE |! CR0_PG))) with (Z.shiftl (Z.ones 30) 1).
  rewrite Z.shiftl_spec, Z.testbit_ones_nonneg by lia. apply Z.ltb_lt. lia.
Qed.

Lemma cr_written_valid v : globals_ok -> crs_wf v -> cr_valid (vmcs (cr_written v)).
Proof.
  intros Hg Hv. destruct (cr_written_values v) as (V0 & _ & _ & V4 & _).
  assert (Hneg : forall x n, Z.testbit x n = true -> 0 <= n).
  { intros x n H. destruct (decide (0 <= n)); [done|]. by rewrite Z.testbit_neg_r in H by lia. }
  split; intros n; rewrite ?V0, ?V4.
  - intros H H0 H31. pose proof (Hneg _ _ H). pose proof (go_cr0_range Hg) as Hr.
    assert (n < 32).
    { destruct (decide (n < 32)); [done|]. by rewrite (range_bits _ 32) in H by lia. }
    rewrite u64_testbit by done. destruct (Z.ltb_spec n 64); [|lia]. cbn. unfold vmcs_cr0.
    rewrite Z.lor_spec, !Z.land_spec, H, cr0_mask_bit by lia. cbn. by rewrite orb_true_r.
  - intros Hn. rewrite u64_testbit by done. intros [_ H]%andb_prop. revert H. unfold vmcs_cr0.
    rewrite Z.lor_spec, !Z.land_spec. intros [[_ H]%andb_prop|[H _]%andb_prop]%orb_prop; [done|].
    by apply (ldiff_0_bit _ _ n (go_cr0 Hg)).
  - intros H. pose proof (Hneg _ _ H). pose proof (go_cr4_range Hg) as Hr.
    assert (n < 64).
    { destruct (decide (n < 64)); [done|]. by rewrite (range_bits _ 64) in H by lia. }
    rewrite u64_testbit by done. destruct (Z.ltb_spec n 64); [|lia]. cbn. unfold vmcs_cr4.
    by rewrite Z.lor_spec, H, orb_true_r.
  - intros Hn. rewrite u64_testbit by done. intros [_ H]%andb_prop. revert H. unfold vmcs_cr4.
    rewrite Z.lor_spec, !Z.land_spec. intros [[_ H]%andb_prop|H]%orb_prop; [done|].
    by apply (ldiff_0_bit _ _ n (go_cr4 Hg)).
Qed.

(** ** A section around the writes *)
Lemma in_vmx_run {A} (m : M vmx_st A) a s v :
  m (vmx_of v) = Some (a, s) -> in_vmx m v = Some (a, set_vmx s v).
Proof. unfold in_vmx. by intros ->. Qed.

Definition set_cpu (c : vmx_cpu) v : vcpu := set_vmx (VmxSt _ c (vmcs v) (panicked v)) v.

(** The processor has no section open. *)
Definition closed v : Prop := vmx_inv (cv_cpu v) /\ depth (cv_cpu v) = 0.

Lemma load_at v : hw_succeeds -> closed v ->
  exists c, in_vmx load_vmcs v = Some (0, set_cpu c v) /\ in_section (set_cpu c v) /\ depth c = 1.
Proof.
  intros Hhw [Hc Hd]. destruct (load_run (vmx_of v) Hc ltac:(cbn; lia)) as (r & c & Hl & Hc1 & Hcase).
  destruct Hcase as [(-> & Hd1)|(_ & _ & _ & Hno)]; [|done]. cbn in Hd1.
  exists c. split; [exact (in_vmx_run _ _ _ _ Hl)|]. split; [split; [exact Hc1|cbn; lia]|lia].
Qed.

Lemma put_at v : hw_succeeds -> in_section v -> depth (cv_cpu v) = 1 ->
  exists c, in_vmx put_vmcs v = Some (0, set_cpu c v) /\ closed (set_cpu c v).
Proof.
  intros Hhw [Hc Hd] Hd1. destruct (put_run (vmx_of v) Hc Hd) as (r & c & Hp & Hc2 & Hd2 & H2).
  rewrite H2 in Hp by auto. exists c. split; [exact (in_vmx_run _ _ _ _ Hp)|].
  split; [exact Hc2|]. cbn in *. lia.
Qed.

Lemma load_write_cr_put_run v :
  hw_succeeds -> closed v -> cr_ready v ->
  exists c1 c2, load_write_cr_put G v = Some (true, set_cpu c2 (cr_written (set_cpu c1 v))) /\
    closed (set_cpu c2 (cr_written (set_cpu c1 v))).
Proof.
  intros Hhw Hcl Hr. unfold load_write_cr_put.
  destruct (load_at v Hhw Hcl) as (c1 & Hl & Hs1 & Hd1). rewrite (bind_run _ _ _ _ _ Hl). cbn [negb Z.eqb].
  assert (Hr1 : cr_ready (set_cpu c1 v)) by (destruct Hr; by split).
  rewrite (bind_run _ _ _ _ _ (vmwrite_cr_sec _ Hs1 Hr1)).
  pose proof (proj1 (rest_eq _ _ (rest_cr_written (set_cpu c1 v)))) as Hcpu.
  assert (Hs2 : in_section (cr_written (set_cpu c1 v))) by (eapply in_section_ext; [exact Hcpu|done]).
  assert (Hd2 : depth (cv_cpu (cr_written (set_cpu c1 v))) = 1) by (rewrite Hcpu; exact Hd1).
  destruct (put_at _ Hhw Hs2 Hd2) as (c2 & Hp & Hcl2). rewrite (bind_run _ _ _ _ _ Hp).
  exists c1, c2. split; [done|exact Hcl2].
Qed.

(** ** Writes of the guest *)
Lemma advance_obs v :
  vmcs (advance_rip v) = vmcs v /\ cv_cpu (advance_rip v) = cv_cpu v /\ cv_ctls (advance_rip v) = cv_ctls v /\
  mv_regs (mmio (advance_rip v)) = mv_regs (mmio v) /\ ev_regs (emu (advance_rip v)) = ev_regs (emu v) /\
  panicked (advance_rip v) = panicked v /\ cv_dirty (advance_rip v) = cv_dirty v /\
  cv_cpuid (advance_rip v) = cv_cpuid v /\
  rip (advance_rip v) = rip v +! vc_exit_instr_length (intr v).
Proof. unfold advance_rip, advance_rip_exit. by case_match. Qed.

Lemma set_cpu_obs c v :
  vmcs (set_cpu c v) = vmcs v /\ cv_cpu (set_cpu c v) = c /\ cv_ctls (set_cpu c v) = cv_ctls v /\
  mv_regs (mmio (set_cpu c v)) = mv_regs (mmio v) /\ ev_regs (emu (set_cpu c v)) = ev_regs (emu v) /\
  panicked (set_cpu c v) = panicked v /\ rip (set_cpu c v) = rip v /\
  vc_exit_instr_length (intr (set_cpu c v)) = vc_exit_instr_length (intr v) /\
  pdpte (set_cpu c v) = pdpte v /\ cv_dirty (set_cpu c v) = cv_dirty v /\
  cv_cpuid (set_cpu c v) = cv_cpuid v.
Proof. done. Qed.

Lemma set_cpu_wf c v : crs_wf v -> ctls_wf v -> crs_wf (set_cpu c v) /\ ctls_wf (set_cpu c v).
Proof. intros [] []. by split. Qed.

Lemma mode_ext v w :
  vmcs w = vmcs v -> cv_ctls w = cv_ctls v -> mv_regs (mmio w) = mv_regs (mmio v) ->
  long_mode_ok v -> long_mode_ok w.
Proof.
  intros E1 E2 E3 [L1 L2 L3 L4].
  assert (Ee : efer w = efer v) by (unfold efer; by rewrite E3).
  assert (Em : lma w = lma v) by (unfold lma, cr0, efer; by rewrite E3).
  split; rewrite ?E1, ?E2, ?Em, ?Ee; done.
Qed.

(** The registers are in the VMCS: the guest sees their values, VM entry accepts them, and
    long mode is as they say. *)
Record crs_loaded v : Prop := {
  cl_cr0 : guest_cr0 (vmcs v) = cr0 v;
  cl_cr4 : guest_cr4 (vmcs v) = cr4 v;
  cl_valid : cr_valid (vmcs v);
  cl_mode : long_mode_ok v;
}.

(** The VMCS is loaded, the registers are written, and the instruction is skipped. *)
(** The page-directory pointers go to the VMCS. *)
Lemma cr_written_pdpte v i : pae_pdpt_dirty (cv_dirty v) = true -> (i < 4)%nat ->
  vmcs_value (vmcs (cr_written v)) (GUEST_PDPTE0 + 2 * Z.of_nat i) = u64 (pdpte v i).
Proof.
  intros Hpae Hi. unfold cr_written. rewrite cr_controls_value.
  2: { do 4 (destruct i as [|i]; [not_ctl|]). lia. }
  unfold cr_fields, pdpt_written. change (cv_dirty (wr GUEST_CR3 (cr3 v) v)) with (cv_dirty v).
  rewrite Hpae. do 4 (destruct i as [|i]; [by rewrite !wr_value, vmcs_set_pae, !wr_value|]). lia.
Qed.

(** What [load_write_cr_put] leaves in place, and what it establishes. *)
Record written v v' : Prop := {
  wt_closed : closed v';
  wt_loaded : crs_loaded v';
  wt_cr0 : cr0 v' = cr0 v;
  wt_cr4 : cr4 v' = cr4 v;
  wt_regs : ev_regs (emu v') = ev_regs (emu v);
  wt_panic : panicked v' = panicked v;
  wt_rip : rip v' = rip v;
  wt_length : vc_exit_instr_length (intr v') = vc_exit_instr_length (intr v);
  wt_efer : efer v' = cr_efer v;
  wt_cpuid : cv_cpuid v' = cv_cpuid v;
  wt_pdpte : pae_pdpt_dirty (cv_dirty v) = true -> forall i, (i < 4)%nat ->
    vmcs_value (vmcs v') (GUEST_PDPTE0 + 2 * Z.of_nat i) = u64 (pdpte v i);
}.

Lemma write_run v :
  hw_succeeds -> globals_ok -> closed v -> cr_ready v -> crs_wf v -> ctls_wf v ->
  exists v', load_write_cr_put G v = Some (true, v') /\ written v v'.
Proof.
  intros Hhw Hg Hcl Hr Hcr Hct. destruct (load_write_cr_put_run v Hhw Hcl Hr) as (c1 & c2 & Hrun & Hcl2).
  eexists. split; [exact Hrun|]. clear Hrun.
  destruct (set_cpu_wf c1 v Hcr Hct) as [Hcr1 Hct1].
  destruct (set_cpu_obs c1 v) as (_ & _ & _ & B4 & B5 & B6 & B7 & B8 & B9 & B10 & B11).
  revert Hcl2 Hcr1 Hct1 B4 B5 B6 B7 B8 B9 B10 B11. generalize (set_cpu c1 v) as v1. intros v1. intros.
  pose proof (rest_cr_written v1) as Hrest.
  destruct (rest_eq _ _ Hrest) as (_ & R0 & _ & _ & R4 & Rr & Rip & _ & Rp).
  pose proof (rest_eq_length _ _ Hrest) as Rl. pose proof (rest_eq_cpuid _ _ Hrest) as Rc. clear Hrest.
  pose proof (guest_view_cr0 v1 Hg Hcr1) as V0. pose proof (guest_view_cr4 v1 Hg Hcr1) as V4.
  pose proof (cr_written_valid v1 Hg Hcr1) as Hva. destruct (cr_written_mode v1 Hct1) as (Hmo & _ & _ & Hef).
  pose proof (cr_written_pdpte v1) as Hpd.
  destruct (set_cpu_obs c2 (cr_written v1)) as (A1 & A2 & A3 & A4 & A5 & A6 & A7 & A8 & _ & _ & A9).
  revert Hcl2 R0 R4 Rr Rip Rp Rl Rc V0 V4 Hva Hmo Hef Hpd A1 A2 A3 A4 A5 A6 A7 A8 A9.
  generalize (set_cpu c2 (cr_written v1)) as w'. generalize (cr_written v1) as w. intros w w'. intros.
  assert (B0 : cr0 v1 = cr0 v) by (unfold cr0; by rewrite B4).
  assert (B1 : cr4 v1 = cr4 v) by (unfold cr4; by rewrite B4).
  assert (E0 : cr0 w' = cr0 w) by (unfold cr0; by rewrite A4).
  assert (E4 : cr4 w' = cr4 w) by (unfold cr4; by rewrite A4).
  assert (Ee : efer w' = efer w) by (unfold efer; by rewrite A4).
  assert (Be : cr_efer v1 = cr_efer v) by (unfold cr_efer, efer; by rewrite B0, B1, B4).
  split; try congruence.
  - split; rewrite ?A1; [congruence | congruence | exact Hva | by apply (mode_ext w)].
  - intros Hpae i Hi. rewrite A1, <- B9. apply Hpd; [by rewrite B10|done].
Qed.

(** The instruction is skipped. *)
Lemma written_advance v v' : written v v' ->
  rip (advance_rip v') = rip v +! vc_exit_instr_length (intr v) /\
  closed (advance_rip v') /\ crs_loaded (advance_rip v') /\
  cr0 (advance_rip v') = cr0 v /\ cr4 (advance_rip v') = cr4 v /\ efer (advance_rip v') = cr_efer v /\
  ev_regs (emu (advance_rip v')) = ev_regs (emu v) /\ panicked (advance_rip v') = panicked v /\
  cv_cpuid (advance_rip v') = cv_cpuid v /\ vmcs (advance_rip v') = vmcs v'.
Proof.
  intros [Hcl Hlo H0 H4 Hr Hp Hrip Hlen He Hc _].
  destruct (advance_obs v') as (A1 & A2 & A3 & A4 & A5 & A6 & _ & A7 & A8).
  assert (E0 : cr0 (advance_rip v') = cr0 v') by (unfold cr0; by rewrite A4).
  assert (E4 : cr4 (advance_rip v') = cr4 v') by (unfold cr4; by rewrite A4).
  assert (Ee : efer (advance_rip v') = efer v') by (unfold efer; by rewrite A4).
  split_and!; try congruence.
  - unfold closed. by rewrite A2.
  - destruct Hlo as [L1 L2 L3 L4]. split; rewrite ?A1, ?E0, ?E4; try done. by apply (mode_ext v').
Qed.

(** Long mode needs PAE. *)
Lemma cr_efer_pae v : has (cr0 v) CR0_PG = true -> has (cr_efer v) IA32_EFER_LME = true ->
  has (cr4 v) CR4_PAE = true.
Proof.
  intros Hpg. unfold cr_efer. rewrite Hpg. destruct (has (cr4 v) CR4_PAE); [done|].
  cbn [negb andb]. by vm_compute.
Qed.
End CrProps.
