(* ===== verification/VcpuCrExit.v ===== *)
(** * Writes of the guest to CR0 and CR4 *)

From stdpp Require Import base numbers list gmap.
From Stdlib Require Import ZArith Lia.
From S2P Require Import IntrExc Prelude HaxList MemTypes Memslot MemslotSpec MemslotCorrect GpaSpace GpaAccess.
From S2P Require Import PageWalker Mmio EmTypes Emulate EmCache EptTree Ept2 VcpuEmu Cpuid CpuidProps.
From S2P Require Import Vmx VmxProps VcpuState VcpuCr VcpuCrProps.
#[local] Open Scope Z_scope.

(** ** CPUID follows CR4.OSXSAVE *)
Section CpuidUpdate.
Context {HW : CpuidHw}.
Implicit Types g : cpuid_globals.

Lemma xstate_loop_total n bv bit s c args g : 0 <= bv < 2 ^ Z.of_nat n ->
  exists r, xstate_loop n bv bit s c args g = Some (r, g).
Proof.
  revert bv bit s args. induction n as [|n IH]; intros bv bit s args Hb.
  - assert (bv = 0) as -> by (cbn in Hb; lia). by eexists.
  - cbn [xstate_loop]. destruct (bv =? 0); [by eexists|].
    assert (0 <= bv >>! 1 < 2 ^ Z.of_nat n).
    { rewrite Z.shiftr_div_pow2 by lia. rewrite Nat2Z.inj_succ, Z.pow_succ_r in Hb by lia.
      change (2 ^ 1) with 2. split; [apply Z.div_pos; lia|apply Z.div_lt_upper_bound; lia]. }
    case_match; by apply IH.
Qed.

Lemma calc_xstate_total args bv c g : 0 <= bv < 2 ^ 64 ->
  exists r, calc_xstate_required_size args bv c g = Some (r, g).
Proof.
  intros Hb. apply xstate_loop_total. change (2 ^ Z.of_nat 64) with (2 ^ 64).
  rewrite <- (Z.mod_small bv (2 ^ 64)) by done. rewrite <- Z.land_ones by lia.
  rewrite (Z.land_comm bv), <- Z.land_assoc, Z.land_comm, Z.land_ones by lia.
  apply Z.mod_pos_bound. lia.
Qed.

(** The entry of a leaf after an update of one entry. *)
Lemma leaf_insert_first fs j e leaf subleaf :
  (j < length fs)%nat -> is_entry leaf subleaf e = true ->
  (forall k x, (k < j)%nat -> fs !! k = Some x -> is_entry leaf subleaf x = false) ->
  lookup_leaf (<[j := e]> fs) leaf subleaf = Some e.
Proof.
  revert j. induction fs as [|x fs IH]; intros [|j] Hl He Hb; cbn in *; try lia; [by rewrite He|].
  rewrite (Hb 0%nat x) by (lia || done). apply IH; [lia|done|]. intros k y Hk. apply (Hb (S k)). lia.
Qed.

Lemma lookup_leaf_other fs j e e' leaf subleaf :
  fs !! j = Some e -> is_entry leaf subleaf e = false -> is_entry leaf subleaf e' = false ->
  lookup_leaf (<[j := e']> fs) leaf subleaf = lookup_leaf fs leaf subleaf.
Proof.
  revert j. induction fs as [|x fs IH]; intros [|j] Hj He He'; cbn in *; simplify_eq; [by rewrite He, He'|].
  case_match; [done|]. by apply IH.
Qed.

Lemma find_from_first fs i n leaf subleaf g j g' :
  find_cpuid_entry_from i n fs leaf subleaf g = Some (Some j, g') ->
  forall k x, (i <= k < j)%nat -> fs !! k = Some x -> is_entry leaf subleaf x = false.
Proof.
  revert i. induction n as [|n IH]; intros i; [done|]. cbn [find_cpuid_entry_from].
  destruct (fs !! i) as [e|] eqn:He; [rewrite (of_option_run _ e) by done|done].
  change ((ce_function e =? leaf) && (ce_index e =? subleaf))%bool with (is_entry leaf subleaf e).
  destruct (is_entry leaf subleaf e) eqn:Hie.
  - intros H k x Hk. injection H as <- _. lia.
  - intros H k x Hk Hx. destruct (decide (k = i)) as [->|]; [by simplify_eq|].
    apply (IH (S i) H k x); [lia|done].
Qed.

Lemma put_reg_entry leaf subleaf e key x :
  is_entry leaf subleaf (put_reg e key x) = is_entry leaf subleaf e.
Proof. unfold put_reg. by repeat case_match. Qed.

Lemma is_entry_unique l s l' s' e : (l, s) <> (l', s') -> is_entry l s e = true -> is_entry l' s' e = false.
Proof.
  unfold is_entry. intros Hn [H1 H2]%andb_prop. apply Z.eqb_eq in H1, H2. apply not_true_iff_false.
  intros [H3 H4]%andb_prop. apply Z.eqb_eq in H3, H4. congruence.
Qed.

(** The position that the search returns is where an update changes this leaf and no other. *)
Definition leaf_at (fs : list hax_cpuid_entry) (l s : Z) (j : nat) (e : hax_cpuid_entry) : Prop :=
  fs !! j = Some e /\ lookup_leaf fs l s = Some e /\
  forall e', is_entry l s e' = true ->
    lookup_leaf (<[j := e']> fs) l s = Some e' /\
    forall l2 s2, (l, s) <> (l2, s2) -> lookup_leaf (<[j := e']> fs) l2 s2 = lookup_leaf fs l2 s2.

Lemma find_at fs l s g : length fs = 18%nat ->
  exists r, find_cpuid_entry fs CPUID_TOTAL_LEAVES l s g = Some (r, g) /\
    match r with
    | Some j => exists e, leaf_at fs l s j e /\ is_entry l s e = true
    | None => lookup_leaf fs l s = None
    end.
Proof.
  intros Hl. destruct (find_spec fs CPUID_TOTAL_LEAVES l s g) as (r & Hr & H); [by rewrite Hl|].
  exists r. split; [done|]. destruct r as [j|]; [|done]. destruct H as (e & Hj & He & Hlk).
  exists e. split; [|done]. split; [done|]. split; [done|]. intros e' He'. split.
  - apply leaf_insert_first; [by apply lookup_lt_Some in Hj|done|]. intros k x Hk.
    apply (find_from_first _ _ _ _ _ _ _ _ Hr). lia.
  - intros l2 s2 Hn. by apply (lookup_leaf_other _ _ e); [|eapply is_entry_unique..].
Qed.

(** [cpuid_update] finishes, and the table reports OSXSAVE as CR4 says. *)
Lemma cpuid_update_run uninit c cr4 xcr0 g :
  length (hc_features c) = 18%nat -> length (cc_data (cg_cache g)) = 7%nat -> 0 <= xcr0 < 2 ^ 64 ->
  exists c', cpuid_update uninit c cr4 xcr0 g = Some (c', g) /\ length (hc_features c') = 18%nat /\
    exists b, cpu_has_feature uninit X86_FEATURE_XSAVE g = Some (b, g) /\
      forall e, lookup_leaf (hc_features c) 1 0 = Some e ->
        lookup_leaf (hc_features c') 1 0 = Some (if b : bool
          then update_feature e X86_FEATURE_OSXSAVE (negb (cr4 &! CR4_OSXSAVE =? 0)) else e).
Proof.
  intros Hlen Hdata Hx. unfold cpuid_update.
  assert (Hhas : exists b, cpu_has_feature uninit X86_FEATURE_XSAVE g = Some (b, g)).
  { unfold cpu_has_feature, cpuid_host_has_feature. rewrite gets_run. case_match; [by eexists|].
    destruct (lookup_lt_is_Some_2 (cc_data (cg_cache g)) (Z.to_nat (key_index X86_FEATURE_XSAVE))) as [x Hx'].
    { rewrite Hdata. vm_compute. lia. }
    rewrite (of_option_run _ x) by done. by eexists. }
  destruct Hhas as [b Hb].
  destruct (find_at (hc_features c) 1 0 g Hlen) as (r1 & Hr1 & H1). rewrite (bind_run _ _ _ _ _ Hr1).
  set (e1 := fun e => if b then update_feature e X86_FEATURE_OSXSAVE (negb (cr4 &! CR4_OSXSAVE =? 0)) else e).
  match goal with |- context [(?m ≫= _) g] =>
    assert (Hm : exists c1, m g = Some (c1, g) /\ length (hc_features c1) = 18%nat /\
      forall e, lookup_leaf (hc_features c) 1 0 = Some e -> lookup_leaf (hc_features c1) 1 0 = Some (e1 e)) end.
  { destruct r1 as [j|]; [|exists c; split_and!; try done; congruence]. destruct H1 as (e & (Hj & Hl & Hup) & He).
    rewrite (bind_run _ _ _ _ _ Hb). unfold e1. destruct b.
    - rewrite (of_option_run _ e) by done. eexists. split; [done|]. cbn. rewrite length_insert. split; [done|].
      intros e0 Hl'. simplify_eq. apply Hup. unfold update_feature. case_match; by rewrite put_reg_entry.
    - eexists. split; [done|]. split; [done|]. intros e0 Hl'. congruence. }
  destruct Hm as (c1 & Hc1 & Hlen1 & Hl1). rewrite (bind_run _ _ _ _ _ Hc1).
  destruct (find_at (hc_features c1) 0xd 0 g Hlen1) as (r2 & Hr2 & H2). rewrite (bind_run _ _ _ _ _ Hr2).
  match goal with |- context [(?m ≫= _) g] =>
    assert (Hm : exists c2, m g = Some (c2, g) /\ length (hc_features c2) = 18%nat /\
      lookup_leaf (hc_features c2) 1 0 = lookup_leaf (hc_features c1) 1 0) end.
  { destruct r2 as [j|]; [|by exists c1]. destruct H2 as (e & (Hj & _ & Hup) & He).
    rewrite (of_option_run _ e) by done. destruct (calc_xstate_total uninit xcr0 false g Hx) as (sz & Hsz).
    rewrite (bind_run _ _ _ _ _ Hsz). eexists. split; [done|]. cbn. rewrite length_insert. split; [done|].
    by apply Hup. }
  destruct Hm as (c2 & Hc2 & Hlen2 & Hl2). rewrite (bind_run _ _ _ _ _ Hc2).
  destruct (find_at (hc_features c2) 0xd 1 g Hlen2) as (r3 & Hr3 & H3). rewrite (bind_run _ _ _ _ _ Hr3).
  assert (Hfin : forall e, lookup_leaf (hc_features c) 1 0 = Some e ->
    lookup_leaf (hc_features c2) 1 0 = Some (e1 e)) by (intros e He; rewrite Hl2; auto).
  destruct r3 as [j|]; [|exists c2; split; [done|]; split; [done|]; by exists b].
  destruct H3 as (e & (Hj & _ & Hup) & He). rewrite (of_option_run _ e) by done.
  destruct (is_feature_set e X86_FEATURE_XSAVEC); [|exists c2; split; [done|]; split; [done|]; by exists b].
  destruct (calc_xstate_total uninit xcr0 true g Hx) as (sz & Hsz). rewrite (bind_run _ _ _ _ _ Hsz).
  eexists. split; [done|]. cbn. rewrite length_insert. split; [done|]. exists b.
  split; [done|]. intros e0 He0. etrans; [|exact (Hfin e0 He0)]. by apply Hup.
Qed.
End CpuidUpdate.

Section CrExit.
Context {HH : Host} {PH : PhysHost} {VH : VmxHw} {CH : CpuidHw}.
Context (G : hax_globals) (uninit : cpuid_args_t).
Implicit Types v w : vcpu.

(** What the steps before the registers are written leave in place. *)
Record same_core v w : Prop := {
  sc_regs : mv_regs (mmio w) = mv_regs (mmio v);
  sc_cpu : cv_cpu w = cv_cpu v;
  sc_ctls : cv_ctls w = cv_ctls v;
  sc_vmcs : vmcs w = vmcs v;
  sc_gprs : ev_regs (emu w) = ev_regs (emu v);
  sc_rip : rip w = rip v;
  sc_length : vc_exit_instr_length (intr w) = vc_exit_instr_length (intr v);
  sc_panic : panicked w = panicked v;
  sc_eptp : eptp w = eptp v;
}.

#[export] Instance same_core_refl : Reflexive same_core.
Proof. by intros v. Qed.
#[export] Instance same_core_trans : Transitive same_core.
Proof. intros v1 v2 v3 [] []. split; congruence. Qed.

(** The virtual CPU between exits: no section open, and its registers can be written. *)
Record ready v : Prop := {
  rd_closed : closed v;
  rd_cr : cr_ready v;
  rd_crs : crs_wf v;
  rd_ctls : ctls_wf v;
}.

Lemma same_core_crs v w : same_core v w -> cr0 w = cr0 v /\ cr3 w = cr3 v /\ cr4 w = cr4 v /\ efer w = efer v.
Proof. intros H. unfold cr0, cr3, cr4, efer. by rewrite (sc_regs _ _ H). Qed.

Lemma ready_core v w : same_core v w -> length (cv_pae_pdptes w) = 4%nat -> ready v -> ready w.
Proof.
  intros H Hl [Hc [He Hp] [C1 C2 C3 C4] [T1 T2 T3]].
  destruct (same_core_crs v w H) as (E0 & E3 & E4 & Ee). destruct H.
  split; [unfold closed in *; congruence|by split; [congruence|]|split; congruence|split; congruence].
Qed.

(** The register that is written. *)
Definition moved (cr val : Z) v : vcpu := vcpu_write_cr cr val (set_tunnel_reason v).

Lemma moved_ready cr val v : cr = 0 \/ cr = 4 -> 0 <= val < 2 ^ 64 -> ready v -> ready (moved cr val v).
Proof.
  intros Hcr Hval [Hc [He Hp] [C1 C2 C3 C4] [T1 T2 T3]].
  destruct Hcr as [-> | ->]; (split; [exact Hc|by split|by split|by split]).
Qed.

Lemma moved_obs cr val v : cr = 0 \/ cr = 4 ->
  cr0 (moved cr val v) = (if cr =? 0 then val else cr0 v) /\
  cr4 (moved cr val v) = (if cr =? 4 then val else cr4 v) /\
  cr3 (moved cr val v) = cr3 v /\ rip (moved cr val v) = rip v /\
  ev_regs (emu (moved cr val v)) = ev_regs (emu v) /\ panicked (moved cr val v) = panicked v /\
  vc_exit_instr_length (intr (moved cr val v)) = vc_exit_instr_length (intr v) /\
  mv_space (mmio (moved cr val v)) = mv_space (mmio v) /\ cv_cpuid (moved cr val v) = cv_cpuid v /\
  cv_cpuid_globals (moved cr val v) = cv_cpuid_globals v /\ cv_xcr0 (moved cr val v) = cv_xcr0 v.
Proof. by intros [-> | ->]. Qed.

(** ** The page-directory pointers *)
Lemma words64_length n bs : length (words64 n bs) = n.
Proof. revert bs. induction n as [|n IH]; intros bs; cbn; [done|by rewrite IH]. Qed.

Lemma words64_lookup n bs i : (i < n)%nat -> words64 n bs !! i = Some (le_word (take 8 (drop (8 * i) bs))).
Proof.
  revert bs i. induction n as [|n IH]; intros bs [|i] Hi; cbn [words64 lookup list_lookup]; try lia; [done|].
  rewrite IH by lia. rewrite drop_drop. do 4 f_equal. lia.
Qed.

(** The bytes of the guest's memory at [gpa]. *)
Definition guest_data (g : hax_gpa_space hax_ept_tree) (gpa : Z) (data : list Z) : Prop :=
  forall i b, data !! i = Some b -> guest_byte g (gpa + Z.of_nat i) = Some b.

Definition pdpt_gpa v : Z := cr3 v &! 0xffffffe0.

Definition pdpt_loaded v w : Prop :=
  exists data, length data = 32%nat /\ guest_data (mv_space (mmio v)) (pdpt_gpa v) data /\
    forall i, (i < 4)%nat -> pdpte w i = le_word (take 8 (drop (8 * i) data)).

(** The parts that the next step uses. *)
Definition same_cpuid v w : Prop :=
  cv_cpuid w = cv_cpuid v /\ cv_cpuid_globals w = cv_cpuid_globals v /\ cv_xcr0 w = cv_xcr0 v.

Lemma pdpt_gpa_range v : 0 <= pdpt_gpa v < 2 ^ 64.
Proof.
  unfold pdpt_gpa. change 0xffffffe0 with (0xffffffe0 &! Z.ones 32).
  rewrite Z.land_assoc, Z.land_ones by lia. pose proof (Z.mod_pos_bound (cr3 v &! 0xffffffe0) (2 ^ 32)). lia.
Qed.

Lemma pae_run v : space_inv (mv_space (mmio v)) -> length (cv_pae_pdptes v) = 4%nat ->
  exists ret w, vcpu_prepare_pae_pdpt v = Some (ret, w) /\ same_core v w /\ same_cpuid v w /\
    length (cv_pae_pdptes w) = 4%nat /\
    (ret = 0 -> pae_pdpt_dirty (cv_dirty w) = true /\ pdpt_loaded v w).
Proof.
  intros Hi Hl. unfold vcpu_prepare_pae_pdpt, get. unfold mbind at 1, M_bind at 1.
  destruct (read_data_rule (pdpt_gpa v) pdpt_size (mv_space (mmio v)) Hi (pdpt_gpa_range v)
    ltac:(unfold pdpt_size; lia)) as (ret & data & g & Hr & Hv & _ & Hle & Hd).
  rewrite (bind_run _ _ v (ret, data) (set_mmio (set_mv_space g (mmio v)) v)).
  2: { unfold in_mmio_of, in_space. unfold pdpt_gpa in Hr. by rewrite Hr. }
  rewrite modify_run. set (w := set_cv_pae_pdptes _ _).
  assert (Hw : same_core v w /\ same_cpuid v w /\ length (cv_pae_pdptes w) = 4%nat).
  { split; [|split; [done|apply words64_length]]. split; try done.
    unfold eptp. cbn. destruct Hv as (_ & _ & _ & _ & _ & Ho). by rewrite Ho. }
  destruct Hw as (W1 & W2 & W3).
  destruct (Z.eqb_spec ret pdpt_size) as [E|E]; cbn [negb].
  - rewrite modify_run. exists 0, (set_pae_pdpt_dirty true w). split; [done|].
    split; [etrans; [exact W1|done]|]. split; [exact W2|]. split; [exact W3|]. intros _.
    split; [done|]. destruct (Hd ltac:(unfold pdpt_size in E; lia)) as [Hlen Hb].
    assert (H32 : length data = 32%nat) by (rewrite Hlen, E; done).
    exists data. split; [done|]. split; [exact Hb|]. intros i Hi4.
    change (pdpte (set_pae_pdpt_dirty true w) i)
      with (default 0 (words64 4 (data ++ drop (length data) (concat (map (le_bytes 8) (cv_pae_pdptes v)))) !! i)).
    rewrite words64_lookup by done. cbn [default]. rewrite drop_app_le by lia.
    by rewrite take_app_le by (rewrite length_drop; lia).
  - destruct (ret <? 0) eqn:E0; [apply Z.ltb_lt in E0|].
    + exists ret, w. split; [done|]. split_and!; try done. lia.
    + exists (- EIO), w. split; [done|]. split_and!; try done.
Qed.

(** ** The CPUID table *)
Record cpuid_ready v : Prop := {
  cu_table : exists c, cv_cpuid v = Some c /\ length (hc_features c) = 18%nat;
  cu_cache : length (cc_data (cg_cache (cv_cpuid_globals v))) = 7%nat;
  cu_xcr0 : 0 <= cv_xcr0 v < 2 ^ 64;
}.

(** The guest finds CR4.OSXSAVE in CPUID.1 when the processor has XSAVE. *)
Definition reports_osxsave v w : Prop :=
  exists c c' b, cv_cpuid v = Some c /\ cv_cpuid w = Some c' /\
    cpu_has_feature uninit X86_FEATURE_XSAVE (cv_cpuid_globals v) = Some (b, cv_cpuid_globals v) /\
    forall e, lookup_leaf (hc_features c) 1 0 = Some e ->
      lookup_leaf (hc_features c') 1 0 = Some (if b : bool
        then update_feature e X86_FEATURE_OSXSAVE (has (cr4 v) CR4_OSXSAVE) else e).

Lemma update_run v : cpuid_ready v ->
  exists w, update_guest_cpuid uninit v = Some (tt, w) /\ same_core v w /\
    cv_pae_pdptes w = cv_pae_pdptes v /\ cv_dirty w = cv_dirty v /\ reports_osxsave v w.
Proof.
  intros [(c & Hc & Hl) Hd Hx]. unfold update_guest_cpuid, get. unfold mbind at 1, M_bind at 1.
  rewrite (of_option_run _ c) by done.
  destruct (cpuid_update_run uninit c (cr4 v) (cv_xcr0 v) (cv_cpuid_globals v) Hl Hd Hx) as (c' & Hc' & _ & b & Hb & He).
  rewrite (bind_run _ _ v c' (set_cv_cpuid_globals (cv_cpuid_globals v) v)).
  2: { unfold in_cpuid. by rewrite Hc'. }
  eexists. split; [reflexivity|]. split; [split; done|]. split; [done|]. split; [done|].
  by exists c, c', b.
Qed.

(** ** The exit *)

(** The guest executes MOV to CR0 or CR4. *)
Record mov_to_cr_exit v (cr val : Z) : Prop := {
  mx_type : qual_type (qualification v) = 0;
  mx_creg : qual_creg (qualification v) = cr;
  mx_cr : cr = 0 \/ cr = 4;
  mx_val : gpr v (qual_gpr (qualification v)) = val;
  mx_range : 0 <= val < 2 ^ 64;
}.

(** Paging needs protected mode. *)
Definition paging_legal v : Prop := has (cr0 v) CR0_PG = true -> has (cr0 v) CR0_PE = true.

(** The write has taken place. *)
Record cr_moved (cr val : Z) (pae changing : bool) v v' : Prop := {
  cm_loaded : crs_loaded G v';
  cm_cr0 : cr0 v' = if cr =? 0 then val else cr0 v;
  cm_cr4 : cr4 v' = if cr =? 4 then val else cr4 v;
  cm_long : lma v' = true -> has (cr4 v') CR4_PAE = true;
  cm_paging : paging_legal v -> paging_legal v';
  cm_rip : rip v' = rip v +! vc_exit_instr_length (intr v);
  cm_gprs : ev_regs (emu v') = ev_regs (emu v);
  cm_panic : panicked v' = panicked v;
  cm_pdpt : pae = true -> exists data, length data = 32%nat /\
    guest_data (mv_space (mmio v)) (pdpt_gpa v) data /\
    forall i, (i < 4)%nat -> vmcs_value (vmcs v') (GUEST_PDPTE0 + 2 * Z.of_nat i) =
      u64 (le_word (take 8 (drop (8 * i) data)));
  cm_cpuid : changing = true -> exists c c' b, cv_cpuid v = Some c /\ cv_cpuid v' = Some c' /\
    cpu_has_feature uninit X86_FEATURE_XSAVE (cv_cpuid_globals v) = Some (b, cv_cpuid_globals v) /\
    forall e, lookup_leaf (hc_features c) 1 0 = Some e ->
      lookup_leaf (hc_features c') 1 0 = Some (if b : bool
        then update_feature e X86_FEATURE_OSXSAVE (has (cr4 v') CR4_OSXSAVE) else e);
}.

Lemma check_paging v cr val pae changing :
  cr = 0 \/ cr = 4 -> check_cr_write G v cr val = CrWrite pae changing ->
  paging_legal v -> cr = 0 -> has val CR0_PG = true -> has val CR0_PE = true.
Proof.
  intros _ Hck _ -> Hpg. revert Hck. unfold check_cr_write, check_cr0_write. cbn [Z.eqb].
  rewrite Hpg. by destruct (has val CR0_PE).
Qed.

(** What the processor's manual says of a write of [val], in terms of bits.  In CR0, PE is
    bit 0, NW 29, CD 30 and PG 31; in CR4, PSE is bit 4, PAE 5, PGE 7 and OSXSAVE 18; in
    EFER, LME is bit 8 and LMA 10. *)
Definition old_cr v (cr : Z) : Z := if cr =? 0 then cr0 v else cr4 v.
Definition new_cr0 v (cr val : Z) : Z := if cr =? 0 then val else cr0 v.
Definition new_cr4 v (cr val : Z) : Z := if cr =? 4 then val else cr4 v.
Definition flips v (cr val n : Z) : bool := xorb (Z.testbit val n) (Z.testbit (old_cr v cr) n).

(** Paging without protected mode, activating long mode without PAE, and clearing PAE in long
    mode are general protection faults. *)
Definition write_faults v (cr val : Z) : bool :=
  if cr =? 0 then
    (Z.testbit val 31 && negb (Z.testbit val 0)) ||
    (flips v 0 val 31 && Z.testbit val 31 && Z.testbit (efer v) 8 && negb (Z.testbit (cr4 v) 5))
  else Z.testbit (efer v) 10 && negb (Z.testbit val 5).

(** Leaving protected mode needs an unrestricted guest. *)
Definition leaves_protected v (cr val : Z) : bool :=
  (cr =? 0) && Z.testbit (cr0 v) 0 && negb (Z.testbit val 0) && negb (hg_ug_enable_flag G).

(** The PDPTE registers are loaded when the write leads to PAE paging, without long mode,
    and modifies CR0.CD, NW or PG, or CR4.PAE, PGE or PSE. *)
Definition loads_pdptes v (cr val : Z) : bool :=
  Z.testbit (new_cr0 v cr val) 31 && Z.testbit (new_cr4 v cr val) 5 && negb (Z.testbit (efer v) 8) &&
  existsb (flips v cr val) (if cr =? 0 then [29; 30; 31] else [4; 5; 7]).

Definition toggles_osxsave v (cr val : Z) : bool := (cr =? 4) && flips v cr val 18.

Definition cr_write_spec v (cr val : Z) : cr_check :=
  if write_faults v cr val then CrFault
  else if leaves_protected v cr val then CrRealmode
  else CrWrite (loads_pdptes v cr val) (toggles_osxsave v cr val).

Lemma has_lor x m n : has x (m |! n) = (has x m || has x n)%bool.
Proof.
  unfold has. rewrite Z.land_lor_distr_r. destruct (Z.eqb_spec (x &! m) 0) as [->|H]; [by rewrite Z.lor_0_l|].
  cbn. apply negb_true_iff, Z.eqb_neq. intros H0. by apply Z.lor_eq_0_iff in H0 as [? _].
Qed.

Lemma check_cr_write_spec v cr val : cr = 0 \/ cr = 4 -> check_cr_write G v cr val = cr_write_spec v cr val.
Proof.
  unfold check_cr_write, check_cr0_write, check_cr4_write, cr_write_spec, write_faults, leaves_protected,
    loads_pdptes, toggles_osxsave, new_cr0, new_cr4, flips, old_cr, vcpu_read_cr, CR0_PG, CR0_PE, CR0_CD, CR0_NW,
    CR4_PAE, CR4_PGE, PageWalker.CR4_PSE, CR4_PSE, CR4_OSXSAVE, IA32_EFER_LME, IA32_EFER_LMA.
  intros [-> | ->]; cbn [Z.eqb Pos.eqb existsb andb orb]; rewrite !has_lor, !has_bit, !Z.lxor_spec by lia;
    rewrite ?orb_false_r.
  - generalize (Z.testbit val 31), (Z.testbit val 30), (Z.testbit val 29), (Z.testbit val 0), (Z.testbit (cr0 v) 31),
      (Z.testbit (cr0 v) 30), (Z.testbit (cr0 v) 29), (Z.testbit (cr0 v) 0), (Z.testbit (efer v) 8),
      (Z.testbit (cr4 v) 5), (hg_ug_enable_flag G). by intros [] [] [] [] [] [] [] [] [] [] [].
  - generalize (Z.testbit val 4), (Z.testbit val 5), (Z.testbit val 7), (Z.testbit val 18), (Z.testbit (cr4 v) 4),
      (Z.testbit (cr4 v) 5), (Z.testbit (cr4 v) 7), (Z.testbit (cr4 v) 18), (Z.testbit (cr0 v) 31),
      (Z.testbit (efer v) 8), (Z.testbit (efer v) 10). by intros [] [] [] [] [] [] [] [] [] [] [].
Qed.

(** The steps after the checks. *)
Lemma move_run v cr val pae changing :
  hw_succeeds -> globals_ok G -> ready v -> cpuid_ready v -> space_inv (mv_space (mmio v)) ->
  cr = 0 \/ cr = 4 -> 0 <= val < 2 ^ 64 ->
  check_cr_write G (set_tunnel_reason v) cr val = CrWrite pae changing ->
  exists o v1, mov_to_cr G uninit cr val (set_tunnel_reason v) = Some (o, v1) /\
    (pae = true /\ o = Some HAX_RESUME /\ panicked v1 = true /\ closed v1 \/
     o = None /\ closed (advance_rip v1) /\ cr_moved cr val pae changing v (advance_rip v1)).
Proof.
  intros Hhw Hg Hr Hcu Hsp Hcr Hval Hck. unfold mov_to_cr, get. unfold mbind at 1, M_bind at 1.
  rewrite Hck, modify_run. fold (moved cr val v).
  pose proof (moved_ready cr val v Hcr Hval Hr) as Hr0.
  destruct (moved_obs cr val v Hcr) as (M0 & M4 & M3 & Mr & Mg & Mp & Ml & Ms & Mc & Mcg & Mx).
  assert (Hpg : paging_legal v -> cr = 0 -> has val CR0_PG = true -> has val CR0_PE = true)
    by (intros Hp; exact (check_paging _ cr val pae changing Hcr Hck Hp)).
  revert Hr0 M0 M4 M3 Mr Mg Mp Ml Ms Mc Mcg Mx. generalize (moved cr val v) as w0. intros w0. intros.
  assert (Hpae : exists ret w1, (if pae then vcpu_prepare_pae_pdpt else mret 0) w0 = Some (ret, w1) /\
    same_core w0 w1 /\ same_cpuid w0 w1 /\ length (cv_pae_pdptes w1) = 4%nat /\
    (pae = false -> ret = 0) /\
    (ret = 0 -> pae = true -> pae_pdpt_dirty (cv_dirty w1) = true /\ pdpt_loaded w0 w1)).
  { destruct Hr0 as [_ [_ Hlen] _ _]. destruct pae; [|by exists 0, w0].
    destruct (pae_run w0) as (ret & w1 & R1 & R2 & R3 & R4 & R5); [by rewrite Ms|done|].
    exists ret, w1. split_and!; try done. auto. }
  destruct Hpae as (ret & w1 & Hrun1 & Hs1 & Hc1 & Hl1 & Hret & Hpd). rewrite (bind_run _ _ _ _ _ Hrun1).
  pose proof (ready_core _ _ Hs1 Hl1 Hr0) as Hr1.
  destruct (Z.eqb_spec ret 0) as [Eret|Eret]; cbn [negb].
  2: { assert (pae = true) as -> by (destruct pae; [done|exfalso; auto]).
       eexists _, _. split; [reflexivity|]. left. split_and!; try done. exact (rd_closed _ Hr1). }
  assert (Hupd : exists w2, (if changing then update_guest_cpuid uninit else mret tt) w1 = Some (tt, w2) /\
    same_core w1 w2 /\ cv_pae_pdptes w2 = cv_pae_pdptes w1 /\ cv_dirty w2 = cv_dirty w1 /\
    (changing = true -> reports_osxsave w1 w2)).
  { destruct changing; [|by exists w1]. destruct Hcu as [Hc Hd Hx]. destruct Hc1 as (C1 & C2 & C3).
    destruct (update_run w1) as (w2 & U1 & U2 & U3 & U4 & U5); [split; rewrite ?C1, ?C2, ?C3, ?Mc, ?Mcg, ?Mx; done|]. exists w2. auto. }
  destruct Hupd as (w2 & Hrun2 & Hs2 & Hp2 & Hd2 & Hx2). rewrite (bind_run _ _ _ _ _ Hrun2).
  assert (Hl2 : length (cv_pae_pdptes w2) = 4%nat) by congruence.
  destruct (ready_core _ _ Hs2 Hl2 Hr1) as [Q1 Q2 Q3 Q4].
  destruct (write_run G w2 Hhw Hg Q1 Q2 Q3 Q4) as (w3 & Hrun3 & Hw). rewrite (bind_run _ _ _ _ _ Hrun3).
  exists None, w3. split; [done|]. right. split; [done|].
  destruct (written_advance G w2 w3 Hw) as (V1 & V2 & V3 & V4 & V5 & V6 & V7 & V8 & V9 & V10).
  split; [done|].
  destruct (same_core_crs _ _ Hs1) as (F0 & F3 & F4 & _). destruct (same_core_crs _ _ Hs2) as (F0' & _ & F4' & _).
  destruct Hs1, Hs2.
  assert (E0 : cr0 (advance_rip w3) = if cr =? 0 then val else cr0 v) by congruence.
  assert (E4 : cr4 (advance_rip w3) = if cr =? 4 then val else cr4 v) by congruence.
  split; try done; try congruence.
  - unfold lma. rewrite V6, V4, V5. intros [L1 L2]%andb_prop. exact (cr_efer_pae w2 L1 L2).
  - unfold paging_legal. rewrite E0. intros Hl. destruct (Z.eqb_spec cr 0); [by apply Hpg|exact Hl].
  - intros ->. destruct (Hpd Eret eq_refl) as (D1 & data & D2 & D3 & D4). exists data.
    split; [done|]. unfold pdpt_gpa in *. rewrite Ms, M3 in D3. split; [done|]. intros i Hi. rewrite V10.
    rewrite (wt_pdpte _ _ _ Hw) by (congruence || done). unfold pdpte. rewrite Hp2. f_equal. by apply D4.
  - intros Hch. destruct (Hx2 Hch) as (c & c' & b & X1 & X2 & X3 & X4). destruct Hc1 as (C1 & C2 & _).
    exists c, c', b. split_and!; try congruence. intros e He. rewrite E4.
    assert (E4w : cr4 w1 = if cr =? 4 then val else cr4 v) by congruence. rewrite <- E4w. auto.
Qed.
Lemma inject_run vector code v :
  exists i, hax_inject_exception vector code (intr v) = Some (tt, i) /\
    inject vector code v = Some (tt, set_intr i v).
Proof.
  assert (exists i, hax_inject_exception vector code (intr v) = Some (tt, i)) as [i Hi].
  { unfold hax_inject_exception, get, modify, vmwrite. unfold mbind, M_bind, mret, M_ret.
    by repeat case_match; simplify_eq; eexists. }
  exists i. split; [done|]. unfold inject, in_intr_of. by rewrite Hi.
Qed.

(** C13. A write of the guest to CR0 or CR4.  Paging without protected mode, activating long
    mode without PAE and clearing PAE in long mode ([write_faults]; the driver checks no other
    illegal value) make the exit handler inject a general protection fault and change no
    control register; without unrestricted guests, leaving protected mode is passed to user
    space.  Otherwise the guest then reads the value it has written - although the VMCS holds
    a value that the processor accepts -, long mode is as CR0, CR4 and EFER say, needs PAE and
    is announced to VM entry, paging still needs protected mode, CPUID reports OSXSAVE when it
    was toggled, RIP is advanced and the general-purpose registers do not change; when the
    manual has the PDPTE registers loaded ([loads_pdptes]), the four page-directory pointers
    are those of the guest's memory at CR3, or the virtual CPU panics.  No section is left
    open. *)
Theorem exit_cr_access_write v cr val :
  hw_succeeds -> globals_ok G -> ready v -> cpuid_ready v -> space_inv (mv_space (mmio v)) ->
  mov_to_cr_exit v cr val ->
  exists r v', exit_cr_access G uninit v = Some (r, v') /\ closed v' /\
    if write_faults v cr val then
      r = HAX_RESUME /\ mv_regs (mmio v') = mv_regs (mmio v) /\ rip v' = rip v /\
      exists i, hax_inject_exception VECTOR_GP 0 (intr v) = Some (tt, i) /\ intr v' = i
    else if leaves_protected v cr val then
      r = HAX_EXIT /\ mv_regs (mmio v') = mv_regs (mmio v) /\ rip v' = rip v /\
      ht_exit_status (ev_tunnel (emu v')) = HAX_EXIT_REALMODE
    else
      r = HAX_RESUME /\
      (loads_pdptes v cr val = true /\ panicked v' = true \/
       cr_moved cr val (loads_pdptes v cr val) (toggles_osxsave v cr val) v v').
Proof.
  intros Hhw Hg Hr Hcu Hsp [Ht Hc Hcr Hv Hval]. unfold exit_cr_access, get. rewrite modify_run.
  unfold mbind at 1, M_bind at 1. change (qualification (set_tunnel_reason v)) with (qualification v).
  change (gpr (set_tunnel_reason v)) with (gpr v).
  rewrite Ht, Hc, Hv. cbn [Z.eqb].
  pose proof (check_cr_write_spec v cr val Hcr) as Hck. unfold cr_write_spec in Hck.
  destruct (write_faults v cr val); [|destruct (leaves_protected v cr val);
    [|set (pae := loads_pdptes v cr val) in *; set (changing := toggles_osxsave v cr val) in *; clearbody pae changing]].
  - destruct (inject_run VECTOR_GP 0 (set_tunnel_reason v)) as (i & Hi & Hj).
    rewrite (bind_run _ _ _ (Some HAX_RESUME) (set_intr i (set_tunnel_reason v))).
    2: { unfold mov_to_cr, get. unfold mbind at 1, M_bind at 1.
         change (check_cr_write G (set_tunnel_reason v) cr val) with (check_cr_write G v cr val).
         rewrite Hck. by rewrite (bind_run _ _ _ _ _ Hj). }
    eexists _, _. split; [reflexivity|]. split; [exact (rd_closed _ Hr)|]. split_and!; try done. by exists i.
  - eexists _, _. rewrite (bind_run _ _ _ (Some HAX_EXIT) (set_tunnel_status HAX_EXIT_REALMODE (set_tunnel_reason v))).
    2: { unfold mov_to_cr, get. unfold mbind at 1, M_bind at 1.
         change (check_cr_write G (set_tunnel_reason v) cr val) with (check_cr_write G v cr val).
         by rewrite Hck. }
    split; [reflexivity|]. split; [exact (rd_closed _ Hr)|]. by split_and!.
  - destruct (move_run v cr val pae changing Hhw Hg Hr Hcu Hsp Hcr Hval Hck) as (o & v1 & Hrun & Hcase).
    rewrite (bind_run _ _ _ _ _ Hrun).
    destruct Hcase as [(Hpae & -> & Hp & Hcl)|(-> & Hcl & Hm)].
    + eexists _, _. split; [reflexivity|]. split; [done|]. auto.
    + rewrite modify_run. eexists _, _. split; [reflexivity|]. split; [done|]. auto.
Qed.
End CrExit.
