(* ===== verification/VcpuDemo.v ===== *)
(** * Instances of the theorems on virtual CPUs

    A processor whose VMX instructions succeed and whose registers hold what is written to
    them, and a virtual CPU in protected mode on it. *)

From stdpp Require Import base numbers list gmap.
From Stdlib Require Import ZArith Lia.
From S2P Require Import IntrExc IntrProps Prelude HaxList MemTypes Memslot MemslotSpec MemslotCorrect.
From S2P Require Import SimpleHost MemslotProps GpaSpace GpaAccess GpaProt PageWalker PageWalkSpec.
From S2P Require Import PageWalkProof PageWalkProps Mmio MmioProof MmioProps.
From S2P Require Import EptTree EptProof EptRules EptProps Ept2 Ept2Proof Ept2Props.
From S2P Require Import EmTypes Emulate EmCache EmProps EmDemo VcpuEmu VcpuEmuProps VcpuEmuDemo.
From S2P Require Import Cpuid CpuidProps CpuidFeatures CpuidDemo Vmx VmxProps VcpuState VcpuCr VcpuMsr.
From S2P Require Import VcpuExit VcpuSync VcpuIo VcpuHost VcpuHostProps VcpuRun VcpuRunProps.
From S2P Require Import VcpuCrProps VcpuCrExit.
#[local] Open Scope Z_scope.

(** ** The processor *)
Record demo_cpu := DemoCpu { dc_regs : hreg -> Z; dc_fx : list Z; dc_cr4 : Z }.
Definition set_reg (r : hreg) (x : Z) (h : demo_cpu) : demo_cpu :=
  DemoCpu (fun r' => if decide (r' = r) then x else dc_regs h r') (dc_fx h) (dc_cr4 h).
Definition demo_reg (r : hreg) (h : demo_cpu) : Z :=
  match r with
  | HFx i => nth i (dc_fx h) 0
  | HTs => Z.b2z (negb (dc_regs h HTs =? 0))
  | _ => dc_regs h r
  end.

#[export] Instance demo_vmx : VmxHw := {
  vhw := demo_cpu;
  asm_vmxon h := (0, h);
  asm_vmxoff h := (0, h);
  asm_vmptrld h := (0, h);
  asm_vmclear h := (0, h);
  get_cr4 h := dc_cr4 h;
  set_cr4 x h := DemoCpu (dc_regs h) (dc_fx h) x;
  ia32_rdmsr m h := (dc_regs h (HMsr m), h);
  ia32_wrmsr m x h := set_reg (HMsr m) x h;
  ia32_rdtsc h := (0x1000, h);
  hax_cpu_id h := 0;
  get_dr n h := dc_regs h (HDr n);
  set_dr n x h := set_reg (HDr n) x h;
  ia32_xsetbv i x h := if i =? XCR_XFEATURE_ENABLED_MASK then set_reg HXcr0 x h else h;
}.

#[export] Instance demo_kernel : KernelHw := {
  get_cr0 h := if dc_regs h HTs =? 0 then 0x80050033 else 0x8005003b;
  hw_set_cr0 x h := set_reg HTs (Z.b2z (has x CR0_TS)) h;
  get_cr2 h := dc_regs h HCr2;
  hw_set_cr2 x h := set_reg HCr2 x h;
  get_cr3 h := 0x1000;
  get_kernel_seg s h := dc_regs h (HSeg s);
  set_kernel_seg s x h := set_reg (HSeg s) x h;
  get_kernel_tr_selector h := 0x40;
  get_kernel_ldt h := dc_regs h HLdt;
  set_kernel_ldt x h := set_reg HLdt x h;
  get_kernel_gdt h := SystemDesc (dc_regs h (HGdt false)) (dc_regs h (HGdt true));
  set_kernel_gdt x h := set_reg (HGdt true) (sy_base x) (set_reg (HGdt false) (sy_limit x) h);
  get_kernel_idt h := SystemDesc (dc_regs h (HIdt false)) (dc_regs h (HIdt true));
  set_kernel_idt x h := set_reg (HIdt true) (sy_base x) (set_reg (HIdt false) (sy_limit x) h);
  kernel_read64 a h := 0;
  kernel_write64 a x h := h;
  hax_fxsave h := dc_fx h;
  hax_fxrstor x h := DemoCpu (dc_regs h) x (dc_cr4 h);
  hax_clts h := set_reg HTs 0 h;
  vmx_get_rip h := 0x4000;
}.

#[export] Instance demo_host_laws : HostLaws.
Proof.
  refine {| hreg_of := demo_reg |}; try done; try (by intros []; intros).
  - intros [m|n| | |s'|b|b| |i|] s x h _ H _ _; try done. cbn -[decide]. by rewrite decide_False.
  - intros h. cbn. by destruct (Z.eqb_spec (dc_regs h HTs) 0).
  - intros [] x h _; try done. cbn. by destruct (has x CR0_TS).
  - intros [] x h _; try done. cbn. by destruct base.
  - intros [] x h _; try done. cbn. by destruct base.
  - intros r i x h _. cbn. destruct (Z.eqb_spec i XCR_XFEATURE_ENABLED_MASK) as [->|Ne].
    + by destruct r.
    + rewrite decide_False; [done|]. by intros [_ ?].
Defined.

Lemma demo_succeeds : hw_succeeds.
Proof. by intros h. Qed.

(** The host; its long mode is enabled. *)
Definition demo_regs (r : hreg) : Z :=
  match r with
  | HMsr m => if m =? IA32_EFER then 0xd01 else if m =? IA32_FEATURE_CONTROL then 5 else m + 1
  | HDr n => n
  | HCr2 => 0x1234
  | HLdt => 0
  | HSeg s => match s with KCs => 0x10 | KSs => 0x18 | KDs => 0x2b | KEs => 0x2b | KFs => 0 | KGs => 0x63 end
  | HGdt b => if b then 0x2000 else 0x7f
  | HIdt b => if b then 0x3000 else 0xfff
  | HXcr0 => 7
  | HFx _ => 0
  | HTs => 1
  end.
Definition demo_processor : vmx_cpu :=
  VmxCpu _ (DemoCpu demo_regs [0x37f; 0x1f80] 0x200) 0 0 0 0 0 false 0 false 0 0 false false.

Lemma demo_processor_inv : vmx_inv demo_processor.
Proof. by split. Qed.

(** The first section of a virtual CPU. *)
Lemma vmcs_sections_refine_witness :
  let s := VmxSt _ demo_processor ∅ false in
  exists r s', run_op LoadVmcs s = Some (r, s') /\ vmx_inv (vx_cpu s') /\
    section_step LoadVmcs (section_of s) r (section_of s') /\ vx_preempt_disabled (vx_cpu s') = 1.
Proof.
  intros s. destruct (vmcs_sections_refine LoadVmcs s demo_processor_inv ltac:(by vm_compute))
    as (r & s' & Hrun & Hi & Hs). exists r, s'. split; [exact Hrun|]. split; [exact Hi|]. split; [exact Hs|].
  vm_compute in Hrun. by injection Hrun as _ <-.
Defined.

(** ** The virtual CPU *)
Definition demo_globals_hax : hax_globals := HaxGlobals true 0 0 0 0x80000021 0xffffffff 0x2000 0x3727ff.

Lemma demo_globals_ok : globals_ok demo_globals_hax.
Proof. by split; vm_compute. Qed.

Definition demo_seg : segment_desc_t := SegmentDesc 0 0 0 0 0 0.
Definition demo_em (qual : Z) : emu_vcpu hax_ept_tree :=
  EmuVcpu (MmioVcpu demo_vm (set_exit_info 0 0 3 0x202 (set_vmcs (fun _ => {[ VMX_ENTRY_CONTROLS := 0x11ff ]}) init_vcpu))
             (PagingRegs 0x21 0x100000 CR4_PAE IA32_EFER_LME 0) 0 false no_fetch)
    {[ 0 := 0x80000021; 1 := 0x40220 ]} 0x5000 demo_seg demo_seg demo_seg demo_seg demo_seg demo_seg
    false false false 28 qual 0 (HaxTunnel 0 0 0 0) (FastMmio 0 0 0 0).

(** RAX holds a value for CR0 that enables paging, RCX one for CR4 with OSXSAVE; [qual] is the exit
    qualification. *)
Definition demo_vcpu (qual : Z) : vcpu :=
  VcpuFull _ _ _ (EmState cleared_context (demo_em qual)) demo_processor demo_seg demo_seg demo_seg demo_seg
    (DRegs 0 0 0 0 DR6_SETBITS DR7_SETBITS) (VmxCtls 0 0 0 0 0 0x11ff 0 0 0 0 0)
    (GState (map (fun m => VmxMsr m 0) gmsr_list) (replicate 4 0) (replicate 4 0) 0 APIC_BASE_DEFAULT_ADDR
       (replicate 14 (VmxMsr 0 0)))
    (Mtrr 0 0 0 (replicate 2 0) (replicate 8 0) (replicate 10 (MtrrVar 0 0)))
    (DirtyFlags GS_VALID false false false false false) 0 0 0 0 0 7 (replicate 4 0) 0 (Some demo_guest) demo_globals
    (HaxIo 0 0 0 0 0 0 0) (DebugExit 0 0 0) false 0 (replicate 64 0) (RunState 0 false false 7 0)
    (TunnelRequests false false)
    (HState (replicate 6 (VmxMsr 0 0)) (replicate 4 0) (replicate 4 0) 0 (DRegs 0 0 0 0 0 0) 7)
    (HostSegs 0 0 0 0 0 0 0 0 0 0 0 [] 0 (SystemDesc 0 0) (SystemDesc 0 0) false 0) [] 0 0 0 true.

Lemma demo_ready qual : ready (demo_vcpu qual).
Proof.
  split; [by split|split; [by vm_compute|done]|by split|split; [by vm_compute|by vm_compute|by vm_compute]].
Qed.
Lemma demo_cpuid_ready qual : cpuid_ready (demo_vcpu qual).
Proof.
  split; [|by vm_compute|by vm_compute]. exists demo_guest. split; [done|].
  by rewrite (table_length _ demo_guest_wf).
Qed.

(** MOV CR0, RAX starts long mode, and the guest reads back the value it has written. *)
Lemma exit_cr_access_write_witness :
  exists v', exit_cr_access demo_globals_hax no_args (demo_vcpu 0) = Some (HAX_RESUME, v') /\
    guest_cr0 (vmcs v') = 0x80000021 /\ has (efer v') IA32_EFER_LMA = true /\ rip v' = 0x5003 /\
    closed v'.
Proof.
  destruct (exit_cr_access_write demo_globals_hax no_args (demo_vcpu 0) 0 0x80000021 demo_succeeds
    demo_globals_ok (demo_ready 0) (demo_cpuid_ready 0) (vi_space _ (proj1 demo_vm_inv)))
    as (r & v' & Hrun & Hcl & Hcase); [split; try done; auto; vm_compute; done|].
  change (write_faults _ _ _) with false in Hcase. change (leaves_protected _ _ _ _) with false in Hcase.
  change (loads_pdptes _ _ _) with false in Hcase. change (toggles_osxsave _ _ _) with false in Hcase.
  destruct Hcase as (-> & [[H _]|[L1 L2 L3 L4 L5 L6 L7 L8 L9 L10]]); [discriminate H|].
  exists v'. split; [exact Hrun|]. destruct L1 as [V0 V4 Vv Vm].
  rewrite V0. split; [exact L2|]. split; [|split; [exact L6|exact Hcl]].
  rewrite (lo_lma _ Vm). unfold lma. rewrite L2.
  assert (He : (fun x => efer x.2) <$> exit_cr_access demo_globals_hax no_args (demo_vcpu 0) = Some 0x500)
    by (vm_compute; reflexivity).
  rewrite Hrun in He. injection He as ->. reflexivity.
Defined.

(** A guest that halts at once. *)
Definition halting_guest : M vcpu Z := fun v => Some (0, upd_vmcs (<[VM_EXIT_INFO_REASON := VMX_EXIT_HLT]>) v).
Lemma halting_guest_exits : guest_exits halting_guest.
Proof.
  intros v r v' [= _ <-]. split; [|done]. exists (vx_hw (cv_cpu v)).
  change (cv_cpu v = set_vx_hw (vx_hw (cv_cpu v)) (cv_cpu v)). by destruct (cv_cpu v).
Qed.

Lemma vcpu_execute_releases_witness :
  exists v', vcpu_execute demo_globals_hax no_args Z.eqb halting_guest 1 (demo_vcpu 0) = Some (0, v') /\
    vx_is_vmcs_loaded (cv_cpu v') = false /\ cv_irq_enabled v' = true /\
    ht_exit_status (ev_tunnel (emu v')) = HAX_EXIT_HLT.
Proof.
  assert (Hr : (fun x => (x.1, ht_exit_status (ev_tunnel (emu x.2)))) <$>
    vcpu_execute demo_globals_hax no_args Z.eqb halting_guest 1 (demo_vcpu 0) = Some (0, HAX_EXIT_HLT))
    by (vm_compute; reflexivity).
  destruct (vcpu_execute _ _ _ _ _ _) as [[r v']|] eqn:Hrun; [|by cbn in Hr].
  cbn in Hr. injection Hr as -> Hs. exists v'. split; [reflexivity|].
  destruct (vcpu_execute_releases demo_globals_hax no_args Z.eqb halting_guest halting_guest_exits 1
    (demo_vcpu 0) 0 v' demo_processor_inv eq_refl eq_refl Hrun) as (_ & Hl & _ & [Hq|Hq]); [|discriminate Hq].
  auto.
Defined.

(** The guest has its own GS, system-call entry and floating-point environment; the host gets back
    the selector 0x63, the base address, the entry and the environment, and TS is set again. *)
Definition in_vmcs (v : vcpu) : vcpu := set_cpu (VmxCpu _ (hw_of v) VMXON_HAX 0 0 0 0 true 1 true 0 0 true true) v.
Definition guest_ran (v : vcpu) : vcpu :=
  set_hw (hax_fxrstor [0x27f; 0] (set_reg (HSeg KGs) 0 (set_reg (HMsr IA32_GS_BASE) 0
    (set_reg (HMsr IA32_LSTAR) 0x1000 (hw_of v))))) v.
Lemma host_state_restored_witness :
  exists v1 v3, vcpu_save_host_state demo_globals_hax no_args (in_vmcs (demo_vcpu 0)) = Some (tt, v1) /\
    vcpu_load_host_state demo_globals_hax no_args (guest_ran v1) = Some (tt, v3) /\
    reg v3 (HSeg KGs) = 0x63 /\ reg v3 (HMsr IA32_GS_BASE) = IA32_GS_BASE + 1 /\
    reg v3 (HMsr IA32_LSTAR) = IA32_LSTAR + 1 /\ reg v3 (HFx 0) = 0x37f /\ reg v3 HTs = 1.
Proof.
  destruct (host_state_restored demo_globals_hax no_args (in_vmcs (demo_vcpu 0)) true true) as (v1 & E1 & H);
    [split; [by split|done]|by split|done|done|by vm_compute|by vm_compute|reflexivity|].
  assert (Ex : reg v1 HXcr0 = 7 /\ has (cr4 v1) CR4_OSXSAVE = false).
  { assert (Hx : (fun r => (reg r.2 HXcr0, has (cr4 r.2) CR4_OSXSAVE)) <$>
      vcpu_save_host_state demo_globals_hax no_args (in_vmcs (demo_vcpu 0)) = Some (7, false)) by (vm_compute; reflexivity).
    rewrite E1 in Hx. injection Hx as Hx1 Hx2. exact (conj Hx1 Hx2). }
  destruct (H (guest_ran v1) eq_refl eq_refl eq_refl) as (v3 & E3 & R & _).
  { change (reg v1 HXcr0 = if has (cr4 v1) CR4_OSXSAVE then cv_xcr0 v1 else 7). destruct Ex as [Ex1 Ex2]. rewrite Ex2. exact Ex1. }
  exists v1, v3. split; [exact E1|]. split; [exact E3|].
  split_and!; (rewrite R; [reflexivity|reflexivity|]).
  - left. split; [|reflexivity]. by (do 3 right; left).
  - left. cbn [seg_restored]. right. split; [reflexivity|]. vm_compute. reflexivity.
  - right. left. left. split; [|reflexivity]. by (do 2 right; left).
  - by do 8 right; eexists.
  - by do 7 right; left.
Defined.

(** After a VM entry that fails, interrupts stay disabled. *)
Definition failing_entry : M vcpu Z := fun v => Some (VMX_FAIL_VALID, v).
Lemma failed_entry_irqs_disabled :
  exists v', vcpu_execute demo_globals_hax no_args Z.eqb failing_entry 1 (demo_vcpu 0) = Some (- EINVAL, v') /\
    cv_irq_enabled v' = false.
Proof.
  assert (Hr : (fun x => (x.1, cv_irq_enabled x.2)) <$>
    vcpu_execute demo_globals_hax no_args Z.eqb failing_entry 1 (demo_vcpu 0) = Some (- EINVAL, false))
    by (vm_compute; reflexivity).
  destruct (vcpu_execute _ _ _ _ _ _) as [[r v']|]; [|by cbn in Hr].
  cbn in Hr. injection Hr as -> Hs. by exists v'.
Qed.
