(* ===== verification/HostHeap.v ===== *)
(** * Memory of the kernel

    The driver allocates its objects, pages and locks from the host.  [heap] records what is
    allocated; memory that is freed must be allocated, so that an operation that returns has
    freed nothing twice. *)

From stdpp Require Import base numbers list gmultiset.
From Stdlib Require Import ZArith Lia.
From S2P Require Import Prelude MemTypes.
#[local] Open Scope Z_scope.

(** What is allocated: the structures of the driver and of its processors, those of a VM and of a
    virtual CPU ([hax_vmalloc]), a page ([hax_alloc_page]), a lock ([hax_mutex_alloc_init],
    [hax_spinlock_alloc_init]), the structures of a buffer shared with user space
    ([hax_setup_vcpumem]), and the device of a VM or of a virtual CPU with its name
    ([hax_vm_create_host], [hax_vcpu_create_host]), and a copy of an argument of user space. *)
Inductive alloc_kind :=
  | AkHax | AkCpuArray (cpu_num : nat) | AkPerCpuData
  | AkVm | AkVcpu | AkVcpuState | AkCpuid | AkVcpuMem | AkHostInfo | AkPageArray
  | AkPage | AkMutex | AkSpinlock | AkVmHost | AkVcpuHost | AkDevName | AkUserData.

Class AllocHost {HH : Host} := { host_alloc : alloc_kind -> hstate -> bool * hstate }.

Section Heap.
Context {HH : Host} {AH : AllocHost}.

Record heap := Heap { h_live : gmultiset Z; h_next : Z; h_host : hstate }.

Definition heap_alloc (k : alloc_kind) : M heap (option Z) :=
  fun h =>
    let '(ok, host) := host_alloc k (h_host h) in
    if ok : bool then Some (Some (h_next h), Heap ({[+ h_next h +]} ⊎ h_live h) (h_next h + 1) host)
    else Some (None, Heap (h_live h) (h_next h) host).

Definition heap_free (a : Z) : M heap unit :=
  h ← get; hax_assert (bool_decide (a ∈ h_live h));;
  modify (fun h => Heap (h_live h ∖ {[+ a +]}) (h_next h) (h_host h)).

(** The steps of a computation on memory that is allocated: either an address is added to what
    is live, or nothing is. *)
Lemma heap_alloc_wp k h (Q : option Z -> heap -> Prop) :
  (forall a h', h_live h' = {[+ a +]} ⊎ h_live h -> Q (Some a) h') ->
  (forall h', h_live h' = h_live h -> Q None h') ->
  wp (heap_alloc k) h Q.
Proof.
  intros H1 H2. unfold wp, heap_alloc. destruct (host_alloc k (h_host h)) as [[] host].
  - eexists _, _. split; [done|]. by apply H1.
  - eexists _, _. split; [done|]. by apply H2.
Qed.

Lemma heap_free_wp a own h (Q : unit -> heap -> Prop) :
  h_live h = {[+ a +]} ⊎ own ->
  (forall h', h_live h' = own -> Q tt h') -> wp (heap_free a) h Q.
Proof.
  intros Hl HQ. apply wp_bind, wp_get, wp_bind, wp_assert; [apply bool_decide_eq_true; rewrite Hl; multiset_solver|].
  apply wp_modify, HQ. cbn. rewrite Hl. multiset_solver.
Qed.
End Heap.
