(* ===== verification/HaxInit.v ===== *)
(** * The start of the driver (src/core/hax.c; src/core/cpu.c and src/core/vmx.c where they probe
    the processors)

    [hax_module_init] allocates the driver's data, probes every processor, sets up the page of
    MSR bits that says which MSRs a guest may access without a VM exit, and determines the
    common performance counters; [hax_module_exit] frees everything.  Processors are indexed by
    their number; [hm_hws] are their registers, [hm_cur] is the one that runs this code. *)

From stdpp Require Import base numbers list gmap gmultiset.
From Stdlib Require Import ZArith Lia.
From S2P Require Import Prelude MemTypes Memslot GpaSpace EptTree Ept2 VmMemory.
From S2P Require Import EmTypes Cpuid Vmx VcpuState VcpuCr VcpuMsr VcpuExit HostHeap.
#[local] Open Scope Z_scope.

Definition EBUSY : Z := 16.
Definition IA32_VMX_BASIC : Z := 0x480.
Definition IA32_VMX_PINBASED_CTLS : Z := 0x481.
Definition IA32_VMX_PROCBASED_CTLS : Z := 0x482.
Definition IA32_VMX_EXIT_CTLS : Z := 0x483.
Definition IA32_VMX_ENTRY_CTLS : Z := 0x484.
Definition IA32_VMX_MISC : Z := 0x485.
Definition IA32_VMX_CR0_FIXED0 : Z := 0x486.
Definition IA32_VMX_CR0_FIXED1 : Z := 0x487.
Definition IA32_VMX_CR4_FIXED0 : Z := 0x488.
Definition IA32_VMX_CR4_FIXED1 : Z := 0x489.
Definition IA32_VMX_VMCS_ENUM : Z := 0x48a.
Definition IA32_VMX_SECONDARY_CTLS : Z := 0x48b.
Definition IA32_VMX_EPT_VPID_CAP : Z := 0x48c.
Definition IA32_VMX_TRUE_PINBASED_CTLS : Z := 0x48d.
Definition IA32_VMX_TRUE_PROCBASED_CTLS : Z := 0x48e.
Definition IA32_VMX_TRUE_EXIT_CTLS : Z := 0x48f.
Definition IA32_VMX_TRUE_ENTRY_CTLS : Z := 0x490.
Definition IA32_VMX_MISC_UG_AVAILABLE : Z := 0x20.
Definition PIN_CONTROLS_DEFINED : Z := 0x69.
Definition PRIMARY_CONTROLS_DEFINED : Z := 0xfbf99e8c.
Definition EXIT_CONTROLS_DEFINED : Z := 0x7c9204.
Definition ENTRY_CONTROLS_DEFINED : Z := 0xee04.
Definition SECONDARY_CONTROLS : Z := 0x80000000.
Definition ENABLE_VPID : Z := 0x20.
Definition HAX_CPUF_VALID : Z := 0x1.
Definition HAX_CPUF_SUPPORT_VT : Z := 0x2.
Definition HAX_CPUF_SUPPORT_NX : Z := 0x4.
Definition HAX_CPUF_SUPPORT_EM64T : Z := 0x8.
Definition HAX_CPUF_ENABLE_VT : Z := 0x10.
Definition HAX_CPUF_ENABLE_NX : Z := 0x20.
Definition HAX_CPUF_ENABLE_EM64T : Z := 0x40.
Definition HAX_CPUF_INITIALIZED : Z := 0x100.
Definition HAX_SUPPORTED_XCR0 : Z := 0x7.
Definition APM_MAX_EVENT_COUNT : Z := 7.
Definition APM_MAX_FIXED_COUNT : Z := 3.
Definition HAX_CAP_STATUS_WORKING : Z := 0x1.
Definition HAX_CAP_MEMQUOTA : Z := 0x2.
Definition HAX_CAP_FAILREASON_VT : Z := 0x1.
Definition HAX_CAP_FAILREASON_NX : Z := 0x2.
Definition HAX_CAP_EPT : Z := 0x1.
Definition HAX_CAP_FASTMMIO : Z := 0x2.
Definition HAX_CAP_UG : Z := 0x4.
Definition HAX_CAP_64BIT_RAMBLOCK : Z := 0x8.
Definition HAX_CAP_64BIT_SETRAM : Z := 0x10.
Definition HAX_CAP_TUNNEL_PAGE : Z := 0x20.
Definition HAX_CAP_RAM_PROTECTION : Z := 0x40.
Definition HAX_CAP_DEBUG : Z := 0x80.
Definition HAX_CAP_IMPLICIT_RAMBLOCK : Z := 0x100.
Definition HAX_CAP_CPUID : Z := 0x200.

(** ** Data *)

(** The capability MSRs; the words of control bits are pairs of the bits that must be 1 (low
    half) and of those that may be 1 (high half). *)
Record info_t := Info {
  xi_basic_info : Z;
  xi_pin_ctls : Z;
  xi_pcpu_ctls : Z;
  xi_exit_ctls : Z;
  xi_entry_ctls : Z;
  xi_miscellaneous : Z;
  xi_cr0_fixed_0 : Z;
  xi_cr0_fixed_1 : Z;
  xi_cr4_fixed_0 : Z;
  xi_cr4_fixed_1 : Z;
  xi_vmcs_enumeration : Z;
  xi_scpu_ctls : Z;
  xi_ept_cap : Z;
}.
Definition ctls_0 (ctls : Z) : Z := u32 ctls.
Definition ctls_1 (ctls : Z) : Z := ctls >>! 32.
Definition or_ctls_0 (ctls x : Z) : Z := ctls |! u32 x.
Definition info_zero : info_t := Info 0 0 0 0 0 0 0 0 0 0 0 0 0.

(** The fields of [cpu_pmu_info]. *)
Definition apm_version_of (p : cpu_pmu_info) : Z := cpuid_eax p &! 0xff.
Definition apm_general_count_of (p : cpu_pmu_info) : Z := (cpuid_eax p >>! 8) &! 0xff.
Definition apm_general_bitlen_of (p : cpu_pmu_info) : Z := (cpuid_eax p >>! 16) &! 0xff.
Definition apm_event_count_of (p : cpu_pmu_info) : Z := (cpuid_eax p >>! 24) &! 0xff.
Definition apm_fixed_count_of (p : cpu_pmu_info) : Z := cpuid_edx p &! 0x1f.
Definition apm_fixed_bitlen_of (p : cpu_pmu_info) : Z := (cpuid_edx p >>! 5) &! 0xff.

(** Pages are known by their addresses; of the VMXON page the revision is kept. *)
Record per_cpu_data := PerCpu {
  pc_addr : Z;
  pc_hfxpage : option Z;
  pc_vmxon_page : option Z;
  pc_vmcs_page : option Z;
  pc_cpu_id : Z;
  pc_cpu_features : Z;
  pc_vmx_info : info_t;
  pc_pmu_info : cpu_pmu_info;
  pc_xcr0 : Z;
  pc_revision_id : Z;
}.
Record hax_t := HaxT {
  hx_vmx_enable_flag : bool;
  hx_nx_enable_flag : bool;
  hx_em64t_enable_flag : bool;
  hx_ug_enable_flag : bool;
  hx_apm_version : Z;
  hx_apm_general_count : Z;
  hx_apm_general_mask : Z;
  hx_apm_event_count : Z;
  hx_apm_event_unavailability : Z;
  hx_apm_fixed_count : Z;
  hx_apm_fixed_mask : Z;
  hx_mem_limit : Z;
  hx_mem_quota : Z;
}.

Section Setters.
Implicit Types (c : per_cpu_data).
Definition set_pc_addr (x : Z) c : per_cpu_data :=
  PerCpu x (pc_hfxpage c) (pc_vmxon_page c) (pc_vmcs_page c) (pc_cpu_id c) (pc_cpu_features c)
    (pc_vmx_info c) (pc_pmu_info c) (pc_xcr0 c) (pc_revision_id c).
Definition set_pc_hfxpage (x : option Z) c : per_cpu_data :=
  PerCpu (pc_addr c) x (pc_vmxon_page c) (pc_vmcs_page c) (pc_cpu_id c) (pc_cpu_features c)
    (pc_vmx_info c) (pc_pmu_info c) (pc_xcr0 c) (pc_revision_id c).
Definition set_pc_vmxon_page (x : option Z) c : per_cpu_data :=
  PerCpu (pc_addr c) (pc_hfxpage c) x (pc_vmcs_page c) (pc_cpu_id c) (pc_cpu_features c)
    (pc_vmx_info c) (pc_pmu_info c) (pc_xcr0 c) (pc_revision_id c).
Definition set_pc_vmcs_page (x : option Z) c : per_cpu_data :=
  PerCpu (pc_addr c) (pc_hfxpage c) (pc_vmxon_page c) x (pc_cpu_id c) (pc_cpu_features c)
    (pc_vmx_info c) (pc_pmu_info c) (pc_xcr0 c) (pc_revision_id c).
Definition set_pc_cpu_id (x : Z) c : per_cpu_data :=
  PerCpu (pc_addr c) (pc_hfxpage c) (pc_vmxon_page c) (pc_vmcs_page c) x (pc_cpu_features c)
    (pc_vmx_info c) (pc_pmu_info c) (pc_xcr0 c) (pc_revision_id c).
Definition set_pc_cpu_features (x : Z) c : per_cpu_data :=
  PerCpu (pc_addr c) (pc_hfxpage c) (pc_vmxon_page c) (pc_vmcs_page c) (pc_cpu_id c) x
    (pc_vmx_info c) (pc_pmu_info c) (pc_xcr0 c) (pc_revision_id c).
Definition set_pc_vmx_info (x : info_t) c : per_cpu_data :=
  PerCpu (pc_addr c) (pc_hfxpage c) (pc_vmxon_page c) (pc_vmcs_page c) (pc_cpu_id c)
    (pc_cpu_features c) x (pc_pmu_info c) (pc_xcr0 c) (pc_revision_id c).
Definition set_pc_pmu_info (x : cpu_pmu_info) c : per_cpu_data :=
  PerCpu (pc_addr c) (pc_hfxpage c) (pc_vmxon_page c) (pc_vmcs_page c) (pc_cpu_id c)
    (pc_cpu_features c) (pc_vmx_info c) x (pc_xcr0 c) (pc_revision_id c).
Definition set_pc_xcr0 (x : Z) c : per_cpu_data :=
  PerCpu (pc_addr c) (pc_hfxpage c) (pc_vmxon_page c) (pc_vmcs_page c) (pc_cpu_id c)
    (pc_cpu_features c) (pc_vmx_info c) (pc_pmu_info c) x (pc_revision_id c).
Definition set_pc_revision_id (x : Z) c : per_cpu_data :=
  PerCpu (pc_addr c) (pc_hfxpage c) (pc_vmxon_page c) (pc_vmcs_page c) (pc_cpu_id c)
    (pc_cpu_features c) (pc_vmx_info c) (pc_pmu_info c) (pc_xcr0 c) x.
End Setters.

Record hax_capabilityinfo := CapInfo { cap_wstatus : Z; cap_winfo : Z; cap_mem_quota : Z }.

Section Init.
Context {HH : Host} {PH : PhysHost} {VH : VmxHw} {CH : CpuidHw} {AH : AllocHost}.
Context (uninit : cpuid_args_t) (ia32_xgetbv : Z -> vhw -> Z).

(** ** One processor: its registers and data, and what all processors share *)
Record cpu_ctx := CpuCtx {
  cx_hw : vhw;
  cx_data : per_cpu_data;
  cx_vm : vm_t;
  cx_cpuid : cpuid_globals;
}.
Section CtxSetters.
Implicit Types (c : cpu_ctx).
Definition set_cx_hw (x : vhw) c : cpu_ctx :=
  CpuCtx x (cx_data c) (cx_vm c) (cx_cpuid c).
Definition set_cx_data (x : per_cpu_data) c : cpu_ctx :=
  CpuCtx (cx_hw c) x (cx_vm c) (cx_cpuid c).
Definition set_cx_vm (x : vm_t) c : cpu_ctx :=
  CpuCtx (cx_hw c) (cx_data c) x (cx_cpuid c).
Definition set_cx_cpuid (x : cpuid_globals) c : cpu_ctx :=
  CpuCtx (cx_hw c) (cx_data c) (cx_vm c) x.
End CtxSetters.

Definition cx_rdmsr (m : Z) : M cpu_ctx Z :=
  c ← get; let '(x, h) := ia32_rdmsr m (cx_hw c) in modify (set_cx_hw h);; mret x.
Definition cx_feature (key : Z) : M cpu_ctx bool :=
  fun c => match cpu_has_feature uninit key (cx_cpuid c) with
           | Some (b, g) => Some (b, set_cx_cpuid g c)
           | None => None
           end.
Definition cx_memory {A} (m : M vm_t A) : M cpu_ctx A :=
  fun c => match m (cx_vm c) with Some (a, v) => Some (a, set_cx_vm v c) | None => None end.
Definition upd_data (f : per_cpu_data -> per_cpu_data) : M cpu_ctx unit :=
  modify (fun c => set_cx_data (f (cx_data c)) c).
Definition add_feature (bit : Z) : M cpu_ctx unit :=
  upd_data (fun d => set_pc_cpu_features (pc_cpu_features d |! bit) d).

Definition vmx_read_info : M cpu_ctx info_t :=
  basic_info ← cx_rdmsr IA32_VMX_BASIC;
  ctls ← (if Z.testbit basic_info 55 then
            pin ← cx_rdmsr IA32_VMX_TRUE_PINBASED_CTLS;
            pcpu ← cx_rdmsr IA32_VMX_TRUE_PROCBASED_CTLS;
            ext ← cx_rdmsr IA32_VMX_TRUE_EXIT_CTLS;
            ent ← cx_rdmsr IA32_VMX_TRUE_ENTRY_CTLS;
            pin0 ← cx_rdmsr IA32_VMX_PINBASED_CTLS;
            pcpu0 ← cx_rdmsr IA32_VMX_PROCBASED_CTLS;
            ext0 ← cx_rdmsr IA32_VMX_EXIT_CTLS;
            ent0 ← cx_rdmsr IA32_VMX_ENTRY_CTLS;
            mret (or_ctls_0 pin (Z.ldiff pin0 PIN_CONTROLS_DEFINED),
                  or_ctls_0 pcpu (Z.ldiff pcpu0 PRIMARY_CONTROLS_DEFINED),
                  or_ctls_0 ext (Z.ldiff ext0 EXIT_CONTROLS_DEFINED),
                  or_ctls_0 ent (Z.ldiff ent0 ENTRY_CONTROLS_DEFINED))
          else
            pin ← cx_rdmsr IA32_VMX_PINBASED_CTLS;
            pcpu ← cx_rdmsr IA32_VMX_PROCBASED_CTLS;
            ext ← cx_rdmsr IA32_VMX_EXIT_CTLS;
            ent ← cx_rdmsr IA32_VMX_ENTRY_CTLS;
            mret (pin, pcpu, ext, ent));
  let '(pin_ctls, pcpu_ctls, exit_ctls, entry_ctls) := ctls in
  miscellaneous ← cx_rdmsr IA32_VMX_MISC;
  cr0_fixed_0 ← cx_rdmsr IA32_VMX_CR0_FIXED0;
  cr0_fixed_1 ← cx_rdmsr IA32_VMX_CR0_FIXED1;
  cr4_fixed_0 ← cx_rdmsr IA32_VMX_CR4_FIXED0;
  cr4_fixed_1 ← cx_rdmsr IA32_VMX_CR4_FIXED1;
  vmcs_enumeration ← cx_rdmsr IA32_VMX_VMCS_ENUM;
  scpu_ctls ← (if has (ctls_1 pcpu_ctls) SECONDARY_CONTROLS then cx_rdmsr IA32_VMX_SECONDARY_CTLS
               else mret 0);
  ept_cap ← (if has (ctls_1 scpu_ctls) (ENABLE_EPT |! ENABLE_VPID) then cx_rdmsr IA32_VMX_EPT_VPID_CAP
             else mret 0);
  ept_cap ← (if ept_cap =? 0 then mret ept_cap
             else ok ← cx_memory (ept_set_caps ept_cap); mret (if ok : bool then ept_cap else 0));
  mret (Info basic_info pin_ctls pcpu_ctls exit_ctls entry_ctls miscellaneous cr0_fixed_0 cr0_fixed_1
          cr4_fixed_0 cr4_fixed_1 vmcs_enumeration scpu_ctls ept_cap).

(** [efer] has 32 bits. *)
Definition cpu_emt64_enable : M cpu_ctx bool := efer ← cx_rdmsr IA32_EFER; mret (has (u32 efer) 0x400).
Definition cpu_nx_enable : M cpu_ctx bool := efer ← cx_rdmsr IA32_EFER; mret (has (u32 efer) 0x800).

Definition cpu_init_vmx : M cpu_ctx unit :=
  add_feature HAX_CPUF_VALID;;
  vmx ← cx_feature X86_FEATURE_VMX;
  if negb vmx then mret tt
  else
    add_feature HAX_CPUF_SUPPORT_VT;;
    nx ← cx_feature X86_FEATURE_NX;
    if negb nx then mret tt
    else
      add_feature HAX_CPUF_SUPPORT_NX;;
      em64t ← cx_feature X86_FEATURE_EM64T;
      (if em64t : bool then add_feature HAX_CPUF_SUPPORT_EM64T else mret tt);;
      nx_enable ← cpu_nx_enable;
      (if nx_enable : bool then add_feature HAX_CPUF_ENABLE_NX else mret tt);;
      fc_msr ← cx_rdmsr IA32_FEATURE_CONTROL;
      let fc_msr := u32 fc_msr in
      let vt_enable := (has fc_msr FC_VMXON_OUTSMX || negb (has fc_msr FC_LOCKED))%bool in
      (if vt_enable then add_feature HAX_CPUF_ENABLE_VT else mret tt);;
      if (negb nx_enable || negb vt_enable)%bool then mret tt
      else
        emt64_enable ← cpu_emt64_enable;
        (if emt64_enable : bool then add_feature HAX_CPUF_ENABLE_EM64T else mret tt);;
        (if negb (has fc_msr FC_LOCKED)
         then modify (fun c => set_cx_hw (ia32_wrmsr IA32_FEATURE_CONTROL
                                            (fc_msr |! FC_LOCKED |! FC_VMXON_OUTSMX) (cx_hw c)) c)
         else mret tt);;
        vmx_info ← vmx_read_info;
        c ← get;
        _ ← of_option (pc_vmxon_page (cx_data c));
        upd_data (set_pc_revision_id (u32 (xi_basic_info vmx_info)));;
        info ← vmx_read_info;
        upd_data (set_pc_vmx_info info);;
        add_feature HAX_CPUF_INITIALIZED;;
        xsave ← cx_feature X86_FEATURE_XSAVE;
        if xsave : bool then
          c ← get;
          let xcr0 := ia32_xgetbv XCR_XFEATURE_ENABLED_MASK (cx_hw c) in
          upd_data (set_pc_xcr0 xcr0);;
          modify (fun c =>
            let g := cx_cpuid c in
            set_cx_cpuid (CpuidGlobals (cg_cache g) (xcr0 &! HAX_SUPPORTED_XCR0) (cg_apm_cpuid_0xa g)
                            (cg_reserved_bits_high_mask g)) c)
        else mret tt.

(** [cpuid_args] is not initialized. *)
Definition cpu_pmu_init : M cpu_ctx unit :=
  let args := cpuid_query_leaf uninit 0x00 in
  upd_data (set_pc_pmu_info (PmuInfo 0 0 0));;
  if a_eax args <? 0xa then mret tt
  else
    let args := cpuid_query_leaf args 0xa in
    upd_data (set_pc_pmu_info (PmuInfo (a_eax args) (a_ebx args) (a_edx args))).

(** ** The driver *)
Record module := HaxModule {
  hm_heap : heap;
  hm_hax : option Z;
  hm_lock : option Z;
  hm_t : hax_t;
  hm_cpu_array : option Z;
  hm_online : list bool;
  hm_cpu_data : list (option per_cpu_data);
  hm_hws : list vhw;
  hm_cur : nat;
  hm_io_bitmap_page_a : option Z;
  hm_io_bitmap_page_b : option Z;
  hm_msr_bitmap_page : option Z;
  hm_msr_bitmap : list Z;
  hm_vm : vm_t;
  hm_cpuid : cpuid_globals;
  hm_vms : nat;
}.
Section StateSetters.
Implicit Types (s : module).
Definition set_hm_heap (x : heap) s : module :=
  HaxModule x (hm_hax s) (hm_lock s) (hm_t s) (hm_cpu_array s) (hm_online s) (hm_cpu_data s)
    (hm_hws s) (hm_cur s) (hm_io_bitmap_page_a s) (hm_io_bitmap_page_b s) (hm_msr_bitmap_page s)
    (hm_msr_bitmap s) (hm_vm s) (hm_cpuid s) (hm_vms s).
Definition set_hm_hax (x : option Z) s : module :=
  HaxModule (hm_heap s) x (hm_lock s) (hm_t s) (hm_cpu_array s) (hm_online s) (hm_cpu_data s)
    (hm_hws s) (hm_cur s) (hm_io_bitmap_page_a s) (hm_io_bitmap_page_b s) (hm_msr_bitmap_page s)
    (hm_msr_bitmap s) (hm_vm s) (hm_cpuid s) (hm_vms s).
Definition set_hm_lock (x : option Z) s : module :=
  HaxModule (hm_heap s) (hm_hax s) x (hm_t s) (hm_cpu_array s) (hm_online s) (hm_cpu_data s)
    (hm_hws s) (hm_cur s) (hm_io_bitmap_page_a s) (hm_io_bitmap_page_b s) (hm_msr_bitmap_page s)
    (hm_msr_bitmap s) (hm_vm s) (hm_cpuid s) (hm_vms s).
Definition set_hm_t (x : hax_t) s : module :=
  HaxModule (hm_heap s) (hm_hax s) (hm_lock s) x (hm_cpu_array s) (hm_online s) (hm_cpu_data s)
    (hm_hws s) (hm_cur s) (hm_io_bitmap_page_a s) (hm_io_bitmap_page_b s) (hm_msr_bitmap_page s)
    (hm_msr_bitmap s) (hm_vm s) (hm_cpuid s) (hm_vms s).
Definition set_hm_cpu_array (x : option Z) s : module :=
  HaxModule (hm_heap s) (hm_hax s) (hm_lock s) (hm_t s) x (hm_online s) (hm_cpu_data s) (hm_hws s)
    (hm_cur s) (hm_io_bitmap_page_a s) (hm_io_bitmap_page_b s) (hm_msr_bitmap_page s)
    (hm_msr_bitmap s) (hm_vm s) (hm_cpuid s) (hm_vms s).
Definition set_hm_online (x : list bool) s : module :=
  HaxModule (hm_heap s) (hm_hax s) (hm_lock s) (hm_t s) (hm_cpu_array s) x (hm_cpu_data s) (hm_hws
    s) (hm_cur s) (hm_io_bitmap_page_a s) (hm_io_bitmap_page_b s) (hm_msr_bitmap_page s)
    (hm_msr_bitmap s) (hm_vm s) (hm_cpuid s) (hm_vms s).
Definition set_hm_cpu_data (x : list (option per_cpu_data)) s : module :=
  HaxModule (hm_heap s) (hm_hax s) (hm_lock s) (hm_t s) (hm_cpu_array s) (hm_online s) x (hm_hws
    s) (hm_cur s) (hm_io_bitmap_page_a s) (hm_io_bitmap_page_b s) (hm_msr_bitmap_page s)
    (hm_msr_bitmap s) (hm_vm s) (hm_cpuid s) (hm_vms s).
Definition set_hm_hws (x : list vhw) s : module :=
  HaxModule (hm_heap s) (hm_hax s) (hm_lock s) (hm_t s) (hm_cpu_array s) (hm_online s)
    (hm_cpu_data s) x (hm_cur s) (hm_io_bitmap_page_a s) (hm_io_bitmap_page_b s)
    (hm_msr_bitmap_page s) (hm_msr_bitmap s) (hm_vm s) (hm_cpuid s) (hm_vms s).
Definition set_hm_cur (x : nat) s : module :=
  HaxModule (hm_heap s) (hm_hax s) (hm_lock s) (hm_t s) (hm_cpu_array s) (hm_online s)
    (hm_cpu_data s) (hm_hws s) x (hm_io_bitmap_page_a s) (hm_io_bitmap_page_b s)
    (hm_msr_bitmap_page s) (hm_msr_bitmap s) (hm_vm s) (hm_cpuid s) (hm_vms s).
Definition set_hm_io_bitmap_page_a (x : option Z) s : module :=
  HaxModule (hm_heap s) (hm_hax s) (hm_lock s) (hm_t s) (hm_cpu_array s) (hm_online s)
    (hm_cpu_data s) (hm_hws s) (hm_cur s) x (hm_io_bitmap_page_b s) (hm_msr_bitmap_page s)
    (hm_msr_bitmap s) (hm_vm s) (hm_cpuid s) (hm_vms s).
Definition set_hm_io_bitmap_page_b (x : option Z) s : module :=
  HaxModule (hm_heap s) (hm_hax s) (hm_lock s) (hm_t s) (hm_cpu_array s) (hm_online s)
    (hm_cpu_data s) (hm_hws s) (hm_cur s) (hm_io_bitmap_page_a s) x (hm_msr_bitmap_page s)
    (hm_msr_bitmap s) (hm_vm s) (hm_cpuid s) (hm_vms s).
Definition set_hm_msr_bitmap_page (x : option Z) s : module :=
  HaxModule (hm_heap s) (hm_hax s) (hm_lock s) (hm_t s) (hm_cpu_array s) (hm_online s)
    (hm_cpu_data s) (hm_hws s) (hm_cur s) (hm_io_bitmap_page_a s) (hm_io_bitmap_page_b s) x
    (hm_msr_bitmap s) (hm_vm s) (hm_cpuid s) (hm_vms s).
Definition set_hm_msr_bitmap (x : list Z) s : module :=
  HaxModule (hm_heap s) (hm_hax s) (hm_lock s) (hm_t s) (hm_cpu_array s) (hm_online s)
    (hm_cpu_data s) (hm_hws s) (hm_cur s) (hm_io_bitmap_page_a s) (hm_io_bitmap_page_b s)
    (hm_msr_bitmap_page s) x (hm_vm s) (hm_cpuid s) (hm_vms s).
Definition set_hm_vm (x : vm_t) s : module :=
  HaxModule (hm_heap s) (hm_hax s) (hm_lock s) (hm_t s) (hm_cpu_array s) (hm_online s)
    (hm_cpu_data s) (hm_hws s) (hm_cur s) (hm_io_bitmap_page_a s) (hm_io_bitmap_page_b s)
    (hm_msr_bitmap_page s) (hm_msr_bitmap s) x (hm_cpuid s) (hm_vms s).
Definition set_hm_cpuid (x : cpuid_globals) s : module :=
  HaxModule (hm_heap s) (hm_hax s) (hm_lock s) (hm_t s) (hm_cpu_array s) (hm_online s)
    (hm_cpu_data s) (hm_hws s) (hm_cur s) (hm_io_bitmap_page_a s) (hm_io_bitmap_page_b s)
    (hm_msr_bitmap_page s) (hm_msr_bitmap s) (hm_vm s) x (hm_vms s).
Definition set_hm_vms (x : nat) s : module :=
  HaxModule (hm_heap s) (hm_hax s) (hm_lock s) (hm_t s) (hm_cpu_array s) (hm_online s)
    (hm_cpu_data s) (hm_hws s) (hm_cur s) (hm_io_bitmap_page_a s) (hm_io_bitmap_page_b s)
    (hm_msr_bitmap_page s) (hm_msr_bitmap s) (hm_vm s) (hm_cpuid s) x.
End StateSetters.

Definition in_heap {A} (m : M heap A) : M module A :=
  fun s => match m (hm_heap s) with Some (a, h) => Some (a, set_hm_heap h s) | None => None end.
Definition alloc (k : alloc_kind) : M module (option Z) := in_heap (heap_alloc k).
Definition free (a : Z) : M module unit := in_heap (heap_free a).
(** The pointer is not tested. *)
Definition free_ptr (p : option Z) : M module unit := a ← of_option p; free a.

Definition cpu_num (s : module) : nat := length (hm_online s).
Definition cpu_is_online (s : module) (cpu_id : nat) : bool := default false (hm_online s !! cpu_id).
(** The data of a processor that is online. *)
Definition online_data (cpu_id : nat) (s : module) : option per_cpu_data :=
  if cpu_is_online s cpu_id then mjoin (hm_cpu_data s !! cpu_id) else None.
Definition put_data (cpu_id : nat) (d : option per_cpu_data) (s : module) : module :=
  set_hm_cpu_data (<[cpu_id := d]> (hm_cpu_data s)) s.
Definition upd_t (f : hax_t -> hax_t) : M module unit := modify (fun s => set_hm_t (f (hm_t s)) s).

(** [hax_smp_call_function]: the function runs on every processor that is online. *)
Definition on_cpu {A} (cpu_id : nat) (m : M cpu_ctx A) : M module A :=
  fun s =>
    match hm_hws s !! cpu_id, mjoin (hm_cpu_data s !! cpu_id) with
    | Some hw, Some d =>
        match m (CpuCtx hw d (hm_vm s) (hm_cpuid s)) with
        | Some (a, c) =>
            Some (a, set_hm_hws (<[cpu_id := cx_hw c]> (hm_hws s))
                       (set_hm_vm (cx_vm c) (set_hm_cpuid (cx_cpuid c) (put_data cpu_id (Some (cx_data c)) s))))
        | None => None
        end
    | _, _ => None
    end.
Fixpoint smp_call (ids : list nat) (m : M cpu_ctx unit) : M module unit :=
  match ids with
  | [] => mret tt
  | i :: ids =>
      s ← get;
      (if cpu_is_online s i then on_cpu i m else mret tt);; smp_call ids m
  end.
Definition hax_smp_call_function (m : M cpu_ctx unit) : M module unit :=
  s ← get; smp_call (seq 0 (cpu_num s)) m.

Definition hax_enable_vmx : M module unit := hax_smp_call_function cpu_init_vmx.
(** [cpu_exit_vmx] only writes to the log. *)
Definition cpu_exit_vmx : M cpu_ctx unit := mret tt.
Definition hax_disable_vmx : M module unit := hax_smp_call_function cpu_exit_vmx.

(** ** A page for every processor: [page] is a field of its data *)
Section Pages.
Context (page : per_cpu_data -> option Z) (set_page : option Z -> per_cpu_data -> per_cpu_data).

Fixpoint free_pages_of (ids : list nat) : M module unit :=
  match ids with
  | [] => mret tt
  | i :: ids =>
      s ← get;
      (match online_data i s with
       | None => mret tt
       | Some d =>
           match page d with
           | None => mret tt
           | Some p => free p;; modify (put_data i (Some (set_page None d)))
           end
       end);;
      free_pages_of ids
  end.
Definition free_cpu_pages : M module unit := s ← get; free_pages_of (seq 0 (cpu_num s)).

Fixpoint alloc_pages_of (ids : list nat) : M module Z :=
  match ids with
  | [] => mret 0
  | i :: ids =>
      s ← get;
      match online_data i s with
      | None => alloc_pages_of ids
      | Some d =>
          p ← alloc AkPage;
          match p with
          | None => free_cpu_pages;; mret (- ENOMEM)
          | Some p => modify (put_data i (Some (set_page (Some p) d)));; alloc_pages_of ids
          end
      end
  end.
Definition alloc_cpu_pages : M module Z := s ← get; alloc_pages_of (seq 0 (cpu_num s)).
End Pages.

Definition free_cpu_vmxon_region : M module unit := free_cpu_pages pc_vmxon_page set_pc_vmxon_page.
Definition alloc_cpu_vmxon_region : M module Z := alloc_cpu_pages pc_vmxon_page set_pc_vmxon_page.
Definition free_cpu_template_vmcs : M module unit := free_cpu_pages pc_vmcs_page set_pc_vmcs_page.
Definition alloc_cpu_template_vmcs : M module Z := alloc_cpu_pages pc_vmcs_page set_pc_vmcs_page.

(** ** The features of the processors *)
Definition count_feature (bit : Z) (l : list per_cpu_data) : Z :=
  Z.of_nat (length (filter (fun d => has (pc_cpu_features d) bit = true) l)).
Definition valid_data (s : module) : list per_cpu_data :=
  filter (fun d => has (pc_cpu_features d) HAX_CPUF_VALID = true)
    (omap (fun i => online_data i s) (seq 0 (cpu_num s))).

Definition cur_rdmsr (m : Z) : M module Z :=
  s ← get;
  hw ← of_option (hm_hws s !! hm_cur s);
  let '(x, h) := ia32_rdmsr m hw in modify (set_hm_hws (<[hm_cur s := h]> (hm_hws s)));; mret x.

Definition set_vmx_enable (t : hax_t) : hax_t :=
  HaxT true (hx_nx_enable_flag t) (hx_em64t_enable_flag t) (hx_ug_enable_flag t) (hx_apm_version t)
    (hx_apm_general_count t) (hx_apm_general_mask t) (hx_apm_event_count t)
    (hx_apm_event_unavailability t) (hx_apm_fixed_count t) (hx_apm_fixed_mask t) (hx_mem_limit t)
    (hx_mem_quota t).
Definition set_nx_enable (t : hax_t) : hax_t :=
  HaxT (hx_vmx_enable_flag t) true (hx_em64t_enable_flag t) (hx_ug_enable_flag t) (hx_apm_version t)
    (hx_apm_general_count t) (hx_apm_general_mask t) (hx_apm_event_count t)
    (hx_apm_event_unavailability t) (hx_apm_fixed_count t) (hx_apm_fixed_mask t) (hx_mem_limit t)
    (hx_mem_quota t).
Definition set_em64t_ug (em64t ug : bool) (t : hax_t) : hax_t :=
  HaxT (hx_vmx_enable_flag t) (hx_nx_enable_flag t) em64t ug (hx_apm_version t)
    (hx_apm_general_count t) (hx_apm_general_mask t) (hx_apm_event_count t)
    (hx_apm_event_unavailability t) (hx_apm_fixed_count t) (hx_apm_fixed_mask t) (hx_mem_limit t)
    (hx_mem_quota t).
Definition set_apm (version count mask events unavailable fixed fixed_mask : Z) (t : hax_t) : hax_t :=
  HaxT (hx_vmx_enable_flag t) (hx_nx_enable_flag t) (hx_em64t_enable_flag t) (hx_ug_enable_flag t)
    version count mask events unavailable fixed fixed_mask (hx_mem_limit t) (hx_mem_quota t).
Definition set_mem (limit quota : Z) (t : hax_t) : hax_t :=
  HaxT (hx_vmx_enable_flag t) (hx_nx_enable_flag t) (hx_em64t_enable_flag t) (hx_ug_enable_flag t)
    (hx_apm_version t) (hx_apm_general_count t) (hx_apm_general_mask t) (hx_apm_event_count t)
    (hx_apm_event_unavailability t) (hx_apm_fixed_count t) (hx_apm_fixed_mask t) limit quota.

Definition hax_vmx_enable_check : M module Z :=
  l ← gets valid_data;
  let tnum := Z.of_nat (length l) in
  if negb (count_feature HAX_CPUF_SUPPORT_VT l =? tnum) then mret (-1)
  else if negb (count_feature HAX_CPUF_SUPPORT_NX l =? tnum) then mret (-1)
  else
    let nx_ok := count_feature HAX_CPUF_ENABLE_NX l =? tnum in
    let vt_ok := count_feature HAX_CPUF_ENABLE_VT l =? tnum in
    (if nx_ok then upd_t set_nx_enable else mret tt);;
    (if vt_ok then upd_t set_vmx_enable else mret tt);;
    misc ← cur_rdmsr IA32_VMX_MISC;
    upd_t (fun t => set_em64t_ug (if count_feature HAX_CPUF_ENABLE_EM64T l =? tnum then true
                                  else hx_em64t_enable_flag t)
                      (has misc IA32_VMX_MISC_UG_AVAILABLE) t);;
    if (nx_ok && vt_ok && negb (count_feature HAX_CPUF_INITIALIZED l =? tnum))%bool then mret (-1)
    else mret 0.

(** ** The MSR bitmaps *)

(** [bts] and [btr]. *)
Definition put_bit (set : bool) (base bit : Z) : M module unit :=
  s ← get;
  let i := Z.to_nat (base + bit / 8) in
  b ← of_option (hm_msr_bitmap s !! i);
  let b := if set then Z.setbit b (bit mod 8) else Z.clearbit b (bit mod 8) in
  modify (set_hm_msr_bitmap (<[i := b]> (hm_msr_bitmap s))).

(** The loop over [n] bits from [bit] on. *)
Fixpoint set_msr_bits (read write : bool) (read_base write_base bit : Z) (n : nat) : M module unit :=
  match n with
  | O => mret tt
  | S n =>
      put_bit (negb read) read_base bit;;
      put_bit (negb write) write_base bit;;
      set_msr_bits read write read_base write_base (bit + 1) n
  end.

Definition set_msr_access (start count : Z) (read write : bool) : M module unit :=
  s ← get;
  let end_ := u32 (start + count - 1) in
  hax_assert (negb (has (Z.lxor start (u32 (Z.shiftl start 1))) 0x80000000));;
  hax_assert (negb (has start 0x3fffe000));;
  hax_assert (negb (has (Z.lxor start end_) 0xffffe000));;
  hax_assert (if hm_msr_bitmap_page s then true else false);;
  let read_base := if has start 0x80000000 then 1024 else 0 in
  let write_base := read_base + 2048 in
  set_msr_bits read write read_base write_base (start &! 0x1fff)
    (Z.to_nat ((end_ &! 0x1fff) - (start &! 0x1fff) + 1)).

(** ** Starting and stopping *)
Definition hax_vmx_init : M module Z :=
  a ← alloc AkPage;
  modify (set_hm_io_bitmap_page_a a);;
  match a with
  | None => mret (- ENOMEM)
  | Some a =>
      b ← alloc AkPage;
      modify (set_hm_io_bitmap_page_b b);;
      match b with
      | None => free a;; mret (- ENOMEM)
      | Some b =>
          m ← alloc AkPage;
          modify (set_hm_msr_bitmap_page m);;
          match m with
          | None => free b;; free a;; mret (- ENOMEM)
          | Some m =>
              modify (set_hm_msr_bitmap (replicate 4096 0xff));;
              let out_3 := free m;; free b;; free a in
              ret ← alloc_cpu_vmxon_region;
              if ret <? 0 then out_3;; mret ret
              else
                ret ← alloc_cpu_template_vmcs;
                if ret <? 0 then free_cpu_vmxon_region;; out_3;; mret ret
                else
                  hax_enable_vmx;;
                  ret ← hax_vmx_enable_check;
                  if ret <? 0 then
                    hax_disable_vmx;; free_cpu_template_vmcs;; free_cpu_vmxon_region;; out_3;; mret ret
                  else
                    set_msr_access IA32_STAR 4 true true;;
                    set_msr_access IA32_KERNEL_GS_BASE 1 true true;;
                    set_msr_access IA32_TSC_AUX 1 true true;;
                    mret 0
          end
      end
  end.

Definition hax_vmx_exit : M module Z :=
  hax_disable_vmx;;
  free_cpu_template_vmcs;;
  free_cpu_vmxon_region;;
  s ← get;
  free_ptr (hm_msr_bitmap_page s);;
  free_ptr (hm_io_bitmap_page_b s);;
  free_ptr (hm_io_bitmap_page_a s);;
  mret 0.

(** The common version and the processor it is taken from. *)
Fixpoint common_version (ids : list nat) (s : module) (version : Z) (ref : option nat) : Z * option nat :=
  match ids with
  | [] => (version, ref)
  | i :: ids =>
      match online_data i s with
      | None => common_version ids s version ref
      | Some d =>
          let v := apm_version_of (pc_pmu_info d) in
          if ((version =? 0) || (v <? version))%bool then common_version ids s v (Some i)
          else common_version ids s version ref
      end
  end.

Definition bitlen_mask (bitlen : Z) : Z := if 63 <? bitlen then Z.ones 64 else Z.shiftl 1 bitlen - 1.

(** The fields of [apm_cpuid_0xa]; the upper bits of EDX are not written. *)
Definition pmu_fields (old : cpu_pmu_info) (version count bitlen events unavailable fixed fixed_bitlen : Z)
    : cpu_pmu_info :=
  PmuInfo (version |! Z.shiftl count 8 |! Z.shiftl bitlen 16 |! Z.shiftl events 24) unavailable
    (Z.ldiff (cpuid_edx old) 0x1fff |! fixed |! Z.shiftl fixed_bitlen 5).

Definition hax_pmu_init : M module unit :=
  hax_smp_call_function cpu_pmu_init;;
  s ← get;
  let t := hm_t s in
  let '(version, ref_cpu_id) := common_version (seq 0 (cpu_num s)) s (hx_apm_version t) None in
  if version =? 0 then upd_t (set_apm 0 0 0 0 0 0 0)
  else
    ref ← of_option ref_cpu_id;
    d ← of_option (mjoin (hm_cpu_data s !! ref));
    let p := pc_pmu_info d in
    let version := if 1 <? version then 1 else version in
    let count := Z.min (apm_general_count_of p) APM_MAX_GENERAL_COUNT in
    let bitlen := apm_general_bitlen_of p in
    let events := Z.min (apm_event_count_of p) APM_MAX_EVENT_COUNT in
    let unavailable := cpuid_ebx p &! (Z.shiftl 1 events - 1) in
    upd_t (set_apm version count (bitlen_mask bitlen) events unavailable (hx_apm_fixed_count t)
             (hx_apm_fixed_mask t));;
    set_msr_access IA32_PMC0 count true true;;
    set_msr_access IA32_PERFEVTSEL0 count true true;;
    let '(fixed, fixed_bitlen, fixed_mask) :=
      if 1 <? version
      then (Z.min (apm_fixed_count_of p) APM_MAX_FIXED_COUNT, apm_fixed_bitlen_of p,
            bitlen_mask (apm_fixed_bitlen_of p))
      else (0, 0, 0) in
    upd_t (set_apm version count (bitlen_mask bitlen) events unavailable fixed fixed_mask);;
    modify (fun s =>
      let g := hm_cpuid s in
      set_hm_cpuid (CpuidGlobals (cg_cache g) (cg_supported_xcr0 g)
                      (pmu_fields (cg_apm_cpuid_0xa g) version count bitlen events unavailable fixed
                         fixed_bitlen) (cg_reserved_bits_high_mask g)) s).

(** The data of the processors; the result is whether all of it could be allocated. *)
Definition new_cpu_data (addr : Z) : per_cpu_data :=
  PerCpu addr None None None 0 0 info_zero (PmuInfo 0 0 0) 0 0.
Fixpoint alloc_cpu_data (ids : list nat) : M module bool :=
  match ids with
  | [] => mret true
  | i :: ids =>
      s ← get;
      if negb (cpu_is_online s i) then alloc_cpu_data ids
      else
        d ← alloc AkPerCpuData;
        match d with
        | None => mret false
        | Some d =>
            modify (put_data i (Some (new_cpu_data d)));;
            p ← alloc AkPage;
            match p with
            | None => mret false
            | Some p =>
                modify (put_data i (Some (set_pc_cpu_id (Z.of_nat i)
                                            (set_pc_hfxpage (Some p) (new_cpu_data d)))));;
                alloc_cpu_data ids
            end
        end
  end.
(** [hax_cpu_data[cpu_id]] is tested, whether the processor is online is not. *)
Fixpoint free_cpu_data (ids : list nat) : M module unit :=
  match ids with
  | [] => mret tt
  | i :: ids =>
      s ← get;
      (match mjoin (hm_cpu_data s !! i) with
       | None => mret tt
       | Some d =>
           (match pc_hfxpage d with None => mret tt | Some p => free p end);;
           free (pc_addr d)
       end);;
      free_cpu_data ids
  end.

Definition in_cpuid_of (m : M cpuid_globals unit) : M module unit :=
  fun s => match m (hm_cpuid s) with Some (_, g) => Some (tt, set_hm_cpuid g s) | None => None end.

(** [threshold] is the result of [hax_get_memory_threshold]; [hax_vmalloc] clears memory. *)
Definition hax_module_init (threshold : Z) : M module Z :=
  h ← alloc AkHax;
  match h with
  | None => mret (- ENOMEM)
  | Some h =>
      modify (set_hm_hax (Some h));;
      modify (set_hm_t (HaxT false false false false 0 0 0 0 0 0 0 threshold threshold));;
      l ← alloc AkMutex;
      modify (set_hm_lock l);;
      match l with
      | None => free h;; mret (- ENOMEM)
      | Some l =>
          n ← gets cpu_num;
          arr ← alloc (AkCpuArray n);
          modify (set_hm_cpu_array arr);;
          match arr with
          | None => free l;; free h;; mret (- ENOMEM)
          | Some arr =>
              modify (set_hm_cpu_data (replicate n None));;
              let out_2 := free_cpu_data (seq 0 n);; free arr;; free l;; free h;; mret (- ENOMEM) in
              ok ← alloc_cpu_data (seq 0 n);
              if negb ok then out_2
              else
                in_cpuid_of (cpuid_host_init uninit);;
                in_cpuid_of cpuid_init_supported_features;;
                ret ← hax_vmx_init;
                if ret <? 0 then out_2
                else
                  hax_pmu_init;;
                  modify (set_hm_vms 0%nat);;
                  mret 0
          end
      end
  end.

(** [ret] is the result of [hax_destroy_host_interface]; the map of the processors, which
    [cpu_info_exit] frees, is not part of the state. *)
Definition hax_module_exit (ret : Z) : M module Z :=
  s ← get;
  if negb (Nat.eqb (hm_vms s) 0) then mret (- EBUSY)
  else if ret <? 0 then mret ret
  else
    hax_vmx_exit;;
    free_cpu_data (seq 0 (cpu_num s));;
    free_ptr (hm_cpu_array s);;
    free_ptr (hm_lock s);;
    free_ptr (hm_hax s);;
    mret 0.

(** ** Requests *)
Definition hax_set_memlimit (enable_memlimit : bool) (memory_limit : Z) : M module Z :=
  s ← get;
  if negb (Nat.eqb (hm_vms s) 0) then mret (- EINVAL)
  else if negb enable_memlimit
  then upd_t (fun t => set_mem 0 (hx_mem_quota t) t);; mret 0
  else
    let limit := u64 (Z.shiftl memory_limit 20) in
    upd_t (set_mem limit limit);; mret 0.

Definition sizeof_hax_capabilityinfo : Z := 16.
(** [bufLeng] is signed, and is converted for the comparison. *)
Definition hax_get_capability (buf : hax_capabilityinfo) (bufLeng : Z) : M module (Z * hax_capabilityinfo) :=
  if u64 bufLeng <? sizeof_hax_capabilityinfo then mret (- EINVAL, buf)
  else
    s ← get;
    let t := hm_t s in
    w ← (if (negb (hx_vmx_enable_flag t) || negb (hx_nx_enable_flag t))%bool then
           mret (0, (if negb (hx_vmx_enable_flag t) then HAX_CAP_FAILREASON_VT else 0) |!
                    (if negb (hx_nx_enable_flag t) then HAX_CAP_FAILREASON_NX else 0))
         else
           d ← of_option (mjoin (hm_cpu_data s !! hm_cur s));
           mret (HAX_CAP_STATUS_WORKING,
                 HAX_CAP_FASTMMIO |! HAX_CAP_64BIT_RAMBLOCK |! HAX_CAP_64BIT_SETRAM |!
                 HAX_CAP_IMPLICIT_RAMBLOCK |! HAX_CAP_TUNNEL_PAGE |! HAX_CAP_RAM_PROTECTION |!
                 HAX_CAP_DEBUG |! HAX_CAP_CPUID |!
                 (if negb (xi_ept_cap (pc_vmx_info d) =? 0) then HAX_CAP_EPT else 0) |!
                 (if hx_ug_enable_flag t then HAX_CAP_UG else 0)));
    let '(wstatus, winfo) := w in
    if negb (hx_mem_limit t =? 0)
    then mret (0, CapInfo (wstatus |! HAX_CAP_MEMQUOTA) winfo (hx_mem_quota t))
    else mret (0, CapInfo wstatus winfo (cap_mem_quota buf)).
End Init.
