(* ===== verification/HaxInitProps.v ===== *)
(** * The driver's start frees what it allocates, and opens only MSRs that are switched

    The probing of the processors ([cpu_init_vmx], [cpu_pmu_init]) comes first: it returns on
    every processor and changes neither what is allocated for it nor the driver's other
    data. *)

From stdpp Require Import base numbers list gmap gmultiset.
From Stdlib Require Import ZArith Lia ZifyBool.
From S2P Require Import Prelude Bitmap MemTypes Memslot GpaSpace EptTree Ept2 VmMemory EmTypes.
From S2P Require Import Cpuid Vmx VcpuState VcpuCr VcpuMsr VcpuExit HostHeap HaxInit.
#[local] Open Scope Z_scope.

(** The memory of a processor's data. *)
Definition pages (d : per_cpu_data) : Z * option Z * option Z * option Z :=
  (pc_addr d, pc_hfxpage d, pc_vmxon_page d, pc_vmcs_page d).

Section Probe.
Context {HH : Host} {PH : PhysHost} {VH : VmxHw} {CH : CpuidHw} {AH : AllocHost}.
Context (uninit : cpuid_args_t) (ia32_xgetbv : Z -> vhw -> Z).

(** All processors have the same EPT capabilities. *)
Context (ept_cap : Z) (Hept : forall h, (ia32_rdmsr IA32_VMX_EPT_VPID_CAP h).1 = ept_cap).

(** What is recorded. *)
Definition caps_recorded : Z :=
  Z.ldiff (if ept_cap &! ept_cap_invept =? 0 then ept_cap |! ept_cap_invept else ept_cap)
    EPT_UNSUPPORTED_FEATURES.

Record shared_ok (v : vm_t) (g : cpuid_globals) : Prop := {
  so_caps : vm_ept_capabilities v = 0 \/ vm_ept_capabilities v = caps_recorded;
  so_cache : length (cc_data (cg_cache g)) = 7%nat;
}.

Section Keep.
Context (p : Z * option Z * option Z * option Z).

Record probe_inv (c : cpu_ctx) : Prop := {
  pi_pages : pages (cx_data c) = p;
  pi_shared : shared_ok (cx_vm c) (cx_cpuid c);
}.
Definition keeps {A} (m : M cpu_ctx A) : Prop := forall c, probe_inv c -> wp m c (fun _ => probe_inv).

Lemma cx_keeps_ret {A} (a : A) : keeps (mret a).
Proof. intros c Hc. by apply wp_ret. Qed.
Lemma cx_keeps_bind {A B} (m : M cpu_ctx A) (k : A -> M cpu_ctx B) : keeps m -> (forall a, keeps (k a)) -> keeps (m ≫= k).
Proof. intros Hm Hk c Hc. apply wp_bind. eapply wp_mono; [by apply Hm|]. intros a c' Hc'. by apply Hk. Qed.
Lemma keeps_if {A} (b : bool) (m1 m2 : M cpu_ctx A) : keeps m1 -> keeps m2 -> keeps (if b then m1 else m2).
Proof. by destruct b. Qed.
Lemma cx_keeps_get : keeps get.
Proof. intros c Hc. by apply wp_get. Qed.
Lemma keeps_data f : (forall d, pages (f d) = pages d) -> keeps (upd_data f).
Proof. intros Hf c [Hp Hs]. apply wp_modify. split; [cbn; by rewrite Hf|done]. Qed.
Lemma keeps_add_feature bit : keeps (add_feature bit).
Proof. by apply keeps_data. Qed.
Lemma keeps_hw f : keeps (modify (fun c => set_cx_hw (f c) c)).
Proof. intros c [Hp Hs]. by apply wp_modify. Qed.

Lemma rdmsr_wp m c (Q : Z -> cpu_ctx -> Prop) : probe_inv c ->
  (forall h c', probe_inv c' -> Q (ia32_rdmsr m h).1 c') -> wp (cx_rdmsr m) c Q.
Proof.
  intros [Hp Hs] HQ. unfold cx_rdmsr. apply wp_bind, wp_get.
  pose proof (HQ (cx_hw c)) as H. destruct (ia32_rdmsr m (cx_hw c)) as [x h]. apply wp_bind, wp_modify, wp_ret, H.
  by split.
Qed.
Lemma keeps_rdmsr m : keeps (cx_rdmsr m).
Proof. intros c Hc. by apply rdmsr_wp. Qed.

Lemma feature_run key g : length (cc_data (cg_cache g)) = 7%nat -> key_index key < 7 ->
  exists b, cpu_has_feature uninit key g = Some (b, g).
Proof.
  intros Hl Hk. unfold cpu_has_feature, cpuid_host_has_feature. rewrite gets_run. case_match; [by eexists|].
  destruct (lookup_lt_is_Some_2 (cc_data (cg_cache g)) (Z.to_nat (key_index key))) as [x Hx]; [lia|].
  rewrite (of_option_run _ x) by done. by eexists.
Qed.
Lemma keeps_feature key : key_index key < 7 -> keeps (cx_feature uninit key).
Proof.
  intros Hk c [Hp [Hc Hl]]. unfold wp, cx_feature. destruct (feature_run key (cx_cpuid c) Hl Hk) as [b ->].
  eexists _, _. split; [done|]. by split.
Qed.

(** The capabilities are recorded once, or agree with those recorded. *)
Lemma keeps_set_caps c : probe_inv c -> wp (cx_memory (ept_set_caps ept_cap)) c (fun _ => probe_inv).
Proof.
  intros [Hp [Hc Hl]]. unfold wp, cx_memory, ept_set_caps.
  destruct (negb (ept_cap &! EPT_BASIC_CAPS =? EPT_BASIC_CAPS)); [by eexists _, _|].
  cbv zeta. fold caps_recorded. rewrite gets_run, assert_run.
  - rewrite modify_run. eexists _, _. split; [done|]. split; [done|]. split; [by right|done].
  - destruct Hc as [->| ->]; [done|]. by rewrite Z.eqb_refl, orb_true_r.
Qed.

Lemma keeps_match4 {A} (m : M cpu_ctx (Z * Z * Z * Z)) (k : Z -> Z -> Z -> Z -> M cpu_ctx A) :
  keeps m -> (forall a b c d, keeps (k a b c d)) -> keeps (x ← m; let '(a, b, c, d) := x in k a b c d).
Proof. intros Hm Hk. apply cx_keeps_bind; [done|]. intros [[[a b] c] d]. apply Hk. Qed.

Hint Resolve cx_keeps_ret cx_keeps_get keeps_rdmsr keeps_add_feature keeps_hw : keeps.
Ltac keeps_all := repeat first [solve [eauto with keeps] | apply keeps_if | apply cx_keeps_bind; [|intros]].

Lemma keeps_read_info : keeps vmx_read_info.
Proof.
  unfold vmx_read_info. apply cx_keeps_bind; [keeps_all|intros basic]. apply keeps_match4; [keeps_all|].
  intros pin pcpu ext ent. do 6 (apply cx_keeps_bind; [keeps_all|intros]).
  apply cx_keeps_bind; [keeps_all|intros scpu].
  intros c Hc. apply wp_bind.
  assert (H : wp (if has (ctls_1 scpu) (ENABLE_EPT |! ENABLE_VPID) then cx_rdmsr IA32_VMX_EPT_VPID_CAP else mret 0) c
    (fun cap c' => probe_inv c' /\ (cap = 0 \/ cap = ept_cap))).
  { destruct (has _ _); [|apply wp_ret; auto]. apply rdmsr_wp; [done|]. intros h c' Hc'. auto. }
  eapply wp_mono; [exact H|]. intros cap c1 [Hc1 Hcap]. apply wp_bind.
  eapply (wp_mono _ _ (fun _ => probe_inv)); [|intros ? ? ?; by apply wp_ret].
  destruct (Z.eqb_spec cap 0); [by apply wp_ret|]. destruct Hcap as [?| ->]; [done|].
  apply wp_bind. eapply wp_mono; [by apply keeps_set_caps|]. intros. by apply wp_ret.
Qed.

Lemma keeps_init_vmx : p.1.2 <> None -> keeps (cpu_init_vmx uninit ia32_xgetbv).
Proof.
  intros Hv. unfold cpu_init_vmx, cpu_nx_enable, cpu_emt64_enable.
  assert (Hxcr : forall x, keeps (modify (fun c => let g := cx_cpuid c in
    set_cx_cpuid (CpuidGlobals (cg_cache g) x (cg_apm_cpuid_0xa g) (cg_reserved_bits_high_mask g)) c))).
  { intros x c [Hp [Hc Hl]]. apply wp_modify. by split. }
  assert (Hpage : forall c0, probe_inv c0 -> pc_vmxon_page (cx_data c0) <> None).
  { intros c0 [Hp _]. unfold pages in Hp. by rewrite <- Hp in Hv. }
  repeat first [apply cx_keeps_bind; [solve [keeps_all|by apply keeps_feature]|intros] | apply keeps_if; [keeps_all|]].
  apply cx_keeps_bind; [apply keeps_read_info|intros info]. intros c Hc. apply wp_bind, wp_get, wp_bind.
  destruct (pc_vmxon_page (cx_data c)) eqn:E; [|by apply Hpage in E]. apply wp_ret. revert c Hc E. intros c Hc _.
  revert c Hc. change (keeps (upd_data (set_pc_revision_id (u32 (xi_basic_info info)));;
    info0 ← vmx_read_info; upd_data (set_pc_vmx_info info0);; add_feature HAX_CPUF_INITIALIZED;;
    xsave ← cx_feature uninit X86_FEATURE_XSAVE;
    if xsave : bool then
      c ← get;
      let xcr0 := ia32_xgetbv XCR_XFEATURE_ENABLED_MASK (cx_hw c) in
      upd_data (set_pc_xcr0 xcr0);;
      modify (fun c => let g := cx_cpuid c in
        set_cx_cpuid (CpuidGlobals (cg_cache g) (xcr0 &! HAX_SUPPORTED_XCR0) (cg_apm_cpuid_0xa g)
                        (cg_reserved_bits_high_mask g)) c)
    else mret tt)).
  apply cx_keeps_bind; [by apply keeps_data|intros]. apply cx_keeps_bind; [apply keeps_read_info|intros].
  apply cx_keeps_bind; [by apply keeps_data|intros]. apply cx_keeps_bind; [keeps_all|intros].
  apply cx_keeps_bind; [by apply keeps_feature|intros]. apply keeps_if; [|keeps_all].
  apply cx_keeps_bind; [keeps_all|intros c]. apply cx_keeps_bind; [by apply keeps_data|intros]. apply Hxcr.
Qed.

Lemma keeps_pmu_init : keeps (cpu_pmu_init uninit).
Proof.
  unfold cpu_pmu_init. apply cx_keeps_bind; [by apply keeps_data|intros]. apply keeps_if; [keeps_all|by apply keeps_data].
Qed.
End Keep.
End Probe.

Lemma ms_front (x R S : gmultiset Z) : R ⊎ (x ⊎ S) = x ⊎ (R ⊎ S).
Proof. multiset_solver. Qed.
Lemma ms_skip (R S : gmultiset Z) : R ⊎ (∅ ⊎ S) = R ⊎ S.
Proof. multiset_solver. Qed.
Lemma ms_push (x R S : gmultiset Z) : x ⊎ (R ⊎ S) = R ⊎ (S ⊎ (x ⊎ ∅)).
Proof. multiset_solver. Qed.
Lemma ms_end (R : gmultiset Z) : R ⊎ ∅ = R.
Proof. multiset_solver. Qed.

Definition opt_ms (o : option Z) : gmultiset Z := from_option (fun a => {[+ a +]}) ∅ o.
(** The addresses that the processors' data holds, by a function of the data of one of them. *)
Definition sum_of (f : per_cpu_data -> gmultiset Z) (l : list (option per_cpu_data)) : gmultiset Z :=
  foldr (fun o m => from_option f ∅ o ⊎ m) ∅ l.

Lemma sum_of_app f l1 l2 : sum_of f (l1 ++ l2) = sum_of f l1 ⊎ sum_of f l2.
Proof. induction l1 as [|o l1 IH]; cbn [sum_of foldr app]; [multiset_solver|]. unfold sum_of in IH. rewrite IH. by rewrite (assoc_L (⊎)). Qed.

Lemma sum_of_map f g l : (forall d, f (g d) = f d) -> sum_of f (map (fmap g) l) = sum_of f l.
Proof.
  intros H. unfold sum_of. induction l as [|[d|] l IH]; cbn [map foldr fmap option_fmap option_map from_option];
    [done|by rewrite H, IH|by rewrite IH].
Qed.

Section Props.
Context {HH : Host} {PH : PhysHost} {VH : VmxHw} {CH : CpuidHw} {AH : AllocHost}.
Context (uninit : cpuid_args_t) (ia32_xgetbv : Z -> vhw -> Z).
Implicit Types (s : module) (l : list (option per_cpu_data)) (R : gmultiset Z).

Definition live s : gmultiset Z := h_live (hm_heap s).
Definition with_data (h : heap) l s : module := set_hm_heap h (set_hm_cpu_data l s).

Lemma alloc_wp k s (Q : option Z -> module -> Prop) :
  (forall a h, h_live h = {[+ a +]} ⊎ live s -> Q (Some a) (set_hm_heap h s)) ->
  (forall h, h_live h = live s -> Q None (set_hm_heap h s)) -> wp (alloc k) s Q.
Proof.
  intros H1 H2. unfold alloc, in_heap.
  assert (H : wp (heap_alloc k) (hm_heap s) (fun r h => Q r (set_hm_heap h s))) by (by apply heap_alloc_wp).
  destruct H as (r & h & E & HQ). exists r, (set_hm_heap h s). by rewrite E.
Qed.
Lemma free_wp a R s (Q : unit -> module -> Prop) : live s = {[+ a +]} ⊎ R ->
  (forall h, h_live h = R -> Q tt (set_hm_heap h s)) -> wp (free a) s Q.
Proof.
  intros Hl HQ. unfold free, in_heap.
  assert (H : wp (heap_free a) (hm_heap s) (fun r h => Q r (set_hm_heap h s))) by (by eapply heap_free_wp).
  destruct H as (r & h & E & HQ'). exists r, (set_hm_heap h s). by rewrite E.
Qed.

(** Only processors that are online have data. *)
Definition data_ok s l : Prop :=
  length l = cpu_num s /\ forall i d, l !! i = Some (Some d) -> cpu_is_online s i = true.

Lemma online_data_at s h l i : data_ok s l -> online_data i (with_data h l s) = mjoin (l !! i).
Proof.
  intros [_ Hon]. unfold online_data. change (cpu_is_online (with_data h l s) i) with (cpu_is_online s i).
  change (hm_cpu_data (with_data h l s)) with l. destruct (l !! i) as [[d|]|] eqn:E; cbn.
  - by rewrite (Hon i d E).
  - by destruct (cpu_is_online s i).
  - by destruct (cpu_is_online s i).
Qed.

Lemma data_ok_at s l1 l2 (o o' : option per_cpu_data) : data_ok s (l1 ++ o :: l2) ->
  (is_Some o' -> cpu_is_online s (length l1) = true) -> data_ok s (l1 ++ o' :: l2).
Proof.
  intros [Hn Hon] Ho. split; [revert Hn; rewrite !length_app; done|]. intros i d Hi.
  destruct (decide (i = length l1)) as [->|Hne].
  - apply Ho. rewrite lookup_app_r, Nat.sub_diag in Hi by lia. injection Hi as ->. by eexists.
  - eapply Hon. apply lookup_app_Some in Hi as [Hi|[Hge Hi]]; [by apply lookup_app_l_Some|].
    apply lookup_app_Some. right. split; [lia|]. destruct (i - length l1)%nat as [|k] eqn:Ek; [lia|]. exact Hi.
Qed.

(** The first element of the rest of the list. *)
Lemma online_head s h l1 o l2 : data_ok s (l1 ++ o :: l2) ->
  online_data (length l1) (with_data h (l1 ++ o :: l2) s) = o.
Proof. intros Hok. rewrite online_data_at by done. by rewrite lookup_app_r, Nat.sub_diag by lia. Qed.
Lemma head_online s l1 d l2 : data_ok s (l1 ++ Some d :: l2) -> cpu_is_online s (length l1) = true.
Proof. intros [_ Hon]. eapply Hon. by rewrite lookup_app_r, Nat.sub_diag by lia. Qed.

Lemma put_head h h' l1 o o' l2 s :
  put_data (length l1) o' (set_hm_heap h' (with_data h (l1 ++ o :: l2) s)) = with_data h' (l1 ++ o' :: l2) s.
Proof.
  change (put_data _ _ _) with (with_data h' (<[length l1 := o']> (l1 ++ o :: l2)) s).
  by rewrite insert_app_r_alt, Nat.sub_diag by lia.
Qed.

(** ** A page for every processor *)
Section Pages.
Context (page : per_cpu_data -> option Z) (set_page : option Z -> per_cpu_data -> per_cpu_data).
Context (page_set : forall p d, page (set_page p d) = p) (set_set : forall p q d, set_page p (set_page q d) = set_page p d).
Context (set_own : forall d, set_page (page d) d = d).

#[local] Notation sum := (sum_of (fun d => opt_ms (page d))).
Definition cleared l : list (option per_cpu_data) := map (fmap (set_page None)) l.

Lemma free_pages_wp s h l1 l2 R Q : data_ok s (l1 ++ l2) -> h_live h = R ⊎ sum l2 ->
  (forall h', h_live h' = R -> Q tt (with_data h' (l1 ++ cleared l2) s)) ->
  wp (free_pages_of page set_page (seq (length l1) (length l2))) (with_data h (l1 ++ l2) s) Q.
Proof.
  revert l1 h. induction l2 as [|o l2 IH]; intros l1 h Hok Hl HQ; cbn [free_pages_of seq length].
  { apply wp_ret. apply HQ. rewrite Hl. apply ms_end. }
  apply wp_bind, wp_get. rewrite online_head by done.
  assert (Hstep : forall h' o', h_live h' = R ⊎ sum l2 -> o' = set_page None <$> o ->
    wp (free_pages_of page set_page (seq (S (length l1)) (length l2))) (with_data h' (l1 ++ o' :: l2) s) Q).
  { intros h' o' Hl' ->. rewrite cons_middle, app_assoc.
    replace (S (length l1)) with (length (l1 ++ [set_page None <$> o])) by (rewrite length_app; cbn; lia).
    apply IH; [|done|intros h'' Hl''; rewrite <- app_assoc; by apply HQ].
    rewrite <- app_assoc. eapply data_ok_at; [done|]. intros Hso. destruct o as [d|]; [by eapply head_online|].
    by destruct Hso. }
  apply wp_bind. destruct o as [d|]; [destruct (page d) as [p|] eqn:Ep|].
  - apply wp_bind. eapply (free_wp p (R ⊎ sum l2)).
    { change (live (with_data h (l1 ++ Some d :: l2) s)) with (h_live h). rewrite Hl. cbn. rewrite Ep. apply ms_front. }
    intros h' Hl'. apply wp_modify. rewrite put_head. by apply Hstep.
  - apply wp_ret. apply Hstep; [rewrite Hl; cbn; rewrite Ep; apply ms_skip|].
    cbn. f_equal. rewrite <- Ep. symmetry. apply set_own.
  - apply wp_ret. apply Hstep; [rewrite Hl; apply ms_skip|done].
Qed.

Lemma free_cpu_pages_wp s h l R Q : data_ok s l -> h_live h = R ⊎ sum l ->
  (forall h', h_live h' = R -> Q tt (with_data h' (cleared l) s)) ->
  wp (free_cpu_pages page set_page) (with_data h l s) Q.
Proof.
  intros Hok Hl HQ. unfold free_cpu_pages. apply wp_bind, wp_get.
  change (cpu_num (with_data h l s)) with (cpu_num s). rewrite <- (proj1 Hok).
  by apply (free_pages_wp s h [] l R).
Qed.

(** Every processor with data has got a page. *)
Definition paged (o o' : option per_cpu_data) : Prop :=
  match o with None => o' = None | Some d => exists p, o' = Some (set_page (Some p) d) end.

Lemma alloc_pages_wp s h l1 l2 R Q : data_ok s (l1 ++ l2) -> h_live h = R ⊎ sum l1 -> sum l2 = ∅ ->
  (forall h' l2', h_live h' = R ⊎ sum (l1 ++ l2') -> Forall2 paged l2 l2' -> Q 0 (with_data h' (l1 ++ l2') s)) ->
  (forall h', h_live h' = R -> Q (- ENOMEM) (with_data h' (cleared (l1 ++ l2)) s)) ->
  wp (alloc_pages_of page set_page (seq (length l1) (length l2))) (with_data h (l1 ++ l2) s) Q.
Proof.
  revert l1 h Q. induction l2 as [|o l2 IH]; intros l1 h Q Hok Hl H2 Hyes Hno; cbn [alloc_pages_of seq length].
  { apply wp_ret, Hyes; [by rewrite app_nil_r|done]. }
  apply wp_bind, wp_get. rewrite online_head by done.
  assert (Hsum : sum l2 = ∅ /\ from_option (fun d => opt_ms (page d)) ∅ o = ∅).
  { cbn in H2. fold (sum l2) in H2. split; multiset_solver. }
  destruct Hsum as [Hs2 Ho].
  assert (Hlen : forall o' : option per_cpu_data, S (length l1) = length (l1 ++ [o'])) by (intros; rewrite length_app; cbn; lia).
  destruct o as [d|].
  - apply wp_bind, alloc_wp.
    + intros p h1 Hl1. apply wp_bind, wp_modify. rewrite put_head, cons_middle, app_assoc, (Hlen (Some (set_page (Some p) d))).
      apply IH; [rewrite <- app_assoc; eapply data_ok_at; [done|intros _; by eapply head_online]| |done| |].
      * rewrite sum_of_app, Hl1. change (live _) with (h_live h). rewrite Hl.
        change (sum [Some (set_page (Some p) d)]) with (opt_ms (page (set_page (Some p) d)) ⊎ ∅). rewrite page_set. apply ms_push.
      * intros h' l2' Hl' Hf. rewrite <- app_assoc in Hl' |- *. apply Hyes; [done|]. constructor; [by eexists|done].
      * intros h' Hl'. unfold cleared. rewrite !map_app. cbn [map fmap option_fmap option_map]. rewrite set_set, <- app_assoc.
        specialize (Hno h' Hl'). unfold cleared in Hno. by rewrite map_app in Hno.
    + intros h1 Hl1. apply wp_bind. apply (free_cpu_pages_wp s h1 (l1 ++ Some d :: l2) R); [done| |].
      * rewrite Hl1. change (live _) with (h_live h). rewrite Hl, sum_of_app, H2. by rewrite ms_end.
      * intros h' Hl'. by apply wp_ret, Hno.
  - rewrite cons_middle, app_assoc, (Hlen None). apply IH; [by rewrite <- app_assoc| |done| |].
    + rewrite Hl, sum_of_app. change (sum [None]) with (∅ ⊎ (∅ : gmultiset Z)). by rewrite !ms_end.
    + intros h' l2' Hl' Hf. rewrite <- app_assoc in Hl' |- *. apply Hyes; [done|]. by constructor.
    + intros h' Hl'. rewrite <- app_assoc. by apply Hno.
Qed.

Lemma alloc_cpu_pages_wp s h l R Q : data_ok s l -> h_live h = R -> sum l = ∅ ->
  (forall h' l', h_live h' = R ⊎ sum l' -> Forall2 paged l l' -> Q 0 (with_data h' l' s)) ->
  (forall h', h_live h' = R -> Q (- ENOMEM) (with_data h' (cleared l) s)) ->
  wp (alloc_cpu_pages page set_page) (with_data h l s) Q.
Proof.
  intros Hok Hl H0 Hyes Hno. unfold alloc_cpu_pages. apply wp_bind, wp_get.
  change (cpu_num (with_data h l s)) with (cpu_num s). rewrite <- (proj1 Hok).
  apply (alloc_pages_wp s h [] l R); try done. by rewrite Hl, ms_end.
Qed.
End Pages.

(** ** Running a function on every processor *)
Section Smp.
Context (ept_cap : Z).

Definition pages_of l : list (option (Z * option Z * option Z * option Z)) := map (fmap pages) l.

(** The registers, the features and the shared data may have changed. *)
Definition probed s s' : Prop :=
  exists hws v g l, s' = set_hm_hws hws (set_hm_vm v (set_hm_cpuid g (set_hm_cpu_data l s))) /\
    length hws = length (hm_hws s) /\ pages_of l = pages_of (hm_cpu_data s) /\ shared_ok ept_cap v g.

(** Every processor that is online has registers, and data with the memory it needs. *)
Definition can_run (need : Z * option Z * option Z * option Z -> Prop) s : Prop :=
  forall i, cpu_is_online s i = true -> (i < length (hm_hws s))%nat /\
    exists p, pages_of (hm_cpu_data s) !! i = Some (Some p) /\ need p.

Lemma probed_refl s : shared_ok ept_cap (hm_vm s) (hm_cpuid s) -> probed s s.
Proof. intros Hs. exists (hm_hws s), (hm_vm s), (hm_cpuid s), (hm_cpu_data s). by destruct s. Qed.
Lemma probed_trans s1 s2 s3 : probed s1 s2 -> probed s2 s3 -> probed s1 s3.
Proof.
  intros (hws & v & g & l & -> & H1 & H2 & H3) (hws' & v' & g' & l' & -> & H1' & H2' & H3').
  exists hws', v', g', l'. split; [done|]. split; [by rewrite H1'|]. split; [by rewrite H2'|done].
Qed.
Lemma probed_can_run need s s' : probed s s' -> can_run need s -> can_run need s'.
Proof.
  intros (hws & v & g & l & -> & H1 & H2 & H3) H i Hi. destruct (H i Hi) as (Hl & p & Hp & Hn).
  split; [change (i < length hws)%nat; by rewrite H1|]. exists p. split; [|done].
  change (pages_of l !! i = Some (Some p)). by rewrite H2.
Qed.

Lemma on_cpu_wp need (m : M cpu_ctx unit) i s (Q : unit -> module -> Prop) :
  (forall p, need p -> keeps ept_cap p m) -> shared_ok ept_cap (hm_vm s) (hm_cpuid s) ->
  can_run need s -> cpu_is_online s i = true -> (forall s', probed s s' -> Q tt s') -> wp (on_cpu i m) s Q.
Proof.
  intros Hm Hs Hc Hi HQ. destruct (Hc i Hi) as (Hl & p & Hp & Hn). unfold wp, on_cpu.
  destruct (lookup_lt_is_Some_2 _ _ Hl) as [hw ->].
  assert (Hpl : pages_of (hm_cpu_data s) !! i = fmap pages <$> (hm_cpu_data s !! i)) by apply list_lookup_fmap.
  rewrite Hpl in Hp. destruct (hm_cpu_data s !! i) as [[d|]|] eqn:E; try done. injection Hp as Hp. cbn [mjoin option_join].
  destruct (Hm p Hn (CpuCtx hw d (hm_vm s) (hm_cpuid s))) as ([] & c & -> & [C1 C2]); [by split|].
  eexists tt, _. split; [done|]. apply HQ. eexists _, _, _, _. split; [reflexivity|].
  split; [by rewrite length_insert|]. split; [|done]. unfold pages_of. rewrite (list_fmap_insert _ _ _ (Some (cx_data c))).
  apply list_insert_id. rewrite list_lookup_fmap, E. cbn. by rewrite C1, Hp.
Qed.

Lemma smp_call_wp need (m : M cpu_ctx unit) ids s (Q : unit -> module -> Prop) :
  (forall p, need p -> keeps ept_cap p m) -> shared_ok ept_cap (hm_vm s) (hm_cpuid s) ->
  can_run need s -> (forall s', probed s s' -> Q tt s') -> wp (smp_call ids m) s Q.
Proof.
  intros Hm. revert s Q. induction ids as [|i ids IH]; intros s Q Hs Hc HQ; cbn [smp_call].
  { apply wp_ret, HQ. by apply probed_refl. }
  apply wp_bind, wp_get, wp_bind. destruct (cpu_is_online s i) eqn:Hi.
  - eapply on_cpu_wp; [done..|]. intros s1 H1. apply IH; [|by eapply probed_can_run|].
    + by destruct H1 as (hws & v & g & l & -> & _ & _ & H3).
    + intros s2 H2. apply HQ. by eapply probed_trans.
  - by apply wp_ret, IH.
Qed.
End Smp.

(** ** The MSR bitmaps *)
Lemma put_bit_wp set base bit s (Q : unit -> module -> Prop) :
  0 <= base -> 0 <= bit -> 8 * base + bit < 8 * Z.of_nat (length (hm_msr_bitmap s)) ->
  (forall bm, length bm = length (hm_msr_bitmap s) ->
     (forall k, 0 <= k -> bm_bit bm k = if decide (8 * base + bit = k) then set else bm_bit (hm_msr_bitmap s) k) ->
     Q tt (set_hm_msr_bitmap bm s)) ->
  wp (put_bit set base bit) s Q.
Proof.
  intros H0 H1 Hl HQ. unfold put_bit. apply wp_bind, wp_get. cbv zeta.
  assert (Hi : Z.to_nat (base + bit / 8) = byte_of (8 * base + bit)).
  { unfold byte_of. rewrite Z.mul_comm, Z.div_add_l by lia. done. }
  assert (Hm : bit mod 8 = (8 * base + bit) mod 8) by (rewrite Z.mul_comm, Z.add_comm, Z.mod_add by lia; done).
  rewrite Hi, Hm.
  assert (Hb : (byte_of (8 * base + bit) < length (hm_msr_bitmap s))%nat).
  { unfold byte_of. assert ((8 * base + bit) / 8 < Z.of_nat (length (hm_msr_bitmap s))) by (apply Z.div_lt_upper_bound; lia).
    assert (0 <= (8 * base + bit) / 8) by (apply Z.div_pos; lia). lia. }
  destruct (lookup_lt_is_Some_2 _ _ Hb) as [b Eb]. apply wp_bind. eapply wp_of_option; [exact Eb|].
  apply wp_modify, HQ; [by rewrite length_insert|]. intros k Hk.
  assert (0 <= (8 * base + bit) mod 8) by (apply Z.mod_pos_bound; lia).
  pose proof (bm_bit_update (hm_msr_bitmap s) (8 * base + bit)
    (fun b => if set then Z.setbit b ((8 * base + bit) mod 8) else Z.clearbit b ((8 * base + bit) mod 8)) set k) as U.
  rewrite Eb in U. cbn [default] in U. apply U; [lia|done|done| |].
  - intros x. destruct set; [by rewrite Z.setbit_eq|by rewrite Z.clearbit_eq].
  - intros x j Hj Hne. destruct set; [by rewrite Z.setbit_neq by lia|by rewrite Z.clearbit_neq by lia].
Qed.

(** The bits that are cleared: [n] bits from [bit] on, for reads and for writes. *)
Definition in_bits (read_base bit n k : Z) : bool :=
  (((8 * read_base + bit <=? k) && (k <? 8 * read_base + bit + n)) ||
   ((8 * (read_base + 2048) + bit <=? k) && (k <? 8 * (read_base + 2048) + bit + n)))%bool.

Lemma set_msr_bits_wp rb bit n s (Q : unit -> module -> Prop) :
  0 <= rb -> 0 <= bit -> 8 * (rb + 2048) + bit + Z.of_nat n <= 8 * Z.of_nat (length (hm_msr_bitmap s)) ->
  (forall bm, length bm = length (hm_msr_bitmap s) ->
     (forall k, 0 <= k -> bm_bit bm k = (bm_bit (hm_msr_bitmap s) k && negb (in_bits rb bit (Z.of_nat n) k))%bool) ->
     Q tt (set_hm_msr_bitmap bm s)) ->
  wp (set_msr_bits true true rb (rb + 2048) bit n) s Q.
Proof.
  intros H0. revert bit s Q. induction n as [|n IH]; intros bit s Q H1 Hl HQ; cbn [set_msr_bits negb].
  { apply wp_ret. replace s with (set_hm_msr_bitmap (hm_msr_bitmap s) s) by by destruct s. apply HQ; [done|].
    intros k Hk. unfold in_bits. rewrite !Z.add_0_r.
    destruct (_ || _)%bool eqn:E; [|by rewrite andb_true_r]. apply orb_true_iff in E. rewrite !andb_true_iff in E. lia. }
  apply wp_bind, put_bit_wp; [lia..|]. intros bm1 L1 B1.
  apply wp_bind, put_bit_wp; [lia|lia|change (hm_msr_bitmap (set_hm_msr_bitmap bm1 s)) with bm1; lia|].
  change (hm_msr_bitmap (set_hm_msr_bitmap bm1 s)) with bm1. intros bm2 L2 B2.
  apply IH; [lia|change (hm_msr_bitmap _) with bm2; lia|]. change (hm_msr_bitmap (set_hm_msr_bitmap bm2 _)) with bm2.
  intros bm3 L3 B3. apply HQ; [lia|]. intros k Hk. rewrite B3, B2, B1 by done. unfold in_bits.
  rewrite Nat2Z.inj_succ. set (old := bm_bit (hm_msr_bitmap s) k). clearbody old. clear -H0 H1 Hk.
  repeat case_decide; destruct old; cbn [andb]; lia.
Qed.

(** The arguments are allowed. *)
Definition access_ok (start count : Z) : bool :=
  (negb (has (Z.lxor start (u32 (Z.shiftl start 1))) 0x80000000) && negb (has start 0x3fffe000) &&
   negb (has (Z.lxor start (u32 (start + count - 1))) 0xffffe000) &&
   ((u32 (start + count - 1) &! 0x1fff) - (start &! 0x1fff) + 1 =? count) &&
   (0 <=? start &! 0x1fff) && ((start &! 0x1fff) + count <=? 8192) && (0 <=? count))%bool.
Definition base_of (start : Z) : Z := if has start 0x80000000 then 1024 else 0.

Lemma set_msr_access_wp start count s (Q : unit -> module -> Prop) :
  access_ok start count = true -> is_Some (hm_msr_bitmap_page s) -> length (hm_msr_bitmap s) = 4096%nat ->
  (forall bm, length bm = 4096%nat ->
     (forall k, 0 <= k -> bm_bit bm k =
        (bm_bit (hm_msr_bitmap s) k && negb (in_bits (base_of start) (start &! 0x1fff) count k))%bool) ->
     Q tt (set_hm_msr_bitmap bm s)) ->
  wp (set_msr_access start count true true) s Q.
Proof.
  intros Hok [p Hp] Hl HQ. unfold access_ok in Hok. rewrite !andb_true_iff in Hok.
  destruct Hok as ((((((A1 & A2) & A3) & A4) & A5) & A6) & A7).
  apply Z.eqb_eq in A4. apply Z.leb_le in A5, A6, A7.
  unfold set_msr_access. apply wp_bind, wp_get. cbv zeta. do 4 (apply wp_bind, wp_assert; [by rewrite ?Hp|]).
  clear A1 A2 A3. rewrite A4. fold (base_of start).
  assert (0 <= base_of start <= 1024) by (unfold base_of; case_match; lia).
  apply set_msr_bits_wp; [lia|lia|rewrite Hl; lia|]. rewrite Hl, Z2Nat.id by lia. exact HQ.
Qed.

(** ** What stays while the processors are set up *)
Definition base (d : per_cpu_data) : Z * option Z := (pc_addr d, pc_hfxpage d).
Definition bases l : list (option (Z * option Z)) := map (fmap base) l.

Record frame s s' : Prop := {
  fr_hax : hm_hax s' = hm_hax s;
  fr_lock : hm_lock s' = hm_lock s;
  fr_array : hm_cpu_array s' = hm_cpu_array s;
  fr_online : hm_online s' = hm_online s;
  fr_bases : bases (hm_cpu_data s') = bases (hm_cpu_data s);
  fr_version : hx_apm_version (hm_t s') = hx_apm_version (hm_t s);
}.

Lemma bases_map f l : (forall d, base (f d) = base d) -> bases (map (fmap f) l) = bases l.
Proof. intros Hf. unfold bases. rewrite map_map. apply map_ext. intros [d|]; cbn; [by rewrite Hf|done]. Qed.
Lemma bases_paged set_page l l' : (forall p d, base (set_page p d) = base d) ->
  Forall2 (paged set_page) l l' -> bases l' = bases l.
Proof.
  intros Hb. unfold bases. induction 1 as [|o o' l l' Ho _ IH]; [done|]. cbn [map]. rewrite IH. f_equal.
  destruct o as [d|]; [|by (cbn in Ho; subst o')]. destruct Ho as [p ->]. cbn. by rewrite Hb.
Qed.
Lemma bases_pages l l' : pages_of l' = pages_of l -> bases l' = bases l.
Proof.
  intros H. assert (E : forall x : list (option per_cpu_data), bases x = map (fmap (fun p => (p.1.1.1, p.1.1.2))) (pages_of x)).
  { intros x. unfold bases, pages_of. rewrite map_map. apply map_ext. by intros [d|]. }
  by rewrite !E, H.
Qed.
Lemma sum_pages (F : Z * option Z * option Z * option Z -> gmultiset Z) l l' : pages_of l' = pages_of l ->
  sum_of (fun d => F (pages d)) l' = sum_of (fun d => F (pages d)) l.
Proof.
  intros H. assert (E : forall x, sum_of (fun d => F (pages d)) x = foldr (fun o m => from_option F ∅ o ⊎ m) ∅ (pages_of x)).
  { intros x. unfold sum_of, pages_of. induction x as [|[d|] x IH]; [done|..]; cbn [map foldr fmap option_fmap option_map from_option]; by rewrite IH. }
  by rewrite !E, H.
Qed.
Lemma data_ok_bases s l l' : bases l' = bases l -> data_ok s l -> data_ok s l'.
Proof.
  intros H [Hn Hon]. split; [rewrite <- Hn; rewrite <- (length_map (fmap base) l'), <- (length_map (fmap base) l); by f_equal|].
  intros i d Hi. assert (E : bases l' !! i = Some (Some (base d))) by (unfold bases; by rewrite list_lookup_fmap, Hi).
  rewrite H in E. unfold bases in E. rewrite list_lookup_fmap in E. destruct (l !! i) as [[d'|]|] eqn:El; try done. eauto.
Qed.

(** A page of one field leaves the others. *)
Lemma sum_paged f set_page l l' : (forall p d, f (set_page p d) = f d) -> Forall2 (paged set_page) l l' ->
  sum_of f l' = sum_of f l.
Proof.
  intros Hf. unfold sum_of. induction 1 as [|o o' l l' Ho _ IH]; [done|]. cbn [foldr]. rewrite IH. f_equal.
  destruct o as [d|]; [|by (cbn in Ho; subst o')]. destruct Ho as [p ->]. apply Hf.
Qed.
Lemma paged_some page set_page l l' i d : (forall p d, page (set_page p d) = p) -> Forall2 (paged set_page) l l' ->
  l' !! i = Some (Some d) -> page d <> None.
Proof.
  intros Hp Hf Hi. destruct (Forall2_lookup_r _ _ _ _ _ Hf Hi) as (o & _ & Ho). destruct o as [d'|]; [|done].
  destruct Ho as [p [= ->]]. by rewrite Hp.
Qed.

Lemma with_data_eta s : with_data (hm_heap s) (hm_cpu_data s) s = s.
Proof. by destruct s. Qed.

Lemma cur_rdmsr_wp m s (Q : Z -> module -> Prop) : (hm_cur s < length (hm_hws s))%nat ->
  (forall x hws, length hws = length (hm_hws s) -> Q x (set_hm_hws hws s)) -> wp (cur_rdmsr m) s Q.
Proof.
  intros Hc HQ. unfold cur_rdmsr. apply wp_bind, wp_get. destruct (lookup_lt_is_Some_2 _ _ Hc) as [hw Ehw].
  apply wp_bind. eapply wp_of_option; [exact Ehw|]. destruct (ia32_rdmsr m hw) as [x h].
  apply wp_bind, wp_modify, wp_ret, HQ. by rewrite length_insert.
Qed.

Lemma enable_check_wp s (Q : Z -> module -> Prop) : (hm_cur s < length (hm_hws s))%nat ->
  (forall r t hws, r = 0 \/ r = -1 -> length hws = length (hm_hws s) -> hx_apm_version t = hx_apm_version (hm_t s) ->
     Q r (set_hm_t t (set_hm_hws hws s))) ->
  wp hax_vmx_enable_check s Q.
Proof.
  intros Hc HQ. unfold hax_vmx_enable_check. apply wp_bind, wp_gets. cbv zeta.
  assert (Hsame : Q (-1) s) by (replace s with (set_hm_t (hm_t s) (set_hm_hws (hm_hws s) s)) at 1 by (by destruct s); apply HQ; auto).
  destruct (negb _); [by apply wp_ret|]. destruct (negb _); [by apply wp_ret|].
  set (nx := _ =? _). set (vt := count_feature HAX_CPUF_ENABLE_VT _ =? _).
  assert (Hflag : forall (f : bool) g t, (forall t', hx_apm_version (g t') = hx_apm_version t') ->
    hx_apm_version t = hx_apm_version (hm_t s) ->
    wp (if f then upd_t g else mret tt) (set_hm_t t s)
      (fun _ s' => exists t', s' = set_hm_t t' s /\ hx_apm_version t' = hx_apm_version (hm_t s))).
  { intros f g t Hg Ht. destruct f; [apply wp_modify; eexists; split; [done|by rewrite Hg]|apply wp_ret; by exists t]. }
  replace s with (set_hm_t (hm_t s) s) at 1 by by destruct s.
  apply wp_bind. eapply wp_mono; [by apply Hflag|]. intros _ s1 (t1 & -> & T1).
  apply wp_bind. eapply wp_mono; [by apply Hflag|]. intros _ s2 (t2 & -> & T2).
  apply wp_bind, cur_rdmsr_wp; [done|]. intros x hws Hl. apply wp_bind, wp_modify.
  destruct (_ && _)%bool; apply wp_ret; apply HQ; auto.
Qed.
End Props.
