(* ===== verification/HaxModuleProps.v ===== *)
(** * Starting and stopping the driver

    [hax_module_init] returns; if it fails it has freed all memory that it has allocated, and if
    it succeeds [hax_module_exit] frees it.  A guest can access exactly the MSRs that are switched
    at VM entries and exits without causing an exit. *)

From stdpp Require Import base numbers list gmap gmultiset.
From Stdlib Require Import ZArith Lia ZifyBool.
From S2P Require Import Prelude Bitmap MemTypes Memslot GpaSpace EptTree Ept2 VmMemory.
From S2P Require Import EmTypes Cpuid Vmx VcpuState VcpuCr VcpuMsr VcpuExit HostHeap HaxInit HaxInitProps.
#[local] Open Scope Z_scope.

Section Module.
Context {HH : Host} {PH : PhysHost} {VH : VmxHw} {CH : CpuidHw} {AH : AllocHost}.
Context (uninit : cpuid_args_t) (ia32_xgetbv : Z -> vhw -> Z).
Context (ept_cap : Z) (Hept : forall h, (ia32_rdmsr IA32_VMX_EPT_VPID_CAP h).1 = ept_cap).
Implicit Types (s : module) (l : list (option per_cpu_data)) (R : gmultiset Z).

Definition vmxon_pages l : gmultiset Z := sum_of (fun d => opt_ms (pc_vmxon_page d)) l.
Definition vmcs_pages l : gmultiset Z := sum_of (fun d => opt_ms (pc_vmcs_page d)) l.

(** The data of the processors has been allocated. *)
Record startable s : Prop := {
  sa_data : data_ok s (hm_cpu_data s);
  sa_run : can_run (fun _ => True) s;
  sa_cur : (hm_cur s < length (hm_hws s))%nat;
  sa_shared : shared_ok ept_cap (hm_vm s) (hm_cpuid s);
  sa_vmxon : vmxon_pages (hm_cpu_data s) = ∅;
  sa_vmcs : vmcs_pages (hm_cpu_data s) = ∅;
}.

Lemma out_3_wp a b m R s (Q : unit -> module -> Prop) :
  live s = {[+ m +]} ⊎ ({[+ b +]} ⊎ ({[+ a +]} ⊎ R)) ->
  (forall h, h_live h = R -> Q tt (set_hm_heap h s)) -> wp (free m;; free b;; free a) s Q.
Proof.
  intros Hl HQ. apply wp_bind. eapply free_wp; [exact Hl|]. intros h1 H1.
  apply wp_bind. eapply free_wp; [exact H1|]. intros h2 H2. eapply free_wp; [exact H2|]. intros h3 H3. by apply HQ.
Qed.

(** The pages of one kind. *)
Lemma vmxon_alloc_wp s R Q : data_ok s (hm_cpu_data s) -> live s = R -> vmxon_pages (hm_cpu_data s) = ∅ ->
  (forall h l, h_live h = R ⊎ vmxon_pages l -> Forall2 (paged set_pc_vmxon_page) (hm_cpu_data s) l ->
     Q 0 (with_data h l s)) ->
  (forall h, h_live h = R -> Q (- ENOMEM) (with_data h (cleared set_pc_vmxon_page (hm_cpu_data s)) s)) ->
  wp alloc_cpu_vmxon_region s Q.
Proof.
  intros. rewrite <- (with_data_eta s) at 1. eapply alloc_cpu_pages_wp; try done. by intros [].
Qed.
Lemma vmcs_alloc_wp s R Q : data_ok s (hm_cpu_data s) -> live s = R -> vmcs_pages (hm_cpu_data s) = ∅ ->
  (forall h l, h_live h = R ⊎ vmcs_pages l -> Forall2 (paged set_pc_vmcs_page) (hm_cpu_data s) l ->
     Q 0 (with_data h l s)) ->
  (forall h, h_live h = R -> Q (- ENOMEM) (with_data h (cleared set_pc_vmcs_page (hm_cpu_data s)) s)) ->
  wp alloc_cpu_template_vmcs s Q.
Proof.
  intros. rewrite <- (with_data_eta s) at 1. eapply alloc_cpu_pages_wp; try done. by intros [].
Qed.
Lemma vmxon_free_wp s R Q : data_ok s (hm_cpu_data s) -> live s = R ⊎ vmxon_pages (hm_cpu_data s) ->
  (forall h, h_live h = R -> Q tt (with_data h (cleared set_pc_vmxon_page (hm_cpu_data s)) s)) ->
  wp free_cpu_vmxon_region s Q.
Proof. intros. rewrite <- (with_data_eta s) at 1. eapply free_cpu_pages_wp; try done. by intros []. Qed.
Lemma vmcs_free_wp s R Q : data_ok s (hm_cpu_data s) -> live s = R ⊎ vmcs_pages (hm_cpu_data s) ->
  (forall h, h_live h = R -> Q tt (with_data h (cleared set_pc_vmcs_page (hm_cpu_data s)) s)) ->
  wp free_cpu_template_vmcs s Q.
Proof. intros. rewrite <- (with_data_eta s) at 1. eapply free_cpu_pages_wp; try done. by intros []. Qed.

(** Both kinds, freed in the order of [hax_vmx_exit]. *)
Lemma cleared_bases_vmxon l : bases (cleared set_pc_vmxon_page l) = bases l.
Proof. by apply bases_map. Qed.
Lemma cleared_bases_vmcs l : bases (cleared set_pc_vmcs_page l) = bases l.
Proof. by apply bases_map. Qed.
Lemma cleared_vmcs_vmxon l : vmxon_pages (cleared set_pc_vmcs_page l) = vmxon_pages l.
Proof. by apply sum_of_map. Qed.

Lemma free_regions_wp s R (Q : unit -> module -> Prop) : data_ok s (hm_cpu_data s) ->
  live s = (R ⊎ vmxon_pages (hm_cpu_data s)) ⊎ vmcs_pages (hm_cpu_data s) ->
  (forall h l, h_live h = R -> bases l = bases (hm_cpu_data s) -> Q tt (with_data h l s)) ->
  wp (free_cpu_template_vmcs;; free_cpu_vmxon_region) s Q.
Proof.
  intros Hok Hl HQ. apply wp_bind. eapply vmcs_free_wp; [done..|]. intros h1 H1.
  eapply (vmxon_free_wp _ R); [|change (h_live h1 = R ⊎ vmxon_pages (cleared set_pc_vmcs_page (hm_cpu_data s)));
    by rewrite H1, cleared_vmcs_vmxon|].
  - eapply (data_ok_bases s); [apply cleared_bases_vmcs|done].
  - intros h2 H2. change (Q tt (with_data h2 (cleared set_pc_vmxon_page (cleared set_pc_vmcs_page (hm_cpu_data s))) s)).
    apply HQ; [done|]. by rewrite cleared_bases_vmxon, cleared_bases_vmcs.
Qed.

(** The MSRs that [hax_vmx_init] opens, as bits that are cleared. *)
Definition vmx_bits (k : Z) : bool :=
  (in_bits 1024 0x81 4 k || in_bits 1024 0x102 1 k || in_bits 1024 0x103 1 k)%bool.

(** What is set up: the pages, and the bits. *)
Record vmx_up R s : Prop := {
  vu_memory : exists a b m, hm_io_bitmap_page_a s = Some a /\ hm_io_bitmap_page_b s = Some b /\
    hm_msr_bitmap_page s = Some m /\
    live s = ({[+ m +]} ⊎ ({[+ b +]} ⊎ ({[+ a +]} ⊎ R)) ⊎ vmxon_pages (hm_cpu_data s)) ⊎ vmcs_pages (hm_cpu_data s);
  vu_data : data_ok s (hm_cpu_data s);
  vu_run : can_run (fun _ => True) s;
  vu_shared : shared_ok ept_cap (hm_vm s) (hm_cpuid s);
  vu_length : length (hm_msr_bitmap s) = 4096%nat;
}.

Lemma full_bit k : 0 <= k < 32768 -> bm_bit (replicate 4096 0xff) k = true.
Proof.
  intros Hk. unfold bm_bit, byte_of. assert (0 <= k / 8 < 4096) by (split; [apply Z.div_pos|apply Z.div_lt_upper_bound]; lia).
  rewrite lookup_replicate_2 by lia. cbn [default].
  assert (Hm : 0 <= k mod 8 < 8) by (apply Z.mod_pos_bound; lia). revert Hm. generalize (k mod 8). intros j Hj.
  assert (j = 0 \/ j = 1 \/ j = 2 \/ j = 3 \/ j = 4 \/ j = 5 \/ j = 6 \/ j = 7) as Hc by lia.
  by destruct Hc as [->|[->|[->|[->|[->|[->|[->| ->]]]]]]].
Qed.

Lemma vmx_access_wp s (Q : Z -> module -> Prop) : is_Some (hm_msr_bitmap_page s) -> hm_msr_bitmap s = replicate 4096 0xff ->
  (forall bm, length bm = 4096%nat -> (forall k, 0 <= k < 32768 -> bm_bit bm k = negb (vmx_bits k)) ->
     Q 0 (set_hm_msr_bitmap bm s)) ->
  wp (set_msr_access IA32_STAR 4 true true;; set_msr_access IA32_KERNEL_GS_BASE 1 true true;;
      set_msr_access IA32_TSC_AUX 1 true true;; mret 0) s Q.
Proof.
  intros Hp Hb HQ. apply wp_bind, set_msr_access_wp; [done|done|by rewrite Hb|]. intros bm1 L1 B1.
  apply wp_bind, set_msr_access_wp; [done..|]. intros bm2 L2 B2.
  apply wp_bind, set_msr_access_wp; [done..|]. intros bm3 L3 B3. apply wp_ret.
  apply (HQ bm3); [done|]. intros k Hk. rewrite B3 by lia.
  change (hm_msr_bitmap (set_hm_msr_bitmap bm2 _)) with bm2. rewrite B2 by lia.
  change (hm_msr_bitmap (set_hm_msr_bitmap bm1 _)) with bm1. rewrite B1, Hb, full_bit by lia. unfold vmx_bits.
  change (base_of IA32_STAR) with 1024. change (base_of IA32_KERNEL_GS_BASE) with 1024.
  change (base_of IA32_TSC_AUX) with 1024. change (IA32_STAR &! 0x1fff) with 0x81.
  change (IA32_KERNEL_GS_BASE &! 0x1fff) with 0x102. change (IA32_TSC_AUX &! 0x1fff) with 0x103.
  by destruct (in_bits 1024 0x81 4 k), (in_bits 1024 0x102 1 k), (in_bits 1024 0x103 1 k).
Qed.

(** The processors are probed when they have their VMXON pages. *)
Lemma enable_vmx_wp s (Q : unit -> module -> Prop) : shared_ok ept_cap (hm_vm s) (hm_cpuid s) ->
  can_run (fun p => p.1.2 <> None) s -> (forall s', probed ept_cap s s' -> Q tt s') ->
  wp (hax_enable_vmx uninit ia32_xgetbv) s Q.
Proof.
  intros Hs Hc HQ. unfold hax_enable_vmx, hax_smp_call_function. apply wp_bind, wp_get.
  eapply smp_call_wp; [|done..]. intros p Hp. by apply keeps_init_vmx.
Qed.
Lemma disable_vmx_wp s (Q : unit -> module -> Prop) : shared_ok ept_cap (hm_vm s) (hm_cpuid s) ->
  can_run (fun _ => True) s -> (forall s', probed ept_cap s s' -> Q tt s') -> wp hax_disable_vmx s Q.
Proof.
  intros Hs Hc HQ. unfold hax_disable_vmx, hax_smp_call_function. apply wp_bind, wp_get.
  eapply smp_call_wp; [|done..]. intros p Hp. apply cx_keeps_ret.
Qed.

Lemma paged_can_run (need need' : _ -> Prop) set_page s h l :
  (forall d q, need (pages d) -> need' (pages (set_page (Some q) d))) ->
  can_run need s -> Forall2 (paged set_page) (hm_cpu_data s) l -> can_run need' (with_data h l s).
Proof.
  intros Hn Hc Hf i Hi. destruct (Hc i Hi) as (Hl & p & Hp & Hnp). split; [done|].
  unfold pages_of in Hp. rewrite list_lookup_fmap in Hp. destruct (hm_cpu_data s !! i) as [[d|]|] eqn:E; try done.
  destruct (Forall2_lookup_l _ _ _ _ _ Hf E) as (o & Ho & q & ->). injection Hp as <-.
  exists (pages (set_page (Some q) d)). split; [|by apply Hn].
  unfold pages_of. rewrite list_lookup_fmap. change (hm_cpu_data (with_data h l s)) with l. by rewrite Ho.
Qed.
Lemma can_run_weak (need : _ -> Prop) s : can_run need s -> can_run (fun _ => True) s.
Proof. intros H i Hi. destruct (H i Hi) as (Hl & p & Hp & _). eauto. Qed.

Lemma probed_sums s s' : probed ept_cap s s' -> vmxon_pages (hm_cpu_data s') = vmxon_pages (hm_cpu_data s) /\
  vmcs_pages (hm_cpu_data s') = vmcs_pages (hm_cpu_data s) /\ bases (hm_cpu_data s') = bases (hm_cpu_data s).
Proof.
  intros (hws & v & g & l & -> & _ & H & _). change (hm_cpu_data (set_hm_hws _ _)) with l. split_and!.
  - by apply (sum_pages (fun p => opt_ms p.1.2)).
  - by apply (sum_pages (fun p => opt_ms p.2)).
  - by apply bases_pages.
Qed.
Lemma probed_data s s' : probed ept_cap s s' -> data_ok s (hm_cpu_data s) -> data_ok s' (hm_cpu_data s').
Proof.
  intros H Hd. pose proof (probed_sums _ _ H) as (_ & _ & Hb). destruct H as (hws & v & g & l & -> & _).
  by apply (data_ok_bases s _ _ Hb).
Qed.

(** The end of [hax_vmx_init] when both kinds of pages are there. *)
Definition vmx_start (a b m : Z) : M module Z :=
  hax_enable_vmx uninit ia32_xgetbv;;
  ret ← hax_vmx_enable_check;
  if ret <? 0 then
    hax_disable_vmx;; free_cpu_template_vmcs;; free_cpu_vmxon_region;; (free m;; free b;; free a);; mret ret
  else
    set_msr_access IA32_STAR 4 true true;; set_msr_access IA32_KERNEL_GS_BASE 1 true true;;
    set_msr_access IA32_TSC_AUX 1 true true;; mret 0.

Lemma vmx_start_wp a b m R s (Q : Z -> module -> Prop) :
  data_ok s (hm_cpu_data s) -> can_run (fun p => p.1.2 <> None) s -> (hm_cur s < length (hm_hws s))%nat ->
  shared_ok ept_cap (hm_vm s) (hm_cpuid s) -> hm_io_bitmap_page_a s = Some a -> hm_io_bitmap_page_b s = Some b ->
  hm_msr_bitmap_page s = Some m -> hm_msr_bitmap s = replicate 4096 0xff ->
  live s = ({[+ m +]} ⊎ ({[+ b +]} ⊎ ({[+ a +]} ⊎ R)) ⊎ vmxon_pages (hm_cpu_data s)) ⊎ vmcs_pages (hm_cpu_data s) ->
  (forall r s', r < 0 -> frame s s' -> live s' = R -> Q r s') ->
  (forall s', frame s s' -> vmx_up R s' -> (forall k, 0 <= k < 32768 -> bm_bit (hm_msr_bitmap s') k = negb (vmx_bits k)) ->
     Q 0 s') ->
  wp (vmx_start a b m) s Q.
Proof.
  intros Hd Hc Hcur Hs Ha Hb Hm Hbm Hl Hno Hyes. unfold vmx_start. apply wp_bind, enable_vmx_wp; [done..|]. intros s1 P1.
  pose proof (probed_sums _ _ P1) as (E1 & E2 & E3). pose proof (probed_data _ _ P1 Hd) as Hd1.
  pose proof (can_run_weak _ _ (probed_can_run _ _ _ _ P1 Hc)) as Hc1.
  assert (Hf1 : frame s s1 /\ live s1 = live s /\ hm_cur s1 = hm_cur s /\ length (hm_hws s1) = length (hm_hws s) /\
    shared_ok ept_cap (hm_vm s1) (hm_cpuid s1) /\ hm_io_bitmap_page_a s1 = Some a /\ hm_io_bitmap_page_b s1 = Some b /\
    hm_msr_bitmap_page s1 = Some m /\ hm_msr_bitmap s1 = replicate 4096 0xff).
  { destruct P1 as (hws & v & g & l & -> & P2 & P3 & P4). by split_and!. }
  destruct Hf1 as (F1 & L1 & C1 & W1 & S1 & Pa & Pb & Pm & Pbm). clear P1.
  apply wp_bind, enable_check_wp; [lia|]. intros r t hws [-> | ->] Hw Ht.
  - change (0 <? 0) with false. cbn iota. apply vmx_access_wp; [by eexists|done|].
    intros bm Lb Bb. apply Hyes; [by destruct F1; split; try done; cbn; rewrite Ht|split; try done|exact Bb].
    + exists a, b, m. split_and!; [done..|]. change (live s1 = ({[+ m +]} ⊎ ({[+ b +]} ⊎ ({[+ a +]} ⊎ R)) ⊎
        vmxon_pages (hm_cpu_data s1)) ⊎ vmcs_pages (hm_cpu_data s1)). by rewrite L1, Hl, E1, E2.
    + intros i Hi. destruct (Hc1 i Hi) as (Hlt & p & Hp). split; [change (i < length hws)%nat; lia|]. eauto.
  - change (-1 <? 0) with true. cbn iota.
    assert (Hc2 : can_run (fun _ => True) (set_hm_t t (set_hm_hws hws s1))).
    { intros i Hi. destruct (Hc1 i Hi) as (Hlt & p & Hp). split; [change (i < length hws)%nat; lia|]. eauto. }
    apply wp_bind, disable_vmx_wp; [done..|]. intros s2 P2.
    pose proof (probed_sums _ _ P2) as (E1' & E2' & E3'). pose proof (probed_data _ _ P2 Hd1) as Hd2.
    assert (Hf2 : frame s s2 /\ live s2 = live s).
    { split; [|rewrite <- L1; by destruct P2 as (hws' & v & g & l & -> & _)].
      destruct F1. destruct P2 as (hws' & v & g & l & -> & _). split; try done; [by rewrite E3'|cbn; by rewrite Ht]. }
    destruct Hf2 as [F2 L2]. apply wp_assoc.
    apply (free_regions_wp s2 ({[+ m +]} ⊎ ({[+ b +]} ⊎ ({[+ a +]} ⊎ R)))); [done|by rewrite L2, Hl, E1', E2', <- E1, <- E2|].
    intros h l Hh Hbl. apply wp_bind. apply (out_3_wp a b m R); [done|]. intros h' Hh'. apply wp_ret, Hno; [lia| |done].
    destruct F2 as [G1 G2 G3 G4 G5 G6]. split; try done. change (bases l = bases (hm_cpu_data s)). by rewrite Hbl.
Qed.

Lemma hax_vmx_init_wp R s (Q : Z -> module -> Prop) : startable s -> live s = R ->
  (forall r s', r < 0 -> frame s s' -> live s' = R -> Q r s') ->
  (forall s', frame s s' -> vmx_up R s' -> (forall k, 0 <= k < 32768 -> bm_bit (hm_msr_bitmap s') k = negb (vmx_bits k)) ->
     Q 0 s') ->
  wp (hax_vmx_init uninit ia32_xgetbv) s Q.
Proof.
  intros [Hd Hc Hcur Hs Hx Hv] Hl Hno Hyes. unfold hax_vmx_init.
  apply wp_bind, alloc_wp; [intros a h1 H1|intros h1 H1]; apply wp_bind, wp_modify;
    [|apply wp_ret, Hno; [done|by split|exact (eq_trans H1 Hl)]].
  apply wp_bind, alloc_wp; [intros b h2 H2|intros h2 H2]; apply wp_bind, wp_modify;
    change (live _) with (h_live h1) in H2; rewrite H1, Hl in H2.
  2: { apply wp_bind. eapply free_wp; [exact H2|]. intros h' H'. apply wp_ret, Hno; [done|by split|done]. }
  apply wp_bind, alloc_wp; [intros m h3 H3|intros h3 H3]; apply wp_bind, wp_modify;
    change (live _) with (h_live h2) in H3; rewrite H2 in H3.
  2: { apply wp_bind. eapply free_wp; [exact H3|]. intros h' H'. apply wp_bind. eapply free_wp; [exact H'|].
    intros h'' H''. apply wp_ret, Hno; [done|by split|done]. }
  apply wp_bind, wp_modify. set (R3 := {[+ m +]} ⊎ ({[+ b +]} ⊎ ({[+ a +]} ⊎ R))) in *.
  match goal with |- wp _ ?x _ => set (s3 := x) end.
  apply wp_bind. apply (vmxon_alloc_wp s3 R3); [done..| |].
  2: { intros h4 H4. change (- ENOMEM <? 0) with true. cbn iota. apply wp_bind. apply (out_3_wp a b m R); [done|].
    intros h5 H5. apply wp_ret, Hno; [done| |done]. split; try done. apply cleared_bases_vmxon. }
  intros h4 l4 H4 Hf4. change (0 <? 0) with false. cbn iota.
  assert (Hb4 : bases l4 = bases (hm_cpu_data s)) by (by apply (bases_paged set_pc_vmxon_page)).
  apply wp_bind. apply (vmcs_alloc_wp _ (R3 ⊎ vmxon_pages l4)).
  { by apply (data_ok_bases s _ _ Hb4). }
  { done. }
  { change (vmcs_pages l4 = ∅). rewrite <- Hv. by apply (sum_paged (fun d => opt_ms (pc_vmcs_page d)) set_pc_vmxon_page). }
  2: { intros h5 H5. change (- ENOMEM <? 0) with true. cbn iota. apply wp_bind.
    apply (vmxon_free_wp _ R3).
    - apply (data_ok_bases s (hm_cpu_data s)); [|done]. change (bases (cleared set_pc_vmcs_page l4) = bases (hm_cpu_data s)).
      by rewrite cleared_bases_vmcs.
    - change (h_live h5 = R3 ⊎ vmxon_pages (cleared set_pc_vmcs_page l4)). by rewrite cleared_vmcs_vmxon.
    - intros h6 H6. apply wp_bind. apply (out_3_wp a b m R); [done|].
      intros h7 H7. apply wp_ret, Hno; [done| |done]. split; try done.
      change (bases (cleared set_pc_vmxon_page (cleared set_pc_vmcs_page l4)) = bases (hm_cpu_data s)).
      by rewrite cleared_bases_vmxon, cleared_bases_vmcs. }
  intros h5 l5 H5 Hf5. change (0 <? 0) with false. cbn iota.
  change (hm_cpu_data (with_data h4 l4 s3)) with l4 in Hf5.
  assert (Hb5 : bases l5 = bases (hm_cpu_data s)) by (rewrite <- Hb4; by apply (bases_paged set_pc_vmcs_page)).
  eapply (vmx_start_wp a b m R); try done.
  - by apply (data_ok_bases s _ _ Hb5).
  - apply (paged_can_run (fun p => p.1.2 <> None) _ set_pc_vmcs_page); [by intros d q|by apply (paged_can_run (fun _ => True) _ set_pc_vmxon_page)|done].
  - change (h_live h5 = (R3 ⊎ vmxon_pages l5) ⊎ vmcs_pages l5). rewrite H5.
    unfold vmxon_pages. by rewrite (sum_paged (fun d => opt_ms (pc_vmxon_page d)) set_pc_vmcs_page l4 l5).
  - intros r s' Hr F L. apply Hno; [done| |done]. destruct F as [F1 F2 F3 F4 F5 F6]. split; try done. by rewrite F5.
  - intros s' F U B. apply Hyes; [|done..]. destruct F as [F1 F2 F3 F4 F5 F6]. split; try done. by rewrite F5.
Qed.

(** ** The data of the processors *)
Definition own_base (d : per_cpu_data) : gmultiset Z := opt_ms (pc_hfxpage d) ⊎ {[+ pc_addr d +]}.
Definition data_memory l : gmultiset Z := sum_of own_base l.

Lemma data_memory_bases l l' : bases l' = bases l -> data_memory l' = data_memory l.
Proof.
  intros H. assert (E : forall x, data_memory x =
    foldr (fun o m => from_option (fun b => opt_ms b.2 ⊎ {[+ b.1 +]}) ∅ o ⊎ m) (∅ : gmultiset Z) (bases x)).
  { intros x. unfold data_memory, sum_of, bases. induction x as [|[d|] x IH]; [done|..];
      cbn [map foldr fmap option_fmap option_map from_option]; by rewrite IH. }
  by rewrite !E, H.
Qed.

Lemma free_data_wp s l1 l2 R (Q : unit -> module -> Prop) : hm_cpu_data s = l1 ++ l2 -> live s = R ⊎ data_memory l2 ->
  (forall h, h_live h = R -> Q tt (set_hm_heap h s)) -> wp (free_cpu_data (seq (length l1) (length l2))) s Q.
Proof.
  revert l1 s. induction l2 as [|o l2 IH]; intros l1 s Hd Hl HQ; cbn [free_cpu_data seq length].
  { apply wp_ret. replace s with (set_hm_heap (hm_heap s) s) by by destruct s. apply HQ.
    change (h_live (hm_heap s)) with (live s). rewrite Hl. apply ms_end. }
  apply wp_bind, wp_get. rewrite Hd, lookup_app_r, Nat.sub_diag by lia. cbn [lookup].
  change (mjoin (list_lookup 0%nat (o :: l2))) with o.
  replace (S (length l1)) with (length (l1 ++ [o])) by (rewrite length_app; cbn; lia).
  assert (Hstep : forall h, h_live h = R ⊎ data_memory l2 ->
    wp (free_cpu_data (seq (length (l1 ++ [o])) (length l2))) (set_hm_heap h s) Q).
  { intros h Hh. apply IH; [by rewrite <- app_assoc|done|]. intros h' Hh'. by apply HQ. }
  apply wp_bind. destruct o as [d|].
  2: { apply wp_ret. replace s with (set_hm_heap (hm_heap s) s) by by destruct s. apply Hstep.
    change (h_live (hm_heap s)) with (live s). rewrite Hl. apply ms_skip. }
  assert (Hl' : live s = opt_ms (pc_hfxpage d) ⊎ ({[+ pc_addr d +]} ⊎ (R ⊎ data_memory l2))).
  { rewrite Hl. change (data_memory (Some d :: l2)) with ((opt_ms (pc_hfxpage d) ⊎ {[+ pc_addr d +]}) ⊎ data_memory l2).
    clear. multiset_solver. }
  apply wp_bind. eapply (wp_mono _ _ (fun _ s' => exists h, s' = set_hm_heap h s /\
    h_live h = {[+ pc_addr d +]} ⊎ (R ⊎ data_memory l2))).
  { destruct (pc_hfxpage d) as [p|].
    - eapply free_wp; [exact Hl'|]. intros h Hh. by exists h.
    - apply wp_ret. exists (hm_heap s). split; [by destruct s|]. change (h_live (hm_heap s)) with (live s). rewrite Hl'.
      clear. cbn [opt_ms from_option]. multiset_solver. }
  intros _ s1 (h1 & -> & Hh1). eapply free_wp; [exact Hh1|]. intros h2 Hh2. by apply Hstep.
Qed.

(** No pages of the processors are allocated. *)
Definition no_pages l : Prop := vmxon_pages l = ∅ /\ vmcs_pages l = ∅.
Lemma no_pages_app l1 l2 : no_pages l1 -> no_pages l2 -> no_pages (l1 ++ l2).
Proof. intros [A1 A2] [B1 B2]. unfold no_pages, vmxon_pages, vmcs_pages in *. by rewrite !sum_of_app, A1, A2, B1, B2. Qed.
Lemma no_pages_new d : pc_vmxon_page d = None -> pc_vmcs_page d = None -> no_pages [Some d].
Proof. intros Hx Hv. unfold no_pages, vmxon_pages, vmcs_pages, sum_of. cbn [foldr from_option]. by rewrite Hx, Hv. Qed.
Lemma no_pages_none n : no_pages (replicate n None) /\ data_memory (replicate n None) = ∅.
Proof.
  unfold no_pages, data_memory, vmxon_pages, vmcs_pages, sum_of. induction n as [|n IH]; [done|].
  destruct IH as ((I1 & I2) & I3). cbn [replicate foldr from_option]. by rewrite I1, I2, I3.
Qed.

(** All processors that are online have data. *)
Definition has_data s l : Prop := forall i, (i < length l)%nat -> cpu_is_online s i = true -> exists d, l !! i = Some (Some d).

Lemma has_data_next s l (o : option per_cpu_data) : has_data s l -> (cpu_is_online s (length l) = true -> is_Some o) ->
  has_data s (l ++ [o]).
Proof.
  intros Hon Ho i Hi Hi'. rewrite length_app in Hi. cbn in Hi. destruct (decide (i < length l)%nat) as [Hlt|Hge].
  - rewrite lookup_app_l by done. by apply Hon.
  - assert (i = length l) as -> by lia. destruct (Ho Hi') as [d ->]. exists d. by rewrite lookup_app_r, Nat.sub_diag by lia.
Qed.

Lemma data_memory_app l1 l2 : data_memory (l1 ++ l2) = data_memory l1 ⊎ data_memory l2.
Proof. apply sum_of_app. Qed.
Lemma ms_new2 (p a : Z) (R X : gmultiset Z) :
  {[+ p +]} ⊎ ({[+ a +]} ⊎ (R ⊎ X)) = R ⊎ (X ⊎ (({[+ p +]} ⊎ {[+ a +]}) ⊎ ∅)).
Proof. multiset_solver. Qed.
Lemma ms_new1 (a : Z) (R X : gmultiset Z) : {[+ a +]} ⊎ (R ⊎ X) = R ⊎ (X ⊎ ((∅ ⊎ {[+ a +]}) ⊎ ∅)).
Proof. multiset_solver. Qed.

Lemma alloc_data_wp s h l1 n R (Q : bool -> module -> Prop) :
  data_ok s (l1 ++ replicate n None) -> h_live h = R ⊎ data_memory l1 -> no_pages l1 -> has_data s l1 ->
  (forall r h' l, data_ok s l -> h_live h' = R ⊎ data_memory l -> no_pages l -> (r = true -> has_data s l) ->
     Q r (with_data h' l s)) ->
  wp (alloc_cpu_data (seq (length l1) n)) (with_data h (l1 ++ replicate n None) s) Q.
Proof.
  revert h l1. induction n as [|n IH]; intros h l1 Hok Hl Hp Hon HQ; cbn [alloc_cpu_data seq replicate].
  { apply wp_ret, HQ; rewrite ?app_nil_r in *; done. }
  apply wp_bind, wp_get. change (cpu_is_online (with_data h (l1 ++ None :: replicate n None) s) (length l1))
    with (cpu_is_online s (length l1)).
  assert (Hlen : forall o : option per_cpu_data, S (length l1) = length (l1 ++ [o])) by (intros; rewrite length_app; cbn; lia).
  destruct (no_pages_none n) as [Zp Zd]. destruct (no_pages_none (S n)) as [Zp' Zd'].
  destruct (cpu_is_online s (length l1)) eqn:Eon; cbn [negb].
  2: { cbn [replicate] in Hok. rewrite cons_middle, app_assoc in Hok |- *. rewrite (Hlen None). apply IH; [done| | | |done].
    - rewrite Hl, data_memory_app. change (data_memory [None]) with (∅ ⊎ (∅ : gmultiset Z)). by rewrite !ms_end.
    - by apply no_pages_app.
    - apply has_data_next; [done|congruence]. }
  assert (Hput : forall d, data_ok s (l1 ++ Some d :: replicate n None)) by (intros; by eapply data_ok_at).
  apply wp_bind, alloc_wp; [intros a h1 H1|intros h1 H1]; change (live _) with (h_live h) in H1; rewrite Hl in H1.
  2: { apply wp_ret, HQ; [done| |by apply (no_pages_app l1 (replicate (S n) None))|done].
    rewrite H1, data_memory_app. change (None :: replicate n None) with (replicate (S n) (None : option per_cpu_data)).
    by rewrite Zd', ms_end. }
  apply wp_bind, wp_modify. rewrite put_head.
  apply wp_bind, alloc_wp; [intros p h2 H2|intros h2 H2]; change (live _) with (h_live h1) in H2; rewrite H1 in H2.
  2: { apply wp_ret, HQ; [done| |apply no_pages_app; [done|apply (no_pages_app [_]); [by apply no_pages_new|done]]|done].
    rewrite H2, data_memory_app. change (data_memory (Some (new_cpu_data a) :: replicate n None)) with
      ((∅ ⊎ {[+ a +]}) ⊎ data_memory (replicate n None)). rewrite Zd. apply ms_new1. }
  apply wp_bind, wp_modify. rewrite put_head. rewrite cons_middle, app_assoc.
  match goal with |- context [with_data h2 ((l1 ++ [Some ?x]) ++ _) s] => set (d := x) end.
  rewrite (Hlen (Some d)). apply IH; [rewrite <- app_assoc; apply Hput| | | |done].
  - rewrite H2, data_memory_app. change (data_memory [Some d]) with (({[+ p +]} ⊎ {[+ a +]}) ⊎ (∅ : gmultiset Z)). apply ms_new2.
  - apply no_pages_app; [done|by apply no_pages_new].
  - by apply has_data_next.
Qed.
End Module.
