(* ===== verification/HaxStartProps.v ===== *)
(** * The driver as a whole: [hax_module_init] and [hax_module_exit] *)

From stdpp Require Import base numbers list gmap gmultiset.
From Stdlib Require Import ZArith Lia ZifyBool.
From S2P Require Import Prelude Bitmap MemTypes Memslot GpaSpace EptTree Ept2 VmMemory.
From S2P Require Import EmTypes Cpuid Vmx VcpuState VcpuCr VcpuMsr VcpuExit HostHeap HaxInit HaxInitProps.
From S2P Require Import HaxModuleProps VcpuSync VcpuHost VcpuHostProps.
#[local] Open Scope Z_scope.

Section Start.
Context {HH : Host} {PH : PhysHost} {VH : VmxHw} {CH : CpuidHw} {AH : AllocHost}.
Context (uninit : cpuid_args_t) (ia32_xgetbv : Z -> vhw -> Z).
Context (ept_cap : Z) (Hept : forall h, (ia32_rdmsr IA32_VMX_EPT_VPID_CAP h).1 = ept_cap).
Implicit Types (s : module) (l : list (option per_cpu_data)) (R : gmultiset Z).

(** ** Performance counters *)

(** The processor whose counters are taken has data. *)
Lemma common_version_ref s ids version ref :
  let r := common_version ids s version ref in
  r = (version, ref) \/ exists i d, r.2 = Some i /\ online_data i s = Some d.
Proof.
  revert version ref. induction ids as [|i ids IH]; intros version ref; cbn [common_version]; [by left|].
  destruct (online_data i s) as [d|] eqn:E; [|apply IH]. destruct (_ || _)%bool; [|apply IH].
  destruct (IH (apm_version_of (pc_pmu_info d)) (Some i)) as [H|H]; [|by right]. right. exists i, d. by rewrite H.
Qed.

(** All bits that are cleared, with [n] counters. *)
Definition open_bits (n k : Z) : bool := (vmx_bits k || in_bits 0 0xc1 n k || in_bits 0 0x186 n k)%bool.

Record kept s s' : Prop := {
  kp_hax : hm_hax s' = hm_hax s;
  kp_lock : hm_lock s' = hm_lock s;
  kp_array : hm_cpu_array s' = hm_cpu_array s;
  kp_online : hm_online s' = hm_online s;
  kp_bases : bases (hm_cpu_data s') = bases (hm_cpu_data s);
}.

Lemma small_count_ok c : 0 <= c <= 4 -> access_ok IA32_PMC0 c = true /\ access_ok IA32_PERFEVTSEL0 c = true.
Proof.
  intros Hc. assert (c = 0 \/ c = 1 \/ c = 2 \/ c = 3 \/ c = 4) as Hcs by lia.
  by destruct Hcs as [->|[->|[->|[->| ->]]]].
Qed.

(** The registers of the counters are opened. *)
Lemma counters_access_wp c s (Q : unit -> module -> Prop) : 0 <= c <= 4 ->
  is_Some (hm_msr_bitmap_page s) -> length (hm_msr_bitmap s) = 4096%nat ->
  (forall bm, length bm = 4096%nat ->
     (forall k, 0 <= k -> bm_bit bm k = (bm_bit (hm_msr_bitmap s) k && negb (in_bits 0 0xc1 c k || in_bits 0 0x186 c k))%bool) ->
     Q tt (set_hm_msr_bitmap bm s)) ->
  wp (set_msr_access IA32_PMC0 c true true;; set_msr_access IA32_PERFEVTSEL0 c true true) s Q.
Proof.
  intros Hc Hp Hl HQ. destruct (small_count_ok c Hc) as [O1 O2].
  apply wp_bind, set_msr_access_wp; [done..|]. intros bm1 L1 B1.
  apply set_msr_access_wp; [done..|]. intros bm2 L2 B2. apply (HQ bm2); [done|]. intros k Hk. rewrite B2 by lia.
  change (hm_msr_bitmap (set_hm_msr_bitmap bm1 s)) with bm1. rewrite B1 by lia.
  change (base_of IA32_PMC0) with 0. change (base_of IA32_PERFEVTSEL0) with 0.
  change (IA32_PMC0 &! 0x1fff) with 0xc1. change (IA32_PERFEVTSEL0 &! 0x1fff) with 0x186.
  by destruct (bm_bit (hm_msr_bitmap s) k), (in_bits 0 0xc1 c k), (in_bits 0 0x186 c k).
Qed.

Lemma vmx_up_ext R s s' : vmx_up ept_cap R s -> hm_heap s' = hm_heap s -> hm_cpu_data s' = hm_cpu_data s ->
  hm_io_bitmap_page_a s' = hm_io_bitmap_page_a s -> hm_io_bitmap_page_b s' = hm_io_bitmap_page_b s ->
  hm_msr_bitmap_page s' = hm_msr_bitmap_page s -> hm_online s' = hm_online s -> hm_hws s' = hm_hws s ->
  hm_vm s' = hm_vm s -> cg_cache (hm_cpuid s') = cg_cache (hm_cpuid s) -> length (hm_msr_bitmap s') = 4096%nat ->
  vmx_up ept_cap R s'.
Proof.
  intros [(a & b & m & U1 & U2 & U3 & U4) [U5 U5'] U6 [U7 U8] U9] E1 E2 E3 E4 E5 E6 E7 E8 E9 E10. split; [|..|done].
  - exists a, b, m. unfold live in *. by rewrite E1, E2, E3, E4, E5.
  - split; unfold cpu_num, cpu_is_online in *; by rewrite E2, E6.
  - unfold can_run, cpu_is_online in *. by rewrite E2, E6, E7.
  - split; [by rewrite E8|by rewrite E9].
Qed.

Lemma probed_up R s s' : vmx_up ept_cap R s -> probed ept_cap s s' -> vmx_up ept_cap R s' /\ kept s s' /\
  hm_msr_bitmap s' = hm_msr_bitmap s /\ hm_t s' = hm_t s.
Proof.
  intros [(a & b & m & U1 & U2 & U3 & U4) U5 U6 U7 U8] P. pose proof (probed_sums _ _ _ P) as (E1 & E2 & E3).
  pose proof (probed_data _ _ _ P U5) as D. pose proof (probed_can_run _ _ _ _ P U6) as C.
  assert (L : live s' = live s) by by destruct P as (hws & v & g & l & -> & _).
  split; [|by destruct P as (hws & v & g & l & -> & _)].
  split; [|done|done|by destruct P as (hws & v & g & l & -> & _ & _ & P4)|by destruct P as (hws & v & g & l & -> & _)].
  exists a, b, m. rewrite L, E1, E2. by destruct P as (hws & v & g & l & -> & _).
Qed.

(** The counters that the driver uses. *)
Record counters_ok (t : hax_t) : Prop := {
  co_count : 0 <= hx_apm_general_count t <= 4;
  co_version : hx_apm_version t = 0 -> hx_apm_general_count t = 0;
}.

Lemma hax_pmu_init_wp R s (Q : unit -> module -> Prop) : vmx_up ept_cap R s -> hx_apm_version (hm_t s) = 0 ->
  (forall k, 0 <= k < 32768 -> bm_bit (hm_msr_bitmap s) k = negb (vmx_bits k)) ->
  (forall s', kept s s' -> vmx_up ept_cap R s' -> counters_ok (hm_t s') ->
     (forall k, 0 <= k < 32768 -> bm_bit (hm_msr_bitmap s') k = negb (open_bits (hx_apm_general_count (hm_t s')) k)) ->
     Q tt s') ->
  wp (hax_pmu_init uninit) s Q.
Proof.
  intros U Hver Hbits HQ. unfold hax_pmu_init, hax_smp_call_function. apply wp_bind, wp_bind, wp_get.
  eapply (smp_call_wp ept_cap (fun _ => True)); [intros p _; apply keeps_pmu_init|by apply U|by apply U|].
  intros s1 P1. destruct (probed_up R s s1 U P1) as (U1 & K1 & B1 & T1). clear P1. rewrite <- B1 in Hbits. rewrite <- T1 in Hver.
  apply wp_bind, wp_get. cbv zeta. rewrite Hver.
  destruct (common_version (seq 0 (cpu_num s1)) s1 0 None) as [version ref] eqn:Ec.
  destruct (Z.eqb_spec version 0) as [->|Hv].
  { apply wp_modify, HQ; [by destruct K1|by eapply vmx_up_ext, U1|done|]. intros k Hk. unfold open_bits, in_bits.
    change (bm_bit (hm_msr_bitmap s1) k = negb (vmx_bits k || in_bits 0 0xc1 0 k || in_bits 0 0x186 0 k)).
    rewrite Hbits by done. unfold in_bits. lia. }
  pose proof (common_version_ref s1 (seq 0 (cpu_num s1)) 0 None) as Hr. cbv zeta in Hr. rewrite Ec in Hr.
  destruct Hr as [H|(i & d & H & Hd)]; [congruence|].
  cbn in H. subst ref. apply wp_bind. eapply wp_of_option; [done|].
  assert (Hd' : mjoin (hm_cpu_data s1 !! i) = Some d) by (revert Hd; unfold online_data; by destruct (cpu_is_online s1 i)).
  apply wp_bind. eapply wp_of_option; [exact Hd'|]. set (c := Z.min _ APM_MAX_GENERAL_COUNT).
  assert (Hc : 0 <= c <= 4).
  { unfold c, apm_general_count_of, APM_MAX_GENERAL_COUNT. assert (0 <= (cpuid_eax (pc_pmu_info d) >>! 8) &! 0xff) by (apply Z.land_nonneg; lia). lia. }
  apply wp_bind, wp_modify. apply wp_assoc. destruct U1 as [(a & b & m & A1 & A2 & A3 & A4) D R' Sh Lb].
  apply counters_access_wp; [done|by eexists|done|]. intros bm L B.
  match goal with |- context [match ?x with (_, _) => _ end] => destruct x as [[fixed fixed_bitlen] fixed_mask] end.
  apply wp_bind, wp_modify, wp_modify, HQ; [by destruct K1| |split; [exact Hc|cbn; destruct (1 <? version) eqn:E1; lia]|].
  - eapply (vmx_up_ext R s1); try done. split; try done. by exists a, b, m.
  - intros k Hk. change (bm_bit bm k = negb (open_bits c k)). rewrite B by lia.
    change (hm_msr_bitmap (set_hm_t _ s1)) with (hm_msr_bitmap s1). rewrite Hbits by done. unfold open_bits.
    by destruct (vmx_bits k), (in_bits 0 0xc1 c k), (in_bits 0 0x186 c k).
Qed.

(** ** The module *)
Lemma cpuid_start_wp s (Q : unit -> module -> Prop) :
  (forall g, length (cc_data (cg_cache g)) = 7%nat -> Q tt (set_hm_cpuid g s)) ->
  wp (in_cpuid_of (cpuid_host_init uninit);; in_cpuid_of cpuid_init_supported_features) s Q.
Proof. intros HQ. eexists tt, _. split; [reflexivity|]. by apply HQ. Qed.

(** A machine on which the driver can be loaded. *)
Record machine_ok s : Prop := {
  mo_hws : length (hm_hws s) = cpu_num s;
  mo_cur : (hm_cur s < cpu_num s)%nat;
  mo_caps : vm_ept_capabilities (hm_vm s) = 0;
}.

(** The driver is loaded; [R] is the other memory. *)
Record started R s : Prop := {
  st_pointers : exists h lk a, hm_hax s = Some h /\ hm_lock s = Some lk /\ hm_cpu_array s = Some a /\
    vmx_up ept_cap (({[+ a +]} ⊎ ({[+ lk +]} ⊎ ({[+ h +]} ⊎ R))) ⊎ data_memory (hm_cpu_data s)) s;
  st_no_vms : hm_vms s = 0%nat;
}.

Lemma out_2_wp a lk h R s (Q : Z -> module -> Prop) : length (hm_cpu_data s) = cpu_num s ->
  live s = ({[+ a +]} ⊎ ({[+ lk +]} ⊎ ({[+ h +]} ⊎ R))) ⊎ data_memory (hm_cpu_data s) ->
  (forall hp, h_live hp = R -> Q (- ENOMEM) (set_hm_heap hp s)) ->
  wp (free_cpu_data (seq 0 (cpu_num s));; free a;; free lk;; free h;; mret (- ENOMEM)) s Q.
Proof.
  intros Hn Hl HQ. rewrite <- Hn. apply wp_bind. eapply (free_data_wp s [] (hm_cpu_data s)); [done|exact Hl|].
  intros h1 H1. apply wp_bind. eapply free_wp; [exact H1|]. intros h2 H2. apply wp_bind. eapply free_wp; [exact H2|].
  intros h3 H3. apply wp_bind. eapply free_wp; [exact H3|]. intros h4 H4. by apply wp_ret, HQ.
Qed.

Lemma online_lt s i : cpu_is_online s i = true -> (i < cpu_num s)%nat.
Proof.
  unfold cpu_is_online, cpu_num. intros H. destruct (hm_online s !! i) eqn:E; [|done]. by apply lookup_lt_Some in E.
Qed.

(** The part of [hax_module_init] once the processors have data. *)
Lemma module_vmx_wp a lk h R s0 s (Q : Z -> module -> Prop) :
  machine_ok s0 -> hm_online s = hm_online s0 -> hm_hws s = hm_hws s0 -> hm_cur s = hm_cur s0 -> hm_vm s = hm_vm s0 ->
  hm_hax s = Some h -> hm_lock s = Some lk -> hm_cpu_array s = Some a -> hx_apm_version (hm_t s) = 0 ->
  data_ok s (hm_cpu_data s) -> no_pages (hm_cpu_data s) -> has_data s (hm_cpu_data s) ->
  live s = ({[+ a +]} ⊎ ({[+ lk +]} ⊎ ({[+ h +]} ⊎ R))) ⊎ data_memory (hm_cpu_data s) ->
  (forall s', live s' = R -> Q (- ENOMEM) s') ->
  (forall s', started R s' -> counters_ok (hm_t s') ->
     (forall k, 0 <= k < 32768 -> bm_bit (hm_msr_bitmap s') k = negb (open_bits (hx_apm_general_count (hm_t s')) k)) ->
     Q 0 s') ->
  wp (in_cpuid_of (cpuid_host_init uninit);; in_cpuid_of cpuid_init_supported_features;;
      ret ← hax_vmx_init uninit ia32_xgetbv;
      if ret <? 0 then free_cpu_data (seq 0 (cpu_num s));; free a;; free lk;; free h;; mret (- ENOMEM)
      else hax_pmu_init uninit;; modify (set_hm_vms 0%nat);; mret 0) s Q.
Proof.
  intros [M1 M2 M3] O1 O2 O3 O4 P1 P2 P3 Hver Hd [N1 N2] Hh Hl Hno Hyes.
  apply wp_assoc, cpuid_start_wp. intros g Hg. apply wp_bind.
  assert (Hn : cpu_num s = cpu_num s0) by (unfold cpu_num; by rewrite O1).
  eapply (hax_vmx_init_wp _ _ ept_cap Hept (({[+ a +]} ⊎ ({[+ lk +]} ⊎ ({[+ h +]} ⊎ R))) ⊎ data_memory (hm_cpu_data s)));
    [split; try done|done|..].
  - intros i Hi. pose proof (online_lt s i Hi). split; [change (i < length (hm_hws s))%nat; rewrite O2; lia|].
    destruct (Hh i) as [d Hdi]; [rewrite (proj1 Hd); lia|done|]. exists (pages d). split; [|done].
    unfold pages_of. rewrite list_lookup_fmap. change (hm_cpu_data (set_hm_cpuid g s)) with (hm_cpu_data s). by rewrite Hdi.
  - change (hm_cur s < length (hm_hws s))%nat. rewrite O2, O3. lia.
  - split; [left; change (hm_vm (set_hm_cpuid g s)) with (hm_vm s); by rewrite O4|done].
  - intros r s1 Hr [F1 F2 F3 F4 F5 F6] L1. rewrite (proj2 (Z.ltb_lt r 0) Hr).
    assert (Hn1 : cpu_num s1 = cpu_num s) by (unfold cpu_num; by rewrite F4). rewrite <- Hn1.
    apply (out_2_wp a lk h R).
    + assert (length (bases (hm_cpu_data s1)) = length (bases (hm_cpu_data s))) as El by by rewrite F5.
      unfold bases in El. rewrite !length_map in El. rewrite El, Hn1. apply Hd.
    + rewrite L1. f_equal. symmetry. by apply data_memory_bases.
    + intros hp Hp. by apply Hno.
  - intros s1 [F1 F2 F3 F4 F5 F6] U1 B1. change (0 <? 0) with false. cbn iota. apply wp_bind.
    eapply hax_pmu_init_wp; [done..|by rewrite F6|done|]. intros s2 [K1 K2 K3 K4 K5] U2 C2 B2.
    apply wp_bind, wp_modify, wp_ret, Hyes; [|done|done]. split; [|done]. exists h, lk, a.
    split_and!; [by rewrite <- P1; exact (eq_trans K1 F1)|by rewrite <- P2; exact (eq_trans K2 F2)|by rewrite <- P3; exact (eq_trans K3 F3)|].
    change (hm_cpu_data (set_hm_vms 0 s2)) with (hm_cpu_data s2).
    rewrite (data_memory_bases (hm_cpu_data s) (hm_cpu_data s2)) by (by rewrite K5, F5).
    by eapply vmx_up_ext; [exact U2|..|apply U2].
Qed.

Lemma hax_module_init_wp threshold s R (Q : Z -> module -> Prop) : machine_ok s -> live s = R ->
  (forall s', live s' = R -> Q (- ENOMEM) s') ->
  (forall s', started R s' -> counters_ok (hm_t s') ->
     (forall k, 0 <= k < 32768 -> bm_bit (hm_msr_bitmap s') k = negb (open_bits (hx_apm_general_count (hm_t s')) k)) ->
     Q 0 s') ->
  wp (hax_module_init uninit ia32_xgetbv threshold) s Q.
Proof.
  intros Hm Hl Hno Hyes. unfold hax_module_init.
  apply wp_bind, alloc_wp; [intros h h1 H1|intros h1 H1]; [|apply wp_ret, Hno; exact (eq_trans H1 Hl)].
  rewrite Hl in H1. apply wp_bind, wp_modify, wp_bind, wp_modify.
  apply wp_bind, alloc_wp; [intros lk h2 H2|intros h2 H2]; apply wp_bind, wp_modify;
    change (live _) with (h_live h1) in H2; rewrite H1 in H2.
  2: { apply wp_bind. eapply free_wp; [exact H2|]. intros h' H'. by apply wp_ret, Hno. }
  apply wp_bind, wp_gets.
  apply wp_bind, alloc_wp; [intros a h3 H3|intros h3 H3]; apply wp_bind, wp_modify;
    change (live _) with (h_live h2) in H3; rewrite H2 in H3.
  2: { apply wp_bind. eapply free_wp; [exact H3|]. intros h' H'. apply wp_bind. eapply free_wp; [exact H'|].
    intros h'' H''. by apply wp_ret, Hno. }
  apply wp_bind, wp_modify. change (cpu_num (set_hm_lock _ _)) with (cpu_num s).
  match goal with |- wp _ ?x _ => set (s4 := x) end. rewrite <- (with_data_eta s4).
  change (hm_cpu_data s4) with ([] ++ replicate (cpu_num s) (None : option per_cpu_data)).
  apply wp_bind. eapply (alloc_data_wp ia32_xgetbv ept_cap Hept s4 h3 [] (cpu_num s) ({[+ a +]} ⊎ ({[+ lk +]} ⊎ ({[+ h +]} ⊎ R)))).
  - split; [by rewrite length_app, length_replicate|]. intros i d Hi. by apply lookup_replicate in Hi as [? _].
  - rewrite H3. symmetry. apply ms_end.
  - done.
  - intros i Hi. by apply Nat.nlt_0_r in Hi.
  - intros r h5 l5 D5 L5 N5 Hd5. destruct r; cbn [negb].
    + eapply (module_vmx_wp a lk h R s (with_data h5 l5 s4)); try done. by apply Hd5.
    + apply (out_2_wp a lk h R (with_data h5 l5 s4)); [by apply D5|exact L5|]. intros hp Hp. by apply Hno.
Qed.

Lemma free_ptr_wp a R s p (Q : unit -> module -> Prop) : p = Some a -> live s = {[+ a +]} ⊎ R ->
  (forall h, h_live h = R -> Q tt (set_hm_heap h s)) -> wp (free_ptr p) s Q.
Proof. intros -> Hl HQ. apply wp_bind. eapply wp_of_option; [done|]. by eapply free_wp. Qed.

Lemma hax_vmx_exit_wp R s (Q : Z -> module -> Prop) : vmx_up ept_cap R s ->
  (forall s', kept s s' -> live s' = R -> Q 0 s') -> wp hax_vmx_exit s Q.
Proof.
  intros U HQ. unfold hax_vmx_exit. apply wp_bind, (disable_vmx_wp ept_cap); [apply U|apply U|].
  intros s1 P1. destruct (probed_up R s s1 U P1) as (U1 & K1 & _ & _). clear P1.
  destruct U1 as [(a & b & m & A1 & A2 & A3 & A4) D _ _ _]. apply wp_assoc.
  eapply free_regions_wp; [done|exact A4|]. intros h l Hh Hb. apply wp_bind, wp_get.
  apply wp_bind. eapply free_ptr_wp; [exact A3|exact Hh|]. intros h1 H1.
  apply wp_bind. eapply free_ptr_wp; [exact A2|exact H1|]. intros h2 H2.
  apply wp_bind. eapply free_ptr_wp; [exact A1|exact H2|]. intros h3 H3. apply wp_ret, HQ; [|done].
  destruct K1 as [K1 K2 K3 K4 K5]. split; try done. change (bases l = bases (hm_cpu_data s)). by rewrite Hb.
Qed.

Lemma hax_module_exit_wp ret R s (Q : Z -> module -> Prop) : started R s -> 0 <= ret ->
  (forall s', live s' = R -> Q 0 s') -> wp (hax_module_exit ret) s Q.
Proof.
  intros [(h & lk & a & P1 & P2 & P3 & U) Hv] Hr HQ. unfold hax_module_exit. apply wp_bind, wp_get.
  rewrite Hv. cbn [Nat.eqb negb]. rewrite (proj2 (Z.ltb_ge ret 0) Hr). apply wp_bind, (hax_vmx_exit_wp _ _ _ U).
  intros s1 [K1 K2 K3 K4 K5] L1. apply wp_bind.
  assert (Hn : cpu_num s = length (hm_cpu_data s1)).
  { rewrite <- (proj1 (vu_data _ _ _ U)). rewrite <- (length_map (fmap base) (hm_cpu_data s)), <- (length_map (fmap base) (hm_cpu_data s1)).
    f_equal. symmetry. exact K5. }
  rewrite Hn. eapply (free_data_wp s1 [] (hm_cpu_data s1)); [done|by rewrite L1, (data_memory_bases _ _ K5)|]. intros h1 H1.
  apply wp_bind. eapply free_ptr_wp; [exact P3|exact H1|]. intros h2 H2.
  apply wp_bind. eapply free_ptr_wp; [exact P2|exact H2|]. intros h3 H3.
  apply wp_bind. eapply free_ptr_wp; [exact P1|exact H3|]. intros h4 H4. by apply wp_ret, HQ.
Qed.

(** ** The MSRs of the bitmaps: the numbers from 0 and those from 0xc0000000 on *)
Definition in_msr_ranges (m : Z) : Prop := 0 <= m < 0x2000 \/ 0xc0000000 <= m < 0xc0002000.
Definition msr_index (m : Z) : Z := if m <? 0x2000 then m else 8192 + (m - 0xc0000000).
(** The guest's access does not cause a VM exit. *)
Definition may_read s (m : Z) : bool := negb (bm_bit (hm_msr_bitmap s) (msr_index m)).
Definition may_write s (m : Z) : bool := negb (bm_bit (hm_msr_bitmap s) (16384 + msr_index m)).

Definition counter_msrs (base : Z) (n : nat) : list Z := map (fun i => base + Z.of_nat i) (seq 0 n).
Definition pass_through (n : Z) : list Z :=
  [IA32_STAR; IA32_LSTAR; IA32_CSTAR; IA32_SF_MASK; IA32_KERNEL_GS_BASE; IA32_TSC_AUX] ++
  counter_msrs IA32_PMC0 (Z.to_nat n) ++ counter_msrs IA32_PERFEVTSEL0 (Z.to_nat n).

Lemma elem_counter m base n : m ∈ counter_msrs base n <-> base <= m < base + Z.of_nat n.
Proof.
  unfold counter_msrs. rewrite list_elem_of_fmap. split.
  - intros (i & -> & Hi). apply elem_of_seq in Hi. lia.
  - intros H. exists (Z.to_nat (m - base)). split; [lia|]. apply elem_of_seq. lia.
Qed.

Lemma elem_pass_through m n : 0 <= n -> m ∈ pass_through n <->
  0xc0000081 <= m <= 0xc0000084 \/ m = 0xc0000102 \/ m = 0xc0000103 \/ 0xc1 <= m < 0xc1 + n \/ 0x186 <= m < 0x186 + n.
Proof.
  intros Hn. unfold pass_through. rewrite !elem_of_app, !elem_counter, !elem_of_cons, elem_of_nil.
  unfold IA32_STAR, IA32_LSTAR, IA32_CSTAR, IA32_SF_MASK, IA32_KERNEL_GS_BASE, IA32_TSC_AUX, IA32_PMC0, IA32_PERFEVTSEL0. lia.
Qed.

Lemma open_bits_spec n m : 0 <= n <= 4 -> in_msr_ranges m ->
  open_bits n (msr_index m) = bool_decide (m ∈ pass_through n) /\
  open_bits n (16384 + msr_index m) = bool_decide (m ∈ pass_through n).
Proof.
  intros Hn Hm. pose proof (elem_pass_through m n ltac:(lia)) as E.
  unfold msr_index, in_msr_ranges in *. destruct (Z.ltb_spec m 0x2000) as [Hlt|Hge];
    (split; apply eq_true_iff_eq; rewrite bool_decide_eq_true, E; unfold open_bits, vmx_bits, in_bits; lia).
Qed.

(** C19. The driver starts and stops without losing memory: [hax_module_init] returns, whatever
    allocations fail and whatever the processors report; when it fails, everything that it has
    allocated is freed, and nothing else; when it succeeds, [hax_module_exit] returns 0 and frees
    exactly what was allocated. *)
Theorem module_memory threshold s : machine_ok s ->
  exists r s', hax_module_init uninit ia32_xgetbv threshold s = Some (r, s') /\
    ((r = - ENOMEM /\ live s' = live s) \/
     (r = 0 /\ exists s'', hax_module_exit 0 s' = Some (0, s'') /\ live s'' = live s)).
Proof.
  intros Hm. eapply (hax_module_init_wp threshold s (live s)); [done|done|auto|]. intros s1 Hs _ _. right. split; [done|].
  destruct (hax_module_exit_wp 0 (live s) s1 (fun r s2 => r = 0 /\ live s2 = live s) Hs) as (r & s2 & E & -> & L); eauto.
  lia.
Qed.

(** C20. When the driver has started, a guest can read and write without a VM exit exactly the
    system-call MSRs, the base address of SWAPGS, TSC_AUX, and the counters and event selectors
    that the driver uses, at most four of each. *)
Theorem msr_pass_through threshold s s' m : machine_ok s ->
  hax_module_init uninit ia32_xgetbv threshold s = Some (0, s') -> in_msr_ranges m ->
  counters_ok (hm_t s') /\
  may_read s' m = bool_decide (m ∈ pass_through (hx_apm_general_count (hm_t s'))) /\
  may_write s' m = bool_decide (m ∈ pass_through (hx_apm_general_count (hm_t s'))).
Proof.
  intros Hm Hrun Hr.
  assert (H : wp (hax_module_init uninit ia32_xgetbv threshold) s (fun r s2 => r = 0 -> counters_ok (hm_t s2) /\
    forall k, 0 <= k < 32768 -> bm_bit (hm_msr_bitmap s2) k = negb (open_bits (hx_apm_general_count (hm_t s2)) k))).
  { by eapply (hax_module_init_wp threshold s (live s)). }
  destruct H as (r & s2 & E & H). rewrite Hrun in E. injection E as <- <-. destruct (H eq_refl) as [Hc Hb].
  split; [done|]. destruct (open_bits_spec (hx_apm_general_count (hm_t s')) m (co_count _ Hc) Hr) as [O1 O2].
  assert (0 <= msr_index m < 16384) by (unfold msr_index, in_msr_ranges in *; destruct (Z.ltb_spec m 0x2000); lia).
  unfold may_read, may_write. by rewrite !Hb, !negb_involutive, O1, O2 by lia.
Qed.
End Start.
