(* ===== verification/HaxDemo.v ===== *)
(** * Instances of the theorems on the start of the driver

    A machine with three processors, the last of which is offline. *)

From stdpp Require Import base numbers list gmap gmultiset.
From Stdlib Require Import ZArith Lia.
From S2P Require Import Prelude MemTypes Memslot SimpleHost MemslotProps GpaSpace EptTree EptProps Ept2 Ept2Props.
From S2P Require Import VmMemory VmMemoryProps EmTypes Cpuid CpuidDemo Vmx VcpuState VcpuCr VcpuMsr VcpuExit.
From S2P Require Import VcpuSync VcpuHost VcpuHostProps HostHeap HaxInit HaxInitProps HaxModuleProps HaxStartProps.
#[local] Open Scope Z_scope.

(** The capability MSRs; the other registers hold 0. *)
Definition probe_msr (m : Z) : Z :=
  if m =? IA32_EFER then 0xd01
  else if m =? IA32_FEATURE_CONTROL then 5
  else if m =? IA32_VMX_BASIC then 0x12
  else if m =? IA32_VMX_PROCBASED_CTLS then Z.shiftl 0xffffffff 32
  else if m =? IA32_VMX_SECONDARY_CTLS then Z.shiftl 0xffffffff 32
  else if m =? IA32_VMX_MISC then IA32_VMX_MISC_UG_AVAILABLE
  else if m =? IA32_VMX_EPT_VPID_CAP then ept_cap_WB |! ept_cap_invept_ac
  else 0.

#[export] Instance probe_vmx : VmxHw := {
  vhw := unit;
  asm_vmxon h := (0, h);
  asm_vmxoff h := (0, h);
  asm_vmptrld h := (0, h);
  asm_vmclear h := (0, h);
  get_cr4 h := 0x2020;
  set_cr4 x h := h;
  ia32_rdmsr m h := (probe_msr m, h);
  ia32_wrmsr m x h := h;
  ia32_rdtsc h := (0x1000, h);
  hax_cpu_id h := 0;
  get_dr n h := 0;
  set_dr n x h := h;
  ia32_xsetbv i x h := h;
}.
#[export] Instance probe_alloc : AllocHost := { host_alloc k h := (true, h) }.

Definition probe_xgetbv (i : Z) (h : vhw) : Z := 7.
Definition probe_hax : hax_t := HaxT false false false false 0 0 0 0 0 0 0 0 0.
Definition probe_machine : module :=
  HaxModule (Heap ∅ 0x1000 ([] : hstate)) None None probe_hax None [true; true; false] [] [tt; tt; tt] 0 None None
    None [] (demo_boot 0) start_globals 0.

Lemma probe_machine_ok : machine_ok probe_machine.
Proof. split; [reflexivity|cbn; lia|reflexivity]. Qed.

Lemma module_memory_witness :
  exists r s', hax_module_init no_args probe_xgetbv 0 probe_machine = Some (r, s') /\
    ((r = - ENOMEM /\ live s' = live probe_machine) \/
     (r = 0 /\ exists s'', hax_module_exit 0 s' = Some (0, s'') /\ live s'' = live probe_machine)).
Proof.
  exact (module_memory no_args probe_xgetbv (probe_msr IA32_VMX_EPT_VPID_CAP) (fun _ => eq_refl) 0 probe_machine
    probe_machine_ok).
Defined.

Definition state_of (o : option (Z * module)) : module := match o with Some (_, s) => s | None => probe_machine end.
Definition probe_running : module := state_of (hax_module_init no_args probe_xgetbv 0 probe_machine).
Lemma state_of_eq o : fst <$> o = Some 0 -> o = Some (0, state_of o).
Proof. destruct o as [[r s]|]; [|done]. cbn. by intros [= ->]. Qed.
Lemma probe_started_ok : hax_module_init no_args probe_xgetbv 0 probe_machine = Some (0, probe_running).
Proof. apply state_of_eq. vm_compute. reflexivity. Qed.

(** LSTAR needs no exit, the MSR of the local APIC does. *)
Lemma msr_pass_through_witness :
  may_read probe_running IA32_LSTAR = true /\ may_write probe_running 0x1b = false.
Proof.
  assert (R1 : in_msr_ranges IA32_LSTAR) by (right; unfold IA32_LSTAR; lia).
  assert (R2 : in_msr_ranges 0x1b) by (left; lia).
  pose proof (fun m => msr_pass_through no_args probe_xgetbv (probe_msr IA32_VMX_EPT_VPID_CAP) (fun _ => eq_refl) 0
    probe_machine probe_running m probe_machine_ok probe_started_ok) as H.
  split.
  - etransitivity; [apply (H _ R1)|]. vm_compute. reflexivity.
  - etransitivity; [apply (H _ R2)|]. vm_compute. reflexivity.
Defined.
