(* ===== verification/VcpuInit.v ===== *)
(** * A new virtual CPU (src/core/vcpu.c, and [load_vmcs_common] of src/core/cpu.c)

    [vcpu_init] gives the registers their values after power-up, [vcpu_prepare] fills the VMCS
    for the first time: the host's registers, the controls as far as the processor supports
    them ([info]), and then the guest's registers.  Addresses of pages are parameters. *)

From stdpp Require Import base numbers list gmap.
From Stdlib Require Import ZArith Lia.
From S2P Require Import IntrExc Prelude MemTypes Memslot GpaSpace PageWalker Mmio.
From S2P Require Import EmTypes Emulate EptTree Ept2 VcpuEmu Cpuid Vmx VcpuState VcpuCr VcpuMsr.
From S2P Require Import VcpuExit VcpuSync VcpuHost HostHeap HaxInit.
#[local] Open Scope Z_scope.

Definition EXT_INTERRUPT_EXITING : Z := 0x00000001.
Definition NMI_EXITING : Z := 0x00000008.
Definition USE_TSC_OFFSETTING : Z := 0x00000008.
Definition HLT_EXITING : Z := 0x00000080.
Definition CR8_LOAD_EXITING : Z := 0x00080000.
Definition CR8_STORE_EXITING : Z := 0x00100000.
Definition DR_EXITING : Z := 0x00800000.
Definition IO_BITMAP_ACTIVE : Z := 0x02000000.
Definition MSR_BITMAP_ACTIVE : Z := 0x10000000.
Definition ENABLE_RDTSCP : Z := 0x00000008.
Definition UNRESTRICTED_GUEST : Z := 0x00000080.
Definition ENABLE_INVPCID : Z := 0x00001000.
Definition EXIT_CONTROL_SAVE_DEBUG_CONTROLS : Z := 0x00000004.
Definition EXIT_CONTROL_HOST_ADDR_SPACE_SIZE : Z := 0x00000200.
Definition EXIT_CONTROL_LOAD_PAT : Z := 0x00080000.
Definition ENTRY_CONTROL_LOAD_DEBUG_CONTROLS : Z := 0x00000004.
Definition VMX_VPID : Z := 0x0.
Definition VMX_PIN_CONTROLS : Z := 0x4000.
Definition VMX_PAGE_FAULT_ERROR_CODE_MASK : Z := 0x4006.
Definition VMX_PAGE_FAULT_ERROR_CODE_MATCH : Z := 0x4008.
Definition VMX_CR3_TARGET_COUNT : Z := 0x400a.
Definition VMX_EXIT_CONTROLS : Z := 0x400c.
Definition VMX_EXIT_MSR_STORE_COUNT : Z := 0x400e.
Definition VMX_EXIT_MSR_LOAD_COUNT : Z := 0x4010.
Definition VMX_IO_BITMAP_A : Z := 0x2000.
Definition VMX_IO_BITMAP_B : Z := 0x2002.
Definition VMX_MSR_BITMAP : Z := 0x2004.
Definition VMX_EXIT_MSR_STORE_ADDRESS : Z := 0x2006.
Definition VMX_EXIT_MSR_LOAD_ADDRESS : Z := 0x2008.
Definition VMX_ENTRY_MSR_LOAD_ADDRESS : Z := 0x200a.
Definition VMX_CR3_TARGET_VAL_BASE : Z := 0x6008.
Definition GUEST_VMCS_LINK_PTR : Z := 0x2800.
Definition GUEST_PENDING_DBE : Z := 0x6822.
Definition GUEST_ACTIVITY_STATE : Z := 0x4826.

Definition max_cr3_targets (info : info_t) : Z := (xi_miscellaneous info >>! 16) &! 0x1ff.

Section Init.
Context {HH : Host} {PH : PhysHost} {VH : VmxHw} {CH : CpuidHw} {KH : KernelHw}.
Context (G : hax_globals) (uninit : cpuid_args_t) (info : info_t).
Context (io_bitmap_a_pa io_bitmap_b_pa msr_bitmap_pa gmsr_autoload_pa : Z).
#[local] Notation st := vcpu.

(** ** Values after power-up *)
Definition get_segment_desc_t (s b l a : Z) (d : segment_desc_t) : segment_desc_t :=
  SegmentDesc s (sd_dummy d) l b a (sd_ipad d).
Definition init_seg (s : seg_t) (selector base limit ar : Z) (v : st) : st :=
  set_seg s (get_segment_desc_t selector base limit ar (get_seg s v)) v.
Definition set_desc (base limit : Z) (d : segment_desc_t) : segment_desc_t :=
  SegmentDesc (sd_selector d) (sd_dummy d) (u32 limit) base (sd_ar d) (sd_ipad d).
Definition set_gdt (base limit : Z) (v : st) : st := set_cv_gdt (set_desc base limit (cv_gdt v)) v.
Definition set_idt (base limit : Z) (v : st) : st := set_cv_idt (set_desc base limit (cv_idt v)) v.

Definition clear_cr_masks (v : st) : st :=
  let c := cv_ctls v in
  set_cv_ctls (VmxCtls (vt_pcpu_ctls_base c) (vt_scpu_ctls_base c) (vt_exc_bitmap_base c)
    (vt_scpu_ctls c) (vt_exc_bitmap c) (vt_entry_ctls c) 0 0 0 0 (vt_exit_intr_info c)) v.

(** [vcpu_0] is the result of [hax_get_vcpu] for the first virtual CPU of the VM, whose table
    is shared; this one has no table of its own. *)
Definition vcpu_init_cpuid (vcpu_0 : option (option hax_cpuid_t)) : M st unit :=
  v ← get;
  if negb (rs_vcpu_id (cv_run v) =? 0) then
    match vcpu_0 with
    | None => mret tt
    | Some guest_cpuid => modify (set_cv_cpuid guest_cpuid)
    end
  else
    cpuid ← in_cpuid (cpuid_guest_init uninit);
    modify (set_cv_cpuid (Some cpuid));;
    valid_xcr0 ← in_cpuid (cpuid_post_set_features cpuid);
    modify (set_valid_xcr0 valid_xcr0).

(** [entry_exception_vector] is written here and never used. *)
Definition vcpu_init_state : M st unit :=
  modify (set_cv_cr_pat 0x0007040600070406);;
  modify (set_cur_state GS_VALID);;
  modify clear_cr_masks;;
  t ← rdtsc;
  modify (set_cv_tsc_offset (u64 (0 - t)));;
  modify (fun v => set_rflags 2 (ev_rflags_dirty (emu v)) v);;
  modify (fun v => set_rip_of 0x0000fff0 (ev_rip_dirty (emu v)) v);;
  modify (set_cr0 0x60000010);;
  modify (init_seg SegCS 0xf000 0xffff0000 0xffff 0x93);;
  modify (init_seg SegSS 0 0 0xffff 0x93);;
  modify (init_seg SegDS 0 0 0xffff 0x93);;
  modify (init_seg SegES 0 0 0xffff 0x93);;
  modify (init_seg SegFS 0 0 0xffff 0x93);;
  modify (init_seg SegGS 0 0 0xffff 0x93);;
  modify (set_gdt 0 0xffff);;
  modify (set_idt 0 0xffff);;
  modify (init_seg SegLDTR 0 0 0xffff 0x82);;
  modify (init_seg SegTR 0 0 0xffff 0x83);;
  modify (set_cv_dr (DRegs 0 0 0 0 DR6_SETBITS DR7_SETBITS));;
  modify (set_dr_dirty true);;
  modify (set_gstate_gmsr (map (fun entry => VmxMsr entry 0) gmsr_list));;
  modify (set_gstate_apic_base (APIC_BASE_DEFAULT_ADDR |! APIC_BASE_ENABLE));;
  modify (fun v => if vcpu_is_bsp v
                   then set_gstate_apic_base (apic_base (cv_gstate v) |! APIC_BASE_BSP) v else v).

Definition vcpu_init (vcpu_0 : option (option hax_cpuid_t)) : M st unit :=
  vcpu_init_state;; vcpu_init_cpuid vcpu_0;; vcpu_init_fx.

(** ** The VMCS *)

(** The controls are read back from the VMCS; the activity state of a virtual CPU is always
    0. *)
Definition cache_controls (pin pcpu scpu exc entry exit : Z) (v : st) : st :=
  let c := cv_ctls v in
  set_cv_pin_ctls pin (set_cv_exit_ctls exit
    (set_intr (set_pcpu_ctls pcpu (intr v))
      (set_cv_ctls (VmxCtls pcpu scpu exc scpu exc entry (vt_cr0_mask c) (vt_cr0_shadow c)
                      (vt_cr4_mask c) (vt_cr4_shadow c) (vt_exit_intr_info c)) v))).

Definition load_vmcs_common : M st unit :=
  pin ← vmrd VMX_PIN_CONTROLS;
  pcpu ← vmrd VMX_PRIMARY_PROCESSOR_CONTROLS;
  scpu ← (if has (u32 pcpu) SECONDARY_CONTROLS then vmrd VMX_SECONDARY_PROCESSOR_CONTROLS else mret 0);
  exc ← vmrd VMX_EXCEPTION_BITMAP;
  entry ← vmrd VMX_ENTRY_CONTROLS;
  exit ← vmrd VMX_EXIT_CONTROLS;
  modify (cache_controls (u32 pin) (u32 pcpu) (u32 scpu) (u32 exc) (u32 entry) (u32 exit));;
  (if has (u32 pcpu) IO_BITMAP_ACTIVE
   then vmwr VMX_IO_BITMAP_A io_bitmap_a_pa;; vmwr VMX_IO_BITMAP_B io_bitmap_b_pa else mret tt);;
  (if has (u32 pcpu) MSR_BITMAP_ACTIVE then vmwr VMX_MSR_BITMAP msr_bitmap_pa else mret tt);;
  (if has (u32 pcpu) USE_TSC_OFFSETTING
   then v ← get; vmwr VMX_TSC_OFFSET (cv_tsc_offset v) else mret tt);;
  vmwr GUEST_ACTIVITY_STATE 0;;
  vcpu_vmwrite_all G.

(** [WRITE_CONTROLS] *)
Definition write_controls (f ctls v : Z) : M st Z :=
  let g := (v &! ctls_1 ctls) |! ctls_0 ctls in vmwr f g;; mret g.

(** A field gets a register of the processor. *)
Definition write_reg (f : Z) (r : vhw -> Z) : M st unit := v ← get; vmwr f (r (hw_of v)).
Definition write_msr_to (f msr : Z) : M st unit := x ← rdmsr msr; vmwr f x.

Definition write_host_area : M st unit :=
  write_reg HOST_CR0 get_cr0;; write_reg HOST_CR3 get_cr3;; write_reg HOST_CR4 get_cr4;;
  write_reg HOST_CS_SELECTOR (get_kernel_seg KCs);;
  write_reg HOST_SS_SELECTOR (get_kernel_seg KSs);;
  write_reg HOST_DS_SELECTOR (fun h => get_kernel_seg KDs h &! 0xfff8);;
  write_reg HOST_ES_SELECTOR (fun h => get_kernel_seg KEs h &! 0xfff8);;
  write_reg HOST_FS_SELECTOR (get_kernel_seg KFs);;
  write_reg HOST_GS_SELECTOR (get_kernel_seg KGs);;
  write_msr_to HOST_FS_BASE IA32_FS_BASE;;
  write_msr_to HOST_GS_BASE IA32_GS_BASE;;
  write_reg HOST_TR_SELECTOR get_kernel_tr_selector;;
  write_reg HOST_TR_BASE get_kernel_tr_base;;
  write_reg HOST_GDTR_BASE get_kernel_gdtr_base;;
  write_reg HOST_IDTR_BASE get_kernel_idtr_base.

Fixpoint clear_cr3_targets (i : Z) (n : nat) : M st unit :=
  match n with
  | O => mret tt
  | S n => vmwr (VMX_CR3_TARGET_VAL_BASE + i * 2) 0;; clear_cr3_targets (i + 1) n
  end.

Definition write_entry_area (scpu_ctls : Z) : M st unit :=
  _ ← write_controls VMX_PIN_CONTROLS (xi_pin_ctls info) (EXT_INTERRUPT_EXITING |! NMI_EXITING);
  pcpu_ctls ← write_controls VMX_PRIMARY_PROCESSOR_CONTROLS (xi_pcpu_ctls info)
    (IO_BITMAP_ACTIVE |! MSR_BITMAP_ACTIVE |! DR_EXITING |! INTERRUPT_WINDOW_EXITING |!
     USE_TSC_OFFSETTING |! HLT_EXITING |! CR8_LOAD_EXITING |! CR8_STORE_EXITING |! SECONDARY_CONTROLS);
  (if has pcpu_ctls SECONDARY_CONTROLS
   then _ ← write_controls VMX_SECONDARY_PROCESSOR_CONTROLS (xi_scpu_ctls info) scpu_ctls; mret tt
   else mret tt);;
  vcpu_update_exception_bitmap;;
  exit_ctls ← write_controls VMX_EXIT_CONTROLS (xi_exit_ctls info)
    (EXIT_CONTROL_HOST_ADDR_SPACE_SIZE |! EXIT_CONTROL_LOAD_EFER |!
     EXIT_CONTROL_SAVE_DEBUG_CONTROLS |! EXIT_CONTROL_LOAD_PAT);
  (if has exit_ctls EXIT_CONTROL_LOAD_EFER then write_msr_to HOST_EFER IA32_EFER else mret tt);;
  write_msr_to HOST_PAT IA32_CR_PAT;;
  v ← get; vmwr GUEST_PAT (cv_cr_pat v);;
  _ ← write_controls VMX_ENTRY_CONTROLS (xi_entry_ctls info) ENTRY_CONTROL_LOAD_DEBUG_CONTROLS;
  vmwr VMX_PAGE_FAULT_ERROR_CODE_MASK 0;;
  vmwr VMX_PAGE_FAULT_ERROR_CODE_MATCH 0;;
  vmwr VMX_EXIT_MSR_STORE_COUNT 0;;
  vmwr VMX_EXIT_MSR_STORE_ADDRESS 0;;
  vmwr VMX_EXIT_MSR_LOAD_COUNT 0;;
  vmwr VMX_EXIT_MSR_LOAD_ADDRESS 0;;
  vmwr VMX_ENTRY_INTERRUPT_INFO 0;;
  vmwr VMX_ENTRY_MSR_LOAD_COUNT 0;;
  vmwr VMX_ENTRY_MSR_LOAD_ADDRESS gmsr_autoload_pa;;
  vmwr VMX_ENTRY_INSTRUCTION_LENGTH 0;;
  vmwr VMX_CR3_TARGET_COUNT 0;;
  clear_cr3_targets 0 (Z.to_nat (max_cr3_targets info));;
  vmwr GUEST_DR7 DR7_SETBITS;;
  vmwr GUEST_PENDING_DBE 0;;
  vmwr GUEST_VMCS_LINK_PTR (Z.ones 64);;
  vmwr GUEST_INTERRUPTIBILITY 0.

(** The secondary controls, and the VPID. *)
Definition choose_scpu_ctls : M st Z :=
  let scpu_ctls := ENABLE_EPT in
  rdtscp ← has_feature uninit X86_FEATURE_RDTSCP;
  let scpu_ctls := if rdtscp : bool then scpu_ctls |! ENABLE_RDTSCP else scpu_ctls in
  let scpu_ctls := if hg_ug_enable_flag G then scpu_ctls |! UNRESTRICTED_GUEST else scpu_ctls in
  procbased ← rdmsr IA32_VMX_PROCBASED_CTLS;
  scpu_ctls ← (
    if has procbased (Z.shiftl SECONDARY_CONTROLS 32) then
      secondary ← rdmsr IA32_VMX_SECONDARY_CTLS;
      v ← get;
      if (has secondary (Z.shiftl ENABLE_VPID 32) && negb (cv_vpid v =? 0))%bool
      then vmwr VMX_VPID (cv_vpid v);; mret (scpu_ctls |! ENABLE_VPID)
      else mret scpu_ctls
    else mret scpu_ctls);
  invpcid ← has_feature uninit X86_FEATURE_INVPCID;
  mret (if invpcid : bool then scpu_ctls |! ENABLE_INVPCID else scpu_ctls).

Definition fill_common_vmcs : M st unit :=
  scpu_ctls ← choose_scpu_ctls;
  vmcs_err ← in_vmx load_vmcs;
  if negb (vmcs_err =? 0) then set_panic
  else
    write_host_area;;
    write_entry_area scpu_ctls;;
    load_vmcs_common;;
    vmcs_err ← in_vmx put_vmcs;
    if negb (vmcs_err =? 0) then set_panic else mret tt.

Definition vcpu_prepare : M st unit := fill_common_vmcs.
End Init.
