(* ===== verification/VcpuFillProps.v ===== *)
(** * Filling the VMCS of a new virtual CPU: the controls, and the checks at VM entry *)

From stdpp Require Import base numbers list gmap.
From Stdlib Require Import ZArith Lia.
From S2P Require Import IntrExc Prelude MemTypes Memslot GpaSpace PageWalker Mmio EmTypes.
From S2P Require Import Emulate EptTree Ept2 VcpuEmu Cpuid Vmx VmxProps VcpuState VcpuCr VcpuMsr.
From S2P Require Import VcpuExit VcpuSync VcpuHost HostHeap HaxInit HaxInitProps.
From S2P Require Import VcpuInit EmCache CpuidProps CpuidFeatures VcpuCrProps VcpuCrExit.
#[local] Open Scope Z_scope.

(** ** Fields *)

(** Only the fields of [l] are different. *)
Definition only (l : list Z) (m m' : gmap Z Z) : Prop := forall g, g ∉ l -> vmcs_value m' g = vmcs_value m g.

Lemma only_refl l m : only l m m.
Proof. by intros g. Qed.
Lemma only_insert l f x m m' : only l m m' -> f ∈ l -> only l m (<[f := x]> m').
Proof. intros H Hf g Hg. rewrite value_insert. destruct (Z.eqb_spec f g) as [->|]; [done|]. by apply H. Qed.

(** The CR3 targets are at most 512 fields. *)
Definition cr3_target (g : Z) : Prop := VMX_CR3_TARGET_VAL_BASE <= g < VMX_CR3_TARGET_VAL_BASE + 1024.

(** The value of a field that later steps leave alone. *)
Ltac not_in := apply (bool_decide_unpack _); by vm_compute.
Ltac look := repeat match goal with
  | |- context [vmcs_value (<[?f := ?x]> ?m) ?g] =>
      rewrite (value_insert m f g x); let b := eval vm_compute in (f =? g) in change (f =? g) with b; cbn iota
  | H : only ?l ?m ?m' |- context [vmcs_value ?m' ?g] => rewrite (H g) by not_in
  | H : forall g, ~ cr3_target g -> vmcs_value ?m' g = _ |- context [vmcs_value ?m' ?g] =>
      rewrite (H g) by (unfold cr3_target; vm_compute; intuition discriminate)
  end.

(** ** Steps in an open section *)

Section Steps.
Context {HH : Host} {PH : PhysHost} {VH : VmxHw} {CH : CpuidHw} {KH : KernelHw}.
Implicit Types (v : vcpu) (c : vmx_cpu) (m : gmap Z Z).

(** The virtual CPU [v] with the processor [c] and the VMCS [m]. *)
Definition sv v c m : vcpu := set_vmx (VmxSt _ c m (panicked v)) v.
(** One section is open. *)
Definition sec c : Prop := vmx_inv c /\ depth c = 1.

Lemma sec_hw h c : sec c -> sec (set_vx_hw h c).
Proof. intros [[H1 H2 H3 H4 H5 H6 H7] Hd]. by split. Qed.

Lemma sec_in v c m : sec c -> in_section (sv v c m).
Proof. intros [Hc Hd]. split; [exact Hc|]. cbn. lia. Qed.

Lemma vmwr_wp f x v c m (Q : unit -> vcpu -> Prop) : sec c ->
  Q tt (sv v c (<[f := field_value f x]> m)) -> wp (vmwr f x) (sv v c m) Q.
Proof. intros Hc HQ. eexists _, _. split; [apply vmwr_sec, sec_in, Hc|exact HQ]. Qed.

Lemma vmrd_wp f v c m (Q : Z -> vcpu -> Prop) : sec c ->
  Q (vmcs_value m f) (sv v c m) -> wp (vmrd f) (sv v c m) Q.
Proof. intros Hc HQ. eexists _, _. split; [apply vmrd_sec, sec_in, Hc|exact HQ]. Qed.

Lemma rdmsr_sec_wp msr v c m (Q : Z -> vcpu -> Prop) : sec c ->
  (forall x c', sec c' -> Q x (sv v c' m)) -> wp (rdmsr msr) (sv v c m) Q.
Proof.
  intros Hc HQ. unfold rdmsr. apply wp_bind, wp_get. destruct (ia32_rdmsr msr _) as [x h].
  apply wp_bind, wp_modify, wp_ret. exact (HQ x _ (sec_hw h c Hc)).
Qed.

Lemma write_reg_wp f r v c m (Q : unit -> vcpu -> Prop) : sec c ->
  (forall x, Q tt (sv v c (<[f := field_value f x]> m))) -> wp (write_reg f r) (sv v c m) Q.
Proof. intros Hc HQ. apply wp_bind, wp_get, vmwr_wp; [done|]. apply HQ. Qed.

Lemma write_msr_to_wp f msr v c m (Q : unit -> vcpu -> Prop) : sec c ->
  (forall x c', sec c' -> Q tt (sv v c' (<[f := field_value f x]> m))) -> wp (write_msr_to f msr) (sv v c m) Q.
Proof. intros Hc HQ. apply wp_bind, rdmsr_sec_wp; [done|]. intros x c' Hc'. apply vmwr_wp; [done|]. by apply HQ. Qed.

(** A bit that may be 1 and is asked for, or that must be 1. *)
Definition control (ctls req : Z) : Z := (req &! ctls_1 ctls) |! ctls_0 ctls.

Lemma write_controls_wp f ctls req v c m (Q : Z -> vcpu -> Prop) : sec c ->
  Q (control ctls req) (sv v c (<[f := field_value f (control ctls req)]> m)) ->
  wp (write_controls f ctls req) (sv v c m) Q.
Proof. intros Hc HQ. apply wp_bind, vmwr_wp; [done|]. by apply wp_ret. Qed.

Definition host_fields : list Z :=
  [HOST_CR0; HOST_CR3; HOST_CR4; HOST_CS_SELECTOR; HOST_SS_SELECTOR; HOST_DS_SELECTOR; HOST_ES_SELECTOR;
   HOST_FS_SELECTOR; HOST_GS_SELECTOR; HOST_FS_BASE; HOST_GS_BASE; HOST_TR_SELECTOR; HOST_TR_BASE;
   HOST_GDTR_BASE; HOST_IDTR_BASE].

Ltac next := apply wp_bind;
  match goal with
  | |- wp (write_reg _ _) _ _ => apply write_reg_wp; [assumption|intros ?]
  | |- wp (write_msr_to _ _) _ _ => apply write_msr_to_wp; [assumption|intros ? ? ?]
  | |- wp (vmwr _ _) _ _ => apply vmwr_wp; [assumption|]
  end.

Lemma write_host_area_wp v c m (Q : unit -> vcpu -> Prop) : sec c ->
  (forall c' m', sec c' -> only host_fields m m' -> Q tt (sv v c' m')) -> wp write_host_area (sv v c m) Q.
Proof.
  intros Hc HQ. unfold write_host_area. repeat next. apply write_reg_wp; [assumption|intros ?]. apply HQ; [assumption|].
  repeat (apply only_insert; [|apply (bool_decide_unpack _); by vm_compute]). apply only_refl.
Qed.

Lemma max_cr3_targets_range info : 0 <= max_cr3_targets info < 512.
Proof. unfold max_cr3_targets. change 0x1ff with (Z.ones 9). rewrite Z.land_ones by lia. apply Z.mod_pos_bound. lia. Qed.

Lemma clear_cr3_targets_wp n i v c m (Q : unit -> vcpu -> Prop) : sec c -> 0 <= i -> i + Z.of_nat n <= 512 ->
  (forall m', (forall g, ~ cr3_target g -> vmcs_value m' g = vmcs_value m g) -> Q tt (sv v c m')) ->
  wp (clear_cr3_targets i n) (sv v c m) Q.
Proof.
  revert i m. induction n as [|n IH]; intros i m Hc Hi Hn HQ; cbn [clear_cr3_targets].
  - apply wp_ret, HQ. done.
  - apply wp_bind, vmwr_wp; [done|]. apply IH; [done|lia|lia|]. intros m' Hm'. apply HQ. intros g Hg.
    rewrite Hm' by done. rewrite value_insert. destruct (Z.eqb_spec (VMX_CR3_TARGET_VAL_BASE + i * 2) g) as [<-|]; [|done].
    destruct Hg. unfold cr3_target. lia.
Qed.

(** ** The controls *)
Context (info : info_t) (gmsr_autoload_pa : Z).

Definition pin_request : Z := EXT_INTERRUPT_EXITING |! NMI_EXITING.
Definition pcpu_request : Z :=
  IO_BITMAP_ACTIVE |! MSR_BITMAP_ACTIVE |! DR_EXITING |! INTERRUPT_WINDOW_EXITING |! USE_TSC_OFFSETTING |!
  HLT_EXITING |! CR8_LOAD_EXITING |! CR8_STORE_EXITING |! SECONDARY_CONTROLS.
Definition exit_request : Z :=
  EXIT_CONTROL_HOST_ADDR_SPACE_SIZE |! EXIT_CONTROL_LOAD_EFER |! EXIT_CONTROL_SAVE_DEBUG_CONTROLS |!
  EXIT_CONTROL_LOAD_PAT.
Definition secondary : bool := has (control (xi_pcpu_ctls info) pcpu_request) SECONDARY_CONTROLS.

(** The fields after [write_entry_area]. *)
Record filled (scpu exc : Z) m : Prop := {
  fl_pin : vmcs_value m VMX_PIN_CONTROLS = u32 (control (xi_pin_ctls info) pin_request);
  fl_pcpu : vmcs_value m VMX_PRIMARY_PROCESSOR_CONTROLS = u32 (control (xi_pcpu_ctls info) pcpu_request);
  fl_scpu : secondary = true ->
    vmcs_value m VMX_SECONDARY_PROCESSOR_CONTROLS = u32 (control (xi_scpu_ctls info) scpu);
  fl_exc : vmcs_value m VMX_EXCEPTION_BITMAP = u32 exc;
  fl_exit : vmcs_value m VMX_EXIT_CONTROLS = u32 (control (xi_exit_ctls info) exit_request);
  fl_entry : vmcs_value m VMX_ENTRY_CONTROLS = u32 (control (xi_entry_ctls info) ENTRY_CONTROL_LOAD_DEBUG_CONTROLS);
  fl_counts : vmcs_value m VMX_EXIT_MSR_STORE_COUNT = 0 /\ vmcs_value m VMX_EXIT_MSR_LOAD_COUNT = 0 /\
    vmcs_value m VMX_ENTRY_MSR_LOAD_COUNT = 0 /\ vmcs_value m VMX_CR3_TARGET_COUNT = 0;
  fl_event : vmcs_value m VMX_ENTRY_INTERRUPT_INFO = 0;
  fl_debug : vmcs_value m GUEST_DR7 = DR7_SETBITS /\ vmcs_value m GUEST_PENDING_DBE = 0;
  fl_link : vmcs_value m GUEST_VMCS_LINK_PTR = Z.ones 64;
}.

Lemma efer_if_wp (b : bool) f msr v c m (Q : unit -> vcpu -> Prop) : sec c ->
  (forall c' m', sec c' -> only [f] m m' -> Q tt (sv v c' m')) ->
  wp (if b then write_msr_to f msr else mret tt) (sv v c m) Q.
Proof.
  intros Hc HQ. destruct b; [|by apply wp_ret, HQ]. apply write_msr_to_wp; [done|]. intros x c' Hc'. apply HQ; [done|].
  apply only_insert; [done|]. by apply list_elem_of_here.
Qed.

Lemma scpu_if_wp (b : bool) f ctls req v c m (Q : unit -> vcpu -> Prop) : sec c ->
  (forall m', only [f] m m' -> (b = true -> vmcs_value m' f = field_value f (control ctls req)) -> Q tt (sv v c m')) ->
  wp (if b then _ ← write_controls f ctls req; mret tt else mret tt) (sv v c m) Q.
Proof.
  intros Hc HQ. destruct b; [|by apply wp_ret, HQ]. apply wp_bind, write_controls_wp; [done|]. apply wp_ret, HQ.
  - apply only_insert; [done|]. by apply list_elem_of_here.
  - intros _. by rewrite value_insert, Z.eqb_refl.
Qed.

Lemma write_entry_area_wp scpu v c m (Q : unit -> vcpu -> Prop) : sec c ->
  (forall c' m', sec c' -> filled scpu (exception_bitmap (cv_debug_control v)) m' ->
     vmcs_value m' VMX_VPID = vmcs_value m VMX_VPID -> Q tt (sv v c' m')) ->
  wp (write_entry_area info gmsr_autoload_pa scpu) (sv v c m) Q.
Proof.
  intros Hc HQ. unfold write_entry_area. fold pcpu_request pin_request exit_request.
  apply wp_bind, write_controls_wp; [done|]. apply wp_bind, write_controls_wp; [done|]. fold secondary.
  apply wp_bind, scpu_if_wp; [done|]. intros m1 Hm1 Hs. apply wp_bind, wp_bind, wp_get, vmwr_wp; [done|].
  apply wp_bind, write_controls_wp; [done|]. apply wp_bind, efer_if_wp; [done|]. intros c2 m2 Hc2 Hm2.
  next. apply wp_bind, wp_get. next. apply wp_bind, write_controls_wp; [done|]. do 11 next.
  pose proof (max_cr3_targets_range info). apply wp_bind, clear_cr3_targets_wp; [done|lia|lia|]. intros m3 Hm3.
  do 3 next. apply vmwr_wp; [done|]. apply HQ; [done| |by look].
  split; try intros Hsec; look; try done. by rewrite Hs.
Qed.
End Steps.

Section Enter.
Context {HH : Host} {PH : PhysHost} {VH : VmxHw} {CH : CpuidHw} {KH : KernelHw}.
Context (G : hax_globals) (uninit : cpuid_args_t) (info : info_t).
Context (io_bitmap_a_pa io_bitmap_b_pa msr_bitmap_pa gmsr_autoload_pa : Z).
Implicit Types (v : vcpu) (c : vmx_cpu) (m : gmap Z Z).

(** ** The guest's registers *)
Definition seg_map (s : seg_t) (d : segment_desc_t) m : gmap Z Z :=
  let put f x := <[f := field_value f x]> in
  put (seg_ar s) (if sd_ar d =? 0 then 0x10000 else sd_ar d)
    (put (seg_limit s) (sd_limit d) (put (seg_base s) (sd_base d) (put (seg_selector s) (sd_selector d) m))).
Definition desc_map (base_field limit_field : Z) (d : segment_desc_t) m : gmap Z Z :=
  <[limit_field := field_value limit_field (sd_limit d)]> (<[base_field := field_value base_field (sd_base d)]> m).
Definition regs_map v m : gmap Z Z :=
  <[GUEST_RSP := field_value GUEST_RSP (gpr v RSP)]>
    (<[GUEST_RFLAGS := field_value GUEST_RFLAGS (rflags v)]> (<[GUEST_RIP := field_value GUEST_RIP (rip v)]> m)).
Definition all_map v m : gmap Z Z :=
  let seg s := seg_map s (get_seg s v) in
  <[GUEST_INTERRUPTIBILITY := field_value GUEST_INTERRUPTIBILITY (vc_interruptibility_state (intr v))]>
    (desc_map GUEST_IDTR_BASE GUEST_IDTR_LIMIT (cv_idt v) (desc_map GUEST_GDTR_BASE GUEST_GDTR_LIMIT (cv_gdt v)
      (seg SegTR (seg SegLDTR (seg SegSS (seg SegGS (seg SegFS (seg SegES (seg SegDS (seg SegCS (regs_map v m))))))))))).
Definition all_regs v : vcpu :=
  set_fs_base_dirty false (set_rflags (rflags v) false (set_rip_of (rip v) false v)).

Lemma VMWRITE_SEG_wp s d v c m (Q : unit -> vcpu -> Prop) : sec c ->
  Q tt (sv v c (seg_map s d m)) -> wp (VMWRITE_SEG s d) (sv v c m) Q.
Proof. intros Hc HQ. do 3 (apply wp_bind, vmwr_wp; [done|]). by apply vmwr_wp. Qed.

Lemma VMWRITE_DESC_wp bf lf d v c m (Q : unit -> vcpu -> Prop) : sec c ->
  Q tt (sv v c (desc_map bf lf d m)) -> wp (VMWRITE_DESC bf lf d) (sv v c m) Q.
Proof. intros Hc HQ. apply wp_bind, vmwr_wp; [done|]. by apply vmwr_wp. Qed.

Lemma vmwrite_all_wp v c m (Q : unit -> vcpu -> Prop) : sec c -> cr_ready v ->
  Q tt (cr_written G (sv (all_regs v) c (all_map v m))) -> wp (vcpu_vmwrite_all G) (sv v c m) Q.
Proof.
  intros Hc [He Hp] HQ. unfold vcpu_vmwrite_all. apply wp_bind, wp_get.
  apply wp_bind, vmwr_wp; [done|]. apply wp_bind, wp_modify.
  match goal with |- wp _ ?x _ => change x with
    (sv (set_rip_of (rip v) false v) c (<[GUEST_RIP := field_value GUEST_RIP (rip v)]> m)) end.
  apply wp_bind, vmwr_wp; [done|]. apply wp_bind, wp_modify.
  match goal with |- wp _ ?x _ => change x with
    (sv (set_rflags (rflags v) false (set_rip_of (rip v) false v)) c
       (<[GUEST_RFLAGS := field_value GUEST_RFLAGS (rflags v)]> (<[GUEST_RIP := field_value GUEST_RIP (rip v)]> m))) end.
  apply wp_bind, vmwr_wp; [done|].
  do 4 (apply wp_bind, VMWRITE_SEG_wp; [done|]). apply wp_bind, wp_modify.
  match goal with |- wp _ (set_fs_base_dirty _ (sv _ c ?x)) _ =>
    match goal with |- wp _ ?y _ => change y with (sv (all_regs v) c x) end end.
  do 4 (apply wp_bind, VMWRITE_SEG_wp; [done|]). do 2 (apply wp_bind, VMWRITE_DESC_wp; [done|]).
  apply wp_bind, vmwr_wp; [done|]. eexists tt, _. split; [|exact HQ].
  apply vmwrite_cr_sec; [by apply sec_in|]. by split.
Qed.

(** The fields of the guest's registers. *)
Record guest_area v m : Prop := {
  ga_seg : forall s, let d := get_seg s v in
    vmcs_value m (seg_selector s) = sd_selector d mod 2 ^ 16 /\ vmcs_value m (seg_base s) = u64 (sd_base d) /\
    vmcs_value m (seg_limit s) = u32 (sd_limit d) /\
    vmcs_value m (seg_ar s) = u32 (if sd_ar d =? 0 then 0x10000 else sd_ar d);
  ga_rip : vmcs_value m GUEST_RIP = u64 (rip v);
  ga_rflags : vmcs_value m GUEST_RFLAGS = u64 (rflags v);
  ga_rsp : vmcs_value m GUEST_RSP = u64 (gpr v RSP);
  ga_gdt : vmcs_value m GUEST_GDTR_BASE = u64 (sd_base (cv_gdt v)) /\
    vmcs_value m GUEST_GDTR_LIMIT = u32 (sd_limit (cv_gdt v));
  ga_idt : vmcs_value m GUEST_IDTR_BASE = u64 (sd_base (cv_idt v)) /\
    vmcs_value m GUEST_IDTR_LIMIT = u32 (sd_limit (cv_idt v));
  ga_intr : vmcs_value m GUEST_INTERRUPTIBILITY = u32 (vc_interruptibility_state (intr v));
}.

Definition segs : list seg_t := [SegES; SegCS; SegSS; SegDS; SegFS; SegGS; SegLDTR; SegTR].
Definition guest_fields : list Z :=
  flat_map (fun s => [seg_selector s; seg_base s; seg_limit s; seg_ar s]) segs ++
  [GUEST_RIP; GUEST_RFLAGS; GUEST_RSP; GUEST_GDTR_BASE; GUEST_GDTR_LIMIT; GUEST_IDTR_BASE; GUEST_IDTR_LIMIT;
   GUEST_INTERRUPTIBILITY].

Lemma all_map_area v m : guest_area v (all_map v m).
Proof.
  unfold all_map, seg_map, desc_map, regs_map. cbv zeta.
  split; [intros s; destruct s; cbv zeta; look; done|..]; look; done.
Qed.

Lemma all_map_only v m : only guest_fields m (all_map v m).
Proof.
  unfold all_map, seg_map, desc_map, regs_map. cbv zeta.
  repeat (apply only_insert; [|not_in]). apply only_refl.
Qed.

(** ** [load_vmcs_common] *)
Definition common_fields : list Z :=
  [VMX_IO_BITMAP_A; VMX_IO_BITMAP_B; VMX_MSR_BITMAP; VMX_TSC_OFFSET; GUEST_ACTIVITY_STATE].

Definition cached m v : vcpu :=
  let pcpu := u32 (vmcs_value m VMX_PRIMARY_PROCESSOR_CONTROLS) in
  cache_controls (u32 (vmcs_value m VMX_PIN_CONTROLS)) pcpu
    (u32 (if has pcpu SECONDARY_CONTROLS then vmcs_value m VMX_SECONDARY_PROCESSOR_CONTROLS else 0))
    (u32 (vmcs_value m VMX_EXCEPTION_BITMAP)) (u32 (vmcs_value m VMX_ENTRY_CONTROLS))
    (u32 (vmcs_value m VMX_EXIT_CONTROLS)) v.

Lemma vmwr_if_wp (b : bool) f x v c m (Q : unit -> vcpu -> Prop) : sec c ->
  (forall m', only [f] m m' -> Q tt (sv v c m')) -> wp (if b then vmwr f x else mret tt) (sv v c m) Q.
Proof.
  intros Hc HQ. destruct b; [|by apply wp_ret, HQ]. apply vmwr_wp; [done|]. apply HQ.
  apply only_insert; [done|]. by apply list_elem_of_here.
Qed.

Lemma only_weaken l l' m m' : only l m m' -> (forall g, g ∈ l -> g ∈ l') -> only l' m m'.
Proof. intros H Hl g Hg. apply H. intros Hin. by apply Hg, Hl. Qed.
Lemma only_trans l m m1 m2 : only l m m1 -> only l m1 m2 -> only l m m2.
Proof. intros H1 H2 g Hg. by rewrite H2, H1. Qed.
Lemma only_one f l m m' : only [f] m m' -> f ∈ l -> only l m m'.
Proof. intros H Hf. apply (only_weaken _ _ _ _ H). by intros g ->%list_elem_of_singleton. Qed.

Lemma load_common_wp v c m (Q : unit -> vcpu -> Prop) : sec c -> cr_ready v ->
  (forall m1, only common_fields m m1 -> vmcs_value m1 GUEST_ACTIVITY_STATE = 0 ->
     let v1 := cached m v in Q tt (cr_written G (sv (all_regs v1) c (all_map v1 m1)))) ->
  wp (load_vmcs_common G io_bitmap_a_pa io_bitmap_b_pa msr_bitmap_pa) (sv v c m) Q.
Proof.
  intros Hc [He Hp] HQ. unfold load_vmcs_common. do 2 (apply wp_bind, vmrd_wp; [done|]). apply wp_bind.
  assert (Hs : forall Q', Q' (if has (u32 (vmcs_value m VMX_PRIMARY_PROCESSOR_CONTROLS)) SECONDARY_CONTROLS
      then vmcs_value m VMX_SECONDARY_PROCESSOR_CONTROLS else 0) (sv v c m) ->
    wp (if has (u32 (vmcs_value m VMX_PRIMARY_PROCESSOR_CONTROLS)) SECONDARY_CONTROLS
        then vmrd VMX_SECONDARY_PROCESSOR_CONTROLS else mret 0) (sv v c m) Q').
  { intros Q' HQ'. destruct (has _ _); [by apply vmrd_wp|by apply wp_ret]. }
  apply Hs. clear Hs. do 3 (apply wp_bind, vmrd_wp; [done|]). apply wp_bind, wp_modify.
  match goal with |- wp _ ?x _ => change x with (sv (cached m v) c m) end.
  set (v1 := cached m v) in *. assert (Hr1 : cr_ready v1) by by split. clearbody v1.
  apply wp_bind. match goal with |- wp (if ?b then _ else _) _ ?R =>
    assert (H1 : forall m1, only common_fields m m1 -> R tt (sv v1 c m1));
    [|destruct b; [apply wp_bind, vmwr_wp, vmwr_wp; [done..|]; apply H1; do 2 (apply only_insert; [|not_in]); done
      |by apply wp_ret, H1]] end.
  intros m1 Hm1. apply wp_bind, vmwr_if_wp; [done|]. intros m2 Hm2. apply wp_bind.
  match goal with |- wp (if ?b then _ else _) _ ?R => assert (H3 : forall m3, only common_fields m m3 -> R tt (sv v1 c m3)) end.
  { intros m3 Hm3. apply wp_bind, vmwr_wp; [done|]. apply vmwrite_all_wp; [done|done|]. apply HQ.
    - by apply only_insert; [|not_in].
    - by look. }
  assert (H2 : only common_fields m m2) by (eapply only_trans, only_one; [exact Hm1|exact Hm2|not_in]).
  destruct (has _ USE_TSC_OFFSETTING); [|by apply wp_ret, H3]. apply wp_bind, wp_get, vmwr_wp; [done|]. apply H3.
  by apply only_insert; [|not_in].
Qed.
End Enter.
