(* ===== verification/VcpuNewProps.v ===== *)
(** * A new virtual CPU can be entered

    The checks that the processor makes at VM entry on the controls and on the state of the
    guest (Intel SDM Vol. 3C, 26.2.1 and 26.3.1), and the proof that the VMCS of a new virtual
    CPU passes them. *)

From stdpp Require Import base numbers list gmap.
From Stdlib Require Import ZArith Lia.
From S2P Require Import IntrExc Prelude MemTypes Memslot GpaSpace PageWalker Mmio.
From S2P Require Import EmTypes Emulate EmCache EptTree Ept2 VcpuEmu Cpuid CpuidProps CpuidFeatures Vmx VmxProps.
From S2P Require Import VcpuState VcpuCr VcpuMsr VcpuExit VcpuSync VcpuCrProps VcpuCrExit VcpuHost.
From S2P Require Import HostHeap HaxInit HaxInitProps VcpuInit VcpuFillProps.
#[local] Open Scope Z_scope.

#[export] Instance seg_t_eq_dec : EqDecision seg_t.
Proof. solve_decision. Defined.

(** ** The checks *)

(** A control word: the bits that must be 1 are 1, and only bits that may be 1 are. *)
Definition allowed (ctls x : Z) : Prop := Z.ldiff (ctls_0 ctls) x = 0 /\ Z.ldiff x (ctls_1 ctls) = 0.

(** Granularity and limit of a segment. *)
Definition limit_ok (limit ar : Z) : bool :=
  ((negb (has ar 0x8000) || (limit &! 0xfff =? 0xfff)) && (has ar 0x8000 || (limit >>! 20 =? 0)))%bool.
(** Present, with no reserved bit set and usable; [s] is the descriptor type bit. *)
Definition seg_common (s : bool) (limit ar : Z) : bool :=
  (has ar 0x80 && Bool.eqb (has ar 0x10) s && (ar &! 0xfffe0f00 =? 0) && negb (has ar 0x10000) && limit_ok limit ar)%bool.
Definition ar_type (ar : Z) : Z := ar &! 0xf.
Definition ar_dpl (ar : Z) : Z := (ar >>! 5) &! 0x3.

Section Checks.
Variable m : gmap Z Z.
Let ar (s : seg_t) : Z := vmcs_value m (seg_ar s).
Let limit (s : seg_t) : Z := vmcs_value m (seg_limit s).

(** A guest in real mode: the code segment is writable data, which unrestricted guests may have. *)
Definition real_mode_segs : bool :=
  ((ar_type (ar SegCS) =? 3) && (ar_dpl (ar SegCS) =? 0) && (ar_type (ar SegSS) =? 3) && (ar_dpl (ar SegSS) =? 0) &&
   forallb (fun s => (seg_common true (limit s) (ar s) && Z.testbit (ar_type (ar s)) 0)%bool)
     [SegCS; SegSS; SegDS; SegES; SegFS; SegGS] &&
   seg_common false (limit SegTR) (ar SegTR) && (ar_type (ar SegTR) =? 3) &&
   negb (Z.testbit (vmcs_value m (seg_selector SegTR)) 2) &&
   seg_common false (limit SegLDTR) (ar SegLDTR) && (ar_type (ar SegLDTR) =? 2) &&
   negb (Z.testbit (vmcs_value m (seg_selector SegLDTR)) 2) &&
   (vmcs_value m (seg_base SegCS) >>! 32 =? 0) && (vmcs_value m (seg_base SegSS) >>! 32 =? 0) &&
   (vmcs_value m GUEST_GDTR_LIMIT >>! 16 =? 0) && (vmcs_value m GUEST_IDTR_LIMIT >>! 16 =? 0))%bool.

(** RFLAGS: bit 1 is 1, the other reserved bits, VM and IF are 0. *)
Definition rflags_ok : bool :=
  let x := vmcs_value m GUEST_RFLAGS in
  (Z.testbit x 1 && (x &! 0x28028 =? 0) && (x >>! 22 =? 0) && negb (has x 0x200))%bool.
End Checks.

Section New.
Context {HH : Host} {PH : PhysHost} {VH : VmxHw} {CH : CpuidHw} {KH : KernelHw}.
Context (G : hax_globals) (uninit : cpuid_args_t) (info : info_t).
Context (io_bitmap_a_pa io_bitmap_b_pa msr_bitmap_pa gmsr_autoload_pa : Z).
Implicit Types (v : vcpu) (c : vmx_cpu) (m : gmap Z Z).

Record controls_checked m : Prop := {
  cc_pin : allowed (xi_pin_ctls info) (vmcs_value m VMX_PIN_CONTROLS);
  cc_pcpu : allowed (xi_pcpu_ctls info) (vmcs_value m VMX_PRIMARY_PROCESSOR_CONTROLS);
  cc_secondary : has (vmcs_value m VMX_PRIMARY_PROCESSOR_CONTROLS) SECONDARY_CONTROLS = true;
  cc_scpu : allowed (xi_scpu_ctls info) (vmcs_value m VMX_SECONDARY_PROCESSOR_CONTROLS);
  cc_ept : has (vmcs_value m VMX_SECONDARY_PROCESSOR_CONTROLS) ENABLE_EPT = true;
  cc_ug : has (vmcs_value m VMX_SECONDARY_PROCESSOR_CONTROLS) UNRESTRICTED_GUEST = true;
  cc_vpid : has (vmcs_value m VMX_SECONDARY_PROCESSOR_CONTROLS) ENABLE_VPID = true -> vmcs_value m VMX_VPID <> 0;
  cc_exit : allowed (xi_exit_ctls info) (vmcs_value m VMX_EXIT_CONTROLS);
  cc_entry : allowed (xi_entry_ctls info) (vmcs_value m VMX_ENTRY_CONTROLS);
  cc_counts : vmcs_value m VMX_EXIT_MSR_STORE_COUNT = 0 /\ vmcs_value m VMX_EXIT_MSR_LOAD_COUNT = 0 /\
    vmcs_value m VMX_ENTRY_MSR_LOAD_COUNT = 0 /\ vmcs_value m VMX_CR3_TARGET_COUNT = 0;
  cc_event : vmcs_value m VMX_ENTRY_INTERRUPT_INFO = 0;
}.

Record guest_checked m : Prop := {
  gc_crs : cr_valid G m;
  gc_real : has (vmcs_value m GUEST_CR0) CR0_PE = false /\ has (vmcs_value m GUEST_CR0) CR0_PG = false;
  gc_mode : has (vmcs_value m VMX_ENTRY_CONTROLS) ENTRY_CONTROL_LONG_MODE_GUEST = false;
  gc_segs : real_mode_segs m = true;
  gc_rflags : rflags_ok m = true;
  gc_rip : vmcs_value m GUEST_RIP >>! 32 = 0;
  gc_dr7 : vmcs_value m GUEST_DR7 >>! 32 = 0;
  gc_link : vmcs_value m GUEST_VMCS_LINK_PTR = Z.ones 64;
  gc_active : vmcs_value m GUEST_ACTIVITY_STATE = 0 /\ vmcs_value m GUEST_INTERRUPTIBILITY = 0 /\
    vmcs_value m GUEST_PENDING_DBE = 0;
}.

(** ** What the processor supports *)
Record caps_ok (ctls : Z) : Prop := {
  ck_range : 0 <= ctls < 2 ^ 64;
  ck_sub : Z.ldiff (ctls_0 ctls) (ctls_1 ctls) = 0;
}.
(** A processor that the driver can use: EPT, unrestricted guests, loading of the PAT; a guest
    need not be in long mode. *)
Record info_ok : Prop := {
  io_pin : caps_ok (xi_pin_ctls info);
  io_pcpu : caps_ok (xi_pcpu_ctls info);
  io_scpu : caps_ok (xi_scpu_ctls info);
  io_exit : caps_ok (xi_exit_ctls info);
  io_entry : caps_ok (xi_entry_ctls info);
  io_secondary : has (ctls_1 (xi_pcpu_ctls info)) SECONDARY_CONTROLS = true;
  io_ept : has (ctls_1 (xi_scpu_ctls info)) ENABLE_EPT = true;
  io_ug : has (ctls_1 (xi_scpu_ctls info)) UNRESTRICTED_GUEST = true;
  io_vpid : has (ctls_0 (xi_scpu_ctls info)) ENABLE_VPID = false;
  io_pat : has (ctls_1 (xi_entry_ctls info)) ENTRY_CONTROL_LOAD_PAT = true;
  io_mode : has (ctls_0 (xi_entry_ctls info)) ENTRY_CONTROL_LONG_MODE_GUEST = false;
  io_efer : has (ctls_0 (xi_entry_ctls info)) ENTRY_CONTROL_LOAD_EFER = false;
}.

(** ** Control words *)
Lemma ctls_range ctls : caps_ok ctls -> 0 <= ctls_0 ctls < 2 ^ 32 /\ 0 <= ctls_1 ctls < 2 ^ 32.
Proof.
  intros [Hr _]. unfold ctls_0, ctls_1. split; [apply u32_range|]. rewrite Z.shiftr_div_pow2 by lia. split.
  - apply Z.div_pos; lia.
  - apply Z.div_lt_upper_bound; lia.
Qed.

Lemma control_range ctls req : caps_ok ctls -> 0 <= control ctls req < 2 ^ 32.
Proof.
  intros Hc. destruct (ctls_range ctls Hc) as [H0 H1]. unfold control. apply bits_range; [lia|]. intros j Hj.
  by rewrite Z.lor_spec, Z.land_spec, (range_bits (ctls_0 ctls) 32), (range_bits (ctls_1 ctls) 32), andb_false_r by lia.
Qed.

Lemma allowed_bits ctls x :
  (forall n, 0 <= n -> Z.testbit (ctls_0 ctls) n = true -> Z.testbit x n = true) ->
  (forall n, 0 <= n -> Z.testbit x n = true -> Z.testbit (ctls_1 ctls) n = true) -> allowed ctls x.
Proof.
  intros H1 H2. split; apply Z.bits_inj'; intros n Hn; rewrite Z.ldiff_spec, Z.bits_0.
  - specialize (H1 n Hn). destruct (Z.testbit (ctls_0 ctls) n); [|done]. by rewrite H1.
  - specialize (H2 n Hn). destruct (Z.testbit x n); [|done]. by rewrite H2.
Qed.

Lemma control_allowed ctls req : caps_ok ctls -> allowed ctls (u32 (control ctls req)).
Proof.
  intros Hc. rewrite u32_small by by apply control_range. pose proof (ck_sub _ Hc) as Hs. unfold control.
  apply allowed_bits; intros n Hn; rewrite Z.lor_spec, Z.land_spec.
  - intros ->. by rewrite orb_true_r.
  - intros [[_ H]%andb_prop|H]%orb_prop; [done|]. by apply (ldiff_0_bit _ _ n Hs).
Qed.

Lemma control_bit ctls req i : caps_ok ctls -> 0 <= i -> has req (Z.shiftl 1 i) = true ->
  has (ctls_1 ctls) (Z.shiftl 1 i) = true -> has (u32 (control ctls req)) (Z.shiftl 1 i) = true.
Proof.
  intros Hc Hi Hr H1. rewrite u32_small by by apply control_range. rewrite !has_bit in * by done. unfold control.
  by rewrite Z.lor_spec, Z.land_spec, Hr, H1.
Qed.
Lemma control_no_bit ctls req i : caps_ok ctls -> 0 <= i -> has req (Z.shiftl 1 i) = false ->
  has (ctls_0 ctls) (Z.shiftl 1 i) = false -> has (u32 (control ctls req)) (Z.shiftl 1 i) = false.
Proof.
  intros Hc Hi Hr H1. rewrite u32_small by by apply control_range. rewrite !has_bit in * by done. unfold control.
  by rewrite Z.lor_spec, Z.land_spec, Hr, H1.
Qed.

(** A bit more or less. *)
Lemma allowed_set ctls x i : 0 <= i -> allowed ctls x -> has (ctls_1 ctls) (Z.shiftl 1 i) = true ->
  allowed ctls (x |! Z.shiftl 1 i).
Proof.
  intros Hi [H1 H2] Hb. rewrite has_bit in Hb by done. apply allowed_bits; intros n Hn; rewrite Z.lor_spec.
  - intros H. by rewrite (ldiff_0_bit _ _ n H1 H).
  - intros [H|H]%orb_prop; [by apply (ldiff_0_bit _ _ n H2)|].
    rewrite Z.shiftl_spec in H by done. destruct (decide (n = i)) as [->|Hne]; [done|].
    destruct (decide (n < i)); [by rewrite Z.testbit_neg_r in H by lia|].
    rewrite Z.bits_above_log2 in H by (cbn; lia). done.
Qed.
Lemma allowed_clear ctls x i : 0 <= i -> allowed ctls x -> has (ctls_0 ctls) (Z.shiftl 1 i) = false ->
  allowed ctls (Z.ldiff x (Z.shiftl 1 i)).
Proof.
  intros Hi [H1 H2] Hb. rewrite has_bit in Hb by done. apply allowed_bits; intros n Hn; rewrite Z.ldiff_spec.
  - intros H. rewrite (ldiff_0_bit _ _ n H1 H). cbn. rewrite Z.shiftl_spec by done.
    destruct (decide (n = i)) as [->|Hne]; [congruence|].
    destruct (decide (n < i)); [by rewrite Z.testbit_neg_r by lia|]. by rewrite Z.bits_above_log2 by (cbn; lia).
  - intros [H _]%andb_prop. by apply (ldiff_0_bit _ _ n H2).
Qed.

(** ** What [vmwrite_cr] does to the fields *)
Definition cr_field_list : list Z :=
  [GUEST_CR3; GUEST_PDPTE0; GUEST_PDPTE1; GUEST_PDPTE2; GUEST_PDPTE3; VMX_EPTP; GUEST_CR0; VMX_CR0_MASK;
   VMX_CR0_READ_SHADOW; GUEST_CR4; VMX_CR4_MASK; VMX_CR4_READ_SHADOW].

Lemma cr_fields_only v : only cr_field_list (vmcs v) (vmcs (cr_fields G v)).
Proof.
  unfold cr_fields, pdpt_written. intros g Hg.
  assert (Hw : forall f x w, f ∈ cr_field_list -> vmcs_value (vmcs (wr f x w)) g = vmcs_value (vmcs w) g).
  { intros f x w Hf. by apply (wr_value_ne f x w g cr_field_list). }
  rewrite !Hw by not_in. destruct (pae_pdpt_dirty _); rewrite ?vmcs_set_pae, !Hw by not_in; reflexivity.
Qed.

Lemma cr_written_other v g : g ∉ ctl_fields -> g ∉ cr_field_list ->
  vmcs_value (vmcs (cr_written G v)) g = vmcs_value (vmcs v) g.
Proof. intros H1 H2. unfold cr_written. rewrite cr_controls_value by done. by apply cr_fields_only. Qed.

(** The entry controls of a guest without paging. *)
Definition real_entry (e : Z) : Z :=
  Z.ldiff (Z.ldiff e ENTRY_CONTROL_LOAD_EFER |! ENTRY_CONTROL_LOAD_PAT) ENTRY_CONTROL_LONG_MODE_GUEST.

Lemma cr_written_entry v : ctls_wf v -> has (cr0 v) CR0_PG = false ->
  vmcs_value (vmcs (cr_written G v)) VMX_ENTRY_CONTROLS = real_entry (vt_entry_ctls (cv_ctls v)).
Proof.
  intros Hw Hpg. destruct (cr_written_mode G v Hw) as (Hm & _). rewrite (lo_field _ Hm). clear Hm.
  pose proof (ctls_wf_fields G v Hw) as Hw1. destruct (cr_fields_regs G v) as (R1 & R2 & R3).
  destruct (before_efer_obs _ Hw1) as (Hw2 & B1 & B2 & B3 & B4). unfold cr_written, cr_controls.
  destruct (efer_written_obs _ Hw2) as (_ & E2 & _ & _). rewrite E2. unfold new_entry, lma.
  rewrite B3, R2, Hpg, B1. cbn [andb]. unfold controls_entry, real_entry. rewrite R2, R3, Hpg, andb_false_r. cbn [andb].
  assert (Hc : cv_ctls (cr_fields G v) = cv_ctls v) by (unfold cr_fields, pdpt_written; by case_match). by rewrite Hc.
Qed.

Lemma cr_written_scpu v : let x := vt_scpu_ctls_base (cv_ctls v) |! ENABLE_EPT in
  vmcs_value (vmcs v) VMX_SECONDARY_PROCESSOR_CONTROLS = vt_scpu_ctls (cv_ctls v) -> 0 <= x < 2 ^ 32 ->
  vmcs_value (vmcs (cr_written G v)) VMX_SECONDARY_PROCESSOR_CONTROLS = x.
Proof.
  intros x Hv Hx. unfold cr_written, cr_controls, before_efer. generalize (controls_entry (cr_fields G v)). intros e.
  assert (H6 : forall w, vmcs_value (vmcs (efer_written w)) VMX_SECONDARY_PROCESSOR_CONTROLS =
      vmcs_value (vmcs w) VMX_SECONDARY_PROCESSOR_CONTROLS).
  { intros w. assert (Hf : vmcs_value (vmcs (efer_fields w)) VMX_SECONDARY_PROCESSOR_CONTROLS =
      vmcs_value (vmcs w) VMX_SECONDARY_PROCESSOR_CONTROLS) by (unfold efer_fields; case_match; [by rewrite wr_value|done]).
    unfold efer_written. case_match; [by rewrite wr_value|exact Hf]. }
  assert (H5 : forall w, vmcs_value (vmcs (entry_written e w)) VMX_SECONDARY_PROCESSOR_CONTROLS =
      vmcs_value (vmcs w) VMX_SECONDARY_PROCESSOR_CONTROLS).
  { intros w. unfold entry_written. case_match; [by rewrite wr_value|done]. }
  assert (H4 : forall w, vmcs_value (vmcs (exc_written w)) VMX_SECONDARY_PROCESSOR_CONTROLS =
      vmcs_value (vmcs w) VMX_SECONDARY_PROCESSOR_CONTROLS).
  { intros w. unfold exc_written. case_match; [by rewrite wr_value|done]. }
  rewrite H6, H5, H4. clear H4 H5 H6. set (w := pcpu_reset _).
  assert (Hw : cv_ctls w = cv_ctls v /\ vmcs w = vmcs (cr_fields G v)).
  { assert (Hf : cv_ctls (cr_fields G v) = cv_ctls v) by (unfold cr_fields, pdpt_written; by case_match).
    rewrite <- Hf. unfold w. generalize (cr_fields G v). intros u. clear. unfold pcpu_reset.
    assert (He : cv_ctls (efer_cleared u) = cv_ctls u /\ vmcs (efer_cleared u) = vmcs u) by (unfold efer_cleared; by case_match).
    case_match; exact He. }
  destruct Hw as [W1 W2]. clearbody w. unfold scpu_written. rewrite W1. fold x.
  destruct (Z.eqb_spec x (vt_scpu_ctls (cv_ctls v))) as [E|E]; cbn [negb].
  - rewrite W2, (cr_fields_only v) by not_in. by rewrite Hv, <- E.
  - rewrite wr_value, Z.eqb_refl. by apply u32_small.
Qed.

(** ** [fill_common_vmcs] *)
Lemma sv_eta v : sv v (cv_cpu v) (vmcs v) = v.
Proof. destruct v as [[? [[? [] ? ? ? ?] ? ? ? ? ? ? ? ? ? ? ? ? ? ? ? ?]]]. reflexivity. Qed.
Lemma globals_eta v : set_cv_cpuid_globals (cv_cpuid_globals v) v = v.
Proof. by destruct v. Qed.

Lemma run_eta v : set_cv_run (cv_run v) v = v.
Proof. by destruct v. Qed.

(** No section is open. *)
Definition unsec c : Prop := vmx_inv c /\ depth c = 0.
Lemma unsec_hw h c : unsec c -> unsec (set_vx_hw h c).
Proof. intros [[H1 H2 H3 H4 H5 H6 H7] Hd]. by split. Qed.

Definition host_cache_ok v : Prop := length (cc_data (cg_cache (cv_cpuid_globals v))) = 7%nat.

Lemma has_feature_wp key v (Q : bool -> vcpu -> Prop) : host_cache_ok v -> key_index key < 7 ->
  (forall b, Q b v) -> wp (has_feature uninit key) v Q.
Proof.
  intros Hl Hk HQ. unfold wp, has_feature, in_cpuid.
  destruct (feature_run uninit key (cv_cpuid_globals v) Hl Hk) as [b ->]. rewrite globals_eta. by eexists _, _.
Qed.

Lemma rdmsr_out_wp msr v c m (Q : Z -> vcpu -> Prop) : unsec c ->
  (forall x c', unsec c' -> Q x (sv v c' m)) -> wp (rdmsr msr) (sv v c m) Q.
Proof.
  intros Hc HQ. unfold rdmsr. apply wp_bind, wp_get. destruct (ia32_rdmsr msr _) as [x h].
  apply wp_bind, wp_modify, wp_ret. exact (HQ x _ (unsec_hw h c Hc)).
Qed.

Lemma vmwr_out_wp f x v c m (Q : unit -> vcpu -> Prop) : hw_succeeds -> unsec c ->
  (forall c', unsec c' -> Q tt (sv v c' (<[f := field_value f x]> m))) -> wp (vmwr f x) (sv v c m) Q.
Proof.
  intros Hhw [Hc Hd] HQ. unfold wp, vmwr, in_vmx.
  destruct (run_write f x (vmx_of (sv v c m)) Hc) as ([c' m' p'] & Hr & Hc' & _ & Hs). rewrite Hr.
  specialize (Hs (or_intror Hhw)). injection Hs as H1 H2 H3. cbn in *. subst m' p'. eexists _, _. split; [reflexivity|].
  apply (HQ c'). split; [done|]. congruence.
Qed.

(** The secondary controls that are asked for. *)
Record scpu_request (x vpid : Z) m : Prop := {
  sr_ept : has x ENABLE_EPT = true;
  sr_ug : has x UNRESTRICTED_GUEST = hg_ug_enable_flag G;
  sr_vpid : has x ENABLE_VPID = true -> vmcs_value m VMX_VPID = vpid mod 2 ^ 16 /\ vpid <> 0;
}.

Lemma scpu_request_or x i vpid m : scpu_request x vpid m -> i = 3 \/ i = 12 ->
  scpu_request (x |! Z.shiftl 1 i) vpid m.
Proof.
  intros [H1 H2 H3] Hi. assert (Hother : forall j, j = 1 \/ j = 5 \/ j = 7 ->
    has (x |! Z.shiftl 1 i) (Z.shiftl 1 j) = has x (Z.shiftl 1 j)) by (intros j Hj; apply has_lor_other; lia).
  split; [rewrite <- H1; apply (Hother 1)|rewrite <- H2; apply (Hother 7)|
    intros H; apply H3; rewrite <- H; symmetry; apply (Hother 5)]; lia.
Qed.

Lemma choose_scpu_wp v c m (Q : Z -> vcpu -> Prop) : hw_succeeds -> unsec c -> host_cache_ok v ->
  (forall x c' m', unsec c' -> only [VMX_VPID] m m' -> scpu_request x (cv_vpid v) m' -> Q x (sv v c' m')) ->
  wp (choose_scpu_ctls G uninit) (sv v c m) Q.
Proof.
  intros Hhw Hc Hl HQ. unfold choose_scpu_ctls. apply wp_bind, has_feature_wp; [done|done|]. intros rdtscp.
  set (base := if rdtscp : bool then ENABLE_EPT |! ENABLE_RDTSCP else ENABLE_EPT).
  set (x0 := if hg_ug_enable_flag G then base |! UNRESTRICTED_GUEST else base).
  assert (Hx0 : has x0 ENABLE_EPT = true /\ has x0 UNRESTRICTED_GUEST = hg_ug_enable_flag G /\ has x0 ENABLE_VPID = false)
    by (unfold x0, base; by destruct rdtscp, (hg_ug_enable_flag G)).
  destruct Hx0 as (X1 & X2 & X3). apply wp_bind, rdmsr_out_wp; [done|]. intros pb c1 Hc1.
  assert (Hend : forall x c' m', unsec c' -> only [VMX_VPID] m m' -> scpu_request x (cv_vpid v) m' ->
    wp (invpcid ← has_feature uninit X86_FEATURE_INVPCID; mret (if invpcid : bool then x |! ENABLE_INVPCID else x))
      (sv v c' m') Q).
  { intros x c' m' Hc' Hm' Hx. apply wp_bind, has_feature_wp; [done|done|]. intros b. apply wp_ret, HQ; [done|done|].
    destruct b; [|done]. apply (scpu_request_or x 12); [done|by right]. }
  assert (Hx : scpu_request x0 (cv_vpid v) m) by (split; [done|done|]; by rewrite X3). clearbody x0.
  apply wp_bind. destruct (has pb _); [|by apply wp_ret, Hend; [done|apply only_refl|]].
  apply wp_bind, rdmsr_out_wp; [done|]. intros sb c2 Hc2. apply wp_bind, wp_get.
  change (cv_vpid (sv v c2 m)) with (cv_vpid v).
  destruct (has sb _ && _)%bool eqn:Eb; [|by apply wp_ret, Hend; [done|apply only_refl|]].
  apply andb_prop in Eb as [_ Hv]. apply negb_true_iff, Z.eqb_neq in Hv.
  apply wp_bind, vmwr_out_wp; [done|done|]. intros c3 Hc3. apply wp_ret, Hend; [done|apply only_insert; [apply only_refl|not_in]|].
  change ENABLE_VPID with (Z.shiftl 1 5). split.
  - change ENABLE_EPT with (Z.shiftl 1 1). rewrite has_lor_other by lia. exact X1.
  - change UNRESTRICTED_GUEST with (Z.shiftl 1 7). rewrite has_lor_other by lia. exact X2.
  - intros _. split; [|done]. by look.
Qed.

(** The registers after power-up. *)
Definition reset_desc (s : seg_t) : Z * Z * Z * Z :=
  match s with
  | SegCS => (0xf000, 0xffff0000, 0xffff, 0x93)
  | SegLDTR => (0, 0, 0xffff, 0x82)
  | SegTR => (0, 0, 0xffff, 0x83)
  | _ => (0, 0, 0xffff, 0x93)
  end.
Definition desc_of (d : segment_desc_t) : Z * Z * Z * Z := (sd_selector d, sd_base d, sd_limit d, sd_ar d).

Record power_up v : Prop := {
  pu_cr0 : cr0 v = 0x60000010;
  pu_cr4 : cr4 v = 0;
  pu_efer : efer v = 0;
  pu_rip : rip v = 0xfff0;
  pu_rflags : rflags v = 2;
  pu_segs : forall s, desc_of (get_seg s v) = reset_desc s;
  pu_tables : sd_limit (cv_gdt v) = 0xffff /\ sd_limit (cv_idt v) = 0xffff;
  pu_masks : vt_cr0_mask (cv_ctls v) = 0 /\ vt_cr4_mask (cv_ctls v) = 0;
  pu_intr : vc_interruptibility_state (intr v) = 0;
  pu_vpid : 0 <= cv_vpid v < 2 ^ 16;
}.

Lemma power_up_segs v m : power_up v -> guest_area v m -> real_mode_segs m = true.
Proof.
  intros P A. assert (H : forall s, let '(sel, base, limit, ar) := reset_desc s in
    vmcs_value m (seg_selector s) = sel /\ vmcs_value m (seg_base s) = base /\ vmcs_value m (seg_limit s) = limit /\
    vmcs_value m (seg_ar s) = ar).
  { intros s. pose proof (pu_segs _ P s) as Hd. unfold desc_of in Hd.
    destruct (ga_seg _ _ A s) as (-> & -> & -> & ->). by destruct s; cbn in Hd |- *; injection Hd as -> -> -> ->. }
  unfold real_mode_segs. cbv zeta. cbn [forallb].
  destruct (ga_gdt _ _ A) as [_ ->]. destruct (ga_idt _ _ A) as [_ ->]. destruct (pu_tables _ P) as [-> ->].
  destruct (H SegCS) as (_ & -> & -> & ->), (H SegSS) as (_ & -> & -> & ->), (H SegDS) as (_ & _ & -> & ->),
    (H SegES) as (_ & _ & -> & ->), (H SegFS) as (_ & _ & -> & ->), (H SegGS) as (_ & _ & -> & ->),
    (H SegTR) as (-> & _ & -> & ->), (H SegLDTR) as (-> & _ & -> & ->).
  by vm_compute.
Qed.

(** The state before the control registers are written, and the fields that it keeps. *)
Definition regs_written m3 m4 c v : vcpu := let v1 := cached m3 v in sv (all_regs v1) c (all_map v1 m4).

Lemma regs_written_kept m3 m4 c v g : only common_fields m3 m4 -> g ∉ guest_fields -> g ∉ common_fields ->
  vmcs_value (vmcs (regs_written m3 m4 c v)) g = vmcs_value m3 g.
Proof.
  intros H4 Hg Hc. etransitivity; [apply (all_map_only (cached m3 v) m4 g Hg)|]. by apply H4.
Qed.

Lemma regs_written_wf m3 m4 c v scpu exc : power_up v -> filled info scpu exc m3 -> only common_fields m3 m4 ->
  crs_wf (regs_written m3 m4 c v) /\ ctls_wf (regs_written m3 m4 c v).
Proof.
  intros P F H4. destruct (pu_masks _ P) as [M0 M4].
  assert (E0 : cr0 (regs_written m3 m4 c v) = cr0 v) by done.
  assert (E4 : cr4 (regs_written m3 m4 c v) = cr4 v) by done.
  assert (Ee : efer (regs_written m3 m4 c v) = efer v) by done.
  split; split; rewrite ?E0, ?E4, ?Ee, ?(pu_cr0 _ P), ?(pu_cr4 _ P), ?(pu_efer _ P); try lia; try done.
  - apply u32_range.
  - rewrite regs_written_kept by (done || not_in).
    change (vt_entry_ctls _) with (u32 (vmcs_value m3 VMX_ENTRY_CONTROLS)). rewrite (fl_entry _ _ _ _ F).
    symmetry. apply u32_small, u32_range.
Qed.

Lemma secondary_on : info_ok -> secondary info = true.
Proof.
  intros I. unfold secondary. rewrite <- (u32_small (control _ _)) by apply control_range, I.
  apply (control_bit _ _ 31); [apply I|done|done|apply (io_secondary I)].
Qed.

Section Filled.
Context (m3 m4 : gmap Z Z) (c : vmx_cpu) (v : vcpu) (scpu exc : Z).
Context (I : info_ok) (P : power_up v) (F : filled info scpu exc m3) (H4 : only common_fields m3 m4).
Context (S : scpu_request scpu (cv_vpid v) m3) (Hug : hg_ug_enable_flag G = true).
Let mf := vmcs (cr_written G (regs_written m3 m4 c v)).

Lemma mf_kept g : g ∉ ctl_fields -> g ∉ cr_field_list -> g ∉ guest_fields -> g ∉ common_fields ->
  vmcs_value mf g = vmcs_value m3 g.
Proof. intros H1 H2 H3 H5. unfold mf. rewrite cr_written_other by done. by apply regs_written_kept. Qed.
Lemma mf_guest g : g ∉ ctl_fields -> g ∉ cr_field_list -> vmcs_value mf g = vmcs_value (all_map (cached m3 v) m4) g.
Proof. intros H1 H2. unfold mf. by rewrite cr_written_other. Qed.

Lemma mf_scpu : vmcs_value mf VMX_SECONDARY_PROCESSOR_CONTROLS = control (xi_scpu_ctls info) scpu |! ENABLE_EPT.
Proof.
  pose proof (fl_scpu _ _ _ _ F (secondary_on I)) as Hs. pose proof (control_range _ scpu (io_scpu I)) as Hr.
  assert (Hp : has (u32 (vmcs_value m3 VMX_PRIMARY_PROCESSOR_CONTROLS)) SECONDARY_CONTROLS = true).
  { rewrite (fl_pcpu _ _ _ _ F), (u32_small (u32 _)) by apply u32_range.
    apply (control_bit _ _ 31); [apply I|done|done|apply (io_secondary I)]. }
  assert (Hb : vt_scpu_ctls_base (cv_ctls (regs_written m3 m4 c v)) = control (xi_scpu_ctls info) scpu).
  { change (vt_scpu_ctls_base _) with (u32 (if has (u32 (vmcs_value m3 VMX_PRIMARY_PROCESSOR_CONTROLS)) SECONDARY_CONTROLS
      then vmcs_value m3 VMX_SECONDARY_PROCESSOR_CONTROLS else 0)). by rewrite Hp, Hs, !u32_small by (rewrite ?u32_small; done). }
  unfold mf. rewrite <- Hb. apply cr_written_scpu.
  - rewrite regs_written_kept by (done || not_in). rewrite Hs, u32_small by done. symmetry. exact Hb.
  - rewrite Hb. by apply (lor_range32 _ 1).
Qed.

Lemma mf_controls : controls_checked mf.
Proof.
  assert (Ha : allowed (xi_scpu_ctls info) (control (xi_scpu_ctls info) scpu)).
  { rewrite <- (u32_small (control _ _)) by apply control_range, I. apply control_allowed, I. }
  assert (Hb : forall i b, 0 <= i -> has scpu (Z.shiftl 1 i) = b -> i <> 1 ->
    has (control (xi_scpu_ctls info) scpu |! ENABLE_EPT) (Z.shiftl 1 i) = has (u32 (control (xi_scpu_ctls info) scpu)) (Z.shiftl 1 i)).
  { intros i b Hi _ H1. rewrite u32_small by apply control_range, I. by apply (has_lor_other _ 1 i). }
  split; rewrite ?mf_scpu; rewrite ?mf_kept by not_in.
  - rewrite (fl_pin _ _ _ _ F). apply control_allowed, I.
  - rewrite (fl_pcpu _ _ _ _ F). apply control_allowed, I.
  - rewrite (fl_pcpu _ _ _ _ F). apply (control_bit _ _ 31); [apply I|done|done|apply (io_secondary I)].
  - apply (allowed_set _ _ 1); [done|done|apply (io_ept I)].
  - by apply (has_lor_same _ 1).
  - etransitivity; [apply (Hb 7 true); [done| |done]|].
    + etransitivity; [apply (sr_ug _ _ _ S)|done].
    + apply (control_bit _ _ 7); [apply I|done| |apply (io_ug I)]. etransitivity; [apply (sr_ug _ _ _ S)|done].
  - intros Hv. assert (Hv' : has scpu ENABLE_VPID = true).
    { destruct (has scpu ENABLE_VPID) eqn:E; [done|]. rewrite <- Hv. symmetry.
      etransitivity; [apply (Hb 5 false); [done|exact E|done]|]. apply (control_no_bit _ _ 5); [apply I|done|exact E|apply (io_vpid I)]. }
    destruct (sr_vpid _ _ _ S Hv') as [-> Hne]. pose proof (pu_vpid _ P). by rewrite Z.mod_small.
  - rewrite (fl_exit _ _ _ _ F). apply control_allowed, I.
  - unfold mf. rewrite cr_written_entry; [|by apply (regs_written_wf _ _ _ _ scpu exc)|by change (cr0 _) with (cr0 v); rewrite (pu_cr0 _ P)].
    change (vt_entry_ctls _) with (u32 (vmcs_value m3 VMX_ENTRY_CONTROLS)). rewrite (fl_entry _ _ _ _ F), (u32_small (u32 _)) by apply u32_range.
    apply (allowed_clear _ _ 9); [done| |apply (io_mode I)]. apply (allowed_set _ _ 14); [done| |apply (io_pat I)].
    apply (allowed_clear _ _ 15); [done| |apply (io_efer I)]. apply control_allowed, I.
  - apply F.
  - apply F.
Qed.

Lemma mf_area : guest_area v mf.
Proof.
  destruct (all_map_area (cached m3 v) m4) as [A1 A2 A3 A4 A5 A6 A7]. split; [|by rewrite !mf_guest by not_in..].
  intros s. cbv zeta. rewrite !mf_guest by (destruct s; not_in). specialize (A1 s). cbv zeta in A1. by destruct s.
Qed.

Lemma mf_guest_checked : globals_ok G -> vmcs_value m4 GUEST_ACTIVITY_STATE = 0 -> guest_checked mf.
Proof.
  intros Hg Hact. destruct (regs_written_wf m3 m4 c v scpu exc P F H4) as [Wc Wt].
  pose proof mf_area as A'.
  pose proof (pu_cr0 _ P) as E0.
  split.
  - by apply cr_written_valid.
  - destruct (cr_written_values G (regs_written m3 m4 c v)) as (V0 & _). fold mf in V0. rewrite V0. unfold vmcs_cr0.
    change (cr0 (regs_written m3 m4 c v)) with (cr0 v). rewrite E0. change CR0_PE with (Z.shiftl 1 0). change CR0_PG with (Z.shiftl 1 31).
    rewrite !has_bit by done. rewrite !u64_testbit by done. rewrite !Z.lor_spec, !Z.land_spec.
    split; by destruct (Z.testbit (hg_cr0_fixed_1 G) _), (Z.testbit (hg_cr0_fixed_0 G) _).
  - unfold mf. rewrite cr_written_entry; [|done|by change (cr0 _) with (cr0 v); rewrite E0].
    unfold real_entry. by apply (has_ldiff_same _ 9).
  - by apply (power_up_segs v).
  - unfold rflags_ok. rewrite (ga_rflags _ _ A'), (pu_rflags _ P). by vm_compute.
  - rewrite (ga_rip _ _ A'), (pu_rip _ P). by vm_compute.
  - rewrite mf_kept by not_in. by destruct (fl_debug _ _ _ _ F) as [-> _].
  - rewrite mf_kept by not_in. apply F.
  - rewrite (ga_intr _ _ A'), (pu_intr _ P). split_and!; [|done|].
    + rewrite mf_guest by not_in. by rewrite (all_map_only (cached m3 v) m4 GUEST_ACTIVITY_STATE) by not_in.
    + rewrite mf_kept by not_in. apply F.
Qed.
End Filled.

(** The masks and what is not a control register are kept. *)
Definition masks v : Z * Z := (vt_cr0_mask (cv_ctls v), vt_cr4_mask (cv_ctls v)).
Lemma cr_written_masks v : vt_cr0_mask (cv_ctls (cr_written G v)) = vt_cr0_mask (cv_ctls v) /\
  vt_cr4_mask (cv_ctls (cr_written G v)) = vt_cr4_mask (cv_ctls v).
Proof.
  assert (H : masks (cr_written G v) = masks v); [|unfold masks in H; by apply pair_equal_spec in H].
  assert (H0 : masks (cr_fields G v) = masks v) by (unfold cr_fields, pdpt_written; by case_match).
  rewrite <- H0. unfold cr_written, cr_controls, before_efer. generalize (controls_entry (cr_fields G v)). intros e.
  assert (H1 : forall w, masks (efer_cleared w) = masks w) by (intros w; unfold efer_cleared; by case_match).
  assert (H2 : forall w, masks (pcpu_reset w) = masks w) by (intros w; unfold pcpu_reset; by case_match).
  assert (H3 : forall w, masks (scpu_written w) = masks w) by (intros w; unfold scpu_written; by case_match).
  assert (H4 : forall w, masks (exc_written w) = masks w) by (intros w; unfold exc_written; by case_match).
  assert (H5 : forall w, masks (entry_written e w) = masks w) by (intros w; unfold entry_written; by case_match).
  assert (H6 : forall w, masks (efer_written w) = masks w).
  { intros w. assert (Hf : masks (efer_fields w) = masks w) by (unfold efer_fields; by case_match).
    unfold efer_written. case_match; [exact Hf|exact Hf]. }
  by rewrite H6, H5, H4, H3, H2, H1.
Qed.

Lemma rest_ready v w : rest w = rest v -> cr_ready v -> cr_ready w.
Proof.
  intros H [Hr1 Hr2]. split.
  - intros E. apply Hr1. rewrite <- E. symmetry. exact (f_equal eptp H).
  - rewrite <- Hr2. exact (f_equal (fun x => length (cv_pae_pdptes x)) H).
Qed.

Lemma rest_seg v w : rest w = rest v -> forall s, get_seg s w = get_seg s v.
Proof.
  intros H s. by destruct s; [exact (f_equal (get_seg SegES) H)|exact (f_equal (get_seg SegCS) H)
      |exact (f_equal (get_seg SegSS) H)|exact (f_equal (get_seg SegDS) H)|exact (f_equal (get_seg SegFS) H)
      |exact (f_equal (get_seg SegGS) H)|exact (f_equal (get_seg SegLDTR) H)|exact (f_equal (get_seg SegTR) H)].
Qed.
Lemma area_ext v w m : (forall s, get_seg s w = get_seg s v) -> rip w = rip v -> rflags w = rflags v -> gpr w RSP = gpr v RSP ->
  cv_gdt w = cv_gdt v -> cv_idt w = cv_idt v ->
  vc_interruptibility_state (intr w) = vc_interruptibility_state (intr v) -> guest_area v m -> guest_area w m.
Proof.
  intros E1 E2 E3 E4 E5 E6 E7 [A1 A2 A3 A4 A5 A6 A7]. split; [|by rewrite ?E2, ?E3, ?E4, ?E5, ?E6, ?E7..].
  intros s. rewrite E1. apply A1.
Qed.
Lemma rest_area v w m : rest w = rest v -> guest_area v m -> guest_area w m.
Proof.
  intros H. destruct (rest_eq _ _ H) as (_ & _ & _ & _ & _ & Rr & Ri & Rf & _). apply area_ext; try done.
  - by apply rest_seg.
  - unfold gpr. by rewrite Rr.
  - exact (f_equal cv_gdt H).
  - exact (f_equal cv_idt H).
  - exact (f_equal (fun x => vc_interruptibility_state (intr x)) H).
Qed.

Lemma rest_cpuid_ready v w : rest w = rest v -> cpuid_ready v -> cpuid_ready w.
Proof.
  intros H [(t & Ht & Hlen) Hl Hx]. split.
  - exists t. split; [|done]. rewrite <- Ht. exact (f_equal cv_cpuid H).
  - rewrite <- Hl. exact (f_equal (fun x => length (cc_data (cg_cache (cv_cpuid_globals x)))) H).
  - assert (E : cv_xcr0 w = cv_xcr0 v) by exact (f_equal cv_xcr0 H). by rewrite E.
Qed.

Lemma power_up_rest v w : power_up v -> rest w = rest v -> efer w = 0 -> vt_cr0_mask (cv_ctls w) = 0 ->
  vt_cr4_mask (cv_ctls w) = 0 -> power_up w.
Proof.
  intros P H He M0 M4. destruct (rest_eq _ _ H) as (_ & R0 & _ & _ & R4 & _ & Ri & Rf & _). destruct P.
  split; try congruence; try done.
  - intros s. rewrite <- pu_segs0. f_equal. by apply rest_seg.
  - destruct pu_tables0 as [T1 T2]. split.
    + etransitivity; [exact (f_equal (fun x => sd_limit (cv_gdt x)) H)|exact T1].
    + etransitivity; [exact (f_equal (fun x => sd_limit (cv_idt x)) H)|exact T2].
  - etransitivity; [exact (f_equal (fun x => vc_interruptibility_state (intr x)) H)|done].
  - change (cv_vpid w) with (cv_vpid (rest w)). by rewrite H.
Qed.

(** The state that the first VM entry starts from. *)
Record enterable v v' : Prop := {
  en_controls : controls_checked (vmcs v');
  en_guest : guest_checked (vmcs v');
  en_area : guest_area v' (vmcs v');
  en_ready : ready v';
  en_loaded : crs_loaded G v';
  en_panic : panicked v' = panicked v;
  en_power : power_up v';
  en_cpuid : cpuid_ready v -> cpuid_ready v';
}.

Lemma vcpu_prepare_wp v : hw_succeeds -> info_ok -> globals_ok G -> hg_ug_enable_flag G = true -> closed v -> cr_ready v ->
  host_cache_ok v -> power_up v ->
  wp (vcpu_prepare G uninit info io_bitmap_a_pa io_bitmap_b_pa msr_bitmap_pa gmsr_autoload_pa) v
    (fun _ v' => enterable v v').
Proof.
  intros Hhw I Hg Hug Hcl Hr Hcache P. unfold vcpu_prepare, fill_common_vmcs. rewrite <- (sv_eta v) at 1.
  apply wp_bind, choose_scpu_wp; [done..|]. intros scpu c1 m1 Hc1 Hm1 S.
  destruct (load_at (sv v c1 m1) Hhw Hc1) as (c2 & Hl & Hs2 & Hd2). apply wp_bind. eexists _, _. split; [exact Hl|].
  change (set_cpu c2 (sv v c1 m1)) with (sv v c2 m1). cbn [negb Z.eqb].
  assert (Hc2 : sec c2) by (split; [exact (proj1 Hs2)|exact Hd2]). clear Hl Hs2.
  apply wp_bind, write_host_area_wp; [done|]. intros c3 m2 Hc3 Hm2.
  apply wp_bind, write_entry_area_wp; [done|]. intros c4 m3 Hc4 F Hv.
  apply wp_bind, load_common_wp; [done|done|]. intros m4 Hm4 Hact. cbv zeta.
  fold (regs_written m3 m4 c4 v). rewrite Hm2 in Hv by not_in.
  assert (S3 : scpu_request scpu (cv_vpid v) m3) by (destruct S as [S1 S2 S3]; split; [done|done|]; by rewrite Hv).
  pose proof (mf_controls m3 m4 c4 v scpu _ I P F Hm4 S3 Hug) as Cc.
  pose proof (mf_guest_checked m3 m4 c4 v scpu _ P F Hm4 Hg Hact) as Gc.
  destruct (regs_written_wf m3 m4 c4 v scpu _ P F Hm4) as [Wc Wt].
  set (w := regs_written m3 m4 c4 v) in *.
  assert (Hs4 : in_section (cr_written G w)).
  { eapply in_section_ext; [apply (rest_eq _ _ (rest_cr_written G w))|]. by apply sec_in. }
  assert (Hd4 : depth (cv_cpu (cr_written G w)) = 1).
  { rewrite (proj1 (rest_eq _ _ (rest_cr_written G w))). exact (proj2 Hc4). }
  destruct (put_at _ Hhw Hs4 Hd4) as (c5 & Hp & Hcl5). apply wp_bind. eexists _, _. split; [exact Hp|]. cbn [negb Z.eqb].
  apply wp_ret. pose proof (rest_cr_written G w) as Hrest. destruct (rest_eq _ _ Hrest) as (_ & _ & _ & _ & _ & _ & _ & _ & Rp).
  destruct (cr_written_mode G w Wt) as (Hmode & Wt' & _ & He). destruct (cr_written_masks w) as [K0 K4].
  destruct (pu_masks _ P) as [M0 M4].
  assert (P' : power_up (cr_written G w)).
  { apply (power_up_rest w); [destruct P; by split|done| |by rewrite K0|by rewrite K4].
    rewrite He. unfold cr_efer. change (cr0 w) with (cr0 v). change (efer w) with (efer v). change (cr4 w) with (cr4 v).
    rewrite (pu_cr0 _ P), (pu_efer _ P), (pu_cr4 _ P). by vm_compute. }
  assert (V0 := guest_view_cr0 G w Hg Wc). assert (V4 := guest_view_cr4 G w Hg Wc). assert (Va := cr_written_valid G w Hg Wc).
  assert (C0 : cr0 (cr_written G w) = cr0 w) by apply (rest_eq _ _ Hrest).
  assert (C4 : cr4 (cr_written G w) = cr4 w) by apply (rest_eq _ _ Hrest).
  assert (Ar : guest_area (cr_written G w) (vmcs (cr_written G w))).
  { apply (rest_area w); [done|]. pose proof (mf_area m3 m4 c4 v) as Ar. fold w in Ar. revert Ar.
    generalize (vmcs (cr_written G w)). intros m. apply area_ext; [by intros []|done..]. }
  assert (R' : cr_ready (cr_written G w)).
  { apply (rest_ready w); [done|]. destruct Hr. by split. }
  assert (Rp' : panicked (cr_written G w) = panicked v) by exact Rp.
  assert (Wc' : crs_wf (cr_written G w)).
  { split; [rewrite C0; apply Wc|rewrite C4; apply Wc|rewrite K0; exact M0|rewrite K4; exact M4]. }
  assert (Cu : cpuid_ready v -> cpuid_ready (cr_written G w)).
  { intros H. apply (rest_cpuid_ready w); [done|]. destruct H. by split. }
  rewrite <- C0 in V0. rewrite <- C4 in V4. clear -Cu Cc Gc Ar R' Rp' P' V0 V4 Va Wc' Wt' Hmode Hcl5.
  revert Cu Cc Gc Ar R' Rp' P' V0 V4 Va Wc' Wt' Hmode Hcl5. generalize (cr_written G w) as u. intros u. intros.
  split; [exact Cc|exact Gc| | | |exact Rp'|destruct P'; by split|].
  - revert Ar. apply area_ext; [by intros []|done..].
  - destruct R', Wc', Wt'. split; [exact Hcl5|by split..].
  - split; [exact V0|exact V4|exact Va|destruct Hmode; by split].
  - intros H. destruct (Cu H). by split.
Qed.

(** ** [vcpu_init] *)

(** A virtual CPU whose memory has been cleared. *)
Record fresh v : Prop := {
  fr_cr4 : cr4 v = 0;
  fr_efer : efer v = 0;
  fr_intr : vc_interruptibility_state (intr v) = 0;
  fr_vpid : 0 <= cv_vpid v < 2 ^ 16;
  fr_closed : closed v;
  fr_ready : cr_ready v;
}.

(** What the registers have been given, and what has been left alone. *)
Record initialised v v1 : Prop := {
  in_power : power_up v1;
  in_closed : closed v1;
  in_ready : cr_ready v1;
  in_panic : panicked v1 = panicked v;
  in_globals : cv_cpuid_globals v1 = cv_cpuid_globals v;
  in_run : cv_run v1 = cv_run v;
}.

(** What the values of segments do not change. *)
Definition obs v := (cr0 v, cr4 v, efer v, rip v, rflags v, cv_ctls v, vc_interruptibility_state (intr v), cv_vpid v, cv_cpu v,
  eptp v, cv_pae_pdptes v, panicked v, cv_cpuid_globals v, cv_run v).

Lemma obs_init_seg s a b l r v : obs (init_seg s a b l r v) = obs v.
Proof. by destruct s. Qed.
Lemma obs_set_gdt b l v : obs (set_gdt b l v) = obs v.
Proof. done. Qed.
Lemma obs_set_idt b l v : obs (set_idt b l v) = obs v.
Proof. done. Qed.
Lemma get_init_seg s s' a b l r v :
  desc_of (get_seg s' (init_seg s a b l r v)) = if decide (s = s') then (a, b, l, r) else desc_of (get_seg s' v).
Proof. by destruct s, s'. Qed.
Lemma get_set_gdt s b l v : get_seg s (set_gdt b l v) = get_seg s v.
Proof. by destruct s. Qed.
Lemma get_set_idt s b l v : get_seg s (set_idt b l v) = get_seg s v.
Proof. by destruct s. Qed.
Lemma gdt_init_seg s a b l r v : cv_gdt (init_seg s a b l r v) = cv_gdt v /\ cv_idt (init_seg s a b l r v) = cv_idt v.
Proof. by destruct s. Qed.

Definition init_segs v : vcpu :=
  init_seg SegTR 0 0 0xffff 0x83 (init_seg SegLDTR 0 0 0xffff 0x82 (set_idt 0 0xffff (set_gdt 0 0xffff
    (init_seg SegGS 0 0 0xffff 0x93 (init_seg SegFS 0 0 0xffff 0x93 (init_seg SegES 0 0 0xffff 0x93
      (init_seg SegDS 0 0 0xffff 0x93 (init_seg SegSS 0 0 0xffff 0x93 (init_seg SegCS 0xf000 0xffff0000 0xffff 0x93 v))))))))).

Lemma init_segs_ok v : obs (init_segs v) = obs v /\ (forall s, desc_of (get_seg s (init_segs v)) = reset_desc s) /\
  sd_limit (cv_gdt (init_segs v)) = 0xffff /\ sd_limit (cv_idt (init_segs v)) = 0xffff.
Proof.
  unfold init_segs. split; [by rewrite !obs_init_seg, obs_set_idt, obs_set_gdt, !obs_init_seg|]. split.
  - intros s. rewrite !get_init_seg, get_set_idt, get_set_gdt, !get_init_seg. by destruct s.
  - by rewrite !(proj1 (gdt_init_seg _ _ _ _ _ _)), !(proj2 (gdt_init_seg _ _ _ _ _ _)).
Qed.

Lemma vcpu_init_state_wp v (Q : unit -> vcpu -> Prop) : fresh v ->
  (forall v1, initialised v v1 -> Q tt v1) -> wp vcpu_init_state v Q.
Proof.
  intros [F1 F2 F3 F4 F5 F6] HQ. unfold vcpu_init_state. do 3 apply wp_bind, wp_modify.
  unfold rdtsc. apply wp_bind, wp_bind, wp_get. destruct (ia32_rdtsc _) as [t h]. apply wp_bind, wp_modify, wp_ret.
  do 4 apply wp_bind, wp_modify. match goal with |- wp _ ?x _ => set (w := x) end.
  assert (Hw : obs w = (0x60000010, cr4 v, efer v, 0xfff0, 2, cv_ctls (clear_cr_masks v), vc_interruptibility_state (intr v),
    cv_vpid v, set_vx_hw h (cv_cpu v), eptp v, cv_pae_pdptes v, panicked v, cv_cpuid_globals v, cv_run v)) by reflexivity.
  clearbody w. do 10 apply wp_bind, wp_modify. fold (init_segs w). destruct (init_segs_ok w) as (Ho & Hs & Hg & Hi).
  rewrite Hw in Ho. revert Ho Hs Hg Hi. generalize (init_segs w) as u. clear w Hw. intros u Ho Hs Hg Hi.
  injection Ho as O1 O2 O3 O4 O5 O6 O7 O8 O9 O10 O11 O12 O13 O14. do 4 apply wp_bind, wp_modify. apply wp_modify, HQ.
  assert (Hu : initialised v u).
  { split; try done.
    - split; try congruence; try done. by rewrite O6.
    - unfold closed. rewrite O9. exact (unsec_hw h _ F5).
    - destruct F6. split; congruence. }
  clear -Hu. destruct Hu as [[] ? [] ? ? ?]. case_match; by split.
Qed.

(** The table that the virtual CPU uses: that of the first one. *)
Definition table_source v (vcpu_0 : option (option hax_cpuid_t)) : Prop :=
  rs_vcpu_id (cv_run v) = 0 \/ exists t, vcpu_0 = Some (Some t) /\ table_wf (hc_features t).

Context {CL : CpuidLaws}.

Lemma init_cpuid_wp vcpu_0 v (Q : unit -> vcpu -> Prop) :
  width_ok -> CpuidFeatures.ready (cv_cpuid_globals v) -> table_source v vcpu_0 ->
  (forall t g r, table_wf (hc_features t) -> CpuidFeatures.ready g ->
     Q tt (set_cv_run r (set_cv_cpuid (Some t) (set_cv_cpuid_globals g v)))) ->
  wp (vcpu_init_cpuid uninit vcpu_0) v Q.
Proof.
  intros Hw Hr Ht HQ. unfold vcpu_init_cpuid. apply wp_bind, wp_get.
  destruct (Z.eqb_spec (rs_vcpu_id (cv_run v)) 0) as [E|E]; cbn [negb].
  - destruct (guest_init_rule uninit (cv_cpuid_globals v) Hw Hr) as (t & g & Hrun & Hg & Hwf & _).
    apply wp_bind. eexists t, _. split; [unfold in_cpuid; by rewrite Hrun|]. apply wp_bind, wp_modify, wp_bind.
    destruct (find_spec (hc_features t) CPUID_TOTAL_LEAVES 0x0d 0 g) as (j & Hj & Hfound); [by rewrite (table_length _ Hwf)|].
    unfold wp, in_cpuid, cpuid_post_set_features.
    change (cv_cpuid_globals (set_cv_cpuid _ _)) with g. rewrite (bind_run _ _ _ _ _ Hj). destruct j as [j|].
    + destruct Hfound as (e & He & _). rewrite (of_option_run _ e) by done. rewrite gets_run.
      eexists _, _. split; [reflexivity|]. apply wp_modify. by apply (HQ t g _).
    + eexists _, _. split; [reflexivity|]. apply wp_modify. by apply (HQ t g _).
  - destruct Ht as [?|(t & -> & Ht)]; [done|]. apply wp_modify.
    rewrite <- (run_eta (set_cv_cpuid _ v)), <- (globals_eta v). by apply (HQ t).
Qed.

Lemma init_fx_wp v t (Q : unit -> vcpu -> Prop) : cv_cpuid v = Some t -> table_wf (hc_features t) ->
  CpuidFeatures.ready (cv_cpuid_globals v) ->
  (forall x, 0 <= x < 2 ^ 64 -> Q tt (set_cr0 (cr0 v |! CR0_ET) (set_cv_xcr0 x v))) -> wp vcpu_init_fx v Q.
Proof.
  intros Ht Hwf Hr HQ. unfold vcpu_init_fx. apply wp_bind, wp_get, wp_bind. rewrite Ht.
  assert (Hb : exists b, cpuid_guest_has_feature (Some t) X86_FEATURE_XSAVE (cv_cpuid_globals v) = Some (b, cv_cpuid_globals v)).
  { unfold cpuid_guest_has_feature.
    destruct (find_spec (hc_features t) CPUID_TOTAL_LEAVES (feature_leaf X86_FEATURE_XSAVE) (feature_subleaf X86_FEATURE_XSAVE)
      (cv_cpuid_globals v)) as (j & Hj & Hfound); [by rewrite (table_length _ Hwf)|].
    rewrite (bind_run _ _ _ _ _ Hj). destruct j as [j|]; [|by eexists]. destruct Hfound as (e & He & _).
    rewrite (of_option_run _ e) by done. by eexists. }
  destruct Hb as [b Hb]. eexists b, v. split; [unfold in_cpuid; by rewrite Hb, globals_eta|].
  apply wp_bind, wp_modify, wp_modify, HQ. destruct b; [apply Hr|by vm_compute].
Qed.

Lemma vcpu_init_wp vcpu_0 v (Q : unit -> vcpu -> Prop) : fresh v -> width_ok ->
  CpuidFeatures.ready (cv_cpuid_globals v) -> table_source v vcpu_0 ->
  (forall v1, power_up v1 -> closed v1 -> cr_ready v1 -> cpuid_ready v1 -> panicked v1 = panicked v -> Q tt v1) ->
  wp (vcpu_init uninit vcpu_0) v Q.
Proof.
  intros Hf Hw Hr Ht HQ. unfold vcpu_init. apply wp_bind, vcpu_init_state_wp; [done|]. intros v1 [P C R Hp Hg Hrun].
  apply wp_bind, init_cpuid_wp; [done|by rewrite Hg|unfold table_source; by rewrite Hrun|]. intros t g r Hwf Hrg.
  eapply (init_fx_wp _ t); [done..|]. intros x Hx. destruct P as [P0 P4 P5 P6 P7 P8 P9 P10 P11 P12]. apply HQ.
  - split; try done. change (cr0 v1 |! CR0_ET = 0x60000010). by rewrite P0.
  - done.
  - destruct R. by split.
  - split; [exists t; by rewrite (table_length _ Hwf)| |done].
    change (length (cc_data (cg_cache g)) = 7%nat). by destruct (rd_cached _ Hrg) as [-> _].
  - done.
Qed.

(** C18. A new virtual CPU can be entered, on the processors that the code is made for
    ([info_ok]): secondary controls, EPT, unrestricted guests and the loading of PAT at entry are
    supported, which [vcpu_prepare] does not test, and VPID, the long mode of the guest and the
    loading of EFER are not forced.  If moreover the VMX instructions succeed and the unrestricted
    guest is enabled, [vcpu_init] and [vcpu_prepare] return with the registers at their values after power-up, in the virtual CPU and in the VMCS; the control
    words are those the processor allows, and the state of the guest passes the checks at VM
    entry.  No section is left open, and the virtual CPU is in the state in which the handlers
    of control-register accesses expect it. *)
Theorem new_vcpu_enterable vcpu_0 v : hw_succeeds -> info_ok -> globals_ok G -> hg_ug_enable_flag G = true ->
  fresh v -> width_ok -> CpuidFeatures.ready (cv_cpuid_globals v) -> table_source v vcpu_0 ->
  exists v', (vcpu_init uninit vcpu_0;;
      vcpu_prepare G uninit info io_bitmap_a_pa io_bitmap_b_pa msr_bitmap_pa gmsr_autoload_pa) v = Some (tt, v') /\
    controls_checked (vmcs v') /\ guest_checked (vmcs v') /\ power_up v' /\ guest_area v' (vmcs v') /\
    crs_loaded G v' /\ ready v' /\ cpuid_ready v' /\ panicked v' = panicked v.
Proof.
  intros Hhw I Hg Hug Hf Hw Hr Ht.
  assert (H : wp (vcpu_init uninit vcpu_0;;
      vcpu_prepare G uninit info io_bitmap_a_pa io_bitmap_b_pa msr_bitmap_pa gmsr_autoload_pa) v (fun _ v' =>
    controls_checked (vmcs v') /\ guest_checked (vmcs v') /\ power_up v' /\ guest_area v' (vmcs v') /\
    crs_loaded G v' /\ ready v' /\ cpuid_ready v' /\ panicked v' = panicked v)).
  { apply wp_bind, vcpu_init_wp; [done..|]. intros v1 P C R Cu Hp.
    eapply wp_mono; [apply vcpu_prepare_wp; try done; apply Cu|]. intros _ v' [E1 E2 E3 E4 E5 E6 E7 E8].
    split_and!; try done; [by apply E8|by rewrite E6]. }
  destruct H as ([] & v' & Hrun & H). by exists v'.
Qed.
End New.
