(* ===== verification/VcpuNewDemo.v ===== *)
(** * An instance of the theorem on new virtual CPUs *)

From stdpp Require Import base numbers list gmap.
From Stdlib Require Import ZArith Lia.
From S2P Require Import IntrExc IntrProps Prelude HaxList MemTypes Memslot SimpleHost GpaSpace PageWalker Mmio.
From S2P Require Import EptTree EptProps Ept2 Ept2Props EmTypes Emulate EmCache VcpuEmu VcpuEmuDemo.
From S2P Require Import Cpuid CpuidProps CpuidFeatures CpuidDemo Vmx VmxProps VcpuState VcpuCr VcpuMsr VcpuExit VcpuSync.
From S2P Require Import VcpuHost VcpuHostProps VcpuCrProps VcpuCrExit VcpuDemo.
From S2P Require Import HostHeap HaxInit HaxInitProps VcpuInit VcpuFillProps VcpuNewProps.
#[local] Open Scope Z_scope.

(** Capability words: the bits that must be 1, and those that may be. *)
Definition caps (must may : Z) : Z := must |! Z.shiftl may 32.
Definition demo_info : info_t :=
  Info 0x12 (caps 0x16 0x7f) (caps 0x0401e172 0xfff9fffe) (caps 0x36dff 0x7fffff) (caps 0x11ff 0xffff)
    0x40000 0x80000021 0xffffffff 0x2000 0x3727ff 0x2a (caps 0 0x10ff) 0.

Lemma demo_info_ok : info_ok demo_info.
Proof. by split; try split; vm_compute. Qed.

(** The memory of the virtual CPU is cleared; it has a VPID. *)
Definition new_vcpu : vcpu :=
  set_cv_vpid 0x101 (set_cv_cpuid None (set_cr4_of 0 (set_efer 0 (set_cr3 0 (set_cr0 0 (demo_vcpu 0)))))).

Lemma new_vcpu_fresh : fresh new_vcpu.
Proof. split; [done|done|done|by vm_compute|by split|split; [by vm_compute|done]]. Qed.

Lemma demo_width : width_ok.
Proof. by vm_compute. Qed.
Lemma demo_globals_ready : CpuidFeatures.ready demo_globals.
Proof. split; [by vm_compute..|intros c; exact (demo_sizes c)|by split; vm_compute]. Qed.

Lemma new_vcpu_enterable_witness :
  exists v', (vcpu_init no_args None;; vcpu_prepare demo_globals_hax no_args demo_info 0x7000 0x8000 0x9000 0xa000) new_vcpu =
      Some (tt, v') /\
    vmcs_value (vmcs v') GUEST_RIP = 0xfff0 /\ vmcs_value (vmcs v') (seg_base SegCS) = 0xffff0000 /\
    allowed (xi_pin_ctls demo_info) (vmcs_value (vmcs v') VMX_PIN_CONTROLS) /\ guest_cr0 (vmcs v') = 0x60000010.
Proof.
  destruct (new_vcpu_enterable demo_globals_hax no_args demo_info 0x7000 0x8000 0x9000 0xa000 None new_vcpu demo_succeeds
    demo_info_ok demo_globals_ok eq_refl new_vcpu_fresh demo_width demo_globals_ready (or_introl eq_refl))
    as (v' & Hrun & C & _ & P & A & L & _). exists v'. split; [exact Hrun|].
  rewrite (ga_rip _ _ A), (pu_rip _ P). split; [reflexivity|]. split.
  - destruct (ga_seg _ _ A SegCS) as (_ & -> & _). pose proof (pu_segs _ P SegCS) as E. cbn in E. injection E as _ E _ _.
    change (sd_base (get_seg SegCS v') = 0xffff0000) in E. rewrite E. reflexivity.
  - split; [exact (cc_pin _ _ C)|]. rewrite (cl_cr0 _ _ L), (pu_cr0 _ P). reflexivity.
Defined.
