(* ===== verification/VmLife.v ===== *)
(** * Virtual machines and virtual CPUs as objects (src/core/vm.c, parts of src/core/vcpu.c and
    src/core/memory.c, and the devices of src/platforms/linux/components.c)

    VMs and virtual CPUs are allocated, published in lists, counted by references, and freed when
    the last reference is dropped.  The state is the memory of the driver with its objects by
    address; an object that is read or written after it has been freed is a failure of the model.
    What runs on a VM or a virtual CPU are the operations of the other files: [on_vm] and
    [on_vcpu] lend them the state that is shared by all of them. *)

From stdpp Require Import base numbers list gmap.
From Stdlib Require Import ZArith Lia.
From S2P Require Import IntrExc Prelude MemTypes Memslot GpaSpace PageWalker Mmio.
From S2P Require Import EmTypes Emulate EptTree Ept2 VmMemory VcpuEmu Cpuid Vmx VcpuState VcpuCr.
From S2P Require Import VcpuMsr VcpuExit VcpuSync VcpuIo VcpuHost HostHeap HaxInit VcpuInit.
#[local] Open Scope Z_scope.

Definition ENODEV : Z := 19.
Definition HAX_MAX_VMS : Z := 64.
Definition HAX_MAX_VCPUS : Z := 16.
Definition MAX_GMEM_G : Z := 5.
Definition VPID_SEED_BITS : Z := 64.
Definition VM_STATE_FLAGS_OPENED : Z := 0x1.
Definition VM_STATE_FLAGS_MEM_ALLOC : Z := 0x2.
Definition VM_FEATURES_FASTMMIO_BASIC : Z := 0x1.
Definition VM_FEATURES_FASTMMIO_EXTRA : Z := 0x2.
Definition VM_SPARE_RAMSIZE : Z := 0x5800000.
Definition VCPU_STATE_FLAGS_OPENED : Z := 1.
Definition HAX_VCPUMEM_VALIDVA : Z := 1.

(** Services of the kernel for buffers and devices.  [misc_register] refuses a name that is in
    use; otherwise its result is that of [misc_register_result]. *)
Class LinuxHost {HH : Host} := {
  vm_mmap : Z -> hstate -> Z * hstate;
  get_user_pages_fast : Z -> Z -> hstate -> Z * hstate;
  vmap_ok : hstate -> bool * hstate;
  misc_register_result : hstate -> Z * hstate;
}.

(** The names of the devices: those of VMs and of virtual CPUs. *)
Inductive device := DevVm (vm_id : Z) | DevVcpu (vm_id vcpu_id : Z).
#[export] Instance device_eq_dec : EqDecision device.
Proof. solve_decision. Defined.
#[export] Instance device_countable : Countable device.
Proof.
  refine (inj_countable' (fun d => match d with DevVm i => inl i | DevVcpu i j => inr (i, j) end)
    (fun x => match x with inl i => DevVm i | inr (i, j) => DevVcpu i j end) _).
  by intros [].
Defined.

(** A buffer that is shared with user space; [vcm_kva] is [false] when the mapping in the kernel
    has failed, which is not tested. *)
Record hax_vcpu_mem := VcpuMem {
  vcm_addr : Z;
  vcm_uva : Z;
  vcm_kva : bool;
  vcm_hinfo : Z;
  vcm_pages : Z;
  vcm_size : Z;
}.

(** The objects of the devices; a device has a name, which is allocated. *)
Record hax_vm_linux_t := VmLinux { vh_cvm : Z; vh_id : Z; vh_dev : option (device * Z) }.
Record hax_vcpu_linux_t := VcpuLinux { ch_cvcpu : Z; ch_vm : Z; ch_id : Z; ch_dev : option (device * Z) }.

Section Objects.
Context {HH : Host} {PH : PhysHost} {VH : VmxHw}.
(** What a VM still holds, besides the objects of the heap, when its memory is released: no
    one else has it.  [dv_leaked] below collects it; it is not in the code. *)
Inductive remain :=
| RmBlock (b : hax_ramblock)
| RmSlot (s : hax_memslot)
| RmBitmap (bitmap : list Z)
| RmEptPage (pfn : Z).


(** [struct vm_t].  [vpid_seed] is one word; [vo_vm] holds the address space and the EPT tree,
    [vo_ram_mems] what [ram_entry] points to. *)
Record vm_obj := VmObj {
  vo_vm : vm_t;
  vo_vm_lock : option Z;
  vo_ref_count : Z;
  vo_flags : Z;
  vo_features : Z;
  vo_vm_id : Z;
  vo_vpid_seed : Z;
  vo_vcpu_list : list Z;
  vo_bsp_vcpu_id : Z;
  vo_valid_xcr0 : Z;
  vo_vm_host : Z;
  vo_p2m_map : list (option Z);
  vo_ept_lock : option Z;
  vo_ram_entry : option Z;
  vo_ram_mems : list hax_vcpu_mem;
  vo_spare_ramsize : Z;
}.

(** [struct vcpu_t]: what its creation and its destruction use; the registers and the rest are
    [co_vcpu], to which [vcpu_id] and [vpid] are lent as well. *)
Record vcpu_obj := VcpuObj {
  co_vcpu : vcpu;
  co_vm : Z;
  co_vcpu_id : Z;
  co_vpid : Z;
  co_ref_count : Z;
  co_flags : Z;
  co_vmcs_page : option Z;
  co_gfxpage : option Z;
  co_state : option Z;
  co_tmutex : option Z;
  co_guest_cpuid : option Z;
  co_tunnel_vcpumem : option hax_vcpu_mem;
  co_iobuf_vcpumem : option hax_vcpu_mem;
  co_tunnel : bool;
  co_vcpu_host : Z;
}.
End Objects.

Section Driver.
Context {HH : Host} {PH : PhysHost} {VH : VmxHw}.

(** The driver: its memory, the objects in it by address, the registered devices, and what VMs
    and virtual CPUs share.  [dv_cpus] are the CPUs as a new VM finds them, with what they may
    have cached under its EPT pointer, [dv_umem] the memory of the process that creates it. *)
Record driver := Driver {
  dv_heap : heap;
  dv_phys : pstate;
  dv_vm_mid_bits : Z;
  dv_hax : hax_t;
  dv_vmlist : list Z;
  dv_vms : gmap Z vm_obj;
  dv_vcpus : gmap Z vcpu_obj;
  dv_cpuids : gmap Z hax_cpuid_t;
  dv_vm_hosts : gmap Z hax_vm_linux_t;
  dv_vcpu_hosts : gmap Z hax_vcpu_linux_t;
  dv_devices : gset device;
  dv_processor : vmx_cpu;
  dv_irq_enabled : bool;
  dv_cpuid_globals : cpuid_globals;
  dv_ept_capabilities : Z;
  dv_cpus : list cpu_t;
  dv_umem : gmap Z Z;
  dv_leaked : list remain;
}.
End Driver.

Section Setters.
Context {HH : Host} {PH : PhysHost} {VH : VmxHw}.
Implicit Types (o : vm_obj) (c : vcpu_obj) (d : driver).
Definition set_vo_vm (x : vm_t) o : vm_obj :=
  VmObj x (vo_vm_lock o) (vo_ref_count o) (vo_flags o) (vo_features o) (vo_vm_id o) (vo_vpid_seed
    o) (vo_vcpu_list o) (vo_bsp_vcpu_id o) (vo_valid_xcr0 o) (vo_vm_host o) (vo_p2m_map o)
    (vo_ept_lock o) (vo_ram_entry o) (vo_ram_mems o) (vo_spare_ramsize o).
Definition set_vo_vm_lock (x : option Z) o : vm_obj :=
  VmObj (vo_vm o) x (vo_ref_count o) (vo_flags o) (vo_features o) (vo_vm_id o) (vo_vpid_seed o)
    (vo_vcpu_list o) (vo_bsp_vcpu_id o) (vo_valid_xcr0 o) (vo_vm_host o) (vo_p2m_map o)
    (vo_ept_lock o) (vo_ram_entry o) (vo_ram_mems o) (vo_spare_ramsize o).
Definition set_vo_ref_count (x : Z) o : vm_obj :=
  VmObj (vo_vm o) (vo_vm_lock o) x (vo_flags o) (vo_features o) (vo_vm_id o) (vo_vpid_seed o)
    (vo_vcpu_list o) (vo_bsp_vcpu_id o) (vo_valid_xcr0 o) (vo_vm_host o) (vo_p2m_map o)
    (vo_ept_lock o) (vo_ram_entry o) (vo_ram_mems o) (vo_spare_ramsize o).
Definition set_vo_flags (x : Z) o : vm_obj :=
  VmObj (vo_vm o) (vo_vm_lock o) (vo_ref_count o) x (vo_features o) (vo_vm_id o) (vo_vpid_seed o)
    (vo_vcpu_list o) (vo_bsp_vcpu_id o) (vo_valid_xcr0 o) (vo_vm_host o) (vo_p2m_map o)
    (vo_ept_lock o) (vo_ram_entry o) (vo_ram_mems o) (vo_spare_ramsize o).
Definition set_vo_features (x : Z) o : vm_obj :=
  VmObj (vo_vm o) (vo_vm_lock o) (vo_ref_count o) (vo_flags o) x (vo_vm_id o) (vo_vpid_seed o)
    (vo_vcpu_list o) (vo_bsp_vcpu_id o) (vo_valid_xcr0 o) (vo_vm_host o) (vo_p2m_map o)
    (vo_ept_lock o) (vo_ram_entry o) (vo_ram_mems o) (vo_spare_ramsize o).
Definition set_vo_vm_id (x : Z) o : vm_obj :=
  VmObj (vo_vm o) (vo_vm_lock o) (vo_ref_count o) (vo_flags o) (vo_features o) x (vo_vpid_seed o)
    (vo_vcpu_list o) (vo_bsp_vcpu_id o) (vo_valid_xcr0 o) (vo_vm_host o) (vo_p2m_map o)
    (vo_ept_lock o) (vo_ram_entry o) (vo_ram_mems o) (vo_spare_ramsize o).
Definition set_vo_vpid_seed (x : Z) o : vm_obj :=
  VmObj (vo_vm o) (vo_vm_lock o) (vo_ref_count o) (vo_flags o) (vo_features o) (vo_vm_id o) x
    (vo_vcpu_list o) (vo_bsp_vcpu_id o) (vo_valid_xcr0 o) (vo_vm_host o) (vo_p2m_map o)
    (vo_ept_lock o) (vo_ram_entry o) (vo_ram_mems o) (vo_spare_ramsize o).
Definition set_vo_vcpu_list (x : list Z) o : vm_obj :=
  VmObj (vo_vm o) (vo_vm_lock o) (vo_ref_count o) (vo_flags o) (vo_features o) (vo_vm_id o)
    (vo_vpid_seed o) x (vo_bsp_vcpu_id o) (vo_valid_xcr0 o) (vo_vm_host o) (vo_p2m_map o)
    (vo_ept_lock o) (vo_ram_entry o) (vo_ram_mems o) (vo_spare_ramsize o).
Definition set_vo_valid_xcr0 (x : Z) o : vm_obj :=
  VmObj (vo_vm o) (vo_vm_lock o) (vo_ref_count o) (vo_flags o) (vo_features o) (vo_vm_id o)
    (vo_vpid_seed o) (vo_vcpu_list o) (vo_bsp_vcpu_id o) x (vo_vm_host o) (vo_p2m_map o)
    (vo_ept_lock o) (vo_ram_entry o) (vo_ram_mems o) (vo_spare_ramsize o).
Definition set_vo_vm_host (x : Z) o : vm_obj :=
  VmObj (vo_vm o) (vo_vm_lock o) (vo_ref_count o) (vo_flags o) (vo_features o) (vo_vm_id o)
    (vo_vpid_seed o) (vo_vcpu_list o) (vo_bsp_vcpu_id o) (vo_valid_xcr0 o) x (vo_p2m_map o)
    (vo_ept_lock o) (vo_ram_entry o) (vo_ram_mems o) (vo_spare_ramsize o).
Definition set_vo_p2m_map (x : list (option Z)) o : vm_obj :=
  VmObj (vo_vm o) (vo_vm_lock o) (vo_ref_count o) (vo_flags o) (vo_features o) (vo_vm_id o)
    (vo_vpid_seed o) (vo_vcpu_list o) (vo_bsp_vcpu_id o) (vo_valid_xcr0 o) (vo_vm_host o) x
    (vo_ept_lock o) (vo_ram_entry o) (vo_ram_mems o) (vo_spare_ramsize o).
Definition set_vo_ept_lock (x : option Z) o : vm_obj :=
  VmObj (vo_vm o) (vo_vm_lock o) (vo_ref_count o) (vo_flags o) (vo_features o) (vo_vm_id o)
    (vo_vpid_seed o) (vo_vcpu_list o) (vo_bsp_vcpu_id o) (vo_valid_xcr0 o) (vo_vm_host o)
    (vo_p2m_map o) x (vo_ram_entry o) (vo_ram_mems o) (vo_spare_ramsize o).
Definition set_vo_ram_entry (x : option Z) o : vm_obj :=
  VmObj (vo_vm o) (vo_vm_lock o) (vo_ref_count o) (vo_flags o) (vo_features o) (vo_vm_id o)
    (vo_vpid_seed o) (vo_vcpu_list o) (vo_bsp_vcpu_id o) (vo_valid_xcr0 o) (vo_vm_host o)
    (vo_p2m_map o) (vo_ept_lock o) x (vo_ram_mems o) (vo_spare_ramsize o).
Definition set_vo_ram_mems (x : list hax_vcpu_mem) o : vm_obj :=
  VmObj (vo_vm o) (vo_vm_lock o) (vo_ref_count o) (vo_flags o) (vo_features o) (vo_vm_id o)
    (vo_vpid_seed o) (vo_vcpu_list o) (vo_bsp_vcpu_id o) (vo_valid_xcr0 o) (vo_vm_host o)
    (vo_p2m_map o) (vo_ept_lock o) (vo_ram_entry o) x (vo_spare_ramsize o).
Definition set_co_vcpu (x : vcpu) c : vcpu_obj :=
  VcpuObj x (co_vm c) (co_vcpu_id c) (co_vpid c) (co_ref_count c) (co_flags c) (co_vmcs_page c)
    (co_gfxpage c) (co_state c) (co_tmutex c) (co_guest_cpuid c) (co_tunnel_vcpumem c)
    (co_iobuf_vcpumem c) (co_tunnel c) (co_vcpu_host c).
Definition set_co_vm (x : Z) c : vcpu_obj :=
  VcpuObj (co_vcpu c) x (co_vcpu_id c) (co_vpid c) (co_ref_count c) (co_flags c) (co_vmcs_page c)
    (co_gfxpage c) (co_state c) (co_tmutex c) (co_guest_cpuid c) (co_tunnel_vcpumem c)
    (co_iobuf_vcpumem c) (co_tunnel c) (co_vcpu_host c).
Definition set_co_vcpu_id (x : Z) c : vcpu_obj :=
  VcpuObj (co_vcpu c) (co_vm c) x (co_vpid c) (co_ref_count c) (co_flags c) (co_vmcs_page c)
    (co_gfxpage c) (co_state c) (co_tmutex c) (co_guest_cpuid c) (co_tunnel_vcpumem c)
    (co_iobuf_vcpumem c) (co_tunnel c) (co_vcpu_host c).
Definition set_co_vpid (x : Z) c : vcpu_obj :=
  VcpuObj (co_vcpu c) (co_vm c) (co_vcpu_id c) x (co_ref_count c) (co_flags c) (co_vmcs_page c)
    (co_gfxpage c) (co_state c) (co_tmutex c) (co_guest_cpuid c) (co_tunnel_vcpumem c)
    (co_iobuf_vcpumem c) (co_tunnel c) (co_vcpu_host c).
Definition set_co_ref_count (x : Z) c : vcpu_obj :=
  VcpuObj (co_vcpu c) (co_vm c) (co_vcpu_id c) (co_vpid c) x (co_flags c) (co_vmcs_page c)
    (co_gfxpage c) (co_state c) (co_tmutex c) (co_guest_cpuid c) (co_tunnel_vcpumem c)
    (co_iobuf_vcpumem c) (co_tunnel c) (co_vcpu_host c).
Definition set_co_flags (x : Z) c : vcpu_obj :=
  VcpuObj (co_vcpu c) (co_vm c) (co_vcpu_id c) (co_vpid c) (co_ref_count c) x (co_vmcs_page c)
    (co_gfxpage c) (co_state c) (co_tmutex c) (co_guest_cpuid c) (co_tunnel_vcpumem c)
    (co_iobuf_vcpumem c) (co_tunnel c) (co_vcpu_host c).
Definition set_co_vmcs_page (x : option Z) c : vcpu_obj :=
  VcpuObj (co_vcpu c) (co_vm c) (co_vcpu_id c) (co_vpid c) (co_ref_count c) (co_flags c) x
    (co_gfxpage c) (co_state c) (co_tmutex c) (co_guest_cpuid c) (co_tunnel_vcpumem c)
    (co_iobuf_vcpumem c) (co_tunnel c) (co_vcpu_host c).
Definition set_co_gfxpage (x : option Z) c : vcpu_obj :=
  VcpuObj (co_vcpu c) (co_vm c) (co_vcpu_id c) (co_vpid c) (co_ref_count c) (co_flags c)
    (co_vmcs_page c) x (co_state c) (co_tmutex c) (co_guest_cpuid c) (co_tunnel_vcpumem c)
    (co_iobuf_vcpumem c) (co_tunnel c) (co_vcpu_host c).
Definition set_co_state (x : option Z) c : vcpu_obj :=
  VcpuObj (co_vcpu c) (co_vm c) (co_vcpu_id c) (co_vpid c) (co_ref_count c) (co_flags c)
    (co_vmcs_page c) (co_gfxpage c) x (co_tmutex c) (co_guest_cpuid c) (co_tunnel_vcpumem c)
    (co_iobuf_vcpumem c) (co_tunnel c) (co_vcpu_host c).
Definition set_co_tmutex (x : option Z) c : vcpu_obj :=
  VcpuObj (co_vcpu c) (co_vm c) (co_vcpu_id c) (co_vpid c) (co_ref_count c) (co_flags c)
    (co_vmcs_page c) (co_gfxpage c) (co_state c) x (co_guest_cpuid c) (co_tunnel_vcpumem c)
    (co_iobuf_vcpumem c) (co_tunnel c) (co_vcpu_host c).
Definition set_co_guest_cpuid (x : option Z) c : vcpu_obj :=
  VcpuObj (co_vcpu c) (co_vm c) (co_vcpu_id c) (co_vpid c) (co_ref_count c) (co_flags c)
    (co_vmcs_page c) (co_gfxpage c) (co_state c) (co_tmutex c) x (co_tunnel_vcpumem c)
    (co_iobuf_vcpumem c) (co_tunnel c) (co_vcpu_host c).
Definition set_co_tunnel_vcpumem (x : option hax_vcpu_mem) c : vcpu_obj :=
  VcpuObj (co_vcpu c) (co_vm c) (co_vcpu_id c) (co_vpid c) (co_ref_count c) (co_flags c)
    (co_vmcs_page c) (co_gfxpage c) (co_state c) (co_tmutex c) (co_guest_cpuid c) x
    (co_iobuf_vcpumem c) (co_tunnel c) (co_vcpu_host c).
Definition set_co_iobuf_vcpumem (x : option hax_vcpu_mem) c : vcpu_obj :=
  VcpuObj (co_vcpu c) (co_vm c) (co_vcpu_id c) (co_vpid c) (co_ref_count c) (co_flags c)
    (co_vmcs_page c) (co_gfxpage c) (co_state c) (co_tmutex c) (co_guest_cpuid c)
    (co_tunnel_vcpumem c) x (co_tunnel c) (co_vcpu_host c).
Definition set_co_tunnel (x : bool) c : vcpu_obj :=
  VcpuObj (co_vcpu c) (co_vm c) (co_vcpu_id c) (co_vpid c) (co_ref_count c) (co_flags c)
    (co_vmcs_page c) (co_gfxpage c) (co_state c) (co_tmutex c) (co_guest_cpuid c)
    (co_tunnel_vcpumem c) (co_iobuf_vcpumem c) x (co_vcpu_host c).
Definition set_co_vcpu_host (x : Z) c : vcpu_obj :=
  VcpuObj (co_vcpu c) (co_vm c) (co_vcpu_id c) (co_vpid c) (co_ref_count c) (co_flags c)
    (co_vmcs_page c) (co_gfxpage c) (co_state c) (co_tmutex c) (co_guest_cpuid c)
    (co_tunnel_vcpumem c) (co_iobuf_vcpumem c) (co_tunnel c) x.
Definition set_dv_heap (x : heap) d : driver :=
  Driver x (dv_phys d) (dv_vm_mid_bits d) (dv_hax d) (dv_vmlist d) (dv_vms d) (dv_vcpus d)
    (dv_cpuids d) (dv_vm_hosts d) (dv_vcpu_hosts d) (dv_devices d) (dv_processor d)
    (dv_irq_enabled d) (dv_cpuid_globals d) (dv_ept_capabilities d) (dv_cpus d) (dv_umem d) (dv_leaked d).
Definition set_dv_phys (x : pstate) d : driver :=
  Driver (dv_heap d) x (dv_vm_mid_bits d) (dv_hax d) (dv_vmlist d) (dv_vms d) (dv_vcpus d)
    (dv_cpuids d) (dv_vm_hosts d) (dv_vcpu_hosts d) (dv_devices d) (dv_processor d)
    (dv_irq_enabled d) (dv_cpuid_globals d) (dv_ept_capabilities d) (dv_cpus d) (dv_umem d) (dv_leaked d).
Definition set_dv_vm_mid_bits (x : Z) d : driver :=
  Driver (dv_heap d) (dv_phys d) x (dv_hax d) (dv_vmlist d) (dv_vms d) (dv_vcpus d) (dv_cpuids d)
    (dv_vm_hosts d) (dv_vcpu_hosts d) (dv_devices d) (dv_processor d) (dv_irq_enabled d)
    (dv_cpuid_globals d) (dv_ept_capabilities d) (dv_cpus d) (dv_umem d) (dv_leaked d).
Definition set_dv_hax (x : hax_t) d : driver :=
  Driver (dv_heap d) (dv_phys d) (dv_vm_mid_bits d) x (dv_vmlist d) (dv_vms d) (dv_vcpus d)
    (dv_cpuids d) (dv_vm_hosts d) (dv_vcpu_hosts d) (dv_devices d) (dv_processor d)
    (dv_irq_enabled d) (dv_cpuid_globals d) (dv_ept_capabilities d) (dv_cpus d) (dv_umem d) (dv_leaked d).
Definition set_dv_vmlist (x : list Z) d : driver :=
  Driver (dv_heap d) (dv_phys d) (dv_vm_mid_bits d) (dv_hax d) x (dv_vms d) (dv_vcpus d)
    (dv_cpuids d) (dv_vm_hosts d) (dv_vcpu_hosts d) (dv_devices d) (dv_processor d)
    (dv_irq_enabled d) (dv_cpuid_globals d) (dv_ept_capabilities d) (dv_cpus d) (dv_umem d) (dv_leaked d).
Definition set_dv_vms (x : gmap Z vm_obj) d : driver :=
  Driver (dv_heap d) (dv_phys d) (dv_vm_mid_bits d) (dv_hax d) (dv_vmlist d) x (dv_vcpus d)
    (dv_cpuids d) (dv_vm_hosts d) (dv_vcpu_hosts d) (dv_devices d) (dv_processor d)
    (dv_irq_enabled d) (dv_cpuid_globals d) (dv_ept_capabilities d) (dv_cpus d) (dv_umem d) (dv_leaked d).
Definition set_dv_vcpus (x : gmap Z vcpu_obj) d : driver :=
  Driver (dv_heap d) (dv_phys d) (dv_vm_mid_bits d) (dv_hax d) (dv_vmlist d) (dv_vms d) x
    (dv_cpuids d) (dv_vm_hosts d) (dv_vcpu_hosts d) (dv_devices d) (dv_processor d)
    (dv_irq_enabled d) (dv_cpuid_globals d) (dv_ept_capabilities d) (dv_cpus d) (dv_umem d) (dv_leaked d).
Definition set_dv_cpuids (x : gmap Z hax_cpuid_t) d : driver :=
  Driver (dv_heap d) (dv_phys d) (dv_vm_mid_bits d) (dv_hax d) (dv_vmlist d) (dv_vms d) (dv_vcpus
    d) x (dv_vm_hosts d) (dv_vcpu_hosts d) (dv_devices d) (dv_processor d) (dv_irq_enabled d)
    (dv_cpuid_globals d) (dv_ept_capabilities d) (dv_cpus d) (dv_umem d) (dv_leaked d).
Definition set_dv_vm_hosts (x : gmap Z hax_vm_linux_t) d : driver :=
  Driver (dv_heap d) (dv_phys d) (dv_vm_mid_bits d) (dv_hax d) (dv_vmlist d) (dv_vms d) (dv_vcpus
    d) (dv_cpuids d) x (dv_vcpu_hosts d) (dv_devices d) (dv_processor d) (dv_irq_enabled d)
    (dv_cpuid_globals d) (dv_ept_capabilities d) (dv_cpus d) (dv_umem d) (dv_leaked d).
Definition set_dv_vcpu_hosts (x : gmap Z hax_vcpu_linux_t) d : driver :=
  Driver (dv_heap d) (dv_phys d) (dv_vm_mid_bits d) (dv_hax d) (dv_vmlist d) (dv_vms d) (dv_vcpus
    d) (dv_cpuids d) (dv_vm_hosts d) x (dv_devices d) (dv_processor d) (dv_irq_enabled d)
    (dv_cpuid_globals d) (dv_ept_capabilities d) (dv_cpus d) (dv_umem d) (dv_leaked d).
Definition set_dv_devices (x : gset device) d : driver :=
  Driver (dv_heap d) (dv_phys d) (dv_vm_mid_bits d) (dv_hax d) (dv_vmlist d) (dv_vms d) (dv_vcpus
    d) (dv_cpuids d) (dv_vm_hosts d) (dv_vcpu_hosts d) x (dv_processor d) (dv_irq_enabled d)
    (dv_cpuid_globals d) (dv_ept_capabilities d) (dv_cpus d) (dv_umem d) (dv_leaked d).
Definition set_dv_processor (x : vmx_cpu) d : driver :=
  Driver (dv_heap d) (dv_phys d) (dv_vm_mid_bits d) (dv_hax d) (dv_vmlist d) (dv_vms d) (dv_vcpus
    d) (dv_cpuids d) (dv_vm_hosts d) (dv_vcpu_hosts d) (dv_devices d) x (dv_irq_enabled d)
    (dv_cpuid_globals d) (dv_ept_capabilities d) (dv_cpus d) (dv_umem d) (dv_leaked d).
Definition set_dv_irq_enabled (x : bool) d : driver :=
  Driver (dv_heap d) (dv_phys d) (dv_vm_mid_bits d) (dv_hax d) (dv_vmlist d) (dv_vms d) (dv_vcpus
    d) (dv_cpuids d) (dv_vm_hosts d) (dv_vcpu_hosts d) (dv_devices d) (dv_processor d) x
    (dv_cpuid_globals d) (dv_ept_capabilities d) (dv_cpus d) (dv_umem d) (dv_leaked d).
Definition set_dv_cpuid_globals (x : cpuid_globals) d : driver :=
  Driver (dv_heap d) (dv_phys d) (dv_vm_mid_bits d) (dv_hax d) (dv_vmlist d) (dv_vms d) (dv_vcpus
    d) (dv_cpuids d) (dv_vm_hosts d) (dv_vcpu_hosts d) (dv_devices d) (dv_processor d)
    (dv_irq_enabled d) x (dv_ept_capabilities d) (dv_cpus d) (dv_umem d) (dv_leaked d).
Definition set_dv_leaked (x : list remain) d : driver :=
  Driver (dv_heap d) (dv_phys d) (dv_vm_mid_bits d) (dv_hax d) (dv_vmlist d) (dv_vms d) (dv_vcpus
    d) (dv_cpuids d) (dv_vm_hosts d) (dv_vcpu_hosts d) (dv_devices d) (dv_processor d)
    (dv_irq_enabled d) (dv_cpuid_globals d) (dv_ept_capabilities d) (dv_cpus d) (dv_umem d) x.

Definition remains (v : vm_t) : list remain :=
  let g := vm_gpa_space v in
  (RmBlock <$> gs_ramblock_list g) ++ (RmSlot <$> gs_memslot_list g) ++
  (match gp_bitmap (gs_prot g) with Some b => [RmBitmap b] | None => [] end) ++
  (RmEptPage <$> et_page_list (gs_opaque g)).
End Setters.

Section Life.
Context {HH : Host} {PH : PhysHost} {VH : VmxHw} {CH : CpuidHw} {KH : KernelHw} {AH : AllocHost} {LH : LinuxHost}.
Context (G : hax_globals) (uninit : cpuid_args_t) (info : info_t).
Context (io_bitmap_a_pa io_bitmap_b_pa msr_bitmap_pa gmsr_autoload_pa : Z).
#[local] Notation st := driver.

(** ** Access to memory and objects *)
Definition on_heap {A} (m : M heap A) : M st A := fun d =>
  match m (dv_heap d) with Some (a, h) => Some (a, set_dv_heap h d) | None => None end.
Definition kalloc (k : alloc_kind) : M st (option Z) := on_heap (heap_alloc k).
Definition kfree_at (a : Z) : M st unit := on_heap (heap_free a).
(** [kfree(NULL)] and [hax_free_pages(NULL)] do nothing. *)
Definition kfree (a : option Z) : M st unit :=
  match a with Some a => kfree_at a | None => mret tt end.
Definition host_service {A} (f : hstate -> A * hstate) : M st A := fun d =>
  let h := dv_heap d in
  let '(a, s) := f (h_host h) in Some (a, set_dv_heap (Heap (h_live h) (h_next h) s) d).

Definition get_vm (a : Z) : M st vm_obj := d ← get; of_option (dv_vms d !! a).
Definition get_vcpu (a : Z) : M st vcpu_obj := d ← get; of_option (dv_vcpus d !! a).
Definition put_vm (a : Z) (o : vm_obj) : M st unit := modify (fun d => set_dv_vms (<[a := o]> (dv_vms d)) d).
Definition put_vcpu (a : Z) (c : vcpu_obj) : M st unit :=
  modify (fun d => set_dv_vcpus (<[a := c]> (dv_vcpus d)) d).
Definition modify_vm (a : Z) (f : vm_obj -> vm_obj) : M st unit := o ← get_vm a; put_vm a (f o).
Definition modify_vcpu (a : Z) (f : vcpu_obj -> vcpu_obj) : M st unit := c ← get_vcpu a; put_vcpu a (f c).

(** The memory of an object is released. *)
Definition vfree_vm (a : Z) : M st unit :=
  modify (fun d =>
    set_dv_leaked (from_option (fun o => remains (vo_vm o)) [] (dv_vms d !! a) ++ dv_leaked d)
      (set_dv_vms (delete a (dv_vms d)) d));;
  kfree_at a.
Definition vfree_vcpu (a : Z) : M st unit :=
  modify (fun d => set_dv_vcpus (delete a (dv_vcpus d)) d);; kfree_at a.

(** The address space of a VM works on the host's state. *)
Definition lend_vm (d : driver) (v : vm_t) : vm_t :=
  let g := vm_gpa_space v in
  set_space (with_host (h_host (dv_heap d)) (with_opaque (set_phys (dv_phys d) (gs_opaque g)) g)) v.
Definition return_vm (v : vm_t) (d : driver) : driver :=
  let g := vm_gpa_space v in
  set_dv_phys (et_phys (gs_opaque g))
    (set_dv_heap (Heap (h_live (dv_heap d)) (h_next (dv_heap d)) (gs_host g)) d).
Definition on_vm {A} (a : Z) (m : M vm_t A) : M st A :=
  o ← get_vm a;
  d ← get;
  r ← of_option (m (lend_vm d (vo_vm o)));
  modify (return_vm r.2);;
  put_vm a (set_vo_vm r.2 o);;
  mret r.1.

(** A virtual CPU works on the address space of its VM, the processor, and its CPUID table, which
    it may share with the first one. *)
Definition lend_processor (p c : vmx_cpu) : vmx_cpu :=
  VmxCpu _ (vx_hw p) (vx_vmm_flag p) (vx_nested p) (vx_host_cr4_vmxe p) (vx_vmxon_res p)
    (vx_vmxoff_res p) (vx_current_vcpu c) (vx_preempt_disabled p) (vx_is_vmcs_loaded c) (vx_cpu_id c)
    (vx_prev_cpu_id c) (vx_vmxon p) (vx_vmcs_current c).
Definition lend_vcpu (d : driver) (o : vm_obj) (table : option hax_cpuid_t) (c : vcpu_obj) : vcpu :=
  let v := co_vcpu c in
  let r := cv_run v in
  set_cv_run (RunState (co_vcpu_id c) (rs_is_running r) (rs_paused r) (vo_valid_xcr0 o) (vo_bsp_vcpu_id o))
    (set_cv_vpid (co_vpid c) (set_cv_irq_enabled (dv_irq_enabled d)
      (set_cv_cpuid table (set_cv_cpuid_globals (dv_cpuid_globals d)
        (set_cv_cpu (lend_processor (dv_processor d) (cv_cpu v))
          (set_mmio (set_mv_space (vm_gpa_space (lend_vm d (vo_vm o))) (mmio v)) v)))))).
Definition table_of (p : option Z) : M st (option hax_cpuid_t) :=
  match p with
  | None => mret None
  | Some p => d ← get; t ← of_option (dv_cpuids d !! p); mret (Some t)
  end.
Definition put_table (p : option Z) (t : option hax_cpuid_t) : M st unit :=
  match p, t with
  | Some p, Some t => modify (fun d => set_dv_cpuids (<[p := t]> (dv_cpuids d)) d)
  | _, _ => mret tt
  end.
Definition return_vcpu (v : vcpu) (d : driver) : driver :=
  set_dv_irq_enabled (cv_irq_enabled v) (set_dv_cpuid_globals (cv_cpuid_globals v)
    (set_dv_processor (cv_cpu v) d)).
Definition on_vcpu {A} (a : Z) (m : M vcpu A) : M st A :=
  c ← get_vcpu a;
  o ← get_vm (co_vm c);
  table ← table_of (co_guest_cpuid c);
  d ← get;
  r ← of_option (m (lend_vcpu d o table c));
  let v := r.2 in
  let vm := set_space (mv_space (mmio v)) (vo_vm o) in
  modify (fun d => return_vcpu v (return_vm vm d));;
  put_vm (co_vm c) (set_vo_valid_xcr0 (rs_valid_xcr0 (cv_run v)) (set_vo_vm vm o));;
  put_table (co_guest_cpuid c) (cv_cpuid v);;
  put_vcpu a (set_co_vcpu v c);;
  mret r.1.

(** ** Bits and counters *)

(** [hax_test_and_set_bit] and [hax_test_and_clear_bit] return whether the bit was set, or was
    clear, already. *)
Definition test_and_set_bit (bit word : Z) : bool * Z := (Z.testbit word bit, Z.setbit word bit).
Definition test_and_clear_bit (bit word : Z) : bool * Z := (negb (Z.testbit word bit), Z.clearbit word bit).

(** [hax_atomic_add] and [hax_atomic_dec] return the old value. *)
Definition vm_ref_add (a n : Z) : M st Z :=
  o ← get_vm a; put_vm a (set_vo_ref_count (s32 (vo_ref_count o + n)) o);; mret (vo_ref_count o).
Definition vcpu_ref_add (a n : Z) : M st Z :=
  c ← get_vcpu a; put_vcpu a (set_co_ref_count (s32 (co_ref_count c + n)) c);; mret (co_ref_count c).

(** ** Identifiers of VMs *)
Fixpoint get_free_vm_mid_from (i : Z) (n : nat) : M st Z :=
  match n with
  | O => mret (-1)
  | S n =>
      d ← get;
      let '(old, bits) := test_and_set_bit i (dv_vm_mid_bits d) in
      modify (set_dv_vm_mid_bits bits);;
      if negb old then mret i else get_free_vm_mid_from (i + 1) n
  end.
Definition get_free_vm_mid : M st Z := get_free_vm_mid_from 0 (Z.to_nat HAX_MAX_VMS).

Definition hax_put_vm_mid (id : Z) : M st unit :=
  modify (fun d => set_dv_vm_mid_bits (test_and_clear_bit id (dv_vm_mid_bits d)).2 d).

Definition valid_vm_mid (vm_id : Z) : bool := ((0 <=? vm_id) && (vm_id <? HAX_MAX_VMS))%bool.
Definition valid_vcpu_id (vcpu_id : Z) : bool := ((0 <=? vcpu_id) && (vcpu_id <? HAX_MAX_VCPUS))%bool.

Definition hax_vm_set_qemuversion (a cur_version : Z) : M st Z :=
  (if 0x2 <=? cur_version then
     modify_vm a (fun o => set_vo_features (vo_features o |! VM_FEATURES_FASTMMIO_BASIC) o);;
     if 0x4 <=? cur_version
     then modify_vm a (fun o => set_vo_features (vo_features o |! VM_FEATURES_FASTMMIO_EXTRA) o)
     else mret tt
   else mret tt);;
  mret 0.

(** ** Buffers shared with user space (src/platforms/linux/hax_mm.c)

    [hax_vmalloc] clears its memory: a new [hax_vcpu_mem] has the address 0. *)
Definition hax_setup_vcpumem (mem : hax_vcpu_mem) (uva size flags : Z) : M st (Z * hax_vcpu_mem) :=
  if size =? 0 then mret (- EINVAL, mem)
  else
    hinfo ← kalloc AkHostInfo;
    match hinfo with
    | None => mret (- ENOMEM, mem)
    | Some hinfo =>
        let nr_pages := (size - 1) / PAGE_SIZE_4K + 1 in
        pages ← kalloc AkPageArray;
        match pages with
        | None => kfree_at hinfo;; mret (- ENOMEM, mem)
        | Some pages =>
            uva ← (if flags &! HAX_VCPUMEM_VALIDVA =? 0 then host_service (vm_mmap size) else mret uva);
            if ((flags &! HAX_VCPUMEM_VALIDVA =? 0) && (uva =? 0))%bool
            then kfree_at pages;; kfree_at hinfo;; mret (- ENOMEM, mem)
            else
              nr_pages_map ← host_service (get_user_pages_fast uva nr_pages);
              if nr_pages_map <? 0 then kfree_at pages;; kfree_at hinfo;; mret (- EFAULT, mem)
              else
                kva ← host_service vmap_ok;
                mret (0, VcpuMem (vcm_addr mem) uva kva hinfo pages size)
        end
    end.

Definition hax_clear_vcpumem (mem : hax_vcpu_mem) : M st unit :=
  kfree_at (vcm_pages mem);; kfree_at (vcm_hinfo mem).

(** ** The tunnel of a virtual CPU (src/core/memory.c)

    [co_tunnel] is whether [tunnel] is set; [io_buf] is set with it. *)
Definition new_vcpu_mem (a : Z) : hax_vcpu_mem := VcpuMem a 0 false 0 0 0.
Definition free_vcpu_mem (m : option hax_vcpu_mem) : M st unit :=
  match m with
  | None => mret tt
  | Some m => (if vcm_uva m =? 0 then mret tt else hax_clear_vcpumem m);; kfree_at (vcm_addr m)
  end.
Definition tunnel_error (a ret : Z) : M st Z :=
  c ← get_vcpu a;
  free_vcpu_mem (co_tunnel_vcpumem c);;
  modify_vcpu a (set_co_tunnel_vcpumem None);;
  free_vcpu_mem (co_iobuf_vcpumem c);;
  modify_vcpu a (set_co_iobuf_vcpumem None);;
  mret ret.

Definition hax_vcpu_setup_hax_tunnel (a : Z) : M st Z :=
  c ← get_vcpu a;
  if (co_tunnel c && bool_decide (is_Some (co_iobuf_vcpumem c)))%bool then mret 0
  else
    t ← kalloc AkVcpuMem;
    modify_vcpu a (set_co_tunnel_vcpumem (new_vcpu_mem <$> t));;
    match t with
    | None => tunnel_error a (- ENOMEM)
    | Some t =>
        b ← kalloc AkVcpuMem;
        modify_vcpu a (set_co_iobuf_vcpumem (new_vcpu_mem <$> b));;
        match b with
        | None => tunnel_error a (- ENOMEM)
        | Some b =>
            r ← hax_setup_vcpumem (new_vcpu_mem t) 0 PAGE_SIZE_4K 0;
            modify_vcpu a (set_co_tunnel_vcpumem (Some r.2));;
            if r.1 <? 0 then tunnel_error a r.1
            else
              r' ← hax_setup_vcpumem (new_vcpu_mem b) 0 IOS_MAX_BUFFER 0;
              modify_vcpu a (set_co_iobuf_vcpumem (Some r'.2));;
              if r'.1 <? 0 then tunnel_error a r'.1
              else modify_vcpu a (set_co_tunnel (vcm_kva r.2));; mret 0
        end
    end.

Definition destroy_vcpu_mem (m : option hax_vcpu_mem) : M st unit :=
  match m with
  | None => mret tt
  | Some m => hax_assert (negb (vcm_uva m =? 0));; hax_clear_vcpumem m;; kfree_at (vcm_addr m)
  end.
Definition hax_vcpu_destroy_hax_tunnel (a : Z) : M st Z :=
  c ← get_vcpu a;
  if (bool_decide (co_tunnel_vcpumem c = None) && bool_decide (co_iobuf_vcpumem c = None))%bool then mret 0
  else
    modify_vcpu a (set_co_tunnel false);;
    destroy_vcpu_mem (co_tunnel_vcpumem c);;
    modify_vcpu a (set_co_tunnel_vcpumem None);;
    destroy_vcpu_mem (co_iobuf_vcpumem c);;
    modify_vcpu a (set_co_iobuf_vcpumem None);;
    mret 0.

(** ** Devices (src/platforms/linux/components.c) *)
Definition misc_register (dev : device) : M st Z :=
  d ← get;
  if bool_decide (dev ∈ dv_devices d) then mret (- EEXIST)
  else
    err ← host_service misc_register_result;
    if err =? 0 then modify (fun d => set_dv_devices ({[dev]} ∪ dv_devices d) d);; mret 0
    else mret err.
Definition misc_deregister (dev : device) : M st unit :=
  modify (fun d => set_dv_devices (dv_devices d ∖ {[dev]}) d).
Definition remove_device (dev : option (device * Z)) : M st unit :=
  p ← of_option dev; misc_deregister p.1;; kfree_at p.2.

Definition get_vm_linux (h : Z) : M st hax_vm_linux_t := d ← get; of_option (dv_vm_hosts d !! h).
Definition put_vm_linux (h : Z) (x : hax_vm_linux_t) : M st unit :=
  modify (fun d => set_dv_vm_hosts (<[h := x]> (dv_vm_hosts d)) d).
Definition get_vcpu_linux (h : Z) : M st hax_vcpu_linux_t := d ← get; of_option (dv_vcpu_hosts d !! h).
Definition put_vcpu_linux (h : Z) (x : hax_vcpu_linux_t) : M st unit :=
  modify (fun d => set_dv_vcpu_hosts (<[h := x]> (dv_vcpu_hosts d)) d).

(** NULL is 0. *)
Definition set_vm_host (a vm_host : Z) : M st Z :=
  o ← get_vm a;
  if (negb (vo_vm_host o =? 0) && negb (vo_vm_host o =? vm_host))%bool then mret (-1)
  else put_vm a (set_vo_vm_host vm_host o);; mret 0.
Definition set_vcpu_host (a vcpu_host : Z) : M st Z :=
  c ← get_vcpu a;
  if (negb (co_vcpu_host c =? 0) && negb (co_vcpu_host c =? vcpu_host))%bool then mret (-1)
  else put_vcpu a (set_co_vcpu_host vcpu_host c);; mret 0.

Fixpoint clear_ram_entries (l : list hax_vcpu_mem) (tsize : Z) : M st Z :=
  match l with
  | [] => mret tsize
  | mem :: l => hax_clear_vcpumem mem;; clear_ram_entries l (tsize +! vcm_size mem)
  end.
Definition set_mem_quota (x : Z) (h : hax_t) : hax_t :=
  HaxT (hx_vmx_enable_flag h) (hx_nx_enable_flag h) (hx_em64t_enable_flag h) (hx_ug_enable_flag h)
    (hx_apm_version h) (hx_apm_general_count h) (hx_apm_general_mask h) (hx_apm_event_count h)
    (hx_apm_event_unavailability h) (hx_apm_fixed_count h) (hx_apm_fixed_mask h) (hx_mem_limit h) x.
Definition hax_vm_free_all_ram (a : Z) : M st Z :=
  o ← get_vm a;
  tsize ← clear_ram_entries (vo_ram_mems o) 0;
  match vo_ram_entry o with
  | None => mret tt
  | Some e => kfree_at e;; modify_vm a (fun o => set_vo_ram_entry None (set_vo_ram_mems [] o))
  end;;
  d ← get;
  o ← get_vm a;
  let h := dv_hax d in
  (if hx_mem_limit h =? 0 then mret tt
   else
     let spare := if Z.testbit (vo_flags o) VM_STATE_FLAGS_MEM_ALLOC
                  then VM_SPARE_RAMSIZE -! vo_spare_ramsize o else 0 in
     modify (set_dv_hax (set_mem_quota (hx_mem_quota h +! (tsize -! spare)) h)));;
  mret 0.

Definition hax_vm_create_linux (a vm_id : Z) : M st (option Z) :=
  vm ← kalloc AkVmHost;
  match vm with
  | None => mret None
  | Some vm => put_vm_linux vm (VmLinux a vm_id None);; _ ← set_vm_host a vm; mret (Some vm)
  end.
(** [vm_host] is not cleared: [set_vm_host] refuses a second value. *)
Definition hax_vm_destroy_linux (vm : Z) : M st unit :=
  x ← get_vm_linux vm;
  _ ← set_vm_host (vh_cvm x) 0;
  _ ← hax_vm_free_all_ram (vh_cvm x);
  modify (fun d => set_dv_vm_hosts (delete vm (dv_vm_hosts d)) d);;
  kfree_at vm.

(** The name is written without a test of its allocation.  It stays allocated when the device
    cannot be registered. *)
Definition hax_vm_create_host (a vm_id : Z) : M st Z :=
  vm ← hax_vm_create_linux a vm_id;
  match vm with
  | None => mret (-1)
  | Some vm =>
      n ← kalloc AkDevName;
      devname ← of_option n;
      put_vm_linux vm (VmLinux a vm_id (Some (DevVm vm_id, devname)));;
      err ← misc_register (DevVm vm_id);
      if negb (err =? 0) then hax_vm_destroy_linux vm;; mret (-1) else mret 0
  end.
Definition hax_vm_destroy_host (vm_host : Z) : M st unit :=
  x ← get_vm_linux vm_host;
  remove_device (vh_dev x);;
  hax_vm_destroy_linux vm_host.

Definition hax_vcpu_create_linux (a vm vcpu_id : Z) : M st (option Z) :=
  if vm =? 0 then mret None
  else
    vcpu ← kalloc AkVcpuHost;
    match vcpu with
    | None => mret None
    | Some vcpu => put_vcpu_linux vcpu (VcpuLinux a vm vcpu_id None);; _ ← set_vcpu_host a vcpu; mret (Some vcpu)
    end.
Definition hax_vcpu_destroy_linux (vcpu : Z) : M st unit :=
  x ← get_vcpu_linux vcpu;
  _ ← hax_vcpu_destroy_hax_tunnel (ch_cvcpu x);
  _ ← set_vcpu_host (ch_cvcpu x) 0;
  modify (fun d => set_dv_vcpu_hosts (delete vcpu (dv_vcpu_hosts d)) d);;
  kfree_at vcpu.

Definition hax_vcpu_create_host (a vm_host vm_id vcpu_id : Z) : M st Z :=
  vcpu ← hax_vcpu_create_linux a vm_host vcpu_id;
  match vcpu with
  | None => mret (-1)
  | Some vcpu =>
      n ← kalloc AkDevName;
      devname ← of_option n;
      put_vcpu_linux vcpu (VcpuLinux a vm_host vcpu_id (Some (DevVcpu vm_id vcpu_id, devname)));;
      err ← misc_register (DevVcpu vm_id vcpu_id);
      if negb (err =? 0) then hax_vcpu_destroy_linux vcpu;; mret (-1) else mret 0
  end.
Definition hax_vcpu_destroy_host (vcpu_host : Z) : M st unit :=
  x ← get_vcpu_linux vcpu_host;
  remove_device (ch_dev x);;
  hax_vcpu_destroy_linux vcpu_host.

(** ** VMs (src/core/vm.c) *)
Definition zero_tree (s : pstate) : hax_ept_tree := EptTree ∅ [] 0 [] false 0 s.
(** A cleared [vm_t], on the host's state. *)
Definition zero_vm (d : driver) : vm_obj :=
  VmObj (Vm (GpaSpace [] [] [] (GpaProt None 0) (zero_tree (dv_phys d)) (h_host (dv_heap d)) 1 (dv_umem d))
           (dv_ept_capabilities d) (dv_cpus d))
    None 0 0 0 0 0 [] 0 0 0 (replicate (Z.to_nat MAX_GMEM_G) None) None None [] 0.

(** The lock of the EPT tree is allocated first, and freed when the root page cannot be. *)
Definition init_ept_tree (a : Z) : M st Z :=
  lock ← kalloc AkSpinlock;
  modify_vm a (set_vo_ept_lock lock);;
  ret ← on_vm a (on_space (on_tree (ept_tree_init (bool_decide (is_Some lock)))));
  if (negb (ret =? 0) && bool_decide (is_Some lock))%bool
  then kfree lock;; mret ret else mret ret.

(** Fails by freeing the VM, but neither its EPT tree nor its address space. *)
Definition create_vm_fail1 (a id : Z) : M st (option Z) :=
  vfree_vm a;; hax_put_vm_mid id;; mret None.

(** The VM, and [*vm_id] when it has been set. *)
Definition hax_create_vm : M st (option Z * option Z) :=
  d ← get;
  if (negb (hx_vmx_enable_flag (dv_hax d)) || negb (hx_nx_enable_flag (dv_hax d)))%bool then mret (None, None)
  else
    id ← get_free_vm_mid;
    if negb (valid_vm_mid id) then mret (None, None)
    else
      p ← kalloc AkVm;
      match p with
      | None => hax_put_vm_mid id;; mret (None, Some id)
      | Some a =>
          d ← get;
          put_vm a (set_vo_vm_id id (zero_vm d));;
          ret ← on_vm a (on_space gpa_space_init);
          if negb (ret =? 0) then r ← create_vm_fail1 a id; mret (r, Some id)
          else
            ret ← init_ept_tree a;
            if negb (ret =? 0) then r ← create_vm_fail1 a id; mret (r, Some id)
            else
              on_vm a (on_space (gpa_space_add_listener (ept_listener a)));;
              on_vm a (invept EPT_INVEPT_SINGLE_CONTEXT);;
              lock ← kalloc AkMutex;
              modify_vm a (set_vo_vm_lock lock);;
              match lock with
              | None => r ← create_vm_fail1 a id; mret (r, Some id)
              | Some lock =>
                  modify_vm a (set_vo_vcpu_list []);;
                  err ← hax_vm_create_host a id;
                  if err <? 0 then kfree_at lock;; r ← create_vm_fail1 a id; mret (r, Some id)
                  else
                    modify (fun d => set_dv_vmlist (a :: dv_vmlist d) d);;
                    modify_vm a (set_vo_ref_count 1);;
                    mret (Some a, Some id)
              end
      end.

Fixpoint free_p2m_maps (a : Z) (i : nat) (l : list (option Z)) : M st unit :=
  match l with
  | [] => mret tt
  | None :: l => free_p2m_maps a (S i) l
  | Some m :: l =>
      kfree_at m;; modify_vm a (fun o => set_vo_p2m_map (<[i := None]> (vo_p2m_map o)) o);;
      free_p2m_maps a (S i) l
  end.
Definition hax_vm_free_p2m_map (a : Z) : M st unit :=
  o ← get_vm a; free_p2m_maps a 0 (vo_p2m_map o).

(** NULL is [None].  A VM is opened once. *)
Definition hax_vm_core_open (a : option Z) : M st Z :=
  match a with
  | None => mret (- ENODEV)
  | Some a =>
      o ← get_vm a;
      let '(old, flags) := test_and_set_bit VM_STATE_FLAGS_OPENED (vo_flags o) in
      put_vm a (set_vo_flags flags o);;
      if old : bool then mret (- EBUSY) else mret 0
  end.

Definition hax_teardown_vm (a : Z) : M st Z :=
  o ← get_vm a;
  if negb (bool_decide (vo_vcpu_list o = [])) then mret (-1)
  else
    hax_vm_free_p2m_map a;;
    kfree (vo_vm_lock o);;
    hax_put_vm_mid (vo_vm_id o);;
    on_vm a (on_space (gpa_space_remove_listener a));;
    _ ← on_vm a (on_space (on_tree ept_tree_free));
    kfree (vo_ept_lock o);;
    on_vm a (on_space gpa_space_free);;
    vfree_vm a;;
    mret 0.

(** A reference is taken unless the object is about to be destroyed. *)
Fixpoint find_vm (vm_id : Z) (l : list Z) : M st (option Z) :=
  match l with
  | [] => mret None
  | a :: l => o ← get_vm a; if vo_vm_id o =? vm_id then mret (Some a) else find_vm vm_id l
  end.
Definition hax_get_vm (vm_id : Z) (ref : bool) : M st (option Z) :=
  d ← get;
  vm ← find_vm vm_id (dv_vmlist d);
  match vm with
  | None => mret None
  | Some a =>
      if ref then
        count ← vm_ref_add a 1;
        if count <=? 0 then _ ← vm_ref_add a (-1); mret None else mret (Some a)
      else mret (Some a)
  end.

Definition hax_put_vm (a : Z) : M st Z :=
  count ← vm_ref_add a (-1);
  (if count =? 1 then
     modify (fun d => set_dv_vmlist (filter (fun b => b <> a) (dv_vmlist d)) d);;
     o ← get_vm a;
     hax_vm_destroy_host (vo_vm_host o);;
     _ ← hax_teardown_vm a; mret tt
   else mret tt);;
  mret count.

Fixpoint find_vcpu (vcpu_id : Z) (l : list Z) : M st (option Z) :=
  match l with
  | [] => mret None
  | a :: l => c ← get_vcpu a;
      if co_vcpu_id c =? vcpu_id then mret (Some a) else find_vcpu vcpu_id l
  end.
Definition hax_get_vcpu (vm_id vcpu_id : Z) (refer : bool) : M st (option Z) :=
  vm ← hax_get_vm vm_id true;
  match vm with
  | None => mret None
  | Some vm =>
      o ← get_vm vm;
      found ← find_vcpu vcpu_id (vo_vcpu_list o);
      vcpu ← match found with
             | None => mret None
             | Some a =>
                 if refer then
                   count ← vcpu_ref_add a 1;
                   if count <=? 0 then _ ← vcpu_ref_add a (-1); mret None else mret (Some a)
                 else mret (Some a)
             end;
      _ ← hax_put_vm vm;
      mret vcpu
  end.

(** ** Virtual CPUs (src/core/vcpu.c) *)
Fixpoint find_vpid_bit (a : Z) (bit : Z) (n : nat) : M st Z :=
  match n with
  | O => mret bit
  | S n =>
      o ← get_vm a;
      let '(old, seed) := test_and_set_bit bit (vo_vpid_seed o) in
      put_vm a (set_vo_vpid_seed seed o);;
      if negb old then mret bit else find_vpid_bit a (bit + 1) n
  end.
Definition max_vpid_bit : Z := if 0xff <? VPID_SEED_BITS then 0xff else VPID_SEED_BITS.

(** The low byte is the number of the bit plus 1, the high byte the number of the VM. *)
Definition vcpu_vpid_alloc (a : Z) : M st Z :=
  c ← get_vcpu a;
  if negb (co_vpid c =? 0) then mret (-1)
  else
    bit ← find_vpid_bit (co_vm c) 0 (Z.to_nat max_vpid_bit);
    if bit =? max_vpid_bit then mret (-2)
    else
      o ← get_vm (co_vm c);
      let vpid := (Z.shiftl (vo_vm_id o) 8 mod 2 ^ 16 + (bit + 1) mod 2 ^ 16) mod 2 ^ 16 in
      put_vcpu a (set_co_vpid vpid c);;
      mret 0.

Definition vcpu_vpid_free (a : Z) : M st Z :=
  c ← get_vcpu a;
  let vpid := co_vpid c in
  let bit := u8 (vpid &! 0xff - 1) in
  if vpid =? 0 then mret (-1)
  else
    modify_vm (co_vm c) (fun o => set_vo_vpid_seed (test_and_clear_bit bit (vo_vpid_seed o)).2 o);;
    put_vcpu a (set_co_vpid 0 c);;
    mret 0.

(** Cleared tables and virtual CPUs.  [co_vm] is set here; [vm] is not read before [vcpu_create]
    sets it. *)
Definition zero_table : hax_cpuid_t :=
  HaxCpuid 0 (replicate (Z.to_nat CPUID_TOTAL_LEAVES) (CpuidEntry 0 0 0 0 0 0 0)).
Definition zero_seg : segment_desc_t := SegmentDesc 0 0 0 0 0 0.
Definition zero_dregs : dregs := DRegs 0 0 0 0 0 0.
Definition zero_msrs (n : nat) : list vmx_msr := replicate n (VmxMsr 0 0).
Definition zero_vmcs_vcpu : vcpu_t := Vcpu (replicate 8 0) 0 false false false false false 0 0 0 0 0 0 0 0 ∅.
Definition zero_emu (d : driver) : emu_vcpu hax_ept_tree :=
  EmuVcpu (MmioVcpu (vm_gpa_space (vo_vm (zero_vm d))) zero_vmcs_vcpu
             (PagingRegs 0 0 0 0 (cg_reserved_bits_high_mask (dv_cpuid_globals d))) 0 false
             (MmioFetchCache 0 0 None None 0))
    ∅ 0 zero_seg zero_seg zero_seg zero_seg zero_seg zero_seg false false false 0 0 0
    (HaxTunnel 0 0 0 0) (FastMmio 0 0 0 0).
(** The address space, the processor and the CPUID tables are those of the driver. *)
Definition zero_vcpu (d : driver) : vcpu :=
  let p := dv_processor d in
  VcpuFull _ _ _ (EmState cleared_context (zero_emu d))
    (VmxCpu _ (vx_hw p) (vx_vmm_flag p) (vx_nested p) (vx_host_cr4_vmxe p) (vx_vmxon_res p)
       (vx_vmxoff_res p) false (vx_preempt_disabled p) false 0 0 (vx_vmxon p) false)
    zero_seg zero_seg zero_seg zero_seg zero_dregs (VmxCtls 0 0 0 0 0 0 0 0 0 0 0)
    (GState (zero_msrs 5) (replicate 4 0) (replicate 4 0) 0 0 (zero_msrs 14))
    (Mtrr 0 0 0 (replicate 2 0) (replicate 8 0) (replicate 10 (MtrrVar 0 0)))
    (DirtyFlags 0 false false false false false) 0 0 0 0 0 0 (replicate 4 0) 0 None (dv_cpuid_globals d)
    (HaxIo 0 0 0 0 0 0 0) (DebugExit 0 0 0) false 0 (replicate (Z.to_nat IOS_MAX_BUFFER) 0)
    (RunState 0 false false 0 0) (TunnelRequests false false)
    (HState (zero_msrs 6) (replicate 4 0) (replicate 4 0) 0 zero_dregs 0)
    (HostSegs 0 0 0 0 0 0 0 0 0 0 0 [] 0 (SystemDesc 0 0) (SystemDesc 0 0) false 0) [] 0 0 0
    (dv_irq_enabled d).
Definition zero_vcpu_obj (d : driver) (vm : Z) : vcpu_obj :=
  VcpuObj (zero_vcpu d) vm 0 0 0 0 None None None None None None None false 0.

(** Called before the number of the virtual CPU is set, so that the test always fails. *)
Definition vcpu_alloc_cpuid (a : Z) : M st bool :=
  c ← get_vcpu a;
  if negb (co_vcpu_id c =? 0) then mret true
  else
    t ← kalloc AkCpuid;
    modify_vcpu a (set_co_guest_cpuid t);;
    match t with
    | None => mret false
    | Some t => modify (fun d => set_dv_cpuids (<[t := zero_table]> (dv_cpuids d)) d);; mret true
    end.
Definition vcpu_free_cpuid (a : Z) : M st unit :=
  c ← get_vcpu a;
  if negb (co_vcpu_id c =? 0) then put_vcpu a (set_co_guest_cpuid None c)
  else
    match co_guest_cpuid c with
    | None => mret tt
    | Some t =>
        modify (fun d => set_dv_cpuids (delete t (dv_cpuids d)) d);;
        kfree_at t;;
        put_vcpu a (set_co_guest_cpuid None c)
    end.

(** [prev_cpu_id], [cpu_id], [vcpu_id] and [is_running]. *)
Definition identify_vcpu (vcpu_id : Z) (c : vcpu_obj) (d : driver) : vcpu_obj :=
  let v := co_vcpu c in
  let r := cv_run v in
  set_co_vcpu_id vcpu_id (set_co_vcpu
    (set_cv_run (RunState vcpu_id false (rs_paused r) (rs_valid_xcr0 r) (rs_bsp_vcpu_id r))
       (set_cv_cpu (set_vx_cpu_ids (hax_cpu_id (vx_hw (dv_processor d))) (Z.ones 32) (cv_cpu v)) v)) c).

(** [vcpu_init]: a virtual CPU other than the first one uses the CPUID table of the first. *)
Definition init_vcpu_obj (a : Z) : M st unit :=
  modify_vcpu a (set_co_ref_count 1);;
  c ← get_vcpu a;
  o ← get_vm (co_vm c);
  vcpu_0 ← (if co_vcpu_id c =? 0 then mret None
            else p ← hax_get_vcpu (vo_vm_id o) 0 false;
                 match p with None => mret None | Some p => c0 ← get_vcpu p; mret (Some (co_guest_cpuid c0)) end);
  table ← (match vcpu_0 with
           | None => mret None
           | Some p => t ← table_of p; mret (Some t)
           end);
  match vcpu_0 with None => mret tt | Some p => modify_vcpu a (set_co_guest_cpuid p) end;;
  on_vcpu a (vcpu_init uninit table).

(** What [vcpu_create] frees when it fails: the objects that it has allocated so far, the last one
    first. *)
Definition create_vcpu_fail_1 (a : Z) : M st (option Z) := vfree_vcpu a;; mret None.
Definition create_vcpu_fail_2 (a : Z) : M st (option Z) :=
  _ ← hax_vcpu_destroy_hax_tunnel a; create_vcpu_fail_1 a.
Definition create_vcpu_fail_3 (a : Z) : M st (option Z) :=
  c ← get_vcpu a; kfree (co_vmcs_page c);; create_vcpu_fail_2 a.
Definition create_vcpu_fail_4 (a : Z) : M st (option Z) :=
  c ← get_vcpu a; kfree (co_gfxpage c);; create_vcpu_fail_3 a.
Definition create_vcpu_fail_5 (a : Z) : M st (option Z) :=
  c ← get_vcpu a; kfree (co_state c);; create_vcpu_fail_4 a.
Definition create_vcpu_fail_6 (a : Z) : M st (option Z) :=
  c ← get_vcpu a; kfree (co_tmutex c);; create_vcpu_fail_5 a.
Definition create_vcpu_fail_7 (a : Z) : M st (option Z) := vcpu_free_cpuid a;; create_vcpu_fail_6 a.

(** The new virtual CPU is prepared and published. *)
Definition start_vcpu (a vm vcpu_id : Z) : M st (option Z) :=
  d ← get;
  modify_vcpu a (fun c => identify_vcpu vcpu_id c d);;
  _ ← vcpu_vpid_alloc a;
  init_vcpu_obj a;;
  on_vcpu a (vcpu_prepare G uninit info io_bitmap_a_pa io_bitmap_b_pa msr_bitmap_pa gmsr_autoload_pa);;
  modify_vm vm (fun o => set_vo_vcpu_list (a :: vo_vcpu_list o) o);;
  _ ← vm_ref_add vm 1;
  on_vcpu a (in_em vcpu_init_emulator);;
  mret (Some a).

Definition vcpu_create (vm vm_host vcpu_id : Z) : M st (option Z) :=
  if negb (valid_vcpu_id vcpu_id) then mret None
  else
    p ← kalloc AkVcpu;
    match p with
    | None => mret None
    | Some a =>
        d ← get;
        put_vcpu a (zero_vcpu_obj d vm);;
        err ← hax_vcpu_setup_hax_tunnel a;
        if err <? 0 then create_vcpu_fail_1 a
        else
          vmcs_page ← kalloc AkPage;
          modify_vcpu a (set_co_vmcs_page vmcs_page);;
          if bool_decide (vmcs_page = None) then create_vcpu_fail_2 a
          else
            gfxpage ← kalloc AkPage;
            modify_vcpu a (set_co_gfxpage gfxpage);;
            if bool_decide (gfxpage = None) then create_vcpu_fail_3 a
            else
              state ← kalloc AkVcpuState;
              modify_vcpu a (set_co_state state);;
              if bool_decide (state = None) then create_vcpu_fail_4 a
              else
                tmutex ← kalloc AkMutex;
                modify_vcpu a (set_co_tmutex tmutex);;
                if bool_decide (tmutex = None) then create_vcpu_fail_5 a
                else
                  ok ← vcpu_alloc_cpuid a;
                  if negb ok then create_vcpu_fail_6 a
                  else
                    o ← get_vm vm;
                    err ← hax_vcpu_create_host a vm_host (vo_vm_id o) vcpu_id;
                    if negb (err =? 0) then create_vcpu_fail_7 a else start_vcpu a vm vcpu_id
    end.

Definition hax_vcpu_core_open (a : option Z) : M st Z :=
  match a with
  | None => mret (- ENODEV)
  | Some a =>
      c ← get_vcpu a;
      let '(old, flags) := test_and_set_bit VCPU_STATE_FLAGS_OPENED (co_flags c) in
      put_vcpu a (set_co_flags flags c);;
      if old : bool then mret (- EBUSY) else mret 0
  end.

Definition free_vcpu_obj (a : Z) : M st Z :=
  c ← get_vcpu a;
  let m := mv_mmio_fetch (mmio (co_vcpu c)) in
  (if bool_decide (mf_kva m = None) then mret tt
   else on_vm (co_vm c) (on_space (gpa_space_unmap_page (mf_kmap m))));;
  _ ← vcpu_vpid_free a;
  kfree (co_gfxpage c);;
  kfree (co_vmcs_page c);;
  kfree (co_state c);;
  kfree (co_tmutex c);;
  vcpu_free_cpuid a;;
  vfree_vcpu a;;
  mret 0.

Definition vcpu_teardown (a : Z) : M st Z :=
  c ← get_vcpu a;
  modify_vm (co_vm c) (fun o => set_vo_vcpu_list (filter (fun b => b <> a) (vo_vcpu_list o)) o);;
  ret ← free_vcpu_obj a;
  _ ← hax_put_vm (co_vm c);
  mret ret.

(** [vcpu_pause] does not need what the virtual CPU shares. *)
Definition pause_vcpu (a : Z) : M st Z :=
  c ← get_vcpu a;
  r ← of_option (vcpu_pause (co_vcpu c));
  put_vcpu a (set_co_vcpu r.2 c);; mret r.1.

Definition hax_put_vcpu (a : Z) : M st Z :=
  count ← vcpu_ref_add a (-1);
  (if count =? 1 then
     _ ← pause_vcpu a;
     c ← get_vcpu a;
     hax_vcpu_destroy_host (co_vcpu_host c);;
     _ ← vcpu_teardown a; mret tt
   else mret tt);;
  mret count.
End Life.
