(* ===== verification/VmIoctl.v ===== *)
(** * The calls of user space (src/platforms/linux/components.c and the creation of VMs of
    src/platforms/linux/hax_entry.c)

    A VM and a virtual CPU are devices: user space opens them, makes requests on the open file and
    closes it.  Every call takes a reference to the object for its duration.  [sys_call] is a call
    with what the kernel does for it: it calls the driver for devices that are registered and files
    that are open, and closes a file once. *)

From stdpp Require Import base numbers list gmap.
From Stdlib Require Import ZArith Lia.
From S2P Require Import IntrExc Prelude MemTypes Memslot GpaSpace PageWalker Mmio.
From S2P Require Import EmTypes Emulate EptTree Ept2 VmMemory VcpuEmu Cpuid Vmx VcpuState VcpuCr.
From S2P Require Import VcpuMsr VcpuExit VcpuSync VcpuIo VcpuHost VcpuRun HostHeap HaxInit VcpuInit VmLife.
#[local] Open Scope Z_scope.

Definition E2BIG : Z := 7.
Definition ENOSYS : Z := 38.
Definition HAX_MAX_MSR_ARRAY : Z := 0x20.
Definition sizeof_fx_layout : nat := 512.

(** [copy_from_user] and [copy_to_user]: whether the copy fails. *)
Class UserCopy {HH : Host} := {
  copy_from_user : hstate -> bool * hstate;
  copy_to_user : hstate -> bool * hstate;
}.

(** Requests, with the argument in user space.  [IocSetCpuid] and [IocGetCpuid] have the number of
    entries of the header, which is read first, and then the whole argument. *)
Inductive vm_cmd :=
  | IocVcpuCreate (vcpu_id : Z)
  | IocAllocRam (va size : Z)
  | IocAddRamblock (start_va size reserved : Z)
  | IocSetRam (info : hax_set_ram_info)
  | IocSetRam2 (info : hax_set_ram_info) (reserved1 reserved2 : Z)
  | IocProtectRam (pa_start size flags reserved : Z)
  | IocNotifyQemuVersion (cur_version : Z)
  | IocVmOther.
Inductive vcpu_cmd :=
  | IocRun
  | IocSetupTunnel
  | IocSetMsrs (nr_msr : Z) (entries : list vmx_msr)
  | IocGetMsrs (nr_msr : Z) (entries : list vmx_msr)
  | IocSetFpu (fl : list Z)
  | IocGetFpu
  | IocSetRegs (regs : vcpu_state_t)
  | IocGetRegs
  | IocInterrupt (vector : Z)
  | IocDebug (control : Z) (dr : list Z)
  | IocSetCpuid (header_total : Z) (cpuid : hax_cpuid)
  | IocGetCpuid (header_total : Z) (cpuid : hax_cpuid)
  | IocVcpuOther.

(** What is written back to user space. *)
Inductive user_data :=
  | UdNone
  | UdVmId (vm_id : Z)
  | UdTunnel (va io_va size : Z)
  | UdMsrs (done : Z) (entries : list vmx_msr)
  | UdFpu (fl : list Z)
  | UdRegs (regs : vcpu_state_t)
  | UdCpuid (cpuid : hax_cpuid).

Inductive file := FVm (host : Z) | FVcpu (host : Z).
#[export] Instance file_eq_dec : EqDecision file.
Proof. solve_decision. Defined.

Inductive user_call :=
  | CreateVm
  | OpenVm (host : Z) | CloseVm (host : Z) | VmRequest (host : Z) (cmd : vm_cmd)
  | OpenVcpu (host : Z) | CloseVcpu (host : Z) | VcpuRequest (host : Z) (cmd : vcpu_cmd).

Section Calls.
Context {HH : Host} {PH : PhysHost} {VH : VmxHw} {CH : CpuidHw} {FO : FastOps} {KH : KernelHw}.
Context {AH : AllocHost} {LH : LinuxHost} {UC : UserCopy}.
Context (G : hax_globals) (uninit : cpuid_args_t) (info : info_t).
Context (io_bitmap_a_pa io_bitmap_b_pa msr_bitmap_pa gmsr_autoload_pa : Z).
Context (same_kva : Z -> Z -> bool) (asm_vmxrun : M vcpu Z) (run_fuel : nat).
#[local] Notation st := driver.

Definition from_user (k : M st (Z * user_data)) : M st (Z * user_data) :=
  err ← host_service copy_from_user; if err : bool then mret (- EFAULT, UdNone) else k.
Definition to_user (ret : Z) (data : user_data) : M st (Z * user_data) :=
  err ← host_service copy_to_user; if err : bool then mret (- EFAULT, UdNone) else mret (ret, data).
Definition only_ret (m : M st Z) : M st (Z * user_data) := ret ← m; mret (ret, UdNone).

(** ** The device of the driver: HAX_IOCTL_CREATE_VM *)
Definition ioctl_create_vm : M st (Z * user_data) :=
  r ← hax_create_vm;
  match r with
  | (Some _, Some vm_id) => to_user 0 (UdVmId vm_id)
  | _ => mret (- ENOMEM, UdNone)
  end.

(** ** VMs *)
Definition hax_vm_open (host : Z) : M st Z :=
  vm ← get_vm_linux host;
  cvm ← hax_get_vm (vh_id vm) true;
  match cvm with
  | None => mret (- ENODEV)
  | Some a => ret ← hax_vm_core_open (Some a); _ ← hax_put_vm a; mret ret
  end.

Definition hax_vm_release (host : Z) : M st Z :=
  vm ← get_vm_linux host;
  cvm ← hax_get_vm (vh_id vm) true;
  match cvm with
  | None => mret 0
  | Some a => _ ← hax_put_vm a; _ ← hax_put_vm a; mret 0
  end.

(** An unknown request succeeds. *)
Definition vm_request (a host : Z) (cmd : vm_cmd) : M st (Z * user_data) :=
  match cmd with
  | IocVcpuCreate vcpu_id =>
      from_user (
        cvcpu ← vcpu_create G uninit info io_bitmap_a_pa io_bitmap_b_pa msr_bitmap_pa gmsr_autoload_pa
                  a host (s32 vcpu_id);
        match cvcpu with None => mret (- EINVAL, UdNone) | Some _ => mret (0, UdNone) end)
  | IocAllocRam va size => from_user (only_ret (on_vm a (hax_vm_add_ramblock va (u32 size))))
  | IocAddRamblock start_va size reserved =>
      from_user (if negb (reserved =? 0) then mret (- EINVAL, UdNone)
                 else only_ret (on_vm a (hax_vm_add_ramblock start_va size)))
  | IocSetRam info => from_user (only_ret (on_vm a (hax_vm_set_ram info)))
  | IocSetRam2 info reserved1 reserved2 =>
      from_user (if (negb (reserved1 =? 0) || negb (reserved2 =? 0))%bool then mret (- EINVAL, UdNone)
                 else only_ret (on_vm a (hax_vm_set_ram2 info)))
  | IocProtectRam pa_start size flags reserved =>
      from_user (if negb (reserved =? 0) then mret (- EINVAL, UdNone)
                 else only_ret (on_vm a (hax_vm_protect_ram pa_start size flags)))
  | IocNotifyQemuVersion cur_version => from_user (only_ret (hax_vm_set_qemuversion a cur_version))
  | IocVmOther => mret (0, UdNone)
  end.
Definition hax_vm_ioctl (host : Z) (cmd : vm_cmd) : M st (Z * user_data) :=
  vm ← get_vm_linux host;
  cvm ← hax_get_vm (vh_id vm) true;
  match cvm with
  | None => mret (- ENODEV, UdNone)
  | Some a => r ← vm_request a host cmd; _ ← hax_put_vm a; mret r
  end.

(** ** Virtual CPUs *)

(** The image of FXSAVE is at the start of the page. *)
Definition vcpu_get_fpu : M vcpu (Z * list Z) := v ← get; mret (0, take sizeof_fx_layout (cv_gfx v)).
Definition vcpu_put_fpu (ufl : list Z) : M vcpu Z :=
  modify (fun v => set_cv_gfx (take sizeof_fx_layout ufl ++ drop sizeof_fx_layout (cv_gfx v)) v);; mret 0.

(** The MSRs are set, or read, up to the first failure: the number that has been done. *)
Fixpoint set_msrs (i : Z) (l : list vmx_msr) : M vcpu Z :=
  match l with
  | [] => mret i
  | msr :: l =>
      fail ← vcpu_set_msr G uninit (vm_entry msr) (vm_value msr);
      if negb (fail =? 0) then mret i else set_msrs (i + 1) l
  end.
Fixpoint get_msrs (i : Z) (l : list vmx_msr) : M vcpu (Z * list vmx_msr) :=
  match l with
  | [] => mret (i, [])
  | msr :: l =>
      val ← vcpu_get_msr G uninit (vm_entry msr);
      match val with
      | None => mret (i, msr :: l)
      | Some val => r ← get_msrs (i + 1) l; mret (r.1, VmxMsr (vm_entry msr) val :: r.2)
      end
  end.

(** [load_user_data] and [unload_user_data] around a request on a CPUID table. *)
Definition with_user_cpuid (header_total : Z) (k : M st (Z * user_data)) : M st (Z * user_data) :=
  from_user (
    if HAX_MAX_CPUID_ENTRIES <? header_total then mret (- E2BIG, UdNone)
    else
      dest ← kalloc AkUserData;
      match dest with
      | None => mret (- ENOMEM, UdNone)
      | Some dest =>
          err ← host_service copy_from_user;
          if err : bool then kfree_at dest;; mret (- EFAULT, UdNone)
          else r ← k; kfree_at dest;; mret r
      end).

Definition vcpu_request (a : Z) (cmd : vcpu_cmd) : M st (Z * user_data) :=
  match cmd with
  | IocRun => only_ret (on_vcpu a (vcpu_execute G uninit same_kva asm_vmxrun run_fuel))
  | IocSetupTunnel =>
      ret ← hax_vcpu_setup_hax_tunnel a;
      c ← get_vcpu a;
      to_user ret (match co_tunnel_vcpumem c, co_iobuf_vcpumem c with
                   | Some t, Some b => UdTunnel (vcm_uva t) (vcm_uva b) PAGE_SIZE_4K
                   | _, _ => UdNone
                   end)
  | IocSetMsrs nr_msr entries =>
      from_user (
        if HAX_MAX_MSR_ARRAY <=? nr_msr then mret (- EFAULT, UdNone)
        else _ ← on_vcpu a (set_msrs 0 (take (Z.to_nat nr_msr) entries)); mret (0, UdNone))
  | IocGetMsrs nr_msr entries =>
      from_user (
        if HAX_MAX_MSR_ARRAY <=? nr_msr then mret (- EFAULT, UdNone)
        else
          r ← on_vcpu a (get_msrs 0 (take (Z.to_nat nr_msr) entries));
          to_user 0 (UdMsrs r.1 (r.2 ++ drop (Z.to_nat nr_msr) entries)))
  | IocSetFpu fl => from_user (only_ret (on_vcpu a (vcpu_put_fpu fl)))
  | IocGetFpu => r ← on_vcpu a vcpu_get_fpu; to_user r.1 (UdFpu r.2)
  | IocSetRegs regs => from_user (only_ret (on_vcpu a (vcpu_set_regs G regs)))
  | IocGetRegs => r ← on_vcpu a vcpu_get_regs; to_user r.1 (UdRegs r.2)
  | IocInterrupt vector =>
      from_user (_ ← on_vcpu a (in_intr_of (vcpu_interrupt (u8 vector))); mret (0, UdNone))
  | IocDebug control dr => from_user (on_vcpu a (vcpu_debug control dr);; mret (0, UdNone))
  | IocSetCpuid header_total cpuid =>
      with_user_cpuid header_total (only_ret (on_vcpu a (vcpu_set_cpuid cpuid)))
  | IocGetCpuid header_total cpuid =>
      with_user_cpuid header_total (
        r ← on_vcpu a (vcpu_get_cpuid cpuid);
        match r.2 with None => mret (r.1, UdNone) | Some x => to_user r.1 (UdCpuid x) end)
  | IocVcpuOther => mret (- ENOSYS, UdNone)
  end.

(** The number of the VM is read through the device of the virtual CPU. *)
Definition vcpu_of_host (host : Z) : M st (option Z) :=
  vcpu ← get_vcpu_linux host;
  vm ← get_vm_linux (ch_vm vcpu);
  hax_get_vcpu (vh_id vm) (ch_id vcpu) true.

Definition hax_vcpu_open (host : Z) : M st Z :=
  cvcpu ← vcpu_of_host host;
  match cvcpu with
  | None => mret (- ENODEV)
  | Some a => ret ← hax_vcpu_core_open (Some a); _ ← hax_put_vcpu a; mret ret
  end.

(** The reference of the creation and the one taken here are dropped. *)
Definition hax_vcpu_release (host : Z) : M st Z :=
  cvcpu ← vcpu_of_host host;
  match cvcpu with
  | None => mret 0
  | Some a => _ ← hax_put_vcpu a; _ ← hax_put_vcpu a; mret 0
  end.

Definition hax_vcpu_ioctl (host : Z) (cmd : vcpu_cmd) : M st (Z * user_data) :=
  cvcpu ← vcpu_of_host host;
  match cvcpu with
  | None => mret (- ENODEV, UdNone)
  | Some a => r ← vcpu_request a cmd; _ ← hax_put_vcpu a; mret r
  end.

(** ** Calls *)
Record sys := Sys { sy_driver : driver; sy_files : list file }.
Definition in_driver {A} (m : M st A) : M sys A := fun s =>
  match m (sy_driver s) with Some (a, d) => Some (a, Sys d (sy_files s)) | None => None end.
Definition open_file (f : file) : M sys unit := modify (fun s => Sys (sy_driver s) (f :: sy_files s)).
Definition close_file (f : file) : M sys unit :=
  modify (fun s => Sys (sy_driver s) (filter (fun g => g <> f) (sy_files s))).

(** The device exists, and the file is open: the kernel sees to it. *)
Definition admissible (s : sys) (c : user_call) : Prop :=
  match c with
  | CreateVm => True
  | OpenVm h => is_Some (dv_vm_hosts (sy_driver s) !! h)
  | OpenVcpu h => is_Some (dv_vcpu_hosts (sy_driver s) !! h)
  | CloseVm h | VmRequest h _ => FVm h ∈ sy_files s
  | CloseVcpu h | VcpuRequest h _ => FVcpu h ∈ sy_files s
  end.
Definition sys_call (c : user_call) : M sys (Z * user_data) :=
  match c with
  | CreateVm => in_driver ioctl_create_vm
  | OpenVm h =>
      ret ← in_driver (hax_vm_open h); (if ret =? 0 then open_file (FVm h) else mret tt);; mret (ret, UdNone)
  | CloseVm h => close_file (FVm h);; ret ← in_driver (hax_vm_release h); mret (ret, UdNone)
  | VmRequest h cmd => in_driver (hax_vm_ioctl h cmd)
  | OpenVcpu h =>
      ret ← in_driver (hax_vcpu_open h); (if ret =? 0 then open_file (FVcpu h) else mret tt);; mret (ret, UdNone)
  | CloseVcpu h => close_file (FVcpu h);; ret ← in_driver (hax_vcpu_release h); mret (ret, UdNone)
  | VcpuRequest h cmd => in_driver (hax_vcpu_ioctl h cmd)
  end.

(** The states of the driver, in the order of the calls. *)
Inductive reachable (s0 : sys) : sys -> Prop :=
  | reach_refl : reachable s0 s0
  | reach_call s c r s' : reachable s0 s -> admissible s c -> sys_call c s = Some (r, s') -> reachable s0 s'.
End Calls.
