(* ===== verification/VmGraph.v ===== *)
(** * The objects of the driver and their references

    [view] is the state without what runs on the VMs and the virtual CPUs: identifiers, pointers,
    reference counts, devices and memory.  Every operation of the other components leaves it as
    it is.  [graph] is the invariant of the objects; [cr] and [vr] are the references to a VM
    besides those of its virtual CPUs, and those to a virtual CPU. *)

From stdpp Require Import base numbers list gmap gmultiset.
From Stdlib Require Import ZArith Lia.
From S2P Require Import IntrExc Prelude MemTypes Memslot GpaSpace PageWalker Mmio.
From S2P Require Import EmTypes Emulate EptTree Ept2 VmMemory VcpuEmu Cpuid Vmx VcpuState VcpuCr.
From S2P Require Import VcpuMsr VcpuExit VcpuSync VcpuIo VcpuHost VcpuRun HostHeap HaxInit VcpuInit VmLife VmIoctl.
#[local] Open Scope Z_scope.

(** ** Computations that may fail

    In the mode [true] the computation returns; in the mode [false] the statement is about the
    case that it does.  Both are proved at once. *)
Definition twp {S A} (t : bool) (m : M S A) (s : S) (Q : A -> S -> Prop) : Prop :=
  match m s with Some (a, s') => Q a s' | None => t = false end.

Section Twp.
Context {S : Type} (t : bool).
Lemma twp_bind {A B} (m : M S A) (k : A -> M S B) s Q :
  twp t m s (fun a s' => twp t (k a) s' Q) -> twp t (m ≫= k) s Q.
Proof. unfold twp, mbind, M_bind. destruct (m s) as [[a s']|]; [done|done]. Qed.
Lemma twp_ret {A} (a : A) s (Q : A -> S -> Prop) : Q a s -> twp t (mret a) s Q.
Proof. done. Qed.
Lemma twp_get s (Q : S -> S -> Prop) : Q s s -> twp t get s Q.
Proof. done. Qed.
Lemma twp_modify f s (Q : unit -> S -> Prop) : Q tt (f s) -> twp t (modify f) s Q.
Proof. done. Qed.
Lemma twp_of_option {A} (o : option A) a s (Q : A -> S -> Prop) : o = Some a -> Q a s -> twp t (of_option o) s Q.
Proof. by intros ->. Qed.
Lemma twp_assert (b : bool) s (Q : unit -> S -> Prop) : b = true -> Q tt s -> twp t (hax_assert b) s Q.
Proof. by intros ->. Qed.
Lemma twp_mono {A} (m : M S A) s (P Q : A -> S -> Prop) :
  twp t m s P -> (forall a s', P a s' -> Q a s') -> twp t m s Q.
Proof. unfold twp. destruct (m s) as [[a s']|]; auto. Qed.
Lemma twp_if {A} (b : bool) (m1 m2 : M S A) s Q :
  (b = true -> twp t m1 s Q) -> (b = false -> twp t m2 s Q) -> twp t (if b then m1 else m2) s Q.
Proof. destruct b; auto. Qed.
End Twp.
Lemma twp_option_partial {S A} (o : option A) s (Q : A -> S -> Prop) :
  (forall a, o = Some a -> Q a s) -> twp false (of_option o) s Q.
Proof. destruct o; intros H; [by apply H|done]. Qed.
Lemma twp_run {S A} t (m : M S A) s Q a s' : twp t m s Q -> m s = Some (a, s') -> Q a s'.
Proof. unfold twp. intros H E. by rewrite E in H. Qed.
Lemma twp_total {S A} (m : M S A) s Q : twp true m s Q -> exists a s', m s = Some (a, s') /\ Q a s'.
Proof. unfold twp. destruct (m s) as [[a s']|]; [eauto|done]. Qed.

(** ** Sums of memory over maps *)
Section Sums.
Context {A : Type} (f : Z -> A -> gmultiset Z).
Definition msum (m : gmap Z A) : gmultiset Z := map_fold (fun k x acc => f k x ⊎ acc) ∅ m.
Lemma msum_insert k x m : m !! k = None -> msum (<[k := x]> m) = f k x ⊎ msum m.
Proof.
  intros H. unfold msum. rewrite (map_fold_insert_L _ _ _ _ _); [done| |done].
  intros. multiset_solver.
Qed.
Lemma msum_delete k x m : m !! k = Some x -> msum m = f k x ⊎ msum (delete k m).
Proof. intros H. rewrite <- (insert_delete_id m k x H) at 1. apply msum_insert, lookup_delete_eq. Qed.
Lemma msum_update k x x' m : m !! k = Some x -> msum (<[k := x']> m) = f k x' ⊎ msum (delete k m).
Proof. intros H. rewrite <- insert_delete_eq. apply msum_insert, lookup_delete_eq. Qed.
Lemma msum_same k x x' m : m !! k = Some x -> f k x' = f k x -> msum (<[k := x']> m) = msum m.
Proof. intros H E. by rewrite (msum_update _ _ _ _ H), (msum_delete _ _ _ H), E. Qed.
Lemma msum_empty : msum ∅ = ∅.
Proof. done. Qed.
End Sums.

Lemma mem_diff_diff (X A B : gmultiset Z) : X ∖ A ∖ B = X ∖ (A ⊎ B).
Proof. multiset_solver. Qed.
Lemma mem_sub_diff (X A B : gmultiset Z) : A ⊎ B ⊆ X -> B ⊆ X ∖ A.
Proof. multiset_solver. Qed.
Lemma mem_diff_empty (X : gmultiset Z) : X ∖ ∅ = X.
Proof. multiset_solver. Qed.

(** ** The view *)
Record vm_view := VmView {
  vv_ref : Z; vv_flags : Z; vv_id : Z; vv_seed : Z; vv_vcpus : list Z; vv_host : Z;
  vv_lock : option Z; vv_ept_lock : option Z; vv_p2m : list (option Z); vv_ram : option Z;
  vv_mems : list hax_vcpu_mem;
}.
Record vcpu_view := VcpuView {
  cw_vm : Z; cw_id : Z; cw_vpid : Z; cw_ref : Z; cw_flags : Z;
  cw_vmcs : option Z; cw_gfx : option Z; cw_state : option Z; cw_mutex : option Z; cw_cpuid : option Z;
  cw_tunnel : option hax_vcpu_mem; cw_iobuf : option hax_vcpu_mem; cw_host : Z;
}.
Record view := View {
  w_live : gmultiset Z; w_next : Z; w_bits : Z; w_list : list Z;
  w_vms : gmap Z vm_view; w_vcpus : gmap Z vcpu_view;
  w_vm_hosts : gmap Z hax_vm_linux_t; w_vcpu_hosts : gmap Z hax_vcpu_linux_t; w_devices : gset device;
}.
Definition with_mem (l : gmultiset Z) (n : Z) (w : view) : view :=
  View l n (w_bits w) (w_list w) (w_vms w) (w_vcpus w) (w_vm_hosts w) (w_vcpu_hosts w) (w_devices w).
Definition with_bits (x : Z) (w : view) : view :=
  View (w_live w) (w_next w) x (w_list w) (w_vms w) (w_vcpus w) (w_vm_hosts w) (w_vcpu_hosts w) (w_devices w).
Definition with_list (x : list Z) (w : view) : view :=
  View (w_live w) (w_next w) (w_bits w) x (w_vms w) (w_vcpus w) (w_vm_hosts w) (w_vcpu_hosts w) (w_devices w).
Definition with_vms (x : gmap Z vm_view) (w : view) : view :=
  View (w_live w) (w_next w) (w_bits w) (w_list w) x (w_vcpus w) (w_vm_hosts w) (w_vcpu_hosts w) (w_devices w).
Definition with_vcpus (x : gmap Z vcpu_view) (w : view) : view :=
  View (w_live w) (w_next w) (w_bits w) (w_list w) (w_vms w) x (w_vm_hosts w) (w_vcpu_hosts w) (w_devices w).
Definition with_vm_hosts (x : gmap Z hax_vm_linux_t) (w : view) : view :=
  View (w_live w) (w_next w) (w_bits w) (w_list w) (w_vms w) (w_vcpus w) x (w_vcpu_hosts w) (w_devices w).
Definition with_vcpu_hosts (x : gmap Z hax_vcpu_linux_t) (w : view) : view :=
  View (w_live w) (w_next w) (w_bits w) (w_list w) (w_vms w) (w_vcpus w) (w_vm_hosts w) x (w_devices w).
Definition with_devices (x : gset device) (w : view) : view :=
  View (w_live w) (w_next w) (w_bits w) (w_list w) (w_vms w) (w_vcpus w) (w_vm_hosts w) (w_vcpu_hosts w) x.

Definition with_vm (a : Z) (vv : vm_view) (w : view) : view := with_vms (<[a := vv]> (w_vms w)) w.
Definition with_vcpu (b : Z) (cw : vcpu_view) (w : view) : view := with_vcpus (<[b := cw]> (w_vcpus w)) w.
Lemma view_ext w w' : w_live w = w_live w' -> w_next w = w_next w' -> w_bits w = w_bits w' -> w_list w = w_list w' ->
  w_vms w = w_vms w' -> w_vcpus w = w_vcpus w' -> w_vm_hosts w = w_vm_hosts w' -> w_vcpu_hosts w = w_vcpu_hosts w' ->
  w_devices w = w_devices w' -> w = w'.
Proof. destruct w, w'. cbn. by intros -> -> -> -> -> -> -> -> ->. Qed.

Ltac wcbn := cbn [w_live w_next w_bits w_list w_vms w_vcpus w_vm_hosts w_vcpu_hosts w_devices with_mem with_bits with_list
  with_vms with_vcpus with_vm with_vcpu with_vm_hosts with_vcpu_hosts with_devices fst snd vh_dev ch_dev].
(** Memory that is to be freed is there, and the rest is the same in whatever order it is. *)
Ltac mem_sub H := wcbn; rewrite ?mem_diff_diff; try apply mem_sub_diff; etrans; [|exact H]; multiset_solver.
Ltac view_eq := apply view_ext; wcbn; rewrite ?insert_insert_eq, ?delete_insert_eq; try reflexivity.
Ltac mem_eq := rewrite ?mem_diff_diff; apply (f_equal2 difference); [done|multiset_solver].

Section Views.
Context {HH : Host} {PH : PhysHost} {VH : VmxHw}.
Definition vm_view_of (o : vm_obj) : vm_view :=
  VmView (vo_ref_count o) (vo_flags o) (vo_vm_id o) (vo_vpid_seed o) (vo_vcpu_list o) (vo_vm_host o)
    (vo_vm_lock o) (vo_ept_lock o) (vo_p2m_map o) (vo_ram_entry o) (vo_ram_mems o).
Definition vcpu_view_of (c : vcpu_obj) : vcpu_view :=
  VcpuView (co_vm c) (co_vcpu_id c) (co_vpid c) (co_ref_count c) (co_flags c) (co_vmcs_page c) (co_gfxpage c)
    (co_state c) (co_tmutex c) (co_guest_cpuid c) (co_tunnel_vcpumem c) (co_iobuf_vcpumem c) (co_vcpu_host c).
Definition view_of (d : driver) : view :=
  View (h_live (dv_heap d)) (h_next (dv_heap d)) (dv_vm_mid_bits d) (dv_vmlist d)
    (vm_view_of <$> dv_vms d) (vcpu_view_of <$> dv_vcpus d) (dv_vm_hosts d) (dv_vcpu_hosts d) (dv_devices d).
End Views.

(** ** Rules

    [St t w d]: the view of [d] is [w]; in the mode [true], where the computations have to return,
    the address spaces are consistent. *)
Section Rules.
Context {HH : Host} {PH : PhysHost} {VH : VmxHw} {AH : AllocHost} {LH : LinuxHost}.
Context (space_ok : vm_t -> Prop) (t : bool) (L : list remain).
Implicit Types (d : driver) (o : vm_obj) (c : vcpu_obj) (w : view).

(** The page of the fetch cache is mapped. *)
Definition fetch_ok c : Prop :=
  let f := mv_mmio_fetch (mmio (co_vcpu c)) in mf_kva f <> None -> is_Some (mf_kmap f).
Definition spaces_ok d : Prop :=
  (forall a o, dv_vms d !! a = Some o -> space_ok (vo_vm o)) /\ (forall b c, dv_vcpus d !! b = Some c -> fetch_ok c).
(** Nothing has leaked but [L]. *)
Definition sound d : Prop := spaces_ok d /\ dv_leaked d = L.
Definition St w d : Prop := view_of d = w /\ (t = true -> sound d).

Lemma St_intro w d d' : (t = true -> sound d) -> dv_vms d' = dv_vms d -> dv_vcpus d' = dv_vcpus d ->
  dv_leaked d' = dv_leaked d -> view_of d' = w -> St w d'.
Proof. intros H E E' E2 V. split; [done|]. intros Ht. unfold sound, spaces_ok. rewrite E, E', E2. by apply H. Qed.

Lemma kalloc_rule k w d (Q : option Z -> driver -> Prop) : St w d ->
  (forall d', St (with_mem ({[+ w_next w +]} ⊎ w_live w) (w_next w + 1) w) d' -> Q (Some (w_next w)) d') ->
  (forall d', St w d' -> Q None d') -> twp t (kalloc k) d Q.
Proof.
  intros [<- Hs] H1 H2. unfold twp, kalloc, on_heap, heap_alloc. destruct (host_alloc _ _) as [[] h]; cbn.
  - apply H1. by eapply St_intro.
  - apply H2. by eapply St_intro.
Qed.

Lemma kfree_at_rule a w d (Q : unit -> driver -> Prop) : St w d -> {[+ a +]} ⊆ w_live w ->
  (forall d', St (with_mem (w_live w ∖ {[+ a +]}) (w_next w) w) d' -> Q tt d') -> twp t (kfree_at a) d Q.
Proof.
  intros [<- Hs] Ha%gmultiset_singleton_subseteq_l H. unfold twp, kfree_at, on_heap, heap_free. cbn in Ha.
  unfold get, mbind, M_bind. rewrite (bool_decide_eq_true_2 _ Ha). cbn. apply H. by eapply St_intro.
Qed.

Definition opt_mem (x : option Z) : gmultiset Z := match x with Some a => {[+ a +]} | None => ∅ end.
Lemma kfree_rule x w d (Q : unit -> driver -> Prop) : St w d -> opt_mem x ⊆ w_live w ->
  (forall d', St (with_mem (w_live w ∖ opt_mem x) (w_next w) w) d' -> Q tt d') -> twp t (kfree x) d Q.
Proof.
  intros HS Hx H. destruct x as [a|].
  - eapply kfree_at_rule; [done|exact Hx|done].
  - apply twp_ret, H. replace (with_mem (w_live w ∖ opt_mem None) (w_next w) w) with w; [done|].
    destruct w; unfold with_mem; cbn. f_equal. multiset_solver.
Qed.

Lemma kfree_vms_rule x w d (Q : unit -> driver -> Prop) : St w d -> opt_mem x ⊆ w_live w ->
  (forall d', St (with_mem (w_live w ∖ opt_mem x) (w_next w) w) d' -> dv_vms d' = dv_vms d -> Q tt d') ->
  twp t (kfree x) d Q.
Proof.
  intros HS Hx H. destruct x as [a|].
  - destruct HS as [<- Hs]. cbn [opt_mem] in Hx. pose proof Hx as Ha%gmultiset_singleton_subseteq_l.
    unfold twp, kfree, kfree_at, on_heap, heap_free. cbn in Ha.
    unfold get, mbind, M_bind. rewrite (bool_decide_eq_true_2 _ Ha). cbn. apply H; [by eapply St_intro|done].
  - apply twp_ret, H; [|done]. replace (with_mem (w_live w ∖ opt_mem None) (w_next w) w) with w; [done|].
    destruct w; unfold with_mem; cbn. f_equal. multiset_solver.
Qed.

Lemma host_service_rule {A} (f : hstate -> A * hstate) w d (Q : A -> driver -> Prop) : St w d ->
  (forall a d', St w d' -> Q a d') -> twp t (host_service f) d Q.
Proof.
  intros [<- Hs] H. unfold twp, host_service. destruct (f _) as [a h]. apply H. by eapply St_intro.
Qed.

Lemma upd_driver_rule w w' d f (Q : unit -> driver -> Prop) : St w d -> dv_vms (f d) = dv_vms d ->
  dv_vcpus (f d) = dv_vcpus d /\ dv_leaked (f d) = dv_leaked d -> view_of (f d) = w' ->
  (St w' (f d) -> Q tt (f d)) -> twp t (modify f) d Q.
Proof. intros [E Hs] Hv [Hc Hl] E' H. apply twp_modify, H. by eapply St_intro. Qed.

Lemma get_vm_rule a vv w d (Q : vm_obj -> driver -> Prop) : St w d -> w_vms w !! a = Some vv ->
  (forall o, vv = vm_view_of o -> (t = true -> space_ok (vo_vm o)) -> Q o d) -> twp t (get_vm a) d Q.
Proof.
  intros [<- Hs] Ha H. cbn in Ha. rewrite lookup_fmap in Ha. destruct (dv_vms d !! a) as [o|] eqn:E; [|done].
  injection Ha as <-. apply twp_bind, twp_get. eapply twp_of_option; [exact E|]. apply H; [done|]. intros Ht. by eapply (proj1 (proj1 (Hs Ht))).
Qed.
Lemma put_vm_rule a o w d (Q : unit -> driver -> Prop) : St w d -> (t = true -> space_ok (vo_vm o)) ->
  (forall d', St (with_vms (<[a := vm_view_of o]> (w_vms w)) w) d' -> Q tt d') -> twp t (put_vm a o) d Q.
Proof.
  intros [<- Hs] Ho H. apply twp_modify, H. split.
  - unfold view_of, with_vms. cbn. by rewrite fmap_insert.
  - intros Ht. split; [|apply (Hs Ht)]. split; [|apply (Hs Ht)]. intros b o'. cbn. rewrite lookup_insert_Some.
    intros [[_ <-]|[_ Hb]]; [by apply Ho|by eapply (proj1 (proj1 (Hs Ht)))].
Qed.
Lemma modify_vm_rule a f vv w d (Q : unit -> driver -> Prop) : St w d -> w_vms w !! a = Some vv ->
  (forall o, vo_vm (f o) = vo_vm o) ->
  (forall o d', vv = vm_view_of o -> St (with_vms (<[a := vm_view_of (f o)]> (w_vms w)) w) d' -> Q tt d') ->
  twp t (modify_vm a f) d Q.
Proof.
  intros HS Ha Hf H. apply twp_bind. eapply get_vm_rule; [done..|]. intros o Eo Ho.
  eapply put_vm_rule; [done|by rewrite Hf|]. intros d' HS'. by eapply H.
Qed.

Lemma get_vcpu_fetch_rule a cw w d (Q : vcpu_obj -> driver -> Prop) : St w d -> w_vcpus w !! a = Some cw ->
  (forall c, cw = vcpu_view_of c -> (t = true -> fetch_ok c) -> Q c d) -> twp t (get_vcpu a) d Q.
Proof.
  intros [<- Hs] Ha H. cbn in Ha. rewrite lookup_fmap in Ha. destruct (dv_vcpus d !! a) as [c|] eqn:E; [|done].
  injection Ha as <-. apply twp_bind, twp_get. eapply twp_of_option; [exact E|]. apply H; [done|]. intros Ht. by eapply (proj2 (proj1 (Hs Ht))).
Qed.
Lemma get_vcpu_rule a cw w d (Q : vcpu_obj -> driver -> Prop) : St w d -> w_vcpus w !! a = Some cw ->
  (forall c, cw = vcpu_view_of c -> Q c d) -> twp t (get_vcpu a) d Q.
Proof. intros HS Ha H. eapply get_vcpu_fetch_rule; [done..|]. intros c Ec _. by apply H. Qed.
Lemma put_vcpu_rule a c w d (Q : unit -> driver -> Prop) : St w d -> (t = true -> fetch_ok c) ->
  (forall d', St (with_vcpus (<[a := vcpu_view_of c]> (w_vcpus w)) w) d' -> Q tt d') -> twp t (put_vcpu a c) d Q.
Proof.
  intros [<- Hs] Hc H. apply twp_modify, H. split.
  - unfold view_of, with_vcpus. cbn. by rewrite fmap_insert.
  - intros Ht. split; [|apply (Hs Ht)]. split; [apply (Hs Ht)|]. intros b c'. cbn. rewrite lookup_insert_Some.
    intros [[_ <-]|[_ Hb]]; [by apply Hc|by eapply (proj2 (proj1 (Hs Ht)))].
Qed.
Lemma modify_vcpu_rule a f cw w d (Q : unit -> driver -> Prop) : St w d -> w_vcpus w !! a = Some cw ->
  (forall c, co_vcpu (f c) = co_vcpu c) ->
  (forall c d', cw = vcpu_view_of c -> St (with_vcpus (<[a := vcpu_view_of (f c)]> (w_vcpus w)) w) d' -> Q tt d') ->
  twp t (modify_vcpu a f) d Q.
Proof.
  intros HS Ha Hf H. apply twp_bind. eapply get_vcpu_fetch_rule; [done..|]. intros c Ec Hc.
  eapply put_vcpu_rule; [done|unfold fetch_ok; by rewrite Hf|]. intros d' HS'. by eapply H.
Qed.

(** Operations on the address space, and on a virtual CPU, leave the view as it is. *)
Lemma on_vm_rule {A} a (m : M vm_t A) vv w d (Q : A -> driver -> Prop) : St w d -> w_vms w !! a = Some vv ->
  (t = true -> forall v, space_ok v -> exists r v', m v = Some (r, v') /\ space_ok v') ->
  (forall v h p, space_ok v -> space_ok (set_space (with_host h (with_opaque (set_phys p (gs_opaque (vm_gpa_space v))) (vm_gpa_space v))) v)) ->
  (forall r d', St w d' -> Q r d') -> twp t (on_vm a m) d Q.
Proof.
  intros HS Ha Hm Hl H. apply twp_bind. eapply get_vm_rule; [done..|]. intros o -> Ho. apply twp_bind, twp_get, twp_bind.
  assert (Hk : twp t (of_option (m (lend_vm d (vo_vm o)))) d (fun r d' => d' = d /\ (t = true -> space_ok r.2))).
  { destruct t; [|apply twp_option_partial; by intros].
    destruct (Hm eq_refl (lend_vm d (vo_vm o))) as (r & v' & E & Hv'); [by apply Hl, Ho|].
    eapply twp_of_option; [exact E|]. done. }
  eapply twp_mono; [exact Hk|]. intros r d' [-> Hr]. apply twp_bind, twp_modify, twp_bind.
  assert (HS1 : St w (return_vm r.2 d)) by (destruct HS as [<- Hs]; by eapply St_intro).
  eapply put_vm_rule; [exact HS1|exact Hr|]. intros d2 HS2. apply twp_ret, H.
  replace (with_vms _ w) with w in HS2; [done|]. destruct w; unfold with_vms; cbn in *. f_equal. by rewrite insert_id.
Qed.
End Rules.

(** ** References *)
Definition vv_set_ref (n : Z) (vv : vm_view) : vm_view :=
  VmView n (vv_flags vv) (vv_id vv) (vv_seed vv) (vv_vcpus vv) (vv_host vv) (vv_lock vv) (vv_ept_lock vv)
    (vv_p2m vv) (vv_ram vv) (vv_mems vv).
Definition vv_set_vcpus (l : list Z) (vv : vm_view) : vm_view :=
  VmView (vv_ref vv) (vv_flags vv) (vv_id vv) (vv_seed vv) l (vv_host vv) (vv_lock vv) (vv_ept_lock vv)
    (vv_p2m vv) (vv_ram vv) (vv_mems vv).
Definition vv_set_seed (x : Z) (vv : vm_view) : vm_view :=
  VmView (vv_ref vv) (vv_flags vv) (vv_id vv) x (vv_vcpus vv) (vv_host vv) (vv_lock vv) (vv_ept_lock vv)
    (vv_p2m vv) (vv_ram vv) (vv_mems vv).
Definition vv_set_flags (x : Z) (vv : vm_view) : vm_view :=
  VmView (vv_ref vv) x (vv_id vv) (vv_seed vv) (vv_vcpus vv) (vv_host vv) (vv_lock vv) (vv_ept_lock vv)
    (vv_p2m vv) (vv_ram vv) (vv_mems vv).
Definition cw_set_ref (n : Z) (cw : vcpu_view) : vcpu_view :=
  VcpuView (cw_vm cw) (cw_id cw) (cw_vpid cw) n (cw_flags cw) (cw_vmcs cw) (cw_gfx cw) (cw_state cw)
    (cw_mutex cw) (cw_cpuid cw) (cw_tunnel cw) (cw_iobuf cw) (cw_host cw).
Definition cw_set_flags (x : Z) (cw : vcpu_view) : vcpu_view :=
  VcpuView (cw_vm cw) (cw_id cw) (cw_vpid cw) (cw_ref cw) x (cw_vmcs cw) (cw_gfx cw) (cw_state cw)
    (cw_mutex cw) (cw_cpuid cw) (cw_tunnel cw) (cw_iobuf cw) (cw_host cw).

Lemma with_vm_id a vv w : w_vms w !! a = Some vv -> with_vm a vv w = w.
Proof. intros H. destruct w; unfold with_vm, with_vms; cbn in *. f_equal. by apply insert_id. Qed.
Lemma with_vm_twice a vv vv' w : with_vm a vv (with_vm a vv' w) = with_vm a vv w.
Proof. unfold with_vm, with_vms; cbn. f_equal. apply insert_insert_eq. Qed.
Lemma with_vcpu_id a cw w : w_vcpus w !! a = Some cw -> with_vcpu a cw w = w.
Proof. intros H. destruct w; unfold with_vcpu, with_vcpus; cbn in *. f_equal. by apply insert_id. Qed.
Lemma with_vcpu_twice a cw cw' w : with_vcpu a cw (with_vcpu a cw' w) = with_vcpu a cw w.
Proof. unfold with_vcpu, with_vcpus; cbn. f_equal. apply insert_insert_eq. Qed.
Lemma with_vm_lookup a vv w : w_vms (with_vm a vv w) !! a = Some vv.
Proof. apply lookup_insert_eq. Qed.
Lemma with_vcpu_lookup a cw w : w_vcpus (with_vcpu a cw w) !! a = Some cw.
Proof. apply lookup_insert_eq. Qed.
Lemma vv_set_ref_eta vv : vv_set_ref (vv_ref vv) vv = vv.
Proof. by destruct vv. Qed.
Lemma cw_set_ref_eta cw : cw_set_ref (cw_ref cw) cw = cw.
Proof. by destruct cw. Qed.

Section References.
Context {HH : Host} {PH : PhysHost} {VH : VmxHw} {AH : AllocHost} {LH : LinuxHost}.
Context (space_ok : vm_t -> Prop) (t : bool) (L : list remain).
#[local] Notation St := (St space_ok t L).
Implicit Types (d : driver) (w : view).

Lemma vm_ref_add_rule a n vv w d (Q : Z -> driver -> Prop) : St w d -> w_vms w !! a = Some vv ->
  - 2 ^ 31 <= vv_ref vv + n < 2 ^ 31 ->
  (forall d', St (with_vm a (vv_set_ref (vv_ref vv + n) vv) w) d' -> Q (vv_ref vv) d') -> twp t (vm_ref_add a n) d Q.
Proof.
  intros HS Ha Hn H. apply twp_bind. eapply get_vm_rule; [done..|]. intros o -> Ho. apply twp_bind.
  eapply put_vm_rule; [done|exact Ho|]. intros d' HS'. apply twp_ret, H.
  cbn in HS'. replace (s32 _) with (vo_ref_count o + n) in HS'; [done|]. cbn in Hn. unfold s32. cbn zeta.
  destruct (Z.ltb_spec ((vo_ref_count o + n) mod 2 ^ 32) (2 ^ 31)) as [E|E]; [|].
  all: pose proof (Z.div_mod (vo_ref_count o + n) (2 ^ 32) ltac:(lia));
    pose proof (Z.mod_pos_bound (vo_ref_count o + n) (2 ^ 32) ltac:(lia)); nia.
Qed.

Definition listed (w : view) : Prop := forall a, a ∈ w_list w -> is_Some (w_vms w !! a).
Definition refs_small (w : view) : Prop := forall a vv, w_vms w !! a = Some vv -> 0 < vv_ref vv < 2 ^ 30.
(** The first VM of the list with the number. *)
Definition finds (w : view) (vm_id : Z) (l : list Z) (r : option Z) : Prop :=
  match r with
  | Some a => a ∈ l /\ exists vv, w_vms w !! a = Some vv /\ vv_id vv = vm_id
  | None => forall a vv, a ∈ l -> w_vms w !! a = Some vv -> vv_id vv <> vm_id
  end.

Lemma find_vm_rule i l w d (Q : option Z -> driver -> Prop) : St w d ->
  (forall a, a ∈ l -> is_Some (w_vms w !! a)) -> (forall r, finds w i l r -> Q r d) -> twp t (find_vm i l) d Q.
Proof.
  intros HS. revert Q. induction l as [|a l IH]; intros Q Hl H; [apply twp_ret, H; intros a vv []%elem_of_nil|].
  destruct (Hl a) as [vv Ha]; [by left|]. apply twp_bind. eapply get_vm_rule; [done..|]. intros o -> _.
  cbv beta. destruct (Z.eqb_spec (vo_vm_id o) i) as [E|E].
  - apply twp_ret, H. split; [by left|]. by eexists.
  - apply IH; [intros b Hb; apply Hl; by right|]. intros [b|] Hr; apply H.
    + destruct Hr as [Hb Hr]. split; [by right|done].
    + intros b vv [->|Hb]%elem_of_cons Hvv; [|by eapply Hr]. rewrite Ha in Hvv. by injection Hvv as <-.
Qed.

(** A reference to a VM is taken, when there is one with the number. *)
Definition got_vm (w : view) (i : Z) (r : option Z) (w' : view) : Prop :=
  finds w i (w_list w) r /\
  match r with
  | Some a => exists vv, w_vms w !! a = Some vv /\ vv_id vv = i /\ w' = with_vm a (vv_set_ref (vv_ref vv + 1) vv) w
  | None => w' = w
  end.
Lemma hax_get_vm_rule i w d (Q : option Z -> driver -> Prop) : St w d -> listed w -> refs_small w ->
  (forall r w' d', St w' d' -> got_vm w i r w' -> Q r d') -> twp t (hax_get_vm i true) d Q.
Proof.
  intros HS Hl Hr H. apply twp_bind, twp_get, twp_bind.
  eapply find_vm_rule; [exact HS|destruct HS as [<- _]; exact Hl|]. intros r Hf.
  replace (dv_vmlist d) with (w_list w) in Hf by (by destruct HS as [<- _]).
  destruct r as [a|]; [|apply twp_ret; by eapply H].
  pose proof Hf as (Ha & vv & Hvv & Hi). pose proof (Hr a vv Hvv). apply twp_bind.
  eapply vm_ref_add_rule; [done..|lia|]. intros d' HS'. cbv beta.
  destruct (Z.leb_spec (vv_ref vv) 0); [lia|]. apply twp_ret. eapply H; [done|]. split; [done|]. eauto.
Qed.

(** A reference that is not the last one is dropped. *)
Lemma hax_put_vm_keep a vv w d (Q : Z -> driver -> Prop) : St w d -> w_vms w !! a = Some vv -> 1 < vv_ref vv < 2 ^ 31 ->
  (forall d', St (with_vm a (vv_set_ref (vv_ref vv - 1) vv) w) d' -> Q (vv_ref vv) d') -> twp t (hax_put_vm a) d Q.
Proof.
  intros HS Ha Hr H. apply twp_bind. eapply vm_ref_add_rule; [done..|lia|]. intros d' HS'.
  destruct (Z.eqb_spec (vv_ref vv) 1); [lia|]. apply twp_bind, twp_ret, twp_ret. by apply H.
Qed.

Lemma vcpu_ref_add_rule a n cw w d (Q : Z -> driver -> Prop) : St w d -> w_vcpus w !! a = Some cw ->
  - 2 ^ 31 <= cw_ref cw + n < 2 ^ 31 ->
  (forall d', St (with_vcpu a (cw_set_ref (cw_ref cw + n) cw) w) d' -> Q (cw_ref cw) d') -> twp t (vcpu_ref_add a n) d Q.
Proof.
  intros HS Ha Hn H. apply twp_bind. eapply get_vcpu_fetch_rule; [done..|]. intros c -> Hc. apply twp_bind.
  eapply put_vcpu_rule; [done|exact Hc|]. intros d' HS'. apply twp_ret, H.
  cbn in HS'. replace (s32 _) with (co_ref_count c + n) in HS'; [done|]. cbn in Hn. unfold s32. cbn zeta.
  destruct (Z.ltb_spec ((co_ref_count c + n) mod 2 ^ 32) (2 ^ 31)) as [E|E]; [|].
  all: pose proof (Z.div_mod (co_ref_count c + n) (2 ^ 32) ltac:(lia));
    pose proof (Z.mod_pos_bound (co_ref_count c + n) (2 ^ 32) ltac:(lia)); nia.
Qed.

Definition finds_vcpu (w : view) (vcpu_id : Z) (l : list Z) (r : option Z) : Prop :=
  match r with
  | Some b => b ∈ l /\ exists cw, w_vcpus w !! b = Some cw /\ cw_id cw = vcpu_id
  | None => forall b cw, b ∈ l -> w_vcpus w !! b = Some cw -> cw_id cw <> vcpu_id
  end.
Lemma find_vcpu_rule i l w d (Q : option Z -> driver -> Prop) : St w d ->
  (forall b, b ∈ l -> is_Some (w_vcpus w !! b)) -> (forall r, finds_vcpu w i l r -> Q r d) -> twp t (find_vcpu i l) d Q.
Proof.
  intros HS. revert Q. induction l as [|b l IH]; intros Q Hl H; [apply twp_ret, H; intros b cw []%elem_of_nil|].
  destruct (Hl b) as [cw Hb]; [by left|]. apply twp_bind. eapply get_vcpu_rule; [done..|]. intros c ->.
  cbv beta. destruct (Z.eqb_spec (co_vcpu_id c) i) as [E|E].
  - apply twp_ret, H. split; [by left|]. by eexists.
  - apply IH; [intros b' Hb'; apply Hl; by right|]. intros [b'|] Hr; apply H.
    + destruct Hr as [Hb' Hr]. split; [by right|done].
    + intros b' cw [->|Hb']%elem_of_cons Hcw; [|by eapply Hr]. rewrite Hb in Hcw. by injection Hcw as <-.
Qed.

(** A virtual CPU is found and gets [n] references more; its VM keeps its own. *)
Definition vcpus_listed (w : view) : Prop :=
  forall a vv b, w_vms w !! a = Some vv -> b ∈ vv_vcpus vv -> exists cw, w_vcpus w !! b = Some cw /\ 0 < cw_ref cw < 2 ^ 30.
Definition got_vcpu (w : view) (vm_id vcpu_id n : Z) (r : option Z) (w' : view) : Prop :=
  match r with
  | Some b => exists a vv cw, a ∈ w_list w /\ w_vms w !! a = Some vv /\ vv_id vv = vm_id /\ b ∈ vv_vcpus vv /\
      w_vcpus w !! b = Some cw /\ cw_id cw = vcpu_id /\ w' = with_vcpu b (cw_set_ref (cw_ref cw + n) cw) w
  | None => w' = w /\ forall a vv b cw, a ∈ w_list w -> w_vms w !! a = Some vv -> vv_id vv = vm_id -> b ∈ vv_vcpus vv ->
      w_vcpus w !! b = Some cw -> cw_id cw = vcpu_id ->
      exists a', a' <> a /\ a' ∈ w_list w /\ exists vv', w_vms w !! a' = Some vv' /\ vv_id vv' = vm_id
  end.
Lemma hax_get_vcpu_rule i j (refer : bool) w d (Q : option Z -> driver -> Prop) : St w d ->
  listed w -> refs_small w -> vcpus_listed w ->
  (forall r w' d', St w' d' -> got_vcpu w i j (if refer then 1 else 0) r w' -> Q r d') ->
  twp t (hax_get_vcpu i j refer) d Q.
Proof.
  intros HS Hl Hr Hc H. apply twp_bind. eapply hax_get_vm_rule; [done..|]. intros [a|] w1 d1 HS1 [Hf Hg].
  2: { subst w1. apply twp_ret. eapply H; [done|]. split; [done|]. intros a vv b cw Ha Hvv Hi. by destruct (Hf a vv Ha Hvv). }
  destruct Hf as [Hin _]. destruct Hg as (vv & Hvv & Hi & ->). pose proof (Hr a vv Hvv) as Hrv.
  apply twp_bind. eapply get_vm_rule; [done|apply with_vm_lookup|]. intros o Eo _. apply twp_bind.
  replace (vo_vcpu_list o) with (vv_vcpus vv) by (by injection Eo).
  eapply find_vcpu_rule; [done| |].
  { intros b Hb. destruct (Hc a vv b Hvv Hb) as (cw & Hcw & _). by exists cw. }
  assert (Hput : forall d2 w2 (P : Z -> driver -> Prop), St w2 d2 -> w_vms w2 = w_vms (with_vm a (vv_set_ref (vv_ref vv + 1) vv) w) ->
    (forall d', St (with_vm a vv w2) d' -> P (vv_ref vv + 1) d') -> twp t (hax_put_vm a) d2 P).
  { intros d2 w2 P HS2 E2 HP. eapply hax_put_vm_keep; [done|rewrite E2; apply with_vm_lookup|cbn; lia|].
    intros d' HS'. cbn in HS'. apply HP. eapply eq_ind with (P := fun w => St w d'); [exact HS'|]. f_equal.
    destruct vv as [rf ? ? ? ? ? ? ? ? ? ?]. unfold vv_set_ref. cbn. by replace (rf + 1 - 1) with rf by lia. }
  assert (Hback : with_vm a vv (with_vm a (vv_set_ref (vv_ref vv + 1) vv) w) = w)
    by (rewrite with_vm_twice; by apply with_vm_id).
  intros r Hf. apply twp_bind. destruct r as [b|].
  - destruct Hf as (Hb & cw & Hcw & Hj). destruct (Hc a vv b Hvv Hb) as (cw' & Hcw' & Hrc).
    cbn in Hcw. rewrite Hcw in Hcw'. injection Hcw' as <-.
    assert (Hres : forall n w', w' = with_vcpu b (cw_set_ref (cw_ref cw + n) cw) w -> got_vcpu w i j n (Some b) w').
    { intros n w' ->. exists a, vv, cw. by split_and!. }
    destruct refer.
    + apply twp_bind. eapply vcpu_ref_add_rule; [done|exact Hcw|lia|]. intros d2 HS2.
      destruct (Z.leb_spec (cw_ref cw) 0); [lia|]. apply twp_ret, twp_bind. eapply Hput; [exact HS2|done|].
      intros d3 HS3. apply twp_ret. eapply H; [exact HS3|]. apply Hres.
      change (with_vcpu b (cw_set_ref (cw_ref cw + 1) cw) (with_vm a vv (with_vm a (vv_set_ref (vv_ref vv + 1) vv) w)) =
        with_vcpu b (cw_set_ref (cw_ref cw + 1) cw) w). by rewrite Hback.
    + apply twp_ret, twp_bind. eapply Hput; [exact HS1|done|]. intros d3 HS3. apply twp_ret.
      eapply H; [exact HS3|]. apply Hres. rewrite Hback, Z.add_0_r, cw_set_ref_eta. by rewrite with_vcpu_id.
  - apply twp_ret, twp_bind. eapply Hput; [exact HS1|done|]. intros d3 HS3. apply twp_ret. eapply H; [exact HS3|].
    rewrite Hback. split; [done|]. intros a' vv' b cw Ha' Hvv' Hi' Hb' Hcw Hj.
    destruct (decide (a = a')) as [<-|Hne]; [|by exists a; eauto].
    rewrite Hvv in Hvv'. injection Hvv' as <-. by destruct (Hf b cw Hb' Hcw).
Qed.
End References.

(** ** The end of a VM *)

(** What the life cycle relies on of the address space: the operations of the teardown return on
    a consistent address space, whatever the host's state. *)
Definition tree_pages {HH : Host} {PH : PhysHost} (v : vm_t) : list Z :=
  et_page_list (gs_opaque (vm_gpa_space v)).
Class SpaceLaws {HH : Host} {PH : PhysHost} (space_ok : vm_t -> Prop) := {
  sl_lend v h p : space_ok v -> space_ok (set_space (with_host h
    (with_opaque (set_phys p (gs_opaque (vm_gpa_space v))) (vm_gpa_space v))) v);
  sl_listener a v : space_ok v ->
    exists r v', on_space (gpa_space_remove_listener a) v = Some (r, v') /\ space_ok v';
  sl_tree v : space_ok v -> exists r v', on_space (on_tree ept_tree_free) v = Some (r, v') /\ space_ok v' /\
    tree_pages v' = [];
  sl_free v : space_ok v -> exists r v', on_space gpa_space_free v = Some (r, v') /\ space_ok v' /\
    (tree_pages v = [] -> remains v' = []);
  sl_unmap k v : is_Some k -> space_ok v -> exists r v', on_space (gpa_space_unmap_page k) v = Some (r, v') /\ space_ok v';
}.

Section Destroy.
Context {HH : Host} {PH : PhysHost} {VH : VmxHw} {AH : AllocHost} {LH : LinuxHost}.
Context (space_ok : vm_t -> Prop) {SL : SpaceLaws space_ok} (t : bool) (L : list remain).
#[local] Notation St := (St space_ok t L).
Implicit Types (d : driver) (w : view).

Lemma upd_vm_hosts f w d : St w d -> view_of (set_dv_vm_hosts (f (dv_vm_hosts d)) d) = with_vm_hosts (f (w_vm_hosts w)) w.
Proof. by intros [<- _]. Qed.
Lemma upd_vcpu_hosts f w d : St w d -> view_of (set_dv_vcpu_hosts (f (dv_vcpu_hosts d)) d) = with_vcpu_hosts (f (w_vcpu_hosts w)) w.
Proof. by intros [<- _]. Qed.
Lemma upd_devices f w d : St w d -> view_of (set_dv_devices (f (dv_devices d)) d) = with_devices (f (w_devices w)) w.
Proof. by intros [<- _]. Qed.
Lemma upd_bits f w d : St w d -> view_of (set_dv_vm_mid_bits (f (dv_vm_mid_bits d)) d) = with_bits (f (w_bits w)) w.
Proof. by intros [<- _]. Qed.
Lemma upd_list f w d : St w d -> view_of (set_dv_vmlist (f (dv_vmlist d)) d) = with_list (f (w_list w)) w.
Proof. by intros [<- _]. Qed.
Lemma upd_cpuids x w d : St w d -> view_of (set_dv_cpuids x d) = w.
Proof. by intros [<- _]. Qed.
Lemma get_vm_linux_rule h x w d (Q : hax_vm_linux_t -> driver -> Prop) : St w d -> w_vm_hosts w !! h = Some x ->
  Q x d -> twp t (get_vm_linux h) d Q.
Proof. intros [<- _] Hx HQ. apply twp_bind, twp_get. by eapply twp_of_option. Qed.
Lemma get_vcpu_linux_rule h x w d (Q : hax_vcpu_linux_t -> driver -> Prop) : St w d -> w_vcpu_hosts w !! h = Some x ->
  Q x d -> twp t (get_vcpu_linux h) d Q.
Proof. intros [<- _] Hx HQ. apply twp_bind, twp_get. by eapply twp_of_option. Qed.

Lemma set_vm_host_kept a h vv w d (Q : Z -> driver -> Prop) : St w d -> w_vms w !! a = Some vv ->
  vv_host vv <> 0 -> vv_host vv <> h -> (forall r, Q r d) -> twp t (set_vm_host a h) d Q.
Proof.
  intros HS Ha H0 Hh H. apply twp_bind. eapply get_vm_rule; [done..|]. intros o -> _. cbn in H0, Hh. cbv beta.
  destruct (Z.eqb_spec (vo_vm_host o) 0), (Z.eqb_spec (vo_vm_host o) h); try done. apply twp_ret, H.
Qed.

Lemma hax_vm_free_all_ram_rule a vv w d (Q : Z -> driver -> Prop) : St w d -> w_vms w !! a = Some vv ->
  vv_mems vv = [] -> vv_ram vv = None -> (forall r d', St w d' -> Q r d') -> twp t (hax_vm_free_all_ram a) d Q.
Proof.
  intros HS Ha Hm Hr H. apply twp_bind. eapply get_vm_rule; [done..|]. intros o -> _. cbn in Hm, Hr.
  rewrite Hm. apply twp_bind, twp_ret. rewrite Hr. apply twp_bind, twp_ret, twp_bind, twp_get, twp_bind.
  eapply get_vm_rule; [exact HS|done|]. intros o' _ _. cbv zeta. apply twp_bind, twp_if; intros _.
  - apply twp_ret, twp_ret. by apply H.
  - apply twp_modify, twp_ret, H. destruct HS as [<- Hs]. by eapply St_intro.
Qed.

(** The parts of a VM that are freed with it. *)
Definition vm_host_mem (h : Z) (x : hax_vm_linux_t) : gmultiset Z :=
  {[+ h +]} ⊎ match vh_dev x with Some (_, n) => {[+ n +]} | None => ∅ end.
Definition vm_mem (a : Z) (vv : vm_view) : gmultiset Z :=
  {[+ a +]} ⊎ (opt_mem (vv_lock vv) ⊎ opt_mem (vv_ept_lock vv)).
Record vm_complete (a : Z) (vv : vm_view) (w : view) : Prop := {
  vc_vm : w_vms w !! a = Some vv;
  vc_p2m : Forall (eq None) (vv_p2m vv);
  vc_ram : vv_ram vv = None;
  vc_mems : vv_mems vv = [];
  vc_host0 : vv_host vv <> 0;
  vc_host : exists n, w_vm_hosts w !! vv_host vv = Some (VmLinux a (vv_id vv) (Some (DevVm (vv_id vv), n)));
}.

Lemma hax_vm_destroy_host_rule a vv w d x (Q : unit -> driver -> Prop) : St w d -> vm_complete a vv w ->
  w_vm_hosts w !! vv_host vv = Some x -> vm_host_mem (vv_host vv) x ⊆ w_live w ->
  (forall d', St (with_vm_hosts (delete (vv_host vv) (w_vm_hosts w)) (with_devices (w_devices w ∖ {[DevVm (vv_id vv)]})
     (with_mem (w_live w ∖ vm_host_mem (vv_host vv) x) (w_next w) w))) d' -> Q tt d') ->
  twp t (hax_vm_destroy_host (vv_host vv)) d Q.
Proof.
  intros HS [Hvm _ Hram Hmems H0 [n Hx]] Hx' Hmem H. rewrite Hx in Hx'. injection Hx' as <-.
  unfold vm_host_mem in Hmem. cbn [vh_dev] in Hmem.
  apply twp_bind. eapply get_vm_linux_rule; [done..|]. apply twp_bind, twp_bind.
  eapply twp_of_option; [done|]. apply twp_bind.
  eapply upd_driver_rule; [exact HS|done|done|exact (upd_devices (fun x => x ∖ {[DevVm (vv_id vv)]}) _ _ HS)|]. intros HS1.
  eapply kfree_at_rule; [exact HS1|mem_sub Hmem|]. intros d2 HS2.
  apply twp_bind. eapply get_vm_linux_rule; [exact HS2|exact Hx|].
  apply twp_bind. eapply set_vm_host_kept; [exact HS2|exact Hvm|done|done|]. intros _.
  apply twp_bind. eapply hax_vm_free_all_ram_rule; [exact HS2|exact Hvm|done..|]. intros _ d3 HS3.
  apply twp_bind. eapply upd_driver_rule; [exact HS3|done|done|exact (upd_vm_hosts (delete (vv_host vv)) _ _ HS3)|]. intros HS4.
  eapply kfree_at_rule; [exact HS4|mem_sub Hmem|]. intros d5 HS5. apply H.
  eapply eq_ind with (P := fun w => St w d5); [exact HS5|].
  view_eq; mem_eq.
Qed.

Lemma free_p2m_none a i l d (Q : unit -> driver -> Prop) : Forall (eq None) l -> Q tt d -> twp t (free_p2m_maps a i l) d Q.
Proof. intros Hl. revert i. induction Hl as [|x l <- _ IH]; intros i HQ; [by apply twp_ret|by apply IH]. Qed.

Lemma on_vm_law {A} a (m : M vm_t A) vv w d (Q : A -> driver -> Prop) : St w d -> w_vms w !! a = Some vv ->
  (forall v, space_ok v -> exists r v', m v = Some (r, v') /\ space_ok v') ->
  (forall r d', St w d' -> Q r d') -> twp t (on_vm a m) d Q.
Proof. intros HS Ha Hm H. eapply on_vm_rule; [exact HS|exact Ha|auto|intros; by apply sl_lend|exact H]. Qed.

(** What is known of the address space of a VM. *)
Definition vm_is (a : Z) (P : vm_t -> Prop) d : Prop := forall o, dv_vms d !! a = Some o -> P (vo_vm o).

Lemma on_vm_law_is {A} a (m : M vm_t A) (P P' : vm_t -> Prop) vv w d (Q : A -> driver -> Prop) :
  St w d -> w_vms w !! a = Some vv ->
  (forall v, space_ok v -> P v -> exists r v', m v = Some (r, v') /\ space_ok v' /\ P' v') ->
  (t = true -> vm_is a (fun v => P (lend_vm d v)) d) ->
  (forall r d', St w d' -> (t = true -> vm_is a P' d') -> Q r d') -> twp t (on_vm a m) d Q.
Proof.
  intros HS Ha Hm HP H. pose proof HS as [Ew Hs]. unfold on_vm, get_vm.
  destruct (dv_vms d !! a) as [o|] eqn:Eo.
  2: { rewrite <- Ew in Ha. cbn in Ha. by rewrite lookup_fmap, Eo in Ha. }
  apply twp_bind, twp_bind, twp_get. eapply twp_of_option; [exact Eo|]. apply twp_bind, twp_get, twp_bind.
  assert (Hk : twp t (of_option (m (lend_vm d (vo_vm o)))) d (fun r d' => d' = d /\ (t = true -> space_ok r.2 /\ P' r.2))).
  { destruct t; [|apply twp_option_partial; by intros].
    destruct (Hm (lend_vm d (vo_vm o))) as (r & v' & E & Hv' & HP');
      [apply sl_lend; by eapply (proj1 (proj1 (Hs eq_refl)))|by apply HP|].
    eapply twp_of_option; [exact E|]. done. }
  eapply twp_mono; [exact Hk|]. intros r d' [-> Hr]. apply twp_bind, twp_modify, twp_bind.
  assert (HS1 : St w (return_vm r.2 d)) by (destruct HS as [<- ?]; by eapply St_intro).
  apply twp_modify, twp_ret, H.
  - destruct HS1 as [E1 Hs1]. split.
    + rewrite <- E1. unfold view_of. cbn. f_equal. rewrite fmap_insert. apply insert_id. by rewrite lookup_fmap, Eo.
    + intros Ht. destruct (Hs1 Ht) as [[Hv Hc] Hl]. split; [|exact Hl]. split; [|exact Hc].
      intros b o'. cbn. rewrite lookup_insert_Some. intros [[_ <-]|[_ Hb]]; [by apply Hr|by eapply Hv].
  - intros Ht o'. cbn. rewrite lookup_insert_eq. intros [= <-]. by apply Hr.
Qed.

(** The end of a VM: what is left. *)
Definition without_vm (a : Z) (vv : vm_view) (w : view) : view :=
  View (w_live w ∖ vm_mem a vv) (w_next w) (Z.clearbit (w_bits w) (vv_id vv)) (w_list w) (delete a (w_vms w))
    (w_vcpus w) (w_vm_hosts w) (w_vcpu_hosts w) (w_devices w).
Lemma vfree_vm_rule a w d (Q : unit -> driver -> Prop) : St w d -> {[+ a +]} ⊆ w_live w ->
  (t = true -> vm_is a (fun v => remains v = []) d) ->
  (forall d', St (with_vms (delete a (w_vms w)) (with_mem (w_live w ∖ {[+ a +]}) (w_next w) w)) d' -> Q tt d') ->
  twp t (vfree_vm a) d Q.
Proof.
  intros [<- Hs] Ha Hrm H. apply twp_bind, twp_modify.
  eapply (kfree_at_rule _ _ _ a (with_vms (delete a (w_vms (view_of d))) (view_of d))); [|done|exact H].
  split; [|].
  - unfold view_of, with_vms. cbn. by rewrite fmap_delete.
  - intros Ht. destruct (Hs Ht) as [[Hv Hc] Hl]. split.
    + split; [|exact Hc]. intros b o. cbn. intros [_ Hb]%lookup_delete_Some. by eapply Hv.
    + cbn. rewrite Hl. destruct (dv_vms d !! a) as [o|] eqn:Eo; [|done]. cbn. by rewrite (Hrm Ht o Eo).
Qed.

Lemma hax_teardown_vm_rule a vv w d (Q : Z -> driver -> Prop) : St w d -> w_vms w !! a = Some vv ->
  vv_vcpus vv = [] -> Forall (eq None) (vv_p2m vv) -> vm_mem a vv ⊆ w_live w ->
  (forall d', St (without_vm a vv w) d' -> Q 0 d') -> twp t (hax_teardown_vm a) d Q.
Proof.
  intros HS Ha Hl Hp Hmem H. unfold vm_mem in Hmem.
  apply twp_bind. eapply get_vm_rule; [done..|]. intros o Eo _. cbv beta.
  assert (El : vo_vcpu_list o = []) by (rewrite Eo in Hl; exact Hl). rewrite (bool_decide_eq_true_2 _ El). cbn [negb].
  apply twp_bind, twp_bind. eapply get_vm_rule; [done..|]. intros o1 Eo1 _. apply free_p2m_none; [by rewrite Eo1 in Hp|].
  assert (Elk : vo_vm_lock o = vv_lock vv) by (by rewrite Eo). assert (Eel : vo_ept_lock o = vv_ept_lock vv) by (by rewrite Eo).
  assert (Eid : vo_vm_id o = vv_id vv) by (by rewrite Eo). rewrite Elk, Eel, Eid. clear o Eo El Elk Eel Eid o1 Eo1.
  apply twp_bind. eapply kfree_rule; [exact HS|mem_sub Hmem|]. intros d1 HS1.
  apply twp_bind. eapply upd_driver_rule; [exact HS1|done|done|exact (upd_bits (fun x => Z.clearbit x (vv_id vv)) _ _ HS1)|]. intros HS2.
  apply twp_bind. eapply on_vm_law; [exact HS2|exact Ha|apply sl_listener|]. intros _ d3 HS3.
  apply twp_bind. eapply (on_vm_law_is _ _ (fun _ => True)); [exact HS3|exact Ha|intros v Hv _; by apply sl_tree|done|].
  intros _ d4 HS4 HP4. apply twp_bind. eapply kfree_vms_rule; [exact HS4|mem_sub Hmem|]. intros d5 HS5 E5.
  apply twp_bind. eapply (on_vm_law_is _ _ (fun v => tree_pages v = []) (fun v => remains v = [])); [exact HS5|exact Ha| | |].
  { intros v Hv Hp'. destruct (sl_free v Hv) as (r & v' & ? & ? & Hrm). exists r, v'. auto. }
  { intros Ht o Eo. rewrite E5 in Eo. exact (HP4 Ht o Eo). }
  intros _ d6 HS6 HP6.
  apply twp_bind. eapply vfree_vm_rule; [exact HS6|mem_sub Hmem|exact HP6|]. intros d7 HS7. apply twp_ret, H.
  eapply eq_ind with (P := fun w => St w d7); [exact HS7|]. unfold without_vm, vm_mem. view_eq. mem_eq.
Qed.

(** The last reference to a VM is dropped. *)
Lemma hax_put_vm_last a vv w d x (Q : Z -> driver -> Prop) : St w d -> vm_complete a vv w -> vv_ref vv = 1 -> vv_vcpus vv = [] ->
  w_vm_hosts w !! vv_host vv = Some x -> vm_mem a vv ⊎ vm_host_mem (vv_host vv) x ⊆ w_live w ->
  (forall d', St (View (w_live w ∖ (vm_mem a vv ⊎ vm_host_mem (vv_host vv) x)) (w_next w) (Z.clearbit (w_bits w) (vv_id vv))
      (filter (fun b => b <> a) (w_list w)) (delete a (w_vms w)) (w_vcpus w) (delete (vv_host vv) (w_vm_hosts w))
      (w_vcpu_hosts w) (w_devices w ∖ {[DevVm (vv_id vv)]})) d' -> Q 1 d') ->
  twp t (hax_put_vm a) d Q.
Proof.
  intros HS Hc Hr Hl Hx Hmem H. pose proof (vc_vm _ _ _ Hc) as Ha. apply twp_bind.
  eapply vm_ref_add_rule; [done..|lia|]. intros d1 HS1. rewrite Hr. cbn [Z.eqb Z.add Pos.add Z.pos_sub Z.opp].
  change (1 + -1) with 0 in *. apply twp_bind, twp_bind. eapply upd_driver_rule; [exact HS1|done|done|exact (upd_list (filter (fun b => b <> a)) _ _ HS1)|]. intros HS2.
  set (vv0 := vv_set_ref _ vv) in *. set (w2 := with_list _ _) in HS2. assert (Ha2 : w_vms w2 !! a = Some vv0) by apply with_vm_lookup.
  apply twp_bind. eapply get_vm_rule; [exact HS2|exact Ha2|]. intros o Eo _.
  assert (Eh : vo_vm_host o = vv_host vv0) by (by rewrite Eo). rewrite Eh. clear o Eo Eh.
  assert (Hc2 : vm_complete a vv0 w2) by (destruct Hc; by split).
  apply twp_bind. eapply hax_vm_destroy_host_rule; [exact HS2|exact Hc2|exact Hx|mem_sub Hmem|]. intros d3 HS3.
  apply twp_bind. eapply hax_teardown_vm_rule; [exact HS3|exact Ha2|exact Hl|apply Hc| |].
  { change (vm_mem a vv ⊆ w_live w ∖ vm_host_mem (vv_host vv) x). mem_sub Hmem. }
  intros d4 HS4. apply twp_ret, twp_ret, H. eapply eq_ind with (P := fun w => St w d4); [exact HS4|].
  change (vm_mem a vv0) with (vm_mem a vv). unfold without_vm, w2. view_eq. mem_eq.
Qed.

(** ** The end of a virtual CPU *)
Definition buffer_mem (m : option hax_vcpu_mem) : gmultiset Z :=
  match m with Some m => {[+ vcm_addr m +]} ⊎ ({[+ vcm_hinfo m +]} ⊎ {[+ vcm_pages m +]}) | None => ∅ end.
Definition buffer_ok (m : option hax_vcpu_mem) : Prop :=
  match m with Some m => vcm_uva m <> 0 | None => True end.
Definition vcpu_host_mem (h : Z) (x : hax_vcpu_linux_t) : gmultiset Z :=
  {[+ h +]} ⊎ match ch_dev x with Some (_, n) => {[+ n +]} | None => ∅ end.
(** The CPUID table is freed with the first virtual CPU only. *)
Definition vcpu_pages (cw : vcpu_view) : gmultiset Z :=
  opt_mem (cw_gfx cw) ⊎ (opt_mem (cw_vmcs cw) ⊎ (opt_mem (cw_state cw) ⊎ (opt_mem (cw_mutex cw) ⊎
    (if cw_id cw =? 0 then opt_mem (cw_cpuid cw) else ∅)))).
Definition tunnel_mem (cw : vcpu_view) : gmultiset Z := buffer_mem (cw_tunnel cw) ⊎ buffer_mem (cw_iobuf cw).
Definition vcpu_mem (b : Z) (cw : vcpu_view) : gmultiset Z := {[+ b +]} ⊎ (vcpu_pages cw ⊎ tunnel_mem cw).

Definition cw_set_buffers (m n : option hax_vcpu_mem) (cw : vcpu_view) : vcpu_view :=
  VcpuView (cw_vm cw) (cw_id cw) (cw_vpid cw) (cw_ref cw) (cw_flags cw) (cw_vmcs cw) (cw_gfx cw) (cw_state cw)
    (cw_mutex cw) (cw_cpuid cw) m n (cw_host cw).

Lemma destroy_vcpu_mem_rule m w d (Q : unit -> driver -> Prop) : St w d -> buffer_ok m -> buffer_mem m ⊆ w_live w ->
  (forall d', St (with_mem (w_live w ∖ buffer_mem m) (w_next w) w) d' -> Q tt d') -> twp t (destroy_vcpu_mem m) d Q.
Proof.
  intros HS Hok Hm H. destruct m as [m|].
  - cbn [buffer_ok buffer_mem] in *. apply twp_bind, twp_assert; [by apply negb_true_iff, Z.eqb_neq|].
    apply twp_bind, twp_bind. eapply kfree_at_rule; [exact HS|mem_sub Hm|]. intros d1 HS1.
    eapply kfree_at_rule; [exact HS1|mem_sub Hm|]. intros d2 HS2.
    eapply kfree_at_rule; [exact HS2|mem_sub Hm|]. intros d3 HS3. apply H.
    eapply eq_ind with (P := fun w => St w d3); [exact HS3|]. view_eq; mem_eq.
  - apply twp_ret, H. eapply eq_ind with (P := fun w => St w d); [exact HS|].
    destruct w; unfold with_mem, buffer_mem; wcbn. f_equal. multiset_solver.
Qed.

Definition cw_set_tunnel (m : option hax_vcpu_mem) (cw : vcpu_view) : vcpu_view := cw_set_buffers m (cw_iobuf cw) cw.
Definition cw_set_iobuf (m : option hax_vcpu_mem) (cw : vcpu_view) : vcpu_view := cw_set_buffers (cw_tunnel cw) m cw.
Lemma modify_vcpu_view a f F cw w d (Q : unit -> driver -> Prop) : St w d -> w_vcpus w !! a = Some cw ->
  (forall c, co_vcpu (f c) = co_vcpu c) ->
  (forall c, vcpu_view_of (f c) = F (vcpu_view_of c)) ->
  (forall d', St (with_vcpu a (F cw) w) d' -> Q tt d') -> twp t (modify_vcpu a f) d Q.
Proof. intros HS Ha Hf HF H. eapply modify_vcpu_rule; [done..|]. intros c d' -> HS'. apply H. by rewrite HF in HS'. Qed.
Lemma modify_vm_view a f F vv w d (Q : unit -> driver -> Prop) : St w d -> w_vms w !! a = Some vv ->
  (forall o, vo_vm (f o) = vo_vm o) -> (forall o, vm_view_of (f o) = F (vm_view_of o)) ->
  (forall d', St (with_vm a (F vv) w) d' -> Q tt d') -> twp t (modify_vm a f) d Q.
Proof. intros HS Ha Hf HF H. eapply modify_vm_rule; [done..|]. intros o d' -> HS'. apply H. by rewrite HF in HS'. Qed.

Lemma hax_vcpu_destroy_hax_tunnel_rule b cw w d (Q : Z -> driver -> Prop) : St w d -> w_vcpus w !! b = Some cw ->
  buffer_ok (cw_tunnel cw) -> buffer_ok (cw_iobuf cw) -> tunnel_mem cw ⊆ w_live w ->
  (forall d', St (with_vcpu b (cw_set_buffers None None cw) (with_mem (w_live w ∖ tunnel_mem cw) (w_next w) w)) d' -> Q 0 d') ->
  twp t (hax_vcpu_destroy_hax_tunnel b) d Q.
Proof.
  intros HS Hb Hk1 Hk2 Hm H. unfold tunnel_mem in *. apply twp_bind. eapply get_vcpu_rule; [done..|]. intros c Ec.
  assert (Et : co_tunnel_vcpumem c = cw_tunnel cw) by (by rewrite Ec).
  assert (Ei : co_iobuf_vcpumem c = cw_iobuf cw) by (by rewrite Ec). cbv beta. rewrite Et, Ei.
  apply twp_if.
  - intros [E1%bool_decide_eq_true E2%bool_decide_eq_true]%andb_true_iff. apply twp_ret, H.
    eapply eq_ind with (P := fun w => St w d); [exact HS|]. rewrite E1, E2.
    replace (cw_set_buffers None None cw) with cw by (clear -E1 E2; destruct cw; cbn in E1, E2; unfold cw_set_buffers; cbn; congruence).
    rewrite with_vcpu_id; [|done]. destruct w; unfold with_mem; wcbn. f_equal. cbn [buffer_mem]. multiset_solver.
  - intros _. apply twp_bind. eapply (modify_vcpu_view _ _ (fun x => x)); [exact HS|exact Hb|done|intros; reflexivity|]. intros d1 HS1.
    rewrite with_vcpu_id in HS1 by done.
    apply twp_bind. eapply destroy_vcpu_mem_rule; [exact HS1|exact Hk1|mem_sub Hm|]. intros d2 HS2.
    apply twp_bind. eapply (modify_vcpu_view _ _ (cw_set_tunnel None)); [exact HS2|exact Hb|done|intros; reflexivity|]. intros d3 HS3.
    apply twp_bind. eapply destroy_vcpu_mem_rule; [exact HS3|exact Hk2|wcbn; mem_sub Hm|]. intros d4 HS4.
    apply twp_bind. eapply (modify_vcpu_view _ _ (cw_set_iobuf None)); [exact HS4|apply with_vcpu_lookup|done|intros; reflexivity|].
    intros d5 HS5. apply twp_ret, H. eapply eq_ind with (P := fun w => St w d5); [exact HS5|].
    view_eq; mem_eq.
Qed.

Lemma set_vcpu_host_kept b h cw w d (Q : Z -> driver -> Prop) : St w d -> w_vcpus w !! b = Some cw ->
  cw_host cw <> 0 -> cw_host cw <> h -> (forall r, Q r d) -> twp t (set_vcpu_host b h) d Q.
Proof.
  intros HS Ha H0 Hh H. apply twp_bind. eapply get_vcpu_rule; [done..|]. intros c ->. cbn in H0, Hh. cbv beta.
  destruct (Z.eqb_spec (co_vcpu_host c) 0), (Z.eqb_spec (co_vcpu_host c) h); try done. apply twp_ret, H.
Qed.

(** A virtual CPU whose device exists. *)
Record vcpu_complete (b : Z) (cw : vcpu_view) (w : view) : Prop := {
  cc_vcpu : w_vcpus w !! b = Some cw;
  cc_tunnel : buffer_ok (cw_tunnel cw);
  cc_iobuf : buffer_ok (cw_iobuf cw);
  cc_host0 : cw_host cw <> 0;
  cc_host : exists h i n, w_vcpu_hosts w !! cw_host cw = Some (VcpuLinux b h (cw_id cw) (Some (DevVcpu i (cw_id cw), n)));
}.

Lemma hax_vcpu_destroy_host_rule b cw w d h i n (Q : unit -> driver -> Prop) : St w d -> vcpu_complete b cw w ->
  w_vcpu_hosts w !! cw_host cw = Some (VcpuLinux b h (cw_id cw) (Some (i, n))) ->
  ({[+ cw_host cw +]} ⊎ {[+ n +]}) ⊎ tunnel_mem cw ⊆ w_live w ->
  (forall d', St (with_vcpu_hosts (delete (cw_host cw) (w_vcpu_hosts w)) (with_vcpu b (cw_set_buffers None None cw)
     (with_devices (w_devices w ∖ {[i]})
       (with_mem (w_live w ∖ (({[+ cw_host cw +]} ⊎ {[+ n +]}) ⊎ tunnel_mem cw)) (w_next w) w)))) d' -> Q tt d') ->
  twp t (hax_vcpu_destroy_host (cw_host cw)) d Q.
Proof.
  intros HS [Hcw Ht Hi H0 _] Hx Hmem H.
  apply twp_bind. eapply get_vcpu_linux_rule; [done..|]. apply twp_bind, twp_bind.
  eapply twp_of_option; [done|]. apply twp_bind.
  eapply upd_driver_rule; [exact HS|done|done|exact (upd_devices (fun x => x ∖ {[i]}) _ _ HS)|]. intros HS1.
  eapply kfree_at_rule; [exact HS1|mem_sub Hmem|]. intros d2 HS2.
  apply twp_bind. eapply get_vcpu_linux_rule; [exact HS2|exact Hx|].
  apply twp_bind. eapply hax_vcpu_destroy_hax_tunnel_rule; [exact HS2|exact Hcw|done|done|mem_sub Hmem|]. intros d3 HS3.
  apply twp_bind. eapply set_vcpu_host_kept; [exact HS3|apply with_vcpu_lookup|done|done|]. intros _.
  apply twp_bind. eapply upd_driver_rule; [exact HS3|done|done|exact (upd_vcpu_hosts (delete (cw_host cw)) _ _ HS3)|]. intros HS4.
  eapply kfree_at_rule; [exact HS4|mem_sub Hmem|]. intros d5 HS5. apply H.
  eapply eq_ind with (P := fun w => St w d5); [exact HS5|].
  view_eq; mem_eq.
Qed.

Definition cw_set_vpid (x : Z) (cw : vcpu_view) : vcpu_view :=
  VcpuView (cw_vm cw) (cw_id cw) x (cw_ref cw) (cw_flags cw) (cw_vmcs cw) (cw_gfx cw) (cw_state cw)
    (cw_mutex cw) (cw_cpuid cw) (cw_tunnel cw) (cw_iobuf cw) (cw_host cw).
Definition cw_set_cpuid (x : option Z) (cw : vcpu_view) : vcpu_view :=
  VcpuView (cw_vm cw) (cw_id cw) (cw_vpid cw) (cw_ref cw) (cw_flags cw) (cw_vmcs cw) (cw_gfx cw) (cw_state cw)
    (cw_mutex cw) x (cw_tunnel cw) (cw_iobuf cw) (cw_host cw).

Definition free_vpid_bit (vpid seed : Z) : Z :=
  if vpid =? 0 then seed else Z.clearbit seed (u8 (vpid &! 0xff - 1)).
Lemma vcpu_vpid_free_rule b cw vv w d (Q : Z -> driver -> Prop) : St w d -> w_vcpus w !! b = Some cw ->
  w_vms w !! cw_vm cw = Some vv ->
  (forall r d', St (with_vcpu b (cw_set_vpid 0 cw) (with_vm (cw_vm cw) (vv_set_seed (free_vpid_bit (cw_vpid cw) (vv_seed vv)) vv) w)) d' ->
     Q r d') -> twp t (vcpu_vpid_free b) d Q.
Proof.
  intros HS Hb Hv H. apply twp_bind. eapply get_vcpu_fetch_rule; [done..|]. intros c Ec Hc. cbv zeta.
  assert (Ep : co_vpid c = cw_vpid cw) by (by rewrite Ec). assert (Em : co_vm c = cw_vm cw) by (by rewrite Ec).
  rewrite Ep, Em. unfold free_vpid_bit in H. destruct (Z.eqb_spec (cw_vpid cw) 0) as [E|E].
  - apply twp_ret. eapply H, eq_ind with (P := fun w => St w d); [exact HS|].
    replace (vv_set_seed (vv_seed vv) vv) with vv by (by destruct vv).
    replace (cw_set_vpid 0 cw) with cw by (clear -E; destruct cw; cbn in E; by subst).
    by rewrite with_vm_id, with_vcpu_id.
  - apply twp_bind. eapply (modify_vm_view _ _ (fun v => vv_set_seed (Z.clearbit (vv_seed v) (u8 (cw_vpid cw &! 0xff - 1))) v));
      [exact HS|exact Hv|done|intros; reflexivity|]. intros d1 HS1.
    apply twp_bind. eapply put_vcpu_rule; [exact HS1|exact Hc|]. intros d2 HS2. apply twp_ret. eapply H.
    eapply eq_ind with (P := fun w => St w d2); [exact HS2|].
    replace (vcpu_view_of (set_co_vpid 0 c)) with (cw_set_vpid 0 cw) by (by rewrite Ec). done.
Qed.

Lemma vcpu_free_cpuid_rule b cw w d (Q : unit -> driver -> Prop) : St w d -> w_vcpus w !! b = Some cw ->
  (if cw_id cw =? 0 then opt_mem (cw_cpuid cw) else ∅) ⊆ w_live w ->
  (forall d', St (with_vcpu b (cw_set_cpuid None cw)
     (with_mem (w_live w ∖ (if cw_id cw =? 0 then opt_mem (cw_cpuid cw) else ∅)) (w_next w) w)) d' -> Q tt d') ->
  twp t (vcpu_free_cpuid b) d Q.
Proof.
  intros HS Hb Hm H. apply twp_bind. eapply get_vcpu_fetch_rule; [done..|]. intros c Ec Hc. cbv beta.
  assert (Ei : co_vcpu_id c = cw_id cw) by (by rewrite Ec). assert (Ep : co_guest_cpuid c = cw_cpuid cw) by (by rewrite Ec).
  assert (Ev : vcpu_view_of (set_co_guest_cpuid None c) = cw_set_cpuid None cw) by (by rewrite Ec).
  rewrite Ei, Ep. destruct (Z.eqb_spec (cw_id cw) 0) as [E0|E0]; cbn [negb].
  - destruct (cw_cpuid cw) as [p|] eqn:Ec'; cbn [opt_mem] in *.
    + apply twp_bind. eapply upd_driver_rule; [exact HS|done|done|exact (upd_cpuids _ _ _ HS)|]. intros HS1.
      apply twp_bind. eapply kfree_at_rule; [exact HS1|mem_sub Hm|]. intros d2 HS2.
      eapply put_vcpu_rule; [exact HS2|exact Hc|]. intros d3 HS3. apply H. rewrite Ev in HS3. exact HS3.
    + apply twp_ret, H. eapply eq_ind with (P := fun w => St w d); [exact HS|].
      replace (cw_set_cpuid None cw) with cw by (clear -Ec'; destruct cw; cbn in Ec'; by subst).
      rewrite with_vcpu_id by done. destruct w; unfold with_mem; wcbn. f_equal. multiset_solver.
  - eapply put_vcpu_rule; [exact HS|exact Hc|]. intros d3 HS3. apply H. rewrite Ev in HS3.
    eapply eq_ind with (P := fun w => St w d3); [exact HS3|]. view_eq. by rewrite mem_diff_empty.
Qed.

Lemma vfree_vcpu_rule a w d (Q : unit -> driver -> Prop) : St w d -> {[+ a +]} ⊆ w_live w ->
  (forall d', St (with_vcpus (delete a (w_vcpus w)) (with_mem (w_live w ∖ {[+ a +]}) (w_next w) w)) d' -> Q tt d') ->
  twp t (vfree_vcpu a) d Q.
Proof.
  intros [<- Hs] Ha H. apply twp_bind, twp_modify.
  eapply (kfree_at_rule _ _ _ a (with_vcpus (delete a (w_vcpus (view_of d))) (view_of d))); [|done|exact H].
  split; [unfold view_of, with_vcpus; cbn; by rewrite fmap_delete|]. intros Ht. split; [|apply (Hs Ht)].
  split; [apply (Hs Ht)|]. intros b c. cbn. intros [_ Hb]%lookup_delete_Some. by eapply (proj2 (proj1 (Hs Ht))).
Qed.

Lemma free_vcpu_obj_rule b cw vv w d (Q : Z -> driver -> Prop) : St w d -> w_vcpus w !! b = Some cw ->
  w_vms w !! cw_vm cw = Some vv -> {[+ b +]} ⊎ vcpu_pages cw ⊆ w_live w ->
  (forall d', St (with_vcpus (delete b (w_vcpus w)) (with_mem (w_live w ∖ ({[+ b +]} ⊎ vcpu_pages cw)) (w_next w)
     (with_vm (cw_vm cw) (vv_set_seed (free_vpid_bit (cw_vpid cw) (vv_seed vv)) vv) w))) d' -> Q 0 d') ->
  twp t (free_vcpu_obj b) d Q.
Proof.
  intros HS Hb Hv Hm H. unfold vcpu_pages in *. apply twp_bind. eapply get_vcpu_fetch_rule; [done..|]. intros c Ec Hc. cbv zeta.
  assert (E1 : co_gfxpage c = cw_gfx cw) by (by rewrite Ec). assert (E2 : co_vmcs_page c = cw_vmcs cw) by (by rewrite Ec).
  assert (E3 : co_state c = cw_state cw) by (by rewrite Ec). assert (E4 : co_tmutex c = cw_mutex cw) by (by rewrite Ec).
  assert (E5 : co_vm c = cw_vm cw) by (by rewrite Ec). rewrite E1, E2, E3, E4, E5.
  apply twp_bind. apply (twp_mono _ _ _ (fun _ d' => St w d')).
  { apply twp_if; [by intros _; apply twp_ret|]. intros Hk%bool_decide_eq_false.
    eapply on_vm_rule; [exact HS|exact Hv| |intros; by apply sl_lend|by intros]. intros Ht v. by apply sl_unmap, (Hc Ht). }
  intros _ d1 HS1. apply twp_bind. eapply vcpu_vpid_free_rule; [exact HS1|exact Hb|exact Hv|]. intros _ d2 HS2.
  apply twp_bind. eapply kfree_rule; [exact HS2|mem_sub Hm|]. intros d3 HS3.
  apply twp_bind. eapply kfree_rule; [exact HS3|mem_sub Hm|]. intros d4 HS4.
  apply twp_bind. eapply kfree_rule; [exact HS4|mem_sub Hm|]. intros d5 HS5.
  apply twp_bind. eapply kfree_rule; [exact HS5|mem_sub Hm|]. intros d6 HS6.
  apply twp_bind. eapply vcpu_free_cpuid_rule; [exact HS6|apply lookup_insert_eq| |].
  { change (cw_id (cw_set_vpid 0 cw)) with (cw_id cw). change (cw_cpuid (cw_set_vpid 0 cw)) with (cw_cpuid cw).
    mem_sub Hm. }
  change (cw_id (cw_set_vpid 0 cw)) with (cw_id cw). change (cw_cpuid (cw_set_vpid 0 cw)) with (cw_cpuid cw).
  intros d7 HS7. apply twp_bind. eapply vfree_vcpu_rule; [exact HS7|mem_sub Hm|].
  intros d8 HS8. apply twp_ret, H. eapply eq_ind with (P := fun w => St w d8); [exact HS8|].
  view_eq; mem_eq.
Qed.

Definition list_without (b : Z) (l : list Z) : list Z := filter (fun x => x <> b) l.
Lemma pause_vcpu_rule b cw w d (Q : Z -> driver -> Prop) : St w d -> w_vcpus w !! b = Some cw ->
  (forall r d', St w d' -> Q r d') -> twp t (pause_vcpu b) d Q.
Proof.
  intros HS Hb H. apply twp_bind. eapply get_vcpu_fetch_rule; [done..|]. intros c Ec Hc.
  apply twp_bind. eapply twp_of_option; [reflexivity|]. apply twp_bind.
  eapply put_vcpu_rule; [exact HS|exact Hc|]. intros d' HS'. apply twp_ret. eapply H, eq_ind with (P := fun w => St w d'); [exact HS'|].
  apply with_vcpu_id. rewrite Hb. by rewrite Ec.
Qed.

(** What the end of a virtual CPU leaves for its VM. *)
Definition vm_after (b : Z) (cw : vcpu_view) (vv : vm_view) : vm_view :=
  vv_set_seed (free_vpid_bit (cw_vpid cw) (vv_seed vv)) (vv_set_vcpus (list_without b (vv_vcpus vv)) vv).
Definition without_vcpu (b : Z) (cw : vcpu_view) (vv : vm_view) (i : device) (n : Z) (w : view) : view :=
  View (w_live w ∖ (vcpu_mem b cw ⊎ ({[+ cw_host cw +]} ⊎ {[+ n +]}))) (w_next w) (w_bits w) (w_list w)
    (<[cw_vm cw := vm_after b cw vv]> (w_vms w)) (delete b (w_vcpus w)) (w_vm_hosts w)
    (delete (cw_host cw) (w_vcpu_hosts w)) (w_devices w ∖ {[i]}).

Lemma hax_put_vcpu_last b cw vv w d h i n (Q : Z -> driver -> Prop) : St w d -> vcpu_complete b cw w ->
  w_vms w !! cw_vm cw = Some vv -> cw_ref cw = 1 ->
  w_vcpu_hosts w !! cw_host cw = Some (VcpuLinux b h (cw_id cw) (Some (i, n))) ->
  vcpu_mem b cw ⊎ ({[+ cw_host cw +]} ⊎ {[+ n +]}) ⊆ w_live w ->
  (forall d', St (without_vcpu b cw vv i n w) d' -> twp t (hax_put_vm (cw_vm cw)) d' (fun _ d'' => Q 1 d'')) ->
  twp t (hax_put_vcpu b) d Q.
Proof.
  intros HS Hc Hv Hr Hx Hmem H. pose proof (cc_vcpu _ _ _ Hc) as Hb. unfold vcpu_mem in *.
  apply twp_bind. eapply vcpu_ref_add_rule; [exact HS|exact Hb|lia|]. rewrite Hr.
  intros d1 HS1. set (cw0 := cw_set_ref _ cw) in HS1. cbn [Z.eqb Pos.eqb].
  assert (Hb1 : w_vcpus (with_vcpu b cw0 w) !! b = Some cw0) by apply with_vcpu_lookup.
  apply twp_bind, twp_bind. eapply pause_vcpu_rule; [exact HS1|exact Hb1|]. intros _ d2 HS2.
  apply twp_bind. eapply get_vcpu_rule; [exact HS2|exact Hb1|]. intros c Ec.
  assert (Eh : co_vcpu_host c = cw_host cw) by (by apply (f_equal cw_host) in Ec). rewrite Eh. clear c Ec Eh.
  assert (Hc1 : vcpu_complete b cw0 (with_vcpu b cw0 w)) by (destruct Hc; by split).
  apply twp_bind. eapply (hax_vcpu_destroy_host_rule b cw0); [exact HS2|exact Hc1|exact Hx| |].
  { change (tunnel_mem cw0) with (tunnel_mem cw). change (cw_host cw0) with (cw_host cw). mem_sub Hmem. }
  change (tunnel_mem cw0) with (tunnel_mem cw). change (cw_host cw0) with (cw_host cw). intros d3 HS3.
  set (cw1 := cw_set_buffers None None cw0) in HS3. apply twp_bind. unfold vcpu_teardown.
  apply twp_bind. eapply get_vcpu_rule; [exact HS3|apply lookup_insert_eq|]. intros c Ec.
  assert (Em : co_vm c = cw_vm cw) by (by apply (f_equal cw_vm) in Ec). rewrite Em. clear c Ec Em.
  apply twp_bind. eapply (modify_vm_view _ _ (fun v => vv_set_vcpus (list_without b (vv_vcpus v)) v));
    [exact HS3|exact Hv|done|intros; reflexivity|]. intros d4 HS4.
  apply twp_bind. eapply (free_vcpu_obj_rule b cw1); [exact HS4|apply lookup_insert_eq|apply lookup_insert_eq| |].
  { change (vcpu_pages cw1) with (vcpu_pages cw). mem_sub Hmem. }
  change (vcpu_pages cw1) with (vcpu_pages cw). change (cw_vm cw1) with (cw_vm cw). intros d5 HS5.
  apply twp_bind. eapply twp_mono; [apply H|].
  - eapply eq_ind with (P := fun w => St w d5); [exact HS5|]. unfold without_vcpu, vm_after, vcpu_mem.
    view_eq; mem_eq.
  - intros r d6 HQ. by apply twp_ret, twp_ret, twp_ret.
Qed.
Lemma hax_put_vcpu_keep b cw w d (Q : Z -> driver -> Prop) : St w d -> w_vcpus w !! b = Some cw -> 1 < cw_ref cw < 2 ^ 31 ->
  (forall d', St (with_vcpu b (cw_set_ref (cw_ref cw - 1) cw) w) d' -> Q (cw_ref cw) d') -> twp t (hax_put_vcpu b) d Q.
Proof.
  intros HS Ha Hr H. apply twp_bind. eapply vcpu_ref_add_rule; [done..|lia|]. intros d' HS'.
  destruct (Z.eqb_spec (cw_ref cw) 1); [lia|]. apply twp_bind, twp_ret, twp_ret. by apply H.
Qed.
End Destroy.
