(* ===== verification/VmCreate.v ===== *)
(** * New VMs and virtual CPUs

    The statements of this file are about what has happened when a call returns.  [Mk N X w d]:
    the view of [d] is [w] up to its memory, where everything in [X] is allocated and no address
    from [N] on has been handed out yet. *)

From stdpp Require Import base numbers list gmap gmultiset.
From Stdlib Require Import ZArith Lia.
From S2P Require Import IntrExc Prelude MemTypes Memslot GpaSpace PageWalker Mmio.
From S2P Require Import EmTypes Emulate EptTree Ept2 VmMemory VcpuEmu Cpuid Vmx VcpuState VcpuCr.
From S2P Require Import VcpuMsr VcpuExit VcpuSync VcpuIo VcpuHost VcpuRun HostHeap HaxInit VcpuInit VmLife VmIoctl VmGraph.
#[local] Open Scope Z_scope.

(** Sums in another order, of fewer parts. *)
Ltac msets := repeat match goal with
  | |- context [{[+ ?x +]} : gmultiset Z] => let y := fresh "m" in set (y := {[+ x +]} : gmultiset Z); clearbody y
  end; clear; multiset_solver.

Section Make.
Context {HH : Host} {PH : PhysHost} {VH : VmxHw} {AH : AllocHost} {LH : LinuxHost} {UC : UserCopy}.
Context (space_ok : vm_t -> Prop) {SL : SpaceLaws space_ok}.
#[local] Notation St := (St space_ok false []).
#[local] Notation twp := (twp false).
Implicit Types (d : driver) (w : view) (X : gmultiset Z) (N : Z).

Definition Mk N X w d : Prop := exists l n, St (with_mem l n w) d /\ X ⊆ l /\ N <= n.
Lemma Mk_weaken N X N' X' w d : Mk N X w d -> X' ⊆ X -> N' <= N -> Mk N' X' w d.
Proof. intros (l & n & HS & HX & HN) HX' HN'. exists l, n. split_and!; [done|by etrans|lia]. Qed.
Lemma Mk_intro w d : St w d -> Mk (w_next w) (w_live w) w d.
Proof. intros HS. exists (w_live w), (w_next w). split_and!; [by destruct w|done|done]. Qed.
Lemma Mk_view N X w w' d : Mk N X w d -> with_mem ∅ 0 w = with_mem ∅ 0 w' -> Mk N X w' d.
Proof.
  intros (l & n & HS & HX & HN) E. exists l, n. split_and!; [|done|done].
  replace (with_mem l n w') with (with_mem l n w); [done|]. destruct w, w'. unfold with_mem in *. cbn in *. by injection E as -> -> -> -> -> -> ->.
Qed.

Lemma Mk_kalloc k N X w d (Q : option Z -> driver -> Prop) : Mk N X w d ->
  (forall p d', N <= p -> Mk (p + 1) ({[+ p +]} ⊎ X) w d' -> Q (Some p) d') ->
  (forall d', Mk N X w d' -> Q None d') -> twp (kalloc k) d Q.
Proof.
  intros (l & n & HS & HX & HN) H1 H2. eapply kalloc_rule; [exact HS| |].
  - intros d' HS'. apply H1; [exact HN|]. exists ({[+ w_next (with_mem l n w) +]} ⊎ l), (n + 1). split_and!; [exact HS'|multiset_solver|wcbn; lia].
  - intros d' HS'. apply H2. by exists l, n.
Qed.
Lemma kfree_at_partial a w d (Q : unit -> driver -> Prop) : St w d ->
  (forall d', St (with_mem (w_live w ∖ {[+ a +]}) (w_next w) w) d' -> Q tt d') -> twp (kfree_at a) d Q.
Proof.
  intros HS H. destruct (decide (a ∈ w_live w)) as [Ha|Ha].
  - eapply kfree_at_rule; [exact HS|by apply gmultiset_singleton_subseteq_l|exact H].
  - unfold VmGraph.twp, kfree_at, on_heap, heap_free, get, mbind, M_bind. destruct HS as [<- _]. cbn in Ha.
    by rewrite (bool_decide_eq_false_2 _ Ha).
Qed.
Lemma Mk_kfree_at a N X w d (Q : unit -> driver -> Prop) : Mk N ({[+ a +]} ⊎ X) w d ->
  (forall d', Mk N X w d' -> Q tt d') -> twp (kfree_at a) d Q.
Proof.
  intros (l & n & HS & HX & HN) H. eapply kfree_at_partial; [exact HS|]. intros d' HS'. apply H.
  eexists _, _. split_and!; [exact HS'|wcbn; by apply mem_sub_diff|done].
Qed.
Lemma Mk_kfree x N X w d (Q : unit -> driver -> Prop) : Mk N (opt_mem x ⊎ X) w d ->
  (forall d', Mk N X w d' -> Q tt d') -> twp (kfree x) d Q.
Proof.
  intros HM H. destruct x as [a|]; [by eapply Mk_kfree_at|]. apply twp_ret, H. eapply Mk_weaken; [exact HM| |lia].
  cbn [opt_mem]. msets.
Qed.
Lemma Mk_service {A} (f : hstate -> A * hstate) N X w d (Q : A -> driver -> Prop) : Mk N X w d ->
  (forall a d', Mk N X w d' -> Q a d') -> twp (host_service f) d Q.
Proof. intros (l & n & HS & HX & HN) H. eapply host_service_rule; [exact HS|]. intros a d' HS'. apply H. by exists l, n. Qed.

Lemma Mk_upd N X w w' d f (Q : unit -> driver -> Prop) : Mk N X w d ->
  (forall l n, St (with_mem l n w) d -> view_of (f d) = with_mem l n w') ->
  (Mk N X w' (f d) -> Q tt (f d)) -> twp (modify f) d Q.
Proof. intros (l & n & HS & HX & HN) Hf H. apply twp_modify, H. exists l, n. split_and!; [|done|done]. split; [by apply Hf|done]. Qed.

Lemma Mk_get_vm a vv N X w d (Q : vm_obj -> driver -> Prop) : Mk N X w d -> w_vms w !! a = Some vv ->
  (forall o, vv = vm_view_of o -> Q o d) -> twp (get_vm a) d Q.
Proof. intros (l & n & HS & HX & HN) Ha H. eapply get_vm_rule; [exact HS|exact Ha|]. intros o Eo _. by apply H. Qed.
Lemma Mk_put_vm a o N X w d (Q : unit -> driver -> Prop) : Mk N X w d ->
  (forall d', Mk N X (with_vm a (vm_view_of o) w) d' -> Q tt d') -> twp (put_vm a o) d Q.
Proof.
  intros (l & n & HS & HX & HN) H. eapply put_vm_rule; [exact HS|done|]. intros d' HS'. apply H. by exists l, n.
Qed.
Lemma Mk_modify_vm a f F vv N X w d (Q : unit -> driver -> Prop) : Mk N X w d -> w_vms w !! a = Some vv ->
  (forall o, vm_view_of (f o) = F (vm_view_of o)) ->
  (forall d', Mk N X (with_vm a (F vv) w) d' -> Q tt d') -> twp (modify_vm a f) d Q.
Proof.
  intros HM Ha HF H. apply twp_bind. eapply Mk_get_vm; [exact HM|exact Ha|]. intros o ->.
  eapply Mk_put_vm; [exact HM|]. intros d'. rewrite HF. apply H.
Qed.
Lemma Mk_get_vcpu b cw N X w d (Q : vcpu_obj -> driver -> Prop) : Mk N X w d -> w_vcpus w !! b = Some cw ->
  (forall c, cw = vcpu_view_of c -> Q c d) -> twp (get_vcpu b) d Q.
Proof. intros (l & n & HS & HX & HN) Ha H. eapply get_vcpu_rule; [exact HS|exact Ha|exact H]. Qed.
Lemma Mk_put_vcpu b c N X w d (Q : unit -> driver -> Prop) : Mk N X w d ->
  (forall d', Mk N X (with_vcpu b (vcpu_view_of c) w) d' -> Q tt d') -> twp (put_vcpu b c) d Q.
Proof.
  intros (l & n & HS & HX & HN) H. eapply put_vcpu_rule; [exact HS|done|]. intros d' HS'. apply H. by exists l, n.
Qed.
Lemma Mk_modify_vcpu b f F cw N X w d (Q : unit -> driver -> Prop) : Mk N X w d -> w_vcpus w !! b = Some cw ->
  (forall c, vcpu_view_of (f c) = F (vcpu_view_of c)) ->
  (forall d', Mk N X (with_vcpu b (F cw) w) d' -> Q tt d') -> twp (modify_vcpu b f) d Q.
Proof.
  intros HM Hb HF H. apply twp_bind. eapply Mk_get_vcpu; [exact HM|exact Hb|]. intros c ->.
  eapply Mk_put_vcpu; [exact HM|]. intros d'. rewrite HF. apply H.
Qed.

(** What runs on an address space or on a virtual CPU leaves the objects as they are. *)
Lemma on_vm_partial {A} a (m : M vm_t A) w d (Q : A -> driver -> Prop) : St w d ->
  (forall r d', St w d' -> Q r d') -> twp (on_vm a m) d Q.
Proof.
  intros HS H. destruct (w_vms w !! a) as [vv|] eqn:Ha.
  - unfold on_vm. apply twp_bind. eapply get_vm_rule; [exact HS|exact Ha|]. intros o Eo _. apply twp_bind, twp_get, twp_bind.
    apply twp_option_partial. intros r _. apply twp_bind, twp_modify, twp_bind.
    assert (HS1 : St w (return_vm r.2 d)) by (destruct HS as [<- _]; split; done).
    eapply put_vm_rule; [exact HS1|done|]. intros d2 HS2. apply twp_ret, H.
    eapply eq_ind with (P := fun w => St w d2); [exact HS2|]. subst vv. exact (with_vm_id a (vm_view_of o) w Ha).
  - unfold VmGraph.twp, on_vm, get_vm, get, of_option, mbind, M_bind. destruct HS as [<- _]. cbn in Ha. rewrite lookup_fmap in Ha.
    by destruct (dv_vms d !! a).
Qed.
Lemma on_vcpu_partial {A} b (m : M vcpu A) w d (Q : A -> driver -> Prop) : St w d ->
  (forall r d', St w d' -> Q r d') -> twp (on_vcpu b m) d Q.
Proof.
  intros HS H. destruct (w_vcpus w !! b) as [cw|] eqn:Hb.
  - unfold on_vcpu. apply twp_bind. eapply get_vcpu_rule; [exact HS|exact Hb|]. intros c Ec.
    apply twp_bind. destruct (w_vms w !! co_vm c) as [vv|] eqn:Ha.
    2: { unfold VmGraph.twp, get_vm, get, of_option, mbind, M_bind. destruct HS as [<- _]. cbn in Ha. rewrite lookup_fmap in Ha.
         by destruct (dv_vms d !! co_vm c). }
    eapply get_vm_rule; [exact HS|exact Ha|]. intros o Eo _. apply twp_bind.
    apply (twp_mono _ _ _ (fun _ d' => d' = d)).
    { destruct (co_guest_cpuid c) as [p|]; [|by apply twp_ret]. apply twp_bind, twp_get, twp_bind, twp_option_partial.
      intros x _. by apply twp_ret. }
    intros table d0 ->. apply twp_bind, twp_get, twp_bind, twp_option_partial. intros r _. cbv zeta.
    apply twp_bind, twp_modify, twp_bind. set (vm := set_space _ _).
    assert (HS1 : St w (return_vcpu r.2 (return_vm vm d))) by (destruct HS as [<- _]; split; done).
    eapply put_vm_rule; [exact HS1|done|]. intros d2 HS2.
    assert (HS2' : St w d2).
    { eapply eq_ind with (P := fun w => St w d2); [exact HS2|]. subst vv. exact (with_vm_id (co_vm c) (vm_view_of o) w Ha). }
    apply twp_bind. apply (twp_mono _ _ _ (fun _ d' => St w d')).
    { unfold put_table. destruct (co_guest_cpuid c) as [p|], (cv_cpuid r.2) as [x|]; try by apply twp_ret.
      apply twp_modify. destruct HS2' as [<- _]. by split. }
    intros _ d3 HS3. apply twp_bind. eapply put_vcpu_rule; [exact HS3|done|]. intros d4 HS4. apply twp_ret, H.
    eapply eq_ind with (P := fun w => St w d4); [exact HS4|]. subst cw. exact (with_vcpu_id b (vcpu_view_of c) w Hb).
  - unfold VmGraph.twp, on_vcpu, get_vcpu, get, of_option, mbind, M_bind. destruct HS as [<- _]. cbn in Hb. rewrite lookup_fmap in Hb.
    by destruct (dv_vcpus d !! b).
Qed.
Lemma Mk_on_vm {A} a (m : M vm_t A) N X w d (Q : A -> driver -> Prop) : Mk N X w d ->
  (forall r d', Mk N X w d' -> Q r d') -> twp (on_vm a m) d Q.
Proof. intros (l & n & HS & HX & HN) H. eapply on_vm_partial; [exact HS|]. intros r d' HS'. apply H. by exists l, n. Qed.
Lemma Mk_on_vcpu {A} b (m : M vcpu A) N X w d (Q : A -> driver -> Prop) : Mk N X w d ->
  (forall r d', Mk N X w d' -> Q r d') -> twp (on_vcpu b m) d Q.
Proof. intros (l & n & HS & HX & HN) H. eapply on_vcpu_partial; [exact HS|]. intros r d' HS'. apply H. by exists l, n. Qed.

(** ** Devices *)
Lemma Mk_misc_register dev N X w d (Q : Z -> driver -> Prop) : Mk N X w d ->
  (forall d', dev ∉ w_devices w -> Mk N X (with_devices ({[dev]} ∪ w_devices w) w) d' -> Q 0 d') ->
  (forall r d', r <> 0 -> Mk N X w d' -> Q r d') -> twp (misc_register dev) d Q.
Proof.
  intros HM H1 H2. apply twp_bind, twp_get. pose proof HM as (l & n & [Ew _] & _).
  assert (Ed : dv_devices d = w_devices w) by (by apply (f_equal w_devices) in Ew). rewrite Ed.
  apply twp_if; intros E; [by apply twp_ret, H2|]. apply bool_decide_eq_false in E.
  apply twp_bind. eapply Mk_service; [exact HM|]. intros r d1 HM1. destruct (Z.eqb_spec r 0) as [->|Hr].
  - apply twp_bind. eapply Mk_upd; [exact HM1| |intros HM2; apply twp_ret, H1; [exact E|exact HM2]]. intros l' n' HS. exact (upd_devices _ _ _ (fun x => {[dev]} ∪ x) _ _ HS).
  - by apply twp_ret, H2.
Qed.

Lemma Mk_get_vm_linux h x N X w d (Q : hax_vm_linux_t -> driver -> Prop) : Mk N X w d -> w_vm_hosts w !! h = Some x ->
  Q x d -> twp (get_vm_linux h) d Q.
Proof. intros (l & n & HS & _) Hx HQ. by eapply get_vm_linux_rule. Qed.
Lemma Mk_put_vm_linux h x N X w d (Q : unit -> driver -> Prop) : Mk N X w d ->
  (forall d', Mk N X (with_vm_hosts (<[h := x]> (w_vm_hosts w)) w) d' -> Q tt d') -> twp (put_vm_linux h x) d Q.
Proof. intros HM H. eapply Mk_upd; [exact HM| |apply H]. intros l n HS. exact (upd_vm_hosts _ _ _ (insert h x) _ _ HS). Qed.
Lemma Mk_get_vcpu_linux h x N X w d (Q : hax_vcpu_linux_t -> driver -> Prop) : Mk N X w d -> w_vcpu_hosts w !! h = Some x ->
  Q x d -> twp (get_vcpu_linux h) d Q.
Proof. intros (l & n & HS & _) Hx HQ. by eapply get_vcpu_linux_rule. Qed.
Lemma Mk_put_vcpu_linux h x N X w d (Q : unit -> driver -> Prop) : Mk N X w d ->
  (forall d', Mk N X (with_vcpu_hosts (<[h := x]> (w_vcpu_hosts w)) w) d' -> Q tt d') -> twp (put_vcpu_linux h x) d Q.
Proof. intros HM H. eapply Mk_upd; [exact HM| |apply H]. intros l n HS. exact (upd_vcpu_hosts _ _ _ (insert h x) _ _ HS). Qed.

(** The record of the host is set, or it has a value already. *)
Definition vv_set_host (x : Z) (vv : vm_view) : vm_view :=
  VmView (vv_ref vv) (vv_flags vv) (vv_id vv) (vv_seed vv) (vv_vcpus vv) x (vv_lock vv) (vv_ept_lock vv)
    (vv_p2m vv) (vv_ram vv) (vv_mems vv).
Definition cw_set_host (x : Z) (cw : vcpu_view) : vcpu_view :=
  VcpuView (cw_vm cw) (cw_id cw) (cw_vpid cw) (cw_ref cw) (cw_flags cw) (cw_vmcs cw) (cw_gfx cw) (cw_state cw)
    (cw_mutex cw) (cw_cpuid cw) (cw_tunnel cw) (cw_iobuf cw) x.
Lemma Mk_set_vm_host a h vv N X w d (Q : Z -> driver -> Prop) : Mk N X w d -> w_vms w !! a = Some vv ->
  vv_host vv = 0 \/ vv_host vv = h -> (forall d', Mk N X (with_vm a (vv_set_host h vv) w) d' -> Q 0 d') ->
  twp (set_vm_host a h) d Q.
Proof.
  intros HM Ha Hh H. apply twp_bind. eapply Mk_get_vm; [exact HM|exact Ha|]. intros o ->. cbv beta. cbn in Hh.
  destruct (Z.eqb_spec (vo_vm_host o) 0), (Z.eqb_spec (vo_vm_host o) h); try lia; cbn [negb andb];
    apply twp_bind; (eapply Mk_put_vm; [exact HM|]); intros d' HM'; apply twp_ret, H, HM'.
Qed.
Lemma Mk_set_vm_host_kept a h vv N X w d (Q : Z -> driver -> Prop) : Mk N X w d -> w_vms w !! a = Some vv ->
  vv_host vv <> 0 -> vv_host vv <> h -> (forall r, Q r d) -> twp (set_vm_host a h) d Q.
Proof. intros (l & n & HS & _) Ha H0 Hh H. by eapply set_vm_host_kept. Qed.
Lemma Mk_set_vcpu_host a h cw N X w d (Q : Z -> driver -> Prop) : Mk N X w d -> w_vcpus w !! a = Some cw ->
  cw_host cw = 0 \/ cw_host cw = h -> (forall d', Mk N X (with_vcpu a (cw_set_host h cw) w) d' -> Q 0 d') ->
  twp (set_vcpu_host a h) d Q.
Proof.
  intros HM Ha Hh H. apply twp_bind. eapply Mk_get_vcpu; [exact HM|exact Ha|]. intros o ->. cbv beta. cbn in Hh.
  destruct (Z.eqb_spec (co_vcpu_host o) 0), (Z.eqb_spec (co_vcpu_host o) h); try lia; cbn [negb andb];
    apply twp_bind; (eapply Mk_put_vcpu; [exact HM|]); intros d' HM'; apply twp_ret, H, HM'.
Qed.
Lemma Mk_set_vcpu_host_kept a h cw N X w d (Q : Z -> driver -> Prop) : Mk N X w d -> w_vcpus w !! a = Some cw ->
  cw_host cw <> 0 -> cw_host cw <> h -> (forall r, Q r d) -> twp (set_vcpu_host a h) d Q.
Proof. intros (l & n & HS & _) Ha H0 Hh H. by eapply set_vcpu_host_kept. Qed.

Lemma Mk_vm_free_all_ram a vv N X w d (Q : Z -> driver -> Prop) : Mk N X w d -> w_vms w !! a = Some vv ->
  vv_mems vv = [] -> vv_ram vv = None -> (forall r d', Mk N X w d' -> Q r d') -> twp (hax_vm_free_all_ram a) d Q.
Proof.
  intros (l & n & HS & HX & HN) Ha Hm Hr H. eapply hax_vm_free_all_ram_rule; [exact HS|exact Ha|done|done|].
  intros r d' HS'. apply H. by exists l, n.
Qed.

Definition new_vm_device (a h m : Z) (vv : vm_view) (w : view) : view :=
  with_devices ({[DevVm (vv_id vv)]} ∪ w_devices w)
    (with_vm_hosts (<[h := VmLinux a (vv_id vv) (Some (DevVm (vv_id vv), m))]> (w_vm_hosts w)) (with_vm a (vv_set_host h vv) w)).
Lemma Mk_vm_create_host a vv N X w d (Q : Z -> driver -> Prop) : Mk N X w d -> w_vms w !! a = Some vv ->
  vv_host vv = 0 -> vv_mems vv = [] -> vv_ram vv = None -> 0 < N -> (forall h, N <= h -> w_vm_hosts w !! h = None) ->
  (forall h m N' d', N <= h < N' -> N <= m < N' -> DevVm (vv_id vv) ∉ w_devices w ->
     Mk N' ({[+ h +]} ⊎ ({[+ m +]} ⊎ X)) (new_vm_device a h m vv w) d' -> Q 0 d') ->
  (forall h d', Mk N X (with_vm a (vv_set_host h vv) w) d' -> Q (-1) d') -> twp (hax_vm_create_host a (vv_id vv)) d Q.
Proof.
  intros HM Ha H0 Hm Hram HN Hfresh H1 H2.
  assert (Hsame : vv_set_host 0 vv = vv) by (destruct vv; cbn in H0; by subst).
  apply twp_bind, twp_bind. eapply Mk_kalloc; [exact HM| |].
  2: { intros d1 HM1. apply twp_ret. eapply (H2 0). rewrite Hsame. eapply Mk_view; [exact HM1|]. by rewrite with_vm_id. }
  intros h d1 Hh HM1. apply twp_bind. eapply Mk_put_vm_linux; [exact HM1|]. intros d2 HM2.
  apply twp_bind. eapply Mk_set_vm_host; [exact HM2|exact Ha|by left|]. intros d3 HM3. apply twp_ret.
  apply twp_bind. eapply Mk_kalloc; [exact HM3| |].
  2: { intros d4 _. apply twp_bind. done. }
  intros m d4 Hm4 HM4. apply twp_bind. eapply twp_of_option; [done|]. apply twp_bind.
  eapply Mk_put_vm_linux; [exact HM4|]. intros d5 HM5. apply twp_bind. eapply Mk_misc_register; [exact HM5| |].
  - intros d6 Hdev HM6. cbn [Z.eqb negb]. apply twp_ret. eapply (H1 h m (m + 1)); [lia|lia|exact Hdev|].
    eapply Mk_weaken; [eapply Mk_view; [exact HM6|]|msets|lia]. unfold new_vm_device. view_eq.
  - intros r d6 Hr HM6. destruct (Z.eqb_spec r 0); [done|]. cbn [negb]. apply twp_bind. unfold hax_vm_destroy_linux.
    apply twp_bind. eapply Mk_get_vm_linux; [exact HM6|apply lookup_insert_eq|]. cbn [vh_cvm].
    apply twp_bind. eapply Mk_set_vm_host_kept; [exact HM6|apply with_vm_lookup|cbn; lia|cbn; lia|]. intros _.
    apply twp_bind. eapply Mk_vm_free_all_ram; [exact HM6|apply with_vm_lookup|exact Hm|exact Hram|]. intros _ d7 HM7.
    apply twp_bind. eapply (Mk_upd _ _ _ (with_vm_hosts (w_vm_hosts w) (with_vm a (vv_set_host h vv) w))); [exact HM7| |].
    + intros l7 n7 HS7. rewrite (upd_vm_hosts _ _ _ (delete h) _ _ HS7). view_eq. apply delete_id, Hfresh. lia.
    + intros HM8. eapply (Mk_kfree_at h); [eapply Mk_weaken; [exact HM8| |reflexivity]|].
      { instantiate (1 := X). msets. }
      intros d8 HM9. apply twp_ret. eapply H2. eapply Mk_weaken; [eapply Mk_view; [exact HM9|]|done|lia]. view_eq.
Qed.

(** ** hax_create_vm *)
Lemma Mk_vfree_vm a N X w d (Q : unit -> driver -> Prop) : Mk N ({[+ a +]} ⊎ X) w d ->
  (forall d', Mk N X (with_vms (delete a (w_vms w)) w) d' -> Q tt d') -> twp (vfree_vm a) d Q.
Proof.
  intros HM H. apply twp_bind. eapply (Mk_upd _ _ _ (with_vms (delete a (w_vms w)) w)); [exact HM| |].
  - intros l n [E _]. destruct w. unfold view_of, with_mem in *. cbn in *. injection E as -> -> -> -> <- -> -> -> ->.
    unfold with_vms. cbn. by rewrite fmap_delete.
  - intros HM1. eapply Mk_kfree_at; [exact HM1|exact H].
Qed.

Lemma setbit_id x i : 0 <= i -> Z.testbit x i = true -> Z.setbit x i = x.
Proof.
  intros Hi E. apply Z.bits_inj'. intros j Hj. destruct (decide (i = j)) as [<-|Hne].
  - by rewrite Z.setbit_eq, E.
  - by rewrite Z.setbit_neq.
Qed.
Lemma clear_setbit x i : 0 <= i -> Z.testbit x i = false -> Z.clearbit (Z.setbit x i) i = x.
Proof.
  intros Hi E. apply Z.bits_inj'. intros j Hj. destruct (decide (i = j)) as [<-|Hne].
  - by rewrite Z.clearbit_eq, E.
  - by rewrite Z.clearbit_neq, Z.setbit_neq by lia.
Qed.
(** The lowest number that is free. *)
Lemma get_free_vm_mid_rule i n w d (Q : Z -> driver -> Prop) : St w d -> 0 <= i ->
  (forall j d', i <= j < i + Z.of_nat n -> Z.testbit (w_bits w) j = false ->
     St (with_bits (Z.setbit (w_bits w) j) w) d' -> Q j d') ->
  (forall d', St w d' -> Q (-1) d') -> twp (get_free_vm_mid_from i n) d Q.
Proof.
  revert i d. induction n as [|n IH]; intros i d HS Hi H1 H2; [by apply twp_ret, H2|].
  apply twp_bind, twp_get. unfold test_and_set_bit. cbv zeta.
  assert (Eb : dv_vm_mid_bits d = w_bits w) by (destruct HS as [<- _]; done). rewrite Eb.
  apply twp_bind, twp_modify.
  assert (HS1 : St (with_bits (Z.setbit (w_bits w) i) w) (set_dv_vm_mid_bits (Z.setbit (w_bits w) i) d))
    by (destruct HS as [<- _]; by split).
  destruct (Z.testbit (w_bits w) i) eqn:E; cbn [negb].
  - rewrite setbit_id in HS1 by done. rewrite setbit_id by done.
    replace (with_bits (w_bits w) w) with w in HS1 by (by destruct w).
    apply IH; [exact HS1|lia| |exact H2]. intros j d' Hj. apply H1. lia.
  - apply twp_ret, H1; [lia|done|exact HS1].
Qed.
Lemma Mk_put_mid i x N X w d (Q : unit -> driver -> Prop) : Mk N X (with_bits (Z.setbit x i) w) d -> 0 <= i -> Z.testbit x i = false ->
  (forall d', Mk N X (with_bits x w) d' -> Q tt d') -> twp (hax_put_vm_mid i) d Q.
Proof.
  intros HM Hi E H. eapply (Mk_upd _ _ _ (with_bits x w)); [exact HM| |apply H].
  intros l n HS. pose proof (upd_bits _ _ _ (fun y => Z.clearbit y i) _ _ HS) as E1. cbv beta in E1.
  etrans; [exact E1|]. view_eq. by apply clear_setbit.
Qed.

Definition vv_set_lock (x : option Z) (vv : vm_view) : vm_view :=
  VmView (vv_ref vv) (vv_flags vv) (vv_id vv) (vv_seed vv) (vv_vcpus vv) (vv_host vv) x (vv_ept_lock vv)
    (vv_p2m vv) (vv_ram vv) (vv_mems vv).
Definition vv_set_ept (x : option Z) (vv : vm_view) : vm_view :=
  VmView (vv_ref vv) (vv_flags vv) (vv_id vv) (vv_seed vv) (vv_vcpus vv) (vv_host vv) (vv_lock vv) x
    (vv_p2m vv) (vv_ram vv) (vv_mems vv).
Lemma Mk_init_ept_tree a vv N X w d (Q : Z -> driver -> Prop) : Mk N X w d -> w_vms w !! a = Some vv ->
  (forall e N' d', N <= N' -> Mk N' (opt_mem e ⊎ X) (with_vm a (vv_set_ept e vv) w) d' -> Q 0 d') ->
  (forall ret e d', ret <> 0 -> Mk N X (with_vm a (vv_set_ept e vv) w) d' -> Q ret d') -> twp (init_ept_tree a) d Q.
Proof.
  intros HM Ha H1 H2.
  assert (Hrest : forall lock N' d', N <= N' -> Mk N' (opt_mem lock ⊎ X) w d' ->
    twp (modify_vm a (set_vo_ept_lock lock);;
      ret ← on_vm a (on_space (on_tree (ept_tree_init (bool_decide (is_Some lock)))));
      if (negb (ret =? 0) && bool_decide (is_Some lock))%bool then kfree lock;; mret ret else mret ret) d' Q).
  { intros lock N' d' HN HM'. apply twp_bind. eapply (Mk_modify_vm _ _ (vv_set_ept lock)); [exact HM'|exact Ha|intros; reflexivity|].
    intros d1 HM1. apply twp_bind. eapply Mk_on_vm; [exact HM1|]. intros ret d2 HM2. destruct (Z.eqb_spec ret 0) as [->|Hr]; cbn [negb andb].
    - apply twp_ret. by eapply H1.
    - apply twp_if; intros E.
      + apply twp_bind. eapply Mk_kfree; [exact HM2|]. intros d3 HM3. apply twp_ret. eapply H2; [done|]. by eapply Mk_weaken.
      + apply twp_ret. eapply H2; [done|]. eapply Mk_weaken; [exact HM2|msets|done]. }
  apply twp_bind. eapply Mk_kalloc; [exact HM| |].
  - intros p d1 Hp HM1. eapply (Hrest (Some p)); [|exact HM1]. lia.
  - intros d1 HM1. eapply (Hrest None); [reflexivity|]. eapply Mk_weaken; [exact HM1|cbn [opt_mem]; msets|lia].
Qed.

(** A new VM. *)
Definition blank_vm (i : Z) : vm_view := VmView 0 0 i 0 [] 0 None None (replicate (Z.to_nat MAX_GMEM_G) None) None [].
Definition fresh_vm (i h lock : Z) (e : option Z) : vm_view :=
  VmView 1 0 i 0 [] h (Some lock) e (replicate (Z.to_nat MAX_GMEM_G) None) None [].
Definition add_vm (a h m i lock : Z) (e : option Z) (w : view) : view :=
  View (w_live w) (w_next w) (Z.setbit (w_bits w) i) (a :: w_list w) (<[a := fresh_vm i h lock e]> (w_vms w)) (w_vcpus w)
    (<[h := VmLinux a i (Some (DevVm i, m))]> (w_vm_hosts w)) (w_vcpu_hosts w) ({[DevVm i]} ∪ w_devices w).
Definition added_vm (w : view) (a i : Z) d : Prop := exists h m lock e N,
  w_next w <= a < N /\ w_next w <= h < N /\ h <> a /\ 0 <= i < HAX_MAX_VMS /\ Z.testbit (w_bits w) i = false /\ DevVm i ∉ w_devices w /\
  Mk N ({[+ h +]} ⊎ ({[+ m +]} ⊎ ({[+ lock +]} ⊎ (opt_mem e ⊎ ({[+ a +]} ⊎ w_live w))))) (add_vm a h m i lock e w) d.

Lemma fail1_rule a i x N X w d (Q : option Z -> driver -> Prop) : w_vms w !! a = None -> 0 <= i -> Z.testbit (w_bits w) i = false ->
  Mk N ({[+ a +]} ⊎ X) (with_vm a x (with_bits (Z.setbit (w_bits w) i) w)) d -> (forall d', Mk N X w d' -> Q None d') ->
  twp (create_vm_fail1 a i) d Q.
Proof.
  intros Ha Hi Hb HM H. apply twp_bind. eapply Mk_vfree_vm; [exact HM|]. intros d1 HM1. apply twp_bind.
  eapply (Mk_put_mid _ (w_bits w) _ _ w); [eapply Mk_view; [exact HM1|]|exact Hi|exact Hb|].
  - view_eq. by apply delete_id.
  - intros d2 HM2. apply twp_ret, H. eapply Mk_view; [exact HM2|]. by view_eq.
Qed.

Lemma hax_create_vm_rule w d (Q : option Z * option Z -> driver -> Prop) : St w d -> 0 < w_next w ->
  (forall a, w_next w <= a -> w_vms w !! a = None) -> (forall h, w_next w <= h -> w_vm_hosts w !! h = None) ->
  (forall a i d', added_vm w a i d' -> Q (Some a, Some i) d') ->
  (forall o d', Mk (w_next w) (w_live w) w d' -> Q (None, o) d') -> twp hax_create_vm d Q.
Proof.
  intros HS HN Hva Hvh H1 H2. apply twp_bind, twp_get. apply twp_if; intros _; [apply twp_ret, H2; by apply Mk_intro|].
  apply twp_bind. eapply get_free_vm_mid_rule; [exact HS|lia| |].
  2: { intros d1 HS1. apply twp_ret, H2. by apply Mk_intro. }
  intros i d1 Hi Hb HS1. change (0 <= i < HAX_MAX_VMS) in Hi.
  replace (valid_vm_mid i) with true by (unfold valid_vm_mid; symmetry; apply andb_true_iff; lia). cbn [negb].
  pose proof (Mk_intro _ _ HS1) as HM1. change (w_next (with_bits _ w)) with (w_next w) in HM1.
  change (w_live (with_bits _ w)) with (w_live w) in HM1. apply twp_bind. eapply Mk_kalloc; [exact HM1| |].
  2: { intros d2 HM2. apply twp_bind. eapply Mk_put_mid; [exact HM2|lia|exact Hb|]. intros d3 HM3. apply twp_ret, H2.
       eapply Mk_view; [exact HM3|]. by view_eq. }
  intros a d2 Hna HM2. pose proof (Hva a Hna) as Ha. apply twp_bind, twp_get, twp_bind. eapply Mk_put_vm; [exact HM2|]. intros d3 HM3.
  change (vm_view_of _) with (blank_vm i) in HM3.
  assert (Hfail : forall N x d', w_next w <= N -> Mk N ({[+ a +]} ⊎ w_live w) (with_vm a x (with_bits (Z.setbit (w_bits w) i) w)) d' ->
    twp (r ← create_vm_fail1 a i; mret (r, Some i)) d' Q).
  { intros N x d' HN' HM'. apply twp_bind. eapply fail1_rule; [exact Ha|lia|exact Hb|exact HM'|]. intros d4 HM4.
    apply twp_ret, H2. by eapply Mk_weaken. }
  apply twp_bind. eapply Mk_on_vm; [exact HM3|]. intros ret d4 HM4. apply twp_if; intros _; [eapply Hfail; [|exact HM4]; lia|].
  apply twp_bind. eapply Mk_init_ept_tree; [exact HM4|apply with_vm_lookup| |].
  2: { intros ret' e d5 Hr HM5. destruct (Z.eqb_spec ret' 0); [done|]. cbn [negb]. rewrite with_vm_twice in HM5.
       eapply Hfail; [|exact HM5]. lia. }
  intros e N5 d5 HN5 HM5. cbn [Z.eqb negb]. rewrite with_vm_twice in HM5. set (vv1 := vv_set_ept e (blank_vm i)) in *.
  apply twp_bind. eapply Mk_on_vm; [exact HM5|]. intros _ d6 HM6. apply twp_bind. eapply Mk_on_vm; [exact HM6|]. intros _ d7 HM7.
  apply twp_bind. eapply Mk_kalloc; [exact HM7| |].
  2: { intros d8 HM8. apply twp_bind. eapply (Mk_modify_vm _ _ (vv_set_lock None)); [exact HM8|apply with_vm_lookup|intros; reflexivity|].
       intros d9 HM9. rewrite with_vm_twice in HM9. eapply Hfail; [|eapply Mk_weaken; [exact HM9|msets|reflexivity]]. lia. }
  intros lock d8 Hl HM8. apply twp_bind. eapply (Mk_modify_vm _ _ (vv_set_lock (Some lock)));
    [exact HM8|apply with_vm_lookup|intros; reflexivity|]. intros d9 HM9. rewrite with_vm_twice in HM9.
  apply twp_bind. eapply (Mk_modify_vm _ _ (vv_set_vcpus [])); [exact HM9|apply with_vm_lookup|intros; reflexivity|].
  intros d10 HM10. rewrite with_vm_twice in HM10. set (vv2 := vv_set_vcpus [] (vv_set_lock (Some lock) vv1)) in *.
  apply twp_bind. change i with (vv_id vv2) at 1. eapply Mk_vm_create_host; [exact HM10|apply with_vm_lookup|done|done|done|lia| | |].
  - intros h Hh. apply Hvh. lia.
  - intros h m N11 d11 Hh Hm Hdev HM11. cbn [Z.ltb]. change (0 <? 0) with false. cbv iota.
    apply twp_bind. eapply (Mk_upd _ _ _ (with_list (a :: w_list w) (new_vm_device a h m vv2 (with_vm a vv2 (with_bits (Z.setbit (w_bits w) i) w)))));
      [exact HM11|intros l n HSl; exact (upd_list _ _ _ (cons a) _ _ HSl)|]. intros HM12.
    apply twp_bind. eapply (Mk_modify_vm _ _ (vv_set_ref 1)); [exact HM12|apply lookup_insert_eq|intros; reflexivity|].
    intros d13 HM13. apply twp_ret, H1. exists h, m, lock, e, N11.
    split_and!; [lia|lia|lia|lia|lia|lia|lia|done|exact Hdev|].
    eapply Mk_weaken; [eapply Mk_view; [exact HM13|]|msets|done]. unfold new_vm_device, add_vm. by view_eq.
  - intros h d11 HM11. change (-1 <? 0) with true. cbv iota. rewrite with_vm_twice in HM11.
    apply twp_bind. eapply (Mk_kfree_at lock); [eapply Mk_weaken; [exact HM11| |reflexivity]|].
    { instantiate (1 := {[+ a +]} ⊎ w_live w). msets. }
    intros d12 HM12. eapply Hfail; [|exact HM12]. lia.
Qed.

(** ** The tunnel of a virtual CPU *)
Definition part_mem (m : option hax_vcpu_mem) : gmultiset Z :=
  match m with
  | Some m => {[+ vcm_addr m +]} ⊎ (if vcm_uva m =? 0 then ∅ else {[+ vcm_hinfo m +]} ⊎ {[+ vcm_pages m +]})
  | None => ∅
  end.
Lemma part_mem_ok m : buffer_ok m -> part_mem m = buffer_mem m.
Proof. destruct m as [m|]; [|done]. cbn [buffer_ok part_mem buffer_mem]. intros H. by rewrite (proj2 (Z.eqb_neq _ _) H). Qed.

Lemma Mk_setup_vcpumem mem size N X w d (Q : Z * hax_vcpu_mem -> driver -> Prop) : Mk N X w d -> size <> 0 ->
  (forall uva kva hi pg N' d', uva <> 0 -> N <= N' -> Mk N' ({[+ hi +]} ⊎ ({[+ pg +]} ⊎ X)) w d' ->
     Q (0, VcpuMem (vcm_addr mem) uva kva hi pg size) d') ->
  (forall r d', r < 0 -> Mk N X w d' -> Q (r, mem) d') -> twp (hax_setup_vcpumem mem 0 size 0) d Q.
Proof.
  intros HM Hs H1 H2. unfold hax_setup_vcpumem. rewrite (proj2 (Z.eqb_neq _ _) Hs).
  apply twp_bind. eapply Mk_kalloc; [exact HM| |]; [|intros d1 HM1; by apply twp_ret, H2].
  intros hi d1 Hhi HM1. cbv zeta. apply twp_bind. eapply Mk_kalloc; [exact HM1| |].
  2: { intros d2 HM2. apply twp_bind. eapply Mk_kfree_at; [exact HM2|]. intros d3 HM3. apply twp_ret, H2; [done|].
       eapply Mk_weaken; [exact HM3|done|lia]. }
  intros pg d2 Hpg HM2. assert (Hfree : forall r d', r < 0 -> Mk (pg + 1) ({[+ pg +]} ⊎ ({[+ hi +]} ⊎ X)) w d' ->
    twp (kfree_at pg;; kfree_at hi;; mret (r, mem)) d' Q).
  { intros r d' Hr HM'. apply twp_bind. eapply Mk_kfree_at; [exact HM'|]. intros d3 HM3. apply twp_bind.
    eapply Mk_kfree_at; [exact HM3|]. intros d4 HM4. apply twp_ret, H2; [done|]. eapply Mk_weaken; [exact HM4|done|lia]. }
  change (0 &! HAX_VCPUMEM_VALIDVA =? 0) with true. cbv iota. cbn [andb].
  apply twp_bind. eapply Mk_service; [exact HM2|]. intros uva d3 HM3. destruct (Z.eqb_spec uva 0) as [E|E]; [by apply Hfree|].
  apply twp_bind. eapply Mk_service; [exact HM3|]. intros nr d4 HM4. apply twp_if; intros _; [by apply Hfree|].
  apply twp_bind. eapply Mk_service; [exact HM4|]. intros kva d5 HM5. apply twp_ret. eapply (H1 uva kva hi pg (pg + 1)); [done|lia|].
  eapply Mk_weaken; [exact HM5|msets|done].
Qed.

Lemma Mk_free_vcpu_mem m N X w d (Q : unit -> driver -> Prop) : Mk N (part_mem m ⊎ X) w d ->
  (forall d', Mk N X w d' -> Q tt d') -> twp (free_vcpu_mem m) d Q.
Proof.
  intros HM H. destruct m as [m|]; cbn [part_mem free_vcpu_mem] in *.
  - apply twp_bind. apply (twp_mono _ _ _ (fun _ d' => Mk N ({[+ vcm_addr m +]} ⊎ X) w d')).
    + destruct (Z.eqb_spec (vcm_uva m) 0); [apply twp_ret; eapply Mk_weaken; [exact HM|msets|done]|].
      apply twp_bind. eapply (Mk_kfree_at (vcm_pages m)).
      * eapply Mk_weaken; [exact HM| |done]. instantiate (1 := {[+ vcm_hinfo m +]} ⊎ ({[+ vcm_addr m +]} ⊎ X)). msets.
      * intros d1 HM1. eapply Mk_kfree_at; [exact HM1|auto].
    + intros _ d1 HM1. eapply Mk_kfree_at; [exact HM1|exact H].
  - apply twp_ret, H. eapply Mk_weaken; [exact HM|msets|done].
Qed.

Lemma Mk_tunnel_error b ret cw N X w d (Q : Z -> driver -> Prop) :
  Mk N (part_mem (cw_tunnel cw) ⊎ (part_mem (cw_iobuf cw) ⊎ X)) w d -> w_vcpus w !! b = Some cw ->
  (forall d', Mk N X (with_vcpu b (cw_set_buffers None None cw) w) d' -> Q ret d') -> twp (tunnel_error b ret) d Q.
Proof.
  intros HM Hb H. apply twp_bind. eapply Mk_get_vcpu; [exact HM|exact Hb|]. intros c Ec.
  assert (E1 : co_tunnel_vcpumem c = cw_tunnel cw) by (by rewrite Ec).
  assert (E2 : co_iobuf_vcpumem c = cw_iobuf cw) by (by rewrite Ec). rewrite E1, E2.
  apply twp_bind. eapply Mk_free_vcpu_mem; [exact HM|]. intros d1 HM1.
  apply twp_bind. eapply (Mk_modify_vcpu _ _ (cw_set_tunnel None)); [exact HM1|exact Hb|intros; reflexivity|]. intros d2 HM2.
  apply twp_bind. eapply Mk_free_vcpu_mem; [exact HM2|]. intros d3 HM3.
  apply twp_bind. eapply (Mk_modify_vcpu _ _ (cw_set_iobuf None)); [exact HM3|apply with_vcpu_lookup|intros; reflexivity|].
  intros d4 HM4. rewrite with_vcpu_twice in HM4. by apply twp_ret, H.
Qed.

Lemma Mk_setup_tunnel b cw N X w d (Q : Z -> driver -> Prop) :
  Mk N (part_mem (cw_tunnel cw) ⊎ (part_mem (cw_iobuf cw) ⊎ X)) w d -> w_vcpus w !! b = Some cw ->
  buffer_ok (cw_tunnel cw) -> buffer_ok (cw_iobuf cw) ->
  (forall ret t i N' d', buffer_ok t -> buffer_ok i -> N <= N' ->
     Mk N' (part_mem t ⊎ (part_mem i ⊎ X)) (with_vcpu b (cw_set_buffers t i cw) w) d' -> Q ret d') ->
  twp (hax_vcpu_setup_hax_tunnel b) d Q.
Proof.
  intros HM Hb Hok1 Hok2 H. apply twp_bind. eapply Mk_get_vcpu; [exact HM|exact Hb|]. intros c Ec.
  apply twp_if; intros _.
  { apply twp_ret. eapply H; [exact Hok1|exact Hok2|reflexivity|].
    replace (cw_set_buffers _ _ cw) with cw by (by destruct cw). by rewrite with_vcpu_id. }
  assert (Herr : forall ret t i N' d', N <= N' -> Mk N' (part_mem t ⊎ (part_mem i ⊎ X)) (with_vcpu b (cw_set_buffers t i cw) w) d' ->
    twp (tunnel_error b ret) d' Q).
  { intros ret t i N' d' HN HM'. eapply (Mk_tunnel_error _ _ (cw_set_buffers t i cw)); [exact HM'|apply with_vcpu_lookup|]. intros d1 HM1.
    rewrite with_vcpu_twice in HM1. eapply (H ret None None N'); [done|done|exact HN|]. eapply Mk_weaken; [exact HM1| |done].
    cbn [part_mem]. msets. }
  apply twp_bind. eapply Mk_kalloc; [exact HM| |].
  2: { intros d1 HM1. apply twp_bind. eapply (Mk_modify_vcpu _ _ (cw_set_tunnel None)); [exact HM1|exact Hb|intros; reflexivity|].
       intros d2 HM2. eapply (Herr _ None (cw_iobuf cw)); [reflexivity|]. eapply Mk_weaken; [exact HM2|cbn [part_mem]; msets|done]. }
  intros p d1 Hp HM1. apply twp_bind. eapply (Mk_modify_vcpu _ _ (cw_set_tunnel (Some (new_vcpu_mem p))));
    [exact HM1|exact Hb|intros; reflexivity|]. intros d2 HM2.
  apply twp_bind. eapply Mk_kalloc; [exact HM2| |].
  2: { intros d3 HM3. apply twp_bind. eapply (Mk_modify_vcpu _ _ (cw_set_iobuf None)); [exact HM3|apply with_vcpu_lookup|intros; reflexivity|].
       intros d4 HM4. rewrite with_vcpu_twice in HM4. eapply (Herr _ (Some (new_vcpu_mem p)) None); [|eapply Mk_weaken; [exact HM4| |reflexivity]]; [lia|].
       cbn [part_mem new_vcpu_mem vcm_uva vcm_addr]. change (0 =? 0) with true. cbv iota. msets. }
  intros q d3 Hq HM3. apply twp_bind. eapply (Mk_modify_vcpu _ _ (cw_set_iobuf (Some (new_vcpu_mem q))));
    [exact HM3|apply with_vcpu_lookup|intros; reflexivity|]. intros d4 HM4. rewrite with_vcpu_twice in HM4.
  eapply Mk_weaken in HM4; [|instantiate (1 := {[+ q +]} ⊎ ({[+ p +]} ⊎ X)); msets|reflexivity].
  apply twp_bind. eapply Mk_setup_vcpumem; [exact HM4|done| |].
  2: { intros r d5 Hr HM5. apply twp_bind. eapply (Mk_modify_vcpu _ _ (cw_set_tunnel (Some (new_vcpu_mem p))));
         [exact HM5|apply with_vcpu_lookup|intros; reflexivity|]. intros d6 HM6. rewrite with_vcpu_twice in HM6. cbn [fst snd].
       rewrite (proj2 (Z.ltb_lt _ _) Hr). eapply (Herr _ (Some (new_vcpu_mem p)) (Some (new_vcpu_mem q)));
         [|eapply Mk_weaken; [exact HM6| |reflexivity]]; [lia|].
       cbn [part_mem new_vcpu_mem vcm_uva vcm_addr]. change (0 =? 0) with true. cbv iota. msets. }
  intros uva kva hi pg N5 d5 Hu HN5 HM5. set (t := VcpuMem _ uva kva hi pg _) in *. cbn [fst snd]. change (0 <? 0) with false. cbv iota.
  apply twp_bind. eapply (Mk_modify_vcpu _ _ (cw_set_tunnel (Some t))); [exact HM5|apply with_vcpu_lookup|intros; reflexivity|].
  intros d6 HM6. rewrite with_vcpu_twice in HM6.
  assert (Et : part_mem (Some t) = {[+ p +]} ⊎ ({[+ hi +]} ⊎ {[+ pg +]}))
    by (cbn [part_mem vcm_uva vcm_addr vcm_hinfo vcm_pages t]; by rewrite (proj2 (Z.eqb_neq _ _) Hu)).
  apply twp_bind. eapply Mk_setup_vcpumem; [exact HM6|done| |].
  2: { intros r d7 Hr HM7. apply twp_bind. eapply (Mk_modify_vcpu _ _ (cw_set_iobuf (Some (new_vcpu_mem q))));
         [exact HM7|apply with_vcpu_lookup|intros; reflexivity|]. intros d8 HM8. rewrite with_vcpu_twice in HM8. cbn [fst snd].
       rewrite (proj2 (Z.ltb_lt _ _) Hr). eapply (Herr _ (Some t) (Some (new_vcpu_mem q)));
         [|eapply Mk_weaken; [exact HM8| |reflexivity]]; [lia|]. rewrite Et.
       cbn [part_mem new_vcpu_mem vcm_uva vcm_addr]. change (0 =? 0) with true. cbv iota. msets. }
  intros uva' kva' hi' pg' N7 d7 Hu' HN7 HM7. set (i := VcpuMem _ uva' kva' hi' pg' _) in *. cbn [fst snd]. change (0 <? 0) with false. cbv iota.
  apply twp_bind. eapply (Mk_modify_vcpu _ _ (cw_set_iobuf (Some i))); [exact HM7|apply with_vcpu_lookup|intros; reflexivity|].
  intros d8 HM8. rewrite with_vcpu_twice in HM8.
  assert (Ei : part_mem (Some i) = {[+ q +]} ⊎ ({[+ hi' +]} ⊎ {[+ pg' +]}))
    by (cbn [part_mem vcm_uva vcm_addr vcm_hinfo vcm_pages i]; by rewrite (proj2 (Z.eqb_neq _ _) Hu')).
  apply twp_bind. eapply (Mk_modify_vcpu _ _ (fun x => x)); [exact HM8|apply with_vcpu_lookup|intros; reflexivity|].
  intros d9 HM9. rewrite with_vcpu_twice in HM9. apply twp_ret. eapply (H 0 (Some t) (Some i)); [exact Hu|exact Hu'| |].
  2: { eapply Mk_weaken; [exact HM9| |reflexivity]. rewrite Et, Ei. msets. }
  lia.
Qed.

Lemma Mk_destroy_tunnel b cw N X w d (Q : Z -> driver -> Prop) : Mk N (tunnel_mem cw ⊎ X) w d -> w_vcpus w !! b = Some cw ->
  buffer_ok (cw_tunnel cw) -> buffer_ok (cw_iobuf cw) ->
  (forall d', Mk N X (with_vcpu b (cw_set_buffers None None cw) w) d' -> Q 0 d') -> twp (hax_vcpu_destroy_hax_tunnel b) d Q.
Proof.
  intros (l & n & HS & HX & HN) Hb H1 H2 H. eapply (hax_vcpu_destroy_hax_tunnel_rule space_ok false); [exact HS|exact Hb|exact H1|exact H2| |].
  - etrans; [|exact HX]. msets.
  - intros d' HS'. apply H. eexists _, _. split_and!; [exact HS'|wcbn; by apply mem_sub_diff|done].
Qed.

Lemma Mk_vfree_vcpu b N X w d (Q : unit -> driver -> Prop) : Mk N ({[+ b +]} ⊎ X) w d ->
  (forall d', Mk N X (with_vcpus (delete b (w_vcpus w)) w) d' -> Q tt d') -> twp (vfree_vcpu b) d Q.
Proof.
  intros HM H. apply twp_bind. eapply (Mk_upd _ _ _ (with_vcpus (delete b (w_vcpus w)) w)); [exact HM| |].
  - intros l n [E _]. destruct w. unfold view_of, with_mem in *. cbn in *. injection E as -> -> -> -> -> <- -> -> ->.
    unfold with_vcpus. cbn. by rewrite fmap_delete.
  - intros HM1. eapply Mk_kfree_at; [exact HM1|exact H].
Qed.

Lemma Mk_vcpu_free_cpuid b cw N X w d (Q : unit -> driver -> Prop) : Mk N (opt_mem (cw_cpuid cw) ⊎ X) w d -> w_vcpus w !! b = Some cw ->
  cw_id cw = 0 -> (forall d', Mk N X (with_vcpu b (cw_set_cpuid None cw) w) d' -> Q tt d') -> twp (vcpu_free_cpuid b) d Q.
Proof.
  intros (l & n & HS & HX & HN) Hb Hi H. eapply (vcpu_free_cpuid_rule space_ok false); [exact HS|exact Hb| |]; rewrite Hi; cbn [Z.eqb].
  - etrans; [|exact HX]. msets.
  - intros d' HS'. apply H. eexists _, _. split_and!; [exact HS'|wcbn; by apply mem_sub_diff|done].
Qed.

(** ** Failures of vcpu_create *)
Section Fail.
Context (b : Z) (w : view) (Hb : w_vcpus w !! b = None).
Definition vw (cw : vcpu_view) : view := with_vcpu b cw w.
#[local] Lemma vw_lookup cw : w_vcpus (vw cw) !! b = Some cw.
Proof. apply with_vcpu_lookup. Qed.

Lemma fail_1_rule cw N X d (Q : option Z -> driver -> Prop) : Mk N ({[+ b +]} ⊎ X) (vw cw) d ->
  (forall d', Mk N X w d' -> Q None d') -> twp (create_vcpu_fail_1 b) d Q.
Proof.
  intros HM H. apply twp_bind. eapply Mk_vfree_vcpu; [exact HM|]. intros d1 HM1. apply twp_ret, H.
  eapply Mk_view; [exact HM1|]. unfold vw. view_eq. by apply delete_id.
Qed.
Lemma fail_2_rule cw N X d (Q : option Z -> driver -> Prop) : Mk N (tunnel_mem cw ⊎ ({[+ b +]} ⊎ X)) (vw cw) d ->
  buffer_ok (cw_tunnel cw) -> buffer_ok (cw_iobuf cw) ->
  (forall d', Mk N X w d' -> Q None d') -> twp (create_vcpu_fail_2 b) d Q.
Proof.
  intros HM H1 H2 H. apply twp_bind. eapply Mk_destroy_tunnel; [exact HM|apply vw_lookup|done|done|]. intros d1 HM1.
  unfold vw in HM1. rewrite with_vcpu_twice in HM1. by eapply fail_1_rule.
Qed.
(** A failure that frees one more object. *)
Lemma fail_free_rule (f : vcpu_obj -> option Z) (g : vcpu_view -> option Z) cw N X (next : M driver (option Z)) d (Q : option Z -> driver -> Prop) :
  (forall c, f c = g (vcpu_view_of c)) -> Mk N (opt_mem (g cw) ⊎ X) (vw cw) d ->
  (forall d', Mk N X (vw cw) d' -> twp next d' Q) -> twp (c ← get_vcpu b; kfree (f c);; next) d Q.
Proof.
  intros Hf HM H. apply twp_bind. eapply Mk_get_vcpu; [exact HM|apply vw_lookup|]. intros c Ec. rewrite Hf, <- Ec.
  apply twp_bind. eapply Mk_kfree; [exact HM|exact H].
Qed.
Definition parts (cw : vcpu_view) : gmultiset Z := tunnel_mem cw ⊎ {[+ b +]}.
Lemma fail_3_rule cw N X d (Q : option Z -> driver -> Prop) : Mk N (opt_mem (cw_vmcs cw) ⊎ (parts cw ⊎ X)) (vw cw) d ->
  buffer_ok (cw_tunnel cw) -> buffer_ok (cw_iobuf cw) ->
  (forall d', Mk N X w d' -> Q None d') -> twp (create_vcpu_fail_3 b) d Q.
Proof.
  intros HM H1 H2 H. eapply (fail_free_rule _ cw_vmcs); [done|exact HM|]. intros d1 HM1. eapply fail_2_rule; [|done..|exact H].
  eapply Mk_weaken; [exact HM1|unfold parts; msets|done].
Qed.
Lemma fail_4_rule cw N X d (Q : option Z -> driver -> Prop) : Mk N (opt_mem (cw_gfx cw) ⊎ (opt_mem (cw_vmcs cw) ⊎ (parts cw ⊎ X))) (vw cw) d ->
  buffer_ok (cw_tunnel cw) -> buffer_ok (cw_iobuf cw) ->
  (forall d', Mk N X w d' -> Q None d') -> twp (create_vcpu_fail_4 b) d Q.
Proof. intros HM H1 H2 H. eapply (fail_free_rule _ cw_gfx); [done|exact HM|]. intros d1 HM1. by eapply fail_3_rule. Qed.
Lemma fail_5_rule cw N X d (Q : option Z -> driver -> Prop) :
  Mk N (opt_mem (cw_state cw) ⊎ (opt_mem (cw_gfx cw) ⊎ (opt_mem (cw_vmcs cw) ⊎ (parts cw ⊎ X)))) (vw cw) d ->
  buffer_ok (cw_tunnel cw) -> buffer_ok (cw_iobuf cw) ->
  (forall d', Mk N X w d' -> Q None d') -> twp (create_vcpu_fail_5 b) d Q.
Proof. intros HM H1 H2 H. eapply (fail_free_rule _ cw_state); [done|exact HM|]. intros d1 HM1. by eapply fail_4_rule. Qed.
Lemma fail_6_rule cw N X d (Q : option Z -> driver -> Prop) :
  Mk N (opt_mem (cw_mutex cw) ⊎ (opt_mem (cw_state cw) ⊎ (opt_mem (cw_gfx cw) ⊎ (opt_mem (cw_vmcs cw) ⊎ (parts cw ⊎ X))))) (vw cw) d ->
  buffer_ok (cw_tunnel cw) -> buffer_ok (cw_iobuf cw) ->
  (forall d', Mk N X w d' -> Q None d') -> twp (create_vcpu_fail_6 b) d Q.
Proof. intros HM H1 H2 H. eapply (fail_free_rule _ cw_mutex); [done|exact HM|]. intros d1 HM1. by eapply fail_5_rule. Qed.
Lemma fail_7_rule cw N X d (Q : option Z -> driver -> Prop) :
  Mk N (opt_mem (cw_cpuid cw) ⊎ (opt_mem (cw_mutex cw) ⊎ (opt_mem (cw_state cw) ⊎ (opt_mem (cw_gfx cw) ⊎
    (opt_mem (cw_vmcs cw) ⊎ (parts cw ⊎ X)))))) (vw cw) d ->
  cw_id cw = 0 -> buffer_ok (cw_tunnel cw) -> buffer_ok (cw_iobuf cw) ->
  (forall d', Mk N X w d' -> Q None d') -> twp (create_vcpu_fail_7 b) d Q.
Proof.
  intros HM Hi H1 H2 H. apply twp_bind. eapply Mk_vcpu_free_cpuid; [exact HM|apply vw_lookup|exact Hi|]. intros d1 HM1.
  unfold vw in HM1. rewrite with_vcpu_twice in HM1. eapply (fail_6_rule (cw_set_cpuid None cw)); [exact HM1|done..|exact H].
Qed.
End Fail.

(** ** The device of a virtual CPU *)
Definition new_vcpu_device (b h m vm_host vm_id : Z) (cw : vcpu_view) (j : Z) (w : view) : view :=
  with_devices ({[DevVcpu vm_id j]} ∪ w_devices w)
    (with_vcpu_hosts (<[h := VcpuLinux b vm_host j (Some (DevVcpu vm_id j, m))]> (w_vcpu_hosts w)) (with_vcpu b (cw_set_host h cw) w)).
Lemma Mk_vcpu_create_host b cw vm_host vm_id j N X w d (Q : Z -> driver -> Prop) :
  Mk N (part_mem (cw_tunnel cw) ⊎ (part_mem (cw_iobuf cw) ⊎ X)) w d -> w_vcpus w !! b = Some cw ->
  cw_host cw = 0 -> buffer_ok (cw_tunnel cw) -> buffer_ok (cw_iobuf cw) -> 0 < N -> (forall h, N <= h -> w_vcpu_hosts w !! h = None) ->
  (forall h m N' d', N <= h < N' -> DevVcpu vm_id j ∉ w_devices w ->
     Mk N' ({[+ h +]} ⊎ ({[+ m +]} ⊎ (part_mem (cw_tunnel cw) ⊎ (part_mem (cw_iobuf cw) ⊎ X))))
       (new_vcpu_device b h m vm_host vm_id cw j w) d' -> Q 0 d') ->
  (forall h t i d', buffer_ok t -> buffer_ok i ->
     Mk N (part_mem t ⊎ (part_mem i ⊎ X)) (with_vcpu b (cw_set_host h (cw_set_buffers t i cw)) w) d' -> Q (-1) d') ->
  twp (hax_vcpu_create_host b vm_host vm_id j) d Q.
Proof.
  intros HM Hb H0 Hk1 Hk2 HN Hfresh H1 H2.
  assert (Hsame : cw_set_host 0 (cw_set_buffers (cw_tunnel cw) (cw_iobuf cw) cw) = cw) by (destruct cw; cbn in H0; by subst).
  assert (Hno : forall d', Mk N (part_mem (cw_tunnel cw) ⊎ (part_mem (cw_iobuf cw) ⊎ X)) w d' -> Q (-1) d').
  { intros d' HM'. eapply (H2 0 (cw_tunnel cw) (cw_iobuf cw)); [done..|]. rewrite Hsame. by rewrite with_vcpu_id. }
  apply twp_bind. apply twp_if; intros _; [by apply twp_ret, twp_ret, Hno|].
  apply twp_bind. eapply Mk_kalloc; [exact HM| |]; [|intros d1 HM1; by apply twp_ret, twp_ret, Hno].
  intros h d1 Hh HM1. apply twp_bind. eapply Mk_put_vcpu_linux; [exact HM1|]. intros d2 HM2.
  apply twp_bind. eapply Mk_set_vcpu_host; [exact HM2|exact Hb|by left|]. intros d3 HM3. apply twp_ret.
  apply twp_bind. eapply Mk_kalloc; [exact HM3| |]; [|intros d4 _; by apply twp_bind].
  intros m d4 Hm4 HM4. apply twp_bind. eapply twp_of_option; [done|]. apply twp_bind.
  eapply Mk_put_vcpu_linux; [exact HM4|]. intros d5 HM5. apply twp_bind. eapply Mk_misc_register; [exact HM5| |].
  - intros d6 Hdev HM6. cbn [Z.eqb negb]. apply twp_ret. eapply (H1 h m (m + 1)); [lia|exact Hdev|].
    eapply Mk_weaken; [eapply Mk_view; [exact HM6|]|msets|lia]. unfold new_vcpu_device. view_eq.
  - intros r d6 Hr HM6. destruct (Z.eqb_spec r 0); [done|]. cbn [negb]. apply twp_bind. unfold hax_vcpu_destroy_linux.
    apply twp_bind. eapply Mk_get_vcpu_linux; [exact HM6|apply lookup_insert_eq|]. cbn [ch_cvcpu].
    apply twp_bind. eapply (Mk_destroy_tunnel b (cw_set_host h cw)); [eapply Mk_weaken; [exact HM6| |reflexivity]|apply with_vcpu_lookup|exact Hk1|exact Hk2|].
    { unfold tunnel_mem. change (cw_tunnel (cw_set_host h cw)) with (cw_tunnel cw). change (cw_iobuf (cw_set_host h cw)) with (cw_iobuf cw).
      rewrite <- !part_mem_ok by done. instantiate (1 := {[+ h +]} ⊎ X). msets. }
    intros d7 HM7. apply twp_bind. eapply Mk_set_vcpu_host_kept; [exact HM7|apply with_vcpu_lookup|cbn; lia|cbn; lia|]. intros _.
    apply twp_bind. set (cw2 := cw_set_buffers None None (cw_set_host h cw)) in *.
    eapply (Mk_upd _ _ _ (with_vcpu_hosts (w_vcpu_hosts w) (with_vcpu b cw2 w))); [exact HM7| |].
    + intros l7 n7 HS7. rewrite (upd_vcpu_hosts _ _ _ (delete h) _ _ HS7). view_eq. apply delete_id, Hfresh. lia.
    + intros HM8. eapply (Mk_kfree_at h); [exact HM8|].
      intros d8 HM9. apply twp_ret. eapply (H2 h None None); [done|done|].
      eapply Mk_weaken; [eapply Mk_view; [exact HM9|]|cbn [part_mem]; msets|lia]. view_eq.
Qed.

(** ** VPIDs *)
Definition cw_set_id (x : Z) (cw : vcpu_view) : vcpu_view :=
  VcpuView (cw_vm cw) x (cw_vpid cw) (cw_ref cw) (cw_flags cw) (cw_vmcs cw) (cw_gfx cw) (cw_state cw)
    (cw_mutex cw) (cw_cpuid cw) (cw_tunnel cw) (cw_iobuf cw) (cw_host cw).
Lemma find_vpid_bit_rule a vv bit n N X w d (Q : Z -> driver -> Prop) : Mk N X w d -> w_vms w !! a = Some vv -> 0 <= bit ->
  (forall j d', bit <= j < bit + Z.of_nat n -> Z.testbit (vv_seed vv) j = false ->
     Mk N X (with_vm a (vv_set_seed (Z.setbit (vv_seed vv) j) vv) w) d' -> Q j d') ->
  (forall d', Mk N X w d' -> Q (bit + Z.of_nat n) d') -> twp (find_vpid_bit a bit n) d Q.
Proof.
  revert bit d. induction n as [|n IH]; intros bit d HM Ha Hbit H1 H2.
  - apply twp_ret. replace bit with (bit + Z.of_nat 0) by lia. by apply H2.
  - apply twp_bind. eapply Mk_get_vm; [exact HM|exact Ha|]. intros o Eo. unfold test_and_set_bit. cbv zeta.
    assert (Es : vo_vpid_seed o = vv_seed vv) by (by rewrite Eo). rewrite Es.
    apply twp_bind. eapply Mk_put_vm; [exact HM|]. intros d1 HM1.
    assert (Ev : vm_view_of (set_vo_vpid_seed (Z.setbit (vv_seed vv) bit) o) = vv_set_seed (Z.setbit (vv_seed vv) bit) vv)
      by (by rewrite Eo).
    rewrite Ev in HM1. destruct (Z.testbit (vv_seed vv) bit) eqn:E; cbn [negb].
    + rewrite setbit_id in HM1 by done. replace (vv_set_seed (vv_seed vv) vv) with vv in HM1 by (by destruct vv).
      rewrite with_vm_id in HM1 by done. eapply IH; [exact HM1|exact Ha|lia| |].
      * intros j d' Hj. apply H1. lia.
      * intros d' HM'. replace (bit + 1 + Z.of_nat n) with (bit + Z.of_nat (S n)) by lia. by apply H2.
    + apply twp_ret. eapply H1; [lia|done|exact HM1].
Qed.

Definition vpid_taken (vv : vm_view) (vpid seed : Z) : Prop :=
  vpid = 0 /\ seed = vv_seed vv \/
  exists bit, 0 <= bit < VPID_SEED_BITS /\ Z.testbit (vv_seed vv) bit = false /\ seed = Z.setbit (vv_seed vv) bit /\
    vpid = vv_id vv * 256 + (bit + 1).
Lemma Mk_vpid_alloc b cw vv N X w d (Q : Z -> driver -> Prop) : Mk N X w d -> w_vcpus w !! b = Some cw -> cw_vpid cw = 0 ->
  w_vms w !! cw_vm cw = Some vv -> 0 <= vv_id vv < HAX_MAX_VMS ->
  (forall r vpid seed d', vpid_taken vv vpid seed ->
     Mk N X (with_vcpu b (cw_set_vpid vpid cw) (with_vm (cw_vm cw) (vv_set_seed seed vv) w)) d' -> Q r d') ->
  twp (vcpu_vpid_alloc b) d Q.
Proof.
  intros HM Hb H0 Hv Hi H. apply twp_bind. eapply Mk_get_vcpu; [exact HM|exact Hb|]. intros c Ec.
  assert (Ep : co_vpid c = 0) by (by rewrite <- H0, Ec). assert (Em : co_vm c = cw_vm cw) by (by rewrite Ec).
  rewrite Ep, Em. cbn [Z.eqb negb]. apply twp_bind.
  assert (Esame : forall d', Mk N X w d' -> Mk N X (with_vcpu b (cw_set_vpid 0 cw) (with_vm (cw_vm cw) (vv_set_seed (vv_seed vv) vv) w)) d').
  { intros d' HM'. replace (vv_set_seed (vv_seed vv) vv) with vv by (by destruct vv).
    replace (cw_set_vpid 0 cw) with cw by (destruct cw; cbn in H0; by subst). by rewrite with_vm_id, with_vcpu_id. }
  eapply find_vpid_bit_rule; [exact HM|exact Hv|done| |].
  - intros bit d1 Hbit Ht HM1. change (0 <= bit < 64) in Hbit. change max_vpid_bit with 64.
    destruct (Z.eqb_spec bit 64); [lia|]. apply twp_bind. eapply Mk_get_vm; [exact HM1|apply with_vm_lookup|]. intros o Eo.
    assert (Eid : vo_vm_id o = vv_id vv) by (by apply (f_equal vv_id) in Eo). rewrite Eid. cbv zeta. apply twp_bind.
    eapply Mk_put_vcpu; [exact HM1|]. intros d2 HM2. apply twp_ret. eapply H; [right; exists bit; split; [exact Hbit|by split_and!]|].
    unfold HAX_MAX_VMS in Hi.
    assert (Evp : (Z.shiftl (vv_id vv) 8 mod 2 ^ 16 + (bit + 1) mod 2 ^ 16) mod 2 ^ 16 = vv_id vv * 256 + (bit + 1)).
    { rewrite Z.shiftl_mul_pow2 by lia. change (2 ^ 8) with 256. rewrite (Z.mod_small (vv_id vv * 256)) by lia. rewrite (Z.mod_small (bit + 1)) by lia. by rewrite Z.mod_small by lia. }
    rewrite Evp in HM2. replace (cw_set_vpid _ cw) with (vcpu_view_of (set_co_vpid (vv_id vv * 256 + (bit + 1)) c)) by (by rewrite Ec).
    exact HM2.
  - intros d1 HM1. change (0 + Z.of_nat _) with 64. change max_vpid_bit with 64. cbn [Z.eqb Pos.eqb].
    apply twp_ret. apply (H _ 0 (vv_seed vv)); [by left|]. by apply Esame.
Qed.

(** ** vcpu_create *)
Section Vcpu.
Context {CH : CpuidHw} {KH : KernelHw} (G : hax_globals) (uninit : cpuid_args_t) (info : info_t).
Context (io_bitmap_a_pa io_bitmap_b_pa msr_bitmap_pa gmsr_autoload_pa : Z).

Lemma Mk_find_vcpu i j N X w d (Q : option Z -> driver -> Prop) : Mk N X w d -> listed w -> refs_small w -> vcpus_listed w ->
  (forall r d', Mk N X w d' -> Q r d') -> twp (hax_get_vcpu i j false) d Q.
Proof.
  intros (l & n & HS & HX & HN) Hl Hr Hc H. eapply hax_get_vcpu_rule; [exact HS|exact Hl|exact Hr|exact Hc|].
  intros r w' d' HS' Hgot. apply H. exists l, n. split_and!; [|done|done]. destruct r as [b|].
  - destruct Hgot as (a & vv & cw & _ & _ & _ & _ & Hb & _ & ->). rewrite Z.add_0_r, cw_set_ref_eta in HS'. by rewrite with_vcpu_id in HS'.
  - by destruct Hgot as [-> _].
Qed.

Lemma get_vm_partial a d (Q : vm_obj -> driver -> Prop) : (forall o, dv_vms d !! a = Some o -> Q o d) -> twp (get_vm a) d Q.
Proof. intros H. apply twp_bind, twp_get, twp_option_partial, H. Qed.
Lemma get_vcpu_partial b d (Q : vcpu_obj -> driver -> Prop) : (forall c, Q c d) -> twp (get_vcpu b) d Q.
Proof. intros H. apply twp_bind, twp_get, twp_option_partial. intros c _. apply H. Qed.
Lemma table_of_partial q d (Q : option hax_cpuid_t -> driver -> Prop) : (forall x, Q x d) -> twp (table_of q) d Q.
Proof.
  intros H. destruct q as [p|]; [|by apply twp_ret]. apply twp_bind, twp_get, twp_bind, twp_option_partial. intros x _. by apply twp_ret.
Qed.

Lemma Mk_init_vcpu_obj b cw N X w d (Q : unit -> driver -> Prop) : Mk N X w d -> w_vcpus w !! b = Some cw ->
  listed w -> refs_small w -> (forall cw', vcpus_listed (with_vcpu b cw' w)) ->
  (forall q d', (cw_id cw = 0 -> q = cw_cpuid cw) -> Mk N X (with_vcpu b (cw_set_cpuid q (cw_set_ref 1 cw)) w) d' -> Q tt d') ->
  twp (init_vcpu_obj uninit b) d Q.
Proof.
  intros HM Hb Hl Hr Hc H. apply twp_bind. eapply (Mk_modify_vcpu _ _ (cw_set_ref 1)); [exact HM|exact Hb|intros; reflexivity|]. intros d1 HM1.
  set (w1 := with_vcpu b (cw_set_ref 1 cw) w) in *. assert (Hb1 : w_vcpus w1 !! b = Some (cw_set_ref 1 cw)) by apply with_vcpu_lookup.
  apply twp_bind. eapply Mk_get_vcpu; [exact HM1|exact Hb1|]. intros c Ec.
  assert (Eid : co_vcpu_id c = cw_id cw) by (by apply (f_equal cw_id) in Ec). rewrite Eid.
  apply twp_bind, get_vm_partial. intros o _.
  assert (Hend : forall table q d', (cw_id cw = 0 -> q = cw_cpuid cw) ->
    Mk N X (with_vcpu b (cw_set_cpuid q (cw_set_ref 1 cw)) w) d' -> twp (on_vcpu b (VcpuInit.vcpu_init uninit table)) d' Q).
  { intros table q d' Hq HM'. eapply Mk_on_vcpu; [exact HM'|]. intros [] d2 HM2. by eapply H. }
  assert (Hself : forall d', Mk N X w1 d' -> Mk N X (with_vcpu b (cw_set_cpuid (cw_cpuid cw) (cw_set_ref 1 cw)) w) d')
    by (intros d'; by replace (cw_set_cpuid (cw_cpuid cw) (cw_set_ref 1 cw)) with (cw_set_ref 1 cw) by (by destruct cw)).
  assert (Hnone : forall d', Mk N X w1 d' -> twp (table ← mret None; mret tt;; on_vcpu b (VcpuInit.vcpu_init uninit table)) d' Q).
  { intros d' HM'. apply twp_bind, twp_ret, twp_bind, twp_ret. eapply Hend; [by intros _|by apply Hself]. }
  apply twp_bind. destruct (Z.eqb_spec (cw_id cw) 0) as [E|E]; [by apply twp_ret, Hnone|].
  apply twp_bind. eapply Mk_find_vcpu; [exact HM1|exact Hl|exact Hr|apply Hc|]. intros [p|] d2 HM2; [|by apply twp_ret, Hnone].
  apply twp_bind, get_vcpu_partial. intros c0. apply twp_ret, twp_bind, twp_bind, table_of_partial. intros x. apply twp_ret.
  apply twp_bind. eapply (Mk_modify_vcpu _ _ (cw_set_cpuid (co_guest_cpuid c0))); [exact HM2|exact Hb1|intros; reflexivity|].
  intros d3 HM3. unfold w1 in HM3. rewrite with_vcpu_twice in HM3. eapply Hend; [|exact HM3]. intros E0. by destruct E.
Qed.

(** A new virtual CPU and its VM. *)
Record made_vcpu (b a vcpu_id h : Z) (vv vv' : vm_view) (cw : vcpu_view) : Prop := {
  nv_vm : cw_vm cw = a;
  nv_id : cw_id cw = vcpu_id;
  nv_ref : cw_ref cw = 1;
  nv_flags : cw_flags cw = 0;
  nv_host : cw_host cw = h;
  nv_tunnel : buffer_ok (cw_tunnel cw);
  nv_iobuf : buffer_ok (cw_iobuf cw);
  nv_vv : exists seed, vpid_taken vv (cw_vpid cw) seed /\
    vv' = vv_set_ref (vv_ref vv + 1) (vv_set_vcpus (b :: vv_vcpus vv) (vv_set_seed seed vv));
}.
Definition add_vcpu (b a h m vm_host : Z) (vv vv' : vm_view) (cw : vcpu_view) (w : view) : view :=
  let dev := DevVcpu (vv_id vv) (cw_id cw) in
  View (w_live w) (w_next w) (w_bits w) (w_list w) (<[a := vv']> (w_vms w)) (<[b := cw]> (w_vcpus w)) (w_vm_hosts w)
    (<[h := VcpuLinux b vm_host (cw_id cw) (Some (dev, m))]> (w_vcpu_hosts w)) ({[dev]} ∪ w_devices w).

Definition publish (b : Z) (vv : vm_view) : vm_view := vv_set_ref (vv_ref vv + 1) (vv_set_vcpus (b :: vv_vcpus vv) vv).
Lemma Mk_start_vcpu b a vcpu_id cw vv N X w d (Q : option Z -> driver -> Prop) : Mk N X w d -> w_vcpus w !! b = Some cw ->
  cw_vpid cw = 0 -> cw_vm cw = a -> w_vms w !! a = Some vv -> 0 <= vv_id vv < HAX_MAX_VMS ->
  listed w -> refs_small w -> (forall cw', vcpus_listed (with_vcpu b cw' w)) ->
  (forall q vpid seed d', (vcpu_id = 0 -> q = cw_cpuid cw) -> vpid_taken vv vpid seed ->
     Mk N X (with_vcpu b (cw_set_cpuid q (cw_set_ref 1 (cw_set_vpid vpid (cw_set_id vcpu_id cw))))
       (with_vm a (publish b (vv_set_seed seed vv)) w)) d' -> Q (Some b) d') ->
  twp (start_vcpu G uninit info io_bitmap_a_pa io_bitmap_b_pa msr_bitmap_pa gmsr_autoload_pa b a vcpu_id) d Q.
Proof.
  intros HM Hb H0 Hvm Ha Hi Hl Hr Hc H. apply twp_bind, twp_get, twp_bind.
  eapply (Mk_modify_vcpu _ _ (cw_set_id vcpu_id)); [exact HM|exact Hb|intros; reflexivity|]. intros d1 HM1.
  apply twp_bind. eapply (Mk_vpid_alloc b (cw_set_id vcpu_id cw) vv); [exact HM1|apply with_vcpu_lookup|exact H0| |exact Hi|].
  { change (cw_vm (cw_set_id vcpu_id cw)) with (cw_vm cw). by rewrite Hvm. }
  change (cw_vm (cw_set_id vcpu_id cw)) with (cw_vm cw). rewrite Hvm. intros _ vpid seed d2 Hvp HM2.
  set (cw2 := cw_set_vpid vpid (cw_set_id vcpu_id cw)) in *. set (vv2 := vv_set_seed seed vv) in *.
  change (with_vcpu b cw2 _) with (with_vcpu b cw2 (with_vcpu b (cw_set_id vcpu_id cw) (with_vm a vv2 w))) in HM2.
  rewrite with_vcpu_twice in HM2. set (w2 := with_vm a vv2 w) in *.
  apply twp_bind. eapply (Mk_init_vcpu_obj b cw2); [exact HM2|apply with_vcpu_lookup| | | |].
  - intros c Hin. change (is_Some (<[a := vv2]> (w_vms w) !! c)). destruct (decide (c = a)) as [->|Hne].
    + rewrite lookup_insert_eq. by eexists.
    + rewrite lookup_insert_ne by done. by apply Hl.
  - intros c x. change (<[a := vv2]> (w_vms w) !! c = Some x -> 0 < vv_ref x < 2 ^ 30). rewrite lookup_insert_Some.
    intros [[<- <-]|[_ Hx]]; [exact (Hr _ _ Ha)|by eapply Hr].
  - intros cw' c x b'. rewrite with_vcpu_twice. change (<[a := vv2]> (w_vms w) !! c = Some x -> b' ∈ vv_vcpus x ->
      exists y, <[b := cw']> (w_vcpus w) !! b' = Some y /\ 0 < cw_ref y < 2 ^ 30). rewrite lookup_insert_Some.
    intros [[<- <-]|[_ Hx]]; [exact (Hc cw' a vv b' Ha)|exact (Hc cw' c x b' Hx)].
  - intros q d3 Hq HM3. rewrite with_vcpu_twice in HM3. set (cw3 := cw_set_cpuid q (cw_set_ref 1 cw2)) in *.
    apply twp_bind. eapply Mk_on_vcpu; [exact HM3|]. intros _ d4 HM4.
    apply twp_bind. eapply (Mk_modify_vm a _ (fun x => vv_set_vcpus (b :: vv_vcpus x) x)); [exact HM4|apply lookup_insert_eq|intros; reflexivity|].
    intros d5 HM5. pose proof (Hr _ _ Ha). apply twp_bind. unfold vm_ref_add.
    apply twp_bind. eapply Mk_get_vm; [exact HM5|apply with_vm_lookup|]. intros o Eo.
    assert (Er : vo_ref_count o = vv_ref vv) by (by apply (f_equal vv_ref) in Eo). rewrite Er.
    assert (Es : s32 (vv_ref vv + 1) = vv_ref vv + 1).
    { unfold s32. cbn zeta. rewrite Z.mod_small by lia. by rewrite (proj2 (Z.ltb_lt _ _)) by lia. }
    rewrite Es. apply twp_bind. eapply Mk_put_vm; [exact HM5|]. intros d6 HM6. apply twp_ret.
    apply twp_bind. eapply Mk_on_vcpu; [exact HM6|]. intros _ d7 HM7. apply twp_ret. eapply H; [exact Hq|exact Hvp|].
    eapply Mk_view; [exact HM7|].
    replace (vm_view_of (set_vo_ref_count (vv_ref vv + 1) o)) with (publish b vv2); [|].
    + unfold w2. by view_eq.
    + unfold publish. change (vv_ref vv2) with (vv_ref vv).
      change (vm_view_of (set_vo_ref_count (vv_ref vv + 1) o)) with (vv_set_ref (vv_ref vv + 1) (vm_view_of o)). by rewrite <- Eo.
Qed.

(** A part of the new virtual CPU is allocated. *)
Lemma Mk_part {A} k (set : option Z -> vcpu_obj -> vcpu_obj) (F : option Z -> vcpu_view -> vcpu_view) b cw (fail next : M driver A) N X w d
    (Q : A -> driver -> Prop) : Mk N X (vw b w cw) d -> (forall p c, vcpu_view_of (set p c) = F p (vcpu_view_of c)) ->
  (forall d', Mk N X (vw b w (F None cw)) d' -> twp fail d' Q) ->
  (forall p N' d', N <= N' -> Mk N' ({[+ p +]} ⊎ X) (vw b w (F (Some p) cw)) d' -> twp next d' Q) ->
  twp (p ← kalloc k; modify_vcpu b (set p);; if bool_decide (p = None) then fail else next) d Q.
Proof.
  intros HM HF H1 H2.
  assert (Hrest : forall p N' d', N <= N' -> Mk N' (opt_mem p ⊎ X) (vw b w cw) d' ->
    twp (modify_vcpu b (set p);; if bool_decide (p = None) then fail else next) d' Q).
  { intros p N' d' HN HM'. apply twp_bind. eapply (Mk_modify_vcpu _ _ (F p)); [exact HM'|apply vw_lookup|apply HF|].
    intros d1 HM1. unfold vw in HM1. rewrite with_vcpu_twice in HM1. apply twp_if; intros E.
    - apply bool_decide_eq_true in E as ->. apply H1. eapply Mk_weaken; [exact HM1|cbn [opt_mem]; msets|done].
    - apply bool_decide_eq_false in E. destruct p as [p|]; [|done]. eapply H2; [exact HN|exact HM1]. }
  apply twp_bind. eapply Mk_kalloc; [exact HM| |].
  - intros p d1 Hp HM1. eapply (Hrest (Some p)); [|exact HM1]. lia.
  - intros d1 HM1. eapply (Hrest None); [reflexivity|]. eapply Mk_weaken; [exact HM1|cbn [opt_mem]; msets|done].
Qed.
Lemma Mk_alloc_cpuid b cw N X w d (Q : bool -> driver -> Prop) : Mk N X (vw b w cw) d -> cw_id cw = 0 ->
  (forall d', Mk N X (vw b w (cw_set_cpuid None cw)) d' -> Q false d') ->
  (forall p N' d', N <= N' -> Mk N' ({[+ p +]} ⊎ X) (vw b w (cw_set_cpuid (Some p) cw)) d' -> Q true d') ->
  twp (vcpu_alloc_cpuid b) d Q.
Proof.
  intros HM Hi H1 H2. apply twp_bind. eapply Mk_get_vcpu; [exact HM|apply vw_lookup|]. intros c Ec.
  assert (Eid : co_vcpu_id c = 0) by (by rewrite <- Hi, Ec). rewrite Eid. cbn [Z.eqb negb].
  apply twp_bind. eapply Mk_kalloc; [exact HM| |].
  - intros p d1 Hp HM1. apply twp_bind. eapply (Mk_modify_vcpu _ _ (cw_set_cpuid (Some p))); [exact HM1|apply vw_lookup|intros; reflexivity|].
    intros d2 HM2. unfold vw in HM2. rewrite with_vcpu_twice in HM2. apply twp_bind. eapply Mk_upd; [exact HM2| |].
    + intros l n [E _]. exact E.
    + intros HM3. apply twp_ret. eapply (H2 p (p + 1)); [lia|exact HM3].
  - intros d1 HM1. apply twp_bind. eapply (Mk_modify_vcpu _ _ (cw_set_cpuid None)); [exact HM1|apply vw_lookup|intros; reflexivity|].
    intros d2 HM2. unfold vw in HM2. rewrite with_vcpu_twice in HM2. by apply twp_ret, H1.
Qed.

Definition cw_set_vmcs (x : option Z) (cw : vcpu_view) : vcpu_view :=
  VcpuView (cw_vm cw) (cw_id cw) (cw_vpid cw) (cw_ref cw) (cw_flags cw) x (cw_gfx cw) (cw_state cw)
    (cw_mutex cw) (cw_cpuid cw) (cw_tunnel cw) (cw_iobuf cw) (cw_host cw).
Definition cw_set_gfx (x : option Z) (cw : vcpu_view) : vcpu_view :=
  VcpuView (cw_vm cw) (cw_id cw) (cw_vpid cw) (cw_ref cw) (cw_flags cw) (cw_vmcs cw) x (cw_state cw)
    (cw_mutex cw) (cw_cpuid cw) (cw_tunnel cw) (cw_iobuf cw) (cw_host cw).
Definition cw_set_state (x : option Z) (cw : vcpu_view) : vcpu_view :=
  VcpuView (cw_vm cw) (cw_id cw) (cw_vpid cw) (cw_ref cw) (cw_flags cw) (cw_vmcs cw) (cw_gfx cw) x
    (cw_mutex cw) (cw_cpuid cw) (cw_tunnel cw) (cw_iobuf cw) (cw_host cw).
Definition cw_set_mutex (x : option Z) (cw : vcpu_view) : vcpu_view :=
  VcpuView (cw_vm cw) (cw_id cw) (cw_vpid cw) (cw_ref cw) (cw_flags cw) (cw_vmcs cw) (cw_gfx cw) (cw_state cw)
    x (cw_cpuid cw) (cw_tunnel cw) (cw_iobuf cw) (cw_host cw).
Definition blank_vcpu (a : Z) : vcpu_view := VcpuView a 0 0 0 0 None None None None None None None 0.
Ltac parts_msets := unfold vcpu_mem, vcpu_pages, parts, tunnel_mem; rewrite <- ?part_mem_ok by done;
  cbn [cw_vm cw_id cw_vmcs cw_gfx cw_state cw_mutex cw_cpuid cw_tunnel cw_iobuf cw_set_buffers cw_set_host cw_set_vmcs cw_set_gfx
       cw_set_state cw_set_mutex cw_set_cpuid cw_set_ref cw_set_vpid cw_set_id blank_vcpu opt_mem]; msets.

Definition added_vcpu (w : view) (a vm_host j : Z) (vv : vm_view) (b : Z) d : Prop := exists h m N cw vv',
  w_next w <= b < N /\ w_next w <= h < N /\ 0 <= j < HAX_MAX_VCPUS /\ DevVcpu (vv_id vv) j ∉ w_devices w /\
  made_vcpu b a j h vv vv' cw /\
  Mk N (({[+ h +]} ⊎ {[+ m +]}) ⊎ (vcpu_mem b cw ⊎ w_live w)) (add_vcpu b a h m vm_host vv vv' cw w) d.

Lemma vcpu_create_rule a vm_host j vv w d (Q : option Z -> driver -> Prop) : St w d -> 0 < w_next w ->
  (forall b, w_next w <= b -> w_vcpus w !! b = None) -> (forall h, w_next w <= h -> w_vcpu_hosts w !! h = None) ->
  w_vms w !! a = Some vv -> 0 <= vv_id vv < HAX_MAX_VMS -> listed w -> refs_small w -> vcpus_listed w ->
  (forall b d', added_vcpu w a vm_host j vv b d' -> Q (Some b) d') ->
  (forall d', Mk (w_next w) (w_live w) w d' -> Q None d') ->
  twp (vcpu_create G uninit info io_bitmap_a_pa io_bitmap_b_pa msr_bitmap_pa gmsr_autoload_pa a vm_host j) d Q.
Proof.
  intros HS HN Hvb Hvh Ha Hi Hl Hr Hc H1 H2. pose proof (Mk_intro _ _ HS) as HM. apply twp_if; intros Ej; [by apply twp_ret, H2|].
  apply negb_false_iff, andb_true_iff in Ej as [Ej1 Ej2]. apply Z.leb_le in Ej1. apply Z.ltb_lt in Ej2.
  apply twp_bind. eapply Mk_kalloc; [exact HM| |]; [|intros d1 HM1; by apply twp_ret, H2].
  intros b d1 Hnb HM1. pose proof (Hvb b Hnb) as Hb. apply twp_bind, twp_get, twp_bind. eapply Mk_put_vcpu; [exact HM1|].
  intros d2 HM2. change (with_vcpu b _ w) with (vw b w (blank_vcpu a)) in HM2. set (L := w_live w) in *.
  assert (Hdone : forall N d', w_next w <= N -> Mk N L w d' -> Q None d') by (intros N d' HNl HM'; apply H2; by eapply Mk_weaken).
  apply twp_bind. eapply (Mk_setup_tunnel b (blank_vcpu a) _ ({[+ b +]} ⊎ L)); [eapply Mk_weaken; [exact HM2| |reflexivity]|apply vw_lookup|done|done|].
  { cbn [part_mem blank_vcpu cw_tunnel cw_iobuf]. msets. }
  intros err t i N3 d3 Ht Hib HN3 HM3. unfold vw in HM3. rewrite with_vcpu_twice in HM3. fold (vw b w (cw_set_buffers t i (blank_vcpu a))) in HM3.
  set (cw3 := cw_set_buffers t i (blank_vcpu a)) in *. apply twp_if; intros _.
  { eapply (fail_1_rule _ _ Hb cw3); [eapply Mk_weaken; [exact HM3| |reflexivity]|intros d' HM'; eapply Hdone; [|exact HM']; lia]. msets. }
  eapply (Mk_part _ _ cw_set_vmcs); [exact HM3|intros; reflexivity| |].
  { intros d4 HM4. eapply (fail_2_rule _ _ Hb (cw_set_vmcs None cw3)); [eapply Mk_weaken; [exact HM4| |reflexivity]|done|done|intros d' HM'; eapply Hdone; [|exact HM']; lia].
    unfold cw3. parts_msets. }
  intros vmcs N4 d4 HN4 HM4. set (cw4 := cw_set_vmcs (Some vmcs) cw3) in *.
  eapply (Mk_part _ _ cw_set_gfx); [exact HM4|intros; reflexivity| |].
  { intros d5 HM5. eapply (fail_3_rule _ _ Hb (cw_set_gfx None cw4)); [eapply Mk_weaken; [exact HM5| |reflexivity]|done|done|intros d' HM'; eapply Hdone; [|exact HM']; lia].
    unfold cw4, cw3. parts_msets. }
  intros gfx N5 d5 HN5 HM5. set (cw5 := cw_set_gfx (Some gfx) cw4) in *.
  eapply (Mk_part _ _ cw_set_state); [exact HM5|intros; reflexivity| |].
  { intros d6 HM6. eapply (fail_4_rule _ _ Hb (cw_set_state None cw5)); [eapply Mk_weaken; [exact HM6| |reflexivity]|done|done|intros d' HM'; eapply Hdone; [|exact HM']; lia].
    unfold cw5, cw4, cw3. parts_msets. }
  intros state N6 d6 HN6 HM6. set (cw6 := cw_set_state (Some state) cw5) in *.
  eapply (Mk_part _ _ cw_set_mutex); [exact HM6|intros; reflexivity| |].
  { intros d7 HM7. eapply (fail_5_rule _ _ Hb (cw_set_mutex None cw6)); [eapply Mk_weaken; [exact HM7| |reflexivity]|done|done|intros d' HM'; eapply Hdone; [|exact HM']; lia].
    unfold cw6, cw5, cw4, cw3. parts_msets. }
  intros mutex N7 d7 HN7 HM7. set (cw7 := cw_set_mutex (Some mutex) cw6) in *.
  apply twp_bind. eapply Mk_alloc_cpuid; [exact HM7|done| |].
  { intros d8 HM8. cbn [negb]. eapply (fail_6_rule _ _ Hb (cw_set_cpuid None cw7)); [eapply Mk_weaken; [exact HM8| |reflexivity]|done|done|intros d' HM'; eapply Hdone; [|exact HM']; lia].
    unfold cw7, cw6, cw5, cw4, cw3. parts_msets. }
  intros tab N8 d8 HN8 HM8. cbn [negb]. set (cw8 := cw_set_cpuid (Some tab) cw7) in *.
  apply twp_bind. eapply Mk_get_vm; [exact HM8|exact Ha|]. intros o Eo.
  assert (Eid : vo_vm_id o = vv_id vv) by (by rewrite Eo). rewrite Eid.
  set (Y := {[+ tab +]} ⊎ ({[+ mutex +]} ⊎ ({[+ state +]} ⊎ ({[+ gfx +]} ⊎ ({[+ vmcs +]} ⊎ ({[+ b +]} ⊎ L)))))).
  apply twp_bind. eapply (Mk_vcpu_create_host b cw8 vm_host (vv_id vv) j N8 Y); [eapply Mk_weaken; [exact HM8| |reflexivity]|apply vw_lookup|done|exact Ht|exact Hib|lia| | |].
  { unfold Y. change (cw_tunnel cw8) with t. change (cw_iobuf cw8) with i. msets. }
  { intros h Hh. apply Hvh. lia. }
  2: { intros h t' i' d9 Ht' Hi' HM9. cbn [Z.eqb negb]. unfold vw in HM9. rewrite with_vcpu_twice in HM9.
       eapply (fail_7_rule _ _ Hb (cw_set_host h (cw_set_buffers t' i' cw8)));
         [eapply Mk_weaken; [exact HM9| |reflexivity]|done|exact Ht'|exact Hi'|intros d' HM'; eapply Hdone; [|exact HM']; lia].
       unfold Y, cw8, cw7, cw6, cw5, cw4, cw3. parts_msets. }
  intros h m N9 d9 Hh Hdev HM9. cbn [Z.eqb negb]. change (w_devices (vw b w cw8)) with (w_devices w) in Hdev.
  set (cw9 := cw_set_host h cw8) in *. set (w9 := new_vcpu_device b h m vm_host (vv_id vv) cw8 j (vw b w cw8)) in *.
  assert (E9 : forall c, w_vcpus (with_vcpu b c w9) = <[b := c]> (w_vcpus w)) by (intros c; unfold w9, vw; wcbn; unfold new_vcpu_device; wcbn; by rewrite !insert_insert_eq).
  eapply (Mk_start_vcpu b a j cw9 vv); [exact HM9|apply lookup_insert_eq|done|done|exact Ha|exact Hi|exact Hl|exact Hr| |].
  - intros c' c x b' Hx Hin. rewrite E9. destruct (Hc c x b' Hx Hin) as (y & Hy & Hry). exists y. split; [|exact Hry].
    rewrite lookup_insert_ne; [done|]. intros <-. by rewrite Hb in Hy.
  - intros q vpid seed d10 Hq Hvp HM10. apply H1. set (cw10 := cw_set_cpuid q (cw_set_ref 1 (cw_set_vpid vpid (cw_set_id j cw9)))) in *.
    exists h, m, N9, cw10, (publish b (vv_set_seed seed vv)).
    split_and!; [lia|lia|lia|lia|lia|lia|exact Hdev| |].
    + split; try done. by exists seed.
    + eapply Mk_weaken; [eapply Mk_view; [exact HM10|]| |reflexivity].
      * unfold w9, new_vcpu_device, add_vcpu, vw. by view_eq.
      * unfold Y, L. change (cw_tunnel cw8) with t. change (cw_iobuf cw8) with i. unfold cw10, cw9, cw8, cw7, cw6, cw5, cw4, cw3.
        unfold vcpu_mem, vcpu_pages, tunnel_mem.
        cbn [cw_id cw_set_cpuid cw_set_ref cw_set_vpid cw_set_id]. destruct (Z.eqb_spec j 0) as [E|E].
        -- rewrite (Hq E). change (cw_cpuid cw9) with (Some tab). parts_msets.
        -- parts_msets.
Qed.
End Vcpu.
End Make.
