(* ===== verification/VmLifeProps.v ===== *)
(** * The life of VMs and virtual CPUs

    [graph] is the invariant of the objects of the driver.  It holds in every state that calls of
    user space reach; no call of the life cycle uses an object that has been freed; and when every
    file has been closed, nothing is left. *)

From stdpp Require Import base numbers list gmap gmultiset.
From Stdlib Require Import ZArith Lia.
From S2P Require Import HaxList Bitmap MemTypes Ramblock Memslot MemslotSpec MemslotOwn MemslotCorrect GpaSpace GpaAccess.
From S2P Require Import IntrExc Prelude PageWalker Mmio SimpleHost.
From S2P Require Import EmTypes EmDemo Emulate EptTree EptProps Ept2 VmMemory VcpuEmu Cpuid CpuidDemo Vmx VcpuState VcpuCr.
From S2P Require Import VcpuMsr VcpuExit VcpuSync VcpuIo VcpuHost VcpuRun VcpuDemo HostHeap HaxInit VcpuInit VcpuNewDemo.
From S2P Require Import VmLife VmIoctl VmGraph VmCreate.
#[local] Open Scope Z_scope.

(** ** The end of an address space *)
Section Spaces.
Context {HH : Host} {E : Type}.
Implicit Types g : hax_gpa_space E.

Lemma delete_each_run l g : MemslotOwn.St g l [] g ->
  exists g', delete_each (nl_keys l) g = Some (tt, g') /\ MemslotOwn.St g' [] [] g' /\ gs_opaque g' = gs_opaque g.
Proof.
  revert g. induction l as [|s l IH]; intros g Hs; [by exists g|].
  destruct (delete_rule _ [] s l [] g Hs) as (g1 & Hrun & Hs1).
  destruct (IH g1 (Sx_rebase _ _ _ _ Hs1)) as (g2 & Hrun2 & Hs2 & Ho2). exists g2.
  split; [|by rewrite Ho2, (ev_opaque _ _ (st_evo _ _ _ _ Hs1))].
  cbn [delete_each nl_keys fmap list_fmap]. by rewrite (bind_run _ _ _ _ _ Hrun).
Qed.

Lemma remove_each_run ps g : ram_inv g -> ps = nl_keys (gs_ramblock_list g) ->
  exists g', remove_each ps g = Some (tt, g') /\ ram_inv g' /\ gs_ramblock_list g' = [] /\
    gs_memslot_list g' = gs_memslot_list g /\ gs_opaque g' = gs_opaque g.
Proof.
  revert g. induction ps as [|p ps IH]; intros g Hi Hk.
  - exists g. split_and!; try done. by destruct (gs_ramblock_list g).
  - destruct (gs_ramblock_list g) as [|b l] eqn:El; [done|]. injection Hk as -> ->.
    pose proof (bsw_nodup _ (ri_blocks _ Hi)) as Hnd. rewrite El in Hnd.
    assert (Hb : nl_get (rb_addr b) (gs_ramblock_list g) = Some b) by (rewrite El; cbn; by rewrite Z.eqb_refl).
    destruct (ram_inv_block _ _ _ Hi Hb) as (Hw & _ & _). pose proof (ram_inv_del _ _ _ Hi Hb) as Hi1.
    destruct (ramblock_free_chunks_run b (with_ramblocks (nl_del (rb_addr b)) g) Hw) as (b2 & g2 & Hf & Hh & _).
    destruct (host_step_blocks _ _ Hh) as (Eb & Em & _).
    assert (Hd : nl_del (rb_addr b) (b :: l) = l).
    { apply (nl_del_middle (H := ramblock_keyed) [] b l); [by intros ?%elem_of_nil|].
      unfold nl_keys in Hnd. cbn in Hnd. by inversion Hnd. }
    assert (El2 : gs_ramblock_list g2 = l) by (rewrite Eb; cbn -[nl_del]; by rewrite El, Hd).
    destruct (IH g2) as (g3 & Hrun & Hi3 & E3 & Em3 & Eo3); [by eapply ram_inv_host|by rewrite El2|].
    exists g3. split_and!; [|done|done|by rewrite Em3, Em|rewrite Eo3; by destruct Hh as (? & ? & _ & ->)].
    cbn [remove_each]. unfold ramblock_remove, ramblock_free.
    rewrite (bind_run _ _ g tt g2); [exact Hrun|].
    rewrite (bind_run _ _ _ _ _ (get_block_run _ _ _ Hb)). erewrite bind_run by reflexivity.
    by rewrite (bind_run _ _ _ _ _ Hf).
Qed.

Lemma gpa_space_free_run g : own_inv g ->
  exists g', gpa_space_free g = Some (tt, g') /\ own_inv g' /\ gs_memslot_list g' = [] /\ gs_ramblock_list g' = [] /\
    gp_bitmap (gs_prot g') = None /\ gs_opaque g' = gs_opaque g.
Proof.
  intros Hs. destruct (delete_each_run _ _ Hs) as (g1 & Hrun & Hs1 & Ho1).
  destruct (remove_each_run _ g1 (st_ram _ _ _ _ Hs1) eq_refl) as (g2 & Hrun2 & Hi2 & E2 & Em2 & Eo2).
  unfold gpa_space_free, memslot_free_list, ramblock_free_list.
  assert (Hs2 : gs_memslot_list g2 = []) by (by rewrite Em2, (st_list _ _ _ _ Hs1)).
  rewrite (bind_run _ _ g tt g1); [|done]. rewrite (bind_run _ _ g1 tt g2); [|done].
  eexists. split; [done|]. unfold own_inv. cbn. rewrite Hs2. split_and!; [|done|done|done|by rewrite Eo2, Ho1].
  assert (H0 : MemslotOwn.Sx g2 [] (refs [] []) g2).
  { split; [done|done| |exact (st_keys _ _ _ _ Hs1)|constructor|apply evo_refl]. intros p. by rewrite E2. }
  destruct H0 as [H1 [] H3 H4 H5 _]. split; cbn; [done|done|exact H3|done|done|apply evo_refl].
Qed.

Lemma own_same g g' : gs_memslot_list g' = gs_memslot_list g -> gs_ramblock_list g' = gs_ramblock_list g ->
  gs_next_addr g' = gs_next_addr g -> own_inv g -> own_inv g'.
Proof.
  unfold own_inv. intros Em Eb En [H1 [R1 R2 R3] H3 H4 H5 _]. rewrite Em.
  split; [done|split; rewrite ?Eb, ?En; done| |done|by rewrite En|apply evo_refl].
  intros p. rewrite Eb. apply H3.
Qed.
End Spaces.

Section Laws.
Context {HH : Host} {PH : PhysHost}.
Definition own_ok (v : vm_t) : Prop := own_inv (vm_gpa_space v).

Lemma page_list_freed l t : exists t', free_pages l t = Some (tt, t') /\
  forall q, q ∈ et_page_list t' -> q ∈ et_page_list t /\ q ∉ l.
Proof.
  revert t. induction l as [|p l IH]; intros t.
  - exists t. split; [done|]. intros q Hq. split; [done|apply not_elem_of_nil].
  - destruct (IH (set_frames (delete p) (set_page_list (filter (fun q => q <> p)) t))) as (t' & Hrun & E).
    exists t'. split; [exact Hrun|]. intros q [Hq Hl]%E. cbn in Hq. apply list_elem_of_filter in Hq as [Hne Hq].
    split; [done|]. by rewrite not_elem_of_cons.
Qed.
#[export] Instance own_laws : SpaceLaws own_ok.
Proof.
  split.
  - intros v h p. by apply own_same.
  - intros a v Hv. eexists _, _. split; [done|]. by apply (own_same (vm_gpa_space v)).
  - intros v Hv. destruct (page_list_freed (et_page_list (gs_opaque (vm_gpa_space v))) (gs_opaque (vm_gpa_space v))) as (t' & Ht & El).
    eexists 0, (set_space (with_opaque t' (vm_gpa_space v)) v). split; [|split; [by apply (own_same (vm_gpa_space v))|]].
    2: { apply elem_of_nil_inv. intros q Hq. by destruct (El q Hq). }
    unfold on_space, on_tree, ept_tree_free. rewrite gets_run. by rewrite (bind_run _ _ _ _ _ Ht).
  - intros v Hv. destruct (gpa_space_free_run _ Hv) as (g' & Hrun & Hg' & Em & Eb & Ep & Eo).
    exists tt, (set_space g' v). split; [unfold on_space; by rewrite Hrun|]. split; [done|].
    intros Ht. unfold remains. cbn. unfold tree_pages in Ht. by rewrite Em, Eb, Ep, Eo, Ht.
  - intros k v [u ->] Hv. destruct (host_call_step hax_unmap_user_pages (vm_gpa_space v)) as (r & g' & Hrun & Hh).
    exists tt, (set_space g' v). split.
    + unfold on_space, gpa_space_unmap_page, unmap_user_pages. rewrite (bind_run _ _ _ r g'); [done|]. done.
    + unfold own_ok, own_inv. cbn [vm_gpa_space set_space]. destruct (host_step_blocks _ _ Hh) as (_ & -> & _).
      eapply Sx_rebase, Sx_host; [exact Hh|exact Hv].
Qed.
End Laws.


(** ** The invariant *)
Definition owned (w : view) : gmultiset Z :=
  msum vm_mem (w_vms w) ⊎ (msum vm_host_mem (w_vm_hosts w) ⊎
    (msum vcpu_mem (w_vcpus w) ⊎ msum vcpu_host_mem (w_vcpu_hosts w))).

(** The VPID of a virtual CPU: a bit of its VM, below the number of the VM; 0 is none. *)
Definition vpid_good (vv : vm_view) (cw : vcpu_view) : Prop :=
  cw_vpid cw = 0 \/
  exists bit, 0 <= bit < VPID_SEED_BITS /\ Z.testbit (vv_seed vv) bit = true /\ cw_vpid cw = vv_id vv * 256 + (bit + 1).

Record vm_good (w : view) (cr : Z -> Z) (a : Z) (vv : vm_view) : Prop := {
  vg_id : 0 <= vv_id vv < HAX_MAX_VMS;
  vg_nodup : NoDup (vv_vcpus vv);
  vg_vcpus b : b ∈ vv_vcpus vv -> exists cw, w_vcpus w !! b = Some cw /\ cw_vm cw = a;
  vg_ref : vv_ref vv = cr a + Z.of_nat (length (vv_vcpus vv));
  vg_cr : 0 <= cr a < 2 ^ 20;
  vg_pos : 0 < vv_ref vv;
  vg_p2m : Forall (eq None) (vv_p2m vv);
  vg_ram : vv_ram vv = None;
  vg_mems : vv_mems vv = [];
  vg_host : exists n, w_vm_hosts w !! vv_host vv = Some (VmLinux a (vv_id vv) (Some (DevVm (vv_id vv), n)));
}.
Record vcpu_good (w : view) (vr : Z -> Z) (b : Z) (cw : vcpu_view) (vv : vm_view) : Prop := {
  cg_id : 0 <= cw_id cw < HAX_MAX_VCPUS;
  cg_listed : b ∈ vv_vcpus vv;
  cg_vpid : vpid_good vv cw;
  cg_ref : cw_ref cw = vr b;
  cg_vr : 0 < vr b < 2 ^ 20;
  cg_tunnel : buffer_ok (cw_tunnel cw);
  cg_iobuf : buffer_ok (cw_iobuf cw);
  cg_host : exists n, w_vcpu_hosts w !! cw_host cw =
    Some (VcpuLinux b (vv_host vv) (cw_id cw) (Some (DevVcpu (vv_id vv) (cw_id cw), n)));
  cg_dev : DevVcpu (vv_id vv) (cw_id cw) ∈ w_devices w;
}.
Definition keys_ok {A} (next : Z) (m : gmap Z A) : Prop := forall a, is_Some (m !! a) -> 0 < a < next.
(** A device exists for a VM, or for a virtual CPU. *)
Definition device_used (w : view) (x : device) : Prop :=
  match x with
  | DevVm i => exists a vv, w_vms w !! a = Some vv /\ vv_id vv = i
  | DevVcpu i j => exists b cw vv, w_vcpus w !! b = Some cw /\ w_vms w !! cw_vm cw = Some vv /\ vv_id vv = i /\ cw_id cw = j
  end.

(** [cr] and [vr] are the references to a VM besides those of its virtual CPUs, and those to a
    virtual CPU. *)
Record graph (w : view) (cr vr : Z -> Z) : Prop := {
  g_mem : owned w ⊆ w_live w;
  g_next : 0 < w_next w;
  g_keys : keys_ok (w_next w) (w_vms w) /\ keys_ok (w_next w) (w_vm_hosts w) /\
           keys_ok (w_next w) (w_vcpus w) /\ keys_ok (w_next w) (w_vcpu_hosts w);
  g_list : NoDup (w_list w);
  g_listed a : a ∈ w_list w <-> is_Some (w_vms w !! a);
  g_vm a vv : w_vms w !! a = Some vv -> vm_good w cr a vv;
  g_vcpu b cw : w_vcpus w !! b = Some cw -> exists vv, w_vms w !! cw_vm cw = Some vv /\ vcpu_good w vr b cw vv;
  g_vm_host h x : w_vm_hosts w !! h = Some x -> exists vv, w_vms w !! vh_cvm x = Some vv /\ vv_host vv = h;
  g_vcpu_host h x : w_vcpu_hosts w !! h = Some x -> exists cw, w_vcpus w !! ch_cvcpu x = Some cw /\ cw_host cw = h;
  g_vm_ids a a' vv vv' : w_vms w !! a = Some vv -> w_vms w !! a' = Some vv' -> vv_id vv = vv_id vv' -> a = a';
  g_vcpu_ids b b' cw cw' : w_vcpus w !! b = Some cw -> w_vcpus w !! b' = Some cw' -> cw_vm cw = cw_vm cw' ->
    cw_id cw = cw_id cw' -> b = b';
  g_vpids b b' cw cw' : w_vcpus w !! b = Some cw -> w_vcpus w !! b' = Some cw' -> cw_vpid cw <> 0 ->
    cw_vpid cw = cw_vpid cw' -> b = b';
  g_bits i : Z.testbit (w_bits w) i = true <-> exists a vv, w_vms w !! a = Some vv /\ vv_id vv = i;
  g_devices x : x ∈ w_devices w -> device_used w x;
}.

Section Graph.
Context (w : view) (cr vr : Z -> Z) (Hg : graph w cr vr).

Lemma vcpu_count a vv : w_vms w !! a = Some vv -> (length (vv_vcpus vv) <= Z.to_nat HAX_MAX_VCPUS)%nat.
Proof.
  intros Ha. destruct (g_vm _ _ _ Hg _ _ Ha) as [_ Hnd Hin _ _ _ _ _ _ _].
  set (ids := (fun b => match w_vcpus w !! b with Some cw => cw_id cw | None => 0 end) <$> vv_vcpus vv).
  replace (length (vv_vcpus vv)) with (length ids) by apply length_fmap.
  replace (Z.to_nat HAX_MAX_VCPUS) with (length (seqZ 0 HAX_MAX_VCPUS)) by apply length_seqZ.
  apply submseteq_length, NoDup_submseteq.
  - apply NoDup_fmap_2_strong; [|done]. intros b b' Hb Hb'. destruct (Hin b Hb) as (cw & E & Em), (Hin b' Hb') as (cw' & E' & Em').
    rewrite E, E'. intros Hid. eapply (g_vcpu_ids _ _ _ Hg); [exact E|exact E'|congruence|done].
  - intros i (b & -> & Hb)%list_elem_of_fmap. destruct (Hin b Hb) as (cw & E & _). rewrite E.
    destruct (g_vcpu _ _ _ Hg _ _ E) as (vv' & _ & [Hid _ _ _ _ _ _ _ _]). apply elem_of_seqZ. lia.
Qed.
Lemma vm_ref_small a vv : w_vms w !! a = Some vv -> 0 < vv_ref vv < 2 ^ 30.
Proof.
  intros Ha. pose proof (vcpu_count _ _ Ha). destruct (g_vm _ _ _ Hg _ _ Ha) as [_ _ _ Hr Hc Hp _ _ _ _].
  unfold HAX_MAX_VCPUS in *. lia.
Qed.
Lemma graph_refs_small : refs_small w.
Proof. intros a vv Ha. by eapply vm_ref_small. Qed.
Lemma graph_list : listed w.
Proof. intros a Ha. by apply (g_listed _ _ _ Hg). Qed.
Lemma graph_vcpus_listed : vcpus_listed w.
Proof.
  intros a vv b Ha Hb. destruct (vg_vcpus _ _ _ _ (g_vm _ _ _ Hg _ _ Ha) _ Hb) as (cw & E & _). exists cw. split; [done|].
  destruct (g_vcpu _ _ _ Hg _ _ E) as (vv' & _ & [_ _ _ -> Hvr _ _ _ _]). lia.
Qed.
(** A number belongs to one VM, and in a VM to one virtual CPU. *)
Lemma finds_graph a vv r : w_vms w !! a = Some vv -> finds w (vv_id vv) (w_list w) r -> r = Some a.
Proof.
  intros Ha Hf. destruct r as [a'|].
  - destruct Hf as (_ & vv' & Ha' & Hi). f_equal. by eapply (g_vm_ids _ _ _ Hg).
  - destruct (Hf a vv); [apply (g_listed _ _ _ Hg); by exists vv|done..].
Qed.
Lemma got_vcpu_graph b cw vv n r w' : w_vcpus w !! b = Some cw -> w_vms w !! cw_vm cw = Some vv ->
  got_vcpu w (vv_id vv) (cw_id cw) n r w' -> r = Some b /\ w' = with_vcpu b (cw_set_ref (cw_ref cw + n) cw) w.
Proof.
  intros Hb Hv. destruct (g_vcpu _ _ _ Hg _ _ Hb) as (vv0 & E & Hc). rewrite Hv in E. injection E as <-.
  destruct r as [b'|].
  - intros (a & vv' & cw' & _ & Ha & Hi & Hin & Hb' & Hj & ->).
    assert (a = cw_vm cw) as -> by (by eapply (g_vm_ids _ _ _ Hg)).
    destruct (vg_vcpus _ _ _ _ (g_vm _ _ _ Hg _ _ Ha) _ Hin) as (cw2 & E2 & Em). rewrite Hb' in E2. injection E2 as <-.
    assert (b' = b) as -> by (by eapply (g_vcpu_ids _ _ _ Hg)). rewrite Hb in Hb'. by injection Hb' as <-.
  - intros [_ Hno]. destruct (Hno (cw_vm cw) vv b cw) as (a' & Hne & _ & vv' & Ha' & Hi');
      [apply (g_listed _ _ _ Hg); by exists vv|done|done|apply Hc|done|done|].
    destruct Hne. by eapply (g_vm_ids _ _ _ Hg).
Qed.
Lemma graph_complete a vv : w_vms w !! a = Some vv -> vm_complete a vv w.
Proof.
  intros Ha. destruct (g_vm _ _ _ Hg _ _ Ha) as [_ _ _ _ _ _ Hp Hr Hm [n Hh]]. split; try done.
  - destruct (g_keys _ _ _ Hg) as (_ & K & _ & _). destruct (K (vv_host vv)); [by eexists|lia].
  - by exists n.
Qed.
Lemma graph_vcpu_complete b cw : w_vcpus w !! b = Some cw -> vcpu_complete b cw w.
Proof.
  intros Hb. destruct (g_vcpu _ _ _ Hg _ _ Hb) as (vv & _ & [_ _ _ _ _ Ht Hi [n Hh] _]). split; try done.
  - destruct (g_keys _ _ _ Hg) as (_ & _ & _ & K). destruct (K (cw_host cw)); [by eexists|lia].
  - by exists (vv_host vv), (vv_id vv), n.
Qed.
End Graph.

Definition at_key (f : Z -> Z) (a x : Z) : Z -> Z := fun b => if decide (b = a) then x else f b.
Lemma at_key_eq f a x : at_key f a x a = x.
Proof. unfold at_key. by rewrite decide_True. Qed.
Lemma at_key_ne f a x b : b <> a -> at_key f a x b = f b.
Proof. intros H. unfold at_key. by rewrite decide_False. Qed.

Lemma elem_without b l x : x ∈ list_without b l <-> x <> b /\ x ∈ l.
Proof. unfold list_without. by rewrite list_elem_of_filter. Qed.
Lemma nodup_without b l : NoDup l -> NoDup (list_without b l).
Proof.
  induction 1 as [|x l Hx Hl IH]; [constructor|]. unfold list_without. rewrite filter_cons. case_decide; [|done].
  constructor; [|done]. by intros [_ ?]%elem_without.
Qed.
Lemma length_without b l : NoDup l -> b ∈ l -> length l = S (length (list_without b l)).
Proof.
  induction 1 as [|x l Hx Hl IH]; intros Hb; [by apply elem_of_nil in Hb|]. unfold list_without. rewrite filter_cons.
  case_decide as Hd.
  - cbn. f_equal. apply IH. by apply elem_of_cons in Hb as [->|?].
  - cbn. f_equal. assert (x = b) as -> by (by destruct (decide (x = b))). clear IH Hb Hd.
    induction l as [|y l IH2]; [done|]. rewrite filter_cons. apply not_elem_of_cons in Hx as [Hne Hx]. inversion Hl as [|? ? ? Hl2]; subst.
    rewrite decide_True by done. cbn. f_equal. by apply IH2.
Qed.

Section Updates.
Context (w : view) (cr vr : Z -> Z) (Hg : graph w cr vr).

Lemma graph_ext cr' vr' : (forall a, is_Some (w_vms w !! a) -> cr' a = cr a) ->
  (forall b, is_Some (w_vcpus w !! b) -> vr' b = vr b) -> graph w cr' vr'.
Proof.
  intros Hc Hv. destruct Hg as [G1 G2 G3 G4 G5 G6 G7 G8 G9 G10 G11 G12 G13 G14]. split; try done.
  - intros a vv Ha. destruct (G6 a vv Ha). rewrite <- Hc in *; by eexists.
  - intros b cw Hb. destruct (G7 b cw Hb) as (vv & Ha & []). exists vv. split; [done|]. rewrite <- Hv in *; by eexists.
Qed.

(** A VM with another count, or other flags. *)
Lemma graph_vm_update a vv r f cr' : w_vms w !! a = Some vv -> (forall b, b <> a -> cr' b = cr b) ->
  0 <= cr' a < 2 ^ 20 -> r = cr' a + Z.of_nat (length (vv_vcpus vv)) -> 0 < r ->
  graph (with_vm a (vv_set_flags f (vv_set_ref r vv)) w) cr' vr.
Proof.
  intros Ha Hc Hc' Hr Hp. set (vv' := vv_set_flags f (vv_set_ref r vv)).
  assert (Hlk : forall b x, w_vms (with_vm a vv' w) !! b = Some x -> exists y, w_vms w !! b = Some y /\
    vv_id x = vv_id y /\ vv_host x = vv_host y /\ vv_seed x = vv_seed y /\ vv_vcpus x = vv_vcpus y).
  { intros b x. wcbn. rewrite lookup_insert_Some. intros [[<- <-]|[_ Hb]]; [by exists vv|by exists x]. }
  assert (Hlk' : forall b y, w_vms w !! b = Some y -> exists x, w_vms (with_vm a vv' w) !! b = Some x /\
    vv_id x = vv_id y /\ vv_host x = vv_host y /\ vv_seed x = vv_seed y /\ vv_vcpus x = vv_vcpus y).
  { intros b y Hb. wcbn. destruct (decide (a = b)) as [<-|Hne]; [|exists y; by rewrite lookup_insert_ne].
    rewrite lookup_insert_eq. rewrite Ha in Hb. injection Hb as <-. by exists vv'. }
  destruct Hg as [G1 G2 G3 G4 G5 G6 G7 G8 G9 G10 G11 G12 G13 G14]. split; try done.
  - etrans; [|exact G1]. unfold owned. wcbn. by rewrite (msum_same _ _ _ _ _ Ha).
  - destruct G3 as (K1 & K2 & K3 & K4). split_and!; try done. intros b [x Hb]. destruct (Hlk b x Hb) as (y & Hy & _).
    apply K1. by exists y.
  - intros b. rewrite G5. split; [intros [y Hy]; destruct (Hlk' b y Hy) as (x & Hx & _); by exists x|].
    intros [x Hx]. destruct (Hlk b x Hx) as (y & Hy & _). by exists y.
  - intros b x. wcbn. rewrite lookup_insert_Some. intros [[<- <-]|[Hne Hb]].
    + destruct (G6 a vv Ha). by split.
    + destruct (G6 b x Hb). by split; rewrite ?Hc.
  - intros b cw Hb. destruct (G7 b cw Hb) as (y & Hy & []). destruct (Hlk' _ y Hy) as (x & Hx & Ei & Eh & Es & El).
    exists x. split; [done|]. split; rewrite ?Ei, ?Eh, ?El; try done.
    unfold vpid_good. by rewrite Es, Ei.
  - intros h x Hx. destruct (G8 h x Hx) as (y & Hy & <-). destruct (Hlk' _ y Hy) as (z & Hz & _ & Eh & _). by exists z.
  - intros b b' x x' Hx Hx'. destruct (Hlk b x Hx) as (y & Hy & -> & _), (Hlk b' x' Hx') as (y' & Hy' & -> & _). exact (G10 _ _ _ _ Hy Hy').
  - intros i. rewrite G13. split.
    + intros (b & y & Hy & <-). destruct (Hlk' b y Hy) as (x & Hx & Ei & _). by exists b, x.
    + intros (b & x & Hx & <-). destruct (Hlk b x Hx) as (y & Hy & Ei & _). by exists b, y.
  - intros dev Hd. specialize (G14 dev Hd). destruct dev as [i|i j].
    + destruct G14 as (b & y & Hy & <-). destruct (Hlk' b y Hy) as (x & Hx & Ei & _). by exists b, x.
    + destruct G14 as (b & cw & y & Hb & Hy & <- & <-). destruct (Hlk' _ y Hy) as (x & Hx & Ei & _). by exists b, cw, x.
Qed.

Lemma graph_vcpu_update b cw r f vr' : w_vcpus w !! b = Some cw -> (forall a, a <> b -> vr' a = vr a) ->
  0 < vr' b < 2 ^ 20 -> r = vr' b -> graph (with_vcpu b (cw_set_flags f (cw_set_ref r cw)) w) cr vr'.
Proof.
  intros Hb Hc Hc' Hr. set (cw' := cw_set_flags f (cw_set_ref r cw)).
  assert (Hlk : forall a x, w_vcpus (with_vcpu b cw' w) !! a = Some x -> exists y, w_vcpus w !! a = Some y /\
    cw_id x = cw_id y /\ cw_vm x = cw_vm y /\ cw_vpid x = cw_vpid y /\ cw_host x = cw_host y).
  { intros a x. wcbn. rewrite lookup_insert_Some. intros [[<- <-]|[_ Ha]]; [by exists cw|by exists x]. }
  assert (Hlk' : forall a y, w_vcpus w !! a = Some y -> exists x, w_vcpus (with_vcpu b cw' w) !! a = Some x /\
    cw_id x = cw_id y /\ cw_vm x = cw_vm y /\ cw_vpid x = cw_vpid y /\ cw_host x = cw_host y).
  { intros a y Ha. wcbn. destruct (decide (b = a)) as [<-|Hne]; [|exists y; by rewrite lookup_insert_ne].
    rewrite lookup_insert_eq. rewrite Hb in Ha. injection Ha as <-. by exists cw'. }
  destruct Hg as [G1 G2 G3 G4 G5 G6 G7 G8 G9 G10 G11 G12 G13 G14]. split; try done.
  - etrans; [|exact G1]. unfold owned. wcbn. by rewrite (msum_same vcpu_mem _ _ cw' _ Hb).
  - destruct G3 as (K1 & K2 & K3 & K4). split_and!; try done. intros a [x Ha]. destruct (Hlk a x Ha) as (y & Hy & _).
    apply K3. by exists y.
  - intros a vv Ha. destruct (G6 a vv Ha) as [V1 V2 V3 V4 V5 V6 V7 V8 V9 V10]. split; try done.
    intros b' Hb'. destruct (V3 b' Hb') as (y & Hy & <-). destruct (Hlk' b' y Hy) as (x & Hx & _ & Em & _). by exists x.
  - intros a x. wcbn. rewrite lookup_insert_Some. intros [[<- <-]|[Hne Ha]].
    + destruct (G7 b cw Hb) as (vv & Hv & []). exists vv. split; [done|]. by split.
    + destruct (G7 a x Ha) as (vv & Hv & []). exists vv. split; [done|]. by split; rewrite ?Hc.
  - intros h x Hx. destruct (G9 h x Hx) as (y & Hy & <-). destruct (Hlk' _ y Hy) as (z & Hz & _ & _ & _ & Eh). by exists z.
  - intros a a' x x' Hx Hx'. destruct (Hlk a x Hx) as (y & Hy & -> & -> & _), (Hlk a' x' Hx') as (y' & Hy' & -> & -> & _). exact (G11 _ _ _ _ Hy Hy').
  - intros a a' x x' Hx Hx'. destruct (Hlk a x Hx) as (y & Hy & _ & _ & -> & _), (Hlk a' x' Hx') as (y' & Hy' & _ & _ & -> & _).
    exact (G12 _ _ _ _ Hy Hy').
  - intros dev Hd. specialize (G14 dev Hd). destruct dev as [i|i j]; [done|].
    destruct G14 as (a & y & vv & Ha & Hv & <- & <-). destruct (Hlk' _ y Ha) as (x & Hx & Ei & Em & _).
    exists a, x, vv. rewrite Em. by split_and!.
Qed.

Lemma clearbit_true x i j : Z.testbit (Z.clearbit x i) j = true <-> Z.testbit x j = true /\ j <> i.
Proof.
  rewrite Z.clearbit_eqb. destruct (Z.eqb_spec i j) as [->|Hne].
  - rewrite andb_false_r. split; [done|by intros [_ []]].
  - rewrite andb_true_r. split; [auto|by intros []].
Qed.

(** The VM with its last reference is gone. *)
Definition gone_vm (a : Z) (vv : vm_view) (x : hax_vm_linux_t) : view :=
  View (w_live w ∖ (vm_mem a vv ⊎ vm_host_mem (vv_host vv) x)) (w_next w) (Z.clearbit (w_bits w) (vv_id vv))
    (list_without a (w_list w)) (delete a (w_vms w)) (w_vcpus w) (delete (vv_host vv) (w_vm_hosts w))
    (w_vcpu_hosts w) (w_devices w ∖ {[DevVm (vv_id vv)]}).
Lemma vm_mem_owned a vv x : w_vms w !! a = Some vv -> w_vm_hosts w !! vv_host vv = Some x ->
  vm_mem a vv ⊎ vm_host_mem (vv_host vv) x ⊎ owned (gone_vm a vv x) = owned w.
Proof.
  intros Ha Hx. unfold owned, gone_vm. wcbn. rewrite (msum_delete vm_mem _ _ _ Ha), (msum_delete vm_host_mem _ _ _ Hx).
  multiset_solver.
Qed.
Lemma graph_drop_vm a vv x : w_vms w !! a = Some vv -> vv_vcpus vv = [] -> w_vm_hosts w !! vv_host vv = Some x ->
  graph (gone_vm a vv x) cr vr.
Proof.
  intros Ha Hl Hx. pose proof (vm_mem_owned a vv x Ha Hx) as Hmem. set (w' := gone_vm a vv x) in *.
  destruct Hg as [G1 G2 G3 G4 G5 G6 G7 G8 G9 G10 G11 G12 G13 G14].
  assert (Hv : forall b cw, w_vcpus w !! b = Some cw -> cw_vm cw <> a).
  { intros b cw Hb E. destruct (G7 b cw Hb) as (vv' & Hvv' & [_ Hin _ _ _ _ _ _ _]). rewrite E, Ha in Hvv'.
    injection Hvv' as <-. rewrite Hl in Hin. by apply elem_of_nil in Hin. }
  assert (Hk : forall b y, w_vms w' !! b = Some y <-> b <> a /\ w_vms w !! b = Some y)
    by (intros; unfold w', gone_vm; wcbn; rewrite lookup_delete_Some; naive_solver).
  assert (Hkh : forall h y, w_vm_hosts w' !! h = Some y <-> h <> vv_host vv /\ w_vm_hosts w !! h = Some y)
    by (intros; unfold w', gone_vm; wcbn; rewrite lookup_delete_Some; naive_solver).
  split.
  - rewrite <- Hmem in G1. change (w_live w') with (w_live w ∖ (vm_mem a vv ⊎ vm_host_mem (vv_host vv) x)).
    by apply mem_sub_diff.
  - done.
  - destruct G3 as (K1 & K2 & K3 & K4). split_and!; try done; intros b [y Hy].
    + apply Hk in Hy as [_ Hy]. apply K1. by exists y.
    + apply Hkh in Hy as [_ Hy]. apply K2. by exists y.
  - by apply nodup_without.
  - intros b. change (w_list w') with (list_without a (w_list w)). rewrite elem_without, G5. split.
    + intros [Hne [y Hy]]. exists y. by apply Hk.
    + intros [y Hy]. apply Hk in Hy as [Hne Hy]. split; [done|by exists y].
  - intros b y [Hne Hy]%Hk. destruct (G6 b y Hy) as [V1 V2 V3 V4 V5 V6 V7 V8 V9 [n Hn]]. split; try done.
    exists n. apply Hkh. split; [|done]. intros E. rewrite E, Hx in Hn. injection Hn as ->.
    destruct (G6 a vv Ha) as [_ _ _ _ _ _ _ _ _ [m Hm]]. rewrite Hx in Hm. by injection Hm.
  - intros b cw Hb. destruct (G7 b cw Hb) as (y & Hy & []). exists y. split; [apply Hk; split; [by eapply Hv|done]|].
    split; try done. apply elem_of_difference. split; [done|]. by intros ?%elem_of_singleton.
  - intros h y [Hne Hy]%Hkh. destruct (G8 h y Hy) as (z & Hz & Ez). exists z. split; [|done].
    apply Hk. split; [|done]. intros E. rewrite E, Ha in Hz. injection Hz as <-. done.
  - done.
  - intros b b' y y' [_ Hy]%Hk [_ Hy']%Hk. exact (G10 _ _ _ _ Hy Hy').
  - done.
  - done.
  - intros i. change (w_bits w') with (Z.clearbit (w_bits w) (vv_id vv)). rewrite clearbit_true, G13. split.
    + intros [(b & y & Hy & Ei) Hne]. exists b, y. split; [|done]. apply Hk. split; [|done]. intros ->. rewrite Ha in Hy. congruence.
    + intros (b & y & Hy & Ei). apply Hk in Hy as [Hne Hy]. split; [by exists b, y|]. intros E. apply Hne.
      apply (G10 b a y vv); [done|done|congruence].
  - intros dev [Hd Hne]%elem_of_difference. specialize (G14 dev Hd). destruct dev as [i|i j].
    + destruct G14 as (b & y & Hy & Ei). exists b, y. split; [|done]. apply Hk. split; [|done].
      intros ->. rewrite Ha in Hy. injection Hy as <-. apply Hne. rewrite <- Ei. by apply elem_of_singleton.
    + destruct G14 as (b & cw & y & Hb & Hy & Ei). exists b, cw, y. split; [done|]. split; [|done]. apply Hk. split; [by eapply Hv|done].
Qed.

Lemma free_vpid_bit_other vv cw cw' : 0 <= vv_id vv < HAX_MAX_VMS -> vpid_good vv cw -> cw_vpid cw' = 0 \/ cw_vpid cw <> cw_vpid cw' ->
  vpid_good vv cw' -> vpid_good (vv_set_seed (free_vpid_bit (cw_vpid cw) (vv_seed vv)) vv) cw'.
Proof.
  intros Hi Hv Hne [H0|(bit' & Hb' & Ht' & E')]; [by left|]. destruct Hne as [H0|Hne]; [by left|].
  right. exists bit'. split; [done|]. split; [|done]. change (Z.testbit (free_vpid_bit (cw_vpid cw) (vv_seed vv)) bit' = true).
  unfold free_vpid_bit. destruct (Z.eqb_spec (cw_vpid cw) 0) as [E0|E0]; [done|].
  destruct Hv as [?|(bit & Hb & Ht & E)]; [done|]. apply clearbit_true. split; [done|]. intros ->. apply Hne.
  rewrite E, E'. unfold VPID_SEED_BITS in *. rewrite E. change 0xff with (Z.ones 8). rewrite Z.land_ones by lia.
  unfold u8. rewrite <- (Z.mod_unique (vv_id vv * 256 + (bit + 1)) (2 ^ 8) (vv_id vv) (bit + 1)) by lia.
  replace (bit + 1 - 1) with bit by lia. rewrite Z.mod_small by lia. lia.
Qed.

Lemma vcpu_mem_owned b cw vv h i n : w_vcpus w !! b = Some cw -> w_vms w !! cw_vm cw = Some vv ->
  w_vcpu_hosts w !! cw_host cw = Some (VcpuLinux b h (cw_id cw) (Some (i, n))) ->
  (vcpu_mem b cw ⊎ ({[+ cw_host cw +]} ⊎ {[+ n +]})) ⊎ owned (without_vcpu b cw vv i n w) = owned w.
Proof.
  intros Hb Hv Hx. unfold owned, without_vcpu. wcbn.
  rewrite (msum_delete vcpu_mem _ _ _ Hb), (msum_delete vcpu_host_mem _ _ _ Hx).
  rewrite (msum_same vm_mem _ vv (vm_after b cw vv) _ Hv) by done. unfold vcpu_host_mem. wcbn. multiset_solver.
Qed.
(** The virtual CPU with its last reference is gone; its reference to the VM is still there. *)
Lemma graph_drop_vcpu b cw vv n : w_vcpus w !! b = Some cw -> w_vms w !! cw_vm cw = Some vv ->
  w_vcpu_hosts w !! cw_host cw = Some (VcpuLinux b (vv_host vv) (cw_id cw) (Some (DevVcpu (vv_id vv) (cw_id cw), n))) ->
  cr (cw_vm cw) + 1 < 2 ^ 20 ->
  graph (without_vcpu b cw vv (DevVcpu (vv_id vv) (cw_id cw)) n w) (at_key cr (cw_vm cw) (cr (cw_vm cw) + 1)) vr.
Proof.
  intros Hb Hv Hx Hcr. pose proof (vcpu_mem_owned b cw vv _ _ n Hb Hv Hx) as Hmem.
  set (i := DevVcpu _ _) in *. set (w' := without_vcpu b cw vv i n w) in *. set (a := cw_vm cw) in *.
  destruct Hg as [G1 G2 G3 G4 G5 G6 G7 G8 G9 G10 G11 G12 G13 G14].
  destruct (G7 b cw Hb) as (vv0 & E & Hc0). fold a in E. rewrite Hv in E. injection E as <-.
  assert (Hk : forall c y, w_vcpus w' !! c = Some y <-> c <> b /\ w_vcpus w !! c = Some y)
    by (intros; unfold w', without_vcpu; wcbn; rewrite lookup_delete_Some; naive_solver).
  assert (Hkh : forall h y, w_vcpu_hosts w' !! h = Some y <-> h <> cw_host cw /\ w_vcpu_hosts w !! h = Some y)
    by (intros; unfold w', without_vcpu; wcbn; rewrite lookup_delete_Some; naive_solver).
  assert (Hlk : forall c x, w_vms w' !! c = Some x -> exists y, w_vms w !! c = Some y /\ vv_id x = vv_id y /\ vv_host x = vv_host y).
  { intros c x. change (w_vms w') with (<[a := vm_after b cw vv]> (w_vms w)). rewrite lookup_insert_Some.
    intros [[<- <-]|[_ Hc]]; [by exists vv|by exists x]. }
  assert (Hlk' : forall c y, w_vms w !! c = Some y -> exists x, w_vms w' !! c = Some x /\ vv_id x = vv_id y /\ vv_host x = vv_host y /\
     (x = y \/ c = a /\ y = vv /\ x = vm_after b cw vv)).
  { intros c y Hc. change (w_vms w') with (<[a := vm_after b cw vv]> (w_vms w)).
    destruct (decide (a = c)) as [<-|Hne]; [|exists y; rewrite lookup_insert_ne by done; by auto].
    rewrite lookup_insert_eq. rewrite Hv in Hc. injection Hc as <-. eexists. split_and!; try done. by right. }
  destruct (G6 a vv Hv) as [V1 V2 V3 V4 V5 V6 V7 V8 V9 V10].
  pose proof (length_without b _ V2 (cg_listed _ _ _ _ _ Hc0)) as Hlen.
  split.
  - rewrite <- Hmem in G1. change (w_live w') with (w_live w ∖ (vcpu_mem b cw ⊎ ({[+ cw_host cw +]} ⊎ {[+ n +]}))).
    by apply mem_sub_diff.
  - done.
  - destruct G3 as (K1 & K2 & K3 & K4). split_and!; try done; intros c [y Hy].
    + destruct (Hlk c y Hy) as (z & Hz & _). apply K1. by exists z.
    + apply Hk in Hy as [_ Hy]. apply K3. by exists y.
    + apply Hkh in Hy as [_ Hy]. apply K4. by exists y.
  - done.
  - intros c. change (w_list w') with (w_list w). rewrite G5.
    split; [intros [y Hy]; destruct (Hlk' c y Hy) as (x & Hx' & _); by exists x|].
    intros [x Hx']. destruct (Hlk c x Hx') as (y & Hy & _). by exists y.
  - intros c x. change (w_vms w') with (<[a := vm_after b cw vv]> (w_vms w)). rewrite lookup_insert_Some.
    intros [[<- <-]|[Hne Hc]].
    + split; rewrite ?at_key_eq; try done.
      * by apply nodup_without.
      * intros c [Hne Hc]%elem_without. destruct (V3 c Hc) as (y & Hy & Em). exists y. split; [by apply Hk|done].
      * change (vv_ref vv = cr a + 1 + Z.of_nat (length (list_without b (vv_vcpus vv)))). lia.
      * lia.
    + destruct (G6 c x Hc) as [U1 U2 U3 U4 U5 U6 U7 U8 U9 U10]. split; rewrite ?at_key_ne by done; try done.
      intros b' Hb'. destruct (U3 b' Hb') as (y & Hy & Em). exists y. split; [|done]. apply Hk. split; [|done].
      intros ->. rewrite Hb in Hy. injection Hy as <-. by apply Hne.
  - intros c y [Hne Hc]%Hk. destruct (G7 c y Hc) as (z & Hz & [C1 C2 C3 C4 C5 C6 C7 [m C8] C9]).
    destruct (Hlk' _ z Hz) as (x & Hx' & Ei & Eh & Hcase). exists x. split; [done|].
    assert (Hdev : DevVcpu (vv_id z) (cw_id y) <> i).
    { intros [= E1 E2]. assert (Ea : cw_vm y = a) by (by apply (G10 _ _ _ _ Hz Hv)). apply Hne. by apply (G11 _ _ _ _ Hc Hb). }
    split; rewrite ?Ei, ?Eh; try done.
    + destruct Hcase as [->|(_ & -> & ->)]; [done|]. by apply elem_without.
    + destruct Hcase as [->|(_ & -> & ->)]; [done|].
      apply (free_vpid_bit_other vv cw y); [done|by apply Hc0| |done].
      destruct (decide (cw_vpid y = 0)); [by left|right]. intros E. apply Hne. by apply (G12 _ _ _ _ Hc Hb).
    + exists m. apply Hkh. split; [|done]. intros E. rewrite E, Hx in C8. by injection C8 as ->.
    + apply elem_of_difference. split; [done|]. by intros ?%elem_of_singleton.
  - intros h y Hy. destruct (G8 h y Hy) as (z & Hz & Ez). destruct (Hlk' _ z Hz) as (x & Hx' & _ & Eh & _). exists x.
    split; [done|congruence].
  - intros h y [Hne Hy]%Hkh. destruct (G9 h y Hy) as (z & Hz & Ez). exists z. split; [|done]. apply Hk. split; [|done].
    intros E. rewrite E, Hb in Hz. injection Hz as <-. done.
  - intros c c' x x' Hc Hc'. destruct (Hlk c x Hc) as (y & Hy & -> & _), (Hlk c' x' Hc') as (y' & Hy' & -> & _).
    exact (G10 _ _ _ _ Hy Hy').
  - intros c c' x x' [_ Hc]%Hk [_ Hc']%Hk. exact (G11 _ _ _ _ Hc Hc').
  - intros c c' x x' [_ Hc]%Hk [_ Hc']%Hk. exact (G12 _ _ _ _ Hc Hc').
  - intros j. change (w_bits w') with (w_bits w). rewrite G13. split.
    + intros (c & y & Hy & <-). destruct (Hlk' c y Hy) as (x & Hx' & Ei & _). by exists c, x.
    + intros (c & x & Hx' & <-). destruct (Hlk c x Hx') as (y & Hy & Ei & _). by exists c, y.
  - intros dev [Hd Hne]%elem_of_difference. specialize (G14 dev Hd). destruct dev as [j|j k].
    + destruct G14 as (c & y & Hy & <-). destruct (Hlk' c y Hy) as (x & Hx' & Ei & _). by exists c, x.
    + destruct G14 as (c & y & z & Hc & Hz & <- & <-). destruct (Hlk' _ z Hz) as (x & Hx' & Ei & _). exists c, y, x.
      split; [|by rewrite Ei]. apply Hk. split; [|done]. intros ->. rewrite Hb in Hc. injection Hc as <-.
      apply Hne, elem_of_singleton. fold a in Hz. rewrite Hv in Hz. by injection Hz as <-.
Qed.
End Updates.

(** ** Dropping references *)
Section Drop.
Context {HH : Host} {PH : PhysHost} {VH : VmxHw} {AH : AllocHost} {LH : LinuxHost} {UC : UserCopy}.
Context (space_ok : vm_t -> Prop) {SL : SpaceLaws space_ok} (t : bool) (L : list remain).
#[local] Notation St := (St space_ok t L).
Implicit Types (d : driver) (w : view).

Definition dropped w (a : Z) (vv : vm_view) (w' : view) : Prop :=
  1 < vv_ref vv /\ w' = with_vm a (vv_set_ref (vv_ref vv - 1) vv) w \/
  vv_ref vv = 1 /\ vv_vcpus vv = [] /\ exists x, w_vm_hosts w !! vv_host vv = Some x /\ w' = gone_vm w a vv x.

Lemma vv_set_flags_eta vv r : vv_set_flags (vv_flags vv) (vv_set_ref r vv) = vv_set_ref r vv.
Proof. done. Qed.

Lemma hax_put_vm_rule a vv w cr vr d (Q : Z -> driver -> Prop) : St w d -> graph w cr vr -> w_vms w !! a = Some vv -> 0 < cr a ->
  (forall r w' d', St w' d' -> graph w' (at_key cr a (cr a - 1)) vr -> dropped w a vv w' -> Q r d') ->
  twp t (hax_put_vm a) d Q.
Proof.
  intros HS Hg Ha Hc H. pose proof (vm_ref_small w cr vr Hg _ _ Ha). pose proof (g_vm _ _ _ Hg _ _ Ha) as V.
  pose proof (vg_ref _ _ _ _ V). pose proof (vg_cr _ _ _ _ V).
  destruct (decide (vv_ref vv = 1)) as [E|E].
  - assert (Hl : vv_vcpus vv = []) by (destruct (vv_vcpus vv); [done|cbn in *; lia]).
    destruct (vg_host _ _ _ _ V) as [n Hx].
    eapply (hax_put_vm_last space_ok t); [exact HS|by eapply graph_complete|exact E|exact Hl|exact Hx| |].
    + etrans; [|exact (g_mem _ _ _ Hg)]. rewrite <- (vm_mem_owned w cr vr Hg a vv _ Ha Hx). multiset_solver.
    + intros d' HS'. eapply H; [exact HS'| |right; split_and!; [done|done|by eexists]].
      apply (graph_ext _ cr vr (graph_drop_vm w cr vr Hg a vv _ Ha Hl Hx)); [|done].
      intros b [y Hb]. change (delete a (w_vms w) !! b = Some y) in Hb. apply lookup_delete_Some in Hb as [Hne _].
      by rewrite at_key_ne.
  - eapply hax_put_vm_keep; [exact HS|exact Ha|lia|]. intros d' HS'. eapply H; [exact HS'| |left; split; [lia|done]].
    rewrite <- vv_set_flags_eta. eapply graph_vm_update; [exact Hg|exact Ha| |rewrite at_key_eq; lia|rewrite at_key_eq; lia|lia].
    intros b Hb. by rewrite at_key_ne.
Qed.

(** The last reference to a virtual CPU, and with it one to its VM. *)
Definition dropped_vcpu w (b : Z) (cw : vcpu_view) (vv : vm_view) (w' : view) : Prop :=
  exists n, w_vcpu_hosts w !! cw_host cw = Some (VcpuLinux b (vv_host vv) (cw_id cw) (Some (DevVcpu (vv_id vv) (cw_id cw), n))) /\
    dropped (without_vcpu b cw vv (DevVcpu (vv_id vv) (cw_id cw)) n w) (cw_vm cw) (vm_after b cw vv) w'.
Lemma hax_put_vcpu_rule b cw vv w cr vr d (Q : Z -> driver -> Prop) : St w d -> graph w cr vr -> w_vcpus w !! b = Some cw ->
  w_vms w !! cw_vm cw = Some vv -> cw_ref cw = 1 -> cr (cw_vm cw) < 2 ^ 20 - 1 ->
  (forall r w' d', St w' d' -> graph w' cr vr -> dropped_vcpu w b cw vv w' -> Q r d') -> twp t (hax_put_vcpu b) d Q.
Proof.
  intros HS Hg Hb Hv Hr Hc H. destruct (g_vcpu _ _ _ Hg _ _ Hb) as (vv0 & E & C). rewrite Hv in E. injection E as <-.
  destruct (cg_host _ _ _ _ _ C) as [n Hx]. eapply (hax_put_vcpu_last space_ok t); [exact HS|by eapply graph_vcpu_complete|exact Hv|exact Hr|exact Hx| |].
  - etrans; [|exact (g_mem _ _ _ Hg)]. rewrite <- (vcpu_mem_owned w cr vr Hg b cw vv _ _ n Hb Hv Hx). multiset_solver.
  - intros d1 HS1. pose proof (graph_drop_vcpu w cr vr Hg b cw vv n Hb Hv Hx ltac:(lia)) as Hg1.
    pose proof (vg_cr _ _ _ _ (g_vm _ _ _ Hg _ _ Hv)).
    eapply hax_put_vm_rule; [exact HS1|exact Hg1|apply lookup_insert_eq|rewrite at_key_eq; lia|].
    intros r w' d' HS' Hg' Hd. eapply H; [exact HS'| |exists n; by split].
    apply (graph_ext _ _ _ Hg'); [|done]. intros c _. unfold at_key. repeat case_decide; subst; lia.
Qed.

(** ** The objects behind a device *)
Lemma host_vm w cr vr h x : graph w cr vr -> w_vm_hosts w !! h = Some x ->
  exists a vv n, x = VmLinux a (vv_id vv) (Some (DevVm (vv_id vv), n)) /\ w_vms w !! a = Some vv /\ vv_host vv = h.
Proof.
  intros Hg Hx. destruct (g_vm_host _ _ _ Hg _ _ Hx) as (vv & Ha & Eh).
  destruct (vg_host _ _ _ _ (g_vm _ _ _ Hg _ _ Ha)) as [n Hn]. rewrite Eh, Hx in Hn. injection Hn as E. by exists (vh_cvm x), vv, n.
Qed.
Lemma host_vcpu w cr vr h x : graph w cr vr -> w_vcpu_hosts w !! h = Some x ->
  exists b cw vv n y, x = VcpuLinux b (vv_host vv) (cw_id cw) (Some (DevVcpu (vv_id vv) (cw_id cw), n)) /\
    w_vcpus w !! b = Some cw /\ w_vms w !! cw_vm cw = Some vv /\ cw_host cw = h /\
    w_vm_hosts w !! vv_host vv = Some y /\ vh_id y = vv_id vv.
Proof.
  intros Hg Hx. destruct (g_vcpu_host _ _ _ Hg _ _ Hx) as (cw & Hb & Eh). destruct (g_vcpu _ _ _ Hg _ _ Hb) as (vv & Hv & C).
  destruct (cg_host _ _ _ _ _ C) as [n Hn]. rewrite Eh, Hx in Hn. injection Hn as E.
  destruct (vg_host _ _ _ _ (g_vm _ _ _ Hg _ _ Hv)) as [m Hm].
  exists (ch_cvcpu x), cw, vv, n. eexists. split_and!; [exact E|done|done|done|exact Hm|done].
Qed.

(** A reference to the VM of a device is taken. *)
Lemma get_vm_of_host a vv w cr vr d (Q : option Z -> driver -> Prop) : St w d -> graph w cr vr -> w_vms w !! a = Some vv ->
  cr a < 2 ^ 20 - 1 ->
  (forall d', St (with_vm a (vv_set_ref (vv_ref vv + 1) vv) w) d' ->
     graph (with_vm a (vv_set_ref (vv_ref vv + 1) vv) w) (at_key cr a (cr a + 1)) vr -> Q (Some a) d') ->
  twp t (hax_get_vm (vv_id vv) true) d Q.
Proof.
  intros HS Hg Ha Hc H. eapply hax_get_vm_rule; [exact HS|by eapply graph_list|by eapply graph_refs_small|].
  intros r w' d' HS' [Hf Hr]. assert (r = Some a) as -> by (by eapply finds_graph).
  destruct Hr as (vv' & Ha' & _ & ->). rewrite Ha in Ha'. injection Ha' as <-. apply H; [exact HS'|].
  pose proof (g_vm _ _ _ Hg _ _ Ha) as V. pose proof (vg_ref _ _ _ _ V). pose proof (vg_cr _ _ _ _ V). pose proof (vg_pos _ _ _ _ V).
  rewrite <- vv_set_flags_eta. eapply graph_vm_update; [exact Hg|exact Ha| |rewrite at_key_eq; lia|rewrite at_key_eq; lia|lia].
  intros b Hb. by rewrite at_key_ne.
Qed.
Lemma get_vcpu_of_host h b cw vv w cr vr x n d (Q : option Z -> driver -> Prop) : St w d -> graph w cr vr ->
  w_vcpu_hosts w !! h = Some x -> x = VcpuLinux b (vv_host vv) (cw_id cw) (Some (DevVcpu (vv_id vv) (cw_id cw), n)) ->
  w_vcpus w !! b = Some cw -> w_vms w !! cw_vm cw = Some vv -> vr b < 2 ^ 20 - 1 ->
  (forall d', St (with_vcpu b (cw_set_ref (cw_ref cw + 1) cw) w) d' ->
     graph (with_vcpu b (cw_set_ref (cw_ref cw + 1) cw) w) cr (at_key vr b (vr b + 1)) -> Q (Some b) d') ->
  twp t (vcpu_of_host h) d Q.
Proof.
  intros HS Hg Hx -> Hb Hv Hc H. destruct (vg_host _ _ _ _ (g_vm _ _ _ Hg _ _ Hv)) as [m Hm].
  destruct (g_vcpu _ _ _ Hg _ _ Hb) as (vv0 & E & C). rewrite Hv in E. injection E as <-.
  pose proof (cg_ref _ _ _ _ _ C). pose proof (cg_vr _ _ _ _ _ C).
  apply twp_bind. eapply get_vcpu_linux_rule; [exact HS|exact Hx|]. apply twp_bind.
  eapply get_vm_linux_rule; [exact HS|exact Hm|]. cbn [vh_id ch_id].
  eapply hax_get_vcpu_rule; [exact HS|by eapply graph_list|by eapply graph_refs_small|by eapply graph_vcpus_listed|].
  intros r w' d' HS' Hgot. destruct (got_vcpu_graph w cr vr Hg _ _ _ _ _ _ Hb Hv Hgot) as [-> ->]. apply H; [exact HS'|].
  change (cw_set_ref (cw_ref cw + 1) cw) with (cw_set_flags (cw_flags cw) (cw_set_ref (cw_ref cw + 1) cw)).
  eapply graph_vcpu_update; [exact Hg|exact Hb| |rewrite at_key_eq; lia|rewrite at_key_eq; lia].
  intros a Ha. by rewrite at_key_ne.
Qed.
End Drop.

(** ** Opening and closing *)
Section OpenClose.
Context {HH : Host} {PH : PhysHost} {VH : VmxHw} {AH : AllocHost} {LH : LinuxHost} {UC : UserCopy}.
Context (space_ok : vm_t -> Prop) {SL : SpaceLaws space_ok} (t : bool) (L : list remain).
#[local] Notation St := (St space_ok t L).
Implicit Types (d : driver) (w : view).

Definition opened_bit (flags : Z) : bool := Z.testbit flags 1.
Lemma opened_setbit x : opened_bit (Z.setbit x 1) = true.
Proof. by apply Z.setbit_eq. Qed.
Definition open_vm (a : Z) (vv : vm_view) (w : view) : view := with_vm a (vv_set_flags (Z.setbit (vv_flags vv) 1) vv) w.
Definition open_vcpu (b : Z) (cw : vcpu_view) (w : view) : view := with_vcpu b (cw_set_flags (Z.setbit (cw_flags cw) 1) cw) w.

(** The reference that a call takes is dropped at its end. *)
Lemma put_vm_again a vv w cr vr d (Q : Z -> driver -> Prop) : St w d -> graph w cr vr -> w_vms w !! a = Some vv -> 0 < cr a ->
  1 < vv_ref vv -> (forall r d', St (with_vm a (vv_set_ref (vv_ref vv - 1) vv) w) d' ->
     graph (with_vm a (vv_set_ref (vv_ref vv - 1) vv) w) (at_key cr a (cr a - 1)) vr -> Q r d') -> twp t (hax_put_vm a) d Q.
Proof.
  intros HS Hg Ha Hc Hr H. eapply (hax_put_vm_rule space_ok t); [exact HS|exact Hg|exact Ha|exact Hc|].
  intros r w' d' HS' Hg' [[_ ->]|(E & _)]; [by eapply H|lia].
Qed.
Lemma put_vcpu_again b cw w cr vr d (Q : Z -> driver -> Prop) : St w d -> graph w cr vr -> w_vcpus w !! b = Some cw -> 1 < vr b ->
  (forall r d', St (with_vcpu b (cw_set_ref (cw_ref cw - 1) cw) w) d' ->
     graph (with_vcpu b (cw_set_ref (cw_ref cw - 1) cw) w) cr (at_key vr b (vr b - 1)) -> Q r d') -> twp t (hax_put_vcpu b) d Q.
Proof.
  intros HS Hg Hb Hv H. destruct (g_vcpu _ _ _ Hg _ _ Hb) as (vv & Hvv & C).
  pose proof (cg_ref _ _ _ _ _ C). pose proof (cg_vr _ _ _ _ _ C).
  eapply hax_put_vcpu_keep; [exact HS|exact Hb|lia|]. intros d' HS'. eapply H; [exact HS'|].
  change (cw_set_ref (cw_ref cw - 1) cw) with (cw_set_flags (cw_flags cw) (cw_set_ref (cw_ref cw - 1) cw)).
  eapply graph_vcpu_update; [exact Hg|exact Hb| |rewrite at_key_eq; lia|rewrite at_key_eq; lia].
  intros a Ha. by rewrite at_key_ne.
Qed.
Lemma graph_back w cr vr a b n m : graph w (at_key (at_key cr a n) a (cr a)) (at_key (at_key vr b m) b (vr b)) -> graph w cr vr.
Proof. intros Hg. apply (graph_ext _ _ _ Hg); intros c _; unfold at_key; repeat case_decide; congruence. Qed.

Lemma hax_vm_open_rule h a vv x w cr vr d (Q : Z -> driver -> Prop) : St w d -> graph w cr vr -> w_vm_hosts w !! h = Some x ->
  vh_id x = vv_id vv -> w_vms w !! a = Some vv -> cr a < 2 ^ 20 - 1 ->
  (forall d', St (open_vm a vv w) d' -> graph (open_vm a vv w) cr vr ->
     Q (if opened_bit (vv_flags vv) then - EBUSY else 0) d') -> twp t (hax_vm_open h) d Q.
Proof.
  intros HS Hg Hx Ei Ha Hc H. pose proof (g_vm _ _ _ Hg _ _ Ha) as V. pose proof (vg_ref _ _ _ _ V). pose proof (vg_pos _ _ _ _ V). pose proof (vg_cr _ _ _ _ V).
  apply twp_bind. eapply get_vm_linux_rule; [exact HS|exact Hx|]. rewrite Ei.
  apply twp_bind. eapply get_vm_of_host; [exact HS|exact Hg|exact Ha|lia|]. intros d1 HS1 Hg1. cbv beta iota.
  set (vv1 := vv_set_ref _ vv) in *. apply twp_bind. unfold hax_vm_core_open.
  apply twp_bind. eapply get_vm_rule; [exact HS1|apply with_vm_lookup|]. intros o Eo Ho. unfold test_and_set_bit. cbv zeta.
  assert (Ef : vo_flags o = vv_flags vv) by (by apply (f_equal vv_flags) in Eo).
  rewrite Ef. apply twp_bind. eapply put_vm_rule; [exact HS1|exact Ho|]. intros d2 HS2.
  set (vv2 := vv_set_flags (Z.setbit (vv_flags vv) 1) vv1).
  assert (E2 : vm_view_of (set_vo_flags (Z.setbit (vv_flags vv) VM_STATE_FLAGS_OPENED) o) = vv2) by (unfold vv2; by rewrite Eo).
  rewrite E2 in HS2. fold (with_vm a vv2 (with_vm a vv1 w)) in HS2. rewrite with_vm_twice in HS2.
  assert (Hg2 : graph (with_vm a vv2 w) (at_key cr a (cr a + 1)) vr).
  { eapply (graph_vm_update w cr vr Hg a vv); [exact Ha| |rewrite at_key_eq; lia|rewrite at_key_eq; lia|lia].
    intros b Hb. by rewrite at_key_ne. }
  assert (Hend : forall ret, ret = (if opened_bit (vv_flags vv) then - EBUSY else 0) -> twp t (_ ← hax_put_vm a; mret ret) d2 Q).
  { intros ret ->. apply twp_bind. eapply put_vm_again; [exact HS2|exact Hg2|apply with_vm_lookup|rewrite at_key_eq; lia|cbn; lia|].
    intros r d3 HS3 Hg3. rewrite with_vm_twice in HS3, Hg3.
    assert (E3 : vv_set_ref (vv_ref vv2 - 1) vv2 = vv_set_flags (Z.setbit (vv_flags vv) 1) vv).
    { destruct vv as [rf ? ? ? ? ? ? ? ? ? ?]. unfold vv2, vv1, vv_set_ref, vv_set_flags. cbn. f_equal. lia. }
    rewrite E3 in HS3, Hg3. apply twp_ret, H; [exact HS3|]. apply (graph_ext _ _ _ Hg3); [|done].
    intros b _. unfold at_key. repeat case_decide; subst; lia. }
  unfold VM_STATE_FLAGS_OPENED. change (Z.testbit (vv_flags vv) 1) with (opened_bit (vv_flags vv)).
  apply twp_if; intros E; apply twp_ret, Hend; by rewrite E.
Qed.

(** The file of the VM and the reference of its creation. *)
Lemma hax_vm_release_rule h a vv x w cr vr d (Q : Z -> driver -> Prop) : St w d -> graph w cr vr -> w_vm_hosts w !! h = Some x ->
  vh_id x = vv_id vv -> w_vms w !! a = Some vv -> 0 < cr a < 2 ^ 20 - 1 ->
  (forall w' d', St w' d' -> graph w' (at_key cr a (cr a - 1)) vr -> dropped w a vv w' -> Q 0 d') -> twp t (hax_vm_release h) d Q.
Proof.
  intros HS Hg Hx Ei Ha Hc H. pose proof (g_vm _ _ _ Hg _ _ Ha) as V. pose proof (vg_ref _ _ _ _ V). pose proof (vg_pos _ _ _ _ V). pose proof (vg_cr _ _ _ _ V).
  apply twp_bind. eapply get_vm_linux_rule; [exact HS|exact Hx|]. rewrite Ei.
  apply twp_bind. eapply get_vm_of_host; [exact HS|exact Hg|exact Ha|lia|]. intros d1 HS1 Hg1. cbv beta iota.
  apply twp_bind. eapply put_vm_again; [exact HS1|exact Hg1|apply with_vm_lookup|rewrite at_key_eq; lia|cbn; lia|].
  intros _ d2 HS2 _. rewrite with_vm_twice in HS2.
  replace (vv_set_ref _ _) with vv in HS2
    by (destruct vv as [rf ? ? ? ? ? ? ? ? ? ?]; unfold vv_set_ref; cbn; f_equal; lia).
  rewrite with_vm_id in HS2 by done.
  apply twp_bind. eapply (hax_put_vm_rule space_ok t); [exact HS2|exact Hg|exact Ha|lia|]. intros r w' d' HS' Hg' Hd. apply twp_ret. by eapply H.
Qed.

Lemma hax_vcpu_open_rule h b cw vv x n w cr vr d (Q : Z -> driver -> Prop) : St w d -> graph w cr vr ->
  w_vcpu_hosts w !! h = Some x -> x = VcpuLinux b (vv_host vv) (cw_id cw) (Some (DevVcpu (vv_id vv) (cw_id cw), n)) ->
  w_vcpus w !! b = Some cw -> w_vms w !! cw_vm cw = Some vv -> vr b < 2 ^ 20 - 1 ->
  (forall d', St (open_vcpu b cw w) d' -> graph (open_vcpu b cw w) cr vr ->
     Q (if opened_bit (cw_flags cw) then - EBUSY else 0) d') -> twp t (hax_vcpu_open h) d Q.
Proof.
  intros HS Hg Hx Ex Hb Hv Hc H. destruct (g_vcpu _ _ _ Hg _ _ Hb) as (vv0 & E & C). rewrite Hv in E. injection E as <-.
  pose proof (cg_ref _ _ _ _ _ C). pose proof (cg_vr _ _ _ _ _ C).
  apply twp_bind. eapply get_vcpu_of_host; [exact HS|exact Hg|exact Hx|exact Ex|exact Hb|exact Hv|exact Hc|]. intros d1 HS1 Hg1. cbv beta iota.
  set (cw1 := cw_set_ref _ cw) in *. apply twp_bind. unfold hax_vcpu_core_open.
  apply twp_bind. eapply get_vcpu_fetch_rule; [exact HS1|apply with_vcpu_lookup|]. intros c Ec Hf. unfold test_and_set_bit. cbv zeta.
  assert (Ef : co_flags c = cw_flags cw) by (by apply (f_equal cw_flags) in Ec).
  rewrite Ef. apply twp_bind. eapply put_vcpu_rule; [exact HS1|exact Hf|]. intros d2 HS2.
  set (cw2 := cw_set_flags (Z.setbit (cw_flags cw) 1) cw1).
  assert (E2 : vcpu_view_of (set_co_flags (Z.setbit (cw_flags cw) VCPU_STATE_FLAGS_OPENED) c) = cw2) by (unfold cw2; by rewrite Ec).
  rewrite E2 in HS2. fold (with_vcpu b cw2 (with_vcpu b cw1 w)) in HS2. rewrite with_vcpu_twice in HS2.
  assert (Hg2 : graph (with_vcpu b cw2 w) cr (at_key vr b (vr b + 1))).
  { eapply (graph_vcpu_update w cr vr Hg b cw); [exact Hb| |rewrite at_key_eq; lia|rewrite at_key_eq; lia].
    intros a Ha. by rewrite at_key_ne. }
  assert (Hend : forall ret, ret = (if opened_bit (cw_flags cw) then - EBUSY else 0) -> twp t (_ ← hax_put_vcpu b; mret ret) d2 Q).
  { intros ret ->. apply twp_bind. eapply put_vcpu_again; [exact HS2|exact Hg2|apply with_vcpu_lookup|rewrite at_key_eq; lia|].
    intros r d3 HS3 Hg3. rewrite with_vcpu_twice in HS3, Hg3.
    assert (E3 : cw_set_ref (cw_ref cw2 - 1) cw2 = cw_set_flags (Z.setbit (cw_flags cw) 1) cw).
    { destruct cw as [? ? ? rf ? ? ? ? ? ? ? ? ?]. unfold cw2, cw1, cw_set_ref, cw_set_flags. cbn. f_equal. lia. }
    rewrite E3 in HS3, Hg3. apply twp_ret, H; [exact HS3|]. apply (graph_ext _ _ _ Hg3); [done|].
    intros a _. unfold at_key. repeat case_decide; subst; lia. }
  unfold VCPU_STATE_FLAGS_OPENED. change (Z.testbit (cw_flags cw) 1) with (opened_bit (cw_flags cw)).
  apply twp_if; intros E; apply twp_ret, Hend; by rewrite E.
Qed.

Lemma hax_vcpu_release_rule h b cw vv x n w cr vr d (Q : Z -> driver -> Prop) : St w d -> graph w cr vr ->
  w_vcpu_hosts w !! h = Some x -> x = VcpuLinux b (vv_host vv) (cw_id cw) (Some (DevVcpu (vv_id vv) (cw_id cw), n)) ->
  w_vcpus w !! b = Some cw -> w_vms w !! cw_vm cw = Some vv -> vr b = 1 -> cr (cw_vm cw) < 2 ^ 20 - 1 ->
  (forall w' d', St w' d' -> graph w' cr vr -> dropped_vcpu w b cw vv w' -> Q 0 d') -> twp t (hax_vcpu_release h) d Q.
Proof.
  intros HS Hg Hx Ex Hb Hv Hc Hcr H. destruct (g_vcpu _ _ _ Hg _ _ Hb) as (vv0 & E & C). rewrite Hv in E. injection E as <-.
  pose proof (cg_ref _ _ _ _ _ C).
  apply twp_bind. eapply get_vcpu_of_host; [exact HS|exact Hg|exact Hx|exact Ex|exact Hb|exact Hv|lia|]. intros d1 HS1 Hg1. cbv beta iota.
  apply twp_bind. eapply put_vcpu_again; [exact HS1|exact Hg1|apply with_vcpu_lookup|rewrite at_key_eq; lia|].
  intros _ d2 HS2 _. rewrite with_vcpu_twice in HS2.
  replace (cw_set_ref _ _) with cw in HS2
    by (destruct cw as [? ? ? rf ? ? ? ? ? ? ? ? ?]; unfold cw_set_ref; cbn; f_equal; lia).
  rewrite with_vcpu_id in HS2 by done.
  apply twp_bind. eapply (hax_put_vcpu_rule space_ok t); [exact HS2|exact Hg|exact Hb|exact Hv|lia|lia|].
  intros r w' d' HS' Hg' Hd. apply twp_ret. by eapply H.
Qed.
End OpenClose.

(** What is freed is what the objects that are gone had. *)
Definition conserved (w w' : view) : Prop := w_live w' ⊎ owned w = w_live w ⊎ owned w'.
Lemma conserved_refl w : conserved w w.
Proof. done. Qed.
Lemma conserved_trans w1 w2 w3 : conserved w1 w2 -> conserved w2 w3 -> conserved w1 w3.
Proof. unfold conserved. multiset_solver. Qed.
Lemma conserved_freed (l o1 o2 x : gmultiset Z) : x ⊎ o2 = o1 -> o1 ⊆ l -> (l ∖ x) ⊎ o1 = l ⊎ o2.
Proof. multiset_solver. Qed.
Lemma dropped_conserved w cr vr a vv w' : graph w cr vr -> w_vms w !! a = Some vv -> dropped w a vv w' -> conserved w w'.
Proof.
  intros Hg Ha [[_ ->]|(_ & _ & x & Hx & ->)].
  - unfold conserved, owned. wcbn. rewrite (msum_same vm_mem _ _ _ _ Ha); done.
  - pose proof (vm_mem_owned w cr vr Hg a vv x Ha Hx) as E. apply conserved_freed; [exact E|apply Hg].
Qed.
Lemma dropped_vcpu_conserved w cr vr b cw vv w' : graph w cr vr -> w_vcpus w !! b = Some cw -> w_vms w !! cw_vm cw = Some vv ->
  cr (cw_vm cw) < 2 ^ 20 - 1 -> dropped_vcpu w b cw vv w' -> conserved w w'.
Proof.
  intros Hg Hb Hv Hc (n & Hx & Hd). pose proof (vcpu_mem_owned w cr vr Hg b cw vv _ (DevVcpu (vv_id vv) (cw_id cw)) n Hb Hv Hx) as E.
  eapply (conserved_trans _ (without_vcpu b cw vv (DevVcpu (vv_id vv) (cw_id cw)) n w)).
  { apply (conserved_freed _ _ _ _ E), Hg. }
  eapply dropped_conserved; [apply (graph_drop_vcpu w cr vr Hg b cw vv n Hb Hv Hx); lia|apply lookup_insert_eq|exact Hd].
Qed.

(** ** Additions *)
Section Additions.
Context (w : view) (cr vr : Z -> Z) (Hg : graph w cr vr).

Lemma fresh_vm_key a : w_next w <= a -> w_vms w !! a = None.
Proof.
  intros H. apply eq_None_not_Some. intros Hs. destruct (g_keys _ _ _ Hg) as (K & _). destruct (K _ Hs). lia.
Qed.
Lemma fresh_vm_host h : w_next w <= h -> w_vm_hosts w !! h = None.
Proof.
  intros H. apply eq_None_not_Some. intros Hs. destruct (g_keys _ _ _ Hg) as (_ & K & _). destruct (K _ Hs). lia.
Qed.
Lemma fresh_vcpu_key b : w_next w <= b -> w_vcpus w !! b = None.
Proof.
  intros H. apply eq_None_not_Some. intros Hs. destruct (g_keys _ _ _ Hg) as (_ & _ & K & _). destruct (K _ Hs). lia.
Qed.
Lemma fresh_vcpu_host h : w_next w <= h -> w_vcpu_hosts w !! h = None.
Proof.
  intros H. apply eq_None_not_Some. intros Hs. destruct (g_keys _ _ _ Hg) as (_ & _ & _ & K). destruct (K _ Hs). lia.
Qed.

(** More memory is allocated. *)
Lemma graph_grown l n : owned w ⊆ l -> w_next w <= n -> graph (with_mem l n w) cr vr.
Proof.
  intros Hl Hn. destruct Hg as [G1 G2 G3 G4 G5 G6 G7 G8 G9 G10 G11 G12 G13 G14]. split; try done.
  - wcbn. lia.
  - destruct G3 as (K1 & K2 & K3 & K4). wcbn. split_and!; intros a Ha; [apply K1 in Ha|apply K2 in Ha|apply K3 in Ha|apply K4 in Ha]; lia.
  - intros a vv Ha. destruct (G6 a vv Ha). by split.
  - intros b cw Hb. destruct (G7 b cw Hb) as (vv & Hv & []). exists vv. split; [done|]. by split.
Qed.

Lemma keys_insert {A} (m : gmap Z A) k x n : keys_ok (w_next w) m -> 0 < k < n -> w_next w <= n -> keys_ok n (<[k := x]> m).
Proof. intros K Hk Hn a. rewrite lookup_insert_is_Some. intros [<-|[_ Ha]]; [done|]. apply K in Ha. lia. Qed.
Lemma keys_more {A} (m : gmap Z A) n : keys_ok (w_next w) m -> w_next w <= n -> keys_ok n m.
Proof. intros K Hn a Ha. apply K in Ha. lia. Qed.

Lemma graph_add_vm a h m i lock e l n cr' : w_next w <= a < n -> w_next w <= h < n -> 0 <= i < HAX_MAX_VMS ->
  Z.testbit (w_bits w) i = false -> DevVm i ∉ w_devices w ->
  {[+ h +]} ⊎ ({[+ m +]} ⊎ ({[+ lock +]} ⊎ (opt_mem e ⊎ ({[+ a +]} ⊎ owned w)))) ⊆ l ->
  cr' a = 1 -> (forall c, c <> a -> cr' c = cr c) ->
  graph (with_mem l n (add_vm a h m i lock e w)) cr' vr.
Proof.
  intros Ha Hh Hi Hbit Hdev Hl Hcr Hcr'. pose proof (fresh_vm_key a ltac:(lia)) as Na. pose proof (fresh_vm_host h ltac:(lia)) as Nh.
  set (vv := fresh_vm i h lock e). set (w' := with_mem l n _).
  destruct Hg as [G1 G2 G3 G4 G5 G6 G7 G8 G9 G10 G11 G12 G13 G14].
  assert (Hk : forall c y, w_vms w' !! c = Some y <-> c = a /\ y = vv \/ c <> a /\ w_vms w !! c = Some y).
  { intros c y. change (w_vms w') with (<[a := vv]> (w_vms w)). rewrite lookup_insert_Some. naive_solver. }
  assert (Hid : forall c y, w_vms w !! c = Some y -> vv_id y <> i).
  { intros c y Hc E. assert (Z.testbit (w_bits w) i = true) by (apply G13; by exists c, y). congruence. }
  assert (Hold : forall c y, w_vms w !! c = Some y -> w_vms w' !! c = Some y).
  { intros c y Hc. apply Hk. right. split; [|done]. intros ->. congruence. }
  assert (Hhost : forall k y, w_vm_hosts w !! k = Some y -> w_vm_hosts w' !! k = Some y).
  { intros k y Hk'. change (w_vm_hosts w') with (<[h := VmLinux a i (Some (DevVm i, m))]> (w_vm_hosts w)).
    rewrite lookup_insert_ne; [done|]. intros <-. congruence. }
  split.
  - change (w_live w') with l. etrans; [|exact Hl]. unfold owned. change (w_vms w') with (<[a := vv]> (w_vms w)).
    change (w_vm_hosts w') with (<[h := VmLinux a i (Some (DevVm i, m))]> (w_vm_hosts w)).
    change (w_vcpus w') with (w_vcpus w). change (w_vcpu_hosts w') with (w_vcpu_hosts w).
    rewrite (msum_insert _ _ _ _ Na), (msum_insert _ _ _ _ Nh). unfold vm_mem, vm_host_mem, vv, fresh_vm.
    cbn [vv_lock vv_ept_lock opt_mem vh_dev]. msets.
  - change (w_next w') with n. lia.
  - destruct G3 as (K1 & K2 & K3 & K4). change (w_next w') with n.
    split_and!; [apply keys_insert; [done|lia|lia]|apply keys_insert; [done|lia|lia]|eapply keys_more; [done|lia]|eapply keys_more; [done|lia]].
  - change (NoDup (a :: w_list w)). constructor; [|done]. intros Hin%G5. rewrite Na in Hin. by destruct Hin.
  - intros c. change (c ∈ a :: w_list w <-> is_Some (<[a := vv]> (w_vms w) !! c)).
    rewrite elem_of_cons, lookup_insert_is_Some, G5. split; [|naive_solver]. intros [->|Hs]; [by left|]. destruct (decide (a = c)); auto.
  - intros c y [[-> ->]|[Hne Hc]]%Hk.
    + split; cbn [vv vv_id vv_vcpus vv_ref vv_p2m vv_ram vv_mems vv_host fresh_vm length]; rewrite ?Hcr; try done.
      * constructor.
      * intros b Hb. by apply elem_of_nil in Hb.
      * by apply Forall_replicate.
      * exists m. apply lookup_insert_eq.
    + destruct (G6 c y Hc) as [V1 V2 V3 V4 V5 V6 V7 V8 V9 [k Hk']]. split; rewrite ?Hcr' by done; try done. exists k. by apply Hhost.
  - intros b cw Hb. destruct (G7 b cw Hb) as (y & Hy & []). exists y. split; [by apply Hold|]. split; try done.
    apply elem_of_union. by right.
  - intros k x. change (w_vm_hosts w') with (<[h := VmLinux a i (Some (DevVm i, m))]> (w_vm_hosts w)). rewrite lookup_insert_Some.
    intros [[<- <-]|[_ Hx]]; [exists vv; split; [apply Hk; by left|done]|].
    destruct (G8 k x Hx) as (y & Hy & E). exists y. split; [by apply Hold|done].
  - done.
  - intros c c' y y' [[-> ->]|[_ Hc]]%Hk [[-> ->]|[_ Hc']]%Hk E; [done|destruct (Hid _ _ Hc'); by rewrite <- E|destruct (Hid _ _ Hc); by rewrite E|].
    exact (G10 _ _ _ _ Hc Hc' E).
  - done.
  - done.
  - intros j. change (w_bits w') with (Z.setbit (w_bits w) i). rewrite Z.setbit_eqb by lia. rewrite orb_true_iff, Z.eqb_eq, G13. split.
    + intros [<-|(c & y & Hc & E)]; [exists a, vv; split; [apply Hk; by left|done]|exists c, y; split; [by apply Hold|done]].
    + intros (c & y & [[-> ->]|[_ Hc]]%Hk & E); [by left|right; by exists c, y].
  - intros dev [->%elem_of_singleton|Hd]%elem_of_union; [exists a, vv; split; [apply Hk; by left|done]|].
    specialize (G14 dev Hd). destruct dev as [j|j k].
    + destruct G14 as (c & y & Hc & E). exists c, y. split; [by apply Hold|done].
    + destruct G14 as (b & cw & y & Hb & Hy & E). exists b, cw, y. split_and!; [done|by apply Hold|apply E|apply E].
Qed.

Lemma vpid_taken_good vv vpid seed vv' cw : vpid_taken vv vpid seed -> vv_seed vv' = seed -> vv_id vv' = vv_id vv ->
  vpid_good vv cw -> vpid_good vv' cw.
Proof.
  intros Ht Es Ei [H0|(bit & Hb & Hs & E)]; [by left|]. right. exists bit. rewrite Es, Ei. split_and!; [lia|lia| |done].
  destruct Ht as [[_ ->]|(bit' & Hb' & _ & -> & _)]; [done|]. rewrite Z.setbit_eqb by lia. by rewrite Hs, orb_true_r.
Qed.
Lemma vpid_taken_new vv vpid seed vv' cw : vpid_taken vv vpid seed -> vv_seed vv' = seed -> vv_id vv' = vv_id vv ->
  cw_vpid cw = vpid -> vpid_good vv' cw.
Proof.
  intros Ht Es Ei E. destruct Ht as [[-> _]|(bit & Hb & _ & -> & Ev)]; [by left|]. right. exists bit. rewrite Es, Ei, E.
  split_and!; [lia|lia|apply Z.setbit_eq; lia|done].
Qed.
(** The new VPID is not in use. *)
Lemma vpid_taken_unused vv vpid seed b cw a : w_vms w !! a = Some vv -> vpid_taken vv vpid seed -> w_vcpus w !! b = Some cw ->
  vpid <> 0 -> cw_vpid cw <> vpid.
Proof.
  intros Ha Ht Hb H0 E. destruct Ht as [[-> _]|(bit & Hbit & Hf & _ & Ev)]; [done|].
  destruct (g_vcpu _ _ _ Hg _ _ Hb) as (vv' & Hv' & C). pose proof (vg_id _ _ _ _ (g_vm _ _ _ Hg _ _ Hv')).
  pose proof (vg_id _ _ _ _ (g_vm _ _ _ Hg _ _ Ha)).
  destruct (cg_vpid _ _ _ _ _ C) as [Hz|(bit' & Hbit' & Ht' & Ev')]; [congruence|]. unfold VPID_SEED_BITS in *.
  assert (vv_id vv' = vv_id vv /\ bit' = bit) as [Ei ->] by lia.
  assert (cw_vm cw = a) as Em by (by apply (g_vm_ids _ _ _ Hg _ _ _ _ Hv' Ha)). rewrite Em, Ha in Hv'. injection Hv' as <-. congruence.
Qed.

Lemma graph_add_vcpu a h m b j vv vv' cw l n vr' : w_next w <= b < n -> w_next w <= h < n -> 0 <= j < HAX_MAX_VCPUS ->
  w_vms w !! a = Some vv -> DevVcpu (vv_id vv) j ∉ w_devices w -> made_vcpu b a j h vv vv' cw ->
  ({[+ h +]} ⊎ {[+ m +]}) ⊎ (vcpu_mem b cw ⊎ owned w) ⊆ l ->
  vr' b = 1 -> (forall c, c <> b -> vr' c = vr c) ->
  graph (with_mem l n (add_vcpu b a h m (vv_host vv) vv vv' cw w)) cr vr'.
Proof.
  intros Hb Hh Hj Ha Hdev [N1 N2 N3 N4 N5 N6 N7 (seed & Hvp & Evv)] Hl Hvr Hvr'.
  pose proof (fresh_vcpu_key b ltac:(lia)) as Nb. pose proof (fresh_vcpu_host h ltac:(lia)) as Nh.
  pose proof (fun c y => vpid_taken_unused vv _ _ c y a Ha Hvp) as Hunused.
  set (x := VcpuLinux b (vv_host vv) (cw_id cw) (Some (DevVcpu (vv_id vv) (cw_id cw), m))).
  set (w' := with_mem l n _).
  assert (Evm : w_vms w' = <[a := vv']> (w_vms w)) by done. assert (Evc : w_vcpus w' = <[b := cw]> (w_vcpus w)) by done.
  assert (Eh : w_vcpu_hosts w' = <[h := x]> (w_vcpu_hosts w)) by done.
  assert (Ed : w_devices w' = {[DevVcpu (vv_id vv) (cw_id cw)]} ∪ w_devices w) by done.
  assert (Esame : vv_id vv' = vv_id vv /\ vv_host vv' = vv_host vv /\ vv_vcpus vv' = b :: vv_vcpus vv /\ vv_seed vv' = seed /\
    vv_ref vv' = vv_ref vv + 1 /\ vv_p2m vv' = vv_p2m vv /\ vv_ram vv' = vv_ram vv /\ vv_mems vv' = vv_mems vv) by (by rewrite Evv).
  destruct Esame as (Si & Sh & Sl & Ss & Sr & Sp & Sra & Sm).
  destruct Hg as [G1 G2 G3 G4 G5 G6 G7 G8 G9 G10 G11 G12 G13 G14].
  assert (Hlk : forall c y, w_vms w' !! c = Some y -> exists z, w_vms w !! c = Some z /\ vv_id y = vv_id z /\ vv_host y = vv_host z).
  { intros c y. rewrite Evm, lookup_insert_Some. intros [[<- <-]|[_ Hc]]; [by exists vv|by exists y]. }
  assert (Hlk' : forall c z, w_vms w !! c = Some z -> exists y, w_vms w' !! c = Some y /\ vv_id y = vv_id z /\ vv_host y = vv_host z /\
     (y = z \/ c = a /\ z = vv /\ y = vv')).
  { intros c z Hc. rewrite Evm. destruct (decide (a = c)) as [<-|Hne]; [|exists z; rewrite lookup_insert_ne by done; by auto].
    rewrite lookup_insert_eq. rewrite Ha in Hc. injection Hc as <-. eexists. split_and!; try done. by right. }
  assert (Hk : forall c y, w_vcpus w' !! c = Some y <-> c = b /\ y = cw \/ c <> b /\ w_vcpus w !! c = Some y).
  { intros c y. rewrite Evc, lookup_insert_Some. naive_solver. }
  assert (Hold : forall c y, w_vcpus w !! c = Some y -> c <> b) by (intros c y Hc ->; congruence).
  assert (Hnodev : forall c y, w_vcpus w !! c = Some y -> cw_vm y = a -> cw_id y <> j).
  { intros c y Hc Em E. destruct (G7 c y Hc) as (z & Hz & C). rewrite Em, Ha in Hz. injection Hz as <-.
    pose proof (cg_dev _ _ _ _ _ C) as Hin. rewrite E in Hin. done. }
  destruct (G6 a vv Ha) as [V1 V2 V3 V4 V5 V6 V7 V8 V9 V10].
  split.
  - change (w_live w') with l. etrans; [|exact Hl]. unfold owned. rewrite Evm, Evc, Eh. change (w_vm_hosts w') with (w_vm_hosts w).
    rewrite (msum_insert _ _ _ _ Nb), (msum_insert _ _ _ _ Nh), (msum_same vm_mem _ vv vv' _ Ha) by (by rewrite Evv).
    unfold vcpu_host_mem, x. cbn [ch_dev]. generalize (vcpu_mem b cw). intros y. msets.
  - change (w_next w') with n. lia.
  - destruct G3 as (K1 & K2 & K3 & K4). change (w_next w') with n. rewrite Evm, Evc, Eh.
    assert (0 < a < n) by (pose proof (K1 a ltac:(by eexists)); lia).
    split_and!; [apply keys_insert; [done|lia|lia]|eapply keys_more; [done|lia]|apply keys_insert; [done|lia|lia]|apply keys_insert; [done|lia|lia]].
  - done.
  - intros c. change (w_list w') with (w_list w). rewrite G5.
    split; [intros [z Hz]; destruct (Hlk' c z Hz) as (y & Hy & _); by exists y|].
    intros [y Hy]. destruct (Hlk c y Hy) as (z & Hz & _). by exists z.
  - intros c y. rewrite Evm, lookup_insert_Some. intros [[<- <-]|[Hne Hc]].
    + split; rewrite ?Si, ?Sh, ?Sl, ?Sr, ?Sp, ?Sra, ?Sm; try done.
      * constructor; [|done]. intros Hin. destruct (V3 b Hin) as (y & Hy & _). congruence.
      * intros c [->|Hc]%elem_of_cons; [exists cw; split; [apply Hk; by left|done]|].
        destruct (V3 c Hc) as (y & Hy & Em). exists y. split; [apply Hk; right; split; [by eapply Hold|done]|done].
      * cbn [length]. lia.
      * lia.
    + destruct (G6 c y Hc) as [U1 U2 U3 U4 U5 U6 U7 U8 U9 U10]. split; try done.
      intros b' Hb'. destruct (U3 b' Hb') as (z & Hz & Em). exists z. split; [|done]. apply Hk. right. split; [by eapply Hold|done].
  - intros c y [[-> ->]|[Hne Hc]]%Hk.
    + exists vv'. split; [rewrite Evm, N1; apply lookup_insert_eq|]. split; rewrite ?N2, ?N3, ?N5, ?Hvr, ?Si, ?Sh, ?Sl; try done.
      * by left.
      * eapply vpid_taken_new; [exact Hvp|done|done|done].
      * exists m. rewrite Eh, lookup_insert_eq. unfold x. by rewrite N2.
      * rewrite Ed, N2. apply elem_of_union. left. by apply elem_of_singleton.
    + destruct (G7 c y Hc) as (z & Hz & [C1 C2 C3 C4 C5 C6 C7 [k C8] C9]). destruct (Hlk' _ z Hz) as (u & Hu & Ei & Ehh & Hcase).
      exists u. split; [done|]. split; rewrite ?Ei, ?Ehh, ?Hvr' by done; try done.
      * destruct Hcase as [->|(_ & -> & ->)]; [done|]. rewrite Sl. by right.
      * destruct Hcase as [->|(_ & -> & ->)]; [done|]. eapply vpid_taken_good; [exact Hvp|done|done|done].
      * exists k. rewrite Eh, lookup_insert_ne; [done|]. intros E. rewrite <- E, Nh in C8. done.
      * rewrite Ed. apply elem_of_union. by right.
  - intros k y Hy. destruct (G8 k y Hy) as (z & Hz & Ez). destruct (Hlk' _ z Hz) as (u & Hu & _ & Eu & _). exists u. split; [done|congruence].
  - intros k y. rewrite Eh, lookup_insert_Some. intros [[<- <-]|[_ Hy]]; [exists cw; split; [apply Hk; by left|done]|].
    destruct (G9 k y Hy) as (z & Hz & Ez). exists z. split; [|done]. apply Hk. right. split; [by eapply Hold|done].
  - intros c c' y y' Hc Hc'. destruct (Hlk c y Hc) as (z & Hz & -> & _), (Hlk c' y' Hc') as (z' & Hz' & -> & _). exact (G10 _ _ _ _ Hz Hz').
  - intros c c' y y' [[-> ->]|[_ Hc]]%Hk [[-> ->]|[_ Hc']]%Hk Em E.
    + done.
    + destruct (Hnodev c' y' Hc'); [by rewrite <- Em|by rewrite <- E].
    + destruct (Hnodev c y Hc); [by rewrite Em|by rewrite E].
    + exact (G11 _ _ _ _ Hc Hc' Em E).
  - intros c c' y y' [[-> ->]|[_ Hc]]%Hk [[-> ->]|[_ Hc']]%Hk H0 E.
    + done.
    + by destruct (Hunused c' y' Hc' H0).
    + rewrite E in H0. by destruct (Hunused c y Hc H0).
    + exact (G12 _ _ _ _ Hc Hc' H0 E).
  - intros i. change (w_bits w') with (w_bits w). rewrite G13. split.
    + intros (c & z & Hz & <-). destruct (Hlk' c z Hz) as (y & Hy & Ei & _). by exists c, y.
    + intros (c & y & Hy & <-). destruct (Hlk c y Hy) as (z & Hz & Ei & _). by exists c, z.
  - intros dev. rewrite Ed. intros [->%elem_of_singleton|Hd]%elem_of_union.
    + exists b, cw, vv'. split_and!; [apply Hk; by left|rewrite Evm, N1; apply lookup_insert_eq|done|done].
    + specialize (G14 dev Hd). destruct dev as [i|i k].
      * destruct G14 as (c & z & Hz & <-). destruct (Hlk' c z Hz) as (y & Hy & Ei & _). by exists c, y.
      * destruct G14 as (c & y & z & Hc & Hz & <- & <-). destruct (Hlk' _ z Hz) as (u & Hu & Ei & _). exists c, y, u.
        split_and!; [apply Hk; right; split; [by eapply Hold|done]|done|done|done].
Qed.
End Additions.

(** ** Between the calls

    The files that are open are the references besides those of the virtual CPUs: a new VM has one,
    which its file takes over when it is opened, and a virtual CPU is the same. *)
Definition base (files : list file) (w : view) (a : Z) : Z :=
  match w_vms w !! a with
  | Some vv => if (opened_bit (vv_flags vv) && negb (bool_decide (FVm (vv_host vv) ∈ files)))%bool then 0 else 1
  | None => 1
  end.
Lemma base_same (fs fs' : list file) (o : bool) h : (FVm h ∈ fs <-> FVm h ∈ fs') ->
  (if (o && negb (bool_decide (FVm h ∈ fs)))%bool then 0 else 1) = (if (o && negb (bool_decide (FVm h ∈ fs')))%bool then 0 else 1).
Proof. intros E. by rewrite (bool_decide_ext _ _ E). Qed.
Record rest (files : list file) (w : view) : Prop := {
  r_graph : graph w (base files w) (fun _ => 1);
  r_vm h : FVm h ∈ files -> exists a vv, w_vms w !! a = Some vv /\ vv_host vv = h /\ opened_bit (vv_flags vv) = true;
  r_vcpu h : FVcpu h ∈ files -> exists b cw, w_vcpus w !! b = Some cw /\ cw_host cw = h /\ opened_bit (cw_flags cw) = true;
  r_open b cw : w_vcpus w !! b = Some cw -> opened_bit (cw_flags cw) = true -> FVcpu (cw_host cw) ∈ files;
}.

Section Rest.
Context (files : list file) (w : view) (Hr : rest files w).
#[local] Notation cr := (base files w).
#[local] Notation vr := (fun _ : Z => 1).

Lemma base_range a : 0 <= cr a <= 1.
Proof. unfold base. destruct (w_vms w !! a); [|lia]. destruct (_ && _)%bool; lia. Qed.
Lemma base_file a vv : w_vms w !! a = Some vv -> FVm (vv_host vv) ∈ files -> cr a = 1.
Proof. intros Ha Hf. unfold base. rewrite Ha. rewrite (bool_decide_eq_true_2 _ Hf). by rewrite andb_false_r. Qed.
Lemma vm_host_inj a a' vv vv' : w_vms w !! a = Some vv -> w_vms w !! a' = Some vv' -> vv_host vv = vv_host vv' -> a = a'.
Proof.
  intros Ha Ha' E. pose proof (r_graph _ _ Hr) as Hg. destruct (vg_host _ _ _ _ (g_vm _ _ _ Hg _ _ Ha)) as [n Hn].
  destruct (vg_host _ _ _ _ (g_vm _ _ _ Hg _ _ Ha')) as [n' Hn']. rewrite E, Hn' in Hn. by injection Hn.
Qed.
Lemma vcpu_host_inj b b' cw cw' : w_vcpus w !! b = Some cw -> w_vcpus w !! b' = Some cw' -> cw_host cw = cw_host cw' -> b = b'.
Proof.
  intros Hb Hb' E. pose proof (r_graph _ _ Hr) as Hg. destruct (g_vcpu _ _ _ Hg _ _ Hb) as (vv & _ & C).
  destruct (g_vcpu _ _ _ Hg _ _ Hb') as (vv' & _ & C').
  destruct (cg_host _ _ _ _ _ C) as [n Hn], (cg_host _ _ _ _ _ C') as [n' Hn']. rewrite E, Hn' in Hn. by injection Hn.
Qed.

(** What dropping a reference changes. *)
Definition vms_but (a : Z) (w' : view) : Prop :=
  (forall c, c <> a -> w_vms w' !! c = w_vms w !! c) /\
  (forall vv', w_vms w' !! a = Some vv' -> exists vv, w_vms w !! a = Some vv /\ vv_flags vv' = vv_flags vv /\ vv_host vv' = vv_host vv).
Lemma vms_but_from a w' c vv' : vms_but a w' -> w_vms w' !! c = Some vv' ->
  exists vv, w_vms w !! c = Some vv /\ vv_flags vv' = vv_flags vv /\ vv_host vv' = vv_host vv.
Proof. intros [H1 H2] Hc. destruct (decide (c = a)) as [->|Hne]; [by apply H2|]. rewrite H1 in Hc by done. by exists vv'. Qed.

Lemma dropped_but a vv w' : w_vms w !! a = Some vv -> dropped w a vv w' -> vms_but a w' /\ w_vcpus w' = w_vcpus w.
Proof.
  intros Ha [[_ ->]|(_ & _ & x & _ & ->)].
  - split; [|done]. split; [intros c Hc; by apply lookup_insert_ne|]. intros vv'. wcbn. rewrite lookup_insert_eq.
    intros [= <-]. by exists vv.
  - split; [|done]. split; [intros c Hc; by apply lookup_delete_ne|]. intros vv'. unfold gone_vm. wcbn. by rewrite lookup_delete_eq.
Qed.
Lemma dropped_vcpu_but b cw vv w' : w_vms w !! cw_vm cw = Some vv -> dropped_vcpu w b cw vv w' ->
  vms_but (cw_vm cw) w' /\ w_vcpus w' = delete b (w_vcpus w).
Proof.
  intros Hv (n & _ & [[_ ->]|(_ & _ & x & _ & ->)]).
  - split; [|done]. split.
    + intros c Hc. unfold without_vcpu. wcbn. by rewrite !lookup_insert_ne.
    + intros vv'. unfold without_vcpu. wcbn. rewrite lookup_insert_eq. intros [= <-]. by exists vv.
  - split; [|done]. split.
    + intros c Hc. unfold gone_vm, without_vcpu. wcbn. rewrite lookup_delete_ne by done. by rewrite lookup_insert_ne.
    + intros vv'. unfold gone_vm. wcbn. by rewrite lookup_delete_eq.
Qed.

(** A VM with a file stays when one of its virtual CPUs goes. *)
Lemma dropped_vcpu_keeps b cw vv w' : w_vcpus w !! b = Some cw -> w_vms w !! cw_vm cw = Some vv -> dropped_vcpu w b cw vv w' ->
  cr (cw_vm cw) = 1 -> is_Some (w_vms w' !! cw_vm cw).
Proof.
  intros Hb Hv (n & _ & [[_ ->]|(E & Hl & x & _ & ->)]) Hc.
  - unfold without_vcpu. wcbn. rewrite lookup_insert_eq. by eexists.
  - exfalso. pose proof (r_graph _ _ Hr) as Hg. pose proof (g_vm _ _ _ Hg _ _ Hv) as V.
    destruct (g_vcpu _ _ _ Hg _ _ Hb) as (vv0 & E0 & C). rewrite Hv in E0. injection E0 as <-.
    pose proof (length_without b _ (vg_nodup _ _ _ _ V) (cg_listed _ _ _ _ _ C)).
    pose proof (vg_ref _ _ _ _ V). change (vv_ref vv = 1) in E. lia.
Qed.

Definition without_file (f : file) : list file := filter (fun g => g <> f) files.
Lemma elem_without_file f g : g ∈ without_file f <-> g <> f /\ g ∈ files.
Proof. unfold without_file. by rewrite list_elem_of_filter. Qed.

(** A closed VM. *)
Lemma rest_close_vm a vv w' : w_vms w !! a = Some vv -> FVm (vv_host vv) ∈ files ->
  graph w' (at_key cr a (cr a - 1)) vr -> dropped w a vv w' -> rest (without_file (FVm (vv_host vv))) w'.
Proof.
  intros Ha Hf Hg' Hd. destruct (dropped_but a vv w' Ha Hd) as [Hbut Hc].
  assert (Hop : opened_bit (vv_flags vv) = true).
  { destruct (r_vm _ _ Hr _ Hf) as (a' & vv' & Ha' & E & Ho). assert (a' = a) as -> by (by eapply vm_host_inj).
    rewrite Ha in Ha'. by injection Ha' as <-. }
  split.
  - apply (graph_ext _ _ _ Hg'); [|done]. intros c [vv' Hc']. unfold at_key. case_decide as Hca.
    + subst c. rewrite (base_file a vv Ha Hf). unfold base. rewrite Hc'. destruct Hbut as [_ Hbut].
      destruct (Hbut _ Hc') as (vv0 & E & -> & ->). rewrite Ha in E. injection E as <-. rewrite Hop.
      rewrite bool_decide_eq_false_2; [done|]. by intros [? _]%elem_without_file.
    + unfold base. rewrite Hc'. rewrite (proj1 Hbut c Hca) in Hc'. rewrite Hc'. apply base_same. rewrite elem_without_file. split; [by intros []|]. intros Hin. split; [|done].
      intros [= E]. apply Hca. by eapply vm_host_inj.
  - intros h [Hne Hin]%elem_without_file. destruct (r_vm _ _ Hr _ Hin) as (a' & vv' & Ha' & E & Ho). exists a', vv'.
    split_and!; [|done|done]. rewrite (proj1 Hbut); [done|]. intros ->. rewrite Ha in Ha'. injection Ha' as <-. congruence.
  - intros h [_ Hin]%elem_without_file. rewrite Hc. by apply (r_vcpu _ _ Hr).
  - intros b cw Hb Ho. rewrite Hc in Hb. apply elem_without_file. split; [done|]. by eapply (r_open _ _ Hr).
Qed.

Lemma rest_close_vcpu b cw vv w' : w_vcpus w !! b = Some cw -> w_vms w !! cw_vm cw = Some vv -> FVcpu (cw_host cw) ∈ files ->
  graph w' cr vr -> dropped_vcpu w b cw vv w' -> rest (without_file (FVcpu (cw_host cw))) w'.
Proof.
  intros Hb Hv Hf Hg' Hd. destruct (dropped_vcpu_but b cw vv w' Hv Hd) as [Hbut Hc].
  assert (Hfiles : forall h, FVm h ∈ without_file (FVcpu (cw_host cw)) <-> FVm h ∈ files)
    by (intros h; rewrite elem_without_file; naive_solver).
  split.
  - apply (graph_ext _ _ _ Hg'); [|done]. intros c [vv' Hc']. destruct (vms_but_from _ _ _ _ Hbut Hc') as (vv0 & E0 & Ef & Eh).
    unfold base. rewrite Hc', E0, Ef, Eh. apply base_same, Hfiles.
  - intros h Hin%Hfiles. destruct (r_vm _ _ Hr _ Hin) as (a & va & Ha & E & Ho). destruct (decide (a = cw_vm cw)) as [->|Hne].
    + rewrite Hv in Ha. injection Ha as <-. destruct (dropped_vcpu_keeps b cw vv w' Hb Hv Hd) as [vv' Hvv'].
      { apply (base_file _ vv Hv). by rewrite E. }
      destruct (vms_but_from _ _ _ _ Hbut Hvv') as (vv0 & E0 & Ef & Eh). rewrite Hv in E0. injection E0 as <-.
      exists (cw_vm cw), vv'. split_and!; [done|congruence|congruence].
    + exists a, va. split_and!; [|done|done]. by rewrite (proj1 Hbut).
  - intros h [Hne Hin]%elem_without_file. destruct (r_vcpu _ _ Hr _ Hin) as (b' & cw' & Hb' & E & Ho). exists b', cw'.
    split_and!; [|done|done]. rewrite Hc. rewrite lookup_delete_ne; [done|]. intros ->. rewrite Hb in Hb'. injection Hb' as <-. congruence.
  - intros b' cw' Hb' Ho. rewrite Hc in Hb'. apply lookup_delete_Some in Hb' as [Hne Hb']. apply elem_without_file.
    split; [|by eapply (r_open _ _ Hr)]. intros [= E]. apply Hne. by eapply vcpu_host_inj.
Qed.

(** An opened VM: the reference of its creation becomes that of its file. *)
Lemma rest_open_vm a vv files' : w_vms w !! a = Some vv ->
  (if opened_bit (vv_flags vv) then files' = files else files' = FVm (vv_host vv) :: files) ->
  graph (open_vm a vv w) cr vr -> rest files' (open_vm a vv w).
Proof.
  intros Ha Hfs Hg'. set (vv1 := vv_set_flags (Z.setbit (vv_flags vv) 1) vv).
  assert (Hset : opened_bit (vv_flags vv1) = true).
  { apply opened_setbit. }
  assert (Hin : forall f, f ∈ files' <-> f ∈ files \/ (opened_bit (vv_flags vv) = false /\ f = FVm (vv_host vv))).
  { intros f. destruct (opened_bit (vv_flags vv)); rewrite Hfs; rewrite ?elem_of_cons; naive_solver. }
  assert (Hnot : opened_bit (vv_flags vv) = false -> FVm (vv_host vv) ∉ files).
  { intros E (a' & vv' & Ha' & Eh & Ho)%(r_vm _ _ Hr). assert (a' = a) as -> by (by eapply vm_host_inj).
    rewrite Ha in Ha'. injection Ha' as <-. congruence. }
  split.
  - apply (graph_ext _ _ _ Hg'); [|done]. intros c [x Hc]. unfold base. rewrite Hc. unfold open_vm in Hc.
    cbn [w_vms with_vm with_vms] in Hc. apply lookup_insert_Some in Hc as [[<- <-]|[Hne Hc]].
    + rewrite Ha. fold vv1. rewrite Hset. change (vv_host vv1) with (vv_host vv).
      destruct (opened_bit (vv_flags vv)) eqn:E; [|].
      * apply (base_same _ _ true). rewrite Hin. naive_solver.
      * rewrite (bool_decide_eq_true_2 (FVm (vv_host vv) ∈ files')); [done|]. apply Hin. auto.
    + rewrite Hc. apply base_same. rewrite Hin. split; [|auto].
      intros [?|[_ [= E]]]; [done|]. destruct Hne. by eapply vm_host_inj.
  - assert (Hme : exists a0 v0, w_vms (open_vm a vv w) !! a0 = Some v0 /\ vv_host v0 = vv_host vv /\ opened_bit (vv_flags v0) = true)
      by (exists a, vv1; split_and!; [apply lookup_insert_eq|done|done]).
    intros h [Hf|[_ [= ->]]]%Hin; [|exact Hme]. destruct (r_vm _ _ Hr _ Hf) as (a' & vv' & Ha' & E & Ho).
    destruct (decide (a' = a)) as [->|Hne]; [rewrite Ha in Ha'; injection Ha' as <-; by rewrite <- E|].
    exists a', vv'. split_and!; [|done|done]. unfold open_vm. wcbn. by rewrite lookup_insert_ne.
  - intros h [Hf|[_ [=]]]%Hin. by apply (r_vcpu _ _ Hr).
  - intros b cw Hb Ho. apply Hin. left. by eapply (r_open _ _ Hr).
Qed.
Lemma rest_open_vcpu b cw files' : w_vcpus w !! b = Some cw ->
  (if opened_bit (cw_flags cw) then files' = files else files' = FVcpu (cw_host cw) :: files) ->
  graph (open_vcpu b cw w) cr vr -> rest files' (open_vcpu b cw w).
Proof.
  intros Hb Hfs Hg'. set (cw1 := cw_set_flags (Z.setbit (cw_flags cw) 1) cw).
  assert (Hset : opened_bit (cw_flags cw1) = true).
  { apply opened_setbit. }
  assert (Hin : forall f, f ∈ files' <-> f ∈ files \/ (opened_bit (cw_flags cw) = false /\ f = FVcpu (cw_host cw))).
  { intros f. destruct (opened_bit (cw_flags cw)); rewrite Hfs; rewrite ?elem_of_cons; naive_solver. }
  split.
  - apply (graph_ext _ _ _ Hg'); [|done]. intros c _. change (w_vms (open_vcpu b cw w)) with (w_vms w). unfold base.
    change (w_vms (open_vcpu b cw w)) with (w_vms w). destruct (w_vms w !! c) as [x|]; [|done]. apply base_same. rewrite Hin. naive_solver.
  - intros h [Hf|[_ [=]]]%Hin. by apply (r_vm _ _ Hr).
  - intros h [Hf|[_ [= ->]]]%Hin; [|exists b, cw1; split_and!; [apply lookup_insert_eq|done|done]].
    destruct (r_vcpu _ _ Hr _ Hf) as (b' & cw' & Hb' & E & Ho).
    destruct (decide (b' = b)) as [->|Hne].
    + rewrite Hb in Hb'. injection Hb' as <-. exists b, cw1. split_and!; [apply lookup_insert_eq|done|done].
    + exists b', cw'. split_and!; [|done|done]. unfold open_vcpu. wcbn. by rewrite lookup_insert_ne.
  - intros b' cw' Hb' Ho. unfold open_vcpu in Hb'. cbn [w_vcpus with_vcpu with_vcpus] in Hb'.
    apply lookup_insert_Some in Hb' as [[<- <-]|[Hne Hb']]; apply Hin.
    + change (cw_host _) with (cw_host cw). destruct (opened_bit (cw_flags cw)) eqn:E; [left; by eapply (r_open _ _ Hr)|auto].
    + left. by eapply (r_open _ _ Hr).
Qed.
End Rest.

(** ** Requests *)
Definition vm_sig (w : view) (a : Z) : option (Z * Z) := (fun vv => (vv_flags vv, vv_host vv)) <$> w_vms w !! a.
Definition vcpu_sig (w : view) (b : Z) : option (Z * Z) := (fun cw => (cw_flags cw, cw_host cw)) <$> w_vcpus w !! b.
(** Nothing has been opened or closed; what is new has not been opened. *)
Definition steady (w w' : view) : Prop :=
  (forall a, vm_sig w' a = vm_sig w a \/ vm_sig w a = None /\ exists h, vm_sig w' a = Some (0, h)) /\
  (forall b, vcpu_sig w' b = vcpu_sig w b \/ vcpu_sig w b = None /\ exists h, vcpu_sig w' b = Some (0, h)).
Lemma steady_same w w' : (forall a, vm_sig w' a = vm_sig w a) -> (forall b, vcpu_sig w' b = vcpu_sig w b) -> steady w w'.
Proof. intros H1 H2. split; intros a; left; auto. Qed.
Lemma steady_trans w1 w2 w3 : steady w1 w2 -> steady w2 w3 -> steady w1 w3.
Proof.
  intros [A1 A2] [B1 B2]. split; intros a.
  - destruct (A1 a) as [E1|[E1 [h1 F1]]], (B1 a) as [E2|[E2 [h2 F2]]]; rewrite ?E2; eauto; right; split; eauto; congruence.
  - destruct (A2 a) as [E1|[E1 [h1 F1]]], (B2 a) as [E2|[E2 [h2 F2]]]; rewrite ?E2; eauto; right; split; eauto; congruence.
Qed.
Lemma vm_sig_insert a vv vv' w w' : w_vms w !! a = Some vv -> w_vms w' = <[a := vv']> (w_vms w) -> vv_flags vv' = vv_flags vv ->
  vv_host vv' = vv_host vv -> forall c, vm_sig w' c = vm_sig w c.
Proof.
  intros Ha E Ef Eh c. unfold vm_sig. rewrite E. destruct (decide (a = c)) as [<-|Hne]; [|by rewrite lookup_insert_ne].
  rewrite lookup_insert_eq, Ha. cbn. congruence.
Qed.
Lemma vcpu_sig_insert b cw cw' w w' : w_vcpus w !! b = Some cw -> w_vcpus w' = <[b := cw']> (w_vcpus w) -> cw_flags cw' = cw_flags cw ->
  cw_host cw' = cw_host cw -> forall c, vcpu_sig w' c = vcpu_sig w c.
Proof.
  intros Hb E Ef Eh c. unfold vcpu_sig. rewrite E. destruct (decide (b = c)) as [<-|Hne]; [|by rewrite lookup_insert_ne].
  rewrite lookup_insert_eq, Hb. cbn. congruence.
Qed.
Lemma vm_sig_lookup w a f h : vm_sig w a = Some (f, h) -> exists vv, w_vms w !! a = Some vv /\ vv_flags vv = f /\ vv_host vv = h.
Proof. unfold vm_sig. destruct (w_vms w !! a) as [vv|]; [|done]. intros [= <- <-]. by exists vv. Qed.
Lemma vcpu_sig_lookup w a f h : vcpu_sig w a = Some (f, h) -> exists cw, w_vcpus w !! a = Some cw /\ cw_flags cw = f /\ cw_host cw = h.
Proof. unfold vcpu_sig. destruct (w_vcpus w !! a) as [cw|]; [|done]. intros [= <- <-]. by exists cw. Qed.
Lemma steady_vm w w' a vv : steady w w' -> w_vms w !! a = Some vv ->
  exists vv', w_vms w' !! a = Some vv' /\ vv_flags vv' = vv_flags vv /\ vv_host vv' = vv_host vv.
Proof.
  intros [S _] Ha. assert (E : vm_sig w a = Some (vv_flags vv, vv_host vv)) by (unfold vm_sig; by rewrite Ha).
  destruct (S a) as [E'|[E' _]]; [|congruence]. rewrite E in E'. by apply vm_sig_lookup.
Qed.
Lemma steady_vcpu w w' b cw : steady w w' -> w_vcpus w !! b = Some cw ->
  exists cw', w_vcpus w' !! b = Some cw' /\ cw_flags cw' = cw_flags cw /\ cw_host cw' = cw_host cw.
Proof.
  intros [_ S] Ha. assert (E : vcpu_sig w b = Some (cw_flags cw, cw_host cw)) by (unfold vcpu_sig; by rewrite Ha).
  destruct (S b) as [E'|[E' _]]; [|congruence]. rewrite E in E'. by apply vcpu_sig_lookup.
Qed.

Lemma base_of_sig files w a : base files w a =
  match vm_sig w a with
  | Some (f, h) => if (opened_bit f && negb (bool_decide (FVm h ∈ files)))%bool then 0 else 1
  | None => 1
  end.
Proof. unfold base, vm_sig. by destruct (w_vms w !! a). Qed.
Lemma rest_steady files w w' : rest files w -> steady w w' -> graph w' (base files w) (fun _ => 1) -> rest files w'.
Proof.
  intros Hr HS Hg. split.
  - apply (graph_ext _ _ _ Hg); [|done]. intros a _. rewrite !base_of_sig. destruct HS as [S _].
    destruct (S a) as [->|[-> [h ->]]]; [done|]. done.
  - intros h Hf. destruct (r_vm _ _ Hr _ Hf) as (a & vv & Ha & E & Ho).
    destruct (steady_vm _ _ _ _ HS Ha) as (vv' & Ha' & Ef & Eh). exists a, vv'. split_and!; [done|congruence|congruence].
  - intros h Hf. destruct (r_vcpu _ _ Hr _ Hf) as (b & cw & Hb & E & Ho).
    destruct (steady_vcpu _ _ _ _ HS Hb) as (cw' & Hb' & Ef & Eh). exists b, cw'. split_and!; [done|congruence|congruence].
  - intros b cw' Hb' Ho. destruct HS as [_ S].
    assert (E' : vcpu_sig w' b = Some (cw_flags cw', cw_host cw')) by (unfold vcpu_sig; by rewrite Hb').
    destruct (S b) as [E|[_ [h E]]]; rewrite E' in E.
    + symmetry in E. destruct (vcpu_sig_lookup _ _ _ _ E) as (cw & Hb & Ef & Eh). rewrite <- Eh. eapply (r_open _ _ Hr); [exact Hb|congruence].
    + injection E as Ef _. by rewrite Ef in Ho.
Qed.

Section Requests.
Context {HH : Host} {PH : PhysHost} {VH : VmxHw} {CH : CpuidHw} {FO : FastOps} {KH : KernelHw}.
Context {AH : AllocHost} {LH : LinuxHost} {UC : UserCopy}.
Context (G : hax_globals) (uninit : cpuid_args_t) (info : info_t).
Context (io_bitmap_a_pa io_bitmap_b_pa msr_bitmap_pa gmsr_autoload_pa : Z).
Context (same_kva : Z -> Z -> bool) (asm_vmxrun : M vcpu Z) (run_fuel : nat).
Context (space_ok : vm_t -> Prop) {SL : SpaceLaws space_ok}.
#[local] Notation St := (St space_ok false []).
#[local] Notation Mk := (Mk space_ok).
#[local] Notation twp := (twp false).
#[local] Notation vr := (fun _ : Z => 1).
Implicit Types (d : driver) (w : view).

Definition calm w (cr vr : Z -> Z) d : Prop := exists w', St w' d /\ graph w' cr vr /\ steady w w'.
Lemma calm_same w cr vr d : St w d -> graph w cr vr -> calm w cr vr d.
Proof. intros HS Hg. exists w. split_and!; [done|done|by apply steady_same]. Qed.
Lemma calm_grown w cr vr d : graph w cr vr -> Mk (w_next w) (w_live w) w d -> calm w cr vr d.
Proof.
  intros Hg (l & n & HS & HX & HN). exists (with_mem l n w). split_and!; [done| |by apply steady_same].
  apply graph_grown; [done|etrans; [apply Hg|done]|done].
Qed.

Lemma calm_from_user (k : M driver (Z * user_data)) w cr vr d : St w d -> graph w cr vr ->
  (forall d', St w d' -> twp k d' (fun _ d'' => calm w cr vr d'')) -> twp (from_user k) d (fun _ d' => calm w cr vr d').
Proof.
  intros HS Hg H. apply twp_bind. eapply host_service_rule; [exact HS|]. intros [] d' HS'; [|by apply H].
  apply twp_ret. by apply calm_same.
Qed.
Lemma calm_to_user r x w cr vr d : St w d -> graph w cr vr -> twp (to_user r x) d (fun _ d' => calm w cr vr d').
Proof.
  intros HS Hg. apply twp_bind. eapply host_service_rule; [exact HS|]. intros [] d' HS'; apply twp_ret; by apply calm_same.
Qed.
Lemma calm_on_vm {A} a (m : M vm_t A) w cr vr d (k : A -> M driver (Z * user_data)) : St w d -> graph w cr vr ->
  (forall r d', St w d' -> twp (k r) d' (fun _ d'' => calm w cr vr d'')) -> twp (r ← on_vm a m; k r) d (fun _ d' => calm w cr vr d').
Proof. intros HS Hg H. apply twp_bind. eapply on_vm_partial; [exact HS|]. intros r d' HS'. by apply H. Qed.
Lemma calm_on_vcpu {A} b (m : M vcpu A) w cr vr d (k : A -> M driver (Z * user_data)) : St w d -> graph w cr vr ->
  (forall r d', St w d' -> twp (k r) d' (fun _ d'' => calm w cr vr d'')) -> twp (r ← on_vcpu b m; k r) d (fun _ d' => calm w cr vr d').
Proof. intros HS Hg H. apply twp_bind. eapply on_vcpu_partial; [exact HS|]. intros r d' HS'. by apply H. Qed.
Lemma calm_ret {A} (x : A) w cr vr d : St w d -> graph w cr vr -> twp (mret x) d (fun _ d' => calm w cr vr d').
Proof. intros HS Hg. apply twp_ret. by apply calm_same. Qed.
Ltac calm_step := lazymatch goal with
  | |- VmGraph.twp _ (from_user _) _ _ => apply calm_from_user; [assumption|assumption|intros ? ?]
  | |- VmGraph.twp _ (to_user _ _) _ _ => apply calm_to_user; assumption
  | |- VmGraph.twp _ (mret _) _ _ => apply calm_ret; assumption
  | |- VmGraph.twp _ (on_vm _ _ ≫= _) _ _ => apply calm_on_vm; [assumption|assumption|intros ? ? ?]
  | |- VmGraph.twp _ (on_vcpu _ _ ≫= _) _ _ => apply calm_on_vcpu; [assumption|assumption|intros ? ? ?]
  | |- VmGraph.twp _ (if _ then _ else _) _ _ => apply twp_if; intros _
  end.

Lemma calm_qemuversion a v w cr vr d : St w d -> graph w cr vr -> is_Some (w_vms w !! a) ->
  twp (only_ret (hax_vm_set_qemuversion a v)) d (fun _ d' => calm w cr vr d').
Proof.
  intros HS Hg [vv Ha]. assert (Hone : forall x d', St w d' -> twp (modify_vm a (fun o => set_vo_features (vo_features o |! x) o)) d' (fun _ d'' => St w d'')).
  { intros x d' HS'. eapply (modify_vm_view _ _ _ _ _ (fun y => y)); [exact HS'|exact Ha|done|intros; reflexivity|]. intros d'' HS''.
    by rewrite with_vm_id in HS''. }
  apply twp_bind. apply (twp_mono _ _ _ (fun _ d' => St w d')); [|intros r d' HS'; by apply calm_ret].
  apply twp_bind. apply (twp_mono _ _ _ (fun _ d' => St w d')); [|intros _ d' HS'; by apply twp_ret].
  apply twp_if; intros _; [|by apply twp_ret]. apply twp_bind. eapply twp_mono; [by apply Hone|]. intros [] d1 HS1.
  apply twp_if; intros _; [by apply Hone|by apply twp_ret].
Qed.

Lemma calm_vcpu_create a vv j w cr d : St w d -> graph w cr vr -> w_vms w !! a = Some vv ->
  twp (vcpu_create G uninit info io_bitmap_a_pa io_bitmap_b_pa msr_bitmap_pa gmsr_autoload_pa a (vv_host vv) j) d
    (fun _ d' => calm w cr vr d').
Proof.
  intros HS Hg Ha. pose proof (g_vm _ _ _ Hg _ _ Ha) as V.
  eapply (vcpu_create_rule space_ok); [exact HS|apply Hg|by eapply fresh_vcpu_key|by eapply fresh_vcpu_host|exact Ha|apply V|
    by eapply graph_list|by eapply graph_refs_small|by eapply graph_vcpus_listed| |].
  - intros b d' (h & m & N & cw & vv' & Hb & Hh & Hj & Hdev & Hnew & l & n & HS' & HX & HN). pose proof Hnew as [N1 N2 N3 N4 N5 N6 N7 (seed & _ & E)].
    eexists. split_and!; [exact HS'| |].
    + eapply (graph_add_vcpu w cr vr Hg a h m b j vv vv' cw); [lia|lia|exact Hj|exact Ha|exact Hdev|exact Hnew| |done|done].
      etrans; [|exact HX]. pose proof (g_mem _ _ _ Hg) as Hm. revert Hm. generalize (vcpu_mem b cw), (owned w), (w_live w). intros x y z Hm.
      do 2 apply gmultiset_disj_union_mono_l. exact Hm.
    + split; intros c.
      * left. eapply vm_sig_insert; [exact Ha|reflexivity|by rewrite E|by rewrite E].
      * destruct (decide (c = b)) as [->|Hne].
        -- right. unfold vcpu_sig. rewrite (fresh_vcpu_key w cr vr Hg b) by lia. split; [done|]. exists h.
           change (w_vcpus (with_mem l n _)) with (<[b := cw]> (w_vcpus w)). rewrite lookup_insert_eq. cbn. congruence.
        -- left. unfold vcpu_sig. change (w_vcpus (with_mem l n _)) with (<[b := cw]> (w_vcpus w)). by rewrite lookup_insert_ne.
  - intros d' HM. by apply calm_grown.
Qed.
Lemma calm_create_vm w d files : St w d -> rest files w -> twp ioctl_create_vm d (fun _ d' => calm w (base files w) vr d').
Proof.
  intros HS Hr. pose proof (r_graph _ _ Hr) as Hg. apply twp_bind.
  eapply (hax_create_vm_rule space_ok); [exact HS|apply Hg|by eapply fresh_vm_key|by eapply fresh_vm_host| |].
  - intros a i d' (h & m & lock & e & N & Ha & Hh & _ & Hi & Hbit & Hdev & l & n & HS' & HX & HN).
    assert (Hc : calm w (base files w) vr d').
    { eexists. split_and!; [exact HS'| |].
      - eapply (graph_add_vm w (base files w) vr Hg a h m i lock e); [lia|lia|exact Hi|exact Hbit|exact Hdev| | |done].
        + etrans; [|exact HX]. repeat apply gmultiset_disj_union_mono_l. apply Hg.
        + unfold base. by rewrite (fresh_vm_key w _ _ Hg) by lia.
      - split; intros c; [|by left]. destruct (decide (c = a)) as [->|Hne].
        + right. unfold vm_sig. rewrite (fresh_vm_key w _ _ Hg a) by lia. split; [done|]. exists h.
          change (w_vms (with_mem l n _)) with (<[a := fresh_vm i h lock e]> (w_vms w)). by rewrite lookup_insert_eq.
        + left. unfold vm_sig. change (w_vms (with_mem l n _)) with (<[a := fresh_vm i h lock e]> (w_vms w)). by rewrite lookup_insert_ne. }
    destruct Hc as (w' & HSw & Hgw & Hst). eapply twp_mono; [by apply calm_to_user|].
    intros _ d2 (w2 & HS2 & Hg2 & Hst2). exists w2. split_and!; [done|done|by eapply steady_trans].
  - intros o d' HM. apply twp_ret. by apply calm_grown.
Qed.
Lemma calm_vm_request a vv cmd w cr d : St w d -> graph w cr vr -> w_vms w !! a = Some vv ->
  twp (vm_request G uninit info io_bitmap_a_pa io_bitmap_b_pa msr_bitmap_pa gmsr_autoload_pa a (vv_host vv) cmd) d
    (fun _ d' => calm w cr vr d').
Proof.
  intros HS Hg Ha. destruct cmd; cbn [vm_request]; unfold only_ret; repeat calm_step.
  - apply twp_bind. eapply twp_mono; [by eapply calm_vcpu_create|]. by intros [?|] d1 Hc; apply twp_ret.
  - apply calm_qemuversion; [assumption|assumption|by eexists].
Qed.

(** The tunnel is set up again. *)
Lemma owned_vcpu b cw cw' l n w : w_vcpus w !! b = Some cw ->
  owned (with_vcpu b cw' (with_mem l n w)) ⊎ vcpu_mem b cw = vcpu_mem b cw' ⊎ owned w.
Proof.
  intros Hb. unfold owned. wcbn. rewrite (msum_update vcpu_mem _ _ cw' _ Hb), (msum_delete vcpu_mem _ _ _ Hb).
  generalize (msum vm_mem (w_vms w)), (msum vm_host_mem (w_vm_hosts w)), (vcpu_mem b cw), (vcpu_mem b cw'),
    (msum vcpu_mem (delete b (w_vcpus w))), (msum vcpu_host_mem (w_vcpu_hosts w)). clear. intros. multiset_solver.
Qed.
Lemma graph_vcpu_buffers w cr vr' b cw t i l n : graph w cr vr' -> w_vcpus w !! b = Some cw -> buffer_ok t -> buffer_ok i ->
  owned (with_vcpu b (cw_set_buffers t i cw) w) ⊆ l -> w_next w <= n ->
  graph (with_mem l n (with_vcpu b (cw_set_buffers t i cw) w)) cr vr'.
Proof.
  intros Hg Hb Ht Hi Hl Hn. set (cw' := cw_set_buffers t i cw). set (w' := with_mem l n _).
  destruct Hg as [G1 G2 G3 G4 G5 G6 G7 G8 G9 G10 G11 G12 G13 G14].
  assert (Hlk : forall a x, w_vcpus w' !! a = Some x -> exists y, w_vcpus w !! a = Some y /\
    cw_id x = cw_id y /\ cw_vm x = cw_vm y /\ cw_vpid x = cw_vpid y /\ cw_host x = cw_host y /\ cw_ref x = cw_ref y /\
    (x = y \/ x = cw')).
  { intros a x. change (w_vcpus w') with (<[b := cw']> (w_vcpus w)). rewrite lookup_insert_Some.
    intros [[<- <-]|[_ Ha]]; [exists cw; split_and!; auto|exists x; split_and!; auto]. }
  assert (Hlk' : forall a y, w_vcpus w !! a = Some y -> exists x, w_vcpus w' !! a = Some x /\
    cw_id x = cw_id y /\ cw_vm x = cw_vm y /\ cw_vpid x = cw_vpid y /\ cw_host x = cw_host y).
  { intros a y Ha. change (w_vcpus w') with (<[b := cw']> (w_vcpus w)). destruct (decide (b = a)) as [<-|Hne]; [|exists y; by rewrite lookup_insert_ne].
    rewrite lookup_insert_eq. rewrite Hb in Ha. injection Ha as <-. by exists cw'. }
  split; try done.
  - change (w_next w') with n. lia.
  - destruct G3 as (K1 & K2 & K3 & K4). change (w_next w') with n.
    split_and!; [by eapply keys_more|by eapply keys_more| |by eapply keys_more].
    intros a [x Ha]. destruct (Hlk a x Ha) as (y & Hy & _). pose proof (K3 a ltac:(by eexists)). lia.
  - intros a vv Ha. destruct (G6 a vv Ha) as [V1 V2 V3 V4 V5 V6 V7 V8 V9 V10]. split; try done.
    intros b' Hb'. destruct (V3 b' Hb') as (y & Hy & <-). destruct (Hlk' b' y Hy) as (x & Hx & _ & Em & _). by exists x.
  - intros a x Hx. destruct (Hlk a x Hx) as (y & Hy & Ei & Em & Ev & Eh & Er & Hcase).
    destruct (G7 a y Hy) as (vv & Hv & [C1 C2 C3 C4 C5 C6 C7 [k C8] C9]). exists vv. rewrite Em. split; [done|].
    split; unfold vpid_good; rewrite ?Ei, ?Ev, ?Eh, ?Er; try done.
    + destruct Hcase as [-> | ->]; [done|exact Ht].
    + destruct Hcase as [-> | ->]; [done|exact Hi].
    + by exists k.
  - intros h x Hx. destruct (G9 h x Hx) as (y & Hy & E). destruct (Hlk' _ y Hy) as (z & Hz & _ & _ & _ & Eh). exists z. split; [done|congruence].
  - intros a a' x x' Hx Hx' E1 E2. destruct (Hlk a x Hx) as (y & Hy & Ei & Em & _), (Hlk a' x' Hx') as (y' & Hy' & Ei' & Em' & _).
    apply (G11 _ _ _ _ Hy Hy'); congruence.
  - intros a a' x x' Hx Hx' E1 E2. destruct (Hlk a x Hx) as (y & Hy & _ & _ & Ev & _), (Hlk a' x' Hx') as (y' & Hy' & _ & _ & Ev' & _).
    apply (G12 _ _ _ _ Hy Hy'); congruence.
  - intros dev Hd. specialize (G14 dev Hd). destruct dev as [j|j k]; [done|].
    destruct G14 as (c & y & z & Hc & Hz & E1 & E2). destruct (Hlk' c y Hc) as (x & Hx & Ei & Em & _). exists c, x, z.
    rewrite Em, Ei. by split_and!.
Qed.
Lemma calm_setup_tunnel b cw w cr vr' d (k : Z -> M driver (Z * user_data)) : St w d -> graph w cr vr' -> w_vcpus w !! b = Some cw ->
  (forall r w1 d1, St w1 d1 -> graph w1 cr vr' -> steady w w1 -> twp (k r) d1 (fun _ d' => calm w cr vr' d')) ->
  twp (r ← hax_vcpu_setup_hax_tunnel b; k r) d (fun _ d' => calm w cr vr' d').
Proof.
  intros HS Hg Hb H. destruct (g_vcpu _ _ _ Hg _ _ Hb) as (vv & _ & C). pose proof (cg_tunnel _ _ _ _ _ C) as K1.
  pose proof (cg_iobuf _ _ _ _ _ C) as K2. apply twp_bind.
  set (X := w_live w ∖ tunnel_mem cw).
  assert (Hin : tunnel_mem cw ⊆ w_live w).
  { etrans; [|exact (g_mem _ _ _ Hg)]. unfold owned. rewrite (msum_delete vcpu_mem _ _ _ Hb). unfold vcpu_mem. msets. }
  eapply (Mk_setup_tunnel space_ok b cw _ X); [eapply Mk_weaken; [by apply Mk_intro| |reflexivity]|exact Hb|exact K1|exact K2|].
  { rewrite !part_mem_ok by done. unfold X. revert Hin. unfold tunnel_mem.
    generalize (buffer_mem (cw_tunnel cw)), (buffer_mem (cw_iobuf cw)), (w_live w). clear. intros. multiset_solver. }
  intros r t i N' d1 Ht Hi HN (l & n & HS1 & HX & HN1). eapply H; [exact HS1| |].
  - eapply graph_vcpu_buffers; [exact Hg|exact Hb|exact Ht|exact Hi| |lia]. etrans; [|exact HX].
    pose proof (owned_vcpu b cw (cw_set_buffers t i cw) (w_live w) (w_next w) w Hb) as E.
    replace (with_mem (w_live w) (w_next w) w) with w in E by (by destruct w).
    rewrite !part_mem_ok by done. pose proof (g_mem _ _ _ Hg) as Hm. revert E Hin Hm. unfold X, vcpu_mem.
    change (vcpu_pages (cw_set_buffers t i cw)) with (vcpu_pages cw). unfold tunnel_mem. cbn [cw_set_buffers cw_tunnel cw_iobuf].
    fold (cw_set_buffers t i cw). generalize (owned (with_vcpu b (cw_set_buffers t i cw) w)), (owned w), (vcpu_pages cw), (w_live w),
      (buffer_mem (cw_tunnel cw)), (buffer_mem (cw_iobuf cw)), (buffer_mem t), (buffer_mem i), ({[+ b +]} : gmultiset Z).
    clear. intros. multiset_solver.
  - apply steady_same; [done|]. intros c. by eapply vcpu_sig_insert.
Qed.

Lemma calm_user_cpuid ht (k : M driver (Z * user_data)) w cr vr' d : St w d -> graph w cr vr' ->
  (forall N X d', Mk N X w d' -> twp k d' (fun _ d'' => Mk N X w d'')) ->
  twp (with_user_cpuid ht k) d (fun _ d' => calm w cr vr' d').
Proof.
  intros HS Hg Hk. apply calm_from_user; [done|done|]. intros d1 HS1. apply twp_if; intros _; [by apply calm_ret|].
  apply twp_bind. eapply (Mk_kalloc space_ok); [by apply (Mk_intro space_ok)| |]; [|intros d2 HM2; apply twp_ret; by apply calm_grown].
  intros p d2 Hp HM2. apply twp_bind. eapply (Mk_service space_ok); [exact HM2|]. intros err d3 HM3.
  assert (Hfree : forall (r : Z * user_data) d', Mk (p + 1) ({[+ p +]} ⊎ w_live w) w d' ->
    twp (kfree_at p;; mret r) d' (fun _ d'' => calm w cr vr' d'')).
  { intros r d' HM. apply twp_bind. eapply (Mk_kfree_at space_ok); [exact HM|]. intros d4 HM4. apply twp_ret, calm_grown; [done|].
    eapply (Mk_weaken space_ok); [exact HM4|done|lia]. }
  destruct err; [by apply Hfree|]. apply twp_bind. eapply twp_mono; [by apply Hk|]. intros r d4 HM4. by apply Hfree.
Qed.

Lemma Mk_cpuid_request {A} b (m : M vcpu A) (k : A -> M driver (Z * user_data)) N X w d :
  (forall r d', Mk N X w d' -> twp (k r) d' (fun _ d'' => Mk N X w d'')) -> Mk N X w d ->
  twp (r ← on_vcpu b m; k r) d (fun _ d' => Mk N X w d').
Proof. intros H HM. apply twp_bind. eapply (Mk_on_vcpu space_ok); [exact HM|]. intros r d' HM'. by apply H. Qed.
Lemma calm_vcpu_request b cw cmd w cr vr' d : St w d -> graph w cr vr' -> w_vcpus w !! b = Some cw ->
  twp (vcpu_request G uninit same_kva asm_vmxrun run_fuel b cmd) d (fun _ d' => calm w cr vr' d').
Proof.
  intros HS Hg Hb. destruct cmd; cbn [vcpu_request]; unfold only_ret; repeat calm_step.
  - eapply calm_setup_tunnel; [done|done|done|]. intros r w1 d1 HS1 Hg1 Hst. apply twp_bind, get_vcpu_partial. intros c.
    eapply twp_mono; [by apply calm_to_user|]. intros _ d2 (w2 & HS2 & Hg2 & Hst2). exists w2. split_and!; [done|done|by eapply steady_trans].
  - apply calm_user_cpuid; [done|done|]. intros N X d' HM. apply Mk_cpuid_request; [|exact HM]. intros r d1 HM1. by apply twp_ret.
  - apply calm_user_cpuid; [done|done|]. intros N X d' HM. apply Mk_cpuid_request; [|exact HM]. intros r d1 HM1.
    destruct r.2; [|by apply twp_ret]. apply twp_bind. eapply (Mk_service space_ok); [exact HM1|]. by intros [] d2 HM2; apply twp_ret.
Qed.
End Requests.

(** ** Calls *)
Section Calls.
Context {HH : Host} {PH : PhysHost} {VH : VmxHw} {CH : CpuidHw} {FO : FastOps} {KH : KernelHw}.
Context {AH : AllocHost} {LH : LinuxHost} {UC : UserCopy}.
Context (G : hax_globals) (uninit : cpuid_args_t) (info : info_t).
Context (io_bitmap_a_pa io_bitmap_b_pa msr_bitmap_pa gmsr_autoload_pa : Z).
Context (same_kva : Z -> Z -> bool) (asm_vmxrun : M vcpu Z) (run_fuel : nat).
#[local] Notation call := (sys_call G uninit info io_bitmap_a_pa io_bitmap_b_pa msr_bitmap_pa gmsr_autoload_pa
  same_kva asm_vmxrun run_fuel).
Implicit Types (s : sys) (w : view).

Section Rules.
Context (space_ok : vm_t -> Prop) {SL : SpaceLaws space_ok} (t : bool) (L : list remain).
#[local] Notation St := (St space_ok t L).

Lemma in_driver_rule {A} (m : M driver A) s (Q : A -> sys -> Prop) :
  twp t m (sy_driver s) (fun a d => Q a (Sys d (sy_files s))) -> twp t (in_driver m) s Q.
Proof. unfold twp, in_driver. by destruct (m _) as [[a d]|]. Qed.

Definition resting s w : Prop := St w (sy_driver s) /\ rest (sy_files s) w.
(** The objects behind a device and a file. *)
Lemma vm_of_device files w h : rest files w -> is_Some (w_vm_hosts w !! h) ->
  exists a vv x, w_vm_hosts w !! h = Some x /\ vh_id x = vv_id vv /\ w_vms w !! a = Some vv /\ vv_host vv = h.
Proof.
  intros Hr [x Hx]. destruct (host_vm _ _ _ _ _ (r_graph _ _ Hr) Hx) as (a & vv & n & -> & Ha & Eh).
  by exists a, vv, (VmLinux a (vv_id vv) (Some (DevVm (vv_id vv), n))).
Qed.
Lemma file_device files w h : rest files w -> FVm h ∈ files -> is_Some (w_vm_hosts w !! h).
Proof.
  intros Hr (a & vv & Ha & <- & _)%(r_vm _ _ Hr). destruct (vg_host _ _ _ _ (g_vm _ _ _ (r_graph _ _ Hr) _ _ Ha)) as [n Hn].
  by eexists.
Qed.
Lemma file_vcpu_device files w h : rest files w -> FVcpu h ∈ files -> is_Some (w_vcpu_hosts w !! h).
Proof.
  intros Hr (b & cw & Hb & <- & _)%(r_vcpu _ _ Hr). destruct (g_vcpu _ _ _ (r_graph _ _ Hr) _ _ Hb) as (vv & _ & C).
  destruct (cg_host _ _ _ _ _ C) as [n Hn]. by eexists.
Qed.

Lemma close_vm_rule h s w (Q : Z * user_data -> sys -> Prop) : resting s w -> FVm h ∈ sy_files s ->
  (forall a vv w' s', resting s' w' -> sy_files s' = without_file (sy_files s) (FVm h) ->
     w_vms w !! a = Some vv -> dropped w a vv w' -> Q (0, UdNone) s') -> twp t (call (CloseVm h)) s Q.
Proof.
  intros [HS Hr] Hf H. apply twp_bind, twp_modify. cbn [sy_driver sy_files].
  destruct (vm_of_device _ _ h Hr (file_device _ _ h Hr Hf)) as (a & vv & x & Hx & Ei & Ha & Eh).
  pose proof (base_file _ _ _ _ Ha ltac:(by rewrite Eh)) as Hb. apply twp_bind, in_driver_rule.
  eapply (hax_vm_release_rule space_ok t); [exact HS|apply Hr|exact Hx|exact Ei|exact Ha|lia|]. intros w' d' HS' Hg' Hd.
  apply twp_ret. eapply H; [|done|exact Ha|exact Hd]. split; [exact HS'|]. subst h. by eapply rest_close_vm.
Qed.
Lemma open_vm_rule h s w (Q : Z * user_data -> sys -> Prop) : resting s w -> is_Some (w_vm_hosts w !! h) ->
  (forall ret a vv s', resting s' (open_vm a vv w) -> w_vms w !! a = Some vv -> Q (ret, UdNone) s') -> twp t (call (OpenVm h)) s Q.
Proof.
  intros [HS Hr] Hf H. destruct (vm_of_device _ _ h Hr Hf) as (a & vv & x & Hx & Ei & Ha & Eh).
  pose proof (base_range (sy_files s) w a). apply twp_bind, in_driver_rule.
  eapply (hax_vm_open_rule space_ok t); [exact HS|apply Hr|exact Hx|exact Ei|exact Ha|lia|]. intros d' HS' Hg'.
  destruct (opened_bit (vv_flags vv)) eqn:Eo; cbn [Z.eqb]; apply twp_bind.
  - apply twp_ret, twp_ret. eapply H; [|exact Ha]. split; [exact HS'|]. cbn [sy_files].
    eapply rest_open_vm; [exact Hr|exact Ha|by rewrite Eo|exact Hg'].
  - apply twp_modify, twp_ret. eapply H; [|exact Ha]. split; [exact HS'|]. cbn [sy_files]. subst h.
    eapply rest_open_vm; [exact Hr|exact Ha|by rewrite Eo|exact Hg'].
Qed.

Lemma close_vcpu_rule h s w (Q : Z * user_data -> sys -> Prop) : resting s w -> FVcpu h ∈ sy_files s ->
  (forall b cw vv w' s', resting s' w' -> sy_files s' = without_file (sy_files s) (FVcpu h) ->
     w_vcpus w !! b = Some cw -> w_vms w !! cw_vm cw = Some vv -> dropped_vcpu w b cw vv w' -> Q (0, UdNone) s') ->
  twp t (call (CloseVcpu h)) s Q.
Proof.
  intros [HS Hr] Hf H. apply twp_bind, twp_modify. cbn [sy_driver sy_files].
  destruct (file_vcpu_device _ _ h Hr Hf) as [x Hx].
  destruct (host_vcpu _ _ _ _ _ (r_graph _ _ Hr) Hx) as (b & cw & vv & n & y & Ex & Hb & Hv & Eh & _).
  pose proof (base_range (sy_files s) w (cw_vm cw)). apply twp_bind, in_driver_rule.
  eapply (hax_vcpu_release_rule space_ok t); [exact HS|apply Hr|exact Hx|exact Ex|exact Hb|exact Hv|done|lia|]. intros w' d' HS' Hg' Hd.
  apply twp_ret. eapply H; [|done|exact Hb|exact Hv|exact Hd]. split; [exact HS'|]. subst h. by eapply rest_close_vcpu.
Qed.
Lemma open_vcpu_rule h s w (Q : Z * user_data -> sys -> Prop) : resting s w -> is_Some (w_vcpu_hosts w !! h) ->
  (forall ret b cw s', resting s' (open_vcpu b cw w) -> w_vcpus w !! b = Some cw -> Q (ret, UdNone) s') -> twp t (call (OpenVcpu h)) s Q.
Proof.
  intros [HS Hr] [x Hx] H.
  destruct (host_vcpu _ _ _ _ _ (r_graph _ _ Hr) Hx) as (b & cw & vv & n & y & Ex & Hb & Hv & Eh & _).
  apply twp_bind, in_driver_rule.
  eapply (hax_vcpu_open_rule space_ok t); [exact HS|apply Hr|exact Hx|exact Ex|exact Hb|exact Hv|lia|]. intros d' HS' Hg'.
  destruct (opened_bit (cw_flags cw)) eqn:Eo; cbn [Z.eqb]; apply twp_bind.
  - apply twp_ret, twp_ret. eapply H; [|exact Hb]. split; [exact HS'|]. cbn [sy_files].
    eapply rest_open_vcpu; [exact Hr|exact Hb|by rewrite Eo|exact Hg'].
  - apply twp_modify, twp_ret. eapply H; [|exact Hb]. split; [exact HS'|]. cbn [sy_files]. subst h.
    eapply rest_open_vcpu; [exact Hr|exact Hb|by rewrite Eo|exact Hg'].
Qed.

(** ** The end *)
Definition all_opened w : Prop :=
  (forall a vv, w_vms w !! a = Some vv -> opened_bit (vv_flags vv) = true) /\
  (forall b cw, w_vcpus w !! b = Some cw -> opened_bit (cw_flags cw) = true).
Definition close_call (f : file) : user_call := match f with FVm h => CloseVm h | FVcpu h => CloseVcpu h end.
Fixpoint close_files (l : list file) : M sys unit :=
  match l with [] => mret tt | f :: l => _ ← call (close_call f); close_files l end.

Lemma close_rule f s w (Q : Z * user_data -> sys -> Prop) : resting s w -> f ∈ sy_files s ->
  (forall w' s', resting s' w' -> sy_files s' = without_file (sy_files s) f -> conserved w w' ->
     (all_opened w -> all_opened w') -> Q (0, UdNone) s') -> twp t (call (close_call f)) s Q.
Proof.
  intros HR Hf H. pose proof HR as [_ Hr]. destruct f as [h|h].
  - eapply close_vm_rule; [exact HR|exact Hf|]. intros a vv w' s' HR' Ef Ha Hd.
    destruct (dropped_but w a vv w' Ha Hd) as [Hbut Hc].
    eapply H; [exact HR'|exact Ef|eapply dropped_conserved; [apply Hr|exact Ha|exact Hd]|].
    intros [O1 O2]. split; [|intros b cw; rewrite Hc; apply O2]. intros c vv' Hc'.
    destruct (vms_but_from _ _ _ _ _ Hbut Hc') as (v0 & E0 & -> & _). by eapply O1.
  - eapply close_vcpu_rule; [exact HR|exact Hf|]. intros b cw vv w' s' HR' Ef Hb Hv Hd.
    destruct (dropped_vcpu_but w b cw vv w' Hv Hd) as [Hbut Hc]. pose proof (base_range (sy_files s) w (cw_vm cw)).
    eapply H; [exact HR'|exact Ef|eapply dropped_vcpu_conserved; [apply Hr|exact Hb|exact Hv|lia|exact Hd]|].
    intros [O1 O2]. split.
    + intros c vv' Hc'. destruct (vms_but_from _ _ _ _ _ Hbut Hc') as (v0 & E0 & -> & _). by eapply O1.
    + intros b' cw'. rewrite Hc. intros [_ Hb']%lookup_delete_Some. by eapply O2.
Qed.

Lemma close_files_rule l s w (Q : unit -> sys -> Prop) : resting s w -> NoDup l -> (forall f, f ∈ l <-> f ∈ sy_files s) ->
  (forall w' s', resting s' w' -> sy_files s' = [] -> conserved w w' -> (all_opened w -> all_opened w') -> Q tt s') ->
  twp t (close_files l) s Q.
Proof.
  revert s w Q. induction l as [|f l IH]; intros s w Q HR Hnd Hl H.
  - apply twp_ret. apply (H w); [exact HR| |apply conserved_refl|done].
    destruct (sy_files s) as [|f fs]; [done|]. exfalso. assert (Hf : f ∈ []) by (apply Hl; by left). by apply elem_of_nil in Hf.
  - inversion Hnd as [|? ? Hf Hnd2]; subst. apply twp_bind.
    eapply close_rule; [exact HR|apply Hl; by left|]. intros w1 s1 HR1 E1 C1 O1.
    eapply IH; [exact HR1|exact Hnd2| |].
    + intros g. rewrite E1, elem_without_file, <- Hl, elem_of_cons. split; [|naive_solver].
      intros Hg. split; [|auto]. intros ->. done.
    + intros w2 s2 HR2 E2 C2 O2. eapply H; [exact HR2|exact E2|by eapply conserved_trans|auto].
Qed.
End Rules.

Lemma nothing_left w : rest [] w -> all_opened w ->
  w_vms w = ∅ /\ w_vcpus w = ∅ /\ w_vm_hosts w = ∅ /\ w_vcpu_hosts w = ∅ /\ w_devices w = ∅ /\ w_list w = [] /\ w_bits w = 0.
Proof.
  intros Hr [O1 O2]. pose proof (r_graph _ _ Hr) as Hg.
  assert (Hc : w_vcpus w = ∅).
  { apply map_empty. intros b. apply eq_None_not_Some. intros [cw Hb].
    pose proof (r_open _ _ Hr _ _ Hb (O2 _ _ Hb)) as Hf. by apply elem_of_nil in Hf. }
  assert (Hv : w_vms w = ∅).
  { apply map_empty. intros a. apply eq_None_not_Some. intros [vv Ha]. pose proof (g_vm _ _ _ Hg _ _ Ha) as V.
    pose proof (vg_ref _ _ _ _ V) as E. pose proof (vg_pos _ _ _ _ V).
    unfold base in E. rewrite Ha, (O1 _ _ Ha), bool_decide_eq_false_2 in E by (by intros ?%elem_of_nil).
    destruct (vv_vcpus vv) as [|b l] eqn:El; [cbn in E; lia|].
    destruct (vg_vcpus _ _ _ _ V b) as (cw & Hb & _); [rewrite El; by left|]. by rewrite Hc in Hb. }
  split_and!; [done|done| | | | |].
  - apply map_empty. intros h. apply eq_None_not_Some. intros [x Hx].
    destruct (g_vm_host _ _ _ Hg _ _ Hx) as (vv & Ha & _). by rewrite Hv in Ha.
  - apply map_empty. intros h. apply eq_None_not_Some. intros [x Hx].
    destruct (g_vcpu_host _ _ _ Hg _ _ Hx) as (vv & Ha & _). by rewrite Hc in Ha.
  - apply set_eq. intros x. split; [|by intros ?%elem_of_empty]. intros Hx. pose proof (g_devices _ _ _ Hg _ Hx) as Hd. destruct x.
    + destruct Hd as (a & vv & Ha & _). by rewrite Hv in Ha.
    + destruct Hd as (a & cw & vv & Ha & _). by rewrite Hc in Ha.
  - destruct (w_list w) as [|a l] eqn:El; [done|]. destruct (proj1 (g_listed _ _ _ Hg a)) as [vv Ha]; [rewrite El; by left|].
    by rewrite Hv in Ha.
  - apply Z.bits_inj_0. intros i. apply not_true_iff_false. rewrite (g_bits _ _ _ Hg). intros (a & vv & Ha & _). by rewrite Hv in Ha.
Qed.
Section Partial.
Context (space_ok : vm_t -> Prop) {SL : SpaceLaws space_ok}.
#[local] Notation St := (St space_ok false []).
#[local] Notation twp := (twp false).
#[local] Notation resting := (resting space_ok false []).
#[local] Notation vm_ioctl := (hax_vm_ioctl G uninit info io_bitmap_a_pa io_bitmap_b_pa msr_bitmap_pa gmsr_autoload_pa).
#[local] Notation vcpu_ioctl := (hax_vcpu_ioctl G uninit same_kva asm_vmxrun run_fuel).

Lemma resting_calm s w d' : resting s w -> calm space_ok w (base (sy_files s) w) (fun _ => 1) d' -> exists w', resting (Sys d' (sy_files s)) w'.
Proof. intros [HS Hr] (w' & HS' & Hg & Hst). exists w'. split; [done|]. by eapply rest_steady. Qed.

Lemma vm_request_rule h cmd s w (Q : Z * user_data -> sys -> Prop) : resting s w -> FVm h ∈ sy_files s ->
  (forall r w' s', resting s' w' -> Q r s') -> twp (call (VmRequest h cmd)) s Q.
Proof.
  intros HR Hf H. pose proof HR as [HS Hr]. pose proof (r_graph _ _ Hr) as Hg. apply in_driver_rule.
  destruct (vm_of_device _ _ h Hr (file_device _ _ h Hr Hf)) as (a & vv & x & Hx & Ei & Ha & Eh). subst h.
  pose proof (base_file _ _ _ _ Ha Hf) as Hb. set (cr := base (sy_files s) w) in *.
  apply twp_bind. eapply get_vm_linux_rule; [exact HS|exact Hx|]. rewrite Ei.
  apply twp_bind. eapply get_vm_of_host; [exact HS|exact Hg|exact Ha|lia|]. intros d1 HS1 Hg1. cbv beta iota.
  set (vv1 := vv_set_ref (vv_ref vv + 1) vv) in *. set (w1 := with_vm a vv1 w) in *.
  assert (Ha1 : w_vms w1 !! a = Some vv1) by apply with_vm_lookup.
  apply twp_bind. change (vv_host vv) with (vv_host vv1). eapply twp_mono; [by eapply (calm_vm_request _ _ _ _ _ _ _ space_ok)|].
  intros r d2 (w2 & HS2 & Hg2 & Hst). destruct (steady_vm _ _ _ _ Hst Ha1) as (vv2 & Ha2 & Ef & Ehh).
  pose proof (vg_ref _ _ _ _ (g_vm _ _ _ Hg2 _ _ Ha2)) as Er. rewrite at_key_eq, Hb in Er.
  apply twp_bind. eapply (put_vm_again space_ok false); [exact HS2|exact Hg2|exact Ha2|rewrite at_key_eq; lia|lia|]. intros _ d3 HS3 Hg3.
  apply twp_ret. eapply (H _ (with_vm a (vv_set_ref (vv_ref vv2 - 1) vv2) w2)). split; [exact HS3|]. cbn [sy_files].
  eapply rest_steady; [exact Hr| |].
  - eapply (steady_trans _ w1); [apply steady_same; [|done]; by apply (vm_sig_insert a vv vv1)|].
    eapply (steady_trans _ w2); [exact Hst|]. apply steady_same; [|done]. by eapply (vm_sig_insert a vv2).
  - apply (graph_ext _ _ _ Hg3); [|done]. intros c _. unfold at_key. fold cr. repeat case_decide; subst; lia.
Qed.
Lemma vcpu_request_rule h cmd s w (Q : Z * user_data -> sys -> Prop) : resting s w -> FVcpu h ∈ sy_files s ->
  (forall r w' s', resting s' w' -> Q r s') -> twp (call (VcpuRequest h cmd)) s Q.
Proof.
  intros HR Hf H. pose proof HR as [HS Hr]. pose proof (r_graph _ _ Hr) as Hg. apply in_driver_rule.
  destruct (file_vcpu_device _ _ h Hr Hf) as [x Hx]. destruct (host_vcpu _ _ _ _ _ Hg Hx) as (b & cw & vv & n & y & Ex & Hb & Hv & Eh & _).
  apply twp_bind. eapply get_vcpu_of_host; [exact HS|exact Hg|exact Hx|exact Ex|exact Hb|exact Hv|lia|]. intros d1 HS1 Hg1. cbv beta iota.
  set (cw1 := cw_set_ref (cw_ref cw + 1) cw) in *. set (w1 := with_vcpu b cw1 w) in *.
  assert (Hb1 : w_vcpus w1 !! b = Some cw1) by apply with_vcpu_lookup.
  apply twp_bind. eapply twp_mono; [by eapply (calm_vcpu_request _ _ _ _ _ space_ok)|].
  intros r d2 (w2 & HS2 & Hg2 & Hst). destruct (steady_vcpu _ _ _ _ Hst Hb1) as (cw2 & Hb2 & Ef & Ehh).
  apply twp_bind. eapply (put_vcpu_again space_ok false); [exact HS2|exact Hg2|exact Hb2|rewrite at_key_eq; lia|]. intros _ d3 HS3 Hg3.
  apply twp_ret. eapply (H _ (with_vcpu b (cw_set_ref (cw_ref cw2 - 1) cw2) w2)). split; [exact HS3|]. cbn [sy_files].
  eapply rest_steady; [exact Hr| |].
  - eapply (steady_trans _ w1); [apply steady_same; [done|]; by apply (vcpu_sig_insert b cw cw1)|].
    eapply (steady_trans _ w2); [exact Hst|]. apply steady_same; [done|]. by eapply (vcpu_sig_insert b cw2).
  - apply (graph_ext _ _ _ Hg3); [done|]. intros c _. unfold at_key. repeat case_decide; subst; lia.
Qed.

Lemma call_rule c s w : resting s w -> admissible s c -> twp (call c) s (fun _ s' => exists w', resting s' w').
Proof.
  intros HR Hc. pose proof HR as [HS Hr]. destruct c; cbn [admissible] in Hc.
  - apply in_driver_rule. eapply twp_mono; [by eapply (calm_create_vm space_ok)|]. intros r d' Hd. by eapply resting_calm.
  - eapply (open_vm_rule space_ok false); [exact HR|destruct HS as [<- _]; exact Hc|]. intros ret a vv s' HR' _. by eexists.
  - eapply (close_vm_rule space_ok false); [exact HR|exact Hc|]. intros a vv w' s' HR' _ _ _. by eexists.
  - eapply vm_request_rule; [exact HR|exact Hc|]. intros r w' s' HR'. by eexists.
  - eapply (open_vcpu_rule space_ok false); [exact HR|destruct HS as [<- _]; exact Hc|]. intros ret a vv s' HR' _. by eexists.
  - eapply (close_vcpu_rule space_ok false); [exact HR|exact Hc|]. intros b cw vv w' s' HR' _ _ _ _. by eexists.
  - eapply vcpu_request_rule; [exact HR|exact Hc|]. intros r w' s' HR'. by eexists.
Qed.
End Partial.

#[local] Notation reaches := (reachable G uninit info io_bitmap_a_pa io_bitmap_b_pa msr_bitmap_pa gmsr_autoload_pa
  same_kva asm_vmxrun run_fuel).
Definition at_rest s : Prop := rest (sy_files s) (view_of (sy_driver s)).
Lemma reachable_at_rest s0 s : at_rest s0 -> reaches s0 s -> at_rest s.
Proof.
  intros H0. induction 1 as [|s c r s' Hr IH Hc Hrun]; [done|].
  assert (HR : resting own_ok false [] s (view_of (sy_driver s))) by (split; [by split|exact IH]).
  pose proof (twp_run _ _ _ _ _ _ (call_rule own_ok c s _ HR Hc) Hrun) as (w' & [<- _] & Hr'). exact Hr'.
Qed.
(** A driver without VMs. *)
Record idle (d : driver) : Prop := {
  id_next : 0 < h_next (dv_heap d);
  id_vms : dv_vms d = ∅; id_vcpus : dv_vcpus d = ∅; id_vm_hosts : dv_vm_hosts d = ∅; id_vcpu_hosts : dv_vcpu_hosts d = ∅;
  id_devices : dv_devices d = ∅; id_list : dv_vmlist d = []; id_bits : dv_vm_mid_bits d = 0;
}.
Lemma idle_at_rest d : idle d -> at_rest (Sys d []).
Proof.
  intros [I1 I2 I3 I4 I5 I6 I7 I8]. unfold at_rest. cbn [sy_files sy_driver].
  assert (E : view_of d = View (h_live (dv_heap d)) (h_next (dv_heap d)) 0 [] ∅ ∅ ∅ ∅ ∅)
    by (unfold view_of; by rewrite I2, I3, I4, I5, I6, I7, I8, !fmap_empty).
  rewrite E. split; [|by intros h ?%elem_of_nil|by intros h ?%elem_of_nil|by intros b cw].
  split; cbn [w_live w_next w_bits w_list w_vms w_vcpus w_vm_hosts w_vcpu_hosts w_devices]; try done.
  - unfold owned. cbn [w_vms w_vm_hosts w_vcpus w_vcpu_hosts]. rewrite !msum_empty. clear. multiset_solver.
  - split_and!; intros a; rewrite lookup_empty; by intros [].
  - constructor.
  - intros a. rewrite lookup_empty. split; [by intros ?%elem_of_nil|by intros []].
  - intros i. rewrite Z.testbit_0_l. split; [done|]. intros (a & vv & Ha & _). by rewrite lookup_empty in Ha.
Qed.
Definition is_open_or_close (c : user_call) : Prop :=
  match c with OpenVm _ | CloseVm _ | OpenVcpu _ | CloseVcpu _ => True | _ => False end.

(** ** Theorems *)

(** C5. At rest: in every state that calls of user space reach, the objects of the driver are
    consistent.  What VMs, virtual CPUs, their devices and their names own is allocated, and no two
    of them own the same memory; the list of VMs and the lists of virtual CPUs hold exactly the
    objects that exist; numbers, devices and VPIDs belong to one object; the reference counts are
    those of the open files and of the virtual CPUs; and the bitmap of VM numbers has the bits of
    the VMs that exist. *)
Theorem reachable_rest d s : idle d -> reaches (Sys d []) s -> at_rest s.
Proof. intros Hd Hr. eapply reachable_at_rest; [by apply idle_at_rest|exact Hr]. Qed.

Lemma resting_ok s : at_rest s -> spaces_ok own_ok (sy_driver s) ->
  resting own_ok true (dv_leaked (sy_driver s)) s (view_of (sy_driver s)).
Proof. intros Hr Hs. split; [by split|exact Hr]. Qed.

(** C4. No use after free: opening and closing the device of a VM or of a virtual CPU returns,
    whichever files are open.  No object is used or freed after it has been freed, nothing is
    freed that is not allocated, and the result is a consistent state again. *)
Theorem open_close_safe s c : at_rest s -> spaces_ok own_ok (sy_driver s) -> admissible s c -> is_open_or_close c ->
  exists r s', call c s = Some (r, s') /\ at_rest s' /\ spaces_ok own_ok (sy_driver s').
Proof.
  intros Hr Hs Hc Ho. pose proof (resting_ok s Hr Hs) as HR.
  assert (H : twp true (call c) s (fun _ s' => exists w', resting own_ok true (dv_leaked (sy_driver s)) s' w')).
  { destruct c; try done; cbn [admissible] in Hc.
    - eapply (open_vm_rule own_ok true); [exact HR|exact Hc|]. intros ret a vv s' HR' _. by eexists.
    - eapply (close_vm_rule own_ok true); [exact HR|exact Hc|]. intros a vv w' s' HR' _ _ _. by eexists.
    - eapply (open_vcpu_rule own_ok true); [exact HR|exact Hc|]. intros ret a vv s' HR' _. by eexists.
    - eapply (close_vcpu_rule own_ok true); [exact HR|exact Hc|]. intros b cw vv w' s' HR' _ _ _ _. by eexists. }
  apply twp_total in H as (r & s' & Hrun & w' & [[<- Hs'] Hr']). exists r, s'. split_and!; [exact Hrun|exact Hr'|by apply Hs'].
Qed.

(** C6. Nothing is left: when every VM and every virtual CPU has been opened ([all_opened]; one
    that was never opened stays), closing each file once, in any order, returns and removes all of
    them: no VM, no virtual CPU, no device and no number is left, exactly the objects of the heap
    that they owned have been freed, and no VM is released while it still has a RAM block, a slot, a
    bitmap or a page of its EPT tree ([dv_leaked] does not change). *)
Theorem close_everything s l : at_rest s -> spaces_ok own_ok (sy_driver s) -> all_opened (view_of (sy_driver s)) ->
  NoDup l -> (forall f, f ∈ l <-> f ∈ sy_files s) ->
  exists s', close_files l s = Some (tt, s') /\ sy_files s' = [] /\
    let d := sy_driver s' in dv_vms d = ∅ /\ dv_vcpus d = ∅ /\ dv_vm_hosts d = ∅ /\ dv_vcpu_hosts d = ∅ /\ dv_devices d = ∅ /\
    dv_vmlist d = [] /\ dv_vm_mid_bits d = 0 /\
    h_live (dv_heap (sy_driver s)) = owned (view_of (sy_driver s)) ⊎ h_live (dv_heap d) /\
    dv_leaked d = dv_leaked (sy_driver s).
Proof.
  intros Hr Hs Ho Hnd Hl. pose proof (resting_ok s Hr Hs) as HR.
  assert (H : twp true (close_files l) s (fun _ s' => exists w', resting own_ok true (dv_leaked (sy_driver s)) s' w' /\ sy_files s' = [] /\
    conserved (view_of (sy_driver s)) w' /\ all_opened w')).
  { eapply (close_files_rule own_ok true _); [exact HR|exact Hnd|exact Hl|]. intros w' s' HR' Hf Hc Ho'. exists w'. auto. }
  apply twp_total in H as ([] & s' & Hrun & w' & [[<- Hs'] Hr'] & Hf & Hc & Ho'). rewrite Hf in Hr'.
  destruct (nothing_left _ Hr' Ho') as (E1 & E2 & E3 & E4 & E5 & E6 & E7). exists s'. split; [exact Hrun|]. split; [exact Hf|].
  cbv zeta. split_and!; try done; [by apply fmap_empty_inv in E1|by apply fmap_empty_inv in E2| |apply (Hs' eq_refl)].
  assert (Eo : owned (view_of (sy_driver s')) = ∅)
    by (unfold owned; rewrite E1, E2, E3, E4, !msum_empty; clear; multiset_solver).
  unfold conserved in Hc. rewrite Eo in Hc. cbn [w_live view_of] in Hc. revert Hc. clear. generalize (owned (view_of (sy_driver s))), (h_live (dv_heap (sy_driver s))), (h_live (dv_heap (sy_driver s'))).
  clear. intros. multiset_solver.
Qed.

(** C16. Reference counts: a VM is referenced by each of its virtual CPUs, and by its file, or, as
    long as it has not been opened, by its creation; a virtual CPU has one reference.  A count
    never reaches 0 while the object exists. *)
Theorem reference_counts d s a o : idle d -> reaches (Sys d []) s -> dv_vms (sy_driver s) !! a = Some o ->
  vo_ref_count o = (if (Z.testbit (vo_flags o) VM_STATE_FLAGS_OPENED && negb (bool_decide (FVm (vo_vm_host o) ∈ sy_files s)))%bool then 0 else 1)
    + Z.of_nat (length (vo_vcpu_list o)) /\
  0 < vo_ref_count o /\
  (forall b, b ∈ vo_vcpu_list o <-> exists c, dv_vcpus (sy_driver s) !! b = Some c /\ co_vm c = a) /\
  (forall b c, dv_vcpus (sy_driver s) !! b = Some c -> co_ref_count c = 1).
Proof.
  intros Hd Hr Ha. pose proof (reachable_at_rest _ _ (idle_at_rest d Hd) Hr) as Hrest. pose proof (r_graph _ _ Hrest) as Hg.
  set (w := view_of (sy_driver s)) in *.
  assert (Hv : w_vms w !! a = Some (vm_view_of o)) by (unfold w; cbn; by rewrite lookup_fmap, Ha).
  assert (Hcv : forall b c, dv_vcpus (sy_driver s) !! b = Some c -> w_vcpus w !! b = Some (vcpu_view_of c))
    by (intros b c Hb; unfold w; cbn; by rewrite lookup_fmap, Hb).
  pose proof (g_vm _ _ _ Hg _ _ Hv) as V. split; [|split; [exact (vg_pos _ _ _ _ V)|split]].
  - pose proof (vg_ref _ _ _ _ V) as E. unfold base in E. rewrite Hv in E. exact E.
  - intros b. split.
    + intros Hb. destruct (vg_vcpus _ _ _ _ V b Hb) as (cw & Hw & Em). unfold w in Hw. cbn in Hw. rewrite lookup_fmap in Hw.
      destruct (dv_vcpus (sy_driver s) !! b) as [c|]; [|done]. injection Hw as <-. by exists c.
    + intros (c & Hb & Em). destruct (g_vcpu _ _ _ Hg _ _ (Hcv b c Hb)) as (vv & Hvv & C).
      change (cw_vm (vcpu_view_of c)) with (co_vm c) in Hvv. rewrite Em, Hv in Hvv. injection Hvv as <-. exact (cg_listed _ _ _ _ _ C).
  - intros b c Hb. destruct (g_vcpu _ _ _ Hg _ _ (Hcv b c Hb)) as (vv & Hvv & C). exact (cg_ref _ _ _ _ _ C).
Qed.

(** C17. VPIDs: those of virtual CPUs are 16 bits wide, and no two virtual CPUs, of one VM or
    of different ones, have the same VPID, unless it is 0: that of one that got none. *)
Theorem vpids_unique d s b b' c c' : idle d -> reaches (Sys d []) s ->
  dv_vcpus (sy_driver s) !! b = Some c -> dv_vcpus (sy_driver s) !! b' = Some c' -> b <> b' ->
  0 <= co_vpid c < 2 ^ 16 /\ (co_vpid c <> 0 -> co_vpid c <> co_vpid c').
Proof.
  intros Hd Hr Hb Hb' Hne. pose proof (r_graph _ _ (reachable_at_rest _ _ (idle_at_rest d Hd) Hr)) as Hg.
  set (w := view_of (sy_driver s)) in *.
  assert (Hw : w_vcpus w !! b = Some (vcpu_view_of c)) by (unfold w; cbn; by rewrite lookup_fmap, Hb).
  assert (Hw' : w_vcpus w !! b' = Some (vcpu_view_of c')) by (unfold w; cbn; by rewrite lookup_fmap, Hb').
  destruct (g_vcpu _ _ _ Hg _ _ Hw) as (vv & Hv & C). pose proof (vg_id _ _ _ _ (g_vm _ _ _ Hg _ _ Hv)) as Hi.
  unfold HAX_MAX_VMS in Hi. split.
  - destruct (cg_vpid _ _ _ _ _ C) as [E|(bit & Hbit & _ & E)]; cbn [cw_vpid vcpu_view_of] in E; unfold VPID_SEED_BITS in *; lia.
  - intros H0 E. apply Hne. exact (g_vpids _ _ _ Hg _ _ _ _ Hw Hw' H0 E).
Qed.
End Calls.

(** ** An example

    A driver on the processor of the other examples; its memory starts at 0x1000. *)
Module VmDemo.
#[local] Instance demo_alloc : AllocHost := { host_alloc k h := (true, h) }.
#[local] Instance demo_linux : LinuxHost := {
  vm_mmap size h := (0x7f0000, h);
  get_user_pages_fast uva n h := (n, h);
  vmap_ok h := (true, h);
  misc_register_result h := (0, h);
}.
#[local] Instance demo_copy : UserCopy := { copy_from_user h := (false, h); copy_to_user h := (false, h) }.
#[local] Notation demo_call := (sys_call demo_globals_hax no_args demo_info 0x7000 0x8000 0x9000 0xa000 Z.eqb halting_guest 1).
#[local] Notation demo_reaches := (reachable demo_globals_hax no_args demo_info 0x7000 0x8000 0x9000 0xa000 Z.eqb halting_guest 1).
#[local] Notation demo_close := (close_files demo_globals_hax no_args demo_info 0x7000 0x8000 0x9000 0xa000 Z.eqb halting_guest 1).

Definition demo_driver : driver :=
  Driver (Heap ∅ 0x1000 ([] : hstate)) 0x100 0 (HaxT true true true true 0 0 0 0 0 0 0 0 0) [] ∅ ∅ ∅ ∅ ∅ ∅
    (cv_cpu (demo_vcpu 0)) true demo_globals ept_cap_WB [] ∅ [].
Lemma demo_idle : idle demo_driver.
Proof. by split. Qed.

#[local] Instance admissible_dec s c : Decision (admissible s c).
Proof. destruct c; cbn [admissible]; apply _. Defined.
(** A list of calls, none of them inadmissible. *)
Fixpoint demo_calls (l : list user_call) (s : sys) : option sys :=
  match l with
  | [] => Some s
  | c :: l =>
      if bool_decide (admissible s c) then
        match demo_call c s with Some (_, s') => demo_calls l s' | None => None end
      else None
  end.
Lemma demo_calls_reach l s0 s s' : demo_reaches s0 s -> demo_calls l s = Some s' -> demo_reaches s0 s'.
Proof.
  revert s. induction l as [|c l IH]; intros s Hs H; cbn [demo_calls] in H; [by injection H as <-|].
  destruct (bool_decide (admissible s c)) eqn:Hc; [|done]. apply bool_decide_eq_true in Hc.
  destruct (demo_call c s) as [[r s1]|] eqn:Hr; [|done]. eapply IH; [|exact H]. by eapply reach_call.
Qed.

(** A VM with two virtual CPUs.  The device of the VM is at 4099, those of the virtual CPUs are at
    4113 and 4127; the VM is at 4096 and its virtual CPUs at 4101 and 4115. *)
Definition demo_setup : list user_call :=
  [CreateVm; OpenVm 4099; VmRequest 4099 (IocVcpuCreate 0); VmRequest 4099 (IocVcpuCreate 1); OpenVcpu 4113; OpenVcpu 4127].
Definition demo_s : sys := default (Sys demo_driver []) (demo_calls demo_setup (Sys demo_driver [])).
Lemma demo_reached : demo_reaches (Sys demo_driver []) demo_s.
Proof.
  assert (H : (if demo_calls demo_setup (Sys demo_driver []) then true else false) = true) by (vm_compute; reflexivity).
  apply (demo_calls_reach demo_setup (Sys demo_driver []) (Sys demo_driver [])); [constructor|]. unfold demo_s.
  by destruct (demo_calls demo_setup (Sys demo_driver [])).
Qed.

Lemma empty_space_ok v : gs_memslot_list (vm_gpa_space v) = [] -> gs_ramblock_list (vm_gpa_space v) = [] ->
  0 < gs_next_addr (vm_gpa_space v) -> own_ok v.
Proof.
  intros E E' Hn. unfold own_ok, own_inv. rewrite E. split; [done|split; rewrite ?E'|intros p; by rewrite E'|constructor|constructor|apply evo_refl].
  - split; [constructor|constructor|constructor].
  - constructor.
  - done.
Qed.

Definition all_of {A} (P : A -> bool) (m : gmap Z A) : bool := forallb (fun x => P x.2) (map_to_list m).
Lemma all_of_lookup {A} (P : A -> bool) m k x : all_of P m = true -> m !! k = Some x -> P x = true.
Proof. intros H Hk. apply (proj1 (forallb_forall _ _) H (k, x)), list_elem_of_In, elem_of_map_to_list, Hk. Qed.
Definition empty_space (o : vm_obj) : bool :=
  let g := vm_gpa_space (vo_vm o) in
  (bool_decide (gs_memslot_list g = []) && bool_decide (gs_ramblock_list g = []) && (0 <? gs_next_addr g))%bool.
Definition no_fetch (c : vcpu_obj) : bool := bool_decide (mf_kva (mv_mmio_fetch (mmio (co_vcpu c))) = None).
Definition vm_opened (o : vm_obj) : bool := Z.testbit (vo_flags o) VM_STATE_FLAGS_OPENED.
Lemma demo_spaces : spaces_ok own_ok (sy_driver demo_s).
Proof.
  assert (H : all_of empty_space (dv_vms (sy_driver demo_s)) = true) by (vm_compute; reflexivity).
  assert (H' : all_of no_fetch (dv_vcpus (sy_driver demo_s)) = true) by (vm_compute; reflexivity).
  split.
  - intros a o Ha. pose proof (all_of_lookup _ _ _ _ H Ha) as E. unfold empty_space in E.
    rewrite !andb_true_iff, !bool_decide_eq_true, Z.ltb_lt in E. destruct E as [[E1 E2] E3]. by apply empty_space_ok.
  - intros b c Hb. pose proof (all_of_lookup _ _ _ _ H' Hb) as E. apply bool_decide_eq_true in E. exact (fun h => False_ind _ (h E)).
Qed.
Lemma demo_opened : all_opened (view_of (sy_driver demo_s)).
Proof.
  assert (H : all_of (fun o => opened_bit (vo_flags o)) (dv_vms (sy_driver demo_s)) = true) by (vm_compute; reflexivity).
  assert (H' : all_of (fun c => opened_bit (co_flags c)) (dv_vcpus (sy_driver demo_s)) = true) by (vm_compute; reflexivity).
  split; [intros a vv|intros b cw]; cbn [w_vms w_vcpus view_of]; rewrite lookup_fmap.
  - destruct (dv_vms (sy_driver demo_s) !! a) as [o|] eqn:Ha; [|done]. intros [= <-]. exact (all_of_lookup _ _ _ _ H Ha).
  - destruct (dv_vcpus (sy_driver demo_s) !! b) as [c|] eqn:Hb; [|done]. intros [= <-]. exact (all_of_lookup _ _ _ _ H' Hb).
Qed.
Lemma demo_rest : at_rest demo_s.
Proof. eapply reachable_at_rest; [exact (idle_at_rest _ demo_idle)|exact demo_reached]. Qed.
Lemma demo_files : sy_files demo_s = [FVcpu 4127; FVcpu 4113; FVm 4099].
Proof. vm_compute. reflexivity. Qed.

Lemma reachable_rest_witness : dv_vmlist (sy_driver demo_s) = [4096] /\ at_rest demo_s.
Proof. split; [vm_compute; reflexivity|]. exact (reachable_rest _ _ _ _ _ _ _ _ _ _ demo_driver demo_s demo_idle demo_reached). Defined.

(** The VM is closed before its virtual CPUs. *)
Lemma open_close_safe_witness :
  admissible demo_s (CloseVm 4099) /\
  exists r s', demo_call (CloseVm 4099) demo_s = Some (r, s') /\ at_rest s' /\ spaces_ok own_ok (sy_driver s').
Proof.
  assert (Ha : admissible demo_s (CloseVm 4099)) by (cbn [admissible]; rewrite demo_files; by repeat constructor).
  split; [exact Ha|].
  exact (open_close_safe _ _ _ _ _ _ _ _ _ _ demo_s (CloseVm 4099) demo_rest demo_spaces Ha I).
Defined.

Lemma close_everything_witness :
  exists s', demo_close [FVcpu 4127; FVm 4099; FVcpu 4113] demo_s = Some (tt, s') /\ sy_files s' = [] /\
    dv_vms (sy_driver s') = ∅ /\ dv_vcpus (sy_driver s') = ∅ /\ dv_vm_mid_bits (sy_driver s') = 0.
Proof.
  destruct (close_everything demo_globals_hax no_args demo_info 0x7000 0x8000 0x9000 0xa000 Z.eqb halting_guest 1
    demo_s [FVcpu 4127; FVm 4099; FVcpu 4113] demo_rest demo_spaces demo_opened) as (s' & Hrun & Hf & E1 & E2 & _ & _ & _ & _ & E3 & _).
  - apply (bool_decide_unpack _). vm_compute. exact I.
  - intros f. rewrite demo_files, !elem_of_cons. tauto.
  - exists s'. by split_and!.
Defined.

Lemma reference_counts_witness :
  (exists o, dv_vms (sy_driver demo_s) !! 4096 = Some o /\ vo_ref_count o = 3) /\
  forall b c, dv_vcpus (sy_driver demo_s) !! b = Some c -> co_ref_count c = 1.
Proof.
  destruct (dv_vms (sy_driver demo_s) !! 4096) as [o|] eqn:Ha.
  - split; [exists o; split; [reflexivity|]|].
    + destruct (reference_counts _ _ _ _ _ _ _ _ _ _ demo_driver demo_s 4096 o demo_idle demo_reached Ha) as (-> & _).
      assert (E : (fun o => (Z.testbit (vo_flags o) VM_STATE_FLAGS_OPENED, vo_vm_host o, length (vo_vcpu_list o))) <$>
        (dv_vms (sy_driver demo_s) !! 4096) = Some (true, 4099, 2%nat)) by (vm_compute; reflexivity).
      rewrite Ha in E. apply (inj Some) in E. apply pair_equal_spec in E as [[E1 E2]%pair_equal_spec E3].
      rewrite E1, E2, E3, demo_files. vm_compute. reflexivity.
    + exact (proj2 (proj2 (proj2 (reference_counts _ _ _ _ _ _ _ _ _ _ demo_driver demo_s 4096 o demo_idle demo_reached Ha)))).
  - exfalso. assert (E : bool_decide (is_Some (dv_vms (sy_driver demo_s) !! 4096)) = true) by (vm_compute; reflexivity).
    rewrite Ha in E. discriminate E.
Defined.

Lemma vpids_unique_witness : exists c c', dv_vcpus (sy_driver demo_s) !! 4101 = Some c /\
  dv_vcpus (sy_driver demo_s) !! 4115 = Some c' /\ co_vpid c <> 0 /\ co_vpid c <> co_vpid c'.
Proof.
  assert (E : co_vpid <$> dv_vcpus (sy_driver demo_s) !! 4101 = Some 1) by (vm_compute; reflexivity).
  assert (E' : bool_decide (is_Some (dv_vcpus (sy_driver demo_s) !! 4115)) = true) by (vm_compute; reflexivity).
  destruct (dv_vcpus (sy_driver demo_s) !! 4101) as [c|] eqn:Hb; [|discriminate E].
  destruct (dv_vcpus (sy_driver demo_s) !! 4115) as [c'|] eqn:Hb'; [|discriminate E'].
  assert (H0 : co_vpid c <> 0) by (injection E as ->; done).
  exists c, c'. split; [reflexivity|]. split; [reflexivity|]. split; [exact H0|].
  refine (proj2 (vpids_unique _ _ _ _ _ _ _ _ _ _ demo_driver demo_s 4101 4115 c c' demo_idle demo_reached Hb Hb' _) H0). lia.
Defined.

(** The first virtual CPU made the CPUID table of the VM, and frees it: after it is gone, a request
    that reads the table through the other virtual CPU uses memory that has been freed. *)
Definition demo_reads (l : list user_call) : option (bool * bool) :=
  let c := VcpuRequest 4127 (IocGetCpuid 1 (CpuidInfo 1 0 [])) in
  s ← demo_calls l (Sys demo_driver []);
  Some (bool_decide (admissible s c), match demo_call c s with Some _ => true | None => false end).
Example cpuid_table_dangles :
  demo_reads demo_setup = Some (true, true) /\ demo_reads (demo_setup ++ [CloseVcpu 4113]) = Some (true, false).
Proof. split; vm_compute; reflexivity. Qed.
End VmDemo.
